(* ===== verification/_CoqProject ===== *)
-Q . S2P
Prelude.v
DramSpec.v
Commands.v
Standards.v
Node.v
NodeTiming.v
NodeTree.v
Device.v
DeviceInv.v
DeviceProps.v
BankSafety.v
BankProgress.v
IssueSafety.v
Request.v
BitUtils.v
TraceFile.v
CmdTrace.v
CmdTraceProps.v
AddrMapper.v
ChannelMapper.v
Float32.v
ControllerState.v
Controller.v
Scheduler.v
Refresh.v
NodeAddr.v
HbmRefresh.v
RowPolicy.v
ControllerInit.v
GenericDdr.v
ControllerSafety.v
Hbm.v
Lpddr5.v
Controllers.v
MemSystem.v
LLC.v
LlcInv.v
LlcProps.v
InstWindow.v
LlcCheckpoint.v
Frontend.v
Core.v
SimpleO3.v
SimpleO3Safety.v
Simulation.v
TraceRun.v
LatencyThroughput.v
Bram.v
BramProps.v
CostModel.v
Bbop.v
BbopProps.v
SigmoidPim.v
Sigmoid.v
SigmoidAccuracy.v
SigmoidTop.v
TruncAdder.v
SimpleO3Props.v
ControllerTrace.v
Settle.v
ServeSafety.v
TickSafety.v
HbmSafety.v
RefreshOrder.v
Bookkeeping.v
ServeFrame.v
ActiveInv.v
LpInv.v
LpAct2.v
LpGuards.v
LpServe.v
LpSafety.v
SafeControllers.v
Progress.v
Drains.v
Liveness.v
ControllerWitness.v
HbmWitness.v
LpWitness.v
SystemProps.v
