(* ===== verification/Prelude.v ===== *)
(** * A verification of the memory simulators and arithmetic cores of the project

    The repository holds a study of computing-in-memory sigmoid hardware.  Its
    own logic lives in five places, and this library models all five:

    - Ramulator 2.1, the C++ DRAM simulator (under
      [src/additional_material/week 5-6/ramulator2-main/src/ramulator]; file
      names below are relative to it);
    - the block RAM model added to gem5 and the cost model of the in-memory
      arithmetic (under [src/additional_material/week 7-8/gem5-stable]);
    - the cost manager of Proteus for operations in memory, with the sigmoid
      programs written on it (under
      [src/additional_material/week 5-6/ramulator2-main/proteus_f6] and
      [src/additional_material/week 3-4/Proteus-main]);
    - the two sigmoid cores with their AXI wrapper ([src/16 bit Azevedo],
      [src/fast_Vaisnav16]);
    - the truncated adder with its AXI wrapper ([src/truncated_adder]).

    ** How the simulator is put together

    A _frontend_ produces requests: a trace reader, the latency-throughput
    generator, or SimpleO3 cores behind a last-level cache.  The _memory
    system_ picks a channel by address and hands the request to that
    channel's _controller_.  The controller maps the address to DRAM
    coordinates, buffers the request, and once per tick lets its _refresh
    manager_, _row policy_ and _plugins_ act, chooses a request (FRFCFS), asks
    the _device_ for the command it needs next, checks its timing, issues it,
    and retires or promotes the request.  The device is a tree of nodes that
    record when each command may be issued next, under the tables of a
    _standard_.  The main loop ticks frontend and memory system by their clock
    ratios.

    ** How code becomes definitions

    Fallible code returns [res]: a value, a thrown exception, a failed
    [assert], or undefined behaviour (an index outside a vector, a dangling
    iterator, a division by zero).  Member functions that change their object
    return the new object; a function that changes several returns them all.
    Structs are records with the names of the members, enumerations are
    inductive types, virtual functions are type classes or arguments.  A
    pointer to a tree node is its path, an iterator into a request buffer is
    a buffer and a position, an iterator into the cache's lists is a node
    identity.  Integers are [Z]; where the width matters (channel mapper,
    address slices, hardware registers, binary traces) the wrap-around is
    written out, and where a signed [int] may overflow (statistics of the
    cache and of the memory system, coordinates of the latency-throughput
    generator) the addition is [add_int], whose overflow is undefined
    behaviour.  [float] watermarks are exact single precision.

    Loops are structural recursions or folds over the container the code
    walks, so the simulators need no fuel.  The one exception is the main
    loop, [sim_run], whose fuel is the number of rounds: [trace_run_terminates]
    bounds the rounds a trace needs, and [simpleO3_never_fails] holds for
    every number of rounds in which the [int] statistics of the cache cannot
    overflow, that is below 2^31 / (2 * cores).  The ticks of
    [generic_ddr_drains] are a list of calls whose length the theorem bounds.

    ** The files

    _Shared_: this file (results, vectors, loops, the small program logic
    [ends], tactics), [BitUtils] (base/utils), [Float32], [TraceFile].

    _DRAM_ (dram/): [DramSpec] (dram_spec, registry), [Commands] (commands/),
    [Standards] (impl/, nine standards), [Node] (node), [Device] (device).
    [NodeTiming] and [NodeTree] give the timing state its meaning, a history
    of issued commands, and prove that update and check implement it.
    [DeviceInv], [DeviceProps], [BankSafety], [BankProgress] and [IssueSafety]
    hold the device invariant and what the device promises: exact timing
    checks, one open row per bank, progress towards an access, no undefined
    behaviour.

    _Controllers_ (controller/): [Request], [AddrMapper], [ControllerState],
    [Controller] (controller_base and scheduler), [Refresh], [RowPolicy] (row
    policies and plugins), [CmdTrace] (what plugins write), [ControllerInit],
    and the classes [GenericDdr], [Hbm], [Lpddr5] behind the interface of
    [Controllers].  [Scheduler] proves what FRFCFS chooses.  [NodeAddr] and
    [HbmRefresh] prove that refresh managers address real banks,
    [RefreshOrder] that the HBM3/4 manager refreshes them round robin.
    [ControllerTrace] proves for all classes that every issued command obeys
    every timing constraint and that the command bus is exclusive;
    [Bookkeeping] that no response is lost or duplicated, that the counters
    balance and that the write-forwarding set is exact.  [ControllerSafety],
    [ServeSafety], [TickSafety] and [HbmSafety] build the invariant under
    which no operation fails.  [ServeFrame] (what the shared code leaves
    alone) and [ActiveInv] hold what the open row policy maintains in every
    class: an active request finds its row open and no two share a bank.  For
    LPDDR5 the invariant also ties the owners and deadlines of split
    activations to the device: [Settle] (command histories and what the
    loaded table must satisfy), [LpInv] (the invariant), [LpAct2],
    [LpGuards] (choosing), [LpServe] (issuing) and [LpSafety] (the tick,
    sending and the initial state).  [SafeControllers] is the interface the
    safety of all classes is stated against and the theorem.  [Progress],
    [Drains] and [Liveness] prove that a GenericDDR controller answers
    everything it accepted: a weighted count of its work that every served
    candidate lowers, the candidate that is always found once the commands
    are ready again, one tick, and the bound on the number of ticks.
    [CmdTraceProps] reads the command traces back.  [ControllerWitness],
    [HbmWitness] and [LpWitness] are concrete controllers.

    _Memory system_ (memory_system/): [ChannelMapper], [MemSystem], and
    [SystemProps] (routing, conservation of requests over all channels).

    _Frontends_ (frontend/, translation/): [Frontend] (interface and trace
    frontends), [LatencyThroughput], [LLC] with [LlcInv], [LlcProps] (the cache on
    its own, whose tick is what every frontend's tick does to it) and
    [LlcCheckpoint], [InstWindow], [Core], [SimpleO3] with [SimpleO3Safety]
    and [SimpleO3Props].  [Simulation] is the main loop
    (python/bindings.cpp) and [TraceRun] its termination.

    _gem5_: [Bram] and [BramProps] (src/mem/bram and bram_wrapper, with
    AbstractMemory::access),
    [CostModel] (additional_material/test_cost_model.cc).

    _Proteus_: [Bbop] (bbop_manager.c: cost tables, the choice of circuits,
    element-wise operations executed by a team of threads, statistics and the
    output file), [BbopProps] (parallel regions and charges) and [SigmoidPim]
    (sigmoid_compare_pim.c, f6_sigmoid.c, f6_daftpum_wrapper.c).  Arrays are
    positions in a store, so that operands may be the same array; the
    distribution of iterations over threads is an argument ([region]).

    _Hardware_: [Sigmoid] (the two data paths), [SigmoidAccuracy] (their
    distance from the real function 1 / (1 + exp (-x))), [SigmoidTop] (the
    AXI wrapper as clocked blocks), [TruncAdder] (the adder and its wrapper).

    ** What the theorems show

    - Refinement: the device's timing state against command histories, the
      instruction window against a bounded queue, the HBM3/4 refresh order
      against an enumeration of the banks.
    - Safety: the device, the controllers of all four classes with their
      assertions, the cache, the SimpleO3 frontend and the block RAM model do
      not fail on valid input; every exception that remains is named in its
      theorem: a full priority buffer, an [int] counter at its maximum, a block
      RAM whose address range starts beyond its size.
    - Invariants: one open row, exact write forwarding, balanced counters,
      responses exactly once per accepted request, per controller and over
      the whole memory system.
    - Functional behaviour: scheduling, routing, eviction, the wrappers'
      results, the selections of the cost model, the results and the output
      file of the in-memory sigmoid programs.
    - Round trips: address mappers, channel interleaving, trace files,
      command traces, cache checkpoints.
    - Equivalence and bounds: the schedule of the main loop, the truncated
      adder, the error of the sigmoid approximations, the independence of
      in-memory operations from their parallel execution, the order of the
      latencies they are charged.
    - Termination and liveness: trace runs, progress of an access, and the
      GenericDDR controller with the open row policy: when the refresh period
      leaves room for the work of a refresh, everything accepted has been
      answered after a number of ticks computed from the timing table, the
      requests held and the period ([drain_bound]).
    - Behaviour that is not what the code means to do is proved too: a core
      that a lost wake-up blocks for ever and an aliasing configuration of the
      cache, a block RAM that stops answering and that fails an assertion in
      the documented address range, a wrapper that returns the previous result, a count of
      active requests that is not returned ([active_count_leaks]), an
      in-memory division that adds, a reduction whose sum is 0, and a program
      without a defined result.

    Hypotheses on data: [spec_ok] and [org_ok] bound the tables a
    configuration loads (timing values not negative, sizes between 1 and
    2^30); [valid_request] asks for an address inside the mapper's range and
    a known source.  Both are decidable on a concrete configuration and met by
    the ones in the witness files.  [lp_config] is what the LPDDR5 controller
    assumes of its timing table; the LPDDR5-6400 preset meets it.
    [energies_fit] says that the energies of a circuit, which are computed in
    [double], convert to [int].  [proper_request] says that gem5's memory has
    no assertion or panic against a packet (its command and its range, not the
    test of the wrapper).

    ** Not modelled

    Component registration, YAML and Python conversion, logging and printing
    (glue without state the components read back); random draws of the
    latency-throughput generator, [double] arithmetic of the cost models, the
    bytes and the locked addresses of gem5's AbstractMemory (parameters of the
    definitions that use them); the gem5 simulator itself, generated board
    start-up code, the benchmark kernels of Proteus and AritPIM, the scalar
    float version in f6_sigmoid.c and the demonstrations.  The LPDDR5
    controller is modelled with every row policy; that its assertions never
    fail is proved for the open one.  Liveness is proved for standards with
    one activation command, the open row policy and a periodic refresh manager
    or none. *)
From Stdlib Require Import ZArith Lia.
From stdpp Require Import prelude gmap strings.

Declare Scope cpp_scope.
Delimit Scope cpp_scope with cpp.
Open Scope Z_scope.

(** ** Error results

    C++ code leaves a function in one of three abnormal ways: an exception
    is thrown, an [assert] fails, or the language gives the operation no
    meaning at all (an index outside a vector, a shift by a negative
    amount, an integer division by zero).  [res] is the result of a
    fallible operation. *)
Inductive err :=
| Throw (what : string)
| AssertFail
| UndefinedBehaviour.

Inductive res (A : Type) :=
| Ok (a : A)
| Err (e : err).
Arguments Ok {_} _.
Arguments Err {_} _.

#[export] Instance res_ret : MRet res := fun A a => Ok a.
#[export] Instance res_bind : MBind res :=
  fun A B f m => match m with Ok a => f a | Err e => Err e end.
#[export] Instance res_fmap : FMap res :=
  fun A B f m => match m with Ok a => Ok (f a) | Err e => Err e end.

Definition is_Ok {A} (m : res A) : Prop := exists a, m = Ok a.

(** The value of a computation that is known to succeed, with a default. *)
Definition from_res {A} (d : A) (m : res A) : A :=
  match m with Ok a => a | Err _ => d end.

Definition okb {A} (m : res A) : bool := match m with Ok _ => true | Err _ => false end.

Lemma from_res_Ok {A} (d : A) (m : res A) : okb m = true -> m = Ok (from_res d m).
Proof. by destruct m. Qed.

Definition of_option {A} (e : err) (o : option A) : res A :=
  match o with Some a => Ok a | None => Err e end.

Definition assert_ (b : bool) : res unit := if b then Ok tt else Err AssertFail.

Lemma bind_Ok_inv {A B} (f : A -> res B) (m : res A) (b : B) :
  (m ≫= f) = Ok b -> exists a, m = Ok a /\ f a = Ok b.
Proof. destruct m as [a|e]; cbn; [eauto | discriminate]. Qed.

Lemma fmap_Ok_inv {A B} (f : A -> B) (m : res A) (b : B) :
  (f <$> m) = Ok b -> exists a, m = Ok a /\ f a = b.
Proof. destruct m as [a|e]; cbn; intros H; [injection H; eauto | discriminate]. Qed.

(** [inv_res] turns every hypothesis [x ← m; k = Ok b] into the equations
    of its steps. *)
Ltac inv_res :=
  repeat match goal with
  | H : (_ ≫= _) = Ok _ |- _ =>
      let a := fresh "a" in let E := fresh "E" in
      apply bind_Ok_inv in H; destruct H as [a [E H]]
  | H : (_ <$> _) = Ok _ |- _ =>
      let a := fresh "a" in let E := fresh "E" in
      apply fmap_Ok_inv in H; destruct H as [a [E H]]
  | H : Ok _ = Ok _ |- _ => injection H as H
  | H : mret _ = Ok _ |- _ => injection H as H
  | H : Err _ = Ok _ |- _ => discriminate H
  | H : Ok _ = Err _ |- _ => discriminate H
  | H : context [match ?p with pair _ _ => _ end] |- _ =>
      is_var p; destruct p
  end.

(** [dcase] splits on the condition of the first [if] in a hypothesis. *)
Ltac dcase H :=
  match type of H with
  | context [if ?b then _ else _] => let E := fresh "Ec" in destruct b eqn:E
  end.

(** [bool_hyps] replaces boolean comparisons in hypotheses by propositions. *)
Ltac bool_hyps :=
  repeat match goal with
  | H : (_ =? _) = true |- _ => apply Z.eqb_eq in H
  | H : (_ =? _) = false |- _ => apply Z.eqb_neq in H
  | H : (_ <? _) = true |- _ => apply Z.ltb_lt in H
  | H : (_ <? _) = false |- _ => apply Z.ltb_ge in H
  | H : (_ <=? _) = true |- _ => apply Z.leb_le in H
  | H : (_ <=? _) = false |- _ => apply Z.leb_gt in H
  | H : negb _ = true |- _ => apply negb_true_iff in H
  | H : negb _ = false |- _ => apply negb_false_iff in H
  | H : (_ && _)%bool = true |- _ => apply andb_true_iff in H; destruct H
  | H : (_ || _)%bool = false |- _ => apply orb_false_iff in H; destruct H
  end.

(** [closed_elem] settles membership of a closed term in a closed list, in the
    goal or against a hypothesis. *)
Ltac closed_elem :=
  first [ solve [apply (bool_decide_unpack _); vm_compute; exact I]
        | match goal with
          | H : ?x ∉ ?l |- _ => exfalso; apply H; solve [apply (bool_decide_unpack _); vm_compute; exact I]
          | H : ?x ∈ ?l |- _ => exfalso;
              assert (x ∉ l) as N by (apply (bool_decide_unpack _); vm_compute; exact I); exact (N H)
          end ].

(** ** Vectors indexed by a C++ [int]

    [std::vector] and [std::deque] subscripts outside the container are
    undefined behaviour. *)
Definition zlookup {A} (l : list A) (i : Z) : option A :=
  if i <? 0 then None else l !! Z.to_nat i.

Definition vget {A} (l : list A) (i : Z) : res A :=
  of_option UndefinedBehaviour (zlookup l i).

Definition vset {A} (l : list A) (i : Z) (x : A) : res (list A) :=
  match zlookup l i with
  | Some _ => Ok (<[Z.to_nat i := x]> l)
  | None => Err UndefinedBehaviour
  end.

Notation "l .[ i ]" := (vget l i)
  (at level 1, format "l .[ i ]") : cpp_scope.

Lemma vget_Ok {A} (l : list A) (i : Z) (x : A) :
  vget l i = Ok x <-> 0 <= i /\ l !! Z.to_nat i = Some x.
Proof.
  unfold vget, zlookup. destruct (Z.ltb_spec i 0); cbn.
  - split; [discriminate | lia].
  - destruct (l !! Z.to_nat i); cbn; split; try congruence.
    + intros [= ->]. auto.
    + intros [_ [= ->]]. auto.
    + intros [_ ?]. congruence.
Qed.

Lemma vget_nat {A} (l : list A) (n : nat) (x : A) :
  vget l (Z.of_nat n) = Ok x <-> l !! n = Some x.
Proof. rewrite vget_Ok, Nat2Z.id. intuition lia. Qed.

Lemma vget_is_Ok {A} (l : list A) (i : Z) :
  is_Ok (vget l i) <-> 0 <= i < Z.of_nat (length l).
Proof.
  unfold is_Ok. setoid_rewrite vget_Ok. split.
  - intros (x & Hi & Hx). apply lookup_lt_Some in Hx. lia.
  - intros [Hi Hl]. destruct (lookup_lt_is_Some_2 l (Z.to_nat i)) as [x Hx]; [lia|].
    exists x. auto.
Qed.

Lemma vset_Ok {A} (l l' : list A) (i : Z) (x : A) :
  vset l i x = Ok l' <->
  0 <= i < Z.of_nat (length l) /\ l' = <[Z.to_nat i := x]> l.
Proof.
  unfold vset, zlookup. destruct (Z.ltb_spec i 0); cbn.
  - split; [discriminate | lia].
  - destruct (l !! Z.to_nat i) eqn:E.
    + apply lookup_lt_Some in E. split; [intros [= <-]; split; [lia|done] | intros [_ ->]; done].
    + apply lookup_ge_None in E. split; [discriminate | intros [? _]; lia].
Qed.

Lemma vset_length {A} (l l' : list A) (i : Z) (x : A) :
  vset l i x = Ok l' -> length l' = length l.
Proof. intros [_ ->]%vset_Ok. apply length_insert. Qed.

Lemma vget_vset_eq {A} (l l' : list A) (i : Z) (x : A) :
  vset l i x = Ok l' -> vget l' i = Ok x.
Proof.
  intros [Hi ->]%vset_Ok. apply vget_Ok. split; [lia|].
  apply list_lookup_insert_eq. lia.
Qed.

Lemma vget_vset_ne {A} (l l' : list A) (i j : Z) (x : A) :
  vset l i x = Ok l' -> i <> j -> vget l' j = vget l j.
Proof.
  intros [Hi ->]%vset_Ok Hne. unfold vget, zlookup.
  destruct (Z.ltb_spec j 0); [done|]. rewrite list_lookup_insert_ne by lia. done.
Qed.

(** ** Loops over a container that may fail *)
Fixpoint foldM {A B} (f : B -> A -> res B) (l : list A) (b : B) : res B :=
  match l with
  | [] => Ok b
  | x :: l => b' ← f b x; foldM f l b'
  end.

Lemma foldM_app {A B} (f : B -> A -> res B) (l k : list A) (b : B) :
  foldM f (l ++ k) b = (b' ← foldM f l b; foldM f k b').
Proof.
  revert b. induction l as [|x l IH]; intros b; cbn; [done|].
  destruct (f b x); cbn; auto.
Qed.

(** Rule of invariants for [foldM]. *)
Lemma foldM_inv {A B} (P : B -> Prop) (f : B -> A -> res B) (l : list A) (b b' : B) :
  (forall x b b', In x l -> P b -> f b x = Ok b' -> P b') ->
  P b -> foldM f l b = Ok b' -> P b'.
Proof.
  revert b. induction l as [|x l IH]; cbn; intros b Hf Hb H.
  - inv_res. by subst.
  - inv_res. eapply IH; [| |eassumption]; eauto.
Qed.

(** The invariant of a counting loop may mention the counter. *)
Lemma foldM_seq_inv {B} (P : nat -> B -> Prop) (f : B -> nat -> res B) (n : nat) (b b' : B) :
  (forall k b b', (k < n)%nat -> P k b -> f b k = Ok b' -> P (S k) b') ->
  P 0%nat b -> foldM f (seq 0 n) b = Ok b' -> P n b'.
Proof.
  intros Hf. cut (forall m o b, (o + m <= n)%nat -> P o b -> foldM f (seq o m) b = Ok b' -> P (o + m)%nat b').
  { intros Hc H0 H. apply (Hc n 0%nat b); [lia|done..]. }
  induction m as [|m IH]; intros o b0 Hle Hb H; cbn in H.
  - injection H as <-. by rewrite Nat.add_0_r.
  - apply bind_Ok_inv in H as (b1 & H1 & H). rewrite Nat.add_succ_r, <- Nat.add_succ_l.
    apply (IH (S o) b1); [lia| |done]. apply (Hf o b0); [lia|done..].
Qed.

(** Total correctness of [foldM]: a body that succeeds under the invariant
    gives a loop that succeeds. *)
Lemma foldM_total {A B} (P : B -> Prop) (f : B -> A -> res B) (l : list A) (b : B) :
  (forall x b, In x l -> P b -> exists b', f b x = Ok b' /\ P b') ->
  P b -> exists b', foldM f l b = Ok b' /\ P b'.
Proof.
  revert b. induction l as [|x l IH]; cbn; intros b Hf Hb.
  - eauto.
  - destruct (Hf x b) as (b1 & E & H1); [auto..|]. rewrite E. cbn.
    apply IH; auto.
Qed.

Lemma mapM_Ok {A B} (f : A -> res B) (l : list A) (k : list B) :
  mapM f l = Ok k <-> Forall2 (fun x y => f x = Ok y) l k.
Proof.
  revert k. induction l as [|x l IH]; intros k; cbn.
  - split; [intros [= <-]; constructor | intros H; by inversion H].
  - split.
    + intros H. apply bind_Ok_inv in H as (y & Hy & H).
      apply bind_Ok_inv in H as (ys & Hys & H). injection H as <-.
      constructor; [done|]. by apply IH.
    + intros H. inversion H as [|? y ? ys Hy Hys]; subst. rewrite Hy. cbn.
      rewrite (proj2 (IH ys) Hys). done.
Qed.

Lemma mapM_total {A B} (f : A -> res B) (l : list A) :
  (forall x, In x l -> is_Ok (f x)) -> is_Ok (mapM f l).
Proof.
  induction l as [|x l IH]; intros H; [by exists []|]. cbn.
  destruct (H x) as [y ->]; [by left|]. cbn.
  destruct IH as [ys ->]; [|by eexists]. intros z Hz. apply H. by right.
Qed.

(** ** A small program logic

    [ends E m Q]: the computation [m] either succeeds with a result in [Q]
    or stops with one of the errors [E].  With [E] empty it is total
    correctness. *)
Definition ends {A} (E : err -> Prop) (m : res A) (Q : A -> Prop) : Prop :=
  match m with Ok x => Q x | Err e => E e end.

Section Ends.
Context (E : err -> Prop).

Lemma ends_bind {A B} (m : res A) (f : A -> res B) Q :
  ends E m (fun x => ends E (f x) Q) -> ends E (m ≫= f) Q.
Proof. by destruct m. Qed.

Lemma ends_mono {A} (m : res A) (P Q : A -> Prop) : ends E m P -> (forall x, m = Ok x -> P x -> Q x) -> ends E m Q.
Proof. destruct m; cbn; auto. Qed.

Lemma ends_weaken {A} (E' : err -> Prop) (m : res A) Q : (forall e, E e -> E' e) -> ends E m Q -> ends E' m Q.
Proof. destruct m; cbn; auto. Qed.

Lemma ends_ok {A} (m : res A) (Q : A -> Prop) : is_Ok m -> (forall x, m = Ok x -> Q x) -> ends E m Q.
Proof. intros [x ->] H. by apply H. Qed.

Lemma ends_foldM {A B} (P : B -> Prop) (f : B -> A -> res B) (l : list A) (b : B) :
  (forall x b, x ∈ l -> P b -> ends E (f b x) P) -> P b -> ends E (foldM f l b) P.
Proof.
  revert b. induction l as [|x l IH]; intros b Hf Hb; [done|]. cbn. apply ends_bind.
  eapply ends_mono; [apply Hf; [apply list_elem_of_here|done]|]. intros b1 _ H1. apply IH; [|done].
  intros y b2 Hy. apply Hf. by apply list_elem_of_further.
Qed.

Lemma ends_seq {B} (P : nat -> B -> Prop) (f : B -> nat -> res B) (n : nat) (b : B) :
  (forall k b, (k < n)%nat -> P k b -> ends E (f b k) (P (S k))) -> P 0%nat b ->
  ends E (foldM f (seq 0 n) b) (P n).
Proof.
  intros Hf. cut (forall m o b, (o + m = n)%nat -> P o b -> ends E (foldM f (seq o m) b) (P n)).
  { intros Hc H0. by apply (Hc n 0%nat). }
  induction m as [|m IH]; intros o b0 Hle Hb; cbn; [by replace n with o by lia|].
  apply ends_bind. eapply ends_mono; [apply Hf; [lia|done]|]. intros b1 _ H1. apply IH; [lia|done].
Qed.

Lemma ends_if {A} (c : bool) (m m' : res A) (Q : A -> Prop) :
  (c = true -> ends E m Q) -> (c = false -> ends E m' Q) -> ends E (if c then m else m') Q.
Proof. destruct c; auto. Qed.
End Ends.

(** ** Machine integers *)
Definition wrap (w x : Z) : Z := x mod 2 ^ w.
Definition swrap (w x : Z) : Z := (x + 2 ^ (w - 1)) mod 2 ^ w - 2 ^ (w - 1).
Definition u32 (x : Z) : Z := wrap 32 x.
Definition u64 (x : Z) : Z := wrap 64 x.
Definition i32 (x : Z) : Z := swrap 32 x.

Lemma swrap_id w x : 0 < w -> - 2 ^ (w - 1) <= x < 2 ^ (w - 1) -> swrap w x = x.
Proof.
  intros Hw Hx. unfold swrap. rewrite Z.mod_small; [lia|].
  replace (2 ^ w) with (2 * 2 ^ (w - 1)); [lia|].
  rewrite <- Z.pow_succ_r by lia. f_equal. lia.
Qed.

Lemma wrap_id w x : 0 <= x < 2 ^ w -> wrap w x = x.
Proof. apply Z.mod_small. Qed.

Lemma i32_id x : - 2 ^ 31 <= x < 2 ^ 31 -> i32 x = x.
Proof. intros. apply swrap_id; lia. Qed.

(** [int] arithmetic: overflow, and division by 0, are undefined. *)
Definition int_res (x : Z) : res Z :=
  if (- 2 ^ 31 <=? x) && (x <? 2 ^ 31) then Ok x else Err UndefinedBehaviour.
Definition mul_int (x y : Z) : res Z := int_res (x * y).
Definition add_int (x y : Z) : res Z := int_res (x + y).
Definition rem_int (x y : Z) : res Z := if y =? 0 then Err UndefinedBehaviour else Ok (Z.rem x y).
Definition quot_int (x y : Z) : res Z := if y =? 0 then Err UndefinedBehaviour else int_res (Z.quot x y).

Lemma int_res_Ok x z : int_res x = Ok z <-> z = x /\ - 2 ^ 31 <= x < 2 ^ 31.
Proof.
  unfold int_res. destruct (Z.leb_spec (- 2 ^ 31) x), (Z.ltb_spec x (2 ^ 31)); cbn; split; try (intros [= <-]; lia); try lia.
  intros [-> _]. done.
Qed.

Lemma mul_int_Ok x y z : mul_int x y = Ok z -> z = x * y /\ - 2 ^ 31 <= x * y < 2 ^ 31.
Proof. apply int_res_Ok. Qed.

(** ** Maximum of a list of clock values *)
Definition zmax_list (b : Z) (l : list Z) : Z := foldr Z.max b l.

Lemma zmax_list_le b l x : zmax_list b l <= x <-> b <= x /\ Forall (fun y => y <= x) l.
Proof.
  induction l as [|y l IH]; cbn; [intuition auto|].
  pose proof (Z.max_lub_iff y (zmax_list b l) x) as Hm. unfold zmax_list in *.
  rewrite Forall_cons. tauto.
Qed.

(** ** Counting in lists *)
Definition count {A} (p : A -> bool) (l : list A) : nat :=
  length (List.filter p l).

Lemma count_app {A} (p : A -> bool) (l k : list A) :
  count p (l ++ k) = (count p l + count p k)%nat.
Proof. unfold count. by rewrite (List.filter_app p l k), length_app. Qed.

Lemma count_cons {A} (p : A -> bool) (x : A) (l : list A) :
  count p (x :: l) = ((if p x then 1 else 0) + count p l)%nat.
Proof. unfold count. cbn. destruct (p x); done. Qed.

(** Removing the element at a position (a [std::list::erase]). *)
Definition erase {A} (i : nat) (l : list A) : list A := delete i l.

Lemma count_erase {A} (p : A -> bool) (l : list A) (i : nat) (x : A) :
  l !! i = Some x ->
  count p l = ((if p x then 1 else 0) + count p (erase i l))%nat.
Proof.
  revert i. induction l as [|y l IH]; intros [|i] H; try discriminate.
  - cbn in H. injection H as ->. apply count_cons.
  - cbn in H. change (erase (S i) (y :: l)) with (y :: erase i l).
    rewrite !count_cons, (IH i H). lia.
Qed.

Lemma length_erase {A} (l : list A) (i : nat) (x : A) :
  l !! i = Some x -> length l = S (length (erase i l)).
Proof. intros H. unfold erase. rewrite length_delete by eauto. apply lookup_lt_Some in H. lia. Qed.

Lemma elem_of_erase {A} (l : list A) (i : nat) (y : A) :
  y ∈ erase i l -> y ∈ l.
Proof.
  revert i. induction l as [|x l IH]; intros [|i]; unfold erase in *; cbn.
  - auto.
  - auto.
  - intros H. by apply list_elem_of_further.
  - rewrite !elem_of_cons. intros [->|H]; [auto|]. right. by apply (IH i).
Qed.

Create HintDb cpp.
#[export] Hint Resolve vset_length vget_vset_eq vget_vset_ne : cpp.
#[export] Hint Resolve swrap_id wrap_id i32_id : cpp.
