(* ===== verification/DramSpec.v ===== *)
(** * DramSpec: the run-time specification of a DRAM standard

    Models [ramulator/dram/dram_spec.h], [dram_spec.cpp], [func_types.h]
    and [commands/populate.h]: the data every DRAM standard fills in, the
    loading of a configuration, the checked name look-ups and the
    registration of command handlers. *)
From stdpp Require Import prelude gmap strings.
From S2P Require Import Prelude.
Open Scope Z_scope.

(** ** Bank-level state and handler types (node.h, func_types.h)

    A handler receives a bank node and touches only its [m_state] and its
    [m_row_state]. *)
Record bank_state := mkBank {
  m_state : Z;
  m_row_state : gmap Z Z
}.

Abbreviation AddrVec_t := (list Z) (only parsing).
Abbreviation Clk_t := Z (only parsing).

Definition ActionFunc_t := bank_state -> Z -> AddrVec_t -> Clk_t -> res bank_state.
Definition PreqFunc_t := bank_state -> Z -> AddrVec_t -> Clk_t -> res Z.
Definition RowFunc_t := bank_state -> Z -> AddrVec_t -> Clk_t -> res bool.

Record FuncArrays := mkFuncs {
  actions : list (option ActionFunc_t);
  preqs : list (option PreqFunc_t);
  rowhits : list (option RowFunc_t);
  rowopens : list (option RowFunc_t)
}.

Inductive BankTarget := Single | All | SameBank.

#[export] Instance BankTarget_eq_dec : EqDecision BankTarget.
Proof. solve_decision. Defined.

Record DRAMCommandMeta := mkMeta {
  is_opening : bool;
  is_closing : bool;
  is_accessing : bool;
  is_refreshing : bool;
  is_row_command : bool;
  is_column_command : bool
}.

Definition meta_default : DRAMCommandMeta := mkMeta false false false false false false.

Record TimingConsEntry := mkEntry {
  tc_cmd : Z;
  tc_val : Z;
  tc_window : Z;
  tc_sibling : bool
}.

#[export] Instance TimingConsEntry_eq_dec : EqDecision TimingConsEntry.
Proof. solve_decision. Defined.

(** The constructor of [TimingConsEntry] rejects a negative window. *)
Definition make_entry (cmd val window : Z) (sibling : bool) : res TimingConsEntry :=
  if window <? 0 then Err (Throw "TimingConsEntry: window value < 0")
  else Ok (mkEntry cmd val window sibling).

Abbreviation TimingCons := (list (list (list TimingConsEntry))) (only parsing).

Record DRAMSpec := mkSpec {
  levels : gmap string Z;
  commands : gmap string Z;
  states : gmap string Z;
  timings : gmap string Z;
  level_names : list string;
  command_names : list string;
  state_names : list string;
  timing_names : list string;
  level_count : Z;
  command_count : Z;
  state_count : Z;
  timing_count : Z;
  standard_name : string;
  internal_prefetch_size : Z;
  channel_width : Z;
  read_latency : Z;
  org_dq : Z;
  level_sizes : list Z;
  init_states : list Z;
  supported_requests : list Z;
  timing_vals : list Z;
  timing_cons : TimingCons;
  has_sibling_cons : list (list bool);
  command_meta : list DRAMCommandMeta;
  bank_targets : list BankTarget;
  funcs : FuncArrays
}.

(** ** Name look-ups *)
Definition lookup_name (kind : string) (m : gmap string Z) (name : string) : res Z :=
  of_option (Throw ("DRAMSpec: unknown " +:+ kind +:+ " '" +:+ name +:+ "'")) (m !! name).

Definition has_level (s : DRAMSpec) (name : string) : bool := bool_decide (is_Some (levels s !! name)).
Definition has_command (s : DRAMSpec) (name : string) : bool := bool_decide (is_Some (commands s !! name)).
Definition has_state (s : DRAMSpec) (name : string) : bool := bool_decide (is_Some (states s !! name)).
Definition has_timing (s : DRAMSpec) (name : string) : bool := bool_decide (is_Some (timings s !! name)).
Definition get_level_id (s : DRAMSpec) (name : string) : res Z := lookup_name "level" (levels s) name.
Definition get_command_id (s : DRAMSpec) (name : string) : res Z := lookup_name "command" (commands s) name.
Definition get_state_id (s : DRAMSpec) (name : string) : res Z := lookup_name "state" (states s) name.

Definition get_timing_value (s : DRAMSpec) (name : string) : res Z :=
  i ← lookup_name "timing" (timings s) name;
  vget (timing_vals s) i.

Definition get_level_size (s : DRAMSpec) (name : string) : res Z :=
  i ← get_level_id s name;
  vget (level_sizes s) i.

(** Bytes of one burst across the channel; C++ [/] truncates towards zero. *)
Definition get_tx_bytes (s : DRAMSpec) : Z :=
  Z.quot (internal_prefetch_size s * channel_width s) 8.

(** [set_names]: the map and the reverse vector filled by one loop. *)
Fixpoint set_names_loop (i : Z) (names : list string) (m : gmap string Z) : gmap string Z :=
  match names with
  | [] => m
  | n :: names => set_names_loop (i + 1) names (<[n := i]> m)
  end.

Definition set_names (names : list string) : gmap string Z * list string :=
  (set_names_loop 0 names ∅, names).

(** ** Loading the run-time configuration

    The YAML reader hands [load_config] the parsed ["dram"] node: these
    records are what the code reads of it.  A timing-constraint row is
    [level, [preceding], [following], latency, window?, sibling?]. *)
Record tc_row := mkRow {
  row_level : Z;
  row_preceding : list Z;
  row_following : list Z;
  row_latency : Z;
  row_window : option Z;
  row_sibling : option bool
}.

Record dram_config := mkCfg {
  cfg_channel_width : Z;
  cfg_dq : Z;
  cfg_count : list Z;
  cfg_timing : list Z;
  cfg_read_latency : Z;
  cfg_timing_constraints : list tc_row
}.

Definition push_cons (tc : TimingCons) (level p : Z) (e : TimingConsEntry) : res TimingCons :=
  per_level ← vget tc level;
  es ← vget per_level p;
  per_level' ← vset per_level p (es ++ [e]);
  vset tc level per_level'.

Definition add_row (tc : TimingCons) (r : tc_row) : res TimingCons :=
  let window := default 1 (row_window r) in
  let sibling := default false (row_sibling r) in
  foldM (fun tc p =>
    foldM (fun tc fc =>
      e ← make_entry fc (row_latency r) window sibling;
      push_cons tc (row_level r) p e) (row_following r) tc)
    (row_preceding r) tc.

Definition empty_cons (nlev ncmd : Z) : TimingCons :=
  replicate (Z.to_nat nlev) (replicate (Z.to_nat ncmd) []).

(** The flag is set by the first sibling constraint the inner loop meets. *)
Definition has_sibling (es : list TimingConsEntry) : bool := existsb tc_sibling es.

Definition sibling_flags (tc : TimingCons) : list (list bool) :=
  map (map has_sibling) tc.

Definition load_config (s : DRAMSpec) (cfg : dram_config) : res DRAMSpec :=
  size0 ← vget (cfg_count cfg) 0;
  if negb (size0 =? 1) then
    Err (Throw "DRAMSpec: level_sizes[0] (Channel) must be 1")
  else
    tc ← foldM add_row (cfg_timing_constraints cfg)
           (empty_cons (level_count s) (command_count s));
    Ok (mkSpec (levels s) (commands s) (states s) (timings s)
          (level_names s) (command_names s) (state_names s) (timing_names s)
          (level_count s) (command_count s) (state_count s) (timing_count s)
          (standard_name s) (internal_prefetch_size s)
          (cfg_channel_width cfg) (cfg_read_latency cfg) (cfg_dq cfg) (cfg_count cfg)
          (init_states s) (supported_requests s) (cfg_timing cfg)
          tc (sibling_flags tc)
          (command_meta s) (bank_targets s) (funcs s)).

(** ** Command registration (populate.h) *)
Record cmd_impl := mkImpl {
  impl_meta : DRAMCommandMeta;
  impl_target : BankTarget;
  impl_action : option ActionFunc_t;
  impl_preq : option PreqFunc_t;
  impl_rowhit : option RowFunc_t;
  impl_rowopen : option RowFunc_t
}.

Definition with_commands (s : DRAMSpec) (ms : list DRAMCommandMeta) (bts : list BankTarget)
    (fs : FuncArrays) : DRAMSpec :=
  mkSpec (levels s) (commands s) (states s) (timings s)
    (level_names s) (command_names s) (state_names s) (timing_names s)
    (level_count s) (command_count s) (state_count s) (timing_count s)
    (standard_name s) (internal_prefetch_size s) (channel_width s) (read_latency s)
    (org_dq s) (level_sizes s) (init_states s) (supported_requests s) (timing_vals s)
    (timing_cons s) (has_sibling_cons s) ms bts fs.

(** A slot of a function array is written only when the implementation has
    that handler. *)
Definition set_if {A} (l : list (option A)) (i : Z) (f : option A) : res (list (option A)) :=
  match f with Some g => vset l i (Some g) | None => Ok l end.

Definition register_command (s : DRAMSpec) (cmd_id : Z) (c : cmd_impl) : res DRAMSpec :=
  ms ← vset (command_meta s) cmd_id (impl_meta c);
  bts ← vset (bank_targets s) cmd_id (impl_target c);
  a ← set_if (actions (funcs s)) cmd_id (impl_action c);
  p ← set_if (preqs (funcs s)) cmd_id (impl_preq c);
  h ← set_if (rowhits (funcs s)) cmd_id (impl_rowhit c);
  o ← set_if (rowopens (funcs s)) cmd_id (impl_rowopen c);
  Ok (with_commands s ms bts (mkFuncs a p h o)).

Fixpoint register_all (s : DRAMSpec) (i : Z) (cs : list cmd_impl) : res DRAMSpec :=
  match cs with
  | [] => Ok s
  | c :: cs => s' ← register_command s i c; register_all s' (i + 1) cs
  end.

Definition populate_commands (cs : list cmd_impl) (s : DRAMSpec) : res DRAMSpec :=
  let n := Z.to_nat (command_count s) in
  register_all
    (with_commands s (replicate n meta_default) (replicate n Single)
       (mkFuncs (replicate n None) (replicate n None) (replicate n None) (replicate n None)))
    0 cs.

(** ** The registry of standards *)
Definition Creator := dram_config -> res DRAMSpec.

Definition register_standard (reg : gmap string Creator) (name : string) (c : Creator)
  : gmap string Creator := <[name := c]> reg.

Definition set_standard_name (s : DRAMSpec) (name : string) : DRAMSpec :=
  mkSpec (levels s) (commands s) (states s) (timings s)
    (level_names s) (command_names s) (state_names s) (timing_names s)
    (level_count s) (command_count s) (state_count s) (timing_count s)
    name (internal_prefetch_size s) (channel_width s) (read_latency s)
    (org_dq s) (level_sizes s) (init_states s) (supported_requests s) (timing_vals s)
    (timing_cons s) (has_sibling_cons s) (command_meta s) (bank_targets s) (funcs s).

Definition create (reg : gmap string Creator) (name : string) (cfg : dram_config) : res DRAMSpec :=
  c ← of_option (Throw ("Unknown DRAM standard: " +:+ name)) (reg !! name);
  s ← c cfg;
  Ok (set_standard_name s name).

(** * Properties *)

(** Access to the constraints of one (level, command) pair. *)
Definition cons_at (tc : TimingCons) (lvl : nat) (cmd : Z) : res (list TimingConsEntry) :=
  per_level ← vget tc (Z.of_nat lvl);
  vget per_level cmd.

Definition rectangular {A} (nlev ncmd : Z) (m : list (list A)) : Prop :=
  length m = Z.to_nat nlev /\ Forall (fun r => length r = Z.to_nat ncmd) m.

Lemma empty_cons_rectangular nlev ncmd : rectangular nlev ncmd (empty_cons nlev ncmd).
Proof.
  unfold rectangular, empty_cons. rewrite length_replicate. split; [done|].
  apply Forall_replicate, length_replicate.
Qed.

Lemma push_cons_rectangular nlev ncmd tc l p e tc' :
  rectangular nlev ncmd tc -> push_cons tc l p e = Ok tc' -> rectangular nlev ncmd tc'.
Proof.
  intros [Hl Hr] H. unfold push_cons in H. inv_res.
  rename a into row, a0 into es, a1 into row'.
  pose proof (vset_length _ _ _ _ E1) as Hrow.
  apply vget_Ok in E as [_ Erow].
  pose proof (Forall_lookup_1 _ _ _ _ Hr Erow) as Hlen.
  apply vset_Ok in H as [? ->]. split; [by rewrite length_insert|].
  apply Forall_insert; [done|congruence].
Qed.

(** Every look-up of [load_config]'s table is defined exactly inside the
    declared level and command counts. *)
Lemma add_row_rectangular nlev ncmd tc r tc' :
  rectangular nlev ncmd tc -> add_row tc r = Ok tc' -> rectangular nlev ncmd tc'.
Proof.
  intros Hr. unfold add_row.
  apply (foldM_inv (rectangular nlev ncmd)); [|done].
  intros p t t' _ Ht. apply (foldM_inv (rectangular nlev ncmd)); [|done].
  intros fc u u' _ Hu Hpush. inv_res. eauto using push_cons_rectangular.
Qed.

(** The sibling flag of a (level, command) pair computed by [load_config] is
    set exactly when one of its constraints is a sibling constraint. *)
Definition flags_agree (s : DRAMSpec) : Prop :=
  has_sibling_cons s = sibling_flags (timing_cons s).

Lemma sibling_flags_lookup tc lvl cmd es :
  cons_at tc lvl cmd = Ok es ->
  (row ← vget (sibling_flags tc) (Z.of_nat lvl); vget row cmd) = Ok (has_sibling es).
Proof.
  unfold cons_at, sibling_flags. intros H. inv_res.
  apply vget_Ok in E as [H0 E]. apply vget_Ok in H as [H1 H].
  assert (vget (map (map has_sibling) tc) (Z.of_nat lvl) = Ok (map has_sibling a)) as ->.
  { apply vget_Ok. split; [done|]. by rewrite list_lookup_fmap, E. }
  cbn. apply vget_Ok. split; [done|]. by rewrite list_lookup_fmap, H.
Qed.

Lemma has_sibling_false es e :
  has_sibling es = false -> In e es -> tc_sibling e = false.
Proof.
  unfold has_sibling. intros H Hin. destruct (tc_sibling e) eqn:E; [|done].
  assert (existsb tc_sibling es = true) by (apply existsb_exists; eauto). congruence.
Qed.

(** What [load_config] guarantees about the tables it builds. *)
Record config_loaded (s : DRAMSpec) : Prop := {
  cl_cons : rectangular (level_count s) (command_count s) (timing_cons s);
  cl_flags : flags_agree s;
  cl_channel : level_sizes s !! 0%nat = Some 1
}.

Lemma load_config_loaded s cfg s' :
  load_config s cfg = Ok s' -> config_loaded s' /\ level_count s' = level_count s /\ command_count s' = command_count s.
Proof.
  unfold load_config. intros H. inv_res. dcase H; [discriminate|]. inv_res.
  bool_hyps. subst. split; [|done]. split; cbn; [|done|].
  - eapply (foldM_inv (rectangular (level_count s) (command_count s)));
      [|apply empty_cons_rectangular|eassumption].
    intros; eauto using add_row_rectangular.
  - apply vget_Ok in E as [_ E]. exact E.
Qed.

Lemma cons_at_total s lvl cmd :
  config_loaded s -> (lvl < Z.to_nat (level_count s))%nat -> 0 <= cmd < command_count s ->
  exists es, cons_at (timing_cons s) lvl cmd = Ok es.
Proof.
  intros [[Hl Hr] _ _] Hlvl Hcmd. unfold cons_at.
  destruct (lookup_lt_is_Some_2 (timing_cons s) lvl) as [row Hrow]; [lia|].
  assert (vget (timing_cons s) (Z.of_nat lvl) = Ok row) as -> by by apply vget_nat.
  pose proof (Forall_lookup_1 _ _ _ _ Hr Hrow) as Hlen. cbn in Hlen.
  destruct (proj2 (vget_is_Ok row cmd)) as [es Hes]; [lia|]. cbn. eauto.
Qed.

#[export] Hint Resolve empty_cons_rectangular push_cons_rectangular add_row_rectangular : cpp.

(** ** Names and ids *)
Lemma set_names_loop_lookup i names m n :
  NoDup names ->
  set_names_loop i names m !! n =
    match list_find (eq n) names with
    | Some (k, _) => Some (i + Z.of_nat k)
    | None => m !! n
    end.
Proof.
  revert i m. induction names as [|x names IH]; intros i m Hnd; [done|].
  apply NoDup_cons in Hnd as [Hx Hnd]. cbn [set_names_loop list_find].
  rewrite IH by done. destruct (decide (n = x)) as [->|Hne].
  - destruct (list_find (eq x) names) as [[k y]|] eqn:E.
    + apply list_find_Some in E as (Hk & <- & _). exfalso. apply Hx.
      by eapply list_elem_of_lookup_2.
    + rewrite lookup_insert_eq. f_equal. lia.
  - destruct (list_find (eq n) names) as [[k y]|]; cbn.
    + f_equal. lia.
    + by rewrite lookup_insert_ne.
Qed.

(** With pairwise different names, the map and the reverse vector of
    [set_names] are inverse to each other. *)
Lemma set_names_lookup names n id :
  NoDup names ->
  (set_names names).1 !! n = Some id <-> 0 <= id /\ (set_names names).2 !! Z.to_nat id = Some n.
Proof.
  intros Hnd. cbn. rewrite set_names_loop_lookup by done. split.
  - destruct (list_find (eq n) names) as [[k y]|] eqn:E; [|discriminate].
    intros [= <-]. apply list_find_Some in E as (Hk & <- & _).
    split; [lia|]. by replace (Z.to_nat (0 + Z.of_nat k)) with k by lia.
  - intros [H0 H]. destruct (list_find (eq n) names) as [[k y]|] eqn:E.
    + apply list_find_Some in E as (Hk & <- & _).
      rewrite (NoDup_lookup _ _ _ _ Hnd Hk H). f_equal. lia.
    + exfalso. apply list_find_None in E. rewrite Forall_forall in E.
      apply (E n); [by eapply list_elem_of_lookup_2|done].
Qed.

(** ** Registration *)
Lemma vset_app_replicate {A} (l : list A) (n : nat) (d x : A) (i : Z) :
  i = Z.of_nat (length l) ->
  vset (l ++ replicate (S n) d) i x = Ok (l ++ x :: replicate n d).
Proof.
  intros ->. apply vset_Ok. rewrite length_app, length_replicate. split; [lia|].
  rewrite Nat2Z.id. rewrite insert_app_r_alt by lia. by rewrite Nat.sub_diag.
Qed.

Lemma set_if_app_replicate {A} (l : list (option A)) (n : nat) (x : option A) (i : Z) :
  i = Z.of_nat (length l) ->
  set_if (l ++ replicate (S n) None) i x = Ok (l ++ x :: replicate n None).
Proof.
  intros Hi. destruct x as [x|]; cbn [set_if]; [by apply vset_app_replicate|].
  done.
Qed.

Definition registered (s : DRAMSpec) (cs : list cmd_impl) (n : nat) : DRAMSpec :=
  with_commands s (map impl_meta cs ++ replicate n meta_default)
    (map impl_target cs ++ replicate n Single)
    (mkFuncs (map impl_action cs ++ replicate n None) (map impl_preq cs ++ replicate n None)
       (map impl_rowhit cs ++ replicate n None) (map impl_rowopen cs ++ replicate n None)).

Lemma register_command_registered s pre c n :
  register_command (registered s pre (S n)) (Z.of_nat (length pre)) c =
    Ok (registered s (pre ++ [c]) n).
Proof.
  unfold register_command, registered. cbn [command_meta bank_targets funcs actions preqs rowhits rowopens with_commands].
  rewrite !vset_app_replicate by (by rewrite length_map). cbn [mbind res_bind].
  rewrite !set_if_app_replicate by (by rewrite length_map). cbn [mbind res_bind].
  rewrite !map_app, <- !app_assoc. done.
Qed.

Lemma register_all_registered s cs : forall pre n,
  register_all (registered s pre (length cs + n)) (Z.of_nat (length pre)) cs =
    Ok (registered s (pre ++ cs) n).
Proof.
  induction cs as [|c cs IH]; intros pre n; cbn [register_all].
  - by rewrite app_nil_r.
  - cbn [length Nat.add]. rewrite register_command_registered. cbn [mbind res_bind].
    specialize (IH (pre ++ [c]) n). rewrite length_app in IH. cbn [length] in IH.
    replace (Z.of_nat (length pre) + 1) with (Z.of_nat (length pre + 1)) by lia.
    rewrite IH, <- app_assoc. done.
Qed.

(** [populate_commands] of a tuple with one implementation per command id
    puts the handlers of the i-th implementation at id i. *)
Lemma populate_commands_ok s cs :
  command_count s = Z.of_nat (length cs) ->
  populate_commands cs s = Ok (registered s cs 0).
Proof.
  intros Hc. unfold populate_commands. rewrite Hc, Nat2Z.id.
  pose proof (register_all_registered s cs [] 0) as H.
  rewrite Nat.add_0_r in H. exact H.
Qed.
