(* ===== verification/Commands.v ===== *)
(** * Commands: the DRAM command implementations

    Models the templates of [ramulator/dram/commands/*.h].  A template
    argument [T] is a DRAM standard: the code reads its state, level and
    command enumerators, which [traits] holds.  An enumerator a standard may
    lack ([ACT], [ACT1], [ACT2], [Activating]) is an [option]; a template
    that names it is only instantiated for standards that have it. *)
From stdpp Require Import prelude gmap strings.
From S2P Require Import Prelude DramSpec.
Open Scope Z_scope.

Record traits := mkTraits {
  T_Opened : Z;
  T_Closed : Z;
  T_Activating : option Z;
  T_Row : Z;
  T_ACT : option Z;
  T_ACT1 : option Z;
  T_ACT2 : option Z;
  T_PREpb : Z;
  T_PREab : Z
}.

(** An enumerator that does not exist matches no value of the [switch]. *)
Definition enum_is (e : option Z) (v : Z) : bool :=
  match e with Some x => v =? x | None => false end.

Definition enum_val (e : option Z) : Z := default (-1) e.

Section Commands.
Context (T : traits).
Implicit Types (bank : bank_state) (cmd clk : Z) (av : AddrVec_t).

(** [m_row_state.find(row) != m_row_state.end()] *)
Definition row_present bank (row : Z) : bool := bool_decide (is_Some (m_row_state bank !! row)).

(** ** ACT *)
Definition ACT_action bank cmd av clk : res bank_state :=
  row ← vget av (T_Row T);
  Ok (mkBank (T_Opened T) (<[row := T_Opened T]> (m_row_state bank))).

Definition ACT_preq bank cmd av clk : res Z :=
  if m_state bank =? T_Closed T then Ok (enum_val (T_ACT T))
  else if m_state bank =? T_Opened T then
    row ← vget av (T_Row T);
    if row_present bank row then Ok cmd else Ok (T_PREpb T)
  else Err (Throw "[ACT] Invalid bank state!").

(** ** ACT1 and ACT2: the split activation of LPDDR5 *)
Definition ACT1_action bank cmd av clk : res bank_state :=
  Ok (mkBank (enum_val (T_Activating T)) (m_row_state bank)).

Definition ACT1_preq bank cmd av clk : res Z :=
  if m_state bank =? T_Closed T then Ok (enum_val (T_ACT1 T))
  else if enum_is (T_Activating T) (m_state bank) then Ok cmd
  else if m_state bank =? T_Opened T then
    row ← vget av (T_Row T);
    if row_present bank row then Ok cmd else Ok (T_PREpb T)
  else Err (Throw "[ACT1] Invalid bank state!").

Definition ACT2_action bank cmd av clk : res bank_state :=
  row ← vget av (T_Row T);
  Ok (mkBank (T_Opened T) (<[row := T_Opened T]> (m_row_state bank))).

Definition ACT2_preq bank cmd av clk : res Z :=
  if m_state bank =? T_Closed T then Ok (enum_val (T_ACT1 T))
  else if enum_is (T_Activating T) (m_state bank) then Ok (enum_val (T_ACT2 T))
  else if m_state bank =? T_Opened T then
    row ← vget av (T_Row T);
    if row_present bank row then Ok cmd else Ok (T_PREpb T)
  else Err (Throw "[ACT2] Invalid bank state!").

(** ** PREpb and PREab *)
Definition PREpb_action bank cmd av clk : res bank_state :=
  Ok (mkBank (T_Closed T) ∅).

Definition PREpb_preq bank cmd av clk : res Z :=
  if m_state bank =? T_Closed T then Ok cmd
  else if m_state bank =? T_Opened T then Ok (T_PREpb T)
  else Ok (T_PREpb T).

Definition PREab_action bank cmd av clk : res bank_state := PREpb_action bank cmd av clk.

(** ** RD, WR and their auto-precharge versions *)
Definition RD_preq bank cmd av clk : res Z :=
  match T_ACT2 T with
  | Some _ => ACT2_preq bank cmd av clk
  | None => ACT_preq bank cmd av clk
  end.

Definition RD_rowhit bank cmd av clk : res bool :=
  if m_state bank =? T_Opened T then
    row ← vget av (T_Row T); Ok (row_present bank row)
  else Ok false.

Definition RD_rowopen bank cmd av clk : res bool := Ok (m_state bank =? T_Opened T).

Definition RDA_action bank cmd av clk : res bank_state := PREpb_action bank cmd av clk.
Definition RDA_preq bank cmd av clk : res Z := RD_preq bank cmd av clk.
Definition RDA_rowhit bank cmd av clk : res bool := RD_rowhit bank cmd av clk.
Definition RDA_rowopen bank cmd av clk : res bool := RD_rowopen bank cmd av clk.
Definition WR_preq bank cmd av clk : res Z := RD_preq bank cmd av clk.
Definition WR_rowhit bank cmd av clk : res bool := RD_rowhit bank cmd av clk.
Definition WR_rowopen bank cmd av clk : res bool := RD_rowopen bank cmd av clk.
Definition WRA_action bank cmd av clk : res bank_state := PREpb_action bank cmd av clk.
Definition WRA_preq bank cmd av clk : res Z := RD_preq bank cmd av clk.
Definition WRA_rowhit bank cmd av clk : res bool := RD_rowhit bank cmd av clk.
Definition WRA_rowopen bank cmd av clk : res bool := RD_rowopen bank cmd av clk.

(** ** Refresh and refresh management *)
Definition REFab_preq bank cmd av clk : res Z :=
  if negb (m_state bank =? T_Closed T) then Ok (T_PREab T) else Ok cmd.
Definition REFpb_preq bank cmd av clk : res Z :=
  if negb (m_state bank =? T_Closed T) then Ok (T_PREpb T) else Ok cmd.
Definition RFMab_preq bank cmd av clk : res Z :=
  if negb (m_state bank =? T_Closed T) then Ok (T_PREab T) else Ok cmd.
Definition RFMpb_preq bank cmd av clk : res Z :=
  if negb (m_state bank =? T_Closed T) then Ok (T_PREpb T) else Ok cmd.

(** ** The implementation structs: metadata, bank target and handlers *)
Definition meta_opening : DRAMCommandMeta := mkMeta true false false false false false.
Definition meta_closing : DRAMCommandMeta := mkMeta false true false false false false.
Definition meta_accessing : DRAMCommandMeta := mkMeta false false true false false false.
Definition meta_closing_accessing : DRAMCommandMeta := mkMeta false true true false false false.
Definition meta_refreshing : DRAMCommandMeta := mkMeta false false false true false false.

Definition Cmd_ACT : cmd_impl :=
  mkImpl meta_opening Single (Some ACT_action) (Some ACT_preq) None None.
Definition Cmd_ACT1 : cmd_impl :=
  mkImpl meta_opening Single (Some ACT1_action) (Some ACT1_preq) None None.
Definition Cmd_ACT2 : cmd_impl :=
  mkImpl meta_default Single (Some ACT2_action) (Some ACT2_preq) None None.
Definition Cmd_PREpb : cmd_impl :=
  mkImpl meta_closing Single (Some PREpb_action) (Some PREpb_preq) None None.
Definition Cmd_PREab : cmd_impl :=
  mkImpl meta_closing All (Some PREab_action) None None None.
Definition Cmd_RD : cmd_impl :=
  mkImpl meta_accessing Single None (Some RD_preq) (Some RD_rowhit) (Some RD_rowopen).
Definition Cmd_WR : cmd_impl :=
  mkImpl meta_accessing Single None (Some WR_preq) (Some WR_rowhit) (Some WR_rowopen).
Definition Cmd_RDA : cmd_impl :=
  mkImpl meta_closing_accessing Single (Some RDA_action) (Some RDA_preq) (Some RDA_rowhit) (Some RDA_rowopen).
Definition Cmd_WRA : cmd_impl :=
  mkImpl meta_closing_accessing Single (Some WRA_action) (Some WRA_preq) (Some WRA_rowhit) (Some WRA_rowopen).
Definition Cmd_REFab : cmd_impl :=
  mkImpl meta_refreshing All None (Some REFab_preq) None None.
Definition Cmd_REFpb : cmd_impl :=
  mkImpl meta_refreshing Single None (Some REFpb_preq) None None.
Definition Cmd_RFMab : cmd_impl :=
  mkImpl meta_refreshing All None (Some RFMab_preq) None None.
Definition Cmd_RFMpb : cmd_impl :=
  mkImpl meta_refreshing Single None (Some RFMpb_preq) None None.
Definition Cmd_CAS_RD : cmd_impl := mkImpl meta_default Single None None None None.
Definition Cmd_CAS_WR : cmd_impl := mkImpl meta_default Single None None None None.
End Commands.

(** * The bank state machine

    A bank is well formed when it is closed with no row, activating with no
    row, or open with exactly one row. *)
Definition bank_wf (T : traits) (b : bank_state) : Prop :=
  (m_state b = T_Closed T /\ m_row_state b = ∅) \/
  (T_Activating T = Some (m_state b) /\ m_row_state b = ∅) \/
  (m_state b = T_Opened T /\ exists row, m_row_state b = {[row := T_Opened T]}).

(** Enumerators of one standard are pairwise different. *)
Record traits_wf (T : traits) : Prop := {
  tw_states : T_Opened T <> T_Closed T;
  tw_activating : forall a, T_Activating T = Some a -> a <> T_Opened T /\ a <> T_Closed T;
  tw_split : is_Some (T_ACT2 T) <-> is_Some (T_Activating T);
  tw_split1 : is_Some (T_ACT1 T) <-> is_Some (T_ACT2 T);
  tw_act : T_ACT2 T = None -> is_Some (T_ACT T)
}.

(** The commands that change a bank, as the controller issues them: one step
    of the bank state machine.  [bstep] is guarded by what the prerequisite
    resolution demands, i.e. by the command the resolver itself returns. *)
Inductive bank_cmd := bACT | bACT1 | bACT2 | bPRE | bACCESS.

#[export] Instance bank_cmd_eq_dec : EqDecision bank_cmd.
Proof. solve_decision. Defined.

Definition bank_action (T : traits) (c : bank_cmd) (b : bank_state) (av : AddrVec_t) : res bank_state :=
  match c with
  | bACT => ACT_action T b 0 av 0
  | bACT1 => ACT1_action T b 0 av 0
  | bACT2 => ACT2_action T b 0 av 0
  | bPRE => PREpb_action T b 0 av 0
  | bACCESS => Ok b
  end.

(** The id the resolver answers with for each of them, given that the request
    finally wants the column command [cmd]. *)
Definition bank_cmd_id (T : traits) (cmd : Z) (c : bank_cmd) : Z :=
  match c with
  | bACT => enum_val (T_ACT T)
  | bACT1 => enum_val (T_ACT1 T)
  | bACT2 => enum_val (T_ACT2 T)
  | bPRE => T_PREpb T
  | bACCESS => cmd
  end.

(** One resolution round: what the resolver returns for a column command,
    together with the command it stands for. *)
Definition resolve (T : traits) (b : bank_state) (av : AddrVec_t) : res bank_cmd :=
  row ← vget av (T_Row T);
  if m_state b =? T_Closed T then Ok (match T_ACT2 T with Some _ => bACT1 | None => bACT end)
  else if enum_is (T_Activating T) (m_state b) then Ok bACT2
  else if m_state b =? T_Opened T then
    Ok (if row_present b row then bACCESS else bPRE)
  else Err (Throw "Invalid bank state!").

Fixpoint drive (T : traits) (fuel : nat) (b : bank_state) (av : AddrVec_t) : res (list bank_cmd * bank_state) :=
  match fuel with
  | O => Ok ([], b)
  | S fuel =>
      c ← resolve T b av;
      match c with
      | bACCESS => Ok ([bACCESS], b)
      | _ =>
          b' ← bank_action T c b av;
          p ← drive T fuel b' av;
          Ok (c :: p.1, p.2)
      end
  end.

(** ** Lemmas *)
Lemma row_present_true b row : row_present b row = true <-> is_Some (m_row_state b !! row).
Proof. unfold row_present. apply bool_decide_eq_true. Qed.

Lemma row_present_singleton T row row' st :
  row_present (mkBank st {[row := T_Opened T]}) row' = bool_decide (row = row').
Proof.
  unfold row_present; cbn. apply bool_decide_ext.
  destruct (decide (row = row')) as [->|Hne].
  - rewrite lookup_singleton_eq. split; [done|]. intros _. by eexists.
  - rewrite lookup_singleton_ne by done. split; [intros [? ?]; done|]. done.
Qed.

(** [resolve] is what [RD_preq] computes, named. *)
Lemma resolve_RD_preq T b av cmd clk row :
  traits_wf T -> vget av (T_Row T) = Ok row ->
  RD_preq T b cmd av clk =
    match resolve T b av with
    | Ok c => Ok (bank_cmd_id T cmd c)
    | Err _ => Err (Throw match T_ACT2 T with
                        | Some _ => "[ACT2] Invalid bank state!"
                        | None => "[ACT] Invalid bank state!"
                        end)
    end.
Proof.
  intros HT Hrow. unfold RD_preq, resolve, ACT2_preq, ACT_preq. rewrite Hrow. cbn.
  destruct (T_ACT2 T) as [a2|] eqn:E2.
  - destruct (m_state b =? T_Closed T); [done|].
    destruct (enum_is _ _); cbn; [by rewrite E2|].
    destruct (m_state b =? T_Opened T); [|done]. by destruct (row_present _ _).
  - assert (T_Activating T = None) as HA.
    { destruct (T_Activating T) eqn:EA; [|done].
      destruct (proj2 (tw_split T HT)) as [x Hx]; [by eexists|congruence]. }
    rewrite HA. cbn. destruct (m_state b =? T_Closed T); [done|].
    destruct (m_state b =? T_Opened T); [|done]. by destruct (row_present _ _).
Qed.

Lemma bank_wf_action T c b av b' :
  traits_wf T -> bank_wf T b -> resolve T b av = Ok c -> bank_action T c b av = Ok b' -> bank_wf T b'.
Proof.
  intros HT Hwf Hr Ha. unfold resolve in Hr. inv_res.
  pose proof (tw_states T HT) as Hne.
  assert (HA : forall x, T_Activating T = Some x -> x <> T_Opened T /\ x <> T_Closed T) by apply HT.
  destruct Hwf as [[Hs Hm]|[[Hs Hm]|[Hs [row Hm]]]].
  - rewrite Hs, Z.eqb_refl in Hr. destruct (T_ACT2 T) eqn:E2; inv_res; subst; cbn in Ha.
    + destruct (proj1 (tw_split T HT)) as [x Hx]; [by eexists|].
      unfold ACT1_action in Ha. inv_res. subst b'. right; left. cbn. rewrite Hx. auto.
    + unfold ACT_action in Ha. rewrite E in Ha. cbn in Ha. inv_res. subst b'.
      right; right. cbn. rewrite Hm. eauto.
  - destruct (HA _ Hs) as [H1 H2].
    rewrite (proj2 (Z.eqb_neq _ _) H2) in Hr. rewrite Hs in Hr. cbn in Hr. rewrite Z.eqb_refl in Hr.
    inv_res. subst c. cbn in Ha. unfold ACT2_action in Ha. rewrite E in Ha. cbn in Ha. inv_res.
    subst b'. right; right. cbn. rewrite Hm. eauto.
  - assert ((m_state b =? T_Closed T) = false) as E1 by (apply Z.eqb_neq; congruence).
    assert (enum_is (T_Activating T) (m_state b) = false) as E2.
    { destruct (T_Activating T) as [x|] eqn:EA; [|done]. cbn. apply Z.eqb_neq.
      destruct (HA x); [done|congruence]. }
    rewrite E1, E2, Hs, Z.eqb_refl in Hr. destruct (row_present b a); inv_res; subst; cbn in Ha.
    + inv_res. subst. right; right. eauto.
    + unfold PREpb_action in Ha. inv_res. subst b'. left. done.
Qed.

Lemma resolve_total T b av row :
  bank_wf T b -> vget av (T_Row T) = Ok row -> is_Ok (resolve T b av).
Proof.
  intros Hwf Hrow. unfold resolve. rewrite Hrow. cbn.
  destruct (m_state b =? T_Closed T) eqn:E1; [by eexists|].
  destruct (enum_is _ _) eqn:E2; [by eexists|].
  destruct Hwf as [[Hs _]|[[Hs _]|[Hs _]]].
  - rewrite Hs, Z.eqb_refl in E1. done.
  - rewrite Hs in E2. cbn in E2. rewrite Z.eqb_refl in E2. done.
  - rewrite Hs, Z.eqb_refl. by eexists.
Qed.

(** What one prerequisite command does to a well-formed bank: a bank the
    resolver sends to [ACCESS] is a row hit; otherwise the distance to the
    access strictly shrinks. *)
Definition distance (T : traits) (b : bank_state) (row : Z) : nat :=
  if m_state b =? T_Closed T then (if bool_decide (is_Some (T_ACT2 T)) then 2 else 1)%nat
  else if enum_is (T_Activating T) (m_state b) then 1%nat
  else if row_present b row then 0%nat
  else S (if bool_decide (is_Some (T_ACT2 T)) then 2 else 1)%nat.

Lemma resolve_action_total T c b av row :
  vget av (T_Row T) = Ok row -> is_Ok (bank_action T c b av).
Proof. intros H. destruct c; cbn; unfold ACT_action, ACT2_action; rewrite ?H; cbn; by eexists. Qed.

Lemma resolve_access_hit T b av row :
  vget av (T_Row T) = Ok row -> resolve T b av = Ok bACCESS ->
  m_state b = T_Opened T /\ row_present b row = true.
Proof.
  intros Hrow. unfold resolve. rewrite Hrow. cbn.
  destruct (m_state b =? T_Closed T); [destruct (T_ACT2 T); discriminate|].
  destruct (enum_is _ _); [discriminate|].
  destruct (m_state b =? T_Opened T) eqn:E; [|discriminate].
  destruct (row_present b row); [|discriminate]. bool_hyps. done.
Qed.

Lemma distance_decreases T c b av b' row :
  traits_wf T -> bank_wf T b -> vget av (T_Row T) = Ok row ->
  resolve T b av = Ok c -> c <> bACCESS -> bank_action T c b av = Ok b' ->
  (distance T b' row < distance T b row)%nat.
Proof.
  intros HT Hwf Hrow Hr Hc Ha. pose proof (tw_states T HT) as Hne.
  unfold resolve in Hr. rewrite Hrow in Hr. cbn in Hr. unfold distance.
  destruct (m_state b =? T_Closed T) eqn:E1.
  - destruct (T_ACT2 T) eqn:E2; inv_res; subst c; cbn in Ha.
    + destruct (proj1 (tw_split T HT)) as [x Hx]; [by eexists|].
      destruct (tw_activating T HT x Hx) as [H1 H2].
      unfold ACT1_action in Ha. inv_res. subst b'. cbn. rewrite Hx. cbn.
      rewrite (proj2 (Z.eqb_neq _ _) H2), Z.eqb_refl. lia.
    + unfold ACT_action in Ha. rewrite Hrow in Ha. cbn in Ha. inv_res. subst b'. cbn.
      rewrite (proj2 (Z.eqb_neq _ _) Hne).
      assert (enum_is (T_Activating T) (T_Opened T) = false) as ->.
      { destruct (T_Activating T) as [x|] eqn:EA; [|done]. cbn. apply Z.eqb_neq.
        destruct (tw_activating T HT x EA). congruence. }
      unfold row_present; cbn. rewrite lookup_insert_eq, bool_decide_true by done. lia.
  - destruct (enum_is (T_Activating T) (m_state b)) eqn:E2.
    + inv_res. subst c. cbn in Ha. unfold ACT2_action in Ha. rewrite Hrow in Ha. cbn in Ha. inv_res.
      subst b'. cbn. rewrite (proj2 (Z.eqb_neq _ _) Hne).
      assert (enum_is (T_Activating T) (T_Opened T) = false) as ->.
      { destruct (T_Activating T) as [x|] eqn:EA; [|done]. cbn. apply Z.eqb_neq.
        destruct (tw_activating T HT x EA). congruence. }
      unfold row_present; cbn. rewrite lookup_insert_eq, bool_decide_true by done. lia.
    + destruct (m_state b =? T_Opened T); [|discriminate].
      destruct (row_present b row) eqn:E3; inv_res; subst c; [done|].
      cbn in Ha. unfold PREpb_action in Ha. inv_res. subst b'. cbn. rewrite Z.eqb_refl.
      destruct (bool_decide _); lia.
Qed.

Lemma distance_le T b row : (distance T b row <= 3)%nat.
Proof. unfold distance. repeat case_match; lia. Qed.

Lemma drive_S T fuel b av :
  drive T (S fuel) b av =
    (c ← resolve T b av;
     match c with
     | bACCESS => Ok ([bACCESS], b)
     | _ => b' ← bank_action T c b av; p ← drive T fuel b' av; Ok (c :: p.1, p.2)
     end).
Proof. done. Qed.

Lemma drive_from_distance T b av row n :
  traits_wf T -> bank_wf T b -> vget av (T_Row T) = Ok row -> (distance T b row <= n)%nat ->
  exists cs b', drive T (S n) b av = Ok (cs ++ [bACCESS], b') /\ (length cs <= n)%nat /\
    bank_wf T b' /\ m_state b' = T_Opened T /\ row_present b' row = true.
Proof.
  intros HT. revert b. induction n as [|n IH]; intros b Hwf Hrow Hd.
  all: destruct (resolve_total T b av row Hwf Hrow) as [c Hc].
  all: rewrite drive_S, Hc; cbn [mbind res_bind].
  all: destruct (decide (c = bACCESS)) as [->|Hne];
    [destruct (resolve_access_hit T b av row Hrow Hc); exists [], b; cbn; repeat split; auto; lia|].
  all: destruct (resolve_action_total T c b av row Hrow) as [b1 Hb1].
  all: pose proof (distance_decreases T c b av b1 row HT Hwf Hrow Hc Hne Hb1).
  - lia.
  - destruct (IH b1) as (cs & b' & Hd' & Hlen & Hwf' & Hst & Hp);
      [eauto using bank_wf_action|done|lia|].
    exists (c :: cs), b'. rewrite Hb1. cbn [mbind res_bind]. rewrite Hd'.
    cbn. repeat split; auto; [|lia]. destruct c; done.
Qed.
