(* ===== verification/Standards.v ===== *)
(** * Standards: the nine DRAM standards

    Models [ramulator/dram/impl/*.cpp].  Each class fills in its name
    tables, its static data and its tuple of command implementations, loads
    the configuration and registers the command handlers; the HBM classes
    then mark which commands travel on the row bus and which on the column
    bus.  [construct] is that constructor body; a [standard] holds what the
    classes differ in.  The [traits] of a standard are its enumerators, as
    the command templates read them.  The member [standard_name] is empty in
    the code until [create] sets it to the name the class registers under;
    [construct] fills that name in at once. *)
From stdpp Require Import prelude gmap strings.
From S2P Require Import Prelude DramSpec Commands.
Open Scope Z_scope.

Record standard := mkStd {
  std_name : string;
  std_level_COUNT : Z;
  std_command_COUNT : Z;
  std_state_COUNT : Z;
  std_timing_COUNT : Z;
  std_levels : list string;
  std_commands : list string;
  std_states : list string;
  std_timings : list string;
  std_prefetch : Z;
  std_init_states : list Z;
  std_requests : list Z;
  std_traits : traits;
  std_impls : list cmd_impl;
  std_row_bus : list Z;
  std_column_bus : list Z
}.

Definition set_row_command (m : DRAMCommandMeta) : DRAMCommandMeta :=
  mkMeta (is_opening m) (is_closing m) (is_accessing m) (is_refreshing m) true (is_column_command m).
Definition set_column_command (m : DRAMCommandMeta) : DRAMCommandMeta :=
  mkMeta (is_opening m) (is_closing m) (is_accessing m) (is_refreshing m) (is_row_command m) true.

Definition mark (f : DRAMCommandMeta -> DRAMCommandMeta) (ms : list DRAMCommandMeta) (cmd : Z)
  : res (list DRAMCommandMeta) :=
  m ← vget ms cmd; vset ms cmd (f m).

Definition construct (d : standard) (cfg : dram_config) : res DRAMSpec :=
  let lv := set_names (std_levels d) in
  let cm := set_names (std_commands d) in
  let st := set_names (std_states d) in
  let tm := set_names (std_timings d) in
  let s0 := mkSpec lv.1 cm.1 st.1 tm.1 lv.2 cm.2 st.2 tm.2
              (std_level_COUNT d) (std_command_COUNT d) (std_state_COUNT d) (std_timing_COUNT d)
              (std_name d) (std_prefetch d) (-1) (-1) (-1) []
              (std_init_states d) (std_requests d) [] [] []
              [] [] (mkFuncs [] [] [] []) in
  s1 ← load_config s0 cfg;
  s2 ← populate_commands (std_impls d) s1;
  ms ← foldM (mark set_row_command) (std_row_bus d) (command_meta s2);
  ms ← foldM (mark set_column_command) (std_column_bus d) ms;
  Ok (with_commands s2 ms (bank_targets s2) (funcs s2)).

(** ** DDR3 *)
Definition DDR3_traits : traits :=
  mkTraits 0 1 None 3 (Some 0) None None 1 2.

Definition DDR3_std : standard :=
  mkStd "DDR3" 5 8 3 18
    ["Channel"; "Rank"; "Bank"; "Row"; "Column"]
    ["ACT"; "PREpb"; "PREab"; "RD"; "WR"; "RDA"; "WRA"; "REFab"]
    ["Opened"; "Closed"; "N_A"]
    ["rate"; "nBL"; "nCL"; "nRCD"; "nRP"; "nRAS"; "nRC"; "nWR"; "nRTP"; "nCWL"; "nCCD"; "nRRD";
    "nWTR"; "nFAW"; "nRFC"; "nREFI"; "nCS"; "tCK_ps"]
    8 [2; 2; 1; 1; 2] [3; 4] DDR3_traits
    [Cmd_ACT DDR3_traits; Cmd_PREpb DDR3_traits; Cmd_PREab DDR3_traits; Cmd_RD DDR3_traits;
    Cmd_WR DDR3_traits; Cmd_RDA DDR3_traits; Cmd_WRA DDR3_traits; Cmd_REFab DDR3_traits]
    [] [].

Definition DDR3 (cfg : dram_config) : res DRAMSpec := construct DDR3_std cfg.

(** ** DDR4 *)
Definition DDR4_traits : traits :=
  mkTraits 0 1 None 4 (Some 0) None None 1 2.

Definition DDR4_std : standard :=
  mkStd "DDR4" 6 8 3 21
    ["Channel"; "Rank"; "BankGroup"; "Bank"; "Row"; "Column"]
    ["ACT"; "PREpb"; "PREab"; "RD"; "WR"; "RDA"; "WRA"; "REFab"]
    ["Opened"; "Closed"; "N_A"]
    ["rate"; "nBL"; "nCL"; "nRCD"; "nRP"; "nRAS"; "nRC"; "nWR"; "nRTP"; "nCWL"; "nCCDS";
    "nCCDL"; "nRRDS"; "nRRDL"; "nWTRS"; "nWTRL"; "nFAW"; "nRFC"; "nREFI"; "nCS"; "tCK_ps"]
    8 [2; 2; 2; 1; 1; 2] [3; 4] DDR4_traits
    [Cmd_ACT DDR4_traits; Cmd_PREpb DDR4_traits; Cmd_PREab DDR4_traits; Cmd_RD DDR4_traits;
    Cmd_WR DDR4_traits; Cmd_RDA DDR4_traits; Cmd_WRA DDR4_traits; Cmd_REFab DDR4_traits]
    [] [].

Definition DDR4 (cfg : dram_config) : res DRAMSpec := construct DDR4_std cfg.

(** ** DDR5 *)
Definition DDR5_traits : traits :=
  mkTraits 0 1 None 4 (Some 0) None None 1 2.

Definition DDR5_std : standard :=
  mkStd "DDR5" 6 8 3 24
    ["Channel"; "Rank"; "BankGroup"; "Bank"; "Row"; "Column"]
    ["ACT"; "PREpb"; "PREab"; "RD"; "WR"; "RDA"; "WRA"; "REFab"]
    ["Opened"; "Closed"; "N_A"]
    ["rate"; "nBL"; "nCL"; "nRCD"; "nRP"; "nRAS"; "nRC"; "nWR"; "nRTP"; "nCWL"; "nPPD"; "nCCDS";
    "nCCDL"; "nCCDS_WR"; "nCCDL_WR"; "nRRDS"; "nRRDL"; "nWTRS"; "nWTRL"; "nFAW"; "nRFC";
    "nREFI"; "nCS"; "tCK_ps"]
    16 [2; 2; 2; 1; 1; 2] [3; 4] DDR5_traits
    [Cmd_ACT DDR5_traits; Cmd_PREpb DDR5_traits; Cmd_PREab DDR5_traits; Cmd_RD DDR5_traits;
    Cmd_WR DDR5_traits; Cmd_RDA DDR5_traits; Cmd_WRA DDR5_traits; Cmd_REFab DDR5_traits]
    [] [].

Definition DDR5 (cfg : dram_config) : res DRAMSpec := construct DDR5_std cfg.

(** ** GDDR6 *)
Definition GDDR6_traits : traits :=
  mkTraits 0 1 None 3 (Some 0) None None 2 1.

Definition GDDR6_std : standard :=
  mkStd "GDDR6" 5 9 3 24
    ["Channel"; "BankGroup"; "Bank"; "Row"; "Column"]
    ["ACT"; "PREab"; "PREpb"; "RD"; "WR"; "RDA"; "WRA"; "REFab"; "REFpb"]
    ["Opened"; "Closed"; "N_A"]
    ["rate"; "nBL"; "nCL"; "nRCDRD"; "nRCDWD"; "nRP"; "nRAS"; "nRC"; "nWR"; "nRTP"; "nCWL";
    "nCCDS"; "nCCDL"; "nRRDS"; "nRRDL"; "nWTRS"; "nWTRL"; "nFAW"; "nRFC"; "nRFCpb"; "nRREFD";
    "nREFI"; "tCK_ps"; "nRFCab"]
    16 [2; 2; 1; 1; 2] [3; 4] GDDR6_traits
    [Cmd_ACT GDDR6_traits; Cmd_PREab GDDR6_traits; Cmd_PREpb GDDR6_traits; Cmd_RD GDDR6_traits;
    Cmd_WR GDDR6_traits; Cmd_RDA GDDR6_traits; Cmd_WRA GDDR6_traits; Cmd_REFab GDDR6_traits;
    Cmd_REFpb GDDR6_traits]
    [] [].

Definition GDDR6 (cfg : dram_config) : res DRAMSpec := construct GDDR6_std cfg.

(** ** LPDDR5 *)
Definition LPDDR5_traits : traits :=
  mkTraits 0 1 (Some 2) 4 None (Some 0) (Some 1) 2 3.

Definition LPDDR5_std : standard :=
  mkStd "LPDDR5" 6 12 4 30
    ["Channel"; "Rank"; "BankGroup"; "Bank"; "Row"; "Column"]
    ["ACT1"; "ACT2"; "PREpb"; "PREab"; "CAS_RD"; "CAS_WR"; "RD"; "WR"; "RDA"; "WRA"; "REFab";
    "REFpb"]
    ["Opened"; "Closed"; "Activating"; "N_A"]
    ["rate"; "nBL"; "nCL"; "nRCD"; "nRP"; "nRPab"; "nRAS"; "nRC"; "nWR"; "nRTP"; "nCWL"; "nPPD";
    "nCCDS"; "nCCDL"; "nCCDS_WR"; "nCCDL_WR"; "nRRDS"; "nRRDL"; "nWTRS"; "nWTRL"; "nFAW";
    "nRFC"; "nRFCpb"; "nREFI"; "nREFIpb"; "nWCKPST"; "nCAS"; "nAAD"; "nCS"; "tCK_ps"]
    16 [3; 3; 3; 1; 1; 3] [6; 7] LPDDR5_traits
    [Cmd_ACT1 LPDDR5_traits; Cmd_ACT2 LPDDR5_traits; Cmd_PREpb LPDDR5_traits; Cmd_PREab
    LPDDR5_traits; Cmd_CAS_RD; Cmd_CAS_WR; Cmd_RD LPDDR5_traits; Cmd_WR LPDDR5_traits; Cmd_RDA
    LPDDR5_traits; Cmd_WRA LPDDR5_traits; Cmd_REFab LPDDR5_traits; Cmd_REFpb LPDDR5_traits]
    [] [].

Definition LPDDR5 (cfg : dram_config) : res DRAMSpec := construct LPDDR5_std cfg.

(** ** HBM1 *)
Definition HBM1_traits : traits :=
  mkTraits 0 1 None 3 (Some 0) None None 1 2.

Definition HBM1_std : standard :=
  mkStd "HBM1" 5 9 3 24
    ["Channel"; "BankGroup"; "Bank"; "Row"; "Column"]
    ["ACT"; "PREpb"; "PREab"; "RD"; "WR"; "RDA"; "WRA"; "REFab"; "REFpb"]
    ["Opened"; "Closed"; "N_A"]
    ["rate"; "nBL"; "nCL"; "nRCDRD"; "nRCDWR"; "nRP"; "nRAS"; "nRC"; "nWR"; "nRTPL"; "nCWL";
    "nCCDS"; "nCCDL"; "nRRDS"; "nRRDL"; "nWTRS"; "nWTRL"; "nFAW"; "nRFC"; "nRFCpb"; "nRREFD";
    "nREFI"; "nREFIpb"; "tCK_ps"]
    2 [2; 2; 1; 1; 2] [3; 4] HBM1_traits
    [Cmd_ACT HBM1_traits; Cmd_PREpb HBM1_traits; Cmd_PREab HBM1_traits; Cmd_RD HBM1_traits;
    Cmd_WR HBM1_traits; Cmd_RDA HBM1_traits; Cmd_WRA HBM1_traits; Cmd_REFab HBM1_traits;
    Cmd_REFpb HBM1_traits]
    [0; 1; 2; 7; 8] [3; 4; 5; 6].

Definition HBM1 (cfg : dram_config) : res DRAMSpec := construct HBM1_std cfg.

(** ** HBM2 *)
Definition HBM2_traits : traits :=
  mkTraits 0 1 None 4 (Some 0) None None 1 2.

Definition HBM2_std : standard :=
  mkStd "HBM2" 6 9 3 24
    ["Channel"; "PseudoChannel"; "BankGroup"; "Bank"; "Row"; "Column"]
    ["ACT"; "PREpb"; "PREab"; "RD"; "WR"; "RDA"; "WRA"; "REFab"; "REFpb"]
    ["Opened"; "Closed"; "N_A"]
    ["rate"; "nBL"; "nCL"; "nRCDRD"; "nRCDWR"; "nRP"; "nRAS"; "nRC"; "nWR"; "nRTPL"; "nCWL";
    "nCCDS"; "nCCDL"; "nRRDS"; "nRRDL"; "nWTRS"; "nWTRL"; "nFAW"; "nRFC"; "nRFCpb"; "nRREFD";
    "nREFI"; "nREFIpb"; "tCK_ps"]
    4 [2; 2; 2; 1; 1; 2] [3; 4] HBM2_traits
    [Cmd_ACT HBM2_traits; Cmd_PREpb HBM2_traits; Cmd_PREab HBM2_traits; Cmd_RD HBM2_traits;
    Cmd_WR HBM2_traits; Cmd_RDA HBM2_traits; Cmd_WRA HBM2_traits; Cmd_REFab HBM2_traits;
    Cmd_REFpb HBM2_traits]
    [0; 1; 2; 7; 8] [3; 4; 5; 6].

Definition HBM2 (cfg : dram_config) : res DRAMSpec := construct HBM2_std cfg.

(** ** HBM3 *)
Definition HBM3_traits : traits :=
  mkTraits 0 1 None 5 (Some 0) None None 1 2.

Definition HBM3_std : standard :=
  mkStd "HBM3" 7 11 3 29
    ["Channel"; "PseudoChannel"; "Sid"; "BankGroup"; "Bank"; "Row"; "Column"]
    ["ACT"; "PREpb"; "PREab"; "RD"; "WR"; "RDA"; "WRA"; "REFab"; "REFpb"; "RFMab"; "RFMpb"]
    ["Opened"; "Closed"; "N_A"]
    ["rate"; "nBL"; "nCL"; "nRCDRD"; "nRCDWR"; "nRP"; "nRAS"; "nRC"; "nWR"; "nRTP"; "nCWL";
    "nCCDS"; "nCCDL"; "nCCDR"; "nRRDS"; "nRRDL"; "nWTRS"; "nWTRL"; "nRTW"; "nFAW"; "nPPD";
    "nRFC"; "nRFCpb"; "nRFMab"; "nRFMpb"; "nRREFD"; "nREFI"; "nREFIpb"; "tCK_ps"]
    8 [2; 2; 2; 2; 1; 1; 2] [3; 4] HBM3_traits
    [Cmd_ACT HBM3_traits; Cmd_PREpb HBM3_traits; Cmd_PREab HBM3_traits; Cmd_RD HBM3_traits;
    Cmd_WR HBM3_traits; Cmd_RDA HBM3_traits; Cmd_WRA HBM3_traits; Cmd_REFab HBM3_traits;
    Cmd_REFpb HBM3_traits; Cmd_RFMab HBM3_traits; Cmd_RFMpb HBM3_traits]
    [0; 1; 2; 7; 8; 9; 10] [3; 4; 5; 6].

Definition HBM3 (cfg : dram_config) : res DRAMSpec := construct HBM3_std cfg.

(** ** HBM4 *)
Definition HBM4_traits : traits :=
  mkTraits 0 1 None 5 (Some 0) None None 1 2.

Definition HBM4_std : standard :=
  mkStd "HBM4" 7 11 3 29
    ["Channel"; "PseudoChannel"; "Sid"; "BankGroup"; "Bank"; "Row"; "Column"]
    ["ACT"; "PREpb"; "PREab"; "RD"; "WR"; "RDA"; "WRA"; "REFab"; "REFpb"; "RFMab"; "RFMpb"]
    ["Opened"; "Closed"; "N_A"]
    ["rate"; "nBL"; "nCL"; "nRCDRD"; "nRCDWR"; "nRP"; "nRAS"; "nRC"; "nWR"; "nRTP"; "nCWL";
    "nCCDS"; "nCCDL"; "nCCDR"; "nRRDS"; "nRRDL"; "nWTRS"; "nWTRL"; "nRTW"; "nFAW"; "nPPD";
    "nRFC"; "nRFCpb"; "nRFMab"; "nRFMpb"; "nRREFD"; "nREFI"; "nREFIpb"; "tCK_ps"]
    8 [2; 2; 2; 2; 1; 1; 2] [3; 4] HBM4_traits
    [Cmd_ACT HBM4_traits; Cmd_PREpb HBM4_traits; Cmd_PREab HBM4_traits; Cmd_RD HBM4_traits;
    Cmd_WR HBM4_traits; Cmd_RDA HBM4_traits; Cmd_WRA HBM4_traits; Cmd_REFab HBM4_traits;
    Cmd_REFpb HBM4_traits; Cmd_RFMab HBM4_traits; Cmd_RFMpb HBM4_traits]
    [0; 1; 2; 7; 8; 9; 10] [3; 4; 5; 6].

Definition HBM4 (cfg : dram_config) : res DRAMSpec := construct HBM4_std cfg.

(** ** Self-registration *)
Definition all_standards : list standard :=
  [DDR3_std; DDR4_std; DDR5_std; GDDR6_std; LPDDR5_std; HBM1_std; HBM2_std; HBM3_std; HBM4_std].

Definition registry : gmap string Creator :=
  foldr (fun d reg => register_standard reg (std_name d) (construct d)) ∅ all_standards.

(** * Consistency of the standards *)

(** The implementation a command name stands for. *)
Definition impl_by_name (T : traits) (name : string) : option cmd_impl :=
  list_to_map (M := gmap string cmd_impl)
    [("ACT", Cmd_ACT T); ("ACT1", Cmd_ACT1 T); ("ACT2", Cmd_ACT2 T); ("PREpb", Cmd_PREpb T);
     ("PREab", Cmd_PREab T); ("RD", Cmd_RD T); ("WR", Cmd_WR T); ("RDA", Cmd_RDA T);
     ("WRA", Cmd_WRA T); ("REFab", Cmd_REFab T); ("REFpb", Cmd_REFpb T); ("RFMab", Cmd_RFMab T);
     ("RFMpb", Cmd_RFMpb T); ("CAS_RD", Cmd_CAS_RD); ("CAS_WR", Cmd_CAS_WR)] !! name.

(** A metadata record without its bus flags. *)
Definition strip_bus (m : DRAMCommandMeta) : DRAMCommandMeta :=
  mkMeta (is_opening m) (is_closing m) (is_accessing m) (is_refreshing m) false false.

Lemma mark_strip f ms cmd ms' :
  (forall m, strip_bus (f m) = strip_bus m) -> mark f ms cmd = Ok ms' ->
  map strip_bus ms' = map strip_bus ms.
Proof.
  intros Hf H. unfold mark in H. inv_res. apply vget_Ok in E as [_ E].
  apply vset_Ok in H as [_ ->].
  etrans; [apply (list_fmap_insert strip_bus)|]. rewrite Hf.
  apply list_insert_id. by rewrite list_lookup_fmap, E.
Qed.

Lemma marks_strip f ms cmds ms' :
  (forall m, strip_bus (f m) = strip_bus m) -> foldM (mark f) cmds ms = Ok ms' ->
  map strip_bus ms' = map strip_bus ms.
Proof.
  intros Hf. apply (foldM_inv (fun x => map strip_bus x = map strip_bus ms)); [|done].
  intros x b b' _ Hb Hm. rewrite (mark_strip f b x b' Hf Hm). exact Hb.
Qed.

(** What every constructor establishes. *)
Record constructed (d : standard) (s : DRAMSpec) : Prop := {
  con_loaded : config_loaded s;
  con_levels : levels s = (set_names (std_levels d)).1;
  con_commands : commands s = (set_names (std_commands d)).1;
  con_states : states s = (set_names (std_states d)).1;
  con_level_count : level_count s = std_level_COUNT d;
  con_command_count : command_count s = std_command_COUNT d;
  con_init : init_states s = std_init_states d;
  con_requests : supported_requests s = std_requests d;
  con_meta : map strip_bus (command_meta s) = map (strip_bus ∘ impl_meta) (std_impls d);
  con_targets : bank_targets s = map impl_target (std_impls d);
  con_funcs : funcs s = mkFuncs (map impl_action (std_impls d)) (map impl_preq (std_impls d))
                          (map impl_rowhit (std_impls d)) (map impl_rowopen (std_impls d));
  con_names : command_names s = std_commands d;
  con_level_names : level_names s = std_levels d;
  con_name : standard_name s = std_name d
}.

Lemma construct_constructed d cfg s :
  std_command_COUNT d = Z.of_nat (length (std_impls d)) ->
  construct d cfg = Ok s -> constructed d s.
Proof.
  intros Hlen H. unfold construct in H. cbv zeta in H.
  apply bind_Ok_inv in H as (s1 & H1 & H).
  pose proof (load_config_loaded _ _ _ H1) as (Hl & Hlc & Hcc). cbn in Hlc, Hcc.
  unfold load_config in H1. inv_res. dcase H1; [discriminate|]. inv_res.
  rewrite populate_commands_ok in E by (subst s1; cbn; exact Hlen).
  inv_res. subst. unfold registered in *. rewrite !app_nil_r in *.
  cbn [command_meta with_commands] in *.
  split; try done.
  - by destruct Hl as [Hc Hf Hch].
  - cbn [command_meta with_commands].
    rewrite (marks_strip set_column_command _ _ _ (fun _ => eq_refl) E1), (marks_strip set_row_command _ _ _ (fun _ => eq_refl) E0).
    by rewrite map_map.
Qed.

Lemma registered_lookup (ds : list standard) d :
  In d ds -> NoDup (map std_name ds) ->
  foldr (fun d reg => register_standard reg (std_name d) (construct d)) ∅ ds !! std_name d = Some (construct d).
Proof.
  induction ds as [|d0 ds IH]; [done|]. intros [->|Hin] Hnd; cbn [foldr map] in *; unfold register_standard at 1.
  - apply lookup_insert_eq.
  - apply NoDup_cons in Hnd as [Hd Hnd]. rewrite lookup_insert_ne by
      (intros E; apply Hd; rewrite E; apply list_elem_of_In, in_map, Hin). by apply IH.
Qed.

Lemma registry_lookup d : In d all_standards -> registry !! std_name d = Some (construct d).
Proof. intros Hin. apply (registered_lookup all_standards d Hin). apply (bool_decide_unpack _). vm_compute. exact I. Qed.

(** The static part of consistency, decided by evaluation: names are
    pairwise different, the enumerators of the traits are the positions of
    the names, and the i-th implementation is the one the i-th name stands
    for. *)
Definition name_at (names : list string) (i : Z) (n : string) : bool :=
  bool_decide (zlookup names i = Some n).

Definition opt_name_at (names : list string) (o : option Z) (n : string) : bool :=
  match o with Some i => name_at names i n | None => negb (bool_decide (n ∈ names)) end.

Definition std_static_ok (d : standard) : bool :=
  let T := std_traits d in
  bool_decide (NoDup (std_levels d)) && bool_decide (NoDup (std_commands d)) &&
  bool_decide (NoDup (std_states d)) &&
  (std_level_COUNT d =? Z.of_nat (length (std_levels d))) &&
  (std_command_COUNT d =? Z.of_nat (length (std_commands d))) &&
  (std_command_COUNT d =? Z.of_nat (length (std_impls d))) &&
  (std_level_COUNT d =? Z.of_nat (length (std_init_states d))) &&
  name_at (std_states d) (T_Opened T) "Opened" && name_at (std_states d) (T_Closed T) "Closed" &&
  opt_name_at (std_states d) (T_Activating T) "Activating" &&
  name_at (std_levels d) (T_Row T) "Row" && name_at (std_levels d) (T_Row T - 1) "Bank" &&
  bool_decide (zlookup (std_init_states d) (T_Row T - 1) = Some (T_Closed T)) && (1 <? T_Row T) && (T_Row T <? std_level_COUNT d) && (std_level_COUNT d =? T_Row T + 2) &&
  opt_name_at (std_commands d) (T_ACT T) "ACT" &&
  opt_name_at (std_commands d) (T_ACT1 T) "ACT1" && opt_name_at (std_commands d) (T_ACT2 T) "ACT2" &&
  name_at (std_commands d) (T_PREpb T) "PREpb" && name_at (std_commands d) (T_PREab T) "PREab" &&
  match std_requests d with
  | [r; w] => name_at (std_commands d) r "RD" && name_at (std_commands d) w "WR"
  | _ => false
  end.

Lemma all_standards_static_ok : forallb std_static_ok all_standards = true.
Proof. vm_compute. reflexivity. Qed.

(** The i-th implementation is that of the i-th name: an equation between
    lists of handler functions. *)
Lemma all_standards_impls :
  Forall (fun d => map Some (std_impls d) = map (impl_by_name (std_traits d)) (std_commands d)) all_standards.
Proof. repeat constructor. Qed.

Lemma all_standards_traits_wf : Forall (fun d => traits_wf (std_traits d)) all_standards.
Proof.
  repeat apply Forall_cons_2; [..|apply Forall_nil_2].
  all: split; cbn; try done; try (intros a [= <-]; done); try (intros; by eexists);
    split; intros [? ?]; by eexists || done.
Qed.

(** ** The consistency theorem *)
Lemma name_at_id names i n m kind :
  NoDup names -> m = (set_names names).1 -> name_at names i n = true -> lookup_name kind m n = Ok i.
Proof.
  intros Hnd -> H. unfold name_at in H. apply bool_decide_eq_true in H.
  unfold zlookup in H. destruct (Z.ltb_spec i 0); [discriminate|].
  unfold lookup_name. by rewrite (proj2 (set_names_lookup names n i Hnd)).
Qed.

(** Handlers found at a command id. *)
Record handlers_at (s : DRAMSpec) (id : Z) (c : cmd_impl) : Prop := {
  ha_target : zlookup (bank_targets s) id = Some (impl_target c);
  ha_action : zlookup (actions (funcs s)) id = Some (impl_action c);
  ha_preq : zlookup (preqs (funcs s)) id = Some (impl_preq c);
  ha_rowhit : zlookup (rowhits (funcs s)) id = Some (impl_rowhit c);
  ha_rowopen : zlookup (rowopens (funcs s)) id = Some (impl_rowopen c);
  ha_meta : strip_bus <$> zlookup (command_meta s) id = Some (strip_bus (impl_meta c))
}.

Lemma zlookup_map {A B} (f : A -> B) (l : list A) i :
  zlookup (map f l) i = f <$> zlookup l i.
Proof. unfold zlookup. destruct (i <? 0); [done|]. apply list_lookup_fmap. Qed.

Lemma constructed_handlers d s id c :
  constructed d s -> zlookup (std_impls d) id = Some c -> handlers_at s id c.
Proof.
  intros [? ? ? ? ? ? ? ? Hm Ht Hf] Hc. split.
  1: by rewrite Ht, zlookup_map, Hc.
  1-4: rewrite Hf; cbn; by rewrite zlookup_map, Hc.
  assert (zlookup (map strip_bus (command_meta s)) id = Some (strip_bus (impl_meta c))) as H.
  { rewrite Hm, zlookup_map, Hc. done. }
  by rewrite zlookup_map in H.
Qed.

Lemma all_standards_check d :
  In d all_standards ->
  std_static_ok d = true /\ traits_wf (std_traits d) /\
  map Some (std_impls d) = map (impl_by_name (std_traits d)) (std_commands d).
Proof.
  intros Hin. apply list_elem_of_In in Hin. split_and!.
  - pose proof all_standards_static_ok as H. rewrite forallb_forall in H.
    apply H. by apply list_elem_of_In.
  - pose proof all_standards_traits_wf as H. rewrite Forall_forall in H. by apply H.
  - pose proof all_standards_impls as H. rewrite Forall_forall in H. by apply H.
Qed.

Lemma standard_static d cfg s :
  In d all_standards -> construct d cfg = Ok s ->
  constructed d s /\ traits_wf (std_traits d) /\ NoDup (std_levels d) /\ NoDup (std_commands d) /\
  NoDup (std_states d) /\ 1 < T_Row (std_traits d) < level_count s /\
  Z.of_nat (length (init_states s)) = level_count s /\ std_static_ok d = true.
Proof.
  intros Hin Hcon. destruct (all_standards_check d Hin) as (Hs & Hwf & _). pose proof Hs as Hs'.
  unfold std_static_ok in Hs. bool_hyps.
  repeat match goal with H : bool_decide _ = true |- _ => apply bool_decide_eq_true in H end.
  assert (constructed d s) as C by (eapply construct_constructed; eauto).
  destruct C eqn:EC. split_and!; try done; congruence.
Qed.

Lemma standard_levels d cfg s :
  In d all_standards -> construct d cfg = Ok s ->
  get_level_id s "Row" = Ok (T_Row (std_traits d)) /\ get_level_id s "Bank" = Ok (T_Row (std_traits d) - 1).
Proof.
  intros Hin Hcon. destruct (standard_static d cfg s Hin Hcon) as ([] & _ & Hnd & _ & _ & _ & _ & Hs).
  unfold std_static_ok in Hs. bool_hyps. unfold get_level_id. eauto using name_at_id.
Qed.

Lemma standard_handlers d cfg s name id :
  In d all_standards -> construct d cfg = Ok s -> get_command_id s name = Ok id ->
  exists c, impl_by_name (std_traits d) name = Some c /\ handlers_at s id c.
Proof.
  intros Hin Hcon Hid. destruct (all_standards_check d Hin) as (_ & _ & Himpl).
  destruct (standard_static d cfg s Hin Hcon) as (C & _ & _ & Hnd & _).
  unfold get_command_id, lookup_name in Hid.
  destruct (commands s !! name) as [i|] eqn:Ei; [|discriminate]. cbn in Hid. injection Hid as ->.
  rewrite (con_commands d s C) in Ei. apply set_names_lookup in Ei as [Hid0 Hn]; [|done]. cbn in Hn.
  assert (zlookup (map Some (std_impls d)) id = Some (impl_by_name (std_traits d) name)) as Hz.
  { rewrite Himpl, zlookup_map. unfold zlookup. destruct (Z.ltb_spec id 0); [lia|]. by rewrite Hn. }
  rewrite zlookup_map in Hz. destruct (zlookup (std_impls d) id) as [c|] eqn:Ec; [|discriminate].
  cbn in Hz. injection Hz as Hz. exists c. split; [done|]. by eapply constructed_handlers.
Qed.

Lemma command_id_range d cfg s name id :
  In d all_standards -> construct d cfg = Ok s -> get_command_id s name = Ok id ->
  0 <= id < command_count s /\ std_commands d !! Z.to_nat id = Some name.
Proof.
  intros Hin Hcon Hid. destruct (standard_static d cfg s Hin Hcon) as (C & _ & _ & Hnd & _ & _ & _ & Hs).
  unfold get_command_id, lookup_name in Hid. rewrite (con_commands d s C) in Hid.
  destruct ((set_names (std_commands d)).1 !! name) as [i|] eqn:Ei; [|discriminate].
  cbn in Hid. injection Hid as ->. apply set_names_lookup in Ei as [H0 Hn]; [|done]. cbn in Hn. split; [|done].
  rewrite (con_command_count d s C). unfold std_static_ok in Hs. bool_hyps.
  apply lookup_lt_Some in Hn. lia.
Qed.

Lemma command_id_inj d cfg s n1 n2 id :
  In d all_standards -> construct d cfg = Ok s ->
  get_command_id s n1 = Ok id -> get_command_id s n2 = Ok id -> n1 = n2.
Proof.
  intros Hin Hcon H1 H2. apply (command_id_range d cfg s) in H1 as [_ H1], H2 as [_ H2]; [|done..]. congruence.
Qed.

(** The ids of the commands the resolvers answer with. *)
Lemma standard_command_ids d cfg s :
  In d all_standards -> construct d cfg = Ok s ->
  let T := std_traits d in
  get_command_id s "PREpb" = Ok (T_PREpb T) /\ get_command_id s "PREab" = Ok (T_PREab T) /\
  (forall a, T_ACT T = Some a -> get_command_id s "ACT" = Ok a) /\
  (forall a, T_ACT1 T = Some a -> get_command_id s "ACT1" = Ok a) /\
  (forall a, T_ACT2 T = Some a -> get_command_id s "ACT2" = Ok a).
Proof.
  intros Hin Hcon T. destruct (standard_static d cfg s Hin Hcon) as ([] & _ & _ & Hnd & _ & _ & _ & Hs).
  unfold std_static_ok in Hs. bool_hyps. unfold get_command_id.
  split_and!; eauto using name_at_id; intros a Ha; unfold T in Ha;
    repeat match goal with H : opt_name_at _ _ _ = true |- _ => unfold opt_name_at in H end;
    rewrite Ha in *; eauto using name_at_id.
Qed.

(** Every standard is internally consistent: the enumerators the command templates
    use are the ids of the corresponding names, and the handlers, metadata and bank
    target registered at a command id are those of the command with that name. *)
Theorem standard_consistent d cfg s :
  In d all_standards -> construct d cfg = Ok s ->
  let T := std_traits d in
  traits_wf T /\
  get_state_id s "Opened" = Ok (T_Opened T) /\ get_state_id s "Closed" = Ok (T_Closed T) /\
  get_level_id s "Row" = Ok (T_Row T) /\
  get_command_id s "PREpb" = Ok (T_PREpb T) /\ get_command_id s "PREab" = Ok (T_PREab T) /\
  Z.of_nat (length (init_states s)) = level_count s /\
  forall name id, get_command_id s name = Ok id ->
    exists c, impl_by_name T name = Some c /\ handlers_at s id c.
Proof.
  intros Hin Hcon T.
  destruct (standard_static d cfg s Hin Hcon) as ([] & Hwf & Hnl & Hnc & Hns & _ & Hlen & Hs).
  pose proof (standard_levels d cfg s Hin Hcon) as [Hrow _].
  unfold std_static_ok in Hs. bool_hyps. unfold get_state_id, get_command_id.
  split_and!; eauto using name_at_id. intros. by eapply standard_handlers.
Qed.

(** A DDR4 device with one rank of two bank groups of two banks, a few of the
    constraints of [ddr4.py] among them: the running example of the
    development. *)
Definition cfg_small : dram_config :=
  mkCfg 64 8 [1; 1; 2; 2; 16; 8] (replicate 21 10) 20
    [ mkRow 3 [0] [3; 4] 4 None None;       (* Bank: ACT -> RD, WR, nRCD *)
      mkRow 3 [0] [1] 9 None None;          (* Bank: ACT -> PREpb, nRAS *)
      mkRow 3 [1] [0] 5 None None;          (* Bank: PREpb -> ACT, nRP *)
      mkRow 1 [0] [0] 12 (Some 4) None;     (* Rank: four ACTs, nFAW *)
      mkRow 1 [3] [3] 3 None (Some true);   (* Rank: RD -> RD to another rank, nCS *)
      mkRow 2 [3] [3] 2 None None ].        (* BankGroup: RD -> RD, nCCDL *)

Definition ddr4_small : DRAMSpec :=
  from_res (mkSpec ∅ ∅ ∅ ∅ [] [] [] [] 0 0 0 0 "" 0 0 0 0 [] [] [] [] [] [] [] [] (mkFuncs [] [] [] []))
    (construct DDR4_std cfg_small).

Lemma ddr4_small_ok : construct DDR4_std cfg_small = Ok ddr4_small.
Proof. apply from_res_Ok. vm_compute. reflexivity. Qed.

Lemma standard_consistent_witness :
  exists s, get_level_id s "Row" = Ok 4 /\ get_command_id s "PREab" = Ok 2.
Proof.
  exists ddr4_small.
  destruct (standard_consistent DDR4_std cfg_small ddr4_small) as (_ & _ & _ & Hrow & _ & Hpre & _).
  - right; left; done.
  - exact ddr4_small_ok.
  - rewrite Hrow, Hpre. split; reflexivity.
Defined.
