(* ===== verification/NodeTiming.v ===== *)
(** * NodeTiming: what the timing state of the hierarchy means

    The abstract specification is a history of issued commands.  A command
    addressed to [av] concerns the node at a path in one of three ways
    ([classify]); the constraints of the standard then say from which cycle
    on a further command is legal at that node ([timing_ok]).  This file
    shows that [update_timing] and [check_timing] implement this
    specification exactly. *)
From stdpp Require Import prelude gmap strings.
From S2P Require Import Prelude DramSpec Commands Standards Node.
Open Scope Z_scope.

(** ** The abstract specification *)
Inductive cls := Target | Sibling | Other.

#[export] Instance cls_eq_dec : EqDecision cls.
Proof. solve_decision. Defined.

Definition addresses (a id : Z) : bool := (id =? a) || (a =? -1).

Fixpoint classify (av : AddrVec_t) (lvl : nat) (id : Z) (p : list nat) : cls :=
  let a := default (-1) (av !! lvl) in
  match p with
  | [] => if addresses a id then Target else Sibling
  | i :: p => if addresses a id then classify av (S lvl) (Z.of_nat i) p else Other
  end.

(** An event at a node: how a command concerned it, the command, its cycle. *)
Definition event : Type := cls * Z * Z.

Definition times (k : cls) (p : Z) (evs : list event) : list Z :=
  omap (fun e => if bool_decide (e.1.1 = k) && (e.1.2 =? p) then Some e.2 else None) evs.

(** Command [c] is legal at cycle [x] at a node of level [lvl] that has seen
    [evs] (oldest first): every sibling constraint is met by every issue to
    a sibling, and a constraint with window [w] is met by the w-th most
    recent issue to the node and by all issues before that. *)
Definition timing_ok (s : DRAMSpec) (lvl : nat) (evs : list event) (c x : Z) : Prop :=
  forall p es e, cons_at (timing_cons s) lvl p = Ok es -> In e es -> tc_cmd e = c ->
    if tc_sibling e then Forall (fun t => t + tc_val e <= x) (times Sibling p evs)
    else forall i t, rev (times Target p evs) !! i = Some t ->
                     tc_window e <= Z.of_nat i + 1 -> t + tc_val e <= x.

(** The state change [local_target]/[local_sibling] make for one event. *)
Definition local_effect (s : DRAMSpec) (lvl : nat) (e : event) (st : list Z * list (list Z))
  : res (list Z * list (list Z)) :=
  match e.1.1 with
  | Target => local_target s lvl e.1.2 e.2 st
  | Sibling => local_sibling s lvl e.1.2 e.2 st
  | Other => Ok st
  end.

Definition run_local (s : DRAMSpec) (lvl : nat) (evs : list event) (st : list Z * list (list Z))
  : res (list Z * list (list Z)) :=
  foldM (fun st e => local_effect s lvl e st) evs st.

Definition local_init (s : DRAMSpec) (lvl : nat) : res (list Z * list (list Z)) :=
  hist ← init_history s lvl;
  Ok (replicate (Z.to_nat (command_count s)) (-1), hist).

(** ** Windows *)
Lemma window_of_aux es w :
  w <= foldl (fun w e => Z.max w (tc_window e)) w es /\
  forall e, In e es -> tc_window e <= foldl (fun w e => Z.max w (tc_window e)) w es.
Proof.
  revert w. induction es as [|e es IH]; intros w; cbn; [split; [lia|done]|].
  destruct (IH (Z.max w (tc_window e))) as [H1 H2]. split; [lia|].
  intros e' [->|Hin]; [lia|]. by apply H2.
Qed.

Lemma window_of_bound es e : In e es -> tc_window e <= window_of es.
Proof. intros H. unfold window_of. by apply (proj2 (window_of_aux es 0)). Qed.

Lemma push_history_take (n : nat) (l : list Z) (t : Z) :
  (n <= length l)%nat -> push_history (take n l) t = take n (t :: l).
Proof.
  intros Hn. destruct n as [|n]; [done|]. cbn [take].
  destruct l as [|y l]; [cbn in Hn; lia|]. cbn [take push_history].
  change (y :: take n l) with (take (S n) (y :: l)). f_equal.
  revert y l Hn. induction n as [|n IH]; intros y l Hn; [done|].
  destruct l as [|z l]; [cbn in Hn; lia|]. cbn [take removelast]. f_equal.
  apply (IH z l). cbn in *. lia.
Qed.

Lemma times_snoc k p evs (e : event) :
  times k p (evs ++ [e]) =
    times k p evs ++ (if bool_decide (e.1.1 = k) && (e.1.2 =? p) then [e.2] else []).
Proof.
  unfold times. rewrite omap_app. f_equal. cbn.
  by destruct (bool_decide (e.1.1 = k) && (e.1.2 =? p)).
Qed.

(** ** The effect of one loop over the constraints on one ready cycle *)
Lemma fold_sibling_spec clk es ready ready' c v :
  foldM (sibling_update clk) es ready = Ok ready' -> vget ready c = Ok v ->
  exists v', vget ready' c = Ok v' /\
    forall x, v' <= x <-> v <= x /\ forall e, In e es -> tc_sibling e = true -> tc_cmd e = c -> clk + tc_val e <= x.
Proof.
  revert ready v. induction es as [|e es IH]; intros ready v H Hv; cbn in H.
  - inv_res. subst. exists v. split; [done|]. intros x. split; [|tauto]. intros. split; [done|]. intros ? [].
  - apply bind_Ok_inv in H as (r1 & H1 & H).
    unfold sibling_update in H1. destruct (tc_sibling e) eqn:Es; cbn in H1.
    + inv_res. destruct (decide (tc_cmd e = c)) as [Hc|Hc].
      * subst c. rewrite Hv in E. inv_res. subst a.
        destruct (IH r1 _ H (vget_vset_eq _ _ _ _ H1)) as (v' & Hv' & Hx). exists v'. split; [done|].
        intros x. rewrite Hx. split.
        -- intros [Hm Hall]. split; [lia|]. intros e' [<-|Hin] Hs Hcc; [lia|]. by apply Hall.
        -- intros [Hm Hall]. split; [|intros e' Hin; apply Hall; by right].
           pose proof (Hall e (or_introl eq_refl) Es eq_refl). lia.
      * rewrite <- (vget_vset_ne _ _ _ _ _ H1 Hc) in Hv.
        destruct (IH r1 _ H Hv) as (v' & Hv' & Hx). exists v'. split; [done|].
        intros x. rewrite Hx. split; intros [Hm Hall]; (split; [done|]).
        -- intros e' [<-|Hin] Hs Hcc; [done|]. by apply Hall.
        -- intros e' Hin. apply Hall. by right.
    + inv_res. subst r1. destruct (IH ready _ H Hv) as (v' & Hv' & Hx). exists v'. split; [done|].
      intros x. rewrite Hx. split; intros [Hm Hall]; (split; [done|]).
      * intros e' [<-|Hin] Hs Hcc; [congruence|]. by apply Hall.
      * intros e' Hin. apply Hall. by right.
Qed.

Lemma fold_target_spec h es ready ready' c v :
  foldM (target_update h) es ready = Ok ready' -> vget ready c = Ok v ->
  exists v', vget ready' c = Ok v' /\
    forall x, v' <= x <-> v <= x /\ forall e past, In e es -> tc_sibling e = false -> tc_cmd e = c ->
      vget h (tc_window e - 1) = Ok past -> 0 <= past -> past + tc_val e <= x.
Proof.
  revert ready v. induction es as [|e es IH]; intros ready v H Hv; cbn in H.
  - inv_res. subst. exists v. split; [done|]. intros x. split; [|tauto]. intros. split; [done|]. intros ? ? [].
  - apply bind_Ok_inv in H as (r1 & H1 & H).
    unfold target_update in H1. destruct (tc_sibling e) eqn:Es.
    + inv_res. subst r1. destruct (IH ready _ H Hv) as (v' & Hv' & Hx). exists v'. split; [done|].
      intros x. rewrite Hx. split; intros [Hm Hall]; (split; [done|]).
      * intros e' past [<-|Hin] Hs; [congruence|]. by apply Hall.
      * intros e' past Hin. apply Hall. by right.
    + apply bind_Ok_inv in H1 as (past & Hpast & H1). destruct (past <? 0) eqn:Ep.
      * inv_res. subst r1. bool_hyps.
        destruct (IH ready _ H Hv) as (v' & Hv' & Hx). exists v'. split; [done|].
        intros x. rewrite Hx. split; intros [Hm Hall]; (split; [done|]).
        -- intros e' past' [<-|Hin] Hs Hcc Hp; [intros; rewrite Hpast in Hp; inv_res; lia|]. by eapply Hall.
        -- intros e' past' Hin. apply Hall. by right.
      * bool_hyps. apply bind_Ok_inv in H1 as (old & Hold & H1).
        destruct (decide (tc_cmd e = c)) as [Hc|Hc].
        -- subst c. rewrite Hv in Hold. inv_res. subst old.
           destruct (IH r1 _ H (vget_vset_eq _ _ _ _ H1)) as (v' & Hv' & Hx). exists v'. split; [done|].
           intros x. rewrite Hx. split.
           ++ intros [Hm Hall]. split; [lia|]. intros e' past' [<-|Hin] Hs Hcc Hp.
              { rewrite Hpast in Hp. inv_res. lia. } by eapply Hall.
           ++ intros [Hm Hall]. split; [|intros e' past' Hin; apply Hall; by right].
              pose proof (Hall e past (or_introl eq_refl) Es eq_refl Hpast Ep). lia.
        -- rewrite <- (vget_vset_ne _ _ _ _ _ H1 Hc) in Hv.
           destruct (IH r1 _ H Hv) as (v' & Hv' & Hx). exists v'. split; [done|].
           intros x. rewrite Hx. split; intros [Hm Hall]; (split; [done|]).
           ++ intros e' past' [<-|Hin] Hs Hcc; [done|]. by apply Hall.
           ++ intros e' past' Hin. apply Hall. by right.
Qed.

(** A loop over target constraints that succeeds has read every window. *)
Lemma fold_target_windows h es ready ready' e :
  foldM (target_update h) es ready = Ok ready' -> In e es -> tc_sibling e = false ->
  is_Ok (vget h (tc_window e - 1)).
Proof.
  revert ready. induction es as [|e' es IH]; intros ready H Hin Hs; [done|].
  cbn in H. apply bind_Ok_inv in H as (r1 & H1 & H). destruct Hin as [->|Hin]; [|by eapply IH].
  unfold target_update in H1. rewrite Hs in H1. apply bind_Ok_inv in H1 as (past & Hp & _). by exists past.
Qed.

(** ** The invariant of a node's timing state *)
Definition hist_ok (s : DRAMSpec) (lvl : nat) (evs : list event) (hist : list (list Z)) : Prop :=
  forall p h, vget hist p = Ok h ->
    exists es, cons_at (timing_cons s) lvl p = Ok es /\
      h = take (Z.to_nat (window_of es))
            (rev (times Target p evs) ++ replicate (Z.to_nat (window_of es)) (-1)).

Definition ready_ok (s : DRAMSpec) (lvl : nat) (evs : list event) (ready : list Z) : Prop :=
  forall c, 0 <= c < command_count s ->
    exists v, vget ready c = Ok v /\ -1 <= v /\ forall x, -1 <= x -> (v <= x <-> timing_ok s lvl evs c x).

Lemma timing_ok_nil s lvl c x : timing_ok s lvl [] c x.
Proof. intros p es e _ _ _. cbn. destruct (tc_sibling e); [done|]. intros i t H. by rewrite lookup_nil in H. Qed.

Lemma local_init_ok s lvl ready hist :
  local_init s lvl = Ok (ready, hist) -> hist_ok s lvl [] hist /\ ready_ok s lvl [] ready.
Proof.
  intros H. unfold local_init in H. apply bind_Ok_inv in H as (hh & Hh & H). injection H as <- <-. split.
  - intros p h Hp. unfold init_history in Hh. apply mapM_Ok in Hh.
    apply vget_Ok in Hp as [Hp0 Hp].
    destruct (Forall2_lookup_r _ _ _ _ _ Hh Hp) as (c & Hc & Hes).
    apply lookup_seqZ in Hc as [-> _]. inv_res. subst h.
    replace (0 + Z.of_nat (Z.to_nat p)) with p in E by lia.
    exists a. split; [done|]. cbn. by rewrite take_replicate, Nat.min_id.
  - intros c Hc. exists (-1). split_and!; [|lia|].
    + apply vget_Ok. split; [lia|]. apply lookup_replicate_2. lia.
    + intros x Hx. split; [|done]. intros _. apply timing_ok_nil.
Qed.

(** Adding an event of another kind or of another command leaves the issue
    times alone. *)
Lemma times_snoc_other k p evs e :
  (e.1.1 <> k \/ e.1.2 <> p) -> times k p (evs ++ [e]) = times k p evs.
Proof.
  intros H. rewrite times_snoc.
  assert (bool_decide (e.1.1 = k) && (e.1.2 =? p) = false) as ->; [|apply app_nil_r].
  destruct H as [H|H]; [case_bool_decide; [congruence|done]|].
  rewrite (proj2 (Z.eqb_neq _ _) H). apply andb_false_r.
Qed.

Lemma times_snoc_same k p evs t : times k p (evs ++ [(k, p, t)]) = times k p evs ++ [t].
Proof. rewrite times_snoc. cbn. by rewrite bool_decide_true, Z.eqb_refl. Qed.

(** What a further event adds to the legality of a command. *)
Lemma timing_ok_sibling s lvl evs p es t c x :
  cons_at (timing_cons s) lvl p = Ok es ->
  timing_ok s lvl (evs ++ [(Sibling, p, t)]) c x <->
  timing_ok s lvl evs c x /\
  forall e, In e es -> tc_sibling e = true -> tc_cmd e = c -> t + tc_val e <= x.
Proof.
  intros Hes. split.
  - intros H. split.
    + intros q qs e Hq Hin Hc. specialize (H q qs e Hq Hin Hc). destruct (tc_sibling e).
      * destruct (decide (q = p)) as [->|Hne].
        -- rewrite times_snoc_same in H. by apply Forall_app in H as [H _].
        -- by rewrite times_snoc_other in H by auto.
      * by rewrite times_snoc_other in H by auto.
    + intros e Hin Hs Hc. specialize (H p es e Hes Hin Hc). rewrite Hs, times_snoc_same in H.
      apply Forall_app in H as [_ H]. by inversion H.
  - intros [H Hnew] q qs e Hq Hin Hc. specialize (H q qs e Hq Hin Hc). destruct (tc_sibling e) eqn:Hs.
    + destruct (decide (q = p)) as [->|Hne].
      * rewrite times_snoc_same. apply Forall_app. split; [done|]. constructor; [|done].
        rewrite Hes in Hq. injection Hq as <-. auto.
      * by rewrite times_snoc_other by auto.
    + by rewrite times_snoc_other by auto.
Qed.

Lemma timing_ok_target s lvl evs p es t c x :
  cons_at (timing_cons s) lvl p = Ok es ->
  (forall e, In e es -> tc_sibling e = false -> 1 <= tc_window e) ->
  timing_ok s lvl (evs ++ [(Target, p, t)]) c x <->
  timing_ok s lvl evs c x /\
  forall e u, In e es -> tc_sibling e = false -> tc_cmd e = c ->
    (t :: rev (times Target p evs)) !! Z.to_nat (tc_window e - 1) = Some u -> u + tc_val e <= x.
Proof.
  intros Hes Hw. split.
  - intros H. split.
    + intros q qs e Hq Hin Hc. specialize (H q qs e Hq Hin Hc). destruct (tc_sibling e) eqn:Hs.
      * by rewrite times_snoc_other in H by auto.
      * destruct (decide (q = p)) as [->|Hne]; [|by rewrite times_snoc_other in H by auto].
        intros i u Hi Hwi. apply (H (S i) u); [|lia]. rewrite times_snoc_same, rev_app_distr. exact Hi.
    + intros e u Hin Hs Hc Hu. specialize (H p es e Hes Hin Hc). rewrite Hs in H.
      apply (H (Z.to_nat (tc_window e - 1)) u); [|lia]. by rewrite times_snoc_same, rev_app_distr.
  - intros [H Hnew] q qs e Hq Hin Hc. specialize (H q qs e Hq Hin Hc). destruct (tc_sibling e) eqn:Hs.
    + by rewrite times_snoc_other by auto.
    + destruct (decide (q = p)) as [->|Hne]; [|by rewrite times_snoc_other by auto].
      rewrite Hes in Hq. injection Hq as <-. specialize (Hw e Hin Hs).
      intros i u Hi Hwi. rewrite times_snoc_same, rev_app_distr in Hi. cbn in Hi.
      destruct (decide (tc_window e = Z.of_nat i + 1)) as [Hwe|Hwe].
      * apply (Hnew e u Hin Hs Hc). by replace (Z.to_nat (tc_window e - 1)) with i by lia.
      * destruct i as [|i]; [lia|]. apply (H i u); [exact Hi|lia].
Qed.

(** Reading the window of a node gives the w-th most recent issue. *)
Lemma window_read es e R past :
  In e es -> 1 <= tc_window e -> Forall (fun t => 0 <= t) R ->
  vget (take (Z.to_nat (window_of es)) (R ++ replicate (Z.to_nat (window_of es)) (-1)))
    (tc_window e - 1) = Ok past ->
  (0 <= past <-> R !! Z.to_nat (tc_window e - 1) = Some past) /\
  (forall u, R !! Z.to_nat (tc_window e - 1) = Some u -> u = past).
Proof.
  intros Hin Hw HR H. apply vget_Ok in H as [_ H].
  apply lookup_take_Some in H as [H Hlt].
  apply lookup_app_Some in H as [H|[Hge H]].
  - pose proof (Forall_lookup_1 _ _ _ _ HR H) as H0. cbn in H0. split; [tauto|]. intros u Hu. congruence.
  - apply lookup_replicate in H as [-> _]. rewrite lookup_ge_None_2 by lia. split; [split; [lia|done]|done].
Qed.

Definition nonneg_times (evs : list event) : Prop := Forall (fun e => 0 <= e.2) evs.

Lemma times_nonneg k p evs : nonneg_times evs -> Forall (fun t => 0 <= t) (times k p evs).
Proof.
  intros H. apply Forall_forall. intros t Ht. unfold times in Ht.
  apply list_elem_of_omap in Ht as (e & He & Hs). unfold nonneg_times in H. rewrite Forall_forall in H.
  destruct (_ && _); [injection Hs as <-; by apply H|discriminate].
Qed.

Lemma timing_ok_other s lvl evs p t c x :
  timing_ok s lvl (evs ++ [(Other, p, t)]) c x <-> timing_ok s lvl evs c x.
Proof.
  split; intros H q es e Hq Hin Hc; specialize (H q es e Hq Hin Hc);
    destruct (tc_sibling e); rewrite times_snoc_other in * by (left; done); exact H.
Qed.

Lemma local_sibling_ok s lvl evs p t ready hist ready' hist' :
  local_sibling s lvl p t (ready, hist) = Ok (ready', hist') ->
  hist_ok s lvl evs hist -> ready_ok s lvl evs ready ->
  hist_ok s lvl (evs ++ [(Sibling, p, t)]) hist' /\ ready_ok s lvl (evs ++ [(Sibling, p, t)]) ready'.
Proof.
  intros H Hh Hr. unfold local_sibling in H. apply bind_Ok_inv in H as (es & Hes & H).
  apply bind_Ok_inv in H as (r1 & Hf & H). injection H as <- <-. cbn in *. split.
  - intros q h Hq. destruct (Hh q h Hq) as (qs & Hqs & ->). exists qs. split; [done|].
    by rewrite times_snoc_other by (left; done).
  - intros c Hc. destruct (Hr c Hc) as (v & Hv & Hv1 & Hx).
    destruct (fold_sibling_spec _ _ _ _ _ _ Hf Hv) as (v' & Hv' & Hx'). exists v'. split_and!; [done| |].
    + destruct (proj1 (Hx' v')); lia.
    + intros x Hx1. rewrite Hx', Hx by done. by rewrite (timing_ok_sibling _ _ _ _ es).
Qed.

Lemma target_history s lvl evs p t es h :
  cons_at (timing_cons s) lvl p = Ok es ->
  h = take (Z.to_nat (window_of es))
        (rev (times Target p evs) ++ replicate (Z.to_nat (window_of es)) (-1)) ->
  push_history h t =
    take (Z.to_nat (window_of es))
      (rev (times Target p (evs ++ [(Target, p, t)])) ++ replicate (Z.to_nat (window_of es)) (-1)).
Proof.
  intros Hes ->. rewrite push_history_take by (rewrite length_app, length_replicate; lia).
  by rewrite times_snoc_same, rev_app_distr.
Qed.

Lemma local_target_ok s lvl evs p t ready hist ready' hist' :
  0 <= t -> nonneg_times evs ->
  local_target s lvl p t (ready, hist) = Ok (ready', hist') ->
  hist_ok s lvl evs hist -> ready_ok s lvl evs ready ->
  hist_ok s lvl (evs ++ [(Target, p, t)]) hist' /\ ready_ok s lvl (evs ++ [(Target, p, t)]) ready'.
Proof.
  intros Ht Hnn H Hh Hr. unfold local_target in H. apply bind_Ok_inv in H as (h & Hp & H).
  apply bind_Ok_inv in H as (h' & Hset & H). apply bind_Ok_inv in H as (es & Hes & H).
  apply bind_Ok_inv in H as (r1 & Hf & H). injection H as <- <-. cbn in *.
  destruct (Hh p h Hp) as (es' & Hes' & Heq). rewrite Hes in Hes'. injection Hes' as <-.
  pose proof (target_history s lvl evs p t es h Hes Heq) as Hpush. split.
  - intros q g Hq. destruct (decide (q = p)) as [->|Hne].
    + rewrite (vget_vset_eq _ _ _ _ Hset) in Hq. injection Hq as <-. eauto.
    + rewrite (vget_vset_ne _ _ _ _ _ Hset) in Hq by done.
      destruct (Hh q g Hq) as (qs & Hqs & ->). exists qs. split; [done|].
      by rewrite times_snoc_other by (right; cbn; congruence).
  - assert (HR : Forall (fun u => 0 <= u) (t :: rev (times Target p evs))).
    { constructor; [done|]. apply Forall_rev. by apply times_nonneg. }
    rewrite times_snoc_same, rev_app_distr in Hpush. cbn [rev app] in Hpush.
    assert (Hread : forall e, In e es -> tc_sibling e = false -> 1 <= tc_window e /\
      exists past, vget (push_history h t) (tc_window e - 1) = Ok past /\
      (0 <= past <-> (t :: rev (times Target p evs)) !! Z.to_nat (tc_window e - 1) = Some past) /\
      (forall u, (t :: rev (times Target p evs)) !! Z.to_nat (tc_window e - 1) = Some u -> u = past)).
    { intros e Hin Hs. destruct (fold_target_windows _ _ _ _ e Hf Hin Hs) as [past Hpast].
      assert (1 <= tc_window e) by (apply vget_Ok in Hpast; lia). split; [done|].
      exists past. split; [done|]. rewrite Hpush in Hpast.
      by apply (window_read es e (t :: rev (times Target p evs)) past). }
    intros c Hc. destruct (Hr c Hc) as (v & Hv & Hv1 & Hx).
    destruct (fold_target_spec _ _ _ _ _ _ Hf Hv) as (v' & Hv' & Hx'). exists v'. split_and!; [done| |].
    + destruct (proj1 (Hx' v')); lia.
    + intros x Hx1. rewrite Hx', Hx by done.
      rewrite (timing_ok_target s lvl evs p es t c x Hes)
        by (intros e He Hs; exact (proj1 (Hread e He Hs))).
      split; intros [H1 H2]; (split; [done|]).
      * intros e u Hin Hs Hce Hu. destruct (Hread e Hin Hs) as (_ & past & Hpast & Hiff & Huniq).
        pose proof (Huniq u Hu) as ->. apply (H2 e past Hin Hs Hce Hpast), Hiff, Hu.
      * intros e past Hin Hs Hce Hpast H0. destruct (Hread e Hin Hs) as (_ & past' & Hpast' & Hiff & _).
        rewrite Hpast in Hpast'. injection Hpast' as <-. apply (H2 e past Hin Hs Hce), Hiff, H0.
Qed.

Lemma local_effect_ok s lvl evs (e : event) st st' :
  0 <= e.2 -> nonneg_times evs -> local_effect s lvl e st = Ok st' ->
  hist_ok s lvl evs st.2 -> ready_ok s lvl evs st.1 ->
  hist_ok s lvl (evs ++ [e]) st'.2 /\ ready_ok s lvl (evs ++ [e]) st'.1.
Proof.
  destruct e as [[k p] t], st as [ready hist], st' as [ready' hist']. cbn.
  intros Ht Hnn He Hh Hr. destruct k; unfold local_effect in He; cbn in He.
  - by eapply local_target_ok.
  - by eapply local_sibling_ok.
  - injection He as <- <-. split.
    + intros q h Hq. destruct (Hh q h Hq) as (qs & Hqs & ->). exists qs. split; [done|].
      by rewrite times_snoc_other by (left; done).
    + intros c Hc. destruct (Hr c Hc) as (v & Hv & Hv1 & Hx). exists v. split_and!; [done..|].
      intros x Hx1. by rewrite timing_ok_other, Hx.
Qed.

(** The ready cycles of a node after any sequence of events, in terms of the
    specification. *)
Lemma run_local_ready s lvl evs st0 st :
  nonneg_times evs -> local_init s lvl = Ok st0 -> run_local s lvl evs st0 = Ok st ->
  hist_ok s lvl evs st.2 /\ ready_ok s lvl evs st.1.
Proof.
  intros Hnn Hi. revert st. induction evs as [|e evs IH] using rev_ind; intros st H.
  - cbn in H. injection H as <-. destruct st0. by apply local_init_ok.
  - unfold run_local in H. rewrite foldM_app in H. apply bind_Ok_inv in H as (st1 & H1 & H2).
    cbn in H2. apply bind_Ok_inv in H2 as (st2 & H2 & H3). injection H3 as <-.
    apply Forall_app in Hnn as [Hnn He]. inversion He; subst.
    destruct (IH Hnn st1 H1). by eapply local_effect_ok.
Qed.
