(* ===== verification/NodeTree.v ===== *)
(** * NodeTree: timing updates and checks over the whole hierarchy

    Lifts the per-node results of [NodeTiming] to the tree: every node sees
    exactly the events its position and the command addresses give it, also
    where [update_timing] skips children, and [check_timing] consults
    exactly the addressed nodes. *)
From stdpp Require Import prelude gmap strings.
From S2P Require Import Prelude DramSpec Commands Standards Node NodeTiming.
Open Scope Z_scope.

Definition n_local (n : node) : list Z * list (list Z) := (n_ready n, n_hist n).

(** Children are numbered by their index and sit one level down. *)
Definition tree_wf (n : node) : Prop :=
  forall p x k y, node_at n p = Some x -> n_children x !! k = Some y ->
    n_level y = S (n_level x) /\ n_id y = Z.of_nat k.

Lemma tree_wf_child n i c :
  tree_wf n -> n_children n !! i = Some c ->
  tree_wf c /\ n_level c = S (n_level n) /\ n_id c = Z.of_nat i.
Proof.
  intros H Hc. split; [|by apply (H [])].
  intros p x k y Hx Hy. apply (H (i :: p) x k y); [|done]. cbn. by rewrite Hc.
Qed.

(** ** List updates *)
Lemma update_child_Ok f l i l' :
  update_child f l i = Ok l' <-> exists x y, l !! i = Some x /\ f x = Ok y /\ l' = <[i := y]> l.
Proof.
  revert i l'. induction l as [|z l IH]; intros i l'; cbn.
  - split; [destruct i; discriminate|]. intros (x & y & H & _). by rewrite lookup_nil in H.
  - destruct i as [|i]; cbn.
    + split.
      * intros H. apply bind_Ok_inv in H as (y & Hy & H). injection H as <-. by exists z, y.
      * intros (x & y & [= <-] & Hy & ->). by rewrite Hy.
    + split.
      * intros H. apply bind_Ok_inv in H as (k & Hk & H). injection H as <-.
        apply IH in Hk as (x & y & Hx & Hy & ->). by exists x, y.
      * intros (x & y & Hx & Hy & ->). rewrite (proj2 (IH i (<[i:=y]> l))); [done|]. by exists x, y.
Qed.

(** ** The skip is sound *)
Lemma sibling_flag_spec s lvl cmd b :
  flags_agree s -> sibling_flag s lvl cmd = Ok b ->
  exists es, cons_at (timing_cons s) lvl cmd = Ok es /\ has_sibling es = b.
Proof.
  unfold flags_agree, sibling_flag. intros -> H. apply bind_Ok_inv in H as (row & Hrow & Hb).
  unfold sibling_flags in Hrow. apply vget_Ok in Hrow as [H0 Hrow].
  rewrite list_lookup_fmap in Hrow. apply fmap_Some in Hrow as (r & Hr & ->).
  apply vget_Ok in Hb as [H1 Hb]. rewrite list_lookup_fmap in Hb. apply fmap_Some in Hb as (es & He & ->).
  exists es. split; [|done]. unfold cons_at.
  rewrite (proj2 (vget_Ok (timing_cons s) _ r)) by done. cbn. by apply vget_Ok.
Qed.

Lemma local_sibling_skip s lvl cmd clk st es :
  cons_at (timing_cons s) lvl cmd = Ok es -> has_sibling es = false ->
  local_sibling s lvl cmd clk st = Ok st.
Proof.
  intros Hes Hs. unfold local_sibling. rewrite Hes. cbn.
  assert (foldM (sibling_update clk) es st.1 = Ok st.1) as ->; [|by destruct st].
  clear Hes. induction es as [|e es IH]; [done|]. cbn in Hs. apply orb_false_iff in Hs as [He Hs].
  cbn [foldM]. assert (sibling_update clk st.1 e = Ok st.1) as -> by (unfold sibling_update; by rewrite He).
  by apply IH.
Qed.

(** What an update may change at one node. *)
Definition step_at (s : DRAMSpec) (k : cls) (cmd clk : Z) (x x' : node) : Prop :=
  n_level x' = n_level x /\ n_id x' = n_id x /\ n_bank x' = n_bank x /\
  length (n_children x') = length (n_children x) /\
  local_effect s (n_level x) (k, cmd, clk) (n_local x) = Ok (n_local x').

Lemma step_at_other s cmd clk x : step_at s Other cmd clk x x.
Proof. by split_and!. Qed.

Lemma mapM_lookup {A B} (f : A -> res B) l k i x :
  mapM f l = Ok k -> l !! i = Some x -> exists y, k !! i = Some y /\ f x = Ok y.
Proof. intros H%mapM_Ok Hx. destruct (Forall2_lookup_l _ _ _ _ _ H Hx) as (y & ? & ?). eauto. Qed.

Lemma classify_other av lvl id i p :
  addresses (default (-1) (av !! lvl)) id = false -> classify av lvl id (i :: p) = Other.
Proof. intros H. cbn. by rewrite H. Qed.

Lemma vget_default av lvl a : vget av (Z.of_nat lvl) = Ok a -> default (-1) (av !! lvl) = a.
Proof. intros H%vget_nat. by rewrite H. Qed.

(** The update of the children of an addressed node: child [i] is updated,
    or it is skipped, is not the target, and has no sibling constraint. *)
Lemma children_update s cmd av clk lvl a1 flag ch ch' i c :
  flags_agree s -> vget av (Z.of_nat (S lvl)) = Ok a1 -> sibling_flag s (S lvl) cmd = Ok flag ->
  (if flag || (a1 =? -1) then mapM (update_timing s cmd av clk) ch = Ok ch'
   else 0 <= a1 /\ update_child (update_timing s cmd av clk) ch (Z.to_nat a1) = Ok ch') ->
  ch !! i = Some c -> n_level c = S lvl -> n_id c = Z.of_nat i ->
  exists c', ch' !! i = Some c' /\
    (update_timing s cmd av clk c = Ok c' \/
     (c' = c /\ addresses a1 (Z.of_nat i) = false /\
      local_sibling s (S lvl) cmd clk (n_local c) = Ok (n_local c))).
Proof.
  intros Hf Ha Hflag Hu Hc Hl Hi. destruct (flag || (a1 =? -1)) eqn:E.
  - destruct (mapM_lookup _ _ _ _ _ Hu Hc) as (c' & Hc' & Hc1). eauto.
  - destruct Hu as [H0 Hu]. apply orb_false_iff in E as [-> E].
    apply update_child_Ok in Hu as (x & y & Hx & Hy & ->).
    destruct (decide (i = Z.to_nat a1)) as [->|Hne].
    + rewrite Hc in Hx. injection Hx as <-. exists y.
      rewrite list_lookup_insert_eq by (by eapply lookup_lt_Some). auto.
    + exists c. rewrite list_lookup_insert_ne by done. split; [done|]. right. split; [done|]. split.
      * unfold addresses. rewrite E, orb_false_r. apply Z.eqb_neq. lia.
      * destruct (sibling_flag_spec s (S lvl) cmd false Hf Hflag) as (es & Hes & Hs).
        by apply (local_sibling_skip _ _ _ _ _ es).
Qed.

(** How a successful update went. *)
Definition children_step (s : DRAMSpec) (cmd : Z) (av : AddrVec_t) (clk : Z) (lvl : nat) (ch ch' : list node) : Prop :=
  match ch with
  | [] => ch' = []
  | _ =>
      exists a1 flag, vget av (Z.of_nat (S lvl)) = Ok a1 /\ sibling_flag s (S lvl) cmd = Ok flag /\
        if flag || (a1 =? -1) then mapM (update_timing s cmd av clk) ch = Ok ch'
        else 0 <= a1 /\ update_child (update_timing s cmd av clk) ch (Z.to_nat a1) = Ok ch'
  end.

Lemma children_step_length s cmd av clk lvl ch ch' :
  children_step s cmd av clk lvl ch ch' -> length ch' = length ch.
Proof.
  destruct ch as [|c ch]; [by intros ->|]. intros (a1 & fl & _ & _ & H). destruct (fl || (a1 =? -1)).
  - apply mapM_Ok, Forall2_length in H. done.
  - destruct H as [_ (? & ? & ? & ? & ->)%update_child_Ok]. apply length_insert.
Qed.

Lemma update_timing_inv s cmd av clk lvl id b r h ch n' :
  update_timing s cmd av clk (Node lvl id b r h ch) = Ok n' ->
  exists st ch', n' = Node lvl id b st.1 st.2 ch' /\
    if addresses (default (-1) (av !! lvl)) id
    then local_target s lvl cmd clk (r, h) = Ok st /\ children_step s cmd av clk lvl ch ch'
    else local_sibling s lvl cmd clk (r, h) = Ok st /\ ch' = ch.
Proof.
  intros Hu. cbn in Hu. apply bind_Ok_inv in Hu as (a & Ha & Hu). rewrite (vget_default _ _ _ Ha).
  unfold addresses. destruct (id =? a) eqn:E1, (a =? -1) eqn:E2; cbn in Hu |- *;
    apply bind_Ok_inv in Hu as (st & Hst & Hu); exists st.
  4: { injection Hu as <-. eauto. }
  all: destruct ch as [|c ch]; [injection Hu as <-; by exists []|].
  all: apply bind_Ok_inv in Hu as (a1 & Ha1 & Hu); apply bind_Ok_inv in Hu as (fl & Hfl & Hu).
  all: replace (Z.of_nat lvl + 1) with (Z.of_nat (S lvl)) in Ha1 by lia.
  all: destruct (fl || (a1 =? -1)) eqn:E; [|destruct (a1 <? 0) eqn:E0; [discriminate|apply Z.ltb_ge in E0]].
  all: apply bind_Ok_inv in Hu as (ch' & Hm & Hu); injection Hu as <-; exists ch'.
  all: split_and!; [done..|]; exists a1, fl; rewrite E; auto.
Qed.

(** Every node sees exactly the event its position gives it. *)
Lemma update_timing_local s cmd av clk p : forall n n' x,
  flags_agree s -> tree_wf n -> update_timing s cmd av clk n = Ok n' -> node_at n p = Some x ->
  exists x', node_at n' p = Some x' /\ step_at s (classify av (n_level n) (n_id n) p) cmd clk x x'.
Proof.
  induction p as [|i p IH]; intros [lvl id b r h ch] n' x Hf Hwf Hu Hx; cbn in Hx.
  all: destruct (update_timing_inv _ _ _ _ _ _ _ _ _ _ _ Hu) as ([r1 h1] & ch' & -> & Hcase).
  all: cbn [n_level n_id classify]; destruct (addresses _ id).
  - injection Hx as <-. destruct Hcase as [Hst Hch]. apply children_step_length in Hch.
    eexists. split; [done|]. by split_and!.
  - injection Hx as <-. destruct Hcase as [Hst ->]. eexists. split; [done|]. by split_and!.
  - destruct (ch !! i) as [c|] eqn:Hc; [|discriminate]. cbn in Hx. destruct Hcase as [_ Hch].
    destruct (tree_wf_child _ i c Hwf Hc) as (Hwfc & Hlc & Hic). cbn in Hlc.
    destruct ch as [|c0 ch]; [discriminate|]. destruct Hch as (a1 & fl & Ha1 & Hfl & Hch).
    destruct (children_update s cmd av clk lvl a1 fl _ ch' i c Hf Ha1 Hfl Hch Hc Hlc Hic)
      as (c' & Hc' & Hor).
    cbn [node_at n_children]. rewrite Hc'. cbn [mbind option_bind].
    apply vget_default in Ha1. destruct Hor as [Hupd|(-> & Hna & Hskip)].
    + destruct (IH c c' x Hf Hwfc Hupd Hx) as (x' & Hx' & Hstep). exists x'. split; [done|].
      by rewrite Hlc, Hic in Hstep.
    + exists x. split; [done|]. destruct p as [|j p].
      * cbn in Hx. injection Hx as <-. cbn [classify]. rewrite Ha1, Hna. split_and!; try done.
        cbn. by rewrite Hlc.
      * rewrite classify_other by (by rewrite Ha1). apply step_at_other.
  - destruct Hcase as [_ ->]. exists x. split; [done|]. apply step_at_other.
Qed.

(** ** Paths *)
Lemma node_at_app n p q : node_at n (p ++ q) = (x ← node_at n p; node_at x q).
Proof.
  revert n. induction p as [|i p IH]; intros n; [done|]. cbn.
  destruct (n_children n !! i); cbn; [apply IH|done].
Qed.

Lemma node_at_snoc n p i : node_at n (p ++ [i]) = (x ← node_at n p; n_children x !! i).
Proof.
  rewrite node_at_app. destruct (node_at n p) as [x|]; [|done]. cbn. by destruct (n_children x !! i).
Qed.

(** An update creates no nodes. *)
Lemma update_timing_shape s cmd av clk n n' p x' :
  flags_agree s -> tree_wf n -> update_timing s cmd av clk n = Ok n' ->
  node_at n' p = Some x' -> exists x, node_at n p = Some x.
Proof.
  intros Hf Hwf Hu. revert x'. induction p as [|i p IH] using rev_ind; intros x' Hx'; [by exists n|].
  rewrite node_at_snoc in Hx'. destruct (node_at n' p) as [y'|] eqn:Hy'; [|discriminate]. cbn in Hx'.
  destruct (IH y' eq_refl) as [y Hy].
  destruct (update_timing_local _ _ _ _ p _ _ _ Hf Hwf Hu Hy) as (y1 & Hy1 & _ & _ & _ & Hlen & _).
  rewrite Hy' in Hy1. injection Hy1 as <-. rewrite node_at_snoc, Hy. cbn.
  apply lookup_lt_is_Some_2. rewrite <- Hlen. by eapply lookup_lt_Some.
Qed.

Lemma update_timing_wf s cmd av clk n n' :
  flags_agree s -> tree_wf n -> update_timing s cmd av clk n = Ok n' -> tree_wf n'.
Proof.
  intros Hf Hwf Hu p x' k y' Hx' Hy'.
  destruct (update_timing_shape _ _ _ _ _ _ _ _ Hf Hwf Hu Hx') as [x Hx].
  assert (node_at n' (p ++ [k]) = Some y') as Hy1 by (rewrite node_at_snoc, Hx'; done).
  destruct (update_timing_shape _ _ _ _ _ _ _ _ Hf Hwf Hu Hy1) as [y Hy].
  destruct (update_timing_local _ _ _ _ _ _ _ _ Hf Hwf Hu Hx) as (x1 & Hx1 & L1 & I1 & _).
  destruct (update_timing_local _ _ _ _ _ _ _ _ Hf Hwf Hu Hy) as (y2 & Hy2 & L2 & I2 & _).
  simplify_eq. rewrite node_at_snoc, Hx in Hy. cbn in Hy.
  destruct (Hwf p x k y Hx Hy). split; congruence.
Qed.

(** ** A history of commands *)
Record issued := mkIssued { i_cmd : Z; i_av : AddrVec_t; i_clk : Z }.

Definition run_tree (s : DRAMSpec) (hs : list issued) (n : node) : res node :=
  foldM (fun n c => update_timing s (i_cmd c) (i_av c) (i_clk c) n) hs n.

Definition events_at (lvl : nat) (id : Z) (p : list nat) (hs : list issued) : list event :=
  map (fun c => (classify (i_av c) lvl id p, i_cmd c, i_clk c)) hs.

Lemma events_nonneg lvl id p hs :
  Forall (fun h => 0 <= i_clk h) hs -> nonneg_times (events_at lvl id p hs).
Proof. intros H. unfold nonneg_times, events_at. by apply Forall_fmap. Qed.

Lemma run_tree_local s hs p : forall n n' x,
  flags_agree s -> tree_wf n -> run_tree s hs n = Ok n' -> node_at n p = Some x ->
  exists x', node_at n' p = Some x' /\ n_level x' = n_level x /\ n_bank x' = n_bank x /\
    run_local s (n_level x) (events_at (n_level n) (n_id n) p hs) (n_local x) = Ok (n_local x').
Proof.
  induction hs as [|c hs IH]; intros n n' x Hf Hwf Hr Hx; cbn in Hr.
  - injection Hr as <-. by exists x.
  - apply bind_Ok_inv in Hr as (n1 & Hu & Hr).
    destruct (update_timing_local _ _ _ _ p _ _ _ Hf Hwf Hu Hx) as (x1 & Hx1 & L1 & I1 & B1 & _ & He).
    destruct (update_timing_local _ _ _ _ [] _ _ n Hf Hwf Hu eq_refl) as (n2 & Hn2 & Ln & In & _).
    cbn in Hn2. injection Hn2 as ->.
    destruct (IH n2 n' x1 Hf (update_timing_wf _ _ _ _ _ _ Hf Hwf Hu) Hr Hx1) as (x' & Hx' & L' & B' & He').
    exists x'. split_and!; [done|congruence|congruence|].
    unfold run_local in *. cbn [events_at map foldM]. rewrite He. cbn [mbind res_bind].
    rewrite L1, Ln, In in He'. exact He'.
Qed.

Lemma run_tree_wf s hs n n' :
  flags_agree s -> tree_wf n -> run_tree s hs n = Ok n' -> tree_wf n'.
Proof.
  intros Hf Hwf. apply (foldM_inv tree_wf); [|done]. intros c m m' _ Hm. by apply update_timing_wf.
Qed.

Lemma run_tree_shape s hs p : forall n n' x',
  flags_agree s -> tree_wf n -> run_tree s hs n = Ok n' -> node_at n' p = Some x' ->
  exists x, node_at n p = Some x.
Proof.
  induction hs as [|c hs IH]; intros n n' x' Hf Hwf Hr Hx'; cbn in Hr.
  - injection Hr as <-. by exists x'.
  - apply bind_Ok_inv in Hr as (n1 & Hu & Hr).
    destruct (IH n1 n' x' Hf (update_timing_wf _ _ _ _ _ _ Hf Hwf Hu) Hr Hx') as (x1 & Hx1).
    by eapply update_timing_shape.
Qed.

(** ** The initial tree *)
Lemma make_node_spec s last fuel : forall lvl id n,
  make_node s last fuel lvl id = Ok n ->
  n_level n = lvl /\ n_id n = id /\ local_init s lvl = Ok (n_local n) /\
  forall i c, n_children n !! i = Some c ->
    exists fuel', S fuel' = fuel /\ make_node s last fuel' (S lvl) (Z.of_nat i) = Ok c.
Proof.
  intros lvl id n H. destruct fuel as [|fuel]; [discriminate|]. cbn in H.
  apply bind_Ok_inv in H as (hist & Hh & H). apply bind_Ok_inv in H as (st & _ & H).
  assert (local_init s lvl = Ok (replicate (Z.to_nat (command_count s)) (-1), hist)) as Hli.
  { unfold local_init. by rewrite Hh. }
  destruct (Z.of_nat lvl + 1 =? last).
  - injection H as <-. by split_and!.
  - apply bind_Ok_inv in H as (sz & _ & H). apply bind_Ok_inv in H as (ch & Hch & H). injection H as <-.
    split_and!; try done. intros i c Hc. cbn in Hc. exists fuel. split; [done|].
    apply mapM_Ok in Hch. destruct (Forall2_lookup_r _ _ _ _ _ Hch Hc) as (k & Hk & Hm).
    apply lookup_seqZ in Hk as [-> _]. by rewrite Z.add_0_l in Hm.
Qed.

Lemma make_node_at s last p : forall fuel lvl id n x,
  make_node s last fuel lvl id = Ok n -> node_at n p = Some x ->
  exists fuel' id', make_node s last fuel' (lvl + length p) id' = Ok x.
Proof.
  induction p as [|i p IH]; intros fuel lvl id n x Hn Hx; cbn in Hx.
  - injection Hx as <-. exists fuel, id. by rewrite Nat.add_0_r.
  - destruct (n_children n !! i) as [c|] eqn:Hc; [|discriminate]. cbn in Hx.
    destruct (make_node_spec _ _ _ _ _ _ Hn) as (_ & _ & _ & Hch).
    destruct (Hch i c Hc) as (fuel' & _ & Hm). cbn [length].
    rewrite Nat.add_succ_r. by apply (IH fuel' (S lvl) (Z.of_nat i) c x).
Qed.

Lemma make_node_wf s last fuel lvl id n : make_node s last fuel lvl id = Ok n -> tree_wf n.
Proof.
  intros Hn p x k y Hx Hy.
  destruct (make_node_at _ _ p _ _ _ _ _ Hn Hx) as (f & i & Hm).
  destruct (make_node_spec _ _ _ _ _ _ Hm) as (L & _ & _ & Hch).
  destruct (Hch k y Hy) as (f' & _ & Hm'). destruct (make_node_spec _ _ _ _ _ _ Hm') as (L' & I' & _).
  by rewrite L, L', I'.
Qed.

(** ** Checking *)

(** The nodes [check_timing] visits from a node of level [lvl]. *)
Fixpoint visits (av : AddrVec_t) (lvl : nat) (p : list nat) : bool :=
  match p with
  | [] => true
  | i :: p => addresses (default (-1) (av !! S lvl)) (Z.of_nat i) && visits av (S lvl) p
  end.

Lemma all_children_spec f l b :
  all_children f l = Ok b ->
  if b then forall i x, l !! i = Some x -> f x = Ok true
  else exists i x, l !! i = Some x /\ f x = Ok false.
Proof.
  induction l as [|x l IH]; cbn; intros H.
  - injection H as <-. intros i x Hx. by rewrite lookup_nil in Hx.
  - apply bind_Ok_inv in H as (b1 & H1 & H). destruct b1.
    + specialize (IH H). destruct b.
      * intros [|i] y Hy; cbn in Hy; [by injection Hy as <-|by apply (IH i)].
      * destruct IH as (i & y & Hi). by exists (S i), y.
    + injection H as <-. by exists 0%nat, x.
Qed.

Lemma on_child_Ok {A} (f : node -> res A) l i a :
  on_child f l i = Ok a <-> exists x, l !! i = Some x /\ f x = Ok a.
Proof.
  revert i. induction l as [|x l IH]; intros i; cbn.
  - split; [by destruct i|]. intros (x & H & _). by rewrite lookup_nil in H.
  - destruct i as [|i]; cbn; [|apply IH]. split; [eauto|]. by intros (y & [= <-] & H).
Qed.

Definition ready_at (c clk : Z) (x : node) : Prop :=
  exists r, vget (n_ready x) c = Ok r /\ r <= clk.
Definition blocked_at (c clk : Z) (x : node) : Prop :=
  exists r, vget (n_ready x) c = Ok r /\ clk < r.

(** The answer is yes when all visited nodes are ready, no when one is not. *)
Definition check_spec (c : Z) (av : AddrVec_t) (clk : Z) (lvl : nat) (n : node) (b : bool) : Prop :=
  if b then forall p x, node_at n p = Some x -> visits av lvl p = true -> ready_at c clk x
  else exists p x, node_at n p = Some x /\ visits av lvl p = true /\ blocked_at c clk x.

Lemma check_spec_true c av clk lvl n a :
  default (-1) (av !! S lvl) = a -> ready_at c clk n ->
  (forall i y, n_children n !! i = Some y -> addresses a (Z.of_nat i) = true ->
     check_spec c av clk (S lvl) y true) ->
  check_spec c av clk lvl n true.
Proof.
  intros Ha Hr Hch [|i p] x Hx Hp; cbn in Hx; [by injection Hx as <-|].
  destruct (n_children n !! i) as [y|] eqn:Hy; [|done]. cbn in Hx, Hp. rewrite Ha in Hp.
  apply andb_true_iff in Hp as [Hi Hp]. by apply (Hch i y Hy Hi p x).
Qed.

Lemma check_spec_false c av clk lvl n a i y :
  default (-1) (av !! S lvl) = a -> n_children n !! i = Some y -> addresses a (Z.of_nat i) = true ->
  check_spec c av clk (S lvl) y false -> check_spec c av clk lvl n false.
Proof.
  intros Ha Hy Hi (p & x & Hx & Hp & Hb). exists (i :: p), x. cbn. by rewrite Hy, Ha, Hi.
Qed.

(** What the last step of [check_timing] does with the children. *)
Lemma check_children c av clk a ch b :
  match ch with
  | [] => Ok true
  | _ => if a =? -1 then all_children (check_timing c av clk) ch
         else if a <? 0 then Err UndefinedBehaviour
         else on_child (check_timing c av clk) ch (Z.to_nat a)
  end = Ok b ->
  if b then forall i y, ch !! i = Some y -> addresses a (Z.of_nat i) = true -> check_timing c av clk y = Ok true
  else exists i y, ch !! i = Some y /\ addresses a (Z.of_nat i) = true /\ check_timing c av clk y = Ok false.
Proof.
  destruct ch as [|c0 ch0] eqn:Ech; [intros [= <-] i y Hy; done|]. rewrite <- Ech. clear Ech.
  unfold addresses. destruct (a =? -1) eqn:Ea.
  - intros H%all_children_spec. destruct b; [eauto|]. destruct H as (i & y & Hy & Hc).
    exists i, y. by rewrite orb_true_r.
  - destruct (a <? 0) eqn:E0; [done|]. bool_hyps. intros (y & Hy & Hc)%on_child_Ok. destruct b.
    + intros i z Hz Hi. rewrite orb_false_r in Hi. bool_hyps. subst a. rewrite Nat2Z.id in Hy. congruence.
    + exists (Z.to_nat a), y. rewrite Z2Nat.id, Z.eqb_refl by done. done.
Qed.

Lemma check_timing_visits c av clk n : forall b,
  -1 <= clk -> tree_wf n -> check_timing c av clk n = Ok b -> check_spec c av clk (n_level n) n b.
Proof.
  induction n as [lvl id bk r h ch IH] using node_ind'. intros b Hclk Hwf H. cbn [check_timing] in H.
  apply bind_Ok_inv in H as (v & Hv & H). destruct (negb (v =? -1) && (clk <? v)) eqn:E.
  { injection H as <-. bool_hyps. exists [], (Node lvl id bk r h ch). split_and!; [done..|]. by exists v. }
  assert (v <= clk) as Hle by (apply andb_false_iff in E as [E|E]; bool_hyps; lia).
  apply bind_Ok_inv in H as (a & Ha & H).
  replace (Z.of_nat lvl + 1) with (Z.of_nat (S lvl)) in Ha by lia. apply vget_default in Ha.
  rewrite Forall_lookup in IH.
  assert (Hch : forall i y b', ch !! i = Some y -> check_timing c av clk y = Ok b' ->
                               check_spec c av clk (S lvl) y b').
  { intros i y b' Hy Hc. destruct (tree_wf_child _ i y Hwf Hy) as (Hwfy & Hl & _). cbn in Hl.
    rewrite <- Hl. by apply (IH i y Hy). }
  apply check_children in H. destruct b.
  - eapply check_spec_true; [exact Ha|by exists v|]. eauto.
  - destruct H as (i & y & Hy & Hi & Hc). eapply check_spec_false; eauto.
Qed.

(** ** No undefined behaviour

    A table whose entries name existing commands and, unless they are
    sibling constraints, have a positive window; an address vector that is
    long enough and whose entries are wildcards or children that exist. *)
Definition spec_ok (s : DRAMSpec) : Prop :=
  config_loaded s /\
  forall lvl cmd es e, cons_at (timing_cons s) lvl cmd = Ok es -> In e es ->
    0 <= tc_cmd e < command_count s /\ (tc_sibling e = false -> 1 <= tc_window e).

Definition addr_ok (s : DRAMSpec) (last : nat) (av : AddrVec_t) : Prop :=
  (forall lvl, (lvl <= last)%nat -> is_Some (av !! lvl)) /\
  forall lvl, (1 <= lvl < last)%nat -> exists a sz, av !! lvl = Some a /\ level_sizes s !! lvl = Some sz /\
    (a = -1 \/ 0 <= a < sz).

Definition local_wf (s : DRAMSpec) (lvl : nat) (st : list Z * list (list Z)) : Prop :=
  length st.1 = Z.to_nat (command_count s) /\ length st.2 = Z.to_nat (command_count s) /\
  forall cmd h es, vget st.2 cmd = Ok h -> cons_at (timing_cons s) lvl cmd = Ok es ->
    length h = Z.to_nat (window_of es).

Definition node_shape (s : DRAMSpec) (last : nat) (x : node) : Prop :=
  (S (n_level x) <= last)%nat /\ (last < Z.to_nat (level_count s))%nat /\
  local_wf s (n_level x) (n_local x) /\
  (n_children x = [] \/
   exists sz, level_sizes s !! S (n_level x) = Some sz /\ length (n_children x) = Z.to_nat sz /\
              (S (S (n_level x)) <= last)%nat).

Definition shaped (s : DRAMSpec) (last : nat) (n : node) : Prop :=
  forall p x, node_at n p = Some x -> node_shape s last x.

Lemma shaped_child s last n i c : shaped s last n -> n_children n !! i = Some c -> shaped s last c.
Proof. intros H Hc p x Hx. apply (H (i :: p)). cbn. by rewrite Hc. Qed.

Lemma length_push_history h t : length (push_history h t) = length h.
Proof.
  destruct h as [|x h]; [done|]. cbn [push_history length]. f_equal.
  revert x. induction h as [|y h IH]; intros x; [done|]. cbn [removelast length]. f_equal. apply IH.
Qed.

Lemma vset_total {A} (l : list A) i x : 0 <= i < Z.of_nat (length l) -> exists l', vset l i x = Ok l'.
Proof. intros H. exists (<[Z.to_nat i := x]> l). by apply vset_Ok. Qed.

Lemma raise_total ready c (f : Z -> Z) :
  0 <= c < Z.of_nat (length ready) ->
  exists ready', (old ← vget ready c; vset ready c (f old)) = Ok ready' /\ length ready' = length ready.
Proof.
  intros Hc. destruct (proj2 (vget_is_Ok ready c) Hc) as [v ->]. cbn.
  destruct (vset_total ready c (f v) Hc) as [r' Hr]. exists r'. split; [done|]. by eapply vset_length.
Qed.

Lemma local_sibling_total s lvl cmd clk st :
  spec_ok s -> (lvl < Z.to_nat (level_count s))%nat -> 0 <= cmd < command_count s -> local_wf s lvl st ->
  exists st', local_sibling s lvl cmd clk st = Ok st' /\ local_wf s lvl st'.
Proof.
  intros [Hcl He] Hl Hc (Hr & Hh & Hw). unfold local_sibling.
  destruct (cons_at_total s lvl cmd Hcl Hl Hc) as [es Hes]. rewrite Hes. cbn.
  destruct (foldM_total (fun r => length r = length st.1) (sibling_update clk) es st.1) as (r' & Hf & Hr');
    [|done|].
  - intros e r Hin Hlen. unfold sibling_update. destruct (tc_sibling e); cbn; [|eauto].
    destruct (He lvl cmd es e Hes Hin) as [Hce _].
    destruct (raise_total r (tc_cmd e) (fun old => Z.max old (clk + tc_val e))) as (r' & Hr' & Hl'); [lia|].
    exists r'. split; [done|congruence].
  - rewrite Hf. cbn. eexists. split; [done|]. split; [cbn; congruence|done].
Qed.

Lemma local_target_total s lvl cmd clk st :
  spec_ok s -> (lvl < Z.to_nat (level_count s))%nat -> 0 <= cmd < command_count s -> local_wf s lvl st ->
  exists st', local_target s lvl cmd clk st = Ok st' /\ local_wf s lvl st'.
Proof.
  intros [Hcl He] Hl Hc (Hr & Hh & Hw). unfold local_target.
  destruct (proj2 (vget_is_Ok st.2 cmd)) as [h Hgh]; [lia|]. rewrite Hgh. cbn.
  destruct (vset_total st.2 cmd (push_history h clk)) as [hist Hset]; [lia|]. rewrite Hset. cbn.
  destruct (cons_at_total s lvl cmd Hcl Hl Hc) as [es Hes]. rewrite Hes. cbn.
  pose proof (Hw cmd h es Hgh Hes) as Hlen.
  destruct (foldM_total (fun r => length r = length st.1) (target_update (push_history h clk)) es st.1)
    as (r' & Hf & Hr'); [|done|].
  - intros e r Hin Hlr. unfold target_update. destruct (tc_sibling e) eqn:Hs; [eauto|].
    destruct (He lvl cmd es e Hes Hin) as [Hce Hwe]. pose proof (window_of_bound es e Hin).
    destruct (proj2 (vget_is_Ok (push_history h clk) (tc_window e - 1))) as [past ->].
    { rewrite length_push_history, Hlen. specialize (Hwe Hs). lia. }
    cbn. destruct (past <? 0); [eauto|].
    destruct (raise_total r (tc_cmd e) (fun old => Z.max old (past + tc_val e))) as (r' & Hr' & Hl'); [lia|].
    exists r'. split; [done|congruence].
  - rewrite Hf. cbn. eexists. split; [done|]. split_and!; cbn; [congruence| |].
    + by rewrite (vset_length _ _ _ _ Hset).
    + intros q g qs Hq Hqs. destruct (decide (q = cmd)) as [->|Hne].
      * rewrite (vget_vset_eq _ _ _ _ Hset) in Hq. injection Hq as <-. rewrite length_push_history. eauto.
      * rewrite (vget_vset_ne _ _ _ _ _ Hset) in Hq by done. eauto.
Qed.

Lemma shaped_step s last k cmd clk x x' :
  spec_ok s -> 0 <= cmd < command_count s -> node_shape s last x -> step_at s k cmd clk x x' ->
  node_shape s last x'.
Proof.
  intros Hs Hc (H1 & H2 & Hl & Hch) (L & _ & _ & Hlen & He). unfold node_shape. rewrite L.
  split_and!; [done..| |].
  - unfold local_effect in He. destruct k; cbn [fst snd] in He.
    + destruct (local_target_total s (n_level x) cmd clk (n_local x) Hs) as (st & Hst & ?); [lia|done..|].
      rewrite Hst in He. injection He as He. by subst st.
    + destruct (local_sibling_total s (n_level x) cmd clk (n_local x) Hs) as (st & Hst & ?); [lia|done..|].
      rewrite Hst in He. injection He as He. by subst st.
    + injection He as He1 He2. unfold n_local in *. by rewrite <- He1, <- He2.
  - destruct Hch as [Hnil|(sz & Hsz & Hn & Hle)]; [left|right].
    + rewrite Hnil in Hlen. by destruct (n_children x').
    + exists sz. by rewrite Hlen.
Qed.

Lemma update_timing_shaped s last cmd av clk n n' :
  spec_ok s -> 0 <= cmd < command_count s -> tree_wf n -> shaped s last n ->
  update_timing s cmd av clk n = Ok n' -> shaped s last n'.
Proof.
  intros Hs Hc Hwf Hsh Hu p x' Hx'. pose proof (cl_flags s (proj1 Hs)) as Hf.
  destruct (update_timing_shape _ _ _ _ _ _ _ _ Hf Hwf Hu Hx') as [x Hx].
  destruct (update_timing_local _ _ _ _ _ _ _ _ Hf Hwf Hu Hx) as (y & Hy & Hst). simplify_eq.
  by eapply shaped_step; [..|eassumption]; [..|by eapply Hsh].
Qed.

Lemma sibling_flag_total s lvl cmd :
  config_loaded s -> (lvl < Z.to_nat (level_count s))%nat -> 0 <= cmd < command_count s ->
  exists b, sibling_flag s lvl cmd = Ok b.
Proof.
  intros Hcl Hl Hc. destruct (cons_at_total s lvl cmd Hcl Hl Hc) as [es Hes].
  apply sibling_flags_lookup in Hes. unfold sibling_flag. rewrite (cl_flags s Hcl). eauto.
Qed.

Lemma update_timing_total s last cmd av clk n :
  spec_ok s -> 0 <= cmd < command_count s -> addr_ok s last av -> shaped s last n ->
  is_Ok (update_timing s cmd av clk n).
Proof.
  intros Hs Hc [Hav0 Hav]. induction n as [lvl id bk r h ch IH] using node_ind'. intros Hsh. cbn.
  destruct (Hsh [] _ eq_refl) as (H1 & H2 & Hl & Hch). cbn in H1, Hl, Hch.
  destruct (Hav0 lvl) as [a Ha]; [lia|]. rewrite (proj2 (vget_nat av lvl a) Ha). cbn.
  destruct (local_target_total s lvl cmd clk (r, h) Hs) as (st & Hst & _); [lia|done..|].
  destruct (local_sibling_total s lvl cmd clk (r, h) Hs) as (st2 & Hst2 & _); [lia|done..|].
  rewrite Hst, Hst2. destruct (negb (id =? a) && negb (a =? -1)); [by eexists|]. cbn.
  destruct ch as [|c0 ch0] eqn:Ech; [by eexists|]. rewrite <- Ech in *.
  destruct Hch as [Hnil|(sz1 & Hsz1 & Hlen & Hlt)]; [congruence|].
  replace (Z.of_nat lvl + 1) with (Z.of_nat (S lvl)) by lia.
  destruct (Hav (S lvl)) as (a1 & sz1' & Ha1 & Hsz1' & Hrange); [lia|].
  rewrite Hsz1 in Hsz1'. injection Hsz1' as <-.
  rewrite (proj2 (vget_nat av (S lvl) a1) Ha1). cbn [mbind res_bind].
  destruct (sibling_flag_total s (S lvl) cmd (proj1 Hs)) as [fl ->]; [lia|done|]. cbn [mbind res_bind].
  assert (Hall : forall i y, ch !! i = Some y -> is_Ok (update_timing s cmd av clk y)).
  { intros i y Hy. rewrite Forall_lookup in IH. apply (IH i y Hy). by eapply shaped_child. }
  destruct (fl || (a1 =? -1)) eqn:E.
  - destruct (mapM_total (update_timing s cmd av clk) ch) as [ch' ->]; [|by eexists].
    intros x Hx. apply list_elem_of_In, list_elem_of_lookup in Hx as [i Hi]. eauto.
  - bool_hyps. destruct (Z.ltb_spec a1 0); [lia|].
    destruct (lookup_lt_is_Some_2 ch (Z.to_nat a1)) as [y Hy]; [lia|]. destruct (Hall _ y Hy) as [y' Hy'].
    rewrite (proj2 (update_child_Ok _ _ _ (<[Z.to_nat a1 := y']> ch))) by eauto. by eexists.
Qed.

Lemma all_children_total f l : (forall x, In x l -> is_Ok (f x)) -> is_Ok (all_children f l).
Proof.
  induction l as [|x l IH]; intros H; [by eexists|]. cbn. destruct (H x) as [b ->]; [by left|]. cbn.
  destruct b; [|by eexists]. apply IH. intros y Hy. apply H. by right.
Qed.

Lemma check_timing_total s last c av clk n :
  0 <= c < command_count s -> addr_ok s last av -> shaped s last n -> is_Ok (check_timing c av clk n).
Proof.
  intros Hc [Hav0 Hav]. induction n as [lvl id bk r h ch IH] using node_ind'. intros Hsh. cbn.
  destruct (Hsh [] _ eq_refl) as (H1 & _ & (Hr & _) & Hch). cbn in H1, Hr, Hch.
  destruct (proj2 (vget_is_Ok r c)) as [v ->]; [lia|]. cbn. destruct (_ && _); [by eexists|].
  replace (Z.of_nat lvl + 1) with (Z.of_nat (S lvl)) by lia.
  destruct (decide (S lvl = last)) as [Heq|Hne].
  - destruct Hch as [->|(sz & _ & _ & Hlt)]; [|lia].
    destruct (Hav0 last) as [a Ha]; [lia|]. rewrite Heq, (proj2 (vget_nat av last a) Ha). by eexists.
  - destruct (Hav (S lvl)) as (a & sz' & Ha & Hsz' & Hrange); [lia|].
    rewrite (proj2 (vget_nat av (S lvl) a) Ha). cbn [mbind res_bind].
    destruct ch as [|c0 ch0] eqn:Ech; [by eexists|]. rewrite <- Ech in *.
    assert (Hall : forall i y, ch !! i = Some y -> is_Ok (check_timing c av clk y)).
    { intros i y Hy. rewrite Forall_lookup in IH. apply (IH i y Hy). by eapply shaped_child. }
    destruct (a =? -1) eqn:E.
    + apply all_children_total. intros x Hx. apply list_elem_of_In, list_elem_of_lookup in Hx as [i Hi]. eauto.
    + bool_hyps. destruct (Z.ltb_spec a 0); [lia|].
      destruct Hch as [Hnil|(sz & Hsz & Hlen & Hlt)]; [congruence|].
      rewrite Hsz in Hsz'. injection Hsz' as <-.
      destruct (lookup_lt_is_Some_2 ch (Z.to_nat a)) as [y Hy]; [lia|]. destruct (Hall _ y Hy) as [b Hb].
      exists b. apply on_child_Ok. eauto.
Qed.

(** ** The constructed tree *)
Lemma init_history_wf s lvl hist :
  init_history s lvl = Ok hist ->
  local_wf s lvl (replicate (Z.to_nat (command_count s)) (-1), hist).
Proof.
  intros H. split_and!; cbn.
  - apply length_replicate.
  - unfold init_history in H. apply mapM_Ok, Forall2_length in H. rewrite <- H. apply length_seqZ.
  - intros cmd h es Hh Hes. destruct (local_init_ok s lvl (replicate (Z.to_nat (command_count s)) (-1)) hist)
      as [Hok _]; [unfold local_init; by rewrite H|].
    destruct (Hok cmd h Hh) as (es' & Hes' & ->). rewrite Hes in Hes'. injection Hes' as <-.
    rewrite length_take, length_app, length_replicate. lia.
Qed.

Lemma init_history_total s lvl :
  config_loaded s -> (lvl < Z.to_nat (level_count s))%nat -> is_Ok (init_history s lvl).
Proof.
  intros Hcl Hl. apply mapM_total. intros cmd Hin%list_elem_of_In%elem_of_seqZ.
  destruct (cons_at_total s lvl cmd Hcl Hl) as [es ->]; [lia|]. by eexists.
Qed.

Section Make.
Context (s : DRAMSpec) (last : nat).
Context (Hcl : config_loaded s) (Hlast : (last < Z.to_nat (level_count s))%nat).

Lemma make_node_shaped fuel : forall lvl id n,
  (S lvl <= last)%nat -> make_node s (Z.of_nat last) fuel lvl id = Ok n -> shaped s last n.
Proof.
  induction fuel as [|fuel IH]; intros lvl id n Hl H; [discriminate|]. cbn in H.
  apply bind_Ok_inv in H as (hist & Hh & H). apply bind_Ok_inv in H as (st & _ & H).
  pose proof (init_history_wf s lvl hist Hh) as Hlw.
  destruct (Z.eqb_spec (Z.of_nat lvl + 1) (Z.of_nat last)) as [He|Hne].
  - injection H as <-. intros [|i p] x Hx; cbn in Hx; [|done]. injection Hx as <-.
    split_and!; cbn; [lia..|done|by left].
  - apply bind_Ok_inv in H as (sz & Hsz & H). apply bind_Ok_inv in H as (ch & Hch & H). injection H as <-.
    apply mapM_Ok in Hch. intros [|i p] x Hx; cbn in Hx.
    + injection Hx as <-. split_and!; cbn; [lia..|done|]. right. exists sz. split_and!; [| |lia].
      * apply vget_nat. by replace (Z.of_nat (S lvl)) with (Z.of_nat lvl + 1) by lia.
      * apply Forall2_length in Hch. rewrite <- Hch. apply length_seqZ.
    + destruct (ch !! i) as [c|] eqn:Hc; [|done]. cbn in Hx.
      destruct (Forall2_lookup_r _ _ _ _ _ Hch Hc) as (k & _ & Hm).
      by apply (IH (S lvl) k c ltac:(lia) Hm p).
Qed.

Lemma make_node_total fuel : forall lvl id,
  Z.of_nat (length (init_states s)) = level_count s -> (last <= length (level_sizes s))%nat ->
  (S lvl <= last)%nat -> (last <= fuel + lvl)%nat ->
  is_Ok (make_node s (Z.of_nat last) fuel lvl id).
Proof.
  induction fuel as [|fuel IH]; intros lvl id Hst Hsz Hl Hf; [lia|]. cbn.
  destruct (init_history_total s lvl Hcl) as [hist ->]; [lia|]. cbn.
  destruct (proj2 (vget_is_Ok (init_states s) (Z.of_nat lvl))) as [st ->]; [lia|]. cbn.
  destruct (Z.eqb_spec (Z.of_nat lvl + 1) (Z.of_nat last)) as [He|Hne]; [by eexists|].
  destruct (proj2 (vget_is_Ok (level_sizes s) (Z.of_nat lvl + 1))) as [sz ->]; [lia|]. cbn.
  destruct (mapM_total (make_node s (Z.of_nat last) fuel (S lvl)) (seqZ 0 sz)) as [ch ->]; [|by eexists].
  intros k _. apply IH; [done..|lia|lia].
Qed.
End Make.

(** The root of a device, after [set_channel_id] gave it the id [ch]. *)
Lemma node_at_set_id ch n p x :
  node_at (set_id ch n) p = Some x ->
  exists y, node_at n p = Some y /\ n_level y = n_level x /\ n_local y = n_local x /\
            n_children y = n_children x /\ n_bank y = n_bank x.
Proof.
  destruct n as [l i b r h c], p as [|k p]; cbn; intros H; [|by exists x].
  injection H as <-. by eexists.
Qed.

Lemma standard_root d cfg s root ch :
  In d all_standards -> construct d cfg = Ok s -> DRAMNode_root s = Ok root ->
  let root' := set_id ch root in
  tree_wf root' /\ n_level root' = 0%nat /\ n_id root' = ch /\
  shaped s (Z.to_nat (T_Row (std_traits d))) root' /\
  forall p x, node_at root' p = Some x ->
    n_level x = length p /\ local_init s (length p) = Ok (n_local x).
Proof.
  intros Hin Hcon Hr. destruct (standard_levels d cfg s Hin Hcon) as [Hrow _].
  destruct (standard_static d cfg s Hin Hcon) as (C & _ & _ & _ & _ & Hrange & _).
  unfold DRAMNode_root in Hr. rewrite Hrow in Hr. cbn in Hr.
  destruct (make_node_spec _ _ _ _ _ _ Hr) as (L & I & _). cbn zeta. split_and!.
  - intros p x k y (x' & Hx' & <- & _ & Hch & _)%node_at_set_id Hy. rewrite <- Hch in Hy.
    by eapply (make_node_wf _ _ _ _ _ _ Hr).
  - by destruct root.
  - by destruct root.
  - intros p x (x' & Hx' & Hl & Hloc & Hch & _)%node_at_set_id.
    rewrite <- (Z2Nat.id (T_Row _)) in Hr by lia.
    eapply make_node_shaped in Hr; [|lia..]. specialize (Hr p x' Hx').
    unfold node_shape in *. by rewrite <- Hl, <- Hloc, <- Hch.
  - intros p x (x' & Hx' & <- & <- & _)%node_at_set_id.
    destruct (make_node_at _ _ p _ _ _ _ _ Hr Hx') as (f & i & Hm). cbn in Hm.
    by destruct (make_node_spec _ _ _ _ _ _ Hm) as (? & _ & ? & _).
Qed.

(** ** Main results *)

(** [check_timing] after any history of updates answers the specification. *)
Lemma tree_check_exact d cfg s root ch hs n c av clk b :
  In d all_standards -> construct d cfg = Ok s -> DRAMNode_root s = Ok root ->
  Forall (fun h => 0 <= i_clk h) hs -> run_tree s hs (set_id ch root) = Ok n ->
  0 <= c < command_count s -> 0 <= clk -> check_timing c av clk n = Ok b ->
  b = true <->
  forall p x, node_at (set_id ch root) p = Some x -> visits av 0 p = true ->
    timing_ok s (length p) (events_at 0 ch p hs) c clk.
Proof.
  intros Hin Hcon Hroot Hclks Hrun Hc Hclk Hchk.
  destruct (standard_root d cfg s root ch Hin Hcon Hroot) as (Hwf & L0 & I0 & _ & Hnodes).
  destruct (standard_static d cfg s Hin Hcon) as (C & _). pose proof (cl_flags s (con_loaded d s C)) as Hf.
  apply check_timing_visits in Hchk; [|lia|by eapply run_tree_wf].
  destruct (run_tree_local s hs [] _ n _ Hf Hwf Hrun eq_refl) as (n1 & [= <-] & Ln & _).
  rewrite Ln, L0 in Hchk. set (root' := set_id ch root) in *.
  assert (Hnode : forall p x x', node_at root' p = Some x -> node_at n p = Some x' ->
    exists v, vget (n_ready x') c = Ok v /\ (v <= clk <-> timing_ok s (length p) (events_at 0 ch p hs) c clk)).
  { intros p x x' Hx Hx'. destruct (Hnodes p x Hx) as [Lx Hi].
    destruct (run_tree_local s hs p root' n x Hf Hwf Hrun Hx) as (y & Hy & _ & _ & He). simplify_eq.
    rewrite L0, I0, Lx in He. destruct (run_local_ready s _ _ _ _ (events_nonneg 0 ch p hs Hclks) Hi He) as [_ Hr].
    destruct (Hr c Hc) as (v & Hv & _ & Hiff). exists v. split; [done|]. apply Hiff. lia. }
  destruct b; (split; try done).
  - intros _ p x Hx Hp. destruct (run_tree_local s hs p root' n x Hf Hwf Hrun Hx) as (x' & Hx' & _).
    destruct (Hnode p x x' Hx Hx') as (v & Hv & <-). destruct (Hchk p x' Hx' Hp) as (v' & Hv' & Hle). congruence.
  - intros Hall. destruct Hchk as (p & x' & Hx' & Hp & v' & Hv' & Hlt).
    destruct (run_tree_shape s hs p root' n x' Hf Hwf Hrun Hx') as [x Hx].
    destruct (Hnode p x x' Hx Hx') as (v & Hv & Hiff). specialize (Hall p x Hx Hp). apply Hiff in Hall.
    rewrite Hv in Hv'. injection Hv' as <-. lia.
Qed.

(** Construction succeeds. *)
Lemma standard_root_total d cfg s :
  In d all_standards -> construct d cfg = Ok s ->
  length (level_sizes s) = Z.to_nat (level_count s) -> exists root, DRAMNode_root s = Ok root.
Proof.
  intros Hin Hcon Hsz. destruct (standard_levels d cfg s Hin Hcon) as [Hrow _].
  destruct (standard_static d cfg s Hin Hcon) as (C & _ & _ & _ & _ & Hrange & Hst & _).
  unfold DRAMNode_root. rewrite Hrow. cbn [mbind res_bind].
  rewrite <- (Z2Nat.id (T_Row _)) by lia. apply make_node_total; try done; try lia. apply C.
Qed.

(** So does every update with a valid command and address. *)
Lemma update_timing_step s last cmd av clk n :
  spec_ok s -> 0 <= cmd < command_count s -> addr_ok s last av -> tree_wf n -> shaped s last n ->
  exists n', update_timing s cmd av clk n = Ok n' /\ tree_wf n' /\ shaped s last n'.
Proof.
  intros Hs Hcmd Hav Hwf Hsh.
  destruct (update_timing_total s last cmd av clk n Hs Hcmd Hav Hsh) as [n' Hn']. exists n'.
  split_and!; [done| |by eapply update_timing_shaped].
  eapply update_timing_wf; [apply (cl_flags s (proj1 Hs))|exact Hwf|exact Hn'].
Qed.

(** ** Evaluating the hypotheses *)

(** [spec_ok] by evaluation. *)
Definition entry_okb (s : DRAMSpec) (e : TimingConsEntry) : bool :=
  (0 <=? tc_cmd e) && (tc_cmd e <? command_count s) && (tc_sibling e || (1 <=? tc_window e)).

Lemma spec_ok_check s :
  config_loaded s -> forallb (forallb (forallb (entry_okb s))) (timing_cons s) = true -> spec_ok s.
Proof.
  intros Hcl H. split; [done|]. intros lvl cmd es e Hes Hin. unfold cons_at in Hes. inv_res.
  apply vget_Ok in E as [_ E]. apply vget_Ok in Hes as [_ Hes].
  rewrite forallb_forall in H.
  specialize (H a ltac:(by eapply list_elem_of_In, list_elem_of_lookup_2)). rewrite forallb_forall in H.
  specialize (H es ltac:(by eapply list_elem_of_In, list_elem_of_lookup_2)). rewrite forallb_forall in H.
  specialize (H e Hin). unfold entry_okb in H. bool_hyps. split; [lia|]. intros Hs.
  rewrite Hs in *. cbn in *. bool_hyps. done.
Qed.

Lemma spec_ok_small : spec_ok ddr4_small.
Proof.
  apply spec_ok_check; [|vm_compute; reflexivity].
  destruct (standard_static DDR4_std cfg_small ddr4_small) as (C & _); [by right; left|exact ddr4_small_ok|].
  exact (con_loaded _ _ C).
Qed.

