(* ===== verification/Device.v ===== *)
(** * Device: the DRAM device

    Models [ramulator/dram/device.h] and [device.cpp]: the specification, the
    node hierarchy and the flat view of its banks.  The vector of bank
    pointers is a list of paths into the hierarchy. *)
From stdpp Require Import prelude gmap strings.
From S2P Require Import Prelude DramSpec Commands Standards Node NodeTiming NodeTree.
Open Scope Z_scope.

Record DRAMDevice := mkDev {
  m_spec : DRAMSpec;
  m_root : node;
  m_bank_nodes : list (list nat);
  m_bank_level : Z
}.

Definition with_root (d : DRAMDevice) (r : node) : DRAMDevice :=
  mkDev (m_spec d) r (m_bank_nodes d) (m_bank_level d).

Definition init (spec : DRAMSpec) : res DRAMDevice :=
  bank_level ← get_level_id spec "Bank";
  root ← DRAMNode_root spec;
  Ok (mkDev spec root (paths_at_level (Z.to_nat bank_level) root) bank_level).

Definition set_channel_id (d : DRAMDevice) (channel_id : Z) : DRAMDevice :=
  with_root d (set_id channel_id (m_root d)).

Definition dev_check_timing (d : DRAMDevice) (command : Z) (av : AddrVec_t) (clk : Z) : res bool :=
  check_timing command av clk (m_root d).

Definition get_flat_bank_id (d : DRAMDevice) (av : AddrVec_t) : res Z :=
  foldM (fun id lvl =>
    sz ← vget (level_sizes (m_spec d)) lvl;
    a ← vget av lvl;
    Ok (id * sz + a)) (seqZ 1 (m_bank_level d)) 0.

(** The nodes from the root to a path, root first. *)
Fixpoint spine (n : node) (p : list nat) : option (list node) :=
  match p with
  | [] => Some [n]
  | i :: p => c ← n_children n !! i; l ← spine c p; Some (n :: l)
  end.

(** The loop of [bank_matches] over a node and its ancestors. *)
Fixpoint match_up (av : AddrVec_t) (l : list node) : res bool :=
  match l with
  | [] => Ok true
  | n :: l =>
      a ← vget av (Z.of_nat (n_level n));
      if negb (a =? -1) && negb (a =? n_id n) then Ok false else match_up av l
  end.

Definition bank_matches (d : DRAMDevice) (i : Z) (av : AddrVec_t) : res bool :=
  p ← vget (m_bank_nodes d) i;
  l ← of_option UndefinedBehaviour (spine (m_root d) p);
  match_up av (rev l).

Definition bank_node (d : DRAMDevice) (i : Z) : res node :=
  p ← vget (m_bank_nodes d) i;
  of_option UndefinedBehaviour (node_at (m_root d) p).

(** The visitor threads a state and says whether to go on. *)
Section Visit.
Context {St : Type} (visitor : St -> Z -> res (St * bool)).

Fixpoint visit_loop (keep : Z -> res bool) (ids : list Z) (st : St) : res (St * bool) :=
  match ids with
  | [] => Ok (st, true)
  | i :: ids =>
      k ← keep i;
      if (k : bool) then
        r ← visitor st i;
        if (r.2 : bool) then visit_loop keep ids r.1 else Ok (r.1, false)
      else visit_loop keep ids st
  end.

Definition for_each_target_bank_while (d : DRAMDevice) (command : Z) (av : AddrVec_t) (st : St)
  : res (St * bool) :=
  t ← vget (bank_targets (m_spec d)) command;
  let all := seqZ 0 (Z.of_nat (length (m_bank_nodes d))) in
  match t with
  | Single => i ← get_flat_bank_id d av; visitor st i
  | All => visit_loop (fun i => bank_matches d i av) all st
  | SameBank =>
      target_bank_id ← vget av (m_bank_level d);
      visit_loop (fun i => n ← bank_node d i;
                           if negb (n_id n =? target_bank_id) then Ok false else bank_matches d i av) all st
  end.
End Visit.

Definition for_each_target_bank {St} (visitor : St -> Z -> res St) (d : DRAMDevice) (command : Z)
    (av : AddrVec_t) (st : St) : res St :=
  r ← for_each_target_bank_while (fun st i => st' ← visitor st i; Ok (st', true)) d command av st;
  Ok r.1.

Definition get_target_banks (d : DRAMDevice) (command : Z) (av : AddrVec_t) : res (list Z) :=
  for_each_target_bank (fun ids i => Ok (ids ++ [i])) d command av [].

Definition get_preq_command (d : DRAMDevice) (command : Z) (av : AddrVec_t) (clk : Z) : res Z :=
  f ← vget (preqs (funcs (m_spec d))) command;
  match f with
  | None => Ok command
  | Some preq_fn =>
      r ← for_each_target_bank_while (fun resolved i =>
            n ← bank_node d i;
            preq ← preq_fn (n_bank n) command av clk;
            if negb (preq =? command) then Ok (preq, false) else Ok (resolved, true))
          d command av command;
      Ok r.1
  end.

Definition row_query (fs : list (option RowFunc_t)) (d : DRAMDevice) (command : Z) (av : AddrVec_t)
    (clk : Z) : res bool :=
  f ← vget fs command;
  match f with
  | None => Ok false
  | Some fn =>
      i ← get_flat_bank_id d av;
      n ← bank_node d i;
      fn (n_bank n) command av clk
  end.

Definition check_rowbuffer_hit (d : DRAMDevice) (command : Z) (av : AddrVec_t) (clk : Z) : res bool :=
  row_query (rowhits (funcs (m_spec d))) d command av clk.

Definition check_node_open (d : DRAMDevice) (command : Z) (av : AddrVec_t) (clk : Z) : res bool :=
  row_query (rowopens (funcs (m_spec d))) d command av clk.

(** An action writes the bank it is called on, through the pointer. *)
Definition act_on (action_fn : ActionFunc_t) (command : Z) (av : AddrVec_t) (clk : Z)
    (d : DRAMDevice) (i : Z) : res DRAMDevice :=
  p ← vget (m_bank_nodes d) i;
  n ← of_option UndefinedBehaviour (node_at (m_root d) p);
  b ← action_fn (n_bank n) command av clk;
  Ok (with_root d (update_at (set_bank b) (m_root d) p)).

Definition apply_action (d : DRAMDevice) (command : Z) (av : AddrVec_t) (clk : Z) : res DRAMDevice :=
  f ← vget (actions (funcs (m_spec d))) command;
  match f with
  | None => Ok d
  | Some action_fn => for_each_target_bank (act_on action_fn command av clk) d command av d
  end.

Definition issue_command (d : DRAMDevice) (command : Z) (av : AddrVec_t) (clk : Z) : res DRAMDevice :=
  r ← update_timing (m_spec d) command av clk (m_root d);
  apply_action (with_root d r) command av clk.

(** * Structure of an initialised device *)

(** ** Bank paths in flat order *)
Fixpoint all_paths (sizes : list nat) : list (list nat) :=
  match sizes with
  | [] => [[]]
  | k :: ks => concat (map (fun i => map (cons i) (all_paths ks)) (seq 0 k))
  end.

(** Mixed-radix number of a path, most significant digit first. *)
Fixpoint flat (acc : nat) (sizes p : list nat) : nat :=
  match sizes, p with
  | k :: ks, i :: p => flat (acc * k + i) ks p
  | _, _ => acc
  end.

Lemma length_all_paths sizes : length (all_paths sizes) = foldr Nat.mul 1%nat sizes.
Proof.
  induction sizes as [|k ks IH]; [done|]. cbn [all_paths foldr].
  rewrite length_concat, map_map. rewrite (map_ext _ (fun _ => foldr Nat.mul 1%nat ks)).
  - generalize (foldr Nat.mul 1%nat ks) as m. intros m. generalize 0%nat as o.
    induction k as [|k IHk]; intros o; [done|]. cbn. rewrite IHk. lia.
  - intros i. by rewrite length_map.
Qed.

Lemma flat_acc sizes : forall acc p, length p = length sizes ->
  flat acc sizes p = (acc * foldr Nat.mul 1 sizes + flat 0 sizes p)%nat.
Proof.
  induction sizes as [|k ks IH]; intros acc [|i p] H; try discriminate; cbn [flat foldr]; [lia|].
  injection H as H. rewrite (IH (acc * k + i)%nat p H), (IH (0 * k + i)%nat p H). lia.
Qed.

Lemma concat_uniform_lookup {A} (f : nat -> list A) (m k o i j : nat) :
  (forall x, length (f x) = m) -> (i < k)%nat -> (j < m)%nat ->
  concat (map f (seq o k)) !! (i * m + j)%nat = f (o + i)%nat !! j.
Proof.
  intros Hm. revert o i. induction k as [|k IH]; intros o i Hi Hj; [lia|]. cbn [seq map concat].
  destruct i as [|i].
  - rewrite lookup_app_l by (rewrite Hm; lia). by rewrite Nat.add_0_r.
  - rewrite lookup_app_r by (rewrite Hm; lia). rewrite Hm.
    replace (S i * m + j - m)%nat with (i * m + j)%nat by lia.
    rewrite IH by lia. f_equal. f_equal. lia.
Qed.

Lemma all_paths_flat sizes : forall p,
  Forall2 (fun i k => (i < k)%nat) p sizes ->
  all_paths sizes !! flat 0 sizes p = Some p /\ (flat 0 sizes p < foldr Nat.mul 1 sizes)%nat.
Proof.
  induction sizes as [|k ks IH]; intros p H.
  - apply Forall2_nil_inv_r in H as ->. cbn. split; [done|lia].
  - apply Forall2_cons_inv_r in H as (i & p' & Hi & H & ->). cbn [all_paths flat foldr].
    destruct (IH p' H) as [Hl Hlt]. pose proof (Forall2_length _ _ _ H) as Hlen.
    rewrite flat_acc by done. split; [|nia].
    rewrite (concat_uniform_lookup _ (foldr Nat.mul 1%nat ks)); [|intros; rewrite length_map; apply length_all_paths|done..].
    cbn. by rewrite list_lookup_fmap, Hl.
Qed.

Lemma elem_of_all_paths sizes : forall p,
  p ∈ all_paths sizes <-> Forall2 (fun i k => (i < k)%nat) p sizes.
Proof.
  induction sizes as [|k ks IH]; intros p; cbn [all_paths].
  - rewrite list_elem_of_singleton. split; [intros ->; constructor|by intros ?%Forall2_nil_inv_r].
  - rewrite list_elem_of_In, in_concat. split.
    + intros (l & Hl & Hp). apply in_map_iff in Hl as (i & <- & Hi). apply in_map_iff in Hp as (q & <- & Hq).
      apply in_seq in Hi. constructor; [lia|]. apply IH. by apply list_elem_of_In.
    + intros (i & q & Hi & Hq & ->)%Forall2_cons_inv_r. exists (map (cons i) (all_paths ks)). split.
      * apply in_map_iff. exists i. split; [done|]. apply in_seq. lia.
      * apply in_map_iff. exists q. split; [done|]. apply list_elem_of_In. by apply IH.
Qed.

Lemma all_paths_index sizes : forall i p, all_paths sizes !! i = Some p -> flat 0 sizes p = i.
Proof.
  induction sizes as [|k ks IH]; intros i p Hi; cbn in Hi.
  - destruct i; [by injection Hi as <-|done].
  - set (m := foldr Nat.mul 1%nat ks).
    assert (Hm : forall x, length (map (cons x) (all_paths ks)) = m)
      by (intros; rewrite length_map; apply length_all_paths).
    pose proof (lookup_lt_Some _ _ _ Hi) as Hlt.
    change (length _) with (length (all_paths (k :: ks))) in Hlt. rewrite length_all_paths in Hlt.
    cbn [foldr] in Hlt. fold m in Hlt.
    assert (m <> 0)%nat by nia. pose proof (Nat.div_mod i m ltac:(done)) as Hdm.
    pose proof (Nat.mod_upper_bound i m ltac:(done)).
    assert (i / m < k)%nat by (apply Nat.Div0.div_lt_upper_bound; lia).
    rewrite Hdm, (Nat.mul_comm m) in Hi. rewrite (concat_uniform_lookup _ m) in Hi by done.
    rewrite list_lookup_fmap in Hi. apply fmap_Some in Hi as (q & Hq & ->). cbn [flat Nat.add].
    assert (Hql : length q = length ks).
    { apply Forall2_length with (P := fun i k => (i < k)%nat). apply elem_of_all_paths.
      by eapply list_elem_of_lookup_2. }
    rewrite flat_acc by done. fold m. rewrite (IH _ _ Hq). lia.
Qed.

Lemma NoDup_all_paths sizes : NoDup (all_paths sizes).
Proof.
  apply NoDup_alt. intros i j p Hi Hj. by rewrite <- (all_paths_index _ _ _ Hi), <- (all_paths_index _ _ _ Hj).
Qed.

Lemma imap_replicate {A B} (f : nat -> A -> B) k x :
  imap f (replicate k x) = map (fun i => f i x) (seq 0 k).
Proof.
  apply list_eq. intros i. rewrite list_lookup_imap, list_lookup_fmap.
  destruct (decide (i < k)%nat).
  - rewrite lookup_replicate_2, lookup_seq_lt by done. done.
  - rewrite (proj1 (lookup_replicate_None k x i)), lookup_seq_ge by lia. done.
Qed.

(** Sizes of the levels between [lvl] and the bank level. *)
Definition sizes_below (s : DRAMSpec) (lvl B : nat) : list nat :=
  map Z.to_nat (take (B - lvl) (drop (S lvl) (level_sizes s))).

Lemma sizes_below_S s lvl B sz :
  (lvl < B)%nat -> vget (level_sizes s) (Z.of_nat lvl + 1) = Ok sz ->
  sizes_below s lvl B = Z.to_nat sz :: sizes_below s (S lvl) B.
Proof.
  intros Hl Hsz. replace (Z.of_nat lvl + 1) with (Z.of_nat (S lvl)) in Hsz by lia.
  apply vget_nat in Hsz. unfold sizes_below. replace (B - lvl)%nat with (S (B - S lvl)) by lia.
  by rewrite (drop_S _ _ _ Hsz).
Qed.

Lemma make_node_paths s B fuel : forall lvl id n,
  (lvl <= B)%nat -> make_node s (Z.of_nat (S B)) fuel lvl id = Ok n ->
  paths_at_level B n = all_paths (sizes_below s lvl B).
Proof.
  induction fuel as [|fuel IH]; intros lvl id n Hl H; [discriminate|]. cbn [make_node] in H.
  apply bind_Ok_inv in H as (hist & _ & H). apply bind_Ok_inv in H as (st & _ & H). cbn zeta in H.
  destruct (Z.eqb_spec (Z.of_nat lvl + 1) (Z.of_nat (S B))) as [He|Hne].
  - injection H as <-. cbn. replace lvl with B by lia. rewrite Nat.eqb_refl.
    unfold sizes_below. by rewrite Nat.sub_diag.
  - apply bind_Ok_inv in H as (sz & Hsz & H). apply bind_Ok_inv in H as (ch & Hch & H). injection H as <-.
    cbn. destruct (Nat.eqb_spec lvl B) as [?|HneB]; [lia|].
    rewrite (sizes_below_S s lvl B sz) by (done || lia). cbn [all_paths].
    assert (map (paths_at_level B) ch = replicate (Z.to_nat sz) (all_paths (sizes_below s (S lvl) B))) as ->.
    { apply mapM_Ok in Hch. replace (Z.to_nat sz) with (length ch)
        by (apply Forall2_length in Hch; rewrite <- Hch; apply length_seqZ).
      symmetry. apply replicate_as_Forall. rewrite length_map. split; [done|]. apply Forall_fmap, Forall_lookup.
      intros i c Hc. destruct (Forall2_lookup_r _ _ _ _ _ Hch Hc) as (k & _ & Hm). cbn.
      symmetry. apply (IH (S lvl) k c); [lia|done]. }
    by rewrite imap_replicate.
Qed.

(** Every path within the sizes leads to a node. *)
Lemma make_node_lookup s B fuel : forall lvl id n p,
  (lvl <= B)%nat -> make_node s (Z.of_nat (S B)) fuel lvl id = Ok n ->
  p ∈ all_paths (sizes_below s lvl B) -> is_Some (node_at n p).
Proof.
  induction fuel as [|fuel IH]; intros lvl id n p Hl H Hp; [discriminate|]. cbn [make_node] in H.
  apply bind_Ok_inv in H as (hist & _ & H). apply bind_Ok_inv in H as (st & _ & H). cbn zeta in H.
  destruct (Z.eqb_spec (Z.of_nat lvl + 1) (Z.of_nat (S B))) as [He|Hne].
  - unfold sizes_below in Hp. replace (B - lvl)%nat with 0%nat in Hp by lia. cbn in Hp.
    apply list_elem_of_singleton in Hp as ->. by eexists.
  - apply bind_Ok_inv in H as (sz & Hsz & H). apply bind_Ok_inv in H as (ch & Hch & H). injection H as <-.
    rewrite (sizes_below_S s lvl B sz) in Hp by (done || lia).
    apply elem_of_all_paths in Hp. apply Forall2_cons_inv_r in Hp as (i & q & Hi & Hq & ->).
    apply mapM_Ok in Hch. cbn.
    destruct (lookup_lt_is_Some_2 ch i) as [c Hc].
    { apply Forall2_length in Hch. rewrite length_seqZ in Hch. lia. }
    rewrite Hc. cbn. destruct (Forall2_lookup_r _ _ _ _ _ Hch Hc) as (k & _ & Hm).
    apply (IH (S lvl) k c q); [lia|done|]. by apply elem_of_all_paths.
Qed.
