(* ===== verification/DeviceInv.v ===== *)
(** * DeviceInv: the invariant of a device and the effect of its operations

    [dev_ok] is what [init] establishes and every operation keeps: the bank
    table is the mixed-radix enumeration of the banks of the hierarchy.  From
    it follow the meaning of the flat bank number, the set of banks a command
    reaches and what [issue_command] changes in them. *)
From stdpp Require Import prelude gmap strings.
From S2P Require Import Prelude DramSpec Commands Standards Node NodeTiming NodeTree Device.
Open Scope Z_scope.

Definition bank_lvl (d : standard) : nat := Z.to_nat (T_Row (std_traits d) - 1).
Definition row_lvl (d : standard) : nat := Z.to_nat (T_Row (std_traits d)).
Definition bank_sizes (d : standard) (s : DRAMSpec) : list nat := sizes_below s 0 (bank_lvl d).

Record dev_ok (d : standard) (s : DRAMSpec) (dev : DRAMDevice) : Prop := {
  dk_spec : m_spec dev = s;
  dk_level : m_bank_level dev = T_Row (std_traits d) - 1;
  dk_wf : tree_wf (m_root dev);
  dk_lvl : n_level (m_root dev) = 0%nat;
  dk_banks : m_bank_nodes dev = all_paths (bank_sizes d s);
  dk_nodes : forall p, p ∈ m_bank_nodes dev -> is_Some (node_at (m_root dev) p);
  dk_shaped : shaped s (row_lvl d) (m_root dev)
}.

(** The path of the bank an address names. *)
Definition bank_path (d : standard) (av : AddrVec_t) : list nat :=
  map Z.to_nat (take (bank_lvl d) (drop 1 av)).

(** An address without wildcards down to the bank. *)
Definition concrete (d : standard) (s : DRAMSpec) (av : AddrVec_t) : Prop :=
  forall lvl, (1 <= lvl <= bank_lvl d)%nat ->
    exists a sz, av !! lvl = Some a /\ level_sizes s !! lvl = Some sz /\ 0 <= a < sz.

(** ** Flat bank numbers *)
Lemma flat_fold sizes av k : forall lvl acc,
  (forall l, (lvl <= l < lvl + k)%nat ->
     exists a sz, av !! l = Some a /\ sizes !! l = Some sz /\ 0 <= a < sz) ->
  foldM (fun id l => sz ← vget sizes l; a ← vget av l; Ok (id * sz + a))
    (seqZ (Z.of_nat lvl) (Z.of_nat k)) (Z.of_nat acc) =
  Ok (Z.of_nat (flat acc (map Z.to_nat (take k (drop lvl sizes))) (map Z.to_nat (take k (drop lvl av))))) /\
  Forall2 (fun i m => (i < m)%nat) (map Z.to_nat (take k (drop lvl av))) (map Z.to_nat (take k (drop lvl sizes))).
Proof.
  induction k as [|k IH]; intros lvl acc H; [done|].
  destruct (H lvl) as (a & sz & Ha & Hsz & Hr); [lia|].
  rewrite (drop_S _ _ _ Ha), (drop_S _ _ _ Hsz). cbn [take map flat].
  rewrite seqZ_cons by lia. cbn [foldM].
  rewrite (proj2 (vget_nat sizes lvl sz) Hsz). cbn [mbind res_bind].
  rewrite (proj2 (vget_nat av lvl a) Ha). cbn [mbind res_bind].
  destruct (IH (S lvl) (acc * Z.to_nat sz + Z.to_nat a)%nat) as [He Hf]; [intros l Hl; apply H; lia|].
  split; [|constructor; [lia|done]].
  replace (Z.succ (Z.of_nat lvl)) with (Z.of_nat (S lvl)) by lia.
  replace (Z.pred (Z.of_nat (S k))) with (Z.of_nat k) by lia.
  replace (Z.of_nat acc * sz + a) with (Z.of_nat (acc * Z.to_nat sz + Z.to_nat a)) by lia. exact He.
Qed.

Lemma flat_bank d s dev av :
  0 <= T_Row (std_traits d) - 1 -> dev_ok d s dev -> concrete d s av ->
  exists i, get_flat_bank_id dev av = Ok i /\ vget (m_bank_nodes dev) i = Ok (bank_path d av).
Proof.
  intros Hrow Hok Hav.
  destruct (flat_fold (level_sizes s) av (bank_lvl d) 1 0) as [He Hf]; [intros l Hl; apply Hav; lia|].
  eexists. split.
  - unfold get_flat_bank_id. rewrite (dk_spec _ _ _ Hok), (dk_level _ _ _ Hok).
    replace (T_Row (std_traits d) - 1) with (Z.of_nat (bank_lvl d)) by (unfold bank_lvl; lia). exact He.
  - rewrite (dk_banks _ _ _ Hok). apply vget_nat. unfold bank_sizes, sizes_below. rewrite Nat.sub_0_r.
    by apply all_paths_flat.
Qed.

(** ** The invariant *)
Lemma init_dev_ok d cfg s dev :
  In d all_standards -> construct d cfg = Ok s -> init s = Ok dev -> dev_ok d s dev.
Proof.
  intros Hin Hcon Hi. destruct (standard_levels d cfg s Hin Hcon) as [Hrow Hbank].
  destruct (standard_static d cfg s Hin Hcon) as (_ & _ & _ & _ & _ & Hrange & _).
  unfold init in Hi. rewrite Hbank in Hi. cbn [mbind res_bind] in Hi.
  apply bind_Ok_inv in Hi as (root & Hr & Hi). injection Hi as <-.
  assert (set_id (n_id root) root = root) as Hid by (by destruct root).
  destruct (standard_root d cfg s root (n_id root) Hin Hcon Hr) as (Hwf & Hl & _ & Hsh & _). rewrite Hid in *.
  unfold DRAMNode_root in Hr. rewrite Hrow in Hr. cbn in Hr.
  replace (T_Row (std_traits d)) with (Z.of_nat (S (bank_lvl d))) in Hr by (unfold bank_lvl; lia).
  assert (Hb : paths_at_level (bank_lvl d) root = all_paths (bank_sizes d s))
    by (eapply make_node_paths; [|exact Hr]; lia).
  split; cbn; try done. fold (bank_lvl d). rewrite Hb. intros p Hp.
  eapply make_node_lookup; [|exact Hr|exact Hp]. lia.
Qed.

Lemma set_channel_id_ok d s dev ch : dev_ok d s dev -> dev_ok d s (set_channel_id dev ch).
Proof.
  intros [H1 H2 H3 H4 H5 H6 H7]. split; cbn; try done.
  - intros p x k y (x' & Hx' & <- & _ & Hch & _)%node_at_set_id Hy. rewrite <- Hch in Hy. eauto.
  - by destruct (m_root dev).
  - intros p Hp. destruct (H6 p Hp) as [x Hx]. destruct (m_root dev), p; cbn in *; [by eexists|eauto].
  - intros p x (x' & Hx' & Hl & Hloc & Hch & _)%node_at_set_id. specialize (H7 p x' Hx').
    unfold node_shape in *. by rewrite <- Hl, <- Hloc, <- Hch.
Qed.

(** ** Writing one bank *)
Lemma update_at_lookup b p : forall n q x,
  node_at (update_at (set_bank b) n p) q = Some x ->
  exists y, node_at n q = Some y /\ n_level x = n_level y /\ n_id x = n_id y /\ n_local x = n_local y /\
    length (n_children x) = length (n_children y) /\ n_bank x = (if decide (q = p) then b else n_bank y).
Proof.
  induction p as [|i p IH]; intros [l id bk r h c] q x; cbn.
  - destruct q as [|k q]; cbn; [intros [= <-]|intros H]; eexists; (split; [done|by split_and!]).
  - destruct q as [|k q]; cbn.
    + intros [= <-]. eexists. split; [done|]. cbn. split_and!; try done. apply length_alter.
    + destruct (decide (k = i)) as [->|Hne].
      * rewrite list_lookup_alter_eq. destruct (c !! i) as [y|]; [|done]. cbn. intros H.
        destruct (IH y q x H) as (z & Hz & L & I & Lo & Le & Hb). exists z. split_and!; try done.
        rewrite Hb. destruct (decide (q = p)) as [->|Hq]; [by rewrite decide_True|].
        by rewrite decide_False by congruence.
      * rewrite list_lookup_alter_ne by done. intros H. exists x. split_and!; try done.
        by rewrite decide_False by congruence.
Qed.

Lemma update_at_is_Some b n p q : is_Some (node_at (update_at (set_bank b) n p) q) <-> is_Some (node_at n q).
Proof.
  revert n q. induction p as [|i p IH]; intros [l id bk r h c] [|k q]; cbn; try (split; by eexists); try done.
  destruct (decide (k = i)) as [->|Hne]; [|by rewrite list_lookup_alter_ne].
  rewrite list_lookup_alter_eq. destruct (c !! i); cbn; [apply IH|done].
Qed.

Lemma update_at_wf b n p : tree_wf n -> tree_wf (update_at (set_bank b) n p).
Proof.
  intros H q x k y Hx Hy.
  assert (Hq : node_at (update_at (set_bank b) n p) (q ++ [k]) = Some y) by (rewrite node_at_snoc, Hx; done).
  destruct (update_at_lookup b p n q x Hx) as (x0 & Hx0 & -> & _).
  destruct (update_at_lookup b p n _ y Hq) as (y0 & Hy0 & -> & -> & _).
  rewrite node_at_snoc, Hx0 in Hy0. by apply (H q x0).
Qed.

Lemma update_at_shaped s last b n p : shaped s last n -> shaped s last (update_at (set_bank b) n p).
Proof.
  intros H q x Hx. destruct (update_at_lookup b p n q x Hx) as (y & Hy & HL & _ & HLo & HLe & _).
  specialize (H q y Hy). unfold node_shape in *. rewrite HL, HLo.
  destruct H as (H1 & H2 & H3 & H4). split_and!; try done.
  destruct H4 as [Hn|(sz & ? & ? & ?)]; [left|right].
  - rewrite Hn in HLe. by destruct (n_children x).
  - exists sz. by rewrite HLe.
Qed.

Lemma with_root_ok d s dev r :
  dev_ok d s dev -> tree_wf r -> n_level r = 0%nat -> shaped s (row_lvl d) r ->
  (forall p, is_Some (node_at (m_root dev) p) -> is_Some (node_at r p)) -> dev_ok d s (with_root dev r).
Proof. intros [] ? ? ? Hn. split; cbn; eauto. Qed.

(** The bank at a path. *)
Definition bank_of (dev : DRAMDevice) (p : list nat) : option bank_state := n_bank <$> node_at (m_root dev) p.

Lemma act_on_spec d s f cmd av clk dev i dev' :
  dev_ok d s dev -> act_on f cmd av clk dev i = Ok dev' ->
  dev_ok d s dev' /\ m_bank_nodes dev' = m_bank_nodes dev /\ n_id (m_root dev') = n_id (m_root dev) /\
  exists p b b', vget (m_bank_nodes dev) i = Ok p /\ bank_of dev p = Some b /\ f b cmd av clk = Ok b' /\
    bank_of dev' p = Some b' /\ forall q, q <> p -> bank_of dev' q = bank_of dev q.
Proof.
  intros Hok H. unfold act_on in H. apply bind_Ok_inv in H as (p & Hp & H).
  apply bind_Ok_inv in H as (n & Hn & H). apply bind_Ok_inv in H as (b' & Hb & H). injection H as <-.
  destruct (node_at (m_root dev) p) as [m|] eqn:Hm; [|discriminate]. cbn in Hn. injection Hn as ->.
  assert (Hroot : exists y, node_at (m_root dev) [] = Some y /\
    n_level (update_at (set_bank b') (m_root dev) p) = n_level y /\
    n_id (update_at (set_bank b') (m_root dev) p) = n_id y).
  { destruct (update_at_lookup b' p (m_root dev) [] _ eq_refl) as (y & ? & ? & ? & _). eauto. }
  destruct Hroot as (y & [= <-] & HL & HI). split_and!; try done.
  - apply with_root_ok; [done|by apply update_at_wf, Hok|by rewrite HL; apply Hok|by apply update_at_shaped, Hok|].
    intros q Hq. by apply update_at_is_Some.
  - exists p, (n_bank n), b'. split_and!; try done; unfold bank_of; cbn.
    + by rewrite Hm.
    + destruct (proj2 (update_at_is_Some b' (m_root dev) p p)) as [x Hx]; [by eexists|].
      rewrite Hx. destruct (update_at_lookup b' p _ _ _ Hx) as (z & _ & _ & _ & _ & _ & Hbk).
      cbn. by rewrite Hbk, decide_True.
    + intros q Hq. destruct (node_at (update_at (set_bank b') (m_root dev) p) q) as [x|] eqn:Hx.
      * destruct (update_at_lookup b' p _ _ _ Hx) as (z & Hz & _ & _ & _ & _ & Hbk).
        rewrite Hz. cbn. by rewrite Hbk, decide_False.
      * destruct (node_at (m_root dev) q) eqn:E; [|done].
        destruct (proj2 (update_at_is_Some b' (m_root dev) p q)) as [x' Hx']; [by eexists|congruence].
Qed.

(** ** Which banks a command reaches *)
Definition node_addressed (av : AddrVec_t) (n : node) : bool :=
  addresses (default (-1) (av !! n_level n)) (n_id n).

Lemma match_up_spec av l b : match_up av l = Ok b -> b = forallb (node_addressed av) l.
Proof.
  induction l as [|n l IH]; cbn; intros H; [by injection H|].
  apply bind_Ok_inv in H as (a & Ha & H). apply vget_default in Ha.
  unfold node_addressed at 1. rewrite Ha. unfold addresses. rewrite (Z.eqb_sym (n_id n) a).
  destruct (a =? -1), (a =? n_id n); cbn in *; try (by apply IH); by injection H.
Qed.

Lemma match_up_total av l :
  Forall (fun n => is_Some (av !! n_level n)) l -> is_Ok (match_up av l).
Proof.
  induction 1 as [|n l [a Ha] _ IH]; cbn; [by eexists|].
  rewrite (proj2 (vget_nat av (n_level n) a) Ha). cbn. destruct (_ && _); [by eexists|done].
Qed.

Lemma spine_classify av p : forall n l,
  tree_wf n -> spine n p = Some l ->
  forallb (node_addressed av) l = true <-> classify av (n_level n) (n_id n) p = Target.
Proof.
  induction p as [|i p IH]; intros n l Hwf Hl; cbn in Hl.
  - injection Hl as <-. cbn. unfold node_addressed. by destruct (addresses _ _).
  - destruct (n_children n !! i) as [c|] eqn:Hc; [|done]. cbn in Hl.
    destruct (spine c p) as [l'|] eqn:Hs; [|done]. injection Hl as <-.
    destruct (tree_wf_child _ _ _ Hwf Hc) as (Hwfc & HL & HI). specialize (IH c l' Hwfc Hs).
    rewrite HL, HI in IH. cbn [forallb classify]. unfold node_addressed at 1.
    destruct (addresses _ _); cbn; [exact IH|done].
Qed.

Lemma spine_total n p : is_Some (node_at n p) -> exists l, spine n p = Some l.
Proof.
  revert n. induction p as [|i p IH]; intros n; cbn; [eauto|].
  destruct (n_children n !! i) as [c|]; cbn; [|intros [? ?]; done].
  intros H. destruct (IH c H) as [l ->]. cbn. eauto.
Qed.

Lemma spine_levels p : forall n l,
  tree_wf n -> spine n p = Some l -> Forall (fun x => (n_level x <= n_level n + length p)%nat) l.
Proof.
  induction p as [|i p IH]; intros n l Hwf Hl; cbn in Hl.
  - injection Hl as <-. constructor; [lia|done].
  - destruct (n_children n !! i) as [c|] eqn:Hc; [|done]. cbn in Hl.
    destruct (spine c p) as [l'|] eqn:Hs; [|done]. injection Hl as <-.
    destruct (tree_wf_child _ _ _ Hwf Hc) as (Hwfc & HL & _). constructor; [lia|].
    eapply Forall_impl; [by apply (IH c)|]. cbn. intros. rewrite HL in *. lia.
Qed.

Lemma forallb_rev {A} (f : A -> bool) l : forallb f (rev l) = forallb f l.
Proof.
  induction l as [|x l IH]; [done|]. cbn. rewrite forallb_app, IH. cbn. rewrite andb_true_r. apply andb_comm.
Qed.

(** The address is long enough to be read down to the bank level. *)
Definition readable (d : standard) (av : AddrVec_t) : Prop := (bank_lvl d < length av)%nat.

Lemma bank_matches_spec d s dev av i p :
  dev_ok d s dev -> readable d av -> vget (m_bank_nodes dev) i = Ok p ->
  bank_matches dev i av = Ok (bool_decide (classify av 0 (n_id (m_root dev)) p = Target)).
Proof.
  intros Hok Hav Hp. unfold bank_matches. rewrite Hp. cbn [mbind res_bind].
  assert (Hin : p ∈ m_bank_nodes dev) by (apply vget_Ok in Hp as [_ Hp]; by eapply list_elem_of_lookup_2).
  destruct (spine_total _ _ (dk_nodes _ _ _ Hok p Hin)) as [l Hl]. rewrite Hl. cbn [of_option mbind res_bind].
  assert (Hlen : (length p <= bank_lvl d)%nat).
  { rewrite (dk_banks _ _ _ Hok) in Hin. apply elem_of_all_paths, Forall2_length in Hin. rewrite Hin.
    unfold bank_sizes, sizes_below. rewrite length_map, length_take. lia. }
  destruct (match_up_total av (rev l)) as [b Hb].
  { apply Forall_rev. eapply Forall_impl; [apply (spine_levels p _ _ (dk_wf _ _ _ Hok) Hl)|].
    cbn. intros x Hx. rewrite (dk_lvl _ _ _ Hok) in Hx. apply lookup_lt_is_Some_2. unfold readable in Hav. lia. }
  rewrite Hb. f_equal. apply match_up_spec in Hb. rewrite forallb_rev in Hb. subst b.
  pose proof (spine_classify av p _ _ (dk_wf _ _ _ Hok) Hl) as Hs. rewrite (dk_lvl _ _ _ Hok) in Hs.
  case_bool_decide as E; [by apply Hs|]. apply not_true_iff_false. by intros ?%Hs.
Qed.

(** ** Loops over the banks *)
Lemma visit_loop_fold {St} (v : St -> Z -> res St) keep kb ids st :
  (forall i, In i ids -> keep i = Ok (kb i)) ->
  visit_loop (fun st i => st' ← v st i; Ok (st', true)) keep ids st =
    (st' ← foldM v (List.filter kb ids) st; Ok (st', true)).
Proof.
  revert st. induction ids as [|i ids IH]; intros st H; [done|]. cbn [visit_loop List.filter].
  rewrite (H i) by (by left). cbn [mbind res_bind]. destruct (kb i).
  - cbn [foldM]. destruct (v st i) as [st'|e]; cbn; [|done]. apply IH. intros j Hj. apply H. by right.
  - apply IH. intros j Hj. apply H. by right.
Qed.

(** The indices of the banks a command of the kind [All] reaches. *)
Definition matching (dev : DRAMDevice) (av : AddrVec_t) : list Z :=
  List.filter (fun i => from_res false (bank_matches dev i av))
    (seqZ 0 (Z.of_nat (length (m_bank_nodes dev)))).

Lemma bank_index dev i :
  In i (seqZ 0 (Z.of_nat (length (m_bank_nodes dev)))) -> exists p, vget (m_bank_nodes dev) i = Ok p.
Proof.
  intros H. apply list_elem_of_In, elem_of_seqZ in H. apply vget_is_Ok. lia.
Qed.

Lemma for_each_all {St} (v : St -> Z -> res St) d s dev cmd av st :
  dev_ok d s dev -> readable d av -> vget (bank_targets s) cmd = Ok All ->
  for_each_target_bank v dev cmd av st = foldM v (matching dev av) st.
Proof.
  intros Hok Hav Ht. unfold for_each_target_bank, for_each_target_bank_while.
  rewrite (dk_spec _ _ _ Hok), Ht. cbn [mbind res_bind].
  rewrite (visit_loop_fold v _ (fun i => from_res false (bank_matches dev i av))).
  - unfold matching. by destruct (foldM _ _ _).
  - intros i Hi. destruct (bank_index dev i Hi) as [p Hp].
    by rewrite (bank_matches_spec d s dev av i p Hok Hav Hp).
Qed.

Lemma for_each_single {St} (v : St -> Z -> res St) d s dev cmd av st i :
  dev_ok d s dev -> vget (bank_targets s) cmd = Ok Single -> get_flat_bank_id dev av = Ok i ->
  for_each_target_bank v dev cmd av st = v st i.
Proof.
  intros Hok Ht Hi. unfold for_each_target_bank, for_each_target_bank_while.
  rewrite (dk_spec _ _ _ Hok), Ht. cbn [mbind res_bind]. rewrite Hi. cbn [mbind res_bind].
  by destruct (v st i).
Qed.

Lemma elem_of_matching d s dev av i p :
  dev_ok d s dev -> readable d av -> vget (m_bank_nodes dev) i = Ok p ->
  In i (matching dev av) <-> classify av 0 (n_id (m_root dev)) p = Target.
Proof.
  intros Hok Hav Hp. unfold matching. rewrite filter_In, (bank_matches_spec d s dev av i p Hok Hav Hp). cbn.
  rewrite bool_decide_eq_true. split; [by intros [_ ?]|]. intros H. split; [|done].
  apply list_elem_of_In, elem_of_seqZ.
  assert (is_Ok (vget (m_bank_nodes dev) i)) as Hk by (by exists p). apply vget_is_Ok in Hk. lia.
Qed.

Lemma NoDup_matching dev av : NoDup (matching dev av).
Proof.
  unfold matching. apply NoDup_ListNoDup, List.NoDup_filter, NoDup_ListNoDup, NoDup_seqZ.
Qed.

(** ** The effect of [issue_command] *)

(** The banks a registered command acts on. *)
Definition reaches (d : standard) (dev : DRAMDevice) (t : BankTarget) (av : AddrVec_t) (p : list nat) : Prop :=
  p ∈ m_bank_nodes dev /\
  match t with
  | Single => p = bank_path d av
  | _ => classify av 0 (n_id (m_root dev)) p = Target
  end.

#[export] Instance reaches_dec d dev t av p : Decision (reaches d dev t av p).
Proof. unfold reaches. destruct t; apply _. Defined.

Lemma bank_index_inj d s dev i j p :
  dev_ok d s dev -> vget (m_bank_nodes dev) i = Ok p -> vget (m_bank_nodes dev) j = Ok p -> i = j.
Proof.
  intros Hok Hi Hj. pose proof (NoDup_all_paths (bank_sizes d s)) as Hnd. rewrite <- (dk_banks _ _ _ Hok) in Hnd.
  apply vget_Ok in Hi as [? Hi], Hj as [? Hj]. pose proof (NoDup_lookup _ _ _ _ Hnd Hi Hj). lia.
Qed.

Lemma fold_act d s f cmd av clk ids : forall dev dev',
  dev_ok d s dev -> NoDup ids -> foldM (act_on f cmd av clk) ids dev = Ok dev' ->
  dev_ok d s dev' /\ m_bank_nodes dev' = m_bank_nodes dev /\ n_id (m_root dev') = n_id (m_root dev) /\
  (forall i p, In i ids -> vget (m_bank_nodes dev) i = Ok p ->
     exists b b', bank_of dev p = Some b /\ f b cmd av clk = Ok b' /\ bank_of dev' p = Some b') /\
  (forall q, (forall i, In i ids -> vget (m_bank_nodes dev) i <> Ok q) -> bank_of dev' q = bank_of dev q).
Proof.
  induction ids as [|i ids IH]; intros dev dev' Hok Hnd H; cbn in H.
  - injection H as <-. split_and!; try done.
  - apply bind_Ok_inv in H as (dev1 & H1 & H). apply NoDup_cons in Hnd as [Hni Hnd].
    destruct (act_on_spec d s f cmd av clk dev i dev1 Hok H1)
      as (Hok1 & Hbn1 & Hid1 & p & b & b' & Hp & Hb & Hf & Hb' & Hoth).
    destruct (IH dev1 dev' Hok1 Hnd H) as (Hok' & Hbn' & Hid' & Htgt & Hrest).
    rewrite Hbn1 in *. split_and!; try done; [congruence| |].
    + intros j q [<-|Hj] Hq.
      * rewrite Hp in Hq. injection Hq as <-. exists b, b'. split_and!; [done..|].
        rewrite Hrest; [done|]. intros j Hj Hjp. apply Hni.
        rewrite (bank_index_inj d s dev i j p Hok Hp Hjp). by apply list_elem_of_In.
      * destruct (Htgt j q Hj Hq) as (c & c' & Hc & Hfc & Hc'). exists c, c'. split_and!; try done.
        rewrite <- Hc. symmetry. apply Hoth. intros ->.
        apply Hni. rewrite (bank_index_inj d s dev i j p Hok Hp Hq). by apply list_elem_of_In.
    + intros q Hq. rewrite Hrest by (intros j Hj; apply Hq; by right). apply Hoth. intros ->.
      by apply (Hq i (or_introl eq_refl)).
Qed.

(** Timing updates leave the invariant and the banks alone. *)
Lemma update_timing_dev d s dev cmd av clk r :
  spec_ok s -> 0 <= cmd < command_count s -> dev_ok d s dev ->
  update_timing s cmd av clk (m_root dev) = Ok r ->
  dev_ok d s (with_root dev r) /\ n_id r = n_id (m_root dev) /\
  forall p, bank_of (with_root dev r) p = bank_of dev p.
Proof.
  intros Hs Hc Hok Hu. pose proof (cl_flags s (proj1 Hs)) as Hf.
  destruct (update_timing_local _ _ _ _ [] _ _ _ Hf (dk_wf _ _ _ Hok) Hu eq_refl)
    as (r' & [= <-] & HL & HI & _). split_and!; [|done|].
  - apply with_root_ok; [done|by eapply update_timing_wf, Hu; [|apply Hok]|by rewrite HL; apply Hok| |].
    + by eapply update_timing_shaped, Hu; [| |apply Hok|apply Hok].
    + intros p [x Hx]. destruct (update_timing_local _ _ _ _ _ _ _ _ Hf (dk_wf _ _ _ Hok) Hu Hx) as (x' & ? & _).
      by exists x'.
  - intros p. unfold bank_of. cbn. destruct (node_at r p) as [x'|] eqn:Hx'.
    + destruct (update_timing_shape _ _ _ _ _ _ _ _ Hf (dk_wf _ _ _ Hok) Hu Hx') as [x Hx].
      destruct (update_timing_local _ _ _ _ _ _ _ _ Hf (dk_wf _ _ _ Hok) Hu Hx) as (y & Hy & _ & _ & Hb & _).
      rewrite Hx. simplify_eq. cbn. by rewrite Hb.
    + destruct (node_at (m_root dev) p) as [x|] eqn:Hx; [|done].
      destruct (update_timing_local _ _ _ _ _ _ _ _ Hf (dk_wf _ _ _ Hok) Hu Hx) as (y & Hy & _). congruence.
Qed.

Lemma of_zlookup {A} (l : list A) i x : zlookup l i = Some x -> vget l i = Ok x.
Proof. intros H. unfold vget. by rewrite H. Qed.

(** What an address must provide for a command. *)
Definition addr_for (d : standard) (s : DRAMSpec) (t : BankTarget) (av : AddrVec_t) : Prop :=
  readable d av /\ match t with Single => concrete d s av | All => True | SameBank => False end.

Lemma apply_action_effect d s dev cmd av clk c dev' :
  0 <= T_Row (std_traits d) - 1 -> dev_ok d s dev -> handlers_at s cmd c ->
  addr_for d s (impl_target c) av -> apply_action dev cmd av clk = Ok dev' ->
  dev_ok d s dev' /\ m_bank_nodes dev' = m_bank_nodes dev /\ n_id (m_root dev') = n_id (m_root dev) /\
  forall p, p ∈ m_bank_nodes dev ->
    match impl_action c with
    | Some f =>
        (reaches d dev (impl_target c) av p ->
           exists b b', bank_of dev p = Some b /\ f b cmd av clk = Ok b' /\ bank_of dev' p = Some b') /\
        (~ reaches d dev (impl_target c) av p -> bank_of dev' p = bank_of dev p)
    | None => bank_of dev' p = bank_of dev p
    end.
Proof.
  intros Hrow Hok Hh [Hrd Hav] H. unfold apply_action in H. rewrite (dk_spec _ _ _ Hok) in H.
  rewrite (of_zlookup _ _ _ (ha_action _ _ _ Hh)) in H. cbn [mbind res_bind] in H.
  destruct (impl_action c) as [f|]; [|by injection H as <-].
  pose proof (of_zlookup _ _ _ (ha_target _ _ _ Hh)) as Ht. destruct (impl_target c); [..|done].
  - destruct (flat_bank d s dev av Hrow Hok Hav) as (i & Hi & Hp).
    rewrite (for_each_single _ d s dev cmd av dev i Hok Ht Hi) in H.
    destruct (act_on_spec d s f cmd av clk dev i dev' Hok H) as (? & ? & ? & p & b & b' & Hp' & Hb & Hf & Hb' & Ho).
    rewrite Hp in Hp'. injection Hp' as <-. split_and!; try done. intros q Hq. split.
    + intros [_ ->]. eauto.
    + intros Hnr. apply Ho. intros ->. by apply Hnr.
  - rewrite (for_each_all _ d s dev cmd av dev Hok Hrd Ht) in H.
    destruct (fold_act d s f cmd av clk _ dev dev' Hok (NoDup_matching dev av) H) as (? & ? & ? & Htg & Ho).
    split_and!; try done. intros q Hq. pose proof Hq as (k & Hk)%list_elem_of_lookup. apply vget_nat in Hk. split.
    + intros [_ Hr]. apply (Htg (Z.of_nat k) q); [|done]. by apply (elem_of_matching d s dev av _ q).
    + intros Hnr. apply Ho. intros i Hi Hiq. apply Hnr. split; [done|].
      by apply (elem_of_matching d s dev av i q).
Qed.

Lemma issue_effect d s dev cmd av clk c dev' :
  0 <= T_Row (std_traits d) - 1 -> spec_ok s -> 0 <= cmd < command_count s ->
  dev_ok d s dev -> handlers_at s cmd c ->
  addr_for d s (impl_target c) av -> issue_command dev cmd av clk = Ok dev' ->
  dev_ok d s dev' /\ m_bank_nodes dev' = m_bank_nodes dev /\ n_id (m_root dev') = n_id (m_root dev) /\
  forall p, p ∈ m_bank_nodes dev ->
    match impl_action c with
    | Some f =>
        (reaches d dev (impl_target c) av p ->
           exists b b', bank_of dev p = Some b /\ f b cmd av clk = Ok b' /\ bank_of dev' p = Some b') /\
        (~ reaches d dev (impl_target c) av p -> bank_of dev' p = bank_of dev p)
    | None => bank_of dev' p = bank_of dev p
    end.
Proof.
  intros Hrow Hs Hc Hok Hh Hav H. unfold issue_command in H. apply bind_Ok_inv in H as (r & Hu & H).
  rewrite (dk_spec _ _ _ Hok) in Hu.
  destruct (update_timing_dev d s dev cmd av clk r Hs Hc Hok Hu) as (Hok1 & Hid & Hb).
  destruct (apply_action_effect d s _ cmd av clk c dev' Hrow Hok1 Hh Hav H) as (Hok' & Hbn & Hid' & He).
  cbn in Hbn, Hid', He. split_and!; [done|done|congruence|]. intros p Hp. specialize (He p Hp).
  unfold reaches in *. cbn in He. rewrite Hid in He. by rewrite Hb in He.
Qed.
