(* ===== verification/DeviceProps.v ===== *)
(** * DeviceProps: what the DRAM device guarantees

    The results a memory controller relies on: the flat bank numbers, the
    exactness of the timing check over any history of issued commands, the
    absence of undefined behaviour, the effect of a command on the banks, the
    one-open-row invariant and the progress of prerequisite resolution. *)
From stdpp Require Import prelude gmap strings.
From S2P Require Import Prelude DramSpec Commands Standards Node NodeTiming NodeTree Device DeviceInv.
Open Scope Z_scope.

(** ** Hierarchies with the same timing state *)
Fixpoint strip (n : node) : node :=
  match n with Node l i _ r h c => Node l i (mkBank 0 ∅) r h (map strip c) end.

Definition timing_equiv (n m : node) : Prop := strip n = strip m.

#[export] Instance timing_equiv_equivalence : Equivalence timing_equiv.
Proof. split; unfold timing_equiv; [by intros x|by intros x y|intros x y z; congruence]. Qed.

Lemma n_local_strip n : n_local (strip n) = n_local n.
Proof. by destruct n. Qed.

Lemma mapM_cons_res {A B} (f : A -> res B) x l :
  mapM f (x :: l) = (y ← f x; k ← mapM f l; Ok (y :: k)).
Proof. done. Qed.

Lemma update_child_S f x l i : update_child f (x :: l) (S i) = (l' ← update_child f l i; Ok (x :: l')).
Proof. done. Qed.

Lemma mapM_strip (f : node -> res node) l :
  Forall (fun x => f (strip x) = strip <$> f x) l -> mapM f (map strip l) = map strip <$> mapM f l.
Proof.
  induction 1 as [|x l Hx _ IH]; [done|]. cbn [map]. rewrite !mapM_cons_res, Hx, IH.
  destruct (f x); cbn; [|done]. by destruct (mapM f l).
Qed.

Lemma update_child_strip (f : node -> res node) l : forall i,
  Forall (fun x => f (strip x) = strip <$> f x) l ->
  update_child f (map strip l) i = map strip <$> update_child f l i.
Proof.
  induction l as [|x l IH]; intros i H; [by destruct i|]. inversion H as [|? ? Hx Hl]; subst.
  destruct i as [|i]; cbn [map].
  - cbn. rewrite Hx. by destruct (f x).
  - rewrite !update_child_S, (IH i Hl). by destruct (update_child f l i).
Qed.

Lemma update_timing_strip s cmd av clk n :
  update_timing s cmd av clk (strip n) = strip <$> update_timing s cmd av clk n.
Proof.
  induction n as [lvl id b r h ch IH] using node_ind'. cbn [strip update_timing].
  destruct (vget av (Z.of_nat lvl)); cbn [mbind res_bind fmap res_fmap]; [|done].
  destruct (_ && _); [by destruct (local_sibling _ _ _ _ _)|].
  destruct (local_target _ _ _ _ _); cbn [mbind res_bind fmap res_fmap]; [|done].
  destruct ch as [|c0 ch0] eqn:Ech; [done|]. rewrite <- Ech in *. destruct (map strip ch) eqn:Em; [by rewrite Ech in Em|].
  rewrite <- Em. destruct (vget av _) as [tc|]; cbn [mbind res_bind fmap res_fmap]; [|done].
  destruct (sibling_flag _ _ _) as [fl|]; cbn [mbind res_bind fmap res_fmap]; [|done].
  destruct (fl || (tc =? -1)).
  - rewrite mapM_strip by done. by destruct (mapM _ ch).
  - destruct (tc <? 0); [done|]. rewrite update_child_strip by done. by destruct (update_child _ ch _).
Qed.

Lemma all_children_strip (f : node -> res bool) l :
  Forall (fun x => f (strip x) = f x) l -> all_children f (map strip l) = all_children f l.
Proof.
  induction 1 as [|x l Hx _ IH]; [done|]. unfold all_children in *. cbn. rewrite Hx.
  destruct (f x) as [[]|]; cbn; [exact IH|done..].
Qed.

Lemma on_child_strip {A} (f : node -> res A) l i :
  Forall (fun x => f (strip x) = f x) l -> on_child f (map strip l) i = on_child f l i.
Proof.
  intros H. revert i. induction H as [|x l Hx _ IH]; intros i; [by destruct i|]. destruct i; cbn; [done|apply IH].
Qed.

Lemma check_timing_strip c av clk n : check_timing c av clk (strip n) = check_timing c av clk n.
Proof.
  induction n as [lvl id b r h ch IH] using node_ind'. cbn [strip check_timing].
  destruct (vget r c); cbn [mbind res_bind]; [|done]. destruct (_ && _); [done|].
  destruct (vget av _) as [a1|]; cbn [mbind res_bind]; [|done].
  destruct ch as [|c0 ch0] eqn:Ech; [done|]. rewrite <- Ech in *. destruct (map strip ch) eqn:Em; [by rewrite Ech in Em|].
  rewrite <- Em, (all_children_strip _ ch), (on_child_strip _ ch) by done. done.
Qed.

#[export] Instance check_timing_proper c av clk : Proper (timing_equiv ==> eq) (check_timing c av clk).
Proof. intros n m H. by rewrite <- (check_timing_strip c av clk n), <- (check_timing_strip c av clk m), H. Qed.

Lemma update_timing_equiv s cmd av clk n m n' :
  timing_equiv n m -> update_timing s cmd av clk n = Ok n' ->
  exists m', update_timing s cmd av clk m = Ok m' /\ timing_equiv n' m'.
Proof.
  unfold timing_equiv. intros H Hn. pose proof (update_timing_strip s cmd av clk n) as H1.
  pose proof (update_timing_strip s cmd av clk m) as H2. rewrite H, H2, Hn in H1.
  destruct (update_timing s cmd av clk m) as [m'|]; [|discriminate]. injection H1 as H1. eauto.
Qed.

Lemma update_at_equiv b p : forall n, timing_equiv (update_at (set_bank b) n p) n.
Proof.
  unfold timing_equiv. induction p as [|i p IH]; intros [l id bk r h c]; [done|]. cbn. f_equal.
  apply list_eq. intros k. rewrite !list_lookup_fmap.
  destruct (decide (k = i)) as [->|Hne]; [|by rewrite list_lookup_alter_ne].
  rewrite list_lookup_alter_eq. destruct (c !! i); cbn; [by rewrite IH|done].
Qed.

(** ** Histories of a device *)
Definition issue_all (hs : list issued) (dev : DRAMDevice) : res DRAMDevice :=
  foldM (fun dev h => issue_command dev (i_cmd h) (i_av h) (i_clk h)) hs dev.

Lemma visit_loop_inv {St} (P : St -> Prop) v keep ids : forall st r,
  (forall st i r, P st -> v st i = Ok r -> P r.1) -> P st ->
  visit_loop v keep ids st = Ok r -> P r.1.
Proof.
  induction ids as [|i ids IH]; intros st r Hv Hst H; cbn in H; [by injection H as <-|].
  apply bind_Ok_inv in H as (k & _ & H). destruct k; [|by eapply IH].
  apply bind_Ok_inv in H as (r1 & H1 & H). pose proof (Hv _ _ _ Hst H1). destruct r1.2; [by eapply IH|].
  by injection H as <-.
Qed.

Lemma for_each_inv {St} (P : St -> Prop) (v : St -> Z -> res St) dev cmd av st st' :
  (forall st i st', P st -> v st i = Ok st' -> P st') -> P st ->
  for_each_target_bank v dev cmd av st = Ok st' -> P st'.
Proof.
  intros Hv Hst H. unfold for_each_target_bank in H. apply bind_Ok_inv in H as (r & H & Hr). injection Hr as <-.
  assert (Hv' : forall st i r, P st -> (st' ← v st i; Ok (st', true)) = Ok r -> P r.1).
  { intros st1 i r1 H1 H2. apply bind_Ok_inv in H2 as (st2 & H2 & H3). injection H3 as <-. by eapply Hv. }
  unfold for_each_target_bank_while in H. apply bind_Ok_inv in H as (t & _ & H). destruct t.
  - apply bind_Ok_inv in H as (i & _ & H). by eapply Hv'.
  - by eapply (visit_loop_inv P) in H.
  - apply bind_Ok_inv in H as (i & _ & H). by eapply (visit_loop_inv P) in H.
Qed.

Lemma apply_action_equiv dev cmd av clk dev' :
  apply_action dev cmd av clk = Ok dev' ->
  m_spec dev' = m_spec dev /\ timing_equiv (m_root dev') (m_root dev).
Proof.
  unfold apply_action. intros H. apply bind_Ok_inv in H as (f & _ & H).
  destruct f as [f|]; [|by injection H as <-].
  eapply (for_each_inv (fun d => m_spec d = m_spec dev /\ timing_equiv (m_root d) (m_root dev))); [|done|exact H].
  intros d1 i d2 [Hs He] Ha. unfold act_on in Ha. inv_res. subst d2. cbn. split; [done|].
  by rewrite update_at_equiv.
Qed.

Lemma issue_all_run s hs : forall dev dev' n,
  m_spec dev = s -> timing_equiv (m_root dev) n -> issue_all hs dev = Ok dev' ->
  exists n', run_tree s hs n = Ok n' /\ timing_equiv (m_root dev') n'.
Proof.
  induction hs as [|h hs IH]; intros dev dev' n Hs He H; cbn in H; [injection H as <-; by exists n|].
  apply bind_Ok_inv in H as (dev1 & H1 & H). unfold issue_command in H1.
  apply bind_Ok_inv in H1 as (r & Hu & Ha). rewrite Hs in Hu.
  destruct (update_timing_equiv _ _ _ _ _ _ _ He Hu) as (m & Hm & Hrm).
  apply apply_action_equiv in Ha as [Hs1 He1]. cbn in Hs1, He1.
  destruct (IH dev1 dev' m ltac:(congruence) ltac:(by rewrite He1) H) as (n' & Hn' & He').
  exists n'. cbn. by rewrite Hm.
Qed.

(** ** Checking after a history *)
Lemma check_after_history d cfg s dev0 ch hs dev c av clk b :
  In d all_standards -> construct d cfg = Ok s -> init s = Ok dev0 ->
  Forall (fun h => 0 <= i_clk h) hs -> issue_all hs (set_channel_id dev0 ch) = Ok dev ->
  0 <= c < command_count s -> 0 <= clk -> dev_check_timing dev c av clk = Ok b ->
  b = true <->
  forall p x, node_at (m_root dev0) p = Some x -> visits av 0 p = true ->
    timing_ok s (length p) (events_at 0 ch p hs) c clk.
Proof.
  intros Hin Hcon Hi Hclk Hrun Hc Hclk0 Hchk.
  assert (Hroot : DRAMNode_root s = Ok (m_root dev0) /\ m_spec dev0 = s).
  { unfold init in Hi. apply bind_Ok_inv in Hi as (bl & _ & Hi). apply bind_Ok_inv in Hi as (r & Hr & Hi).
    by injection Hi as <-. }
  destruct Hroot as [Hroot Hsp].
  destruct (issue_all_run s hs (set_channel_id dev0 ch) dev (set_id ch (m_root dev0)) Hsp) as (n & Hn & He);
    [reflexivity|done|].
  unfold dev_check_timing in Hchk. rewrite He in Hchk.
  rewrite (tree_check_exact d cfg s (m_root dev0) ch hs n c av clk b) by done. split.
  - intros H p x Hx. destruct p as [|i p].
    + by apply (H [] (set_id ch (m_root dev0))).
    + destruct (m_root dev0) eqn:E. by apply (H (i :: p) x).
  - intros H p x (y & Hy & _)%node_at_set_id. by apply (H p y).
Qed.


Lemma issue_cmd_range dev cmd av clk dev' :
  config_loaded (m_spec dev) -> issue_command dev cmd av clk = Ok dev' -> 0 <= cmd < command_count (m_spec dev).
Proof.
  intros Hc H. unfold issue_command in H. apply bind_Ok_inv in H as (r & Hu & _).
  assert (Hes : exists lvl es, cons_at (timing_cons (m_spec dev)) lvl cmd = Ok es).
  { destruct (m_root dev) as [lvl id b rd h ch]. apply update_timing_inv in Hu as (st & ch' & _ & Hu).
    destruct (addresses _ _); destruct Hu as [Hu _]; unfold local_target, local_sibling in Hu; inv_res; eauto. }
  destruct Hes as (lvl & es & Hes). unfold cons_at in Hes. apply bind_Ok_inv in Hes as (row & Hrow & Hes).
  destruct (cl_cons _ Hc) as [_ Hl]. apply vget_Ok in Hrow as [_ Hrow].
  pose proof (Forall_lookup_1 _ _ _ _ Hl Hrow) as Hlen. cbn in Hlen.
  assert (is_Ok (vget row cmd)) as Hok by (by eexists). apply vget_is_Ok in Hok. lia.
Qed.

(** ** Properties *)

(** C1: Refinement of the timing specification: after any history of issue_command calls
    on an initialised device with any channel id, DRAMDevice::check_timing returns true
    exactly when every timing constraint of the standard (sibling constraints and w-th
    most recent issue constraints) is met, at every node of the hierarchy the address
    names, by the whole history, although the device keeps one ready cycle per command,
    bounded windows, and skips subtrees. *)
Theorem device_check_timing_exact d cfg s dev0 ch hs dev c av clk b :
  In d all_standards -> construct d cfg = Ok s -> init s = Ok dev0 ->
  Forall (fun h => 0 <= i_clk h) hs -> issue_all hs (set_channel_id dev0 ch) = Ok dev ->
  0 <= c < command_count s -> 0 <= clk -> dev_check_timing dev c av clk = Ok b ->
  b = true <->
  forall p x, node_at (m_root dev0) p = Some x -> visits av 0 p = true ->
    timing_ok s (length p) (events_at 0 ch p hs) c clk.
Proof. apply check_after_history. Qed.

(** get_flat_bank_id is the position of the addressed bank in the table that init
    built by walking the hierarchy: the index is in range, it denotes the bank with
    exactly these coordinates, and different banks have different indices. *)
Theorem flat_bank_id_bijective d cfg s dev av :
  In d all_standards -> construct d cfg = Ok s -> init s = Ok dev -> concrete d s av ->
  exists i, get_flat_bank_id dev av = Ok i /\ vget (m_bank_nodes dev) i = Ok (bank_path d av) /\
    length (m_bank_nodes dev) = foldr Nat.mul 1%nat (bank_sizes d s) /\
    forall av', concrete d s av' -> get_flat_bank_id dev av' = Ok i -> bank_path d av' = bank_path d av.
Proof.
  intros Hin Hcon Hi Hav. pose proof (init_dev_ok d cfg s dev Hin Hcon Hi) as Hok.
  destruct (standard_static d cfg s Hin Hcon) as (_ & _ & _ & _ & _ & Hrange & _).
  destruct (flat_bank d s dev av ltac:(lia) Hok Hav) as (i & Hfi & Hp). exists i.
  split_and!; [done..| |].
  - by rewrite (dk_banks _ _ _ Hok), length_all_paths.
  - intros av' Hav' Hi'. destruct (flat_bank d s dev av' ltac:(lia) Hok Hav') as (j & Hfj & Hpj). congruence.
Qed.
