(* ===== verification/BankProgress.v ===== *)
(** * BankProgress: commands succeed and reach their goal

    Operations on valid addresses never fail, and asking for the prerequisite
    of a column access and issuing it leads to the access: the device
    simulates the bank state machine of [Commands]. *)
From stdpp Require Import prelude gmap strings.
From S2P Require Import Prelude DramSpec Commands Standards Node NodeTiming NodeTree Device DeviceInv DeviceProps BankSafety.
Open Scope Z_scope.

(** An address a request may carry: no wildcard down to the bank, and long
    enough for every level that is read. *)
Definition req_addr (d : standard) (s : DRAMSpec) (av : AddrVec_t) : Prop :=
  concrete d s av /\ addr_ok s (row_lvl d) av.

(** Ask and issue until the wanted command itself is legal. *)
Fixpoint drive_dev (fuel : nat) (dev : DRAMDevice) (want : Z) (av : AddrVec_t) (clk : Z)
  : res (list Z * DRAMDevice) :=
  match fuel with
  | O => Ok ([], dev)
  | S fuel =>
      c ← get_preq_command dev want av clk;
      if c =? want then Ok ([want], dev)
      else
        dev' ← issue_command dev c av clk;
        p ← drive_dev fuel dev' want av clk;
        Ok (c :: p.1, p.2)
  end.

Definition access_names : list string := ["RD"; "WR"; "RDA"; "WRA"].

Lemma access_impl T name c :
  name ∈ access_names -> impl_by_name T name = Some c ->
  (name ∉ opening_names) /\ impl_target c = Single /\ impl_preq c = Some (RD_preq T) /\
  impl_rowhit c = Some (RD_rowhit T).
Proof.
  intros Ha Hn. by_impl Hn; try closed_elem; (split; [closed_elem|done]).
Qed.

Section Progress.
Context (d : standard) (cfg : dram_config) (s : DRAMSpec).
Context (Hin : In d all_standards) (Hcon : construct d cfg = Ok s) (Hs : spec_ok s).
Local Abbreviation T := (std_traits d).

Lemma req_addr_row av : req_addr d s av -> readable d av /\ exists row, vget av (T_Row T) = Ok row.
Proof.
  intros [_ [Hl _]]. destruct (standard_static d cfg s Hin Hcon) as (_ & _ & _ & _ & _ & Hr & _). split.
  - destruct (Hl (bank_lvl d)) as [a Ha]; [unfold bank_lvl, row_lvl; lia|]. by apply lookup_lt_Some in Ha.
  - destruct (Hl (row_lvl d)) as [a Ha]; [lia|]. exists a. apply vget_Ok. split; [lia|done].
Qed.

Lemma apply_action_total dev cmd c av clk :
  dev_ok d s dev -> handlers_at s cmd c -> addr_for d s (impl_target c) av ->
  (forall f b, impl_action c = Some f -> is_Ok (f b cmd av clk)) -> is_Ok (apply_action dev cmd av clk).
Proof.
  intros Hok Hh [Hrd Hav] Hf. unfold apply_action. rewrite (dk_spec _ _ _ Hok).
  rewrite (of_zlookup _ _ _ (ha_action _ _ _ Hh)). cbn [mbind res_bind].
  destruct (impl_action c) as [f|]; [|by eexists].
  pose proof (of_zlookup _ _ _ (ha_target _ _ _ Hh)) as Ht.
  assert (Hact : forall dv i p, dev_ok d s dv -> vget (m_bank_nodes dv) i = Ok p ->
            exists dv', act_on f cmd av clk dv i = Ok dv').
  { intros dv i p Hokd Hp. unfold act_on. rewrite Hp. cbn [mbind res_bind].
    destruct (dk_nodes _ _ _ Hokd p) as [x Hx]; [apply vget_Ok in Hp as [_ Hp]; by eapply list_elem_of_lookup_2|].
    rewrite Hx. cbn [of_option mbind res_bind]. destruct (Hf f (n_bank x) eq_refl) as [b' ->]. by eexists. }
  destruct (impl_target c); [..|done].
  - destruct (flat_bank d s dev av (row_pos d cfg s Hin Hcon) Hok Hav) as (i & Hi & Hp).
    rewrite (for_each_single _ d s dev cmd av dev i Hok Ht Hi). by apply (Hact dev i (bank_path d av)).
  - rewrite (for_each_all _ d s dev cmd av dev Hok Hrd Ht).
    destruct (foldM_total (fun dv => dev_ok d s dv /\ m_bank_nodes dv = m_bank_nodes dev)
      (act_on f cmd av clk) (matching dev av) dev) as (dv & Hdv & _); [|done|by exists dv].
    intros i dv Hi [Hokd Hbn]. unfold matching in Hi. apply filter_In in Hi as [Hi _].
    destruct (bank_index dev i Hi) as [p Hp].
    destruct (Hact dv i p Hokd ltac:(by rewrite Hbn)) as [dv' Hdv']. exists dv'. split; [done|].
    destruct (act_on_spec d s f cmd av clk dv i dv' Hokd Hdv') as (? & ? & _). split; [done|congruence].
Qed.

Lemma action_total name c f b cmd av clk :
  impl_by_name T name = Some c -> impl_action c = Some f -> (exists row, vget av (T_Row T) = Ok row) ->
  is_Ok (f b cmd av clk).
Proof.
  intros Hn Hf [row Hrow]. by_impl Hn; cbn in Hf; try discriminate; injection Hf as <-; try (by eexists).
  - unfold ACT_action. rewrite Hrow. by eexists.
  - unfold ACT2_action. rewrite Hrow. by eexists.
Qed.

Lemma issue_total dev name cmd c av clk :
  dev_ok d s dev -> get_command_id s name = Ok cmd -> impl_by_name T name = Some c ->
  addr_for d s (impl_target c) av -> addr_ok s (row_lvl d) av -> is_Ok (issue_command dev cmd av clk).
Proof.
  intros Hok Hid Hc Hav Ha. destruct (command_id_range d cfg s name cmd Hin Hcon Hid) as [Hr _].
  destruct (standard_handlers d cfg s name cmd Hin Hcon Hid) as (c' & Hc' & Hh). rewrite Hc in Hc'. injection Hc' as <-.
  unfold issue_command. rewrite (dk_spec _ _ _ Hok).
  destruct (update_timing_step s (row_lvl d) cmd av clk (m_root dev) Hs Hr Ha) as (n' & Hu & _); [apply Hok..|].
  rewrite Hu. cbn [mbind res_bind].
  destruct (update_timing_dev d s dev cmd av clk n' Hs Hr Hok Hu) as (Hok1 & _).
  apply (apply_action_total (with_root dev n') cmd c av clk Hok1 Hh Hav).
  intros f b Hf. eapply action_total; eauto.
  destruct (standard_static d cfg s Hin Hcon) as (_ & _ & _ & _ & _ & Hrow & _).
  destruct (proj1 Ha (row_lvl d)) as [a Haa]; [lia|]. exists a. apply vget_Ok. split; [lia|done].
Qed.

(** ** The device simulates the bank machine *)
Lemma dev_resolve dev name want c av clk :
  dev_ok d s dev -> name ∈ access_names -> get_command_id s name = Ok want -> impl_by_name T name = Some c ->
  req_addr d s av ->
  exists b, bank_of dev (bank_path d av) = Some b /\ bank_path d av ∈ m_bank_nodes dev /\
    forall bc, resolve T b av = Ok bc -> get_preq_command dev want av clk = Ok (bank_cmd_id T want bc).
Proof.
  intros Hok Hn Hid Hc Hav. destruct (access_impl T name c Hn Hc) as (_ & Ht & Hp & _).
  destruct (standard_handlers d cfg s name want Hin Hcon Hid) as (c' & Hc' & Hh). rewrite Hc in Hc'. injection Hc' as <-.
  destruct (get_preq_single d s dev want av clk c _ (row_pos d cfg s Hin Hcon) Hok Hh Ht Hp (proj1 Hav)) as (b & Hb & Hbn & He).
  exists b. split_and!; [done..|]. intros bc Hbc. rewrite He.
  destruct (req_addr_row av Hav) as [_ [row Hrow]].
  rewrite (resolve_RD_preq T b av want clk row (T_wf d cfg s Hin Hcon) Hrow). by rewrite Hbc.
Qed.

(** The command each step of the bank machine stands for. *)
Definition step_name (bc : bank_cmd) : string :=
  match bc with bACT => "ACT" | bACT1 => "ACT1" | bACT2 => "ACT2" | _ => "PREpb" end.
Definition step_impl (bc : bank_cmd) : cmd_impl :=
  match bc with bACT => Cmd_ACT T | bACT1 => Cmd_ACT1 T | bACT2 => Cmd_ACT2 T | _ => Cmd_PREpb T end.

Lemma step_registered b av bc want :
  resolve T b av = Ok bc -> bc <> bACCESS ->
  get_command_id s (step_name bc) = Ok (bank_cmd_id T want bc) /\
  impl_by_name T (step_name bc) = Some (step_impl bc) /\ impl_target (step_impl bc) = Single /\
  exists f, impl_action (step_impl bc) = Some f /\ forall b cmd clk, f b cmd av clk = bank_action T bc b av.
Proof.
  intros Hr Hne. pose proof (T_wf d cfg s Hin Hcon) as HT.
  destruct (standard_command_ids d cfg s Hin Hcon) as (HP & _ & H0 & H1 & H2).
  unfold resolve in Hr. apply bind_Ok_inv in Hr as (row & _ & Hr).
  assert (Hid : get_command_id s (step_name bc) = Ok (bank_cmd_id T want bc)).
  { dcase Hr; [|dcase Hr; [|dcase Hr; [|discriminate]]].
    - destruct (T_ACT2 T) eqn:E2; injection Hr as <-; cbn.
      + destruct (proj2 (tw_split1 _ HT)) as [a Ha]; [by eexists|]. rewrite Ha. by apply H1.
      + destruct (tw_act _ HT E2) as [a Ha]. rewrite Ha. by apply H0.
    - injection Hr as <-. cbn. apply enum_is_true in Ec0.
      destruct (proj2 (tw_split _ HT)) as [a Ha]; [by eexists|]. rewrite Ha. by apply H2.
    - injection Hr as <-. destruct (row_present b row); [done|]. exact HP. }
  split; [exact Hid|]. destruct bc; try done; (split_and!; [done|done|]); by eexists.
Qed.

Lemma dev_bank_step dev b av clk bc want :
  dev_ok d s dev -> req_addr d s av -> bank_of dev (bank_path d av) = Some b ->
  bank_path d av ∈ m_bank_nodes dev ->
  resolve T b av = Ok bc -> bc <> bACCESS ->
  exists dev' b', issue_command dev (bank_cmd_id T want bc) av clk = Ok dev' /\ dev_ok d s dev' /\
    m_bank_nodes dev' = m_bank_nodes dev /\
    bank_action T bc b av = Ok b' /\ bank_of dev' (bank_path d av) = Some b' /\
    forall p, p ∈ m_bank_nodes dev -> p <> bank_path d av -> bank_of dev' p = bank_of dev p.
Proof.
  intros Hok Hav Hb Hbn Hr Hne. destruct (req_addr_row av Hav) as [Hrd _].
  destruct (step_registered b av bc want Hr Hne) as (Hid & Hc & Ht & f & Hf & Hact).
  assert (Hafor : addr_for d s (impl_target (step_impl bc)) av) by (rewrite Ht; split; [done|apply Hav]).
  destruct (issue_total dev (step_name bc) _ (step_impl bc) av clk Hok Hid Hc Hafor (proj2 Hav)) as [dev' Hi].
  destruct (command_id_range d cfg s _ _ Hin Hcon Hid) as [Hrng _].
  destruct (standard_handlers d cfg s _ _ Hin Hcon Hid) as (c' & Hc' & Hh). rewrite Hc in Hc'. injection Hc' as <-.
  destruct (issue_effect d s dev _ av clk (step_impl bc) dev' (row_pos d cfg s Hin Hcon) Hs Hrng Hok Hh Hafor Hi)
    as (Hok' & Hbn' & _ & He).
  rewrite Hf, Ht in He. destruct (proj1 (He _ Hbn)) as (b0 & b' & Hb0 & Hfb & Hb'); [by split|].
  rewrite Hb in Hb0. injection Hb0 as <-. rewrite Hact in Hfb. exists dev', b'. split_and!; try done.
  intros p Hp Hpne. apply (He p Hp). intros [_ ?]. contradiction.
Qed.

Lemma drive_dev_simulates n : forall dev b av clk name want c cs b',
  dev_ok d s dev -> name ∈ access_names -> get_command_id s name = Ok want -> impl_by_name T name = Some c ->
  req_addr d s av -> bank_of dev (bank_path d av) = Some b ->
  drive T n b av = Ok (cs, b') ->
  exists dev', drive_dev n dev want av clk = Ok (map (bank_cmd_id T want) cs, dev') /\ dev_ok d s dev' /\
    m_bank_nodes dev' = m_bank_nodes dev /\
    bank_of dev' (bank_path d av) = Some b' /\
    forall p, p ∈ m_bank_nodes dev -> p <> bank_path d av -> bank_of dev' p = bank_of dev p.
Proof.
  induction n as [|n IH]; intros dev b av clk name want c cs b' Hok Hn Hid Hc Hav Hb Hd; cbn in Hd.
  - injection Hd as <- <-. by exists dev.
  - apply bind_Ok_inv in Hd as (bc & Hbc & Hd). cbn [drive_dev].
    destruct (dev_resolve dev name want c av clk Hok Hn Hid Hc Hav) as (b0 & Hb0 & Hbn & Hpre).
    rewrite Hb in Hb0. injection Hb0 as <-. rewrite (Hpre bc Hbc). cbn [mbind res_bind].
    destruct (decide (bc = bACCESS)) as [->|Hne].
    + injection Hd as <- <-. cbn. rewrite Z.eqb_refl. by exists dev.
    + assert (Hd' : (b'0 ← bank_action T bc b av; p ← drive T n b'0 av; Ok (bc :: p.1, p.2)) = Ok (cs, b'))
        by (by destruct bc). clear Hd.
      destruct (dev_bank_step dev b av clk bc want Hok Hav Hb Hbn Hbc Hne)
        as (dev1 & b1 & Hi & Hok1 & Hbn1 & Ha & Hb1 & Hoth).
      rewrite Ha in Hd'. cbn [mbind res_bind] in Hd'. apply bind_Ok_inv in Hd' as ([cs1 b2] & Hd1 & Hd2).
      cbn in Hd2. injection Hd2 as <- <-.
      destruct (step_registered b av bc want Hbc Hne) as (Hstep & _).
      destruct (bank_cmd_id T want bc =? want) eqn:E.
      { bool_hyps. rewrite E in Hstep. pose proof (command_id_inj d cfg s _ _ _ Hin Hcon Hstep Hid) as <-.
        destruct bc; cbn [step_name] in Hn; closed_elem. }
      rewrite Hi. cbn [mbind res_bind].
      destruct (IH dev1 b1 av clk name want c cs1 b2 Hok1 Hn Hid Hc Hav Hb1 Hd1) as (dev' & -> & Hok' & Hbn' & Hb' & Ho').
      exists dev'. cbn. split_and!; try done; [congruence|].
      intros p Hp Hpne. rewrite Ho' by (rewrite ?Hbn1; done). by apply Hoth.
Qed.
End Progress.

(** ** Properties *)

(** C7: Progress: from any device with well-formed banks, asking get_preq_command for a
    column access and issuing the answer never fails and reaches the access itself after
    at most three other commands; then the access is a row hit, and no other bank
    changed. *)
Theorem device_reaches_access d cfg s dev name want av clk :
  In d all_standards -> construct d cfg = Ok s -> spec_ok s ->
  dev_ok d s dev -> banks_wf d dev -> name ∈ access_names -> get_command_id s name = Ok want ->
  req_addr d s av ->
  exists cs dev', drive_dev 4 dev want av clk = Ok (cs ++ [want], dev') /\ (length cs <= 3)%nat /\
    check_rowbuffer_hit dev' want av clk = Ok true /\
    forall p, p ∈ m_bank_nodes dev -> p <> bank_path d av -> bank_of dev' p = bank_of dev p.
Proof.
  intros Hin Hcon Hs Hok Hwf Hn Hid Hav.
  destruct (standard_handlers d cfg s name want Hin Hcon Hid) as (c & Hc & Hh).
  destruct (access_impl _ name c Hn Hc) as (_ & _ & _ & Hhit).
  destruct (req_addr_row d cfg s Hin Hcon av Hav) as [_ [row Hrow]].
  destruct (flat_bank d s dev av (row_pos d cfg s Hin Hcon) Hok (proj1 Hav)) as (i & Hi & Hp).
  destruct (Hwf (bank_path d av)) as (b & Hb & Hbw);
    [apply vget_Ok in Hp as [_ Hp]; by eapply list_elem_of_lookup_2|].
  destruct (drive_from_distance (std_traits d) b av row 3 (T_wf d cfg s Hin Hcon) Hbw Hrow)
    as (cs & b' & Hd & Hlen & _ & Hst & Hpr); [apply distance_le|].
  destruct (drive_dev_simulates d cfg s Hin Hcon Hs 4 dev b av clk name want c _ b' Hok Hn Hid Hc Hav Hb Hd)
    as (dev' & Hdd & Hok' & Hbn' & Hb' & Hoth).
  exists (map (bank_cmd_id (std_traits d) want) cs), dev'. split_and!; [by rewrite Hdd, map_app|by rewrite length_map| |done].
  destruct (flat_bank d s dev' av (row_pos d cfg s Hin Hcon) Hok' (proj1 Hav)) as (j & Hj & Hpj).
  unfold check_rowbuffer_hit, row_query. rewrite (dk_spec _ _ _ Hok'), (of_zlookup _ _ _ (ha_rowhit _ _ _ Hh)), Hhit.
  cbn [mbind res_bind]. rewrite Hj. cbn [mbind res_bind]. unfold bank_node. rewrite Hpj. cbn [mbind res_bind].
  unfold bank_of in Hb'. destruct (node_at (m_root dev') (bank_path d av)) as [x|]; [|done]. cbn in Hb'. injection Hb' as Hbx.
  cbn [of_option mbind res_bind]. unfold RD_rowhit. rewrite Hbx, Hst, Z.eqb_refl, Hrow. cbn. by rewrite Hpr.
Qed.

(** After PREab was issued to an address pattern, REFab and RFMab to the same
    pattern need no prerequisite: all and only the matching banks are closed, the others
    are unchanged. *)
Theorem refresh_after_precharge d cfg s dev name want av clk dev' r :
  In d all_standards -> construct d cfg = Ok s -> spec_ok s -> dev_ok d s dev ->
  name ∈ ["REFab"; "RFMab"] -> get_command_id s name = Ok want -> readable d av -> addr_ok s (row_lvl d) av ->
  issue_command dev (T_PREab (std_traits d)) av clk = Ok dev' ->
  get_preq_command dev' want av clk = Ok r ->
  r = want /\
  (forall p, reaches d dev All av p -> bank_of dev' p = Some (mkBank (T_Closed (std_traits d)) ∅)) /\
  (forall p, p ∈ m_bank_nodes dev -> ~ reaches d dev All av p -> bank_of dev' p = bank_of dev p).
Proof.
  intros Hin Hcon Hs Hok Hn Hid Hrd Ha Hi Hpre.
  destruct (standard_command_ids d cfg s Hin Hcon) as (_ & HPab & _).
  destruct (standard_handlers d cfg s _ _ Hin Hcon HPab) as (c & [= <-] & Hh).
  destruct (standard_handlers d cfg s name want Hin Hcon Hid) as (c' & Hc' & Hh').
  destruct (command_id_range d cfg s _ _ Hin Hcon HPab) as [Hr _].
  destruct (issue_effect d s dev _ av clk _ dev' (row_pos d cfg s Hin Hcon) Hs Hr Hok Hh (conj Hrd I) Hi)
    as (Hok' & Hbn & Hch & He). cbn in He.
  assert (Hclosed : forall p, reaches d dev All av p -> bank_of dev' p = Some (mkBank (T_Closed (std_traits d)) ∅)).
  { intros p Hp. destruct (proj1 (He p (proj1 Hp)) Hp) as (b & b' & _ & [= <-] & Hb'). done. }
  split_and!; [|done|intros p Hp; apply (He p Hp)].
  assert (impl_target c' = All /\ exists f, impl_preq c' = Some f /\
    forall b cmd, m_state b = T_Closed (std_traits d) -> f b cmd av clk = Ok cmd) as (Ht & f & Hf & Hcl).
  { by_impl Hc'; try closed_elem; (split; [done|]); eexists; (split; [done|]);
      intros b cmd Hb; unfold REFab_preq, RFMab_preq; by rewrite Hb, Z.eqb_refl. }
  destruct (get_preq_all d s dev' want av clk c' f r Hok' Hh' Ht Hf Hrd Hpre) as [[? _]|(Hne & p & b & Hp & Hb & Hfb)];
    [done|].
  assert (reaches d dev All av p) as Hp' by (unfold reaches in *; by rewrite Hbn, Hch in Hp).
  rewrite (Hclosed p Hp') in Hb. injection Hb as <-. rewrite Hcl in Hfb by done. by injection Hfb.
Qed.

(** C21: Absence of undefined behaviour: construction of the device, any sequence of
    registered commands with addresses in range, and every later timing check succeed;
    no vector is indexed outside its bounds and no exception is thrown. *)
Theorem device_no_undefined_behaviour d cfg s ch hs :
  In d all_standards -> construct d cfg = Ok s -> spec_ok s ->
  length (level_sizes s) = Z.to_nat (level_count s) ->
  Forall (fun h => exists name c, get_command_id s name = Ok (i_cmd h) /\
            impl_by_name (std_traits d) name = Some c /\
            addr_for d s (impl_target c) (i_av h) /\ addr_ok s (row_lvl d) (i_av h)) hs ->
  exists dev0 dev, init s = Ok dev0 /\ issue_all hs (set_channel_id dev0 ch) = Ok dev /\
    forall c av clk, 0 <= c < command_count s -> addr_ok s (row_lvl d) av -> is_Ok (dev_check_timing dev c av clk).
Proof.
  intros Hin Hcon Hs Hsz Hhs. destruct (standard_levels d cfg s Hin Hcon) as [_ Hbank].
  destruct (standard_root_total d cfg s Hin Hcon Hsz) as [root Hroot].
  assert (exists dev0, init s = Ok dev0) as [dev0 Hi].
  { unfold init. rewrite Hbank. cbn [mbind res_bind]. rewrite Hroot. by eexists. }
  pose proof (set_channel_id_ok d s dev0 ch (init_dev_ok d cfg s dev0 Hin Hcon Hi)) as Hok0.
  destruct (foldM_total (dev_ok d s) (fun dev h => issue_command dev (i_cmd h) (i_av h) (i_clk h)) hs
              (set_channel_id dev0 ch)) as (dev & Hrun & Hok); [|done|].
  - intros h dv Hh Hokd. rewrite Forall_forall in Hhs.
    destruct (Hhs h) as (name & c & Hid & Hc & Haf & Ha); [by apply list_elem_of_In|].
    destruct (issue_total d cfg s Hin Hcon Hs dv name _ c _ (i_clk h) Hokd Hid Hc Haf Ha) as [dv' Hdv']. exists dv'.
    split; [done|]. destruct (command_id_range d cfg s name _ Hin Hcon Hid) as [Hr _].
    destruct (standard_handlers d cfg s name _ Hin Hcon Hid) as (c' & Hc' & Hhd). rewrite Hc in Hc'. injection Hc' as <-.
    by destruct (issue_effect d s dv _ _ _ c dv' (row_pos d cfg s Hin Hcon) Hs Hr Hokd Hhd Haf Hdv').
  - exists dev0, dev. split_and!; [done|done|]. intros c av clk Hc Ha.
    eapply check_timing_total; [done|done|]. apply Hok.
Qed.

(** ** Witnesses on the small DDR4 device *)
Definition dev_small : DRAMDevice :=
  from_res (mkDev ddr4_small (Node 0 0 (mkBank 0 ∅) [] [] []) [] 0) (init ddr4_small).

Lemma dev_small_ok : init ddr4_small = Ok dev_small.
Proof. apply from_res_Ok. vm_compute. reflexivity. Qed.

(** Two activations of banks of one group, then a read of the first. *)
Definition hs_small : list issued :=
  [mkIssued 0 [0; 0; 0; 0; 3; -1] 10; mkIssued 0 [0; 0; 0; 1; 5; -1] 11; mkIssued 3 [0; 0; 0; 0; 3; 2] 14].

Definition dev_small_run : DRAMDevice :=
  from_res dev_small (issue_all hs_small (set_channel_id dev_small 0)).

Lemma dev_small_run_ok : issue_all hs_small (set_channel_id dev_small 0) = Ok dev_small_run.
Proof. apply from_res_Ok. vm_compute. reflexivity. Qed.

Lemma DDR4_in : In DDR4_std all_standards.
Proof. by right; left. Qed.

Definition av_small : AddrVec_t := [0; 0; 0; 1; 5; 7].

Lemma concrete_small av : 
  match av with [_; 0; 0; 1; _; _] => True | _ => False end -> concrete DDR4_std ddr4_small av.
Proof.
  intros H lvl Hl. repeat case_match; try done. subst. change (bank_lvl DDR4_std) with 3%nat in Hl.
  destruct lvl as [|[|[|[|lvl]]]]; try lia; eexists _, _; (split_and!; [reflexivity|vm_compute; reflexivity|lia|lia]).
Qed.

Lemma req_addr_small : req_addr DDR4_std ddr4_small av_small.
Proof.
  split; [by apply concrete_small|]. change (row_lvl DDR4_std) with 4%nat. split.
  - intros lvl Hl. apply lookup_lt_is_Some_2. cbn. lia.
  - intros lvl Hl. destruct lvl as [|[|[|[|lvl]]]]; try lia; eexists _, _; (split_and!; [reflexivity|vm_compute; reflexivity|right; lia]).
Qed.

(** A read of the second bank waits for its own activation (cycle 15) and
    for the read of the same bank group (cycle 16). *)
Lemma device_check_timing_exact_witness :
  (forall p x, node_at (m_root dev_small) p = Some x -> visits av_small 0 p = true ->
     timing_ok ddr4_small (length p) (events_at 0 0 p hs_small) 3 16) /\
  ~ (forall p x, node_at (m_root dev_small) p = Some x -> visits av_small 0 p = true ->
     timing_ok ddr4_small (length p) (events_at 0 0 p hs_small) 3 15).
Proof.
  assert (Hp : Forall (fun h => 0 <= i_clk h) hs_small) by (repeat constructor; cbn; lia).
  assert (Hc : 0 <= 3 < command_count ddr4_small) by (vm_compute; split; [discriminate|reflexivity]).
  split.
  - apply (device_check_timing_exact DDR4_std cfg_small ddr4_small dev_small 0 hs_small dev_small_run 3
             av_small 16 true DDR4_in ddr4_small_ok dev_small_ok Hp dev_small_run_ok Hc); [lia| |reflexivity].
    vm_compute. reflexivity.
  - intros H.
    assert (false = true) as E; [|discriminate E].
    apply (device_check_timing_exact DDR4_std cfg_small ddr4_small dev_small 0 hs_small dev_small_run 3
             av_small 15 false DDR4_in ddr4_small_ok dev_small_ok Hp dev_small_run_ok Hc); [lia| |exact H].
    vm_compute. reflexivity.
Defined.

Lemma flat_bank_id_bijective_witness :
  exists i, get_flat_bank_id dev_small av_small = Ok i /\ vget (m_bank_nodes dev_small) i = Ok [0; 0; 1]%nat.
Proof.
  destruct (flat_bank_id_bijective DDR4_std cfg_small ddr4_small dev_small av_small DDR4_in ddr4_small_ok dev_small_ok)
    as (i & Hi & Hp & _).
  - apply concrete_small. exact I.
  - exists i. split; [exact Hi|]. rewrite Hp. reflexivity.
Defined.

Lemma device_no_undefined_behaviour_witness :
  exists dev0 dev, init ddr4_small = Ok dev0 /\
    issue_all [mkIssued 0 av_small 10; mkIssued 3 av_small 14] (set_channel_id dev0 0) = Ok dev.
Proof.
  destruct (device_no_undefined_behaviour DDR4_std cfg_small ddr4_small 0
    [mkIssued 0 av_small 10; mkIssued 3 av_small 14] DDR4_in ddr4_small_ok spec_ok_small) as (dev0 & dev & H1 & H2 & _).
  - vm_compute. reflexivity.
  - assert (Ha : forall c, impl_target c = Single -> addr_for DDR4_std ddr4_small (impl_target c) av_small).
    { intros c ->. split; [vm_compute; lia|]. apply concrete_small. exact I. }
    pose proof (proj2 req_addr_small) as Hok. constructor; [|constructor; [|constructor]].
    + exists "ACT", (Cmd_ACT DDR4_traits). split_and!; [vm_compute; reflexivity|reflexivity|by apply Ha|exact Hok].
    + exists "RD", (Cmd_RD DDR4_traits). split_and!; [vm_compute; reflexivity|reflexivity|by apply Ha|exact Hok].
  - exists dev0, dev. split; [exact H1|exact H2].
Defined.

(** One step: a read of a closed bank activates it. *)
Definition dev_small_act : DRAMDevice :=
  from_res dev_small (issue_command (set_channel_id dev_small 0) 0 av_small 10).

Lemma dev_small_step : dev_step DDR4_std ddr4_small (set_channel_id dev_small 0) dev_small_act.
Proof.
  apply (dev_step_intro DDR4_std ddr4_small (set_channel_id dev_small 0) "RD" (Cmd_RD DDR4_traits) 3 av_small 10 0).
  - closed_elem.
  - vm_compute. reflexivity.
  - reflexivity.
  - split; [vm_compute; lia|]. apply concrete_small. exact I.
  - vm_compute. reflexivity.
  - apply from_res_Ok. vm_compute. reflexivity.
Qed.

Lemma one_open_row_witness :
  exists b, bank_of dev_small_act [0; 0; 1]%nat = Some b /\ bank_wf DDR4_traits b.
Proof.
  apply (one_open_row DDR4_std cfg_small ddr4_small dev_small 0 dev_small_act
           DDR4_in ddr4_small_ok spec_ok_small dev_small_ok).
  - apply rtc_once. exact dev_small_step.
  - apply (bool_decide_unpack _). vm_compute. exact I.
Defined.

Lemma device_reaches_access_witness :
  exists cs dev', drive_dev 4 dev_small 3 av_small 10 = Ok (cs ++ [3], dev') /\ (length cs <= 3)%nat.
Proof.
  destruct (device_reaches_access DDR4_std cfg_small ddr4_small dev_small "RD" 3 av_small 10
    DDR4_in ddr4_small_ok spec_ok_small) as (cs & dev' & H1 & H2 & _).
  - exact (init_dev_ok DDR4_std cfg_small ddr4_small dev_small DDR4_in ddr4_small_ok dev_small_ok).
  - exact (init_banks_wf DDR4_std cfg_small ddr4_small DDR4_in ddr4_small_ok dev_small dev_small_ok).
  - closed_elem.
  - vm_compute. reflexivity.
  - exact req_addr_small.
  - exists cs, dev'. split; [exact H1|exact H2].
Defined.

Definition av_rank : AddrVec_t := [0; 0; -1; -1; -1; -1].

Definition dev_small_pre : DRAMDevice := from_res dev_small (issue_command dev_small_act 2 av_rank 40).

Lemma dev_small_act_ok : dev_ok DDR4_std ddr4_small dev_small_act.
Proof.
  eapply (dev_step_wf DDR4_std cfg_small ddr4_small DDR4_in ddr4_small_ok spec_ok_small); [exact dev_small_step|..].
  - apply set_channel_id_ok. exact (init_dev_ok DDR4_std cfg_small ddr4_small dev_small DDR4_in ddr4_small_ok dev_small_ok).
  - exact (init_banks_wf DDR4_std cfg_small ddr4_small DDR4_in ddr4_small_ok dev_small dev_small_ok).
Qed.

Lemma addr_ok_rank : addr_ok ddr4_small (row_lvl DDR4_std) av_rank.
Proof.
  change (row_lvl DDR4_std) with 4%nat. split.
  - intros lvl Hl. apply lookup_lt_is_Some_2. cbn. lia.
  - intros lvl Hl. destruct lvl as [|[|[|[|lvl]]]]; try lia; eexists _, _; (split_and!; [reflexivity|vm_compute; reflexivity|lia]).
Qed.

(** The open bank makes the refresh ask for PREab (2); afterwards REFab (7)
    itself is legal. *)
Lemma refresh_after_precharge_witness :
  get_preq_command dev_small_act 7 av_rank 40 = Ok 2 /\
  exists r, get_preq_command dev_small_pre 7 av_rank 40 = Ok r /\ r = 7.
Proof.
  split; [vm_compute; reflexivity|]. exists 7. split; [vm_compute; reflexivity|].
  refine (proj1 (refresh_after_precharge DDR4_std cfg_small ddr4_small dev_small_act "REFab" 7
    av_rank 40 dev_small_pre 7 DDR4_in ddr4_small_ok spec_ok_small dev_small_act_ok _ _ _ addr_ok_rank _ _)).
  - closed_elem.
  - vm_compute. reflexivity.
  - vm_compute. lia.
  - apply from_res_Ok. vm_compute. reflexivity.
  - vm_compute. reflexivity.
Defined.
