(* ===== verification/IssueSafety.v ===== *)
(** * IssueSafety: no query of a valid request fails

    Every question a controller asks of the device about a valid command and
    address has an answer, and issuing what the device answered succeeds and
    keeps every bank well formed. *)
From stdpp Require Import prelude gmap strings.
From S2P Require Import Prelude DramSpec Commands Standards Node NodeTiming NodeTree Device DeviceInv DeviceProps BankSafety BankProgress.
Open Scope Z_scope.

Lemma visit_loop_total {St} (P : St -> Prop) v keep ids : forall st,
  (forall i, i ∈ ids -> is_Ok (keep i)) ->
  (forall st i, i ∈ ids -> P st -> exists r, v st i = Ok r /\ P r.1) ->
  P st -> exists r, visit_loop v keep ids st = Ok r /\ P r.1.
Proof.
  induction ids as [|i ids IH]; intros st Hk Hv Hst; cbn; [by eexists|].
  destruct (Hk i) as [k ->]; [apply list_elem_of_here|]. cbn.
  assert (IH' : forall st, P st -> exists r, visit_loop v keep ids st = Ok r /\ P r.1).
  { intros st' Hst'. apply IH; [intros j Hj; apply Hk|intros s' j Hj; apply Hv|done]; by apply list_elem_of_further. }
  destruct k; [|by apply IH']. destruct (Hv st i) as (r & -> & Hr); [apply list_elem_of_here|done|]. cbn.
  destruct r.2; [by apply IH'|]. by eexists.
Qed.

Lemma elem_of_index dev i : i ∈ seqZ 0 (Z.of_nat (length (m_bank_nodes dev))) -> exists p, vget (m_bank_nodes dev) i = Ok p.
Proof. rewrite elem_of_seqZ. intros H. destruct (proj2 (vget_is_Ok (m_bank_nodes dev) i)) as [p Hp]; [lia|eauto]. Qed.

Section IssueSafety.
Context (d : standard) (cfg : dram_config) (s : DRAMSpec).
Context (Hin : In d all_standards) (Hcon : construct d cfg = Ok s) (Hs : spec_ok s).
Local Abbreviation T := (std_traits d).

(** A command that a request may want, and its address. *)
Definition wanted (cmd : Z) (av : AddrVec_t) : Prop :=
  exists name c, (name ∉ opening_names) /\ get_command_id s name = Ok cmd /\ impl_by_name T name = Some c /\
    addr_for d s (impl_target c) av.

Lemma addr_row av : addr_ok s (row_lvl d) av -> exists row, vget av (T_Row T) = Ok row.
Proof.
  intros [Hl _]. destruct (standard_static d cfg s Hin Hcon) as (_ & _ & _ & _ & _ & Hr & _).
  destruct (Hl (row_lvl d)) as [a Ha]; [lia|]. exists a. apply vget_Ok. split; [lia|done].
Qed.

Lemma flat_id_total dev av : dev_ok d s dev -> addr_ok s (row_lvl d) av -> is_Ok (get_flat_bank_id dev av).
Proof.
  intros Hok [_ Ha]. destruct (standard_static d cfg s Hin Hcon) as (_ & _ & _ & _ & _ & Hr & _).
  unfold get_flat_bank_id. rewrite (dk_level _ _ _ Hok), (dk_spec _ _ _ Hok).
  destruct (foldM_total (fun _ => True) (fun id lvl => sz ← vget (level_sizes s) lvl; a ← vget av lvl; Ok (id * sz + a))
    (seqZ 1 (T_Row T - 1)) 0) as (i & -> & _); [|done|by eexists].
  intros lvl id Hlvl _. apply list_elem_of_In, elem_of_seqZ in Hlvl.
  destruct (Ha (Z.to_nat lvl)) as (a & sz & Hav & Hsz & _); [unfold row_lvl; lia|].
  rewrite (proj2 (vget_Ok (level_sizes s) lvl sz)) by (split; [lia|done]). cbn.
  rewrite (proj2 (vget_Ok av lvl a)) by (split; [lia|done]). cbn. by eexists.
Qed.

(** ** Resolution *)
Lemma preq_total name c f b cmd av clk :
  impl_by_name T name = Some c -> name ∉ opening_names -> impl_preq c = Some f -> bank_wf T b ->
  (exists row, vget av (T_Row T) = Ok row) -> is_Ok (f b cmd av clk).
Proof.
  intros Hn Hop Hf Hwf [row Hrow].
  assert (HRD : is_Ok (RD_preq T b cmd av clk)).
  { rewrite (resolve_RD_preq T b av cmd clk row (T_wf d cfg s Hin Hcon) Hrow).
    destruct (resolve_total T b av row Hwf Hrow) as [bc ->]. by eexists. }
  by_impl Hn; try closed_elem.
  all: cbn in Hf; try discriminate; injection Hf as <-.
  all: first [exact HRD | unfold PREpb_preq, REFab_preq, REFpb_preq, RFMab_preq, RFMpb_preq; repeat case_match; by eexists].
Qed.

Lemma get_preq_total dev cmd av clk :
  dev_ok d s dev -> banks_wf d dev -> wanted cmd av -> addr_ok s (row_lvl d) av ->
  is_Ok (get_preq_command dev cmd av clk).
Proof.
  intros Hok Hwf (name & c & Hop & Hid & Hc & Hav) Ha.
  destruct (standard_handlers d cfg s name cmd Hin Hcon Hid) as (c' & Hc' & Hh). rewrite Hc in Hc'. injection Hc' as <-.
  destruct (impl_preq c) as [f|] eqn:Ef; cycle 1.
  { unfold get_preq_command. rewrite (dk_spec _ _ _ Hok), (of_zlookup _ _ _ (ha_preq _ _ _ Hh)), Ef. by eexists. }
  destruct (impl_target c) eqn:Et; [..|by destruct Hav]; destruct Hav as [Hrd Hav].
  - destruct (get_preq_single d s dev cmd av clk c f (row_pos d cfg s Hin Hcon) Hok Hh Et Ef Hav) as (b & Hb & Hp & ->).
    destruct (Hwf _ Hp) as (b' & Hb' & Hw). rewrite Hb in Hb'. injection Hb' as <-.
    eapply preq_total; eauto. by apply addr_row.
  - unfold get_preq_command, for_each_target_bank_while. rewrite (dk_spec _ _ _ Hok).
    rewrite (of_zlookup _ _ _ (ha_preq _ _ _ Hh)), (of_zlookup _ _ _ (ha_target _ _ _ Hh)), Ef, Et.
    cbn [mbind res_bind].
    edestruct (visit_loop_total (fun _ : Z => True)) as (r & -> & _); [..|by eexists]; [| |done].
    + intros i (p & Hp)%elem_of_index. cbn beta. rewrite (bank_matches_spec d s dev av i p Hok Hrd Hp). by eexists.
    + intros st i (p & Hp)%elem_of_index _. cbn beta. unfold bank_node. rewrite Hp. cbn [mbind res_bind].
      destruct (Hwf p) as (b & Hb & Hw); [apply vget_Ok in Hp as [_ Hp]; by eapply list_elem_of_lookup_2|].
      unfold bank_of in Hb. destruct (node_at (m_root dev) p) as [x|]; [|done]. cbn in Hb. injection Hb as <-.
      cbn [of_option mbind res_bind]. destruct (preq_total name c f (n_bank x) cmd av clk) as [q ->]; eauto; [by apply addr_row|].
      cbn [mbind res_bind]. destruct (negb (q =? cmd)); by eexists.
Qed.

Lemma wanted_issuable dev cmd av : wanted cmd av -> issuable d s dev cmd av.
Proof. intros (name & c & H). left. eauto. Qed.

Lemma get_preq_safe dev want av clk cmd :
  dev_ok d s dev -> wanted want av -> get_preq_command dev want av clk = Ok cmd -> issuable d s dev cmd av.
Proof. intros Hok (name & c & Hop & Hid & Hc & Hav) H. by eapply (get_preq_issuable d cfg s Hin Hcon dev name want). Qed.

(** ** Issue *)
Lemma opening_named b cmd :
  opening_ok T b cmd ->
  exists name c, name ∈ opening_names /\ get_command_id s name = Ok cmd /\ impl_by_name T name = Some c /\
    impl_target c = Single.
Proof.
  intros Hop. pose proof (T_wf d cfg s Hin Hcon) as HT.
  destruct (standard_command_ids d cfg s Hin Hcon) as (_ & _ & H0 & H1 & H2).
  destruct Hop as [(Hno & -> & Hst)|[(Hyes & -> & Hst)|(Hyes & -> & Hst)]].
  - destruct (tw_act _ HT Hno) as [a Ha]. rewrite Ha in *. exists "ACT", (Cmd_ACT T). split_and!; [closed_elem|by apply H0|done..].
  - destruct (proj2 (tw_split1 _ HT) Hyes) as [a Ha]. rewrite Ha in *. exists "ACT1", (Cmd_ACT1 T).
    split_and!; [closed_elem|by apply H1|done..].
  - destruct Hyes as [a Ha]. rewrite Ha in *. exists "ACT2", (Cmd_ACT2 T). split_and!; [closed_elem|by apply H2|done..].
Qed.

(** An issuable command is registered and its address fits. *)
Lemma issuable_named dev cmd av : dev_ok d s dev -> issuable d s dev cmd av ->
  exists name c, get_command_id s name = Ok cmd /\ impl_by_name T name = Some c /\ addr_for d s (impl_target c) av /\
    (name ∈ opening_names -> concrete d s av).
Proof.
  intros Hok [(name & c & Hop & Hid & Hc & Hav)|(Hrd & Hav & b & Hb & Hopen)].
  - exists name, c. split_and!; try done.
  - destruct (opening_named b cmd Hopen) as (name & c & Hn & Hid & Hc & Ht). exists name, c.
    split_and!; try done. by rewrite Ht.
Qed.

Lemma issuable_range dev cmd av : dev_ok d s dev -> issuable d s dev cmd av -> 0 <= cmd < command_count s.
Proof.
  intros Hok Hi. destruct (issuable_named dev cmd av Hok Hi) as (name & c & Hid & _).
  by destruct (command_id_range d cfg s name cmd Hin Hcon Hid).
Qed.

Lemma issue_safe dev cmd av clk :
  dev_ok d s dev -> banks_wf d dev -> issuable d s dev cmd av -> addr_ok s (row_lvl d) av ->
  exists dev', issue_command dev cmd av clk = Ok dev' /\ dev_ok d s dev' /\ banks_wf d dev'.
Proof.
  intros Hok Hwf Hi Ha. destruct (issuable_named dev cmd av Hok Hi) as (name & c & Hid & Hc & Hav & _).
  destruct (issue_total d cfg s Hin Hcon Hs dev name cmd c av clk Hok Hid Hc Hav Ha) as [dev' Hi'].
  exists dev'. split; [done|]. by eapply (issue_issuable d cfg s Hin Hcon Hs dev cmd av clk).
Qed.

Lemma check_safe dev cmd av clk :
  dev_ok d s dev -> 0 <= cmd < command_count s -> addr_ok s (row_lvl d) av -> is_Ok (dev_check_timing dev cmd av clk).
Proof. intros Hok Hc Ha. eapply check_timing_total; [done|done|]. apply Hok. Qed.
End IssueSafety.
