(* ===== verification/Request.v ===== *)
(** * Request: memory requests and request buffers

    Models [ramulator/base/request.h], [request.cpp] and the [ReqBuffer] of
    [ramulator/controller/i_controller.h].  A request's callback is a
    closure; the simulator only copies it and calls it when the request
    departs, so it is represented by the number of the closure. *)
From stdpp Require Import prelude gmap strings.
From S2P Require Import Prelude DramSpec.
Open Scope Z_scope.

Record Request := mkReq {
  addr : Z;
  intra_channel_addr : Z;
  addr_vec : AddrVec_t;
  type_id : Z;
  source_id : Z;
  size_bytes : Z;
  command : Z;
  final_command : Z;
  is_stat_updated : bool;
  arrive : Z;
  depart : Z;
  callback : option Z
}.

Definition Type_Read : Z := 0.
Definition Type_Write : Z := 1.

(** The constructors; the other fields keep their default initialisers. *)
Definition Request_default : Request := mkReq (-1) (-1) [] (-1) (-1) (-1) (-1) (-1) false (-1) (-1) None.
Definition Request_addr (a type : Z) : Request := mkReq a (-1) [] type (-1) (-1) (-1) (-1) false (-1) (-1) None.
Definition Request_vec (av : AddrVec_t) (type : Z) : Request :=
  mkReq (-1) (-1) av type (-1) (-1) (-1) (-1) false (-1) (-1) None.
Definition Request_src (a type src : Z) (cb : option Z) : Request :=
  mkReq a (-1) [] type src (-1) (-1) (-1) false (-1) (-1) cb.
Definition Request_cmd (av : AddrVec_t) (final_cmd : Z) : Request :=
  mkReq (-1) (-1) av (-1) (-1) (-1) (-1) final_cmd false (-1) (-1) None.

(** Field updates. *)
Definition set_addr_vec (r : Request) (av : AddrVec_t) : Request :=
  mkReq (addr r) (intra_channel_addr r) av (type_id r) (source_id r) (size_bytes r) (command r)
    (final_command r) (is_stat_updated r) (arrive r) (depart r) (callback r).
Definition set_intra (r : Request) (a : Z) : Request :=
  mkReq (addr r) a (addr_vec r) (type_id r) (source_id r) (size_bytes r) (command r)
    (final_command r) (is_stat_updated r) (arrive r) (depart r) (callback r).
Definition set_addr (r : Request) (a : Z) : Request :=
  mkReq a (intra_channel_addr r) (addr_vec r) (type_id r) (source_id r) (size_bytes r) (command r)
    (final_command r) (is_stat_updated r) (arrive r) (depart r) (callback r).
Definition set_size (r : Request) (n : Z) : Request :=
  mkReq (addr r) (intra_channel_addr r) (addr_vec r) (type_id r) (source_id r) n (command r)
    (final_command r) (is_stat_updated r) (arrive r) (depart r) (callback r).
Definition set_command (r : Request) (c : Z) : Request :=
  mkReq (addr r) (intra_channel_addr r) (addr_vec r) (type_id r) (source_id r) (size_bytes r) c
    (final_command r) (is_stat_updated r) (arrive r) (depart r) (callback r).
Definition set_final_command (r : Request) (c : Z) : Request :=
  mkReq (addr r) (intra_channel_addr r) (addr_vec r) (type_id r) (source_id r) (size_bytes r) (command r)
    c (is_stat_updated r) (arrive r) (depart r) (callback r).
Definition set_stat_updated (r : Request) (b : bool) : Request :=
  mkReq (addr r) (intra_channel_addr r) (addr_vec r) (type_id r) (source_id r) (size_bytes r) (command r)
    (final_command r) b (arrive r) (depart r) (callback r).
Definition set_arrive (r : Request) (t : Z) : Request :=
  mkReq (addr r) (intra_channel_addr r) (addr_vec r) (type_id r) (source_id r) (size_bytes r) (command r)
    (final_command r) (is_stat_updated r) t (depart r) (callback r).
Definition set_depart (r : Request) (t : Z) : Request :=
  mkReq (addr r) (intra_channel_addr r) (addr_vec r) (type_id r) (source_id r) (size_bytes r) (command r)
    (final_command r) (is_stat_updated r) (arrive r) t (callback r).

(** ** ReqBuffer: a bounded list of requests; an iterator is a position *)
Record ReqBuffer := mkBuf {
  buffer : list Request;
  max_size : Z
}.

Definition buf_size (b : ReqBuffer) : Z := Z.of_nat (length (buffer b)).

Definition enqueue (b : ReqBuffer) (r : Request) : bool * ReqBuffer :=
  if buf_size b <? max_size b then (true, mkBuf (buffer b ++ [r]) (max_size b)) else (false, b).

Definition remove (b : ReqBuffer) (i : nat) : ReqBuffer := mkBuf (erase i (buffer b)) (max_size b).

(** Writing through an iterator. *)
Definition modify_at (b : ReqBuffer) (i : nat) (f : Request -> Request) : ReqBuffer :=
  mkBuf (alter f i (buffer b)) (max_size b).

Definition buf_ok (b : ReqBuffer) : Prop := buf_size b <= max_size b.

Lemma enqueue_ok b r ok b' :
  buf_ok b -> enqueue b r = (ok, b') ->
  buf_ok b' /\ max_size b' = max_size b /\
  buffer b' = (if ok then buffer b ++ [r] else buffer b) /\ ok = (buf_size b <? max_size b).
Proof.
  unfold enqueue, buf_ok, buf_size. intros Hok.
  destruct (Z.ltb_spec (Z.of_nat (length (buffer b))) (max_size b)); intros [= <- <-]; cbn; split_and!; try done.
  rewrite length_app. cbn. lia.
Qed.

Lemma length_erase_le {A} (l : list A) i : (length (erase i l) <= length l)%nat.
Proof.
  destruct (l !! i) as [x|] eqn:Hx; [rewrite (length_erase l i x Hx); lia|].
  apply lookup_ge_None in Hx. unfold erase. revert i Hx.
  induction l as [|y l IH]; intros [|i] Hx; cbn in *; try lia. apply le_n_S, IH. lia.
Qed.

Lemma remove_ok b i : buf_ok b -> buf_ok (remove b i).
Proof.
  unfold buf_ok, buf_size, remove. cbn. intros H. pose proof (length_erase_le (buffer b) i). lia.
Qed.

Lemma modify_at_ok b i f : buf_ok b -> buf_ok (modify_at b i f).
Proof. unfold buf_ok, buf_size, modify_at. cbn. by rewrite length_alter. Qed.

#[export] Hint Resolve remove_ok modify_at_ok : cpp.
