(* ===== verification/BitUtils.v ===== *)
(** * BitUtils: integer and string helpers

    Models [ramulator/base/utils.h] and [utils.cpp]. *)
From Stdlib Require Import Ascii.
From stdpp Require Import prelude gmap strings.
From S2P Require Import Prelude.
Open Scope Z_scope.

(** [while ((val >>= 1)) n++;] on a signed integer of at most 64 bits.  On a
    negative value the shift never reaches zero: a loop without side effects
    that does not terminate has undefined behaviour. *)
Fixpoint calc_log2_loop (fuel : nat) (val n : Z) : res Z :=
  match fuel with
  | O => Err UndefinedBehaviour
  | S fuel =>
      let val := Z.shiftr val 1 in
      if val =? 0 then Ok n else calc_log2_loop fuel val (n + 1)
  end.

Definition calc_log2 (val : Z) : res Z := calc_log2_loop 64 val 0.

(** [1 << num_bits] is an [int]: a negative or too large [num_bits] is
    undefined, and for 31 the subtraction overflows. *)
Definition low_mask (num_bits : Z) : res Z :=
  if (0 <=? num_bits) && (num_bits <? 31) then Ok (Z.shiftl 1 num_bits - 1) else Err UndefinedBehaviour.

(** The sliced bits and the new value of [addr]. *)
Definition slice_lower_bits (addr num_bits : Z) : res (Z * Z) :=
  m ← low_mask num_bits;
  Ok (Z.land addr m, Z.shiftr addr num_bits).

(** ** Strings, as lists of characters *)
Abbreviation str := (list Ascii.ascii) (only parsing).

Fixpoint is_prefix (p l : str) : bool :=
  match p, l with
  | [], _ => true
  | x :: p, y :: l => Ascii.eqb x y && is_prefix p l
  | _, _ => false
  end.

(** [line.find(delim, pos)]: the first position not before [pos] where [delim]
    occurs; a position beyond the end finds nothing. *)
Fixpoint find_from (delim : str) (l : str) (i : nat) : option nat :=
  if is_prefix delim l then Some i
  else match l with [] => None | _ :: l => find_from delim l (S i) end.

Definition find (delim line : str) (pos : nat) : option nat :=
  if (length line <? pos)%nat then None else find_from delim (drop pos line) pos.

(** [substr] throws when the position is beyond the end. *)
Definition substr (l : str) (pos n : nat) : res str :=
  if (length l <? pos)%nat then Err (Throw "std::out_of_range") else Ok (take n (drop pos l)).

(** Every round moves [last_pos] forward, so the length of the line and one
    more round bound the loop. *)
Fixpoint tokenize_loop (fuel : nat) (line delim : str) (last_pos : nat) (tokens : list str) : res (list str) :=
  match fuel with
  | O => Err UndefinedBehaviour
  | S fuel =>
      match find delim line last_pos with
      | Some pos =>
          t ← substr line last_pos (pos - last_pos);
          tokenize_loop fuel line delim (pos + 1) (tokens ++ [t])
      | None =>
          t ← substr line last_pos (length line);
          Ok (tokens ++ [t])
      end
  end.

Definition tokenize (tokens : list str) (line delim : str) : res (list str) :=
  tokenize_loop (length line + 2) line delim 0 tokens.

(** [std::stoull] in base 10: white space, a sign, digits up to the first
    other character. *)
Definition digit (c : Ascii.ascii) : option Z :=
  let n := Z.of_nat (Ascii.nat_of_ascii c) in
  if (48 <=? n) && (n <=? 57) then Some (n - 48) else None.

Definition is_space (c : Ascii.ascii) : bool :=
  let n := Z.of_nat (Ascii.nat_of_ascii c) in (n =? 32) || ((9 <=? n) && (n <=? 13)).

Fixpoint digits (l : str) (acc : option Z) : option Z :=
  match l with
  | [] => acc
  | c :: l => match digit c with Some k => digits l (Some (default 0 acc * 10 + k)) | None => acc end
  end.

Fixpoint skip_spaces (l : str) : str :=
  match l with c :: l' => if is_space c then skip_spaces l' else l | [] => [] end.

Definition stoull (l : str) : res Z :=
  let l := skip_spaces l in
  let neg := match l with c :: _ => Ascii.eqb c "-"%char | [] => false end in
  let l := match l with c :: l' => if Ascii.eqb c "-"%char || Ascii.eqb c "+"%char then l' else l | [] => [] end in
  match digits l None with
  | None => Err (Throw "std::invalid_argument")
  | Some v =>
      if v <? 2 ^ 64 then Ok (if neg then u64 (- v) else v) else Err (Throw "std::out_of_range")
  end.

Definition parse_capacity_str (size_str : str) : res Z :=
  let try_ (i : Z) (suffix : str) (k : res Z) : res Z :=
    match find suffix size_str 0 with
    | Some _ => size ← stoull size_str; Ok (u64 (Z.shiftl size (10 * (i + 1))))
    | None => k
    end in
  try_ 0 ["K"; "B"]%char (try_ 1 ["M"; "B"]%char (try_ 2 ["G"; "B"]%char (Ok 0))).

(** ** Lemmas *)
Lemma calc_log2_loop_spec fuel : forall v n,
  0 <= v < 2 ^ Z.of_nat fuel -> (0 < fuel)%nat ->
  calc_log2_loop fuel v n = Ok (n + Z.log2 v).
Proof.
  induction fuel as [|fuel IH]; intros v n Hv Hf; [lia|]. cbn [calc_log2_loop].
  rewrite Z.shiftr_div_pow2 by lia. change (2 ^ 1) with 2.
  destruct (Z.eqb_spec (v / 2) 0) as [E|E].
  - assert (v = 0 \/ v = 1) as [->| ->] by (pose proof (Z.div_mod v 2); pose proof (Z.mod_pos_bound v 2); lia);
      cbn; f_equal; lia.
  - assert (2 <= v) by (destruct (Z.le_gt_cases 2 v); [done|]; exfalso; apply E; apply Z.div_small; lia).
    assert (Hp : 2 ^ Z.of_nat (S fuel) = 2 * 2 ^ Z.of_nat fuel) by (rewrite Nat2Z.inj_succ, Z.pow_succ_r; lia).
    destruct fuel as [|fuel]; [cbn in Hv; lia|].
    rewrite IH; [|split; [apply Z.div_pos; lia|apply Z.div_lt_upper_bound; lia]|lia].
    f_equal. replace (v / 2) with (Z.shiftr v 1) by (rewrite Z.shiftr_div_pow2 by lia; done). rewrite Z.log2_shiftr by lia.
    assert (1 <= Z.log2 v) by (apply Z.log2_le_pow2; cbn; lia). lia.
Qed.

Lemma calc_log2_ok v : 0 <= v < 2 ^ 63 -> calc_log2 v = Ok (Z.log2 v).
Proof.
  intros H. unfold calc_log2. rewrite calc_log2_loop_spec; [done| |lia].
  split; [lia|]. eapply Z.lt_trans; [apply H|]. by vm_compute.
Qed.

Lemma calc_log2_loop_neg fuel : forall v n, v < 0 -> calc_log2_loop fuel v n = Err UndefinedBehaviour.
Proof.
  induction fuel as [|fuel IH]; intros v n Hv; [done|]. cbn [calc_log2_loop].
  assert (Z.shiftr v 1 < 0) by (by apply Z.shiftr_neg).
  destruct (Z.eqb_spec (Z.shiftr v 1) 0); [lia|]. by apply IH.
Qed.

Lemma slice_lower_bits_ok a w : 0 <= w < 31 -> slice_lower_bits a w = Ok (a mod 2 ^ w, a / 2 ^ w).
Proof.
  intros Hw. unfold slice_lower_bits, low_mask.
  destruct (Z.leb_spec 0 w); [|lia]. destruct (Z.ltb_spec w 31); [|lia]. cbn.
  rewrite Z.shiftl_1_l, Z.sub_1_r, <- Z.ones_equiv, Z.land_ones, Z.shiftr_div_pow2 by lia. done.
Qed.

Lemma slice_lower_bits_inv a w p : slice_lower_bits a w = Ok p -> 0 <= w < 31 /\ p = (a mod 2 ^ w, a / 2 ^ w).
Proof.
  intros H. assert (0 <= w < 31) as Hw.
  { unfold slice_lower_bits, low_mask in H. destruct (Z.leb_spec 0 w), (Z.ltb_spec w 31); cbn in H; try discriminate. lia. }
  rewrite slice_lower_bits_ok in H by done. by injection H.
Qed.

(** Tokens joined by the delimiter. *)
Fixpoint join (d : Ascii.ascii) (ts : list str) : str :=
  match ts with
  | [] => []
  | [t] => t
  | t :: ts => t ++ d :: join d ts
  end.

Lemma find_from_single d l : forall i,
  match find_from [d] l i with
  | Some j => exists k, j = (i + k)%nat /\ l !! k = Some d /\ d ∉ take k l
  | None => d ∉ l
  end.
Proof.
  induction l as [|c l IH]; intros i; cbn; [apply not_elem_of_nil|].
  destruct (Ascii.eqb_spec d c) as [<-|Hne]; cbn.
  - exists 0%nat. split_and!; [lia|done|apply not_elem_of_nil].
  - specialize (IH (S i)). destruct (find_from [d] l (S i)) as [j|].
    + destruct IH as (k & -> & Hk & Hn). exists (S k). split_and!; [lia|done|]. cbn. rewrite elem_of_cons. tauto.
    + rewrite elem_of_cons. tauto.
Qed.

Lemma join_app d ts t : ts <> [] -> join d (ts ++ [t]) = join d ts ++ d :: t.
Proof.
  induction ts as [|x ts IH]; [done|]. intros _. destruct ts as [|y ts]; [done|].
  change (join d ((x :: y :: ts) ++ [t])) with (x ++ d :: join d ((y :: ts) ++ [t])).
  rewrite IH by done. change (join d (x :: y :: ts)) with (x ++ d :: join d (y :: ts)).
  by rewrite <- app_assoc.
Qed.

(** The prefix of the line consumed so far. *)
Definition consumed (d : Ascii.ascii) (ts : list str) (line : str) (last : nat) : Prop :=
  match ts with [] => last = 0%nat | _ => (1 <= last)%nat /\ take last line = join d ts ++ [d] end.

Lemma tokenize_loop_spec d line fuel : forall last ts,
  (last <= length line)%nat -> (length line - last < fuel)%nat ->
  consumed d ts line last -> Forall (fun t => d ∉ t) ts ->
  exists ts', tokenize_loop fuel line [d] last ts = Ok ts' /\ join d ts' = line /\ Forall (fun t => d ∉ t) ts'.
Proof.
  induction fuel as [|fuel IH]; intros last ts Hl Hf Hc Hn; [lia|]. cbn [tokenize_loop]. unfold find, substr.
  destruct (Nat.ltb_spec (length line) last); [lia|].
  assert (Hjoin : forall t, join d (ts ++ [t]) = take last line ++ t).
  { intros t. destruct ts as [|x ts]; cbn [consumed] in Hc; [by subst last|].
    rewrite join_app by done. destruct Hc as [_ ->]. by rewrite <- app_assoc. }
  pose proof (find_from_single d (drop last line) last) as Hfind.
  destruct (find_from [d] (drop last line) last) as [pos|]; cbn [mbind res_bind].
  - destruct Hfind as (k & -> & Hk & Hnk). replace (last + k - last)%nat with k by lia.
    rewrite lookup_drop in Hk. pose proof (lookup_lt_Some _ _ _ Hk).
    apply IH; [lia|lia| |apply Forall_app; auto].
    assert (Htake : take (last + k + 1) line = take last line ++ take k (drop last line) ++ [d]).
    { rewrite Nat.add_1_r, (take_S_r _ _ d Hk), <- take_take_drop, <- app_assoc. done. }
    destruct (ts ++ [take k (drop last line)]) as [|z zs] eqn:E; [by destruct ts|]. cbn [consumed].
    split; [lia|]. by rewrite <- E, Hjoin, Htake, <- app_assoc.
  - eexists. split; [done|]. split.
    + rewrite Hjoin, (take_ge (drop last line)) by (rewrite length_drop; lia). apply take_drop.
    + apply Forall_app. split; [done|]. constructor; [|done]. by rewrite take_ge by (rewrite length_drop; lia).
Qed.

(** tokenize with a one-character delimiter returns tokens that contain no
    delimiter and whose join is the line. *)
Theorem tokenize_roundtrip d line :
  exists ts, tokenize [] line [d] = Ok ts /\ join d ts = line /\ Forall (fun t => d ∉ t) ts.
Proof. apply tokenize_loop_spec; [lia|lia|done|done]. Qed.
