(* ===== verification/TraceFile.v ===== *)
(** * TraceFile: reading trace files

    What the trace frontends share: the lines of a file ([std::getline]), the
    conversions [std::stoi] and [std::stoll], and the round trip of printed
    numbers and token lists.  A file is what opening it gives. *)
From Stdlib Require Import Ascii.
From stdpp Require Import prelude gmap strings.
From S2P Require Import Prelude BitUtils.
Open Scope Z_scope.

Inductive file := FileMissing | FileUnreadable | FileContents (s : str).

Definition newline : Ascii.ascii := Ascii.ascii_of_nat 10.

(** The lines [std::getline] returns in turn: the part after the last newline
    counts when it is not empty. *)
Fixpoint getlines_from (s cur : str) : list str :=
  match s with
  | [] => match cur with [] => [] | _ => [cur] end
  | c :: s => if Ascii.eqb c newline then cur :: getlines_from s [] else getlines_from s (cur ++ [c])
  end.
Definition getlines (s : str) : list str := getlines_from s [].

(** The checks every trace reader starts with. *)
Definition open_trace (f : file) : res str :=
  match f with
  | FileMissing => Err (Throw "Trace does not exist!")
  | FileUnreadable => Err (Throw "Trace cannot be opened!")
  | FileContents s => Ok s
  end.

(** ** Numbers *)
Definition digit_in (base : Z) (c : Ascii.ascii) : option Z :=
  let n := Z.of_nat (Ascii.nat_of_ascii c) in
  let v := if (48 <=? n) && (n <=? 57) then n - 48
           else if (97 <=? n) && (n <=? 122) then n - 87
           else if (65 <=? n) && (n <=? 90) then n - 55
           else 36 in
  if v <? base then Some v else None.

Fixpoint digits_in (base : Z) (l : str) (acc : option Z) : option Z :=
  match l with
  | [] => acc
  | c :: l => match digit_in base c with Some k => digits_in base l (Some (default 0 acc * base + k)) | None => acc end
  end.

(** In base 16 a prefix is skipped when a digit follows it. *)
Definition skip_prefix (base : Z) (l : str) : str :=
  match l with
  | z :: x :: d :: l' =>
      if (base =? 16) && Ascii.eqb z "0"%char && (Ascii.eqb x "x"%char || Ascii.eqb x "X"%char)
         && bool_decide (is_Some (digit_in 16 d))
      then d :: l' else l
  | _ => l
  end.

(** [strtoll] into [width] bits, as [std::stoi] and [std::stoll] use it. *)
Definition sto (width base : Z) (l : str) : res Z :=
  let l := skip_spaces l in
  let neg := match l with c :: _ => Ascii.eqb c "-"%char | [] => false end in
  let l := match l with c :: l' => if Ascii.eqb c "-"%char || Ascii.eqb c "+"%char then l' else l | [] => [] end in
  match digits_in base (skip_prefix base l) None with
  | None => Err (Throw "std::invalid_argument")
  | Some v =>
      let v := if neg then - v else v in
      if (- 2 ^ (width - 1) <=? v) && (v <? 2 ^ (width - 1)) then Ok v else Err (Throw "std::out_of_range")
  end.

Definition stoi (l : str) : res Z := sto 32 10 l.
Definition stoll (l : str) : res Z := sto 64 10 l.
Definition stoll_base (base : Z) (l : str) : res Z := sto 64 base l.

(** [tokens[k]] of a vector whose length has been checked. *)
Definition token (ts : list str) (k : Z) : res str := vget ts k.

(** ** Printing *)
Definition print_digit (d : Z) : Ascii.ascii := Ascii.ascii_of_nat (Z.to_nat (if d <? 10 then 48 + d else 87 + d)).

Fixpoint print_nat (fuel : nat) (base n : Z) : str :=
  match fuel with
  | O => []
  | S fuel => if n <? base then [print_digit n] else print_nat fuel base (n / base) ++ [print_digit (n mod base)]
  end.

Definition print_int (n : Z) : str :=
  if n <? 0 then "-"%char :: print_nat 64 10 (- n) else print_nat 64 10 n.

Definition print_hex (n : Z) : str := ["0"; "x"]%char ++ print_nat 64 16 n.

Definition print_lines (l : list str) : str := concat (map (fun s => s ++ [newline]) l).

(** ** Round trips *)
Lemma digit_print base d : 2 <= base <= 16 -> 0 <= d < base -> digit_in base (print_digit d) = Some d.
Proof.
  intros Hb Hd. unfold digit_in, print_digit.
  rewrite Ascii.nat_ascii_embedding by (destruct (Z.ltb_spec d 10); lia).
  destruct (Z.ltb_spec d 10) as [Hlt|Hge]; rewrite Z2Nat.id by lia.
  - destruct (Z.leb_spec 48 (48 + d)); [|lia]. destruct (Z.leb_spec (48 + d) 57); [|lia]. cbn [andb].
    replace (48 + d - 48) with d by lia. destruct (Z.ltb_spec d base); [done|lia].
  - destruct (Z.leb_spec (87 + d) 57); [lia|]. rewrite andb_false_r.
    destruct (Z.leb_spec 97 (87 + d)); [|lia]. destruct (Z.leb_spec (87 + d) 122); [|lia]. cbn [andb].
    replace (87 + d - 87) with d by lia. destruct (Z.ltb_spec d base); [done|lia].
Qed.

Definition all_digits (base : Z) (l : str) : Prop := Forall (fun c => is_Some (digit_in base c)) l.

Lemma print_digits base fuel : 2 <= base <= 16 -> forall n, 0 <= n -> all_digits base (print_nat fuel base n).
Proof.
  intros Hb. induction fuel as [|fuel IH]; intros n Hn; cbn; [constructor|].
  destruct (Z.ltb_spec n base).
  - repeat constructor. rewrite digit_print by lia. eauto.
  - apply Forall_app. split; [apply IH, Z.div_pos; lia|]. repeat constructor.
    rewrite digit_print; [eauto|done|apply Z.mod_pos_bound; lia].
Qed.

Lemma digits_snoc base l c k acc :
  all_digits base l -> digit_in base c = Some k ->
  digits_in base (l ++ [c]) acc = Some (default 0 (digits_in base l acc) * base + k).
Proof.
  intros Hl Hc. revert acc. induction Hl as [|x l [v Hx] Hl IH]; intros acc; cbn; [by rewrite Hc|].
  rewrite Hx. apply IH.
Qed.

Lemma digits_print base fuel : 2 <= base <= 16 -> forall n,
  0 <= n < base ^ Z.of_nat fuel -> (0 < fuel)%nat -> digits_in base (print_nat fuel base n) None = Some n.
Proof.
  intros Hb. induction fuel as [|fuel IH]; intros n Hn Hf; [lia|]. cbn [print_nat].
  destruct (Z.ltb_spec n base) as [Hlt|Hge]; [cbn; by rewrite digit_print by lia|].
  assert (Hq : 0 <= n / base) by (apply Z.div_pos; lia).
  rewrite (digits_snoc base _ _ (n mod base)); [|apply print_digits; lia|apply digit_print; [lia|apply Z.mod_pos_bound; lia]].
  rewrite Nat2Z.inj_succ, Z.pow_succ_r in Hn by lia.
  assert (Hlt : n / base < base ^ Z.of_nat fuel) by (apply Z.div_lt_upper_bound; lia).
  destruct fuel as [|fuel]; [cbn in Hlt; assert (n / base = 0) by lia; pose proof (Z.div_small_iff n base); lia|].
  rewrite IH by lia. cbn. f_equal. pose proof (Z.div_mod n base). lia.
Qed.

Lemma digit_not_special base c :
  2 <= base <= 16 -> is_Some (digit_in base c) ->
  is_space c = false /\ Ascii.eqb c "-"%char = false /\ Ascii.eqb c "+"%char = false /\
  Ascii.eqb c "x"%char = false /\ Ascii.eqb c "X"%char = false /\ Ascii.eqb c " "%char = false /\
  Ascii.eqb c ","%char = false /\ Ascii.eqb c newline = false.
Proof.
  intros Hb [v Hv]. assert (Hv16 : is_Some (digit_in 16 c)).
  { unfold digit_in in *. cbv zeta in *. match goal with |- context [?e <? 16] => set (x := e) in * end.
    destruct (Z.ltb_spec x base); [|done]. destruct (Z.ltb_spec x 16); [eauto|lia]. }
  clear Hv. revert Hv16. destruct c as [[|] [|] [|] [|] [|] [|] [|] [|]]; vm_compute; intros [? [=]]; done.
Qed.

Lemma skip_prefix_digits base l : 2 <= base <= 16 -> all_digits base l -> skip_prefix base l = l.
Proof.
  intros Hb Hl. destruct l as [|z [|x [|d l]]]; try done. unfold skip_prefix.
  inversion Hl as [|? ? _ Hl1]. inversion Hl1 as [|? ? Hx _].
  destruct (digit_not_special base x Hb Hx) as (_ & _ & _ & -> & -> & _). cbn [orb]. by rewrite andb_false_r.
Qed.

Lemma print_nat_cons base fuel n :
  2 <= base <= 16 -> 0 <= n -> (0 < fuel)%nat -> exists c l, print_nat fuel base n = c :: l.
Proof.
  intros Hb Hn Hf. destruct fuel as [|fuel]; [lia|]. cbn. destruct (_ <? _); [eauto|].
  destruct (print_nat fuel base (n / base)); cbn; eauto.
Qed.

Lemma sto_print width base n :
  2 <= base <= 16 -> 0 <= n < 2 ^ (width - 1) -> n < base ^ 64 ->
  sto width base (print_nat 64 base n) = Ok n.
Proof.
  intros Hb Hn Hn'. pose proof (print_digits base 64 Hb n ltac:(lia)) as Hall.
  pose proof (digits_print base 64 Hb n ltac:(lia) ltac:(lia)) as Hd.
  destruct (print_nat_cons base 64 n Hb ltac:(lia) ltac:(lia)) as (c & l & Heq). rewrite Heq in *.
  inversion Hall as [|? ? Hc _]. destruct (digit_not_special base c Hb Hc) as (Hsp & Hm & Hp & _).
  unfold sto. cbn [skip_spaces]. rewrite Hsp, Hm, Hp. cbn [orb]. rewrite skip_prefix_digits, Hd by done.
  destruct (Z.leb_spec (- 2 ^ (width - 1)) n); [|lia]. destruct (Z.ltb_spec n (2 ^ (width - 1))); [done|lia].
Qed.

Lemma sto_print_neg width n :
  0 < n <= 2 ^ (width - 1) -> n < 10 ^ 64 -> sto width 10 ("-"%char :: print_nat 64 10 n) = Ok (- n).
Proof.
  intros Hn Hn'. pose proof (print_digits 10 64 ltac:(lia) n ltac:(lia)) as Hall.
  pose proof (digits_print 10 64 ltac:(lia) n ltac:(lia) ltac:(lia)) as Hd.
  unfold sto. cbn [skip_spaces]. change (is_space "-"%char) with false. cbn match.
  change (Ascii.eqb "-"%char "-"%char) with true. cbn [orb]. rewrite skip_prefix_digits, Hd by (done || lia).
  destruct (Z.leb_spec (- 2 ^ (width - 1)) (- n)); [|lia]. destruct (Z.ltb_spec (- n) (2 ^ (width - 1))); [done|lia].
Qed.

Lemma sto_print_int width n : 1 <= width <= 64 -> - 2 ^ (width - 1) <= n < 2 ^ (width - 1) -> sto width 10 (print_int n) = Ok n.
Proof.
  intros Hw Hn. assert (2 ^ (width - 1) <= 2 ^ 63) by (apply Z.pow_le_mono_r; lia).
  assert (2 ^ 63 < 10 ^ 64) by done. unfold print_int. destruct (Z.ltb_spec n 0).
  - rewrite sto_print_neg by lia. f_equal. lia.
  - apply sto_print; lia.
Qed.

Lemma stoll_hex n : 0 <= n < 2 ^ 63 -> stoll_base 16 (drop 2 (print_hex n)) = Ok n.
Proof. intros Hn. assert (2 ^ 63 < 16 ^ 64) by done. apply sto_print; lia. Qed.

(** A printed number contains no delimiter. *)
Definition plain (s : str) : Prop := Forall (fun c => Ascii.eqb c " "%char = false /\ Ascii.eqb c ","%char = false /\ Ascii.eqb c newline = false) s.

Lemma print_nat_plain base fuel n : 2 <= base <= 16 -> 0 <= n -> plain (print_nat fuel base n).
Proof.
  intros Hb Hn. pose proof (print_digits base fuel Hb n Hn) as Hall. apply (Forall_impl _ _ _ Hall).
  intros c Hc. destruct (digit_not_special base c Hb Hc) as (_&_&_&_&_&?&?&?). done.
Qed.

Lemma print_int_plain n : plain (print_int n).
Proof.
  unfold print_int. destruct (Z.ltb_spec n 0); [constructor; [done|]|]; apply print_nat_plain; lia.
Qed.

Lemma print_hex_plain n : 0 <= n -> plain (print_hex n).
Proof. intros. unfold print_hex. do 2 (constructor; [done|]). by apply print_nat_plain. Qed.

Lemma plain_not_elem s c : plain s -> (c = " " \/ c = "," \/ c = newline)%char -> c ∉ s.
Proof.
  intros Hs Hc Hin. unfold plain in Hs. rewrite Forall_forall in Hs. destruct (Hs c Hin) as (H1 & H2 & H3).
  destruct Hc as [-> | [-> | ->]]; done.
Qed.

(** ** Tokens and lines *)
Lemma tokenize_nonempty fuel line d : forall last ts ts', tokenize_loop fuel line d last ts = Ok ts' -> ts' <> [].
Proof.
  induction fuel as [|fuel IH]; intros last ts ts'; cbn; [done|]. destruct (find d line last) as [pos|].
  - intros (t & _ & Ht)%bind_Ok_inv. by apply IH in Ht.
  - intros (t & _ & [= <-])%bind_Ok_inv. by destruct ts.
Qed.

Lemma split_unique {A} (d : A) a b x y : d ∉ a -> d ∉ b -> a ++ d :: x = b ++ d :: y -> a = b /\ x = y.
Proof.
  revert b. induction a as [|u a IH]; intros [|v b] Ha Hb; cbn.
  - by intros [= ->].
  - intros [= -> _]. destruct Hb. by left.
  - intros [= -> _]. destruct Ha. by left.
  - rewrite not_elem_of_cons in Ha, Hb. intros [= -> H]. apply IH in H as [-> ->]; tauto.
Qed.

Lemma join_inj d ts : forall us,
  ts <> [] -> us <> [] -> Forall (fun t => d ∉ t) ts -> Forall (fun t => d ∉ t) us -> join d ts = join d us -> ts = us.
Proof.
  assert (Hin : forall (a b : str) x, d ∉ a -> a <> b ++ d :: x) by (intros a b x Ha ->; set_solver).
  induction ts as [|t ts IH]; intros [|u us] Hts Hus Ht Hu Hj; try done.
  apply Forall_cons in Ht as [Ht1 Ht2], Hu as [Hu1 Hu2].
  destruct ts as [|t' ts], us as [|u' us].
  - cbn in Hj. by subst.
  - exfalso. by eapply (Hin t).
  - exfalso. by eapply (Hin u).
  - change (t ++ d :: join d (t' :: ts) = u ++ d :: join d (u' :: us)) in Hj.
    apply split_unique in Hj as [-> Hj]; [|done..]. f_equal. by apply IH.
Qed.

(** Tokens without delimiter come back from the joined line. *)
Lemma tokenize_join d ts : ts <> [] -> Forall (fun t => d ∉ t) ts -> tokenize [] (join d ts) [d] = Ok ts.
Proof.
  intros Hne Hts. destruct (tokenize_loop_spec d (join d ts) (length (join d ts) + 2) 0 []) as (us & Hus & Hj & Hf);
    [lia|lia|done|done|]. unfold tokenize. rewrite Hus. f_equal. symmetry. apply (join_inj d); try done.
  by apply tokenize_nonempty in Hus.
Qed.

Lemma getlines_from_line s cur r : newline ∉ s -> getlines_from (s ++ newline :: r) cur = (cur ++ s) :: getlines_from r [].
Proof.
  revert cur. induction s as [|c s IH]; intros cur Hs; cbn; [by rewrite app_nil_r|].
  rewrite not_elem_of_cons in Hs. destruct Hs as [Hc Hs].
  destruct (Ascii.eqb_spec c newline) as [->|]; [done|]. rewrite IH by done. by rewrite <- app_assoc.
Qed.

Lemma getlines_print l : Forall (fun s => newline ∉ s) l -> getlines (print_lines l) = l.
Proof.
  unfold getlines, print_lines. induction 1 as [|s l Hs Hl IH]; cbn; [done|].
  rewrite <- app_assoc. cbn. rewrite getlines_from_line by done. by rewrite IH.
Qed.
