(* ===== verification/CmdTrace.v ===== *)
(** * CmdTrace: the files the controller plugins write

    Models the output of [cmd_trace_recorder.cpp] (text and binary) and of
    [command_counter.cpp] in [ramulator/controller/plugin/impl].  An output
    file is the sequence of characters written so far; objects are written
    in the representation of a little-endian machine. *)
From Stdlib Require Import Ascii.
From stdpp Require Import prelude gmap strings.
From S2P Require Import Prelude DramSpec Commands Standards Request BitUtils TraceFile.
Open Scope Z_scope.

Definition chars (s : string) : str := String.list_ascii_of_string s.
Definition nul : Ascii.ascii := Ascii.zero.

(** ** Text mode *)
Definition write_text_header (s : DRAMSpec) : str :=
  chars "clock,command" ++ concat (map (fun name => ","%char :: chars name) (level_names s)) ++ chars ",type,source" ++ [newline].

Definition write_text_record (level_count : Z) (s : DRAMSpec) (clk : Z) (req : Request) : res str :=
  name ← vget (command_names s) (command req);
  coords ← mapM (vget (addr_vec req)) (seqZ 0 level_count);
  Ok (print_int clk ++ ","%char :: chars name ++ concat (map (fun a => ","%char :: print_int a) coords) ++
      ","%char :: print_int (type_id req) ++ ","%char :: print_int (source_id req) ++ [newline]).

(** ** Binary mode *)
(** The [n] bytes of an integer; a negative one is in two's complement. *)
Fixpoint le_bytes (n : nat) (v : Z) : str :=
  match n with
  | O => []
  | S n => Ascii.ascii_of_N (Z.to_N (v mod 256)) :: le_bytes n (v / 256)
  end.
Definition write_32 (v : Z) : str := le_bytes 4 v.
Definition write_64 (v : Z) : str := le_bytes 8 v.
Definition write_cstr (name : string) : str := chars name ++ [nul].

Definition write_binary_header (s : DRAMSpec) : str :=
  write_32 (u32 (level_count s)) ++ write_32 (u32 (command_count s)) ++
  concat (map write_cstr (level_names s)) ++ concat (map write_cstr (command_names s)).

(** The coordinates are copied from the storage of the vector. *)
Definition write_binary_record (level_count clk : Z) (req : Request) : res str :=
  coords ← mapM (vget (addr_vec req)) (seqZ 0 level_count);
  Ok (write_64 (u64 clk) ++ write_32 (command req) ++ write_32 (type_id req) ++ write_32 (source_id req) ++
      concat (map write_32 coords)).

(** ** The plugin *)
Definition CmdTraceRecorder_setup (binary : bool) (s : DRAMSpec) : str :=
  if binary then write_binary_header s else write_text_header s.

Definition CmdTraceRecorder_on_issue (binary : bool) (level_count : Z) (file : str) (s : DRAMSpec)
    (clk : Z) (req : Request) : res str :=
  r ← (if binary then write_binary_record level_count clk req else write_text_record level_count s clk req);
  Ok (file ++ r).

(** ** CommandCounter *)
(** The totals, in the order in which the hash map visits them. *)
Definition CommandCounter_finalize (s : DRAMSpec) (counters : list (Z * Z)) : res str :=
  rows ← mapM (fun e => name ← vget (command_names s) e.1; Ok (chars name ++ chars ", " ++ print_int e.2 ++ [newline])) counters;
  Ok (concat rows).

(** ** Reading the files back *)
(** A decoder of the layout documented in the source. *)
Record cmd_record := mkCmdRecord {
  cr_clock : Z;
  cr_command : Z;
  cr_type : Z;
  cr_source : Z;
  cr_addr_vec : AddrVec_t
}.

Fixpoint le_value (l : str) : Z :=
  match l with
  | [] => 0
  | c :: l => Z.of_N (Ascii.N_of_ascii c) + 256 * le_value l
  end.

Definition split_bytes (n : nat) (l : str) : option (str * str) :=
  if (length l <? n)%nat then None else Some (take n l, drop n l).
Definition read_u (n : nat) (l : str) : option (Z * str) := p ← split_bytes n l; Some (le_value p.1, p.2).
Definition read_32 (l : str) : option (Z * str) := p ← read_u 4 l; Some (i32 p.1, p.2).

Fixpoint read_cstr (l acc : str) : option (string * str) :=
  match l with
  | [] => None
  | c :: l => if Ascii.eqb c nul then Some (String.string_of_list_ascii acc, l) else read_cstr l (acc ++ [c])
  end.

Fixpoint read_many {A} (n : nat) (f : str -> option (A * str)) (l : str) : option (list A * str) :=
  match n with
  | O => Some ([], l)
  | S n => p ← f l; q ← read_many n f p.2; Some (p.1 :: q.1, q.2)
  end.

Definition read_record (levels : nat) (l : str) : option (cmd_record * str) :=
  clk ← read_u 8 l;
  cmd ← read_32 clk.2;
  ty ← read_32 cmd.2;
  src ← read_32 ty.2;
  av ← read_many levels read_32 src.2;
  Some (mkCmdRecord clk.1 cmd.1 ty.1 src.1 av.1, av.2).

(** Every record has at least 20 bytes: as many rounds as bytes are enough. *)
Fixpoint read_records (fuel : nat) (levels : nat) (l : str) : option (list cmd_record) :=
  match fuel, l with
  | _, [] => Some []
  | O, _ => None
  | S fuel, _ => p ← read_record levels l; rest ← read_records fuel levels p.2; Some (p.1 :: rest)
  end.

Definition read_trace (l : str) : option (list string * list string * list cmd_record) :=
  nl ← read_u 4 l;
  nc ← read_u 4 nl.2;
  levels ← read_many (Z.to_nat nl.1) (fun l => read_cstr l []) nc.2;
  cmds ← read_many (Z.to_nat nc.1) (fun l => read_cstr l []) levels.2;
  rows ← read_records (length cmds.2) (Z.to_nat nl.1) cmds.2;
  Some (levels.1, cmds.1, rows).
