(* ===== verification/CmdTraceProps.v ===== *)
(** * CmdTraceProps: the command traces can be read back

    The binary trace is decoded by the layout its source documents, and the
    text trace splits into the fields that were written. *)
From Stdlib Require Import Ascii.
From stdpp Require Import prelude gmap strings.
From S2P Require Import Prelude DramSpec Commands Standards Request BitUtils TraceFile CmdTrace.
Open Scope Z_scope.

(** ** Bytes *)
Lemma le_bytes_length n v : length (le_bytes n v) = n.
Proof. revert v. induction n as [|n IH]; intros v; cbn; [done|by rewrite IH]. Qed.

Lemma le_value_bytes n v : le_value (le_bytes n v) = v mod 256 ^ Z.of_nat n.
Proof.
  revert v. induction n as [|n IH]; intros v; cbn [le_bytes le_value]; [by rewrite Z.mod_1_r|].
  pose proof (Z.mod_pos_bound v 256 ltac:(lia)). rewrite Ascii.N_ascii_embedding by lia. rewrite Z2N.id, IH by lia.
  rewrite Nat2Z.inj_succ, Z.pow_succ_r by lia. rewrite Z.rem_mul_r by lia. lia.
Qed.

Lemma read_u_app n v r : read_u n (le_bytes n v ++ r) = Some (v mod 256 ^ Z.of_nat n, r).
Proof.
  unfold read_u, split_bytes. rewrite length_app, le_bytes_length. destruct (Nat.ltb_spec (n + length r) n); [lia|]. cbn.
  rewrite take_app_length', drop_app_length' by (symmetry; apply le_bytes_length). by rewrite le_value_bytes.
Qed.

Definition in32 (v : Z) : Prop := - 2 ^ 31 <= v < 2 ^ 31.

Lemma read_32_app v r : in32 v -> read_32 (write_32 v ++ r) = Some (v, r).
Proof.
  intros Hv. unfold read_32, write_32. rewrite read_u_app. cbn. do 2 f_equal.
  change (256 ^ Z.of_nat 4) with (2 ^ 32). unfold i32, swrap. rewrite Zplus_mod_idemp_l. apply (swrap_id 32); [lia|exact Hv].
Qed.

Lemma read_cstr_app name r : nul ∉ chars name -> read_cstr (write_cstr name ++ r) [] = Some (name, r).
Proof.
  intros Hn. unfold write_cstr. rewrite <- app_assoc. cbn [app].
  enough (Hgo : forall l acc, nul ∉ l -> read_cstr (l ++ nul :: r) acc = Some (String.string_of_list_ascii (acc ++ l), r)).
  { rewrite Hgo by done. cbn [app]. unfold chars. by rewrite String.string_of_list_ascii_of_string. }
  clear. induction l as [|c l IH]; intros acc; cbn.
  - intros _. by rewrite app_nil_r.
  - intros [Hc Hl]%not_elem_of_cons. destruct (Ascii.eqb_spec c nul) as [->|]; [done|].
    rewrite IH by done. by rewrite <- app_assoc.
Qed.

Lemma read_many_app {A} (g : A -> str) (f : str -> option (A * str)) xs r :
  Forall (fun x => forall r, f (g x ++ r) = Some (x, r)) xs ->
  read_many (length xs) f (concat (map g xs) ++ r) = Some (xs, r).
Proof.
  induction 1 as [|x xs Hx Hxs IH]; cbn [length read_many map concat]; [done|].
  rewrite <- app_assoc, Hx. cbn. rewrite IH. done.
Qed.

(** ** Records *)
Definition coords_of (s : DRAMSpec) (req : Request) : AddrVec_t := take (Z.to_nat (level_count s)) (addr_vec req).

Record loggable (s : DRAMSpec) (e : Z * Request) : Prop := mkLoggable {
  lg_clk : 0 <= e.1 < 2 ^ 63;
  lg_command : 0 <= command e.2 < command_count s;
  lg_type : in32 (type_id e.2);
  lg_source : in32 (source_id e.2);
  lg_length : level_count s <= Z.of_nat (length (addr_vec e.2));
  lg_coords : Forall in32 (addr_vec e.2)
}.

Definition record_of (s : DRAMSpec) (e : Z * Request) : cmd_record :=
  mkCmdRecord e.1 (command e.2) (type_id e.2) (source_id e.2) (coords_of s e.2).

Lemma coords_ok s req :
  0 <= level_count s <= Z.of_nat (length (addr_vec req)) ->
  mapM (vget (addr_vec req)) (seqZ 0 (level_count s)) = Ok (coords_of s req).
Proof.
  intros Hl. apply mapM_Ok. unfold coords_of. apply Forall2_same_length_lookup.
  rewrite length_seqZ, length_take. split; [lia|]. intros i x y Hx Hy.
  apply lookup_seqZ in Hx as [-> Hi]. apply lookup_take_Some in Hy as [Hy _]. apply vget_nat in Hy. by rewrite Z.add_0_l.
Qed.

Definition binary_row (s : DRAMSpec) (e : Z * Request) : str :=
  write_64 (u64 e.1) ++ write_32 (command e.2) ++ write_32 (type_id e.2) ++ write_32 (source_id e.2) ++
  concat (map write_32 (coords_of s e.2)).

Lemma read_binary_row s e r :
  0 <= level_count s -> command_count s < 2 ^ 31 -> loggable s e ->
  read_record (Z.to_nat (level_count s)) (binary_row s e ++ r) = Some (record_of s e, r).
Proof.
  intros Hs Hc [Hclk Hcmd Hty Hsrc Hlen Hco]. unfold binary_row, read_record. rewrite <- !app_assoc.
  unfold write_64 at 1. rewrite read_u_app. cbn [mbind option_bind fst snd].
  rewrite read_32_app by (unfold in32; lia). cbn [mbind option_bind fst snd].
  rewrite read_32_app by done. cbn [mbind option_bind fst snd]. rewrite read_32_app by done. cbn [mbind option_bind fst snd].
  assert (Hl : length (coords_of s e.2) = Z.to_nat (level_count s)) by (unfold coords_of; rewrite length_take; lia).
  rewrite <- Hl at 1. rewrite read_many_app; [|apply Forall_take, (Forall_impl _ _ _ Hco); intros; by apply read_32_app].
  cbn [mbind option_bind fst snd]. unfold record_of. do 3 f_equal.
  change (256 ^ Z.of_nat 8) with (2 ^ 64). unfold u64. rewrite wrap_id by lia. apply Z.mod_small. lia.
Qed.

Lemma binary_row_cons s e : exists c r, binary_row s e = c :: r.
Proof. unfold binary_row, write_64. cbn [le_bytes app]. eauto. Qed.

Lemma read_binary_rows s log : forall fuel,
  0 <= level_count s -> command_count s < 2 ^ 31 -> Forall (loggable s) log -> (length (concat (map (binary_row s) log)) <= fuel)%nat ->
  read_records fuel (Z.to_nat (level_count s)) (concat (map (binary_row s) log)) = Some (map (record_of s) log).
Proof.
  intros fuel Hs Hc Hlog. revert fuel. induction Hlog as [|e log He Hlog IH]; intros fuel Hf; [by destruct fuel|].
  cbn [map concat] in *. destruct (binary_row_cons s e) as (c & r & Hrow).
  assert (Hlen : (0 < length (binary_row s e))%nat) by (rewrite Hrow; cbn; lia).
  rewrite length_app in Hf. destruct fuel as [|fuel]; [lia|].
  pose proof (read_binary_row s e (concat (map (binary_row s) log)) Hs Hc He) as Hr. rewrite Hrow in *. cbn [app read_records] in *.
  rewrite Hr. cbn [mbind option_bind fst snd]. rewrite IH by lia. done.
Qed.

(** ** Names *)
Definition comma_char : Ascii.ascii := ","%char.
Definition name_ok (n : string) : bool :=
  forallb (fun c => negb (Ascii.eqb c nul) && negb (Ascii.eqb c ","%char) && negb (Ascii.eqb c newline)) (chars n).
Definition names_ok (d : standard) : bool :=
  forallb name_ok (std_levels d) && forallb name_ok (std_commands d) && (length (std_levels d) <? 100)%nat &&
  (length (std_commands d) <? 100)%nat.

Lemma standard_names_ok : forallb names_ok all_standards = true.
Proof. by vm_compute. Qed.

Lemma name_ok_elem n : name_ok n = true -> (nul ∉ chars n) /\ (comma_char ∉ chars n) /\ (newline ∉ chars n).
Proof.
  unfold name_ok. rewrite forallb_forall. intros H.
  split_and!; intros Hin%list_elem_of_In%H; by vm_compute in Hin.
Qed.

(** What the trace needs of a specification. *)
Record names_hold (s : DRAMSpec) : Prop := mkNamesHold {
  nh_levels : level_count s = Z.of_nat (length (level_names s));
  nh_commands : command_count s = Z.of_nat (length (command_names s));
  nh_small : level_count s < 100 /\ command_count s < 100;
  nh_ok : forall n, n ∈ level_names s \/ n ∈ command_names s -> name_ok n = true
}.

Lemma standard_names d cfg s : In d all_standards -> construct d cfg = Ok s -> names_hold s.
Proof.
  intros Hin Hcon. destruct (standard_static d cfg s Hin Hcon) as (C & _ & _ & _ & _ & _ & _ & Hs).
  pose proof (proj1 (forallb_forall _ _) standard_names_ok d Hin) as Hn. unfold names_ok, std_static_ok in *. bool_hyps.
  repeat match goal with H : (_ <? _)%nat = true |- _ => apply Nat.ltb_lt in H end.
  repeat match goal with H : forallb name_ok _ = true |- _ => rewrite forallb_forall in H end.
  split; rewrite ?(con_level_count d s C), ?(con_command_count d s C), ?(con_names d s C), ?(con_level_names d s C); try lia.
  intros n [?|?]; match goal with H : forall x, In x _ -> _ |- _ => apply H; by apply list_elem_of_In end.
Qed.

(** ** Text rows *)
Definition name_of (s : DRAMSpec) (cmd : Z) : string := default ""%string (command_names s !! Z.to_nat cmd).
Definition header_fields (s : DRAMSpec) : list str :=
  [chars "clock"; chars "command"] ++ map chars (level_names s) ++ [chars "type"; chars "source"].
Definition row_fields (s : DRAMSpec) (e : Z * Request) : list str :=
  [print_int e.1; chars (name_of s (command e.2))] ++ map print_int (coords_of s e.2) ++
  [print_int (type_id e.2); print_int (source_id e.2)].

Lemma join_cons d t ts : join d (t :: ts) = t ++ concat (map (cons d) ts).
Proof.
  revert t. induction ts as [|u ts IH]; intros t; [by rewrite app_nil_r|].
  change (join d (t :: u :: ts)) with (t ++ d :: join d (u :: ts)). by rewrite IH.
Qed.

Lemma text_header_fields s : write_text_header s = join ","%char (header_fields s) ++ [newline].
Proof.
  unfold write_text_header, header_fields. cbn [app]. rewrite join_cons. cbn [map concat].
  rewrite map_app, concat_app, map_map, <- !app_assoc. done.
Qed.

Lemma text_row_fields s e :
  names_hold s -> loggable s e ->
  write_text_record (level_count s) s e.1 e.2 = Ok (join ","%char (row_fields s e) ++ [newline]).
Proof.
  intros Hn He. unfold write_text_record. pose proof (lg_command _ _ He) as Hcmd. pose proof (nh_levels _ Hn).
  rewrite (nh_commands _ Hn) in Hcmd. destruct (lookup_lt_is_Some_2 (command_names s) (Z.to_nat (command e.2))) as [n Hnm]; [lia|].
  rewrite (proj2 (vget_Ok _ _ n)) by (split; [lia|done]). cbn [mbind res_bind].
  rewrite coords_ok by (split; [lia|apply He]). cbn [mbind res_bind]. f_equal. unfold row_fields, name_of. rewrite Hnm. cbn [default app].
  rewrite join_cons. cbn [map concat]. rewrite map_app, concat_app, map_map, <- !app_assoc. cbn [map concat app].
  by rewrite app_nil_r, <- !app_assoc.
Qed.

Lemma fields_plain s e f : names_hold s -> loggable s e -> f ∈ row_fields s e -> (comma_char ∉ f) /\ (newline ∉ f).
Proof.
  intros Hn He Hf.
  assert (Hp : forall n, (comma_char ∉ print_int n) /\ (newline ∉ print_int n))
    by (intros n; split; apply (plain_not_elem _ _ (print_int_plain n)); tauto).
  unfold row_fields in Hf. rewrite !elem_of_app, !elem_of_cons in Hf.
  destruct Hf as [[-> |[-> |[]%elem_of_nil]]|[(n & -> & _)%list_elem_of_fmap|[-> |[-> |[]%elem_of_nil]]]]; try apply Hp.
  pose proof (lg_command _ _ He) as Hc. rewrite (nh_commands _ Hn) in Hc. unfold name_of.
  destruct (lookup_lt_is_Some_2 (command_names s) (Z.to_nat (command e.2))) as [n Hnm]; [lia|]. rewrite Hnm.
  refine (proj2 (name_ok_elem n _)). apply (nh_ok _ Hn). right. by eapply list_elem_of_lookup_2.
Qed.

Lemma header_plain s f : names_hold s -> f ∈ header_fields s -> (comma_char ∉ f) /\ (newline ∉ f).
Proof.
  intros Hn Hf. unfold header_fields in Hf. rewrite !elem_of_app, !elem_of_cons in Hf.
  destruct Hf as [[-> |[-> |[]%elem_of_nil]]|[(n & -> & Hin)%list_elem_of_fmap|[-> |[-> |[]%elem_of_nil]]]];
    refine (proj2 (name_ok_elem _ _)); [by vm_compute|by vm_compute| |by vm_compute|by vm_compute].
  apply (nh_ok _ Hn). by left.
Qed.

(** ** The whole file *)
(** The file after the commands of a log were issued in turn. *)
Definition recorded (binary : bool) (s : DRAMSpec) (log : list (Z * Request)) : res str :=
  foldM (fun (f : str) (e : Z * Request) => CmdTraceRecorder_on_issue binary (level_count s) f s e.1 e.2) log (CmdTraceRecorder_setup binary s).

Lemma recorded_rows (binary : bool) s log (row : Z * Request -> str) :
  Forall (fun e : Z * Request => (if binary then write_binary_record (level_count s) e.1 e.2
                    else write_text_record (level_count s) s e.1 e.2) = Ok (row e)) log ->
  recorded binary s log = Ok (CmdTraceRecorder_setup binary s ++ concat (map row log)).
Proof.
  unfold recorded, CmdTraceRecorder_on_issue. generalize (CmdTraceRecorder_setup binary s). intros f Hlog. revert f.
  induction Hlog as [|e log He Hlog IH]; intros f; cbn [foldM map concat]; [by rewrite app_nil_r|].
  rewrite He. cbn [mbind res_bind]. rewrite IH. by rewrite <- app_assoc.
Qed.

Lemma read_binary_file s log :
  names_hold s -> Forall (loggable s) log ->
  read_trace (write_binary_header s ++ concat (map (binary_row s) log)) =
  Some (level_names s, command_names s, map (record_of s) log).
Proof.
  intros Hn Hlog. destruct (nh_small _ Hn). pose proof (nh_levels _ Hn) as Hl. pose proof (nh_commands _ Hn) as Hc.
  unfold read_trace, write_binary_header, write_32. rewrite <- !app_assoc, read_u_app. cbn [mbind option_bind fst snd].
  rewrite read_u_app. cbn [mbind option_bind fst snd]. change (256 ^ Z.of_nat 4) with (2 ^ 32). unfold u32.
  rewrite !wrap_id, !Z.mod_small by lia. rewrite Hl at 1. rewrite Hc, !Nat2Z.id.
  assert (Hstr : forall l, (forall n, n ∈ l -> name_ok n = true) ->
            Forall (fun n => forall r, read_cstr (write_cstr n ++ r) [] = Some (n, r)) l).
  { intros l Hok. apply Forall_forall. intros n Hin r. apply read_cstr_app. apply name_ok_elem. by apply Hok. }
  rewrite read_many_app by (apply Hstr; intros; apply (nh_ok _ Hn); by left). cbn [mbind option_bind fst snd].
  rewrite read_many_app by (apply Hstr; intros; apply (nh_ok _ Hn); by right). cbn [mbind option_bind fst snd].
  rewrite read_binary_rows by (done || lia). done.
Qed.

Lemma read_text_file s log :
  names_hold s -> Forall (loggable s) log ->
  mapM (fun line : str => tokenize [] line [","%char])
    (getlines (write_text_header s ++ concat (map (fun e => join ","%char (row_fields s e) ++ [newline]) log))) =
  Ok (header_fields s :: map (row_fields s) log).
Proof.
  intros Hn Hlog. set (rows := header_fields s :: map (row_fields s) log).
  assert (Hrows : Forall (fun fs => fs <> [] /\ Forall (fun f => (comma_char ∉ f) /\ (newline ∉ f)) fs) rows).
  { constructor.
    - split; [done|]. apply Forall_forall. intros f. by apply header_plain.
    - apply Forall_fmap, (Forall_impl _ _ _ Hlog). intros e He. split; [done|]. apply Forall_forall. intros f. by apply fields_plain. }
  replace (_ ++ _) with (print_lines (map (join ","%char) rows)).
  2: { unfold print_lines, rows. cbn [map concat]. by rewrite text_header_fields, !map_map. }
  rewrite getlines_print.
  - apply mapM_Ok, Forall2_fmap_l, Forall_Forall2_diag, (Forall_impl _ _ _ Hrows). intros fs [Hne Hfs].
    apply tokenize_join; [done|]. apply (Forall_impl _ _ _ Hfs). by intros f [? _].
  - apply Forall_fmap, (Forall_impl _ _ _ Hrows). intros fs [_ Hfs]. induction Hfs as [|f fs [_ Hf] Hfs IH]; cbn; [by apply not_elem_of_nil|].
    destruct fs as [|g fs]; [done|]. apply not_elem_of_app. split; [done|]. by apply not_elem_of_cons.
Qed.

(** Command traces lose nothing: for every standard, the binary file decodes by its
    documented layout to the level names, the command names and the issued commands with
    clock, id, type, source and coordinates; the text file splits into the header and
    rows that were written. *)
Theorem cmd_trace_roundtrip d cfg s log :
  In d all_standards -> construct d cfg = Ok s -> Forall (loggable s) log ->
  (exists file : str, recorded true s log = Ok file /\
     read_trace file = Some (level_names s, command_names s, map (record_of s) log)) /\
  (exists file : str, recorded false s log = Ok file /\
     mapM (fun line : str => tokenize [] line [","%char]) (getlines file) = Ok (header_fields s :: map (row_fields s) log)).
Proof.
  intros Hin Hcon Hlog. pose proof (standard_names d cfg s Hin Hcon) as Hn. pose proof (nh_levels _ Hn). split.
  - eexists. split; [apply (recorded_rows true s log (binary_row s))|by apply read_binary_file].
    apply (Forall_impl _ _ _ Hlog). intros e He. unfold write_binary_record. by rewrite coords_ok by (split; [lia|apply He]).
  - eexists. split; [apply (recorded_rows false s log (fun e => join ","%char (row_fields s e) ++ [newline]))|by apply read_text_file].
    apply (Forall_impl _ _ _ Hlog). intros e He. by apply text_row_fields.
Qed.

Definition act_request : Request := mkReq 64 64 [0; 0; 1; 2; 7; -1] 0 3 64 0 3 true 5 (-1) None.

Lemma cmd_trace_roundtrip_witness :
  exists file : str, recorded true ddr4_small [(12, act_request)] = Ok file /\
    read_trace file = Some (level_names ddr4_small, command_names ddr4_small, [mkCmdRecord 12 0 0 3 [0; 0; 1; 2; 7; -1]]).
Proof.
  refine (proj1 (cmd_trace_roundtrip DDR4_std cfg_small ddr4_small [(12, act_request)] _ ddr4_small_ok _)).
  - right; left; done.
  - assert (Hc : command_count ddr4_small = 8 /\ level_count ddr4_small = 6) by (split; vm_compute; reflexivity).
    destruct Hc as [Hc Hl]. apply Forall_singleton. split; cbn [fst snd act_request command type_id source_id addr_vec]; unfold in32; try lia.
    + cbn [length]. lia.
    + rewrite !Forall_cons. split_and!; try lia. apply Forall_nil_2.
Defined.
