(* ===== verification/AddrMapper.v ===== *)
(** * AddrMapper: from flat addresses to DRAM coordinates

    Models [ramulator/controller/addr_mapper/*]: the common initialisation and
    the four mappers, each of which peels fields off the low end of the
    address.  [decode] reads the fields back in the same order; a mapper loses
    no information and produces coordinates the device accepts. *)
From stdpp Require Import prelude gmap strings.
From S2P Require Import Prelude DramSpec Commands Standards Node NodeTiming NodeTree Device DeviceInv BankProgress Request BitUtils.
Open Scope Z_scope.

Record AddrMapperBase := mkMapper {
  m_num_mapped_levels : Z;
  m_addr_bits : list Z;
  m_tx_offset : Z;
  m_row_idx : Z;
  m_col_idx : Z
}.

Definition AddrMapperBase_init (s : DRAMSpec) : res AddrMapperBase :=
  let n := level_count s - 1 in
  bits ← mapM (fun i => sz ← vget (level_sizes s) (i + 1); calc_log2 sz) (seqZ 0 n);
  old ← vget bits (n - 1);
  pf ← calc_log2 (internal_prefetch_size s);
  bits' ← vset bits (n - 1) (old - pf);
  tx ← calc_log2 (get_tx_bytes s);
  row ← get_level_id s "Row";
  Ok (mkMapper n bits' tx (row - 1) (level_count s - 2)).

(** [std::vector::resize] *)
Definition vresize (l : list Z) (n : Z) (x : Z) : list Z :=
  take (Z.to_nat n) l ++ replicate (Z.to_nat n - length l) x.

(** One step of the loops: peel [bits] off the address into a coordinate. *)
Definition slice_into (av : AddrVec_t) (a i bits : Z) : res (AddrVec_t * Z) :=
  p ← slice_lower_bits a bits;
  av' ← vset av (i + 1) p.1;
  Ok (av', p.2).

Definition slice_levels (m : AddrMapperBase) (is_ : list Z) (st : AddrVec_t * Z) : res (AddrVec_t * Z) :=
  foldM (fun st i => w ← vget (m_addr_bits m) i; slice_into st.1 st.2 i w) is_ st.

(** The shift amount is checked: a negative one is undefined. *)
Definition tx_addr (m : AddrMapperBase) (a : Z) : res Z :=
  if (0 <=? m_tx_offset m) && (m_tx_offset m <? 64) then Ok (Z.shiftr a (m_tx_offset m)) else Err UndefinedBehaviour.

Definition ChRaBaRoCo_apply (m : AddrMapperBase) (req : Request) : res Request :=
  let av := vresize (addr_vec req) (m_num_mapped_levels m + 1) (-1) in
  a ← tx_addr m (intra_channel_addr req);
  st ← slice_levels m (rev (seqZ 0 (m_num_mapped_levels m))) (av, a);
  Ok (set_addr_vec req st.1).

Definition RoBaRaCoCh_apply (m : AddrMapperBase) (req : Request) : res Request :=
  let av := vresize (addr_vec req) (m_num_mapped_levels m + 1) (-1) in
  a ← tx_addr m (intra_channel_addr req);
  w ← vget (m_addr_bits m) (m_col_idx m);
  st ← slice_into av a (m_col_idx m) w;
  st ← slice_levels m (seqZ 0 (m_row_idx m + 1)) st;
  Ok (set_addr_vec req st.1).

(** The xor loop of [MOP4CLXOR]; the state is the vector and
    [row_xor_index]. *)
Definition xor_step (m : AddrMapperBase) (st : AddrVec_t * Z) (i : Z) : res (AddrVec_t * Z) :=
  w ← vget (m_addr_bits m) i;
  if 0 <? w then
    col ← vget st.1 (m_col_idx m + 1);
    _ ← (if (0 <=? st.2) && (st.2 <? 32) then Ok tt else Err UndefinedBehaviour);
    k ← low_mask w;
    old ← vget st.1 (i + 1);
    av ← vset st.1 (i + 1) (Z.lxor old (Z.land (Z.shiftr col st.2) k));
    Ok (av, st.2 + w)
  else Ok st.

Definition MOP4CLXOR_apply (m : AddrMapperBase) (req : Request) : res Request :=
  let av := vresize (addr_vec req) (m_num_mapped_levels m + 1) (-1) in
  a ← tx_addr m (intra_channel_addr req);
  st ← slice_into av a (m_col_idx m) 2;
  st ← slice_levels m (seqZ 0 (m_row_idx m)) st;
  cw ← vget (m_addr_bits m) (m_col_idx m);
  p ← slice_lower_bits st.2 (cw - 2);
  lo ← vget st.1 (m_col_idx m + 1);
  av ← vset st.1 (m_col_idx m + 1) (i32 (lo + Z.shiftl p.1 2));
  av ← vset av (m_row_idx m + 1) (i32 p.2);
  st ← foldM (xor_step m) (seqZ 0 (m_col_idx m)) (av, 0);
  Ok (set_addr_vec req st.1).

Definition PassThroughAddrMapper_apply (m : AddrMapperBase) (req : Request) : res Request := Ok req.

(** ** Reading the fields back *)
Fixpoint decode (m : AddrMapperBase) (is_ : list Z) (av : AddrVec_t) (rest : Z) : Z :=
  match is_ with
  | [] => rest
  | i :: is_ =>
      from_res 0 (vget av (i + 1)) +
      2 ^ from_res 0 (vget (m_addr_bits m) i) * decode m is_ av rest
  end.

Definition width_ok (m : AddrMapperBase) (i : Z) : Prop :=
  exists w, vget (m_addr_bits m) i = Ok w /\ 0 <= w < 31.

Definition in_field (m : AddrMapperBase) (av : AddrVec_t) (i : Z) : Prop :=
  exists v w, vget av (i + 1) = Ok v /\ vget (m_addr_bits m) i = Ok w /\ 0 <= v < 2 ^ w.

Lemma decode_ext m is_ av av' rest :
  (forall i, In i is_ -> vget av (i + 1) = vget av' (i + 1)) -> decode m is_ av rest = decode m is_ av' rest.
Proof.
  induction is_ as [|i is_ IH]; intros H; [done|]. cbn. rewrite (H i) by (by left). f_equal. f_equal.
  apply IH. intros j Hj. apply H. by right.
Qed.

Lemma slice_into_spec av a i w av' a' :
  slice_into av a i w = Ok (av', a') ->
  0 <= w < 31 /\ vget av' (i + 1) = Ok (a mod 2 ^ w) /\ a' = a / 2 ^ w /\ length av' = length av /\
  forall j, j <> i + 1 -> vget av' j = vget av j.
Proof.
  unfold slice_into. intros H. apply bind_Ok_inv in H as (p & Hp & H). apply slice_lower_bits_inv in Hp as [Hw ->].
  apply bind_Ok_inv in H as (av1 & Hs & H). injection H as <- <-. cbn. split_and!; try done; try lia.
  - by apply vget_vset_eq in Hs.
  - by apply vset_length in Hs.
  - intros j Hj. by eapply vget_vset_ne.
Qed.

(** The loops lose nothing: the fields and the rest give the address back. *)
Lemma slice_levels_decode m is_ : forall av a av' a',
  NoDup is_ -> slice_levels m is_ (av, a) = Ok (av', a') ->
  decode m is_ av' a' = a /\ length av' = length av /\
  (forall i, In i is_ -> in_field m av' i) /\
  (forall j, (forall i, In i is_ -> j <> i + 1) -> vget av' j = vget av j).
Proof.
  induction is_ as [|i is_ IH]; intros av a av' a' Hnd H; cbn in H.
  - injection H as <- <-. split_and!; [done|done|done|]. intros; done.
  - apply NoDup_cons in Hnd as [Hni Hnd].
    apply bind_Ok_inv in H as ([av1 a1] & H1 & H). apply bind_Ok_inv in H1 as (w & Hw & H1). cbn in H1.
    destruct (slice_into_spec _ _ _ _ _ _ H1) as (Hwr & Hv & -> & Hlen & Hoth).
    destruct (IH av1 (a / 2 ^ w) av' a' Hnd H) as (Hd & Hlen' & Hin & Hoth').
    assert (Hkeep : vget av' (i + 1) = Ok (a mod 2 ^ w)).
    { rewrite Hoth'; [done|]. intros j Hj E. apply Hni. apply list_elem_of_In. by replace i with j by lia. }
    assert (0 < 2 ^ w) by (apply Z.pow_pos_nonneg; lia). split_and!.
    + cbn [decode]. rewrite Hkeep, Hw, Hd. cbn. pose proof (Z.div_mod a (2 ^ w)). lia.
    + congruence.
    + intros j [<-|Hj]; [|by apply Hin]. exists (a mod 2 ^ w), w. split_and!; try done; apply Z.mod_pos_bound; lia.
    + intros j Hj. rewrite Hoth' by (intros k Hk; apply Hj; by right). apply Hoth, Hj. by left.
Qed.

Lemma slice_into_total av a i w :
  0 <= w < 31 -> 0 <= i + 1 < Z.of_nat (length av) -> is_Ok (slice_into av a i w).
Proof.
  intros Hw Hi. unfold slice_into. rewrite slice_lower_bits_ok by done. cbn.
  destruct (vset_total av (i + 1) (a mod 2 ^ w) Hi) as [av' ->]. by eexists.
Qed.

Lemma slice_levels_total m is_ av a :
  (forall i, In i is_ -> width_ok m i /\ 0 <= i + 1 < Z.of_nat (length av)) -> is_Ok (slice_levels m is_ (av, a)).
Proof.
  intros H. destruct (foldM_total (fun st : AddrVec_t * Z => length st.1 = length av)
    (fun st i => w ← vget (m_addr_bits m) i; slice_into st.1 st.2 i w) is_ (av, a)) as (st & Hst & _); [|done|by exists st].
  intros i [av1 a1] Hi Hlen. cbn in Hlen |- *. destruct (H i Hi) as [(w & Hw & Hr) Hrange]. rewrite Hw. cbn.
  destruct (slice_into_total av1 a1 i w Hr) as [[av2 a2] H2]; [lia|]. exists (av2, a2). split; [done|].
  apply slice_into_spec in H2 as (_ & _ & _ & Hl & _). cbn. congruence.
Qed.

(** Peeling a composed address gives the fields it was composed of. *)
Lemma slice_levels_encode m is_ : forall av av0 rest av' a',
  NoDup is_ -> (forall i, In i is_ -> in_field m av0 i) ->
  slice_levels m is_ (av, decode m is_ av0 rest) = Ok (av', a') ->
  a' = rest /\ forall i, In i is_ -> vget av' (i + 1) = vget av0 (i + 1).
Proof.
  induction is_ as [|i is_ IH]; intros av av0 rest av' a' Hnd Hf H; cbn in H; [by injection H as <- <-|].
  apply NoDup_cons in Hnd as [Hni Hnd]. destruct (Hf i) as (v & w & Hv & Hw & Hr); [by left|].
  apply bind_Ok_inv in H as ([av1 a1] & H1 & H). rewrite Hw, Hv in H1. cbn in H1.
  destruct (slice_into_spec _ _ _ _ _ _ H1) as (Hwr & Hv1 & -> & _ & Hoth).
  assert (0 < 2 ^ w) by (apply Z.pow_pos_nonneg; lia).
  rewrite (Z.mul_comm (2 ^ w)), Z.div_add, Z.div_small in H by lia.
  rewrite (Z.mul_comm (2 ^ w)), Z.mod_add, Z.mod_small in Hv1 by lia.
  rewrite Z.add_0_l in H. change (slice_levels m is_ (av1, decode m is_ av0 rest) = Ok (av', a')) in H.
  destruct (IH av1 av0 rest av' a' Hnd) as [-> Hin]; [intros j Hj; apply Hf; by right|done|]. split; [done|].
  intros j [<-|Hj]; [|by apply Hin]. rewrite Hv.
  destruct (slice_levels_decode m is_ _ _ _ _ Hnd H) as (_ & _ & _ & Hk). rewrite Hk; [done|].
  intros k Hki E. apply Hni. apply list_elem_of_In. by replace i with k by lia.
Qed.

(** ** Mappers that only slice *)
Definition widths_sum (m : AddrMapperBase) (is_ : list Z) : Z :=
  foldr (fun i acc => from_res 0 (vget (m_addr_bits m) i) + acc) 0 is_.

Lemma widths_sum_nonneg m is_ : (forall i, In i is_ -> width_ok m i) -> 0 <= widths_sum m is_.
Proof.
  induction is_ as [|i is_ IH]; intros H; cbn; [lia|]. destruct (H i) as (w & -> & Hw); [by left|]. cbn.
  pose proof (IH ltac:(intros j Hj; apply H; by right)). unfold widths_sum in *. lia.
Qed.

Lemma slice_levels_rest m is_ : forall av a av' a',
  (forall i, In i is_ -> width_ok m i) -> slice_levels m is_ (av, a) = Ok (av', a') ->
  a' = a / 2 ^ widths_sum m is_.
Proof.
  induction is_ as [|i is_ IH]; intros av a av' a' Hw H; cbn in H.
  - injection H as <- <-. cbn. by rewrite Z.div_1_r.
  - apply bind_Ok_inv in H as ([av1 a1] & H1 & H). apply bind_Ok_inv in H1 as (w & Hwi & H1). cbn in H1.
    destruct (slice_into_spec _ _ _ _ _ _ H1) as (Hwr & _ & -> & _).
    assert (Hw' : forall j, In j is_ -> width_ok m j) by (intros j Hj; apply Hw; by right).
    rewrite (IH _ _ _ _ Hw' H). cbn. rewrite Hwi. cbn. pose proof (widths_sum_nonneg m is_ Hw').
    unfold widths_sum in *. rewrite Z.pow_add_r, Z.div_div by (try apply Z.pow_pos_nonneg; try apply Z.pow_nonzero; lia). done.
Qed.

(** A mapper with a given slicing order. *)
Definition linear_apply (m : AddrMapperBase) (order : list Z) (req : Request) : res Request :=
  let av := vresize (addr_vec req) (m_num_mapped_levels m + 1) (-1) in
  a ← tx_addr m (intra_channel_addr req);
  st ← slice_levels m order (av, a);
  Ok (set_addr_vec req st.1).

Definition order_ChRaBaRoCo (m : AddrMapperBase) : list Z := rev (seqZ 0 (m_num_mapped_levels m)).
Definition order_RoBaRaCoCh (m : AddrMapperBase) : list Z := m_col_idx m :: seqZ 0 (m_row_idx m + 1).

Lemma ChRaBaRoCo_linear m req : ChRaBaRoCo_apply m req = linear_apply m (order_ChRaBaRoCo m) req.
Proof. done. Qed.

Lemma RoBaRaCoCh_linear m req : RoBaRaCoCh_apply m req = linear_apply m (order_RoBaRaCoCh m) req.
Proof.
  unfold RoBaRaCoCh_apply, linear_apply, order_RoBaRaCoCh, slice_levels. cbn [foldM].
  destruct (tx_addr m _); cbn; [|done]. destruct (vget _ _); cbn; [|done].
  by destruct (slice_into _ _ _ _).
Qed.

(** What the initialisation establishes. *)
Record mapper_ok (m : AddrMapperBase) : Prop := {
  mo_levels : 3 <= m_num_mapped_levels m;
  mo_length : Z.of_nat (length (m_addr_bits m)) = m_num_mapped_levels m;
  mo_widths : forall i, 0 <= i < m_num_mapped_levels m -> width_ok m i;
  mo_tx : 0 <= m_tx_offset m < 64;
  mo_col : m_col_idx m = m_num_mapped_levels m - 1;
  mo_row : m_row_idx m = m_col_idx m - 1
}.

(** An order that visits every mapped level once. *)
Definition order_ok (m : AddrMapperBase) (order : list Z) : Prop :=
  NoDup order /\ forall i, In i order <-> 0 <= i < m_num_mapped_levels m.

Lemma order_ChRaBaRoCo_ok m : order_ok m (order_ChRaBaRoCo m).
Proof.
  unfold order_ChRaBaRoCo. split.
  - apply NoDup_ListNoDup, List.NoDup_rev, NoDup_ListNoDup, NoDup_seqZ.
  - intros i. rewrite <- in_rev, <- list_elem_of_In, elem_of_seqZ. lia.
Qed.

Lemma order_RoBaRaCoCh_ok m : mapper_ok m -> order_ok m (order_RoBaRaCoCh m).
Proof.
  intros [H1 _ _ _ Hc Hr]. unfold order_RoBaRaCoCh. split.
  - apply NoDup_cons. split; [|apply NoDup_seqZ]. rewrite elem_of_seqZ. lia.
  - intros i. cbn. rewrite <- list_elem_of_In, elem_of_seqZ. lia.
Qed.

Lemma length_vresize l n x : 0 <= n -> Z.of_nat (length (vresize l n x)) = n.
Proof. intros H. unfold vresize. rewrite length_app, length_take, length_replicate. lia. Qed.

Lemma tx_addr_ok m a : mapper_ok m -> tx_addr m a = Ok (a / 2 ^ m_tx_offset m).
Proof.
  intros Hm. pose proof (mo_tx m Hm). unfold tx_addr. destruct (Z.leb_spec 0 (m_tx_offset m)); [|lia].
  destruct (Z.ltb_spec (m_tx_offset m) 64); [|lia]. cbn. by rewrite Z.shiftr_div_pow2 by lia.
Qed.

Lemma order_sum_split m order : order_ok m order -> mapper_ok m -> 0 <= widths_sum m order.
Proof. intros [_ Ho] Hm. apply widths_sum_nonneg. intros i Hi. apply Hm. by apply Ho. Qed.

Section Linear.
Context (m : AddrMapperBase) (order : list Z) (Hm : mapper_ok m) (Ho : order_ok m order).

(** The capacity the mapper addresses, in bytes. *)
Definition capacity : Z := 2 ^ (m_tx_offset m + widths_sum m order).

Lemma linear_apply_total req : exists av rest,
  linear_apply m order req = Ok (set_addr_vec req av) /\
  slice_levels m order (vresize (addr_vec req) (m_num_mapped_levels m + 1) (-1),
                        intra_channel_addr req / 2 ^ m_tx_offset m) = Ok (av, rest).
Proof.
  unfold linear_apply. rewrite tx_addr_ok by done. cbn [mbind res_bind]. pose proof (mo_levels m Hm).
  destruct (slice_levels_total m order (vresize (addr_vec req) (m_num_mapped_levels m + 1) (-1))
    (intra_channel_addr req / 2 ^ m_tx_offset m)) as [[av rest] Hst].
  - intros i Hi. apply Ho in Hi. split; [by apply Hm|]. rewrite length_vresize; lia.
  - exists av, rest. by rewrite Hst.
Qed.

Lemma linear_roundtrip req :
  0 <= intra_channel_addr req < capacity ->
  exists av, linear_apply m order req = Ok (set_addr_vec req av) /\
    decode m order av 0 = intra_channel_addr req / 2 ^ m_tx_offset m /\
    Z.of_nat (length av) = m_num_mapped_levels m + 1 /\
    (forall i, 0 <= i < m_num_mapped_levels m -> in_field m av i) /\
    vget av 0 = vget (vresize (addr_vec req) (m_num_mapped_levels m + 1) (-1)) 0.
Proof.
  intros Hc. destruct (linear_apply_total req) as (av & rest & Ha & Hs). exists av.
  pose proof (mo_levels m Hm). pose proof (mo_tx m Hm). pose proof (order_sum_split m order Ho Hm) as Hsum.
  destruct (slice_levels_decode m order _ _ _ _ (proj1 Ho) Hs) as (Hd & Hlen & Hf & Hk).
  assert (rest = 0) as ->.
  { rewrite (slice_levels_rest m order _ _ _ _ (fun i Hi => mo_widths m Hm i (proj1 (proj2 Ho i) Hi)) Hs).
    apply Z.div_small. split; [apply Z.div_pos; [lia|apply Z.pow_pos_nonneg; lia]|].
    apply Z.div_lt_upper_bound; [apply Z.pow_pos_nonneg; lia|]. rewrite <- Z.pow_add_r by lia. apply Hc. }
  split_and!; [done|done| | |].
  - rewrite Hlen, length_vresize; lia.
  - intros i Hi. apply Hf. by apply Ho.
  - apply Hk. intros i Hi. apply Ho in Hi. lia.
Qed.

(** Every tuple of coordinates in range is the image of an address. *)
Lemma linear_onto req av0 :
  (forall i, 0 <= i < m_num_mapped_levels m -> in_field m av0 i) ->
  intra_channel_addr req = decode m order av0 0 * 2 ^ m_tx_offset m ->
  exists av, linear_apply m order req = Ok (set_addr_vec req av) /\
    forall i, 0 <= i < m_num_mapped_levels m -> vget av (i + 1) = vget av0 (i + 1).
Proof.
  intros Hf Ha. destruct (linear_apply_total req) as (av & rest & Hap & Hs). exists av. split; [done|].
  pose proof (mo_tx m Hm). rewrite Ha, Z.div_mul in Hs by (apply Z.pow_nonzero; lia).
  destruct (slice_levels_encode m order _ av0 0 _ _ (proj1 Ho)
    (fun i Hi => Hf i (proj1 (proj2 Ho i) Hi)) Hs) as [_ Hin].
  intros i Hi. apply Hin. by apply Ho.
Qed.
End Linear.

(** ** MOP4CLXOR *)

Lemma lxor_bound a b w : 0 <= w -> 0 <= a < 2 ^ w -> 0 <= b < 2 ^ w -> 0 <= Z.lxor a b < 2 ^ w.
Proof.
  intros Hw Ha Hb. assert (0 <= Z.lxor a b) by (apply Z.lxor_nonneg; lia). split; [done|].
  destruct (Z.eq_dec (Z.lxor a b) 0) as [->|Hne]; [apply Z.pow_pos_nonneg; lia|].
  apply Z.log2_lt_pow2; [lia|]. eapply Z.le_lt_trans; [apply Z.log2_lxor; lia|].
  destruct (Z.eq_dec a 0) as [->|], (Z.eq_dec b 0) as [->|]; try (by rewrite Z.lxor_0_r in Hne).
  - rewrite Z.max_r by (cbn; apply Z.log2_nonneg). apply Z.log2_lt_pow2; lia.
  - rewrite Z.max_l by (cbn; apply Z.log2_nonneg). apply Z.log2_lt_pow2; lia.
  - apply Z.max_lub_lt; apply Z.log2_lt_pow2; lia.
Qed.

Lemma land_mask_bound x w k : low_mask w = Ok k -> 0 <= Z.land x k < 2 ^ w.
Proof.
  unfold low_mask. destruct (Z.leb_spec 0 w), (Z.ltb_spec w 31); cbn; intros E; try discriminate. injection E as <-.
  rewrite Z.shiftl_1_l, Z.sub_1_r, <- Z.ones_equiv, Z.land_ones by lia. apply Z.mod_pos_bound, Z.pow_pos_nonneg; lia.
Qed.

(** The mask a level is xored with depends on the column and the widths. *)
Fixpoint xmask (m : AddrMapperBase) (col k : Z) (is_ : list Z) (i : Z) : Z :=
  match is_ with
  | [] => 0
  | j :: is_ =>
      let w := from_res 0 (vget (m_addr_bits m) j) in
      if i =? j then Z.land (Z.shiftr col k) (from_res 0 (low_mask w)) else xmask m col (k + w) is_ i
  end.

Lemma xmask_bound m col is_ : forall k i w,
  vget (m_addr_bits m) i = Ok w -> 0 <= w < 31 -> 0 <= xmask m col k is_ i < 2 ^ w.
Proof.
  induction is_ as [|j is_ IH]; intros k i w Hw Hr; cbn; [split; [lia|apply Z.pow_pos_nonneg; lia]|].
  destruct (Z.eqb_spec i j) as [->|Hne]; [|by apply IH]. rewrite Hw. cbn.
  apply land_mask_bound. unfold low_mask. destruct (Z.leb_spec 0 w), (Z.ltb_spec w 31); try lia. done.
Qed.

Lemma xor_step_ok m av k i w col old :
  vget (m_addr_bits m) i = Ok w -> 0 <= w < 31 -> vget av (m_col_idx m + 1) = Ok col -> 0 <= k < 32 ->
  vget av (i + 1) = Ok old ->
  exists av', xor_step m (av, k) i = Ok (av', k + w) /\ length av' = length av /\
    vget av' (i + 1) = Ok (Z.lxor old (Z.land (Z.shiftr col k) (from_res 0 (low_mask w)))) /\
    forall j, j <> i + 1 -> vget av' j = vget av j.
Proof.
  intros Hw Hr Hcol Hk Hold. unfold xor_step. rewrite Hw. cbn [mbind res_bind].
  assert (low_mask w = Ok (Z.shiftl 1 w - 1)) as Hmask.
  { unfold low_mask. by destruct (Z.leb_spec 0 w), (Z.ltb_spec w 31); try lia. }
  destruct (Z.ltb_spec 0 w).
  - cbn [fst snd]. rewrite Hcol. cbn [mbind res_bind].
    destruct (Z.leb_spec 0 k), (Z.ltb_spec k 32); try lia. cbn [andb mbind res_bind]. rewrite Hmask, Hold.
    cbn [mbind res_bind from_res].
    destruct (vset_total av (i + 1) (Z.lxor old (Z.land (Z.shiftr col k) (Z.shiftl 1 w - 1)))) as [av' Hs];
      [apply vget_is_Ok; by eexists|].
    rewrite Hs. exists av'. split_and!; [done|by eapply vset_length|by eapply vget_vset_eq|].
    intros j Hj. by eapply vget_vset_ne.
  - exists av. replace w with 0 in * by lia. rewrite Hmask, Z.add_0_r. cbn [from_res].
    change (Z.shiftl 1 0 - 1) with 0. by rewrite Z.land_0_r, Z.lxor_0_r.
Qed.

(** A loop over levels below the column: each is xored with its mask. *)
Lemma xor_loop m is_ : forall av k col,
  NoDup is_ -> ~ In (m_col_idx m) is_ -> (forall i, In i is_ -> width_ok m i /\ is_Ok (vget av (i + 1))) ->
  vget av (m_col_idx m + 1) = Ok col -> 0 <= k -> k + widths_sum m is_ < 32 ->
  exists av', foldM (xor_step m) is_ (av, k) = Ok (av', k + widths_sum m is_) /\ length av' = length av /\
    (forall i v, In i is_ -> vget av (i + 1) = Ok v -> vget av' (i + 1) = Ok (Z.lxor v (xmask m col k is_ i))) /\
    (forall j, (forall i, In i is_ -> j <> i + 1) -> vget av' j = vget av j).
Proof.
  induction is_ as [|i is_ IH]; intros av k col Hnd Hcol Hok Hc Hk0 Hk; cbn [foldM widths_sum foldr] in *.
  { exists av. rewrite Z.add_0_r. by split_and!. }
  apply NoDup_cons in Hnd as [Hni Hnd]. destruct (Hok i) as [(w & Hw & Hr) [old Hold]]; [by left|].
  assert (Hok' : forall j, In j is_ -> width_ok m j) by (intros j Hj; apply (Hok j); by right).
  pose proof (widths_sum_nonneg m is_ Hok') as Hs. unfold widths_sum in Hs. rewrite Hw in *. cbn [from_res] in *.
  assert (Hnii : forall j, In j is_ -> j + 1 <> i + 1).
  { intros j Hj E. apply Hni, list_elem_of_In. by replace i with j by lia. }
  destruct (xor_step_ok m av k i w col old Hw Hr Hc) as (av1 & H1 & Hl1 & Hv1 & Ho1); [lia|done|].
  rewrite H1. cbn [mbind res_bind].
  destruct (IH av1 (k + w) col Hnd) as (av' & H2 & Hl2 & Hv2 & Ho2).
  - intros ?. apply Hcol. by right.
  - intros j Hj. destruct (Hok j) as [Hwj Hgj]; [by right|]. split; [done|]. rewrite Ho1; [done|by apply Hnii].
  - rewrite Ho1; [done|]. intros E. apply Hcol. left. lia.
  - lia.
  - unfold widths_sum. lia.
  - exists av'. split_and!.
    + rewrite H2. unfold widths_sum. do 2 f_equal. lia.
    + congruence.
    + intros j v [<-|Hj] Hv; cbn [xmask].
      * rewrite Z.eqb_refl, Hw. cbn [from_res]. rewrite Ho2 by (intros q Hq E; by apply (Hnii q Hq)). congruence.
      * destruct (Z.eqb_spec j i) as [->|Hne]; [by destruct (Hnii i Hj)|]. rewrite Hw. cbn [from_res].
        apply Hv2; [done|]. rewrite Ho1; [done|by apply Hnii].
    + intros j Hj. rewrite Ho2 by (intros q Hq; apply Hj; by right). apply Ho1, Hj. by left.
Qed.

(** A second run of the loop undoes the first. *)
Lemma xor_loop_undo m is_ av k col av1 :
  NoDup is_ -> ~ In (m_col_idx m) is_ -> (forall i, In i is_ -> width_ok m i /\ is_Ok (vget av (i + 1))) ->
  vget av (m_col_idx m + 1) = Ok col -> 0 <= k -> k + widths_sum m is_ < 32 ->
  foldM (xor_step m) is_ (av, k) = Ok (av1, k + widths_sum m is_) ->
  exists av2, foldM (xor_step m) is_ (av1, k) = Ok (av2, k + widths_sum m is_) /\
    forall j, vget av2 j = vget av j.
Proof.
  intros Hnd Hcol Hok Hc Hk0 Hk H.
  destruct (xor_loop m is_ av k col Hnd Hcol Hok Hc Hk0 Hk) as (av1' & H1 & Hl1 & Hv1 & Ho1).
  rewrite H in H1. injection H1 as <-.
  assert (Hcol1 : vget av1 (m_col_idx m + 1) = Ok col).
  { rewrite Ho1; [done|]. intros i Hi E. apply Hcol. by replace (m_col_idx m) with i by lia. }
  destruct (xor_loop m is_ av1 k col Hnd Hcol) as (av2 & H2 & Hl2 & Hv2 & Ho2); [|done..|].
  { intros i Hi. destruct (Hok i Hi) as [? [v Hv]]. split; [done|]. rewrite (Hv1 i v Hi Hv). by eexists. }
  exists av2. split; [done|]. intros j. destruct (decide (j - 1 ∈ is_)) as [Hj|Hj].
  - apply list_elem_of_In in Hj. destruct (Hok _ Hj) as [_ [v Hv]].
    replace (j - 1 + 1) with j in Hv by lia. rewrite Hv. specialize (Hv1 (j - 1) v Hj).
    replace (j - 1 + 1) with j in Hv1 by lia. specialize (Hv2 (j - 1) (Z.lxor v (xmask m col k is_ (j - 1))) Hj).
    replace (j - 1 + 1) with j in Hv2 by lia. rewrite (Hv2 (Hv1 Hv)).
    by rewrite Z.lxor_assoc, Z.lxor_nilpotent, Z.lxor_0_r.
  - assert (Hn : forall i, In i is_ -> j <> i + 1).
    { intros i Hi ->. apply Hj. rewrite Z.add_simpl_r. by apply list_elem_of_In. }
    by rewrite Ho2, Ho1.
Qed.

(** Undoing the xor and reading the fields back. *)
Definition mop_decode (m : AddrMapperBase) (av : AddrVec_t) : res Z :=
  st ← foldM (xor_step m) (seqZ 0 (m_col_idx m)) (av, 0);
  col ← vget st.1 (m_col_idx m + 1);
  row ← vget st.1 (m_row_idx m + 1);
  cw ← vget (m_addr_bits m) (m_col_idx m);
  Ok (col mod 4 + 4 * decode m (seqZ 0 (m_row_idx m)) st.1 (col / 4 + 2 ^ (cw - 2) * row)).

Lemma widths_sum_app m l k : widths_sum m (l ++ k) = widths_sum m l + widths_sum m k.
Proof. unfold widths_sum. induction l as [|i l IH]; cbn; [done|]. rewrite IH. lia. Qed.

(** The slices of [MOP4CLXOR] before the xor. *)
Lemma mop_slices m av a cw rw :
  mapper_ok m -> Z.of_nat (length av) = m_num_mapped_levels m + 1 ->
  vget (m_addr_bits m) (m_col_idx m) = Ok cw -> 2 <= cw -> vget (m_addr_bits m) (m_row_idx m) = Ok rw ->
  0 <= a < 2 ^ (cw + widths_sum m (seqZ 0 (m_row_idx m)) + rw) ->
  exists av1 av2 p, slice_into av a (m_col_idx m) 2 = Ok (av1, a / 4) /\
    slice_levels m (seqZ 0 (m_row_idx m)) (av1, a / 4) = Ok (av2, p.1 + 2 ^ (cw - 2) * p.2) /\
    length av2 = length av /\ vget av2 (m_col_idx m + 1) = Ok (a mod 4) /\
    (forall i, 0 <= i < m_row_idx m -> in_field m av2 i) /\
    decode m (seqZ 0 (m_row_idx m)) av2 (p.1 + 2 ^ (cw - 2) * p.2) = a / 4 /\
    slice_lower_bits (p.1 + 2 ^ (cw - 2) * p.2) (cw - 2) = Ok p /\
    0 <= p.1 < 2 ^ (cw - 2) /\ 0 <= p.2 < 2 ^ rw.
Proof.
  intros Hm Hlen Hcw Hcw2 Hrw Ha. pose proof (mo_levels m Hm) as Hml. pose proof (mo_col m Hm) as Hmc. pose proof (mo_row m Hm) as Hmr.
  destruct (mo_widths m Hm (m_col_idx m)) as (cw' & Hcw' & Hcwr); [lia|]. rewrite Hcw in Hcw'. injection Hcw' as <-.
  destruct (mo_widths m Hm (m_row_idx m)) as (rw' & Hrw' & Hrwr); [lia|]. rewrite Hrw in Hrw'. injection Hrw' as <-.
  destruct (slice_into_total av a (m_col_idx m) 2) as [[av1 a1] H1]; [lia|lia|].
  destruct (slice_into_spec _ _ _ _ _ _ H1) as (_ & Hlo & -> & Hl1 & _). change (2 ^ 2) with 4 in *.
  assert (Hws : forall i, In i (seqZ 0 (m_row_idx m)) -> width_ok m i).
  { intros i Hi%list_elem_of_In%elem_of_seqZ. apply Hm. lia. }
  destruct (slice_levels_total m (seqZ 0 (m_row_idx m)) av1 (a / 4)) as [[av2 a2] H2].
  { intros i Hi. split; [by apply Hws|]. apply list_elem_of_In, elem_of_seqZ in Hi. lia. }
  destruct (slice_levels_decode m _ _ _ _ _ (NoDup_seqZ _ _) H2) as (Hd & Hl2 & Hf & Ho).
  pose proof (slice_levels_rest m _ _ _ _ _ Hws H2) as Hrest. pose proof (widths_sum_nonneg m _ Hws) as Hsum.
  assert (0 < 2 ^ (cw - 2)) by (apply Z.pow_pos_nonneg; lia).
  assert (Ha2 : 0 <= a2 < 2 ^ (cw - 2 + rw)).
  { subst a2. split; [apply Z.div_pos; [apply Z.div_pos; lia|apply Z.pow_pos_nonneg; lia]|].
    apply Z.div_lt_upper_bound; [apply Z.pow_pos_nonneg; lia|]. rewrite <- Z.pow_add_r by lia.
    apply Z.div_lt_upper_bound; [lia|]. change 4 with (2 ^ 2). rewrite <- Z.pow_add_r by lia.
    replace (2 + (widths_sum m (seqZ 0 (m_row_idx m)) + (cw - 2 + rw)))
      with (cw + widths_sum m (seqZ 0 (m_row_idx m)) + rw) by lia. lia. }
  assert (Hsplit : a2 mod 2 ^ (cw - 2) + 2 ^ (cw - 2) * (a2 / 2 ^ (cw - 2)) = a2)
    by (pose proof (Z.div_mod a2 (2 ^ (cw - 2))); lia).
  exists av1, av2, (a2 mod 2 ^ (cw - 2), a2 / 2 ^ (cw - 2)). cbn [fst snd]. rewrite Hsplit.
  split_and!; try done; try congruence.
  - rewrite Ho; [done|]. intros i Hi%list_elem_of_In%elem_of_seqZ. lia.
  - intros i Hi. apply Hf, list_elem_of_In, elem_of_seqZ. lia.
  - apply slice_lower_bits_ok. lia.
  - apply Z.mod_pos_bound. lia.
  - apply Z.mod_pos_bound. lia.
  - apply Z.div_pos; lia.
  - apply Z.div_lt_upper_bound; [lia|]. rewrite <- Z.pow_add_r by lia. lia.
Qed.

Lemma in_field_ext m av av' i : vget av (i + 1) = vget av' (i + 1) -> in_field m av i -> in_field m av' i.
Proof. intros H (v & w & Hv & Hw). exists v, w. by rewrite <- H. Qed.

(** The vector before the xor: all coordinates in range, the column composed
    of its two slices. *)
Lemma mop_prepare m av2 p cw rw a :
  mapper_ok m -> Z.of_nat (length av2) = m_num_mapped_levels m + 1 ->
  vget (m_addr_bits m) (m_col_idx m) = Ok cw -> 2 <= cw < 31 ->
  vget (m_addr_bits m) (m_row_idx m) = Ok rw -> 0 <= rw < 31 ->
  (forall i, 0 <= i < m_row_idx m -> in_field m av2 i) ->
  0 <= p.1 < 2 ^ (cw - 2) -> 0 <= p.2 < 2 ^ rw ->
  exists av3 av4, vset av2 (m_col_idx m + 1) (i32 (a mod 4 + Z.shiftl p.1 2)) = Ok av3 /\
    vset av3 (m_row_idx m + 1) (i32 p.2) = Ok av4 /\ length av4 = length av2 /\
    (forall i, 0 <= i < m_num_mapped_levels m -> in_field m av4 i) /\
    vget av4 (m_col_idx m + 1) = Ok (a mod 4 + 4 * p.1) /\ vget av4 (m_row_idx m + 1) = Ok p.2 /\
    (forall i, 0 <= i < m_row_idx m -> vget av4 (i + 1) = vget av2 (i + 1)).
Proof.
  intros Hm Hlen Hcw Hcw2 Hrw Hrwr Hf Hp1 Hp2.
  pose proof (mo_levels m Hm) as Hml. pose proof (mo_col m Hm) as Hmc. pose proof (mo_row m Hm) as Hmr.
  pose proof (Z.mod_pos_bound a 4 ltac:(lia)) as Hlo.
  assert (Hc4 : 2 ^ cw = 4 * 2 ^ (cw - 2)).
  { replace cw with (2 + (cw - 2)) at 1 by lia. rewrite Z.pow_add_r by lia. lia. }
  assert (2 ^ cw <= 2 ^ 30 /\ 2 ^ rw <= 2 ^ 30) as [Hcb Hrb] by (split; apply Z.pow_le_mono_r; lia).
  rewrite Z.shiftl_mul_pow2 by lia. change (2 ^ 2) with 4. rewrite !i32_id by lia.
  destruct (vset_total av2 (m_col_idx m + 1) (a mod 4 + p.1 * 4)) as [av3 H3]; [lia|].
  pose proof (vset_length _ _ _ _ H3) as Hl3.
  destruct (vset_total av3 (m_row_idx m + 1) p.2) as [av4 H4]; [lia|].
  pose proof (vset_length _ _ _ _ H4) as Hl4. exists av3, av4.
  assert (Hcolv : vget av4 (m_col_idx m + 1) = Ok (a mod 4 + 4 * p.1)).
  { rewrite (vget_vset_ne _ _ _ _ _ H4), (vget_vset_eq _ _ _ _ H3) by lia. f_equal. lia. }
  assert (Hrest : forall i, 0 <= i < m_row_idx m -> vget av4 (i + 1) = vget av2 (i + 1)).
  { intros i Hi. by rewrite (vget_vset_ne _ _ _ _ _ H4), (vget_vset_ne _ _ _ _ _ H3) by lia. }
  pose proof (vget_vset_eq _ _ _ _ H4) as Hrowv.
  split_and!; try done; [congruence|]. intros i Hi.
  assert (i = m_col_idx m \/ i = m_row_idx m \/ 0 <= i < m_row_idx m) as [->|[->|Hi']] by lia.
  - exists (a mod 4 + 4 * p.1), cw. split_and!; try done; lia.
  - exists p.2, rw. split_and!; try done; lia.
  - by apply (in_field_ext m av2), Hf; [rewrite Hrest|].
Qed.

Lemma xor_in_field m av av' col i :
  mapper_ok m -> 0 <= i < m_num_mapped_levels m ->
  (forall i v, In i (seqZ 0 (m_col_idx m)) -> vget av (i + 1) = Ok v ->
     vget av' (i + 1) = Ok (Z.lxor v (xmask m col 0 (seqZ 0 (m_col_idx m)) i))) ->
  (forall j, (forall i, In i (seqZ 0 (m_col_idx m)) -> j <> i + 1) -> vget av' j = vget av j) ->
  (forall i, 0 <= i < m_num_mapped_levels m -> in_field m av i) -> in_field m av' i.
Proof.
  intros Hm Hi Hv' Ho Hf. pose proof (mo_col m Hm) as Hmc. destruct (decide (i = m_col_idx m)) as [->|Hne].
  - apply (in_field_ext m av); [|by apply Hf]. symmetry. apply Ho. intros j Hj%list_elem_of_In%elem_of_seqZ. lia.
  - destruct (Hf i Hi) as (v & w & Hv & Hw & Hr). destruct (mo_widths m Hm i Hi) as (w' & Hw' & Hwr).
    rewrite Hw in Hw'. injection Hw' as <-. eexists _, w.
    split; [apply Hv'; [apply list_elem_of_In, elem_of_seqZ; lia|done]|]. split; [done|].
    apply lxor_bound; [lia|done|by apply xmask_bound].
Qed.

Lemma mop_roundtrip m req cw rw :
  mapper_ok m -> vget (m_addr_bits m) (m_col_idx m) = Ok cw -> 2 <= cw ->
  vget (m_addr_bits m) (m_row_idx m) = Ok rw ->
  widths_sum m (seqZ 0 (m_col_idx m)) < 32 ->
  0 <= intra_channel_addr req < 2 ^ (m_tx_offset m + (cw + widths_sum m (seqZ 0 (m_row_idx m)) + rw)) ->
  exists av, MOP4CLXOR_apply m req = Ok (set_addr_vec req av) /\
    mop_decode m av = Ok (intra_channel_addr req / 2 ^ m_tx_offset m) /\
    Z.of_nat (length av) = m_num_mapped_levels m + 1 /\
    (forall i, 0 <= i < m_num_mapped_levels m -> in_field m av i).
Proof.
  intros Hm Hcw Hcw2 Hrw Hsum Ha.
  pose proof (mo_levels m Hm) as Hml. pose proof (mo_col m Hm) as Hmc. pose proof (mo_row m Hm) as Hmr.
  pose proof (mo_tx m Hm) as Htx.
  destruct (mo_widths m Hm (m_col_idx m)) as (cw' & Hcw' & Hcwr); [lia|]. rewrite Hcw in Hcw'. injection Hcw' as <-.
  destruct (mo_widths m Hm (m_row_idx m)) as (rw' & Hrw' & Hrwr); [lia|]. rewrite Hrw in Hrw'. injection Hrw' as <-.
  set (a := intra_channel_addr req / 2 ^ m_tx_offset m).
  assert (Hws : forall i, In i (seqZ 0 (m_row_idx m)) -> width_ok m i)
    by (intros i Hi%list_elem_of_In%elem_of_seqZ; apply Hm; lia).
  assert (Har : 0 <= a < 2 ^ (cw + widths_sum m (seqZ 0 (m_row_idx m)) + rw)).
  { pose proof (widths_sum_nonneg m _ Hws). unfold a. split; [apply Z.div_pos; [lia|apply Z.pow_pos_nonneg; lia]|].
    apply Z.div_lt_upper_bound; [apply Z.pow_pos_nonneg; lia|]. rewrite <- Z.pow_add_r by lia. lia. }
  set (av := vresize (addr_vec req) (m_num_mapped_levels m + 1) (-1)).
  assert (Hlav : Z.of_nat (length av) = m_num_mapped_levels m + 1) by (apply length_vresize; lia).
  destruct (mop_slices m av a cw rw Hm Hlav Hcw Hcw2 Hrw Har)
    as (av1 & av2 & p & H1 & H2 & Hl2 & Hlo & Hf & Hd & Hp & Hp1 & Hp2).
  destruct (mop_prepare m av2 p cw rw a Hm ltac:(lia) Hcw ltac:(lia) Hrw Hrwr Hf Hp1 Hp2)
    as (av3 & av4 & H3 & H4 & Hl4 & Hf4 & Hcol4 & Hrow4 & Hrest4).
  assert (Hnc : ~ In (m_col_idx m) (seqZ 0 (m_col_idx m))) by (rewrite <- list_elem_of_In, elem_of_seqZ; lia).
  assert (Hxok : forall i, In i (seqZ 0 (m_col_idx m)) -> width_ok m i /\ is_Ok (vget av4 (i + 1))).
  { intros i Hi%list_elem_of_In%elem_of_seqZ. split; [apply Hm; lia|]. destruct (Hf4 i) as (v & w & -> & _); [lia|by eexists]. }
  destruct (xor_loop m (seqZ 0 (m_col_idx m)) av4 0 _ (NoDup_seqZ _ _) Hnc Hxok Hcol4 ltac:(lia) ltac:(lia))
    as (av5 & H5 & Hl5 & Hv5 & Ho5).
  destruct (xor_loop_undo m _ av4 0 _ av5 (NoDup_seqZ _ _) Hnc Hxok Hcol4 ltac:(lia) ltac:(lia) H5) as (av6 & H6 & Hv6).
  exists av5. split_and!.
  - unfold MOP4CLXOR_apply. rewrite tx_addr_ok by done. cbn [mbind res_bind]. fold av a. rewrite H1. cbn [mbind res_bind].
    rewrite H2. cbn [mbind res_bind fst snd]. rewrite Hcw. cbn [mbind res_bind]. rewrite Hp. cbn [mbind res_bind].
    rewrite Hlo. cbn [mbind res_bind]. rewrite H3. cbn [mbind res_bind]. rewrite H4. cbn [mbind res_bind].
    rewrite H5. done.
  - unfold mop_decode. rewrite H6. cbn [mbind res_bind fst snd]. rewrite !Hv6, Hcol4, Hrow4, Hcw. cbn [mbind res_bind].
    f_equal. pose proof (Z.mod_pos_bound a 4 ltac:(lia)).
    rewrite (Z.mul_comm 4 p.1), Z.mod_add, Z.div_add, Z.mod_mod, (Z.div_small (a mod 4)), Z.add_0_l by lia.
    rewrite (decode_ext m _ av6 av2), Hd; [pose proof (Z.div_mod a 4); lia|].
    intros i Hi%list_elem_of_In%elem_of_seqZ. rewrite Hv6. apply Hrest4. lia.
  - lia.
  - intros i Hi. by eapply (xor_in_field m av4 av5).
Qed.

(** ** Initialisation from a standard *)
Record org_ok (s : DRAMSpec) : Prop := {
  oo_length : Z.of_nat (length (level_sizes s)) = level_count s;
  oo_sizes : forall lvl sz, level_sizes s !! lvl = Some sz -> 1 <= sz < 2 ^ 30;
  oo_tx : 0 <= get_tx_bytes s < 2 ^ 63;
  oo_prefetch : 1 <= internal_prefetch_size s < 2 ^ 63;
  oo_column : forall sz, level_sizes s !! Z.to_nat (level_count s - 1) = Some sz ->
    Z.log2 (internal_prefetch_size s) <= Z.log2 sz
}.

(** The width of a level is at most the logarithm of its size. *)
Definition widths_fit (s : DRAMSpec) (m : AddrMapperBase) : Prop :=
  forall i w sz, vget (m_addr_bits m) i = Ok w -> vget (level_sizes s) (i + 1) = Ok sz ->
    0 <= w <= Z.log2 sz.

Lemma log2_bits sz : 1 <= sz < 2 ^ 30 -> 0 <= Z.log2 sz < 30.
Proof. intros H. split; [apply Z.log2_nonneg|]. apply Z.log2_lt_pow2; lia. Qed.

Lemma init_widths s bits :
  org_ok s -> mapM (fun i => sz ← vget (level_sizes s) (i + 1); calc_log2 sz) (seqZ 0 (level_count s - 1)) = Ok bits ->
  length bits = Z.to_nat (level_count s - 1) /\
  forall i w, vget bits i = Ok w -> exists sz, vget (level_sizes s) (i + 1) = Ok sz /\ 1 <= sz < 2 ^ 30 /\ w = Z.log2 sz.
Proof.
  intros Ho Hb. apply mapM_Ok in Hb. split; [apply Forall2_length in Hb; rewrite <- Hb; apply length_seqZ|].
  intros i w Hi. apply vget_Ok in Hi as [H0 Hi]. destruct (Forall2_lookup_r _ _ _ _ _ Hb Hi) as (k & Hk & Hf).
  apply lookup_seqZ in Hk as [-> _]. apply bind_Ok_inv in Hf as (sz & Hsz & Hl).
  replace (0 + Z.of_nat (Z.to_nat i) + 1) with (i + 1) in Hsz by lia. exists sz. split; [done|].
  apply vget_Ok in Hsz as [_ Hsz]. pose proof (oo_sizes s Ho _ _ Hsz) as Hr. split; [done|].
  rewrite calc_log2_ok in Hl by lia. by injection Hl.
Qed.

Lemma AddrMapperBase_init_ok d cfg s :
  In d all_standards -> construct d cfg = Ok s -> org_ok s ->
  exists m, AddrMapperBase_init s = Ok m /\ mapper_ok m /\ widths_fit s m /\
    m_num_mapped_levels m = level_count s - 1 /\ m_row_idx m = T_Row (std_traits d) - 1.
Proof.
  intros Hin Hcon Ho. destruct (standard_static d cfg s Hin Hcon) as (C & _ & _ & _ & _ & Hrange & _ & Hs).
  destruct (standard_levels d cfg s Hin Hcon) as [Hrow _].
  assert (Hlc : level_count s = T_Row (std_traits d) + 2).
  { rewrite (con_level_count d s C). unfold std_static_ok in Hs. bool_hyps. lia. }
  unfold AddrMapperBase_init. cbv zeta. pose proof (oo_length s Ho) as Hlen. pose proof (oo_prefetch s Ho) as Hpf.
  pose proof (oo_tx s Ho) as Htx.
  destruct (mapM_total (fun i => sz ← vget (level_sizes s) (i + 1); calc_log2 sz) (seqZ 0 (level_count s - 1))) as [bits Hb].
  { intros i Hi%list_elem_of_In%elem_of_seqZ. destruct (proj2 (vget_is_Ok (level_sizes s) (i + 1))) as [sz Hsz]; [lia|].
    rewrite Hsz. cbn [mbind res_bind]. apply vget_Ok in Hsz as [_ Hsz]. pose proof (oo_sizes s Ho _ _ Hsz).
    rewrite calc_log2_ok by lia. by eexists. }
  destruct (init_widths s bits Ho Hb) as [Hlb Hw]. rewrite Hb. cbn [mbind res_bind].
  destruct (proj2 (vget_is_Ok bits (level_count s - 1 - 1))) as [old Hold]; [lia|]. rewrite Hold. cbn [mbind res_bind].
  rewrite (calc_log2_ok (internal_prefetch_size s)) by lia. cbn [mbind res_bind].
  destruct (vset_total bits (level_count s - 1 - 1) (old - Z.log2 (internal_prefetch_size s))) as [bits' Hb']; [lia|].
  rewrite Hb'. cbn [mbind res_bind]. rewrite (calc_log2_ok (get_tx_bytes s)) by lia. cbn [mbind res_bind]. rewrite Hrow. cbn [mbind res_bind].
  pose proof (vset_length _ _ _ _ Hb') as Hlb'. pose proof (Z.log2_nonneg (internal_prefetch_size s)).
  assert (Hfit : forall i w, vget bits' i = Ok w -> exists sz, vget (level_sizes s) (i + 1) = Ok sz /\
            1 <= sz < 2 ^ 30 /\ 0 <= w <= Z.log2 sz).
  { intros i w Hi. destruct (decide (i = level_count s - 1 - 1)) as [->|Hne].
    - rewrite (vget_vset_eq _ _ _ _ Hb') in Hi. injection Hi as <-. destruct (Hw _ _ Hold) as (sz & Hsz & Hr & ->).
      exists sz. split_and!; try done; try lia. apply vget_Ok in Hsz as [_ Hsz].
      pose proof (oo_column s Ho sz). replace (level_count s - 1 - 1 + 1) with (level_count s - 1) in Hsz by lia.
      specialize (H0 Hsz). lia.
    - rewrite (vget_vset_ne _ _ _ _ _ Hb') in Hi by done. destruct (Hw _ _ Hi) as (sz & Hsz & Hr & ->).
      exists sz. pose proof (Z.log2_nonneg sz). split_and!; try done; lia. }
  eexists. split; [done|]. split_and!; cbn; try lia; [split; cbn; try lia|].
  - intros i Hi. destruct (proj2 (vget_is_Ok bits' i)) as [w Hwi]; [lia|]. exists w. split; [done|].
    destruct (Hfit i w Hwi) as (sz & _ & Hr & ?). pose proof (log2_bits sz Hr). lia.
  - pose proof (Z.log2_nonneg (get_tx_bytes s)). split; [done|].
    destruct (Z.eq_dec (get_tx_bytes s) 0) as [->|]; [cbn; lia|].
    assert (Z.log2 (get_tx_bytes s) < 63) by (apply Z.log2_lt_pow2; lia). lia.
  - intros i w sz Hi Hsz. destruct (Hfit i w Hi) as (sz' & Hsz' & _ & Hl). rewrite Hsz in Hsz'. by injection Hsz' as <-.
Qed.

(** Coordinates in range are valid for the device. *)
Lemma in_field_req_addr d cfg s m av :
  In d all_standards -> construct d cfg = Ok s -> org_ok s -> mapper_ok m -> widths_fit s m ->
  m_num_mapped_levels m = level_count s - 1 -> Z.of_nat (length av) = m_num_mapped_levels m + 1 ->
  (forall i, 0 <= i < m_num_mapped_levels m -> in_field m av i) -> req_addr d s av.
Proof.
  intros Hin Hcon Ho Hm Hfit Hn Hlen Hf.
  destruct (standard_static d cfg s Hin Hcon) as (C & _ & _ & _ & _ & Hrange & _).
  assert (Hcoord : forall lvl, (1 <= lvl)%nat -> Z.of_nat lvl < level_count s -> exists a sz,
    av !! lvl = Some a /\ level_sizes s !! lvl = Some sz /\ 0 <= a < sz).
  { intros lvl H1 Hl. destruct (Hf (Z.of_nat lvl - 1)) as (v & w & Hv & Hw & Hr); [lia|].
    replace (Z.of_nat lvl - 1 + 1) with (Z.of_nat lvl) in Hv by lia. apply vget_nat in Hv.
    destruct (proj2 (vget_is_Ok (level_sizes s) (Z.of_nat lvl))) as [sz Hsz]; [rewrite (oo_length s Ho); lia|].
    assert (Hsz' := Hsz). replace (Z.of_nat lvl) with (Z.of_nat lvl - 1 + 1) in Hsz' by lia.
    pose proof (Hfit _ _ _ Hw Hsz') as Hlog. apply vget_nat in Hsz. exists v, sz. split_and!; try done; try lia.
    pose proof (oo_sizes s Ho _ _ Hsz). pose proof (Z.log2_spec sz). 
    assert (2 ^ w <= 2 ^ Z.log2 sz) by (apply Z.pow_le_mono_r; lia). lia. }
  split; [|split].
  - intros lvl Hl. apply Hcoord; unfold bank_lvl in Hl; lia.
  - intros lvl Hl. apply lookup_lt_is_Some_2. unfold row_lvl in Hl. lia.
  - intros lvl Hl. destruct (Hcoord lvl) as (a & sz & ? & ? & ?); [lia|unfold row_lvl in Hl; lia|]. eauto 10.
Qed.

(** ** Properties *)

(** C25: ChRaBaRoCo and RoBaRaCoCh are bijections between the bursts of a channel and
    the coordinates in range: the address is recovered from the coordinates, every
    coordinate is in range, and every tuple of coordinates is the image of the address
    it decodes to. *)
Theorem flat_mappers_bijective m order :
  mapper_ok m -> order = order_ChRaBaRoCo m \/ order = order_RoBaRaCoCh m ->
  let apply_ := fun req => if decide (order = order_ChRaBaRoCo m) then ChRaBaRoCo_apply m req else RoBaRaCoCh_apply m req in
  (forall req, 0 <= intra_channel_addr req < capacity m order ->
     exists av, apply_ req = Ok (set_addr_vec req av) /\
       decode m order av 0 = intra_channel_addr req / 2 ^ m_tx_offset m /\
       (forall i, 0 <= i < m_num_mapped_levels m -> in_field m av i)) /\
  (forall req av0, (forall i, 0 <= i < m_num_mapped_levels m -> in_field m av0 i) ->
     intra_channel_addr req = decode m order av0 0 * 2 ^ m_tx_offset m ->
     exists av, apply_ req = Ok (set_addr_vec req av) /\
       forall i, 0 <= i < m_num_mapped_levels m -> vget av (i + 1) = vget av0 (i + 1)).
Proof.
  intros Hm Hor apply_.
  assert (Hap : forall req, apply_ req = linear_apply m order req).
  { intros req. unfold apply_. destruct (decide _) as [->|Hne]; [apply ChRaBaRoCo_linear|].
    destruct Hor as [?| ->]; [done|apply RoBaRaCoCh_linear]. }
  assert (Hok : order_ok m order)
    by (destruct Hor as [->| ->]; [apply order_ChRaBaRoCo_ok|by apply order_RoBaRaCoCh_ok]).
  split.
  - intros req Hc. destruct (linear_roundtrip m order Hm Hok req Hc) as (av & H1 & H2 & _ & H3 & _).
    exists av. by rewrite Hap.
  - intros req av0 Hf Ha. destruct (linear_onto m order Hm Hok req av0 Hf Ha) as (av & H1 & H2).
    exists av. by rewrite Hap.
Qed.

(** C26: MOP4CLXOR loses no information: undoing the xor with the column bits and
    reading the slices back gives the burst address, and all coordinates stay in range.
    *)
Theorem MOP4CLXOR_invertible m req cw rw :
  mapper_ok m -> vget (m_addr_bits m) (m_col_idx m) = Ok cw -> 2 <= cw ->
  vget (m_addr_bits m) (m_row_idx m) = Ok rw -> widths_sum m (seqZ 0 (m_col_idx m)) < 32 ->
  0 <= intra_channel_addr req < 2 ^ (m_tx_offset m + (cw + widths_sum m (seqZ 0 (m_row_idx m)) + rw)) ->
  exists av, MOP4CLXOR_apply m req = Ok (set_addr_vec req av) /\
    mop_decode m av = Ok (intra_channel_addr req / 2 ^ m_tx_offset m) /\
    (forall i, 0 <= i < m_num_mapped_levels m -> in_field m av i).
Proof.
  intros Hm Hcw H2 Hrw Hs Ha.
  destruct (mop_roundtrip m req cw rw Hm Hcw H2 Hrw Hs Ha) as (av & ? & ? & _ & ?). eauto.
Qed.

(** C27: For every standard with a sane organisation the mapper initialises; ChRaBaRoCo
    and RoBaRaCoCh turn every address below the capacity into coordinates the device
    accepts (in range at every level), and so does MOP4CLXOR when there are at least 2
    column bits and fewer than 32 bits above the column. *)
Theorem mapped_requests_valid d cfg s req :
  In d all_standards -> construct d cfg = Ok s -> org_ok s ->
  exists m, AddrMapperBase_init s = Ok m /\
    (forall order, order = order_ChRaBaRoCo m \/ order = order_RoBaRaCoCh m ->
       0 <= intra_channel_addr req < capacity m order ->
       exists av, (if decide (order = order_ChRaBaRoCo m) then ChRaBaRoCo_apply m req else RoBaRaCoCh_apply m req)
                    = Ok (set_addr_vec req av) /\ req_addr d s av) /\
    (forall cw rw, vget (m_addr_bits m) (m_col_idx m) = Ok cw -> 2 <= cw ->
       vget (m_addr_bits m) (m_row_idx m) = Ok rw -> widths_sum m (seqZ 0 (m_col_idx m)) < 32 ->
       0 <= intra_channel_addr req < 2 ^ (m_tx_offset m + (cw + widths_sum m (seqZ 0 (m_row_idx m)) + rw)) ->
       exists av, MOP4CLXOR_apply m req = Ok (set_addr_vec req av) /\ req_addr d s av).
Proof.
  intros Hin Hcon Ho. destruct (AddrMapperBase_init_ok d cfg s Hin Hcon Ho) as (m & Hi & Hm & Hfit & Hn & _).
  exists m. split; [done|]. split.
  - intros order Hor Hc.
    assert (Hok : order_ok m order)
      by (destruct Hor as [->| ->]; [apply order_ChRaBaRoCo_ok|by apply order_RoBaRaCoCh_ok]).
    destruct (linear_roundtrip m order Hm Hok req Hc) as (av & Ha & _ & Hl & Hf & _). exists av. split.
    + destruct (decide _) as [->|Hne]; [by rewrite ChRaBaRoCo_linear|].
      destruct Hor as [?| ->]; [done|by rewrite RoBaRaCoCh_linear].
    + by eapply in_field_req_addr.
  - intros cw rw Hcw H2 Hrw Hs Ha. destruct (mop_roundtrip m req cw rw Hm Hcw H2 Hrw Hs Ha) as (av & Hav & _ & Hl & Hf).
    exists av. split; [done|]. by eapply in_field_req_addr.
Qed.

(** ** Witnesses *)

(** One rank, two bank groups of two banks, 16 rows, 8 bursts per row. *)
Definition mapper_example : AddrMapperBase := mkMapper 5 [0; 1; 1; 4; 3] 6 3 4.

Lemma mapper_example_ok : mapper_ok mapper_example.
Proof.
  split; cbn; try lia. intros i Hi.
  assert (i = 0 \/ i = 1 \/ i = 2 \/ i = 3 \/ i = 4) as [->|[->|[->|[->| ->]]]] by lia;
    eexists; (split; [reflexivity|lia]).
Qed.

Definition req_example : Request := set_intra (Request_addr 13737 0) 13737.

Lemma flat_mappers_bijective_witness :
  exists av, RoBaRaCoCh_apply mapper_example req_example = Ok (set_addr_vec req_example av) /\
    decode mapper_example (order_RoBaRaCoCh mapper_example) av 0 = 214.
Proof.
  destruct (flat_mappers_bijective mapper_example (order_RoBaRaCoCh mapper_example) mapper_example_ok) as [H _].
  - right. reflexivity.
  - destruct (H req_example) as (av & Ha & Hd & _); [vm_compute; split; [discriminate|reflexivity]|].
    exists av. split; [exact Ha|exact Hd].
Defined.

Lemma MOP4CLXOR_invertible_witness :
  exists av, MOP4CLXOR_apply mapper_example req_example = Ok (set_addr_vec req_example av) /\
    mop_decode mapper_example av = Ok 214.
Proof.
  destruct (MOP4CLXOR_invertible mapper_example req_example 3 4 mapper_example_ok) as (av & Ha & Hd & _).
  - reflexivity.
  - lia.
  - reflexivity.
  - vm_compute. reflexivity.
  - vm_compute. split; [discriminate|reflexivity].
  - exists av. split; [exact Ha|exact Hd].
Defined.

Lemma org_ok_small : org_ok ddr4_small.
Proof.
  split.
  - vm_compute. reflexivity.
  - intros lvl sz H. assert (Forall (fun sz => 1 <= sz < 2 ^ 30) (level_sizes ddr4_small)) as HF.
    { change (level_sizes ddr4_small) with [1; 1; 2; 2; 16; 8]. repeat constructor; lia. }
    exact (Forall_lookup_1 _ _ _ _ HF H).
  - vm_compute. split; [discriminate|reflexivity].
  - vm_compute. split; [discriminate|reflexivity].
  - intros sz H. change (Some 8 = Some sz) in H. injection H as <-. vm_compute. discriminate.
Qed.

(** The example device with 64 columns, so that two column bits are left
    above a burst. *)
Definition cfg_columns : dram_config := mkCfg 64 8 [1; 1; 2; 2; 16; 64] (replicate 21 10) 20 [].

Definition ddr4_columns : DRAMSpec := from_res ddr4_small (construct DDR4_std cfg_columns).

Lemma ddr4_columns_ok : construct DDR4_std cfg_columns = Ok ddr4_columns.
Proof. apply from_res_Ok. vm_compute. reflexivity. Qed.

Lemma org_ok_columns : org_ok ddr4_columns.
Proof.
  split.
  - vm_compute. reflexivity.
  - intros lvl sz H. assert (Forall (fun sz => 1 <= sz < 2 ^ 30) (level_sizes ddr4_columns)) as HF.
    { change (level_sizes ddr4_columns) with [1; 1; 2; 2; 16; 64]. repeat constructor; lia. }
    exact (Forall_lookup_1 _ _ _ _ HF H).
  - vm_compute. split; [discriminate|reflexivity].
  - vm_compute. split; [discriminate|reflexivity].
  - intros sz H. change (Some 64 = Some sz) in H. injection H as <-. vm_compute. discriminate.
Qed.

(** One address through a linear mapper and through the xor mapper. *)
Lemma mapped_requests_valid_witness :
  exists m av av', AddrMapperBase_init ddr4_columns = Ok m /\
    ChRaBaRoCo_apply m (set_intra (Request_addr 9000 0) 9000) = Ok (set_addr_vec (set_intra (Request_addr 9000 0) 9000) av) /\
    req_addr DDR4_std ddr4_columns av /\
    MOP4CLXOR_apply m (set_intra (Request_addr 9000 0) 9000) = Ok (set_addr_vec (set_intra (Request_addr 9000 0) 9000) av') /\
    req_addr DDR4_std ddr4_columns av'.
Proof.
  destruct (mapped_requests_valid DDR4_std cfg_columns ddr4_columns (set_intra (Request_addr 9000 0) 9000)
    DDR4_in ddr4_columns_ok org_ok_columns) as (m & Hm & H & Hx).
  assert (E2 : AddrMapperBase_init ddr4_columns = Ok (mkMapper 5 [0; 1; 1; 4; 3] 6 3 4)) by (vm_compute; reflexivity).
  assert (Em : m = mkMapper 5 [0; 1; 1; 4; 3] 6 3 4) by (rewrite Hm in E2; by injection E2).
  assert (Hc : 0 <= 9000 < capacity m (order_ChRaBaRoCo m)) by (rewrite Em; vm_compute; split; [discriminate|reflexivity]).
  destruct (H (order_ChRaBaRoCo m) (or_introl eq_refl) Hc) as (av & Ha & Hr).
  destruct (Hx 3 4) as (av' & Ha' & Hr');
    [by rewrite Em|lia|by rewrite Em|by rewrite Em|rewrite Em; vm_compute; split; [discriminate|reflexivity]|].
  exists m, av, av'. split; [exact Hm|]. split; [|by split_and!].
  destruct (decide (order_ChRaBaRoCo m = order_ChRaBaRoCo m)) as [_|n]; [exact Ha|destruct (n eq_refl)].
Defined.
