(* ===== verification/ChannelMapper.v ===== *)
(** * ChannelMapper: spreading requests over channels

    Models [ramulator/memory_system/channel_mapper]: the interface and its
    two implementations.  Addresses are 64-bit signed integers; shifts by
    an amount outside the width are undefined, and a left shift drops the
    bits that do not fit. *)
From stdpp Require Import prelude gmap strings.
From S2P Require Import Prelude DramSpec Request BitUtils.
Open Scope Z_scope.

Definition i64 (x : Z) : Z := swrap 64 x.

Definition shr64 (a n : Z) : res Z :=
  if (0 <=? n) && (n <? 64) then Ok (Z.shiftr a n) else Err UndefinedBehaviour.
Definition shl64 (a n : Z) : res Z :=
  if (0 <=? n) && (n <? 64) then Ok (i64 (Z.shiftl a n)) else Err UndefinedBehaviour.

(** [(1LL << n) - 1]: for 63 the subtraction overflows. *)
Definition low_mask64 (n : Z) : res Z :=
  if (0 <=? n) && (n <? 63) then Ok (Z.shiftl 1 n - 1) else Err UndefinedBehaviour.

(** ** CacheLineInterleave *)
Record CacheLineInterleave := mkCLI {
  m_interleave_bits : Z;
  m_num_channels : Z;
  m_ch_shift : Z;
  m_ch_width : Z
}.

Definition CacheLineInterleave_init (interleave_bits : option Z) : CacheLineInterleave :=
  mkCLI (default 0 interleave_bits) 1 0 0.

Definition CacheLineInterleave_setup (m : CacheLineInterleave) (num_channels tx_offset : Z)
  : res CacheLineInterleave :=
  if (1 <? num_channels) && negb (Z.land num_channels (num_channels - 1) =? 0) then
    Err (Throw "CacheLineInterleave requires a power-of-two channel count")
  else
    w ← calc_log2 num_channels;
    Ok (mkCLI (m_interleave_bits m) num_channels (tx_offset + m_interleave_bits m) w).

Definition CacheLineInterleave_apply (m : CacheLineInterleave) (req : Request) : res Request :=
  let av := if bool_decide (addr_vec req = []) then [-1] else addr_vec req in
  if m_num_channels m <=? 1 then
    av ← vset av 0 0;
    Ok (set_intra (set_addr_vec req av) (addr req))
  else
    a ← shr64 (addr req) (m_ch_shift m);
    mask ← low_mask (m_ch_width m);
    av ← vset av 0 (Z.land a mask);
    lmask ← low_mask64 (m_ch_shift m);
    let low := Z.land (addr req) lmask in
    high ← shr64 (addr req) (m_ch_shift m + m_ch_width m);
    h ← shl64 high (m_ch_shift m);
    Ok (set_intra (set_addr_vec req av) (Z.lor h low)).

(** ** PassThroughChannelMapper *)
Definition PassThroughChannelMapper_apply (req : Request) : Request := set_intra req (addr req).

(** ** The interface *)
Inductive channel_mapper := CMInterleave (m : CacheLineInterleave) | CMPassThrough.

Definition chm_setup (m : channel_mapper) (num_channels tx_offset : Z) : res channel_mapper :=
  match m with
  | CMInterleave m => CMInterleave <$> CacheLineInterleave_setup m num_channels tx_offset
  | CMPassThrough => Ok CMPassThrough
  end.

Definition chm_apply (m : channel_mapper) (req : Request) : res Request :=
  match m with
  | CMInterleave m => CacheLineInterleave_apply m req
  | CMPassThrough => Ok (PassThroughChannelMapper_apply req)
  end.

(** ** Powers of two *)
Lemma land_pred_pow2 k : 0 <= k -> Z.land (2 ^ k) (2 ^ k - 1) = 0.
Proof.
  intros Hk. replace (2 ^ k - 1) with (Z.ones k) by (rewrite Z.ones_equiv; lia).
  rewrite Z.land_ones by done. apply Z.mod_same. lia.
Qed.

(** The bit test of [setup] accepts exactly the powers of two. *)
Lemma pow2_test n : 1 <= n -> Z.land n (n - 1) = 0 <-> n = 2 ^ Z.log2 n.
Proof.
  intros Hn. split.
  - intros H. pose proof (Z.log2_spec n ltac:(lia)) as [Hl Hu]. pose proof (Z.log2_nonneg n).
    destruct (Z.eq_dec n (2 ^ Z.log2 n)) as [|Hne]; [done|exfalso].
    assert (Hlt : 2 ^ Z.log2 n <= n - 1) by lia.
    assert (Hlog : Z.log2 (n - 1) = Z.log2 n) by (apply Z.log2_unique; [lia|rewrite Z.pow_succ_r in * by lia; lia]).
    assert (Hb : Z.testbit (Z.land n (n - 1)) (Z.log2 n) = true).
    { rewrite Z.land_spec, Z.bit_log2 by lia. rewrite <- Hlog at 1. rewrite Z.bit_log2 by lia. done. }
    rewrite H, Z.bits_0 in Hb. done.
  - intros ->. apply land_pred_pow2, Z.log2_nonneg.
Qed.

(** Joining a shifted value and low bits. *)
Lemma lor_shift h l n : 0 <= n -> 0 <= h -> 0 <= l < 2 ^ n -> Z.lor (Z.shiftl h n) l = h * 2 ^ n + l.
Proof.
  intros Hn Hh Hl. rewrite Z.shiftl_mul_pow2 by done. rewrite <- Z.add_lor_land.
  assert (Z.land (h * 2 ^ n) l = 0) as ->; [|lia].
  apply Z.bits_inj'. intros i Hi. rewrite Z.land_spec, Z.bits_0. destruct (Z.lt_ge_cases i n) as [Hlt|Hge].
  - rewrite Z.mul_pow2_bits_low by done. done.
  - rewrite andb_comm. destruct (Z.eq_dec l 0) as [->|Hnz]; [by rewrite Z.bits_0|].
    rewrite Z.bits_above_log2; [done|lia|]. assert (Z.log2 l < n) by (apply Z.log2_lt_pow2; lia). lia.
Qed.

Lemma i64_id x : - 2 ^ 63 <= x < 2 ^ 63 -> i64 x = x.
Proof. intros. apply swrap_id; [lia|exact H]. Qed.

(** ** The mapping as arithmetic *)
Section Interleave.
Context (shift width : Z) (Hs : 0 <= shift) (Hw : 0 <= width) (Hsw : shift + width < 63) (Hw30 : width <= 30).

(** Channel and address within the channel. *)
Definition channel_of (a : Z) : Z := (a / 2 ^ shift) mod 2 ^ width.
Definition within_of (a : Z) : Z := a / 2 ^ (shift + width) * 2 ^ shift + a mod 2 ^ shift.
(** The address they stand for. *)
Definition address_of (ch i : Z) : Z := (i / 2 ^ shift * 2 ^ width + ch) * 2 ^ shift + i mod 2 ^ shift.

Lemma pow_pos n : 0 <= n -> 0 < 2 ^ n.
Proof. intros. apply Z.pow_pos_nonneg; lia. Qed.

Lemma within_quot a : 0 <= a -> within_of a / 2 ^ shift = a / 2 ^ (shift + width) /\ within_of a mod 2 ^ shift = a mod 2 ^ shift.
Proof.
  intros Ha. pose proof (pow_pos shift Hs). unfold within_of. pose proof (Z.mod_pos_bound a (2 ^ shift) ltac:(lia)). split.
  - rewrite Z.div_add_l by lia. rewrite (Z.div_small (a mod _)) by lia. lia.
  - rewrite Z.add_comm, Z.mod_add by lia. by rewrite Z.mod_mod by lia.
Qed.

Lemma address_of_split a : 0 <= a -> address_of (channel_of a) (within_of a) = a.
Proof.
  intros Ha. destruct (within_quot a Ha) as [H1 H2]. unfold address_of, channel_of. rewrite H1, H2.
  pose proof (pow_pos shift Hs). pose proof (pow_pos width Hw). rewrite Z.pow_add_r, <- Z.div_div by lia.
  pose proof (Z.div_mod (a / 2 ^ shift) (2 ^ width) ltac:(lia)). pose proof (Z.div_mod a (2 ^ shift) ltac:(lia)).
  replace (a / 2 ^ shift / 2 ^ width * 2 ^ width + (a / 2 ^ shift) mod 2 ^ width) with (a / 2 ^ shift) by lia. lia.
Qed.

Lemma split_address_of ch i : 0 <= ch < 2 ^ width -> 0 <= i ->
  channel_of (address_of ch i) = ch /\ within_of (address_of ch i) = i.
Proof.
  intros Hch Hi. pose proof (pow_pos shift Hs). pose proof (pow_pos width Hw).
  pose proof (Z.mod_pos_bound i (2 ^ shift) ltac:(lia)).
  assert (Hq : address_of ch i / 2 ^ shift = i / 2 ^ shift * 2 ^ width + ch)
    by (unfold address_of; rewrite Z.div_add_l by lia; rewrite (Z.div_small (i mod _)) by lia; lia).
  assert (Hm : address_of ch i mod 2 ^ shift = i mod 2 ^ shift)
    by (unfold address_of; rewrite Z.add_comm, Z.mod_add by lia; apply Z.mod_mod; lia).
  unfold channel_of, within_of. rewrite Z.pow_add_r, <- Z.div_div, Hq, Hm by lia. split.
  - rewrite Z.add_comm, Z.mod_add by lia. by apply Z.mod_small.
  - rewrite Z.div_add_l by lia. rewrite (Z.div_small ch) by lia. pose proof (Z.div_mod i (2 ^ shift) ltac:(lia)). lia.
Qed.

Lemma within_bound a : 0 <= a < 2 ^ 63 -> 0 <= within_of a <= a.
Proof.
  intros Ha. pose proof (pow_pos shift Hs). pose proof (pow_pos width Hw). pose proof (Z.mod_pos_bound a (2 ^ shift) ltac:(lia)).
  unfold within_of. assert (0 <= a / 2 ^ (shift + width)) by (apply Z.div_pos; [lia|apply pow_pos; lia]). split; [nia|].
  rewrite Z.pow_add_r, <- Z.div_div by lia. pose proof (Z.div_mod a (2 ^ shift) ltac:(lia)).
  assert (a / 2 ^ shift / 2 ^ width <= a / 2 ^ shift).
  { apply Z.div_le_upper_bound; [lia|]. assert (0 <= a / 2 ^ shift) by (apply Z.div_pos; lia). nia. }
  nia.
Qed.

Lemma interleave_apply_spec ib req :
  1 <= width -> 0 <= addr req < 2 ^ 63 ->
  exists av, CacheLineInterleave_apply (mkCLI ib (2 ^ width) shift width) req =
               Ok (set_intra (set_addr_vec req av) (within_of (addr req))) /\
    vget av 0 = Ok (channel_of (addr req)) /\ length av = Nat.max 1 (length (addr_vec req)).
Proof.
  intros Hw1 Ha. pose proof (within_bound (addr req) Ha) as Hwb.
  assert (Hav : exists x l, (if bool_decide (addr_vec req = []) then [-1] else addr_vec req) = x :: l /\
            length (x :: l) = Nat.max 1 (length (addr_vec req))).
  { destruct (addr_vec req) as [|x l]; [by exists (-1), []|]. by exists x, l. }
  destruct Hav as (x & l & Hav & Hlen).
  assert (Hnc : (2 ^ width <=? 1) = false) by (apply Z.leb_gt; apply (Z.pow_gt_1 2 width); lia).
  assert (Hlm : low_mask width = Ok (Z.ones width)).
  { unfold low_mask. destruct (Z.leb_spec 0 width), (Z.ltb_spec width 31); try lia. cbn [andb]. by rewrite Z.ones_equiv, Z.shiftl_1_l. }
  assert (Hl64 : low_mask64 shift = Ok (Z.ones shift)).
  { unfold low_mask64. destruct (Z.leb_spec 0 shift), (Z.ltb_spec shift 63); try lia. cbn [andb]. by rewrite Z.ones_equiv, Z.shiftl_1_l. }
  assert (Hr : forall n, 0 <= n < 64 -> shr64 (addr req) n = Ok (addr req / 2 ^ n)).
  { intros n Hn. unfold shr64. destruct (Z.leb_spec 0 n), (Z.ltb_spec n 64); try lia. cbn [andb]. by rewrite Z.shiftr_div_pow2. }
  unfold CacheLineInterleave_apply. cbn [m_num_channels m_ch_shift m_ch_width]. rewrite Hav, Hnc.
  rewrite (Hr shift) by lia. cbn [mbind res_bind]. rewrite Hlm. cbn [mbind res_bind]. rewrite Z.land_ones by lia.
  unfold vset, zlookup. cbn [Z.ltb Z.compare Z.to_nat lookup list_lookup]. cbn [mbind res_bind]. rewrite Hl64. cbn [mbind res_bind].
  rewrite (Hr (shift + width)) by lia. cbn [mbind res_bind]. unfold shl64.
  destruct (Z.leb_spec 0 shift), (Z.ltb_spec shift 64); try lia. cbn [andb mbind res_bind]. rewrite Z.land_ones by lia.
  assert (0 <= addr req / 2 ^ (shift + width)) by (apply Z.div_pos; [lia|apply pow_pos; lia]).
  pose proof (Z.mod_pos_bound (addr req) (2 ^ shift) ltac:(apply pow_pos; lia)).
  rewrite i64_id by (rewrite Z.shiftl_mul_pow2 by lia; unfold within_of in Hwb; nia).
  rewrite lor_shift by lia. eexists. split; [done|]. split; [done|]. rewrite <- Hlen. done.
Qed.
End Interleave.

(** The mapping that [setup] prepares is a bijection. *)
Lemma setup_apply m0 num_channels tx_offset m :
  1 <= num_channels < 2 ^ 31 -> 0 <= tx_offset + m_interleave_bits m0 < 32 ->
  CacheLineInterleave_setup m0 num_channels tx_offset = Ok m ->
  let w := Z.log2 num_channels in let sh := tx_offset + m_interleave_bits m0 in
  (forall req, 0 <= addr req < 2 ^ 63 ->
     exists av i, CacheLineInterleave_apply m req = Ok (set_intra (set_addr_vec req av) i) /\
       exists ch, vget av 0 = Ok ch /\ 0 <= ch < num_channels /\ 0 <= i <= addr req /\ address_of sh w ch i = addr req) /\
  (forall req ch i, 0 <= ch < num_channels -> 0 <= i -> address_of sh w ch i < 2 ^ 63 -> addr req = address_of sh w ch i ->
     exists av, CacheLineInterleave_apply m req = Ok (set_intra (set_addr_vec req av) i) /\ vget av 0 = Ok ch).
Proof.
  intros Hn Hsh Hset w sh. unfold CacheLineInterleave_setup in Hset.
  destruct ((1 <? num_channels) && negb (Z.land num_channels (num_channels - 1) =? 0)) eqn:Et; [discriminate|].
  rewrite calc_log2_ok in Hset by lia. cbn [mbind res_bind] in Hset. injection Hset as <-. fold w sh.
  assert (Hpow : num_channels = 2 ^ w).
  { apply pow2_test; [lia|]. destruct (Z.ltb_spec 1 num_channels); [|replace num_channels with 1 by lia; done].
    cbn in Et. by apply negb_false_iff, Z.eqb_eq in Et. }
  assert (Hw : 0 <= w <= 30) by (split; [apply Z.log2_nonneg|]; assert (w < 31) by (apply Z.log2_lt_pow2; lia); lia).
  assert (Happ : forall req, 0 <= addr req < 2 ^ 63 -> exists av,
    CacheLineInterleave_apply (mkCLI (m_interleave_bits m0) num_channels sh w) req =
      Ok (set_intra (set_addr_vec req av) (within_of sh w (addr req))) /\ vget av 0 = Ok (channel_of sh w (addr req))).
  { intros req Ha. destruct (Z.eq_dec w 0) as [Ew|Hne].
    - rewrite Ew in Hpow. subst num_channels. unfold CacheLineInterleave_apply. cbn [m_num_channels Z.leb Z.compare].
      replace (within_of sh w (addr req)) with (addr req); [|].
      + destruct (addr_vec req) as [|x l]; cbn; eexists; (split; [done|]); unfold channel_of; rewrite Ew; cbn; by rewrite Z.mod_1_r.
      + rewrite Ew. unfold within_of. rewrite Z.add_0_r, (Z.mul_comm (addr req / _)). apply Z.div_mod. pose proof (pow_pos sh ltac:(lia)). lia.
    - destruct (interleave_apply_spec sh w ltac:(lia) ltac:(lia) ltac:(lia) ltac:(lia) (m_interleave_bits m0) req) as (av & Hav & Hv & _);
        [lia|done|]. rewrite <- Hpow in Hav. eauto. }
  split.
  - intros req Ha. destruct (Happ req Ha) as (av & Hav & Hv). exists av, (within_of sh w (addr req)). split; [done|].
    exists (channel_of sh w (addr req)). split; [done|]. rewrite Hpow at 1. split; [apply Z.mod_pos_bound, pow_pos; lia|].
    split; [apply within_bound; lia|apply address_of_split; lia].
  - intros req ch i Hch Hi Hlt Ha. rewrite Hpow in Hch.
    destruct (split_address_of sh w ltac:(lia) ltac:(lia) ch i Hch Hi) as [Hc Hw'].
    assert (0 <= address_of sh w ch i).
    { unfold address_of. pose proof (pow_pos sh ltac:(lia)). pose proof (pow_pos w ltac:(lia)).
      pose proof (Z.mod_pos_bound i (2 ^ sh) ltac:(lia)). assert (0 <= i / 2 ^ sh) by (apply Z.div_pos; lia). nia. }
    destruct (Happ req ltac:(lia)) as (av & Hav & Hv). exists av. rewrite Ha, Hw' in Hav. rewrite Ha, Hc in Hv. done.
Qed.

(** ** Properties *)

(** C28: CacheLineInterleave is a bijection between addresses and (channel, address
    within the channel): the address is recovered from the pair, the channel is in
    range, and every pair is the image of the address it stands for. *)
Theorem interleave_bijective m0 num_channels tx_offset m :
  1 <= num_channels < 2 ^ 31 -> 0 <= tx_offset + m_interleave_bits m0 < 32 ->
  CacheLineInterleave_setup m0 num_channels tx_offset = Ok m ->
  let w := Z.log2 num_channels in let sh := tx_offset + m_interleave_bits m0 in
  (forall req, 0 <= addr req < 2 ^ 63 ->
     exists av i, CacheLineInterleave_apply m req = Ok (set_intra (set_addr_vec req av) i) /\
       exists ch, vget av 0 = Ok ch /\ 0 <= ch < num_channels /\ 0 <= i <= addr req /\ address_of sh w ch i = addr req) /\
  (forall req ch i, 0 <= ch < num_channels -> 0 <= i -> address_of sh w ch i < 2 ^ 63 -> addr req = address_of sh w ch i ->
     exists av, CacheLineInterleave_apply m req = Ok (set_intra (set_addr_vec req av) i) /\ vget av 0 = Ok ch).
Proof. apply setup_apply. Qed.

Lemma interleave_bijective_witness :
  exists av i, CacheLineInterleave_apply (mkCLI 0 4 6 2) (Request_addr 1000 0) =
      Ok (set_intra (set_addr_vec (Request_addr 1000 0) av) i) /\
    exists ch, vget av 0 = Ok ch /\ 0 <= ch < 4 /\ 0 <= i <= 1000 /\ address_of 6 2 ch i = 1000.
Proof.
  destruct (interleave_bijective (CacheLineInterleave_init None) 4 6 (mkCLI 0 4 6 2)) as [H _]; [lia|cbn; lia|reflexivity|].
  destruct (H (Request_addr 1000 0)) as (av & i & Ha & Hr); [cbn; lia|]. exists av, i. split; [exact Ha|exact Hr].
Defined.

(** CacheLineInterleave::setup throws exactly for the channel counts that are not
    powers of two: its bit test is exact. *)
Theorem interleave_rejects_non_powers m num_channels tx_offset :
  1 <= num_channels < 2 ^ 31 ->
  (CacheLineInterleave_setup m num_channels tx_offset =
     Err (Throw "CacheLineInterleave requires a power-of-two channel count") <-> num_channels <> 2 ^ Z.log2 num_channels) /\
  (is_Ok (CacheLineInterleave_setup m num_channels tx_offset) <-> num_channels = 2 ^ Z.log2 num_channels).
Proof.
  intros Hn. unfold CacheLineInterleave_setup. rewrite calc_log2_ok by lia. cbn [mbind res_bind].
  pose proof (pow2_test num_channels ltac:(lia)) as Ht.
  destruct (Z.ltb_spec 1 num_channels) as [H1|H1]; cbn [andb].
  - destruct (Z.eqb_spec (Z.land num_channels (num_channels - 1)) 0) as [E|E]; cbn [negb].
    + apply Ht in E. split; split; try done. intros _. by eexists.
    + assert (num_channels <> 2 ^ Z.log2 num_channels) by (intros Hp; by apply E, Ht). split; split; try done. by intros [? ?].
  - replace num_channels with 1 by lia. split; split; try done. by eexists.
Qed.

Lemma interleave_rejects_non_powers_witness :
  CacheLineInterleave_setup (CacheLineInterleave_init None) 3 6 =
    Err (Throw "CacheLineInterleave requires a power-of-two channel count").
Proof. apply (proj1 (interleave_rejects_non_powers (CacheLineInterleave_init None) 3 6 ltac:(lia))). vm_compute. discriminate. Defined.
