(* ===== verification/Float32.v ===== *)
(** * Float32: the single-precision arithmetic of the watermarks

    [controller_base.cpp] compares a buffer size with a product of a [float]
    watermark and a size.  A finite [float] is a dyadic number; results are
    rounded to 24 significant bits, to nearest, ties to even.  Overflow and
    subnormal numbers do not arise for the values involved. *)
From stdpp Require Import prelude.
Open Scope Z_scope.

Record f32 := mkF { mant : Z; expo : Z }.

(** Rounding of the number [m * 2 ^ e]. *)
Definition round24 (m e : Z) : f32 :=
  let k := Z.log2 (Z.abs m) - 23 in
  if k <=? 0 then mkF m e
  else
    let a := Z.abs m in
    let q := a / 2 ^ k in
    let r := a mod 2 ^ k in
    let half := 2 ^ (k - 1) in
    let q' := if (half <? r) || ((r =? half) && Z.odd q) then q + 1 else q in
    mkF (Z.sgn m * q') (e + k).

Definition f32_of_Z (n : Z) : f32 := round24 n 0.
Definition fmul (x y : f32) : f32 := round24 (mant x * mant y) (expo x + expo y).

Definition flt (x y : f32) : bool :=
  let e := Z.min (expo x) (expo y) in
  mant x * 2 ^ (expo x - e) <? mant y * 2 ^ (expo y - e).

(** The literals [0.2f] and [0.8f]. *)
Definition f32_0_2 : f32 := mkF 13421773 (-26).
Definition f32_0_8 : f32 := mkF 13421773 (-24).

Definition fadd (x y : f32) : f32 :=
  let e := Z.min (expo x) (expo y) in
  round24 (mant x * 2 ^ (expo x - e) + mant y * 2 ^ (expo y - e)) e.

(** The quotient is computed with more than 24 bits and a sticky bit, so that
    rounding it rounds the exact quotient.  The divisor is not zero. *)
Definition fdiv (x y : f32) : f32 :=
  let k := 27 + Z.log2 (Z.abs (mant y)) in
  let n := Z.abs (mant x) * 2 ^ k in
  let d := Z.abs (mant y) in
  let sticky := if n mod d =? 0 then 0 else 1 in
  round24 (Z.sgn (mant x) * Z.sgn (mant y) * (2 * (n / d) + sticky)) (expo x - expo y - k - 1).

Definition f32_0 : f32 := mkF 0 0.
Definition f32_1000 : f32 := mkF 1000 0.
Definition f32_1e6 : f32 := mkF 1000000 0.
