(* ===== verification/ControllerState.v ===== *)
(** * ControllerState: the state of a memory controller

    The members of [ControllerBase] (controller_base.h), with the state of the
    sub-components it owns: the address mapper, the refresh manager, the row
    policy and the plugins.  A sub-component is reached through an interface
    pointer in the code; here the implementations of an interface are the
    constructors of a type.

    Two members do not exist in the code: [c_done] lists the requests whose
    callback was called, in order, and [c_log] the commands issued to the
    device, with their addresses and cycles. *)
From stdpp Require Import prelude gmap strings.
From S2P Require Import Prelude DramSpec Standards Node NodeTiming NodeTree Device Request BitUtils AddrMapper Float32.
Open Scope Z_scope.

(** ** Sub-components *)
Inductive mapper_impl := MapChRaBaRoCo | MapRoBaRaCoCh | MapMOP4CLXOR | MapPassThrough.

Record AddrMapper := mkAddrMapper { am_impl : mapper_impl; am_base : AddrMapperBase }.

Definition mapper_apply (a : AddrMapper) (req : Request) : res Request :=
  match am_impl a with
  | MapChRaBaRoCo => ChRaBaRoCo_apply (am_base a) req
  | MapRoBaRaCoCh => RoBaRaCoCh_apply (am_base a) req
  | MapMOP4CLXOR => MOP4CLXOR_apply (am_base a) req
  | MapPassThrough => PassThroughAddrMapper_apply (am_base a) req
  end.

(** A pointer to a node is its path from the root. *)
Record AllBankRefresh := mkAB {
  ab_next_refresh_cycle : Z;
  ab_cmd_refab : Z;
  ab_ref_level : Z;
  ab_nrefi : Z;
  ab_ref_nodes : list (list nat)
}.

Record PerBankRefresh := mkPB {
  pb_next_refresh_cycle : Z;
  pb_cmd_refpb : Z;
  pb_bank_level : Z;
  pb_nrefipb : Z;
  pb_bank_nodes : list (list nat);
  pb_next_bank_idx : Z
}.

Record BankRef := mkBR { br_node : option (list nat); br_pc : Z; br_sid : Z; br_flat_bank : Z }.

Record RefpbSetState := mkSet {
  banks_by_flat : list BankRef;
  refreshed : list bool;
  next_set_allowed_clk : Z
}.

Record HBM34PerBankRefresh := mkH34 {
  h_cmd_refpb : Z;
  h_level_pc : Z;
  h_level_sid : Z;
  h_level_bg : Z;
  h_level_bank : Z;
  h_bank_level : Z;
  h_pc_count : Z;
  h_sid_count : Z;
  h_bank_groups : Z;
  h_banks_per_group : Z;
  h_banks_per_sid : Z;
  h_nrefipb : Z;
  h_nrfc_pb : Z;
  h_next_sid : Z;
  h_next_flat_bank : Z;
  h_next_refresh_clk : Z;
  h_sets : list (list RefpbSetState);
  h_pending_refpbs : list BankRef
}.

Inductive RefreshManager :=
| NoRefresh
| AllBank (r : AllBankRefresh)
| PerBank (r : PerBankRefresh)
| HBM34PerBank (r : HBM34PerBankRefresh).

Record ClosedCAP := mkCAP {
  m_cap : Z;
  m_cmd_prepb : Z;
  m_cmd_rd : Z;
  m_cmd_wr : Z;
  m_cmd_rda : Z;
  m_cmd_wra : Z;
  m_has_ap : bool;
  m_col_accesses : list Z;
  m_prepb_injected : list bool
}.

Inductive RowPolicy := OpenRowPolicy | ClosedCAPRowPolicy (p : ClosedCAP).

Record IssuedCommandRecord := mkRec {
  rec_clk : Z;
  rec_command : Z;
  rec_final_command : Z;
  rec_addr_vec : AddrVec_t;
  rec_type_id : Z;
  rec_source_id : Z
}.

Inductive Plugin :=
| CommandCounter (m_counters : gmap Z Z)
| IssuedCommandValidationHook (m_issued_commands_this_tick : list IssuedCommandRecord)
| CmdTraceRecorder (m_binary : bool) (m_level_count : Z) (m_file : str).

(** ** Statistics *)
Inductive stat :=
| s_measured_clk
| s_row_hits | s_row_misses | s_row_conflicts
| s_read_row_hits | s_read_row_misses | s_read_row_conflicts
| s_write_row_hits | s_write_row_misses | s_write_row_conflicts
| s_num_read_reqs | s_num_write_reqs | s_num_maintenance_reqs
| s_num_read_reqs_served | s_num_write_reqs_served | s_num_maintenance_reqs_served
| s_num_read_reqs_forwarded | s_num_write_reqs_coalesced
| s_queue_len | s_read_queue_len | s_write_queue_len | s_priority_queue_len
| s_read_latency.

#[export] Instance stat_eq_dec : EqDecision stat.
Proof. solve_decision. Defined.

Definition counters := stat -> Z.
Definition zero_counters : counters := fun _ => 0.
Definition bump (k : stat) (n : Z) (st : counters) : counters :=
  fun x => if decide (x = k) then st x + n else st x.
Arguments bump : simpl never.

(** ** The controller *)
Record ControllerBase := mkCtrl {
  c_device : DRAMDevice;
  c_mapper : AddrMapper;
  c_channel_id : Z;
  c_clk : Z;
  c_refresh : RefreshManager;
  c_rowpolicy : RowPolicy;
  c_plugins : list Plugin;
  c_pending : list Request;
  c_active_buffer : ReqBuffer;
  c_priority_buffer : ReqBuffer;
  c_read_buffer : ReqBuffer;
  c_write_buffer : ReqBuffer;
  c_buffered_write_addrs : gset Z;
  c_wr_low_watermark : f32;
  c_wr_high_watermark : f32;
  c_is_write_mode : bool;
  c_bank_level : Z;
  c_tCK_ps : Z;
  c_active_per_bank : list Z;
  c_stats : counters;
  c_read_hits_core : list Z;
  c_read_misses_core : list Z;
  c_read_conflicts_core : list Z;
  c_done : list Request;
  c_log : list issued
}.

Definition with_c_device (r : ControllerBase) (v : DRAMDevice) : ControllerBase :=
  mkCtrl v (c_mapper r) (c_channel_id r) (c_clk r) (c_refresh r) (c_rowpolicy r) (c_plugins r)
    (c_pending r) (c_active_buffer r) (c_priority_buffer r) (c_read_buffer r) (c_write_buffer r)
    (c_buffered_write_addrs r) (c_wr_low_watermark r) (c_wr_high_watermark r)
    (c_is_write_mode r) (c_bank_level r) (c_tCK_ps r) (c_active_per_bank r) (c_stats r)
    (c_read_hits_core r) (c_read_misses_core r) (c_read_conflicts_core r) (c_done r) (c_log r).
Definition with_c_mapper (r : ControllerBase) (v : AddrMapper) : ControllerBase :=
  mkCtrl (c_device r) v (c_channel_id r) (c_clk r) (c_refresh r) (c_rowpolicy r) (c_plugins r)
    (c_pending r) (c_active_buffer r) (c_priority_buffer r) (c_read_buffer r) (c_write_buffer r)
    (c_buffered_write_addrs r) (c_wr_low_watermark r) (c_wr_high_watermark r)
    (c_is_write_mode r) (c_bank_level r) (c_tCK_ps r) (c_active_per_bank r) (c_stats r)
    (c_read_hits_core r) (c_read_misses_core r) (c_read_conflicts_core r) (c_done r) (c_log r).
Definition with_c_channel_id (r : ControllerBase) (v : Z) : ControllerBase :=
  mkCtrl (c_device r) (c_mapper r) v (c_clk r) (c_refresh r) (c_rowpolicy r) (c_plugins r)
    (c_pending r) (c_active_buffer r) (c_priority_buffer r) (c_read_buffer r) (c_write_buffer r)
    (c_buffered_write_addrs r) (c_wr_low_watermark r) (c_wr_high_watermark r)
    (c_is_write_mode r) (c_bank_level r) (c_tCK_ps r) (c_active_per_bank r) (c_stats r)
    (c_read_hits_core r) (c_read_misses_core r) (c_read_conflicts_core r) (c_done r) (c_log r).
Definition with_c_clk (r : ControllerBase) (v : Z) : ControllerBase :=
  mkCtrl (c_device r) (c_mapper r) (c_channel_id r) v (c_refresh r) (c_rowpolicy r)
    (c_plugins r) (c_pending r) (c_active_buffer r) (c_priority_buffer r) (c_read_buffer r)
    (c_write_buffer r) (c_buffered_write_addrs r) (c_wr_low_watermark r) (c_wr_high_watermark r)
    (c_is_write_mode r) (c_bank_level r) (c_tCK_ps r) (c_active_per_bank r) (c_stats r)
    (c_read_hits_core r) (c_read_misses_core r) (c_read_conflicts_core r) (c_done r) (c_log r).
Definition with_c_refresh (r : ControllerBase) (v : RefreshManager) : ControllerBase :=
  mkCtrl (c_device r) (c_mapper r) (c_channel_id r) (c_clk r) v (c_rowpolicy r) (c_plugins r)
    (c_pending r) (c_active_buffer r) (c_priority_buffer r) (c_read_buffer r) (c_write_buffer r)
    (c_buffered_write_addrs r) (c_wr_low_watermark r) (c_wr_high_watermark r)
    (c_is_write_mode r) (c_bank_level r) (c_tCK_ps r) (c_active_per_bank r) (c_stats r)
    (c_read_hits_core r) (c_read_misses_core r) (c_read_conflicts_core r) (c_done r) (c_log r).
Definition with_c_rowpolicy (r : ControllerBase) (v : RowPolicy) : ControllerBase :=
  mkCtrl (c_device r) (c_mapper r) (c_channel_id r) (c_clk r) (c_refresh r) v (c_plugins r)
    (c_pending r) (c_active_buffer r) (c_priority_buffer r) (c_read_buffer r) (c_write_buffer r)
    (c_buffered_write_addrs r) (c_wr_low_watermark r) (c_wr_high_watermark r)
    (c_is_write_mode r) (c_bank_level r) (c_tCK_ps r) (c_active_per_bank r) (c_stats r)
    (c_read_hits_core r) (c_read_misses_core r) (c_read_conflicts_core r) (c_done r) (c_log r).
Definition with_c_plugins (r : ControllerBase) (v : list Plugin) : ControllerBase :=
  mkCtrl (c_device r) (c_mapper r) (c_channel_id r) (c_clk r) (c_refresh r) (c_rowpolicy r) v
    (c_pending r) (c_active_buffer r) (c_priority_buffer r) (c_read_buffer r) (c_write_buffer r)
    (c_buffered_write_addrs r) (c_wr_low_watermark r) (c_wr_high_watermark r)
    (c_is_write_mode r) (c_bank_level r) (c_tCK_ps r) (c_active_per_bank r) (c_stats r)
    (c_read_hits_core r) (c_read_misses_core r) (c_read_conflicts_core r) (c_done r) (c_log r).
Definition with_c_pending (r : ControllerBase) (v : list Request) : ControllerBase :=
  mkCtrl (c_device r) (c_mapper r) (c_channel_id r) (c_clk r) (c_refresh r) (c_rowpolicy r)
    (c_plugins r) v (c_active_buffer r) (c_priority_buffer r) (c_read_buffer r)
    (c_write_buffer r) (c_buffered_write_addrs r) (c_wr_low_watermark r) (c_wr_high_watermark r)
    (c_is_write_mode r) (c_bank_level r) (c_tCK_ps r) (c_active_per_bank r) (c_stats r)
    (c_read_hits_core r) (c_read_misses_core r) (c_read_conflicts_core r) (c_done r) (c_log r).
Definition with_c_active_buffer (r : ControllerBase) (v : ReqBuffer) : ControllerBase :=
  mkCtrl (c_device r) (c_mapper r) (c_channel_id r) (c_clk r) (c_refresh r) (c_rowpolicy r)
    (c_plugins r) (c_pending r) v (c_priority_buffer r) (c_read_buffer r) (c_write_buffer r)
    (c_buffered_write_addrs r) (c_wr_low_watermark r) (c_wr_high_watermark r)
    (c_is_write_mode r) (c_bank_level r) (c_tCK_ps r) (c_active_per_bank r) (c_stats r)
    (c_read_hits_core r) (c_read_misses_core r) (c_read_conflicts_core r) (c_done r) (c_log r).
Definition with_c_priority_buffer (r : ControllerBase) (v : ReqBuffer) : ControllerBase :=
  mkCtrl (c_device r) (c_mapper r) (c_channel_id r) (c_clk r) (c_refresh r) (c_rowpolicy r)
    (c_plugins r) (c_pending r) (c_active_buffer r) v (c_read_buffer r) (c_write_buffer r)
    (c_buffered_write_addrs r) (c_wr_low_watermark r) (c_wr_high_watermark r)
    (c_is_write_mode r) (c_bank_level r) (c_tCK_ps r) (c_active_per_bank r) (c_stats r)
    (c_read_hits_core r) (c_read_misses_core r) (c_read_conflicts_core r) (c_done r) (c_log r).
Definition with_c_read_buffer (r : ControllerBase) (v : ReqBuffer) : ControllerBase :=
  mkCtrl (c_device r) (c_mapper r) (c_channel_id r) (c_clk r) (c_refresh r) (c_rowpolicy r)
    (c_plugins r) (c_pending r) (c_active_buffer r) (c_priority_buffer r) v (c_write_buffer r)
    (c_buffered_write_addrs r) (c_wr_low_watermark r) (c_wr_high_watermark r)
    (c_is_write_mode r) (c_bank_level r) (c_tCK_ps r) (c_active_per_bank r) (c_stats r)
    (c_read_hits_core r) (c_read_misses_core r) (c_read_conflicts_core r) (c_done r) (c_log r).
Definition with_c_write_buffer (r : ControllerBase) (v : ReqBuffer) : ControllerBase :=
  mkCtrl (c_device r) (c_mapper r) (c_channel_id r) (c_clk r) (c_refresh r) (c_rowpolicy r)
    (c_plugins r) (c_pending r) (c_active_buffer r) (c_priority_buffer r) (c_read_buffer r) v
    (c_buffered_write_addrs r) (c_wr_low_watermark r) (c_wr_high_watermark r)
    (c_is_write_mode r) (c_bank_level r) (c_tCK_ps r) (c_active_per_bank r) (c_stats r)
    (c_read_hits_core r) (c_read_misses_core r) (c_read_conflicts_core r) (c_done r) (c_log r).
Definition with_c_buffered_write_addrs (r : ControllerBase) (v : gset Z) : ControllerBase :=
  mkCtrl (c_device r) (c_mapper r) (c_channel_id r) (c_clk r) (c_refresh r) (c_rowpolicy r)
    (c_plugins r) (c_pending r) (c_active_buffer r) (c_priority_buffer r) (c_read_buffer r)
    (c_write_buffer r) v (c_wr_low_watermark r) (c_wr_high_watermark r) (c_is_write_mode r)
    (c_bank_level r) (c_tCK_ps r) (c_active_per_bank r) (c_stats r) (c_read_hits_core r)
    (c_read_misses_core r) (c_read_conflicts_core r) (c_done r) (c_log r).
Definition with_c_wr_low_watermark (r : ControllerBase) (v : f32) : ControllerBase :=
  mkCtrl (c_device r) (c_mapper r) (c_channel_id r) (c_clk r) (c_refresh r) (c_rowpolicy r)
    (c_plugins r) (c_pending r) (c_active_buffer r) (c_priority_buffer r) (c_read_buffer r)
    (c_write_buffer r) (c_buffered_write_addrs r) v (c_wr_high_watermark r) (c_is_write_mode r)
    (c_bank_level r) (c_tCK_ps r) (c_active_per_bank r) (c_stats r) (c_read_hits_core r)
    (c_read_misses_core r) (c_read_conflicts_core r) (c_done r) (c_log r).
Definition with_c_wr_high_watermark (r : ControllerBase) (v : f32) : ControllerBase :=
  mkCtrl (c_device r) (c_mapper r) (c_channel_id r) (c_clk r) (c_refresh r) (c_rowpolicy r)
    (c_plugins r) (c_pending r) (c_active_buffer r) (c_priority_buffer r) (c_read_buffer r)
    (c_write_buffer r) (c_buffered_write_addrs r) (c_wr_low_watermark r) v (c_is_write_mode r)
    (c_bank_level r) (c_tCK_ps r) (c_active_per_bank r) (c_stats r) (c_read_hits_core r)
    (c_read_misses_core r) (c_read_conflicts_core r) (c_done r) (c_log r).
Definition with_c_is_write_mode (r : ControllerBase) (v : bool) : ControllerBase :=
  mkCtrl (c_device r) (c_mapper r) (c_channel_id r) (c_clk r) (c_refresh r) (c_rowpolicy r)
    (c_plugins r) (c_pending r) (c_active_buffer r) (c_priority_buffer r) (c_read_buffer r)
    (c_write_buffer r) (c_buffered_write_addrs r) (c_wr_low_watermark r) (c_wr_high_watermark r)
    v (c_bank_level r) (c_tCK_ps r) (c_active_per_bank r) (c_stats r) (c_read_hits_core r)
    (c_read_misses_core r) (c_read_conflicts_core r) (c_done r) (c_log r).
Definition with_c_bank_level (r : ControllerBase) (v : Z) : ControllerBase :=
  mkCtrl (c_device r) (c_mapper r) (c_channel_id r) (c_clk r) (c_refresh r) (c_rowpolicy r)
    (c_plugins r) (c_pending r) (c_active_buffer r) (c_priority_buffer r) (c_read_buffer r)
    (c_write_buffer r) (c_buffered_write_addrs r) (c_wr_low_watermark r) (c_wr_high_watermark r)
    (c_is_write_mode r) v (c_tCK_ps r) (c_active_per_bank r) (c_stats r) (c_read_hits_core r)
    (c_read_misses_core r) (c_read_conflicts_core r) (c_done r) (c_log r).
Definition with_c_tCK_ps (r : ControllerBase) (v : Z) : ControllerBase :=
  mkCtrl (c_device r) (c_mapper r) (c_channel_id r) (c_clk r) (c_refresh r) (c_rowpolicy r)
    (c_plugins r) (c_pending r) (c_active_buffer r) (c_priority_buffer r) (c_read_buffer r)
    (c_write_buffer r) (c_buffered_write_addrs r) (c_wr_low_watermark r) (c_wr_high_watermark r)
    (c_is_write_mode r) (c_bank_level r) v (c_active_per_bank r) (c_stats r)
    (c_read_hits_core r) (c_read_misses_core r) (c_read_conflicts_core r) (c_done r) (c_log r).
Definition with_c_active_per_bank (r : ControllerBase) (v : list Z) : ControllerBase :=
  mkCtrl (c_device r) (c_mapper r) (c_channel_id r) (c_clk r) (c_refresh r) (c_rowpolicy r)
    (c_plugins r) (c_pending r) (c_active_buffer r) (c_priority_buffer r) (c_read_buffer r)
    (c_write_buffer r) (c_buffered_write_addrs r) (c_wr_low_watermark r) (c_wr_high_watermark r)
    (c_is_write_mode r) (c_bank_level r) (c_tCK_ps r) v (c_stats r) (c_read_hits_core r)
    (c_read_misses_core r) (c_read_conflicts_core r) (c_done r) (c_log r).
Definition with_c_stats (r : ControllerBase) (v : counters) : ControllerBase :=
  mkCtrl (c_device r) (c_mapper r) (c_channel_id r) (c_clk r) (c_refresh r) (c_rowpolicy r)
    (c_plugins r) (c_pending r) (c_active_buffer r) (c_priority_buffer r) (c_read_buffer r)
    (c_write_buffer r) (c_buffered_write_addrs r) (c_wr_low_watermark r) (c_wr_high_watermark r)
    (c_is_write_mode r) (c_bank_level r) (c_tCK_ps r) (c_active_per_bank r) v
    (c_read_hits_core r) (c_read_misses_core r) (c_read_conflicts_core r) (c_done r) (c_log r).
Definition with_c_read_hits_core (r : ControllerBase) (v : list Z) : ControllerBase :=
  mkCtrl (c_device r) (c_mapper r) (c_channel_id r) (c_clk r) (c_refresh r) (c_rowpolicy r)
    (c_plugins r) (c_pending r) (c_active_buffer r) (c_priority_buffer r) (c_read_buffer r)
    (c_write_buffer r) (c_buffered_write_addrs r) (c_wr_low_watermark r) (c_wr_high_watermark r)
    (c_is_write_mode r) (c_bank_level r) (c_tCK_ps r) (c_active_per_bank r) (c_stats r) v
    (c_read_misses_core r) (c_read_conflicts_core r) (c_done r) (c_log r).
Definition with_c_read_misses_core (r : ControllerBase) (v : list Z) : ControllerBase :=
  mkCtrl (c_device r) (c_mapper r) (c_channel_id r) (c_clk r) (c_refresh r) (c_rowpolicy r)
    (c_plugins r) (c_pending r) (c_active_buffer r) (c_priority_buffer r) (c_read_buffer r)
    (c_write_buffer r) (c_buffered_write_addrs r) (c_wr_low_watermark r) (c_wr_high_watermark r)
    (c_is_write_mode r) (c_bank_level r) (c_tCK_ps r) (c_active_per_bank r) (c_stats r)
    (c_read_hits_core r) v (c_read_conflicts_core r) (c_done r) (c_log r).
Definition with_c_read_conflicts_core (r : ControllerBase) (v : list Z) : ControllerBase :=
  mkCtrl (c_device r) (c_mapper r) (c_channel_id r) (c_clk r) (c_refresh r) (c_rowpolicy r)
    (c_plugins r) (c_pending r) (c_active_buffer r) (c_priority_buffer r) (c_read_buffer r)
    (c_write_buffer r) (c_buffered_write_addrs r) (c_wr_low_watermark r) (c_wr_high_watermark r)
    (c_is_write_mode r) (c_bank_level r) (c_tCK_ps r) (c_active_per_bank r) (c_stats r)
    (c_read_hits_core r) (c_read_misses_core r) v (c_done r) (c_log r).
Definition with_c_done (r : ControllerBase) (v : list Request) : ControllerBase :=
  mkCtrl (c_device r) (c_mapper r) (c_channel_id r) (c_clk r) (c_refresh r) (c_rowpolicy r)
    (c_plugins r) (c_pending r) (c_active_buffer r) (c_priority_buffer r) (c_read_buffer r)
    (c_write_buffer r) (c_buffered_write_addrs r) (c_wr_low_watermark r) (c_wr_high_watermark r)
    (c_is_write_mode r) (c_bank_level r) (c_tCK_ps r) (c_active_per_bank r) (c_stats r)
    (c_read_hits_core r) (c_read_misses_core r) (c_read_conflicts_core r) v (c_log r).
Definition with_c_log (r : ControllerBase) (v : list issued) : ControllerBase :=
  mkCtrl (c_device r) (c_mapper r) (c_channel_id r) (c_clk r) (c_refresh r) (c_rowpolicy r)
    (c_plugins r) (c_pending r) (c_active_buffer r) (c_priority_buffer r) (c_read_buffer r)
    (c_write_buffer r) (c_buffered_write_addrs r) (c_wr_low_watermark r) (c_wr_high_watermark r)
    (c_is_write_mode r) (c_bank_level r) (c_tCK_ps r) (c_active_per_bank r) (c_stats r)
    (c_read_hits_core r) (c_read_misses_core r) (c_read_conflicts_core r) (c_done r) v.

Definition count_stat (c : ControllerBase) (k : stat) (n : Z) : ControllerBase :=
  with_c_stats c (bump k n (c_stats c)).

(** The four buffers; the code compares their addresses. *)
Inductive buf_id := Bactive | Bpriority | Bread | Bwrite.

#[export] Instance buf_id_eq_dec : EqDecision buf_id.
Proof. solve_decision. Defined.

Definition get_buf (c : ControllerBase) (b : buf_id) : ReqBuffer :=
  match b with
  | Bactive => c_active_buffer c
  | Bpriority => c_priority_buffer c
  | Bread => c_read_buffer c
  | Bwrite => c_write_buffer c
  end.

Definition set_buf (c : ControllerBase) (b : buf_id) (v : ReqBuffer) : ControllerBase :=
  match b with
  | Bactive => with_c_active_buffer c v
  | Bpriority => with_c_priority_buffer c v
  | Bread => with_c_read_buffer c v
  | Bwrite => with_c_write_buffer c v
  end.
