(* ===== verification/Controller.v ===== *)
(** * Controller: what all memory controllers share

    Models [ramulator/controller/controller_base.cpp] and the FRFCFS
    scheduler (scheduler/impl/frfcfs.cpp), which is the only implementation
    of the scheduler interface.  A candidate is a buffer and a position in
    it.  A callback is recorded in [c_done]; the callbacks of the simulator
    do not touch the controller. *)
From stdpp Require Import prelude gmap strings.
From S2P Require Import Prelude DramSpec Standards Node NodeTiming NodeTree Device Request AddrMapper Float32 ControllerState.
Open Scope Z_scope.

Definition Candidate : Type := option (buf_id * nat).
Definition RequestFilter : Type := option (Request -> res bool).

(** ** Forwarding methods *)
Definition ctrl_set_channel_id (c : ControllerBase) (channel_id : Z) : ControllerBase :=
  with_c_device (with_c_channel_id c channel_id) (set_channel_id (c_device c) channel_id).

Definition ctrl_check_timing (c : ControllerBase) (command : Z) (av : AddrVec_t) : res bool :=
  dev_check_timing (c_device c) command av (c_clk c).

Definition ctrl_get_preq_command (c : ControllerBase) (command : Z) (av : AddrVec_t) : res Z :=
  get_preq_command (c_device c) command av (c_clk c).

Definition spec_of (c : ControllerBase) : DRAMSpec := m_spec (c_device c).

Definition ctrl_get_tx_bytes (c : ControllerBase) : Z := get_tx_bytes (spec_of c).
Definition ctrl_get_num_levels (c : ControllerBase) : Z := level_count (spec_of c).

(** Recording a called callback; a request without one calls nothing. *)
Definition call_back (c : ControllerBase) (r : Request) : ControllerBase :=
  match callback r with Some _ => with_c_done c (c_done c ++ [r]) | None => c end.

(** ** Accepting requests *)
Definition bool_count (c : ControllerBase) (a : Z) : bool := bool_decide (a ∈ c_buffered_write_addrs c).

(** The request is an in-out parameter: its new value is returned. *)
Definition ctrl_send (c : ControllerBase) (req0 : Request) : res (bool * Request * ControllerBase) :=
  req ← mapper_apply (c_mapper c) req0;
  av ← vset (addr_vec req) 0 (c_channel_id c);
  let req := set_addr_vec req av in
  fc ← vget (supported_requests (spec_of c)) (type_id req);
  let req := set_final_command req fc in
  if (type_id req =? Type_Read) && bool_count c (addr req) then
    let req := set_depart (set_arrive req (c_clk c)) (c_clk c + 1) in
    let c := with_c_pending c (c_pending c ++ [req]) in
    Ok (true, req, count_stat (count_stat c s_num_read_reqs 1) s_num_read_reqs_forwarded 1)
  else
    let req := set_arrive req (c_clk c) in
    if type_id req =? Type_Read then
      let '(is_success, b) := enqueue (c_read_buffer c) req in
      if is_success then Ok (true, req, count_stat (with_c_read_buffer c b) s_num_read_reqs 1)
      else Ok (false, set_arrive req (-1), with_c_read_buffer c b)
    else if type_id req =? Type_Write then
      if bool_count c (addr req) then
        let c := call_back c req in
        Ok (true, req, count_stat (count_stat c s_num_write_reqs 1) s_num_write_reqs_coalesced 1)
      else
        let '(is_success, b) := enqueue (c_write_buffer c) req in
        let c := with_c_write_buffer c b in
        if is_success then
          let c := with_c_buffered_write_addrs c ({[addr req]} ∪ c_buffered_write_addrs c) in
          Ok (true, req, count_stat c s_num_write_reqs 1)
        else Ok (false, set_arrive req (-1), c)
    else Err (Throw "ControllerBase only supports Read (0) and Write (1) request types").

Definition ctrl_priority_send (c : ControllerBase) (req : Request) : res (bool * ControllerBase) :=
  if (final_command req <? 0) || (command_count (spec_of c) <=? final_command req) then
    Err (Throw "Invalid priority request final_command")
  else
    let '(is_success, b) := enqueue (c_priority_buffer c) req in
    let c := with_c_priority_buffer c b in
    if is_success && (type_id req =? -1) then Ok (true, count_stat c s_num_maintenance_reqs 1)
    else Ok (is_success, c).

(** ** Tick preamble *)
Fixpoint drain (c : ControllerBase) (pending : list Request) : ControllerBase :=
  match pending with
  | [] => with_c_pending c []
  | r :: rest =>
      if c_clk c <? depart r then with_c_pending c (r :: rest)
      else drain (call_back (count_stat c s_read_latency (depart r - arrive r)) r) rest
  end.

Definition serve_completed_reads (c : ControllerBase) : ControllerBase := drain c (c_pending c).

Definition tick_prologue (c : ControllerBase) : ControllerBase :=
  let c := with_c_clk c (c_clk c + 1) in
  let c := count_stat c s_measured_clk 1 in
  let c := count_stat c s_queue_len
             (buf_size (c_read_buffer c) + buf_size (c_write_buffer c) + buf_size (c_priority_buffer c)) in
  let c := count_stat c s_read_queue_len (buf_size (c_read_buffer c)) in
  let c := count_stat c s_write_queue_len (buf_size (c_write_buffer c)) in
  let c := count_stat c s_priority_queue_len (buf_size (c_priority_buffer c)) in
  serve_completed_reads c.

(** ** Request lifecycle *)

(** [v[i] += n] *)
Definition vadd (l : list Z) (i n : Z) : res (list Z) := x ← vget l i; vset l i (x + n).

Definition active_add (c : ControllerBase) (av : AddrVec_t) (n : Z) : res ControllerBase :=
  i ← get_flat_bank_id (c_device c) av;
  l ← vadd (c_active_per_bank c) i n;
  Ok (with_c_active_per_bank c l).

Definition forget_write (c : ControllerBase) (b : buf_id) (r : Request) : ControllerBase :=
  if decide (b = Bwrite) then with_c_buffered_write_addrs c (c_buffered_write_addrs c ∖ {[addr r]}) else c.

(** The effect of retiring a request, before it leaves its buffer. *)
Definition complete (c : ControllerBase) (r : Request) : ControllerBase :=
  if type_id r =? Type_Read then
    let r := set_depart r (c_clk c + read_latency (spec_of c)) in
    count_stat (with_c_pending c (c_pending c ++ [r])) s_num_read_reqs_served 1
  else if type_id r =? Type_Write then count_stat (call_back c r) s_num_write_reqs_served 1
  else if type_id r =? -1 then count_stat c s_num_maintenance_reqs_served 1
  else c.

Definition request_at (c : ControllerBase) (b : buf_id) (i : nat) : res Request :=
  of_option UndefinedBehaviour (buffer (get_buf c b) !! i).

Definition retire_request (c : ControllerBase) (b : buf_id) (i : nat) : res ControllerBase :=
  r ← request_at c b i;
  c ← (if decide (b = Bactive) then active_add c (addr_vec r) (-1) else Ok c);
  let c := complete (forget_write c b r) r in
  Ok (set_buf c b (remove (get_buf c b) i)).

(** Moving a request into the active buffer, if there is room. *)
Definition promote (c : ControllerBase) (r : Request) : res (bool * ControllerBase) :=
  let '(ok, ab) := enqueue (c_active_buffer c) r in
  let c := with_c_active_buffer c ab in
  if ok then c ← active_add c (addr_vec r) 1; Ok (true, c) else Ok (false, c).

Definition promote_to_active (c : ControllerBase) (b : buf_id) (i : nat) : res ControllerBase :=
  r ← request_at c b i;
  p ← promote c r;
  if (p.1 : bool) then
    let c := forget_write p.2 b r in
    Ok (set_buf c b (remove (get_buf c b) i))
  else Ok p.2.

(** ** Scheduling helpers *)
Fixpoint scan_active (c : ControllerBase) (same_bank : bool) (av : AddrVec_t) (is_ : list Z) : res bool :=
  match is_ with
  | [] => Ok false
  | i :: is_ =>
      n ← vget (c_active_per_bank c) i;
      if n =? 0 then scan_active c same_bank av is_
      else
        skip ← (if same_bank then
                  node ← bank_node (c_device c) i;
                  a ← vget av (c_bank_level c);
                  Ok (negb (n_id node =? a))
                else Ok false);
        if (skip : bool) then scan_active c same_bank av is_
        else
          m ← bank_matches (c_device c) i av;
          if (m : bool) then Ok true else scan_active c same_bank av is_
  end.

Definition would_close_active (c : ControllerBase) (req : Request) : res bool :=
  meta ← vget (command_meta (spec_of c)) (command req);
  if negb (is_closing meta) then Ok false
  else if buf_size (c_active_buffer c) =? 0 then Ok false
  else
    target ← vget (bank_targets (spec_of c)) (command req);
    if decide (target = Single) then
      i ← get_flat_bank_id (c_device c) (addr_vec req);
      n ← vget (c_active_per_bank c) i;
      Ok (0 <? n)
    else
      scan_active c (bool_decide (target = SameBank)) (addr_vec req)
        (seqZ 0 (Z.of_nat (length (c_active_per_bank c)))).

Definition set_write_mode (c : ControllerBase) : ControllerBase :=
  let wsize := f32_of_Z (buf_size (c_write_buffer c)) in
  let wmax := f32_of_Z (max_size (c_write_buffer c)) in
  let no_reads := buf_size (c_read_buffer c) =? 0 in
  if negb (c_is_write_mode c) then
    if flt (fmul (c_wr_high_watermark c) wmax) wsize || no_reads then with_c_is_write_mode c true else c
  else
    if flt wsize (fmul (c_wr_low_watermark c) wmax) && negb no_reads then with_c_is_write_mode c false else c.

(** ** The FRFCFS scheduler

    The loop over the buffer: it derives the command of every request, and
    keeps the best eligible one with its cached readiness. *)
Definition run_filter (filter : RequestFilter) (r : Request) : res bool :=
  match filter with None => Ok true | Some f => f r end.

Record frfcfs := mkFr { fr_cand : option (nat * Request); fr_timing_ok : bool; fr_buffer : list Request }.

Definition frfcfs_step (c : ControllerBase) (filter : RequestFilter) (st : frfcfs) (it : nat) : res frfcfs :=
  r ← of_option UndefinedBehaviour (fr_buffer st !! it);
  cmd ← ctrl_get_preq_command c (final_command r) (addr_vec r);
  let r := set_command r cmd in
  let l := <[it := r]> (fr_buffer st) in
  ok ← run_filter filter r;
  if negb ok then Ok (mkFr (fr_cand st) (fr_timing_ok st) l)
  else
    it_timing_ok ← ctrl_check_timing c cmd (addr_vec r);
    match fr_cand st with
    | None => Ok (mkFr (Some (it, r)) it_timing_ok l)
    | Some (_, cand) =>
        if negb (Bool.eqb (fr_timing_ok st) it_timing_ok) then
          if (it_timing_ok : bool) then Ok (mkFr (Some (it, r)) true l)
          else Ok (mkFr (fr_cand st) (fr_timing_ok st) l)
        else if arrive r <? arrive cand then Ok (mkFr (Some (it, r)) (fr_timing_ok st) l)
        else Ok (mkFr (fr_cand st) (fr_timing_ok st) l)
    end.

Definition get_best_request (c : ControllerBase) (b : ReqBuffer) (filter : RequestFilter)
  : res (option nat * ReqBuffer) :=
  st ← foldM (frfcfs_step c filter) (seq 0 (length (buffer b))) (mkFr None false (buffer b));
  Ok (fst <$> fr_cand st, mkBuf (fr_buffer st) (max_size b)).

Definition pick_best_ready_from (c : ControllerBase) (b : buf_id) (filter : RequestFilter)
  : res (Candidate * ControllerBase) :=
  p ← get_best_request c (get_buf c b) filter;
  let c := set_buf c b p.2 in
  match p.1 with
  | None => Ok (None, c)
  | Some it =>
      r ← request_at c b it;
      ok ← ctrl_check_timing c (command r) (addr_vec r);
      if (ok : bool) then Ok (Some (b, it), c) else Ok (None, c)
  end.

Definition pick_priority_if (c : ControllerBase) (filter : RequestFilter) : res (Candidate * ControllerBase) :=
  match buffer (c_priority_buffer c) with
  | [] => Ok (None, c)
  | r :: _ =>
      cmd ← ctrl_get_preq_command c (final_command r) (addr_vec r);
      let r := set_command r cmd in
      let c := with_c_priority_buffer c (modify_at (c_priority_buffer c) 0 (fun r => set_command r cmd)) in
      ok ← ctrl_check_timing c cmd (addr_vec r);
      if negb ok then Ok (None, c)
      else
        closes ← would_close_active c r;
        if (closes : bool) then Ok (None, c)
        else
          f ← run_filter filter r;
          if negb f then Ok (None, c) else Ok (Some (Bpriority, 0%nat), c)
  end.

Definition pick_rw_if (c : ControllerBase) (filter : RequestFilter) : res (Candidate * ControllerBase) :=
  let c := set_write_mode c in
  let b := if c_is_write_mode c then Bwrite else Bread in
  pick_best_ready_from c b (Some (fun req =>
    closes ← would_close_active c req;
    if (closes : bool) then Ok false else run_filter filter req)).

(** ** Row-buffer statistics *)
Definition count_core (l : list Z) (source : Z) : res (list Z) :=
  if source =? -1 then Ok l else vadd l source 1.

(** Classifying one request; the request is already marked as counted. *)
Definition count_row_outcome (c : ControllerBase) (r : Request) : res ControllerBase :=
  if type_id r =? Type_Read then
    hit ← check_rowbuffer_hit (c_device c) (final_command r) (addr_vec r) (c_clk c);
    if (hit : bool) then
      let c := count_stat (count_stat c s_read_row_hits 1) s_row_hits 1 in
      l ← count_core (c_read_hits_core c) (source_id r);
      Ok (with_c_read_hits_core c l)
    else
      open ← check_node_open (c_device c) (final_command r) (addr_vec r) (c_clk c);
      if (open : bool) then
        let c := count_stat (count_stat c s_read_row_conflicts 1) s_row_conflicts 1 in
        l ← count_core (c_read_conflicts_core c) (source_id r);
        Ok (with_c_read_conflicts_core c l)
      else
        let c := count_stat (count_stat c s_read_row_misses 1) s_row_misses 1 in
        l ← count_core (c_read_misses_core c) (source_id r);
        Ok (with_c_read_misses_core c l)
  else if type_id r =? Type_Write then
    hit ← check_rowbuffer_hit (c_device c) (final_command r) (addr_vec r) (c_clk c);
    if (hit : bool) then Ok (count_stat (count_stat c s_write_row_hits 1) s_row_hits 1)
    else
      open ← check_node_open (c_device c) (final_command r) (addr_vec r) (c_clk c);
      if (open : bool) then Ok (count_stat (count_stat c s_write_row_conflicts 1) s_row_conflicts 1)
      else Ok (count_stat (count_stat c s_write_row_misses 1) s_row_misses 1)
  else Ok c.

Definition update_request_stats (c : ControllerBase) (b : buf_id) (i : nat) : res ControllerBase :=
  let c := set_buf c b (modify_at (get_buf c b) i (fun r => set_stat_updated r true)) in
  r ← request_at c b i;
  count_row_outcome c r.

(** Issuing a command to the device. *)
Definition issue (c : ControllerBase) (cmd : Z) (av : AddrVec_t) : res ControllerBase :=
  dev ← issue_command (c_device c) cmd av (c_clk c);
  Ok (with_c_log (with_c_device c dev) (c_log c ++ [mkIssued cmd av (c_clk c)])).

Definition ctrl_reset_stats (c : ControllerBase) : ControllerBase :=
  let c := with_c_stats c zero_counters in
  let c := with_c_read_hits_core c (map (fun _ => 0) (c_read_hits_core c)) in
  let c := with_c_read_misses_core c (map (fun _ => 0) (c_read_misses_core c)) in
  with_c_read_conflicts_core c (map (fun _ => 0) (c_read_conflicts_core c)).
