(* ===== verification/Scheduler.v ===== *)
(** * Scheduler: what FRFCFS chooses

    The scheduler makes one pass over a buffer, caching the readiness of its
    incumbent.  Here its answer is characterised: it is the oldest among the
    ready eligible requests, or the oldest eligible one when none is
    ready. *)
From stdpp Require Import prelude gmap strings.
From S2P Require Import Prelude DramSpec Standards Node NodeTiming NodeTree Device Request AddrMapper Float32 ControllerState Controller.
Open Scope Z_scope.

Section FRFCFS.
Context (c : ControllerBase) (filter : RequestFilter).

Definition eligible (r : Request) : Prop := run_filter filter r = Ok true.
Definition readiness (r : Request) : res bool := ctrl_check_timing c (command r) (addr_vec r).
Definition resolved (r : Request) : Prop := ctrl_get_preq_command c (final_command r) (addr_vec r) = Ok (command r).

(** [r] at position [i], of readiness [t], comes before [r'] at [j], of
    readiness [t']. *)
Definition precedes (i : nat) (r : Request) (t : bool) (j : nat) (r' : Request) (t' : bool) : Prop :=
  (t = true /\ t' = false) \/
  (t = t' /\ (arrive r < arrive r' \/ (arrive r = arrive r' /\ (i <= j)%nat))).

Lemma precedes_trans i r t j r' t' k r'' t'' :
  precedes i r t j r' t' -> precedes j r' t' k r'' t'' -> precedes i r t k r'' t''.
Proof.
  unfold precedes. intros [[-> ->]|[-> Ha]] [[E1 E2]|[E1 Hb]]; subst; try discriminate; [left; done|left; done|].
  right. split; [done|]. lia.
Qed.

(** The first [k] positions of [l] have been visited, with answer [o]. *)
Record visited (k : nat) (l0 l : list Request) (o : option (nat * Request)) (t : bool) : Prop := {
  vi_length : length l = length l0;
  vi_final : forall j r0 r, l0 !! j = Some r0 -> l !! j = Some r ->
    exists cmd, r = set_command r0 cmd;
  vi_resolved : forall j r, (j < k)%nat -> l !! j = Some r -> resolved r /\ is_Ok (run_filter filter r);
  vi_none : o = None -> forall j r, (j < k)%nat -> l !! j = Some r -> ~ eligible r;
  vi_some : forall i r, o = Some (i, r) -> (i < k)%nat /\ l !! i = Some r /\ eligible r /\ readiness r = Ok t /\
    forall j r', (j < k)%nat -> l !! j = Some r' -> eligible r' ->
      exists t', readiness r' = Ok t' /\ precedes i r t j r' t'
}.

Lemma visited_init l0 t : visited 0 l0 l0 None t.
Proof.
  split; try done; try lia. intros j r0 r H1 H2. assert (r = r0) as -> by congruence.
  exists (command r0). by destruct r0.
Qed.

Lemma set_command_twice r a b : set_command (set_command r a) b = set_command r b.
Proof. done. Qed.

(** One more position visited; [keep] says what happens to the answer. *)
Lemma visited_step k l0 l o t r cmd o' t' :
  visited k l0 l o t -> l !! k = Some r -> resolved (set_command r cmd) ->
  is_Ok (run_filter filter (set_command r cmd)) ->
  (o' = None -> o = None /\ ~ eligible (set_command r cmd)) ->
  (forall i x, o' = Some (i, x) ->
     (o = Some (i, x) /\ t' = t /\
       (eligible (set_command r cmd) -> exists t1, readiness (set_command r cmd) = Ok t1 /\
          precedes i x t k (set_command r cmd) t1)) \/
     (i = k /\ x = set_command r cmd /\ eligible x /\ readiness x = Ok t' /\
       forall i0 x0, o = Some (i0, x0) -> precedes k x t' i0 x0 t)) ->
  visited (S k) l0 (<[k := set_command r cmd]> l) o' t'.
Proof.
  intros V Hr Hres Hok Hnone Hsome. pose proof (lookup_lt_Some _ _ _ Hr) as Hlt.
  assert (Hk : <[k := set_command r cmd]> l !! k = Some (set_command r cmd)) by (by apply list_lookup_insert_eq).
  assert (Hj : forall j, (j < k)%nat -> <[k := set_command r cmd]> l !! j = l !! j)
    by (intros j Hj; apply list_lookup_insert_ne; lia).
  split.
  - rewrite length_insert. apply V.
  - intros j r0 x H0 Hx. destruct (decide (j = k)) as [->|Hne].
    + rewrite Hk in Hx. injection Hx as <-. destruct (vi_final _ _ _ _ _ V k r0 r H0 Hr) as (c1 & ->). by exists cmd.
    + rewrite list_lookup_insert_ne in Hx by done. by apply (vi_final _ _ _ _ _ V j).
  - intros j x Hjk Hx. destruct (decide (j = k)) as [->|Hne].
    + rewrite Hk in Hx. by injection Hx as <-.
    + rewrite Hj in Hx by lia. apply (vi_resolved _ _ _ _ _ V j); [lia|done].
  - intros Hn j x Hjk Hx. destruct (Hnone Hn) as [Ho Hne]. destruct (decide (j = k)) as [->|Hjne].
    + rewrite Hk in Hx. by injection Hx as <-.
    + rewrite Hj in Hx by lia. apply (vi_none _ _ _ _ _ V Ho j); [lia|done].
  - intros i x Ho'. destruct (Hsome i x Ho') as [(Ho & -> & Hnew)|(-> & -> & Hel & Hrd & Hold)].
    + destruct (vi_some _ _ _ _ _ V i x Ho) as (Hik & Hx & Hel & Hrd & Hall).
      split_and!; [lia|by rewrite Hj|done..|]. intros j y Hjk Hy Hey. destruct (decide (j = k)) as [->|Hne].
      * rewrite Hk in Hy. injection Hy as <-. by apply Hnew.
      * rewrite Hj in Hy by lia. apply (Hall j); [lia|done..].
    + split_and!; [lia|done..|]. intros j y Hjk Hy Hey. destruct (decide (j = k)) as [->|Hne].
      * rewrite Hk in Hy. injection Hy as <-. exists t'. split; [done|]. right. split; [done|lia].
      * rewrite Hj in Hy by lia. destruct o as [[i0 x0]|].
        -- destruct (vi_some _ _ _ _ _ V i0 x0 eq_refl) as (_ & _ & _ & _ & Hall).
           destruct (Hall j y ltac:(lia) Hy Hey) as (t1 & Ht1 & Hp). exists t1. split; [done|].
           eapply precedes_trans; [by apply Hold|done].
        -- destruct (vi_none _ _ _ _ _ V eq_refl j y ltac:(lia) Hy Hey).
Qed.

Lemma frfcfs_step_visited l0 st k st' :
  visited k l0 (fr_buffer st) (fr_cand st) (fr_timing_ok st) -> frfcfs_step c filter st k = Ok st' ->
  visited (S k) l0 (fr_buffer st') (fr_cand st') (fr_timing_ok st').
Proof.
  intros V. unfold frfcfs_step. intros (r & Hr & (cmd & Hc & H)%bind_Ok_inv)%bind_Ok_inv. cbn zeta in H.
  apply bind_Ok_inv in H as (ok & Hok & H).
  assert (Hr' : fr_buffer st !! k = Some r) by (destruct (fr_buffer st !! k); [by injection Hr as ->|discriminate]).
  assert (Hres : resolved (set_command r cmd)) by exact Hc.
  assert (Hf : is_Ok (run_filter filter (set_command r cmd))) by (by exists ok).
  destruct ok; cbn in H; cycle 1.
  { injection H as <-. cbn. apply (visited_step _ _ _ _ _ _ _ _ _ V Hr' Hres Hf).
    - intros ->. split; [done|]. unfold eligible. congruence.
    - intros i x Hx. left. split_and!; [done..|]. unfold eligible. congruence. }
  apply bind_Ok_inv in H as (t & Ht & H). destruct (fr_cand st) as [[i0 x0]|] eqn:Eo; cycle 1.
  { injection H as <-. cbn. apply (visited_step _ _ _ _ _ _ _ _ _ V Hr' Hres Hf); [done|].
    intros i x [= <- <-]. by right. }
  destruct (vi_some _ _ _ _ _ V i0 x0 eq_refl) as (Hi0 & _).
  assert (Hkeep : precedes i0 x0 (fr_timing_ok st) k (set_command r cmd) t ->
    visited (S k) l0 (<[k:=set_command r cmd]> (fr_buffer st)) (Some (i0, x0)) (fr_timing_ok st)).
  { intros Hp. apply (visited_step _ _ _ _ _ _ _ _ _ V Hr' Hres Hf); [done|]. intros i x [= <- <-]. left. eauto. }
  assert (Hnew : precedes k (set_command r cmd) t i0 x0 (fr_timing_ok st) ->
    visited (S k) l0 (<[k:=set_command r cmd]> (fr_buffer st)) (Some (k, set_command r cmd)) t).
  { intros Hp. apply (visited_step _ _ _ _ _ _ _ _ _ V Hr' Hres Hf); [done|]. intros i x [= <- <-]. right.
    split_and!; try done. by intros i x [= <- <-]. }
  destruct (fr_timing_ok st) eqn:Et, t; cbn in H.
  - destruct (Z.ltb_spec (arrive r) (arrive x0)); injection H as <-; [apply Hnew; right; split; [done|]; cbn; lia|].
    apply Hkeep. right. split; [done|]. cbn. lia.
  - injection H as <-. apply Hkeep. by left.
  - injection H as <-. apply Hnew. by left.
  - destruct (Z.ltb_spec (arrive r) (arrive x0)); injection H as <-; [apply Hnew; right; split; [done|]; cbn; lia|].
    apply Hkeep. right. split; [done|]. cbn. lia.
Qed.

Lemma get_best_visited b o b' : get_best_request c b filter = Ok (o, b') ->
  exists o' t, o = fst <$> o' /\ visited (length (buffer b)) (buffer b) (buffer b') o' t.
Proof.
  unfold get_best_request. intros (st & Hst & [= <- <-])%bind_Ok_inv. exists (fr_cand st), (fr_timing_ok st).
  split; [done|]. cbn.
  refine (foldM_seq_inv (fun k st => visited k (buffer b) (fr_buffer st) (fr_cand st) (fr_timing_ok st))
            _ _ _ _ _ _ Hst).
  - intros k s s' _. apply frfcfs_step_visited.
  - apply visited_init.
Qed.
End FRFCFS.

(** C20: FRFCFS::get_best_request returns the oldest of the eligible requests that are
    ready to issue, or the oldest eligible one when none is ready (the first in the
    buffer among equals), and nothing only when the filter rejects every request; every
    request of the buffer leaves with its prerequisite command resolved. Caching the
    incumbent's readiness in the single pass is thus sound. *)
Theorem frfcfs_oldest_ready_first c filter b o b' :
  get_best_request c b filter = Ok (o, b') ->
  length (buffer b') = length (buffer b) /\
  (forall j r, buffer b' !! j = Some r -> resolved c r) /\
  match o with
  | None => forall j r, buffer b' !! j = Some r -> ~ eligible filter r
  | Some i => exists r t, buffer b' !! i = Some r /\ eligible filter r /\ readiness c r = Ok t /\
      forall j r', buffer b' !! j = Some r' -> eligible filter r' ->
        exists t', readiness c r' = Ok t' /\ precedes i r t j r' t'
  end.
Proof.
  intros H. destruct (get_best_visited c filter b o b' H) as (o' & t & -> & V). pose proof (vi_length _ _ _ _ _ _ _ V) as Hl.
  assert (Hlt : forall j r, buffer b' !! j = Some r -> (j < length (buffer b))%nat)
    by (intros j r Hj; apply lookup_lt_Some in Hj; lia).
  split_and!; [done| |].
  - intros j r Hj. by apply (vi_resolved _ _ _ _ _ _ _ V j); [eapply Hlt|].
  - destruct o' as [[i r]|]; cbn.
    + destruct (vi_some _ _ _ _ _ _ _ V i r eq_refl) as (Hi & Hr & He & Hrd & Hall). exists r, t.
      split_and!; try done. intros j r' Hj He'. apply (Hall j); [by eapply Hlt|done..].
    + intros j r Hj. by apply (vi_none _ _ _ _ _ _ _ V eq_refl j); [eapply Hlt|].
Qed.
