(* ===== verification/Refresh.v ===== *)
(** * Refresh: the refresh managers

    Models the four implementations of [IRefreshManager]
    ([ramulator/controller/refresh/impl]).  A manager is owned by its
    controller and reads the controller's clock and device; it hands its
    requests to [priority_send].  A pointer to a node is its path. *)
From stdpp Require Import prelude gmap strings.
From S2P Require Import Prelude DramSpec Standards Node NodeTiming NodeTree Device Request AddrMapper Float32 ControllerState Controller.
Open Scope Z_scope.

(** The coordinates of a node, read from it up to the root; the levels
    below it stay wildcards.  A null pointer leaves every level a
    wildcard. *)
Definition build_addr_vec (d : DRAMDevice) (p : option (list nat)) : res AddrVec_t :=
  let addr_vec := replicate (Z.to_nat (level_count (m_spec d))) (-1) in
  match p with
  | None => Ok addr_vec
  | Some p =>
      l ← of_option UndefinedBehaviour (spine (m_root d) p);
      foldM (fun av n => vset av (Z.of_nat (n_level n)) (n_id n)) (rev l) addr_vec
  end.

(** ** AllBank *)
Definition all_bank_refresh_scopes : list (string * string) :=
  [("DDR3", "Rank"); ("DDR4", "Rank"); ("DDR5", "Rank"); ("LPDDR5", "Rank"); ("GDDR6", "Channel");
   ("HBM1", "Channel"); ("HBM2", "PseudoChannel"); ("HBM3", "PseudoChannel"); ("HBM4", "PseudoChannel")].

Definition all_bank_refresh_scope_for (s : DRAMSpec) : res string :=
  match List.find (fun p => bool_decide (standard_name s = p.1)) all_bank_refresh_scopes with
  | Some p => Ok p.2
  | None => Err (Throw "AllBank refresh: no default scope for DRAM standard")
  end.

Definition AllBankRefresh_init (d : DRAMDevice) : res AllBankRefresh :=
  let info := m_spec d in
  m_scope ← all_bank_refresh_scope_for info;
  cmd ← get_command_id info "REFab";
  lvl ← get_level_id info m_scope;
  nrefi ← get_timing_value info "nREFI";
  let nodes := paths_at_level (Z.to_nat lvl) (m_root d) in
  if bool_decide (nodes = []) then Err (Throw "AllBank refresh: no nodes found at level")
  else Ok (mkAB nrefi cmd lvl nrefi nodes).

Definition send_refresh (cmd : Z) (what : string) (c : ControllerBase) (ref_node : list nat) : res ControllerBase :=
  addr_vec ← build_addr_vec (c_device c) (Some ref_node);
  p ← ctrl_priority_send c (Request_cmd addr_vec cmd);
  if (p.1 : bool) then Ok p.2 else Err (Throw what).

Definition AllBankRefresh_tick (r : AllBankRefresh) (c : ControllerBase) : res ControllerBase :=
  if c_clk c =? ab_next_refresh_cycle r then
    let r := mkAB (ab_next_refresh_cycle r + ab_nrefi r) (ab_cmd_refab r) (ab_ref_level r) (ab_nrefi r) (ab_ref_nodes r) in
    foldM (send_refresh (ab_cmd_refab r) "Failed to send refresh!") (ab_ref_nodes r) (with_c_refresh c (AllBank r))
  else Ok c.

(** ** PerBank *)
Definition PerBankRefresh_init (d : DRAMDevice) : res PerBankRefresh :=
  let info := m_spec d in
  cmd ← get_command_id info "REFpb";
  lvl ← get_level_id info "Bank";
  nrefipb ← get_timing_value info "nREFIpb";
  Ok (mkPB nrefipb cmd lvl nrefipb (paths_at_level (Z.to_nat lvl) (m_root d)) 0).

Definition PerBankRefresh_tick (r : PerBankRefresh) (c : ControllerBase) : res ControllerBase :=
  if c_clk c =? pb_next_refresh_cycle r then
    bank_node ← vget (pb_bank_nodes r) (pb_next_bank_idx r);
    c ← send_refresh (pb_cmd_refpb r) "Failed to send per-bank refresh!" c bank_node;
    Ok (with_c_refresh c (PerBank (mkPB (pb_next_refresh_cycle r + pb_nrefipb r) (pb_cmd_refpb r) (pb_bank_level r)
          (pb_nrefipb r) (pb_bank_nodes r)
          ((pb_next_bank_idx r + 1) mod Z.of_nat (length (pb_bank_nodes r))))))
  else Ok c.

(** ** HBM34PerBankRefresh *)
Definition with_h_cursor (r : HBM34PerBankRefresh) (sid flat_bank : Z) : HBM34PerBankRefresh :=
  mkH34 (h_cmd_refpb r) (h_level_pc r) (h_level_sid r) (h_level_bg r) (h_level_bank r) (h_bank_level r)
    (h_pc_count r) (h_sid_count r) (h_bank_groups r) (h_banks_per_group r) (h_banks_per_sid r) (h_nrefipb r)
    (h_nrfc_pb r) sid flat_bank (h_next_refresh_clk r) (h_sets r) (h_pending_refpbs r).
Definition with_h_next_refresh_clk (r : HBM34PerBankRefresh) (v : Z) : HBM34PerBankRefresh :=
  mkH34 (h_cmd_refpb r) (h_level_pc r) (h_level_sid r) (h_level_bg r) (h_level_bank r) (h_bank_level r)
    (h_pc_count r) (h_sid_count r) (h_bank_groups r) (h_banks_per_group r) (h_banks_per_sid r) (h_nrefipb r)
    (h_nrfc_pb r) (h_next_sid r) (h_next_flat_bank r) v (h_sets r) (h_pending_refpbs r).
Definition with_h_sets (r : HBM34PerBankRefresh) (v : list (list RefpbSetState)) : HBM34PerBankRefresh :=
  mkH34 (h_cmd_refpb r) (h_level_pc r) (h_level_sid r) (h_level_bg r) (h_level_bank r) (h_bank_level r)
    (h_pc_count r) (h_sid_count r) (h_bank_groups r) (h_banks_per_group r) (h_banks_per_sid r) (h_nrefipb r)
    (h_nrfc_pb r) (h_next_sid r) (h_next_flat_bank r) (h_next_refresh_clk r) v (h_pending_refpbs r).
Definition with_h_pending (r : HBM34PerBankRefresh) (v : list BankRef) : HBM34PerBankRefresh :=
  mkH34 (h_cmd_refpb r) (h_level_pc r) (h_level_sid r) (h_level_bg r) (h_level_bank r) (h_bank_level r)
    (h_pc_count r) (h_sid_count r) (h_bank_groups r) (h_banks_per_group r) (h_banks_per_sid r) (h_nrefipb r)
    (h_nrfc_pb r) (h_next_sid r) (h_next_flat_bank r) (h_next_refresh_clk r) (h_sets r) v.

Definition flat_bank_in_sid (r : HBM34PerBankRefresh) (addr_vec : AddrVec_t) : res Z :=
  bg ← vget addr_vec (h_level_bg r);
  b ← vget addr_vec (h_level_bank r);
  Ok (bg * h_banks_per_group r + b).

(** [m_sets[pc][sid]] and its update in place. *)
Definition get_set (sets : list (list RefpbSetState)) (pc sid : Z) : res RefpbSetState :=
  row ← vget sets pc; vget row sid.
Definition put_set (sets : list (list RefpbSetState)) (pc sid : Z) (v : RefpbSetState)
  : res (list (list RefpbSetState)) :=
  row ← vget sets pc; row' ← vset row sid v; vset sets pc row'.

Definition empty_bank_ref : BankRef := mkBR None (-1) 0 (-1).

(** The slot of one bank node is filled; a second node for it is an error. *)
Definition place_bank (d : DRAMDevice) (r : HBM34PerBankRefresh) (sets : list (list RefpbSetState)) (node : list nat)
  : res (list (list RefpbSetState)) :=
  addr_vec ← build_addr_vec d (Some node);
  pc ← vget addr_vec (h_level_pc r);
  sid ← (if 0 <=? h_level_sid r then vget addr_vec (h_level_sid r) else Ok 0);
  flat_bank ← flat_bank_in_sid r addr_vec;
  set ← get_set sets pc sid;
  slot ← vget (banks_by_flat set) flat_bank;
  if bool_decide (is_Some (br_node slot)) then
    Err (Throw "HBM34PerBankRefresh found duplicate bank node in a REFpb set")
  else
    banks ← vset (banks_by_flat set) flat_bank (mkBR (Some node) pc sid flat_bank);
    put_set sets pc sid (mkSet banks (refreshed set) (next_set_allowed_clk set)).

Definition set_complete (s : RefpbSetState) : bool :=
  forallb (fun b => bool_decide (is_Some (br_node b))) (banks_by_flat s).

Definition build_refpb_sets (d : DRAMDevice) (r : HBM34PerBankRefresh) : res HBM34PerBankRefresh :=
  let n := Z.to_nat (h_banks_per_sid r) in
  let fresh := mkSet (replicate n empty_bank_ref) (replicate n false) 0 in
  let sets := replicate (Z.to_nat (h_pc_count r)) (replicate (Z.to_nat (h_sid_count r)) fresh) in
  sets ← foldM (place_bank d r) (paths_at_level (Z.to_nat (h_bank_level r)) (m_root d)) sets;
  if forallb (forallb set_complete) sets then Ok (with_h_sets r sets)
  else Err (Throw "HBM34PerBankRefresh found an incomplete REFpb set").

Definition HBM34PerBankRefresh_init (d : DRAMDevice) : res HBM34PerBankRefresh :=
  let info := m_spec d in
  cmd ← get_command_id info "REFpb";
  pc ← get_level_id info "PseudoChannel";
  sid ← (if has_level info "Sid" then get_level_id info "Sid" else Ok (-1));
  bg ← get_level_id info "BankGroup";
  bank ← get_level_id info "Bank";
  pc_count ← get_level_size info "PseudoChannel";
  sid_count ← (if 0 <=? sid then get_level_size info "Sid" else Ok 1);
  bank_groups ← get_level_size info "BankGroup";
  banks_per_group ← get_level_size info "Bank";
  nrefipb ← get_timing_value info "nREFIpb";
  nrfc_pb ← get_timing_value info "nRFCpb";
  build_refpb_sets d
    (mkH34 cmd pc sid bg bank bank pc_count sid_count bank_groups banks_per_group
       (bank_groups * banks_per_group) nrefipb nrfc_pb 0 0 nrefipb [] []).

Definition advance_logical_cursor (r : HBM34PerBankRefresh) : HBM34PerBankRefresh :=
  let next := h_next_flat_bank r + 1 in
  if next =? h_banks_per_sid r then with_h_cursor r ((h_next_sid r + 1) mod h_sid_count r) 0
  else with_h_cursor r (h_next_sid r) next.

(** Some pseudo-channel may not start a set yet. *)
Fixpoint set_blocked (r : HBM34PerBankRefresh) (clk : Z) (pcs : list Z) : res bool :=
  match pcs with
  | [] => Ok false
  | pc :: pcs =>
      set ← get_set (h_sets r) pc (h_next_sid r);
      if clk <? next_set_allowed_clk set then Ok true else set_blocked r clk pcs
  end.

Definition seed_pending_refpbs (clk : Z) (r : HBM34PerBankRefresh) : res (bool * HBM34PerBankRefresh) :=
  let pcs := seqZ 0 (h_pc_count r) in
  blocked ← set_blocked r clk pcs;
  if (blocked : bool) then Ok (false, r)
  else
    banks ← mapM (fun pc =>
      set ← get_set (h_sets r) pc (h_next_sid r);
      bank ← vget (banks_by_flat set) (h_next_flat_bank r);
      Ok (mkBR (br_node bank) pc (h_next_sid r) (h_next_flat_bank r))) pcs;
    Ok (true, advance_logical_cursor (with_h_pending r (h_pending_refpbs r ++ banks))).

(** Marking a bank refreshed; a complete set is reset and closed for tRFCpb. *)
Definition mark_refreshed (r : HBM34PerBankRefresh) (clk : Z) (set : RefpbSetState) (flat_bank : Z)
  : res RefpbSetState :=
  refreshed' ← vset (refreshed set) flat_bank true;
  if forallb id refreshed' then
    Ok (mkSet (banks_by_flat set) (map (fun _ => false) refreshed') (clk + h_nrfc_pb r))
  else Ok (mkSet (banks_by_flat set) refreshed' (next_set_allowed_clk set)).

Definition service_pending_refpb (r : HBM34PerBankRefresh) (c : ControllerBase)
  : res (bool * HBM34PerBankRefresh * ControllerBase) :=
  match h_pending_refpbs r with
  | [] => Ok (false, r, c)
  | pending :: rest =>
      addr_vec ← build_addr_vec (c_device c) (br_node pending);
      p ← ctrl_priority_send c (Request_cmd addr_vec (h_cmd_refpb r));
      if negb p.1 then Ok (true, r, p.2)
      else
        set ← get_set (h_sets r) (br_pc pending) (br_sid pending);
        set' ← mark_refreshed r (c_clk c) set (br_flat_bank pending);
        sets ← put_set (h_sets r) (br_pc pending) (br_sid pending) set';
        Ok (true, with_h_pending (with_h_sets r sets) rest, p.2)
  end.

Definition HBM34PerBankRefresh_tick (r : HBM34PerBankRefresh) (c : ControllerBase) : res ControllerBase :=
  sv ← service_pending_refpb r c;
  let '(served, r, c) := sv in
  if (served : bool) then Ok (with_c_refresh c (HBM34PerBank r))
  else if c_clk c <? h_next_refresh_clk r then Ok (with_c_refresh c (HBM34PerBank r))
  else
    sd ← seed_pending_refpbs (c_clk c) r;
    if negb sd.1 then Ok (with_c_refresh c (HBM34PerBank (with_h_next_refresh_clk sd.2 (c_clk c + 1))))
    else
      sv ← service_pending_refpb sd.2 c;
      let '(_, r, c) := sv in
      Ok (with_c_refresh c (HBM34PerBank (with_h_next_refresh_clk r (h_next_refresh_clk r + h_nrefipb r)))).

(** ** The interface *)
Definition refresh_tick (c : ControllerBase) : res ControllerBase :=
  match c_refresh c with
  | NoRefresh => Ok c
  | AllBank r => AllBankRefresh_tick r c
  | PerBank r => PerBankRefresh_tick r c
  | HBM34PerBank r => HBM34PerBankRefresh_tick r c
  end.
