(* ===== verification/NodeAddr.v ===== *)
(** * NodeAddr: the address of a node of the hierarchy

    Refresh managers and the ClosedCAP policy address a node by reading its
    coordinates up to the root ([build_addr_vec]).  The result is the path of
    the node with wildcards below it; it is an address every command of its
    scope accepts. *)
From stdpp Require Import prelude gmap strings.
From S2P Require Import Prelude DramSpec Commands Standards Node NodeTiming NodeTree Device DeviceInv DeviceProps BankSafety BankProgress IssueSafety Request AddrMapper Float32 ControllerState Controller Refresh.
Open Scope Z_scope.

Lemma spine_lookup p : forall n l k x,
  tree_wf n -> spine n p = Some l -> l !! k = Some x ->
  n_level x = (n_level n + k)%nat /\
  match k with O => x = n | S j => exists i, p !! j = Some i /\ n_id x = Z.of_nat i end.
Proof.
  induction p as [|i p IH]; intros n l k x Hwf Hl Hk; cbn in Hl.
  - injection Hl as <-. destruct k; cbn in Hk; [injection Hk as <-; split; [lia|done]|done].
  - destruct (n_children n !! i) as [c|] eqn:Hc; [|done]. cbn in Hl.
    destruct (spine c p) as [l'|] eqn:Hs; [|done]. injection Hl as <-.
    destruct k as [|k]; cbn in Hk; [injection Hk as <-; split; [lia|done]|].
    destruct (tree_wf_child _ _ _ Hwf Hc) as (Hwfc & HL & HI).
    destruct (IH c l' k x Hwfc Hs Hk) as [Hlv Hx]. split; [lia|].
    destruct k as [|k]; [subst x; exists i; by rewrite HI|done].
Qed.

Lemma spine_length p : forall n l, spine n p = Some l -> length l = S (length p).
Proof.
  induction p as [|i p IH]; intros n l Hl; cbn in Hl; [by injection Hl as <-|].
  destruct (n_children n !! i) as [c|]; [|done]. cbn in Hl.
  destruct (spine c p) as [l'|] eqn:Hs; [|done]. injection Hl as <-. cbn. by rewrite (IH c l' Hs).
Qed.

(** Writing the coordinates of nodes on different levels. *)
Lemma write_coords l : forall av,
  NoDup (map n_level l) -> (forall x, x ∈ l -> (n_level x < length av)%nat) ->
  exists av', foldM (fun av n => vset av (Z.of_nat (n_level n)) (n_id n)) l av = Ok av' /\ length av' = length av /\
    (forall x, x ∈ l -> av' !! n_level x = Some (n_id x)) /\
    (forall i, i ∉ map n_level l -> av' !! i = av !! i).
Proof.
  induction l as [|y l IH]; intros av Hnd Hl; cbn; [by exists av; split_and!; [..|intros ? ?%elem_of_nil|]|].
  cbn in Hnd. apply NoDup_cons in Hnd as [Hy Hnd].
  assert (Hly : (n_level y < length av)%nat) by (apply Hl, list_elem_of_here).
  destruct (vset_total av (Z.of_nat (n_level y)) (n_id y)) as [av1 H1]; [lia|]. rewrite H1. cbn.
  apply vset_Ok in H1 as [_ ->]. rewrite Nat2Z.id.
  destruct (IH (<[n_level y:=n_id y]> av) Hnd) as (av' & Hf & Hlen & Hin & Hout).
  { intros x Hx. rewrite length_insert. apply Hl. by apply list_elem_of_further. }
  exists av'. rewrite length_insert in Hlen. split_and!; [done|done| |].
  - intros x [->|Hx]%elem_of_cons; [|by apply Hin]. rewrite Hout by done. by apply list_lookup_insert_eq.
  - intros i [Hi1 Hi2]%not_elem_of_cons. rewrite Hout by done. by apply list_lookup_insert_ne.
Qed.

(** [av] names the node at [p] and leaves everything below it open. *)
Record names_node (s : DRAMSpec) (p : list nat) (av : AddrVec_t) : Prop := {
  nn_length : length av = Z.to_nat (level_count s);
  nn_path : forall k i, p !! k = Some i -> av !! S k = Some (Z.of_nat i);
  nn_open : forall lvl, (length p < lvl < Z.to_nat (level_count s))%nat -> av !! lvl = Some (-1)
}.

Lemma build_addr_vec_names dev p :
  tree_wf (m_root dev) -> n_level (m_root dev) = 0%nat -> is_Some (node_at (m_root dev) p) ->
  (length p < Z.to_nat (level_count (m_spec dev)))%nat ->
  exists av, build_addr_vec dev (Some p) = Ok av /\ names_node (m_spec dev) p av /\ av !! 0%nat = Some (n_id (m_root dev)).
Proof.
  intros Hwf H0 Hp Hlen. destruct (spine_total _ _ Hp) as [l Hl].
  assert (Hlv : map n_level (rev l) = rev (seq 0 (S (length p)))).
  { rewrite map_rev. f_equal. apply list_eq. intros k. rewrite list_lookup_fmap.
    destruct (l !! k) as [x|] eqn:Hk; cbn [fmap option_fmap option_map].
    - destruct (spine_lookup p _ _ _ _ Hwf Hl Hk) as [-> _]. rewrite H0. symmetry. apply lookup_seq_lt.
      apply lookup_lt_Some in Hk. rewrite (spine_length _ _ _ Hl) in Hk. lia.
    - symmetry. apply lookup_ge_None. rewrite length_seq, <- (spine_length _ _ _ Hl). by apply lookup_ge_None. }
  destruct (write_coords (rev l) (replicate (Z.to_nat (level_count (m_spec dev))) (-1))) as (av & Hf & Hlen' & Hin & Hout).
  - rewrite Hlv. apply NoDup_ListNoDup, List.NoDup_rev, NoDup_ListNoDup, NoDup_seq.
  - intros x Hx. rewrite length_replicate. assert (n_level x ∈ map n_level (rev l)) as Hxl by (by apply list_elem_of_fmap_2).
    rewrite Hlv in Hxl. apply list_elem_of_In, in_rev, in_seq in Hxl. lia.
  - rewrite length_replicate in Hlen'. exists av. split; [unfold build_addr_vec; rewrite Hl; exact Hf|]. split.
    + assert (Hid : forall k x, l !! k = Some x -> av !! n_level x = Some (n_id x)).
      { intros k x Hx. apply Hin. rewrite list_elem_of_In, <- in_rev, <- list_elem_of_In. by eapply list_elem_of_lookup_2. }
      split; [done| |].
      * intros k i Hi. pose proof (lookup_lt_Some _ _ _ Hi) as Hk.
        destruct (lookup_lt_is_Some_2 l (S k)) as [x Hx]; [rewrite (spine_length _ _ _ Hl); lia|].
        destruct (spine_lookup p _ _ _ _ Hwf Hl Hx) as (HL & j & Hj & HI). rewrite Hi in Hj. injection Hj as <-.
        rewrite <- HI, <- (Hid _ _ Hx), HL, H0. done.
      * intros lvl Hlvl. rewrite Hout by (rewrite Hlv, list_elem_of_In, <- in_rev, in_seq; lia).
        apply lookup_replicate_2. lia.
    + destruct (lookup_lt_is_Some_2 l 0%nat) as [x Hx]; [rewrite (spine_length _ _ _ Hl); lia|].
      destruct (spine_lookup p _ _ _ _ Hwf Hl Hx) as [HL ->]. rewrite <- H0. apply Hin.
      rewrite list_elem_of_In, <- in_rev, <- list_elem_of_In. by eapply list_elem_of_lookup_2.
Qed.

Section NodeAddr.
Context (d : standard) (cfg : dram_config) (s : DRAMSpec).
Context (Hin : In d all_standards) (Hcon : construct d cfg = Ok s).

Lemma level_count_row : Z.to_nat (level_count s) = (row_lvl d + 2)%nat /\ row_lvl d = S (bank_lvl d).
Proof.
  destruct (standard_static d cfg s Hin Hcon) as (C & _ & _ & _ & _ & Hr & _ & Hst).
  unfold std_static_ok in Hst. bool_hyps. rewrite (con_level_count d s C). unfold row_lvl, bank_lvl. lia.
Qed.

Lemma node_at_level n p : forall x, tree_wf n -> node_at n p = Some x -> n_level x = (n_level n + length p)%nat.
Proof.
  revert n. induction p as [|i p IH]; intros n x Hwf Hx; cbn in Hx; [injection Hx as ->; cbn; lia|].
  destruct (n_children n !! i) as [c|] eqn:Hc; [|done]. destruct (tree_wf_child _ _ _ Hwf Hc) as (Hwfc & HL & _).
  rewrite (IH c x Hwfc Hx), HL. cbn. lia.
Qed.

(** The index at every level of a path is below the size of the level. *)
Lemma path_in_range n p k i :
  tree_wf n -> n_level n = 0%nat -> shaped s (row_lvl d) n -> is_Some (node_at n p) -> p !! k = Some i ->
  exists sz, level_sizes s !! S k = Some sz /\ Z.of_nat i < sz.
Proof.
  intros Hwf H0 Hsh [x Hx] Hi. rewrite <- (take_drop_middle p k i Hi) in Hx. rewrite node_at_app in Hx.
  destruct (node_at n (take k p)) as [y|] eqn:Hy; [|done]. cbn in Hx.
  destruct (n_children y !! i) as [c|] eqn:Hc; [|done]. pose proof (lookup_lt_Some _ _ _ Hc) as Hlt.
  destruct (Hsh _ y Hy) as (_ & _ & _ & [He|(sz & Hsz' & Hlen & _)]); [rewrite He in Hlt; cbn in Hlt; lia|].
  rewrite (node_at_level n (take k p) y Hwf Hy), H0, length_take_le in Hsz' by (apply lookup_lt_Some in Hi; lia).
  exists sz. split; [done|]. lia.
Qed.

Lemma path_length dev p : dev_ok d s dev -> is_Some (node_at (m_root dev) p) -> (length p <= bank_lvl d)%nat.
Proof.
  intros Hok [x Hx]. destruct level_count_row as [_ Hr].
  destruct (dk_shaped _ _ _ Hok p x Hx) as [Hl _].
  rewrite (node_at_level _ p x (dk_wf _ _ _ Hok) Hx), (dk_lvl _ _ _ Hok) in Hl. lia.
Qed.

Context (Hsz : length (level_sizes s) = Z.to_nat (level_count s)).

Lemma names_node_addr dev p av :
  dev_ok d s dev -> is_Some (node_at (m_root dev) p) -> names_node s p av -> is_Some (av !! 0%nat) ->
  readable d av /\ addr_ok s (row_lvl d) av /\ (length p = bank_lvl d -> concrete d s av /\ bank_path d av = p).
Proof.
  intros Hok Hp [Hlen Hpath Hopen] H0. destruct level_count_row as [Hlc Hr]. pose proof (path_length dev p Hok Hp) as Hpl.
  assert (Hin_range : forall k i, p !! k = Some i -> exists sz, level_sizes s !! S k = Some sz /\ Z.of_nat i < sz)
    by (intros k i; apply (path_in_range (m_root dev)); [apply Hok..|done]).
  split; [unfold readable; lia|]. split; [split|].
  - intros lvl Hl. apply lookup_lt_is_Some. lia.
  - intros lvl Hl. destruct (decide (lvl <= length p)%nat) as [Hle|Hgt].
    + destruct lvl as [|k]; [lia|]. destruct (lookup_lt_is_Some_2 p k) as [i Hi]; [lia|].
      destruct (Hin_range k i Hi) as (sz & Hs & Hlt). exists (Z.of_nat i), sz. split_and!; [by apply Hpath|done|lia].
    + destruct (lookup_lt_is_Some_2 (level_sizes s) lvl) as [sz Hs]; [lia|]. exists (-1), sz.
      split_and!; [apply Hopen; lia|done|by left].
  - intros Hb. split.
    + intros lvl Hl. destruct lvl as [|k]; [lia|]. destruct (lookup_lt_is_Some_2 p k) as [i Hi]; [lia|].
      destruct (Hin_range k i Hi) as (sz & Hs & Hlt). exists (Z.of_nat i), sz. split_and!; [by apply Hpath|done|lia|lia].
    + apply list_eq. intros k. unfold bank_path. rewrite list_lookup_fmap. destruct (p !! k) as [i|] eqn:Hi.
      * rewrite lookup_take_lt by (apply lookup_lt_Some in Hi; lia). rewrite lookup_drop. cbn.
        rewrite (Hpath k i Hi). cbn. by rewrite Nat2Z.id.
      * apply lookup_ge_None in Hi. rewrite lookup_take_ge by lia. done.
Qed.

(** What a component gets when it addresses a node of the device. *)
Lemma build_addr_vec_ok dev p :
  dev_ok d s dev -> is_Some (node_at (m_root dev) p) ->
  exists av, build_addr_vec dev (Some p) = Ok av /\ names_node s p av /\ av !! 0%nat = Some (n_id (m_root dev)) /\
    readable d av /\ addr_ok s (row_lvl d) av /\ (length p = bank_lvl d -> concrete d s av /\ bank_path d av = p).
Proof.
  intros Hok Hp. destruct level_count_row as [Hlc Hr]. pose proof (path_length dev p Hok Hp) as Hpl.
  destruct (build_addr_vec_names dev p) as (av & Hav & Hn & H0);
    [apply Hok|apply Hok|done|rewrite (dk_spec _ _ _ Hok); lia|].
  rewrite (dk_spec _ _ _ Hok) in Hn. exists av. split; [done|]. split; [done|]. split; [done|].
  eapply names_node_addr; eauto.
Qed.
End NodeAddr.

(** ** Nodes stay where they are *)
Lemma apply_action_nodes dev cmd av clk dev' p :
  apply_action dev cmd av clk = Ok dev' -> is_Some (node_at (m_root dev) p) -> is_Some (node_at (m_root dev') p).
Proof.
  unfold apply_action. intros (f & _ & H)%bind_Ok_inv Hp. destruct f as [f|]; [|by injection H as <-].
  refine (for_each_inv (fun dv => is_Some (node_at (m_root dv) p)) _ _ _ _ _ _ _ Hp H).
  intros dv i dv' Hdv Ha. unfold act_on in Ha. inv_res. subst dv'. cbn. by apply update_at_is_Some.
Qed.

Lemma issue_nodes d cfg s dev cmd av clk dev' p :
  In d all_standards -> construct d cfg = Ok s -> dev_ok d s dev ->
  issue_command dev cmd av clk = Ok dev' -> is_Some (node_at (m_root dev) p) -> is_Some (node_at (m_root dev') p).
Proof.
  intros Hin Hcon Hok. unfold issue_command. intros (r & Hu & Ha)%bind_Ok_inv [x Hx].
  destruct (standard_static d cfg s Hin Hcon) as (C & _). rewrite (dk_spec _ _ _ Hok) in Hu.
  destruct (update_timing_local s cmd av clk p (m_root dev) r x) as (x' & Hx' & _);
    [apply (cl_flags _ (con_loaded _ _ C))|apply Hok|done..|].
  eapply apply_action_nodes; [exact Ha|]. cbn. by exists x'.
Qed.
