(* ===== verification/HbmRefresh.v ===== *)
(** * HbmRefresh: the HBM3/4 per-bank refresh manager

    [HBM34PerBankRefresh] keeps, for every pseudo-channel and stack, the banks
    of a REFpb set and which of them were refreshed; a logical cursor walks
    the banks and the REFpbs of one position wait in a queue.  [h34_ok] says
    that every index the manager uses is inside its tables and that every
    table entry is the bank node of its coordinates; [init] establishes it
    and the operations succeed and keep it. *)
From stdpp Require Import prelude gmap strings.
From S2P Require Import Prelude DramSpec Commands Standards Node NodeTiming NodeTree Device DeviceInv Request AddrMapper Float32 ControllerState Controller Refresh NodeAddr.
Open Scope Z_scope.

(** ** Tables indexed by two [int]s *)
Definition grid (Q : Z -> Z -> RefpbSetState -> Prop) (rows cols : Z) (g : list (list RefpbSetState)) : Prop :=
  Z.of_nat (length g) = rows /\ Forall (fun row => Z.of_nat (length row) = cols) g /\
  forall i j x, get_set g i j = Ok x -> Q i j x.

Lemma get_set_row g i j x : get_set g i j = Ok x -> exists row, vget g i = Ok row /\ vget row j = Ok x.
Proof. unfold get_set. intros (row & ? & ?)%bind_Ok_inv. eauto. Qed.

(** What an update leaves alone, and what it changes. *)
Lemma get_put g i j x g' i' j' : put_set g i j x = Ok g' ->
  get_set g' i' j' = if decide (i' = i /\ j' = j) then Ok x else get_set g i' j'.
Proof.
  unfold put_set, get_set. intros (row & Hr & (row' & Hs & Hs')%bind_Ok_inv)%bind_Ok_inv. case_decide as E.
  - destruct E as [-> ->]. rewrite (vget_vset_eq _ _ _ _ Hs'). cbn. by eapply (vget_vset_eq row).
  - destruct (decide (i' = i)) as [->|Hne].
    + rewrite (vget_vset_eq _ _ _ _ Hs'), Hr. cbn. eapply (vget_vset_ne row _ j); [done|]. intros ->. by apply E.
    + by rewrite (vget_vset_ne _ _ _ _ _ Hs') by done.
Qed.

Section Grid.
Context (Q : Z -> Z -> RefpbSetState -> Prop) (rows cols : Z) (g : list (list RefpbSetState)) (Hg : grid Q rows cols g).

Lemma grid_row i row : vget g i = Ok row -> Z.of_nat (length row) = cols.
Proof. intros [_ Hr]%vget_Ok. apply (Forall_lookup_1 _ _ _ _ (proj1 (proj2 Hg)) Hr). Qed.

Lemma grid_range i j x : get_set g i j = Ok x -> 0 <= i < rows /\ 0 <= j < cols.
Proof.
  intros (row & Hr & Hx)%get_set_row. rewrite <- (proj1 Hg), <- (grid_row i row Hr).
  split; apply vget_is_Ok; by eexists.
Qed.

Lemma grid_get i j : 0 <= i < rows -> 0 <= j < cols -> exists x, get_set g i j = Ok x /\ Q i j x.
Proof.
  intros Hi Hj. cut (is_Ok (get_set g i j)); [intros [x Hx]; exists x; split; [done|]; by apply Hg|].
  unfold get_set. destruct (proj2 (vget_is_Ok g i)) as [row Hr]; [by rewrite (proj1 Hg)|]. rewrite Hr. cbn.
  apply vget_is_Ok. by rewrite (grid_row i row Hr).
Qed.

Lemma grid_put_ok i j x g' : Q i j x -> put_set g i j x = Ok g' -> grid Q rows cols g'.
Proof.
  intros Hx Hp. split_and!; [..|intros i' j' y; rewrite (get_put _ _ _ _ _ i' j' Hp)].
  3: { case_decide as E; [destruct E as [-> ->]; by intros [= <-]|apply Hg]. }
  all: unfold put_set in Hp; apply bind_Ok_inv in Hp as (row & Hr & (row' & Hs & Hs')%bind_Ok_inv).
  - rewrite (vset_length _ _ _ _ Hs'). apply Hg.
  - apply vset_Ok in Hs' as [_ ->]. apply Forall_insert; [apply Hg|]. rewrite (vset_length _ _ _ _ Hs). by eapply grid_row.
Qed.

Lemma grid_put i j x : 0 <= i < rows -> 0 <= j < cols -> Q i j x -> exists g', put_set g i j x = Ok g' /\ grid Q rows cols g'.
Proof.
  intros Hi Hj Hx. cut (is_Ok (put_set g i j x)).
  { intros [g' Hp]. exists g'. split; [done|]. by eapply grid_put_ok. }
  unfold put_set. destruct (proj2 (vget_is_Ok g i)) as [row Hr]; [by rewrite (proj1 Hg)|]. rewrite Hr. cbn.
  destruct (vset_total row j x) as [row' ->]; [by rewrite (grid_row i row Hr)|]. cbn. apply vset_total. by rewrite (proj1 Hg).
Qed.
End Grid.

Lemma grid_impl (Q Q' : Z -> Z -> RefpbSetState -> Prop) rows cols g :
  grid Q rows cols g -> (forall i j x, get_set g i j = Ok x -> Q i j x -> Q' i j x) -> grid Q' rows cols g.
Proof. intros (H1 & H2 & H3) H. split_and!; auto. Qed.

(** ** The invariant *)

(** The coordinate of the node at [p] on level [lvl]. *)
Definition level_coord (p : list nat) (lvl : Z) : option Z := Z.of_nat <$> p !! Z.to_nat (lvl - 1).

(** The node at [p] has the coordinates the manager files it under. *)
Definition coords (r : HBM34PerBankRefresh) (pc sid flat_bank : Z) (p : list nat) : Prop :=
  level_coord p (h_level_pc r) = Some pc /\
  (if 0 <=? h_level_sid r then level_coord p (h_level_sid r) = Some sid else sid = 0) /\
  exists bg b, level_coord p (h_level_bg r) = Some bg /\ level_coord p (h_level_bank r) = Some b /\
    flat_bank = bg * h_banks_per_group r + b.

(** What [init] fixes. *)
Definition h_const (r : HBM34PerBankRefresh) : list Z :=
  [h_cmd_refpb r; h_level_pc r; h_level_sid r; h_level_bg r; h_level_bank r; h_bank_level r; h_pc_count r; h_sid_count r;
   h_bank_groups r; h_banks_per_group r; h_banks_per_sid r; h_nrefipb r; h_nrfc_pb r].

Lemma const_advance r : h_const (advance_logical_cursor r) = h_const r.
Proof. unfold advance_logical_cursor. by case_match. Qed.

Section Manager.
Context (P : list nat -> Prop).

Definition placed (r : HBM34PerBankRefresh) (pc sid flat_bank : Z) (b : BankRef) : Prop :=
  exists p, br_node b = Some p /\ P p /\ coords r pc sid flat_bank p.

Definition set_ok (r : HBM34PerBankRefresh) (pc sid : Z) (st : RefpbSetState) : Prop :=
  Z.of_nat (length (banks_by_flat st)) = h_banks_per_sid r /\
  Z.of_nat (length (refreshed st)) = h_banks_per_sid r /\
  forall i b, vget (banks_by_flat st) i = Ok b -> placed r pc sid i b.

Definition ref_ok (r : HBM34PerBankRefresh) (b : BankRef) : Prop :=
  placed r (br_pc b) (br_sid b) (br_flat_bank b) b /\
  0 <= br_pc b < h_pc_count r /\ 0 <= br_sid b < h_sid_count r /\ 0 <= br_flat_bank b < h_banks_per_sid r.

Record h34_ok (r : HBM34PerBankRefresh) : Prop := {
  ho_sets : grid (set_ok r) (h_pc_count r) (h_sid_count r) (h_sets r);
  ho_sid : 0 <= h_next_sid r < h_sid_count r;
  ho_flat : 0 <= h_next_flat_bank r < h_banks_per_sid r;
  ho_pending : Forall (ref_ok r) (h_pending_refpbs r)
}.

Lemma ok_next_refresh r v : h34_ok r -> h34_ok (with_h_next_refresh_clk r v).
Proof. intros []. by split. Qed.

Lemma ok_advance r : h34_ok r -> h34_ok (advance_logical_cursor r).
Proof.
  intros [H1 H2 H3 H4]. unfold advance_logical_cursor. destruct (Z.eqb_spec (h_next_flat_bank r + 1) (h_banks_per_sid r)).
  - split; cbn; [exact H1| |lia|exact H4]. apply Z.mod_pos_bound. lia.
  - split; cbn; [exact H1|exact H2|lia|exact H4].
Qed.

Lemma set_at r pc sid : h34_ok r -> 0 <= pc < h_pc_count r -> 0 <= sid < h_sid_count r ->
  exists st, get_set (h_sets r) pc sid = Ok st /\ set_ok r pc sid st.
Proof. intros Hr. apply (grid_get (set_ok r)), Hr. Qed.

Lemma set_blocked_total r clk : h34_ok r -> forall pcs,
  (forall pc, pc ∈ pcs -> 0 <= pc < h_pc_count r) -> is_Ok (set_blocked r clk pcs).
Proof.
  intros Hr. induction pcs as [|pc pcs IH]; intros Hp; cbn; [by eexists|].
  destruct (set_at r pc (h_next_sid r) Hr) as (st & -> & _); [apply Hp, list_elem_of_here|apply Hr|]. cbn.
  case_match; [by eexists|]. apply IH. intros x Hx. apply Hp. by apply list_elem_of_further.
Qed.

(** The REFpb of one pseudo-channel at the cursor. *)
Definition seed_one (r : HBM34PerBankRefresh) (pc : Z) : res BankRef :=
  set ← get_set (h_sets r) pc (h_next_sid r);
  bank ← vget (banks_by_flat set) (h_next_flat_bank r);
  Ok (mkBR (br_node bank) pc (h_next_sid r) (h_next_flat_bank r)).

Lemma seed_one_ok r pc : h34_ok r -> 0 <= pc < h_pc_count r -> exists b, seed_one r pc = Ok b /\ ref_ok r b.
Proof.
  intros Hr Hpc. unfold seed_one. destruct (set_at r pc (h_next_sid r) Hr Hpc) as (st & -> & Hl & _ & Hpl); [apply Hr|]. cbn.
  destruct (proj2 (vget_is_Ok (banks_by_flat st) (h_next_flat_bank r))) as [b Hb]; [rewrite Hl; apply Hr|].
  rewrite Hb. cbn. eexists. split; [done|]. destruct (Hpl _ _ Hb) as (p & Hp & HP & Hc).
  split; [by exists p|]. split; [done|]. split; [apply (ho_sid r Hr)|apply (ho_flat r Hr)].
Qed.

Lemma seed_ok r clk : h34_ok r -> exists b r', seed_pending_refpbs clk r = Ok (b, r') /\ h34_ok r' /\ h_const r' = h_const r.
Proof.
  intros Hr. unfold seed_pending_refpbs. fold (seed_one r).
  destruct (set_blocked_total r clk Hr (seqZ 0 (h_pc_count r))) as [bl ->]; [intros pc Hpc%elem_of_seqZ; lia|]. cbn [mbind res_bind].
  destruct bl; [eauto|]. assert (Hone : forall pc, In pc (seqZ 0 (h_pc_count r)) -> exists b, seed_one r pc = Ok b /\ ref_ok r b)
    by (intros pc Hpc%list_elem_of_In%elem_of_seqZ; apply seed_one_ok; [done|lia]).
  destruct (mapM_total (seed_one r) (seqZ 0 (h_pc_count r))) as [l Hl];
    [intros pc Hpc; destruct (Hone pc Hpc) as (b & -> & _); by eexists|]. rewrite Hl. cbn [mbind res_bind].
  eexists _, _. split; [done|]. split; [|by rewrite const_advance]. apply ok_advance. destruct Hr as [H1 H2 H3 H4]. split; [exact H1|exact H2|exact H3|]. cbn.
  apply Forall_app. split; [exact H4|]. apply Forall_lookup. intros i b Hb. apply mapM_Ok in Hl.
  destruct (Forall2_lookup_r _ _ _ _ _ Hl Hb) as (pc & Hpc & Hs).
  destruct (Hone pc) as (b' & Hs' & Hb'); [by eapply list_elem_of_In, list_elem_of_lookup_2|].
  rewrite Hs in Hs'. injection Hs' as <-. exact Hb'.
Qed.

Lemma mark_ok r clk pc sid st fb :
  set_ok r pc sid st -> 0 <= fb < h_banks_per_sid r ->
  exists st', mark_refreshed r clk st fb = Ok st' /\ set_ok r pc sid st'.
Proof.
  intros (H1 & H2 & H3) Hfb. unfold mark_refreshed. destruct (vset_total (refreshed st) fb true) as [l Hl]; [lia|].
  rewrite Hl. cbn. apply vset_length in Hl.
  destruct (forallb id l); eexists; (split; [done|]); split_and!; cbn; try done; rewrite ?length_map; lia.
Qed.

(** What [service_pending_refpb] does to the manager once its request was accepted. *)
Definition sent_refpb (r : HBM34PerBankRefresh) (clk : Z) (b : BankRef) (rest : list BankRef) : res HBM34PerBankRefresh :=
  set ← get_set (h_sets r) (br_pc b) (br_sid b);
  set' ← mark_refreshed r clk set (br_flat_bank b);
  sets ← put_set (h_sets r) (br_pc b) (br_sid b) set';
  Ok (with_h_pending (with_h_sets r sets) rest).

Lemma sent_ok r clk b rest : h34_ok r -> h_pending_refpbs r = b :: rest ->
  exists r', sent_refpb r clk b rest = Ok r' /\ h34_ok r' /\ h_const r' = h_const r.
Proof.
  intros Hr Hp. pose proof (ho_pending _ Hr) as Hpd. rewrite Hp in Hpd.
  apply Forall_cons in Hpd as [(Hb1 & Hb2 & Hb3 & Hb4) Hrest].
  unfold sent_refpb. destruct (set_at r (br_pc b) (br_sid b) Hr Hb2 Hb3) as (st & -> & Hst). cbn [mbind res_bind].
  destruct (mark_ok r clk _ _ st (br_flat_bank b) Hst Hb4) as (st' & -> & Hst'). cbn [mbind res_bind].
  destruct (grid_put (set_ok r) _ _ (h_sets r) (ho_sets _ Hr) (br_pc b) (br_sid b) st' Hb2 Hb3 Hst') as (g & -> & Hg). cbn.
  eexists. split; [done|]. split; [|done]. destruct Hr as [H1 H2 H3 H4]. by split.
Qed.
End Manager.

(** ** The initial state *)

(** Where the levels the manager reads are, in every standard. *)
Definition mid_levels : list string := ["PseudoChannel"; "Sid"; "BankGroup"; "Bank"].

Definition mid_levels_ok (d : standard) : bool :=
  forallb (fun '(i, name) => negb (bool_decide (name ∈ mid_levels)) || ((1 <=? Z.of_nat i) && (Z.of_nat i <=? T_Row (std_traits d) - 1)))
    (imap pair (std_levels d)).

Lemma all_mid_levels_ok : forallb mid_levels_ok all_standards = true.
Proof. vm_compute. reflexivity. Qed.

Section Init.
Context (d : standard) (cfg : dram_config) (s : DRAMSpec).
Context (Hin : In d all_standards) (Hcon : construct d cfg = Ok s) (Horg : org_ok s).

Definition is_bank (p : list nat) : Prop := p ∈ all_paths (bank_sizes d s).

Lemma sizes_length : length (level_sizes s) = Z.to_nat (level_count s).
Proof. pose proof (oo_length s Horg). lia. Qed.

Lemma is_bank_length p : is_bank p -> length p = bank_lvl d.
Proof.
  intros Hp. apply elem_of_all_paths, Forall2_length in Hp. rewrite Hp.
  pose proof sizes_length as Hsl. destruct (level_count_row d cfg s Hin Hcon) as [Hlc Hr].
  unfold bank_sizes, sizes_below. rewrite length_map, length_take, length_drop. lia.
Qed.

Lemma level_id_lookup name i : get_level_id s name = Ok i -> 0 <= i /\ std_levels d !! Z.to_nat i = Some name.
Proof.
  destruct (standard_static d cfg s Hin Hcon) as (C & _ & Hnd & _). unfold get_level_id, lookup_name. rewrite (con_levels _ _ C).
  intros H. destruct ((set_names (std_levels d)).1 !! name) as [j|] eqn:E; [|discriminate]. cbn in H. injection H as ->.
  by apply (set_names_lookup _ _ _ Hnd) in E.
Qed.

Lemma mid_level_range name i : name ∈ mid_levels -> get_level_id s name = Ok i -> 1 <= i <= Z.of_nat (bank_lvl d).
Proof.
  intros Hn Hi. destruct (level_id_lookup name i Hi) as [H0 Hl].
  pose proof all_mid_levels_ok as Hall. rewrite forallb_forall in Hall. specialize (Hall d Hin).
  unfold mid_levels_ok in Hall. rewrite forallb_forall in Hall. specialize (Hall (Z.to_nat i, name)).
  destruct (standard_static d cfg s Hin Hcon) as (_ & _ & _ & _ & _ & _ & _ & Hst). unfold std_static_ok in Hst. bool_hyps.
  cbn beta iota in Hall. apply orb_true_iff in Hall as [Hall|Hall].
  - apply negb_true_iff, bool_decide_eq_false in Hall. done.
  - bool_hyps. unfold bank_lvl. lia.
  - apply list_elem_of_In, list_elem_of_lookup. exists (Z.to_nat i). by rewrite list_lookup_imap, Hl.
Qed.

Lemma level_size_pos name sz : get_level_size s name = Ok sz -> 1 <= sz.
Proof. unfold get_level_size. intros (i & _ & [_ H]%vget_Ok)%bind_Ok_inv. apply (oo_sizes s Horg) in H. lia. Qed.

Lemma coord_of p av lvl x :
  names_node s p av -> length p = bank_lvl d -> 1 <= lvl <= Z.of_nat (bank_lvl d) -> vget av lvl = Ok x -> level_coord p lvl = Some x.
Proof.
  intros Hn Hl Hr [_ Hx]%vget_Ok. unfold level_coord. destruct (lookup_lt_is_Some_2 p (Z.to_nat (lvl - 1))) as [i Hi]; [lia|].
  rewrite Hi. cbn. rewrite <- Hx, <- (nn_path _ _ _ Hn _ _ Hi). f_equal. lia.
Qed.

(** While the table is filled a slot is empty or holds its bank. *)
Definition part_ok (r : HBM34PerBankRefresh) (pc sid : Z) (st : RefpbSetState) : Prop :=
  Z.of_nat (length (banks_by_flat st)) = h_banks_per_sid r /\
  Z.of_nat (length (refreshed st)) = h_banks_per_sid r /\
  forall i b, vget (banks_by_flat st) i = Ok b -> br_node b = None \/ placed is_bank r pc sid i b.

(** The levels cached by [init]. *)
Record levels_ok (r : HBM34PerBankRefresh) : Prop := {
  lo_pc : 1 <= h_level_pc r <= Z.of_nat (bank_lvl d);
  lo_sid : 0 <= h_level_sid r -> 1 <= h_level_sid r <= Z.of_nat (bank_lvl d);
  lo_bg : 1 <= h_level_bg r <= Z.of_nat (bank_lvl d);
  lo_bank : 1 <= h_level_bank r <= Z.of_nat (bank_lvl d)
}.

Lemma place_bank_ok dev r node sets sets' :
  dev_ok d s dev -> levels_ok r -> is_bank node -> grid (part_ok r) (h_pc_count r) (h_sid_count r) sets ->
  place_bank dev r sets node = Ok sets' -> grid (part_ok r) (h_pc_count r) (h_sid_count r) sets'.
Proof.
  intros Hok [L1 L2 L3 L4] Hb Hg. assert (Ht : is_Some (node_at (m_root dev) node)).
  { apply (dk_nodes _ _ _ Hok). by rewrite (dk_banks _ _ _ Hok). }
  pose proof (is_bank_length node Hb) as Hl.
  destruct (build_addr_vec_ok d cfg s Hin Hcon sizes_length dev node Hok Ht) as (av & Hav & Hn & _).
  unfold place_bank. rewrite Hav. cbn [mbind res_bind].
  intros (pc & Hpc & (sid & Hsid & (fb & Hfb & (st & Hst & (slot & _ & H)%bind_Ok_inv)%bind_Ok_inv)%bind_Ok_inv)%bind_Ok_inv)%bind_Ok_inv.
  dcase H; [discriminate|]. apply bind_Ok_inv in H as (banks & Hbk & Hput).
  refine (grid_put_ok _ _ _ _ Hg _ _ _ _ _ Hput). destruct (proj2 (proj2 Hg) _ _ _ Hst) as (H1 & H2 & H3).
  split_and!; cbn; [by rewrite (vset_length _ _ _ _ Hbk)|done|]. intros i b Hi. destruct (decide (i = fb)) as [->|Hne].
  - rewrite (vget_vset_eq _ _ _ _ Hbk) in Hi. injection Hi as <-. right. exists node. split; [done|]. split; [done|].
    unfold flat_bank_in_sid in Hfb. apply bind_Ok_inv in Hfb as (bg & Hbg & (bk & Hbk' & [= <-])%bind_Ok_inv).
    split; [by eapply coord_of|]. split.
    + destruct (Z.leb_spec 0 (h_level_sid r)); [|by injection Hsid]. eapply coord_of; eauto.
    + exists bg, bk. split_and!; [by eapply coord_of|by eapply coord_of|done].
  - rewrite (vget_vset_ne _ _ _ i _ Hbk) in Hi by done. eauto.
Qed.

Lemma fresh_grid r : 0 <= h_pc_count r -> 0 <= h_sid_count r -> 0 <= h_banks_per_sid r ->
  let n := Z.to_nat (h_banks_per_sid r) in
  grid (part_ok r) (h_pc_count r) (h_sid_count r)
    (replicate (Z.to_nat (h_pc_count r)) (replicate (Z.to_nat (h_sid_count r)) (mkSet (replicate n empty_bank_ref) (replicate n false) 0))).
Proof.
  intros H1 H2 H3 n. split_and!; [rewrite length_replicate; lia|apply Forall_replicate; rewrite length_replicate; lia|].
  intros i j x (row & [_ Hr]%vget_Ok & [_ Hx]%vget_Ok)%get_set_row. apply lookup_replicate in Hr as [-> _].
  apply lookup_replicate in Hx as [-> _]. split_and!; cbn; [rewrite length_replicate; lia..|].
  intros k b [_ Hb]%vget_Ok. apply lookup_replicate in Hb as [-> _]. by left.
Qed.

Lemma build_sets_ok dev r r' :
  dev_ok d s dev -> paths_at_level (Z.to_nat (h_bank_level r)) (m_root dev) = m_bank_nodes dev -> levels_ok r ->
  0 <= h_pc_count r -> 0 <= h_next_sid r < h_sid_count r -> 0 <= h_next_flat_bank r < h_banks_per_sid r ->
  h_pending_refpbs r = [] -> build_refpb_sets dev r = Ok r' -> exists sets, r' = with_h_sets r sets /\ h34_ok is_bank r'.
Proof.
  intros Hok Hpaths Hlv Hpc Hsid Hfb Hpd. unfold build_refpb_sets. rewrite Hpaths. cbn zeta. intros (sets & Hf & H)%bind_Ok_inv.
  destruct (forallb _ sets) eqn:Hall; [|discriminate]. injection H as <-. exists sets. split; [done|].
  assert (Hg : grid (part_ok r) (h_pc_count r) (h_sid_count r) sets).
  { eapply foldM_inv; [|by apply fresh_grid; lia|exact Hf]. intros p g g' Hp Hg Hpl.
    apply (place_bank_ok dev r p g g'); try done. unfold is_bank. rewrite <- (dk_banks _ _ _ Hok). by apply list_elem_of_In. }
  split; cbn; [|done..|by rewrite Hpd]. apply (grid_impl _ _ _ _ _ Hg). intros i j x Hx (H1 & H2 & H3).
  split_and!; try done. intros k b Hb. destruct (H3 k b Hb) as [Hnone|]; [exfalso|done].
  destruct (get_set_row _ _ _ _ Hx) as (row & [_ Hr]%vget_Ok & [_ Hx']%vget_Ok). apply vget_Ok in Hb as [_ Hb].
  rewrite forallb_forall in Hall. specialize (Hall row). rewrite forallb_forall in Hall.
  specialize (Hall ltac:(by eapply list_elem_of_In, list_elem_of_lookup_2) x ltac:(by eapply list_elem_of_In, list_elem_of_lookup_2)).
  unfold set_complete in Hall. rewrite forallb_forall in Hall. specialize (Hall b ltac:(by eapply list_elem_of_In, list_elem_of_lookup_2)).
  apply bool_decide_eq_true in Hall. rewrite Hnone in Hall. by destruct Hall.
Qed.

(** [init] leaves the cursor at the first bank and nothing pending. *)
Lemma h34_init_ok dev r :
  dev_ok d s dev -> paths_at_level (bank_lvl d) (m_root dev) = m_bank_nodes dev -> HBM34PerBankRefresh_init dev = Ok r ->
  h34_ok is_bank r /\ levels_ok r /\ get_command_id s "REFpb" = Ok (h_cmd_refpb r) /\
  h_next_sid r = 0 /\ h_next_flat_bank r = 0 /\ h_pending_refpbs r = [] /\ 1 <= h_pc_count r.
Proof.
  intros Hok Hpaths. unfold HBM34PerBankRefresh_init. rewrite (dk_spec _ _ _ Hok). cbn zeta.
  intros (cmd & Hcmd & (pc & Hpc & (sid & Hsid & (bg & Hbg & (bank & Hbank & H)%bind_Ok_inv)%bind_Ok_inv)%bind_Ok_inv)%bind_Ok_inv)%bind_Ok_inv.
  apply bind_Ok_inv in H as (pcn & Hpcn%level_size_pos & (sidn & Hsidn & (bgn & Hbgn%level_size_pos & (bn & Hbn%level_size_pos & H)%bind_Ok_inv)%bind_Ok_inv)%bind_Ok_inv).
  apply bind_Ok_inv in H as (n1 & _ & (n2 & _ & H)%bind_Ok_inv).
  destruct (standard_levels d cfg s Hin Hcon) as [_ Hbl].
  assert (Z.to_nat bank = bank_lvl d) as Eb by (rewrite Hbl in Hbank; injection Hbank as <-; done).
  assert (Hlv : forall a b c e f g h i j k l m o p, levels_ok (mkH34 a pc sid bg bank b c e f g h i j k l m o p)).
  { clear H. intros. split; cbn; try (eapply mid_level_range; [|eassumption]; closed_elem). intros H0.
    dcase Hsid; [|injection Hsid as <-; lia]. eapply mid_level_range; [|exact Hsid]. closed_elem. }
  assert (1 <= sidn) as Hs1 by (dcase Hsidn; [by eapply level_size_pos|injection Hsidn as <-; lia]).
  apply build_sets_ok in H as (sets & -> & Hr); cbn; try done; [|by rewrite Eb|nia..].
  split; [done|]. split; [by apply Hlv|]. split_and!; done.
Qed.
End Init.
