(* ===== verification/RowPolicy.v ===== *)
(** * RowPolicy: row policies and plugins

    Models [ramulator/controller/rowpolicy] and
    [ramulator/controller/plugin]: the hooks a controller calls before
    scheduling, on a chosen request, after an issue and at the end of a
    tick, with the implementations of each interface. *)
From stdpp Require Import prelude gmap strings.
From S2P Require Import Prelude DramSpec Standards Node NodeTiming NodeTree Device Request CmdTrace AddrMapper Float32 ControllerState Controller Refresh.
Open Scope Z_scope.

(** ** ClosedCAP *)
Definition ClosedCAP_init (cap : Z) (d : DRAMDevice) : res ClosedCAP :=
  let m_spec := m_spec d in
  prepb ← get_command_id m_spec "PREpb";
  rd ← get_command_id m_spec "RD";
  wr ← get_command_id m_spec "WR";
  rda ← (if has_command m_spec "RDA" then get_command_id m_spec "RDA" else Ok (-1));
  wra ← (if has_command m_spec "WRA" then get_command_id m_spec "WRA" else Ok (-1));
  let num_banks := length (m_bank_nodes d) in
  Ok (mkCAP cap prepb rd wr rda wra (negb (rda =? -1) && negb (wra =? -1))
        (replicate num_banks 0) (replicate num_banks false)).

Definition with_cap_tracking (p : ClosedCAP) (accesses : list Z) (injected : list bool) : ClosedCAP :=
  mkCAP (m_cap p) (m_cmd_prepb p) (m_cmd_rd p) (m_cmd_wr p) (m_cmd_rda p) (m_cmd_wra p) (m_has_ap p)
    accesses injected.

(** The request is written through a reference: its new value is returned. *)
Definition ClosedCAP_try_upgrade_command (p : ClosedCAP) (c : ControllerBase) (req : Request) : res Request :=
  if negb (m_has_ap p) then Ok req
  else if bool_decide (addr_vec req = []) then Ok req
  else
    flat_bank_id ← get_flat_bank_id (c_device c) (addr_vec req);
    if (flat_bank_id <? 0) || (Z.of_nat (length (m_col_accesses p)) <=? flat_bank_id) then Ok req
    else
      n ← vget (m_col_accesses p) flat_bank_id;
      if n <? m_cap p then Ok req
      else
        rd ← (if command req =? m_cmd_rd p then ctrl_check_timing c (m_cmd_rda p) (addr_vec req) else Ok false);
        if (rd : bool) then Ok (set_final_command (set_command req (m_cmd_rda p)) (m_cmd_rda p))
        else
          wr ← (if command req =? m_cmd_wr p then ctrl_check_timing c (m_cmd_wra p) (addr_vec req) else Ok false);
          if (wr : bool) then Ok (set_final_command (set_command req (m_cmd_wra p)) (m_cmd_wra p))
          else Ok req.

Definition reset_bank (p : ClosedCAP) (id : Z) : res ClosedCAP :=
  a ← vset (m_col_accesses p) id 0;
  b ← vset (m_prepb_injected p) id false;
  Ok (with_cap_tracking p a b).

Definition ClosedCAP_on_issue (p : ClosedCAP) (d : DRAMDevice) (req : Request) : res ClosedCAP :=
  meta ← vget (command_meta (m_spec d)) (command req);
  p ← (if is_closing meta then for_each_target_bank reset_bank d (command req) (addr_vec req) p else Ok p);
  if is_accessing meta && negb (is_closing meta) && negb (bool_decide (addr_vec req = [])) then
    flat_bank_id ← get_flat_bank_id d (addr_vec req);
    if (0 <=? flat_bank_id) && (flat_bank_id <? Z.of_nat (length (m_col_accesses p))) then
      a ← vadd (m_col_accesses p) flat_bank_id 1;
      Ok (with_cap_tracking p a (m_prepb_injected p))
    else Ok p
  else Ok p.

(** One turn of the loop that injects an explicit precharge. *)
Definition inject_precharge (st : ClosedCAP * ControllerBase) (i : Z) : res (ClosedCAP * ControllerBase) :=
  let '(p, c) := st in
  n ← vget (m_col_accesses p) i;
  injected ← (if n <? m_cap p then Ok true else vget (m_prepb_injected p) i);
  if (injected : bool) then Ok (p, c)
  else
    node ← vget (m_bank_nodes (c_device c)) i;
    addr ← build_addr_vec (c_device c) (Some node);
    ok ← ctrl_check_timing c (m_cmd_prepb p) addr;
    if negb ok then Ok (p, c)
    else
      s ← ctrl_priority_send c (Request_cmd addr (m_cmd_prepb p));
      if (s.1 : bool) then
        b ← vset (m_prepb_injected p) i true;
        Ok (with_cap_tracking p (m_col_accesses p) b, s.2)
      else Ok (p, s.2).

Definition ClosedCAP_pre_schedule (p : ClosedCAP) (c : ControllerBase) : res ControllerBase :=
  st ← foldM inject_precharge (seqZ 0 (Z.of_nat (length (m_col_accesses p)))) (p, c);
  Ok (with_c_rowpolicy st.2 (ClosedCAPRowPolicy st.1)).

(** ** The row policy interface; the hooks of [OpenRowPolicy] do nothing *)
Definition rowpolicy_pre_schedule (c : ControllerBase) : res ControllerBase :=
  match c_rowpolicy c with
  | OpenRowPolicy => Ok c
  | ClosedCAPRowPolicy p => ClosedCAP_pre_schedule p c
  end.

Definition rowpolicy_try_upgrade_command (c : ControllerBase) (req : Request) : res Request :=
  match c_rowpolicy c with
  | OpenRowPolicy => Ok req
  | ClosedCAPRowPolicy p => ClosedCAP_try_upgrade_command p c req
  end.

Definition rowpolicy_on_issue (c : ControllerBase) (req : Request) : res ControllerBase :=
  match c_rowpolicy c with
  | OpenRowPolicy => Ok c
  | ClosedCAPRowPolicy p =>
      p ← ClosedCAP_on_issue p (c_device c) req;
      Ok (with_c_rowpolicy c (ClosedCAPRowPolicy p))
  end.

Definition rowpolicy_post_schedule (c : ControllerBase) : ControllerBase := c.

(** ** Plugins *)
Definition issued_record (clk : Z) (req : Request) : IssuedCommandRecord :=
  mkRec clk (command req) (final_command req) (addr_vec req) (type_id req) (source_id req).

Definition CommandCounter_on_issue (m_counters : gmap Z Z) (req : Request) : gmap Z Z :=
  match m_counters !! command req with
  | Some n => <[command req := n + 1]> m_counters
  | None => m_counters
  end.

Definition CommandCounter_setup (s : DRAMSpec) (commands_to_count : list string) : res (gmap Z Z) :=
  foldM (fun m name => id ← get_command_id s name; Ok (<[id := 0]> m)) commands_to_count ∅.

Definition CommandCounter_reset_stats (m_counters : gmap Z Z) : gmap Z Z := (fun _ => 0) <$> m_counters.

Definition plugin_pre_schedule (p : Plugin) : Plugin :=
  match p with
  | IssuedCommandValidationHook _ => IssuedCommandValidationHook []
  | p => p
  end.

Definition plugin_on_issue (c : ControllerBase) (req : Request) (p : Plugin) : res Plugin :=
  match p with
  | CommandCounter m => Ok (CommandCounter (CommandCounter_on_issue m req))
  | IssuedCommandValidationHook l => Ok (IssuedCommandValidationHook (l ++ [issued_record (c_clk c) req]))
  | CmdTraceRecorder binary n f =>
      f ← CmdTraceRecorder_on_issue binary n f (spec_of c) (c_clk c) req;
      Ok (CmdTraceRecorder binary n f)
  end.

Definition take_issued_commands_this_tick (l : list IssuedCommandRecord)
  : list IssuedCommandRecord * list IssuedCommandRecord := (l, []).

Definition plugins_pre_schedule (c : ControllerBase) : ControllerBase :=
  with_c_plugins c (map plugin_pre_schedule (c_plugins c)).

Definition plugins_on_issue (c : ControllerBase) (req : Request) : res ControllerBase :=
  ps ← mapM (plugin_on_issue c req) (c_plugins c);
  Ok (with_c_plugins c ps).

Definition plugins_post_schedule (c : ControllerBase) : ControllerBase := c.
