(* ===== verification/ControllerInit.v ===== *)
(** * ControllerInit: construction and final statistics of a controller

    Models [init_base], [setup_base], [get_tCK] and [finalize] of
    [ramulator/controller/controller_base.cpp].  The parsed configuration is
    a record; a parameter that is absent takes the default written in the
    code. *)
From stdpp Require Import prelude gmap strings.
From S2P Require Import Prelude DramSpec Standards Node NodeTiming NodeTree Device Request CmdTrace AddrMapper Float32 ControllerState Controller Refresh RowPolicy.
Open Scope Z_scope.

Inductive refresh_config := CfgNoRefresh | CfgAllBank | CfgPerBank | CfgHBM34PerBank.
Inductive rowpolicy_config := CfgOpen | CfgClosedCAP (cap : option Z).
Inductive plugin_config := CfgCommandCounter (commands_to_count : list string) | CfgValidationHook | CfgCmdTraceRecorder (binary : bool).

Record controller_config := mkCC {
  cc_dram_impl : string;
  cc_dram : dram_config;
  cc_wr_low_watermark : option f32;
  cc_wr_high_watermark : option f32;
  cc_read_buffer_size : option Z;
  cc_write_buffer_size : option Z;
  cc_priority_buffer_size : option Z;
  cc_refresh : refresh_config;
  cc_rowpolicy : rowpolicy_config;
  cc_mapper : mapper_impl;
  cc_plugins : list plugin_config
}.

Definition make_refresh (k : refresh_config) (d : DRAMDevice) : res RefreshManager :=
  match k with
  | CfgNoRefresh => Ok NoRefresh
  | CfgAllBank => r ← AllBankRefresh_init d; Ok (AllBank r)
  | CfgPerBank => r ← PerBankRefresh_init d; Ok (PerBank r)
  | CfgHBM34PerBank => r ← HBM34PerBankRefresh_init d; Ok (HBM34PerBank r)
  end.

Definition make_rowpolicy (k : rowpolicy_config) (d : DRAMDevice) : res RowPolicy :=
  match k with
  | CfgOpen => Ok OpenRowPolicy
  | CfgClosedCAP cap => p ← ClosedCAP_init (default 4 cap) d; Ok (ClosedCAPRowPolicy p)
  end.

(** Every mapper runs the common initialisation. *)
Definition make_mapper (k : mapper_impl) (d : DRAMDevice) : res AddrMapper :=
  b ← AddrMapperBase_init (m_spec d);
  Ok (mkAddrMapper k b).

(** The state of a plugin after its own initialisation; [setup] completes it. *)
Definition make_plugin (k : plugin_config) : Plugin :=
  match k with
  | CfgCommandCounter _ => CommandCounter ∅
  | CfgValidationHook => IssuedCommandValidationHook []
  | CfgCmdTraceRecorder binary => CmdTraceRecorder binary 0 []
  end.

Definition new_buffer (n : Z) : ReqBuffer := mkBuf [] (u64 n).

Definition init_base (reg : gmap string Creator) (cfg : controller_config) : res ControllerBase :=
  spec ← create reg (cc_dram_impl cfg) (cc_dram cfg);
  dev ← init spec;
  bank_level ← get_level_id spec "Bank";
  tCK_ps ← get_timing_value spec "tCK_ps";
  let nbanks := length (m_bank_nodes dev) in
  refresh ← make_refresh (cc_refresh cfg) dev;
  rowpolicy ← make_rowpolicy (cc_rowpolicy cfg) dev;
  mapper ← make_mapper (cc_mapper cfg) dev;
  Ok (mkCtrl dev mapper (-1) 0 refresh rowpolicy (map make_plugin (cc_plugins cfg))
        [] (new_buffer (Z.of_nat nbanks))
        (new_buffer (default 1568 (cc_priority_buffer_size cfg)))
        (new_buffer (default 32 (cc_read_buffer_size cfg)))
        (new_buffer (default 32 (cc_write_buffer_size cfg)))
        ∅ (default f32_0_2 (cc_wr_low_watermark cfg)) (default f32_0_8 (cc_wr_high_watermark cfg)) false
        bank_level tCK_ps (replicate nbanks 0) zero_counters [] [] [] [] []).

(** The per-core vectors are resized to the number of cores. *)
Definition setup_base (num_cores : Z) (c : ControllerBase) : ControllerBase :=
  let resize l := vresize l num_cores 0 in
  with_c_read_conflicts_core
    (with_c_read_misses_core
      (with_c_read_hits_core c (resize (c_read_hits_core c)))
      (resize (c_read_misses_core c)))
    (resize (c_read_conflicts_core c)).

Definition setup_plugin (c : ControllerBase) (k : plugin_config) (p : Plugin) : res Plugin :=
  match k, p with
  | CfgCommandCounter names, CommandCounter _ => m ← CommandCounter_setup (spec_of c) names; Ok (CommandCounter m)
  | CfgCmdTraceRecorder _, CmdTraceRecorder binary _ f =>
      Ok (CmdTraceRecorder binary (level_count (spec_of c)) (f ++ CmdTraceRecorder_setup binary (spec_of c)))
  | _, p => Ok p
  end.

(** [connect_frontend] calls [setup] on the controller and then on its
    components; the channel id was set by the memory system before. *)
Definition setup_controller (cfg : controller_config) (num_cores channel_id : Z) (c : ControllerBase) : res ControllerBase :=
  let c := setup_base num_cores (ctrl_set_channel_id c channel_id) in
  ps ← mapM (fun kp => setup_plugin c kp.1 kp.2) (zip (cc_plugins cfg) (c_plugins c));
  Ok (with_c_plugins c ps).

(** ** Final statistics *)
Definition ctrl_get_tCK (c : ControllerBase) : f32 := fdiv (f32_of_Z (c_tCK_ps c)) f32_1000.

Record final_stats := mkFinal {
  s_avg_read_latency : f32;
  s_queue_len_avg : f32;
  s_read_queue_len_avg : f32;
  s_write_queue_len_avg : f32;
  s_priority_queue_len_avg : f32;
  s_read_throughput_MBps : f32;
  s_write_throughput_MBps : f32;
  s_total_throughput_MBps : f32
}.

Definition fratio (n d : Z) : f32 := if 0 <? d then fdiv (f32_of_Z n) (f32_of_Z d) else f32_0.

Definition finalize (c : ControllerBase) : final_stats :=
  let st := c_stats c in
  let clk := st s_measured_clk in
  let time_ps := fmul (f32_of_Z clk) (f32_of_Z (c_tCK_ps c)) in
  let throughput n :=
    if flt f32_0 time_ps
    then fdiv (fmul (f32_of_Z (u64 (n * ctrl_get_tx_bytes c))) f32_1e6) time_ps else f32_0 in
  let rd := throughput (st s_num_read_reqs_served) in
  let wr := throughput (st s_num_write_reqs_served) in
  mkFinal (fratio (st s_read_latency) (st s_num_read_reqs_served))
    (fratio (st s_queue_len) clk) (fratio (st s_read_queue_len) clk)
    (fratio (st s_write_queue_len) clk) (fratio (st s_priority_queue_len) clk)
    rd wr (fadd rd wr).
