(* ===== verification/GenericDdr.v ===== *)
(** * GenericDdr: the single-issue controller

    Models [ramulator/controller/impl/generic_ddr_controller.cpp]: one tick
    chooses at most one request, from the active buffer, then the priority
    buffer, then the read or write buffer, and issues its command. *)
From stdpp Require Import prelude gmap strings.
From S2P Require Import Prelude DramSpec Standards Node NodeTiming NodeTree Device Request AddrMapper Float32 ControllerState Controller Refresh RowPolicy.
Open Scope Z_scope.

(** Writing the request behind an iterator. *)
Definition write_request (c : ControllerBase) (b : buf_id) (i : nat) (r : Request) : ControllerBase :=
  set_buf c b (modify_at (get_buf c b) i (fun _ => r)).

(** The row policy may upgrade the command of the candidate in place. *)
Definition upgrade_candidate (c : ControllerBase) (b : buf_id) (i : nat) : res ControllerBase :=
  r ← request_at c b i;
  r' ← rowpolicy_try_upgrade_command c r;
  Ok (write_request c b i r').

Definition stats_once (c : ControllerBase) (b : buf_id) (i : nat) : res ControllerBase :=
  r ← request_at c b i;
  if is_stat_updated r then Ok c else update_request_stats c b i.

(** Issuing the candidate's command and telling the row policy and the
    plugins. *)
Definition issue_candidate (c : ControllerBase) (b : buf_id) (i : nat) : res ControllerBase :=
  r ← request_at c b i;
  c ← issue c (command r) (addr_vec r);
  c ← rowpolicy_on_issue c r;
  plugins_on_issue c r.

Definition advance_request (c : ControllerBase) (b : buf_id) (i : nat) : res ControllerBase :=
  r ← request_at c b i;
  if command r =? final_command r then retire_request c b i
  else
    meta ← vget (command_meta (spec_of c)) (command r);
    if is_opening meta then promote_to_active c b i else Ok c.

(** Candidate selection: active, then priority, then read or write. *)
Definition select_candidate (c : ControllerBase) : res (Candidate * ControllerBase) :=
  p ← pick_best_ready_from c Bactive None;
  p ← (if bool_decide (is_Some p.1) then Ok p else pick_priority_if p.2 None);
  if bool_decide (is_Some p.1) || negb (buf_size (c_priority_buffer p.2) =? 0) then Ok p
  else pick_rw_if p.2 None.

Definition serve_candidate (cand : Candidate) (c : ControllerBase) : res ControllerBase :=
  match cand with
  | None => Ok c
  | Some (b, i) =>
      c ← upgrade_candidate c b i;
      c ← stats_once c b i;
      c ← issue_candidate c b i;
      advance_request c b i
  end.

(** The hooks before scheduling, common to all controllers. *)
Definition pre_tick (c : ControllerBase) : res ControllerBase :=
  c ← refresh_tick (tick_prologue c);
  c ← rowpolicy_pre_schedule c;
  Ok (plugins_pre_schedule c).

Definition post_tick (c : ControllerBase) : ControllerBase :=
  plugins_post_schedule (rowpolicy_post_schedule c).

Definition GenericDDR_tick (c : ControllerBase) : res ControllerBase :=
  c ← pre_tick c;
  p ← select_candidate c;
  c ← serve_candidate p.1 p.2;
  Ok (post_tick c).
