(* ===== verification/ControllerSafety.v ===== *)
(** * ControllerSafety: the GenericDDR controller never goes wrong

    [ctrl_ok] is the invariant of a controller whose requests were accepted
    with valid addresses.  Under it no operation indexes a vector out of
    bounds, throws or fails, with one documented exception: a refresh that
    finds the priority buffer full; and every operation keeps it, the state
    of the banks included. *)
From stdpp Require Import prelude gmap strings.
From S2P Require Import Prelude DramSpec Commands Standards Node NodeTiming NodeTree Device DeviceInv DeviceProps BankSafety BankProgress IssueSafety Request AddrMapper Float32 ControllerState Controller Refresh NodeAddr HbmRefresh RowPolicy ControllerInit GenericDdr.
Open Scope Z_scope.

(** The only exceptions a controller may end with. *)
Definition refresh_error (e : err) : Prop :=
  e = Throw "Failed to send refresh!" \/ e = Throw "Failed to send per-bank refresh!".

Section Safety.
Context (d : standard) (cfg : dram_config) (s : DRAMSpec).
Context (Hin : In d all_standards) (Hcon : construct d cfg = Ok s) (Hs : spec_ok s).
Local Abbreviation T := (std_traits d).

(** ** The invariant *)
Record req_ok (n : nat) (r : Request) : Prop := {
  ro_wanted : wanted d s (final_command r) (addr_vec r);
  ro_addr : addr_ok s (row_lvl d) (addr_vec r);
  ro_length : (Z.to_nat (level_count s) <= length (addr_vec r))%nat;
  ro_rw : type_id r = Type_Read \/ type_id r = Type_Write -> concrete d s (addr_vec r);
  ro_source : source_id r = -1 \/ 0 <= source_id r < Z.of_nat n
}.

Definition in_tree (dev : DRAMDevice) (p : list nat) : Prop := is_Some (node_at (m_root dev) p).

Definition refresh_ok (dev : DRAMDevice) (m : RefreshManager) : Prop :=
  match m with
  | NoRefresh => True
  | AllBank r => get_command_id s "REFab" = Ok (ab_cmd_refab r) /\ Forall (in_tree dev) (ab_ref_nodes r)
  | PerBank r =>
      get_command_id s "REFpb" = Ok (pb_cmd_refpb r) /\
      Forall (fun p => in_tree dev p /\ length p = bank_lvl d) (pb_bank_nodes r) /\
      0 <= pb_next_bank_idx r < Z.of_nat (length (pb_bank_nodes r))
  | HBM34PerBank r => get_command_id s "REFpb" = Ok (h_cmd_refpb r) /\ h34_ok (is_bank d s) r
  end.

Record cap_ok (dev : DRAMDevice) (p : ClosedCAP) : Prop := {
  co_accesses : length (m_col_accesses p) = length (m_bank_nodes dev);
  co_injected : length (m_prepb_injected p) = length (m_bank_nodes dev);
  co_prepb : get_command_id s "PREpb" = Ok (m_cmd_prepb p);
  co_rd : get_command_id s "RD" = Ok (m_cmd_rd p);
  co_wr : get_command_id s "WR" = Ok (m_cmd_wr p);
  co_ap : m_has_ap p = true ->
    get_command_id s "RDA" = Ok (m_cmd_rda p) /\ get_command_id s "WRA" = Ok (m_cmd_wra p)
}.

Definition policy_ok (dev : DRAMDevice) (p : RowPolicy) : Prop :=
  match p with OpenRowPolicy => True | ClosedCAPRowPolicy p => cap_ok dev p end.

Definition plugin_ok (p : Plugin) : Prop :=
  match p with CmdTraceRecorder _ k _ => k <= level_count s | _ => True end.

Record ctrl_ok (n : nat) (c : ControllerBase) : Prop := {
  ck_dev : dev_ok d s (c_device c);
  ck_banks : banks_wf d (c_device c);
  ck_reqs : forall b r, r ∈ buffer (get_buf c b) -> req_ok n r;
  ck_active : forall r, r ∈ buffer (c_active_buffer c) -> concrete d s (addr_vec r);
  ck_count : length (c_active_per_bank c) = length (m_bank_nodes (c_device c));
  ck_hits : length (c_read_hits_core c) = n;
  ck_misses : length (c_read_misses_core c) = n;
  ck_conflicts : length (c_read_conflicts_core c) = n;
  ck_refresh : refresh_ok (c_device c) (c_refresh c);
  ck_policy : policy_ok (c_device c) (c_rowpolicy c);
  ck_plugins : Forall plugin_ok (c_plugins c);
  ck_mapper : AddrMapperBase_init s = Ok (am_base (c_mapper c))
}.

(** A candidate points to a request whose command may be issued. *)
Definition cand_ok (c : ControllerBase) (cand : Candidate) : Prop :=
  match cand with
  | None => True
  | Some (b, i) => exists r, buffer (get_buf c b) !! i = Some r /\ issuable d s (c_device c) (command r) (addr_vec r)
  end.

(** ** Updates that the invariant does not see *)
Lemma get_set_buf c b v b' : get_buf (set_buf c b v) b' = if decide (b' = b) then v else get_buf c b'.
Proof. destruct b, b'; done. Qed.

Lemma ok_count n c k v : ctrl_ok n c -> ctrl_ok n (count_stat c k v).
Proof. intros []. by split. Qed.

Lemma ok_call_back n c r : ctrl_ok n c -> ctrl_ok n (call_back c r).
Proof. intros []. unfold call_back. destruct (callback r); by split. Qed.

Lemma ok_set_buf n c b v :
  ctrl_ok n c -> (forall r, r ∈ buffer v -> req_ok n r /\ (b = Bactive -> concrete d s (addr_vec r))) ->
  ctrl_ok n (set_buf c b v).
Proof.
  intros [] Hv. split; try (destruct b; done).
  - intros b' r. rewrite get_set_buf. destruct (decide (b' = b)); [apply Hv|eauto].
  - intros r. change (c_active_buffer (set_buf c b v)) with (get_buf (set_buf c b v) Bactive). rewrite get_set_buf.
    destruct (decide (Bactive = b)) as [<-|]; [intros Hr; by apply (Hv r Hr)|eauto].
Qed.

Lemma ok_active_reqs n c b r : ctrl_ok n c -> r ∈ buffer (get_buf c b) ->
  req_ok n r /\ (b = Bactive -> concrete d s (addr_vec r)).
Proof. intros H Hr. split; [by eapply (ck_reqs n c H b)|]. intros ->. by apply (ck_active n c H). Qed.

Lemma ok_remove n c b i : ctrl_ok n c -> ctrl_ok n (set_buf c b (remove (get_buf c b) i)).
Proof.
  intros H. apply ok_set_buf; [done|]. cbn. intros r Hr%elem_of_erase. by apply (ok_active_reqs n c b r).
Qed.

(** Rewriting a request in place, keeping its address. *)
Lemma ok_modify n c b i f :
  ctrl_ok n c -> (forall r, buffer (get_buf c b) !! i = Some r -> req_ok n r -> req_ok n (f r) /\ addr_vec (f r) = addr_vec r) ->
  ctrl_ok n (set_buf c b (modify_at (get_buf c b) i f)).
Proof.
  intros H Hf. apply ok_set_buf; [done|]. cbn. intros r Hr. apply list_elem_of_lookup in Hr as [j Hj].
  destruct (decide (j = i)) as [->|Hne].
  - rewrite list_lookup_alter_eq in Hj. destruct (buffer (get_buf c b) !! i) as [r0|] eqn:E0; [|done]. cbn in Hj. injection Hj as <-.
    destruct (ok_active_reqs n c b r0 H) as [Hr Ha]; [by eapply list_elem_of_lookup_2|].
    destruct (Hf r0 eq_refl Hr) as [Hr' ->]. done.
  - rewrite list_lookup_alter_ne in Hj by done. apply (ok_active_reqs n c b r H). by eapply list_elem_of_lookup_2.
Qed.

Lemma req_ok_command n r cmd : req_ok n r -> req_ok n (set_command r cmd).
Proof. intros []. by split. Qed.

Lemma req_ok_stat n r b : req_ok n r -> req_ok n (set_stat_updated r b).
Proof. intros []. by split. Qed.

Lemma request_at_Ok c b i r : buffer (get_buf c b) !! i = Some r -> request_at c b i = Ok r.
Proof. unfold request_at. by intros ->. Qed.

(** ** Asking the device *)
Section Ask.
Context (n : nat) (c : ControllerBase) (Hc : ctrl_ok n c).
Local Abbreviation dev := (c_device c).

Lemma ask_preq r : req_ok n r -> exists cmd, ctrl_get_preq_command c (final_command r) (addr_vec r) = Ok cmd /\
  issuable d s dev cmd (addr_vec r).
Proof.
  intros Hr. destruct (get_preq_total d cfg s Hin Hcon dev (final_command r) (addr_vec r) (c_clk c)) as [cmd Hcmd];
    [apply Hc|apply Hc|apply Hr|apply Hr|].
  exists cmd. split; [exact Hcmd|]. eapply (get_preq_safe d cfg s Hin Hcon dev); [apply Hc|apply Hr|exact Hcmd].
Qed.

Lemma ask_timing r cmd : req_ok n r -> issuable d s dev cmd (addr_vec r) -> is_Ok (ctrl_check_timing c cmd (addr_vec r)).
Proof.
  intros Hr Hi. eapply (check_safe d s dev); [apply Hc|eapply (issuable_range d cfg s Hin Hcon dev); [apply Hc|done]|apply Hr].
Qed.

Lemma meta_of cmd av : issuable d s dev cmd av -> exists name cimpl m,
  get_command_id s name = Ok cmd /\ impl_by_name T name = Some cimpl /\ addr_for d s (impl_target cimpl) av /\
  vget (command_meta (spec_of c)) cmd = Ok m /\ strip_bus m = strip_bus (impl_meta cimpl) /\
  vget (bank_targets (spec_of c)) cmd = Ok (impl_target cimpl) /\ (name ∈ opening_names -> concrete d s av).
Proof.
  intros Hi. destruct (issuable_named d cfg s Hin Hcon dev cmd av (ck_dev _ _ Hc) Hi) as (name & cimpl & Hid & Himpl & Hav & Hop).
  destruct (standard_handlers d cfg s name cmd Hin Hcon Hid) as (c' & Hc' & Hh). rewrite Himpl in Hc'. injection Hc' as <-.
  pose proof (ha_meta _ _ _ Hh) as Hm. destruct (zlookup (command_meta s) cmd) as [m|] eqn:Em; [|done].
  assert (Hm' : strip_bus m = strip_bus (impl_meta cimpl)) by (cbn [fmap option_fmap option_map] in Hm; congruence).
  exists name, cimpl, m. unfold spec_of. rewrite (dk_spec _ _ _ (ck_dev _ _ Hc)). unfold vget at 1. rewrite Em.
  split_and!; try done. by apply of_zlookup, Hh.
Qed.

Lemma flat_in_range av : concrete d s av -> exists i, get_flat_bank_id dev av = Ok i /\
  0 <= i < Z.of_nat (length (m_bank_nodes dev)).
Proof.
  intros Hav. destruct (flat_bank d s dev av (row_pos d cfg s Hin Hcon) (ck_dev _ _ Hc) Hav) as (i & Hi & Hp).
  exists i. split; [done|]. apply vget_is_Ok. by eexists.
Qed.

Lemma scan_total sb av : sb = false -> readable d av -> forall ids,
  (forall i, i ∈ ids -> 0 <= i < Z.of_nat (length (c_active_per_bank c))) -> is_Ok (scan_active c sb av ids).
Proof.
  intros -> Hrd. induction ids as [|i ids IH]; intros Hi; cbn; [by eexists|].
  assert (IH' : is_Ok (scan_active c false av ids)) by (apply IH; intros j Hj; apply Hi; by apply list_elem_of_further).
  pose proof (Hi i (list_elem_of_here _ _)) as Hr. destruct (proj2 (vget_is_Ok (c_active_per_bank c) i) Hr) as [k ->]. cbn.
  destruct (k =? 0); [done|]. rewrite (ck_count _ _ Hc) in Hr. destruct (proj2 (vget_is_Ok (m_bank_nodes dev) i) Hr) as [p Hp].
  rewrite (bank_matches_spec d s dev av i p (ck_dev _ _ Hc) Hrd Hp). cbn. case_match; [by eexists|done].
Qed.

Lemma would_close_total r : issuable d s dev (command r) (addr_vec r) -> is_Ok (would_close_active c r).
Proof.
  intros Hi. destruct (meta_of _ _ Hi) as (name & cimpl & m & _ & _ & Hav & Hm & _ & Ht & _).
  unfold would_close_active. rewrite Hm, Ht. cbn [mbind res_bind]. destruct (negb _); [by eexists|].
  destruct (_ =? 0); [by eexists|]. destruct (decide _) as [E|E].
  - rewrite E in Hav. destruct (flat_in_range _ (proj2 Hav)) as (i & -> & Hr). cbn [mbind res_bind].
    rewrite <- (ck_count _ _ Hc) in Hr. destruct (proj2 (vget_is_Ok _ _) Hr) as [k ->]. by eexists.
  - destruct (impl_target cimpl) eqn:Et; [done|..|by destruct Hav].
    apply scan_total; [done|apply Hav|]. intros i Hi'. apply elem_of_seqZ in Hi'. lia.
Qed.

Lemma row_total r (q : DRAMDevice -> Z -> AddrVec_t -> Z -> res bool) :
  q = check_rowbuffer_hit \/ q = check_node_open -> req_ok n r -> concrete d s (addr_vec r) ->
  is_Ok (q dev (final_command r) (addr_vec r) (c_clk c)).
Proof.
  intros Hq Hr Hav. destruct (ro_wanted _ _ Hr) as (name & cimpl & _ & Hid & Hc' & _).
  destruct (standard_handlers d cfg s name _ Hin Hcon Hid) as (c1 & Hc1 & Hh). rewrite Hc' in Hc1. injection Hc1 as <-.
  destruct (flat_bank d s dev _ (row_pos d cfg s Hin Hcon) (ck_dev _ _ Hc) Hav) as (i & Hi & Hp).
  destruct (addr_row d cfg s Hin Hcon _ (ro_addr _ _ Hr)) as [row Hrow].
  destruct (dk_nodes _ _ _ (ck_dev _ _ Hc) (bank_path d (addr_vec r))) as [x Hx];
    [apply vget_Ok in Hp as [_ Hp]; by eapply list_elem_of_lookup_2|].
  destruct Hq as [-> | ->]; unfold check_rowbuffer_hit, check_node_open, row_query.
  all: rewrite (dk_spec _ _ _ (ck_dev _ _ Hc)).
  1: rewrite (of_zlookup _ _ _ (ha_rowhit _ _ _ Hh)). 2: rewrite (of_zlookup _ _ _ (ha_rowopen _ _ _ Hh)).
  all: cbn [mbind res_bind].
  1: destruct (impl_rowhit cimpl) as [f|] eqn:Ef; [|by eexists]. 2: destruct (impl_rowopen cimpl) as [f|] eqn:Ef; [|by eexists].
  all: rewrite Hi; cbn [mbind res_bind]; unfold bank_node; rewrite Hp; cbn [mbind res_bind]; rewrite Hx; cbn [of_option mbind res_bind].
  all: clear Hh Hid; by_impl Hc'; cbn in Ef; try discriminate; injection Ef as <-; try by eexists.
  all: unfold RD_rowhit, RDA_rowhit, WR_rowhit, WRA_rowhit, RD_rowhit; case_match; [rewrite Hrow|]; by eexists.
Qed.
End Ask.

(** ** Choosing a candidate *)
Local Abbreviation total := (fun _ : err => False).

Definition filter_ok (n : nat) (c : ControllerBase) (filter : RequestFilter) : Prop :=
  forall r, req_ok n r -> issuable d s (c_device c) (command r) (addr_vec r) -> is_Ok (run_filter filter r).

Section Schedule.
Context (n : nat) (c : ControllerBase) (Hc : ctrl_ok n c) (filter : RequestFilter) (Hf : filter_ok n c filter).

(** Requests keep everything but their command; the answer is issuable. *)
Record scanned (l0 : list Request) (st : frfcfs) : Prop := {
  sc_reqs : forall j r, fr_buffer st !! j = Some r -> exists r0 cmd, l0 !! j = Some r0 /\ r = set_command r0 cmd;
  sc_length : length (fr_buffer st) = length l0;
  sc_cand : forall i r, fr_cand st = Some (i, r) -> fr_buffer st !! i = Some r /\
    issuable d s (c_device c) (command r) (addr_vec r)
}.

Lemma scanned_write l0 st k r0 cmd cand t :
  scanned l0 st -> fr_buffer st !! k = Some r0 ->
  (forall i r, cand = Some (i, r) -> (i = k /\ r = set_command r0 cmd /\ issuable d s (c_device c) cmd (addr_vec r0)) \/
     (fr_cand st = Some (i, r) /\ i <> k)) ->
  scanned l0 (mkFr cand t (<[k := set_command r0 cmd]> (fr_buffer st))).
Proof.
  intros [Hr Hl Hcd] Hk Hcand. pose proof (lookup_lt_Some _ _ _ Hk) as Hlt. split; cbn.
  - intros j r Hj. destruct (decide (j = k)) as [->|Hne]; [|rewrite list_lookup_insert_ne in Hj by done; eauto].
    rewrite list_lookup_insert_eq in Hj by done. injection Hj as <-. destruct (Hr k r0 Hk) as (r1 & cm & H1 & ->). by exists r1, cmd.
  - by rewrite length_insert.
  - intros i r Hi. destruct (Hcand i r Hi) as [(-> & -> & His)|(Ho & Hne)].
    + split; [by apply list_lookup_insert_eq|done].
    + destruct (Hcd i r Ho) as [H1 H2]. split; [by rewrite list_lookup_insert_ne|done].
Qed.

Lemma scan_step l0 st k :
  (k < length l0)%nat -> (forall r, r ∈ l0 -> req_ok n r) -> scanned l0 st ->
  (forall i r, fr_cand st = Some (i, r) -> (i < k)%nat) ->
  ends total (frfcfs_step c filter st k) (fun st' => scanned l0 st' /\ forall i r, fr_cand st' = Some (i, r) -> (i < S k)%nat).
Proof.
  intros Hk Hl Hst Hlt. destruct (lookup_lt_is_Some_2 (fr_buffer st) k) as [r Hr]; [rewrite (sc_length _ _ Hst); lia|].
  destruct (sc_reqs _ _ Hst k r Hr) as (r0 & cm & Hr0 & Er).
  assert (Hro : req_ok n r) by (subst r; apply req_ok_command, Hl; by eapply list_elem_of_lookup_2).
  unfold frfcfs_step. rewrite Hr. cbn [of_option mbind res_bind]. destruct (ask_preq n c Hc r Hro) as (cmd & -> & His).
  cbn [mbind res_bind]. cbn zeta. destruct (Hf (set_command r cmd)) as [ok ->]; [by apply req_ok_command|exact His|]. cbn [mbind res_bind].
  assert (Hkeep : forall t, scanned l0 (mkFr (fr_cand st) t (<[k := set_command r cmd]> (fr_buffer st)))).
  { intros t. apply scanned_write; [done..|]. intros i x Hx. right. split; [done|]. specialize (Hlt i x Hx). lia. }
  assert (Hnew : forall t, scanned l0 (mkFr (Some (k, set_command r cmd)) t (<[k := set_command r cmd]> (fr_buffer st)))).
  { intros t. apply scanned_write; [done..|]. intros i x [= <- <-]. left. by split_and!. }
  assert (Hold : forall i x, fr_cand st = Some (i, x) -> (i < S k)%nat) by (intros i x Hx; specialize (Hlt i x Hx); lia).
  assert (Hself : forall i x, Some (k, set_command r cmd) = Some (i, x) -> (i < S k)%nat) by (intros i x [= <- _]; lia).
  destruct (negb ok); cbn; [by split|]. destruct (ask_timing n c Hc r cmd Hro His) as [t ->]. cbn [mbind res_bind].
  destruct (fr_cand st) as [[j x]|] eqn:Ej; cbn; [|by split]. destruct (negb _); [destruct t; by split|].
  destruct (_ <? _); cbn; by split.
Qed.

Lemma pick_best_safe b : ends total (pick_best_ready_from c b filter) (fun p => ctrl_ok n p.2 /\ cand_ok p.2 p.1).
Proof.
  assert (Hl : forall r, r ∈ buffer (get_buf c b) -> req_ok n r) by (intros r; apply (ck_reqs n c Hc)).
  unfold pick_best_ready_from, get_best_request. apply ends_bind, ends_bind.
  eapply ends_mono; [apply (ends_seq total (fun k st => scanned (buffer (get_buf c b)) st /\
    forall i r, fr_cand st = Some (i, r) -> (i < k)%nat))|].
  - intros k st Hk [Hst Hlt]. by apply scan_step.
  - split; [|done]. split; cbn; [|done..]. intros j r Hj. exists r, (command r). split; [done|]. by destruct r.
  - intros st _ [Hst _]. cbn. set (v := mkBuf (fr_buffer st) (max_size (get_buf c b))).
    assert (Hok : ctrl_ok n (set_buf c b v)).
    { apply ok_set_buf; [done|]. cbn. intros r Hr. apply list_elem_of_lookup in Hr as [j Hj].
      destruct (sc_reqs _ _ Hst j r Hj) as (r0 & cmd & H0 & ->).
      destruct (ok_active_reqs n c b r0 Hc) as [Hr Ha]; [by eapply list_elem_of_lookup_2|]. split; [by apply req_ok_command|done]. }
    destruct (fr_cand st) as [[i r]|] eqn:Ei; cbn; [|done]. destruct (sc_cand _ _ Hst i r Ei) as [Hi His].
    assert (Hb : buffer (get_buf (set_buf c b v) b) !! i = Some r) by (rewrite get_set_buf, decide_True by done; exact Hi).
    rewrite (request_at_Ok _ _ _ _ Hb). cbn [mbind res_bind].
    assert (His' : issuable d s (c_device (set_buf c b v)) (command r) (addr_vec r)) by (by destruct b).
    destruct (ask_timing n _ Hok r (command r)) as [t ->]; [apply (ck_reqs _ _ Hok b); by eapply list_elem_of_lookup_2|done|].
    cbn. destruct t; cbn; [|done]. split; [done|]. eauto.
Qed.

Lemma pick_priority_safe : ends total (pick_priority_if c filter) (fun p => ctrl_ok n p.2 /\ cand_ok p.2 p.1).
Proof.
  unfold pick_priority_if. destruct (buffer (c_priority_buffer c)) as [|r l] eqn:El; [done|].
  assert (H0 : buffer (get_buf c Bpriority) !! 0%nat = Some r) by (cbn; by rewrite El).
  assert (Hr : req_ok n r) by (apply (ck_reqs n c Hc Bpriority); by eapply list_elem_of_lookup_2).
  destruct (ask_preq n c Hc r Hr) as (cmd & -> & His). cbn [mbind res_bind]. cbn zeta.
  set (c1 := with_c_priority_buffer c _).
  assert (Hok : ctrl_ok n c1).
  { apply (ok_modify n c Bpriority 0 (fun r => set_command r cmd) Hc). intros x _ Hx. split; [by apply req_ok_command|done]. }
  assert (H1 : buffer (get_buf c1 Bpriority) !! 0%nat = Some (set_command r cmd)) by (cbn; by rewrite El).
  destruct (ask_timing n c1 Hok (set_command r cmd) cmd) as [t ->]; [by apply req_ok_command|exact His|]. cbn [mbind res_bind].
  destruct (negb t); [done|]. destruct (would_close_total n c1 Hok (set_command r cmd)) as [k ->]; [exact His|]. cbn [mbind res_bind].
  destruct k; [done|]. destruct (Hf (set_command r cmd)) as [ok ->]; [by apply req_ok_command|exact His|]. cbn [mbind res_bind].
  destruct (negb ok); [done|]. cbn. split; [done|]. eauto.
Qed.
End Schedule.

Lemma ok_write_mode n c : ctrl_ok n c -> ctrl_ok n (set_write_mode c).
Proof. intros []. unfold set_write_mode. repeat case_match; by split. Qed.

Lemma device_write_mode c : c_device (set_write_mode c) = c_device c.
Proof. unfold set_write_mode. by repeat case_match. Qed.

Lemma pick_rw_safe n c filter : ctrl_ok n c -> filter_ok n c filter ->
  ends total (pick_rw_if c filter) (fun p => ctrl_ok n p.2 /\ cand_ok p.2 p.1).
Proof.
  intros Hc%ok_write_mode Hf. unfold pick_rw_if. cbn zeta. apply pick_best_safe; [done|]. intros r Hr Hi. cbn.
  destruct (would_close_total n _ Hc r Hi) as [k ->]. cbn. destruct k; [by eexists|].
  rewrite device_write_mode in Hi. by apply Hf.
Qed.

Lemma select_safe n c : ctrl_ok n c -> ends total (select_candidate c) (fun p => ctrl_ok n p.2 /\ cand_ok p.2 p.1).
Proof.
  intros Hc. assert (Hnone : forall c, filter_ok n c None) by (intros c' r _ _; by eexists).
  unfold select_candidate. apply ends_bind. eapply ends_mono; [by apply pick_best_safe|]. intros p _ [H1 H2].
  apply ends_bind. apply (ends_mono _ _ (fun p => ctrl_ok n p.2 /\ cand_ok p.2 p.1)).
  - apply ends_if; [done|]. intros _. by apply pick_priority_safe.
  - intros q _ [H3 H4]. apply ends_if; [done|]. intros _. by apply pick_rw_safe.
Qed.
End Safety.
