(* ===== verification/Hbm.v ===== *)
(** * Hbm: the two-slot HBM controllers

    Models [ramulator/controller/impl/hbm_controller_base.cpp], the HBM1/2
    controller (which adds nothing to it) and [hbm34_controller.cpp].  A tick
    may issue one column command and one row command; on HBM3/4 column
    commands issue only on rising edges and precharges obey the pairing rules
    on falling edges.  [slot_matches] is virtual, so it is an argument of the
    shared code. *)
From stdpp Require Import prelude gmap strings.
From S2P Require Import Prelude DramSpec Standards Node NodeTiming NodeTree Device Request AddrMapper Float32 ControllerState Controller Refresh RowPolicy GenericDdr.
Open Scope Z_scope.

Inductive SlotType := ColumnBus | RowBus.

#[export] Instance SlotType_eq_dec : EqDecision SlotType.
Proof. solve_decision. Defined.

Record IssuedCommand := mkIC { ic_slot : SlotType; ic_command : Z; ic_addr_vec : AddrVec_t; ic_clk : Z }.

Definition SlotMatcher : Type := ControllerBase -> Request -> SlotType -> res bool.

(** ** HBMControllerBase *)
Definition HBM_slot_matches : SlotMatcher := fun c req slot =>
  meta ← vget (command_meta (spec_of c)) (command req);
  Ok (match slot with ColumnBus => is_column_command meta | RowBus => is_row_command meta end).

Section Slots.
Context (slot_matches : SlotMatcher).

Definition select_slot (c : ControllerBase) (slot : SlotType) : res (Candidate * ControllerBase) :=
  let filter : RequestFilter := Some (fun req => slot_matches c req slot) in
  p ← (if decide (slot = ColumnBus) then pick_best_ready_from c Bactive filter else Ok (None, c));
  p ← (if bool_decide (is_Some p.1) then Ok p else pick_priority_if p.2 filter);
  if bool_decide (is_Some p.1) || negb (buf_size (c_priority_buffer p.2) =? 0) then Ok p
  else pick_rw_if p.2 filter.

(** An upgrade that leaves the slot is undone (the command, not the final
    command). *)
Definition upgrade_in_slot (c : ControllerBase) (b : buf_id) (i : nat) (slot : SlotType) : res ControllerBase :=
  r ← request_at c b i;
  let original_cmd := command r in
  r' ← rowpolicy_try_upgrade_command c r;
  keep ← (if command r' =? original_cmd then Ok true else slot_matches c r' slot);
  Ok (write_request c b i (if (keep : bool) then r' else set_command r' original_cmd)).

Definition try_issue_slot (c : ControllerBase) (slot : SlotType) : res (option IssuedCommand * ControllerBase) :=
  p ← select_slot c slot;
  match p.1 with
  | None => Ok (None, p.2)
  | Some (b, i) =>
      c ← upgrade_in_slot p.2 b i slot;
      c ← stats_once c b i;
      r ← request_at c b i;
      let issued := mkIC slot (command r) (addr_vec r) (c_clk c) in
      c ← issue_candidate c b i;
      c ← advance_request c b i;
      Ok (Some issued, c)
  end.
End Slots.

Definition hbm_tick_prologue (c : ControllerBase) : res ControllerBase := pre_tick c.
Definition hbm_tick_epilogue (c : ControllerBase) : ControllerBase := post_tick c.

Definition HBM_tick (c : ControllerBase) : res ControllerBase :=
  c ← hbm_tick_prologue c;
  p ← try_issue_slot HBM_slot_matches c ColumnBus;
  p ← try_issue_slot HBM_slot_matches p.2 RowBus;
  Ok (hbm_tick_epilogue p.2).

(** ** HBM34Controller *)
Record RisingEdgeCommandInfo := mkRise {
  rise_command : Z;
  rise_pc : Z;
  rise_bank_key : Z;
  next_pairing_falling_edge : Z
}.

Record HBM34Controller := mkHBM34 {
  h34_base : ControllerBase;
  h34_cmd_act : Z;
  h34_cmd_prepb : Z;
  h34_cmd_preab : Z;
  h34_cmd_refab : Z;
  h34_cmd_rfmab : Z;
  h34_level_pc : Z;
  h34_level_sid : Z;
  h34_level_bg : Z;
  h34_level_bank : Z;
  h34_bank_groups : Z;
  h34_banks_per_group : Z;
  h34_rising_edge_cmd_info : RisingEdgeCommandInfo
}.

Definition with_h34_base (h : HBM34Controller) (c : ControllerBase) : HBM34Controller :=
  mkHBM34 c (h34_cmd_act h) (h34_cmd_prepb h) (h34_cmd_preab h) (h34_cmd_refab h) (h34_cmd_rfmab h)
    (h34_level_pc h) (h34_level_sid h) (h34_level_bg h) (h34_level_bank h) (h34_bank_groups h)
    (h34_banks_per_group h) (h34_rising_edge_cmd_info h).
Definition with_h34_info (h : HBM34Controller) (i : RisingEdgeCommandInfo) : HBM34Controller :=
  mkHBM34 (h34_base h) (h34_cmd_act h) (h34_cmd_prepb h) (h34_cmd_preab h) (h34_cmd_refab h) (h34_cmd_rfmab h)
    (h34_level_pc h) (h34_level_sid h) (h34_level_bg h) (h34_level_bank h) (h34_bank_groups h)
    (h34_banks_per_group h) i.

Definition HBM34_init (c : ControllerBase) : res HBM34Controller :=
  let spec := spec_of c in
  act ← get_command_id spec "ACT";
  prepb ← get_command_id spec "PREpb";
  preab ← get_command_id spec "PREab";
  refab ← get_command_id spec "REFab";
  rfmab ← (if has_command spec "RFMab" then get_command_id spec "RFMab" else Ok (-1));
  pc ← get_level_id spec "PseudoChannel";
  sid ← get_level_id spec "Sid";
  bg ← get_level_id spec "BankGroup";
  bank ← get_level_id spec "Bank";
  bank_groups ← get_level_size spec "BankGroup";
  banks_per_group ← get_level_size spec "Bank";
  Ok (mkHBM34 c act prepb preab refab rfmab pc sid bg bank bank_groups banks_per_group (mkRise (-1) (-1) (-1) (-1))).

(** C++ [%] truncates; the clock is not negative. *)
Definition is_rising_edge (c : ControllerBase) : bool := Z.rem (c_clk c) 2 =? 1.

Definition is_all_bank_row_command (h : HBM34Controller) (command : Z) : bool :=
  (command =? h34_cmd_preab h) || (command =? h34_cmd_refab h) || (command =? h34_cmd_rfmab h).

Definition bank_key (h : HBM34Controller) (av : AddrVec_t) : res Z :=
  sid ← vget av (h34_level_sid h);
  bg ← vget av (h34_level_bg h);
  bank ← vget av (h34_level_bank h);
  Ok ((sid * h34_bank_groups h + bg) * h34_banks_per_group h + bank).

Definition can_issue_falling_edge_pre (h : HBM34Controller) (clk : Z) (cand : Request) : res bool :=
  let info := h34_rising_edge_cmd_info h in
  if negb (clk =? next_pairing_falling_edge info) then Ok true
  else
    pc ← vget (addr_vec cand) (h34_level_pc h);
    if negb (rise_pc info =? pc) then Ok true
    else if is_all_bank_row_command h (rise_command info) then Ok false
    else if command cand =? h34_cmd_prepb h then
      key ← bank_key h (addr_vec cand);
      Ok (negb (key =? rise_bank_key info))
    else Ok false.

Definition HBM34_slot_matches (h : HBM34Controller) : SlotMatcher := fun c req slot =>
  if is_rising_edge c then HBM_slot_matches c req slot
  else
    match slot with
    | ColumnBus => Ok false
    | RowBus =>
        if negb (command req =? h34_cmd_prepb h) && negb (command req =? h34_cmd_preab h) then Ok false
        else can_issue_falling_edge_pre h (c_clk c) req
    end.

Definition record_rising_row_issued_command_info (h : HBM34Controller) (command : Z) (av : AddrVec_t) (clk : Z)
  : res HBM34Controller :=
  pc ← vget av (h34_level_pc h);
  key ← (if is_all_bank_row_command h command then Ok (-1) else bank_key h av);
  Ok (with_h34_info h (mkRise command pc key (clk + (if command =? h34_cmd_act h then 3 else 1)))).

Definition HBM34_tick (h : HBM34Controller) : res HBM34Controller :=
  c ← hbm_tick_prologue (h34_base h);
  let rising_edge := is_rising_edge c in
  p ← (if rising_edge then try_issue_slot (HBM34_slot_matches h) c ColumnBus else Ok (None, c));
  q ← try_issue_slot (HBM34_slot_matches h) p.2 RowBus;
  h ← match q.1 with
      | Some issued =>
          if rising_edge then record_rising_row_issued_command_info h (ic_command issued) (ic_addr_vec issued) (ic_clk issued)
          else Ok h
      | None => Ok h
      end;
  Ok (with_h34_base h (hbm_tick_epilogue q.2)).
