(* ===== verification/Lpddr5.v ===== *)
(** * Lpddr5: the LPDDR5 controller

    Models [ramulator/controller/impl/lpddr5_controller.cpp]: split
    activation (ACT1 then ACT2 before a deadline) through the activating
    buffer, and WCK synchronisation (CAS, then the access on a later tick).
    Assertions are part of the model.  The iterator of the access that waits
    for its CAS is a buffer and a position: between the CAS and the access
    requests are only appended to that buffer. *)
From stdpp Require Import prelude gmap strings.
From S2P Require Import Prelude DramSpec Standards Node NodeTiming NodeTree Device Request AddrMapper Float32 ControllerState Controller Refresh RowPolicy GenericDdr.
Open Scope Z_scope.

(** Command identifiers and timings cached by [init]. *)
Record lp_consts := mkLC {
  l_cmd_act1 : Z;
  l_cmd_act2 : Z;
  l_cmd_cas_rd : Z;
  l_cmd_cas_wr : Z;
  l_cmd_rd : Z;
  l_cmd_wr : Z;
  l_cmd_rda : Z;
  l_cmd_wra : Z;
  m_nAAD : Z;
  m_nCL : Z;
  m_nCWL : Z;
  m_nBL : Z;
  m_nWCKPST : Z
}.

Record LPDDR5Controller := mkLP {
  l_base : ControllerBase;
  l_const : lp_consts;
  m_activating_buffer : ReqBuffer;
  m_act2_owner_valid : list bool;
  m_act2_deadline : list Z;
  m_wck_expiry : Z;
  m_cas_issued : bool;
  m_cas_req : option (buf_id * nat);
  s_cas_issued : Z;
  s_cas_skipped : Z;
  s_act2_deadline_forced : Z;
  s_act2_deferred : Z
}.

Definition with_l_base (r : LPDDR5Controller) (v : ControllerBase) : LPDDR5Controller :=
  mkLP v (l_const r) (m_activating_buffer r) (m_act2_owner_valid r) (m_act2_deadline r)
    (m_wck_expiry r) (m_cas_issued r) (m_cas_req r) (s_cas_issued r) (s_cas_skipped r)
    (s_act2_deadline_forced r) (s_act2_deferred r).
Definition with_l_const (r : LPDDR5Controller) (v : lp_consts) : LPDDR5Controller :=
  mkLP (l_base r) v (m_activating_buffer r) (m_act2_owner_valid r) (m_act2_deadline r)
    (m_wck_expiry r) (m_cas_issued r) (m_cas_req r) (s_cas_issued r) (s_cas_skipped r)
    (s_act2_deadline_forced r) (s_act2_deferred r).
Definition with_m_activating_buffer (r : LPDDR5Controller) (v : ReqBuffer) : LPDDR5Controller :=
  mkLP (l_base r) (l_const r) v (m_act2_owner_valid r) (m_act2_deadline r) (m_wck_expiry r)
    (m_cas_issued r) (m_cas_req r) (s_cas_issued r) (s_cas_skipped r) (s_act2_deadline_forced r)
    (s_act2_deferred r).
Definition with_m_act2_owner_valid (r : LPDDR5Controller) (v : list bool) : LPDDR5Controller :=
  mkLP (l_base r) (l_const r) (m_activating_buffer r) v (m_act2_deadline r) (m_wck_expiry r)
    (m_cas_issued r) (m_cas_req r) (s_cas_issued r) (s_cas_skipped r) (s_act2_deadline_forced r)
    (s_act2_deferred r).
Definition with_m_act2_deadline (r : LPDDR5Controller) (v : list Z) : LPDDR5Controller :=
  mkLP (l_base r) (l_const r) (m_activating_buffer r) (m_act2_owner_valid r) v (m_wck_expiry r)
    (m_cas_issued r) (m_cas_req r) (s_cas_issued r) (s_cas_skipped r) (s_act2_deadline_forced r)
    (s_act2_deferred r).
Definition with_m_wck_expiry (r : LPDDR5Controller) (v : Z) : LPDDR5Controller :=
  mkLP (l_base r) (l_const r) (m_activating_buffer r) (m_act2_owner_valid r) (m_act2_deadline r)
    v (m_cas_issued r) (m_cas_req r) (s_cas_issued r) (s_cas_skipped r)
    (s_act2_deadline_forced r) (s_act2_deferred r).
Definition with_m_cas_issued (r : LPDDR5Controller) (v : bool) : LPDDR5Controller :=
  mkLP (l_base r) (l_const r) (m_activating_buffer r) (m_act2_owner_valid r) (m_act2_deadline r)
    (m_wck_expiry r) v (m_cas_req r) (s_cas_issued r) (s_cas_skipped r)
    (s_act2_deadline_forced r) (s_act2_deferred r).
Definition with_m_cas_req (r : LPDDR5Controller) (v : option (buf_id * nat)) : LPDDR5Controller :=
  mkLP (l_base r) (l_const r) (m_activating_buffer r) (m_act2_owner_valid r) (m_act2_deadline r)
    (m_wck_expiry r) (m_cas_issued r) v (s_cas_issued r) (s_cas_skipped r)
    (s_act2_deadline_forced r) (s_act2_deferred r).
Definition with_s_cas_issued (r : LPDDR5Controller) (v : Z) : LPDDR5Controller :=
  mkLP (l_base r) (l_const r) (m_activating_buffer r) (m_act2_owner_valid r) (m_act2_deadline r)
    (m_wck_expiry r) (m_cas_issued r) (m_cas_req r) v (s_cas_skipped r)
    (s_act2_deadline_forced r) (s_act2_deferred r).
Definition with_s_cas_skipped (r : LPDDR5Controller) (v : Z) : LPDDR5Controller :=
  mkLP (l_base r) (l_const r) (m_activating_buffer r) (m_act2_owner_valid r) (m_act2_deadline r)
    (m_wck_expiry r) (m_cas_issued r) (m_cas_req r) (s_cas_issued r) v
    (s_act2_deadline_forced r) (s_act2_deferred r).
Definition with_s_act2_deadline_forced (r : LPDDR5Controller) (v : Z) : LPDDR5Controller :=
  mkLP (l_base r) (l_const r) (m_activating_buffer r) (m_act2_owner_valid r) (m_act2_deadline r)
    (m_wck_expiry r) (m_cas_issued r) (m_cas_req r) (s_cas_issued r) (s_cas_skipped r) v
    (s_act2_deferred r).
Definition with_s_act2_deferred (r : LPDDR5Controller) (v : Z) : LPDDR5Controller :=
  mkLP (l_base r) (l_const r) (m_activating_buffer r) (m_act2_owner_valid r) (m_act2_deadline r)
    (m_wck_expiry r) (m_cas_issued r) (m_cas_req r) (s_cas_issued r) (s_cas_skipped r)
    (s_act2_deadline_forced r) v.

Inductive Act2IssueKind := Urgent | Deferred.


Definition LPDDR5_init (c : ControllerBase) : res LPDDR5Controller :=
  let spec := spec_of c in
  act1 ← get_command_id spec "ACT1";
  act2 ← get_command_id spec "ACT2";
  cas_rd ← get_command_id spec "CAS_RD";
  cas_wr ← get_command_id spec "CAS_WR";
  rd ← get_command_id spec "RD";
  wr ← get_command_id spec "WR";
  rda ← get_command_id spec "RDA";
  wra ← get_command_id spec "WRA";
  nAAD ← get_timing_value spec "nAAD";
  nCL ← get_timing_value spec "nCL";
  nCWL ← get_timing_value spec "nCWL";
  nBL ← get_timing_value spec "nBL";
  nWCKPST ← get_timing_value spec "nWCKPST";
  let n := length (m_bank_nodes (c_device c)) in
  Ok (mkLP c (mkLC act1 act2 cas_rd cas_wr rd wr rda wra nAAD nCL nCWL nBL nWCKPST)
        (mkBuf [] (Z.of_nat n)) (replicate n false) (replicate n (-1)) 0 false None 0 0 0 0).

Definition LPDDR5_reset_stats (l : LPDDR5Controller) : LPDDR5Controller :=
  let l := with_l_base l (ctrl_reset_stats (l_base l)) in
  with_s_act2_deferred (with_s_act2_deadline_forced (with_s_cas_skipped (with_s_cas_issued l 0) 0) 0) 0.

Definition is_access_cmd (k : lp_consts) (cmd : Z) : bool :=
  (cmd =? l_cmd_rd k) || (cmd =? l_cmd_wr k) || (cmd =? l_cmd_rda k) || (cmd =? l_cmd_wra k).

Definition is_read_cmd (k : lp_consts) (cmd : Z) : bool := (cmd =? l_cmd_rd k) || (cmd =? l_cmd_rda k).

Definition extend_wck_expiry (l : LPDDR5Controller) (cmd : Z) : LPDDR5Controller :=
  let k := l_const l in
  let lat := if is_read_cmd k cmd then m_nCL k else m_nCWL k in
  let exp := c_clk (l_base l) + lat + m_nBL k + m_nWCKPST k in
  if m_wck_expiry l <? exp then with_m_wck_expiry l exp else l.

Fixpoint deadline_within (clk : Z) (owner : list bool) (deadline : list Z) : bool :=
  match owner, deadline with
  | o :: owner, dl :: deadline => (o && (dl <=? clk + 1)) || deadline_within clk owner deadline
  | _, _ => false
  end.

Definition cas_would_block_deadline (l : LPDDR5Controller) : bool :=
  deadline_within (c_clk (l_base l)) (m_act2_owner_valid l) (m_act2_deadline l).

Definition would_block_activating (l : LPDDR5Controller) (cmd : Z) (av : AddrVec_t) : res bool :=
  meta ← vget (command_meta (spec_of (l_base l))) cmd;
  if negb (is_closing meta) && negb (is_refreshing meta) then Ok false
  else
    r ← for_each_target_bank_while (fun (blocked : bool) bank_id =>
          o ← vget (m_act2_owner_valid l) bank_id;
          if (o : bool) then Ok (true, false) else Ok (blocked, true))
        (c_device (l_base l)) cmd av false;
    Ok r.1.

Definition is_owned_act2_candidate (l : LPDDR5Controller) (req : Request) : res bool :=
  if negb (command req =? l_cmd_act2 (l_const l)) then Ok true
  else
    i ← get_flat_bank_id (c_device (l_base l)) (addr_vec req);
    o ← vget (m_act2_owner_valid l) i;
    _ ← assert_ o;
    Ok false.

Definition lp_filter (l : LPDDR5Controller) : RequestFilter := Some (fun req =>
  owned ← is_owned_act2_candidate l req;
  if negb owned then Ok false
  else blocked ← would_block_activating l (command req) (addr_vec req); Ok (negb blocked)).

Definition select_normal_candidate (l : LPDDR5Controller) : res (Candidate * LPDDR5Controller) :=
  p ← pick_best_ready_from (l_base l) Bactive None;
  p ← (if bool_decide (is_Some p.1) then Ok p else pick_priority_if p.2 (lp_filter (with_l_base l p.2)));
  p ← (if bool_decide (is_Some p.1) || negb (buf_size (c_priority_buffer p.2) =? 0) then Ok p
       else pick_rw_if p.2 (lp_filter (with_l_base l p.2)));
  Ok (p.1, with_l_base l p.2).

(** ** Choosing an ACT2 *)
Record act2_scan := mkScan { sc_best : option (nat * Z * Z); sc_buffer : list Request }.

(** Earliest deadline first, then oldest; the urgent scan only considers
    requests at their deadline. *)
Definition act2_step (l : LPDDR5Controller) (kind : Act2IssueKind) (st : act2_scan) (it : nat) : res act2_scan :=
  let clk := c_clk (l_base l) in
  let act2 := l_cmd_act2 (l_const l) in
  r ← of_option UndefinedBehaviour (sc_buffer st !! it);
  i ← get_flat_bank_id (c_device (l_base l)) (addr_vec r);
  o ← vget (m_act2_owner_valid l) i;
  _ ← assert_ o;
  deadline ← vget (m_act2_deadline l) i;
  _ ← assert_ (0 <=? deadline);
  let r := set_command r act2 in
  let buf := <[it := r]> (sc_buffer st) in
  timing_ok ← ctrl_check_timing (l_base l) act2 (addr_vec r);
  skip ← match kind with
         | Urgent =>
             _ ← assert_ ((clk <? deadline) || timing_ok);
             Ok ((clk <? deadline) || negb timing_ok)
         | Deferred => Ok (negb timing_ok)
         end;
  if (skip : bool) then Ok (mkScan (sc_best st) buf)
  else
    match sc_best st with
    | Some (_, best_deadline, best_arrive) =>
        if (deadline <? best_deadline) || ((deadline =? best_deadline) && (arrive r <? best_arrive))
        then Ok (mkScan (Some (it, deadline, arrive r)) buf)
        else Ok (mkScan (sc_best st) buf)
    | None => Ok (mkScan (Some (it, deadline, arrive r)) buf)
    end.

Definition pick_act2 (kind : Act2IssueKind) (l : LPDDR5Controller) : res (option nat * LPDDR5Controller) :=
  let b := m_activating_buffer l in
  st ← foldM (act2_step l kind) (seq 0 (length (buffer b))) (mkScan None (buffer b));
  Ok ((fun x => x.1.1) <$> sc_best st, with_m_activating_buffer l (mkBuf (sc_buffer st) (max_size b))).

Definition pick_urgent_act2 (l : LPDDR5Controller) : res (option nat * LPDDR5Controller) := pick_act2 Urgent l.
Definition pick_deferred_act2 (l : LPDDR5Controller) : res (option nat * LPDDR5Controller) := pick_act2 Deferred l.

(** ** Moving requests through the activating buffer *)
Definition activating_at (l : LPDDR5Controller) (i : nat) : res Request :=
  of_option UndefinedBehaviour (buffer (m_activating_buffer l) !! i).

Definition set_owner (l : LPDDR5Controller) (bank : Z) (valid : bool) (deadline : Z) : res LPDDR5Controller :=
  v ← vset (m_act2_owner_valid l) bank valid;
  d ← vset (m_act2_deadline l) bank deadline;
  Ok (with_m_act2_deadline (with_m_act2_owner_valid l v) d).

Definition move_to_activating (l : LPDDR5Controller) (b : buf_id) (i : nat) : res LPDDR5Controller :=
  let c := l_base l in
  r ← request_at c b i;
  bank ← get_flat_bank_id (c_device c) (addr_vec r);
  o ← vget (m_act2_owner_valid l) bank;
  _ ← assert_ (negb o);
  let '(enqueued, ab) := enqueue (m_activating_buffer l) r in
  let l := with_m_activating_buffer l ab in
  _ ← assert_ enqueued;
  let c := forget_write c b r in
  let l := with_l_base l (set_buf c b (remove (get_buf c b) i)) in
  set_owner l bank true (c_clk c + m_nAAD (l_const l)).

Definition promote_from_activating (l : LPDDR5Controller) (i : nat) : res LPDDR5Controller :=
  r ← activating_at l i;
  bank ← get_flat_bank_id (c_device (l_base l)) (addr_vec r);
  o ← vget (m_act2_owner_valid l) bank;
  _ ← assert_ o;
  deadline ← vget (m_act2_deadline l) bank;
  _ ← assert_ (c_clk (l_base l) <=? deadline);
  p ← promote (l_base l) r;
  _ ← assert_ p.1;
  let l := with_m_activating_buffer (with_l_base l p.2) (remove (m_activating_buffer l) i) in
  set_owner l bank false (-1).

(** ** Issuing *)
Definition lp_notify (l : LPDDR5Controller) (r : Request) : res LPDDR5Controller :=
  c ← rowpolicy_on_issue (l_base l) r;
  c ← plugins_on_issue c r;
  Ok (with_l_base l c).

Definition issue_owned_act2 (l : LPDDR5Controller) (i : nat) (kind : Act2IssueKind) : res LPDDR5Controller :=
  r ← activating_at l i;
  _ ← assert_ (command r =? l_cmd_act2 (l_const l));
  bank ← get_flat_bank_id (c_device (l_base l)) (addr_vec r);
  o ← vget (m_act2_owner_valid l) bank;
  _ ← assert_ o;
  deadline ← vget (m_act2_deadline l) bank;
  _ ← assert_ ((0 <=? deadline) && (c_clk (l_base l) <=? deadline));
  l ← (if is_stat_updated r then Ok l
       else
         let r := set_stat_updated r true in
         c ← count_row_outcome (l_base l) r;
         Ok (with_m_activating_buffer (with_l_base l c) (modify_at (m_activating_buffer l) i (fun _ => r))));
  c ← issue (l_base l) (l_cmd_act2 (l_const l)) (addr_vec r);
  r ← activating_at l i;
  l ← lp_notify (with_l_base l c) r;
  l ← promote_from_activating l i;
  Ok (match kind with
      | Urgent => with_s_act2_deadline_forced l (s_act2_deadline_forced l + 1)
      | Deferred => with_s_act2_deferred l (s_act2_deferred l + 1)
      end).

(** Returns whether the tick is used up. *)
Definition try_issue_cas_sync (l : LPDDR5Controller) (b : buf_id) (i : nat) : res (bool * LPDDR5Controller) :=
  let c := l_base l in
  let k := l_const l in
  r ← request_at c b i;
  let cmd := command r in
  if negb (is_access_cmd k cmd) || (c_clk c <? m_wck_expiry l) then Ok (false, l)
  else if cas_would_block_deadline l then
    p ← pick_deferred_act2 l;
    match p.1 with
    | None => Err AssertFail
    | Some j => l ← issue_owned_act2 p.2 j Deferred; Ok (true, l)
    end
  else
    let cas := if is_read_cmd k cmd then l_cmd_cas_rd k else l_cmd_cas_wr k in
    ok ← ctrl_check_timing c cas (addr_vec r);
    if negb ok then Ok (true, l)
    else
      c ← issue c cas (addr_vec r);
      l ← lp_notify (with_l_base l c) (set_command r cas);
      Ok (true, with_m_cas_req (with_m_cas_issued l true) (Some (b, i))).

Definition issue_standard_candidate (l : LPDDR5Controller) (b : buf_id) (i : nat) : res LPDDR5Controller :=
  let k := l_const l in
  c ← upgrade_candidate (l_base l) b i;
  let l := with_l_base l c in
  r ← request_at c b i;
  let cmd := command r in
  bank ← get_flat_bank_id (c_device c) (addr_vec r);
  _ ← (if cmd =? l_cmd_act1 k then o ← vget (m_act2_owner_valid l) bank; assert_ (negb o) else Ok tt);
  let l := (if is_access_cmd k cmd
            then let l := extend_wck_expiry l cmd in with_s_cas_skipped l (s_cas_skipped l + 1) else l) in
  c ← stats_once (l_base l) b i;
  c ← issue_candidate c b i;
  let l := with_l_base l c in
  if cmd =? l_cmd_act1 k then move_to_activating l b i
  else c ← advance_request c b i; Ok (with_l_base l c).

(** The access whose CAS was issued on an earlier tick. *)
Definition continue_cas (l : LPDDR5Controller) : res LPDDR5Controller :=
  match m_cas_req l with
  | None => Err AssertFail
  | Some (b, i) =>
      r ← request_at (l_base l) b i;
      ok ← ctrl_check_timing (l_base l) (command r) (addr_vec r);
      if negb ok then Ok l
      else
        let l := extend_wck_expiry (with_m_cas_issued l false) (command r) in
        let l := with_s_cas_issued l (s_cas_issued l + 1) in
        c ← stats_once (l_base l) b i;
        c ← issue_candidate c b i;
        c ← (if command r =? final_command r then retire_request c b i else Ok c);
        Ok (with_l_base l c)
  end.

Definition lp_post_tick (l : LPDDR5Controller) : LPDDR5Controller := with_l_base l (post_tick (l_base l)).

Definition LPDDR5_tick (l : LPDDR5Controller) : res LPDDR5Controller :=
  c ← pre_tick (l_base l);
  u ← pick_urgent_act2 (with_l_base l c);
  let l := u.2 in
  if m_cas_issued l then
    _ ← assert_ (bool_decide (u.1 = None));
    l ← continue_cas l;
    Ok (lp_post_tick l)
  else
    l ← match u.1 with
        | Some i => issue_owned_act2 l i Urgent
        | None =>
            p ← select_normal_candidate l;
            match p.1 with
            | None =>
                q ← pick_deferred_act2 p.2;
                match q.1 with
                | Some i => issue_owned_act2 q.2 i Deferred
                | None => Ok q.2
                end
            | Some (b, i) =>
                s ← try_issue_cas_sync p.2 b i;
                if (s.1 : bool) then Ok s.2 else issue_standard_candidate s.2 b i
            end
        end;
    Ok (lp_post_tick l).
