(* ===== verification/Controllers.v ===== *)
(** * Controllers: the controller interface and its classes

    [IController] is what the memory system and the sub-components see of a
    controller: the members of [ControllerBase] and a [tick].  The four
    registered classes are its instances; [controller] is a pointer to any of
    them. *)
From stdpp Require Import prelude gmap strings.
From S2P Require Import Prelude DramSpec Standards Node NodeTiming NodeTree Device Request AddrMapper Float32 ControllerState Controller Refresh RowPolicy ControllerInit GenericDdr Hbm Lpddr5.
Open Scope Z_scope.

Class IController (A : Type) := {
  base : A -> ControllerBase;
  set_base : A -> ControllerBase -> A;
  ctl_tick : A -> res A;
  base_set_base : forall a c, base (set_base a c) = c
}.

Record GenericDDRController := mkGenericDDR { g_base : ControllerBase }.
Record HBM12Controller := mkHBM12 { h12_base : ControllerBase }.

Definition GenericDDRController_tick (a : GenericDDRController) : res GenericDDRController :=
  mkGenericDDR <$> GenericDDR_tick (g_base a).
Definition HBM12Controller_tick (a : HBM12Controller) : res HBM12Controller := mkHBM12 <$> HBM_tick (h12_base a).

#[export, refine] Instance GenericDDR_controller : IController GenericDDRController := {
  base := g_base;
  set_base _ c := mkGenericDDR c;
  ctl_tick := GenericDDRController_tick
}.
Proof. done. Defined.

#[export, refine] Instance HBM12_controller : IController HBM12Controller := {
  base := h12_base;
  set_base _ c := mkHBM12 c;
  ctl_tick := HBM12Controller_tick
}.
Proof. done. Defined.

#[export, refine] Instance HBM34_controller : IController HBM34Controller := {
  base := h34_base;
  set_base := with_h34_base;
  ctl_tick := HBM34_tick
}.
Proof. done. Defined.

#[export, refine] Instance LPDDR5_controller : IController LPDDR5Controller := {
  base := l_base;
  set_base := with_l_base;
  ctl_tick := LPDDR5_tick
}.
Proof. done. Defined.

Inductive controller :=
| CtlGenericDDR (a : GenericDDRController)
| CtlHBM12 (a : HBM12Controller)
| CtlHBM34 (a : HBM34Controller)
| CtlLPDDR5 (a : LPDDR5Controller).

Definition controller_base (a : controller) : ControllerBase :=
  match a with
  | CtlGenericDDR a => base a
  | CtlHBM12 a => base a
  | CtlHBM34 a => base a
  | CtlLPDDR5 a => base a
  end.

Definition controller_set_base (a : controller) (c : ControllerBase) : controller :=
  match a with
  | CtlGenericDDR a => CtlGenericDDR (set_base a c)
  | CtlHBM12 a => CtlHBM12 (set_base a c)
  | CtlHBM34 a => CtlHBM34 (set_base a c)
  | CtlLPDDR5 a => CtlLPDDR5 (set_base a c)
  end.

(** The virtual call. *)
Definition controller_tick (a : controller) : res controller :=
  match a with
  | CtlGenericDDR a => CtlGenericDDR <$> GenericDDRController_tick a
  | CtlHBM12 a => CtlHBM12 <$> HBM12Controller_tick a
  | CtlHBM34 a => CtlHBM34 <$> HBM34_tick a
  | CtlLPDDR5 a => CtlLPDDR5 <$> LPDDR5_tick a
  end.

#[export, refine] Instance any_controller : IController controller := {
  base := controller_base;
  set_base := controller_set_base;
  ctl_tick := controller_tick
}.
Proof. by intros [a|a|a|a] c. Defined.

(** Construction: the class is chosen by name, its [init] runs [init_base]. *)
Inductive controller_class := ClsGenericDDR | ClsHBM12 | ClsHBM34 | ClsLPDDR5.

Definition make_controller (reg : gmap string Creator) (cls : controller_class) (cfg : controller_config)
  : res controller :=
  c ← init_base reg cfg;
  match cls with
  | ClsGenericDDR => Ok (CtlGenericDDR (mkGenericDDR c))
  | ClsHBM12 => Ok (CtlHBM12 (mkHBM12 c))
  | ClsHBM34 => CtlHBM34 <$> HBM34_init c
  | ClsLPDDR5 => CtlLPDDR5 <$> LPDDR5_init c
  end.

(** ** Histories of calls on a controller *)
Section Runs.
Context {A : Type} `{IController A}.

Definition ctl_send (a : A) (req : Request) : res (bool * Request * A) :=
  p ← ctrl_send (base a) req;
  let '(ok, req, c) := p in Ok (ok, req, set_base a c).

Definition ctl_priority_send (a : A) (req : Request) : res (bool * A) :=
  p ← ctrl_priority_send (base a) req;
  Ok (p.1, set_base a p.2).

(** Any interleaving of the calls a memory system makes. *)
Inductive reach (a0 : A) : A -> Prop :=
| reach_refl : reach a0 a0
| reach_send a req ok req' a' : reach a0 a -> ctl_send a req = Ok (ok, req', a') -> reach a0 a'
| reach_priority_send a req ok a' : reach a0 a -> ctl_priority_send a req = Ok (ok, a') -> reach a0 a'
| reach_tick a a' : reach a0 a -> ctl_tick a = Ok a' -> reach a0 a'.

(** An executable history. *)
Inductive call := CSend (req : Request) | CPriority (req : Request) | CTick.

Definition do_call (a : A) (k : call) : res A :=
  match k with
  | CSend req => p ← ctl_send a req; Ok p.2
  | CPriority req => p ← ctl_priority_send a req; Ok p.2
  | CTick => ctl_tick a
  end.

Definition do_calls (ks : list call) (a : A) : res A := foldM do_call ks a.

Lemma do_calls_reach ks a0 : forall a a', reach a0 a -> do_calls ks a = Ok a' -> reach a0 a'.
Proof.
  induction ks as [|k ks IH]; intros a a' Hr Hd; cbn in Hd; [by injection Hd as <-|].
  apply bind_Ok_inv in Hd as (a1 & H1 & Hd). apply (IH a1); [|done]. destruct k; cbn in H1.
  - apply bind_Ok_inv in H1 as ([[ok r] a2] & H1 & H2). injection H2 as <-. by eapply reach_send.
  - apply bind_Ok_inv in H1 as ([ok a2] & H1 & H2). injection H2 as <-. by eapply reach_priority_send.
  - by eapply reach_tick.
Qed.
End Runs.
