(* ===== verification/MemSystem.v ===== *)
(** * MemSystem: the memory system

    Models [ramulator/memory_system]: the interface a frontend sees and
    [GenericDRAMSystem], one controller per channel behind a channel mapper.
    A call returns the requests whose callbacks it called. *)
From stdpp Require Import prelude gmap strings.
From S2P Require Import Prelude DramSpec Standards Device Request BitUtils AddrMapper ChannelMapper Float32 ControllerState Controller Refresh RowPolicy ControllerInit GenericDdr Hbm Lpddr5 Controllers.
Open Scope Z_scope.

(** What a frontend sees of the memory system. *)
Class IMemorySystem (M : Type) := {
  mem_send : M -> Request -> res (bool * Request * list Request * M);
  mem_tick : M -> res (list Request * M);
  mem_get_tx_bytes : M -> Z;
  mem_get_clock_ratio : M -> Z;
  mem_reset_stats_recursive : M -> M
}.

Record GenericDRAMSystem := mkSys {
  y_channel_mapper : channel_mapper;
  y_controllers : list controller;
  y_clock_ratio : Z;
  y_tx_bytes : Z;
  y_num_read_requests : Z;
  y_num_write_requests : Z
}.

Definition with_controllers (y : GenericDRAMSystem) (l : list controller) : GenericDRAMSystem :=
  mkSys (y_channel_mapper y) l (y_clock_ratio y) (y_tx_bytes y) (y_num_read_requests y) (y_num_write_requests y).

Definition set_channel (i : nat) (a : controller) : controller :=
  set_base a (ctrl_set_channel_id (base a) (Z.of_nat i)).

Definition GenericDRAM_init (clock_ratio : Z) (m : channel_mapper) (ctls : list controller) : res GenericDRAMSystem :=
  match ctls with
  | [] => Err (Throw "GenericDRAM requires at least one controller")
  | a :: _ =>
      let tx_bytes := ctrl_get_tx_bytes (base a) in
      tx_offset ← calc_log2 tx_bytes;
      m ← chm_setup m (Z.of_nat (length ctls)) tx_offset;
      Ok (mkSys m (imap set_channel ctls) clock_ratio tx_bytes 0 0)
  end.

(** A successful send is counted by its type; the counters are [int]. *)
Definition count_sent (y : GenericDRAMSystem) (req : Request) : res GenericDRAMSystem :=
  if type_id req =? Type_Read then
    reads ← add_int (y_num_read_requests y) 1;
    Ok (mkSys (y_channel_mapper y) (y_controllers y) (y_clock_ratio y) (y_tx_bytes y) reads (y_num_write_requests y))
  else if type_id req =? Type_Write then
    writes ← add_int (y_num_write_requests y) 1;
    Ok (mkSys (y_channel_mapper y) (y_controllers y) (y_clock_ratio y) (y_tx_bytes y) (y_num_read_requests y) writes)
  else Ok y.

(** The callbacks a controller has called between two states. *)
Definition called_since (a a' : controller) : list Request :=
  drop (length (c_done (base a))) (c_done (base a')).

Definition GenericDRAM_send (y : GenericDRAMSystem) (req : Request)
  : res (bool * Request * list Request * GenericDRAMSystem) :=
  if (size_bytes req <=? 0) || (y_tx_bytes y <? size_bytes req) then
    Err (Throw "Request size_bytes must be set by the frontend")
  else
    req ← chm_apply (y_channel_mapper y) req;
    channel_id ← vget (addr_vec req) 0;
    a ← vget (y_controllers y) channel_id;
    p ← ctl_send a req;
    let '(is_success, req, a') := p in
    let y := with_controllers y (<[Z.to_nat channel_id := a']> (y_controllers y)) in
    y ← (if (is_success : bool) then count_sent y req else Ok y);
    Ok (is_success, req, called_since a a', y).

Definition GenericDRAM_tick (y : GenericDRAMSystem) : res (list Request * GenericDRAMSystem) :=
  l ← mapM ctl_tick (y_controllers y);
  Ok (concat (zip_with called_since (y_controllers y) l), with_controllers y l).

Definition GenericDRAM_reset_stats (y : GenericDRAMSystem) : GenericDRAMSystem :=
  mkSys (y_channel_mapper y) (y_controllers y) (y_clock_ratio y) (y_tx_bytes y) 0 0.

Definition reset_plugin_stats (p : Plugin) : Plugin :=
  match p with CommandCounter m => CommandCounter (CommandCounter_reset_stats m) | p => p end.

Definition controller_reset_stats (a : controller) : controller :=
  match a with
  | CtlLPDDR5 l => CtlLPDDR5 (LPDDR5_reset_stats l)
  | a => set_base a (ctrl_reset_stats (base a))
  end.

(** The system, then its components: each controller and its plugins. *)
Definition reset_component_stats (a : controller) : controller :=
  let a := controller_reset_stats a in
  set_base a (with_c_plugins (base a) (map reset_plugin_stats (c_plugins (base a)))).

Definition GenericDRAM_reset_stats_recursive (y : GenericDRAMSystem) : GenericDRAMSystem :=
  with_controllers (GenericDRAM_reset_stats y) (map reset_component_stats (y_controllers y)).

Definition GenericDRAM_get_tCK (y : GenericDRAMSystem) : option f32 :=
  match y_controllers y with a :: _ => Some (ctrl_get_tCK (base a)) | [] => None end.

#[export] Instance GenericDRAM_system : IMemorySystem GenericDRAMSystem := {
  mem_send := GenericDRAM_send;
  mem_tick := GenericDRAM_tick;
  mem_get_tx_bytes := y_tx_bytes;
  mem_get_clock_ratio := y_clock_ratio;
  mem_reset_stats_recursive := GenericDRAM_reset_stats_recursive
}.
