(* ===== verification/LLC.v ===== *)
(** * LLC: the last-level cache of the SimpleO3 frontend

    Models [ramulator/frontend/impl/processor/simpleO3/llc.h] and
    [llc.cpp].  A cache set is a [std::list] of lines, the least recently
    used first, and an MSHR entry keeps an iterator into such a list: the
    list nodes carry an identity, an iterator is the index of the set and
    the identity, and following an iterator whose node is gone is undefined
    behaviour.  A push allocates a new node. *)
From stdpp Require Import prelude gmap strings.
From S2P Require Import Prelude DramSpec Request BitUtils ChannelMapper MemSystem.
Open Scope Z_scope.

Record Line := mkLine {
  l_id : Z;
  l_addr : Z;
  l_tag : Z;
  l_dirty : bool;
  l_ready : bool
}.

Definition with_dirty (l : Line) (b : bool) : Line := mkLine (l_id l) (l_addr l) (l_tag l) b (l_ready l).
Definition with_ready (l : Line) (b : bool) : Line := mkLine (l_id l) (l_addr l) (l_tag l) (l_dirty l) b.

Record llc_params := mkParams {
  p_latency : Z;
  p_size_bytes : Z;
  p_linesize_bytes : Z;
  p_associativity : Z;
  p_set_size : Z;
  p_num_mshrs : Z;
  p_index_mask : Z;
  p_index_offset : Z;
  p_tag_offset : Z
}.

Record llc_stats := mkStats {
  s_llc_read_access : Z;
  s_llc_write_access : Z;
  s_llc_read_misses : Z;
  s_llc_write_misses : Z;
  s_llc_eviction : Z;
  s_llc_mshr_unavailable : Z
}.

Record SimpleO3LLC := mkLLC {
  m_cache_sets : gmap Z (list Line);
  m_mshrs : list (Z * (Z * Z));
  m_receive_requests : gmap Z (list Request);
  m_miss_list : list (Z * Request);
  m_hit_list : list (Z * Request);
  c_params : llc_params;
  c_counts : llc_stats;
  c_next : Z
}.

Definition with_m_cache_sets (r : SimpleO3LLC) (v : gmap Z (list Line)) : SimpleO3LLC :=
  mkLLC v (m_mshrs r) (m_receive_requests r) (m_miss_list r) (m_hit_list r) (c_params r)
    (c_counts r) (c_next r).
Definition with_m_mshrs (r : SimpleO3LLC) (v : list (Z * (Z * Z))) : SimpleO3LLC :=
  mkLLC (m_cache_sets r) v (m_receive_requests r) (m_miss_list r) (m_hit_list r) (c_params r)
    (c_counts r) (c_next r).
Definition with_m_receive_requests (r : SimpleO3LLC) (v : gmap Z (list Request)) : SimpleO3LLC :=
  mkLLC (m_cache_sets r) (m_mshrs r) v (m_miss_list r) (m_hit_list r) (c_params r) (c_counts r)
    (c_next r).
Definition with_m_miss_list (r : SimpleO3LLC) (v : list (Z * Request)) : SimpleO3LLC :=
  mkLLC (m_cache_sets r) (m_mshrs r) (m_receive_requests r) v (m_hit_list r) (c_params r)
    (c_counts r) (c_next r).
Definition with_m_hit_list (r : SimpleO3LLC) (v : list (Z * Request)) : SimpleO3LLC :=
  mkLLC (m_cache_sets r) (m_mshrs r) (m_receive_requests r) (m_miss_list r) v (c_params r)
    (c_counts r) (c_next r).
Definition with_c_params (r : SimpleO3LLC) (v : llc_params) : SimpleO3LLC :=
  mkLLC (m_cache_sets r) (m_mshrs r) (m_receive_requests r) (m_miss_list r) (m_hit_list r) v
    (c_counts r) (c_next r).
Definition with_c_counts (r : SimpleO3LLC) (v : llc_stats) : SimpleO3LLC :=
  mkLLC (m_cache_sets r) (m_mshrs r) (m_receive_requests r) (m_miss_list r) (m_hit_list r)
    (c_params r) v (c_next r).
Definition with_c_next (r : SimpleO3LLC) (v : Z) : SimpleO3LLC :=
  mkLLC (m_cache_sets r) (m_mshrs r) (m_receive_requests r) (m_miss_list r) (m_hit_list r)
    (c_params r) (c_counts r) v.

(** The constructor: sizes are [size_t], the number of sets is an [int]. *)
Definition SimpleO3LLC_new (latency size_bytes linesize_bytes associativity num_mshrs : Z) : res SimpleO3LLC :=
  let size := u64 size_bytes in
  let linesize := u64 linesize_bytes in
  let way := u64 (linesize * u64 associativity) in
  if way =? 0 then Err UndefinedBehaviour
  else
    let set_size := i32 (size / way) in
    line_log ← calc_log2 linesize;
    set_log ← calc_log2 set_size;
    Ok (mkLLC ∅ [] ∅ [] []
          (mkParams latency size linesize associativity set_size num_mshrs
             (set_size - 1) (i32 line_log) (set_log + i32 line_log))
          (mkStats 0 0 0 0 0 0) 0).

(** ** Address arithmetic *)
Definition get_index (p : llc_params) (a : Z) : res Z :=
  x ← shr64 a (p_index_offset p);
  Ok (i32 (Z.land x (p_index_mask p))).

Definition get_tag (p : llc_params) (a : Z) : res Z := shr64 a (p_tag_offset p).

(** [addr & ~(m_linesize_bytes - 1l)], computed on [unsigned long]. *)
Definition align (p : llc_params) (a : Z) : Z :=
  i64 (Z.land (u64 a) (u64 (Z.lnot (u64 (p_linesize_bytes p - 1))))).

(** ** Cache sets *)
(** The set of an index, created empty when it is looked up first. *)
Definition llc_get_set (c : SimpleO3LLC) (a : Z) : res (Z * list Line * SimpleO3LLC) :=
  i ← get_index (c_params c) a;
  match m_cache_sets c !! i with
  | Some s => Ok (i, s, c)
  | None => Ok (i, [], with_m_cache_sets c (<[i := []]> (m_cache_sets c)))
  end.

(** [std::find_if]: the first element that satisfies the predicate. *)
Definition find_if {A} (f : A -> bool) (l : list A) : option A := head (filter (fun x => f x = true) l).

(** Erasing, and writing through, the iterator of a node. *)
Definition erase_line (n : Z) (s : list Line) : list Line := filter (fun l => l_id l <> n) s.
Definition write_line (n : Z) (f : Line -> Line) (s : list Line) : list Line :=
  map (fun l => if l_id l =? n then f l else l) s.

Definition store_set (c : SimpleO3LLC) (i : Z) (s : list Line) : SimpleO3LLC :=
  with_m_cache_sets c (<[i := s]> (m_cache_sets c)).

(** Following an MSHR's iterator. *)
Definition deref (c : SimpleO3LLC) (it : Z * Z) : res (list Line * Line) :=
  match m_cache_sets c !! it.1 with
  | Some s => match find_if (fun l => l_id l =? it.2) s with Some l => Ok (s, l) | None => Err UndefinedBehaviour end
  | None => Err UndefinedBehaviour
  end.

Definition write_through (c : SimpleO3LLC) (it : Z * Z) (f : Line -> Line) : res SimpleO3LLC :=
  p ← deref c it;
  Ok (store_set c it.1 (write_line it.2 f p.1)).

(** A new node with the given contents at the end of a set. *)
Definition push_line (c : SimpleO3LLC) (i : Z) (a tag : Z) (dirty ready : bool) : SimpleO3LLC :=
  with_c_next
    (store_set c i (default [] (m_cache_sets c !! i) ++ [mkLine (c_next c) a tag dirty ready])) (c_next c + 1).

Definition check_set_hit (p : llc_params) (s : list Line) (a : Z) : res (option Line) :=
  tag ← get_tag p a;
  Ok (match find_if (fun l => l_tag l =? tag) s with
      | Some l => if l_ready l then Some l else None
      | None => None
      end).

Definition check_mshr_hit (c : SimpleO3LLC) (a : Z) : option (Z * (Z * Z)) :=
  find_if (fun e => align (c_params c) e.1 =? align (c_params c) a) (m_mshrs c).

Definition need_eviction (p : llc_params) (s : list Line) (a : Z) : res bool :=
  tag ← get_tag p a;
  match find_if (fun l => tag =? l_tag l) s with
  | Some _ => Err AssertFail
  | None => Ok (negb (Z.of_nat (length s) <? u64 (p_associativity p)))
  end.

(** ** Statistics *)
(** The counters are [int]: counting past the largest one is undefined. *)
Definition count_access (st : llc_stats) (type : Z) : res llc_stats :=
  let 'mkStats ra wa rm wm ev un := st in
  if type =? Type_Read then ra ← add_int ra 1; Ok (mkStats ra wa rm wm ev un)
  else if type =? Type_Write then wa ← add_int wa 1; Ok (mkStats ra wa rm wm ev un)
  else Ok st.

Definition count_miss (st : llc_stats) (type : Z) : res llc_stats :=
  let 'mkStats ra wa rm wm ev un := st in
  if type =? Type_Read then rm ← add_int rm 1; Ok (mkStats ra wa rm wm ev un)
  else if type =? Type_Write then wm ← add_int wm 1; Ok (mkStats ra wa rm wm ev un)
  else Ok st.

Definition count_eviction (st : llc_stats) : res llc_stats :=
  let 'mkStats ra wa rm wm ev un := st in ev ← add_int ev 1; Ok (mkStats ra wa rm wm ev un).

Definition count_unavailable (st : llc_stats) : res llc_stats :=
  let 'mkStats ra wa rm wm ev un := st in un ← add_int un 1; Ok (mkStats ra wa rm wm ev un).

(** ** Eviction and allocation *)
Definition push_miss (c : SimpleO3LLC) (clk : Z) (req : Request) : SimpleO3LLC :=
  with_m_miss_list c (m_miss_list c ++ [(clk + p_latency (c_params c), req)]).

Definition set_type (r : Request) (t : Z) : Request :=
  mkReq (addr r) (intra_channel_addr r) (addr_vec r) t (source_id r) (size_bytes r) (command r)
    (final_command r) (is_stat_updated r) (arrive r) (depart r) (callback r).

Definition line_bytes (p : llc_params) : Z := i32 (p_linesize_bytes p).

Definition evict_line (c : SimpleO3LLC) (clk i : Z) (s : list Line) (victim : Line) : res SimpleO3LLC :=
  counts ← count_eviction (c_counts c);
  let c := with_c_counts c counts in
  let c :=
    if l_dirty victim then
      push_miss c clk (set_size (Request_addr (l_addr victim) Type_Write) (line_bytes (c_params c)))
    else c in
  Ok (store_set c i (erase_line (l_id victim) s)).

(** The iterator of the new line, or nothing when no line can be evicted. *)
Definition allocate_line (c : SimpleO3LLC) (clk i : Z) (s : list Line) (a : Z)
  : res (option (Z * Z) * SimpleO3LLC) :=
  tag ← get_tag (c_params c) a;
  full ← need_eviction (c_params c) s a;
  evicted ← (if (full : bool) then
               match find_if l_ready s with
               | Some victim => Some <$> evict_line c clk i s victim
               | None => Ok None
               end
             else Ok (Some c));
  match evicted with
  | None => Ok (None, c)
  | Some c => Ok (Some (i, c_next c), push_line c i a tag false false)
  end.

(** ** Requests from the cores *)
(** Whether a set that has no line for an address can take one. *)
Definition line_available (p : llc_params) (s : list Line) : bool :=
  (Z.of_nat (length s) <? u64 (p_associativity p)) || existsb l_ready s.

(** [m_receive_requests[a].push_back(req)]. *)
Definition add_receiver (c : SimpleO3LLC) (a : Z) (req : Request) : SimpleO3LLC :=
  with_m_receive_requests c (<[a := default [] (m_receive_requests c !! a) ++ [req]]> (m_receive_requests c)).

Definition set_receivers (c : SimpleO3LLC) (a : Z) (l : list Request) : SimpleO3LLC :=
  with_m_receive_requests c (<[a := l]> (m_receive_requests c)).

Definition send_hit (c : SimpleO3LLC) (clk i : Z) (line : Line) (req : Request)
  : res (bool * Request * SimpleO3LLC) :=
  tag ← get_tag (c_params c) (addr req);
  let c := push_line c i (addr req) tag (l_dirty line || (type_id req =? Type_Write)) true in
  let c := store_set c i (erase_line (l_id line) (default [] (m_cache_sets c !! i))) in
  Ok (true, req, with_m_hit_list c (m_hit_list c ++ [(clk + p_latency (c_params c), req)])).

Definition send_miss (c : SimpleO3LLC) (clk i : Z) (s : list Line) (req : Request)
  : res (bool * Request * SimpleO3LLC) :=
  counts ← count_miss (c_counts c) (type_id req);
  let c := with_c_counts c counts in
  let dirty := type_id req =? Type_Write in
  let req := if type_id req =? Type_Write then set_type req Type_Read else req in
  match check_mshr_hit c (addr req) with
  | Some e =>
      let c := add_receiver c e.1 req in
      c ← write_through c e.2 (fun l => with_dirty l (dirty || l_dirty l));
      Ok (true, req, c)
  | None =>
      if Z.of_nat (length (m_mshrs c)) =? u64 (p_num_mshrs (c_params c)) then
        counts ← count_unavailable (c_counts c);
        Ok (false, req, with_c_counts c counts)
      else if negb (line_available (c_params c) s) then Ok (false, req, c)
      else
        p ← allocate_line c clk i s (addr req);
        match p with
        | (None, _) => Err (Throw "Failed to allocate new line when there is available entry.")
        | (Some it, c) =>
            c ← write_through c it (fun l => with_dirty l dirty);
            let c := with_m_mshrs c (m_mshrs c ++ [(addr req, it)]) in
            let c := set_receivers c (addr req) [req] in
            let req := set_size req (line_bytes (c_params c)) in
            Ok (true, req, push_miss c clk req)
        end
  end.

(** [send] takes the request by reference: the caller sees the changed one. *)
Definition llc_send (c : SimpleO3LLC) (clk : Z) (req : Request) : res (bool * Request * SimpleO3LLC) :=
  p ← llc_get_set c (addr req);
  let '(i, s, c) := p in
  counts ← count_access (c_counts c) (type_id req);
  let c := with_c_counts c counts in
  hit ← check_set_hit (c_params c) s (addr req);
  match hit with
  | Some line => send_hit c clk i line req
  | None => send_miss c clk i s req
  end.

(** ** Responses *)
Definition llc_receive (c : SimpleO3LLC) (req : Request) : res SimpleO3LLC :=
  match list_find (fun e => align (c_params c) e.1 = align (c_params c) (addr req)) (m_mshrs c) with
  | Some (k, e) =>
      c ← write_through c e.2 (fun l => with_ready l true);
      Ok (with_m_mshrs c (erase k (m_mshrs c)))
  | None => Ok c
  end.

(** ** The tick *)
Section Tick.
Context {F M : Type} `{IMemorySystem M}.
(** The frontend the cache is a part of, and what a request's callback
    does to it. *)
Variable llc_of : F -> SimpleO3LLC.
Variable with_llc : F -> SimpleO3LLC -> F.
Variable on_callback : F -> Request -> res F.
Variable clk : Z.

Definition set_misses (f : F) (l : list (Z * Request)) : F := with_llc f (with_m_miss_list (llc_of f) l).
Definition set_hits (f : F) (l : list (Z * Request)) : F := with_llc f (with_m_hit_list (llc_of f) l).

(** [kept] are the entries before the iterator, the list those from it
    on.  A refused request stays as the memory system left it. *)
Fixpoint miss_loop (kept l : list (Z * Request)) (f : F) (m : M) : res (F * M) :=
  match l with
  | [] => Ok (f, m)
  | (t, req) :: l =>
      if t <=? clk then
        p ← mem_send m req;
        let '(ok, req, called, m) := p in
        f ← foldM on_callback called f;
        if (ok : bool) then miss_loop kept l (set_misses f (kept ++ l)) m
        else miss_loop (kept ++ [(t, req)]) l (set_misses f (kept ++ (t, req) :: l)) m
      else miss_loop (kept ++ [(t, req)]) l f m
  end.

Fixpoint hit_loop (kept l : list (Z * Request)) (f : F) : res F :=
  match l with
  | [] => Ok f
  | (t, req) :: l =>
      if t <=? clk then
        let f := with_llc f (set_receivers (llc_of f) (addr req) [req]) in
        match callback req with
        | None => Err (Throw "std::bad_function_call")
        | Some _ =>
            f ← on_callback f req;
            hit_loop kept l (set_hits f (kept ++ l))
        end
      else hit_loop (kept ++ [(t, req)]) l f
  end.

Definition llc_tick (f : F) (m : M) : res (F * M) :=
  p ← miss_loop [] (m_miss_list (llc_of f)) f m;
  f ← hit_loop [] (m_hit_list (llc_of p.1)) p.1;
  Ok (f, p.2).
End Tick.
