(* ===== verification/LlcInv.v ===== *)
(** * LlcInv: the invariant of the last-level cache

    The geometry of a cache whose line size and number of sets are powers of
    two, the invariant that ties cache lines and MSHR entries together, and
    the four possible outcomes of a request. *)
From stdpp Require Import prelude gmap strings.
From S2P Require Import Prelude DramSpec Request BitUtils ChannelMapper MemSystem LLC.
Open Scope Z_scope.

(** ** Geometry *)
Definition in64 (a : Z) : Prop := - 2 ^ 63 <= a < 2 ^ 63.

Record geometry (p : llc_params) (set_bits : Z) : Prop := mkGeometry {
  g_offset : 0 <= p_index_offset p;
  g_sets : 0 <= set_bits <= 30;
  g_tag : p_tag_offset p = p_index_offset p + set_bits;
  g_width : p_tag_offset p < 63;
  g_mask : p_index_mask p = 2 ^ set_bits - 1;
  g_line : p_linesize_bytes p = 2 ^ p_index_offset p;
  g_ways : 1 <= p_associativity p < 2 ^ 31;
  g_mshrs : 0 <= p_num_mshrs p < 2 ^ 31
}.

(** The number of the line an address lies in, its set and its tag. *)
Definition block (p : llc_params) (a : Z) : Z := a / 2 ^ p_index_offset p.
Definition index_of (p : llc_params) (a : Z) : Z := block p a mod (p_index_mask p + 1).
Definition tag_of (p : llc_params) (a : Z) : Z := a / 2 ^ p_tag_offset p.

Section Geometry.
Context {p : llc_params} {j : Z} (G : geometry p j).

Lemma get_index_ok a : get_index p a = Ok (index_of p a).
Proof using G.
  destruct G. unfold get_index, shr64, index_of, block.
  replace (0 <=? p_index_offset p) with true by (symmetry; lia).
  replace (p_index_offset p <? 64) with true by (symmetry; lia). cbn.
  rewrite Z.shiftr_div_pow2 by lia. rewrite g_mask0.
  replace (2 ^ j - 1) with (Z.ones j) by (rewrite Z.ones_equiv; lia).
  rewrite Z.land_ones by lia. replace (Z.ones j + 1) with (2 ^ j) by (rewrite Z.ones_equiv; lia).
  f_equal. apply i32_id.
  pose proof (Z.mod_pos_bound (a / 2 ^ p_index_offset p) (2 ^ j) ltac:(apply Z.pow_pos_nonneg; lia)).
  assert (2 ^ j <= 2 ^ 30) by (apply Z.pow_le_mono_r; lia). lia.
Qed.

Lemma get_tag_ok a : get_tag p a = Ok (tag_of p a).
Proof using G.
  destruct G. unfold get_tag, shr64, tag_of.
  replace (0 <=? p_tag_offset p) with true by (symmetry; lia).
  replace (p_tag_offset p <? 64) with true by (symmetry; lia). cbn.
  by rewrite Z.shiftr_div_pow2 by lia.
Qed.

Lemma align_ok a : in64 a -> align p a = block p a * 2 ^ p_index_offset p.
Proof using G.
  intros Ha. destruct G. unfold align, block, in64 in *. rewrite g_line0.
  set (k := p_index_offset p) in *. assert (Hk : 0 < 2 ^ k) by (apply Z.pow_pos_nonneg; lia).
  assert (2 ^ k <= 2 ^ 62) by (apply Z.pow_le_mono_r; lia).
  unfold u64 at 3. rewrite (wrap_id 64 (2 ^ k - 1)) by lia.
  unfold u64, wrap. rewrite <- !Z.land_ones by lia.
  rewrite !Z.land_assoc, <- (Z.land_assoc a), (Z.land_comm (Z.ones 64)), Z.land_assoc.
  rewrite <- (Z.land_assoc _ (Z.ones 64)), Z.land_diag.
  replace (2 ^ k - 1) with (Z.ones k) by (rewrite Z.ones_equiv; lia).
  rewrite <- Z.ldiff_land, Z.ldiff_ones_r by lia.
  rewrite Z.shiftr_div_pow2, Z.shiftl_mul_pow2 by lia.
  assert (Hr : - 2 ^ 63 <= a / 2 ^ k * 2 ^ k < 2 ^ 63).
  { pose proof (Z.mul_div_le a (2 ^ k) Hk). split; [|lia].
    assert (- 2 ^ (63 - k) <= a / 2 ^ k).
    { apply Z.div_le_lower_bound; [lia|].
      replace (2 ^ k * - 2 ^ (63 - k)) with (- 2 ^ 63); [lia|].
      rewrite Z.mul_opp_r, <- Z.pow_add_r by lia. do 2 f_equal. lia. }
    replace (- 2 ^ 63) with (- 2 ^ (63 - k) * 2 ^ k); [nia|].
    rewrite Z.mul_opp_l, <- Z.pow_add_r by lia. do 2 f_equal. lia. }
  rewrite Z.land_ones by lia. unfold i64, swrap.
  rewrite Zplus_mod_idemp_l. change ((?x + 2 ^ (64 - 1)) mod 2 ^ 64 - 2 ^ (64 - 1)) with (swrap 64 x).
  apply swrap_id; lia.
Qed.

Lemma block_split a : block p a = tag_of p a * 2 ^ j + index_of p a.
Proof using G.
  destruct G. unfold index_of, block, tag_of.
  rewrite g_mask0, g_tag0, Z.pow_add_r, <- Z.div_div by (try apply Z.pow_pos_nonneg; lia).
  replace (2 ^ j - 1 + 1) with (2 ^ j) by lia.
  pose proof (Z.div_mod (a / 2 ^ p_index_offset p) (2 ^ j) ltac:(pose proof (Z.pow_pos_nonneg 2 j); lia)). lia.
Qed.

(** A line is identified by its set and its tag. *)
Lemma same_block a b : block p a = block p b <-> index_of p a = index_of p b /\ tag_of p a = tag_of p b.
Proof using G.
  split; [|intros [H1 H2]; by rewrite !block_split, H1, H2].
  intros Hb. assert (Hi : index_of p a = index_of p b) by (unfold index_of; by rewrite Hb).
  split; [done|]. rewrite !block_split in Hb. rewrite Hi in Hb. pose proof (Z.pow_pos_nonneg 2 j). destruct G. nia.
Qed.

Lemma align_eq a b : in64 a -> in64 b -> align p a = align p b <-> block p a = block p b.
Proof using G.
  intros Ha Hb. rewrite !align_ok by done. destruct G. pose proof (Z.pow_pos_nonneg 2 (p_index_offset p)).
  split; [nia|by intros ->].
Qed.

Lemma ways_ok : u64 (p_associativity p) = p_associativity p.
Proof using G. destruct G. apply wrap_id. lia. Qed.
Lemma mshrs_ok : u64 (p_num_mshrs p) = p_num_mshrs p.
Proof using G. destruct G. apply wrap_id. lia. Qed.
End Geometry.

(** ** The invariant *)
Definition lines (sets : gmap Z (list Line)) (i : Z) : list Line := default [] (sets !! i).

(** What a set with a given index holds. *)
Record set_ok (p : llc_params) (next i : Z) (s : list Line) : Prop := mkSetOk {
  so_line : forall l, l ∈ s ->
    in64 (l_addr l) /\ index_of p (l_addr l) = i /\ l_tag l = tag_of p (l_addr l) /\ l_id l < next;
  so_tags : NoDup (l_tag <$> s);
  so_ids : NoDup (l_id <$> s);
  so_len : Z.of_nat (length s) <= p_associativity p
}.

(** Every MSHR entry points to a line in flight for its address, there is
    one entry for each such line, and no two for the same line. *)
Record llc_inv (p : llc_params) (sets : gmap Z (list Line)) (mshrs : list (Z * (Z * Z))) (next : Z) : Prop := mkInv {
  li_sets : forall i, set_ok p next i (lines sets i);
  li_mshr : forall a i n, (a, (i, n)) ∈ mshrs ->
    in64 a /\ i = index_of p a /\
    exists l, l ∈ lines sets i /\ l_id l = n /\ l_tag l = tag_of p a /\ l_ready l = false;
  li_flight : forall i l, l ∈ lines sets i -> l_ready l = false -> exists a, (a, (i, l_id l)) ∈ mshrs;
  li_blocks : NoDup ((fun e => block p e.1) <$> mshrs);
  li_mshr_len : Z.of_nat (length mshrs) <= p_num_mshrs p
}.

Lemma lines_insert sets i s : lines (<[i := s]> sets) i = s.
Proof. unfold lines. by rewrite lookup_insert_eq. Qed.

Lemma lines_insert_ne sets i k s : i <> k -> lines (<[i := s]> sets) k = lines sets k.
Proof. unfold lines. intros. by rewrite lookup_insert_ne. Qed.

Lemma NoDup_fmap_inj {A B} (f : A -> B) (l : list A) x y :
  NoDup (f <$> l) -> x ∈ l -> y ∈ l -> f x = f y -> x = y.
Proof.
  intros Hnd [i Hi]%list_elem_of_lookup [k Hk]%list_elem_of_lookup Hf.
  assert (i = k); [|congruence].
  apply (NoDup_lookup _ i k (f x) Hnd); rewrite list_lookup_fmap; [by rewrite Hi|rewrite Hk; cbn; congruence].
Qed.

Lemma NoDup_fmap_filter {A B} (f : A -> B) (P : A -> Prop) `{forall x, Decision (P x)} (l : list A) :
  NoDup (f <$> l) -> NoDup (f <$> filter P l).
Proof. intros Hnd. exact (sublist_NoDup _ _ Hnd (fmap_sublist f _ _ (sublist_filter P l))). Qed.

Lemma find_if_Some {A} (f : A -> bool) l x : find_if f l = Some x -> x ∈ l /\ f x = true.
Proof.
  unfold find_if. intros [k H]%head_Some.
  assert (x ∈ filter (fun x => f x = true) l) as Hin by (rewrite H; by left). apply list_elem_of_filter in Hin. tauto.
Qed.

Lemma find_if_None {A} (f : A -> bool) l : find_if f l = None -> forall x, x ∈ l -> f x = false.
Proof.
  unfold find_if. intros H%head_None x Hx. destruct (f x) eqn:Hf; [|done].
  assert (x ∈ filter (fun x => f x = true) l) as Hin by (by apply list_elem_of_filter). rewrite H in Hin. set_solver.
Qed.

(** The first match is the only one when matches are unique. *)
Lemma find_if_unique {A} (f : A -> bool) l x :
  x ∈ l -> f x = true -> (forall y, y ∈ l -> f y = true -> y = x) -> find_if f l = Some x.
Proof.
  intros Hx Hf Hu. destruct (find_if f l) as [y|] eqn:Hy.
  - apply find_if_Some in Hy as [??]. f_equal. by apply Hu.
  - by rewrite (find_if_None _ _ Hy x Hx) in Hf.
Qed.

Lemma erase_line_elem n s l : l ∈ erase_line n s <-> l ∈ s /\ l_id l <> n.
Proof. unfold erase_line. rewrite list_elem_of_filter. tauto. Qed.

Lemma erase_line_length l s : l ∈ s -> (length (erase_line (l_id l) s) < length s)%nat.
Proof. intros Hl. apply length_filter_lt with l; [done|tauto]. Qed.

(** ** Steps that keep the invariant *)
Lemma set_ok_mono p n n' i s : n <= n' -> set_ok p n i s -> set_ok p n' i s.
Proof. intros Hn []. split; try done. intros l Hl. destruct (so_line0 l Hl) as (?&?&?&?). split_and!; try done; lia. Qed.

Lemma set_ok_filter p n i s (P : Line -> Prop) `{forall x, Decision (P x)} :
  set_ok p n i s -> set_ok p n i (filter P s).
Proof.
  intros []. split; try by apply NoDup_fmap_filter.
  - intros l [_ Hl]%list_elem_of_filter. by apply so_line0.
  - pose proof (length_filter P s). lia.
Qed.

(** A new line for a tag the set does not have. *)
Lemma set_ok_push p n i s a d r :
  set_ok p n i s -> in64 a -> index_of p a = i -> (forall l, l ∈ s -> l_tag l <> tag_of p a) ->
  Z.of_nat (length s) < p_associativity p ->
  set_ok p (n + 1) i (s ++ [mkLine n a (tag_of p a) d r]).
Proof.
  intros Hs Ha Hi Ht Hl. pose proof (set_ok_mono _ n (n + 1) _ _ ltac:(lia) Hs) as [H1 H2 H3 H4]. split.
  - intros l [Hin| ->%list_elem_of_singleton]%elem_of_app; [by apply H1|]. cbn. split_and!; try done. lia.
  - rewrite fmap_app. apply NoDup_app. split_and!; [done| |apply NoDup_singleton].
    intros t (l & -> & Hin)%list_elem_of_fmap Htg%list_elem_of_singleton. by apply (Ht l).
  - rewrite fmap_app. apply NoDup_app. split_and!; [done| |apply NoDup_singleton].
    intros t (l & -> & Hin)%list_elem_of_fmap Hid%list_elem_of_singleton. cbn in Hid.
    destruct Hs as [Hs _ _ _]. destruct (Hs l Hin) as (_&_&_&?). lia.
  - rewrite length_app. cbn. lia.
Qed.

(** Changing the contents of the lines of a set, not what they are for. *)
Lemma set_ok_map p n i s (f : Line -> Line) :
  (forall l, l_id (f l) = l_id l /\ l_tag (f l) = l_tag l /\ l_addr (f l) = l_addr l) ->
  set_ok p n i s -> set_ok p n i (map f s).
Proof.
  intros Hf [H1 H2 H3 H4]. split.
  - intros l (k & -> & Hk)%list_elem_of_fmap. destruct (Hf k) as (->&->&->). by apply H1.
  - change (map f s) with (f <$> s). rewrite <- list_fmap_compose. rewrite (list_fmap_ext _ l_tag s); [done|].
    intros _ l _. apply Hf.
  - change (map f s) with (f <$> s). rewrite <- list_fmap_compose. rewrite (list_fmap_ext _ l_id s); [done|].
    intros _ l _. apply Hf.
  - by rewrite length_map.
Qed.

Section Steps.
Context {p : llc_params} {sets : gmap Z (list Line)} {mshrs : list (Z * (Z * Z))} {n : Z}.
Context (I : llc_inv p sets mshrs n).

(** A set changes and the lines in flight in it stay. *)
Lemma inv_set n' i s' :
  n <= n' -> set_ok p n' i s' ->
  (forall l, l ∈ lines sets i -> l_ready l = false ->
     exists l', l' ∈ s' /\ l_id l' = l_id l /\ l_tag l' = l_tag l /\ l_ready l' = false) ->
  (forall l', l' ∈ s' -> l_ready l' = false ->
     exists l, l ∈ lines sets i /\ l_id l = l_id l' /\ l_ready l = false) ->
  llc_inv p (<[i := s']> sets) mshrs n'.
Proof using I.
  intros Hn Hs Hto Hfrom. destruct I as [H1 H2 H3 H4 H5]. split; try done.
  - intros k. destruct (decide (i = k)) as [->|]; [by rewrite lines_insert|].
    rewrite lines_insert_ne by done. eapply set_ok_mono; [|apply H1]. done.
  - intros a k m Hin. destruct (H2 a k m Hin) as (Ha & Hk & l & Hl & Hid & Ht & Hr). split_and!; [done|done|].
    destruct (decide (i = k)) as [->|]; [|by rewrite lines_insert_ne by done; eauto].
    rewrite lines_insert. destruct (Hto l Hl Hr) as (l' & ? & ? & ? & ?). exists l'. split_and!; congruence.
  - intros k l Hl Hr. destruct (decide (i = k)) as [->|]; [|rewrite lines_insert_ne in Hl by done; by apply H3].
    rewrite lines_insert in Hl. destruct (Hfrom l Hl Hr) as (l0 & Hl0 & <- & Hr0). by apply H3.
Qed.

(** A line in flight and its MSHR entry are added. *)
Lemma inv_alloc n' i s' l a :
  n <= n' -> set_ok p n' i (s' ++ [l]) -> in64 a -> i = index_of p a -> l_tag l = tag_of p a -> l_ready l = false ->
  (forall l', l_ready l' = false -> l' ∈ s' <-> l' ∈ lines sets i) ->
  block p a ∉ ((fun e => block p e.1) <$> mshrs) ->
  Z.of_nat (length mshrs) < p_num_mshrs p ->
  llc_inv p (<[i := s' ++ [l]]> sets) (mshrs ++ [(a, (i, l_id l))]) n'.
Proof using I.
  intros Hn Hs Ha Hi Ht Hr Hsame Hb Hlen. destruct I as [H1 H2 H3 H4 H5]. split.
  - intros k. destruct (decide (i = k)) as [<-|]; [by rewrite lines_insert|].
    rewrite lines_insert_ne by done. eapply set_ok_mono; [|apply H1]. done.
  - intros b k m [Hin|[= -> -> ->]%list_elem_of_singleton]%elem_of_app.
    + destruct (H2 b k m Hin) as (Hb' & Hk & l' & Hl' & ? & ? & Hr'). split_and!; [done|done|].
      destruct (decide (i = k)) as [<-|]; [|by rewrite lines_insert_ne by done; eauto].
      rewrite lines_insert. exists l'. split_and!; try done. apply elem_of_app. left. by apply Hsame.
    + split_and!; [done|done|]. rewrite lines_insert. exists l. split_and!; try done.
      apply elem_of_app. right. by left.
  - intros k l' Hl' Hr'. destruct (decide (i = k)) as [<-|].
    + rewrite lines_insert in Hl'. apply elem_of_app in Hl' as [Hl'| ->%list_elem_of_singleton].
      * apply Hsame in Hl'; [|done]. destruct (H3 i l' Hl' Hr') as [b ?]. exists b. apply elem_of_app. by left.
      * exists a. apply elem_of_app. right. by left.
    + rewrite lines_insert_ne in Hl' by done. destruct (H3 k l' Hl' Hr') as [b ?]. exists b. apply elem_of_app. by left.
  - rewrite fmap_app. apply NoDup_app. split_and!; [done| |apply NoDup_singleton].
    intros x Hx ->%list_elem_of_singleton. by apply Hb.
  - rewrite length_app. cbn. lia.
Qed.
End Steps.

(** ** Counters *)
Definition counters (st : llc_stats) : list Z :=
  [s_llc_read_access st; s_llc_write_access st; s_llc_read_misses st; s_llc_write_misses st; s_llc_eviction st;
   s_llc_mshr_unavailable st].

(** No counter of the cache is at the largest [int]. *)
Definition room (st : llc_stats) : Prop := Forall (fun x => 0 <= x < 2 ^ 31 - 1) (counters st).

(** What one request does to the counters: each grows by one at most. *)
Definition counts_step (st st' : llc_stats) : Prop := Forall2 (fun x y => x <= y <= x + 1) (counters st) (counters st').

Definition counter_overflow (st : llc_stats) (e : err) : Prop := e = UndefinedBehaviour /\ ~ room st.

Lemma int_res_ends (E : err -> Prop) x (Q : Z -> Prop) :
  (- 2 ^ 31 <= x < 2 ^ 31 -> Q x) -> (~ - 2 ^ 31 <= x < 2 ^ 31 -> E UndefinedBehaviour) -> ends E (int_res x) Q.
Proof. unfold int_res. intros H1 H2. destruct (Z.leb_spec (- 2 ^ 31) x), (Z.ltb_spec x (2 ^ 31)); cbn; first [apply H1; lia | apply H2; lia]. Qed.

Local Ltac counting :=
  unfold count_access, count_miss, count_eviction, count_unavailable, add_int;
  repeat match goal with
  | |- ends _ (if ?b then _ else _) _ => destruct b
  | |- ends _ (_ ≫= _) _ => apply ends_bind
  | |- ends _ (int_res _) _ => apply int_res_ends; intros ?
  | |- ends _ (Ok _) _ => cbn [ends]
  end;
  unfold counts_step, counter_overflow, room, counters in *; cbn [s_llc_read_access s_llc_write_access s_llc_read_misses
    s_llc_write_misses s_llc_eviction s_llc_mshr_unavailable] in *;
  rewrite ?Forall_cons, ?Forall2_cons; try (split; [reflexivity|]); try lia; repeat (constructor; [lia|]); constructor.

(** The counters of a request in the order the code updates them: the
    access, then the miss, then the eviction or the refusal. *)
Lemma count_access_ends st t : ends (counter_overflow st) (count_access st t) (counts_step st).
Proof. destruct st as [ra wa rm wm ev un]. counting. Qed.

Local Ltac counted H :=
  unfold count_access, count_miss, add_int in *; repeat (dcase H); inv_res;
  repeat match goal with H : int_res _ = Ok _ |- _ => apply int_res_Ok in H as [-> ?] end; subst.

Lemma count_miss_ends st st1 t : count_access st t = Ok st1 -> ends (counter_overflow st) (count_miss st1 t) (counts_step st).
Proof. destruct st as [ra wa rm wm ev un]. intros H. counted H; counting. Qed.

Lemma count_last_ends st st1 st2 t :
  count_access st t = Ok st1 -> count_miss st1 t = Ok st2 ->
  ends (counter_overflow st) (count_eviction st2) (counts_step st) /\
  ends (counter_overflow st) (count_unavailable st2) (counts_step st).
Proof. destruct st as [ra wa rm wm ev un]. intros H1 H2. counted H1; counted H2; split; counting. Qed.

(** ** What a request can lead to *)
Definition llc_ok (c : SimpleO3LLC) : Prop :=
  (exists set_bits, geometry (c_params c) set_bits) /\
  llc_inv (c_params c) (m_cache_sets c) (m_mshrs c) (c_next c).

Definition the_set (c : SimpleO3LLC) (a : Z) : list Line := lines (m_cache_sets c) (index_of (c_params c) a).

(** The request as the cache passes it on: a store is fetched as a read. *)
Definition fetch_of (req : Request) : Request := if type_id req =? Type_Write then set_type req Type_Read else req.

Definition writeback_of (p : llc_params) (l : Line) : Request :=
  set_size (Request_addr (l_addr l) Type_Write) (line_bytes p).

Definition with_set (c : SimpleO3LLC) (a : Z) (s : list Line) : gmap Z (list Line) :=
  <[index_of (c_params c) a := s]> (m_cache_sets c).

(** The four outcomes: a hit moves the line to the most recently used end; a
    miss on a line in flight joins its MSHR entry; a miss is refused when
    there is no free entry or no line to evict; otherwise a line is
    allocated, after evicting the least recently used line that is not in
    flight when the set is full. *)
Inductive llc_outcome (c : SimpleO3LLC) (clk : Z) (req : Request) : bool * Request * SimpleO3LLC -> Prop :=
| OutHit line counts :
    counts_step (c_counts c) counts ->
    line ∈ the_set c (addr req) -> l_ready line = true -> l_tag line = tag_of (c_params c) (addr req) ->
    llc_outcome c clk req
      (true, req,
       mkLLC (with_set c (addr req) (erase_line (l_id line) (the_set c (addr req)) ++
                [mkLine (c_next c) (addr req) (tag_of (c_params c) (addr req))
                   (l_dirty line || (type_id req =? Type_Write)) true]))
         (m_mshrs c) (m_receive_requests c) (m_miss_list c)
         (m_hit_list c ++ [(clk + p_latency (c_params c), req)])
         (c_params c) counts (c_next c + 1))
| OutMerge a n counts :
    counts_step (c_counts c) counts ->
    (a, (index_of (c_params c) (addr req), n)) ∈ m_mshrs c -> block (c_params c) a = block (c_params c) (addr req) ->
    llc_outcome c clk req
      (true, fetch_of req,
       mkLLC (with_set c (addr req)
                (write_line n (fun l => with_dirty l ((type_id req =? Type_Write) || l_dirty l)) (the_set c (addr req))))
         (m_mshrs c) (<[a := default [] (m_receive_requests c !! a) ++ [fetch_of req]]> (m_receive_requests c))
         (m_miss_list c) (m_hit_list c) (c_params c) counts (c_next c))
| OutRefuse counts :
    counts_step (c_counts c) counts ->
    (forall e, e ∈ m_mshrs c -> block (c_params c) e.1 <> block (c_params c) (addr req)) ->
    Z.of_nat (length (m_mshrs c)) = p_num_mshrs (c_params c) \/
    Z.of_nat (length (the_set c (addr req))) = p_associativity (c_params c) /\
      (forall l, l ∈ the_set c (addr req) -> l_ready l = false) ->
    llc_outcome c clk req
      (false, fetch_of req,
       mkLLC (with_set c (addr req) (the_set c (addr req))) (m_mshrs c) (m_receive_requests c) (m_miss_list c)
         (m_hit_list c) (c_params c) counts (c_next c))
| OutAlloc s written counts :
    counts_step (c_counts c) counts ->
    (forall l, l ∈ the_set c (addr req) -> l_tag l <> tag_of (c_params c) (addr req)) ->
    (forall e, e ∈ m_mshrs c -> block (c_params c) e.1 <> block (c_params c) (addr req)) ->
    Z.of_nat (length (m_mshrs c)) < p_num_mshrs (c_params c) ->
    (s = the_set c (addr req) /\ Z.of_nat (length s) < p_associativity (c_params c) /\ written = [] \/
     exists victim older newer,
       the_set c (addr req) = older ++ victim :: newer /\ s = older ++ newer /\
       Z.of_nat (length (the_set c (addr req))) = p_associativity (c_params c) /\
       l_ready victim = true /\ Forall (fun l => l_ready l = false) older /\
       written = (if l_dirty victim then [(clk + p_latency (c_params c), writeback_of (c_params c) victim)] else [])) ->
    llc_outcome c clk req
      (true, set_size (fetch_of req) (line_bytes (c_params c)),
       mkLLC (with_set c (addr req) (s ++ [mkLine (c_next c) (addr req) (tag_of (c_params c) (addr req))
                                             (type_id req =? Type_Write) false]))
         (m_mshrs c ++ [(addr req, (index_of (c_params c) (addr req), c_next c))])
         (<[addr req := [fetch_of req]]> (m_receive_requests c))
         (m_miss_list c ++ written ++ [(clk + p_latency (c_params c), set_size (fetch_of req) (line_bytes (c_params c)))])
         (m_hit_list c) (c_params c) counts (c_next c + 1)).

(** ** Following iterators *)
Lemma find_if_split {A} (f : A -> bool) l x :
  find_if f l = Some x -> exists older newer, l = older ++ x :: newer /\ f x = true /\ Forall (fun y => f y = false) older.
Proof.
  unfold find_if. induction l as [|y l IH]; [done|]. rewrite filter_cons. destruct (decide (f y = true)) as [Hy|Hy].
  - intros [= ->]. exists [], l. split_and!; [done|done|constructor].
  - intros H. destruct (IH H) as (o & w & -> & Hx & Ho). exists (y :: o), w. split_and!; [done|done|].
    constructor; [by apply not_true_is_false|done].
Qed.

Lemma erase_line_split older l newer :
  NoDup (l_id <$> (older ++ l :: newer)) -> erase_line (l_id l) (older ++ l :: newer) = older ++ newer.
Proof.
  rewrite fmap_app, fmap_cons. intros (_ & Hd & [Hn _]%NoDup_cons)%NoDup_app. unfold erase_line.
  assert (Hk : forall k : list Line, l_id l ∉ l_id <$> k -> filter (fun l0 => l_id l0 <> l_id l) k = k).
  { induction k as [|x k IH]; [done|]. rewrite fmap_cons, not_elem_of_cons. intros [Hx Hk].
    rewrite filter_cons_True by auto. by rewrite IH. }
  rewrite filter_app, filter_cons_False by auto. rewrite !Hk; try done.
  intros Hin. apply (Hd _ Hin). by left.
Qed.

Lemma deref_ok c i l :
  l ∈ lines (m_cache_sets c) i -> NoDup (l_id <$> lines (m_cache_sets c) i) ->
  deref c (i, l_id l) = Ok (lines (m_cache_sets c) i, l).
Proof.
  unfold deref, lines. cbn. destruct (m_cache_sets c !! i) as [s|]; cbn; [|set_solver].
  intros Hl Hnd. rewrite (find_if_unique _ s l); [done|done|apply Z.eqb_refl|].
  intros y Hy Heq%Z.eqb_eq. by apply (NoDup_fmap_inj l_id s).
Qed.

Lemma write_through_ok c i l f :
  l ∈ lines (m_cache_sets c) i -> NoDup (l_id <$> lines (m_cache_sets c) i) ->
  write_through c (i, l_id l) f = Ok (store_set c i (write_line (l_id l) f (lines (m_cache_sets c) i))).
Proof. intros Hl Hnd. unfold write_through. by rewrite (deref_ok c i l). Qed.

Lemma write_line_snoc n f s l :
  l_id l = n -> Forall (fun k => l_id k <> n) s -> write_line n f (s ++ [l]) = s ++ [f l].
Proof.
  intros <- Hs. unfold write_line. rewrite map_app. cbn. rewrite Z.eqb_refl. f_equal.
  induction Hs as [|k s Hk Hs IH]; [done|]. cbn. rewrite IH. by rewrite (proj2 (Z.eqb_neq _ _) Hk).
Qed.

Lemma write_line_elem n f s l :
  l ∈ write_line n f s <-> exists k, k ∈ s /\ l = if l_id k =? n then f k else k.
Proof. unfold write_line. rewrite list_elem_of_fmap. firstorder. Qed.

Lemma addr_fetch req : addr (fetch_of req) = addr req.
Proof. unfold fetch_of. by destruct (_ =? _). Qed.

Lemma llc_get_set_ok c j a : geometry (c_params c) j ->
  llc_get_set c a = Ok (index_of (c_params c) a, the_set c a, with_m_cache_sets c (with_set c a (the_set c a))).
Proof.
  intros G. unfold llc_get_set. rewrite (get_index_ok G). cbn. unfold the_set, lines, with_set.
  destruct (m_cache_sets c !! _) as [s|] eqn:Hs; cbn; [|done]. rewrite insert_id by done. by destruct c.
Qed.

(** Unfolds the field updates of the cache. *)
Ltac llc_fields :=
  unfold push_line, push_miss, evict_line, add_receiver, set_receivers, store_set, with_set, with_m_cache_sets,
    with_m_mshrs, with_m_receive_requests, with_m_miss_list, with_m_hit_list, with_c_params, with_c_counts,
    with_c_next;
  cbn [m_cache_sets m_mshrs m_receive_requests m_miss_list m_hit_list c_params c_counts c_next].

(** ** Requests *)
Section Send.
Context (c : SimpleO3LLC) (clk : Z) (req : Request) (j : Z).
Context (G : geometry (c_params c) j) (Ha : in64 (addr req)).
Context (I : llc_inv (c_params c) (m_cache_sets c) (m_mshrs c) (c_next c)).

Let p := c_params c.
Let i := index_of p (addr req).
Let s := the_set c (addr req).
Context (st1 : llc_stats) (Hst1 : count_access (c_counts c) (type_id req) = Ok st1).
Local Abbreviation overflow := (counter_overflow (c_counts c)).
(** The state after [get_set] and the access counter. *)
Let c0 := with_c_counts (with_m_cache_sets c (with_set c (addr req) s)) st1.

Lemma access_step : counts_step (c_counts c) st1.
Proof using Hst1. pose proof (count_access_ends (c_counts c) (type_id req)) as H. by rewrite Hst1 in H. Qed.

Lemma set_fine : set_ok p (c_next c) i s.
Proof using I. apply I. Qed.

Lemma hit_case line :
  line ∈ s -> l_ready line = true -> l_tag line = tag_of p (addr req) ->
  exists r, send_hit c0 clk i line req = Ok r /\ llc_outcome c clk req r.
Proof using G Ha I Hst1.
  intros Hl Hr Ht. eexists. split; [|by apply (OutHit c clk req line st1 access_step)].
  unfold send_hit, c0. llc_fields. rewrite (get_tag_ok G). cbn [mbind res_bind].
  llc_fields. fold p i. rewrite !lookup_insert_eq. cbn [default from_option id]. do 2 f_equal.
  rewrite !insert_insert_eq. do 2 f_equal. unfold erase_line. rewrite filter_app. f_equal.
  rewrite filter_cons_True; [done|]. cbn. destruct (so_line _ _ _ _ set_fine line Hl) as (_&_&_&?). lia.
Qed.

Lemma mshr_lookup a : in64 a ->
  match check_mshr_hit c a with
  | Some e => e ∈ m_mshrs c /\ block p e.1 = block p a
  | None => forall e, e ∈ m_mshrs c -> block p e.1 <> block p a
  end.
Proof using G I.
  intros H64. unfold check_mshr_hit. fold p.
  assert (Hin : forall e, e ∈ m_mshrs c -> in64 e.1).
  { intros [b [k m]] He. by apply (li_mshr _ _ _ _ I b k m). }
  destruct (find_if _ _) as [e|] eqn:He.
  - apply find_if_Some in He as [He Hb%Z.eqb_eq]. split; [done|]. apply (align_eq G); auto.
  - intros e Hin' Hb. pose proof (find_if_None _ _ He e Hin') as Hn. cbn in Hn. apply Z.eqb_neq in Hn.
    apply Hn. apply (align_eq G); auto.
Qed.

(** The state after the miss counter. *)
Context (st2 : llc_stats) (Hst2 : count_miss st1 (type_id req) = Ok st2).
Let c1 := with_c_counts c0 st2.

Lemma miss_step : counts_step (c_counts c) st2.
Proof using Hst1 Hst2. pose proof (count_miss_ends _ _ _ Hst1) as H. by rewrite Hst2 in H. Qed.
Local Abbreviation dirty := (type_id req =? Type_Write).

Lemma lines_c1 : lines (m_cache_sets c1) i = s.
Proof using. unfold c1, c0. llc_fields. fold p i. apply lines_insert. Qed.

Lemma merge_case e :
  e ∈ m_mshrs c -> block p e.1 = block p (addr req) ->
  exists c', write_through (add_receiver c1 e.1 (fetch_of req)) e.2 (fun l => with_dirty l (dirty || l_dirty l)) = Ok c' /\
    llc_outcome c clk req (true, fetch_of req, c').
Proof using G I Hst1 Hst2.
  destruct e as [a [k n]]. intros He Hb. cbn in Hb.
  destruct (li_mshr _ _ _ _ I a k n He) as (H64 & -> & l & Hl & <- & Ht & Hr).
  apply (same_block G) in Hb as Hsame. destruct Hsame as [Hi Htag].
  assert (Hi' : index_of (c_params c) a = i) by exact Hi. clear Hi. rewrite Hi' in *.
  eexists. split; [|by apply (OutMerge c clk req a (l_id l) st2 miss_step)].
  cbn [fst snd]. rewrite (write_through_ok _ i l).
  - unfold c1, c0. llc_fields. fold p i. rewrite lines_insert, insert_insert_eq. done.
  - change (l ∈ lines (m_cache_sets c1) i). rewrite lines_c1. exact Hl.
  - change (NoDup (l_id <$> lines (m_cache_sets c1) i)). rewrite lines_c1. apply set_fine.
Qed.

(** No line of the set has the tag once neither the set nor the MSHRs hit. *)
Lemma no_tag :
  (forall l, l ∈ s -> l_tag l = tag_of p (addr req) -> l_ready l = false) ->
  (forall e, e ∈ m_mshrs c -> block p e.1 <> block p (addr req)) ->
  forall l, l ∈ s -> l_tag l <> tag_of p (addr req).
Proof using G I.
  intros Hnr Hnm l Hl Ht. destruct (li_flight _ _ _ _ I i l Hl (Hnr l Hl Ht)) as [a Hin].
  apply (Hnm _ Hin). cbn. destruct (li_mshr _ _ _ _ I _ _ _ Hin) as (_ & Hi & l' & Hl' & Hid & Ht' & _).
  apply (same_block G). split; [by rewrite <- Hi|].
  assert (l' = l) as -> by (by apply (NoDup_fmap_inj l_id s); [apply set_fine|..]). fold p in Ht' |- *. congruence.
Qed.

(** The state the allocation continues with, for the lines that stay and
    the write-back that is queued. *)
Lemma alloc_case s' written counts :
  (forall l, l ∈ s -> l_tag l <> tag_of p (addr req)) ->
  (s' = s \/ exists victim, s' = erase_line (l_id victim) s) ->
  let c2 := mkLLC (with_set c (addr req) s') (m_mshrs c) (m_receive_requests c) (m_miss_list c ++ written)
              (m_hit_list c) p counts (c_next c) in
  write_through (push_line c2 i (addr req) (tag_of p (addr req)) false false) (i, c_next c) (fun l => with_dirty l dirty) =
  Ok (mkLLC (with_set c (addr req) (s' ++ [mkLine (c_next c) (addr req) (tag_of p (addr req)) dirty false])) (m_mshrs c)
        (m_receive_requests c) (m_miss_list c ++ written) (m_hit_list c) p counts (c_next c + 1)).
Proof using G I.
  intros Hnt Hs' c2. set (nl := mkLine (c_next c) (addr req) (tag_of p (addr req)) false false).
  assert (Hsub : forall l, l ∈ s' -> l ∈ s).
  { intros l Hl. destruct Hs' as [->|[v ->]]; [done|]. by apply erase_line_elem in Hl as [? _]. }
  assert (Hnew : Forall (fun k => l_id k <> l_id nl) s').
  { apply Forall_forall. intros k Hk. cbn. destruct (so_line _ _ _ _ set_fine k (Hsub k Hk)) as (_&_&_&?). lia. }
  assert (Hid : NoDup (l_id <$> s')).
  { destruct Hs' as [->|[v ->]]; [apply set_fine|]. apply NoDup_fmap_filter, set_fine. }
  change (c_next c) with (l_id nl) at 1. rewrite (write_through_ok _ i nl).
  - unfold c2. llc_fields. fold p i. rewrite !lookup_insert_eq, !insert_insert_eq, lines_insert.
    cbn [default from_option id]. rewrite write_line_snoc by done. done.
  - unfold c2. llc_fields. fold p i. rewrite lookup_insert_eq, lines_insert. apply elem_of_app. right. by left.
  - unfold c2. llc_fields. fold p i. rewrite lookup_insert_eq, lines_insert. cbn [default from_option id].
    rewrite fmap_app. apply NoDup_app. split_and!; [done| |apply NoDup_singleton].
    intros x (k & -> & Hk)%list_elem_of_fmap Hx%list_elem_of_singleton. rewrite Forall_forall in Hnew. by apply (Hnew k).
Qed.

Lemma need_eviction_ok :
  (forall l, l ∈ s -> l_tag l <> tag_of p (addr req)) ->
  need_eviction p s (addr req) = Ok (negb (Z.of_nat (length s) <? p_associativity p)).
Proof using G.
  intros Hnt. unfold need_eviction, p. rewrite (get_tag_ok G). cbn [mbind res_bind]. rewrite (ways_ok G).
  destruct (find_if _ s) as [l|] eqn:Hf; [|done].
  apply find_if_Some in Hf as [Hl Heq%Z.eqb_eq]. by destruct (Hnt l Hl).
Qed.

Lemma evict_line_c1 victim :
  evict_line c1 clk i s victim =
  (counts ← count_eviction st2;
   Ok (mkLLC (with_set c (addr req) (erase_line (l_id victim) s)) (m_mshrs c) (m_receive_requests c)
         (m_miss_list c ++ (if l_dirty victim then [(clk + p_latency p, writeback_of p victim)] else []))
         (m_hit_list c) p counts (c_next c))).
Proof using.
  unfold evict_line, c1, c0. cbn [c_counts with_c_counts]. destruct (count_eviction st2); [|done]. cbn [mbind res_bind].
  destruct (l_dirty victim); llc_fields; by rewrite insert_insert_eq, ?app_nil_r.
Qed.

(** Which lines stay, and which write-back is queued, when a line is
    available. *)
Lemma allocate_ends :
  (forall l, l ∈ s -> l_tag l <> tag_of p (addr req)) -> line_available p s = true ->
  ends overflow (allocate_line c1 clk i s (addr req)) (fun r => exists s' written counts,
    counts_step (c_counts c) counts /\
    (s' = s \/ exists victim, s' = erase_line (l_id victim) s) /\
    (s' = s /\ Z.of_nat (length s') < p_associativity p /\ written = [] \/
     exists victim older newer, s = older ++ victim :: newer /\ s' = older ++ newer /\
       Z.of_nat (length s) = p_associativity p /\ l_ready victim = true /\ Forall (fun l => l_ready l = false) older /\
       written = (if l_dirty victim then [(clk + p_latency p, writeback_of p victim)] else [])) /\
    r = (Some (i, c_next c),
        push_line (mkLLC (with_set c (addr req) s') (m_mshrs c) (m_receive_requests c) (m_miss_list c ++ written)
                     (m_hit_list c) p counts (c_next c)) i (addr req) (tag_of p (addr req)) false false)).
Proof using G I Hst1 Hst2.
  intros Hnt Hav. pose proof (so_len _ _ _ _ set_fine) as Hlen.
  unfold allocate_line. replace (c_params c1) with p by done. rewrite (get_tag_ok G), need_eviction_ok by done.
  cbn [mbind res_bind]. unfold line_available, p in Hav. rewrite (ways_ok G) in Hav. fold p in Hav.
  destruct (Z.ltb_spec (Z.of_nat (length s)) (p_associativity p)) as [Hlt|Hge]; cbn [negb orb] in *.
  - exists s, [], st2. split_and!; [exact miss_step|by left|by left|]. by rewrite app_nil_r.
  - destruct (find_if l_ready s) as [v|] eqn:Hf.
    2: { apply existsb_exists in Hav as (l & Hl & Hr). apply list_elem_of_In in Hl.
         by rewrite (find_if_None _ _ Hf l Hl) in Hr. }
    apply find_if_split in Hf as (older & newer & Hs & Hv & Hold).
    assert (He : erase_line (l_id v) s = older ++ newer).
    { rewrite Hs. apply erase_line_split. rewrite <- Hs. apply set_fine. }
    rewrite evict_line_c1, He. pose proof (proj1 (count_last_ends _ _ _ _ Hst1 Hst2)) as Hev.
    destruct (count_eviction st2) as [st3|e]; [|exact Hev]. cbn [mbind res_bind fmap res_fmap ends].
    exists (older ++ newer), (if l_dirty v then [(clk + p_latency p, writeback_of p v)] else []), st3.
    split_and!; [exact Hev|right; by exists v|right; exists v, older, newer; split_and!; try done; lia|done].
Qed.

(** What is left once the miss is counted. *)
Lemma missed_case :
  (forall l, l ∈ s -> l_tag l = tag_of p (addr req) -> l_ready l = false) ->
  ends overflow (send_miss c0 clk i s req) (llc_outcome c clk req).
Proof using G Ha I Hst1 Hst2.
  intros Hnr. unfold send_miss. cbn [c_counts c0 with_c_counts]. rewrite Hst2. cbn [mbind res_bind]. cbv zeta.
  fold (fetch_of req). change (with_c_counts c0 _) with c1. rewrite addr_fetch.
  change (check_mshr_hit c1 (addr req)) with (check_mshr_hit c (addr req)).
  pose proof (mshr_lookup (addr req) Ha) as Hm. destruct (check_mshr_hit c (addr req)) as [e|].
  { destruct Hm as [He Hb]. destruct (merge_case e He Hb) as (c' & -> & Hout). exact Hout. }
  change (m_mshrs c1) with (m_mshrs c). change (c_params c1) with (c_params c). rewrite (mshrs_ok G).
  destruct (Z.eqb_spec (Z.of_nat (length (m_mshrs c))) (p_num_mshrs (c_params c))) as [Hfull|Hfree].
  { pose proof (proj2 (count_last_ends _ _ _ _ Hst1 Hst2)) as Hun. change (c_counts c1) with st2.
    destruct (count_unavailable st2) as [st3|e]; [|exact Hun]. cbn [mbind res_bind ends].
    unfold c1, c0. llc_fields. apply OutRefuse; [done|done|by left]. }
  destruct (line_available (c_params c) s) eqn:Hav; cbn [negb].
  2: { cbn [ends]. unfold c1, c0. llc_fields. apply OutRefuse; [exact miss_step|done|]. right.
       unfold line_available in Hav. rewrite (ways_ok G) in Hav. apply orb_false_iff in Hav as [Hl He].
       pose proof (so_len _ _ _ _ set_fine). apply Z.ltb_ge in Hl. fold p in Hl. split; [fold s p; lia|].
       intros l Hin. destruct (l_ready l) eqn:Hr; [|done].
       assert (existsb l_ready s = true) as Ht; [|by rewrite Ht in He].
       apply existsb_exists. exists l. split; [by apply list_elem_of_In|done]. }
  assert (Hnt := no_tag Hnr Hm). apply ends_bind. eapply ends_mono; [apply (allocate_ends Hnt Hav)|].
  intros r _ (s' & w & counts & Hst & Hs' & Hw & ->). rewrite (alloc_case s' w counts Hnt Hs'). cbn [mbind res_bind ends].
  assert (Hout := OutAlloc c clk req s' w counts Hst Hnt Hm). rewrite app_assoc in Hout. apply Hout; [|done].
  pose proof (li_mshr_len _ _ _ _ I). lia.
Qed.
End Send.

(** A miss fails only when a counter is at its limit. *)
Lemma miss_case c clk req j st1 :
  geometry (c_params c) j -> in64 (addr req) -> llc_inv (c_params c) (m_cache_sets c) (m_mshrs c) (c_next c) ->
  count_access (c_counts c) (type_id req) = Ok st1 ->
  (forall l, l ∈ the_set c (addr req) -> l_tag l = tag_of (c_params c) (addr req) -> l_ready l = false) ->
  ends (counter_overflow (c_counts c))
    (send_miss (with_c_counts (with_m_cache_sets c (with_set c (addr req) (the_set c (addr req)))) st1) clk
       (index_of (c_params c) (addr req)) (the_set c (addr req)) req) (llc_outcome c clk req).
Proof.
  intros G Ha I Hst1 Hnr. pose proof (count_miss_ends _ _ _ Hst1) as Hst2.
  destruct (count_miss st1 (type_id req)) as [st2|e] eqn:Hm; [by eapply missed_case|].
  unfold send_miss. cbn [c_counts with_c_counts]. by rewrite Hm.
Qed.

(** A request has one of the four outcomes, or a counter is at its limit. *)
Lemma llc_send_cases c clk req :
  llc_ok c -> in64 (addr req) -> ends (counter_overflow (c_counts c)) (llc_send c clk req) (llc_outcome c clk req).
Proof.
  intros [[j G] I] Ha. unfold llc_send. rewrite (llc_get_set_ok _ _ _ G). cbn [mbind res_bind].
  change (c_counts (with_m_cache_sets c _)) with (c_counts c). pose proof (count_access_ends (c_counts c) (type_id req)) as Hst.
  destruct (count_access _ _) as [st1|e] eqn:Hst1; [|exact Hst]. cbn [mbind res_bind].
  unfold check_set_hit. llc_fields. rewrite (get_tag_ok G). cbn [mbind res_bind].
  destruct (find_if _ (the_set c (addr req))) as [l|] eqn:Hf.
  - apply find_if_Some in Hf as [Hl Ht%Z.eqb_eq]. destruct (l_ready l) eqn:Hr.
    { eapply hit_case in Hr as (r & Hr & Hout); try done. by rewrite Hr. }
    eapply miss_case; try done. intros l' Hl' Ht'.
    assert (l' = l) as ->; [|done]. eapply (NoDup_fmap_inj l_tag); try done; [apply I|congruence].
  - eapply miss_case; try done. intros l' Hl' Ht'. pose proof (find_if_None _ _ Hf l' Hl') as Hn. cbn in Hn. lia.
Qed.
