(* ===== verification/LlcProps.v ===== *)
(** * LlcProps: the properties of the last-level cache

    No iterator dangles and no assertion fails, evictions follow the least
    recently used order, dirty lines are written back, and what goes wrong
    when the number of sets is not a power of two. *)
From stdpp Require Import prelude gmap strings sorting.
From S2P Require Import Prelude DramSpec Request BitUtils ChannelMapper MemSystem LLC LlcInv.
Open Scope Z_scope.

(** ** The invariant holds initially and is kept *)
Lemma lines_empty i : lines ∅ i = [].
Proof. unfold lines. by rewrite lookup_empty. Qed.

(** Power-of-two parameters give a well-formed empty cache. *)
Lemma llc_new_ok latency line_bits set_bits ways mshrs :
  0 <= line_bits <= 30 -> 0 <= set_bits <= 30 -> 1 <= ways -> 0 <= mshrs < 2 ^ 31 ->
  2 ^ set_bits * (2 ^ line_bits * ways) < 2 ^ 31 ->
  exists c, SimpleO3LLC_new latency (2 ^ set_bits * (2 ^ line_bits * ways)) (2 ^ line_bits) ways mshrs = Ok c /\
    llc_ok c /\ p_associativity (c_params c) = ways /\ m_cache_sets c = ∅ /\ m_mshrs c = [] /\ m_miss_list c = [] /\ m_hit_list c = [] /\
    m_receive_requests c = ∅ /\ p_linesize_bytes (c_params c) = 2 ^ line_bits /\ c_counts c = mkStats 0 0 0 0 0 0.
Proof.
  intros Hlb Hsb Hw Hm Hsize. unfold SimpleO3LLC_new.
  pose proof (Z.pow_pos_nonneg 2 line_bits ltac:(lia) ltac:(lia)). pose proof (Z.pow_pos_nonneg 2 set_bits ltac:(lia) ltac:(lia)).
  assert (2 ^ line_bits <= 2 ^ 30) by (apply Z.pow_le_mono_r; lia).
  assert (2 ^ set_bits <= 2 ^ 30) by (apply Z.pow_le_mono_r; lia).
  assert (Hway : 1 <= 2 ^ line_bits * ways < 2 ^ 31) by nia. assert (Hways : ways < 2 ^ 31) by nia.
  unfold u64. rewrite !wrap_id by (rewrite ?(wrap_id 64) by lia; nia).
  destruct (Z.eqb_spec (2 ^ line_bits * ways) 0); [lia|]. rewrite Z.div_mul, i32_id by lia.
  rewrite !calc_log2_ok by lia. cbn [mbind res_bind]. rewrite !Z.log2_pow2, i32_id by lia.
  eexists. split; [done|]. cbn. split_and!; try done. split.
  - exists set_bits. split; cbn; lia.
  - split; cbn.
    + intros i. rewrite lines_empty. split; [set_solver|constructor..|cbn; lia].
    + set_solver.
    + intros i l. rewrite lines_empty. set_solver.
    + constructor.
    + lia.
Qed.

Section Outcome.
Context (c : SimpleO3LLC) (clk : Z) (req : Request) (j : Z).
Context (G : geometry (c_params c) j) (Ha : in64 (addr req)).
Context (I : llc_inv (c_params c) (m_cache_sets c) (m_mshrs c) (c_next c)).

Lemma outcome_inv r :
  llc_outcome c clk req r -> llc_inv (c_params r.2) (m_cache_sets r.2) (m_mshrs r.2) (c_next r.2).
Proof using G Ha I.
  pose proof (li_sets _ _ _ _ I (index_of (c_params c) (addr req))) as Hset. fold (the_set c (addr req)) in Hset.
  intros [line counts _ Hl Hr Ht|a n counts _ He Hb|counts _ Hnm Hfull|s written counts _ Hnt Hnm Hlen Hs]; cbn.
  - apply (inv_set I); [lia| | |].
    + apply set_ok_push; try done; [by apply set_ok_filter| |].
      * intros l [Hin Hne]%erase_line_elem Heq. apply Hne. f_equal.
        apply (NoDup_fmap_inj l_tag _ _ _ (so_tags _ _ _ _ Hset) Hin Hl). congruence.
      * pose proof (erase_line_length line _ Hl). pose proof (so_len _ _ _ _ Hset). lia.
    + intros l Hin Hnr. exists l. split_and!; try done. apply elem_of_app. left.
      apply erase_line_elem. split; [done|]. intros Heq.
      assert (l = line) by (by apply (NoDup_fmap_inj l_id _ _ _ (so_ids _ _ _ _ Hset))). congruence.
    + intros l [Hin| ->%list_elem_of_singleton]%elem_of_app Hnr; [|done].
      apply erase_line_elem in Hin as [Hin _]. by exists l.
  - assert (Hw : forall l, l_id (if l_id l =? n then with_dirty l ((type_id req =? Type_Write) || l_dirty l) else l) = l_id l /\
              l_tag (if l_id l =? n then with_dirty l ((type_id req =? Type_Write) || l_dirty l) else l) = l_tag l /\
              l_addr (if l_id l =? n then with_dirty l ((type_id req =? Type_Write) || l_dirty l) else l) = l_addr l /\
              l_ready (if l_id l =? n then with_dirty l ((type_id req =? Type_Write) || l_dirty l) else l) = l_ready l)
      by (intros l; by destruct (_ =? _)).
    apply (inv_set I); [lia| | |].
    + apply set_ok_map; [|done]. intros l. destruct (Hw l) as (?&?&?&?). done.
    + intros l Hin Hnr. eexists. split; [apply write_line_elem; by exists l|]. destruct (Hw l) as (?&?&?&?).
      split_and!; congruence.
    + intros l (k & Hk & ->)%write_line_elem Hnr. exists k. destruct (Hw k) as (?&?&?&?). split_and!; [done|congruence..].
  - apply (inv_set I); [lia|done| |]; intros l; eauto.
  - refine (inv_alloc I _ _ s (mkLine (c_next c) (addr req) _ _ false) (addr req) _ _ Ha eq_refl eq_refl eq_refl _ _ Hlen); [lia| | |].
    + apply set_ok_push; try done; destruct Hs as [(-> & Hlt & _)|(v & o & w & Hs & -> & Hfull & _)]; try done.
      * rewrite Hs in Hset. rewrite <- (erase_line_split o v w); [by apply set_ok_filter|apply Hset].
      * intros l Hin. apply Hnt. apply elem_of_app in Hin. rewrite Hs, elem_of_app, elem_of_cons. tauto.
      * rewrite <- Hfull, Hs, !length_app. cbn. lia.
    + intros l Hnr. destruct Hs as [(-> & _)|(v & o & w & Hs & -> & _ & Hv & _)]; [done|].
      fold (the_set c (addr req)). rewrite Hs, !elem_of_app, elem_of_cons. split; [tauto|].
      intros [?|[->|?]]; [tauto|congruence|tauto].
    + intros ([a it] & Hb & Hin)%list_elem_of_fmap. by apply (Hnm (a, it) Hin).
Qed.
End Outcome.

Lemma outcome_params c clk req r : llc_outcome c clk req r -> c_params r.2 = c_params c.
Proof. by intros []. Qed.

Lemma outcome_counts c clk req r : llc_outcome c clk req r -> counts_step (c_counts c) (c_counts r.2).
Proof. by intros []. Qed.

Lemma llc_send_ends c clk req :
  llc_ok c -> in64 (addr req) ->
  ends (counter_overflow (c_counts c)) (llc_send c clk req) (fun r => llc_outcome c clk req r /\ llc_ok r.2).
Proof.
  intros Hok Ha. eapply ends_mono; [by apply llc_send_cases|]. intros r _ Hout. split; [done|].
  destruct Hok as [[j G] I]. split; [exists j; by rewrite (outcome_params _ _ _ _ Hout)|by eapply outcome_inv].
Qed.

Lemma llc_send_ok c clk req r :
  llc_ok c -> in64 (addr req) -> llc_send c clk req = Ok r -> llc_outcome c clk req r /\ llc_ok r.2.
Proof. intros Hok Ha Hs. pose proof (llc_send_ends c clk req Hok Ha) as H. by rewrite Hs in H. Qed.

Lemma erase_middle {A} (l : list A) k x :
  l !! k = Some x -> l = take k l ++ x :: drop (S k) l /\ erase k l = take k l ++ drop (S k) l.
Proof. intros H. split; [by rewrite take_drop_middle|apply delete_take_drop]. Qed.

Lemma erase_other {A} (l : list A) k x y : l !! k = Some x -> y ∈ l -> y <> x -> y ∈ erase k l.
Proof. intros [He ->]%erase_middle Hy Hne. rewrite He, elem_of_app, elem_of_cons in Hy. rewrite elem_of_app. tauto. Qed.

Lemma NoDup_fmap_erase {A B} (f : A -> B) (l : list A) k x :
  l !! k = Some x -> NoDup (f <$> l) -> NoDup (f <$> erase k l) /\ forall y, y ∈ erase k l -> f y <> f x.
Proof.
  intros [He ->]%erase_middle Hnd. rewrite He, fmap_app, fmap_cons in Hnd.
  apply NoDup_app in Hnd as (H1 & H2 & [H3 H4]%NoDup_cons). rewrite fmap_app. split.
  - apply NoDup_app. split_and!; [done| |done]. intros z Hz Hz'. apply (H2 z Hz). by right.
  - intros y [Hy|Hy]%elem_of_app Hf.
    + apply (H2 (f x)); [|by left]. rewrite <- Hf. by apply list_elem_of_fmap_2.
    + apply H3. rewrite <- Hf. by apply list_elem_of_fmap_2.
Qed.

(** The entry of a response: its line becomes ready and the entry goes. *)
Lemma llc_receive_ok c req :
  llc_ok c -> in64 (addr req) ->
  exists c', llc_receive c req = Ok c' /\ llc_ok c' /\ c_params c' = c_params c /\
    (forall i, (fun l => (l_addr l, l_dirty l)) <$> lines (m_cache_sets c') i =
               (fun l => (l_addr l, l_dirty l)) <$> lines (m_cache_sets c) i) /\
    m_miss_list c' = m_miss_list c /\ m_hit_list c' = m_hit_list c /\ m_receive_requests c' = m_receive_requests c /\
    c_counts c' = c_counts c.
Proof.
  intros [[j G] I] Ha. unfold llc_receive. destruct (list_find _ _) as [[k [a [i n]]]|] eqn:Hf.
  2: { exists c. split_and!; try done. by split; [exists j|]. }
  apply list_find_Some in Hf as (Hk & Hal & _). apply list_elem_of_lookup_2 in Hk as Hin.
  destruct (li_mshr _ _ _ _ I a i n Hin) as (H64 & -> & l & Hl & <- & Ht & Hr). set (i := index_of _ a) in *.
  pose proof (li_sets _ _ _ _ I i) as Hset. rewrite (write_through_ok c i l) by (try done; apply Hset). cbn [mbind res_bind snd].
  eexists. split; [done|]. llc_fields. split_and!; try done.
  2: { intros q. destruct (decide (i = q)) as [<-|]; [|by rewrite lines_insert_ne]. rewrite lines_insert.
       unfold write_line. change (map ?f ?s) with (f <$> s). rewrite <- list_fmap_compose.
       apply list_fmap_ext. intros _ x _. cbn. by destruct (_ =? _). }
  split; [by exists j|]. cbn. destruct I as [H1 H2 H3 H4 H5]. split.
  - intros q. destruct (decide (i = q)) as [<-|]; [rewrite lines_insert|by rewrite lines_insert_ne].
    apply set_ok_map; [|done]. intros x. by destruct (_ =? _).
  - intros b q m Hb. assert (Hb' : (b, (q, m)) ∈ m_mshrs c) by (by eapply elem_of_erase).
    destruct (H2 b q m Hb') as (Hb64 & Hq & l' & Hl' & Hid & Ht' & Hr'). split_and!; [done|done|].
    destruct (decide (i = q)) as [Hiq|]; [|by rewrite lines_insert_ne by done; exists l'].
    rewrite <- Hiq in *. rewrite lines_insert. exists l'. split_and!; try done. apply write_line_elem. exists l'.
    split; [done|]. destruct (Z.eqb_spec (l_id l') (l_id l)) as [Heq|]; [|done]. exfalso.
    assert (l' = l) as -> by (by apply (NoDup_fmap_inj l_id _ _ _ (so_ids _ _ _ _ Hset))).
    assert (Hblk : block (c_params c) a = block (c_params c) b).
    { apply (same_block G). split; [by rewrite <- Hq|congruence]. }
    by apply (proj2 (NoDup_fmap_erase _ _ _ _ Hk H4) _ Hb).
  - intros q x Hx Hxr. destruct (decide (i = q)) as [<-|].
    + rewrite lines_insert in Hx. apply write_line_elem in Hx as (y & Hy & ->).
      destruct (Z.eqb_spec (l_id y) (l_id l)) as [|Hne]; [done|].
      destruct (H3 i y Hy Hxr) as [b Hb]. exists b. apply (erase_other _ _ _ _ Hk Hb). congruence.
    + rewrite lines_insert_ne in Hx by done. destruct (H3 q x Hx Hxr) as [b Hb]. exists b.
      apply (erase_other _ _ _ _ Hk Hb). congruence.
  - by apply (NoDup_fmap_erase _ _ _ _ Hk H4).
  - pose proof (length_erase_le (m_mshrs c) k). lia.
Qed.

(** ** The memory system below *)
(** What the cache and the frontend need of the memory system: requests of
    one cache line are accepted or refused, a refused request keeps its
    address and size, and the callbacks concern 64-bit addresses. *)
Class TotalMemory (M : Type) `{IMemorySystem M} (line : Z) := {
  tm_ok : M -> Prop;
  tm_send : forall m req, tm_ok m -> in64 (addr req) -> size_bytes req = line ->
    exists ok req' cbs m', mem_send m req = Ok (ok, req', cbs, m') /\ tm_ok m' /\
      addr req' = addr req /\ size_bytes req' = size_bytes req /\ Forall (fun r => in64 (addr r)) cbs;
  tm_tick : forall m, tm_ok m ->
    exists cbs m', mem_tick m = Ok (cbs, m') /\ tm_ok m' /\ Forall (fun r => in64 (addr r)) cbs
}.

(** A memory system with a fixed latency. *)
Record DelayMemory := mkDelay { dm_clk : Z; dm_latency : Z; dm_queue : list (Z * Request) }.

Definition DelayMemory_send (m : DelayMemory) (req : Request) : res (bool * Request * list Request * DelayMemory) :=
  let due := dm_clk m + dm_latency m in
  let req := set_depart (set_arrive req (dm_clk m)) due in
  Ok (true, req, [], mkDelay (dm_clk m) (dm_latency m) (dm_queue m ++ [(due, req)])).

Definition due_now (clk : Z) (p : Z * Request) : bool := p.1 <=? clk.
Definition has_callback (r : Request) : bool := match callback r with Some _ => true | None => false end.

Definition DelayMemory_tick (m : DelayMemory) : res (list Request * DelayMemory) :=
  let clk := dm_clk m + 1 in
  Ok (List.filter has_callback (map snd (List.filter (due_now clk) (dm_queue m))),
      mkDelay clk (dm_latency m) (List.filter (fun p => negb (due_now clk p)) (dm_queue m))).

#[export] Instance DelayMemory_system : IMemorySystem DelayMemory := {
  mem_send := DelayMemory_send;
  mem_tick := DelayMemory_tick;
  mem_get_tx_bytes _ := 1024;
  mem_get_clock_ratio _ := 1;
  mem_reset_stats_recursive m := m
}.

#[export] Instance DelayMemory_total line : TotalMemory DelayMemory line.
Proof.
  refine {| tm_ok m := forall p, In p (dm_queue m) -> in64 (addr p.2) |}.
  - intros m req Hm Ha _. do 4 eexists. split; [done|]. cbn. split_and!; try done.
    intros p [Hp|[<-|[]]]%in_app_iff; [by apply Hm|done].
  - intros m Hm. do 2 eexists. split; [done|]. cbn. split.
    + intros p [Hp _]%filter_In. by apply Hm.
    + apply Forall_forall. intros r Hr%list_elem_of_In. apply filter_In in Hr as [Hr _].
      apply in_map_iff in Hr as (p & <- & [Hp _]%filter_In). by apply Hm.
Defined.

(** ** Runs of the cache *)
(** The history lists the lines touched, the latest first.  A request
    touches its line when it hits or allocates it; one that joins a line in
    flight, or is refused, does not. *)
Definition touched (c : SimpleO3LLC) (req : Request) (ok : bool) (h : list Z) : list Z :=
  if ok && bool_decide (check_mshr_hit c (addr req) = None) then block (c_params c) (addr req) :: h else h.

(** The share of the cache in [SimpleO3::receive], the callback of every
    request: the line becomes ready and the receivers are gone. *)
Definition llc_callback (c : SimpleO3LLC) (req : Request) : res SimpleO3LLC :=
  c ← llc_receive c req;
  Ok (set_receivers c (addr req) []).

Section Runs.
Context {M : Type} `{IMemorySystem M}.

(** The tick of the cache on its own. *)
Definition cache_tick (clk : Z) (c : SimpleO3LLC) (m : M) : res (SimpleO3LLC * M) :=
  llc_tick (fun c => c) (fun _ c => c) llc_callback clk c m.

(** The tick of a frontend around the cache does to the cache what the
    cache's own tick does, when its callback does. *)
Section Around.
Context {F : Type} (llc_of : F -> SimpleO3LLC) (with_llc : F -> SimpleO3LLC -> F) (on_callback : F -> Request -> res F).
Hypothesis llc_of_with : forall f c, llc_of (with_llc f c) = c.
Hypothesis callback_llc : forall f req f', on_callback f req = Ok f' -> llc_callback (llc_of f) req = Ok (llc_of f').

Lemma callbacks_project l : forall f f', foldM on_callback l f = Ok f' -> foldM llc_callback l (llc_of f) = Ok (llc_of f').
Proof using callback_llc.
  induction l as [|r l IH]; intros f f' Hf; [by injection Hf as <-|]. cbn in Hf |- *.
  apply bind_Ok_inv in Hf as (f1 & H1 & Hf). rewrite (callback_llc _ _ _ H1). by apply IH.
Qed.

Lemma miss_project clk l : forall kept f m f' m',
  miss_loop llc_of with_llc on_callback clk kept l f m = Ok (f', m') ->
  miss_loop (fun c => c) (fun _ c => c) llc_callback clk kept l (llc_of f) m = Ok (llc_of f', m').
Proof using callback_llc llc_of_with.
  induction l as [|[t req] l IH]; intros kept f m f' m' Hl; cbn in Hl |- *; [by injection Hl as <- <-|].
  destruct (t <=? clk); [|by apply IH]. apply bind_Ok_inv in Hl as ([[[ok req'] called] m1] & Hs & Hl). rewrite Hs.
  cbn [mbind res_bind]. apply bind_Ok_inv in Hl as (f1 & Hf & Hl). rewrite (callbacks_project _ _ _ Hf). cbn [mbind res_bind].
  destruct ok; apply IH in Hl; unfold set_misses in *; by rewrite llc_of_with in Hl.
Qed.

Lemma hit_project clk l : forall kept f f',
  hit_loop llc_of with_llc on_callback clk kept l f = Ok f' ->
  hit_loop (fun c => c) (fun _ c => c) llc_callback clk kept l (llc_of f) = Ok (llc_of f').
Proof using callback_llc llc_of_with.
  induction l as [|[t req] l IH]; intros kept f f' Hl; cbn in Hl |- *; [by injection Hl as <-|].
  destruct (t <=? clk); [|by apply IH]. destruct (callback req); [|done]. apply bind_Ok_inv in Hl as (f1 & Hf & Hl).
  apply callback_llc in Hf. rewrite llc_of_with in Hf. rewrite Hf. cbn [mbind res_bind]. apply IH in Hl.
  unfold set_hits in *. by rewrite llc_of_with in Hl.
Qed.

Lemma tick_project clk f m f' m' :
  llc_tick llc_of with_llc on_callback clk f m = Ok (f', m') -> cache_tick clk (llc_of f) m = Ok (llc_of f', m').
Proof using callback_llc llc_of_with.
  unfold cache_tick, llc_tick. intros ([f1 m1] & Hm & Hl)%bind_Ok_inv. apply bind_Ok_inv in Hl as (f2 & Hh & [= <- <-]).
  cbn [fst snd] in Hh. rewrite (miss_project _ _ _ _ _ _ _ Hm). cbn [mbind res_bind fst snd]. by rewrite (hit_project _ _ _ _ _ Hh).
Qed.
End Around.

Context {line : Z} `{!TotalMemory M line}.

(** Requests of the cores, responses and the receivers the frontend takes,
    and ticks on top of any memory system in a good state. *)
Inductive llc_run (c0 : SimpleO3LLC) : list Z -> SimpleO3LLC -> Prop :=
| run_start : llc_run c0 [] c0
| run_send h c clk req ok req' c' :
    llc_run c0 h c -> in64 (addr req) -> llc_send c clk req = Ok (ok, req', c') ->
    llc_run c0 (touched c req ok h) c'
| run_receive h c req c' :
    llc_run c0 h c -> in64 (addr req) -> llc_receive c req = Ok c' -> llc_run c0 h c'
| run_receivers h c a l : llc_run c0 h c -> llc_run c0 h (set_receivers c a l)
| run_tick h c clk m c' m' :
    llc_run c0 h c -> tm_ok m -> cache_tick clk c m = Ok (c', m') -> llc_run c0 h c'.

(** *** What a tick is made of *)
(** A response, or another state of the lists and receivers. *)
Inductive tick_step (c : SimpleO3LLC) : SimpleO3LLC -> Prop :=
| tick_receive req c' : in64 (addr req) -> llc_receive c req = Ok c' -> tick_step c c'
| tick_lists recv miss hits :
    tick_step c (mkLLC (m_cache_sets c) (m_mshrs c) recv miss hits (c_params c) (c_counts c) (c_next c)).

Lemma tick_step_ok c c' : llc_ok c -> tick_step c c' -> llc_ok c'.
Proof.
  intros Hc [req c1 Ha Hr|recv miss hits]; [|exact Hc].
  destruct (llc_receive_ok c req Hc Ha) as (c2 & Hr2 & Hok & _). rewrite Hr in Hr2. by injection Hr2 as <-.
Qed.

Lemma tick_steps_ok c c' : llc_ok c -> rtc tick_step c c' -> llc_ok c'.
Proof. induction 2 as [|c c1 c2 Hs _ IH]; [done|]. apply IH. by eapply tick_step_ok. Qed.

(** What the queues hold: line-sized requests for the memory system. *)
Definition miss_ok (p : Z * Request) : Prop := in64 (addr p.2) /\ size_bytes p.2 = line.
Definition hit_ok (p : Z * Request) : Prop := in64 (addr p.2).
Definition lists_ok (c : SimpleO3LLC) : Prop := Forall miss_ok (m_miss_list c) /\ Forall hit_ok (m_hit_list c).

Lemma callback_total c req : llc_ok c -> in64 (addr req) ->
  exists c', llc_callback c req = Ok c' /\ rtc tick_step c c' /\
    m_miss_list c' = m_miss_list c /\ m_hit_list c' = m_hit_list c.
Proof.
  intros Hc Ha. destruct (llc_receive_ok c req Hc Ha) as (c1 & Hr & _ & _ & _ & Hm & Hh & _).
  unfold llc_callback. rewrite Hr. eexists. split; [done|]. split; [|done].
  eapply rtc_l; [by eapply tick_receive|]. apply rtc_once. apply tick_lists.
Qed.

Lemma callbacks_total l : forall c, llc_ok c -> Forall (fun r => in64 (addr r)) l ->
  exists c', foldM llc_callback l c = Ok c' /\ rtc tick_step c c' /\
    m_miss_list c' = m_miss_list c /\ m_hit_list c' = m_hit_list c.
Proof.
  induction l as [|r l IH]; intros c Hc Hl; [by exists c|]. apply Forall_cons in Hl as [Hr Hl].
  destruct (callback_total c r Hc Hr) as (c1 & Hr1 & Hs1 & Hm1 & Hh1). cbn [foldM]. rewrite Hr1. cbn [mbind res_bind].
  destruct (IH c1 (tick_steps_ok _ _ Hc Hs1) Hl) as (c' & -> & Hs & Hm & Hh). exists c'.
  split_and!; [done|by etrans|congruence..].
Qed.

Lemma miss_total clk l : forall kept c (m : M),
  llc_ok c -> tm_ok m -> lists_ok c -> Forall miss_ok (kept ++ l) ->
  exists c' m', miss_loop (fun c => c) (fun _ c => c) llc_callback clk kept l c m = Ok (c', m') /\
    rtc tick_step c c' /\ lists_ok c' /\ m_hit_list c' = m_hit_list c.
Proof.
  induction l as [|[t req] l IH]; intros kept c m Hc Hm Hq Hl; [by exists c, m|]. cbn [miss_loop].
  pose proof Hl as Hl0. apply Forall_app in Hl as [Hk [[Ha Hsz] Hl]%Forall_cons]. destruct (Z.leb_spec t clk).
  2: { apply (IH (kept ++ [(t, req)])); try done. by rewrite <- app_assoc. }
  destruct (tm_send m req Hm Ha Hsz) as (ok & req' & cbs & m' & -> & Hm' & Hadr & Hsize & Hcbs). cbn [mbind res_bind].
  destruct (callbacks_total cbs c Hc Hcbs) as (c1 & -> & Hs1 & _ & Hh1). cbn [mbind res_bind].
  assert (Hgo : forall kept', Forall miss_ok (kept' ++ l) -> let c2 := with_m_miss_list c1 (kept' ++ l) in
    llc_ok c2 /\ lists_ok c2 /\ rtc tick_step c c2 /\ m_hit_list c2 = m_hit_list c).
  { intros kept' Hk'. cbn zeta. split_and!; [exact (tick_steps_ok _ _ Hc Hs1)| | |exact Hh1].
    - split; [exact Hk'|]. cbn. rewrite Hh1. apply Hq.
    - eapply rtc_r; [exact Hs1|]. apply tick_lists. }
  destruct ok.
  - assert (Hl1 : Forall miss_ok (kept ++ l)) by (by apply Forall_app). destruct (Hgo kept Hl1) as (Hc2 & Hq2 & Hs2 & Hh2).
    destruct (IH kept _ m' Hc2 Hm' Hq2 Hl1) as (c' & m2 & H1 & H2 & H3 & H4). exists c', m2. split_and!; [exact H1|by etrans|done|congruence].
  - assert (Hl1 : Forall miss_ok ((kept ++ [(t, req')]) ++ l)).
    { rewrite <- app_assoc. apply Forall_app. split; [done|]. apply Forall_cons. split; [|done]. split; cbn; [by rewrite Hadr|by rewrite Hsize]. }
    destruct (Hgo _ Hl1) as (Hc2 & Hq2 & Hs2 & Hh2). rewrite <- app_assoc in Hc2, Hq2, Hs2, Hh2.
    destruct (IH (kept ++ [(t, req')]) _ m' Hc2 Hm' Hq2 Hl1) as (c' & m2 & H1 & H2 & H3 & H4). exists c', m2.
    split_and!; [exact H1|by etrans|done|congruence].
Qed.

(** A hit without a callback is the only way to fail. *)
Lemma hit_ends clk l : forall kept c,
  llc_ok c -> lists_ok c -> Forall hit_ok (kept ++ l) ->
  ends (fun _ => ~ Forall (fun p => is_Some (callback p.2)) l)
    (hit_loop (fun c => c) (fun _ c => c) llc_callback clk kept l c)
    (fun c' => rtc tick_step c c' /\ lists_ok c').
Proof.
  induction l as [|[t req] l IH]; intros kept c Hc Hq Hl; [done|]. cbn [hit_loop].
  pose proof Hl as Hl0. apply Forall_app in Hl as [Hk [Ha Hl]%Forall_cons]. destruct (Z.leb_spec t clk).
  2: { eapply ends_weaken; [|apply (IH (kept ++ [(t, req)]) c Hc Hq); by rewrite <- app_assoc]. intros e Hn [_ Hf]%Forall_cons. by apply Hn. }
  destruct (callback req) as [k|] eqn:Hcb; [|cbn; intros [[x Hx] _]%Forall_cons; cbn in Hx; congruence].
  destruct (callback_total (set_receivers c (addr req) [req]) req Hc Ha) as (c1 & -> & Hs1 & Hm1 & _). cbn [mbind res_bind].
  assert (Hs0 : rtc tick_step c c1) by (eapply rtc_l; [apply tick_lists|exact Hs1]).
  assert (Hs2 : rtc tick_step c (set_hits (fun c => c) (fun _ c => c) c1 (kept ++ l))) by (eapply rtc_r; [exact Hs0|apply tick_lists]).
  assert (Hl1 : Forall hit_ok (kept ++ l)) by (by apply Forall_app).
  eapply ends_weaken; [|eapply ends_mono; [apply (IH kept _ (tick_steps_ok _ _ Hc Hs2)); [|exact Hl1]|]].
  - intros e Hn [_ Hf]%Forall_cons. by apply Hn.
  - split; [|exact Hl1]. cbn. rewrite Hm1. apply Hq.
  - intros c' _ [Hs3 Hq3]. split; [by etrans|done].
Qed.

Lemma tick_ends clk c (m : M) :
  llc_ok c -> tm_ok m -> lists_ok c ->
  ends (fun _ => ~ Forall (fun p => is_Some (callback p.2)) (m_hit_list c)) (cache_tick clk c m)
    (fun r => rtc tick_step c r.1 /\ lists_ok r.1).
Proof.
  intros Hc Hm Hq. unfold cache_tick, llc_tick.
  destruct (miss_total clk (m_miss_list c) [] c m Hc Hm Hq (proj1 Hq)) as (c1 & m1 & -> & Hs1 & Hq1 & Hh1).
  cbn [mbind res_bind fst snd]. rewrite <- Hh1. apply ends_bind.
  eapply ends_mono; [apply (hit_ends clk _ [] c1 (tick_steps_ok _ _ Hc Hs1) Hq1 (proj2 Hq1))|].
  intros c2 _ [Hs2 Hq2]. cbn. split; [by etrans|done].
Qed.

Lemma outcome_lists c clk req r :
  llc_ok c -> in64 (addr req) -> line_bytes (c_params c) = line -> lists_ok c -> llc_outcome c clk req r -> lists_ok r.2.
Proof.
  intros [[j G] I] Ha Hline [Hm Hh] [l counts _ Hl Hlr Ht|a k counts _ He Hb|counts _ Hnm Hfull|s written counts _ Hnt Hnm Hlen Hcase];
    split; cbn; try done.
  - apply Forall_app. split; [done|]. by apply Forall_singleton.
  - rewrite !Forall_app. split_and!; [done| |].
    + destruct Hcase as [(_ & _ & ->)|(v & o & w & Hset & _ & _ & _ & _ & ->)]; [constructor|].
      destruct (l_dirty v); [|constructor]. apply Forall_singleton. split; [|done]. cbn.
      assert (Hv : v ∈ lines (m_cache_sets c) (index_of (c_params c) (addr req))).
      { fold (the_set c (addr req)). rewrite Hset. apply elem_of_app. right. by left. }
      by destruct (so_line _ _ _ _ (li_sets _ _ _ _ I _) v Hv) as (? & _).
    + apply Forall_singleton. split; [|done]. cbn. by rewrite addr_fetch.
Qed.

Lemma no_room st : Forall (fun x => 0 <= x) (counters st) -> ~ room st -> Exists (fun x => 2 ^ 31 - 1 <= x) (counters st).
Proof.
  unfold room. intros Hn Hr. apply not_Forall_Exists in Hr; [|intros; apply _]. rewrite Exists_exists in *.
  destruct Hr as (x & Hx & Hlt). exists x. split; [done|]. rewrite Forall_forall in Hn. specialize (Hn x Hx). cbn in *. lia.
Qed.

(** *** The invariant of a run *)
Record llc_good (c0 c : SimpleO3LLC) : Prop := mkGoodLlc {
  lg_ok : llc_ok c;
  lg_params : c_params c = c_params c0;
  lg_lists : lists_ok c;
  lg_counts : Forall (fun x => 0 <= x) (counters (c_counts c))
}.

Lemma tick_step_frame c c' : llc_ok c -> tick_step c c' -> c_params c' = c_params c /\ c_counts c' = c_counts c.
Proof.
  intros Hc [req c1 Ha Hr|recv miss hits]; [|done].
  destruct (llc_receive_ok c req Hc Ha) as (c2 & Hr2 & _ & Hp & _ & _ & _ & _ & Hk). rewrite Hr in Hr2. by injection Hr2 as <-.
Qed.

Lemma tick_steps_frame c c' : llc_ok c -> rtc tick_step c c' -> c_params c' = c_params c /\ c_counts c' = c_counts c.
Proof.
  intros Hc Hs. induction Hs as [|c c1 c2 Hs _ IH]; [done|]. destruct (tick_step_frame _ _ Hc Hs).
  destruct (IH (tick_step_ok _ _ Hc Hs)). split; congruence.
Qed.

Lemma counts_step_nonneg st st' : counts_step st st' -> Forall (fun x => 0 <= x) (counters st) -> Forall (fun x => 0 <= x) (counters st').
Proof. unfold counts_step. induction 1 as [|x y l k Hxy _ IH]; intros Hl; [constructor|]. apply Forall_cons in Hl as [? ?]. constructor; [lia|by apply IH]. Qed.

Lemma run_good c0 h c : llc_good c0 c0 -> line_bytes (c_params c0) = line -> llc_run c0 h c -> llc_good c0 c.
Proof.
  intros H0 Hline. induction 1 as [|h c clk req ok req' c' _ IH Ha Hs|h c req c' _ IH Ha Hr|h c a l _ IH|h c clk m c' m' _ IH Hm Ht]; [done|..].
  - destruct IH as [Hok Hp Hq Hn]. destruct (llc_send_ok c clk req _ Hok Ha Hs) as [Hout Hok'].
    split; [done|by rewrite <- Hp, <- (outcome_params _ _ _ _ Hout)| |].
    + apply (outcome_lists c clk req _ Hok Ha ltac:(by rewrite Hp) Hq Hout).
    + exact (counts_step_nonneg _ _ (outcome_counts _ _ _ _ Hout) Hn).
  - destruct IH as [Hok Hp Hq Hn]. destruct (llc_receive_ok c req Hok Ha) as (c1 & Hc1 & Hok1 & Hp1 & _ & Hm & Hh & _ & Hk).
    rewrite Hr in Hc1. injection Hc1 as <-. split; [done|congruence| |by rewrite Hk]. unfold lists_ok. by rewrite Hm, Hh.
  - destruct IH. by split.
  - destruct IH as [Hok Hp Hq Hn]. pose proof (tick_ends clk c m Hok Hm Hq) as H1. rewrite Ht in H1. destruct H1 as [Hs Hq'].
    cbn [fst] in *. destruct (tick_steps_frame _ _ Hok Hs) as [Hp' Hk']. split; [by eapply tick_steps_ok|congruence|done|by rewrite Hk'].
Qed.

(** A property of the cache that responses and the state of the lists leave
    alone survives a tick. *)
Lemma tick_keeps (P : SimpleO3LLC -> Prop) clk c m c' (m' : M) :
  (forall c c', llc_ok c -> tick_step c c' -> P c -> P c') ->
  llc_ok c -> lists_ok c -> tm_ok m -> cache_tick clk c m = Ok (c', m') -> P c -> P c'.
Proof.
  intros Hstep Hc Hq Hm Ht. pose proof (tick_ends clk c m Hc Hm Hq) as H1. rewrite Ht in H1. destruct H1 as [Hs _]. cbn [fst] in Hs.
  clear Ht Hq. induction Hs as [|c c1 c2 Hs _ IH]; [done|]. intros HP. apply IH; [by eapply tick_step_ok|by eapply Hstep].
Qed.
End Runs.
Arguments llc_run M {_} line {_} c0 _ _.
Arguments llc_good : clear implicits.

(** ** Least recently used *)
(** How long ago a line was touched: its position in the history. *)
Fixpoint age (h : list Z) (b : Z) : nat :=
  match h with [] => 0 | x :: h => if x =? b then 0 else S (age h b) end.

Lemma sorted_sublist {A} (R : A -> A -> Prop) l k : StronglySorted R k -> l `sublist_of` k -> StronglySorted R l.
Proof.
  intros Hk Hs. induction Hs as [|x l k Hs IH|x l k Hs IH]; [done| |]; apply StronglySorted_inv in Hk as [Hk Hx].
  - constructor; [by apply IH|]. rewrite Forall_forall in *. intros y Hy. apply Hx. by apply (sublist_subseteq _ _ Hs).
  - by apply IH.
Qed.

Lemma sorted_snoc {A} (R : A -> A -> Prop) l x : StronglySorted R l -> Forall (fun y => R y x) l -> StronglySorted R (l ++ [x]).
Proof.
  induction 1 as [|y l Hs IH Hy]; intros Hf; cbn; [repeat constructor|]. apply Forall_cons in Hf as [? ?].
  constructor; [by apply IH|]. apply Forall_app. split; [done|]. by constructor.
Qed.

Lemma sorted_impl {A} (R R' : A -> A -> Prop) l :
  (forall x y, x ∈ l -> y ∈ l -> R x y -> R' x y) -> StronglySorted R l -> StronglySorted R' l.
Proof.
  induction l as [|x l IH]; intros HR Hs; [constructor|]. apply StronglySorted_inv in Hs as [Hs Hx]. constructor.
  - apply IH; [|done]. intros y z Hy Hz. apply HR; by right.
  - rewrite Forall_forall in *. intros y Hy. apply HR; [by left|by right|by apply Hx].
Qed.

Lemma sorted_before {A} (R : A -> A -> Prop) l k x y : StronglySorted R (l ++ x :: k) -> y ∈ k -> R x y.
Proof.
  induction l as [|z l IH]; cbn; intros [Hs Hf]%StronglySorted_inv Hy; [|by apply IH].
  rewrite Forall_forall in Hf. by apply Hf.
Qed.

(** Before in the set means touched longer ago. *)
Definition older (p : llc_params) (h : list Z) (x y : Line) : Prop :=
  (age h (block p (l_addr y)) < age h (block p (l_addr x)))%nat.

(** The order depends on the addresses only. *)
Lemma older_addr p h s s' :
  l_addr <$> s' = l_addr <$> s -> StronglySorted (older p h) s -> StronglySorted (older p h) s'.
Proof.
  revert s'. induction s as [|x s IH]; intros [|y s'] Heq Hs; try discriminate; [constructor|].
  injection Heq as Hy Hs'. apply StronglySorted_inv in Hs as [Hs Hx]. constructor.
  - by apply IH.
  - rewrite Forall_forall in *. intros z Hz. apply (list_elem_of_fmap_2 l_addr) in Hz.
    change (l_addr z ∈ l_addr <$> s') in Hz. change (l_addr <$> s' = l_addr <$> s) in Hs'. rewrite Hs' in Hz.
    apply list_elem_of_fmap in Hz as (w & Hw & Hin). specialize (Hx w Hin). unfold older in *. congruence.
Qed.

Definition lru_sorted (h : list Z) (c : SimpleO3LLC) : Prop :=
  forall i, StronglySorted (older (c_params c) h) (lines (m_cache_sets c) i).

(** A touched line moves to the end and the others stay in order. *)
Lemma lru_touch p h b s l :
  StronglySorted (older p h) s -> block p (l_addr l) = b -> (forall x, x ∈ s -> block p (l_addr x) <> b) ->
  StronglySorted (older p (b :: h)) (s ++ [l]).
Proof.
  intros Hs Hl Hne. apply sorted_snoc.
  - revert Hs. apply sorted_impl. unfold older. cbn. intros x y Hx Hy.
    destruct (Z.eqb_spec b (block p (l_addr x))) as [->|]; [by destruct (Hne x)|].
    destruct (Z.eqb_spec b (block p (l_addr y))) as [->|]; [by destruct (Hne y)|]. lia.
  - rewrite Forall_forall. intros x Hx. unfold older. cbn. rewrite Hl, Z.eqb_refl.
    destruct (Z.eqb_spec b (block p (l_addr x))) as [->|]; [by destruct (Hne x)|]. lia.
Qed.

Lemma lru_elsewhere p h b s :
  StronglySorted (older p h) s -> (forall x, x ∈ s -> block p (l_addr x) <> b) -> StronglySorted (older p (b :: h)) s.
Proof.
  intros Hs Hne. revert Hs. apply sorted_impl. unfold older. cbn. intros x y Hx Hy.
  destruct (Z.eqb_spec b (block p (l_addr x))) as [->|]; [by destruct (Hne x)|].
  destruct (Z.eqb_spec b (block p (l_addr y))) as [->|]; [by destruct (Hne y)|]. lia.
Qed.

Section Lru.
Context (c : SimpleO3LLC) (clk : Z) (req : Request) (j : Z).
Context (G : geometry (c_params c) j) (Ha : in64 (addr req)).
Context (I : llc_inv (c_params c) (m_cache_sets c) (m_mshrs c) (c_next c)).

Lemma line_block k l :
  l ∈ lines (m_cache_sets c) k -> block (c_params c) (l_addr l) = block (c_params c) (addr req) ->
  k = index_of (c_params c) (addr req) /\ l_tag l = tag_of (c_params c) (addr req).
Proof using G I.
  intros Hl Hb. destruct (so_line _ _ _ _ (li_sets _ _ _ _ I k) l Hl) as (_ & Hk & Ht & _).
  apply (same_block G) in Hb as [Hi Htag]. split; congruence.
Qed.

(** A line that is ready has no MSHR entry. *)
Lemma hit_no_mshr l :
  l ∈ the_set c (addr req) -> l_ready l = true -> l_tag l = tag_of (c_params c) (addr req) ->
  check_mshr_hit c (addr req) = None.
Proof using G Ha I.
  intros Hl Hr Ht. pose proof (mshr_lookup c j G I (addr req) Ha) as Hm.
  destruct (check_mshr_hit c (addr req)) as [[a [k n]]|]; [exfalso|done]. destruct Hm as [Hin Hb].
  apply (same_block G) in Hb as [Hi Htag]. cbn in Hi, Htag.
  destruct (li_mshr _ _ _ _ I a k n Hin) as (_ & Hk & l' & Hl' & _ & Ht' & Hr'). rewrite Hk, Hi in Hl'.
  assert (l' = l); [|congruence].
  eapply (NoDup_fmap_inj l_tag); [apply (li_sets _ _ _ _ I)|exact Hl'|exact Hl|congruence].
Qed.

(** The set of the request gets a new order, the others keep theirs. *)
Lemma lru_update h s l recv miss hits mshrs counts next :
  lru_sorted h c -> s `sublist_of` the_set c (addr req) -> l_addr l = addr req ->
  (forall x, x ∈ s -> l_tag x <> tag_of (c_params c) (addr req)) ->
  lru_sorted (block (c_params c) (addr req) :: h)
    (mkLLC (with_set c (addr req) (s ++ [l])) mshrs recv miss hits (c_params c) counts next).
Proof using G I.
  intros Hs Hsub Hl Hnt k. cbn [c_params m_cache_sets]. unfold with_set.
  destruct (decide (index_of (c_params c) (addr req) = k)) as [<-|Hk].
  - rewrite lines_insert. apply lru_touch; [eapply sorted_sublist; [apply Hs|done]|by rewrite Hl|].
    intros x Hx Hb. apply (Hnt x Hx). refine (proj2 (line_block _ x _ Hb)). by apply (sublist_subseteq _ _ Hsub).
  - rewrite lines_insert_ne by done. apply lru_elsewhere; [apply Hs|].
    intros x Hx Hb. apply Hk. symmetry. apply (line_block k x Hx Hb).
Qed.

Lemma lru_send h r :
  lru_sorted h c -> llc_outcome c clk req r -> lru_sorted (touched c req r.1.1 h) r.2.
Proof using G Ha I.
  intros Hs [line counts _ Hl Hr Ht|a n counts _ He Hb|counts _ Hnm Hfull|s written counts _ Hnt Hnm Hlen Hcase]; unfold touched; cbn [fst snd andb].
  - rewrite (hit_no_mshr line Hl Hr Ht). cbn. apply lru_update; [done|apply sublist_filter|done|].
    intros x [Hx Hne]%erase_line_elem Hxt. apply Hne. f_equal.
    eapply (NoDup_fmap_inj l_tag); [apply (li_sets _ _ _ _ I)|exact Hx|exact Hl|congruence].
  - rewrite bool_decide_eq_false_2.
    2: { intros Hnone. pose proof (mshr_lookup c j G I (addr req) Ha) as Hm. rewrite Hnone in Hm. by apply (Hm _ He). }
    intros k. cbn. unfold with_set. destruct (decide (index_of (c_params c) (addr req) = k)) as [<-|Hk];
      [rewrite lines_insert|by rewrite lines_insert_ne].
    eapply older_addr; [|apply Hs]. unfold write_line. change (map ?f ?s) with (f <$> s).
    rewrite <- list_fmap_compose. apply list_fmap_ext. intros _ x _. cbn. by destruct (_ =? _).
  - intros k. cbn. unfold with_set. destruct (decide (index_of (c_params c) (addr req) = k)) as [<-|Hk];
      [rewrite lines_insert; apply Hs|rewrite lines_insert_ne by done; apply Hs].
  - assert (Hsub : s `sublist_of` the_set c (addr req)).
    { destruct Hcase as [(-> & _)|(v & o & w & -> & -> & _)]; [done|]. by apply sublist_app, sublist_cons. }
    rewrite bool_decide_eq_true_2.
    2: { pose proof (mshr_lookup c j G I (addr req) Ha) as Hm.
         destruct (check_mshr_hit c (addr req)) as [e|]; [|done]. destruct Hm as [He Hb]. by destruct (Hnm e He). }
    apply lru_update; [done|done|done|]. intros x Hx. apply Hnt. by apply (sublist_subseteq _ _ Hsub).
Qed.
End Lru.

Lemma receive_sorted c req c' h :
  llc_ok c -> in64 (addr req) -> llc_receive c req = Ok c' -> lru_sorted h c -> lru_sorted h c'.
Proof.
  intros Hc Ha Hr IH. destruct (llc_receive_ok c req Hc Ha) as (c1 & Hc1 & _ & Hp & Hl & _).
  rewrite Hr in Hc1. injection Hc1 as <-. intros i. rewrite Hp. eapply older_addr; [|apply IH].
  specialize (Hl i). apply (f_equal (fmap fst)) in Hl. by rewrite <- !list_fmap_compose in Hl.
Qed.

Lemma run_sorted M `{IMemorySystem M} line `{!TotalMemory M line} c0 h c :
  llc_good line c0 c0 -> line_bytes (c_params c0) = line -> m_cache_sets c0 = ∅ -> llc_run M line c0 h c -> lru_sorted h c.
Proof.
  intros H0 Hl0 He Hrun.
  induction Hrun as [|h c clk req ok req' c' Hrun IH Ha Hs|h c req c' Hrun IH Ha Hr|h c a l Hrun IH|h c clk m c' m' Hrun IH Hm Ht];
    [intros i; rewrite He, lines_empty; constructor|pose proof (run_good _ _ _ H0 Hl0 Hrun) as [Hc _ Hq _]..].
  - destruct (llc_send_ok c clk req _ Hc Ha Hs) as [Hout _]. destruct Hc as [[j G] I].
    exact (lru_send c clk req j G Ha I h _ IH Hout).
  - exact (receive_sorted c req c' h Hc Ha Hr IH).
  - exact IH.
  - refine (tick_keeps (lru_sorted h) clk c m c' m' _ Hc Hq Hm Ht IH).
    intros c1 c2 Hc1 [req c3 Ha Hr|recv miss hits] H1; [exact (receive_sorted c1 req c3 h Hc1 Ha Hr H1)|exact H1].
Qed.

(** A line whose block leaves its set was evicted to make room. *)
Lemma outcome_gone c clk req r v :
  llc_ok c -> llc_outcome c clk req r -> v ∈ the_set c (addr req) ->
  (forall l, l ∈ the_set r.2 (addr req) -> block (c_params c) (l_addr l) <> block (c_params c) (l_addr v)) ->
  exists o w, the_set c (addr req) = o ++ v :: w /\
    Z.of_nat (length (the_set c (addr req))) = p_associativity (c_params c) /\
    l_ready v = true /\ Forall (fun l => l_ready l = false) o.
Proof.
  intros [[j G] I] Hout Hv Hgone. pose proof (li_sets _ _ _ _ I (index_of (c_params c) (addr req))) as Hset.
  assert (Hthe : forall s, lines (with_set c (addr req) s) (index_of (c_params c) (addr req)) = s)
    by (intros; apply lines_insert).
  destruct Hout as [line counts _ Hl Hr Ht|a n counts _ He Hb|counts _ Hnm Hfull|s written counts _ Hnt Hnm Hlen Hcase];
    unfold the_set in Hgone; cbn [snd c_params m_cache_sets] in Hgone; rewrite Hthe in Hgone.
  - exfalso. destruct (decide (l_id v = l_id line)) as [Heq|Hne].
    + assert (v = line) as -> by (apply (NoDup_fmap_inj l_id _ _ _ (so_ids _ _ _ _ Hset) Hv Hl Heq)).
      eapply Hgone; [apply elem_of_app; right; by left|]. cbn.
      destruct (so_line _ _ _ _ Hset line Hl) as (_ & Hi & Htl & _). apply (same_block G). split; congruence.
    + apply (Hgone v); [|done]. apply elem_of_app. left. by apply erase_line_elem.
  - exfalso. eapply Hgone; [apply write_line_elem; by exists v|]. by destruct (l_id v =? n).
  - exfalso. by apply (Hgone v).
  - destruct Hcase as [(-> & _)|(x & o & w & Hs & -> & Hfull & Hx & Hold & _)].
    { exfalso. apply (Hgone v); [|done]. apply elem_of_app. by left. }
    assert (v = x) as ->; [|by exists o, w]. rewrite Hs, elem_of_app, elem_of_cons in Hv.
    destruct Hv as [Hv|[?|Hv]]; [|done|]; exfalso; (apply (Hgone v); [|done]); rewrite !elem_of_app; tauto.
Qed.

(** ** Write-backs *)
(** A line whose newest contents are in the cache only. *)
Definition dirty_block (c : SimpleO3LLC) (b : Z) : Prop :=
  exists i l, l ∈ lines (m_cache_sets c) i /\ l_dirty l = true /\ block (c_params c) (l_addr l) = b.

(** Lines of other sets stay; in the set of the request, those that do. *)
Lemma dirty_kept c a s b recv miss hits mshrs counts next :
  dirty_block c b ->
  (forall l, l ∈ the_set c a -> l_dirty l = true -> block (c_params c) (l_addr l) = b ->
     exists l', l' ∈ s /\ l_dirty l' = true /\ block (c_params c) (l_addr l') = b) ->
  dirty_block (mkLLC (with_set c a s) mshrs recv miss hits (c_params c) counts next) b.
Proof.
  intros (i & l & Hl & Hd & Hb) Hs. unfold dirty_block, with_set. cbn.
  destruct (decide (index_of (c_params c) a = i)) as [<-|Hne].
  - destruct (Hs l Hl Hd Hb) as (l' & ? & ? & ?). exists (index_of (c_params c) a), l'. by rewrite lines_insert.
  - exists i, l. by rewrite lines_insert_ne.
Qed.

Lemma dirty_added c a s l b recv miss hits mshrs counts next :
  l ∈ s -> l_dirty l = true -> block (c_params c) (l_addr l) = b ->
  dirty_block (mkLLC (with_set c a s) mshrs recv miss hits (c_params c) counts next) b.
Proof.
  intros. exists (index_of (c_params c) a), l. unfold with_set. cbn. by rewrite lines_insert.
Qed.

Section Dirty.
Context (c : SimpleO3LLC) (clk : Z) (req : Request) (j : Z).
Context (G : geometry (c_params c) j) (Ha : in64 (addr req)).
Context (I : llc_inv (c_params c) (m_cache_sets c) (m_mshrs c) (c_next c)).

Lemma store_dirty r :
  llc_outcome c clk req r -> r.1.1 = true -> type_id req = Type_Write ->
  dirty_block r.2 (block (c_params c) (addr req)).
Proof using G I.
  intros [line counts _ Hl Hr Ht|a n counts _ He Hb|counts _ Hnm Hfull|s written counts _ Hnt Hnm Hlen Hcase] Hok Hw;
    cbn [fst snd] in *; [| |done|]; rewrite Hw.
  - eapply dirty_added; [apply elem_of_app; right; by left|cbn; by rewrite orb_true_r|done].
  - destruct (li_mshr _ _ _ _ I a _ n He) as (_ & _ & l & Hl & Hid & Ht & _).
    eapply (dirty_added _ _ _ (with_dirty l true)); [|done|].
    + apply write_line_elem. exists l. split; [exact Hl|]. by rewrite Hid, Z.eqb_refl.
    + cbn. destruct (so_line _ _ _ _ (li_sets _ _ _ _ I _) l Hl) as (_ & Hi & Htl & _).
      apply (same_block G) in Hb as [? ?]. apply (same_block G). split; congruence.
  - eapply dirty_added; [apply elem_of_app; right; by left|done|done].
Qed.

(** A dirty line stays dirty or its write-back is queued. *)
Lemma dirty_stays r b :
  llc_outcome c clk req r -> dirty_block c b ->
  dirty_block r.2 b \/
  exists l, block (c_params c) (l_addr l) = b /\
    (clk + p_latency (c_params c), writeback_of (c_params c) l) ∈ drop (length (m_miss_list c)) (m_miss_list r.2).
Proof using G I.
  intros [line counts _ Hl Hr Ht|a n counts _ He Hb|counts _ Hnm Hfull|s written counts _ Hnt Hnm Hlen Hcase] Hd; cbn [fst snd].
  - left. apply dirty_kept; [done|]. intros l Hin Hld Hlb. destruct (decide (l_id l = l_id line)) as [Heq|Hne].
    + assert (l = line) as -> by (apply (NoDup_fmap_inj l_id _ _ _ (so_ids _ _ _ _ (li_sets _ _ _ _ I _)) Hin Hl Heq)).
      eexists. split; [apply elem_of_app; right; by left|]. cbn. rewrite Hld. split; [done|]. rewrite <- Hlb.
      destruct (so_line _ _ _ _ (li_sets _ _ _ _ I _) line Hl) as (_ & Hi & Htl & _). apply (same_block G). split; congruence.
    + exists l. split_and!; try done. apply elem_of_app. left. by apply erase_line_elem.
  - left. apply dirty_kept; [done|]. intros l Hin Hld Hlb. eexists. split; [apply write_line_elem; by exists l|].
    destruct (_ =? _); [|done]. cbn. by rewrite Hld, orb_true_r.
  - left. apply dirty_kept; [done|]. eauto.
  - destruct Hcase as [(-> & _)|(v & o & w & Hs & -> & _ & _ & _ & Hwr)].
    { left. apply dirty_kept; [done|]. intros l ???. exists l. split_and!; try done. apply elem_of_app. by left. }
    destruct (decide (l_dirty v = true /\ block (c_params c) (l_addr v) = b)) as [[Hv Hvb]|Hv].
    + right. exists v. split; [done|]. cbn [m_miss_list]. rewrite drop_app_length, Hwr, Hv. apply elem_of_app. left. by left.
    + left. apply dirty_kept; [done|]. intros l Hin Hld Hlb. exists l. split_and!; try done.
      rewrite Hs in Hin. apply elem_of_app. left. rewrite elem_of_app, elem_of_cons in Hin. rewrite elem_of_app.
      destruct Hin as [?|[->|?]]; [by left|by destruct Hv|by right].
Qed.
End Dirty.

Lemma receive_dirty c req c' :
  llc_ok c -> in64 (addr req) -> llc_receive c req = Ok c' -> forall b, dirty_block c' b <-> dirty_block c b.
Proof.
  intros Hc Ha Hr b. destruct (llc_receive_ok c req Hc Ha) as (c1 & Hc1 & _ & Hp & Hl & _).
  assert (c1 = c') as -> by congruence. unfold dirty_block. rewrite Hp.
  assert (Hgo : forall s s' : list Line, (fun l => (l_addr l, l_dirty l)) <$> s = (fun l => (l_addr l, l_dirty l)) <$> s' ->
            forall l, l ∈ s -> exists l', l' ∈ s' /\ l_dirty l' = l_dirty l /\ l_addr l' = l_addr l).
  { intros s s' Heq l Hin. apply (list_elem_of_fmap_2 (fun l => (l_addr l, l_dirty l))) in Hin.
    change ((l_addr l, l_dirty l) ∈ (fun l => (l_addr l, l_dirty l)) <$> s) in Hin. rewrite Heq in Hin.
    apply list_elem_of_fmap in Hin as (l' & [= ??] & ?). by exists l'. }
  split; intros (i & l & Hin & Hd & Hb).
  - destruct (Hgo _ _ (Hl i) l Hin) as (l' & ? & ? & ?). exists i, l'. split_and!; [done|congruence..].
  - destruct (Hgo _ _ (eq_sym (Hl i)) l Hin) as (l' & ? & ? & ?). exists i, l'. split_and!; [done|congruence..].
Qed.

(** ** The properties of a cache built with powers of two *)
Section Built.
Context {M : Type} `{IMemorySystem M}.
Context (latency line_bits set_bits ways mshrs : Z) (c0 : SimpleO3LLC).
Context `{!TotalMemory M (2 ^ line_bits)}.
Context (Hline : 0 <= line_bits <= 30) (Hsets : 0 <= set_bits <= 30) (Hways : 1 <= ways) (Hmshrs : 0 <= mshrs < 2 ^ 31).
Context (Hsize : 2 ^ set_bits * (2 ^ line_bits * ways) < 2 ^ 31).
Context (Hnew : SimpleO3LLC_new latency (2 ^ set_bits * (2 ^ line_bits * ways)) (2 ^ line_bits) ways mshrs = Ok c0).

Lemma line_i32 : i32 (2 ^ line_bits) = 2 ^ line_bits.
Proof using Hline. clear -Hline. apply i32_id. pose proof (Z.pow_pos_nonneg 2 line_bits). pose proof (Z.pow_le_mono_r 2 line_bits 30). lia. Qed.

Lemma built_ok :
  llc_good (2 ^ line_bits) c0 c0 /\ m_cache_sets c0 = ∅ /\ p_associativity (c_params c0) = ways /\
  p_linesize_bytes (c_params c0) = 2 ^ line_bits /\ line_bytes (c_params c0) = 2 ^ line_bits.
Proof using Hline Hsets Hways Hmshrs Hsize Hnew.
  destruct (llc_new_ok latency line_bits set_bits ways mshrs Hline Hsets Hways Hmshrs Hsize)
    as (c & Hc & Hok & Hw & He & _ & Hm & Hh & _ & Hl & Hk).
  assert (c = c0) as -> by congruence. split; [|split_and!; try done; unfold line_bytes; rewrite Hl; apply line_i32].
  split; [done|done| |].
  - unfold lists_ok. by rewrite Hm, Hh.
  - rewrite Hk. unfold counters. repeat constructor; done.
Qed.

(** C33: In a last-level cache whose line size and number of sets are powers of two,
    after any sequence of sends, responses and ticks (on any memory system that takes
    line-sized requests without failing): a send returns, or one of the statistics
    counters, which are int, stands at 2^31 - 1 and overflows; a response returns; a
    tick returns when every queued hit carries a callback. So no MSHR iterator dangles
    and no assertion fails. A set never holds more lines than ways or two lines with one
    tag, and every MSHR entry points to the line in flight of its address. *)
Theorem llc_never_fails h c :
  llc_run M (2 ^ line_bits) c0 h c ->
  (forall clk req, in64 (addr req) ->
     is_Ok (llc_send c clk req) \/
     llc_send c clk req = Err UndefinedBehaviour /\ Exists (fun x => 2 ^ 31 - 1 <= x) (counters (c_counts c))) /\
  (forall req, in64 (addr req) -> is_Ok (llc_receive c req)) /\
  (forall clk (m : M), tm_ok m -> Forall (fun p => is_Some (callback p.2)) (m_hit_list c) -> is_Ok (cache_tick clk c m)) /\
  (forall i, NoDup (l_tag <$> lines (m_cache_sets c) i) /\ Z.of_nat (length (lines (m_cache_sets c) i)) <= ways) /\
  (forall a it, (a, it) ∈ m_mshrs c ->
     exists s l, deref c it = Ok (s, l) /\ l_ready l = false /\ l_tag l = tag_of (c_params c) a).
Proof using All.
  intros Hrun. destruct built_ok as (H0 & _ & Hw & _ & Hl0). destruct (run_good _ _ _ H0 Hl0 Hrun) as [Hc Hp Hq Hn]. split_and!.
  - intros clk req Ha. pose proof (llc_send_ends c clk req Hc Ha) as Hs. destruct (llc_send c clk req) as [r|e]; [left; by eexists|right].
    destruct Hs as [-> Hroom]. split; [done|]. by apply no_room.
  - intros req Ha. destruct (llc_receive_ok c req Hc Ha) as (r & Hr & _). by exists r.
  - intros clk m Hm Hcb. pose proof (tick_ends clk c m Hc Hm Hq) as Ht. destruct (cache_tick clk c m) as [r|e]; [by eexists|by destruct Ht].
  - intros i. destruct Hc as [_ I]. pose proof (li_sets _ _ _ _ I i) as [_ Ht _ Hl]. split; [done|]. by rewrite Hp, Hw in Hl.
  - intros a [i n] Hin. destruct Hc as [_ I]. destruct (li_mshr _ _ _ _ I a i n Hin) as (_ & _ & l & Hl & <- & Ht & Hr).
    exists (lines (m_cache_sets c) i), l. split_and!; try done. apply deref_ok; [done|apply I].
Qed.

(** C34: A line only leaves its set when a send finds the set full, and then it is,
    among the lines that are not in flight, the one whose last hit or allocation lies
    furthest back. *)
Theorem llc_evicts_lru h c clk req ok req' c' victim :
  llc_run M (2 ^ line_bits) c0 h c -> in64 (addr req) -> llc_send c clk req = Ok (ok, req', c') ->
  victim ∈ the_set c (addr req) ->
  (forall l, l ∈ the_set c' (addr req) -> block (c_params c) (l_addr l) <> block (c_params c) (l_addr victim)) ->
  l_ready victim = true /\ Z.of_nat (length (the_set c (addr req))) = ways /\
  forall l, l ∈ the_set c (addr req) -> l_ready l = true -> l <> victim ->
    (age h (block (c_params c) (l_addr l)) < age h (block (c_params c) (l_addr victim)))%nat.
Proof using All.
  intros Hrun Ha Hs Hv Hgone. destruct built_ok as (H0 & He & Hw & _ & Hl0). destruct (run_good _ _ _ H0 Hl0 Hrun) as [Hc Hp _ _].
  pose proof (run_sorted M _ _ _ _ H0 Hl0 He Hrun (index_of (c_params c) (addr req))) as Hsort. fold (the_set c (addr req)) in Hsort.
  destruct (llc_send_ok c clk req _ Hc Ha Hs) as [Hout _].
  destruct (outcome_gone c clk req _ victim Hc Hout Hv Hgone) as (o & w & Hset & Hlen & Hready & Hold).
  rewrite Hp, Hw in Hlen. split_and!; [done|done|]. intros l Hl Hlr Hne.
  rewrite Hset in Hl, Hsort. apply elem_of_app in Hl as [Hl|[->|Hl]%elem_of_cons]; [|done|].
  - rewrite Forall_forall in Hold. by rewrite (Hold l Hl) in Hlr.
  - exact (sorted_before _ _ _ _ _ Hsort Hl).
Qed.

(** C35: No written data is lost by the cache: an accepted store leaves its line dirty,
    and through every send, response and tick a dirty line stays dirty until a send
    queues a write-back of the full line for the memory system. *)
Theorem llc_keeps_writes h c :
  llc_run M (2 ^ line_bits) c0 h c ->
  (forall clk req ok req' c', in64 (addr req) -> llc_send c clk req = Ok (ok, req', c') ->
     (ok = true -> type_id req = Type_Write -> dirty_block c' (block (c_params c) (addr req))) /\
     (forall b, dirty_block c b ->
        dirty_block c' b \/
        exists t wb, (t, wb) ∈ drop (length (m_miss_list c)) (m_miss_list c') /\ type_id wb = Type_Write /\
          size_bytes wb = 2 ^ line_bits /\ block (c_params c) (addr wb) = b)) /\
  (forall req c', in64 (addr req) -> llc_receive c req = Ok c' -> forall b, dirty_block c' b <-> dirty_block c b) /\
  (forall clk (m : M) c' m', tm_ok m -> cache_tick clk c m = Ok (c', m') -> forall b, dirty_block c b -> dirty_block c' b).
Proof using All.
  intros Hrun. destruct built_ok as (H0 & _ & _ & Hl & Hl0). destruct (run_good _ _ _ H0 Hl0 Hrun) as [Hc Hp Hq _]. split_and!.
  - intros clk req ok req' c' Ha Hs. destruct (llc_send_ok c clk req _ Hc Ha Hs) as [Hout _]. destruct Hc as [[j G] I]. split.
    + intros Hto Hw. exact (store_dirty c clk req j G I _ Hout Hto Hw).
    + intros b Hb. destruct (dirty_stays c clk req j G I _ b Hout Hb) as [?|(l & Hlb & Hin)]; [by left|right].
      do 2 eexists. split; [exact Hin|]. split_and!; try done. cbn. unfold line_bytes. rewrite Hp, Hl. apply line_i32.
  - intros req c' Ha Hr. by eapply receive_dirty.
  - intros clk m c' m' Hm Ht b Hb. refine (tick_keeps (fun c => dirty_block c b) clk c m c' m' _ Hc Hq Hm Ht Hb).
    intros c1 c2 Hc1 [req c3 Ha Hr|recv miss hits] H1; [by eapply receive_dirty|exact H1].
Qed.
End Built.

(** ** A cache of two sets of two lines *)
Definition no_llc : SimpleO3LLC := mkLLC ∅ [] ∅ [] [] (mkParams 0 0 0 0 0 0 0 0 0) (mkStats 0 0 0 0 0 0) 0.
Definition tiny : SimpleO3LLC := from_res no_llc (SimpleO3LLC_new 10 (2 ^ 1 * (2 ^ 6 * 2)) (2 ^ 6) 2 4).

Definition load (a : Z) : Request := Request_src a Type_Read 0 (Some 0).
Definition store (a : Z) : Request := Request_src a Type_Write 0 (Some 0).
Definition after_send (clk : Z) (req : Request) (c : SimpleO3LLC) : SimpleO3LLC :=
  (from_res (false, req, c) (llc_send c clk req)).2.
Definition after_receive (req : Request) (c : SimpleO3LLC) : SimpleO3LLC := from_res c (llc_receive c req).

(** A store to line 0 and a load of line 2 are filled, then line 0 is
    touched again: line 2 is the least recently used of its set. *)
Definition tiny1 := after_send 1 (store 0) tiny.
Definition tiny2 := after_receive (load 0) tiny1.
Definition tiny3 := after_send 2 (load 128) tiny2.
Definition tiny4 := after_receive (load 128) tiny3.
Definition tiny5 := after_send 3 (load 8) tiny4.

Local Abbreviation tiny_run_of := (llc_run DelayMemory (2 ^ 6)).

Lemma run_sent c0 h h' c clk req :
  tiny_run_of c0 h c -> in64 (addr req) -> okb (llc_send c clk req) = true ->
  h' = touched c req (from_res (false, req, c) (llc_send c clk req)).1.1 h -> tiny_run_of c0 h' (after_send clk req c).
Proof.
  intros Hrun Ha Hok ->. unfold after_send. apply from_res_Ok with (d := (false, req, c)) in Hok.
  destruct (from_res _ _) as [[ok req'] c'] eqn:Hf. by apply (run_send _ h c clk req ok req' c').
Qed.

Lemma run_received c0 h c req :
  tiny_run_of c0 h c -> in64 (addr req) -> okb (llc_receive c req) = true -> tiny_run_of c0 h (after_receive req c).
Proof. intros Hrun Ha Hok. apply (run_receive _ h c req); [done|done|by apply from_res_Ok]. Qed.

Definition after_tick (clk : Z) (m : DelayMemory) (c : SimpleO3LLC) : SimpleO3LLC := (from_res (c, m) (cache_tick clk c m)).1.

Lemma run_ticked c0 h c clk m :
  tiny_run_of c0 h c -> dm_queue m = [] -> okb (cache_tick clk c m) = true -> tiny_run_of c0 h (after_tick clk m c).
Proof.
  intros Hrun Hq Hok. unfold after_tick. apply from_res_Ok with (d := (c, m)) in Hok. destruct (from_res _ _) as [c' m'].
  apply (run_tick _ h c clk m c' m'); [done| |done]. intros p. by rewrite Hq.
Qed.

Lemma tiny_run : tiny_run_of tiny [0; 2; 0] tiny5.
Proof.
  apply (run_sent tiny [2; 0]); [|by vm_compute|by vm_compute|by vm_compute].
  apply run_received; [|by vm_compute|by vm_compute].
  apply (run_sent tiny [0]); [|by vm_compute|by vm_compute|by vm_compute].
  apply run_received; [|by vm_compute|by vm_compute].
  apply (run_sent tiny []); [constructor|by vm_compute|by vm_compute|by vm_compute].
Qed.

Lemma tiny_new : SimpleO3LLC_new 10 (2 ^ 1 * (2 ^ 6 * 2)) (2 ^ 6) 2 4 = Ok tiny.
Proof. by apply from_res_Ok. Qed.

(** Later the misses have gone to the memory and the hit is reported. *)
Definition tiny_memory : DelayMemory := mkDelay 0 5 [].
Definition tiny_ticked := after_tick 13 tiny_memory tiny5.

Lemma tiny_ticked_run : tiny_run_of tiny [0; 2; 0] tiny_ticked.
Proof. apply run_ticked; [apply tiny_run|done|by vm_compute]. Qed.

Lemma tiny_ticked_lists :
  length (m_miss_list tiny5) = 2%nat /\ length (m_hit_list tiny5) = 1%nat /\ m_miss_list tiny_ticked = [] /\ m_hit_list tiny_ticked = [].
Proof. by vm_compute. Qed.

Lemma tiny_built : llc_good (2 ^ 6) tiny tiny /\ m_cache_sets tiny = ∅ /\ p_associativity (c_params tiny) = 2 /\
  p_linesize_bytes (c_params tiny) = 2 ^ 6 /\ line_bytes (c_params tiny) = 2 ^ 6.
Proof. apply (built_ok 10 6 1 2 4 tiny); try lia. apply tiny_new. Qed.

Lemma tiny_ok : llc_ok tiny.
Proof. by destruct tiny_built as ([] & _). Qed.

Lemma tiny5_ok : llc_ok tiny5.
Proof.
  destruct tiny_built as (Hg & _ & _ & _ & Hl). by destruct (run_good tiny [0; 2; 0] tiny5 Hg Hl tiny_run).
Qed.

Lemma llc_never_fails_witness :
  (is_Ok (llc_send tiny_ticked 4 (load 256)) \/
   llc_send tiny_ticked 4 (load 256) = Err UndefinedBehaviour /\
     Exists (fun x => 2 ^ 31 - 1 <= x) (counters (c_counts tiny_ticked))) /\
  is_Ok (llc_receive tiny_ticked (load 256)) /\ is_Ok (cache_tick 13 tiny5 tiny_memory).
Proof.
  pose proof (llc_never_fails 10 6 1 2 4 tiny ltac:(lia) ltac:(lia) ltac:(lia) ltac:(lia) ltac:(lia) tiny_new
                [0; 2; 0] tiny_ticked tiny_ticked_run) as (Hs & Hr & _).
  pose proof (llc_never_fails 10 6 1 2 4 tiny ltac:(lia) ltac:(lia) ltac:(lia) ltac:(lia) ltac:(lia) tiny_new
                [0; 2; 0] tiny5 tiny_run) as (_ & _ & Ht & _).
  split; [apply Hs; by vm_compute|]. split; [apply Hr; by vm_compute|]. apply Ht; [by intros p []|].
  apply (bool_decide_unpack _). by vm_compute.
Defined.

(** The line evicted when line 4 comes to the same set. *)
Definition tiny_victim : Line := mkLine 1 128 1 false true.
Definition tiny6 := after_send 4 (store 256) tiny5.

Lemma tiny6_sent : llc_send tiny5 4 (store 256) = Ok (true, set_size (load 256) 64, tiny6).
Proof. by vm_compute. Qed.

Lemma llc_evicts_lru_witness :
  l_ready tiny_victim = true /\ (age [0; 2; 0]%Z 0%Z < age [0; 2; 0]%Z (block (c_params tiny5) (l_addr tiny_victim)))%nat.
Proof.
  destruct (llc_evicts_lru 10 6 1 2 4 tiny ltac:(lia) ltac:(lia) ltac:(lia) ltac:(lia) ltac:(lia) tiny_new
              [0; 2; 0] tiny5 4 (store 256) true (set_size (load 256) 64) tiny6 tiny_victim tiny_run) as (Hr & _ & Hage).
  - by vm_compute.
  - exact tiny6_sent.
  - vm_compute. by left.
  - intros l Hl. assert (l_addr l = 8 \/ l_addr l = 256) as [-> | ->]; [|by vm_compute..].
    assert (Heq : the_set tiny6 (addr (store 256)) = [mkLine 2 8 0 true true; mkLine 3 256 2 true false]) by (by vm_compute).
    rewrite Heq in Hl. apply elem_of_cons in Hl as [-> | ->%list_elem_of_singleton]; auto.
  - split; [exact Hr|]. refine (Hage (mkLine 2 8 0 true true) _ eq_refl _); [vm_compute; right; by left|discriminate].
Defined.

Lemma llc_keeps_writes_witness : dirty_block tiny6 (block (c_params tiny5) 256).
Proof.
  pose proof (llc_keeps_writes 10 6 1 2 4 tiny ltac:(lia) ltac:(lia) ltac:(lia) ltac:(lia) ltac:(lia) tiny_new
                [0; 2; 0] tiny5 tiny_run) as [Hs _].
  exact (proj1 (Hs 4 (store 256) true _ tiny6 ltac:(by vm_compute) tiny6_sent) eq_refl eq_refl).
Defined.

(** ** A number of sets that is not a power of two *)
(** The default cache of three cores: 6 MB in lines of 64 bytes, eight
    ways, so 12288 sets.  The index mask is not a run of ones and drops a bit
    that the tag does not have either. *)
Definition three_cores : SimpleO3LLC := from_res no_llc (SimpleO3LLC_new 47 (3 * 2097152) 64 8 48).
Definition three_cores1 := after_send 0 (load 0) three_cores.
Definition three_cores2 := after_receive (load 0) three_cores1.

(** With the default cache of three cores the number of sets is not a power of two
    and two different lines share set and tag: after line 0 is filled, a load of address
    262144, which was never fetched, is a hit. *)
Theorem three_cores_alias :
  SimpleO3LLC_new 47 (3 * 2097152) 64 8 48 = Ok three_cores /\
  llc_send three_cores 0 (load 0) = Ok (true, set_size (load 0) 64, three_cores1) /\
  llc_receive three_cores1 (load 0) = Ok three_cores2 /\
  block (c_params three_cores) 0 <> block (c_params three_cores) 262144 /\
  exists c, llc_send three_cores2 1 (load 262144) = Ok (true, load 262144, c) /\
    m_hit_list c = [(48, load 262144)] /\ m_miss_list c = m_miss_list three_cores2 /\ m_mshrs c = [].
Proof.
  split_and!; [by vm_compute..|]. exists (after_send 1 (load 262144) three_cores2). split_and!; by vm_compute.
Qed.
