(* ===== verification/InstWindow.v ===== *)
(** * InstWindow: the instruction window of a SimpleO3 core

    Models the class [InstWindow] of
    [ramulator/frontend/impl/processor/simpleO3/core.h] and [core.cpp], a
    ring buffer over two vectors, and shows that it implements a bounded
    queue. *)
From stdpp Require Import prelude gmap strings.
From S2P Require Import Prelude.
Open Scope Z_scope.

Record InstWindow := mkWin {
  w_ipc : Z;
  w_depth : Z;
  w_load : Z;
  w_head_idx : Z;
  w_tail_idx : Z;
  w_ready_list : list bool;
  w_addr_list : list Z
}.

(** The vectors cannot be built with a negative length. *)
Definition InstWindow_new (ipc depth : Z) : res InstWindow :=
  if depth <? 0 then Err (Throw "std::length_error")
  else Ok (mkWin ipc depth 0 0 0 (replicate (Z.to_nat depth) false) (replicate (Z.to_nat depth) (-1))).

Definition is_full (w : InstWindow) : bool := w_load w =? w_depth w.

(** [vector::at] throws out of range. *)
Definition at_ {A} (l : list A) (i : Z) : res A :=
  match zlookup l i with Some x => Ok x | None => Err (Throw "std::out_of_range") end.
Definition set_at {A} (l : list A) (i : Z) (x : A) : res (list A) :=
  match zlookup l i with Some _ => Ok (<[Z.to_nat i := x]> l) | None => Err (Throw "std::out_of_range") end.

Definition InstWindow_insert (w : InstWindow) (ready : bool) (a : Z) : res InstWindow :=
  rl ← set_at (w_ready_list w) (w_head_idx w) ready;
  al ← set_at (w_addr_list w) (w_head_idx w) a;
  h ← rem_int (w_head_idx w + 1) (w_depth w);
  Ok (mkWin (w_ipc w) (w_depth w) (w_load w + 1) h (w_tail_idx w) rl al).

(** Every round takes one instruction off the load. *)
Fixpoint retire_loop (fuel : nat) (w : InstWindow) (num_retired : Z) : res (Z * InstWindow) :=
  match fuel with
  | O => Ok (num_retired, w)
  | S fuel =>
      if (0 <? w_load w) && (num_retired <? w_ipc w) then
        ready ← at_ (w_ready_list w) (w_tail_idx w);
        if negb ready then Ok (num_retired, w)
        else
          t ← rem_int (w_tail_idx w + 1) (w_depth w);
          retire_loop fuel (mkWin (w_ipc w) (w_depth w) (w_load w - 1) (w_head_idx w) t (w_ready_list w) (w_addr_list w))
            (num_retired + 1)
      else Ok (num_retired, w)
  end.

Definition InstWindow_retire (w : InstWindow) : res (Z * InstWindow) :=
  if w_load w =? 0 then Ok (0, w) else retire_loop (Z.to_nat (w_load w)) w 0.

(** The rest of the loop of [set_ready], from an index on. *)
Fixpoint ready_loop (rounds : nat) (depth a : Z) (al : list Z) (index : Z) (rl : list bool) : res (list bool) :=
  match rounds with
  | O => Ok rl
  | S rounds =>
      x ← vget al index;
      rl ← (if x =? a then vset rl index true else Ok rl);
      let index := index + 1 in
      ready_loop rounds depth a al (if index =? depth then 0 else index) rl
  end.

Definition InstWindow_set_ready (w : InstWindow) (a : Z) : res InstWindow :=
  if w_load w =? 0 then Ok w
  else
    rl ← ready_loop (Z.to_nat (w_load w)) (w_depth w) a (w_addr_list w) (w_tail_idx w) (w_ready_list w);
    Ok (mkWin (w_ipc w) (w_depth w) (w_load w) (w_head_idx w) (w_tail_idx w) rl (w_addr_list w)).

(** ** The queue it stands for *)
Record window_ok (w : InstWindow) : Prop := mkWindowOk {
  wo_depth : 0 < w_depth w;
  wo_ready : Z.of_nat (length (w_ready_list w)) = w_depth w;
  wo_addr : Z.of_nat (length (w_addr_list w)) = w_depth w;
  wo_load : 0 <= w_load w <= w_depth w;
  wo_tail : 0 <= w_tail_idx w < w_depth w;
  wo_head : w_head_idx w = (w_tail_idx w + w_load w) mod w_depth w
}.

(** The slot of the k-th oldest instruction, and the two vectors there. *)
Definition slot (w : InstWindow) (k : nat) : nat := Z.to_nat ((w_tail_idx w + Z.of_nat k) mod w_depth w).
Definition entry (w : InstWindow) (k : nat) : bool * Z :=
  (nth (slot w k) (w_ready_list w) false, nth (slot w k) (w_addr_list w) 0).
Definition entries (w : InstWindow) : list (bool * Z) := map (entry w) (seq 0 (Z.to_nat (w_load w))).

(** The queue's operations: how many of the oldest instructions are ready,
    and waking those of an address. *)
Fixpoint ready_prefix (q : list (bool * Z)) : nat :=
  match q with (true, _) :: q => S (ready_prefix q) | _ => 0 end.
Definition wake (a : Z) (e : bool * Z) : bool * Z := (e.1 || (e.2 =? a), e.2).

Lemma slot_bound w k : window_ok w -> (slot w k < length (w_ready_list w))%nat /\ (slot w k < length (w_addr_list w))%nat.
Proof.
  intros []. unfold slot. pose proof (Z.mod_pos_bound (w_tail_idx w + Z.of_nat k) (w_depth w) ltac:(lia)). lia.
Qed.

(** Different instructions of the window have different slots. *)
Lemma mod_small_diff x y d : 0 < d -> x mod d = y mod d -> - d < x - y < d -> x = y.
Proof.
  intros Hd Hm Hr. assert ((x - y) mod d = 0) as H0 by (rewrite Zminus_mod, Hm, Z.sub_diag; by apply Zmod_0_l).
  apply Z.mod_divide in H0 as [q Hq]; [|lia].
  assert (-1 < q < 1) by (split; nia). assert (q = 0) as -> by lia. lia.
Qed.

Lemma slot_inj w i k :
  window_ok w -> Z.of_nat i < w_depth w -> Z.of_nat k < w_depth w -> slot w i = slot w k -> i = k.
Proof.
  intros [] Hi Hk. unfold slot. intros H. pose proof (Z.mod_pos_bound (w_tail_idx w + Z.of_nat i) (w_depth w) ltac:(lia)).
  pose proof (Z.mod_pos_bound (w_tail_idx w + Z.of_nat k) (w_depth w) ltac:(lia)).
  assert (w_tail_idx w + Z.of_nat i = w_tail_idx w + Z.of_nat k); [|lia].
  apply (mod_small_diff _ _ (w_depth w)); lia.
Qed.

Lemma entries_length w : window_ok w -> Z.of_nat (length (entries w)) = w_load w.
Proof. intros []. unfold entries. rewrite length_map, length_seq. lia. Qed.

Lemma entries_ext w w' :
  w_load w' = w_load w ->
  (forall k, (k < Z.to_nat (w_load w))%nat -> entry w' k = entry w k) -> entries w' = entries w.
Proof.
  intros Hl He. unfold entries. rewrite Hl. apply map_ext_in. intros k Hk%in_seq. apply He. lia.
Qed.

Lemma rem_succ x d : 0 <= x < d -> rem_int (x + 1) d = Ok ((x + 1) mod d).
Proof.
  intros Hx. unfold rem_int. destruct (Z.eqb_spec d 0); [lia|]. by rewrite Z.rem_mod_nonneg by lia.
Qed.

Lemma set_at_ok {A} (l : list A) i x : 0 <= i < Z.of_nat (length l) -> set_at l i x = Ok (<[Z.to_nat i := x]> l).
Proof.
  intros Hi. unfold set_at, zlookup. destruct (Z.ltb_spec i 0); [lia|].
  destruct (lookup_lt_is_Some_2 l (Z.to_nat i)) as [y ->]; [lia|done].
Qed.

Lemma nth_insert_ne {A} (l : list A) i k x d : i <> k -> nth k (<[i := x]> l) d = nth k l d.
Proof. intros. rewrite !nth_lookup. by rewrite list_lookup_insert_ne. Qed.

Lemma nth_insert {A} (l : list A) i x d : (i < length l)%nat -> nth i (<[i := x]> l) d = x.
Proof. intros. rewrite nth_lookup. by rewrite list_lookup_insert_eq. Qed.

Lemma new_window ipc depth : 0 < depth ->
  exists w, InstWindow_new ipc depth = Ok w /\ window_ok w /\ entries w = [] /\ w_ipc w = ipc /\ w_depth w = depth.
Proof.
  intros Hd. unfold InstWindow_new. destruct (Z.ltb_spec depth 0); [lia|]. eexists. split; [done|].
  split_and!; try done. split; cbn; rewrite ?length_replicate; try lia. rewrite Z.mod_0_l; lia.
Qed.

Lemma insert_entries w r a :
  window_ok w -> is_full w = false ->
  exists w', InstWindow_insert w r a = Ok w' /\ window_ok w' /\ entries w' = entries w ++ [(r, a)] /\
    w_ipc w' = w_ipc w /\ w_depth w' = w_depth w.
Proof.
  intros Hok Hfull%Z.eqb_neq. pose proof (slot_bound w (Z.to_nat (w_load w)) Hok) as [Hs1 Hs2].
  destruct Hok as [Hd Hr Ha Hl Ht Hh] eqn:Heq. clear Heq.
  assert (Hslot : Z.to_nat (w_head_idx w) = slot w (Z.to_nat (w_load w))) by (unfold slot; rewrite Hh, Z2Nat.id by lia; done).
  pose proof (Z.mod_pos_bound (w_tail_idx w + w_load w) (w_depth w) Hd) as Hhb. rewrite <- Hh in Hhb.
  unfold InstWindow_insert. rewrite !set_at_ok by lia. cbn [mbind res_bind]. rewrite rem_succ by lia. cbn [mbind res_bind].
  eexists. split; [done|]. split_and!; try done.
  - split; cbn; rewrite ?length_insert; try lia. rewrite Hh, Zplus_mod_idemp_l. f_equal. lia.
  - unfold entries at 1. cbn [w_load]. replace (Z.to_nat (w_load w + 1)) with (S (Z.to_nat (w_load w))) by lia.
    rewrite seq_S, map_app. cbn [map Nat.add]. f_equal.
    + apply map_ext_in. intros k Hk%in_seq. unfold entry, slot. cbn. rewrite Hslot.
      assert (slot w k <> slot w (Z.to_nat (w_load w))).
      { intros Heq. apply (slot_inj w) in Heq; [lia|by split|lia|lia]. }
      unfold slot in *. by rewrite !nth_insert_ne.
    + unfold entry. f_equal. cbn. rewrite Hslot. unfold slot in *. cbn. by rewrite !nth_insert.
Qed.

(** The window without its oldest instruction. *)
Definition advance (w : InstWindow) : InstWindow :=
  mkWin (w_ipc w) (w_depth w) (w_load w - 1) (w_head_idx w) ((w_tail_idx w + 1) mod w_depth w)
    (w_ready_list w) (w_addr_list w).

Lemma advance_ok w : window_ok w -> 0 < w_load w -> window_ok (advance w) /\ entries w = entry w 0 :: entries (advance w).
Proof.
  intros [Hd Hr Ha Hl Ht Hh] Hpos. split.
  - split; cbn; try lia; [by apply Z.mod_pos_bound|]. rewrite Hh, Zplus_mod_idemp_l. f_equal. lia.
  - unfold entries. cbn [w_load advance]. replace (Z.to_nat (w_load w)) with (S (Z.to_nat (w_load w - 1))) by lia.
    rewrite <- cons_seq, <- seq_shift. cbn [map]. f_equal. rewrite map_map. apply map_ext. intros k.
    assert (Hs : slot w (S k) = slot (advance w) k).
    { unfold slot. cbn. rewrite Zplus_mod_idemp_l. do 2 f_equal. lia. }
    unfold entry. rewrite Hs. done.
Qed.

Lemma tail_ready w : window_ok w -> 0 < w_load w -> at_ (w_ready_list w) (w_tail_idx w) = Ok (entry w 0).1.
Proof.
  intros Hok Hpos. pose proof (slot_bound w 0 Hok) as [Hb _]. destruct Hok as [Hd Hr Ha Hl Ht Hh].
  assert (Hs : slot w 0 = Z.to_nat (w_tail_idx w)) by (unfold slot; rewrite Z.add_0_r, Z.mod_small by lia; done).
  unfold entry. rewrite Hs in *. unfold at_, zlookup. destruct (Z.ltb_spec (w_tail_idx w) 0); [lia|]. cbn.
  rewrite nth_lookup. by destruct (lookup_lt_is_Some_2 _ _ Hb) as [x ->].
Qed.

Lemma retire_loop_spec fuel : forall w n,
  window_ok w -> w_load w <= Z.of_nat fuel ->
  let k := Nat.min (ready_prefix (entries w)) (Z.to_nat (w_ipc w - n)) in
  exists w', retire_loop fuel w n = Ok (n + Z.of_nat k, w') /\ window_ok w' /\ entries w' = drop k (entries w) /\
    w_ipc w' = w_ipc w /\ w_depth w' = w_depth w.
Proof.
  induction fuel as [|fuel IH]; intros w n Hok Hf k.
  { assert (He : entries w = []) by (unfold entries; by replace (Z.to_nat (w_load w)) with 0%nat by lia).
    exists w. unfold k. rewrite He. cbn. rewrite Z.add_0_r. done. }
  cbn [retire_loop]. destruct (Z.ltb_spec 0 (w_load w)) as [Hpos|Hz]; cbn [andb].
  2: { assert (He : entries w = []) by (unfold entries; by replace (Z.to_nat (w_load w)) with 0%nat by lia).
       exists w. unfold k. rewrite He. cbn. rewrite Z.add_0_r. done. }
  destruct (Z.ltb_spec n (w_ipc w)) as [Hn|Hn].
  2: { assert (Hk : k = 0%nat) by (unfold k; lia). exists w. rewrite Hk, Z.add_0_r. done. }
  rewrite tail_ready by done. destruct (advance_ok w Hok Hpos) as [Hadv He]. cbn [mbind res_bind].
  subst k. rewrite He. destruct (entry w 0) as [[|] x]; cbn [fst negb ready_prefix].
  2: { exists w. rewrite Z.add_0_r. split_and!; try done. }
  rewrite rem_succ by apply Hok. cbn [mbind res_bind]. fold (advance w).
  destruct (IH (advance w) (n + 1) Hadv ltac:(cbn; lia)) as (w' & Hw' & Hok' & He' & Hipc & Hdep). cbn [w_ipc advance] in *.
  exists w'. rewrite Hw'. replace (Z.to_nat (w_ipc w - n)) with (S (Z.to_nat (w_ipc w - (n + 1)))) by lia.
  cbn [Nat.min drop]. split_and!; try done. do 2 f_equal. lia.
Qed.

Lemma retire_entries w :
  window_ok w ->
  let k := Nat.min (ready_prefix (entries w)) (Z.to_nat (w_ipc w)) in
  exists w', InstWindow_retire w = Ok (Z.of_nat k, w') /\ window_ok w' /\ entries w' = drop k (entries w) /\
    w_ipc w' = w_ipc w /\ w_depth w' = w_depth w.
Proof.
  intros Hok. unfold InstWindow_retire. destruct (Z.eqb_spec (w_load w) 0) as [Hz|Hnz].
  - assert (He : entries w = []) by (unfold entries; by rewrite Hz). exists w. rewrite He. cbn. done.
  - pose proof (wo_load w Hok). pose proof (retire_loop_spec (Z.to_nat (w_load w)) w 0 Hok ltac:(lia)) as H1.
    rewrite Z.sub_0_r in H1. exact H1.
Qed.

Lemma slot_next w k : window_ok w ->
  (if Z.of_nat (slot w k) + 1 =? w_depth w then 0 else Z.of_nat (slot w k) + 1) = Z.of_nat (slot w (S k)).
Proof.
  intros []. unfold slot. pose proof (Z.mod_pos_bound (w_tail_idx w + Z.of_nat k) (w_depth w) wo_depth0).
  replace (w_tail_idx w + Z.of_nat (S k)) with (w_tail_idx w + Z.of_nat k + 1) by lia.
  rewrite <- (Zplus_mod_idemp_l (w_tail_idx w + Z.of_nat k) 1). set (x := (w_tail_idx w + Z.of_nat k) mod w_depth w) in *. rewrite Z2Nat.id by lia.
  destruct (Z.eqb_spec (x + 1) (w_depth w)) as [->|].
  - rewrite Z.mod_same; lia.
  - rewrite Z.mod_small; lia.
Qed.

Lemma ready_loop_spec w a rounds : window_ok w -> forall k rl,
  Z.of_nat (k + rounds) <= w_depth w -> Z.of_nat (length rl) = w_depth w ->
  exists rl', ready_loop rounds (w_depth w) a (w_addr_list w) (Z.of_nat (slot w k)) rl = Ok rl' /\
    length rl' = length rl /\
    (forall i, (k <= i < k + rounds)%nat ->
       nth (slot w i) rl' false = nth (slot w i) rl false || (nth (slot w i) (w_addr_list w) 0 =? a)) /\
    (forall s, (forall i, (k <= i < k + rounds)%nat -> s <> slot w i) -> nth s rl' false = nth s rl false).
Proof.
  intros Hok. induction rounds as [|rounds IH]; intros k rl Hr Hl; cbn [ready_loop].
  { exists rl. split_and!; try done. intros i Hi. lia. }
  pose proof (slot_bound w k Hok) as [Hb1 Hb2]. pose proof (wo_ready w Hok).
  destruct (lookup_lt_is_Some_2 _ _ Hb2) as [x Hx].
  rewrite (proj2 (vget_nat _ _ _) Hx). cbn [mbind res_bind]. rewrite slot_next by done.
  assert (Hstep : exists rl1, (if x =? a then vset rl (Z.of_nat (slot w k)) true else Ok rl) = Ok rl1 /\
            length rl1 = length rl /\ nth (slot w k) rl1 false = nth (slot w k) rl false || (x =? a) /\
            forall s, s <> slot w k -> nth s rl1 false = nth s rl false).
  { destruct (x =? a); [|by exists rl; rewrite orb_false_r].
    exists (<[slot w k := true]> rl). split_and!; [apply vset_Ok; rewrite Nat2Z.id; split; [lia|done]|..].
    - apply length_insert.
    - rewrite nth_insert by lia. by rewrite orb_true_r.
    - intros s Hs. by rewrite nth_insert_ne. }
  destruct Hstep as (rl1 & -> & Hlen1 & Hk1 & Hs1). cbn [mbind res_bind].
  destruct (IH (S k) rl1 ltac:(lia) ltac:(lia)) as (rl' & Hrl' & Hlen' & Hi' & Hs'). exists rl'. rewrite Hrl'.
  assert (Hdiff : forall i, (S k <= i < S k + rounds)%nat -> slot w k <> slot w i).
  { intros i Hi Heq. apply (slot_inj w) in Heq; [lia|done|lia|lia]. }
  split_and!; [done|lia| |].
  - intros i Hi. destruct (decide (i = k)) as [->|Hne].
    + rewrite Hs' by (intros i Hi2; apply Hdiff; lia). rewrite Hk1. by rewrite (nth_lookup_Some _ _ _ _ Hx).
    + rewrite Hi' by lia. rewrite Hs1; [done|]. intros Heq. by apply (Hdiff i); [lia|].
  - intros s Hs. rewrite Hs'; [|intros i Hi; apply Hs; lia]. apply Hs1. apply Hs. lia.
Qed.

Lemma set_ready_entries w a :
  window_ok w ->
  exists w', InstWindow_set_ready w a = Ok w' /\ window_ok w' /\ entries w' = map (wake a) (entries w) /\
    w_ipc w' = w_ipc w /\ w_depth w' = w_depth w.
Proof.
  intros Hok. unfold InstWindow_set_ready. destruct (Z.eqb_spec (w_load w) 0) as [Hz|Hnz].
  { exists w. assert (He : entries w = []) by (unfold entries; by rewrite Hz). by rewrite He. }
  pose proof (wo_load w Hok). pose proof (wo_ready w Hok).
  destruct (ready_loop_spec w a (Z.to_nat (w_load w)) Hok 0 (w_ready_list w)) as (rl & Hrl & Hlen & Hi & _); [lia|done|].
  assert (Hs0 : Z.of_nat (slot w 0) = w_tail_idx w).
  { unfold slot. rewrite Z.add_0_r, Z.mod_small by apply Hok. pose proof (wo_tail w Hok). lia. }
  rewrite Hs0 in Hrl. rewrite Hrl. cbn [mbind res_bind]. eexists. split; [done|]. split_and!; try done.
  - destruct Hok. split; cbn; try done. lia.
  - unfold entries. cbn [w_load]. rewrite map_map. apply map_ext_in. intros k Hk%in_seq. unfold entry, wake. cbn [fst snd].
    change (slot (mkWin _ _ _ _ _ _ _) k) with (slot w k). cbn [w_ready_list w_addr_list]. rewrite Hi by lia. done.
Qed.

(** ** Refinement *)
Inductive win_op := OpInsert (ready : bool) (a : Z) | OpRetire | OpSetReady (a : Z).

Definition win_step (w : InstWindow) (o : win_op) : res (Z * InstWindow) :=
  match o with
  | OpInsert r a => w ← InstWindow_insert w r a; Ok (0, w)
  | OpRetire => InstWindow_retire w
  | OpSetReady a => w ← InstWindow_set_ready w a; Ok (0, w)
  end.

Fixpoint run_window (w : InstWindow) (l : list win_op) : res (list Z * InstWindow) :=
  match l with
  | [] => Ok ([], w)
  | o :: l => p ← win_step w o; q ← run_window p.2 l; Ok (p.1 :: q.1, q.2)
  end.

(** The bounded queue: instructions enter at the end when there is room, the
    oldest ones that are ready leave in order, at most [ipc] at a time. *)
Definition queue_step (ipc depth : Z) (q : list (bool * Z)) (o : win_op) : option (Z * list (bool * Z)) :=
  match o with
  | OpInsert r a => if Z.of_nat (length q) <? depth then Some (0, q ++ [(r, a)]) else None
  | OpRetire => let k := Nat.min (ready_prefix q) (Z.to_nat ipc) in Some (Z.of_nat k, drop k q)
  | OpSetReady a => Some (0, map (wake a) q)
  end.

Fixpoint run_queue (ipc depth : Z) (q : list (bool * Z)) (l : list win_op) : option (list Z * list (bool * Z)) :=
  match l with
  | [] => Some ([], q)
  | o :: l =>
      match queue_step ipc depth q o with
      | Some (n, q) => match run_queue ipc depth q l with Some (ns, q) => Some (n :: ns, q) | None => None end
      | None => None
      end
  end.

Lemma full_entries w : window_ok w -> is_full w = (Z.of_nat (length (entries w)) =? w_depth w).
Proof. intros Hok. unfold is_full. by rewrite entries_length. Qed.

Lemma step_simulates w o n q :
  window_ok w -> queue_step (w_ipc w) (w_depth w) (entries w) o = Some (n, q) ->
  exists w', win_step w o = Ok (n, w') /\ window_ok w' /\ entries w' = q /\ w_ipc w' = w_ipc w /\ w_depth w' = w_depth w.
Proof.
  intros Hok. destruct o as [r a| |a]; cbn [queue_step win_step].
  - destruct (Z.ltb_spec (Z.of_nat (length (entries w))) (w_depth w)) as [Hlt|]; [|done]. intros [= <- <-].
    destruct (insert_entries w r a Hok) as (w' & -> & ? & ? & ? & ?); [|by exists w'].
    rewrite full_entries by done. lia.
  - intros [= <- <-]. destruct (retire_entries w Hok) as (w' & Hw' & ? & ? & ? & ?). by exists w'.
  - intros [= <- <-]. destruct (set_ready_entries w a Hok) as (w' & -> & ? & ? & ? & ?). by exists w'.
Qed.

Lemma run_simulates l : forall w ns q,
  window_ok w -> run_queue (w_ipc w) (w_depth w) (entries w) l = Some (ns, q) ->
  exists w', run_window w l = Ok (ns, w') /\ window_ok w' /\ entries w' = q /\ w_depth w' = w_depth w.
Proof.
  induction l as [|o l IH]; intros w ns q Hok; cbn [run_queue run_window].
  { intros [= <- <-]. by exists w. }
  destruct (queue_step _ _ _ _) as [[n q1]|] eqn:Hq; [|done].
  destruct (step_simulates w o n q1 Hok Hq) as (w1 & -> & Hok1 & He1 & Hi1 & Hd1). cbn [mbind res_bind fst snd].
  destruct (run_queue _ _ q1 l) as [[ns1 q2]|] eqn:Hl; [|done]. intros [= <- <-].
  rewrite <- He1, <- Hi1, <- Hd1 in Hl. destruct (IH w1 ns1 q2 Hok1 Hl) as (w' & -> & Hok' & He' & Hd'). cbn.
  exists w'. split_and!; try done. congruence.
Qed.

(** C30: The ring buffer of the instruction window implements a bounded queue: for every
    sequence of operations the queue allows, the window returns the same numbers of
    retired instructions, holds the same entries in the same order, and is full exactly
    when the queue is. *)
Theorem window_refines_queue ipc depth l ns q :
  0 < depth -> run_queue ipc depth [] l = Some (ns, q) ->
  exists w0 w, InstWindow_new ipc depth = Ok w0 /\ run_window w0 l = Ok (ns, w) /\ entries w = q /\
    is_full w = (Z.of_nat (length q) =? depth).
Proof.
  intros Hd Hq. destruct (new_window ipc depth Hd) as (w0 & Hw0 & Hok & He & Hi & Hdep).
  rewrite <- He, <- Hi, <- Hdep in Hq. destruct (run_simulates l w0 ns q Hok Hq) as (w & Hw & Hokw & Hew & Hdw).
  exists w0, w. split_and!; try done. by rewrite full_entries, Hew, Hdw, Hdep.
Qed.

(** A window of depth 2 that wraps around. *)
Definition some_ops : list win_op :=
  [OpInsert true (-1); OpInsert false 64; OpRetire; OpInsert false 128; OpSetReady 64; OpRetire; OpInsert true (-1)].

Lemma window_refines_queue_witness :
  exists w0 w, InstWindow_new 4 2 = Ok w0 /\ run_window w0 some_ops = Ok ([0; 0; 1; 0; 0; 1; 0], w) /\
    entries w = [(false, 128); (true, -1)] /\ is_full w = (2 =? 2).
Proof.
  exact (window_refines_queue 4 2 some_ops [0; 0; 1; 0; 0; 1; 0] [(false, 128); (true, -1)] ltac:(lia) eq_refl).
Defined.
