(* ===== verification/LlcCheckpoint.v ===== *)
(** * LlcCheckpoint: saving and restoring the contents of the cache

    Models [SimpleO3LLC::serialize] and [SimpleO3LLC::deserialize] of
    [llc.cpp].  The sets are in an [std::unordered_map]: the order in which
    the loop visits them is a parameter, some permutation of the map. *)
From Stdlib Require Import Ascii.
From stdpp Require Import prelude gmap strings.
From S2P Require Import Prelude DramSpec Request BitUtils ChannelMapper MemSystem TraceFile LLC LlcInv LlcProps.
Open Scope Z_scope.

(** ** Saving *)
Definition comma : Ascii.ascii := ","%char.
Definition checkpoint_header : str := String.list_ascii_of_string "index,addr,tag,dirty".

Definition print_line (i : Z) (l : Line) : str :=
  print_int i ++ [comma] ++ print_int (l_addr l) ++ [comma] ++ print_int (l_tag l) ++ [comma] ++ print_int (if l_dirty l then 1 else 0).

Definition flatten (sets : list (Z * list Line)) : list (Z * Line) :=
  concat (map (fun s => map (fun l => (s.1, l)) s.2) sets).

Definition serialize (sets : list (Z * list Line)) : str :=
  checkpoint_header ++ [newline] ++ concat (map (fun e => print_line e.1 e.2 ++ [newline]) (flatten sets)).

(** ** Restoring *)
(** [s.substr(0, s.find(c))] and [s.substr(s.find(c) + 1)]: when the comma is
    missing, [find] is the largest [size_t] and both are the whole string. *)
Definition before_comma (s : str) : str :=
  match find [comma] s 0 with Some k => take k s | None => s end.
Definition after_comma (s : str) : str :=
  match find [comma] s 0 with Some k => drop (k + 1) s | None => s end.

Definition deserialize_line (s : str) (c : SimpleO3LLC) : res SimpleO3LLC :=
  let index_str := before_comma s in
  let s := after_comma s in
  let addr_str := before_comma s in
  let s := after_comma s in
  let tag_str := before_comma s in
  let s := after_comma s in
  let dirty_str := before_comma s in
  index ← stoi index_str;
  a ← stoll addr_str;
  tag ← stoll tag_str;
  dirty ← stoi dirty_str;
  Ok (push_line c index a tag (negb (dirty =? 0)) true).

Fixpoint deserialize_loop (ls : list str) (c : SimpleO3LLC) : res SimpleO3LLC :=
  match ls with
  | [] => Ok c
  | s :: ls => c ← deserialize_line s c; deserialize_loop ls c
  end.

(** A file that cannot be opened has no lines. *)
Definition deserialize (f : file) (c : SimpleO3LLC) : res SimpleO3LLC :=
  deserialize_loop (tail (getlines (match f with FileContents s => s | _ => [] end))) c.

(** ** A line of the file *)
Lemma find_comma s r : comma ∉ s -> find [comma] (s ++ comma :: r) 0 = Some (length s).
Proof.
  intros Hs. unfold find. rewrite drop_0. cbn [Nat.ltb Nat.leb].
  enough (forall k, find_from [comma] (s ++ comma :: r) k = Some (k + length s)%nat) by done.
  induction s as [|x s IH]; intros k; cbn [app find_from is_prefix length].
  - rewrite Ascii.eqb_refl. cbn [andb]. f_equal. lia.
  - rewrite not_elem_of_cons in Hs. destruct Hs as [Hx Hs].
    destruct (Ascii.eqb_spec comma x) as [Heq|]; [by destruct Hx|]. cbn [andb]. rewrite IH by done. f_equal. lia.
Qed.

Lemma before_field s r : comma ∉ s -> before_comma (s ++ comma :: r) = s.
Proof. intros Hs. unfold before_comma. rewrite find_comma by done. by rewrite take_app_length. Qed.
Lemma after_field s r : comma ∉ s -> after_comma (s ++ comma :: r) = r.
Proof.
  intros Hs. unfold after_comma. rewrite find_comma by done. rewrite drop_app_ge by lia.
  by replace (length s + 1 - length s)%nat with 1%nat by lia.
Qed.

Lemma before_last s : comma ∉ s -> before_comma s = s.
Proof.
  intros Hs. unfold before_comma, find. rewrite drop_0. cbn [Nat.ltb Nat.leb].
  pose proof (find_from_single comma s 0) as Hf. destruct (find_from _ _ _) as [k|]; [|done].
  destruct Hf as (k' & -> & Hk & _). by apply list_elem_of_lookup_2 in Hk.
Qed.

Lemma print_int_comma n : comma ∉ print_int n.
Proof. apply (plain_not_elem _ comma (print_int_plain n)). tauto. Qed.

Definition fits (i : Z) (l : Line) : Prop := - 2 ^ 31 <= i < 2 ^ 31 /\ in64 (l_addr l) /\ in64 (l_tag l).

Lemma deserialize_print i l c :
  fits i l -> deserialize_line (print_line i l) c = Ok (push_line c i (l_addr l) (l_tag l) (l_dirty l) true).
Proof.
  intros (Hi & Ha & Ht). unfold deserialize_line, print_line. cbn [app].
  rewrite !after_field, !before_field, before_last by apply print_int_comma.
  unfold stoi, stoll, in64 in *. rewrite !sto_print_int by (destruct (l_dirty l); lia). cbn. by destruct (l_dirty l).
Qed.

(** ** The whole file *)
Definition restore (c : SimpleO3LLC) (e : Z * Line) : SimpleO3LLC :=
  push_line c e.1 (l_addr e.2) (l_tag e.2) (l_dirty e.2) true.

Lemma deserialize_lines es c :
  Forall (fun e => fits e.1 e.2) es ->
  deserialize_loop (map (fun e => print_line e.1 e.2) es) c = Ok (fold_left restore es c).
Proof.
  intros Hes. revert c. induction Hes as [|e es He Hes IH]; intros c; [done|].
  cbn [map deserialize_loop fold_left]. rewrite deserialize_print by done. apply IH.
Qed.

Lemma print_line_newline i l : newline ∉ print_line i l.
Proof.
  assert (Hn : forall n, newline ∉ print_int n).
  { intros n. apply (plain_not_elem _ newline (print_int_plain n)). tauto. }
  unfold print_line. rewrite !not_elem_of_app, !not_elem_of_cons. pose proof (not_elem_of_nil newline).
  split_and!; try apply Hn; done.
Qed.

Lemma saved_lines sets :
  tail (getlines (serialize sets)) = map (fun e => print_line e.1 e.2) (flatten sets).
Proof.
  change (serialize sets) with (checkpoint_header ++ newline :: concat (map (fun e => print_line e.1 e.2 ++ [newline]) (flatten sets))).
  unfold getlines. rewrite getlines_from_line by (apply (bool_decide_unpack (newline ∉ checkpoint_header)); by vm_compute). cbn [tail].
  rewrite <- (map_map (fun e => print_line e.1 e.2) (fun s => s ++ [newline])). apply getlines_print.
  apply Forall_forall. intros s ([i l] & -> & _)%list_elem_of_fmap. apply print_line_newline.
Qed.

(** What a line holds, and what the file keeps of it: a line in flight comes
    back as one that is ready. *)
Definition held (l : Line) : Z * Z * bool * bool := (l_addr l, l_tag l, l_dirty l, l_ready l).
Definition saved (l : Line) : Z * Z * bool * bool := (l_addr l, l_tag l, l_dirty l, true).

Lemma restored_lines i es : forall c,
  held <$> lines (m_cache_sets (fold_left restore es c)) i =
  (held <$> lines (m_cache_sets c) i) ++ (saved <$> (snd <$> filter (fun e => e.1 = i) es)).
Proof.
  induction es as [|[k l] es IH]; intros c; cbn [fold_left]; [by rewrite app_nil_r|].
  rewrite IH, filter_cons. cbn [fst]. cbn [restore push_line with_c_next store_set with_m_cache_sets m_cache_sets fst snd].
  destruct (decide (k = i)) as [->|Hne].
  - rewrite lines_insert, fmap_app, <- app_assoc. done.
  - by rewrite lines_insert_ne.
Qed.

(** Node identities stay distinct. *)
Definition ids_ok (c : SimpleO3LLC) : Prop :=
  forall i, NoDup (l_id <$> lines (m_cache_sets c) i) /\ forall l, l ∈ lines (m_cache_sets c) i -> l_id l < c_next c.

Lemma restored_ids es : forall c, ids_ok c ->
  let c1 := fold_left restore es c in
  ids_ok c1 /\ c_params c1 = c_params c /\ m_mshrs c1 = m_mshrs c.
Proof.
  induction es as [|[k l] es IH]; intros c Hc; cbn [fold_left]; [done|].
  enough (Hids : ids_ok (restore c (k, l))) by (exact (IH _ Hids)). clear IH es. intros i. destruct (Hc i) as [Hnd Hlt].
  unfold restore, push_line, with_c_next, store_set, with_m_cache_sets. cbn [m_cache_sets c_next fst snd].
  destruct (decide (k = i)) as [->|Hne].
  - rewrite lines_insert. split.
    + rewrite fmap_app. apply NoDup_app. split_and!; [done| |apply NoDup_singleton].
      intros x (y & -> & Hy)%list_elem_of_fmap Hx%list_elem_of_singleton. cbn in Hx. pose proof (Hlt y Hy). lia.
    + intros y [Hy| ->%list_elem_of_singleton]%elem_of_app; [pose proof (Hlt y Hy); lia|cbn; lia].
  - rewrite lines_insert_ne by done. split; [done|]. intros y Hy. pose proof (Hlt y Hy). lia.
Qed.

Lemma flatten_lines sets i :
  NoDup sets.*1 -> snd <$> filter (fun e => e.1 = i) (flatten sets) = lines (list_to_map sets) i.
Proof.
  unfold lines. induction sets as [|[k s] sets IH]; cbn [fmap list_fmap fst list_to_map foldr flatten map concat]; [done|].
  intros [Hk Hnd]%NoDup_cons. specialize (IH Hnd). rewrite filter_app, fmap_app.
  fold (flatten sets). rewrite IH. cbn [uncurry snd]. destruct (decide (k = i)) as [->|Hne].
  - rewrite lookup_insert_eq, not_elem_of_list_to_map_1 by done. cbn [default]. rewrite app_nil_r.
    induction s as [|l s IHs]; [done|]. cbn [map]. rewrite filter_cons_True by done. cbn. f_equal. exact IHs.
  - rewrite lookup_insert_ne by done. replace (filter _ (map _ s)) with (@nil (Z * Line)); [done|].
    induction s as [|l s IHs]; [done|]. cbn [map]. rewrite filter_cons_False by done. exact IHs.
Qed.

Lemma order_lines (m : gmap Z (list Line)) order i :
  order ≡ₚ map_to_list m -> snd <$> filter (fun e => e.1 = i) (flatten order) = lines m i.
Proof.
  intros Hp. assert (Hnd : NoDup order.*1) by (rewrite Hp; apply NoDup_fst_map_to_list).
  rewrite flatten_lines by done. by rewrite (list_to_map_proper order (map_to_list m) Hnd Hp), list_to_map_to_list.
Qed.

(** What the invariant says of a line makes its fields fit their types. *)
Lemma line_fits c k s l :
  llc_ok c -> m_cache_sets c !! k = Some s -> l ∈ s -> fits k l.
Proof.
  intros [[j G] I] Hs Hl. pose proof (li_sets _ _ _ _ I k) as [Hline _ _ _]. unfold lines in Hline. rewrite Hs in Hline.
  destruct (Hline l Hl) as (Ha & Hi & Ht & _). split; [|split; [done|]].
  - subst k. unfold index_of. pose proof (g_sets _ _ G). rewrite (g_mask _ _ G). replace (2 ^ j - 1 + 1) with (2 ^ j) by lia.
    assert (2 ^ j <= 2 ^ 30) by (apply Z.pow_le_mono_r; lia).
    pose proof (Z.mod_pos_bound (block (c_params c) (l_addr l)) (2 ^ j) ltac:(apply Z.pow_pos_nonneg; lia)). lia.
  - rewrite Ht. unfold tag_of, in64 in *. pose proof (g_tag _ _ G). pose proof (g_sets _ _ G). pose proof (g_offset _ _ G). pose proof (Z.pow_pos_nonneg 2 (p_tag_offset (c_params c))).
    split; [apply Z.div_le_lower_bound|apply Z.div_lt_upper_bound]; nia.
Qed.

(** The restored lines form sets of the same cache. *)
Lemma restored_set p next next' i s s' :
  set_ok p next i s -> held <$> s' = saved <$> s -> NoDup (l_id <$> s') -> (forall l, l ∈ s' -> l_id l < next') ->
  set_ok p next' i s'.
Proof.
  intros [Hline Htags _ Hlen] Heq Hids Hnext. assert (Hl : length s' = length s) by (apply (f_equal length) in Heq; by rewrite !length_fmap in Heq).
  split.
  - intros l Hin. pose proof (Hnext l Hin). assert (Hh : held l ∈ saved <$> s) by (rewrite <- Heq; by apply list_elem_of_fmap_2).
    apply list_elem_of_fmap in Hh as (l0 & [= -> -> _ _] & Hl0). destruct (Hline l0 Hl0) as (?&?&?&_). done.
  - replace (l_tag <$> s') with ((fun h : Z * Z * bool * bool => h.1.1.2) <$> (held <$> s')) by (by rewrite <- list_fmap_compose).
    by rewrite Heq, <- list_fmap_compose.
  - done.
  - by rewrite Hl.
Qed.

(** Saving the cache to a file and loading the file into a fresh cache of the same
    geometry restores every set: the same lines with address, tag and dirty flag in the
    same replacement order, whatever order the hash map is visited in; all lines are
    ready, and the restored cache satisfies the invariant under which it never fails. *)
Theorem llc_checkpoint_roundtrip c c0 order :
  llc_ok c -> llc_ok c0 -> m_cache_sets c0 = ∅ -> m_mshrs c0 = [] -> c_params c0 = c_params c ->
  order ≡ₚ map_to_list (m_cache_sets c) ->
  exists c1, deserialize (FileContents (serialize order)) c0 = Ok c1 /\ llc_ok c1 /\
    forall i, held <$> lines (m_cache_sets c1) i = saved <$> lines (m_cache_sets c) i.
Proof.
  intros Hc H0 He Hm Hp Hord. exists (fold_left restore (flatten order) c0).
  assert (Hids : ids_ok c0) by (intros i; rewrite He, lines_empty; split; [constructor|by intros ? ?%elem_of_nil]).
  destruct (restored_ids (flatten order) c0 Hids) as (Hids1 & Hp1 & Hm1).
  assert (Hl : forall i, held <$> lines (m_cache_sets (fold_left restore (flatten order) c0)) i = saved <$> lines (m_cache_sets c) i).
  { intros i. rewrite restored_lines, He, lines_empty, (order_lines (m_cache_sets c)) by done. done. }
  split_and!; [| |done].
  - unfold deserialize. rewrite saved_lines. apply deserialize_lines, Forall_forall.
    intros e (s & (es & <- & Hs%list_elem_of_In)%in_map_iff & Hin%list_elem_of_In)%list_elem_of_In%in_concat. revert Hin. destruct es as [k ls].
    intros (l & -> & Hin)%list_elem_of_fmap. rewrite Hord in Hs. apply elem_of_map_to_list in Hs. exact (line_fits c k ls l Hc Hs Hin).
  - destruct Hc as [[j G] I]. rewrite Hp in *. split; [exists j; by rewrite Hp1|]. rewrite Hp1, Hm1, Hm. split.
    + intros i. destruct (Hids1 i). eapply restored_set; [apply (li_sets _ _ _ _ I i)|apply Hl|done|done].
    + by intros ? ? ? ?%elem_of_nil.
    + intros i l Hin Hr. apply (list_elem_of_fmap_2 held) in Hin. rewrite Hl in Hin.
      apply list_elem_of_fmap in Hin as (l0 & [= _ _ _ Hr'] & _). congruence.
    + constructor.
    + cbn. destruct G. lia.
Qed.

Lemma llc_checkpoint_roundtrip_witness :
  exists c1, deserialize (FileContents (serialize (map_to_list (m_cache_sets tiny5)))) tiny = Ok c1 /\ llc_ok c1 /\
    forall i, held <$> lines (m_cache_sets c1) i = saved <$> lines (m_cache_sets tiny5) i.
Proof.
  apply llc_checkpoint_roundtrip;
    [apply tiny5_ok|apply tiny_ok|by vm_compute..|reflexivity].
Defined.
