(* ===== verification/Frontend.v ===== *)
(** * Frontend: the frontend interface and the trace frontends

    Models [ramulator/frontend/i_frontend.h], [external.cpp] and the two
    file-driven frontends [loadstore_trace.cpp] and [readwrite_trace.cpp] of
    [ramulator/frontend/impl].  A trace file is read once, when the frontend
    is initialised; a tick sends the current line to the memory system. *)
From Stdlib Require Import Ascii.
From stdpp Require Import prelude gmap strings.
From S2P Require Import Prelude DramSpec Request BitUtils ChannelMapper MemSystem TraceFile.
Open Scope Z_scope.

(** What the simulation calls.  [fe_callback] is what the callbacks the
    frontend put into its requests do when the memory system calls them. *)
Class IFrontEnd (F M : Type) `{IMemorySystem M} := {
  fe_tick : F -> M -> res (F * M);
  fe_is_finished : F -> bool;
  fe_get_clock_ratio : F -> Z;
  fe_callback : F -> Request -> res F
}.

(** ** External *)
Record ExternalFrontEnd := mkExt { x_clock_ratio : Z }.

(** The caller of [receive_external_requests] owns the callback. *)
Definition receive_external_requests {M} `{IMemorySystem M} (m : M) (req_type_id a source_id : Z) (cb : option Z)
    (size : Z) : res (bool * list Request * M) :=
  let req := set_size (Request_src a req_type_id source_id cb) size in
  p ← mem_send m req;
  let '(ok, _, called, m) := p in
  Ok (ok, called, m).

#[export] Instance External_frontend {M} `{IMemorySystem M} : IFrontEnd ExternalFrontEnd M := {
  fe_tick f m := Ok (f, m);
  fe_is_finished _ := false;
  fe_get_clock_ratio := x_clock_ratio;
  fe_callback f _ := Ok f
}.

(** ** Traces that replay cyclically *)
(** The state the two trace frontends share: the entries with what makes the
    request of one. *)
Record TraceReplay (E : Type) := mkReplay {
  t_clock_ratio : Z;
  t_trace : list E;
  t_trace_length : Z;
  t_curr_trace_idx : Z;
  t_trace_count : Z
}.
Arguments mkReplay {_} _ _ _ _ _.
Arguments t_clock_ratio {_} _.
Arguments t_trace {_} _.
Arguments t_trace_length {_} _.
Arguments t_curr_trace_idx {_} _.
Arguments t_trace_count {_} _.

Definition replay_init {E} (clock_ratio : Z) (l : list E) : TraceReplay E :=
  mkReplay clock_ratio l (Z.of_nat (length l)) 0 0.

Section Replay.
Context {E M : Type} `{IMemorySystem M}.
Variable request_of : E -> Request.

Definition replay_tick (f : TraceReplay E) (m : M) : res (TraceReplay E * M) :=
  t ← vget (t_trace f) (t_curr_trace_idx f);
  let req := set_size (request_of t) (mem_get_tx_bytes m) in
  p ← mem_send m req;
  let '(sent, _, _, m) := p in
  if (sent : bool) then
    if t_trace_length f =? 0 then Err UndefinedBehaviour
    else
      Ok (mkReplay (t_clock_ratio f) (t_trace f) (t_trace_length f)
            ((t_curr_trace_idx f + 1) mod t_trace_length f) (t_trace_count f + 1), m)
  else Ok (f, m).

Definition replay_finished (f : TraceReplay E) : bool := t_trace_length f <=? t_trace_count f.

(** The requests have no callback. *)
Definition replay_frontend : IFrontEnd (TraceReplay E) M := {|
  fe_tick := replay_tick;
  fe_is_finished := replay_finished;
  fe_get_clock_ratio := t_clock_ratio;
  fe_callback f _ := Ok f
|}.
End Replay.

(** ** LoadStoreTrace *)
Record load_store := mkLS { ls_is_write : bool; ls_addr : Z }.

Definition ls_request (t : load_store) : Request :=
  Request_addr (ls_addr t) (if ls_is_write t then Type_Write else Type_Read).

Definition parse_addr (s : str) : res Z :=
  if bool_decide (take 2 s = ["0"; "x"]%char) || bool_decide (take 2 s = ["0"; "X"]%char)
  then stoll_base 16 (drop 2 s) else stoll s.

Definition LoadStore_line (line : str) : res load_store :=
  tokens ← tokenize [] line [" "%char];
  match tokens with
  | [op; a] =>
      is_write ← (if bool_decide (op = ["L"; "D"]%char) then Ok false
                  else if bool_decide (op = ["S"; "T"]%char) then Ok true
                  else Err (Throw "unknown type (expected LD or ST)"));
      a ← parse_addr a;
      Ok (mkLS is_write a)
  | _ => Err (Throw "expected 2 tokens")
  end.

Definition LoadStore_init (clock_ratio : Z) (f : file) : res (TraceReplay load_store) :=
  s ← open_trace f;
  l ← mapM LoadStore_line (getlines s);
  Ok (replay_init clock_ratio l).

#[export] Instance LoadStore_frontend {M} `{IMemorySystem M} : IFrontEnd (TraceReplay load_store) M :=
  replay_frontend ls_request.

(** ** ReadWriteTrace *)
Record read_write := mkRW { rw_is_write : bool; rw_addr_vec : list Z }.

Definition rw_request (t : read_write) : Request :=
  Request_vec (rw_addr_vec t) (if rw_is_write t then Type_Write else Type_Read).

(** [static_cast<int>] of a [long long]. *)
Definition parse_coord (s : str) : res Z := x ← stoll s; Ok (i32 x).

Definition ReadWrite_line (line : str) : res read_write :=
  tokens ← tokenize [] line [" "%char];
  match tokens with
  | [op; av] =>
      is_write ← (if bool_decide (op = ["R"]%char) then Ok false
                  else if bool_decide (op = ["W"]%char) then Ok true
                  else Err (Throw "unknown type (expected R or W)"));
      coords ← tokenize [] av [","%char];
      av ← mapM parse_coord coords;
      Ok (mkRW is_write av)
  | _ => Err (Throw "expected 2 tokens")
  end.

Definition ReadWrite_init (clock_ratio : Z) (f : file) : res (TraceReplay read_write) :=
  s ← open_trace f;
  l ← mapM ReadWrite_line (getlines s);
  Ok (replay_init clock_ratio l).

#[export] Instance ReadWrite_frontend {M} `{IMemorySystem M} : IFrontEnd (TraceReplay read_write) M :=
  replay_frontend rw_request.

(** ** The documented formats *)
Definition print_load_store (hex : bool) (t : load_store) : str :=
  join " "%char [if ls_is_write t then ["S"; "T"]%char else ["L"; "D"]%char;
                 if hex then print_hex (ls_addr t) else print_int (ls_addr t)].

Definition print_read_write (t : read_write) : str :=
  join " "%char [if rw_is_write t then ["W"]%char else ["R"]%char; join ","%char (map print_int (rw_addr_vec t))].

Lemma plain_join (l : list str) d : Forall (fun t => d ∉ t) l -> forall c, c <> d -> Forall (fun t => c ∉ t) l -> c ∉ join d l.
Proof.
  intros _ c Hc Hl. induction Hl as [|t l Ht Hl IH]; [apply not_elem_of_nil|]. destruct l as [|u l]; [done|].
  change (c ∉ t ++ d :: join d (u :: l)). rewrite not_elem_of_app, not_elem_of_cons. done.
Qed.

Lemma print_int_no_prefix c n : c = "x"%char \/ c = "X"%char -> take 2 (print_int n) <> ["0"%char; c].
Proof.
  intros Hc Ht. assert (Hin : c ∈ print_int n).
  { rewrite <- (take_drop 2 (print_int n)), Ht. apply elem_of_app. left. right. by left. }
  assert (Hd : c = "-"%char \/ is_Some (digit_in 10 c)).
  { unfold print_int in Hin. destruct (Z.ltb_spec n 0) as [Hn|Hn].
    - apply elem_of_cons in Hin as [->|Hin]; [by left|right].
      pose proof (print_digits 10 64 ltac:(lia) (- n) ltac:(lia)) as Hall. unfold all_digits in Hall.
      rewrite Forall_forall in Hall. by apply Hall.
    - right. pose proof (print_digits 10 64 ltac:(lia) n ltac:(lia)) as Hall. unfold all_digits in Hall.
      rewrite Forall_forall in Hall. by apply Hall. }
  destruct Hc as [-> | ->], Hd as [Hd|[? Hd]]; discriminate.
Qed.

Lemma LoadStore_line_print hex t :
  - 2 ^ 63 <= ls_addr t < 2 ^ 63 -> (hex = true -> 0 <= ls_addr t) ->
  LoadStore_line (print_load_store hex t) = Ok t /\ newline ∉ print_load_store hex t.
Proof.
  intros Ha Hh. destruct t as [w a]. cbn [ls_addr] in *.
  assert (Hp : plain (if hex then print_hex a else print_int a))
    by (destruct hex; [apply print_hex_plain; auto|apply print_int_plain]).
  assert (Hpa : parse_addr (if hex then print_hex a else print_int a) = Ok a).
  { unfold parse_addr. destruct hex; [rewrite stoll_hex by auto with lia; done|]. rewrite !bool_decide_eq_false_2.
    - apply sto_print_int; lia.
    - apply print_int_no_prefix. auto.
    - apply print_int_no_prefix. auto. }
  unfold LoadStore_line, print_load_store. cbn [ls_is_write ls_addr].
  generalize dependent (if hex then print_hex a else print_int a). intros s Hp Hpa.
  assert (Hop : forall c, c = " "%char \/ c = newline -> c ∉ (if w then ["S"; "T"]%char else ["L"; "D"]%char)).
  { intros c Hc. destruct w; rewrite !not_elem_of_cons; destruct Hc as [-> | ->]; split_and!; try done; apply not_elem_of_nil. }
  assert (Hf : forall c, c = " "%char \/ c = newline -> Forall (fun t => c ∉ t) [if w then ["S"; "T"]%char else ["L"; "D"]%char; s]).
  { intros c Hc. repeat constructor; [by apply Hop|]. apply plain_not_elem; tauto. }
  split.
  - rewrite tokenize_join by auto. cbn [mbind res_bind]. destruct w; cbn; by rewrite Hpa.
  - apply plain_join; auto.
Qed.

Lemma parse_coord_print x : - 2 ^ 31 <= x < 2 ^ 31 -> parse_coord (print_int x) = Ok x.
Proof.
  intros Hx. unfold parse_coord, stoll. rewrite sto_print_int by lia. cbn [mbind res_bind]. by rewrite i32_id by lia.
Qed.

Lemma ReadWrite_line_print t :
  rw_addr_vec t <> [] -> Forall (fun x => - 2 ^ 31 <= x < 2 ^ 31) (rw_addr_vec t) ->
  ReadWrite_line (print_read_write t) = Ok t /\ newline ∉ print_read_write t.
Proof.
  intros Hne Hr. destruct t as [w av]. cbn [rw_addr_vec] in *.
  assert (Hcs : forall c, c = " "%char \/ c = ","%char \/ c = newline -> Forall (fun t => c ∉ t) (map print_int av)).
  { intros c Hc. apply Forall_forall. intros x (y & -> & _)%list_elem_of_fmap. apply plain_not_elem; [apply print_int_plain|done]. }
  assert (Hop : forall c, c = " "%char \/ c = newline -> c ∉ (if w then ["W"]%char else ["R"]%char)).
  { intros c Hc. destruct w; rewrite !not_elem_of_cons; destruct Hc as [-> | ->]; split_and!; try done; apply not_elem_of_nil. }
  assert (Hf : forall c, c = " "%char \/ c = newline ->
            Forall (fun t => c ∉ t) [if w then ["W"]%char else ["R"]%char; join ","%char (map print_int av)]).
  { intros c Hc. repeat constructor; [by apply Hop|]. apply plain_join; [apply Hcs; tauto| |apply Hcs; tauto].
    by destruct Hc as [-> | ->]. }
  unfold ReadWrite_line, print_read_write. cbn [rw_is_write rw_addr_vec]. split; [|apply plain_join; auto].
  rewrite tokenize_join by auto. cbn [mbind res_bind].
  assert (Ht : tokenize [] (join ","%char (map print_int av)) [","%char] = Ok (map print_int av)).
  { apply tokenize_join; [by destruct av|apply Hcs; tauto]. }
  assert (Hm : mapM parse_coord (map print_int av) = Ok av).
  { clear -Hr. induction Hr as [|x av Hx _ IH]; [done|]. cbn -[parse_coord print_int].
    rewrite parse_coord_print by done. cbn [mbind res_bind]. by rewrite IH. }
  destruct w; cbn [bool_decide]; rewrite ?bool_decide_eq_true_2, ?bool_decide_eq_false_2 by done; cbn [mbind res_bind];
    rewrite ?Ht; cbn [mbind res_bind]; by rewrite ?Hm.
Qed.

Lemma mapM_map {A B C} (g : A -> B) (f : B -> res C) (h : A -> C) (l : list A) :
  (forall x, x ∈ l -> f (g x) = Ok (h x)) -> mapM f (map g l) = Ok (map h l).
Proof.
  induction l as [|x l IH]; intros Hf; [done|]. cbn. rewrite Hf by (by left). cbn. rewrite IH; [done|].
  intros y Hy. apply Hf. by right.
Qed.

(** A printed load and store trace is read back. *)
Lemma load_store_file ratio (l : list (bool * load_store)) :
  Forall (fun p => - 2 ^ 63 <= ls_addr p.2 < 2 ^ 63 /\ (p.1 = true -> 0 <= ls_addr p.2)) l ->
  LoadStore_init ratio (FileContents (print_lines (map (fun p => print_load_store p.1 p.2) l))) = Ok (replay_init ratio (map snd l)).
Proof.
  rewrite Forall_forall. intros Hl. unfold LoadStore_init. cbn [open_trace mbind res_bind].
  rewrite getlines_print, (mapM_map _ LoadStore_line snd); [done| |].
  - intros [h t] Hin. by apply LoadStore_line_print; apply (Hl _ Hin).
  - apply Forall_forall. intros s ([h t] & -> & Hin)%list_elem_of_fmap. by apply LoadStore_line_print; apply (Hl _ Hin).
Qed.

(** C37: The readers of load/store and read/write traces read back every trace written
    in the documented format, decimal or hexadecimal. *)
Theorem trace_files_roundtrip ratio (l : list (bool * load_store)) (k : list read_write) :
  Forall (fun p => - 2 ^ 63 <= ls_addr p.2 < 2 ^ 63 /\ (p.1 = true -> 0 <= ls_addr p.2)) l ->
  Forall (fun t => rw_addr_vec t <> [] /\ Forall (fun x => - 2 ^ 31 <= x < 2 ^ 31) (rw_addr_vec t)) k ->
  LoadStore_init ratio (FileContents (print_lines (map (fun p => print_load_store p.1 p.2) l))) =
    Ok (replay_init ratio (map snd l)) /\
  ReadWrite_init ratio (FileContents (print_lines (map print_read_write k))) = Ok (replay_init ratio k).
Proof.
  intros Hl. rewrite Forall_forall. intros Hk. split; [by apply load_store_file|]. unfold ReadWrite_init. cbn [open_trace mbind res_bind].
  rewrite getlines_print, (mapM_map _ ReadWrite_line id); [by rewrite map_id| |].
  - intros t Hin. by apply ReadWrite_line_print; apply (Hk _ Hin).
  - apply Forall_forall. intros s (t & -> & Hin)%list_elem_of_fmap. by apply ReadWrite_line_print; apply (Hk _ Hin).
Qed.

Lemma trace_files_roundtrip_witness :
  LoadStore_init 1 (FileContents (print_lines [["L"; "D"; " "; "0"; "x"; "1"; "2"; "3"; "4"; "0"];
                                               ["S"; "T"; " "; "4"; "0"; "9"; "6"]]%char)) =
    Ok (replay_init 1 [mkLS false 0x12340; mkLS true 4096]) /\
  ReadWrite_init 1 (FileContents (print_lines [["R"; " "; "0"; ","; "1"; ","; "2"]]%char)) =
    Ok (replay_init 1 [mkRW false [0; 1; 2]]).
Proof.
  refine (trace_files_roundtrip 1 [(true, mkLS false 0x12340); (false, mkLS true 4096)] [mkRW false [0; 1; 2]] _ _);
    rewrite !Forall_cons, Forall_nil; cbn [fst snd ls_addr rw_addr_vec]; split_and!; try done; try lia;
    rewrite !Forall_cons, Forall_nil; lia.
Defined.
