(* ===== verification/Core.v ===== *)
(** * Core: address translation and the SimpleO3 core

    Models [ramulator/translation] and the trace and core classes of
    [ramulator/frontend/impl/processor/simpleO3/core.h] and [core.cpp].
    The core shares the last-level cache with the other cores, so its tick
    takes and returns the cache. *)
From Stdlib Require Import Ascii.
From stdpp Require Import prelude gmap strings.
From S2P Require Import Prelude DramSpec Request BitUtils ChannelMapper MemSystem LLC InstWindow TraceFile.
Open Scope Z_scope.

(** ** Translation *)
(** [translate] changes the address in place and says whether it is ready. *)
Class ITranslation (T : Type) := { translate : T -> Request -> res (bool * Request) }.

Record NoTranslation := mkNT { nt_max_paddr : Z }.

(** [%] on [int64_t]: undefined for 0, and for the one overflowing quotient. *)
Definition rem64 (x y : Z) : res Z :=
  if (y =? 0) || ((x =? - 2 ^ 63) && (y =? -1)) then Err UndefinedBehaviour else Ok (Z.rem x y).

Definition NoTranslation_translate (t : NoTranslation) (req : Request) : res (bool * Request) :=
  a ← rem64 (addr req) (nt_max_paddr t);
  Ok (true, set_addr req a).

#[export] Instance NoTranslation_translation : ITranslation NoTranslation := { translate := NoTranslation_translate }.

(** ** The instruction trace *)
Record Inst := mkInst {
  bubble_count : Z;
  load_addr : Z;
  store_addr : Z
}.

Record Trace := mkTrace {
  tr_trace : list Inst;
  tr_trace_length : Z;
  tr_curr_trace_idx : Z
}.

Definition parse_inst (line : str) : res Inst :=
  tokens ← tokenize [] line [" "%char];
  let num_tokens := Z.of_nat (length tokens) in
  if negb (num_tokens =? 2) && negb (num_tokens =? 3) then Err (Throw "Trace format invalid!")
  else
    t0 ← token tokens 0;
    bubbles ← stoi t0;
    t1 ← token tokens 1;
    load ← stoll t1;
    if num_tokens =? 2 then Ok (mkInst bubbles load (-1))
    else
      t2 ← token tokens 2;
      st ← stoll t2;
      Ok (mkInst bubbles load st).

Definition Trace_new (f : file) : res Trace :=
  s ← open_trace f;
  l ← mapM parse_inst (getlines s);
  Ok (mkTrace l (Z.of_nat (length l)) 0).

(** Indexing beyond the end, and a remainder by 0, are undefined. *)
Definition get_next_inst (t : Trace) : res (Inst * Trace) :=
  i ← vget (tr_trace t) (tr_curr_trace_idx t);
  if tr_trace_length t =? 0 then Err UndefinedBehaviour
  else Ok (i, mkTrace (tr_trace t) (tr_trace_length t) ((tr_curr_trace_idx t + 1) mod tr_trace_length t)).

(** ** The core *)
Record SimpleO3Core := mkCore {
  o_id : Z;
  o_trace : Trace;
  o_window : InstWindow;
  o_num_bubbles : Z;
  o_load_addr : Z;
  o_writeback_addr : Z;
  o_num_expected_insts : Z;
  o_last_mem_cycle : Z;
  o_reached : bool;
  o_insts_retired : Z;
  o_cycles_recorded : Z;
  o_mem_access_cycles : Z
}.

Definition with_o_id (r : SimpleO3Core) (v : Z) : SimpleO3Core :=
  mkCore v (o_trace r) (o_window r) (o_num_bubbles r) (o_load_addr r) (o_writeback_addr r)
    (o_num_expected_insts r) (o_last_mem_cycle r) (o_reached r) (o_insts_retired r)
    (o_cycles_recorded r) (o_mem_access_cycles r).
Definition with_o_trace (r : SimpleO3Core) (v : Trace) : SimpleO3Core :=
  mkCore (o_id r) v (o_window r) (o_num_bubbles r) (o_load_addr r) (o_writeback_addr r)
    (o_num_expected_insts r) (o_last_mem_cycle r) (o_reached r) (o_insts_retired r)
    (o_cycles_recorded r) (o_mem_access_cycles r).
Definition with_o_window (r : SimpleO3Core) (v : InstWindow) : SimpleO3Core :=
  mkCore (o_id r) (o_trace r) v (o_num_bubbles r) (o_load_addr r) (o_writeback_addr r)
    (o_num_expected_insts r) (o_last_mem_cycle r) (o_reached r) (o_insts_retired r)
    (o_cycles_recorded r) (o_mem_access_cycles r).
Definition with_o_num_bubbles (r : SimpleO3Core) (v : Z) : SimpleO3Core :=
  mkCore (o_id r) (o_trace r) (o_window r) v (o_load_addr r) (o_writeback_addr r)
    (o_num_expected_insts r) (o_last_mem_cycle r) (o_reached r) (o_insts_retired r)
    (o_cycles_recorded r) (o_mem_access_cycles r).
Definition with_o_load_addr (r : SimpleO3Core) (v : Z) : SimpleO3Core :=
  mkCore (o_id r) (o_trace r) (o_window r) (o_num_bubbles r) v (o_writeback_addr r)
    (o_num_expected_insts r) (o_last_mem_cycle r) (o_reached r) (o_insts_retired r)
    (o_cycles_recorded r) (o_mem_access_cycles r).
Definition with_o_writeback_addr (r : SimpleO3Core) (v : Z) : SimpleO3Core :=
  mkCore (o_id r) (o_trace r) (o_window r) (o_num_bubbles r) (o_load_addr r) v
    (o_num_expected_insts r) (o_last_mem_cycle r) (o_reached r) (o_insts_retired r)
    (o_cycles_recorded r) (o_mem_access_cycles r).
Definition with_o_num_expected_insts (r : SimpleO3Core) (v : Z) : SimpleO3Core :=
  mkCore (o_id r) (o_trace r) (o_window r) (o_num_bubbles r) (o_load_addr r)
    (o_writeback_addr r) v (o_last_mem_cycle r) (o_reached r) (o_insts_retired r)
    (o_cycles_recorded r) (o_mem_access_cycles r).
Definition with_o_last_mem_cycle (r : SimpleO3Core) (v : Z) : SimpleO3Core :=
  mkCore (o_id r) (o_trace r) (o_window r) (o_num_bubbles r) (o_load_addr r)
    (o_writeback_addr r) (o_num_expected_insts r) v (o_reached r) (o_insts_retired r)
    (o_cycles_recorded r) (o_mem_access_cycles r).
Definition with_o_reached (r : SimpleO3Core) (v : bool) : SimpleO3Core :=
  mkCore (o_id r) (o_trace r) (o_window r) (o_num_bubbles r) (o_load_addr r)
    (o_writeback_addr r) (o_num_expected_insts r) (o_last_mem_cycle r) v (o_insts_retired r)
    (o_cycles_recorded r) (o_mem_access_cycles r).
Definition with_o_insts_retired (r : SimpleO3Core) (v : Z) : SimpleO3Core :=
  mkCore (o_id r) (o_trace r) (o_window r) (o_num_bubbles r) (o_load_addr r)
    (o_writeback_addr r) (o_num_expected_insts r) (o_last_mem_cycle r) (o_reached r) v
    (o_cycles_recorded r) (o_mem_access_cycles r).
Definition with_o_cycles_recorded (r : SimpleO3Core) (v : Z) : SimpleO3Core :=
  mkCore (o_id r) (o_trace r) (o_window r) (o_num_bubbles r) (o_load_addr r)
    (o_writeback_addr r) (o_num_expected_insts r) (o_last_mem_cycle r) (o_reached r)
    (o_insts_retired r) v (o_mem_access_cycles r).
Definition with_o_mem_access_cycles (r : SimpleO3Core) (v : Z) : SimpleO3Core :=
  mkCore (o_id r) (o_trace r) (o_window r) (o_num_bubbles r) (o_load_addr r)
    (o_writeback_addr r) (o_num_expected_insts r) (o_last_mem_cycle r) (o_reached r)
    (o_insts_retired r) (o_cycles_recorded r) v.

(** The next instruction of the trace becomes the current one. *)
Definition fetch_inst (o : SimpleO3Core) : res SimpleO3Core :=
  p ← get_next_inst (o_trace o);
  Ok (with_o_writeback_addr
        (with_o_load_addr
           (with_o_num_bubbles (with_o_trace o p.2) (bubble_count p.1)) (load_addr p.1)) (store_addr p.1)).

Definition SimpleO3Core_new (id ipc depth num_expected_insts : Z) (f : file) : res SimpleO3Core :=
  t ← Trace_new f;
  w ← InstWindow_new ipc depth;
  fetch_inst (mkCore id t w 0 (-1) (-1) (u64 num_expected_insts) 0 false 0 0 0).

(** The loop that issues the non-memory instructions: [None] when the tick
    ends here, and how many were inserted otherwise. *)
Fixpoint issue_bubbles (fuel : nat) (o : SimpleO3Core) (inserted : Z) : res (option Z * SimpleO3Core) :=
  if 0 <? o_num_bubbles o then
    match fuel with
    | O => Err UndefinedBehaviour
    | S fuel =>
        if inserted =? w_ipc (o_window o) then Ok (None, o)
        else if is_full (o_window o) then Ok (None, o)
        else
          w ← InstWindow_insert (o_window o) true (-1);
          issue_bubbles fuel (with_o_num_bubbles (with_o_window o w) (o_num_bubbles o - 1)) (inserted + 1)
    end
  else Ok (Some inserted, o).

Section Core.
Context {T : Type} `{ITranslation T}.
Variable tr : T.
(** All requests of a frontend carry the same callback. *)
Variable cb : Z.

(** The load: [true] when the tick goes on after it. *)
Definition issue_load (clk inserted : Z) (o : SimpleO3Core) (c : SimpleO3LLC)
  : res (bool * SimpleO3Core * SimpleO3LLC) :=
  if o_load_addr o =? -1 then Ok (true, o, c)
  else if inserted =? w_ipc (o_window o) then Ok (false, o, c)
  else if is_full (o_window o) then Ok (false, o, c)
  else
    p ← translate tr (Request_src (o_load_addr o) Type_Read (o_id o) (Some cb));
    let '(ready, req) := p in
    if negb ready then Ok (false, o, c)
    else
      q ← llc_send c clk req;
      let '(sent, req, c) := q in
      if (sent : bool) then
        w ← InstWindow_insert (o_window o) false (addr req);
        let o := with_o_load_addr (with_o_window o w) (-1) in
        Ok (o_writeback_addr o =? -1, o, c)
      else Ok (false, o, c).

Definition issue_store (clk : Z) (o : SimpleO3Core) (c : SimpleO3LLC) : res (bool * SimpleO3LLC) :=
  if o_writeback_addr o =? -1 then Ok (true, c)
  else
    p ← translate tr (Request_src (o_writeback_addr o) Type_Write (o_id o) (Some cb));
    let '(ready, req) := p in
    if negb ready then Ok (false, c)
    else
      q ← llc_send c clk req;
      let '(sent, _, c) := q in
      Ok (sent, c).

(** Retiring, and noting the cycle in which the last expected instruction
    retires. *)
Definition core_retire (clk : Z) (o : SimpleO3Core) : res SimpleO3Core :=
  p ← InstWindow_retire (o_window o);
  let o := with_o_insts_retired (with_o_window o p.2) (u64 (o_insts_retired o + p.1)) in
  Ok (if negb (o_reached o) && (o_num_expected_insts o <=? o_insts_retired o)
      then with_o_cycles_recorded (with_o_reached o true) (u64 clk) else o).

Definition SimpleO3Core_tick (clk : Z) (o : SimpleO3Core) (c : SimpleO3LLC) : res (SimpleO3Core * SimpleO3LLC) :=
  o ← core_retire clk o;
  p ← issue_bubbles (Z.to_nat (o_num_bubbles o)) o 0;
  match p with
  | (None, o) => Ok (o, c)
  | (Some inserted, o) =>
      q ← issue_load clk inserted o c;
      let '(go_on, o, c) := q in
      if negb go_on then Ok (o, c)
      else
        s ← issue_store clk o c;
        let '(sent, c) := s in
        if (sent : bool) then o ← fetch_inst o; Ok (o, c) else Ok (o, c)
  end.
End Core.

(** A request served for the core. *)
Definition SimpleO3Core_receive (o : SimpleO3Core) (req : Request) : res SimpleO3Core :=
  w ← InstWindow_set_ready (o_window o) (addr req);
  let o := with_o_window o w in
  Ok (if negb (arrive req =? -1) && (o_last_mem_cycle o <? depart req) && negb (o_reached o)
      then with_o_last_mem_cycle
             (with_o_mem_access_cycles o (o_mem_access_cycles o + (depart req - Z.max (o_last_mem_cycle o) (arrive req))))
             (depart req)
      else o).
