(* ===== verification/SimpleO3.v ===== *)
(** * SimpleO3: the processor frontend

    Models [ramulator/frontend/impl/processor/simpleO3/simpleO3.cpp]: the
    cores and the last-level cache they share, and the callback that returns
    data to them. *)
From Stdlib Require Import Ascii.
From stdpp Require Import prelude gmap strings.
From S2P Require Import Prelude DramSpec Request BitUtils ChannelMapper MemSystem LLC InstWindow TraceFile Frontend Core.
Open Scope Z_scope.

Record SimpleO3_config := mkO3Config {
  cfg_clock_ratio : Z;
  cfg_num_expected_insts : Z;
  cfg_traces : list file;
  cfg_ipc : option Z;
  cfg_inst_window_depth : option Z;
  cfg_llc_latency : option Z;
  cfg_llc_linesize : option Z;
  cfg_llc_associativity : option Z;
  cfg_llc_capacity_per_core : option str;
  cfg_llc_num_mshr_per_core : option Z
}.

Record SimpleO3 (T : Type) := mkO3 {
  f_clk : Z;
  f_clock_ratio : Z;
  f_translation : T;
  f_cores : list SimpleO3Core;
  f_llc : SimpleO3LLC
}.
Arguments mkO3 {_} _ _ _ _ _.
Arguments f_clk {_} _.
Arguments f_clock_ratio {_} _.
Arguments f_translation {_} _.
Arguments f_cores {_} _.
Arguments f_llc {_} _.

Definition with_f_cores {T} (f : SimpleO3 T) (l : list SimpleO3Core) : SimpleO3 T :=
  mkO3 (f_clk f) (f_clock_ratio f) (f_translation f) l (f_llc f).
Definition with_f_llc {T} (f : SimpleO3 T) (c : SimpleO3LLC) : SimpleO3 T :=
  mkO3 (f_clk f) (f_clock_ratio f) (f_translation f) (f_cores f) c.

Definition SimpleO3_init {T} (tr : T) (g : SimpleO3_config) : res (SimpleO3 T) :=
  let num_cores := Z.of_nat (length (cfg_traces g)) in
  cap ← parse_capacity_str (default ["2"; "M"; "B"]%char (cfg_llc_capacity_per_core g));
  size ← mul_int (i32 cap) num_cores;
  mshrs ← mul_int (default 16 (cfg_llc_num_mshr_per_core g)) num_cores;
  llc ← SimpleO3LLC_new (default 47 (cfg_llc_latency g)) size (default 64 (cfg_llc_linesize g))
          (default 8 (cfg_llc_associativity g)) mshrs;
  cores ← mapM (fun p => SimpleO3Core_new (Z.of_nat p.1) (default 4 (cfg_ipc g)) (default 128 (cfg_inst_window_depth g))
                           (cfg_num_expected_insts g) p.2)
            (imap pair (cfg_traces g));
  Ok (mkO3 0 (cfg_clock_ratio g) tr cores llc).

(** ** Returning data to the cores *)
Definition deliver (req : Request) (cores : list SimpleO3Core) (r : Request) : res (list SimpleO3Core) :=
  let r := set_depart (set_arrive r (arrive req)) (depart req) in
  o ← vget cores (source_id r);
  o ← SimpleO3Core_receive o r;
  vset cores (source_id r) o.

Definition SimpleO3_receive {T} (f : SimpleO3 T) (req : Request) : res (SimpleO3 T) :=
  c ← llc_receive (f_llc f) req;
  cores ← foldM (deliver req) (default [] (m_receive_requests c !! addr req)) (f_cores f);
  Ok (with_f_llc (with_f_cores f cores) (set_receivers c (addr req) [])).

(** ** The tick *)
(** The callback every core puts into its requests is [receive]; it has one
    number. *)
Definition receive_cb : Z := 0.

Section Tick.
Context {T M : Type} `{ITranslation T} `{IMemorySystem M}.

Definition core_tick_at (f : SimpleO3 T) (k : nat) : res (SimpleO3 T) :=
  o ← vget (f_cores f) (Z.of_nat k);
  p ← SimpleO3Core_tick (f_translation f) receive_cb (f_clk f) o (f_llc f);
  Ok (with_f_llc (with_f_cores f (<[k := p.1]> (f_cores f))) p.2).

Definition SimpleO3_tick (f : SimpleO3 T) (m : M) : res (SimpleO3 T * M) :=
  let f := mkO3 (f_clk f + 1) (f_clock_ratio f) (f_translation f) (f_cores f) (f_llc f) in
  p ← llc_tick f_llc with_f_llc SimpleO3_receive (f_clk f) f m;
  f ← foldM core_tick_at (seq 0 (length (f_cores p.1))) p.1;
  Ok (f, p.2).

Definition SimpleO3_is_finished (f : SimpleO3 T) : bool := forallb o_reached (f_cores f).

#[export] Instance SimpleO3_frontend : IFrontEnd (SimpleO3 T) M := {
  fe_tick := SimpleO3_tick;
  fe_is_finished := SimpleO3_is_finished;
  fe_get_clock_ratio := f_clock_ratio;
  fe_callback := SimpleO3_receive
}.
End Tick.
