(* ===== verification/SimpleO3Safety.v ===== *)
(** * SimpleO3Safety: the processor frontend never fails

    The invariant of the cores and their cache, kept by every tick and every
    callback on top of any memory system that accepts or refuses requests
    without failing, as long as the statistics counters of the cache, which
    are [int], have room: a round counts at most two accesses per core. *)
From stdpp Require Import prelude gmap strings.
From S2P Require Import Prelude DramSpec Request BitUtils ChannelMapper MemSystem LLC LlcInv LlcProps InstWindow TraceFile Frontend Core SimpleO3.
Open Scope Z_scope.

(** What the frontend needs of the translation. *)
Class TotalTranslation (T : Type) `{ITranslation T} := {
  tt_ok : T -> Prop;
  tt_translate : forall t req, tt_ok t -> in64 (addr req) ->
    exists ready req', translate t req = Ok (ready, req') /\ in64 (addr req') /\
      source_id req' = source_id req /\ callback req' = callback req
}.

#[export] Instance NoTranslation_total : TotalTranslation NoTranslation.
Proof.
  refine {| tt_ok t := 0 < nt_max_paddr t |}. intros [mx] req Hmx Ha. cbn in *. unfold NoTranslation_translate, rem64. cbn.
  destruct (Z.eqb_spec mx 0); [lia|]. destruct (Z.eqb_spec mx (-1)); [lia|]. rewrite andb_false_r. cbn.
  do 2 eexists. split; [done|]. cbn. unfold in64 in *. split_and!; try done.
  - pose proof (Z.rem_bound_abs (addr req) mx). pose proof (Z.rem_sign_mul (addr req) mx ltac:(lia)).
    destruct (Z.le_gt_cases 0 (addr req)); [pose proof (Z.rem_nonneg (addr req) mx); lia|].
    pose proof (Z.rem_le (- addr req) mx). rewrite Z.rem_opp_l in * by lia. lia.
  - destruct (Z.le_gt_cases 0 (addr req)); [pose proof (Z.rem_le (addr req) mx); lia|].
    pose proof (Z.rem_nonpos (addr req) mx). lia.
Defined.

(** ** The invariant *)
Section Invariant.
Variable n : nat.   (** the number of cores *)
Variable line : Z.  (** the line size *)

Definition from_core (r : Request) : Prop := 0 <= source_id r < Z.of_nat n.

Record trace_ok (t : Trace) : Prop := mkTraceOk {
  to_len : tr_trace_length t = Z.of_nat (length (tr_trace t));
  to_idx : 0 <= tr_curr_trace_idx t < tr_trace_length t;
  to_addr : Forall (fun i => in64 (load_addr i) /\ in64 (store_addr i)) (tr_trace t)
}.

Record core_ok (o : SimpleO3Core) : Prop := mkCoreOk {
  co_id : 0 <= o_id o < Z.of_nat n;
  co_trace : trace_ok (o_trace o);
  co_window : window_ok (o_window o);
  co_load : in64 (o_load_addr o);
  co_store : in64 (o_writeback_addr o)
}.

Definition queues_ok (c : SimpleO3LLC) : Prop :=
  line_bytes (c_params c) = line /\
  Forall (fun p => in64 (addr p.2) /\ size_bytes p.2 = line) (m_miss_list c) /\
  Forall (fun p => in64 (addr p.2) /\ from_core p.2 /\ is_Some (callback p.2)) (m_hit_list c) /\
  map_Forall (fun _ l => Forall from_core l) (m_receive_requests c).

(** No statistics counter of the cache is above a bound. *)
Definition counts_le (k : Z) (c : SimpleO3LLC) : Prop := Forall (fun x => 0 <= x <= k) (counters (c_counts c)).

Definition cache_ok (k : Z) (c : SimpleO3LLC) : Prop := llc_ok c /\ queues_ok c /\ counts_le k c.

Record o3_ok {T} (k : Z) (f : SimpleO3 T) : Prop := mkO3Ok {
  oo_llc : cache_ok k (f_llc f);
  oo_num : length (f_cores f) = n;
  oo_cores : Forall core_ok (f_cores f)
}.

Lemma cache_mono k k' c : k <= k' -> cache_ok k c -> cache_ok k' c.
Proof. intros Hk (H1 & H2 & H3). split_and!; [done|done|]. eapply Forall_impl; [exact H3|]. cbn. lia. Qed.

Lemma o3_mono {T} k k' (f : SimpleO3 T) : k <= k' -> o3_ok k f -> o3_ok k' f.
Proof. intros Hk []. split; [by eapply cache_mono|done|done]. Qed.

Lemma receivers_default c a : queues_ok c -> Forall from_core (default [] (m_receive_requests c !! a)).
Proof. intros (_&_&_&Hr). destruct (m_receive_requests c !! a) as [l|] eqn:Ha; [|constructor]. by apply (Hr a). Qed.

(** ** The cache *)
Lemma fetch_source req : source_id (fetch_of req) = source_id req.
Proof. unfold fetch_of. by destruct (_ =? _). Qed.

Lemma outcome_queues c clk req r :
  llc_ok c -> queues_ok c -> in64 (addr req) -> from_core req -> is_Some (callback req) -> llc_outcome c clk req r ->
  queues_ok r.2 /\ addr r.1.2 = addr req.
Proof.
  intros [[j G] I] Hq Ha Hs Hcb Hout. pose proof (receivers_default c) as Hrec. destruct Hq as (Hline & Hm & Hh & Hr).
  assert (Hrec' : forall a, Forall from_core (default [] (m_receive_requests c !! a))) by (intros; by apply Hrec).
  assert (Hf : from_core (fetch_of req)) by (unfold from_core; by rewrite fetch_source).
  destruct Hout as [l counts _ Hl Hlr Ht|a k counts _ He Hb|counts _ Hnm Hfull|s written counts _ Hnt Hnm Hlen Hcase]; cbn [snd fst];
    (split; [|first [done | by rewrite addr_fetch | exact (addr_fetch req)]]); unfold queues_ok; cbn; split_and!; try done.
  - apply Forall_app. split; [done|]. by apply Forall_singleton.
  - apply map_Forall_insert_2; [|done]. apply Forall_app. split; [done|]. by apply Forall_singleton.
  - rewrite !Forall_app. split_and!; [done| |].
    + destruct Hcase as [(_ & _ & ->)|(v & o & w & Hset & _ & _ & _ & _ & ->)]; [constructor|].
      destruct (l_dirty v); [|constructor]. apply Forall_singleton. split; [|done]. cbn.
      assert (Hv : v ∈ lines (m_cache_sets c) (index_of (c_params c) (addr req))).
      { fold (the_set c (addr req)). rewrite Hset. apply elem_of_app. right. by left. }
      by destruct (so_line _ _ _ _ (li_sets _ _ _ _ I _) v Hv) as (? & _).
    + apply Forall_singleton. split; [|done]. cbn. by rewrite addr_fetch.
  - apply map_Forall_insert_2; [|done]. by apply Forall_singleton.
Qed.

Lemma counts_le_step k st st' :
  counts_step st st' -> Forall (fun x => 0 <= x <= k) (counters st) -> Forall (fun x => 0 <= x <= k + 1) (counters st').
Proof. unfold counts_step. induction 1 as [|x y l l' Hxy _ IH]; intros Hl; [constructor|]. apply Forall_cons in Hl as [? ?]. constructor; [lia|by apply IH]. Qed.

(** A counter that is not at the largest [int] can count the request. *)
Lemma cache_send k c clk req :
  k < 2 ^ 31 - 1 -> cache_ok k c -> in64 (addr req) -> from_core req -> is_Some (callback req) ->
  exists ok req' c', llc_send c clk req = Ok (ok, req', c') /\ cache_ok (k + 1) c' /\ addr req' = addr req.
Proof.
  intros Hk (Hc & Hq & Hn) Ha Hs Hcb. pose proof (llc_send_ends c clk req Hc Ha) as Hsend.
  destruct (llc_send c clk req) as [[[ok req'] c']|e].
  - destruct Hsend as [Hout Hok']. destruct (outcome_queues c clk req _ Hc Hq Ha Hs Hcb Hout) as [Hq' Haddr].
    exists ok, req', c'. split; [done|]. split; [|done]. split; [done|]. split; [done|]. exact (counts_le_step _ _ _ (outcome_counts _ _ _ _ Hout) Hn).
  - destruct Hsend as [_ Hroom]. destruct Hroom. eapply Forall_impl; [exact Hn|]. cbn. lia.
Qed.

Lemma cache_receive k c req :
  cache_ok k c -> in64 (addr req) -> exists c', llc_receive c req = Ok c' /\ cache_ok k c'.
Proof.
  intros (Hc & Hq & Hn) Ha. destruct (llc_receive_ok c req Hc Ha) as (c' & Hr & Hok & Hp & _ & Hm & Hh & Hrec & Hk).
  exists c'. split; [done|]. split; [done|]. unfold queues_ok, counts_le. by rewrite Hp, Hm, Hh, Hrec, Hk.
Qed.

(** ** The cores *)
Lemma core_ok_window o w : core_ok o -> window_ok w -> core_ok (with_o_window o w).
Proof. by intros [] ?. Qed.

Lemma fetch_ok o : core_ok o -> exists o', fetch_inst o = Ok o' /\ core_ok o'.
Proof.
  intros [Hid [Hlen Hidx Hadr] Hw Hl Hs]. unfold fetch_inst, get_next_inst.
  destruct (lookup_lt_is_Some_2 (tr_trace (o_trace o)) (Z.to_nat (tr_curr_trace_idx (o_trace o)))) as [i Hi]; [lia|].
  rewrite <- (Z2Nat.id (tr_curr_trace_idx (o_trace o))) by lia. rewrite (proj2 (vget_nat _ _ _) Hi). cbn [mbind res_bind].
  destruct (Z.eqb_spec (tr_trace_length (o_trace o)) 0); [lia|]. cbn [mbind res_bind fst snd]. eexists. split; [done|].
  rewrite Forall_forall in Hadr. destruct (Hadr i) as [Hl' Hs']; [by apply list_elem_of_lookup_2 in Hi|].
  split; cbn; try done. split; cbn; [done| |by apply Forall_forall]. apply Z.mod_pos_bound. lia.
Qed.

Lemma bubbles_ok fuel : forall o k,
  core_ok o -> o_num_bubbles o <= Z.of_nat fuel -> exists r o', issue_bubbles fuel o k = Ok (r, o') /\ core_ok o'.
Proof.
  induction fuel as [|fuel IH]; intros o k Ho Hf; cbn [issue_bubbles].
  { destruct (Z.ltb_spec 0 (o_num_bubbles o)); [lia|]. eauto. }
  destruct (Z.ltb_spec 0 (o_num_bubbles o)); [|eauto]. destruct (_ =? _); [eauto|].
  destruct (is_full (o_window o)) eqn:Hfull; [eauto|].
  destruct (insert_entries (o_window o) true (-1) (co_window o Ho) Hfull) as (w & -> & Hw & _). cbn [mbind res_bind].
  apply IH; [|cbn; lia]. destruct Ho. by split.
Qed.

Lemma core_retire_ok clk o : core_ok o -> exists o', core_retire clk o = Ok o' /\ core_ok o'.
Proof.
  intros Ho. unfold core_retire. destruct (retire_entries (o_window o) (co_window o Ho)) as (w & -> & Hw & _).
  cbn [mbind res_bind fst snd]. eexists. split; [done|]. destruct Ho. by destruct (negb _ && _).
Qed.

Lemma core_receive_ok o r : core_ok o -> exists o', SimpleO3Core_receive o r = Ok o' /\ core_ok o'.
Proof.
  intros Ho. unfold SimpleO3Core_receive. destruct (set_ready_entries (o_window o) (addr r) (co_window o Ho)) as (w & -> & Hw & _).
  cbn [mbind res_bind]. eexists. split; [done|]. destruct Ho. by destruct (negb _ && _ && _).
Qed.

Section Translated.
Context {T : Type} `{TotalTranslation T}.
Variable tr : T.
Hypothesis Htr : tt_ok tr.

Lemma load_ok clk i k o c :
  k < 2 ^ 31 - 1 -> core_ok o -> cache_ok k c ->
  exists b o' c', issue_load tr receive_cb clk i o c = Ok (b, o', c') /\ core_ok o' /\ cache_ok (k + 1) c'.
Proof using Htr.
  intros Hk Ho Hc. pose proof (cache_mono k (k + 1) c ltac:(lia) Hc) as Hc1.
  unfold issue_load. destruct (_ =? -1); [eauto 6|]. destruct (_ =? _); [eauto 6|].
  destruct (is_full (o_window o)) eqn:Hfull; [eauto 6|].
  destruct (tt_translate tr (Request_src (o_load_addr o) Type_Read (o_id o) (Some receive_cb)) Htr (co_load o Ho))
    as (ready & req & -> & Ha & Hs & Hcb). cbn [mbind res_bind]. destruct ready; cbn [negb]; [|eauto 6].
  destruct (cache_send k c clk req Hk Hc Ha) as (ok & req' & c' & -> & Hc' & _);
    [unfold from_core; rewrite Hs; apply Ho|by rewrite Hcb; eauto|]. cbn [mbind res_bind]. destruct ok; [|eauto 6].
  destruct (insert_entries (o_window o) false (addr req') (co_window o Ho) Hfull) as (w & -> & Hw & _).
  cbn [mbind res_bind]. do 3 eexists. split; [done|]. split; [|done]. destruct Ho. by split.
Qed.

Lemma store_ok clk k o c :
  k < 2 ^ 31 - 1 -> core_ok o -> cache_ok k c -> exists b c', issue_store tr receive_cb clk o c = Ok (b, c') /\ cache_ok (k + 1) c'.
Proof using Htr.
  intros Hk Ho Hc. pose proof (cache_mono k (k + 1) c ltac:(lia) Hc) as Hc1. unfold issue_store. destruct (_ =? -1); [eauto|].
  destruct (tt_translate tr (Request_src (o_writeback_addr o) Type_Write (o_id o) (Some receive_cb)) Htr (co_store o Ho))
    as (ready & req & -> & Ha & Hs & Hcb). cbn [mbind res_bind]. destruct ready; cbn [negb]; [|eauto].
  destruct (cache_send k c clk req Hk Hc Ha) as (ok & req' & c' & -> & Hc' & _);
    [unfold from_core; rewrite Hs; apply Ho|by rewrite Hcb; eauto|]. cbn [mbind res_bind]. eauto.
Qed.

Lemma core_tick_ok clk k o c :
  k + 2 <= 2 ^ 31 - 1 -> core_ok o -> cache_ok k c ->
  exists o' c', SimpleO3Core_tick tr receive_cb clk o c = Ok (o', c') /\ core_ok o' /\ cache_ok (k + 2) c'.
Proof using Htr.
  intros Hk Ho Hc. unfold SimpleO3Core_tick. destruct (core_retire_ok clk o Ho) as (o1 & -> & Ho1). cbn [mbind res_bind].
  destruct (bubbles_ok (Z.to_nat (o_num_bubbles o1)) o1 0 Ho1 ltac:(lia)) as (i & o2 & -> & Ho2). cbn [mbind res_bind].
  destruct i as [i|]; [|exists o2, c; split_and!; [done|done|by apply (cache_mono k); [lia|]]].
  destruct (load_ok clk i k o2 c ltac:(lia) Ho2 Hc) as (b & o3 & c3 & -> & Ho3 & Hc3). cbn [mbind res_bind].
  destruct b; cbn [negb]; [|exists o3, c3; split_and!; [done|done|by apply (cache_mono (k + 1)); [lia|]]].
  destruct (store_ok clk (k + 1) o3 c3 ltac:(lia) Ho3 Hc3) as (b & c4 & -> & Hc4). cbn [mbind res_bind].
  replace (k + 1 + 1) with (k + 2) in Hc4 by lia.
  destruct b; [|eauto]. destruct (fetch_ok o3 Ho3) as (o4 & -> & Ho4). cbn. eauto.
Qed.
End Translated.

(** ** The frontend *)
Lemma deliver_ok req cores r :
  length cores = n -> Forall core_ok cores -> from_core r ->
  exists cores', deliver req cores r = Ok cores' /\ length cores' = n /\ Forall core_ok cores'.
Proof.
  intros Hn Hc Hr. unfold deliver. cbn [source_id set_depart set_arrive].
  destruct (lookup_lt_is_Some_2 cores (Z.to_nat (source_id r))) as [o Ho]; [unfold from_core in Hr; lia|].
  rewrite <- (Z2Nat.id (source_id r)) by apply Hr. rewrite (proj2 (vget_nat _ _ _) Ho). cbn [mbind res_bind].
  destruct (core_receive_ok o (set_depart (set_arrive r (arrive req)) (depart req))) as (o' & Hrec & Ho');
    [by apply (Forall_lookup_1 _ _ _ _ Hc Ho)|].
  match goal with |- context [SimpleO3Core_receive o ?x] =>
    change x with (set_depart (set_arrive r (arrive req)) (depart req)) end.
  rewrite Hrec. cbn [mbind res_bind]. apply lookup_lt_Some in Ho.
  exists (<[Z.to_nat (source_id r) := o']> cores). split_and!.
  - apply vset_Ok. rewrite Nat2Z.id. split; [lia|done].
  - by rewrite length_insert.
  - by apply Forall_insert.
Qed.

Lemma receive_ok {T} k (f : SimpleO3 T) req :
  o3_ok k f -> in64 (addr req) ->
  exists f', SimpleO3_receive f req = Ok f' /\ o3_ok k f' /\ f_translation f' = f_translation f /\
    m_miss_list (f_llc f') = m_miss_list (f_llc f) /\ m_hit_list (f_llc f') = m_hit_list (f_llc f) /\
    f_clk f' = f_clk f.
Proof.
  intros [Hc Hn Hcores] Ha. unfold SimpleO3_receive.
  destruct (llc_receive_ok (f_llc f) req (proj1 Hc) Ha) as (c1 & Hrec & _ & _ & _ & Hm & Hh & _ & _).
  destruct (cache_receive k (f_llc f) req Hc Ha) as (c' & Hrec' & Hc'). assert (c1 = c') as -> by congruence.
  rewrite Hrec. cbn [mbind res_bind].
  pose proof (receivers_default c' (addr req) (proj1 (proj2 Hc'))) as Hrs.
  assert (Hfold : forall l cores, length cores = n -> Forall core_ok cores -> Forall from_core l ->
            exists cores', foldM (deliver req) l cores = Ok cores' /\ length cores' = n /\ Forall core_ok cores').
  { induction l as [|r l IH]; intros cores H1 H2 H3; [by exists cores|]. apply Forall_cons in H3 as [Hr H3].
    destruct (deliver_ok req cores r H1 H2 Hr) as (cores1 & Hd & H4 & H5). cbn [foldM]. rewrite Hd. by apply IH. }
  destruct (Hfold _ _ Hn Hcores Hrs) as (cores' & -> & Hn' & Hcores'). cbn [mbind res_bind].
  eexists. split; [done|]. split_and!; try done. split; cbn; [|done|done].
  destruct Hc' as (Hok & (Hl & Hm1 & Hh1 & Hr1) & Hn1). split; [exact Hok|]. split; [|exact Hn1]. split_and!; try done.
  apply map_Forall_insert_2; [constructor|done].
Qed.

(** A state that differs from a good one in its two queues only. *)
Lemma o3_set_misses {T} k (f : SimpleO3 T) l :
  o3_ok k f -> Forall (fun p => in64 (addr p.2) /\ size_bytes p.2 = line) l -> o3_ok k (set_misses f_llc with_f_llc f l).
Proof. intros [(Hc & (H1 & H2 & H3 & H4) & H5) Hn Hcores] Hl. by split. Qed.

Lemma o3_set_hits {T} k (f : SimpleO3 T) l :
  o3_ok k f -> Forall (fun p => in64 (addr p.2) /\ from_core p.2 /\ is_Some (callback p.2)) l ->
  o3_ok k (set_hits f_llc with_f_llc f l).
Proof. intros [(Hc & (H1 & H2 & H3 & H4) & H5) Hn Hcores] Hl. by split. Qed.

Lemma o3_set_receivers {T} k (f : SimpleO3 T) a r :
  o3_ok k f -> from_core r -> o3_ok k (with_f_llc f (set_receivers (f_llc f) a [r])).
Proof.
  intros [(Hc & (H1 & H2 & H3 & H4) & H5) Hn Hcores] Hr. split; [|done|done]. split; [exact Hc|]. split; [|exact H5]. split_and!; try done.
  apply map_Forall_insert_2; [by apply Forall_singleton|done].
Qed.

Lemma callbacks_ok {T} k (l : list Request) : forall f : SimpleO3 T,
  o3_ok k f -> Forall (fun r => in64 (addr r)) l ->
  exists f', foldM SimpleO3_receive l f = Ok f' /\ o3_ok k f' /\ f_translation f' = f_translation f.
Proof.
  induction l as [|r l IH]; intros f Hf Hl; [by exists f|]. apply Forall_cons in Hl as [Hr Hl].
  destruct (receive_ok k f r Hf Hr) as (f1 & Hrec & Hf1 & Ht1 & _). cbn [foldM]. rewrite Hrec. cbn [mbind res_bind].
  destruct (IH f1 Hf1 Hl) as (f' & -> & Hf' & Ht'). exists f'. split_and!; try done. exact (eq_trans Ht' Ht1).
Qed.

Section Ticks.
Context {T M : Type} `{TotalTranslation T} `{!IMemorySystem M} `{!TotalMemory M line}.

Lemma miss_loop_ok k clk l : forall kept (f : SimpleO3 T) (m : M),
  o3_ok k f -> tm_ok m ->
  Forall (fun p => in64 (addr p.2) /\ size_bytes p.2 = line) (kept ++ l) ->
  exists f' m', miss_loop f_llc with_f_llc SimpleO3_receive clk kept l f m = Ok (f', m') /\ o3_ok k f' /\ tm_ok m' /\
    f_translation f' = f_translation f.
Proof.
  induction l as [|[t req] l IH]; intros kept f m Hf Hm Hl; [by exists f, m|]. cbn [miss_loop].
  pose proof Hl as Hl0. apply Forall_app in Hl as [Hk [[Ha Hsz] Hl]%Forall_cons]. destruct (Z.leb_spec t clk).
  2: { apply (IH (kept ++ [(t, req)])); try done. by rewrite <- app_assoc. }
  destruct (tm_send m req Hm Ha Hsz) as (ok & req' & cbs & m' & -> & Hm' & Hadr & Hsize & Hcbs). cbn [mbind res_bind].
  destruct (callbacks_ok k cbs f Hf Hcbs) as (f1 & -> & Hf1 & Ht1). cbn [mbind res_bind].
  assert (Hkeep : in64 (addr req') /\ size_bytes req' = line) by (rewrite Hadr, Hsize; done).
  destruct ok.
  - destruct (IH kept (set_misses f_llc with_f_llc f1 (kept ++ l)) m') as (f' & m2 & Hgo & Hf' & Hm2 & Ht');
      [apply o3_set_misses; [done|by apply Forall_app]|done|by apply Forall_app|].
    exists f', m2. split_and!; try done. exact (eq_trans Ht' Ht1).
  - destruct (IH (kept ++ [(t, req')]) (set_misses f_llc with_f_llc f1 (kept ++ (t, req') :: l)) m') as (f' & m2 & Hgo & Hf' & Hm2 & Ht');
      [apply o3_set_misses; [done|]|done| |].
    + apply Forall_app. split; [done|]. by apply Forall_cons.
    + rewrite <- app_assoc. apply Forall_app. split; [done|]. by apply Forall_cons.
    + exists f', m2. split_and!; try done. exact (eq_trans Ht' Ht1).
Qed.

Lemma hit_loop_ok k clk l : forall kept (f : SimpleO3 T),
  o3_ok k f -> Forall (fun p => in64 (addr p.2) /\ from_core p.2 /\ is_Some (callback p.2)) (kept ++ l) ->
  exists f', hit_loop f_llc with_f_llc SimpleO3_receive clk kept l f = Ok f' /\ o3_ok k f' /\ f_translation f' = f_translation f.
Proof.
  induction l as [|[t req] l IH]; intros kept f Hf Hl; [by exists f|]. cbn [hit_loop].
  pose proof Hl as Hl0. apply Forall_app in Hl as [Hk [(Ha & Hs & cb & Hcb) Hl]%Forall_cons]. destruct (Z.leb_spec t clk).
  2: { apply (IH (kept ++ [(t, req)])); [done|]. by rewrite <- app_assoc. }
  cbn [snd] in *. rewrite Hcb. destruct (receive_ok k _ req (o3_set_receivers k f (addr req) req Hf Hs) Ha) as (f1 & -> & Hf1 & Ht1 & _).
  cbn [mbind res_bind]. destruct (IH kept (set_hits f_llc with_f_llc f1 (kept ++ l))) as (f' & Hgo & Hf' & Ht');
    [apply o3_set_hits; [done|by apply Forall_app]|by apply Forall_app|].
  exists f'. split_and!; try done. exact (eq_trans Ht' Ht1).
Qed.

Lemma core_tick_at_ok k (f : SimpleO3 T) i :
  k + 2 <= 2 ^ 31 - 1 -> o3_ok k f -> tt_ok (f_translation f) -> (i < n)%nat ->
  exists f', core_tick_at f i = Ok f' /\ o3_ok (k + 2) f' /\ f_translation f' = f_translation f.
Proof.
  intros Hk [Hc Hn Hcores] Ht Hi. unfold core_tick_at.
  destruct (lookup_lt_is_Some_2 (f_cores f) i) as [o Ho]; [lia|]. rewrite (proj2 (vget_nat _ _ _) Ho). cbn [mbind res_bind].
  destruct (core_tick_ok (f_translation f) Ht (f_clk f) k o (f_llc f)) as (o' & c' & -> & Ho' & Hc');
    [done|by apply (Forall_lookup_1 _ _ _ _ Hcores Ho)|done|]. cbn [mbind res_bind fst snd].
  eexists. split; [done|]. split; [|done]. split; cbn; [done|by rewrite length_insert|by apply Forall_insert].
Qed.

(** The cores tick one after the other; each counts two accesses at most. *)
Lemma cores_tick_ok tr l : forall k (f : SimpleO3 T),
  tt_ok tr -> k + 2 * Z.of_nat (length l) <= 2 ^ 31 - 1 -> o3_ok k f -> f_translation f = tr -> Forall (fun i => (i < n)%nat) l ->
  exists f', foldM core_tick_at l f = Ok f' /\ o3_ok (k + 2 * Z.of_nat (length l)) f' /\ f_translation f' = tr.
Proof.
  induction l as [|i l IH]; intros k f Ht Hk Hf Htf Hl.
  { exists f. split_and!; [done|by apply (o3_mono k); [cbn; lia|]|done]. }
  apply Forall_cons in Hl as [Hi Hl]. cbn [length] in Hk.
  destruct (core_tick_at_ok k f i) as (f1 & Hf1 & Ho1 & Ht1); [lia|done|by rewrite Htf|done|].
  cbn [foldM]. rewrite Hf1. cbn [mbind res_bind].
  destruct (IH (k + 2) f1 Ht) as (f' & Hgo & Ho' & Ht'); [lia|done|congruence|done|]. exists f'. split_and!; [done| |done].
  cbn [length]. by replace (k + 2 * Z.of_nat (S (length l))) with (k + 2 + 2 * Z.of_nat (length l)) by lia.
Qed.

Lemma o3_llc_tick_ok k clk (f : SimpleO3 T) (m : M) :
  o3_ok k f -> tm_ok m ->
  exists f' m', llc_tick f_llc with_f_llc SimpleO3_receive clk f m = Ok (f', m') /\ o3_ok k f' /\ tm_ok m' /\
    f_translation f' = f_translation f.
Proof.
  intros Hf Hm. unfold llc_tick.
  destruct (miss_loop_ok k clk (m_miss_list (f_llc f)) [] f m Hf Hm) as (f1 & m1 & -> & Hf1 & Hm1 & Ht1); [apply Hf|].
  cbn [mbind res_bind fst snd].
  destruct (hit_loop_ok k clk (m_hit_list (f_llc f1)) [] f1 Hf1) as (f2 & -> & Hf2 & Ht2); [apply Hf1|].
  exists f2, m1. split_and!; try done. exact (eq_trans Ht2 Ht1).
Qed.

Lemma o3_tick_ok k (f : SimpleO3 T) (m : M) :
  k + 2 * Z.of_nat n <= 2 ^ 31 - 1 -> o3_ok k f -> tt_ok (f_translation f) -> tm_ok m ->
  exists f' m', SimpleO3_tick f m = Ok (f', m') /\ o3_ok (k + 2 * Z.of_nat n) f' /\ tm_ok m' /\ f_translation f' = f_translation f.
Proof.
  intros Hk Hf Ht Hm. unfold SimpleO3_tick.
  set (f0 := mkO3 (f_clk f + 1) (f_clock_ratio f) (f_translation f) (f_cores f) (f_llc f)).
  assert (Hf0 : o3_ok k f0) by (destruct Hf; by split).
  destruct (o3_llc_tick_ok k (f_clk f0) f0 m Hf0 Hm) as (f2 & m1 & -> & Hf2 & Hm1 & Ht2). cbn [mbind res_bind fst snd].
  pose proof (oo_num _ f2 Hf2) as Hn.
  destruct (cores_tick_ok (f_translation f) (seq 0 (length (f_cores f2))) k f2 Ht) as (f3 & -> & Hf3 & Ht3);
    [by rewrite length_seq, Hn|done|exact Ht2| |].
  - apply Forall_forall. intros i Hi%elem_of_seq. lia.
  - rewrite length_seq, Hn in Hf3. exists f3, m1. by split_and!.
Qed.
End Ticks.

(** ** The cache of the frontend *)
(** What the frontend does to its cache is a run of [LlcProps]: its tick is
    the tick of the cache and requests of the cores, its callback a response
    after which the receivers are gone. *)
Section CacheRun.
Context {T M : Type} `{TotalTranslation T} `{!IMemorySystem M} `{!TotalMemory M line} (c0 : SimpleO3LLC).
Local Abbreviation runs c := (exists h, llc_run M line c0 h c).

Lemma receive_run (f : SimpleO3 T) req f' :
  SimpleO3_receive f req = Ok f' -> llc_callback (f_llc f) req = Ok (f_llc f').
Proof.
  unfold SimpleO3_receive, llc_callback. intros (c & Hc & H1)%bind_Ok_inv.
  apply bind_Ok_inv in H1 as (cores & _ & [= <-]). by rewrite Hc.
Qed.

Lemma llc_tick_run clk (f : SimpleO3 T) (m : M) f' m' :
  llc_tick f_llc with_f_llc SimpleO3_receive clk f m = Ok (f', m') -> cache_tick clk (f_llc f) m = Ok (f_llc f', m').
Proof. apply tick_project; [done|]. intros f1 req f2. apply receive_run. Qed.

Lemma load_run tr clk i o c b o' c' :
  tt_ok tr -> core_ok o -> issue_load tr receive_cb clk i o c = Ok (b, o', c') ->
  o_writeback_addr o' = o_writeback_addr o /\ (runs c -> runs c').
Proof.
  intros Htr Ho Hl. unfold issue_load in Hl. repeat (dcase Hl; [by injection Hl as _ <- <-|]).
  apply bind_Ok_inv in Hl as ([ready req] & Ht & Hl). destruct (tt_translate tr (Request_src (o_load_addr o) Type_Read (o_id o) (Some receive_cb)) Htr (co_load o Ho)) as (ready' & req' & Ht' & Ha & _ & _).
  rewrite Ht in Ht'. injection Ht' as <- <-.
  dcase Hl; [by injection Hl as _ <- <-|]. apply bind_Ok_inv in Hl as ([[ok r] c1] & Hs & Hl).
  assert (Hrun : runs c -> runs c1) by (intros [h Hr]; eexists; by eapply run_send).
  destruct ok; [apply bind_Ok_inv in Hl as (w & _ & [= _ <- <-])|injection Hl as _ <- <-]; done.
Qed.

Lemma store_run tr clk o c b c' :
  tt_ok tr -> in64 (o_writeback_addr o) -> issue_store tr receive_cb clk o c = Ok (b, c') -> runs c -> runs c'.
Proof.
  intros Htr Ho Hl [h Hr]. unfold issue_store in Hl. dcase Hl; [injection Hl as _ <-; by exists h|].
  apply bind_Ok_inv in Hl as ([ready req] & Ht & Hl). destruct (tt_translate tr (Request_src (o_writeback_addr o) Type_Write (o_id o) (Some receive_cb)) Htr Ho) as (ready' & req' & Ht' & Ha & _ & _).
  rewrite Ht in Ht'. injection Ht' as <- <-.
  dcase Hl; [injection Hl as _ <-; by exists h|]. apply bind_Ok_inv in Hl as ([[ok r] c1] & Hs & [= _ <-]).
  eexists. by eapply run_send.
Qed.

Lemma core_tick_run tr clk o c o' c' :
  tt_ok tr -> core_ok o -> SimpleO3Core_tick tr receive_cb clk o c = Ok (o', c') -> runs c -> runs c'.
Proof.
  intros Htr Ho Hl Hr. unfold SimpleO3Core_tick in Hl. destruct (core_retire_ok clk o Ho) as (o1 & Hret & Ho1).
  rewrite Hret in Hl. cbn [mbind res_bind] in Hl.
  destruct (bubbles_ok (Z.to_nat (o_num_bubbles o1)) o1 0 Ho1 ltac:(lia)) as (i & o2 & Hb & Ho2).
  rewrite Hb in Hl. cbn [mbind res_bind] in Hl. destruct i as [i|]; [|by injection Hl as _ <-].
  apply bind_Ok_inv in Hl as ([[b o3] c3] & Hld & Hl). destruct (load_run tr clk i o2 c b o3 c3 Htr Ho2 Hld) as [Hwb Hr3]. specialize (Hr3 Hr).
  dcase Hl; [by injection Hl as _ <-|]. apply bind_Ok_inv in Hl as ([b4 c4] & Hst & Hl).
  assert (Hr4 : runs c4) by (refine (store_run tr clk o3 c3 b4 c4 Htr _ Hst Hr3); rewrite Hwb; apply Ho2).
  dcase Hl; [|by injection Hl as _ <-]. apply bind_Ok_inv in Hl as (o5 & _ & [= _ <-]). done.
Qed.
(** Every tick of the frontend continues the run of its cache. *)
Lemma o3_tick_run k (f : SimpleO3 T) (m : M) f' m' :
  k + 2 * Z.of_nat n <= 2 ^ 31 - 1 -> o3_ok k f -> tt_ok (f_translation f) -> tm_ok m ->
  SimpleO3_tick f m = Ok (f', m') -> runs (f_llc f) -> runs (f_llc f').
Proof.
  intros Hk Hf Ht Hm Htick [h Hr]. unfold SimpleO3_tick in Htick.
  set (f0 := mkO3 (f_clk f + 1) (f_clock_ratio f) (f_translation f) (f_cores f) (f_llc f)) in Htick.
  assert (Hf0 : o3_ok k f0) by (destruct Hf; by split).
  apply bind_Ok_inv in Htick as ([f2 m2] & Hl & Hc). cbn [fst snd] in Hc. apply bind_Ok_inv in Hc as (f3 & Hc & [= <- _]).
  assert (Hr2 : runs (f_llc f2)) by (exists h; eapply run_tick; [exact Hr|exact Hm|by apply llc_tick_run in Hl]).
  destruct (o3_llc_tick_ok k (f_clk f0) f0 m Hf0 Hm) as (f2' & m2' & Hl' & Hf2 & _ & Ht2). rewrite Hl in Hl'. injection Hl' as <- <-.
  change (f_translation f0) with (f_translation f) in Ht2. pose proof (oo_num _ f2 Hf2) as Hn. rewrite Hn in Hc.
  assert (Hgo : forall l k f2 f3, k + 2 * Z.of_nat (length l) <= 2 ^ 31 - 1 -> o3_ok k f2 -> f_translation f2 = f_translation f ->
            Forall (fun i => (i < n)%nat) l -> foldM core_tick_at l f2 = Ok f3 -> runs (f_llc f2) -> runs (f_llc f3)).
  { clear -Ht. induction l as [|i l IH]; intros k f2 f3 Hk Hf Htf Hl Hc Hr; [by injection Hc as <-|].
    apply Forall_cons in Hl as [Hi Hl]. cbn [foldM length] in *. apply bind_Ok_inv in Hc as (f4 & H4 & Hc).
    destruct (core_tick_at_ok k f2 i) as (f4' & H4' & Hf4 & Ht4); [lia|done|by rewrite Htf|done|]. rewrite H4 in H4'. injection H4' as <-.
    apply (IH (k + 2) f4 f3); [lia|done|congruence|done|done|]. unfold core_tick_at in H4.
    apply bind_Ok_inv in H4 as (o & Ho & H4). apply bind_Ok_inv in H4 as ([o' c'] & H4 & [= <-]). cbn [f_llc with_f_llc snd].
    rewrite Htf in H4. refine (core_tick_run _ _ _ _ _ _ Ht _ H4 Hr). apply vget_nat in Ho. by apply (Forall_lookup_1 _ _ _ _ (oo_cores _ _ Hf) Ho). }
  refine (Hgo (seq 0 n) k f2 f3 _ Hf2 Ht2 _ Hc Hr2); [by rewrite length_seq|]. apply Forall_forall. intros i Hi%elem_of_seq. lia.
Qed.
End CacheRun.
End Invariant.
