(* ===== verification/Simulation.v ===== *)
(** * Simulation: the main loop

    Models [Simulation::run] of [ramulator/python/bindings.cpp], which ticks
    a frontend and a memory system with the ratio of their clocks.  The
    loop has no bound of its own: [sim_run] takes a number of rounds and says
    whether the loop has left by then. *)
From stdpp Require Import prelude gmap strings.
From S2P Require Import Prelude Request MemSystem Frontend.
Open Scope Z_scope.

Section Run.
Context {F M : Type} `{IFrontEnd F M}.

Record sim_state := mkSim {
  sim_fe_count : Z;
  sim_mem_count : Z;
  sim_frontend : F;
  sim_memory : M
}.

(** The memory system's tick, whose callbacks run in the frontend. *)
Definition sim_memory_tick (f : F) (m : M) : res (F * M) :=
  p ← mem_tick m;
  f ← foldM fe_callback p.1 f;
  Ok (f, p.2).

(** One round of the loop, and whether it leaves. *)
Definition sim_round (fe_tick_ mem_tick_ : Z) (s : sim_state) : res (bool * sim_state) :=
  let fe_count := sim_fe_count s + 1 in
  p ← (if mem_tick_ <=? fe_count then p ← fe_tick (sim_frontend s) (sim_memory s); Ok (0, p)
       else Ok (fe_count, (sim_frontend s, sim_memory s)));
  let '(fe_count, (f, m)) := p in
  if fe_is_finished f then Ok (true, mkSim fe_count (sim_mem_count s) f m)
  else
    let mem_count := sim_mem_count s + 1 in
    if fe_tick_ <=? mem_count then
      q ← sim_memory_tick f m;
      Ok (false, mkSim fe_count 0 q.1 q.2)
    else Ok (false, mkSim fe_count mem_count f m).

Fixpoint sim_loop (rounds : nat) (fe_tick_ mem_tick_ : Z) (s : sim_state) : res (bool * sim_state) :=
  match rounds with
  | O => Ok (false, s)
  | S rounds =>
      p ← sim_round fe_tick_ mem_tick_ s;
      if p.1 : bool then Ok p else sim_loop rounds fe_tick_ mem_tick_ p.2
  end.

Definition sim_run (rounds : nat) (f : F) (m : M) : res (bool * sim_state) :=
  let fe_tick_ := i32 (fe_get_clock_ratio f) in
  let mem_tick_ := i32 (mem_get_clock_ratio m) in
  if (fe_tick_ <=? 0) || (mem_tick_ <=? 0) then
    Err (Throw "clock_ratio must be > 0 for both frontend and memory system")
  else sim_loop rounds fe_tick_ mem_tick_ (mkSim (mem_tick_ - 1) (fe_tick_ - 1) f m).
End Run.
Arguments sim_state : clear implicits.
Arguments mkSim {_ _} _ _ _ _.

(** ** The schedule *)
(** Round [n] ticks the frontend when the memory's ratio divides [n] and the
    memory system when the frontend's does: over a common multiple the two
    tick in the ratio of their clocks. *)
Section Schedule.
Context {F M : Type} `{IFrontEnd F M}.

Fixpoint scheduled (rounds : nat) (n a b : Z) (f : F) (m : M) : res (bool * (F * M)) :=
  match rounds with
  | O => Ok (false, (f, m))
  | S rounds =>
      p ← (if n mod b =? 0 then fe_tick f m else Ok (f, m));
      if fe_is_finished p.1 then Ok (true, p)
      else
        q ← (if n mod a =? 0 then sim_memory_tick p.1 p.2 else Ok p);
        scheduled rounds (n + 1) a b q.1 q.2
  end.

Definition without_counters (p : bool * sim_state F M) : bool * (F * M) := (p.1, (sim_frontend p.2, sim_memory p.2)).

Lemma count_step n b : 0 < b ->
  (b <=? (n - 1) mod b + 1) = (n mod b =? 0) /\
  (if n mod b =? 0 then 0 else (n - 1) mod b + 1) = n mod b.
Proof.
  intros Hb. pose proof (Z.mod_pos_bound (n - 1) b Hb) as Hr. pose proof (Z.div_mod (n - 1) b ltac:(lia)) as Hdm.
  set (q := (n - 1) / b) in *. set (r := (n - 1) mod b) in *.
  destruct (Z.leb_spec b (r + 1)) as [Hle|Hlt].
  - assert (n mod b = 0) as ->; [|done]. replace n with ((q + 1) * b) by nia. apply Z_mod_mult.
  - assert (n mod b = r + 1) as ->; [symmetry; apply (Z.mod_unique_pos n b q); lia|].
    destruct (Z.eqb_spec (r + 1) 0); [lia|done].
Qed.

Lemma sim_loop_scheduled rounds a b : 0 < a -> 0 < b -> forall n f m,
  without_counters <$> sim_loop rounds a b (mkSim ((n - 1) mod b) ((n - 1) mod a) f m) = scheduled rounds n a b f m.
Proof.
  intros Ha Hb. induction rounds as [|rounds IH]; intros n f m; [done|]. cbn [sim_loop scheduled].
  unfold sim_round. cbn [sim_fe_count sim_mem_count sim_frontend sim_memory].
  destruct (count_step n b Hb) as [Hb1 Hb2], (count_step n a Ha) as [Ha1 Ha2]. rewrite Hb1, Ha1.
  assert (Hgo : forall f m,
    without_counters <$>
      (p ← (if fe_is_finished f then Ok (true, mkSim (n mod b) ((n - 1) mod a) f m)
            else if n mod a =? 0 then q ← sim_memory_tick f m; Ok (false, mkSim (n mod b) 0 q.1 q.2)
            else Ok (false, mkSim (n mod b) ((n - 1) mod a + 1) f m));
       if (p.1 : bool) then Ok p else sim_loop rounds a b p.2) =
    (if fe_is_finished f then Ok (true, (f, m))
     else q ← (if n mod a =? 0 then sim_memory_tick f m else Ok (f, m)); scheduled rounds (n + 1) a b q.1 q.2)).
  { clear f m. intros f m. destruct (fe_is_finished f); [done|].
    specialize (IH (n + 1)). replace (n + 1 - 1) with n in IH by lia. rewrite <- Ha2 in IH. clear Ha1 Ha2.
    revert IH. destruct (n mod a =? 0); intros IH.
    - destruct (sim_memory_tick f m) as [[f' m']|e]; [|done]. cbn [mbind res_bind fst snd]. apply IH.
    - cbn [mbind res_bind fst snd]. apply IH. }
  rewrite <- Hb2 in Hgo. clear Hb1 Hb2. revert Hgo. destruct (n mod b =? 0); intros Hgo.
  - destruct (fe_tick f m) as [[f' m']|e]; [|done]. cbn [mbind res_bind fst snd]. apply Hgo.
  - cbn [mbind res_bind fst snd]. apply Hgo.
Qed.
End Schedule.

(** C31: The two counters of the main loop implement the schedule in which round n ticks
    the frontend exactly when the memory's clock ratio divides n and the memory system
    exactly when the frontend's ratio does: results, failures and the round in which the
    loop leaves are the same. *)
Theorem simulation_schedule {F M : Type} `{IFrontEnd F M} (rounds : nat) (f : F) (m : M) :
  0 < fe_get_clock_ratio f < 2 ^ 31 -> 0 < mem_get_clock_ratio m < 2 ^ 31 ->
  without_counters <$> sim_run rounds f m = scheduled rounds 0 (fe_get_clock_ratio f) (mem_get_clock_ratio m) f m.
Proof.
  intros Ha Hb. unfold sim_run. rewrite !i32_id by lia.
  destruct (Z.leb_spec (fe_get_clock_ratio f) 0); [lia|]. destruct (Z.leb_spec (mem_get_clock_ratio m) 0); [lia|]. cbn [orb].
  rewrite <- sim_loop_scheduled by lia. cbn [Z.sub]. do 2 f_equal.
  f_equal; rewrite <- (Z_mod_plus_full (0 - 1) 1); [|].
  - rewrite Z.mod_small; lia.
  - rewrite Z.mod_small; lia.
Qed.
