(* ===== verification/TraceRun.v ===== *)
(** * TraceRun: running a trace to its end

    What a memory system has to promise for a trace to terminate, as a type
    class, and the proof that the simulation of a trace frontend then leaves
    its loop with every line accepted once and in order. *)
From stdpp Require Import prelude gmap strings.
From S2P Require Import Prelude Request MemSystem TraceFile Frontend Simulation.
Open Scope Z_scope.

(** A memory system that refuses requests only for a bounded time: [pm_wait]
    bounds the ticks until it accepts, [pm_accepted] is what it has
    accepted. *)
Class PatientMemory (M : Type) `{IMemorySystem M} := {
  pm_ok : M -> Prop;
  pm_wait : M -> nat;
  pm_accepted : M -> list Request;
  pm_send : forall m req, pm_ok m -> size_bytes req = mem_get_tx_bytes m ->
    exists ok req' cbs m', mem_send m req = Ok (ok, req', cbs, m') /\ pm_ok m' /\
      mem_get_tx_bytes m' = mem_get_tx_bytes m /\
      if (ok : bool) then pm_accepted m' = pm_accepted m ++ [req]
      else pm_accepted m' = pm_accepted m /\ (0 < pm_wait m' <= pm_wait m)%nat;
  pm_tick : forall m, pm_ok m ->
    exists cbs m', mem_tick m = Ok (cbs, m') /\ pm_ok m' /\ mem_get_tx_bytes m' = mem_get_tx_bytes m /\
      pm_accepted m' = pm_accepted m /\ (pm_wait m' <= pm_wait m)%nat /\
      ((0 < pm_wait m)%nat -> (pm_wait m' < pm_wait m)%nat)
}.

Section Terminates.
Context {E M : Type} `{PatientMemory M}.
Variable request_of : E -> Request.
#[local] Instance replays : IFrontEnd (TraceReplay E) M := replay_frontend request_of.
Variable a b : Z.
Hypothesis Ha : 0 < a.
Hypothesis Hb : 0 < b.

(** A frontend that has sent some lines of its trace. *)
Definition replaying (ratio : Z) (l : list E) (sent : nat) : TraceReplay E :=
  mkReplay ratio l (Z.of_nat (length l)) (Z.of_nat sent) (Z.of_nat sent).

Definition sized (tx : Z) (t : E) : Request := set_size (request_of t) tx.

(** A tick sends the next line or leaves the memory system waiting. *)
Lemma replay_tick_cases ratio l sent t (m : M) :
  pm_ok m -> l !! sent = Some t ->
  exists f' m', replay_tick request_of (replaying ratio l sent) m = Ok (f', m') /\ pm_ok m' /\
    mem_get_tx_bytes m' = mem_get_tx_bytes m /\
    (pm_accepted m' = pm_accepted m ++ [sized (mem_get_tx_bytes m) t] /\
       (S sent = length l /\ replay_finished f' = true \/ (S sent < length l)%nat /\ f' = replaying ratio l (S sent)) \/
     f' = replaying ratio l sent /\ pm_accepted m' = pm_accepted m /\ (0 < pm_wait m' <= pm_wait m)%nat).
Proof using H0.
  intros Hok Ht. unfold replay_tick. cbn [t_trace t_curr_trace_idx replaying t_trace_length].
  rewrite (proj2 (vget_nat _ _ _) Ht). cbn [mbind res_bind].
  destruct (pm_send m (sized (mem_get_tx_bytes m) t) Hok) as (ok & req' & cbs & m' & Hs & Hok' & Htx & Hcase); [done|].
  unfold sized in Hs. rewrite Hs. cbn [mbind res_bind]. apply lookup_lt_Some in Ht.
  destruct ok.
  - destruct (Z.eqb_spec (Z.of_nat (length l)) 0); [lia|]. do 2 eexists. split; [done|]. split_and!; try done. left.
    split; [done|]. destruct (decide (S sent = length l)) as [He|Hne].
    + left. split; [done|]. unfold replay_finished. cbn. apply Z.leb_le. lia.
    + right. split; [lia|]. unfold replaying. cbn. f_equal; [rewrite Z.mod_small by lia; lia|lia].
  - do 2 eexists. split; [done|]. split_and!; try done. right. tauto.
Qed.

Lemma not_finished ratio l sent : (sent < length l)%nat -> replay_finished (replaying ratio l sent) = false.
Proof using. intros. unfold replay_finished. cbn. apply Z.leb_gt. lia. Qed.

(** The memory system's part of a round keeps everything but shortens the
    wait. *)
Lemma memory_part n (f : TraceReplay E) (m : M) :
  pm_ok m ->
  exists m', (if n mod a =? 0 then sim_memory_tick f m else Ok (f, m)) = Ok (f, m') /\
    pm_ok m' /\ mem_get_tx_bytes m' = mem_get_tx_bytes m /\ pm_accepted m' = pm_accepted m /\
    (pm_wait m' <= pm_wait m)%nat /\ (n mod a = 0 -> (0 < pm_wait m)%nat -> (pm_wait m' < pm_wait m)%nat).
Proof using H0.
  intros Hok. destruct (Z.eqb_spec (n mod a) 0) as [Hz|Hnz].
  2: { exists m. split_and!; done. }
  destruct (pm_tick m Hok) as (cbs & m' & Ht & Hok' & Htx & Hacc & Hw & Hw'). exists m'.
  unfold sim_memory_tick. rewrite Ht. cbn [mbind res_bind fst snd]. split_and!; try done.
  assert (Hc : forall l, foldM fe_callback l f = Ok f) by (induction l; done).
  by rewrite Hc.
Qed.

(** How far a round is from the next one in which both tick. *)
Definition distance (n : Z) : nat := Z.to_nat ((- n) mod (a * b)).

Lemma distance_step n : n mod (a * b) <> 0 -> (distance (n + 1) < distance n)%nat.
Proof using Ha Hb.
  intros Hn. unfold distance. assert (Hd : 0 < a * b) by nia.
  pose proof (Z.mod_pos_bound (- n) (a * b) Hd) as Hr. pose proof (Z.mod_pos_bound n (a * b) Hd) as Hr'.
  assert (Hne : (- n) mod (a * b) <> 0) by (rewrite Z.mod_opp_l_nz by lia; lia).
  assert (H1 : (- (n + 1)) mod (a * b) = (- n) mod (a * b) - 1).
  { replace (- (n + 1)) with (- n - 1) by lia. rewrite <- Zminus_mod_idemp_l. apply Z.mod_small. lia. }
  rewrite H1. lia.
Qed.

(** One round, by what the frontend's part of it does. *)
Lemma round_tick rounds n (f f1 : TraceReplay E) (m m1 : M) :
  n mod b = 0 -> replay_tick request_of f m = Ok (f1, m1) ->
  scheduled (S rounds) n a b f m =
  (if replay_finished f1 then Ok (true, (f1, m1))
   else q ← (if n mod a =? 0 then sim_memory_tick f1 m1 else Ok (f1, m1)); scheduled rounds (n + 1) a b q.1 q.2).
Proof using.
  intros Hn Ht. cbn [scheduled]. rewrite Hn. cbn [Z.eqb]. change (fe_tick f m) with (replay_tick request_of f m). by rewrite Ht.
Qed.

Lemma round_skip rounds n ratio l sent (m : M) :
  n mod b <> 0 -> (sent < length l)%nat ->
  scheduled (S rounds) n a b (replaying ratio l sent) m =
  (q ← (if n mod a =? 0 then sim_memory_tick (replaying ratio l sent) m else Ok (replaying ratio l sent, m));
   scheduled rounds (n + 1) a b q.1 q.2).
Proof using.
  intros Hn Hs. cbn [scheduled]. destruct (Z.eqb_spec (n mod b) 0); [done|]. cbn [mbind res_bind fst snd].
  change (fe_is_finished (replaying ratio l sent)) with (replay_finished (replaying ratio l sent)).
  by rewrite not_finished.
Qed.

(** Every round finishes, sends a line, shortens the wait, or comes closer to
    a round that does. *)
Lemma trace_terminates ratio l : forall left sent n (m : M),
  (sent + S left = length l)%nat -> pm_ok m ->
  exists rounds f' m', scheduled rounds n a b (replaying ratio l sent) m = Ok (true, (f', m')) /\
    pm_accepted m' = pm_accepted m ++ map (sized (mem_get_tx_bytes m)) (drop sent l).
Proof using H0 Ha Hb.
  induction left as [left IHl] using lt_wf_ind. intros sent n m Hsent Hok.
  remember (pm_wait m) as w eqn:Hw. revert n m Hw Hok. induction w as [w IHw] using lt_wf_ind. intros n.
  remember (distance n) as d eqn:Hd. revert n Hd. induction d as [d IHd] using lt_wf_ind. intros n Hd m Hw Hok.
  destruct (lookup_lt_is_Some_2 l sent) as [t Ht]; [lia|].
  (** what follows when the frontend's part has not finished *)
  assert (Hrest : forall m1, pm_ok m1 -> mem_get_tx_bytes m1 = mem_get_tx_bytes m -> pm_accepted m1 = pm_accepted m ->
    (pm_wait m1 <= pm_wait m)%nat -> (n mod b = 0 -> (0 < pm_wait m1)%nat) ->
    exists rounds f' m', (q ← (if n mod a =? 0 then sim_memory_tick (replaying ratio l sent) m1 else Ok (replaying ratio l sent, m1));
        scheduled rounds (n + 1) a b q.1 q.2) = Ok (true, (f', m')) /\
      pm_accepted m' = pm_accepted m ++ map (sized (mem_get_tx_bytes m)) (drop sent l)).
  { intros m1 Hok1 Htx1 Hacc1 Hw1 Hpos. destruct (memory_part n (replaying ratio l sent) m1 Hok1) as (m2 & Hm2 & Hok2 & Htx2 & Hacc2 & Hle & Hlt).
    rewrite <- Htx1, <- Hacc1, <- Htx2, <- Hacc2. rewrite Hm2. cbn [mbind res_bind fst snd].
    destruct (decide (pm_wait m2 < w)%nat) as [Hdec|Hsame]; [by eapply (IHw _ Hdec)|].
    apply (IHd (distance (n + 1))); [|done|lia|done]. rewrite Hd. apply distance_step. intros Hz.
    assert (n mod a = 0 /\ n mod b = 0) as [Hna Hnb].
    { apply Z.mod_divide in Hz as [q Hq]; [|nia]. rewrite Hq. split; [apply Z.mod_divide; [lia|]; exists (q * b); ring|].
      apply Z.mod_divide; [lia|]. exists (q * a). ring. }
    specialize (Hlt Hna (Hpos Hnb)). lia. }
  destruct (Z.eqb_spec (n mod b) 0) as [Hnb|Hnb].
  - destruct (replay_tick_cases ratio l sent t m Hok Ht) as (f1 & m1 & Htick & Hok1 & Htx1 & Hcase).
    destruct Hcase as [[Hacc [[Hlast Hfin]|[Hmore ->]]]|(-> & Hacc & Hw1)].
    + exists 1%nat, f1, m1. rewrite (round_tick _ _ _ _ _ _ Hnb Htick), Hfin. split; [done|].
      rewrite Hacc. f_equal. rewrite (drop_S l t sent Ht), drop_ge by lia. done.
    + destruct (memory_part n (replaying ratio l (S sent)) m1 Hok1) as (m2 & Hm2 & Hok2 & Htx2 & Hacc2 & _).
      destruct (IHl (left - 1)%nat ltac:(lia) (S sent) (n + 1) m2 ltac:(lia) Hok2) as (rounds & f' & m' & Hrun & Hall).
      exists (S rounds), f', m'. rewrite (round_tick _ _ _ _ _ _ Hnb Htick), not_finished, Hm2 by lia.
      cbn [mbind res_bind fst snd]. rewrite Hrun. split; [done|].
      rewrite Hall, Hacc2, Hacc, Htx2, Htx1, <- app_assoc. f_equal. by rewrite (drop_S l t sent Ht).
    + destruct (Hrest m1 Hok1 Htx1 Hacc ltac:(lia) ltac:(lia)) as (rounds & f' & m' & Hrun & Hall).
      exists (S rounds), f', m'. by rewrite (round_tick _ _ _ _ _ _ Hnb Htick), not_finished by lia.
  - destruct (Hrest m Hok eq_refl eq_refl ltac:(lia) ltac:(done)) as (rounds & f' & m' & Hrun & Hall).
    exists (S rounds), f', m'. by rewrite round_skip by (done || lia).
Qed.
End Terminates.

(** C32: The simulation of a non-empty trace terminates on every memory system that
    refuses requests for a bounded time only: the loop leaves after finitely many
    rounds, and by then the memory system has accepted the requests of the trace, each
    once and in order. *)
Theorem trace_run_terminates {E M} `{PatientMemory M} (request_of : E -> Request) ratio (l : list E) (m : M) :
  l <> [] -> 0 < ratio < 2 ^ 31 -> 0 < mem_get_clock_ratio m < 2 ^ 31 -> pm_ok m ->
  exists rounds s, @sim_run _ _ _ (replay_frontend request_of) rounds (replay_init ratio l) m = Ok (true, s) /\
    pm_accepted (sim_memory s) = pm_accepted m ++ map (fun t => set_size (request_of t) (mem_get_tx_bytes m)) l.
Proof.
  intros Hl Ha Hb Hok. assert (Hlen : (0 < length l)%nat) by (destruct l; cbn; [done|lia]).
  destruct (trace_terminates request_of ratio (mem_get_clock_ratio m) (proj1 Ha) (proj1 Hb) ratio l
              (length l - 1) 0 0 m ltac:(lia) Hok) as (rounds & f' & m' & Hrun & Hacc).
  exists rounds. pose proof (@simulation_schedule _ _ _ (replay_frontend request_of) rounds (replay_init ratio l) m Ha Hb) as Hs.
  change (replaying ratio l 0) with (replay_init ratio l) in Hrun. unfold replays in Hrun.
  change (fe_get_clock_ratio (replay_init ratio l)) with ratio in Hs. rewrite Hrun in Hs.
  apply fmap_Ok_inv in Hs as ([ok s] & Hsim & [= <- _ <-]). by exists s.
Qed.

(** ** A memory system with a bounded queue *)
(** It takes one request off its queue per tick. *)
Record QueueMemory := mkQM { qm_log : list Request; qm_load : nat; qm_capacity : nat }.

Definition QueueMemory_send (m : QueueMemory) (req : Request) : res (bool * Request * list Request * QueueMemory) :=
  if (qm_load m <? qm_capacity m)%nat then Ok (true, req, [], mkQM (qm_log m ++ [req]) (S (qm_load m)) (qm_capacity m))
  else Ok (false, req, [], m).

#[export] Instance QueueMemory_system : IMemorySystem QueueMemory := {
  mem_send := QueueMemory_send;
  mem_tick m := Ok ([], mkQM (qm_log m) (pred (qm_load m)) (qm_capacity m));
  mem_get_tx_bytes _ := 64;
  mem_get_clock_ratio _ := 3;
  mem_reset_stats_recursive m := m
}.

#[export] Instance QueueMemory_patient : PatientMemory QueueMemory.
Proof.
  refine {| pm_ok m := (0 < qm_capacity m)%nat; pm_wait m := (S (qm_load m) - qm_capacity m)%nat; pm_accepted := qm_log |}.
  - intros m req Hok _. cbn. unfold QueueMemory_send. destruct (Nat.ltb_spec (qm_load m) (qm_capacity m)).
    + do 4 eexists. split; [done|]. done.
    + do 4 eexists. split; [done|]. split_and!; try done; lia.
  - intros m Hok. do 2 eexists. split; [done|]. cbn. split_and!; try done; lia.
Defined.

Lemma trace_run_terminates_witness :
  exists rounds s,
    @sim_run _ _ _ (replay_frontend ls_request) rounds (replay_init 8 [mkLS false 64; mkLS true 128]) (mkQM [] 0 1) = Ok (true, s) /\
    qm_log (sim_memory s) = [set_size (Request_addr 64 Type_Read) 64; set_size (Request_addr 128 Type_Write) 64].
Proof.
  exact (trace_run_terminates ls_request 8 [mkLS false 64; mkLS true 128] (mkQM [] 0 1) ltac:(done) ltac:(lia)
           ltac:(cbn; lia) ltac:(cbn; lia)).
Defined.

Lemma simulation_schedule_witness :
  without_counters <$> @sim_run _ _ _ (replay_frontend ls_request) 20 (replay_init 8 [mkLS false 64; mkLS true 128]) (mkQM [] 0 1) =
  @scheduled _ _ _ (replay_frontend ls_request) 20 0 8 3 (replay_init 8 [mkLS false 64; mkLS true 128]) (mkQM [] 0 1).
Proof.
  refine (@simulation_schedule _ _ _ (replay_frontend ls_request) 20 (replay_init 8 [mkLS false 64; mkLS true 128]) (mkQM [] 0 1) _ _);
    cbn; lia.
Defined.
