(* ===== verification/LatencyThroughput.v ===== *)
(** * LatencyThroughput: the latency-throughput frontend

    Models [latency_throughput_trace.cpp] of
    [ramulator/frontend/impl/memory_trace]: streaming requests that walk over
    banks, columns and rows, interleaved with random probes whose latency is
    measured.  The values a [std::uniform_int_distribution] draws are
    implementation-defined: drawing is a parameter. *)
From stdpp Require Import prelude gmap strings.
From S2P Require Import Prelude DramSpec Request BitUtils ChannelMapper MemSystem Float32 Frontend.
Open Scope Z_scope.

(** The parameters of the frontend; the address recipe comes last. *)
Record lt_params := mkLT {
  lt_clock_ratio : Z;
  lt_nop_counter : Z;
  lt_num_probe_requests : Z;
  lt_streaming_only : bool;
  lt_num_streaming_requests : Z;
  lt_stream_cls : Z;
  lt_warmup_cycles : Z;
  lt_read_ratio : Z;
  lt_addr_vec_size : Z;
  lt_total_bank_units : Z;
  lt_row_pos : Z;
  lt_col_pos : Z;
  lt_num_rows : Z;
  lt_num_cols : Z;
  lt_internal_prefetch_size : Z;
  lt_num_cls : Z;
  lt_bank_positions : list Z;
  lt_bank_counts : list Z
}.

(** The parameters with a default value. *)
Record lt_config := mkLTConfig {
  ltc_required : lt_params;
  ltc_streaming_only : option bool;
  ltc_num_streaming_requests : option Z;
  ltc_stream_cls : option Z;
  ltc_warmup_cycles : option Z;
  ltc_read_ratio : option Z
}.

Record LatencyThroughput (R : Type) := mkLTT {
  v_params : lt_params;
  v_clk : Z;
  v_curr_nop : Z;
  v_streaming_idx : Z;
  v_issue_probe : bool;
  v_warmup_enabled : bool;
  v_warmup_reset_done : bool;
  v_probe_inflight : bool;
  v_retry_stream_req : option Request;
  v_retry_probe_req : option Request;
  v_rng : R;
  v_streaming_sent : Z;
  v_probes_completed : Z;
  v_total_probe_latency : Z;
  v_avg_probe_latency : f32
}.
Arguments mkLTT {_} _ _ _ _ _ _ _ _ _ _ _ _ _ _ _.
Arguments v_params {_} _.
Arguments v_clk {_} _.
Arguments v_curr_nop {_} _.
Arguments v_streaming_idx {_} _.
Arguments v_issue_probe {_} _.
Arguments v_warmup_enabled {_} _.
Arguments v_warmup_reset_done {_} _.
Arguments v_probe_inflight {_} _.
Arguments v_retry_stream_req {_} _.
Arguments v_retry_probe_req {_} _.
Arguments v_rng {_} _.
Arguments v_streaming_sent {_} _.
Arguments v_probes_completed {_} _.
Arguments v_total_probe_latency {_} _.
Arguments v_avg_probe_latency {_} _.

Definition with_v_params {R} (r : LatencyThroughput R) (v : lt_params) : LatencyThroughput R :=
  mkLTT v (v_clk r) (v_curr_nop r) (v_streaming_idx r) (v_issue_probe r) (v_warmup_enabled r)
    (v_warmup_reset_done r) (v_probe_inflight r) (v_retry_stream_req r) (v_retry_probe_req r)
    (v_rng r) (v_streaming_sent r) (v_probes_completed r) (v_total_probe_latency r)
    (v_avg_probe_latency r).
Definition with_v_clk {R} (r : LatencyThroughput R) (v : Z) : LatencyThroughput R :=
  mkLTT (v_params r) v (v_curr_nop r) (v_streaming_idx r) (v_issue_probe r) (v_warmup_enabled r)
    (v_warmup_reset_done r) (v_probe_inflight r) (v_retry_stream_req r) (v_retry_probe_req r)
    (v_rng r) (v_streaming_sent r) (v_probes_completed r) (v_total_probe_latency r)
    (v_avg_probe_latency r).
Definition with_v_curr_nop {R} (r : LatencyThroughput R) (v : Z) : LatencyThroughput R :=
  mkLTT (v_params r) (v_clk r) v (v_streaming_idx r) (v_issue_probe r) (v_warmup_enabled r)
    (v_warmup_reset_done r) (v_probe_inflight r) (v_retry_stream_req r) (v_retry_probe_req r)
    (v_rng r) (v_streaming_sent r) (v_probes_completed r) (v_total_probe_latency r)
    (v_avg_probe_latency r).
Definition with_v_streaming_idx {R} (r : LatencyThroughput R) (v : Z) : LatencyThroughput R :=
  mkLTT (v_params r) (v_clk r) (v_curr_nop r) v (v_issue_probe r) (v_warmup_enabled r)
    (v_warmup_reset_done r) (v_probe_inflight r) (v_retry_stream_req r) (v_retry_probe_req r)
    (v_rng r) (v_streaming_sent r) (v_probes_completed r) (v_total_probe_latency r)
    (v_avg_probe_latency r).
Definition with_v_issue_probe {R} (r : LatencyThroughput R) (v : bool) : LatencyThroughput R :=
  mkLTT (v_params r) (v_clk r) (v_curr_nop r) (v_streaming_idx r) v (v_warmup_enabled r)
    (v_warmup_reset_done r) (v_probe_inflight r) (v_retry_stream_req r) (v_retry_probe_req r)
    (v_rng r) (v_streaming_sent r) (v_probes_completed r) (v_total_probe_latency r)
    (v_avg_probe_latency r).
Definition with_v_warmup_enabled {R} (r : LatencyThroughput R) (v : bool) : LatencyThroughput R :=
  mkLTT (v_params r) (v_clk r) (v_curr_nop r) (v_streaming_idx r) (v_issue_probe r) v
    (v_warmup_reset_done r) (v_probe_inflight r) (v_retry_stream_req r) (v_retry_probe_req r)
    (v_rng r) (v_streaming_sent r) (v_probes_completed r) (v_total_probe_latency r)
    (v_avg_probe_latency r).
Definition with_v_warmup_reset_done {R} (r : LatencyThroughput R) (v : bool) : LatencyThroughput R :=
  mkLTT (v_params r) (v_clk r) (v_curr_nop r) (v_streaming_idx r) (v_issue_probe r)
    (v_warmup_enabled r) v (v_probe_inflight r) (v_retry_stream_req r) (v_retry_probe_req r)
    (v_rng r) (v_streaming_sent r) (v_probes_completed r) (v_total_probe_latency r)
    (v_avg_probe_latency r).
Definition with_v_probe_inflight {R} (r : LatencyThroughput R) (v : bool) : LatencyThroughput R :=
  mkLTT (v_params r) (v_clk r) (v_curr_nop r) (v_streaming_idx r) (v_issue_probe r)
    (v_warmup_enabled r) (v_warmup_reset_done r) v (v_retry_stream_req r) (v_retry_probe_req r)
    (v_rng r) (v_streaming_sent r) (v_probes_completed r) (v_total_probe_latency r)
    (v_avg_probe_latency r).
Definition with_v_retry_stream_req {R} (r : LatencyThroughput R) (v : option Request) : LatencyThroughput R :=
  mkLTT (v_params r) (v_clk r) (v_curr_nop r) (v_streaming_idx r) (v_issue_probe r)
    (v_warmup_enabled r) (v_warmup_reset_done r) (v_probe_inflight r) v (v_retry_probe_req r)
    (v_rng r) (v_streaming_sent r) (v_probes_completed r) (v_total_probe_latency r)
    (v_avg_probe_latency r).
Definition with_v_retry_probe_req {R} (r : LatencyThroughput R) (v : option Request) : LatencyThroughput R :=
  mkLTT (v_params r) (v_clk r) (v_curr_nop r) (v_streaming_idx r) (v_issue_probe r)
    (v_warmup_enabled r) (v_warmup_reset_done r) (v_probe_inflight r) (v_retry_stream_req r) v
    (v_rng r) (v_streaming_sent r) (v_probes_completed r) (v_total_probe_latency r)
    (v_avg_probe_latency r).
Definition with_v_rng {R} (r : LatencyThroughput R) (v : R) : LatencyThroughput R :=
  mkLTT (v_params r) (v_clk r) (v_curr_nop r) (v_streaming_idx r) (v_issue_probe r)
    (v_warmup_enabled r) (v_warmup_reset_done r) (v_probe_inflight r) (v_retry_stream_req r)
    (v_retry_probe_req r) v (v_streaming_sent r) (v_probes_completed r)
    (v_total_probe_latency r) (v_avg_probe_latency r).
Definition with_v_streaming_sent {R} (r : LatencyThroughput R) (v : Z) : LatencyThroughput R :=
  mkLTT (v_params r) (v_clk r) (v_curr_nop r) (v_streaming_idx r) (v_issue_probe r)
    (v_warmup_enabled r) (v_warmup_reset_done r) (v_probe_inflight r) (v_retry_stream_req r)
    (v_retry_probe_req r) (v_rng r) v (v_probes_completed r) (v_total_probe_latency r)
    (v_avg_probe_latency r).
Definition with_v_probes_completed {R} (r : LatencyThroughput R) (v : Z) : LatencyThroughput R :=
  mkLTT (v_params r) (v_clk r) (v_curr_nop r) (v_streaming_idx r) (v_issue_probe r)
    (v_warmup_enabled r) (v_warmup_reset_done r) (v_probe_inflight r) (v_retry_stream_req r)
    (v_retry_probe_req r) (v_rng r) (v_streaming_sent r) v (v_total_probe_latency r)
    (v_avg_probe_latency r).
Definition with_v_total_probe_latency {R} (r : LatencyThroughput R) (v : Z) : LatencyThroughput R :=
  mkLTT (v_params r) (v_clk r) (v_curr_nop r) (v_streaming_idx r) (v_issue_probe r)
    (v_warmup_enabled r) (v_warmup_reset_done r) (v_probe_inflight r) (v_retry_stream_req r)
    (v_retry_probe_req r) (v_rng r) (v_streaming_sent r) (v_probes_completed r) v
    (v_avg_probe_latency r).
Definition with_v_avg_probe_latency {R} (r : LatencyThroughput R) (v : f32) : LatencyThroughput R :=
  mkLTT (v_params r) (v_clk r) (v_curr_nop r) (v_streaming_idx r) (v_issue_probe r)
    (v_warmup_enabled r) (v_warmup_reset_done r) (v_probe_inflight r) (v_retry_stream_req r)
    (v_retry_probe_req r) (v_rng r) (v_streaming_sent r) (v_probes_completed r)
    (v_total_probe_latency r) v.

(** ** Addresses *)
Section Addresses.
Variable p : lt_params.

(** [flat % count] and [flat /= count], the last position first. *)
Fixpoint decompose_loop (slots : list (Z * Z)) (flat : Z) (av : list Z) : res (list Z) :=
  match slots with
  | [] => Ok av
  | (pos, cnt) :: slots =>
      r ← rem_int flat cnt;
      av ← vset av pos r;
      flat ← quot_int flat cnt;
      decompose_loop slots flat av
  end.

(** [m_bank_counts[i]] is read for every position. *)
Definition bank_slots : res (list (Z * Z)) :=
  mapM (fun q => c ← vget (lt_bank_counts p) (Z.of_nat q.1); Ok (q.2, c)) (imap pair (lt_bank_positions p)).

Definition decompose_bank (flat : Z) (av : list Z) : res (list Z) :=
  slots ← bank_slots;
  decompose_loop (reverse slots) flat av.

(** An [int] operand of a [size_t] operation is converted. *)
Definition quot_size (x y : Z) : res Z := if u64 y =? 0 then Err UndefinedBehaviour else Ok (x / u64 y).
Definition rem_size (x y : Z) : res Z := if u64 y =? 0 then Err UndefinedBehaviour else Ok (x mod u64 y).

(** [AddrVec_t av(m_addr_vec_size, 0)]. *)
Definition zero_vec : res (list Z) :=
  if lt_addr_vec_size p <? 0 then Err (Throw "std::length_error") else Ok (replicate (Z.to_nat (lt_addr_vec_size p)) 0).

Definition streaming_addr_vec (idx : Z) : res (list Z) :=
  av ← zero_vec;
  flat ← rem_size idx (lt_total_bank_units p);
  q ← quot_size idx (lt_total_bank_units p);
  cls ← rem_size q (lt_stream_cls p);
  col ← mul_int (i32 cls) (lt_internal_prefetch_size p);
  q2 ← quot_size q (lt_stream_cls p);
  row ← rem_size q2 (lt_num_rows p);
  av ← decompose_bank (i32 flat) av;
  av ← vset av (lt_row_pos p) (i32 row);
  vset av (lt_col_pos p) col.

(** The flat bank number of an address vector. *)
Fixpoint bank_flat_loop (slots : list (Z * Z)) (av : list Z) (acc : Z) : res Z :=
  match slots with
  | [] => Ok acc
  | (pos, cnt) :: slots =>
      x ← mul_int acc cnt;
      a ← vget av pos;
      acc ← add_int x a;
      bank_flat_loop slots av acc
  end.

Definition make_request (tx_bytes : Z) (av : list Z) (type source : Z) : res Request :=
  slots ← bank_slots;
  bank_flat ← bank_flat_loop slots av 0;
  c ← vget av (lt_col_pos p);
  cls ← quot_int c (lt_internal_prefetch_size p);
  x ← mul_int bank_flat (lt_num_rows p);
  x ← mul_int x (lt_num_cls p);
  r ← vget av (lt_row_pos p);
  y ← mul_int r (lt_num_cls p);
  z ← add_int x y;
  a ← add_int z cls;
  Ok (mkReq a (-1) av type source tx_bytes (-1) (-1) false (-1) (-1) None).
End Addresses.

(** ** The frontend *)
Section Frontend.
Context {R : Type}.
(** Drawing from the inclusive range [lo, hi]. *)
Variable draw : R -> Z -> Z -> Z * R.
Variable seeded : Z -> R.

Definition LatencyThroughput_init (g : lt_config) (seed : option Z) : res (LatencyThroughput R) :=
  let q := ltc_required g in
  let p := mkLT (lt_clock_ratio q) (lt_nop_counter q) (lt_num_probe_requests q)
             (default false (ltc_streaming_only g)) (default 0 (ltc_num_streaming_requests g))
             (default 8 (ltc_stream_cls g)) (default 10000 (ltc_warmup_cycles g)) (default 100 (ltc_read_ratio g))
             (lt_addr_vec_size q) (lt_total_bank_units q) (lt_row_pos q) (lt_col_pos q) (lt_num_rows q) (lt_num_cols q)
             (lt_internal_prefetch_size q) (lt_num_cls q) (lt_bank_positions q) (lt_bank_counts q) in
  if lt_streaming_only p && (lt_num_streaming_requests p <=? 0) then
    Err (Throw "LatencyThroughputTrace: num_streaming_requests must be set when streaming_only=true")
  else
    Ok (mkLTT p 0 0 0 false (0 <? lt_warmup_cycles p) false false None None (seeded (default 12345 seed)) 0 0 0 f32_0).

(** Random coordinates for the probes. *)
Fixpoint random_banks (slots : list (Z * Z)) (rng : R) (av : list Z) : res (list Z * R) :=
  match slots with
  | [] => Ok (av, rng)
  | (pos, cnt) :: slots =>
      let '(x, rng) := draw rng 0 (cnt - 1) in
      av ← vset av pos x;
      random_banks slots rng av
  end.

Definition random_addr_vec (p : lt_params) (rng : R) : res (list Z * R) :=
  av ← zero_vec p;
  slots ← bank_slots p;
  q ← random_banks slots rng av;
  let '(av, rng) := q in
  let '(row, rng) := draw rng 0 (lt_num_rows p - 1) in
  av ← vset av (lt_row_pos p) row;
  let '(cls, rng) := draw rng 0 (lt_num_cls p - 1) in
  col ← mul_int cls (lt_internal_prefetch_size p);
  av ← vset av (lt_col_pos p) col;
  Ok (av, rng).

Definition lt_reset_stats (v : LatencyThroughput R) : LatencyThroughput R :=
  with_v_avg_probe_latency
    (with_v_total_probe_latency (with_v_probes_completed (with_v_streaming_sent v 0) 0) 0) f32_0.

Definition LatencyThroughput_finalize (v : LatencyThroughput R) : LatencyThroughput R :=
  if 0 <? v_probes_completed v then
    with_v_avg_probe_latency v (fdiv (f32_of_Z (v_total_probe_latency v)) (f32_of_Z (v_probes_completed v)))
  else v.

Context {M : Type} `{IMemorySystem M}.

Definition maybe_reset_warmup_stats (v : LatencyThroughput R) (m : M) : LatencyThroughput R * M :=
  if negb (v_warmup_enabled v) || v_warmup_reset_done v || (v_clk v <=? lt_warmup_cycles (v_params v)) then (v, m)
  else (lt_reset_stats (with_v_warmup_reset_done v true), mem_reset_stats_recursive m).

(** Whether this tick is skipped. *)
Definition tick_nop (v : LatencyThroughput R) : res (bool * LatencyThroughput R) :=
  if v_issue_probe v then Ok (false, v)
  else
    let is_nop := (1 <? lt_nop_counter (v_params v)) && negb (v_curr_nop v =? 0) in
    nop ← rem_int (v_curr_nop v + 1) (lt_nop_counter (v_params v));
    let v := with_v_curr_nop v nop in
    Ok (is_nop, if is_nop then with_v_issue_probe v (negb (v_issue_probe v)) else v).

(** The number of the callback of a probe. *)
Definition probe_cb : Z := 1.

Definition set_callback (r : Request) (cb : option Z) : Request :=
  mkReq (addr r) (intra_channel_addr r) (addr_vec r) (type_id r) (source_id r) (size_bytes r) (command r)
    (final_command r) (is_stat_updated r) (arrive r) (depart r) cb.

Definition probe_done (v : LatencyThroughput R) (r : Request) : LatencyThroughput R :=
  with_v_probe_inflight
    (with_v_probes_completed
       (with_v_total_probe_latency v (v_total_probe_latency v + (depart r - arrive r))) (v_probes_completed v + 1)) false.

Definition lt_callback (v : LatencyThroughput R) (r : Request) : res (LatencyThroughput R) :=
  Ok (if bool_decide (callback r = Some probe_cb) then probe_done v r else v).

(** The request to send: the one held back, or a new one. *)
Definition next_probe (v : LatencyThroughput R) (m : M) : res (Request * LatencyThroughput R) :=
  match v_retry_probe_req v with
  | Some req => Ok (req, v)
  | None =>
      q ← random_addr_vec (v_params v) (v_rng v);
      req ← make_request (v_params v) (mem_get_tx_bytes m) q.1 Type_Read 1;
      let req := set_callback req (Some probe_cb) in
      Ok (req, with_v_retry_probe_req (with_v_rng v q.2) (Some req))
  end.

Definition tick_probe (v : LatencyThroughput R) (m : M) : res (LatencyThroughput R * M) :=
  let want_probe := (negb (v_warmup_enabled v) || v_warmup_reset_done v)
                    && (v_probes_completed v <? lt_num_probe_requests (v_params v)) in
  if negb want_probe then Ok (with_v_issue_probe v false, m)
  else
    q ← next_probe v m;
    s ← mem_send m q.1;
    let '(ok, req, called, m) := s in
    v ← foldM lt_callback called q.2;
    Ok (if (ok : bool) then with_v_retry_probe_req (with_v_issue_probe (with_v_probe_inflight v true) false) None
        else with_v_retry_probe_req v (Some req), m).

Definition next_stream (v : LatencyThroughput R) (m : M) : res (Request * LatencyThroughput R) :=
  match v_retry_stream_req v with
  | Some req => Ok (req, v)
  | None =>
      let '(type, rng) :=
        if lt_read_ratio (v_params v) <? 100 then
          let '(x, rng) := draw (v_rng v) 0 99 in
          (if x <? lt_read_ratio (v_params v) then Type_Read else Type_Write, rng)
        else (Type_Read, v_rng v) in
      av ← streaming_addr_vec (v_params v) (v_streaming_idx v);
      req ← make_request (v_params v) (mem_get_tx_bytes m) av type 0;
      Ok (req, with_v_retry_stream_req (with_v_rng v rng) (Some req))
  end.

(** [tick_stream], and with [only] set [tick_stream_only]. *)
Definition tick_stream_gen (only : bool) (v : LatencyThroughput R) (m : M) : res (LatencyThroughput R * M) :=
  q ← next_stream v m;
  s ← mem_send m q.1;
  let '(ok, req, called, m) := s in
  v ← foldM lt_callback called q.2;
  Ok (if (ok : bool) then
        let v := with_v_streaming_idx (with_v_streaming_sent v (u64 (v_streaming_sent v + 1))) (u64 (v_streaming_idx v + 1)) in
        with_v_retry_stream_req (if only then v else with_v_issue_probe v true) None
      else with_v_retry_stream_req v (Some req), m).
Definition tick_stream := tick_stream_gen false.
Definition tick_stream_only := tick_stream_gen true.

Definition LatencyThroughput_tick (v : LatencyThroughput R) (m : M) : res (LatencyThroughput R * M) :=
  let '(v, m) := maybe_reset_warmup_stats (with_v_clk v (v_clk v + 1)) m in
  if lt_streaming_only (v_params v) then tick_stream_only v m
  else
    q ← tick_nop v;
    let '(skip, v) := q in
    if (skip : bool) then Ok (v, m)
    else if v_issue_probe v && v_probe_inflight v then Ok (with_v_issue_probe v false, m)
    else if v_issue_probe v then tick_probe v m
    else tick_stream v m.

Definition LatencyThroughput_is_finished (v : LatencyThroughput R) : bool :=
  if v_warmup_enabled v && negb (v_warmup_reset_done v) then false
  else if lt_streaming_only (v_params v) then lt_num_streaming_requests (v_params v) <=? i32 (v_streaming_sent v)
  else lt_num_probe_requests (v_params v) <=? v_probes_completed v.

Definition LatencyThroughput_frontend : IFrontEnd (LatencyThroughput R) M := {|
  fe_tick := LatencyThroughput_tick;
  fe_is_finished := LatencyThroughput_is_finished;
  fe_get_clock_ratio v := lt_clock_ratio (v_params v);
  fe_callback := lt_callback
|}.
End Frontend.

(** ** The streaming pattern *)
Lemma int_ok x : - 2 ^ 31 <= x < 2 ^ 31 -> int_res x = Ok x.
Proof. intros. by apply int_res_Ok. Qed.

Lemma vget_vset_other (l l' : list Z) i k x : vset l i x = Ok l' -> k <> i -> vget l' k = vget l k.
Proof. intros H Hne. by apply (vget_vset_ne l l' i k x). Qed.

Lemma bank_flat_app l k av acc : bank_flat_loop (l ++ k) av acc = (x ← bank_flat_loop l av acc; bank_flat_loop k av x).
Proof.
  revert acc. induction l as [|[pos cnt] l IH]; intros acc; [done|]. cbn. destruct (mul_int acc cnt); [|done]. cbn.
  destruct (vget av pos); [|done]. cbn. destruct (add_int _ _); [|done]. apply IH.
Qed.

Lemma bank_flat_ext l av av' acc :
  (forall pos cnt, (pos, cnt) ∈ l -> vget av' pos = vget av pos) -> bank_flat_loop l av' acc = bank_flat_loop l av acc.
Proof.
  revert acc. induction l as [|[pos cnt] l IH]; intros acc Hl; [done|]. cbn. rewrite (Hl pos cnt) by (by left).
  destruct (mul_int acc cnt); [|done]. cbn. destruct (vget av pos); [|done]. cbn. destruct (add_int _ _); [|done]. cbn.
  apply IH. intros q c Hq. apply (Hl q c). by right.
Qed.

Definition slots_ok (len : nat) (l : list (Z * Z)) : Prop :=
  Forall (fun q => 0 <= q.1 < Z.of_nat len /\ 0 < q.2 < 2 ^ 31) l /\ NoDup l.*1.

(** How many banks some slots address. *)
Definition capacity (l : list (Z * Z)) : Z := foldr (fun q n => q.2 * n) 1 l.

(** Decomposing a bank number into slots and composing it again. *)
Lemma decompose_compose l : forall flat av,
  slots_ok (length av) l -> 0 <= flat < capacity l -> flat < 2 ^ 31 ->
  exists av', decompose_loop l flat av = Ok av' /\ length av' = length av /\
    (forall pos, pos ∉ l.*1 -> vget av' pos = vget av pos) /\
    (forall pos cnt, (pos, cnt) ∈ l -> exists x, vget av' pos = Ok x /\ 0 <= x < cnt) /\
    bank_flat_loop (reverse l) av' 0 = Ok flat.
Proof.
  induction l as [|[pos cnt] l IH]; intros flat av [Hf Hnd] Hcap Hflat; cbn [decompose_loop capacity foldr snd] in *.
  { exists av. split_and!; try done; [intros p c Hin; by apply not_elem_of_nil in Hin|]. cbn. f_equal. lia. }
  fold (capacity l) in Hcap. apply Forall_cons in Hf as [[Hpos Hcnt] Hf]. cbn [fst snd] in *.
  rewrite fmap_cons in Hnd. apply NoDup_cons in Hnd as [Hnin Hnd].
  unfold rem_int, quot_int. destruct (Z.eqb_spec cnt 0); [lia|]. cbn [mbind res_bind].
  rewrite Z.rem_mod_nonneg, Z.quot_div_nonneg by lia.
  pose proof (Z.mod_pos_bound flat cnt ltac:(lia)). pose proof (Z.div_mod flat cnt ltac:(lia)) as Hdm.
  assert (Hset : vset av pos (flat mod cnt) = Ok (<[Z.to_nat pos := flat mod cnt]> av)) by (by apply vset_Ok).
  rewrite Hset. cbn [mbind res_bind]. assert (Hq : 0 <= flat / cnt < capacity l).
  { split; [apply Z.div_pos; lia|apply Z.div_lt_upper_bound; lia]. }
  assert (flat / cnt <= flat) by (apply Z.div_le_upper_bound; nia). rewrite int_ok by lia. cbn [mbind res_bind].
  destruct (IH (flat / cnt) (<[Z.to_nat pos := flat mod cnt]> av)) as (av' & Hd & Hlen & Hother & Hin & Hback);
    [split; [by rewrite length_insert|done]|done|lia|].
  assert (Hp : vget av' pos = Ok (flat mod cnt)) by (rewrite Hother by done; by eapply vget_vset_eq).
  exists av'. split_and!; [done|by rewrite Hlen, length_insert| | |].
  - intros q Hq'. rewrite fmap_cons, not_elem_of_cons in Hq'. destruct Hq' as [Hne Hq']. rewrite Hother by done.
    by eapply vget_vset_other.
  - intros q c [[= -> ->]|Hqc]%elem_of_cons; [by exists (flat mod cnt)|by apply Hin].
  - rewrite reverse_cons, bank_flat_app, Hback. cbn [mbind res_bind bank_flat_loop]. unfold mul_int, add_int.
    rewrite int_ok by nia. cbn [mbind res_bind]. rewrite Hp. cbn [mbind res_bind]. rewrite int_ok by lia. cbn. f_equal. lia.
Qed.

(** A recipe that fits the address vector and the [int] arithmetic. *)
Record recipe_ok (p : lt_params) (slots : list (Z * Z)) : Prop := mkRecipe {
  rc_slots : bank_slots p = Ok slots;
  rc_size : 0 <= lt_addr_vec_size p;
  rc_banks : slots_ok (Z.to_nat (lt_addr_vec_size p)) slots;
  rc_total : capacity slots = lt_total_bank_units p;
  rc_row : 0 <= lt_row_pos p < lt_addr_vec_size p /\ lt_row_pos p ∉ slots.*1;
  rc_col : 0 <= lt_col_pos p < lt_addr_vec_size p /\ (lt_col_pos p ∉ slots.*1) /\ lt_col_pos p <> lt_row_pos p;
  rc_rows : 0 < lt_num_rows p < 2 ^ 31;
  rc_cls : 0 < lt_stream_cls p <= lt_num_cls p;
  rc_prefetch : 0 < lt_internal_prefetch_size p;
  rc_cols : lt_num_cls p * lt_internal_prefetch_size p < 2 ^ 31;
  rc_lines : lt_total_bank_units p * lt_num_rows p * lt_num_cls p < 2 ^ 31
}.

Lemma capacity_pos len l : slots_ok len l -> 0 < capacity l.
Proof. intros [Hf _]. induction Hf as [|[pos cnt] l [_ Hc] _ IH]; cbn in *; [lia|]. fold (capacity l). nia. Qed.

Lemma capacity_reverse l : capacity (reverse l) = capacity l.
Proof.
  assert (Happ : forall a b, capacity (a ++ b) = capacity a * capacity b).
  { induction a as [|[q c] a IH]; intros b; cbn -[Z.mul]; [fold (capacity b); lia|]. fold (capacity (a ++ b)) (capacity a).
    rewrite IH. lia. }
  induction l as [|[q c] l IH]; [done|]. rewrite reverse_cons, Happ, IH. cbn. fold (capacity l). lia.
Qed.

Lemma slots_reverse len l : slots_ok len l -> slots_ok len (reverse l).
Proof.
  intros [Hf Hnd]. split; [by apply Forall_reverse|]. by rewrite reverse_Permutation.
Qed.

(** The coordinates of a streaming index. *)
Definition stream_bank (p : lt_params) (idx : Z) : Z := idx mod lt_total_bank_units p.
Definition stream_line (p : lt_params) (idx : Z) : Z := idx / lt_total_bank_units p mod lt_stream_cls p.
Definition stream_row (p : lt_params) (idx : Z) : Z := idx / lt_total_bank_units p / lt_stream_cls p mod lt_num_rows p.

Lemma Zmult_split n a b x y : 0 < n -> 0 <= x < n -> 0 <= y < n -> a * n + x = b * n + y -> a = b /\ x = y.
Proof. intros Hn Hx Hy H. assert (a = b) by nia. subst. lia. Qed.

Section Stream.
Context (p : lt_params) (slots : list (Z * Z)) (R : recipe_ok p slots).

Lemma units_bound : 0 < lt_total_bank_units p < 2 ^ 31.
Proof using R.
  destruct R. pose proof (capacity_pos _ _ rc_banks0). assert (1 <= lt_num_rows p * lt_num_cls p) by nia. split; [lia|].
  rewrite <- Z.mul_assoc in rc_lines0. nia.
Qed.

Lemma size_ops x y : 0 <= x -> 0 < y < 2 ^ 31 -> rem_size x y = Ok (x mod y) /\ quot_size x y = Ok (x / y).
Proof using.
  intros Hx Hy. unfold rem_size, quot_size, u64. rewrite !wrap_id by lia. destruct (Z.eqb_spec y 0); [lia|done].
Qed.

Lemma stream_bounds idx :
  0 <= stream_bank p idx < lt_total_bank_units p /\ 0 <= stream_line p idx < lt_stream_cls p /\
  0 <= stream_row p idx < lt_num_rows p.
Proof using R.
  pose proof units_bound. destruct R. unfold stream_bank, stream_line, stream_row.
  split_and!; apply Z.mod_pos_bound; lia.
Qed.

(** The address vector of a streaming index. *)
Lemma streaming_vec idx :
  0 <= idx ->
  exists av, streaming_addr_vec p idx = Ok av /\ length av = Z.to_nat (lt_addr_vec_size p) /\
    (forall pos cnt, (pos, cnt) ∈ slots -> exists x, vget av pos = Ok x /\ 0 <= x < cnt) /\
    bank_flat_loop slots av 0 = Ok (stream_bank p idx) /\
    vget av (lt_row_pos p) = Ok (stream_row p idx) /\
    vget av (lt_col_pos p) = Ok (stream_line p idx * lt_internal_prefetch_size p).
Proof using R.
  intros Hidx. pose proof units_bound as Hu. destruct (stream_bounds idx) as (Hb1 & Hb2 & Hb3).
  destruct R as [Hsl Hsz Hbk Htot [Hrow Hrn] (Hcol & Hcn & Hcr) Hrows Hcls Hpf Hcols Hlines].
  assert (Hq : 0 <= idx / lt_total_bank_units p) by (apply Z.div_pos; lia).
  assert (Hq2 : 0 <= idx / lt_total_bank_units p / lt_stream_cls p) by (apply Z.div_pos; lia).
  assert (Hcls31 : lt_num_cls p < 2 ^ 31) by nia.
  destruct (decompose_compose (reverse slots) (stream_bank p idx) (replicate (Z.to_nat (lt_addr_vec_size p)) 0))
    as (av & Hd & Hlen & _ & Hin & Hback); [rewrite length_replicate; by apply slots_reverse|by rewrite capacity_reverse, Htot|lia|].
  rewrite length_replicate in Hlen. rewrite reverse_involutive in Hback.
  set (av1 := <[Z.to_nat (lt_row_pos p) := stream_row p idx]> av).
  set (av2 := <[Z.to_nat (lt_col_pos p) := stream_line p idx * lt_internal_prefetch_size p]> av1).
  assert (Hs1 : vset av (lt_row_pos p) (stream_row p idx) = Ok av1) by (apply vset_Ok; split; [lia|done]).
  assert (Hs2 : vset av1 (lt_col_pos p) (stream_line p idx * lt_internal_prefetch_size p) = Ok av2)
    by (apply vset_Ok; split; [unfold av1; rewrite length_insert; lia|done]).
  assert (Hsame : forall pos cnt, (pos, cnt) ∈ slots -> vget av2 pos = vget av pos).
  { intros pos cnt Hpc. apply (list_elem_of_fmap_2 fst) in Hpc. cbn in Hpc.
    rewrite (vget_vset_other _ _ _ _ _ Hs2) by (intros ->; done). by rewrite (vget_vset_other _ _ _ _ _ Hs1) by (intros ->; done). }
  exists av2. split_and!.
  - unfold streaming_addr_vec, zero_vec, decompose_bank. destruct (Z.ltb_spec (lt_addr_vec_size p) 0); [lia|]. cbn [mbind res_bind].
    destruct (size_ops idx _ Hidx Hu) as [-> ->]. cbn [mbind res_bind].
    destruct (size_ops _ (lt_stream_cls p) Hq) as [-> ->]; [lia|]. cbn [mbind res_bind].
    fold (stream_line p idx). rewrite (i32_id (stream_line p idx)) by lia. unfold mul_int. rewrite int_ok by nia. cbn [mbind res_bind].
    destruct (size_ops _ (lt_num_rows p) Hq2) as [-> _]; [lia|]. cbn [mbind res_bind]. rewrite Hsl. cbn [mbind res_bind].
    fold (stream_bank p idx). rewrite (i32_id (stream_bank p idx)), Hd by lia. cbn [mbind res_bind].
    fold (stream_row p idx). rewrite (i32_id (stream_row p idx)), Hs1 by lia. cbn [mbind res_bind]. exact Hs2.
  - unfold av2, av1. by rewrite !length_insert.
  - intros pos cnt Hpc. rewrite (Hsame pos cnt Hpc). apply Hin. by apply elem_of_reverse.
  - by rewrite (bank_flat_ext slots av av2).
  - rewrite (vget_vset_other _ _ _ _ _ Hs2) by done. by eapply vget_vset_eq.
  - by eapply vget_vset_eq.
Qed.

(** The flat address of the request of a streaming index. *)
Definition stream_addr (idx : Z) : Z :=
  stream_bank p idx * lt_num_rows p * lt_num_cls p + stream_row p idx * lt_num_cls p + stream_line p idx.

Lemma stream_addr_bound idx : 0 <= stream_addr idx < 2 ^ 31.
Proof using R.
  destruct (stream_bounds idx) as (Hb1 & Hb2 & Hb3). destruct R. unfold stream_addr.
  assert (0 <= stream_row p idx * lt_num_cls p) by nia.
  assert (stream_row p idx * lt_num_cls p + stream_line p idx < lt_num_rows p * lt_num_cls p) by nia.
  assert ((stream_bank p idx + 1) * (lt_num_rows p * lt_num_cls p) <= lt_total_bank_units p * (lt_num_rows p * lt_num_cls p))
    by (apply Z.mul_le_mono_nonneg_r; nia).
  assert (0 <= stream_bank p idx * (lt_num_rows p * lt_num_cls p)) by (apply Z.mul_nonneg_nonneg; nia).
  rewrite <- Z.mul_assoc in *. lia.
Qed.

Lemma streaming_request idx tx type src av :
  0 <= idx -> streaming_addr_vec p idx = Ok av ->
  exists req, make_request p tx av type src = Ok req /\ addr_vec req = av /\ addr req = stream_addr idx.
Proof using R.
  intros Hidx Hav. destruct (streaming_vec idx Hidx) as (av' & Hav' & _ & _ & Hbank & Hrow & Hcol).
  assert (av' = av) as -> by congruence. destruct (stream_bounds idx) as (Hb1 & Hb2 & Hb3).
  pose proof (stream_addr_bound idx) as Hbound. unfold stream_addr in Hbound.
  destruct R as [Hsl Hsz Hbk Htot _ _ Hrows Hcls Hpf Hcols Hlines]. unfold make_request. rewrite Hsl. cbn [mbind res_bind].
  assert (Hcls31 : lt_num_cls p < 2 ^ 31) by nia.
  rewrite Hbank. cbn [mbind res_bind]. rewrite Hcol. cbn [mbind res_bind]. unfold quot_int.
  destruct (Z.eqb_spec (lt_internal_prefetch_size p) 0); [lia|]. rewrite Z.quot_mul, int_ok by lia. cbn [mbind res_bind].
  unfold mul_int, add_int. assert (0 <= stream_bank p idx * lt_num_rows p) by nia.
  assert (0 <= stream_bank p idx * lt_num_rows p * lt_num_cls p) by (apply Z.mul_nonneg_nonneg; lia).
  assert (0 <= stream_row p idx * lt_num_cls p) by nia.
  assert (stream_bank p idx * lt_num_rows p * 1 <= stream_bank p idx * lt_num_rows p * lt_num_cls p)
    by (apply Z.mul_le_mono_nonneg_l; lia).
  rewrite int_ok by lia. cbn [mbind res_bind]. rewrite int_ok by lia. cbn [mbind res_bind]. rewrite Hrow. cbn [mbind res_bind].
  rewrite int_ok by lia. cbn [mbind res_bind]. rewrite int_ok by lia. cbn [mbind res_bind]. rewrite int_ok by lia. cbn [mbind res_bind].
  eexists. split; [done|]. done.
Qed.

(** Different indices of one sweep have different addresses. *)
Lemma stream_addr_inj i k :
  0 <= i < lt_total_bank_units p * lt_stream_cls p * lt_num_rows p ->
  0 <= k < lt_total_bank_units p * lt_stream_cls p * lt_num_rows p ->
  stream_addr i = stream_addr k -> i = k.
Proof using R.
  intros Hi Hk Heq. pose proof units_bound as Hu.
  destruct (stream_bounds i) as (Hi1 & Hi2 & Hi3), (stream_bounds k) as (Hk1 & Hk2 & Hk3). destruct R. unfold stream_addr in Heq.
  assert (H1 : stream_bank p i * lt_num_rows p + stream_row p i = stream_bank p k * lt_num_rows p + stream_row p k /\
               stream_line p i = stream_line p k) by (apply (Zmult_split (lt_num_cls p)); nia).
  destruct H1 as [H1 Hl]. assert (H2 : stream_bank p i = stream_bank p k /\ stream_row p i = stream_row p k)
    by (apply (Zmult_split (lt_num_rows p)); lia). destruct H2 as [Hbk Hr].
  assert (Hrow : forall x, 0 <= x < lt_total_bank_units p * lt_stream_cls p * lt_num_rows p ->
            x = (stream_row p x * lt_stream_cls p + stream_line p x) * lt_total_bank_units p + stream_bank p x).
  { intros x Hx. unfold stream_row, stream_line, stream_bank. rewrite (Z.mod_small (x / _ / _)).
    - pose proof (Z.div_mod x (lt_total_bank_units p)). pose proof (Z.div_mod (x / lt_total_bank_units p) (lt_stream_cls p)). lia.
    - split; [apply Z.div_pos; [apply Z.div_pos|]; lia|]. rewrite Z.div_div by lia. apply Z.div_lt_upper_bound; nia. }
  rewrite (Hrow i Hi), (Hrow k Hk). congruence.
Qed.
End Stream.

(** The streaming pattern of the latency-throughput frontend: for a recipe that
    fits the address vector, every streaming index gives a request without integer
    overflow or an index out of range, all its coordinates are in range, and within one
    sweep over banks, lines and rows no two indices give the same flat address. *)
Theorem streaming_sweep p slots :
  recipe_ok p slots ->
  (forall idx tx type src, 0 <= idx ->
     exists av req, streaming_addr_vec p idx = Ok av /\ make_request p tx av type src = Ok req /\ addr_vec req = av /\
       (forall pos cnt, (pos, cnt) ∈ slots -> exists x, vget av pos = Ok x /\ 0 <= x < cnt) /\
       (exists row, vget av (lt_row_pos p) = Ok row /\ 0 <= row < lt_num_rows p) /\
       (exists line, vget av (lt_col_pos p) = Ok (line * lt_internal_prefetch_size p) /\ 0 <= line < lt_num_cls p)) /\
  (forall i k avi avk tx type src ri rk,
     0 <= i < lt_total_bank_units p * lt_stream_cls p * lt_num_rows p ->
     0 <= k < lt_total_bank_units p * lt_stream_cls p * lt_num_rows p ->
     streaming_addr_vec p i = Ok avi -> make_request p tx avi type src = Ok ri ->
     streaming_addr_vec p k = Ok avk -> make_request p tx avk type src = Ok rk ->
     addr ri = addr rk -> i = k).
Proof.
  intros R. split.
  - intros idx tx type src Hidx. destruct (streaming_vec p slots R idx Hidx) as (av & Hav & _ & Hbk & _ & Hrow & Hcol).
    destruct (streaming_request p slots R idx tx type src av Hidx Hav) as (req & Hreq & Hvec & _).
    destruct (stream_bounds p slots R idx) as (_ & Hl & Hr). exists av, req. split_and!; try done; [by eexists|].
    eexists. split; [exact Hcol|]. destruct R. lia.
  - intros i k avi avk tx type src ri rk Hi Hk Hvi Hri Hvk Hrk Heq.
    destruct (streaming_request p slots R i tx type src avi ltac:(lia) Hvi) as (ri' & Hri' & _ & Hai).
    destruct (streaming_request p slots R k tx type src avk ltac:(lia) Hvk) as (rk' & Hrk' & _ & Hak).
    apply (stream_addr_inj p slots R); [done|done|]. congruence.
Qed.

(** A recipe with four bank groups of four banks. *)
Definition ddr4_recipe : lt_params :=
  mkLT 1 1 0 false 0 8 0 100 6 16 4 5 65536 1024 8 128 [1; 2; 3] [1; 4; 4].

Lemma ddr4_recipe_ok : recipe_ok ddr4_recipe [(1, 1); (2, 4); (3, 4)].
Proof.
  split; cbn; try lia; try done.
  - split; [rewrite !Forall_cons, Forall_nil; cbn; lia|]. by apply (bool_decide_eq_true_1 (NoDup _)).
  - split; [lia|]. by apply (bool_decide_eq_true_1 (_ ∉ _)).
  - split_and!; [lia|lia| |lia]. by apply (bool_decide_eq_true_1 (_ ∉ _)).
Qed.

Lemma streaming_sweep_witness :
  exists av req, streaming_addr_vec ddr4_recipe 131 = Ok av /\ make_request ddr4_recipe 64 av Type_Read 0 = Ok req /\ addr_vec req = av.
Proof.
  destruct (streaming_sweep ddr4_recipe [(1, 1); (2, 4); (3, 4)] ddr4_recipe_ok) as [Hs _].
  destruct (Hs 131 64 Type_Read 0 ltac:(lia)) as (av & req & Hav & Hreq & Hvec & _). by exists av, req.
Defined.
