(* ===== verification/Bram.v ===== *)
(** * Bram: the block RAM model of gem5

    Models [bram_wrapper.hh], [bram_wrapper.cc], [bram.hh] and [bram.cc] of
    [gem5-stable/src/mem]: the timing queue of the wrapper and the SimObject
    around it, with its flow control towards the port and its two events.

    [AbstractMemory::access] (abstract_mem.cc) is modelled with its early
    returns, the assertion on the address range of the memory, the case
    analysis over the commands with its assertions and panics, and the
    response.  Parameters ([DataOps]) move the bytes and keep the list of
    locked addresses.  The clock period in ticks and the time one period
    later, which are computed in [double] and converted to an integer, are
    parameters too.  Addresses are those of the system: nothing subtracts the
    start of the range. *)
From stdpp Require Import prelude gmap strings.
From S2P Require Import Prelude.
Open Scope Z_scope.

(** ** BRAMWrapper *)
Record BRAMTransaction := mkTxn {
  tx_addr : Z;
  tx_is_write : bool;
  tx_cycles_remaining : Z
}.

Record BRAMWrapper (D : Type) := mkWrapper {
  bw_clockPeriod : D;
  bw_sizeBytes : Z;
  bw_widthBytes : Z;
  bw_depth : Z;
  bw_latency : Z;
  bw_queueSize : Z;
  bw_burstSize : Z;
  bw_pending : list BRAMTransaction
}.
Arguments mkWrapper {_} _ _ _ _ _ _ _ _.
Arguments bw_clockPeriod {_} _.
Arguments bw_sizeBytes {_} _.
Arguments bw_widthBytes {_} _.
Arguments bw_depth {_} _.
Arguments bw_latency {_} _.
Arguments bw_queueSize {_} _.
Arguments bw_burstSize {_} _.
Arguments bw_pending {_} _.

Definition with_pending {D} (w : BRAMWrapper D) (l : list BRAMTransaction) : BRAMWrapper D :=
  mkWrapper (bw_clockPeriod w) (bw_sizeBytes w) (bw_widthBytes w) (bw_depth w) (bw_latency w) (bw_queueSize w)
    (bw_burstSize w) l.

(** The members are initialised, with a division, before the checks; all
    are [unsigned int]. *)
Definition BRAMWrapper_new {D} (is_zero : D -> bool) (size_kb : Z) (clock : D) (width latency : Z) : res (BRAMWrapper D) :=
  let size := u32 (size_kb * 1024) in
  if width =? 0 then Err UndefinedBehaviour
  else if is_zero clock then Err (Throw "BRAM wrapper: clock period must be > 0")
  else if size =? 0 then Err (Throw "BRAM wrapper: size must be > 0")
  else if negb (Z.land width (width - 1) =? 0) then Err (Throw "BRAM wrapper: width must be a power of 2")
  else Ok (mkWrapper clock size width (size / width) latency 16 width []).

Definition canAccept {D} (w : BRAMWrapper D) (a : Z) : res bool :=
  if bw_queueSize w <=? Z.of_nat (length (bw_pending w)) then Ok false
  else if bw_widthBytes w =? 0 then Err UndefinedBehaviour
  else Ok (a / bw_widthBytes w <? bw_depth w).

Definition enqueue_txn {D} (w : BRAMWrapper D) (a : Z) (is_write : bool) : res (BRAMWrapper D) :=
  ok ← canAccept w a;
  _ ← assert_ ok;
  Ok (with_pending w (bw_pending w ++ [mkTxn a is_write (bw_latency w)])).

Definition wrapper_resetStats {D} (w : BRAMWrapper D) : BRAMWrapper D := with_pending w [].

(** One cycle: every transaction loses a cycle, those that reach 0 go. *)
Fixpoint tick_loop (l : list BRAMTransaction) : list BRAMTransaction :=
  match l with
  | [] => []
  | t :: l =>
      let c := if 0 <? tx_cycles_remaining t then tx_cycles_remaining t - 1 else tx_cycles_remaining t in
      if c =? 0 then tick_loop l else mkTxn (tx_addr t) (tx_is_write t) c :: tick_loop l
  end.
Definition wrapper_tick {D} (w : BRAMWrapper D) : BRAMWrapper D := with_pending w (tick_loop (bw_pending w)).

(** ** The SimObject *)
(** A range of addresses that is not interleaved: the first one and the one
    after the last, which is 0 when the range ends with the address space. *)
Record AddrRange := mkRange { ar_start : Z; ar_end : Z }.

Definition isSubset (r r' : AddrRange) : bool :=
  if ar_end r <=? ar_start r then (ar_start r' <=? ar_start r) && (ar_end r' =? 0)
  else if ar_end r' <=? ar_start r' then ar_start r' <=? ar_start r
  else (ar_start r' <=? ar_start r) && (ar_end r <=? ar_end r').

(** What the command of a packet and the request behind it say to the memory:
    [cm_isSwap] is the command [SwapReq], [cm_isMaintenance] stands for
    [isInvalidate() || isClean()]. *)
Record Command := mkCommand {
  cm_isSwap : bool;
  cm_isAtomicOp : bool;
  cm_isCondSwap : bool;
  cm_isLLSC : bool;
  cm_fromCache : bool;
  cm_isMaintenance : bool;
  cm_isInstFetch : bool
}.

(** The parts of a gem5 packet the memory looks at, without the data it
    carries; [pk_noAccess] says that the command is [CleanEvict] or
    [WritebackClean]. *)
Record Packet := mkPacket {
  pk_id : Z;
  pk_addr : Z;
  pk_size : Z;
  pk_cmd : Command;
  pk_noAccess : bool;
  pk_isRead : bool;
  pk_isWrite : bool;
  pk_needsResponse : bool;
  pk_isResponse : bool;
  pk_cacheResponding : bool;
  pk_delay : Z
}.

Definition clear_delay (p : Packet) : Packet :=
  mkPacket (pk_id p) (pk_addr p) (pk_size p) (pk_cmd p) (pk_noAccess p) (pk_isRead p) (pk_isWrite p) (pk_needsResponse p)
    (pk_isResponse p) (pk_cacheResponding p) 0.

Definition getAddrRange (p : Packet) : AddrRange := mkRange (pk_addr p) (u64 (pk_addr p + pk_size p)).

(** The response command is of the same kind and needs no response. *)
Definition makeResponse (p : Packet) : res Packet :=
  _ ← assert_ (pk_needsResponse p);
  _ ← assert_ (negb (pk_isResponse p));
  Ok (mkPacket (pk_id p) (pk_addr p) (pk_size p) (pk_cmd p) (pk_noAccess p) (pk_isRead p) (pk_isWrite p) false true
        (pk_cacheResponding p) (pk_delay p)).

(** [b_sent] and [b_retries] do not exist in the code: they record the
    responses the port took and the retries it was sent. *)
Record BRAM (D S : Type) := mkBRAM {
  b_wrapper : BRAMWrapper D;
  b_retryReq : bool;
  b_retryResp : bool;
  b_outstandingReads : gmap Z (list Packet);
  b_outstandingWrites : gmap Z (list Packet);
  b_nbrOutstandingReads : Z;
  b_nbrOutstandingWrites : Z;
  b_responseQueue : list Packet;
  b_sendResponseEvent : option Z;
  b_tickEvent : option Z;
  b_pendingDelete : option Packet;
  b_data : S;
  b_sent : list Packet;
  b_retries : Z
}.
Arguments mkBRAM {_ _} _ _ _ _ _ _ _ _ _ _ _ _ _ _.
Arguments b_wrapper {_ _} _.
Arguments b_retryReq {_ _} _.
Arguments b_retryResp {_ _} _.
Arguments b_outstandingReads {_ _} _.
Arguments b_outstandingWrites {_ _} _.
Arguments b_nbrOutstandingReads {_ _} _.
Arguments b_nbrOutstandingWrites {_ _} _.
Arguments b_responseQueue {_ _} _.
Arguments b_sendResponseEvent {_ _} _.
Arguments b_tickEvent {_ _} _.
Arguments b_pendingDelete {_ _} _.
Arguments b_data {_ _} _.
Arguments b_sent {_ _} _.
Arguments b_retries {_ _} _.

Definition with_b_wrapper {D S} (r : BRAM D S) (v : BRAMWrapper D) : BRAM D S :=
  mkBRAM v (b_retryReq r) (b_retryResp r) (b_outstandingReads r) (b_outstandingWrites r)
    (b_nbrOutstandingReads r) (b_nbrOutstandingWrites r) (b_responseQueue r)
    (b_sendResponseEvent r) (b_tickEvent r) (b_pendingDelete r) (b_data r) (b_sent r)
    (b_retries r).
Definition with_b_retryReq {D S} (r : BRAM D S) (v : bool) : BRAM D S :=
  mkBRAM (b_wrapper r) v (b_retryResp r) (b_outstandingReads r) (b_outstandingWrites r)
    (b_nbrOutstandingReads r) (b_nbrOutstandingWrites r) (b_responseQueue r)
    (b_sendResponseEvent r) (b_tickEvent r) (b_pendingDelete r) (b_data r) (b_sent r)
    (b_retries r).
Definition with_b_retryResp {D S} (r : BRAM D S) (v : bool) : BRAM D S :=
  mkBRAM (b_wrapper r) (b_retryReq r) v (b_outstandingReads r) (b_outstandingWrites r)
    (b_nbrOutstandingReads r) (b_nbrOutstandingWrites r) (b_responseQueue r)
    (b_sendResponseEvent r) (b_tickEvent r) (b_pendingDelete r) (b_data r) (b_sent r)
    (b_retries r).
Definition with_b_outstandingReads {D S} (r : BRAM D S) (v : gmap Z (list Packet)) : BRAM D S :=
  mkBRAM (b_wrapper r) (b_retryReq r) (b_retryResp r) v (b_outstandingWrites r)
    (b_nbrOutstandingReads r) (b_nbrOutstandingWrites r) (b_responseQueue r)
    (b_sendResponseEvent r) (b_tickEvent r) (b_pendingDelete r) (b_data r) (b_sent r)
    (b_retries r).
Definition with_b_outstandingWrites {D S} (r : BRAM D S) (v : gmap Z (list Packet)) : BRAM D S :=
  mkBRAM (b_wrapper r) (b_retryReq r) (b_retryResp r) (b_outstandingReads r) v
    (b_nbrOutstandingReads r) (b_nbrOutstandingWrites r) (b_responseQueue r)
    (b_sendResponseEvent r) (b_tickEvent r) (b_pendingDelete r) (b_data r) (b_sent r)
    (b_retries r).
Definition with_b_nbrOutstandingReads {D S} (r : BRAM D S) (v : Z) : BRAM D S :=
  mkBRAM (b_wrapper r) (b_retryReq r) (b_retryResp r) (b_outstandingReads r)
    (b_outstandingWrites r) v (b_nbrOutstandingWrites r) (b_responseQueue r)
    (b_sendResponseEvent r) (b_tickEvent r) (b_pendingDelete r) (b_data r) (b_sent r)
    (b_retries r).
Definition with_b_nbrOutstandingWrites {D S} (r : BRAM D S) (v : Z) : BRAM D S :=
  mkBRAM (b_wrapper r) (b_retryReq r) (b_retryResp r) (b_outstandingReads r)
    (b_outstandingWrites r) (b_nbrOutstandingReads r) v (b_responseQueue r)
    (b_sendResponseEvent r) (b_tickEvent r) (b_pendingDelete r) (b_data r) (b_sent r)
    (b_retries r).
Definition with_b_responseQueue {D S} (r : BRAM D S) (v : list Packet) : BRAM D S :=
  mkBRAM (b_wrapper r) (b_retryReq r) (b_retryResp r) (b_outstandingReads r)
    (b_outstandingWrites r) (b_nbrOutstandingReads r) (b_nbrOutstandingWrites r) v
    (b_sendResponseEvent r) (b_tickEvent r) (b_pendingDelete r) (b_data r) (b_sent r)
    (b_retries r).
Definition with_b_sendResponseEvent {D S} (r : BRAM D S) (v : option Z) : BRAM D S :=
  mkBRAM (b_wrapper r) (b_retryReq r) (b_retryResp r) (b_outstandingReads r)
    (b_outstandingWrites r) (b_nbrOutstandingReads r) (b_nbrOutstandingWrites r)
    (b_responseQueue r) v (b_tickEvent r) (b_pendingDelete r) (b_data r) (b_sent r)
    (b_retries r).
Definition with_b_tickEvent {D S} (r : BRAM D S) (v : option Z) : BRAM D S :=
  mkBRAM (b_wrapper r) (b_retryReq r) (b_retryResp r) (b_outstandingReads r)
    (b_outstandingWrites r) (b_nbrOutstandingReads r) (b_nbrOutstandingWrites r)
    (b_responseQueue r) (b_sendResponseEvent r) v (b_pendingDelete r) (b_data r) (b_sent r)
    (b_retries r).
Definition with_b_pendingDelete {D S} (r : BRAM D S) (v : option Packet) : BRAM D S :=
  mkBRAM (b_wrapper r) (b_retryReq r) (b_retryResp r) (b_outstandingReads r)
    (b_outstandingWrites r) (b_nbrOutstandingReads r) (b_nbrOutstandingWrites r)
    (b_responseQueue r) (b_sendResponseEvent r) (b_tickEvent r) v (b_data r) (b_sent r)
    (b_retries r).
Definition with_b_data {D S} (r : BRAM D S) (v : S) : BRAM D S :=
  mkBRAM (b_wrapper r) (b_retryReq r) (b_retryResp r) (b_outstandingReads r)
    (b_outstandingWrites r) (b_nbrOutstandingReads r) (b_nbrOutstandingWrites r)
    (b_responseQueue r) (b_sendResponseEvent r) (b_tickEvent r) (b_pendingDelete r) v (b_sent r)
    (b_retries r).
Definition with_b_sent {D S} (r : BRAM D S) (v : list Packet) : BRAM D S :=
  mkBRAM (b_wrapper r) (b_retryReq r) (b_retryResp r) (b_outstandingReads r)
    (b_outstandingWrites r) (b_nbrOutstandingReads r) (b_nbrOutstandingWrites r)
    (b_responseQueue r) (b_sendResponseEvent r) (b_tickEvent r) (b_pendingDelete r) (b_data r) v
    (b_retries r).
Definition with_b_retries {D S} (r : BRAM D S) (v : Z) : BRAM D S :=
  mkBRAM (b_wrapper r) (b_retryReq r) (b_retryResp r) (b_outstandingReads r)
    (b_outstandingWrites r) (b_nbrOutstandingReads r) (b_nbrOutstandingWrites r)
    (b_responseQueue r) (b_sendResponseEvent r) (b_tickEvent r) (b_pendingDelete r) (b_data r)
    (b_sent r) v.

(** What moves bytes: between the packet and the memory ([pmemAddr] says
    whether there is one), and the list of addresses under load-locked, whose
    two functions have assertions of their own.  The state holds the bytes of
    memory and packets, the list and the statistics. *)
Record DataOps (S : Type) := mkOps {
  pmemAddr : bool;
  do_atomicOp : S -> Packet -> S;
  do_swap : S -> Packet -> S;
  setData : S -> Packet -> S;
  writeData : S -> Packet -> S;
  trackLoadLocked : S -> Packet -> res S;
  writeOK : S -> Packet -> res (bool * S)
}.
Arguments pmemAddr {_} _.
Arguments do_atomicOp {_} _ _ _.
Arguments do_swap {_} _ _ _.
Arguments setData {_} _ _ _.
Arguments writeData {_} _ _ _.
Arguments trackLoadLocked {_} _ _ _.
Arguments writeOK {_} _ _ _.

Section BRAM.
Context {D S : Type}.
Variable is_zero : D -> bool.
Variable period_ticks : D -> Z.
Variable next_tick : Z -> D -> Z.
Variable range : AddrRange.
Variable ops : DataOps S.

Local Abbreviation bram := (BRAM D S).

(** Moving the data of a packet, by its command. *)
Definition transfer (s : S) (p : Packet) : res S :=
  let c := pk_cmd p in
  if cm_isSwap c then
    if cm_isAtomicOp c then Ok (if pmemAddr ops then do_atomicOp ops s p else s)
    else
      _ ← (if pmemAddr ops then Ok () else Err (Throw "Swap only works if there is real memory (i.e. null=False)"));
      _ ← (if cm_isCondSwap c && negb ((pk_size p =? 8) || (pk_size p =? 4)) then
             Err (Throw "Invalid size for conditional read/write")
           else Ok ());
      _ ← assert_ (negb (cm_isInstFetch c));
      Ok (do_swap ops s p)
  else if pk_isRead p then
    _ ← assert_ (negb (pk_isWrite p));
    s ← (if cm_isLLSC c then
           _ ← assert_ (negb (cm_fromCache c));
           trackLoadLocked ops s p
         else Ok s);
    Ok (if pmemAddr ops then setData ops s p else s)
  else if cm_isMaintenance c then
    _ ← assert_ (negb (pk_isWrite p));
    Ok s
  else if pk_isWrite p then
    q ← writeOK ops s p;
    let '(ok, s) := q in
    if (ok : bool) then
      _ ← assert_ (negb (cm_isInstFetch c));
      Ok (if pmemAddr ops then writeData ops s p else s)
    else Ok s
  else Err (Throw "Unexpected packet").

Definition access (s : S) (p : Packet) : res (S * Packet) :=
  if pk_cacheResponding p then Ok (s, p)
  else if pk_noAccess p then Ok (s, p)
  else
    _ ← assert_ (isSubset (getAddrRange p) range);
    s ← transfer s p;
    if pk_needsResponse p then p ← makeResponse p; Ok (s, p) else Ok (s, p).

(** The constructor, given the parameters of the SimObject. *)
Definition BRAM_new (size_kb : Z) (clock : D) (width latency : Z) (data : S) : res bram :=
  w ← BRAMWrapper_new is_zero size_kb clock width latency;
  Ok (mkBRAM w false false ∅ ∅ 0 0 [] None None None data [] 0).

Definition BRAM_init (connected : bool) (cache_line : Z) (b : bram) : res bram :=
  if negb connected then Err (Throw "BRAM is unconnected!")
  else if negb (cache_line =? bw_burstSize (b_wrapper b)) then
    Err (Throw "BRAM burst size does not match cache line size")
  else Ok b.

(** Scheduling an event that is scheduled is an assertion failure. *)
Definition schedule_send (b : bram) (when : Z) : res bram :=
  match b_sendResponseEvent b with
  | Some _ => Err AssertFail
  | None => Ok (with_b_sendResponseEvent b (Some when))
  end.
Definition schedule_tick (b : bram) (when : Z) : res bram :=
  match b_tickEvent b with
  | Some _ => Err AssertFail
  | None => Ok (with_b_tickEvent b (Some when))
  end.

Definition BRAM_startup (b : bram) (edge : Z) : res bram := schedule_tick b edge.

Definition BRAM_resetStats (b : bram) : bram := with_b_wrapper b (wrapper_resetStats (b_wrapper b)).

(** [unsigned int] plus the length of the queue. *)
Definition nbrOutstanding (b : bram) : Z :=
  u32 (b_nbrOutstandingReads b + b_nbrOutstandingWrites b + Z.of_nat (length (b_responseQueue b))).

(** [peer] is what the port at the other side answers. *)
Definition sendResponse (now : Z) (peer : bool) (b : bram) : res bram :=
  _ ← assert_ (negb (b_retryResp b));
  match b_responseQueue b with
  | [] => Err AssertFail
  | p :: q =>
      if peer then
        let b := with_b_responseQueue (with_b_sent b (b_sent b ++ [p])) q in
        match q, b_sendResponseEvent b with
        | _ :: _, None => schedule_send b now
        | _, _ => Ok b
        end
      else
        let b := with_b_retryResp b true in
        _ ← assert_ (bool_decide (b_sendResponseEvent b = None));
        Ok b
  end.

Definition accessAndRespond (now : Z) (p : Packet) (b : bram) : res bram :=
  let needs := pk_needsResponse p in
  q ← access (b_data b) p;
  let '(data, p) := q in
  let b := with_b_data b data in
  if (needs : bool) then
    _ ← assert_ (pk_isResponse p);
    let time := now + pk_delay p in
    let p := clear_delay p in
    let b := with_b_responseQueue b (b_responseQueue b ++ [p]) in
    if negb (b_retryResp b) && bool_decide (b_sendResponseEvent b = None) then schedule_send b time else Ok b
  else Ok (with_b_pendingDelete b (Some p)).

(** The event loop takes the tick event off before it runs. *)
Definition BRAM_tick (now : Z) (timing : bool) (b : bram) : res bram :=
  let b := with_b_tickEvent b None in
  let b :=
    if timing then
      let b := with_b_wrapper b (wrapper_tick (b_wrapper b)) in
      if b_retryReq b && (nbrOutstanding b <? bw_queueSize (b_wrapper b)) then
        with_b_retries (with_b_retryReq b false) (b_retries b + 1)
      else b
    else b in
  schedule_tick b (next_tick now (bw_clockPeriod (b_wrapper b))).

Definition push_outstanding (m : gmap Z (list Packet)) (p : Packet) : gmap Z (list Packet) :=
  <[pk_addr p := default [] (m !! pk_addr p) ++ [p]]> m.

Definition recvTimingReq (now : Z) (p : Packet) (b : bram) : res (bool * bram) :=
  if pk_cacheResponding p then Ok (true, with_b_pendingDelete b (Some p))
  else if b_retryReq b then Ok (false, b)
  else
    let can_accept := nbrOutstanding b <? bw_queueSize (b_wrapper b) in
    r ← (if pk_isRead p then
           Ok (false, if can_accept then
                 with_b_nbrOutstandingReads
                   (with_b_outstandingReads b (push_outstanding (b_outstandingReads b) p)) (u32 (b_nbrOutstandingReads b + 1))
               else b)
         else if pk_isWrite p then
           if can_accept then
             b ← accessAndRespond now p
                   (with_b_nbrOutstandingWrites
                      (with_b_outstandingWrites b (push_outstanding (b_outstandingWrites b) p)) (u32 (b_nbrOutstandingWrites b + 1)));
             Ok (false, b)
           else Ok (false, b)
         else b ← accessAndRespond now p b; Ok (true, b));
    let '(done, b) := r in
    if (done : bool) then Ok (true, b)
    else if can_accept then
      ok ← canAccept (b_wrapper b) (pk_addr p);
      _ ← assert_ ok;
      w ← enqueue_txn (b_wrapper b) (pk_addr p) (pk_isWrite p);
      Ok (true, with_b_wrapper b w)
    else Ok (false, with_b_retryReq b true).

Definition recvRespRetry (now : Z) (peer : bool) (b : bram) : res bram :=
  _ ← assert_ (b_retryResp b);
  sendResponse now peer (with_b_retryResp b false).

(** The packet at the front of the queue of an address. *)
Definition pop_outstanding (m : gmap Z (list Packet)) (a : Z) : res (Packet * gmap Z (list Packet)) :=
  match m !! a with
  | None => Err AssertFail
  | Some [] => Err UndefinedBehaviour
  | Some [p] => Ok (p, delete a m)
  | Some (p :: q) => Ok (p, <[a := q]> m)
  end.

Definition readComplete (now a : Z) (b : bram) : res bram :=
  q ← pop_outstanding (b_outstandingReads b) a;
  _ ← assert_ (negb (b_nbrOutstandingReads b =? 0));
  accessAndRespond now q.1
    (with_b_nbrOutstandingReads (with_b_outstandingReads b q.2) (u32 (b_nbrOutstandingReads b - 1))).

Definition writeComplete (a : Z) (b : bram) : res bram :=
  q ← pop_outstanding (b_outstandingWrites b) a;
  _ ← assert_ (negb (b_nbrOutstandingWrites b =? 0));
  Ok (with_b_nbrOutstandingWrites (with_b_outstandingWrites b q.2) (u32 (b_nbrOutstandingWrites b - 1))).

(** Whether the object is still draining. *)
Definition BRAM_drain (b : bram) : bool := negb (nbrOutstanding b =? 0).

Definition BRAM_recvAtomic (p : Packet) (b : bram) : res (Z * bram) :=
  q ← access (b_data b) p;
  let '(data, p) := q in
  Ok (if pk_cacheResponding p then 0 else period_ticks (bw_clockPeriod (b_wrapper b)), with_b_data b data).

(** A functional access passes over the responses that have not left yet;
    each may satisfy the packet or be updated by it. *)
Fixpoint satisfy_loop (trySatisfy : Packet -> Packet -> Packet * Packet) (p : Packet) (q : list Packet) : Packet * list Packet :=
  match q with
  | [] => (p, [])
  | r :: q =>
      let '(p, r) := trySatisfy p r in
      let '(p, q) := satisfy_loop trySatisfy p q in
      (p, r :: q)
  end.
Definition BRAM_recvFunctional (functionalAccess : S -> Packet -> S * Packet)
    (trySatisfy : Packet -> Packet -> Packet * Packet) (p : Packet) (b : bram) : Packet * bram :=
  let '(data, p) := functionalAccess (b_data b) p in
  let '(p, q) := satisfy_loop trySatisfy p (b_responseQueue b) in
  (p, with_b_responseQueue (with_b_data b data) q).

(** A queue towards the port that is shorter than [unsigned int] can count. *)
Definition short_queue (b : bram) : Prop := Z.of_nat (length (b_responseQueue b)) < 2 ^ 31.

(** What the simulator does to the object: requests and retries from the
    port, and its two events.  An event runs at the time it is scheduled
    for.  A retry sent in a tick makes the port send its request again: a
    step of its own. *)
Inductive bram_step (b : bram) : bram -> Prop :=
| StepRequest now p ok b' : recvTimingReq now p b = Ok (ok, b') -> bram_step b b'
| StepTick now timing b' : b_tickEvent b = Some now -> BRAM_tick now timing b = Ok b' -> bram_step b b'
| StepSend now peer b' :
    b_sendResponseEvent b = Some now -> sendResponse now peer (with_b_sendResponseEvent b None) = Ok b' -> bram_step b b'
| StepRetry now peer b' : b_retryResp b = true -> recvRespRetry now peer b = Ok b' -> bram_step b b'
| StepReset : bram_step b (BRAM_resetStats b).

Inductive bram_run (b0 : bram) : bram -> Prop :=
| bram_start : bram_run b0 b0
| bram_next b b' : bram_run b0 b -> short_queue b -> bram_step b b' -> bram_run b0 b'.
End BRAM.
