(* ===== verification/BramProps.v ===== *)
(** * BramProps: the properties of the block RAM model

    No assertion of the model fails when its address range ends within the
    size of the block RAM; with a range that starts beyond it, the first read
    or write fails one.  The completion callbacks are never called: reads are
    not answered, and after 16 transactions nothing is accepted any more. *)
From stdpp Require Import prelude gmap strings.
From S2P Require Import Prelude Bram.
Open Scope Z_scope.

Section Props.
Context {D S : Type}.
Variable is_zero : D -> bool.
Variable next_tick : Z -> D -> Z.
Variable range : AddrRange.
Variable ops : DataOps S.

Local Abbreviation bram := (BRAM D S).
Local Abbreviation step := (bram_step next_tick range ops).

(** The commands the data access has no assertion or panic against. *)
Definition handled (p : Packet) : bool :=
  let c := pk_cmd p in
  if cm_isSwap c then
    cm_isAtomicOp c ||
    pmemAddr ops && (negb (cm_isCondSwap c) || (pk_size p =? 8) || (pk_size p =? 4)) && negb (cm_isInstFetch c)
  else if pk_isRead p then negb (pk_isWrite p) && negb (cm_isLLSC c && cm_fromCache c)
  else if cm_isMaintenance c then negb (pk_isWrite p)
  else pk_isWrite p && negb (cm_isInstFetch c).

(** A request the memory has to serve: its command is one the data access
    handles, load-locked and store-conditional bookkeeping accept it, it lies
    in the range of the memory, and the commands without access need no
    response. *)
Record proper_request (p : Packet) : Prop := mkProper {
  pr_request : pk_isResponse p = false;
  pr_quiet : pk_noAccess p = true -> pk_needsResponse p = false;
  pr_range : isSubset (getAddrRange p) range = true;
  pr_handled : handled p = true;
  pr_tracked : cm_isLLSC (pk_cmd p) = true -> forall s, is_Ok (trackLoadLocked ops s p);
  pr_stored : pk_isWrite p = true -> forall s, is_Ok (writeOK ops s p)
}.

Lemma transfer_ok s p : proper_request p -> is_Ok (transfer ops s p).
Proof.
  intros [_ _ _ Hh Ht Hw]. unfold handled in Hh. unfold transfer. destruct (cm_isSwap _).
  { destruct (cm_isAtomicOp _); [by eexists|]. cbn in Hh. destruct (pmemAddr ops); [|done].
    destruct (cm_isCondSwap _), (pk_size p =? 8), (pk_size p =? 4), (cm_isInstFetch _); try done; by eexists. }
  destruct (pk_isRead p).
  { destruct (pk_isWrite p); [done|]. destruct (cm_isLLSC _); [|by eexists]. destruct (cm_fromCache _); [done|].
    destruct (Ht eq_refl s) as [s' Hs]. cbn. rewrite Hs. by eexists. }
  destruct (cm_isMaintenance _); [destruct (pk_isWrite p); [done|by eexists]|].
  destruct (pk_isWrite p); [|done]. destruct (Hw eq_refl s) as [[ok s'] Hs]. rewrite Hs. cbn.
  destruct (cm_isInstFetch _); [done|]. destruct ok; by eexists.
Qed.

Lemma subset_start p : proper_request p ->
  ar_start range <= pk_addr p /\ (ar_start range < ar_end range -> ar_end range <> 0 -> pk_addr p < ar_end range).
Proof.
  intros [_ _ Hr _ _ _]. unfold isSubset, getAddrRange in Hr. cbn in Hr. repeat (dcase Hr); bool_hyps; lia.
Qed.

(** What the wrapper's own test says of the address. *)
Definition within (b : bram) (p : Packet) : Prop := pk_addr p / bw_widthBytes (b_wrapper b) < bw_depth (b_wrapper b).
#[local] Instance within_dec b p : Decision (within b p).
Proof. unfold within. apply _. Defined.

Record bram_inv (b : bram) : Prop := mkBramInv {
  bi_reads : 0 <= b_nbrOutstandingReads b;
  bi_writes : 0 <= b_nbrOutstandingWrites b;
  bi_room : b_nbrOutstandingReads b + b_nbrOutstandingWrites b <= 16;
  bi_pending : Z.of_nat (length (bw_pending (b_wrapper b))) <= b_nbrOutstandingReads b + b_nbrOutstandingWrites b;
  bi_size : bw_queueSize (b_wrapper b) = 16;
  bi_width : bw_widthBytes (b_wrapper b) <> 0;
  bi_wait : b_retryResp b = true -> b_sendResponseEvent b = None /\ b_responseQueue b <> [];
  bi_event : b_sendResponseEvent b <> None -> b_responseQueue b <> [];
  bi_live : b_responseQueue b <> [] -> b_sendResponseEvent b <> None \/ b_retryResp b = true;
  bi_kind : Forall (fun p => pk_isRead p = false) (b_sent b ++ b_responseQueue b)
}.

(** What a step leaves alone: the shape of the wrapper, and the counters only
    grow. *)
Record bram_grows (b b' : bram) : Prop := mkGrows {
  bg_reads : b_nbrOutstandingReads b <= b_nbrOutstandingReads b';
  bg_writes : b_nbrOutstandingWrites b <= b_nbrOutstandingWrites b';
  bg_depth : bw_depth (b_wrapper b') = bw_depth (b_wrapper b);
  bg_width : bw_widthBytes (b_wrapper b') = bw_widthBytes (b_wrapper b)
}.

Lemma grows_refl b : bram_grows b b.
Proof. by split. Qed.
Lemma grows_trans b1 b2 b3 : bram_grows b1 b2 -> bram_grows b2 b3 -> bram_grows b1 b3.
Proof. intros [] []. split; try lia; congruence. Qed.

Lemma send_ok now peer b :
  bram_inv b -> b_retryResp b = false -> b_responseQueue b <> [] ->
  exists b', sendResponse now peer (with_b_sendResponseEvent b None) = Ok b' /\ bram_inv b' /\ bram_grows b b'.
Proof.
  intros [] Hr Hq. unfold sendResponse. cbn. rewrite Hr. cbn. destruct (b_responseQueue b) as [|p q] eqn:Hqueue; [done|].
  destruct peer.
  - destruct q as [|p' q].
    + eexists. split; [done|]. split; [|by split]. split; cbn; try done; [by rewrite Hr|]. by rewrite app_nil_r.
    + eexists. split; [done|]. split; [|by split]. split; cbn; try done; [by rewrite Hr|by left|].
      by rewrite <- app_assoc.
  - eexists. split; [done|]. split; [|by split]. split; cbn; rewrite ?Hqueue; try done. by right.
Qed.

Lemma retry_ok now peer b :
  bram_inv b -> b_retryResp b = true ->
  exists b', recvRespRetry now peer b = Ok b' /\ bram_inv b' /\ bram_grows b b'.
Proof.
  intros Hb Hr. destruct (bi_wait b Hb Hr) as [He Hq]. unfold recvRespRetry. rewrite Hr. cbn [assert_ mbind res_bind].
  assert (Hs : exists b', sendResponse now peer (with_b_sendResponseEvent (with_b_retryResp b false) None) = Ok b' /\
             bram_inv b' /\ bram_grows (with_b_retryResp b false) b').
  { destruct (b_responseQueue b) as [|p q] eqn:Hqueue; [done|]. unfold sendResponse. cbn. rewrite Hqueue. destruct Hb.
    destruct peer; [destruct q as [|p' q]|].
    - eexists. split; [done|]. split; [|by split]. split; cbn; try done. rewrite Hqueue in bi_kind0. by rewrite app_nil_r.
    - eexists. split; [done|]. split; [|by split]. split; cbn; try done; [by left|]. rewrite Hqueue in bi_kind0. by rewrite <- app_assoc.
    - eexists. split; [done|]. split; [|by split]. split; cbn; rewrite ?Hqueue in *; try done. by right. }
  destruct Hs as (b' & Hs & Hb' & Hg). exists b'. split; [|split; [done|destruct Hg; by split]].
  rewrite <- Hs. f_equal. destruct b; cbn in *. by rewrite He.
Qed.

Lemma access_kind s p s' p' : access range ops s p = Ok (s', p') -> pk_isRead p' = pk_isRead p.
Proof.
  unfold access. intros H. dcase H; [by injection H as _ <-|]. dcase H; [by injection H as _ <-|].
  apply bind_Ok_inv in H as (_ & _ & H). apply bind_Ok_inv in H as (s1 & _ & H).
  dcase H; [|by injection H as _ <-].
  apply bind_Ok_inv in H as (p2 & Hp & [= _ <-]). unfold makeResponse in Hp. inv_res. by subst.
Qed.

Lemma access_ok s p : proper_request p ->
  exists s' p', access range ops s p = Ok (s', p') /\
    (pk_cacheResponding p = false -> pk_needsResponse p = true -> pk_isResponse p' = true).
Proof.
  intros Hp. destruct (transfer_ok s p Hp) as [s1 Ht]. destruct Hp as [Hreq Hq Hr _ _ _].
  unfold access. destruct (pk_cacheResponding p); [by exists s, p|].
  destruct (pk_noAccess p); [exists s, p; split; [done|]; intros _; by rewrite Hq|]. rewrite Hr, Ht. cbn [assert_ mbind res_bind].
  destruct (pk_needsResponse p) eqn:Hn1; [|by exists s1, p].
  unfold makeResponse. rewrite Hn1, Hreq. cbn. by do 2 eexists.
Qed.

(** A packet that is not answered by a cache gets its response queued; a
    packet that fails was no proper request. *)
Lemma respond_ok now p b :
  bram_inv b -> pk_isRead p = false -> pk_cacheResponding p = false ->
  ends (fun _ => ~ proper_request p) (accessAndRespond range ops now p b)
    (fun b' => bram_inv b' /\ bram_grows b b' /\ b_wrapper b' = b_wrapper b /\
       b_nbrOutstandingReads b' = b_nbrOutstandingReads b /\ b_nbrOutstandingWrites b' = b_nbrOutstandingWrites b).
Proof.
  intros Hb Hp Hc. unfold accessAndRespond. pose proof (access_ok (b_data b) p) as Hok.
  destruct (access range ops (b_data b) p) as [[data p']|e] eqn:Ha; cbn [mbind res_bind ends];
    [|intros Hpr; by destruct (Hok Hpr) as (? & ? & ? & _)].
  pose proof (access_kind _ _ _ _ Ha) as Hkind. destruct (pk_needsResponse p); [|destruct Hb; by split_and!].
  destruct (pk_isResponse p') eqn:Hresp; cbn [assert_ mbind res_bind ends];
    [|intros Hpr; destruct (Hok Hpr) as (? & ? & [= <- <-] & H); specialize (H Hc eq_refl); congruence].
  destruct Hb. unfold schedule_send. cbn.
  assert (Hk : Forall (fun p => pk_isRead p = false) (b_sent b ++ b_responseQueue b ++ [clear_delay p'])).
  { rewrite app_assoc. apply Forall_app. split; [done|]. apply Forall_singleton. cbn. by rewrite Hkind. }
  assert (Hne : b_responseQueue b ++ [clear_delay p'] <> []) by (by destruct (b_responseQueue b)).
  destruct (b_retryResp b) eqn:Hrr; cbn [negb andb ends].
  - split_and!; try done. split; cbn; try done; [|by right]. intros _. split; [by apply bi_wait0|done].
  - destruct (b_sendResponseEvent b) as [e|] eqn:He; cbn.
    + split_and!; try done. split; cbn; rewrite ?He; try done; [by rewrite Hrr|by left].
    + split_and!; try done. split; cbn; try done; [by rewrite Hrr|by left].
Qed.

Lemma nbrOutstanding_exact b : bram_inv b -> short_queue b ->
  nbrOutstanding b = b_nbrOutstandingReads b + b_nbrOutstandingWrites b + Z.of_nat (length (b_responseQueue b)).
Proof. intros [] Hs. unfold short_queue in Hs. apply wrap_id. lia. Qed.

(** Counting a transaction, read or write, when there is room. *)
Lemma counted_ok b reads writes rm wm :
  bram_inv b -> b_nbrOutstandingReads b + b_nbrOutstandingWrites b < 16 ->
  (reads = u32 (b_nbrOutstandingReads b + 1) /\ writes = b_nbrOutstandingWrites b \/
   reads = b_nbrOutstandingReads b /\ writes = u32 (b_nbrOutstandingWrites b + 1)) ->
  let b' := with_b_nbrOutstandingWrites (with_b_nbrOutstandingReads (with_b_outstandingWrites (with_b_outstandingReads b rm) wm) reads) writes in
  bram_inv b' /\ bram_grows b b' /\
  reads + writes = b_nbrOutstandingReads b + b_nbrOutstandingWrites b + 1.
Proof.
  intros [] Hlt Hcase. assert (Hu : forall x, 0 <= x <= 16 -> u32 x = x) by (intros; apply wrap_id; lia).
  cbn. split_and!.
  - split; cbn; try done; destruct Hcase as [[-> ->]|[-> ->]]; rewrite ?Hu by lia; lia.
  - split; cbn; try done; destruct Hcase as [[-> ->]|[-> ->]]; rewrite ?Hu by lia; lia.
  - destruct Hcase as [[-> ->]|[-> ->]]; rewrite Hu by lia; lia.
Qed.

(** The assertion, and the one inside [enqueue], hold exactly for addresses
    within the wrapper. *)
Lemma canAccept_ok b p n :
  bram_inv b -> Z.of_nat (length (bw_pending (b_wrapper b))) <= n -> n < 16 ->
  canAccept (b_wrapper b) (pk_addr p) = Ok (bool_decide (within b p)).
Proof.
  intros [] Hp Hn. unfold canAccept. rewrite bi_size0.
  destruct (Z.leb_spec 16 (Z.of_nat (length (bw_pending (b_wrapper b))))); [lia|].
  destruct (Z.eqb_spec (bw_widthBytes (b_wrapper b)) 0); [done|]. f_equal.
  destruct (Z.ltb_spec (pk_addr p / bw_widthBytes (b_wrapper b)) (bw_depth (b_wrapper b))); symmetry;
    [by apply bool_decide_eq_true_2|apply bool_decide_eq_false_2; unfold within; lia].
Qed.

Lemma enqueue_ends b p w_ n :
  bram_inv b -> Z.of_nat (length (bw_pending (b_wrapper b))) <= n -> n < 16 ->
  n + 1 <= b_nbrOutstandingReads b + b_nbrOutstandingWrites b ->
  ends (fun e => e = AssertFail /\ ~ within b p)
    (ok ← canAccept (b_wrapper b) (pk_addr p);
     _ ← assert_ ok;
     w ← enqueue_txn (b_wrapper b) (pk_addr p) w_;
     Ok (true, with_b_wrapper b w))
    (fun r => r.1 = true /\ within b p /\ bram_inv r.2 /\ bram_grows b r.2 /\
       b_nbrOutstandingReads r.2 = b_nbrOutstandingReads b /\ b_nbrOutstandingWrites r.2 = b_nbrOutstandingWrites b).
Proof.
  intros Hb Hp Hn Hsum. unfold enqueue_txn. rewrite (canAccept_ok b p n) by done. cbn [mbind res_bind].
  case_bool_decide as Hw; cbn [assert_ mbind res_bind ends]; [|done]. split_and!; try done. destruct Hb.
  split; cbn; try done. rewrite length_app. cbn. lia.
Qed.

(** Whether a request gets past flow control. *)
Definition admitted (b : bram) (p : Packet) : Prop :=
  pk_cacheResponding p = false /\ b_retryReq b = false /\ nbrOutstanding b < bw_queueSize (b_wrapper b) /\
  pk_isRead p || pk_isWrite p = true.

(** The paths that leave the counters alone. *)
Local Ltac unchanged Hb :=
  cbn; split_and!; try done; first [by destruct Hb | apply grows_refl | intros (? & ? & ? & ?); first [done | lia]].

(** A request fails only when it is no proper one, or when it is admitted
    with an address outside the wrapper, which fails the assertion. *)
Lemma request_ends now p b :
  bram_inv b -> short_queue b ->
  ends (fun e => ~ proper_request p \/ e = AssertFail /\ admitted b p /\ ~ within b p)
    (recvTimingReq range ops now p b)
    (fun r => bram_inv r.2 /\ bram_grows b r.2 /\ (admitted b p -> within b p) /\
       (pk_cacheResponding p = false -> pk_isRead p || pk_isWrite p = true ->
        if r.1 : bool then b_nbrOutstandingReads r.2 + b_nbrOutstandingWrites r.2 =
                           b_nbrOutstandingReads b + b_nbrOutstandingWrites b + 1
        else b_retryReq r.2 = true)).
Proof.
  intros Hb Hs. unfold recvTimingReq, admitted. destruct (pk_cacheResponding p) eqn:Hcr.
  { unchanged Hb. }
  destruct (b_retryReq b) eqn:Hrq; [unchanged Hb|].
  rewrite (bi_size b Hb), (nbrOutstanding_exact b Hb Hs).
  remember (b_nbrOutstandingReads b + b_nbrOutstandingWrites b + Z.of_nat (length (b_responseQueue b)) <? 16) as can eqn:Hc0.
  assert (Hcan : can = true <-> b_nbrOutstandingReads b + b_nbrOutstandingWrites b + Z.of_nat (length (b_responseQueue b)) < 16)
    by (rewrite Hc0; apply Z.ltb_lt). clear Hc0.
  pose proof (bi_pending b Hb) as Hpend.
  destruct (pk_isRead p) eqn:Hrd; [|destruct (pk_isWrite p) eqn:Hwr]; cbn [mbind res_bind].
  - destruct can; [|assert (Hfull : ~ b_nbrOutstandingReads b + b_nbrOutstandingWrites b + Z.of_nat (length (b_responseQueue b)) < 16) by (by intros ?%Hcan); unchanged Hb].
    pose proof (proj1 Hcan eq_refl) as Hroom.
    destruct (counted_ok b (u32 (b_nbrOutstandingReads b + 1)) (b_nbrOutstandingWrites b)
                (push_outstanding (b_outstandingReads b) p) (b_outstandingWrites b) Hb) as (Hb1 & Hg1 & Hsum); [lia|by left|].
    match goal with |- context [canAccept (b_wrapper ?x)] => set (b1 := x) in * end.
    change (bram_inv b1) in Hb1. change (bram_grows b b1) in Hg1.
    eapply ends_mono; [eapply ends_weaken; [|apply (enqueue_ends b1 p (pk_isWrite p) (b_nbrOutstandingReads b + b_nbrOutstandingWrites b) Hb1 Hpend)]; [|lia|cbn; lia]|].
    + intros e [-> Hw]. right. split_and!; done.
    + intros [ok b2] _ (Hok & Hw & Hb2 & Hg2 & Hr2 & Hw2). cbn [fst snd] in *. subst ok. split_and!; [done|by eapply grows_trans|done|].
      intros _ _. rewrite Hr2, Hw2. cbn. lia.
  - destruct can; [|assert (Hfull : ~ b_nbrOutstandingReads b + b_nbrOutstandingWrites b + Z.of_nat (length (b_responseQueue b)) < 16) by (by intros ?%Hcan); unchanged Hb].
    pose proof (proj1 Hcan eq_refl) as Hroom.
    destruct (counted_ok b (b_nbrOutstandingReads b) (u32 (b_nbrOutstandingWrites b + 1)) (b_outstandingReads b)
                (push_outstanding (b_outstandingWrites b) p) Hb) as (Hb1 & Hg1 & Hsum); [lia|by right|].
    match goal with |- context [accessAndRespond range ops now p ?x] => set (b1 := x) in * end.
    assert (Hb1' : bram_inv b1) by (destruct Hb1; by split). assert (Hg1' : bram_grows b b1) by (destruct Hg1; by split).
    apply ends_bind, ends_bind. eapply ends_mono; [eapply ends_weaken; [|apply (respond_ok now p b1 Hb1' Hrd Hcr)]; by left|].
    intros b2 _ (Hb2 & Hg2 & Hw2 & Hr2 & Hwr2). cbn [ends].
    eapply ends_mono; [eapply ends_weaken; [|apply (enqueue_ends b2 p true (b_nbrOutstandingReads b + b_nbrOutstandingWrites b) Hb2)]|].
    + unfold within. rewrite Hw2. intros e [-> Hw]. right. split_and!; done.
    + by rewrite Hw2.
    + lia.
    + rewrite Hr2, Hwr2. cbn. lia.
    + intros [ok b3] _ (Hok & Hw & Hb3 & Hg3 & Hr3 & Hw3). cbn [fst snd] in *. subst ok. unfold within in Hw. rewrite Hw2 in Hw.
      split_and!; [done|exact (grows_trans _ _ _ Hg1' (grows_trans _ _ _ Hg2 Hg3))|done|].
      intros _ _. rewrite Hr3, Hw3, Hr2, Hwr2. cbn. lia.
  - apply ends_bind, ends_bind. eapply ends_mono; [eapply ends_weaken; [|apply (respond_ok now p b Hb Hrd Hcr)]; by left|].
    intros b1 _ (Hb1 & Hg1 & _). unchanged Hb.
Qed.

Lemma tick_ok now timing b : bram_inv b -> short_queue b ->
  exists b', BRAM_tick next_tick now timing b = Ok b' /\ bram_inv b' /\ bram_grows b b'.
Proof.
  intros Hb Hs. assert (Hshrink : forall l, (length (tick_loop l) <= length l)%nat).
  { induction l as [|t l IH]; cbn; [lia|]. destruct (_ =? 0); cbn; lia. }
  specialize (Hshrink (bw_pending (b_wrapper b))).
  unfold BRAM_tick. destruct timing; [|eexists; split; [done|]; split; [by destruct Hb|by split]].
  destruct (b_retryReq _ && _); eexists; (split; [done|]); (split; [destruct Hb; split; cbn; try done; lia|by split]).
Qed.

(** ** Steps *)
Lemma step_inv b b' : bram_inv b -> short_queue b -> step b b' -> bram_inv b' /\ bram_grows b b'.
Proof.
  intros Hb Hs Hstep. destruct Hstep as [now p ok b' Hq|now timing b' _ Ht|now peer b' He Hsend|now peer b' Hr Hretry|].
  - pose proof (request_ends now p b Hb Hs) as H. rewrite Hq in H. cbn in H. tauto.
  - destruct (tick_ok now timing b Hb Hs) as (b1 & Ht1 & Hb1 & Hg1). rewrite Ht in Ht1. by injection Ht1 as <-.
  - destruct (b_retryResp b) eqn:Hrr; [destruct (bi_wait b Hb Hrr); congruence|].
    destruct (send_ok now peer b Hb Hrr) as (b1 & Hs1 & Hb1 & Hg1); [apply (bi_event b Hb); congruence|].
    rewrite Hsend in Hs1. by injection Hs1 as <-.
  - destruct (bi_wait b Hb Hr) as [He Hq].
    destruct (retry_ok now peer b Hb Hr) as (b1 & Hs1 & Hb1 & Hg1). rewrite Hretry in Hs1. by injection Hs1 as <-.
  - split; [|by split]. destruct Hb. split; cbn; try done. lia.
Qed.

Lemma run_inv b0 b : bram_inv b0 -> bram_run next_tick range ops b0 b -> bram_inv b /\ bram_grows b0 b.
Proof.
  intros H0. induction 1 as [|b b' _ [Hb Hg] Hs Hstep]; [split; [done|apply grows_refl]|].
  destruct (step_inv b b' Hb Hs Hstep) as [Hb' Hg']. split; [done|by eapply grows_trans].
Qed.

Lemma new_inv size_kb clock width latency data b :
  BRAM_new is_zero size_kb clock width latency data = Ok b -> bram_inv b.
Proof.
  unfold BRAM_new, BRAMWrapper_new. destruct (Z.eqb_spec width 0); [done|]. destruct (is_zero clock); [done|].
  destruct (_ =? 0); [done|]. destruct (negb _); [done|]. cbn. intros [= <-]. split; cbn; try done; try lia.
Qed.

Lemma new_shape size_kb clock width latency data (b : bram) :
  0 <= width -> BRAM_new is_zero size_kb clock width latency data = Ok b -> bw_widthBytes (b_wrapper b) = width /\ 0 < width.
Proof.
  unfold BRAM_new, BRAMWrapper_new. intros H0. destruct (Z.eqb_spec width 0); [done|]. destruct (is_zero clock); [done|].
  destruct (_ =? 0); [done|]. destruct (negb _); [done|]. cbn. intros [= <-]. cbn. lia.
Qed.

Lemma div_lt_iff a w d : 0 < w -> a / w < d <-> a < d * w.
Proof. intros Hw. pose proof (Z.div_lt_upper_bound a w d Hw). pose proof (Z.mul_div_le a w Hw). split; [|intros; lia]. intros. pose proof (Z.mod_pos_bound a w Hw). pose proof (Z.div_mod a w). nia. Qed.

(** C38: The assertions of the gem5 block RAM model, in any state reached from
    construction while the response queue stays shorter than 2^31. When the address
    range of the memory ends within the size of the block RAM (so that it starts low),
    no proper request fails: one in the range, with a command AbstractMemory::access
    handles. When the range starts beyond the size, as in the documented example with
    start 0x40000000, every such read or write that passes flow control fails
    assert(canAccept): the wrapper compares the system address with its depth. In both
    cases no clock tick, response event or response retry fails, no event is scheduled
    twice, and a response that waits has either its event or a retry coming. *)
Theorem bram_never_asserts size_kb clock width latency data (b0 b : bram) :
  0 <= width -> BRAM_new is_zero size_kb clock width latency data = Ok b0 -> bram_run next_tick range ops b0 b -> short_queue b ->
  (forall now p, proper_request p -> 0 <= ar_start range < ar_end range -> ar_end range <= bw_depth (b_wrapper b0) * width ->
     is_Ok (recvTimingReq range ops now p b)) /\
  (forall now p, proper_request p -> admitted b p -> bw_depth (b_wrapper b0) * width <= ar_start range ->
     recvTimingReq range ops now p b = Err AssertFail) /\
  (forall now timing, is_Ok (BRAM_tick next_tick now timing b)) /\
  (forall t now peer, b_sendResponseEvent b = Some t -> is_Ok (sendResponse now peer (with_b_sendResponseEvent b None))) /\
  (forall now peer, b_retryResp b = true -> is_Ok (recvRespRetry now peer b)) /\
  (b_responseQueue b <> [] -> b_sendResponseEvent b <> None \/ b_retryResp b = true).
Proof.
  intros Hw0 Hnew Hrun Hs. destruct (run_inv b0 b (new_inv _ _ _ _ _ _ Hnew) Hrun) as [Hb Hg].
  destruct (new_shape _ _ _ _ _ _ Hw0 Hnew) as [Hw Hpos].
  assert (Hin : forall p, within b p <-> pk_addr p < bw_depth (b_wrapper b0) * width).
  { intros p. unfold within. rewrite (bg_depth _ _ Hg), (bg_width _ _ Hg), Hw. by apply div_lt_iff. }
  split_and!.
  - intros now p Hp Hst Hend. pose proof (request_ends now p b Hb Hs) as H. destruct (recvTimingReq _ _ _ _ _) as [r|e]; [by eexists|].
    destruct H as [H|(_ & _ & H)]; [by destruct H|]. exfalso. apply H, Hin.
    destruct (subset_start p Hp). lia.
  - intros now p Hp Had Hstart. pose proof (request_ends now p b Hb Hs) as H. destruct (recvTimingReq _ _ _ _ _) as [r|e].
    + destruct H as (_ & _ & H & _). specialize (H Had). apply Hin in H. destruct (subset_start p Hp). lia.
    + destruct H as [H|(-> & _)]; [by destruct H|done].
  - intros now timing. destruct (tick_ok now timing b Hb Hs) as (b' & Ht & _). by exists b'.
  - intros t now peer He. destruct (b_retryResp b) eqn:Hrr; [destruct (bi_wait b Hb Hrr); congruence|].
    destruct (send_ok now peer b Hb Hrr) as (b' & Hsend & _); [apply (bi_event b Hb); congruence|]. by exists b'.
  - intros now peer Hr. destruct (retry_ok now peer b Hb Hr) as (b' & Hq & _). by exists b'.
  - apply (bi_live b Hb).
Qed.

(** C39: The block RAM model stalls: in no run does a read packet reach the response
    queue or the port, at most 16 reads and writes are ever accepted, and once 16 were
    accepted every later read or write is refused for ever (as long as the response
    queue is shorter than 2^31), because nothing calls the completion functions. *)
Theorem bram_stalls size_kb clock width latency data (b0 b : bram) :
  BRAM_new is_zero size_kb clock width latency data = Ok b0 -> bram_run next_tick range ops b0 b ->
  Forall (fun p => pk_isRead p = false) (b_sent b ++ b_responseQueue b) /\
  b_nbrOutstandingReads b + b_nbrOutstandingWrites b <= 16 /\
  (b_nbrOutstandingReads b + b_nbrOutstandingWrites b = 16 ->
   forall b' now p, bram_run next_tick range ops b b' -> short_queue b' ->
     pk_cacheResponding p = false -> pk_isRead p || pk_isWrite p = true ->
     exists b'', recvTimingReq range ops now p b' = Ok (false, b'')).
Proof.
  intros Hnew Hrun. destruct (run_inv b0 b (new_inv _ _ _ _ _ _ Hnew) Hrun) as [Hb _]. split_and!; [apply Hb|apply Hb|].
  intros Hfull b' now p Hrun' Hs Hcr Hrw. destruct (run_inv b b' Hb Hrun') as [Hb' Hg].
  assert (Hno : nbrOutstanding b' <? bw_queueSize (b_wrapper b') = false).
  { rewrite (nbrOutstanding_exact b' Hb' Hs), (bi_size b' Hb'). apply Z.ltb_ge. destruct Hb', Hg. lia. }
  unfold recvTimingReq. rewrite Hcr, Hno. destruct (b_retryReq b'); [by eexists|].
  destruct (pk_isRead p); [by eexists|]. cbn in Hrw. rewrite Hrw. by eexists.
Qed.
End Props.

(** ** Sixteen reads *)
(** Data that is not stored, in a memory of 64 KB at the start of the
    address space and in the documented one. *)
Definition no_data : DataOps unit :=
  mkOps unit false (fun s _ => s) (fun s _ => s) (fun s _ => s) (fun s _ => s) (fun s _ => Ok s) (fun s _ => Ok (true, s)).
Definition plain : Command := mkCommand false false false false false false false.
Definition low_range : AddrRange := mkRange 0 65536.
Definition documented_range : AddrRange := mkRange (2 ^ 30) (2 ^ 30 + 65536).

Definition no_bram : BRAM Z unit := mkBRAM (mkWrapper 0 0 1 0 0 0 0 []) false false ∅ ∅ 0 0 [] None None None () [] 0.
Definition bram64 : BRAM Z unit := from_res no_bram (BRAM_new (fun c => c =? 0) 64 4 4 1 ()).

Definition read_at (i : nat) (a : Z) : Packet := mkPacket (Z.of_nat i) a 4 plain false true false true false false 0.
Definition read_packet (i : nat) : Packet := read_at i (4 * Z.of_nat i).
Fixpoint after_reads (n : nat) : BRAM Z unit :=
  match n with
  | O => bram64
  | S n => (from_res (false, no_bram) (recvTimingReq low_range no_data 0 (read_packet n) (after_reads n))).2
  end.

Lemma after_reads_run n : (n <= 16)%nat -> bram_run (fun now c => now + c * 1000) low_range no_data bram64 (after_reads n).
Proof.
  induction n as [|n IH]; intros Hn; [constructor|]. eapply bram_next; [apply IH; lia| |].
  - do 16 (destruct n as [|n]; [by vm_compute|]). lia.
  - eapply (StepRequest _ _ _ _ 0 (read_packet n) true).
    do 16 (destruct n as [|n]; [by vm_compute|]). lia.
Qed.

Lemma bram64_new : BRAM_new (fun c => c =? 0) 64 4 4 1 () = Ok bram64.
Proof. by apply from_res_Ok. Qed.

(** A read while there is room; and the first read of the documented memory,
    which fails the assertion. *)
Lemma bram_never_asserts_witness :
  is_Ok (recvTimingReq low_range no_data 0 (read_packet 3) (after_reads 15)) /\
  recvTimingReq documented_range no_data 0 (read_at 0 (2 ^ 30)) bram64 = Err AssertFail.
Proof.
  split.
  - refine (proj1 (bram_never_asserts (fun c => c =? 0) (fun now c => now + c * 1000) low_range no_data
              64 4 4 1 () bram64 (after_reads 15) ltac:(lia) bram64_new (after_reads_run 15 ltac:(lia)) _) 0 (read_packet 3) _ _ _); [by vm_compute| |by vm_compute..].
    by split; [..|by vm_compute| |intros _ s; eexists|intros _ s; eexists].
  - refine (proj1 (proj2 (bram_never_asserts (fun c => c =? 0) (fun now c => now + c * 1000) documented_range no_data
              64 4 4 1 () bram64 bram64 ltac:(lia) bram64_new (bram_start _ _ _ _) _)) 0 (read_at 0 (2 ^ 30)) _ _ _); [by vm_compute| | |by vm_compute].
    + by split; [..|by vm_compute| |intros _ s; eexists|intros _ s; eexists].
    + split_and!; by vm_compute.
Defined.

Lemma bram_stalls_witness :
  exists b, recvTimingReq low_range no_data 0 (read_packet 3) (after_reads 16) = Ok (false, b).
Proof.
  destruct (bram_stalls (fun c => c =? 0) (fun now c => now + c * 1000) low_range no_data
              64 4 4 1 () bram64 (after_reads 16) bram64_new (after_reads_run 16 ltac:(lia))) as (_ & _ & H).
  refine (H _ (after_reads 16) 0 (read_packet 3) (bram_start _ _ _ _) _ _ _); by vm_compute.
Defined.

(** ** Latency *)
Definition age_txn (n : Z) (t : BRAMTransaction) : BRAMTransaction := mkTxn (tx_addr t) (tx_is_write t) (tx_cycles_remaining t - n).

Lemma tick_loop_spec l :
  Forall (fun t => 0 < tx_cycles_remaining t) l ->
  tick_loop l = map (age_txn 1) (List.filter (fun t => 1 <? tx_cycles_remaining t) l).
Proof.
  induction 1 as [|t l Ht Hl IH]; [done|]. cbn. destruct (Z.ltb_spec 0 (tx_cycles_remaining t)); [|lia].
  destruct (Z.eqb_spec (tx_cycles_remaining t - 1) 0), (Z.ltb_spec 1 (tx_cycles_remaining t)); try lia; cbn; by rewrite IH.
Qed.

(** n clock ticks of the block RAM wrapper remove exactly the transactions with at
    most n cycles left and age the others by n, in order: a transaction leaves after
    exactly its latency. *)
Theorem bram_latency {D} (w : BRAMWrapper D) (n : nat) :
  Forall (fun t => 0 < tx_cycles_remaining t) (bw_pending w) ->
  bw_pending (Nat.iter n wrapper_tick w) =
  map (age_txn (Z.of_nat n)) (List.filter (fun t => Z.of_nat n <? tx_cycles_remaining t) (bw_pending w)).
Proof.
  intros Hw. induction n as [|n IH].
  - change (Z.of_nat 0) with 0. change (Nat.iter 0 wrapper_tick w) with w. revert Hw. generalize (bw_pending w). intros q Hq.
    induction Hq as [|[a wr k] l Hk Hl IHl]; [done|]. cbn in *. destruct (Z.ltb_spec 0 k); [|lia]. cbn.
    rewrite <- IHl. unfold age_txn. cbn [tx_addr tx_is_write tx_cycles_remaining]. by replace (k - 0) with k by lia.
  - change (bw_pending (Nat.iter (S n) wrapper_tick w)) with (tick_loop (bw_pending (Nat.iter n wrapper_tick w))).
    rewrite IH. clear IH.
    rewrite tick_loop_spec.
    + revert Hw. generalize (bw_pending w). intros q Hq. induction Hq as [|t l Ht Hl IHl]; [done|]. cbn [List.filter].
      destruct (Z.ltb_spec (Z.of_nat n) (tx_cycles_remaining t)), (Z.ltb_spec (Z.of_nat (S n)) (tx_cycles_remaining t)); try lia.
      * cbn [map List.filter age_txn tx_cycles_remaining]. destruct (Z.ltb_spec 1 (tx_cycles_remaining t - Z.of_nat n)); [|lia].
        cbn [map]. rewrite IHl. f_equal. unfold age_txn. cbn. f_equal. lia.
      * cbn [map List.filter age_txn tx_cycles_remaining]. destruct (Z.ltb_spec 1 (tx_cycles_remaining t - Z.of_nat n)); [lia|]. exact IHl.
      * exact IHl.
    + apply Forall_forall. intros t Hin%list_elem_of_In. apply in_map_iff in Hin as (u & <- & [_ Hu]%filter_In).
      apply Z.ltb_lt in Hu. cbn. lia.
Qed.

Lemma bram_latency_witness :
  bw_pending (Nat.iter 2 wrapper_tick (mkWrapper 4 65536 4 16384 3 16 4 [mkTxn 0 false 2; mkTxn 4 true 3])) = [mkTxn 4 true 1].
Proof.
  refine (bram_latency (mkWrapper 4 65536 4 16384 3 16 4 [mkTxn 0 false 2; mkTxn 4 true 3]) 2 _).
  cbn [bw_pending]. rewrite !Forall_cons, Forall_nil. cbn. lia.
Defined.
