(* ===== verification/CostModel.v ===== *)
(** * CostModel: the latency and energy model of the in-memory arithmetic

    Models [additional_material/test_cost_model.cc] of the gem5 tree: the
    latency tables of adders and multipliers by bit precision, the selection
    of the fastest circuit, and the energy formulas.  Arithmetic on
    [double], with [log], [log2] and [ceil], is a parameter: a record of
    operations; a decimal literal is its digits and their number after the
    point. *)
From stdpp Require Import prelude gmap strings.
From S2P Require Import Prelude.
Open Scope Z_scope.

(** ** The tables (picoseconds) *)
Definition LAT_DAFTPUM_FULL_ADDER : list Z :=
  [(-1); 676; 676; 915; 1154; 1393; 1632; 1871; 2110; 2349; 2588; 2827; 3066; 3305; 3544; 3783; 4022; 4261;
   4500; 4739; 4978; 5217; 5456; 5695; 5934; 6173; 6412; 6651; 6890; 7129; 7368; 7607; 7846; 8085; 8324; 8563;
   8802; 9041; 9280; 9519; 9758; 9997; 10236; 10475; 10714; 10953; 11192; 11431; 11670; 11909; 12148; 12387;
   12626; 12865; 13104; 13343; 13582; 13821; 14060; 14299; 14538; 14777; 15016; 15255].

Definition LAT_DAFTPUM_SKLANSKY_ADDER : list Z :=
  [(-1); 1757; 1757; 2556; 2556; 3152; 3152; 3152; 3152; 3812; 3812; 3812; 3812; 3812; 3812; 3812; 3812; 4600;
   4600; 4600; 4600; 4600; 4600; 4600; 4600; 4600; 4600; 4600; 4600; 4600; 4600; 4600; 4600; 5644; 5644; 5644;
   5644; 5644; 5644; 5644; 5644; 5644; 5644; 5644; 5644; 5644; 5644; 5644; 5644; 5644; 5644; 5644; 5644; 5644;
   5644; 5644; 5644; 5644; 5644; 5644; 5644; 5644; 5644; 5644].

Definition LAT_DAFTPUM_KOGGE_ADDER : list Z :=
  [(-1); 1663; 1663; 2227; 2227; 2823; 2823; 2823; 2823; 3483; 3483; 3483; 3483; 3483; 3483; 3483; 3483; 4271;
   4271; 4271; 4271; 4271; 4271; 4271; 4271; 4271; 4271; 4271; 4271; 4271; 4271; 4271; 4271; 5315; 5315; 5315;
   5315; 5315; 5315; 5315; 5315; 5315; 5315; 5315; 5315; 5315; 5315; 5315; 5315; 5315; 5315; 5315; 5315; 5315;
   5315; 5315; 5315; 5315; 5315; 5315; 5315; 5315; 5315; 5315].

Definition LAT_DAFTPUM_CARRYSEL_ADDER : list Z :=
  [(-1); 676; 676; 915; 1154; 2398; 2398; 2398; 2398; 3046; 3046; 3046; 3046; 3046; 3046; 3046; 3046; 4342;
   4342; 4342; 4342; 4342; 4342; 4342; 4342; 4342; 4342; 4342; 4342; 4342; 4342; 4342; 4342; 6934; 6934; 6934;
   6934; 6934; 6934; 6934; 6934; 6934; 6934; 6934; 6934; 6934; 6934; 6934; 6934; 6934; 6934; 6934; 6934; 6934;
   6934; 6934; 6934; 6934; 6934; 6934; 6934; 6934; 6934; 6934].

Definition LAT_DAFTPUM_RBR_ADDER : list Z :=
  [(-1); 2194; 2194; 2194; 2194; 2194; 2194; 2194; 2194; 2194; 2194; 2194; 2194; 2194; 2194; 2194; 2194; 2194;
   2194; 2194; 2194; 2194; 2194; 2194; 2194; 2194; 2194; 2194; 2194; 2194; 2194; 2194; 2194; 2194; 2194; 2194;
   2194; 2194; 2194; 2194; 2194; 2194; 2194; 2194; 2194; 2194; 2194; 2194; 2194; 2194; 2194; 2194; 2194; 2194;
   2194; 2194; 2194; 2194; 2194; 2194; 2194; 2194; 2194; 2194].

Definition LAT_SIMDRAM_RC_MULT : list Z :=
  [(-1); 1617; 1617; 4067; 7595; 12201; 17885; 24647; 32487; 41405; 51401; 62475; 74627; 87857; 102165; 117551;
   134015; 151557; 170177; 189875; 210651; 232505; 255437; 279447; 304535; 330701; 357945; 386267; 415667;
   446145; 477701; 510335; 544047; 578837; 614705; 651651; 689675; 728777; 768957; 810215; 852551; 895965;
   940457; 986027; 1032675; 1080401; 1129205; 1179087; 1230047; 1282085; 1335201; 1389395; 1444667; 1501017;
   1558445; 1616951; 1676535; 1737197; 1798937; 1861755; 1925651; 1990625; 2056677; 2123807].

Definition LAT_DAFTPUM_SKLANSKY_MULT : list Z :=
  [(-1); 5120; 5120; 8722; 12656; 16856; 21283; 25911; 30720; 35698; 40833; 46117; 51542; 57104; 62797; 68617;
   74560; 80623; 86803; 93098; 99505; 106023; 112649; 119382; 126221; 133163; 140208; 147355; 154602; 161949;
   169394; 176937; 184576; 192311; 200142; 208067; 216086; 224199; 232404; 240702; 249091; 257571; 266142;
   274803; 283554; 292395; 301325; 310343; 319450; 328644; 337927; 347296; 356753; 366296; 375926; 385643;
   395445; 405333; 415306; 425364; 435508; 445736; 456049; 466447].

Definition LAT_DAFTPUM_CSA_MULT : list Z :=
  [(-1); 2974; 2974; 7773; 11052; 14675; 18642; 22953; 27608; 32607; 37950; 43637; 49668; 56043; 62762; 69825;
   77232; 84983; 93078; 101517; 110300; 119427; 128898; 138713; 148872; 159375; 170222; 181413; 192948;
   204827; 217050; 229617; 242528; 255783; 269382; 283325; 297612; 312243; 327218; 342537; 358200; 374207;
   390558; 407253; 424292; 441675; 459402; 477473; 495888; 514647; 533750; 553197; 572988; 593123; 613602;
   634425; 655592; 677103; 698958; 721157; 743700; 766587; 789818; 813393].

Definition LAT_DAFTPUM_RBR_MULT : list Z :=
  [(-1); 11232; 11232; 16872; 22528; 28200; 33888; 39592; 45312; 51048; 56800; 62568; 68352; 74152; 79968;
   85800; 91648; 97512; 103392; 109288; 115200; 121128; 127072; 133032; 139008; 145000; 151008; 157032;
   163072; 169128; 175200; 181288; 187392; 193512; 199648; 205800; 211968; 218152; 224352; 230568; 236800;
   243048; 249312; 255592; 261888; 268200; 274528; 280872; 287232; 293608; 300000; 306408; 312832; 319272;
   325728; 332200; 338688; 345192; 351712; 358248; 364800; 371368; 377952; 384552].

Definition LAT_SIMDRAM_RELU : list Z :=
  [(-1); 196; 343; 490; 637; 784; 931; 1078; 1225; 1372; 1519; 1666; 1813; 1960; 2107; 2254; 2401; 2548; 2695;
   2842; 2989; 3136; 3283; 3430; 3577; 3724; 3871; 4018; 4165; 4312; 4459; 4606; 4753; 4900; 5047; 5194; 5341;
   5488; 5635; 5782; 5929; 6076; 6223; 6370; 6517; 6664; 6811; 6958; 7105; 7252; 7399; 7546; 7693; 7840; 7987;
   8134; 8281; 8428; 8575; 8722; 8869; 9016; 9163; 9310].

(** ** Selection *)
Inductive AdderType := Adder_FULL | Adder_SKLANSKY | Adder_KOGGE | Adder_CARRYSEL | Adder_RBR.
Inductive MultType := Mult_FULL | Mult_SKLANSKY | Mult_CARRYSEL | Mult_RBR.

#[export] Instance AdderType_eq_dec : EqDecision AdderType.
Proof. solve_decision. Defined.
#[export] Instance MultType_eq_dec : EqDecision MultType.
Proof. solve_decision. Defined.

Definition adderLats (bp : Z) : res (list (AdderType * Z)) :=
  full ← vget LAT_DAFTPUM_FULL_ADDER bp;
  sklansky ← vget LAT_DAFTPUM_SKLANSKY_ADDER bp;
  kogge ← vget LAT_DAFTPUM_KOGGE_ADDER bp;
  carrysel ← vget LAT_DAFTPUM_CARRYSEL_ADDER bp;
  rbr ← vget LAT_DAFTPUM_RBR_ADDER bp;
  Ok [(Adder_FULL, full); (Adder_SKLANSKY, sklansky); (Adder_KOGGE, kogge); (Adder_CARRYSEL, carrysel); (Adder_RBR, rbr)].

Definition multLats (bp : Z) : res (list (MultType * Z)) :=
  full ← vget LAT_SIMDRAM_RC_MULT bp;
  sklansky ← vget LAT_DAFTPUM_SKLANSKY_MULT bp;
  carrysel ← vget LAT_DAFTPUM_CSA_MULT bp;
  rbr ← vget LAT_DAFTPUM_RBR_MULT bp;
  Ok [(Mult_FULL, full); (Mult_SKLANSKY, sklansky); (Mult_CARRYSEL, carrysel); (Mult_RBR, rbr)].

(** The loop over the entries after the first. *)
Fixpoint pick_loop {T} (l : list (T * Z)) (best : T * Z) : T * Z :=
  match l with
  | [] => best
  | e :: l => pick_loop l (if e.2 <? best.2 then e else best)
  end.
Definition pick_min {T} (l : list (T * Z)) : res (T * Z) :=
  match l with [] => Err UndefinedBehaviour | e :: l => Ok (pick_loop l e) end.

Fixpoint min_loop (l : list Z) (minV : Z) : Z :=
  match l with
  | [] => minV
  | v :: l => min_loop l (if v <? minV then v else minV)
  end.
Definition bestAdderLatency (bp : Z) : res Z :=
  vals ← adderLats bp;
  match map snd vals with v :: l => Ok (min_loop l v) | [] => Err UndefinedBehaviour end.
Definition bestMultLatency (bp : Z) : res Z :=
  vals ← multLats bp;
  match map snd vals with v :: l => Ok (min_loop l v) | [] => Err UndefinedBehaviour end.

(** ** Costs *)
Record double_ops (D : Type) := mkDouble {
  d_int : Z -> D;
  d_lit : Z -> Z -> D;
  d_add : D -> D -> D;
  d_sub : D -> D -> D;
  d_mul : D -> D -> D;
  d_div : D -> D -> D;
  d_log : D -> D;
  d_log2 : D -> D;
  d_ceil : D -> D
}.
Arguments d_int {_} _ _.
Arguments d_lit {_} _ _ _.
Arguments d_add {_} _ _ _.
Arguments d_sub {_} _ _ _.
Arguments d_mul {_} _ _ _.
Arguments d_div {_} _ _ _.
Arguments d_log {_} _ _.
Arguments d_log2 {_} _ _.
Arguments d_ceil {_} _ _.

Record CostResult (D : Type) := mkCost {
  r_bitPrecision : Z;
  r_adder : AdderType;
  r_mult : MultType;
  r_latAdderNs : D;
  r_latMultNs : D;
  r_energyAdderNj : D;
  r_energyMultNj : D
}.
Arguments mkCost {_} _ _ _ _ _ _ _.
Arguments r_bitPrecision {_} _.
Arguments r_adder {_} _.
Arguments r_mult {_} _.
Arguments r_latAdderNs {_} _.
Arguments r_latMultNs {_} _.
Arguments r_energyAdderNj {_} _.
Arguments r_energyMultNj {_} _.

Section Cost.
Context {D : Type} (O : double_ops D).

Declare Scope double_scope.
Local Infix "+" := (d_add O) : double_scope.
Local Infix "-" := (d_sub O) : double_scope.
Local Infix "*" := (d_mul O) : double_scope.
Local Infix "/" := (d_div O) : double_scope.
Local Open Scope double_scope.

Local Abbreviation int := (d_int O).
Local Abbreviation lit := (d_lit O).

Definition SIMD_WIDTH : Z := 65536.
Definition AAP_ENERGY_PJ : D := lit 871 3.

Definition adder_energy (t : AdderType) (bp ceilSimd : D) : D :=
  match t with
  | Adder_FULL => lit 81075 4 * bp * ceilSimd * AAP_ENERGY_PJ / int 1000
  | Adder_KOGGE =>
      (lit 25 3 * bp * bp * bp + lit 1 1 * bp * bp + lit 55 1 * d_log2 O bp * d_log O bp - lit 55 1 * d_log O bp
       + lit 18875 3 * bp - int 19) * AAP_ENERGY_PJ * ceilSimd / int 1000
  | Adder_SKLANSKY => (lit 195 1 * bp - lit 108 1 * d_log2 O bp - lit 125 3) * AAP_ENERGY_PJ * ceilSimd / int 1000
  | Adder_CARRYSEL => lit 221465 4 * bp * ceilSimd * AAP_ENERGY_PJ / int 1000
  | Adder_RBR => lit 35075 3 * bp * ceilSimd * AAP_ENERGY_PJ / int 1000
  end.

Definition mult_energy (t : MultType) (bp ceilSimd : D) : D :=
  match t with
  | Mult_FULL => (int 11 * bp * bp - int 5 * bp - int 1) * ceilSimd * AAP_ENERGY_PJ / int 1000
  | Mult_SKLANSKY | Mult_CARRYSEL =>
      (int 4 * bp + lit 75 4 * bp * (bp - int 1) + lit 75 4 * int 2 * lit 1 1 * bp
       + bp * (lit 1915 2 * int 2 * bp + d_log2 O (int 2 * bp) - int 19)) * ceilSimd * AAP_ENERGY_PJ / int 1000
  | Mult_RBR => (lit 180325 4 * bp * bp + lit 70218 3 * bp) * ceilSimd * AAP_ENERGY_PJ / int 1000
  end.

Definition computeCost (bitPrecision size : Z) : res (CostResult D) :=
  al ← adderLats bitPrecision;
  a ← pick_min al;
  ml ← multLats bitPrecision;
  m ← pick_min ml;
  let ceilSimd := d_ceil O (int size / int SIMD_WIDTH) in
  let bp := int bitPrecision in
  Ok (mkCost bitPrecision a.1 m.1 (int a.2 / int 1000) (int m.2 / int 1000)
        (adder_energy a.1 bp ceilSimd) (mult_energy m.1 bp ceilSimd)).
End Cost.

(** ** The selection is the minimum *)
Lemma pick_loop_in {T} (l : list (T * Z)) b : pick_loop l b ∈ b :: l.
Proof.
  revert b. induction l as [|e l IH]; intros b; cbn [pick_loop]; [by left|].
  destruct (_ <? _); [specialize (IH e)|specialize (IH b)]; rewrite !elem_of_cons in *; tauto.
Qed.

Lemma pick_loop_min {T} (l : list (T * Z)) b e : e ∈ b :: l -> (pick_loop l b).2 <= e.2.
Proof.
  revert b e. induction l as [|x l IH]; intros b e He; cbn [pick_loop].
  - apply list_elem_of_singleton in He as ->. lia.
  - destruct (Z.ltb_spec x.2 b.2) as [Hlt|Hge]; rewrite !elem_of_cons in He; destruct He as [->|[->|He]].
    + pose proof (IH x x ltac:(by left)). lia.
    + apply IH. by left.
    + apply IH. by right.
    + apply IH. by left.
    + pose proof (IH b b ltac:(by left)). lia.
    + apply IH. by right.
Qed.

(** Both loops compute the same value. *)
Lemma min_pick {T} (l : list (T * Z)) b : min_loop (map snd l) b.2 = (pick_loop l b).2.
Proof.
  revert b. induction l as [|e l IH]; intros b; cbn [map min_loop pick_loop]; [done|]. rewrite <- IH. by destruct (_ <? _).
Qed.

Definition table_at (l : list Z) (bp : Z) : Z := default 0 (l !! Z.to_nat bp).
Definition adder_latency (t : AdderType) : Z -> Z :=
  table_at match t with
           | Adder_FULL => LAT_DAFTPUM_FULL_ADDER
           | Adder_SKLANSKY => LAT_DAFTPUM_SKLANSKY_ADDER
           | Adder_KOGGE => LAT_DAFTPUM_KOGGE_ADDER
           | Adder_CARRYSEL => LAT_DAFTPUM_CARRYSEL_ADDER
           | Adder_RBR => LAT_DAFTPUM_RBR_ADDER
           end.
Definition mult_latency (t : MultType) : Z -> Z :=
  table_at match t with
           | Mult_FULL => LAT_SIMDRAM_RC_MULT
           | Mult_SKLANSKY => LAT_DAFTPUM_SKLANSKY_MULT
           | Mult_CARRYSEL => LAT_DAFTPUM_CSA_MULT
           | Mult_RBR => LAT_DAFTPUM_RBR_MULT
           end.
Definition all_adders : list AdderType := [Adder_FULL; Adder_SKLANSKY; Adder_KOGGE; Adder_CARRYSEL; Adder_RBR].
Definition all_mults : list MultType := [Mult_FULL; Mult_SKLANSKY; Mult_CARRYSEL; Mult_RBR].

Lemma table_ok (l : list Z) bp : length l = 64%nat -> 0 <= bp < 64 -> vget l bp = Ok (table_at l bp).
Proof.
  intros Hl Hbp. unfold table_at. destruct (lookup_lt_is_Some_2 l (Z.to_nat bp)) as [v Hv]; [lia|].
  apply vget_Ok. split; [lia|]. by rewrite Hv.
Qed.

Lemma adderLats_ok bp : 0 <= bp < 64 -> adderLats bp = Ok (map (fun t => (t, adder_latency t bp)) all_adders).
Proof. intros H. unfold adderLats. rewrite !table_ok by done. done. Qed.
Lemma multLats_ok bp : 0 <= bp < 64 -> multLats bp = Ok (map (fun t => (t, mult_latency t bp)) all_mults).
Proof. intros H. unfold multLats. rewrite !table_ok by done. done. Qed.

(** The entry picked from a labelled table. *)
Definition pick_of {T} (f : T -> Z) (t : T) (ts : list T) : T * Z := pick_loop (map (fun t => (t, f t)) ts) (t, f t).

Lemma pick_of_spec {T} (f : T -> Z) t ts :
  (pick_of f t ts).2 = f (pick_of f t ts).1 /\ (forall u, u ∈ t :: ts -> f (pick_of f t ts).1 <= f u) /\
  min_loop (map f ts) (f t) = f (pick_of f t ts).1.
Proof.
  assert (Heq : (pick_of f t ts).2 = f (pick_of f t ts).1).
  { pose proof (pick_loop_in (map (fun t => (t, f t)) ts) (t, f t)) as Hin. fold (pick_of f t ts) in Hin.
    apply elem_of_cons in Hin as [->|(u & -> & _)%list_elem_of_fmap]; done. }
  split; [done|]. rewrite <- Heq. split.
  - intros u Hu. refine (pick_loop_min _ _ (u, f u) _). apply elem_of_cons in Hu as [->|Hu]; [by left|right].
    by apply (list_elem_of_fmap_2 (fun t => (t, f t))).
  - pose proof (min_pick (map (fun t => (t, f t)) ts) (t, f t)) as Hm. rewrite map_map in Hm. exact Hm.
Qed.

Definition best_adder (bp : Z) : AdderType := (pick_of (fun t => adder_latency t bp) Adder_FULL (tail all_adders)).1.
Definition best_mult (bp : Z) : MultType := (pick_of (fun t => mult_latency t bp) Mult_FULL (tail all_mults)).1.

(** The ranges of precisions, and the order of the best latencies. *)
Definition adder_by_precision (bp : Z) : AdderType := if bp <=? 8 then Adder_FULL else Adder_RBR.
Definition mult_by_precision (bp : Z) : MultType :=
  if bp <=? 6 then Mult_FULL else if bp <=? 14 then Mult_CARRYSEL else if bp <=? 33 then Mult_SKLANSKY else Mult_RBR.

Lemma selection_table :
  forallb (fun bp => bool_decide (best_adder bp = adder_by_precision bp) && bool_decide (best_mult bp = mult_by_precision bp)
                     && (adder_latency (best_adder bp) bp <=? adder_latency (best_adder (bp + 1)) (bp + 1))
                     && (mult_latency (best_mult bp) bp <=? mult_latency (best_mult (bp + 1)) (bp + 1))) (seqZ 0 63) &&
  bool_decide (best_adder 63 = adder_by_precision 63) && bool_decide (best_mult 63 = mult_by_precision 63) = true.
Proof. by vm_compute. Qed.

Ltac bool_props := repeat match goal with H : bool_decide _ = true |- _ => apply bool_decide_eq_true in H end.

Lemma selected bp : 0 <= bp < 64 -> best_adder bp = adder_by_precision bp /\ best_mult bp = mult_by_precision bp.
Proof.
  intros H. pose proof selection_table as T. bool_hyps. rewrite forallb_forall in *.
  destruct (decide (bp = 63)) as [->|]; [bool_props; done|].
  assert (Hin : In bp (seqZ 0 63)) by (apply list_elem_of_In, elem_of_seqZ; lia).
  match goal with F : forall x, In x _ -> _ |- _ => specialize (F bp Hin) end. bool_hyps. bool_props. done.
Qed.

Lemma latency_steps bp : 0 <= bp < 63 ->
  adder_latency (best_adder bp) bp <= adder_latency (best_adder (bp + 1)) (bp + 1) /\
  mult_latency (best_mult bp) bp <= mult_latency (best_mult (bp + 1)) (bp + 1).
Proof.
  intros H. pose proof selection_table as T. bool_hyps. rewrite forallb_forall in *.
  assert (Hin : In bp (seqZ 0 63)) by (apply list_elem_of_In, elem_of_seqZ; lia).
  match goal with F : forall x, In x _ -> _ |- _ => specialize (F bp Hin) end. bool_hyps. lia.
Qed.

Lemma latency_mono (f : Z -> Z) lo hi :
  (forall bp, 0 <= bp < 63 -> f bp <= f (bp + 1)) -> 0 <= lo <= hi -> hi < 64 -> f lo <= f hi.
Proof.
  intros Hf H Hhi. assert (Hgo : forall n, lo + Z.of_nat n < 64 -> f lo <= f (lo + Z.of_nat n)).
  { induction n as [|n IH]; intros Hn; [by rewrite Z.add_0_r|].
    rewrite Nat2Z.inj_succ in *. replace (lo + Z.succ (Z.of_nat n)) with (lo + Z.of_nat n + 1) by lia.
    specialize (IH ltac:(lia)). pose proof (Hf (lo + Z.of_nat n) ltac:(lia)). lia. }
  specialize (Hgo (Z.to_nat (hi - lo))). rewrite Z2Nat.id in Hgo by lia. replace (lo + (hi - lo)) with hi in Hgo by lia. auto.
Qed.

(** What [computeCost] returns. *)
Lemma computeCost_selects {D} (O : double_ops D) bp size : 0 <= bp < 64 -> exists r, computeCost O bp size = Ok r /\
  r_adder r = best_adder bp /\ r_mult r = best_mult bp /\
  r_latAdderNs r = d_div O (d_int O (adder_latency (best_adder bp) bp)) (d_int O 1000) /\
  r_latMultNs r = d_div O (d_int O (mult_latency (best_mult bp) bp)) (d_int O 1000).
Proof.
  intros Hk. unfold computeCost. rewrite adderLats_ok, multLats_ok by done. cbn [mbind res_bind].
  eexists. split; [done|]. unfold best_adder, best_mult.
  pose proof (proj1 (pick_of_spec (fun t => adder_latency t bp) Adder_FULL (tail all_adders))) as Ea.
  pose proof (proj1 (pick_of_spec (fun t => mult_latency t bp) Mult_FULL (tail all_mults))) as Em.
  cbv beta in Ea, Em. rewrite <- Ea, <- Em. done.
Qed.

(** C40: The cost model picks the fastest circuit: for every precision from 0 to 63 bits
    the chosen adder and multiplier have the least latency of their tables, the value
    bestAdderLatency and bestMultLatency return; the choice is the full adder up to 8
    bits and the redundant binary one above, the multiplier changes at 7, 15 and 34
    bits, and the best latencies do not decrease with the precision. *)
Theorem cost_model_selects {D} (O : double_ops D) bp size :
  0 <= bp < 64 ->
  exists r, computeCost O bp size = Ok r /\
    r_adder r = adder_by_precision bp /\ r_mult r = mult_by_precision bp /\
    bestAdderLatency bp = Ok (adder_latency (r_adder r) bp) /\ bestMultLatency bp = Ok (mult_latency (r_mult r) bp) /\
    (forall t, adder_latency (r_adder r) bp <= adder_latency t bp) /\ (forall t, mult_latency (r_mult r) bp <= mult_latency t bp) /\
    r_latAdderNs r = d_div O (d_int O (adder_latency (r_adder r) bp)) (d_int O 1000) /\
    r_latMultNs r = d_div O (d_int O (mult_latency (r_mult r) bp)) (d_int O 1000) /\
    forall bp' r', bp <= bp' < 64 -> computeCost O bp' size = Ok r' ->
      adder_latency (r_adder r) bp <= adder_latency (r_adder r') bp' /\ mult_latency (r_mult r) bp <= mult_latency (r_mult r') bp'.
Proof.
  pose proof (fun bp => computeCost_selects O bp size) as Hrun.
  intros Hbp. destruct (Hrun bp Hbp) as (r & Hr & Ha & Hm & Hla & Hlm). exists r. destruct (selected bp Hbp) as [Hsa Hsm].
  destruct (pick_of_spec (fun t => adder_latency t bp) Adder_FULL (tail all_adders)) as (_ & Hamin & Haloop).
  destruct (pick_of_spec (fun t => mult_latency t bp) Mult_FULL (tail all_mults)) as (_ & Hmmin & Hmloop).
  rewrite Ha, Hm. split_and!; try done.
  - unfold bestAdderLatency. rewrite adderLats_ok by done. cbn [mbind res_bind]. f_equal. exact Haloop.
  - unfold bestMultLatency. rewrite multLats_ok by done. cbn [mbind res_bind]. f_equal. exact Hmloop.
  - intros t. apply Hamin. destruct t; repeat constructor.
  - intros t. apply Hmmin. destruct t; repeat constructor.
  - intros bp' r' Hle Hr'. destruct (Hrun bp' ltac:(lia)) as (r1 & Hr1 & Ha1 & Hm1 & _).
    assert (r1 = r') as -> by congruence. rewrite Ha1, Hm1.
    split; [apply (latency_mono (fun k => adder_latency (best_adder k) k))|apply (latency_mono (fun k => mult_latency (best_mult k) k))];
      try lia; intros k Hk; apply latency_steps; lia.
Qed.

(** Arithmetic of the witness: rationals would do as well; only the shape of
    the result matters. *)
Definition z_ops : double_ops Z :=
  mkDouble Z (fun n => n) (fun digits _ => digits) Z.add Z.sub Z.mul Z.div (fun x => x) Z.log2 (fun x => x).

Lemma cost_model_selects_witness :
  bestAdderLatency 16 = Ok 2194 /\ bestMultLatency 16 = Ok 74560 /\ bestMultLatency 8 = Ok 27608.
Proof.
  destruct (cost_model_selects z_ops 16 1024 ltac:(lia)) as (r & _ & Ha & Hm & Hba & Hbm & _).
  destruct (cost_model_selects z_ops 8 1024 ltac:(lia)) as (r8 & _ & _ & Hm8 & _ & Hbm8 & _).
  rewrite Hba, Hbm, Hbm8, Ha, Hm, Hm8. by vm_compute.
Defined.
