(* ===== verification/Bbop.v ===== *)
(** * Bbop: the latency and energy model of Proteus

    Models [week 5-6/ramulator2-main/proteus_f6/bbop_manager.c]: the cost
    tables, the choice of adders and multipliers, the element-wise
    operations, which an OpenMP team of threads executes while it tracks the
    largest operands, and the statistics they are charged to.

    Arrays live in a store and are named by their position, so that two
    arguments may be the same array; a cell that was never written has no
    value.  Which thread executes which iteration, and in which order, is the
    choice of the OpenMP runtime: a [region] is an argument of every
    operation.  [double] arithmetic is the parameter of the cost model, with
    the conversions to [float], to [int] and to [unsigned].  Messages and the text of the
    output file are left out; what is written to it is [csv]. *)
From stdpp Require Import prelude gmap strings.
From S2P Require Import Prelude CostModel.
Open Scope Z_scope.

(** ** Operations and constants *)
Inductive bbop_operation :=
| BBOP_ADD | BBOP_ADD_8 | BBOP_ADD_16 | BBOP_ADD_32 | BBOP_ADD_64
| BBOP_SUB | BBOP_SUB_8 | BBOP_SUB_16 | BBOP_SUB_32 | BBOP_SUB_64
| BBOP_MUL | BBOP_MUL_8 | BBOP_MUL_16 | BBOP_MUL_32 | BBOP_MUL_64
| BBOP_DIV | BBOP_DIV_8 | BBOP_DIV_16 | BBOP_DIV_32 | BBOP_DIV_64
| BBOP_CPY | BBOP_RED | CPU_CPY
| MUL_SSL_Sklansky_24 | MUL_SSL_RB_39 | MUL_SSL_RB_35 | MUL_SSL_Sklansky_20 | MUL_SSL_Sklansky_22
| MUL_SSL_Sklansky_15 | MUL_SSL_Sklansky_19 | MUL_SSL_RB_34 | MUL_SSL_RB_37 | MUL_SSL_DIV_12 | MUL_SSL_DIV_8
| SUB_SSL_FA_11 | MUL_SSL_Sklansky_18 | SUB_SSL_FA_7 | MUL_SSL_CS_14 | SUB_SSL_FA_9
| BBOP_RELU | BBOP_COUNT.

#[export] Instance bbop_operation_eq_dec : EqDecision bbop_operation.
Proof. solve_decision. Defined.

Definition NUM_THREADS : Z := 32.
Definition MAX_BBOPS : Z := 100.
Definition BBOP_SIMD_WIDTH : Z := 65536.
Definition SUBARRAYS : Z := 64.
Definition AAP_LATENCY : Z := 49.

(** ** The tables (nanoseconds), by bit precision *)
Definition latency_simdram_ripple_carry_adder : list Z :=
  [(-1); 833; 833; 1225; 1617; 2009; 2401; 2793; 3185; 3577; 3969; 4361; 4753; 5145; 5537; 5929; 6321; 6713;
   7105; 7497; 7889; 8281; 8673; 9065; 9457; 9849; 10241; 10633; 11025; 11417; 11809; 12201; 12593; 12985;
   13377; 13769; 14161; 14553; 14945; 15337; 15729; 16121; 16513; 16905; 17297; 17689; 18081; 18473; 18865;
   19257; 19649; 20041; 20433; 20825; 21217; 21609; 22001; 22393; 22785; 23177; 23569; 23961; 24353; 24745].

Definition latency_daftpum_full_adder : list Z :=
  [(-1); 676; 676; 915; 1154; 1393; 1632; 1871; 2110; 2349; 2588; 2827; 3066; 3305; 3544; 3783; 4022; 4261;
   4500; 4739; 4978; 5217; 5456; 5695; 5934; 6173; 6412; 6651; 6890; 7129; 7368; 7607; 7846; 8085; 8324; 8563;
   8802; 9041; 9280; 9519; 9758; 9997; 10236; 10475; 10714; 10953; 11192; 11431; 11670; 11909; 12148; 12387;
   12626; 12865; 13104; 13343; 13582; 13821; 14060; 14299; 14538; 14777; 15016; 15255].

Definition latency_daftpum_sklansky_adder : list Z :=
  [(-1); 1757; 1757; 2556; 2556; 3152; 3152; 3152; 3152; 3812; 3812; 3812; 3812; 3812; 3812; 3812; 3812; 4600;
   4600; 4600; 4600; 4600; 4600; 4600; 4600; 4600; 4600; 4600; 4600; 4600; 4600; 4600; 4600; 5644; 5644; 5644;
   5644; 5644; 5644; 5644; 5644; 5644; 5644; 5644; 5644; 5644; 5644; 5644; 5644; 5644; 5644; 5644; 5644; 5644;
   5644; 5644; 5644; 5644; 5644; 5644; 5644; 5644; 5644; 5644].

Definition latency_daftpum_koggee_adder : list Z :=
  [(-1); 1663; 1663; 2227; 2227; 2823; 2823; 2823; 2823; 3483; 3483; 3483; 3483; 3483; 3483; 3483; 3483; 4271;
   4271; 4271; 4271; 4271; 4271; 4271; 4271; 4271; 4271; 4271; 4271; 4271; 4271; 4271; 4271; 5315; 5315; 5315;
   5315; 5315; 5315; 5315; 5315; 5315; 5315; 5315; 5315; 5315; 5315; 5315; 5315; 5315; 5315; 5315; 5315; 5315;
   5315; 5315; 5315; 5315; 5315; 5315; 5315; 5315; 5315; 5315].

Definition latency_daftpum_carryselect_adder : list Z :=
  [(-1); 676; 676; 915; 1154; 2398; 2398; 2398; 2398; 3046; 3046; 3046; 3046; 3046; 3046; 3046; 3046; 4342;
   4342; 4342; 4342; 4342; 4342; 4342; 4342; 4342; 4342; 4342; 4342; 4342; 4342; 4342; 4342; 6934; 6934; 6934;
   6934; 6934; 6934; 6934; 6934; 6934; 6934; 6934; 6934; 6934; 6934; 6934; 6934; 6934; 6934; 6934; 6934; 6934;
   6934; 6934; 6934; 6934; 6934; 6934; 6934; 6934; 6934; 6934].

Definition latency_daftpum_rbr_adder : list Z :=
  [(-1); 2194; 2194; 2194; 2194; 2194; 2194; 2194; 2194; 2194; 2194; 2194; 2194; 2194; 2194; 2194; 2194; 2194;
   2194; 2194; 2194; 2194; 2194; 2194; 2194; 2194; 2194; 2194; 2194; 2194; 2194; 2194; 2194; 2194; 2194; 2194;
   2194; 2194; 2194; 2194; 2194; 2194; 2194; 2194; 2194; 2194; 2194; 2194; 2194; 2194; 2194; 2194; 2194; 2194;
   2194; 2194; 2194; 2194; 2194; 2194; 2194; 2194; 2194; 2194].

Definition latency_simdram_ripple_carry_multiplier : list Z :=
  [(-1); 1617; 1617; 4067; 7595; 12201; 17885; 24647; 32487; 41405; 51401; 62475; 74627; 87857; 102165; 117551;
   134015; 151557; 170177; 189875; 210651; 232505; 255437; 279447; 304535; 330701; 357945; 386267; 415667;
   446145; 477701; 510335; 544047; 578837; 614705; 651651; 689675; 728777; 768957; 810215; 852551; 895965;
   940457; 986027; 1032675; 1080401; 1129205; 1179087; 1230047; 1282085; 1335201; 1389395; 1444667; 1501017;
   1558445; 1616951; 1676535; 1737197; 1798937; 1861755; 1925651; 1990625; 2056677; 2123807].

Definition latency_daftpum_sklansky_multiplier : list Z :=
  [(-1); 5120; 5120; 8722; 12656; 16856; 21283; 25911; 30720; 35698; 40833; 46117; 51542; 57104; 62797; 68617;
   74560; 80623; 86803; 93098; 99505; 106023; 112649; 119382; 126221; 133163; 140208; 147355; 154602; 161949;
   169394; 176937; 184576; 192311; 200142; 208067; 216086; 224199; 232404; 240702; 249091; 257571; 266142;
   274803; 283554; 292395; 301325; 310343; 319450; 328644; 337927; 347296; 356753; 366296; 375926; 385643;
   395445; 405333; 415306; 425364; 435508; 445736; 456049; 466447].

Definition latency_daftpum_csa_multiplier : list Z :=
  [(-1); 2974; 2974; 7773; 11052; 14675; 18642; 22953; 27608; 32607; 37950; 43637; 49668; 56043; 62762; 69825;
   77232; 84983; 93078; 101517; 110300; 119427; 128898; 138713; 148872; 159375; 170222; 181413; 192948; 204827;
   217050; 229617; 242528; 255783; 269382; 283325; 297612; 312243; 327218; 342537; 358200; 374207; 390558;
   407253; 424292; 441675; 459402; 477473; 495888; 514647; 533750; 553197; 572988; 593123; 613602; 634425;
   655592; 677103; 698958; 721157; 743700; 766587; 789818; 813393].

Definition latency_daftpum_rbr_multiplier : list Z :=
  [(-1); 11232; 11232; 16872; 22528; 28200; 33888; 39592; 45312; 51048; 56800; 62568; 68352; 74152; 79968;
   85800; 91648; 97512; 103392; 109288; 115200; 121128; 127072; 133032; 139008; 145000; 151008; 157032; 163072;
   169128; 175200; 181288; 187392; 193512; 199648; 205800; 211968; 218152; 224352; 230568; 236800; 243048;
   249312; 255592; 261888; 268200; 274528; 280872; 287232; 293608; 300000; 306408; 312832; 319272; 325728;
   332200; 338688; 345192; 351712; 358248; 364800; 371368; 377952; 384552].

Definition latency_simdram_relu : list Z :=
  [(-1); 196; 343; 490; 637; 784; 931; 1078; 1225; 1372; 1519; 1666; 1813; 1960; 2107; 2254; 2401; 2548; 2695;
   2842; 2989; 3136; 3283; 3430; 3577; 3724; 3871; 4018; 4165; 4312; 4459; 4606; 4753; 4900; 5047; 5194; 5341;
   5488; 5635; 5782; 5929; 6076; 6223; 6370; 6517; 6664; 6811; 6958; 7105; 7252; 7399; 7546; 7693; 7840; 7987;
   8134; 8281; 8428; 8575; 8722; 8869; 9016; 9163; 9310].

(** ** Latencies

    [ceil(size/parallel_elements)] divides two integers: the quotient is
    rounded towards zero before [ceil] sees it. *)
Definition repetition_factor (parallel_elements size : Z) : res Z :=
  if size <? parallel_elements then Ok 1 else quot_int size parallel_elements.

(** One [if] of the chain: a smaller latency replaces the choice. *)
Definition consider (best : Z * string) (candidate : string * Z) : Z * string :=
  if candidate.2 <? best.1 then (candidate.2, candidate.1) else best.

(** The latency of a named circuit; an unknown name leaves [unknown]. *)
Definition named_latency (circuits : list (string * Z)) (unknown : Z) (adder_type : string) : Z :=
  match List.find (fun c => bool_decide (adder_type = c.1)) circuits with Some c => c.2 | None => unknown end.

(** The elements one pass handles: all subarrays, or what the activation
    window allows. *)
Definition daftpum_parallel (bit_precision : Z) (tfaw_enabled : bool) : Z :=
  if negb tfaw_enabled then SUBARRAYS * BBOP_SIMD_WIDTH
  else if 4 <=? bit_precision then 1 * BBOP_SIMD_WIDTH else 4 * BBOP_SIMD_WIDTH.

(** The result and the name left in [adder_type]. *)
Definition get_daftpum_adder_latency (bit_precision size : Z) (adder_type : string) (tfaw_enabled : bool) : res (Z * string) :=
  full_adder_simdram_latency ← vget latency_simdram_ripple_carry_adder bit_precision;
  full_adder_latency ← vget latency_daftpum_full_adder bit_precision;
  sklansky_adder_latency ← vget latency_daftpum_sklansky_adder bit_precision;
  koggee_adder_latency ← vget latency_daftpum_koggee_adder bit_precision;
  carryselect_adder_latency ← vget latency_daftpum_carryselect_adder bit_precision;
  rbr_adder_latency ← vget latency_daftpum_rbr_adder bit_precision;
  let '(min_latency, adder_type) :=
    if bool_decide (adder_type = "") then
      foldl consider (full_adder_latency, "full_adder")
        [("brent_kung_adder", sklansky_adder_latency); ("koggee_adder", koggee_adder_latency);
         ("carryselect_adder", carryselect_adder_latency); ("rbr_adder", rbr_adder_latency);
         ("full_adder_simdram", full_adder_simdram_latency)]
    else
      (named_latency
         [("full_adder", full_adder_latency); ("koggee_adder", koggee_adder_latency); ("brent_kung_adder", sklansky_adder_latency);
          ("carryselect_adder", carryselect_adder_latency); ("rbr_adder", rbr_adder_latency);
          ("full_adder_simdram", full_adder_simdram_latency)] full_adder_latency adder_type, adder_type) in
  repetition_factor ← repetition_factor (daftpum_parallel bit_precision tfaw_enabled) size;
  min_latency ← mul_int min_latency repetition_factor;
  Ok (min_latency, adder_type).

Definition get_daftpum_multiplier_latency (bit_precision size : Z) (adder_type : string) (tfaw_enabled : bool) : res (Z * string) :=
  full_multiplier_latency ← vget latency_simdram_ripple_carry_multiplier bit_precision;
  sklansky_multiplier_latency ← vget latency_daftpum_sklansky_multiplier bit_precision;
  carryselect_multiplier_latency ← vget latency_daftpum_csa_multiplier bit_precision;
  rbr_multiplier_latency ← vget latency_daftpum_rbr_multiplier bit_precision;
  let '(min_latency, adder_type) :=
    if bool_decide (adder_type = "") then
      foldl consider (full_multiplier_latency, "full_multiplier")
        [("sklansky_multiplier", sklansky_multiplier_latency); ("carryselect_multiplier", carryselect_multiplier_latency);
         ("rbr_multiplier", rbr_multiplier_latency)]
    else
      (named_latency
         [("full_multiplier", full_multiplier_latency); ("sklansky_multiplier", sklansky_multiplier_latency);
          ("carryselect_multiplier", carryselect_multiplier_latency); ("rbr_multiplier", rbr_multiplier_latency)]
         full_multiplier_latency adder_type, adder_type) in
  repetition_factor ← repetition_factor (daftpum_parallel bit_precision tfaw_enabled) size;
  min_latency ← mul_int min_latency repetition_factor;
  Ok (min_latency, adder_type).

Definition simdram_parallel (salp_enabled : bool) : Z := (if salp_enabled then SUBARRAYS else 1) * BBOP_SIMD_WIDTH.

Definition get_simdram_adder_latency (bit_precision size : Z) (dynamic_bit_precision_enabled salp_enabled : bool) : res Z :=
  repetition_factor ← repetition_factor (simdram_parallel salp_enabled) size;
  latency ← vget latency_simdram_ripple_carry_adder (if dynamic_bit_precision_enabled then bit_precision else 32);
  mul_int repetition_factor latency.

Definition get_relu_latency (bit_precision size : Z) (dynamic_bit_precision_enabled salp_enabled : bool) : res Z :=
  repetition_factor ← repetition_factor (simdram_parallel salp_enabled) size;
  latency ← vget latency_simdram_relu (if dynamic_bit_precision_enabled then bit_precision else 32);
  mul_int repetition_factor latency.

Definition get_simdram_multiplier_latency (bit_precision size : Z) (dynamic_bit_precision_enabled salp_enabled : bool) : res Z :=
  repetition_factor ← repetition_factor (simdram_parallel salp_enabled) size;
  latency ← vget latency_simdram_ripple_carry_multiplier
    (if dynamic_bit_precision_enabled then bit_precision else if bit_precision <=? 32 then 32 else 63);
  mul_int repetition_factor latency.

Definition get_power_of_two_bit_precision (bit_precision : Z) : Z :=
  if bit_precision <=? 8 then 8
  else if bit_precision <=? 16 then 16
  else if bit_precision <=? 32 then 32
  else if bit_precision <=? 64 then 63
  else 63.

(** ** Energies *)
Record float_ops (D : Type) := mkFloat {
  fl_double : double_ops D;
  fl_float : D -> D;
  fl_lt : D -> D -> bool;
  fl_int : D -> res Z;
  fl_uint : D -> res Z
}.
Arguments mkFloat {_} _ _ _ _ _.
Arguments fl_double {_} _.
Arguments fl_float {_} _ _.
Arguments fl_lt {_} _ _ _.
Arguments fl_int {_} _ _.
Arguments fl_uint {_} _ _.

Section Energy.
Context {D : Type} (F : float_ops D).
Local Abbreviation O := (fl_double F).

Declare Scope bbop_scope.
Local Infix "+" := (d_add O) : bbop_scope.
Local Infix "-" := (d_sub O) : bbop_scope.
Local Infix "*" := (d_mul O) : bbop_scope.
Local Infix "/" := (d_div O) : bbop_scope.
Delimit Scope bbop_scope with bbop.

Local Abbreviation int := (d_int O).
Local Abbreviation lit := (d_lit O).

Definition AAP_ENERGY : D := lit 871 3.

(** [ceil(size/SIMD_WIDTH)]: here the divisor is a [double]. *)
Definition passes (size : Z) : D := d_ceil O (int size / int BBOP_SIMD_WIDTH)%bbop.

Definition get_simdram_adder_energy (bit_precision size : Z) (dynamic_bit_precision_enabled salp_enabled : bool) : res Z :=
  fl_int F (int (8 * ((if dynamic_bit_precision_enabled then bit_precision else 32) + 1)) * passes size * AAP_ENERGY)%bbop.

Definition get_relu_energy (bit_precision size : Z) (dynamic_bit_precision_enabled salp_enabled : bool) : res Z :=
  let bit_precision := if dynamic_bit_precision_enabled then bit_precision else 32 in
  fl_int F (int (3 * bit_precision + Z.rem (bit_precision - 1) 2) * passes size * AAP_ENERGY)%bbop.

Definition get_simdram_multiplier_energy (bit_precision size : Z) (dynamic_bit_precision_enabled salp_enabled : bool) : res Z :=
  fl_int F (int (if dynamic_bit_precision_enabled then 11 * bit_precision * bit_precision - 5 * bit_precision - 1
                 else if bit_precision <=? 32 then 11 * 32 * 32 - 5 * bit_precision - 1
                 else 11 * 64 * 64 - 5 * bit_precision - 1) * passes size * AAP_ENERGY)%bbop.

(** One [if] of the chain: the energy is a [float], the minimum an [int]. *)
Definition consider_energy (best : Z * string) (candidate : string * D) : res (Z * string) :=
  if fl_lt F candidate.2 (fl_float F (int best.1)) then e ← fl_int F candidate.2; Ok (e, candidate.1) else Ok best.

Definition named_energy (circuits : list (string * D)) (unknown : Z) (adder_type : string) : res Z :=
  match List.find (fun c => bool_decide (adder_type = c.1)) circuits with Some c => fl_int F c.2 | None => Ok unknown end.

Definition get_daftpum_adder_energy (bit_precision size : Z) (adder_type : string) (tfaw_enabled : bool) : res (Z * string) :=
  let bp := int bit_precision in
  let full_adder_simdram_energy := fl_float F (int (8 * (32 + 1)) * passes size * AAP_ENERGY)%bbop in
  let full_adder_energy := fl_float F (lit 81075 4 * bp * passes size * AAP_ENERGY)%bbop in
  let koggee_adder_energy := fl_float F
    ((lit 25 3 * bp * bp * bp + lit 1 1 * bp * bp + lit 55 1 * d_log2 O bp * d_log O bp - lit 55 1 * d_log O bp
      + lit 18875 3 * bp - int 19) * AAP_ENERGY * passes size)%bbop in
  let brent_kung_adder_energy := fl_float F
    ((lit 195 1 * bp - lit 108 1 * d_log2 O bp - lit 125 3) * AAP_ENERGY * passes size)%bbop in
  let ladner_fischer_adder_energy := fl_float F
    ((lit 191 1 * bp + d_log2 O bp - int 19) * AAP_ENERGY * passes size)%bbop in
  let carry_select_adder_energy := fl_float F (lit 221465 4 * bp * AAP_ENERGY * passes size)%bbop in
  let rbr_adder_energy := fl_float F (lit 35075 3 * bp * AAP_ENERGY * passes size)%bbop in
  min_energy ← fl_int F full_adder_energy;
  if bool_decide (adder_type = "") then
    foldM consider_energy
      [("koggee_adder", koggee_adder_energy); ("brent_kung_adder", brent_kung_adder_energy);
       ("ladner_fischer_adder", ladner_fischer_adder_energy); ("carry_select_adder", carry_select_adder_energy);
       ("rbr_adder", rbr_adder_energy); ("full_adder_simdram", full_adder_simdram_energy)] (min_energy, "full_adder")
  else
    e ← named_energy
      [("full_adder", full_adder_energy); ("koggee_adder", koggee_adder_energy); ("brent_kung_adder", brent_kung_adder_energy);
       ("ladner_fischer_adder", ladner_fischer_adder_energy); ("carry_select_adder", carry_select_adder_energy);
       ("rbr_adder", rbr_adder_energy); ("full_adder_simdram", full_adder_simdram_energy)] min_energy adder_type;
    Ok (e, adder_type).

Definition get_daftpum_multiplier_energy (bit_precision size : Z) (adder_type : string) (tfaw_enabled : bool) : res (Z * string) :=
  let bp := int bit_precision in
  let full_multiplier_energy :=
    fl_float F (int (11 * bit_precision * bit_precision - 5 * bit_precision - 1) * passes size * AAP_ENERGY)%bbop in
  let array_energy := fl_float F
    ((int (4 * bit_precision) + lit 75 4 * bp * int (bit_precision - 1) + lit 75 4 * int 2 * lit 1 1 * bp
      + bp * (lit 1915 2 * int 2 * bp + d_log2 O (int (2 * bit_precision)) - int 19)) * passes size * AAP_ENERGY)%bbop in
  let sklansky_multiplier_energy := array_energy in
  let carry_select_multiplier_energy := array_energy in
  let rbr_adder_energy := fl_float F ((lit 180325 4 * bp * bp + lit 70218 3 * bp) * passes size * AAP_ENERGY)%bbop in
  min_energy ← fl_int F full_multiplier_energy;
  if bool_decide (adder_type = "") then
    foldM consider_energy
      [("sklansky_multiplier", sklansky_multiplier_energy); ("carryselect_multiplier", carry_select_multiplier_energy);
       ("rbr_multiplier", rbr_adder_energy)] (min_energy, "full_multiplier")
  else
    e ← named_energy
      [("full_multiplier", full_multiplier_energy); ("carryselect_multiplier", carry_select_multiplier_energy);
       ("sklansky_multiplier", sklansky_multiplier_energy); ("rbr_multiplier", rbr_adder_energy)] min_energy adder_type;
    Ok (e, adder_type).

(** ** Statistics

    [lat M] and [ene M] are the members [..._latency] and [..._energy] of the
    mechanism [M]. *)
Inductive mechanism :=
| simdram_1_subarray
| simdram_64_subarray
| simdram_64_subarray_dynamic_precision
| daftpum_static_latency_optimized
| daftpum_static_energy_optimized
| daftpum_latency_optimized
| daftpum_energy_optimized
| daftpum_tfaw_enabled.

#[export] Instance mechanism_eq_dec : EqDecision mechanism.
Proof. solve_decision. Defined.

(** The enumerator -1 is no operation. *)
Record bbop_statistic := mkStat {
  operation : option bbop_operation;
  lat : mechanism -> D;
  ene : mechanism -> D;
  largest_input_a : Z;
  largest_input_b : Z
}.

Definition initialize_bbop_statistics : list bbop_statistic :=
  replicate (Z.to_nat MAX_BBOPS) (mkStat None (fun _ => d_lit O 0 1) (fun _ => d_lit O 0 1) 0 0).

Definition update_at (f : mechanism -> D) (m : mechanism) (v : D) : mechanism -> D :=
  fun m' => if decide (m' = m) then v else f m'.

(** [+=] with a [double]. *)
Definition charge_lat (m : mechanism) (v : D) (s : bbop_statistic) : bbop_statistic :=
  mkStat (operation s) (update_at (lat s) m (d_add O (lat s m) v)) (ene s) (largest_input_a s) (largest_input_b s).
Definition charge_ene (m : mechanism) (v : D) (s : bbop_statistic) : bbop_statistic :=
  mkStat (operation s) (lat s) (update_at (ene s) m (d_add O (ene s m) v)) (largest_input_a s) (largest_input_b s).

(** [+=] with the [int] a cost function returns. *)
Definition add_lat (m : mechanism) (v : res Z) (s : bbop_statistic) : res bbop_statistic :=
  v ← v; Ok (charge_lat m (d_int O v) s).
Definition add_ene (m : mechanism) (v : res Z) (s : bbop_statistic) : res bbop_statistic :=
  v ← v; Ok (charge_ene m (d_int O v) s).

(** The same with a function that also leaves a name. *)
Definition add_lat_named (m : mechanism) (v : res (Z * string)) (s : bbop_statistic) : res (string * bbop_statistic) :=
  v ← v; Ok (v.2, charge_lat m (d_int O v.1) s).
Definition add_ene_named (m : mechanism) (v : res (Z * string)) (s : bbop_statistic) : res (string * bbop_statistic) :=
  v ← v; Ok (v.2, charge_ene m (d_int O v.1) s).

Definition set_operation (op : bbop_operation) (s : bbop_statistic) : bbop_statistic :=
  mkStat (Some op) (lat s) (ene s) (largest_input_a s) (largest_input_b s).

Definition raise_largest (a b : Z) (s : bbop_statistic) : bbop_statistic :=
  mkStat (operation s) (lat s) (ene s) (if largest_input_a s <? a then a else largest_input_a s)
    (if largest_input_b s <? b then b else largest_input_b s).

(** The cost functions of adders, and of multipliers (which divisions use). *)
Record circuit := mkCircuit {
  simdram_latency : Z -> Z -> bool -> bool -> res Z;
  simdram_energy : Z -> Z -> bool -> bool -> res Z;
  daftpum_latency : Z -> Z -> string -> bool -> res (Z * string);
  daftpum_energy : Z -> Z -> string -> bool -> res (Z * string)
}.

Definition adders : circuit :=
  mkCircuit get_simdram_adder_latency get_simdram_adder_energy get_daftpum_adder_latency get_daftpum_adder_energy.
Definition multipliers : circuit :=
  mkCircuit get_simdram_multiplier_latency get_simdram_multiplier_energy get_daftpum_multiplier_latency get_daftpum_multiplier_energy.

(** The charges of an operation with two operands.  The circuit a first call
    chooses is the one the following calls are charged for. *)
Definition charge_circuit (c : circuit) (bit_precision static_bit_precision size : Z) (s : bbop_statistic) : res bbop_statistic :=
  s ← add_lat simdram_1_subarray (simdram_latency c bit_precision size false false) s;
  s ← add_lat simdram_64_subarray (simdram_latency c bit_precision size false true) s;
  s ← add_lat simdram_64_subarray_dynamic_precision (simdram_latency c bit_precision size true true) s;
  s ← add_ene simdram_1_subarray (simdram_energy c bit_precision size false false) s;
  s ← add_ene simdram_64_subarray (simdram_energy c bit_precision size false true) s;
  s ← add_ene simdram_64_subarray_dynamic_precision (simdram_energy c bit_precision size true true) s;
  p ← add_lat_named daftpum_static_latency_optimized (daftpum_latency c static_bit_precision size "" false) s;
  p ← add_ene_named daftpum_static_latency_optimized (daftpum_energy c static_bit_precision size p.1 false) p.2;
  p ← add_lat_named daftpum_latency_optimized (daftpum_latency c bit_precision size "" false) p.2;
  p ← add_lat_named daftpum_tfaw_enabled (daftpum_latency c bit_precision size p.1 true) p.2;
  p ← add_ene_named daftpum_latency_optimized (daftpum_energy c bit_precision size p.1 false) p.2;
  p ← add_ene_named daftpum_tfaw_enabled (daftpum_energy c bit_precision size p.1 true) p.2;
  p ← add_ene_named daftpum_static_energy_optimized (daftpum_energy c static_bit_precision size "" false) p.2;
  p ← add_lat_named daftpum_static_energy_optimized (daftpum_latency c static_bit_precision size p.1 false) p.2;
  p ← add_ene_named daftpum_energy_optimized (daftpum_energy c bit_precision size "" false) p.2;
  p ← add_lat_named daftpum_energy_optimized (daftpum_latency c bit_precision size p.1 false) p.2;
  Ok p.2.

Definition charge_copy (bit_precision static_bit_precision size : Z) (s : bbop_statistic) : res bbop_statistic :=
  s ← add_lat simdram_1_subarray (get_relu_latency bit_precision size false false) s;
  s ← add_lat simdram_64_subarray (get_relu_latency bit_precision size false true) s;
  s ← add_lat simdram_64_subarray_dynamic_precision (get_relu_latency bit_precision size true true) s;
  s ← add_ene simdram_1_subarray (get_relu_energy bit_precision size false false) s;
  s ← add_ene simdram_64_subarray (get_relu_energy bit_precision size false true) s;
  s ← add_ene simdram_64_subarray_dynamic_precision (get_relu_energy bit_precision size true true) s;
  s ← add_lat daftpum_static_latency_optimized (get_relu_latency static_bit_precision size true true) s;
  s ← add_ene daftpum_static_latency_optimized (get_relu_energy static_bit_precision size true true) s;
  s ← add_lat daftpum_latency_optimized (get_relu_latency bit_precision size true true) s;
  s ← add_lat daftpum_tfaw_enabled (get_relu_latency bit_precision size true true) s;
  s ← add_ene daftpum_latency_optimized (get_relu_energy bit_precision size true true) s;
  s ← add_ene daftpum_tfaw_enabled (get_relu_energy bit_precision size true true) s;
  s ← add_ene daftpum_static_energy_optimized (get_relu_energy static_bit_precision size true true) s;
  s ← add_lat daftpum_static_energy_optimized (get_relu_latency static_bit_precision size true true) s;
  s ← add_ene daftpum_energy_optimized (get_relu_energy bit_precision size true true) s;
  add_lat daftpum_energy_optimized (get_relu_latency bit_precision size true true) s.

(** The charges of RELU are computed in place, [ceil] rounding up a [double]. *)
Definition relu_lat (bits : Z) (subarrays size : Z) : D :=
  (int bits * d_ceil O (int size / (int BBOP_SIMD_WIDTH * int subarrays)) * int AAP_LATENCY)%bbop.
Definition relu_ene (bits size : Z) : D := (int bits * passes size * AAP_ENERGY)%bbop.

Definition charge_relu (bit_precision static_bit_precision size : Z) (s : bbop_statistic) : bbop_statistic :=
  let s := charge_lat simdram_1_subarray (int 32 * passes size * int AAP_LATENCY)%bbop s in
  let s := charge_lat simdram_64_subarray (relu_lat 32 64 size) s in
  let s := charge_lat simdram_64_subarray_dynamic_precision (relu_lat bit_precision 64 size) s in
  let s := charge_lat daftpum_static_latency_optimized (relu_lat static_bit_precision 64 size) s in
  let s := charge_lat daftpum_latency_optimized (relu_lat bit_precision 64 size) s in
  let s := charge_lat daftpum_tfaw_enabled (relu_lat bit_precision 4 size) s in
  let s := charge_ene simdram_1_subarray (relu_ene 32 size) s in
  let s := charge_ene simdram_64_subarray (relu_ene 32 size) s in
  let s := charge_ene simdram_64_subarray_dynamic_precision (relu_ene bit_precision size) s in
  let s := charge_ene daftpum_static_latency_optimized (relu_ene static_bit_precision size) s in
  let s := charge_ene daftpum_latency_optimized (relu_ene bit_precision size) s in
  let s := charge_ene daftpum_tfaw_enabled (relu_ene bit_precision size) s in
  let s := charge_ene daftpum_static_energy_optimized (relu_ene static_bit_precision size) s in
  let s := charge_lat daftpum_static_energy_optimized (relu_lat static_bit_precision 64 size) s in
  let s := charge_ene daftpum_energy_optimized (relu_ene bit_precision size) s in
  charge_lat daftpum_energy_optimized (relu_lat bit_precision 64 size) s.
End Energy.

(** ** The store *)
Abbreviation cells := (list (option Z)).
Abbreviation store := (list cells).

Definition read (m : store) (a i : Z) : res Z :=
  l ← vget m a; x ← vget l i; of_option UndefinedBehaviour x.
Definition write (m : store) (a i v : Z) : res store :=
  l ← vget m a; l ← vset l i (Some v); vset m a l.

(** ** Parallel regions *)

(** A team of [team] threads executes the iterations in this order, each by
    the thread named with it. *)
Record region := mkRegion { team : Z; order : list (Z * Z) }.

(** [if (x > maxinfo[tid].val) maxinfo[tid].val = x]: the comparison converts
    [val] to [unsigned], the assignment converts [x] to [int]. *)
Definition track (maxinfo : list Z) (tid x : Z) : res (list Z) :=
  val ← vget maxinfo tid;
  if u32 val <? x then vset maxinfo tid (i32 x) else Ok maxinfo.

Definition maxinfo_init (r : region) : res (list Z) :=
  if NUM_THREADS <? team r then Err UndefinedBehaviour else Ok (replicate (Z.to_nat NUM_THREADS) 0).

(** The loop of the master over the threads. *)
Definition largest_of (maxinfo : list Z) (nt : Z) : res Z :=
  foldM (fun largest i => val ← vget maxinfo i; Ok (if largest <? val then val else largest)) (seqZ 0 nt) 0.

Record team_state := mkTeam { t_store : store; t_maxinfo_a : list Z; t_maxinfo_b : list Z }.

Definition iterate2 (f : Z -> Z -> Z) (A B C : Z) (t : team_state) (it : Z * Z) : res team_state :=
  let '(tid, i) := it in
  x ← read (t_store t) A i;
  y ← read (t_store t) B i;
  m ← write (t_store t) C i (f x y);
  x ← read m A i;
  ma ← track (t_maxinfo_a t) tid x;
  y ← read m B i;
  mb ← track (t_maxinfo_b t) tid y;
  Ok (mkTeam m ma mb).

Definition parallel2 (f : Z -> Z -> Z) (A B C : Z) (r : region) (m : store) : res (Z * Z * store) :=
  init ← maxinfo_init r;
  t ← foldM (iterate2 f A B C) (order r) (mkTeam m init init);
  largest_element_a ← largest_of (t_maxinfo_a t) (team r);
  largest_element_b ← largest_of (t_maxinfo_b t) (team r);
  Ok (largest_element_a, largest_element_b, t_store t).

Definition iterate1 (f : Z -> Z) (A C : Z) (t : store * list Z) (it : Z * Z) : res (store * list Z) :=
  let '(tid, i) := it in
  x ← read t.1 A i;
  m ← write t.1 C i (f x);
  x ← read m A i;
  ma ← track t.2 tid x;
  Ok (m, ma).

Definition parallel1 (f : Z -> Z) (A C : Z) (r : region) (m : store) : res (Z * store) :=
  init ← maxinfo_init r;
  t ← foldM (iterate1 f A C) (order r) (m, init);
  largest_element_a ← largest_of t.2 (team r);
  Ok (largest_element_a, t.1).

(** [(int) floor(log2(largest_element)) + 1], clamped: [log2] of 0 is minus
    infinity, which has no conversion to [int]; the floor of the [double]
    logarithm of a positive [int] is exact. *)
Definition precision_of (largest_element : Z) : res Z :=
  if largest_element <=? 0 then Err UndefinedBehaviour
  else
    let bit_precision := Z.log2 largest_element + 1 in
    let bit_precision := if bit_precision <=? 0 then 1 else bit_precision in
    Ok (if 64 <=? bit_precision then 63 else bit_precision).

(** ** Operations *)
Inductive bbop_class := ClsAdd | ClsSub | ClsMul | ClsDiv | ClsCopy | ClsRelu | ClsCpuCopy | ClsUnknown.

Definition class_of (operation : bbop_operation) : bbop_class :=
  match operation with
  | BBOP_ADD | BBOP_ADD_8 | BBOP_ADD_16 | BBOP_ADD_32 | BBOP_ADD_64 => ClsAdd
  | BBOP_SUB | BBOP_SUB_8 | BBOP_SUB_16 | BBOP_SUB_32 | BBOP_SUB_64 => ClsSub
  | BBOP_MUL | BBOP_MUL_8 | BBOP_MUL_16 | BBOP_MUL_32 | BBOP_MUL_64 => ClsMul
  | BBOP_DIV | BBOP_DIV_8 | BBOP_DIV_16 | BBOP_DIV_32 | BBOP_DIV_64 => ClsDiv
  | BBOP_CPY => ClsCopy
  | BBOP_RELU => ClsRelu
  | CPU_CPY => ClsCpuCopy
  | _ => ClsUnknown
  end.

(** What is stored in [C[i]]; the elements are 32-bit unsigned integers. *)
Definition add_elements (x y : Z) : Z := u32 (x + y).
Definition sub_elements (x y : Z) : Z := u32 (x - y).
Definition mul_elements (x y : Z) : Z := u32 (x * y).
Definition div_elements (x y : Z) : Z := if 0 <? y then u32 (x + y) else 0.
Definition relu_element (x : Z) : Z := if x <? 0 then 0 else x.

Definition copy_elements (A C size : Z) (m : store) : res store :=
  foldM (fun m i => x ← read m A i; write m C i x) (seqZ 0 size) m.

Section Operations.
Context {D : Type} (F : float_ops D).

Record machine := mkMachine { memory : store; bbop_statistics : list (bbop_statistic (D := D)) }.

(** The update of [bbop_statistics[bbop_id]]. *)
Definition record_stat (bbop_id : Z) (f : bbop_statistic (D := D) -> res (bbop_statistic (D := D))) (stats : list bbop_statistic)
  : res (list bbop_statistic) :=
  s ← vget stats bbop_id; s ← f s; vset stats bbop_id s.

Definition bbop_two (f : Z -> Z -> Z) (c : circuit) (op : bbop_operation) (A B C : Z) (bbop_id size : Z) (r : region) (st : machine)
  : res machine :=
  p ← parallel2 f A B C r (memory st);
  let '(largest_element_a, largest_element_b, m) := p in
  let largest_element := if largest_element_b <? largest_element_a then largest_element_a else largest_element_b in
  stats ← record_stat bbop_id (fun s => Ok (raise_largest largest_element_a largest_element_b s)) (bbop_statistics st);
  bit_precision ← precision_of largest_element;
  let static_bit_precision := get_power_of_two_bit_precision bit_precision in
  stats ← record_stat bbop_id (fun s =>
    s ← charge_circuit F c bit_precision static_bit_precision (i32 size) s; Ok (set_operation op s)) stats;
  Ok (mkMachine m stats).

Definition bbop_one (f : Z -> Z) (charge : Z -> Z -> bbop_statistic (D := D) -> res (bbop_statistic (D := D))) (op : bbop_operation)
  (A C bbop_id : Z) (r : region) (st : machine) : res machine :=
  p ← parallel1 f A C r (memory st);
  let '(largest_element_a, m) := p in
  stats ← record_stat bbop_id (fun s => Ok (raise_largest largest_element_a (largest_input_b s) s)) (bbop_statistics st);
  bit_precision ← precision_of largest_element_a;
  let static_bit_precision := get_power_of_two_bit_precision bit_precision in
  stats ← record_stat bbop_id (fun s => s ← charge bit_precision static_bit_precision s; Ok (set_operation op s)) stats;
  Ok (mkMachine m stats).

(** The check of [bbop_id] comes last and only prints. *)
Definition bbop_op (op : bbop_operation) (A B C : Z) (size bbop_id : Z) (r : region) (st : machine) : res machine :=
  match class_of op with
  | ClsAdd => bbop_two add_elements (adders F) op A B C bbop_id size r st
  | ClsSub => bbop_two sub_elements (adders F) op A B C bbop_id size r st
  | ClsMul => bbop_two mul_elements (multipliers F) op A B C bbop_id size r st
  | ClsDiv => bbop_two div_elements (multipliers F) op A B C bbop_id size r st
  | ClsCopy => bbop_one id (fun bp sbp => charge_copy F bp sbp (i32 size)) op A C bbop_id r st
  | ClsRelu => bbop_one relu_element (fun bp sbp s => Ok (charge_relu F bp sbp size s)) op A C bbop_id r st
  | ClsCpuCopy => m ← copy_elements A C size (memory st); Ok (mkMachine m (bbop_statistics st))
  | ClsUnknown => Ok st
  end.

(** ** The reduction

    The first case of the [switch] falls through into the second. *)
Definition reduce_element (op : bbop_operation) (output x : Z) : res (option Z) :=
  match op with
  | BBOP_ADD => Ok (Some (u32 (u32 (output + x) - x)))
  | BBOP_SUB => Ok (Some (u32 (output - x)))
  | BBOP_MUL => Ok (Some (u32 (output * x)))
  | BBOP_DIV => if x =? 0 then Err UndefinedBehaviour else Ok (Some (output / x))
  | BBOP_ADD_8 => Ok (Some (u32 (output + x)))
  | _ => Ok None
  end.

(** The loop; an operation the [switch] does not know returns -1 at once. *)
Fixpoint reduce_loop (op : bbop_operation) (m : store) (A bbop_id : Z) (idx : list Z) (output : Z) (stats : list (bbop_statistic (D := D)))
  : res (option Z * list bbop_statistic) :=
  match idx with
  | [] => Ok (Some output, stats)
  | i :: idx =>
      x ← read m A i;
      o ← reduce_element op output x;
      match o with
      | None => Ok (None, stats)
      | Some output =>
          stats ← record_stat bbop_id (fun s => Ok (raise_largest x output s)) stats;
          reduce_loop op m A bbop_id idx output stats
      end
  end.

Definition bbop_op_red (op : bbop_operation) (A size bbop_id : Z) (st : machine) : res (Z * machine) :=
  p ← reduce_loop op (memory st) A bbop_id (seqZ 0 size) 0 (bbop_statistics st);
  match p.1 with
  | None => Ok (u32 (-1), mkMachine (memory st) p.2)
  | Some output =>
      stats ← record_stat bbop_id (fun s => Ok (set_operation BBOP_RED s)) p.2;
      Ok (if MAX_BBOPS <=? bbop_id then u32 (-1) else output, mkMachine (memory st) stats)
  end.

(** ** The output file *)
Definition get_bbop_name (op : bbop_operation) : string :=
  match op with
  | BBOP_ADD => "BBOP_ADD" | BBOP_ADD_8 => "BBOP_ADD_8" | BBOP_ADD_16 => "BBOP_ADD_16" | BBOP_ADD_32 => "BBOP_ADD_32"
  | BBOP_ADD_64 => "BBOP_ADD_64" | BBOP_SUB => "BBOP_SUB" | BBOP_SUB_8 => "BBOP_SUB_8" | BBOP_SUB_16 => "BBOP_SUB_16"
  | BBOP_SUB_32 => "BBOP_SUB_32" | BBOP_SUB_64 => "BBOP_SUB_64" | BBOP_MUL => "BBOP_MUL" | BBOP_MUL_8 => "BBOP_MUL_8"
  | BBOP_MUL_16 => "BBOP_MUL_16" | BBOP_MUL_32 => "BBOP_MUL_32" | BBOP_MUL_64 => "BBOP_MUL_64" | BBOP_DIV => "BBOP_DIV"
  | BBOP_DIV_8 => "BBOP_DIV_8" | BBOP_DIV_16 => "BBOP_DIV_16" | BBOP_DIV_32 => "BBOP_DIV_32" | BBOP_DIV_64 => "BBOP_DIV_64"
  | BBOP_CPY => "BBOP_CPY" | BBOP_RELU => "BBOP_RELU" | BBOP_RED => "BBOP_REDUCE" | CPU_CPY => "CPU_CPY"
  | _ => "BBOP_UNKNOWN"
  end.

(** A line: an operation of one mechanism, or the total of a mechanism. *)
Inductive csv_row :=
| RowBbop (bbop_id : Z) (name : string) (largest_a largest_b : Z) (mechanism : string) (latency energy : D)
| RowSummary (mechanism : string) (latency energy : D).

Definition mechanism_name (m : mechanism) : string :=
  match m with
  | simdram_1_subarray => "SIMDRAM_1"
  | simdram_64_subarray => "SIMDRAM_64"
  | simdram_64_subarray_dynamic_precision => "SIMDRAM_64_DYNAMIC"
  | daftpum_static_latency_optimized => "DAFTPUM_STATIC_LAT"
  | daftpum_latency_optimized => "DAFTPUM_LAT"
  | daftpum_static_energy_optimized => "DAFTPUM_STATIC_ENE"
  | daftpum_energy_optimized => "DAFTPUM_ENE"
  | daftpum_tfaw_enabled => "DAFTPUM_TFAW"
  end.

Definition row_order : list mechanism :=
  [simdram_1_subarray; simdram_64_subarray; simdram_64_subarray_dynamic_precision; daftpum_static_latency_optimized;
   daftpum_latency_optimized; daftpum_static_energy_optimized; daftpum_energy_optimized; daftpum_tfaw_enabled].
Definition summary_order : list mechanism :=
  [simdram_1_subarray; simdram_64_subarray; simdram_64_subarray_dynamic_precision; daftpum_static_latency_optimized;
   daftpum_static_energy_optimized; daftpum_latency_optimized; daftpum_energy_optimized; daftpum_tfaw_enabled].

(** Nanoseconds to milliseconds, in place. *)
Definition to_milli (f : mechanism -> D) : mechanism -> D := fun m => d_div (fl_double F) (f m) (d_int (fl_double F) 1000000).

Record printing := mkPrinting { pr_rows : list csv_row; pr_lat : mechanism -> D; pr_ene : mechanism -> D }.

Definition print_one (i : Z) (s : bbop_statistic (D := D)) (p : printing) : bbop_statistic (D := D) * printing :=
  match operation s with
  | None => (s, p)
  | Some op =>
      let s := mkStat (Some op) (to_milli (lat s)) (to_milli (ene s)) (largest_input_a s) (largest_input_b s) in
      let rows := map (fun m => RowBbop i (get_bbop_name op) (largest_input_a s) (largest_input_b s) (mechanism_name m) (lat s m) (ene s m)) row_order in
      (s, mkPrinting (pr_rows p ++ rows) (fun m => d_add (fl_double F) (pr_lat p m) (lat s m)) (fun m => d_add (fl_double F) (pr_ene p m) (ene s m)))
  end.

Fixpoint print_loop (i : Z) (stats : list (bbop_statistic (D := D))) (p : printing) : list bbop_statistic * printing :=
  match stats with
  | [] => ([], p)
  | s :: stats => let '(s, p) := print_one i s p in let '(l, p) := print_loop (i + 1) stats p in (s :: l, p)
  end.

Definition print_bbop_statistic (st : machine) : list csv_row * machine :=
  let zero := fun _ => d_int (fl_double F) 0 in
  let '(stats, p) := print_loop 0 (bbop_statistics st) (mkPrinting [] zero zero) in
  (pr_rows p ++ map (fun m => RowSummary (mechanism_name m) (pr_lat p m) (pr_ene p m)) summary_order, mkMachine (memory st) stats).
End Operations.
