(* ===== verification/BbopProps.v ===== *)
(** * BbopProps: parallel regions and costs of the Proteus model

    What a team computes does not depend on how the runtime distributes the
    iterations, as long as the operands are below 2^31; an operation is
    charged for the fastest circuit of the cost model ([costs] is what the
    charges need of adders and multipliers). *)
From Stdlib Require Import QArith Qround.
From stdpp Require Import prelude gmap strings.
From S2P Require Import Prelude CostModel Bbop.
Open Scope Z_scope.

(** ** Arrays *)

(** The array [a] holds the values [xs]. *)
Definition holds (m : store) (a : Z) (xs : list Z) : Prop := vget m a = Ok (map Some xs).

(** An array of [n] cells, written or not. *)
Definition sized (m : store) (a n : Z) : Prop := exists cs, vget m a = Ok cs /\ Z.of_nat (length cs) = n.

Lemma holds_sized m a xs : holds m a xs -> sized m a (Z.of_nat (length xs)).
Proof. intros H. exists (map Some xs). by rewrite length_map. Qed.

Lemma holds_read m a xs i x : holds m a xs -> vget xs i = Ok x -> read m a i = Ok x.
Proof.
  intros H [H0 Hx]%vget_Ok. unfold read. rewrite H. cbn [mbind res_bind].
  rewrite (proj2 (vget_Ok (map Some xs) i (Some x))); [done|]. split; [done|]. by rewrite list_lookup_fmap, Hx.
Qed.

Lemma write_Ok m a n i v : sized m a n -> 0 <= i < n ->
  exists cs, vget m a = Ok cs /\ write m a i v = Ok (<[Z.to_nat a := <[Z.to_nat i := Some v]> cs]> m).
Proof.
  intros (cs & Hcs & Hn) Hi. exists cs. split; [done|]. unfold write. rewrite Hcs. cbn [mbind res_bind].
  rewrite (proj2 (vset_Ok cs (<[Z.to_nat i := Some v]> cs) i (Some v))); [|split; [lia|done]]. cbn [mbind res_bind].
  apply vset_Ok. split; [|done]. apply vget_Ok in Hcs as [H0 Hl%lookup_lt_Some]. lia.
Qed.

Lemma write_others m a i v m' k : write m a i v = Ok m' -> k <> a -> vget m' k = vget m k.
Proof. unfold write. intros (l & _ & (l' & _ & H)%bind_Ok_inv)%bind_Ok_inv Hk. eapply vget_vset_ne; [exact H|congruence]. Qed.

Lemma write_array m a i v m' cs : vget m a = Ok cs -> write m a i v = Ok m' -> vget m' a = Ok (<[Z.to_nat i := Some v]> cs).
Proof.
  unfold write. intros ->. cbn [mbind res_bind]. intros (l' & [_ ->]%vset_Ok & H)%bind_Ok_inv. by eapply vget_vset_eq.
Qed.

(** ** What a thread has seen *)
Definition umax (l : list Z) : Z := foldr Z.max 0 l.

Lemma umax_ge l x : x ∈ l -> x <= umax l.
Proof. unfold umax. induction l as [|y l IH]; [by intros ?%not_elem_of_nil|]. cbn. intros [->|H%IH]%elem_of_cons; lia. Qed.

Lemma umax_nonneg l : 0 <= umax l.
Proof. unfold umax. induction l; cbn; lia. Qed.

Lemma umax_in l : umax l = 0 \/ umax l ∈ l.
Proof.
  unfold umax. induction l as [|x l IH]; [by left|]. cbn. destruct (Z.max_spec x (foldr Z.max 0 l)) as [[_ ->]|[_ ->]]; [|right; by left].
  destruct IH as [->|IH]; [by left|right; by right].
Qed.

Lemma umax_snoc l x : umax (l ++ [x]) = Z.max (umax l) x.
Proof. unfold umax. induction l as [|y l IH]; cbn; [lia|]. rewrite IH. lia. Qed.

Lemma umax_le l k : 0 <= k -> Forall (fun x => x <= k) l -> umax l <= k.
Proof. unfold umax. intros Hk. induction 1; cbn; lia. Qed.

#[export] Instance umax_Proper : Proper ((≡ₚ) ==> (=)) umax.
Proof. unfold umax. induction 1; cbn; lia. Qed.

(** The elements of [xs] that the iterations of thread [tid] read. *)
Definition seen (xs : list Z) (tid : Z) (its : list (Z * Z)) : list Z :=
  omap (fun it : Z * Z => if it.1 =? tid then xs !! Z.to_nat it.2 else None) its.

Lemma seen_snoc xs tid its it x : xs !! Z.to_nat it.2 = Some x ->
  seen xs tid (its ++ [it]) = seen xs tid its ++ (if it.1 =? tid then [x] else []).
Proof. intros Hx. unfold seen. rewrite omap_app. cbn. destruct (_ =? _); [by rewrite Hx|done]. Qed.

(** The slots of the threads after the iterations [its]. *)
Definition tracked (xs : list Z) (its : list (Z * Z)) (info : list Z) : Prop :=
  Z.of_nat (length info) = NUM_THREADS /\
  forall tid, 0 <= tid < NUM_THREADS -> exists v, vget info tid = Ok v /\ v = i32 (umax (seen xs tid its)).

Lemma i32_u32 x : 0 <= x < 2 ^ 32 -> u32 (i32 x) = x.
Proof.
  intros Hx. unfold u32, i32, wrap, swrap. change (2 ^ (32 - 1)) with (2 ^ 31). change (2 ^ 32) with (2 * 2 ^ 31) in *.
  set (h := 2 ^ 31) in *. assert (0 < h) by (subst h; lia). destruct (Z.ltb_spec x h).
  - rewrite (Z.mod_small (x + h)) by lia. rewrite Z.mod_small; lia.
  - replace (x + h) with (x - h + 1 * (2 * h)) by lia. rewrite Z.mod_add by lia. rewrite (Z.mod_small (x - h)) by lia.
    replace (x - h - h) with (x + (-1) * (2 * h)) by lia. rewrite Z.mod_add by lia. apply Z.mod_small. lia.
Qed.

Lemma seen_bound xs tid its : Forall (fun x => 0 <= x < 2 ^ 32) xs -> Forall (fun x => 0 <= x < 2 ^ 32) (seen xs tid its).
Proof.
  intros Hx. apply Forall_forall. intros y (it & _ & Hy)%list_elem_of_omap. destruct (_ =? _); [|done].
  rewrite Forall_forall in Hx. apply Hx. by eapply list_elem_of_lookup_2.
Qed.

Lemma track_tracked xs its info tid i x : Forall (fun x => 0 <= x < 2 ^ 32) xs -> 0 <= tid < NUM_THREADS -> vget xs i = Ok x ->
  tracked xs its info -> exists info', track info tid x = Ok info' /\ tracked xs (its ++ [(tid, i)]) info'.
Proof.
  intros Hxs Ht [Hi Hx]%vget_Ok [Hl Hv]. destruct (Hv tid Ht) as (v & Hget & ->). unfold track. rewrite Hget. cbn [mbind res_bind].
  set (l := seen xs tid its) in *. pose proof (umax_nonneg l) as H0.
  assert (Hb : umax l < 2 ^ 32).
  { pose proof (seen_bound xs tid its Hxs) as Hf. fold l in Hf. destruct (umax_in l) as [->|Hin]; [lia|]. rewrite Forall_forall in Hf. apply Hf, Hin. }
  rewrite i32_u32 by lia.
  assert (Hrest : forall info', Z.of_nat (length info') = NUM_THREADS -> (forall k, k <> tid -> vget info' k = vget info k) ->
    vget info' tid = Ok (i32 (Z.max (umax l) x)) -> tracked xs (its ++ [(tid, i)]) info').
  { intros info' Hl' Ho Hn. split; [done|]. intros k Hk. rewrite (seen_snoc xs k its (tid, i) x Hx). cbn [fst]. destruct (Z.eqb_spec tid k) as [<-|Hne].
    - eexists. split; [exact Hn|]. by rewrite umax_snoc.
    - rewrite app_nil_r, Ho by congruence. by apply Hv. }
  destruct (Z.ltb_spec (umax l) x) as [Hlt|Hge].
  - assert (Hs : vset info tid (i32 x) = Ok (<[Z.to_nat tid := i32 x]> info)) by (apply vset_Ok; split; [lia|done]).
    rewrite Hs. eexists. split; [done|]. apply Hrest.
    + by rewrite (vset_length _ _ _ _ Hs).
    + intros k Hk. eapply vget_vset_ne; [exact Hs|congruence].
    + rewrite (vget_vset_eq _ _ _ _ Hs). do 2 f_equal. lia.
  - eexists. split; [done|]. apply Hrest; [done|done|]. rewrite Hget. do 2 f_equal. lia.
Qed.

(** ** Regions *)

(** A team the slots suffice for, which executes every iteration once. *)
Record valid_region (n : Z) (r : region) : Prop := {
  vr_team : 0 < team r <= NUM_THREADS;
  vr_threads : Forall (fun it => 0 <= it.1 < team r) (order r);
  vr_order : map snd (order r) ≡ₚ seqZ 0 n
}.

Lemma tracked_init xs : tracked xs [] (replicate (Z.to_nat NUM_THREADS) 0).
Proof.
  split; [by rewrite length_replicate|]. intros tid Ht. exists 0. split; [|done]. apply vget_Ok. split; [lia|]. apply lookup_replicate_2. unfold NUM_THREADS in *. lia.
Qed.

(** The value the master computes. *)
Definition team_max (xs : list Z) (r : region) : Z := umax (map (fun tid => i32 (umax (seen xs tid (order r)))) (seqZ 0 (team r))).

Lemma largest_of_slots f info n acc ks : (forall tid, tid ∈ ks -> vget info tid = Ok (f tid)) -> 0 <= acc ->
  foldM (fun largest i => val ← vget info i; Ok (if largest <? val then val else largest)) ks acc = Ok n <-> n = Z.max acc (umax (map f ks)).
Proof.
  revert acc. induction ks as [|i ks IH]; intros acc Hv Ha; cbn [foldM map].
  - unfold umax. cbn. split; [intros [= <-]; lia|intros ->; f_equal; lia].
  - rewrite Hv by (by left). cbn [mbind res_bind]. rewrite IH; [|intros tid Ht; apply Hv; by right|destruct (Z.ltb_spec acc (f i)); lia].
    change (umax (f i :: map f ks)) with (Z.max (f i) (umax (map f ks))). pose proof (umax_nonneg (map f ks)).
    destruct (Z.ltb_spec acc (f i)); [rewrite Z.max_assoc, (Z.max_r acc (f i)) by lia|rewrite Z.max_assoc, (Z.max_l acc (f i)) by lia]; done.
Qed.

Lemma largest_tracked xs r info : 0 < team r <= NUM_THREADS -> tracked xs (order r) info -> largest_of info (team r) = Ok (team_max xs r).
Proof.
  intros Ht [_ Hv]. unfold largest_of. apply (largest_of_slots (fun tid => i32 (umax (seen xs tid (order r))))); [|lia|].
  - intros tid [H1 H2]%elem_of_seqZ. destruct (Hv tid ltac:(lia)) as (v & Hget & ->). done.
  - unfold team_max. pose proof (umax_nonneg (map (fun tid => i32 (umax (seen xs tid (order r)))) (seqZ 0 (team r)))). lia.
Qed.

(** Every element is seen by the thread of its iteration. *)
Lemma region_seen n r xs i x : valid_region n r -> Z.of_nat (length xs) = n -> xs !! i = Some x ->
  exists tid, 0 <= tid < team r /\ x ∈ seen xs tid (order r).
Proof.
  intros [_ V2 V3] Hn Hx. assert (Hin : Z.of_nat i ∈ map snd (order r)).
  { rewrite V3. apply elem_of_seqZ. apply lookup_lt_Some in Hx. lia. }
  apply list_elem_of_fmap in Hin as (it & Ei & Hit). rewrite Forall_forall in V2. exists it.1. split; [by apply V2|].
  apply list_elem_of_omap. exists it. split; [done|]. by rewrite Z.eqb_refl, <- Ei, Nat2Z.id.
Qed.

Lemma seen_in xs tid its x : x ∈ seen xs tid its -> x ∈ xs.
Proof. intros (it & _ & Hy)%list_elem_of_omap. destruct (_ =? _); [|done]. by eapply list_elem_of_lookup_2. Qed.

(** Operands below 2^31: the maximum, whatever the distribution. *)
Lemma team_max_small n r xs : valid_region n r -> Z.of_nat (length xs) = n -> Forall (fun x => 0 <= x < 2 ^ 31) xs -> team_max xs r = umax xs.
Proof.
  intros V Hn Hx. rewrite Forall_forall in Hx. unfold team_max.
  assert (Hi : forall tid, i32 (umax (seen xs tid (order r))) = umax (seen xs tid (order r))).
  { intros tid. apply i32_id. pose proof (umax_nonneg (seen xs tid (order r))). destruct (umax_in (seen xs tid (order r))) as [->|Hin%seen_in%Hx]; lia. }
  apply Z.le_antisymm.
  - apply umax_le; [apply umax_nonneg|]. apply Forall_fmap, Forall_forall. intros tid _. cbn. rewrite Hi. apply umax_le; [apply umax_nonneg|].
    apply Forall_forall. intros x Hin%seen_in. by apply umax_ge.
  - apply umax_le; [apply umax_nonneg|]. apply Forall_forall. intros x [i Hxi]%list_elem_of_lookup.
    destruct (region_seen n r xs i x V Hn Hxi) as (tid & Ht & Hs). etrans; [by apply umax_ge|]. rewrite <- Hi. apply umax_ge.
    apply (list_elem_of_fmap_2 (fun tid => i32 (umax (seen xs tid (order r))))), elem_of_seqZ. lia.
Qed.

(** Operands that are zero or negative as [int]: nothing is larger than 0. *)
Lemma team_max_negative r xs : Forall (fun x => x = 0 \/ 2 ^ 31 <= x < 2 ^ 32) xs -> team_max xs r = 0.
Proof.
  intros Hx. rewrite Forall_forall in Hx. apply Z.le_antisymm; [|apply umax_nonneg]. apply umax_le; [done|]. apply Forall_fmap, Forall_forall.
  intros tid _. cbn. destruct (umax_in (seen xs tid (order r))) as [->|Hin%seen_in%Hx]; [done|]. destruct Hin as [->|Hin]; [done|].
  unfold i32, swrap. change (2 ^ (32 - 1)) with (2 ^ 31). change (2 ^ 32) with (2 * 2 ^ 31) in *. set (h := 2 ^ 31) in *.
  set (u := umax _) in *. replace (u + h) with (u - h + 1 * (2 * h)) by lia. rewrite Z.mod_add by lia. rewrite Z.mod_small by lia. lia.
Qed.

(** ** The loops *)

(** The iterations [its] are done: their cells of [C] hold the results. *)
Record progress (m0 : store) (C n : Z) (out : list Z) (its : list (Z * Z)) (m : store) : Prop := {
  pg_others : forall k, k <> C -> vget m k = vget m0 k;
  pg_length : length m = length m0;
  pg_cells : exists cs, vget m C = Ok cs /\ Z.of_nat (length cs) = n /\
    (forall i, i ∈ map snd its -> exists v, vget out i = Ok v /\ vget cs i = Ok (Some v))
}.

Lemma progress_init m0 C n out : sized m0 C n -> progress m0 C n out [] m0.
Proof. intros (cs & H1 & H2). split; [done..|]. exists cs. split_and!; [done..|]. by intros i ?%not_elem_of_nil. Qed.

Lemma write_length m a i v m' : write m a i v = Ok m' -> length m' = length m.
Proof. unfold write. intros (l & _ & (l' & _ & H)%bind_Ok_inv)%bind_Ok_inv. by eapply vset_length. Qed.

Lemma progress_step m0 C n out its m tid i v : progress m0 C n out its m -> vget out i = Ok v -> 0 <= i < n ->
  exists m', write m C i v = Ok m' /\ progress m0 C n out (its ++ [(tid, i)]) m'.
Proof.
  intros [P1 P2 (cs & Hcs & Hn & Hd)] Hv Hi. destruct (write_Ok m C n i v ltac:(by exists cs) Hi) as (cs' & Hcs' & Hw).
  rewrite Hcs in Hcs'. injection Hcs' as <-. eexists. split; [exact Hw|]. split.
  - intros k Hk. rewrite <- P1 by done. by eapply write_others.
  - rewrite <- P2. by eapply write_length.
  - exists (<[Z.to_nat i := Some v]> cs). split; [exact (write_array _ _ _ _ _ _ Hcs Hw)|]. split; [by rewrite length_insert|]. intros j. rewrite map_app, elem_of_app. cbn [map snd]. rewrite list_elem_of_singleton.
    assert (Hs : vset cs i (Some v) = Ok (<[Z.to_nat i := Some v]> cs)) by (apply vset_Ok; split; [lia|done]).
    destruct (decide (j = i)) as [->|Hne].
    + intros _. exists v. split; [done|]. by eapply vget_vset_eq.
    + intros [Hj|]; [|done]. destruct (Hd j Hj) as (w & Hw1 & Hw2). exists w. split; [done|]. rewrite <- Hw2. eapply vget_vset_ne; [exact Hs|congruence].
Qed.

(** All iterations are done. *)
Lemma progress_done m0 C n out its m : progress m0 C n out its m -> Z.of_nat (length out) = n -> map snd its ≡ₚ seqZ 0 n -> holds m C out.
Proof.
  intros [_ _ (cs & Hcs & Hn & Hd)] Hr Hp. unfold holds. rewrite Hcs. f_equal. apply list_eq. intros i. rewrite list_lookup_fmap.
  destruct (out !! i) as [v|] eqn:E.
  - destruct (Hd (Z.of_nat i)) as (w & Hw & Hc); [rewrite Hp; apply elem_of_seqZ; apply lookup_lt_Some in E; lia|].
    apply vget_Ok in Hw as [_ Hw], Hc as [_ Hc]. rewrite Nat2Z.id in *. rewrite E in Hw. injection Hw as <-. by rewrite Hc.
  - apply lookup_ge_None_2. apply lookup_ge_None_1 in E. lia.
Qed.

Definition bounded (l : list Z) : Prop := Forall (fun x => 0 <= x < 2 ^ 32) l.

Lemma vget_total {A} (l : list A) i : 0 <= i < Z.of_nat (length l) -> exists x, vget l i = Ok x.
Proof. intros Hi. destruct (lookup_lt_is_Some_2 l (Z.to_nat i)) as [x Hx]; [lia|]. exists x. apply vget_Ok. split; [lia|done]. Qed.

Lemma iteration_bounds n r it : valid_region n r -> it ∈ order r -> 0 <= it.1 < NUM_THREADS /\ 0 <= it.2 < n.
Proof.
  intros [V1 V2 V3] Hit. rewrite Forall_forall in V2. specialize (V2 it Hit). split; [lia|].
  assert (Hin : it.2 ∈ map snd (order r)) by (by apply list_elem_of_fmap_2). rewrite V3 in Hin. apply elem_of_seqZ in Hin. lia.
Qed.

Lemma holds_same m m' k xs : vget m' k = vget m k -> holds m k xs -> holds m' k xs.
Proof. unfold holds. by intros ->. Qed.

Section Loops.
Context (m0 : store) (n : Z) (r : region) (V : valid_region n r).

Section Two.
Context (f : Z -> Z -> Z) (A B C : Z) (xs ys : list Z).
Context (HA : holds m0 A xs) (HB : holds m0 B ys) (HC : sized m0 C n) (Hx : Z.of_nat (length xs) = n) (Hy : Z.of_nat (length ys) = n).
Context (HAC : A <> C) (HBC : B <> C) (Bx : bounded xs) (By : bounded ys).

Definition loop2 (its : list (Z * Z)) (t : team_state) : Prop :=
  progress m0 C n (zip_with f xs ys) its (t_store t) /\ tracked xs its (t_maxinfo_a t) /\ tracked ys its (t_maxinfo_b t).

Lemma iterate2_Ok its t it : loop2 its t -> it ∈ order r -> exists t', iterate2 f A B C t it = Ok t' /\ loop2 (its ++ [it]) t'.
Proof.
  intros (P & Ta & Tb) Hit. destruct (iteration_bounds n r it V Hit) as [Ht Hi]. destruct it as [tid i]. cbn [fst snd] in *.
  destruct (vget_total xs i ltac:(lia)) as [x Hgx]. destruct (vget_total ys i ltac:(lia)) as [y Hgy]. unfold iterate2.
  assert (Hz : vget (zip_with f xs ys) i = Ok (f x y)).
  { apply vget_Ok in Hgx as [_ Hgx], Hgy as [_ Hgy]. apply vget_Ok. split; [lia|]. rewrite lookup_zip_with, Hgx. cbn. by rewrite Hgy. }
  destruct (progress_step m0 C n _ its _ tid i (f x y) P Hz Hi) as (m' & Hw & P').
  assert (R : forall m its', progress m0 C n (zip_with f xs ys) its' m -> read m A i = Ok x /\ read m B i = Ok y).
  { intros m its' Q. split; (eapply holds_read; [eapply holds_same; [by apply (pg_others _ _ _ _ _ _ Q)|eassumption]|done]). }
  destruct (R _ _ P) as [-> ->]. cbn [mbind res_bind]. rewrite Hw. cbn [mbind res_bind]. destruct (R _ _ P') as [-> ->]. cbn [mbind res_bind].
  destruct (track_tracked xs its _ tid i x Bx Ht Hgx Ta) as (ma & -> & Ta'). destruct (track_tracked ys its _ tid i y By Ht Hgy Tb) as (mb & -> & Tb').
  cbn [mbind res_bind]. eexists. split; [done|]. by split_and!.
Qed.

Lemma loop2_Ok todo : forall its t, loop2 its t -> (forall it, it ∈ todo -> it ∈ order r) ->
  exists t', foldM (iterate2 f A B C) todo t = Ok t' /\ loop2 (its ++ todo) t'.
Proof.
  induction todo as [|it todo IH]; intros its t Hl Hin; [exists t; by rewrite app_nil_r|].
  destruct (iterate2_Ok its t it Hl) as (t1 & H1 & Hl1); [apply Hin; by left|]. cbn [foldM]. rewrite H1. cbn [mbind res_bind].
  destruct (IH (its ++ [it]) t1 Hl1) as (t' & H' & Hl'); [intros z Hz; apply Hin; by right|]. exists t'. by rewrite <- app_assoc in Hl'.
Qed.

Lemma parallel2_Ok : exists m', parallel2 f A B C r m0 = Ok (team_max xs r, team_max ys r, m') /\ holds m' C (zip_with f xs ys) /\
  length m' = length m0 /\ forall k, k <> C -> vget m' k = vget m0 k.
Proof.
  pose proof V as [V1 _ V3]. unfold parallel2, maxinfo_init. destruct (Z.ltb_spec NUM_THREADS (team r)); [lia|]. cbn [mbind res_bind].
  set (init := replicate _ 0). destruct (loop2_Ok (order r) [] (mkTeam m0 init init)) as (t & Ht & P & Ta & Tb).
  { split_and!; [by apply progress_init|apply tracked_init..]. }
  { done. }
  rewrite Ht. cbn [mbind res_bind app] in *. rewrite (largest_tracked xs r _ V1 Ta), (largest_tracked ys r _ V1 Tb). cbn [mbind res_bind].
  eexists. split; [done|]. split_and!; [|apply P|apply P]. eapply progress_done; [exact P|rewrite length_zip_with; lia|exact V3].
Qed.
End Two.

Section One.
Context (f : Z -> Z) (A C : Z) (xs : list Z).
Context (HA : holds m0 A xs) (HC : sized m0 C n) (Hx : Z.of_nat (length xs) = n) (HAC : A <> C \/ map f xs = xs) (Bx : bounded xs).

Definition loop1 (its : list (Z * Z)) (t : store * list Z) : Prop :=
  progress m0 C n (map f xs) its t.1 /\ holds t.1 A xs /\ tracked xs its t.2.

Lemma iterate1_Ok its t it : loop1 its t -> it ∈ order r -> exists t', iterate1 f A C t it = Ok t' /\ loop1 (its ++ [it]) t'.
Proof.
  intros (P & Ha & Ta) Hit. destruct (iteration_bounds n r it V Hit) as [Ht Hi]. destruct it as [tid i]. cbn [fst snd] in *.
  destruct (vget_total xs i ltac:(lia)) as [x Hgx]. unfold iterate1.
  assert (Hz : vget (map f xs) i = Ok (f x)).
  { apply vget_Ok in Hgx as [_ Hgx]. apply vget_Ok. split; [lia|]. by rewrite list_lookup_fmap, Hgx. }
  destruct (progress_step m0 C n _ its _ tid i (f x) P Hz Hi) as (m' & Hw & P').
  rewrite (holds_read _ _ _ _ _ Ha Hgx). cbn [mbind res_bind]. rewrite Hw. cbn [mbind res_bind].
  assert (Ha' : holds m' A xs).
  { destruct (decide (A = C)) as [E|Hne]; [|eapply holds_same; [by eapply write_others|done]]. destruct HAC as [?|Hf]; [done|].
    unfold holds in *. rewrite E in *. rewrite (write_array _ _ _ _ _ _ Ha Hw). f_equal. apply list_insert_id.
    rewrite Hf in Hz. apply vget_Ok in Hz as [_ Hz]. by rewrite list_lookup_fmap, Hz. }
  rewrite (holds_read _ _ _ _ _ Ha' Hgx). cbn [mbind res_bind]. destruct (track_tracked xs its _ tid i x Bx Ht Hgx Ta) as (ma & -> & Ta').
  cbn [mbind res_bind]. eexists. split; [done|]. by split_and!.
Qed.

Lemma loop1_Ok todo : forall its t, loop1 its t -> (forall it, it ∈ todo -> it ∈ order r) ->
  exists t', foldM (iterate1 f A C) todo t = Ok t' /\ loop1 (its ++ todo) t'.
Proof.
  induction todo as [|it todo IH]; intros its t Hl Hin; [exists t; by rewrite app_nil_r|].
  destruct (iterate1_Ok its t it Hl) as (t1 & H1 & Hl1); [apply Hin; by left|]. cbn [foldM]. rewrite H1. cbn [mbind res_bind].
  destruct (IH (its ++ [it]) t1 Hl1) as (t' & H' & Hl'); [intros z Hz; apply Hin; by right|]. exists t'. by rewrite <- app_assoc in Hl'.
Qed.

Lemma parallel1_Ok : exists m', parallel1 f A C r m0 = Ok (team_max xs r, m') /\ holds m' C (map f xs) /\
  length m' = length m0 /\ forall k, k <> C -> vget m' k = vget m0 k.
Proof.
  pose proof V as [V1 _ V3]. unfold parallel1, maxinfo_init. destruct (Z.ltb_spec NUM_THREADS (team r)); [lia|]. cbn [mbind res_bind].
  set (init := replicate _ 0). destruct (loop1_Ok (order r) [] (m0, init)) as (t & Ht & P & _ & Ta).
  { split_and!; [by apply progress_init|done|apply tracked_init]. }
  { done. }
  rewrite Ht. cbn [mbind res_bind app] in *. rewrite (largest_tracked xs r _ V1 Ta). cbn [mbind res_bind].
  eexists. split; [done|]. split_and!; [|apply P|apply P]. eapply progress_done; [exact P|rewrite length_map; lia|exact V3].
Qed.
End One.
End Loops.

(** ** Costs *)
Definition repetitions (parallel size : Z) : Z := if size <? parallel then 1 else size / parallel.

Lemma repetition_factor_Ok parallel size : 65536 <= parallel -> 0 <= size < 2 ^ 27 ->
  repetition_factor parallel size = Ok (repetitions parallel size) /\ 1 <= repetitions parallel size <= 2048.
Proof.
  intros Hp Hs. unfold repetition_factor, repetitions. destruct (Z.ltb_spec size parallel) as [|Hge]; [split; [done|lia]|].
  assert (H1 : 1 <= size / parallel) by (apply Z.div_le_lower_bound; lia).
  assert (H2 : size / parallel <= 2048) by (apply Z.div_le_upper_bound; lia). split; [|done].
  unfold quot_int. rewrite (proj2 (Z.eqb_neq parallel 0)) by lia. rewrite Z.quot_div_nonneg by lia. apply int_res_Ok. split; [done|lia].
Qed.

Lemma mul_int_small x y : 0 <= x <= 600000 -> 1 <= y <= 2048 -> mul_int x y = Ok (x * y) /\ mul_int y x = Ok (y * x).
Proof. intros Hx Hy. split; apply int_res_Ok; (split; [done|nia]). Qed.

(** What the charges need of a circuit: the latencies the cost functions
    return, the best circuit and its name. *)
Record costs (c : circuit) (best base : Z -> Z) (name : Z -> string) : Prop := {
  co_simdram bp size dyn salp : 1 <= bp <= 32 -> 0 <= size < 2 ^ 27 ->
    simdram_latency c bp size dyn salp = Ok (repetitions (simdram_parallel salp) size * base (if dyn : bool then bp else 32));
  co_best bp size tfaw : 1 <= bp <= 32 -> 0 <= size < 2 ^ 27 ->
    daftpum_latency c bp size "" tfaw = Ok (best bp * repetitions (daftpum_parallel bp tfaw) size, name bp);
  co_again bp size tfaw : 1 <= bp <= 32 -> 0 <= size < 2 ^ 27 ->
    daftpum_latency c bp size (name bp) tfaw = Ok (best bp * repetitions (daftpum_parallel bp tfaw) size, name bp);
  co_named bp size adder_type tfaw : 1 <= bp <= 32 -> 0 <= size < 2 ^ 27 -> is_Ok (daftpum_latency c bp size adder_type tfaw);
  co_le bp : 1 <= bp <= 32 -> 0 < best bp <= base bp;
  co_mono bp bp' : 1 <= bp <= bp' -> bp' <= 32 -> best bp <= best bp' /\ base bp <= base bp'
}.

Definition adder_type_name (t : AdderType) : string :=
  match t with
  | Adder_FULL => "full_adder"
  | Adder_SKLANSKY => "brent_kung_adder"
  | Adder_KOGGE => "koggee_adder"
  | Adder_CARRYSEL => "carryselect_adder"
  | Adder_RBR => "rbr_adder"
  end.

Definition mult_type_name (t : MultType) : string :=
  match t with
  | Mult_FULL => "full_multiplier"
  | Mult_SKLANSKY => "sklansky_multiplier"
  | Mult_CARRYSEL => "carryselect_multiplier"
  | Mult_RBR => "rbr_multiplier"
  end.

Definition adder_name (bp : Z) : string := adder_type_name (best_adder bp).
Definition mult_name (bp : Z) : string := mult_type_name (best_mult bp).

(** The tables are those of the other cost model. *)
Lemma same_tables :
  latency_daftpum_full_adder = LAT_DAFTPUM_FULL_ADDER /\ latency_daftpum_sklansky_adder = LAT_DAFTPUM_SKLANSKY_ADDER /\
  latency_daftpum_koggee_adder = LAT_DAFTPUM_KOGGE_ADDER /\ latency_daftpum_carryselect_adder = LAT_DAFTPUM_CARRYSEL_ADDER /\
  latency_daftpum_rbr_adder = LAT_DAFTPUM_RBR_ADDER /\ latency_simdram_ripple_carry_multiplier = LAT_SIMDRAM_RC_MULT /\
  latency_daftpum_sklansky_multiplier = LAT_DAFTPUM_SKLANSKY_MULT /\ latency_daftpum_csa_multiplier = LAT_DAFTPUM_CSA_MULT /\
  latency_daftpum_rbr_multiplier = LAT_DAFTPUM_RBR_MULT /\ latency_simdram_relu = LAT_SIMDRAM_RELU.
Proof. by split_and!. Qed.

Definition adder_circuits (bp : Z) : list (string * Z) :=
  [("full_adder", adder_latency Adder_FULL bp); ("koggee_adder", adder_latency Adder_KOGGE bp); ("brent_kung_adder", adder_latency Adder_SKLANSKY bp);
   ("carryselect_adder", adder_latency Adder_CARRYSEL bp); ("rbr_adder", adder_latency Adder_RBR bp);
   ("full_adder_simdram", table_at latency_simdram_ripple_carry_adder bp)].
Definition mult_circuits (bp : Z) : list (string * Z) :=
  [("full_multiplier", mult_latency Mult_FULL bp); ("sklansky_multiplier", mult_latency Mult_SKLANSKY bp);
   ("carryselect_multiplier", mult_latency Mult_CARRYSEL bp); ("rbr_multiplier", mult_latency Mult_RBR bp)].

Definition adder_row_ok (bp : Z) : bool :=
  let best := adder_latency (best_adder bp) bp in
  bool_decide (foldl consider (adder_latency Adder_FULL bp, "full_adder")
    [("brent_kung_adder", adder_latency Adder_SKLANSKY bp); ("koggee_adder", adder_latency Adder_KOGGE bp);
     ("carryselect_adder", adder_latency Adder_CARRYSEL bp); ("rbr_adder", adder_latency Adder_RBR bp);
     ("full_adder_simdram", table_at latency_simdram_ripple_carry_adder bp)] = (best, adder_name bp)) &&
  bool_decide (adder_name bp <> "") && (named_latency (adder_circuits bp) (adder_latency Adder_FULL bp) (adder_name bp) =? best) &&
  forallb (fun c => (0 <? c.2) && (c.2 <=? 600000)) (adder_circuits bp) && (best <=? table_at latency_simdram_ripple_carry_adder bp) &&
  (table_at latency_simdram_ripple_carry_adder (bp - 1) <=? table_at latency_simdram_ripple_carry_adder bp).

Definition mult_row_ok (bp : Z) : bool :=
  let best := mult_latency (best_mult bp) bp in
  bool_decide (foldl consider (mult_latency Mult_FULL bp, "full_multiplier")
    [("sklansky_multiplier", mult_latency Mult_SKLANSKY bp); ("carryselect_multiplier", mult_latency Mult_CARRYSEL bp);
     ("rbr_multiplier", mult_latency Mult_RBR bp)] = (best, mult_name bp)) &&
  bool_decide (mult_name bp <> "") && (named_latency (mult_circuits bp) (mult_latency Mult_FULL bp) (mult_name bp) =? best) &&
  forallb (fun c => (0 <? c.2) && (c.2 <=? 600000)) (mult_circuits bp) && (best <=? mult_latency Mult_FULL bp) &&
  (mult_latency Mult_FULL (bp - 1) <=? mult_latency Mult_FULL bp).

Lemma rows_ok : forallb (fun bp => adder_row_ok bp && mult_row_ok bp) (seqZ 1 32) = true.
Proof. by vm_compute. Qed.

Lemma row_ok bp : 1 <= bp <= 32 -> adder_row_ok bp = true /\ mult_row_ok bp = true.
Proof.
  intros H. pose proof rows_ok as R. rewrite forallb_forall in R. apply andb_prop. apply R, list_elem_of_In, elem_of_seqZ. lia.
Qed.

Lemma find_elem {A} (p : A -> bool) l x : List.find p l = Some x -> x ∈ l.
Proof. intros [H _]%find_some. by apply list_elem_of_In. Qed.

Lemma named_range circuits unknown nm lo hi : forallb (fun c : string * Z => (lo <? c.2) && (c.2 <=? hi)) circuits = true -> lo < unknown <= hi ->
  lo < named_latency circuits unknown nm <= hi.
Proof.
  intros Hf Hu. unfold named_latency. destruct (List.find _ circuits) as [c|] eqn:E; [|done]. apply find_elem in E.
  rewrite forallb_forall in Hf. apply list_elem_of_In, Hf in E. lia.
Qed.

Section Circuits.
Context {D : Type} (F : float_ops D).

Lemma mono_base (t : Z -> Z) bp bp' : (forall b, 1 <= b <= 32 -> t (b - 1) <= t b) -> 1 <= bp <= bp' -> bp' <= 32 -> t bp <= t bp'.
Proof.
  intros Ht Hb Hb'. assert (Hgo : forall k : nat, bp + Z.of_nat k <= 32 -> t bp <= t (bp + Z.of_nat k)).
  { induction k as [|k IH]; intros Hk; [by rewrite Z.add_0_r|]. specialize (IH ltac:(lia)). specialize (Ht (bp + Z.of_nat (S k)) ltac:(lia)).
    replace (bp + Z.of_nat (S k) - 1) with (bp + Z.of_nat k) in Ht by lia. lia. }
  specialize (Hgo (Z.to_nat (bp' - bp))). rewrite Z2Nat.id in Hgo by lia. replace (bp + (bp' - bp)) with bp' in Hgo by lia. apply Hgo. lia.
Qed.

Lemma parallel_large bp tfaw salp : 65536 <= daftpum_parallel bp tfaw /\ 65536 <= simdram_parallel salp.
Proof. unfold daftpum_parallel, simdram_parallel, SUBARRAYS, BBOP_SIMD_WIDTH. destruct tfaw, salp; cbn [negb]; repeat case_match; lia. Qed.

Lemma adder_row bp : 1 <= bp <= 32 ->
  let best := adder_latency (best_adder bp) bp in
  foldl consider (adder_latency Adder_FULL bp, "full_adder")
    [("brent_kung_adder", adder_latency Adder_SKLANSKY bp); ("koggee_adder", adder_latency Adder_KOGGE bp);
     ("carryselect_adder", adder_latency Adder_CARRYSEL bp); ("rbr_adder", adder_latency Adder_RBR bp);
     ("full_adder_simdram", table_at latency_simdram_ripple_carry_adder bp)] = (best, adder_name bp) /\
  adder_name bp <> "" /\ named_latency (adder_circuits bp) (adder_latency Adder_FULL bp) (adder_name bp) = best /\
  forallb (fun c => (0 <? c.2) && (c.2 <=? 600000)) (adder_circuits bp) = true /\ best <= table_at latency_simdram_ripple_carry_adder bp /\
  table_at latency_simdram_ripple_carry_adder (bp - 1) <= table_at latency_simdram_ripple_carry_adder bp.
Proof.
  intros H. destruct (row_ok bp H) as [R _]. unfold adder_row_ok in R. cbn zeta in *. rewrite !andb_true_iff, !bool_decide_eq_true in R.
  destruct R as (((((R1 & R2) & R3) & R4) & R5) & R6). apply Z.eqb_eq in R3. apply Z.leb_le in R5, R6. by split_and!.
Qed.

Lemma mult_row bp : 1 <= bp <= 32 ->
  let best := mult_latency (best_mult bp) bp in
  foldl consider (mult_latency Mult_FULL bp, "full_multiplier")
    [("sklansky_multiplier", mult_latency Mult_SKLANSKY bp); ("carryselect_multiplier", mult_latency Mult_CARRYSEL bp);
     ("rbr_multiplier", mult_latency Mult_RBR bp)] = (best, mult_name bp) /\
  mult_name bp <> "" /\ named_latency (mult_circuits bp) (mult_latency Mult_FULL bp) (mult_name bp) = best /\
  forallb (fun c => (0 <? c.2) && (c.2 <=? 600000)) (mult_circuits bp) = true /\ best <= mult_latency Mult_FULL bp /\
  mult_latency Mult_FULL (bp - 1) <= mult_latency Mult_FULL bp.
Proof.
  intros H. destruct (row_ok bp H) as [_ R]. unfold mult_row_ok in R. cbn zeta in *. rewrite !andb_true_iff, !bool_decide_eq_true in R.
  destruct R as (((((R1 & R2) & R3) & R4) & R5) & R6). apply Z.eqb_eq in R3. apply Z.leb_le in R5, R6. by split_and!.
Qed.

(** The adder function, with the tables read. *)
Lemma adder_latency_Ok bp size nm tfaw : 1 <= bp <= 32 -> 0 <= size < 2 ^ 27 ->
  get_daftpum_adder_latency bp size nm tfaw =
    let v := if bool_decide (nm = "") then (adder_latency (best_adder bp) bp, adder_name bp)
             else (named_latency (adder_circuits bp) (adder_latency Adder_FULL bp) nm, nm) in
    Ok (v.1 * repetitions (daftpum_parallel bp tfaw) size, v.2).
Proof.
  intros Hb Hs. destruct (adder_row bp Hb) as (R1 & _ & R3 & R4 & _). unfold get_daftpum_adder_latency.
  rewrite !table_ok by (done || lia). cbn [mbind res_bind]. destruct same_tables as (-> & -> & -> & -> & -> & _).
  change (table_at LAT_DAFTPUM_FULL_ADDER bp) with (adder_latency Adder_FULL bp).
  change (table_at LAT_DAFTPUM_SKLANSKY_ADDER bp) with (adder_latency Adder_SKLANSKY bp).
  change (table_at LAT_DAFTPUM_KOGGE_ADDER bp) with (adder_latency Adder_KOGGE bp).
  change (table_at LAT_DAFTPUM_CARRYSEL_ADDER bp) with (adder_latency Adder_CARRYSEL bp).
  change (table_at LAT_DAFTPUM_RBR_ADDER bp) with (adder_latency Adder_RBR bp). rewrite R1. fold (adder_circuits bp).
  assert (Hfull : 0 < adder_latency Adder_FULL bp <= 600000).
  { rewrite forallb_forall in R4. pose proof (R4 ("full_adder", adder_latency Adder_FULL bp) ltac:(by left)) as Hf. cbn in Hf. lia. }
  assert (Hn : forall nm, 0 < named_latency (adder_circuits bp) (adder_latency Adder_FULL bp) nm <= 600000) by (intros; by apply named_range).
  destruct (repetition_factor_Ok (daftpum_parallel bp tfaw) size (proj1 (parallel_large bp tfaw tfaw)) Hs) as [Hr Hrb].
  case_bool_decide; cbn [fst snd]; rewrite Hr; cbn [mbind res_bind].
  - pose proof (Hn (adder_name bp)) as Hb'. rewrite R3 in Hb'. by destruct (mul_int_small (adder_latency (best_adder bp) bp) _ ltac:(lia) Hrb) as [-> _].
  - pose proof (Hn nm). by destruct (mul_int_small (named_latency (adder_circuits bp) (adder_latency Adder_FULL bp) nm) _ ltac:(lia) Hrb) as [-> _].
Qed.

Lemma mult_latency_Ok bp size nm tfaw : 1 <= bp <= 32 -> 0 <= size < 2 ^ 27 ->
  get_daftpum_multiplier_latency bp size nm tfaw =
    let v := if bool_decide (nm = "") then (mult_latency (best_mult bp) bp, mult_name bp)
             else (named_latency (mult_circuits bp) (mult_latency Mult_FULL bp) nm, nm) in
    Ok (v.1 * repetitions (daftpum_parallel bp tfaw) size, v.2).
Proof.
  intros Hb Hs. destruct (mult_row bp Hb) as (R1 & _ & R3 & R4 & _). unfold get_daftpum_multiplier_latency.
  rewrite !table_ok by (done || lia). cbn [mbind res_bind]. destruct same_tables as (_ & _ & _ & _ & _ & -> & -> & -> & -> & _).
  change (table_at LAT_SIMDRAM_RC_MULT bp) with (mult_latency Mult_FULL bp).
  change (table_at LAT_DAFTPUM_SKLANSKY_MULT bp) with (mult_latency Mult_SKLANSKY bp).
  change (table_at LAT_DAFTPUM_CSA_MULT bp) with (mult_latency Mult_CARRYSEL bp).
  change (table_at LAT_DAFTPUM_RBR_MULT bp) with (mult_latency Mult_RBR bp). rewrite R1. fold (mult_circuits bp).
  assert (Hfull : 0 < mult_latency Mult_FULL bp <= 600000).
  { rewrite forallb_forall in R4. pose proof (R4 ("full_multiplier", mult_latency Mult_FULL bp) ltac:(by left)) as Hf. cbn in Hf. lia. }
  assert (Hn : forall nm, 0 < named_latency (mult_circuits bp) (mult_latency Mult_FULL bp) nm <= 600000) by (intros; by apply named_range).
  destruct (repetition_factor_Ok (daftpum_parallel bp tfaw) size (proj1 (parallel_large bp tfaw tfaw)) Hs) as [Hr Hrb].
  case_bool_decide; cbn [fst snd]; rewrite Hr; cbn [mbind res_bind].
  - pose proof (Hn (mult_name bp)) as Hb'. rewrite R3 in Hb'. by destruct (mul_int_small (mult_latency (best_mult bp) bp) _ ltac:(lia) Hrb) as [-> _].
  - pose proof (Hn nm). by destruct (mul_int_small (named_latency (mult_circuits bp) (mult_latency Mult_FULL bp) nm) _ ltac:(lia) Hrb) as [-> _].
Qed.

Lemma adders_costs : costs (adders F) (fun bp => adder_latency (best_adder bp) bp) (table_at latency_simdram_ripple_carry_adder) adder_name.
Proof.
  assert (Hbase : forall bp, 1 <= bp <= 32 -> 0 < table_at latency_simdram_ripple_carry_adder bp <= 600000).
  { intros bp Hb. destruct (adder_row bp Hb) as (_ & _ & _ & R4 & _). rewrite forallb_forall in R4.
    pose proof (R4 ("full_adder_simdram", table_at latency_simdram_ripple_carry_adder bp) ltac:(by do 5 right; left)) as Hf. cbn in Hf. lia. }
  split.
  - intros bp size dyn salp Hb Hs. cbn. unfold get_simdram_adder_latency.
    destruct (repetition_factor_Ok (simdram_parallel salp) size (proj2 (parallel_large bp salp salp)) Hs) as [Hr Hrb]. rewrite Hr. cbn [mbind res_bind].
    set (b := if dyn then bp else 32). assert (1 <= b <= 32) by (destruct dyn; subst b; lia). rewrite table_ok by (done || lia). cbn [mbind res_bind].
    pose proof (Hbase b ltac:(done)). by destruct (mul_int_small (table_at latency_simdram_ripple_carry_adder b) _ ltac:(lia) Hrb) as [_ ->].
  - intros bp size tfaw Hb Hs. cbn [daftpum_latency adders]. by rewrite adder_latency_Ok.
  - intros bp size tfaw Hb Hs. cbn [daftpum_latency adders]. destruct (adder_row bp Hb) as (_ & R2 & R3 & _). rewrite adder_latency_Ok by done.
    cbn zeta. rewrite bool_decide_false by done. cbn [fst snd]. by rewrite R3.
  - intros bp size nm tfaw Hb Hs. cbn [daftpum_latency adders]. rewrite adder_latency_Ok by done. by eexists.
  - intros bp Hb. destruct (adder_row bp Hb) as (_ & _ & R3 & R4 & R5 & _). split; [|done]. rewrite <- R3. eapply (named_range _ _ _ 0 600000); [done|].
    rewrite forallb_forall in R4. pose proof (R4 ("full_adder", adder_latency Adder_FULL bp) ltac:(by left)) as Hf. cbn in Hf. lia.
  - intros bp bp' Hb Hb'. split; [apply (latency_mono (fun bp => adder_latency (best_adder bp) bp)); [apply latency_steps|lia|lia]|].
    apply (mono_base (table_at latency_simdram_ripple_carry_adder)); [intros b Hb0; apply (adder_row b Hb0)|done..].
Qed.

Lemma mults_costs : costs (multipliers F) (fun bp => mult_latency (best_mult bp) bp) (mult_latency Mult_FULL) mult_name.
Proof.
  assert (Hbase : forall bp, 1 <= bp <= 32 -> 0 < mult_latency Mult_FULL bp <= 600000).
  { intros bp Hb. destruct (mult_row bp Hb) as (_ & _ & _ & R4 & _). rewrite forallb_forall in R4.
    pose proof (R4 ("full_multiplier", mult_latency Mult_FULL bp) ltac:(by left)) as Hf. cbn in Hf. lia. }
  split.
  - intros bp size dyn salp Hb Hs. cbn. unfold get_simdram_multiplier_latency.
    destruct (repetition_factor_Ok (simdram_parallel salp) size (proj2 (parallel_large bp salp salp)) Hs) as [Hr Hrb]. rewrite Hr. cbn [mbind res_bind].
    rewrite (proj2 (Z.leb_le bp 32)) by lia.
    set (b := if dyn then bp else 32). assert (1 <= b <= 32) by (destruct dyn; subst b; lia). rewrite table_ok by (done || lia). cbn [mbind res_bind].
    destruct same_tables as (_ & _ & _ & _ & _ & -> & _). pose proof (Hbase b ltac:(done)). change (mult_latency Mult_FULL b) with (table_at LAT_SIMDRAM_RC_MULT b) in *.
    by destruct (mul_int_small (table_at LAT_SIMDRAM_RC_MULT b) _ ltac:(lia) Hrb) as [_ ->].
  - intros bp size tfaw Hb Hs. cbn [daftpum_latency multipliers]. by rewrite mult_latency_Ok.
  - intros bp size tfaw Hb Hs. cbn [daftpum_latency multipliers]. destruct (mult_row bp Hb) as (_ & R2 & R3 & _). rewrite mult_latency_Ok by done.
    cbn zeta. rewrite bool_decide_false by done. cbn [fst snd]. by rewrite R3.
  - intros bp size nm tfaw Hb Hs. cbn [daftpum_latency multipliers]. rewrite mult_latency_Ok by done. by eexists.
  - intros bp Hb. destruct (mult_row bp Hb) as (_ & _ & R3 & R4 & R5 & _). split; [|done]. rewrite <- R3. eapply (named_range _ _ _ 0 600000); [done|].
    by apply Hbase.
  - intros bp bp' Hb Hb'. split; [apply (latency_mono (fun bp => mult_latency (best_mult bp) bp)); [apply latency_steps|lia|lia]|].
    apply (mono_base (mult_latency Mult_FULL)); [intros b Hb0; apply (mult_row b Hb0)|done..].
Qed.
End Circuits.

(** This cost model and the one of [CostModel] choose the same circuits with
    the same latencies. *)
Theorem cost_models_agree {D} (O : double_ops D) bp size tfaw :
  1 <= bp <= 32 -> 0 <= size < 2 ^ 27 ->
  exists r, computeCost O bp size = Ok r /\
    get_daftpum_adder_latency bp size "" tfaw =
      Ok (adder_latency (r_adder r) bp * repetitions (daftpum_parallel bp tfaw) size, adder_type_name (r_adder r)) /\
    get_daftpum_multiplier_latency bp size "" tfaw =
      Ok (mult_latency (r_mult r) bp * repetitions (daftpum_parallel bp tfaw) size, mult_type_name (r_mult r)).
Proof.
  intros Hb Hs. destruct (computeCost_selects O bp size ltac:(lia)) as (r & Hr & Ea & Em & _). exists r. split; [done|].
  rewrite Ea, Em. split; [by rewrite adder_latency_Ok|by rewrite mult_latency_Ok].
Qed.

Lemma repetitions_le p q size : 0 < p <= q -> 0 <= size -> repetitions q size <= repetitions p size.
Proof.
  intros Hp Hs. unfold repetitions. destruct (Z.ltb_spec size p), (Z.ltb_spec size q); try lia.
  - apply Z.div_le_lower_bound; lia.
  - apply Z.div_le_compat_l; lia.
Qed.

Lemma power_of_two_range bp : 1 <= bp <= 32 -> 1 <= bp <= get_power_of_two_bit_precision bp /\ get_power_of_two_bit_precision bp <= 32.
Proof. unfold get_power_of_two_bit_precision. intros H. repeat case_match; bool_hyps; lia. Qed.

(** ** Charges *)

(** The energies of the arrays of this size are in the range of [int]. *)
Definition energies_fit {D} (F : float_ops D) (size : Z) : Prop :=
  forall c bp, c = adders F \/ c = multipliers F -> 1 <= bp <= 32 ->
    (forall dyn salp, is_Ok (simdram_energy c bp size dyn salp)) /\ (forall nm tfaw, is_Ok (daftpum_energy c bp size nm tfaw)).

(** What an operation adds to the latency of a mechanism; the mechanisms that
    choose by energy are left open. *)
Definition charged (best base : Z -> Z) (bp size : Z) (m : mechanism) : option Z :=
  let sbp := get_power_of_two_bit_precision bp in
  match m with
  | simdram_1_subarray => Some (repetitions (simdram_parallel false) size * base 32)
  | simdram_64_subarray => Some (repetitions (simdram_parallel true) size * base 32)
  | simdram_64_subarray_dynamic_precision => Some (repetitions (simdram_parallel true) size * base bp)
  | daftpum_static_latency_optimized => Some (best sbp * repetitions (daftpum_parallel sbp false) size)
  | daftpum_latency_optimized => Some (best bp * repetitions (daftpum_parallel bp false) size)
  | daftpum_tfaw_enabled => Some (best bp * repetitions (daftpum_parallel bp true) size)
  | _ => None
  end.

(** DAFTPUM with dynamic precision is the fastest mechanism, SIMDRAM in one
    subarray the slowest. *)
Lemma charged_order c best base name bp size : costs c best base name -> 1 <= bp <= 32 -> 0 <= size < 2 ^ 27 ->
  exists v1 v64 vdyn vstatic vlat vtfaw,
    charged best base bp size simdram_1_subarray = Some v1 /\ charged best base bp size simdram_64_subarray = Some v64 /\
    charged best base bp size simdram_64_subarray_dynamic_precision = Some vdyn /\
    charged best base bp size daftpum_static_latency_optimized = Some vstatic /\
    charged best base bp size daftpum_latency_optimized = Some vlat /\ charged best base bp size daftpum_tfaw_enabled = Some vtfaw /\
    0 < vlat /\ vlat <= vdyn <= v64 /\ v64 <= v1 /\ vlat <= vstatic <= v64 /\ vlat <= vtfaw <= v1.
Proof.
  intros K Hb Hs. pose proof (power_of_two_range bp Hb) as [Hp1 Hp2]. unfold charged. set (sbp := get_power_of_two_bit_precision bp) in *. cbn zeta.
  do 6 eexists. do 6 (split; [reflexivity|]).
  assert (P : daftpum_parallel bp false = simdram_parallel true /\ daftpum_parallel sbp false = simdram_parallel true) by done. destruct P as [-> ->].
  assert (Q : 0 < simdram_parallel false <= daftpum_parallel bp true /\ daftpum_parallel bp true <= simdram_parallel true).
  { unfold daftpum_parallel, simdram_parallel, SUBARRAYS, BBOP_SIMD_WIDTH. cbn [negb]. case_match; lia. }
  pose proof (repetitions_le _ _ size (proj1 Q) ltac:(lia)). pose proof (repetitions_le (daftpum_parallel bp true) (simdram_parallel true) size ltac:(lia) ltac:(lia)).
  pose proof (repetition_factor_Ok (simdram_parallel true) size ltac:(done) Hs) as [_ R].
  pose proof (co_le _ _ _ _ K bp Hb). pose proof (co_le _ _ _ _ K sbp ltac:(lia)). pose proof (co_mono _ _ _ _ K bp sbp ltac:(lia) ltac:(lia)).
  pose proof (co_mono _ _ _ _ K bp 32 ltac:(lia) ltac:(lia)). pose proof (co_mono _ _ _ _ K sbp 32 ltac:(lia) ltac:(lia)).
  set (r1 := repetitions (simdram_parallel true) size) in *. set (r2 := repetitions (daftpum_parallel bp true) size) in *.
  set (r3 := repetitions (simdram_parallel false) size) in *. split_and!; nia.
Qed.

Section Charges.
Context {D : Type} (F : float_ops D) (size : Z) (Hsize : 0 <= size < 2 ^ 27) (HE : energies_fit F size).
Local Abbreviation O := (fl_double F).

(** The statistics [s] are [s0] with the latencies [l] added. *)
Record accrued (s0 : bbop_statistic (D := D)) (l : list (mechanism * Z)) (s : bbop_statistic (D := D)) : Prop := {
  ac_a : largest_input_a s = largest_input_a s0;
  ac_b : largest_input_b s = largest_input_b s0;
  ac_lat m : lat s m = foldl (fun acc c => if decide (m = c.1) then d_add O acc (d_int O c.2) else acc) (lat s0 m) l
}.

Lemma accrued_lat s0 l s m v : accrued s0 l s -> accrued s0 (l ++ [(m, v)]) (charge_lat F m (d_int O v) s).
Proof.
  intros [A1 A2 A3]. split; [done..|]. intros k. rewrite foldl_app, <- A3. cbn. unfold update_at. by destruct (decide (k = m)) as [->|].
Qed.
Lemma accrued_ene s0 l s m v : accrued s0 l s -> accrued s0 l (charge_ene F m v s).
Proof. intros [A1 A2 A3]. by split. Qed.

(** One charge, and what follows it. *)
Lemma step_lat {T} s0 l s m x v (k : bbop_statistic -> res T) P : x = Ok v -> accrued s0 l s ->
  (forall s', accrued s0 (l ++ [(m, v)]) s' -> exists t, k s' = Ok t /\ P t) ->
  exists t, (s' ← add_lat F m x s; k s') = Ok t /\ P t.
Proof. intros -> H K. cbn. by apply K, accrued_lat. Qed.
Lemma step_ene {T} s0 l s m x (k : bbop_statistic -> res T) P : is_Ok x -> accrued s0 l s ->
  (forall s', accrued s0 l s' -> exists t, k s' = Ok t /\ P t) ->
  exists t, (s' ← add_ene F m x s; k s') = Ok t /\ P t.
Proof. intros [v ->] H K. cbn. by apply K, accrued_ene. Qed.
Lemma step_lat_named {T} s0 l s m x v nm (k : string * bbop_statistic -> res T) P : x = Ok (v, nm) -> accrued s0 l s ->
  (forall s', accrued s0 (l ++ [(m, v)]) s' -> exists t, k (nm, s') = Ok t /\ P t) ->
  exists t, (p ← add_lat_named F m x s; k p) = Ok t /\ P t.
Proof. intros -> H K. cbn. by apply K, accrued_lat. Qed.
Lemma step_ene_named {T} s0 l s m x (k : string * bbop_statistic -> res T) P : is_Ok x -> accrued s0 l s ->
  (forall nm s', accrued s0 l s' -> exists t, k (nm, s') = Ok t /\ P t) ->
  exists t, (p ← add_ene_named F m x s; k p) = Ok t /\ P t.
Proof. intros [v ->] H K. cbn. by apply K, accrued_ene. Qed.

Lemma accrued_charged s0 best base bp l9 l10 s m v :
  accrued s0 [(simdram_1_subarray, repetitions (simdram_parallel false) size * base 32);
    (simdram_64_subarray, repetitions (simdram_parallel true) size * base 32);
    (simdram_64_subarray_dynamic_precision, repetitions (simdram_parallel true) size * base bp);
    (daftpum_static_latency_optimized, best (get_power_of_two_bit_precision bp) * repetitions (daftpum_parallel (get_power_of_two_bit_precision bp) false) size);
    (daftpum_latency_optimized, best bp * repetitions (daftpum_parallel bp false) size);
    (daftpum_tfaw_enabled, best bp * repetitions (daftpum_parallel bp true) size);
    (daftpum_static_energy_optimized, l9); (daftpum_energy_optimized, l10)] s ->
  charged best base bp size m = Some v -> lat s m = d_add O (lat s0 m) (d_int O v).
Proof. intros [_ _ H]. rewrite H. unfold charged. by destruct m; intros [= <-]. Qed.

Lemma charge_circuit_Ok c best base name bp s : costs c best base name -> c = adders F \/ c = multipliers F -> 1 <= bp <= 32 ->
  exists s', charge_circuit F c bp (get_power_of_two_bit_precision bp) size s = Ok s' /\
    largest_input_a s' = largest_input_a s /\ largest_input_b s' = largest_input_b s /\
    forall m v, charged best base bp size m = Some v -> lat s' m = d_add O (lat s m) (d_int O v).
Proof.
  intros K Hc Hb. pose proof (power_of_two_range bp Hb) as [Hp1 Hp2].
  pose proof (fun m v l9 l10 s' => accrued_charged s best base bp l9 l10 s' m v) as Hend. set (sbp := get_power_of_two_bit_precision bp) in *.
  destruct (HE c bp Hc Hb) as [Es Ed]. destruct (HE c sbp Hc ltac:(lia)) as [_ Ed'].
  assert (H0 : accrued s [] s) by (by split). unfold charge_circuit.
  do 3 (eapply step_lat; [by apply (co_simdram _ _ _ _ K)|exact H0|clear H0; intros ? H0]).
  do 3 (eapply step_ene; [apply Es|exact H0|clear H0; intros ? H0]).
  eapply step_lat_named; [apply (co_best _ _ _ _ K); lia|exact H0|clear H0; intros ? H0].
  eapply step_ene_named; [apply Ed'|exact H0|clear H0; intros ? ? H0].
  do 2 (eapply step_lat_named; [first [by apply (co_best _ _ _ _ K)|by apply (co_again _ _ _ _ K)]|exact H0|clear H0; intros ? H0]).
  do 2 (eapply step_ene_named; [apply Ed|exact H0|clear H0; intros ? ? H0]).
  eapply step_ene_named; [apply Ed'|exact H0|clear H0; intros nm8 ? H0].
  destruct (co_named _ _ _ _ K sbp size nm8 false ltac:(lia) Hsize) as [[l8 nm9] L8].
  eapply step_lat_named; [exact L8|exact H0|clear H0; intros ? H0].
  eapply step_ene_named; [apply Ed|exact H0|clear H0; intros nm10 ? H0].
  destruct (co_named _ _ _ _ K bp size nm10 false Hb Hsize) as [[l10 nm11] L10].
  eapply step_lat_named; [exact L10|exact H0|clear H0; intros ? H0].
  eexists. split; [reflexivity|]. split; [exact (ac_a _ _ _ H0)|]. split; [exact (ac_b _ _ _ H0)|]. intros m v. exact (Hend m v _ _ _ H0).
Qed.
End Charges.

(** ** Operations *)

(** Operands that are not negative as [int]. *)
Definition small (l : list Z) : Prop := Forall (fun x => 0 <= x < 2 ^ 31) l.

Lemma small_bounded l : small l -> bounded l.
Proof. intros H. eapply Forall_impl; [exact H|]. cbn. lia. Qed.

Lemma store_eq (m m' : store) C xs : holds m C xs -> holds m' C xs -> length m = length m' -> (forall k, k <> C -> vget m k = vget m' k) -> m = m'.
Proof.
  intros H H' Hl Ho. apply list_eq. intros i. destruct (decide (i < length m)%nat) as [Hi|]; [|rewrite !lookup_ge_None_2 by lia; done].
  assert (E : vget m (Z.of_nat i) = vget m' (Z.of_nat i)).
  { destruct (decide (Z.of_nat i = C)) as [->|Hne]; [unfold holds in *; congruence|by apply Ho]. }
  destruct (vget_total m (Z.of_nat i) ltac:(lia)) as [c Hc]. rewrite E in Hc. pose proof Hc as Hc'. rewrite <- E in Hc.
  apply vget_Ok in Hc as [_ Hc], Hc' as [_ Hc']. rewrite Nat2Z.id in *. congruence.
Qed.

Section Operation.
Context {D : Type} (F : float_ops D) (n : Z).
Local Abbreviation O := (fl_double F).

Lemma parallel2_maxima f A B C xs ys r m : valid_region n r -> holds m A xs -> holds m B ys -> sized m C n ->
  Z.of_nat (length xs) = n -> Z.of_nat (length ys) = n -> A <> C -> B <> C -> small xs -> small ys ->
  exists m', parallel2 f A B C r m = Ok (umax xs, umax ys, m') /\ holds m' C (zip_with f xs ys) /\
    length m' = length m /\ forall k, k <> C -> vget m' k = vget m k.
Proof.
  intros V HA HB HC Hx Hy HAC HBC Sx Sy.
  destruct (parallel2_Ok m n r V f A B C xs ys HA HB HC Hx Hy HAC HBC (small_bounded _ Sx) (small_bounded _ Sy)) as (m' & H & Hm).
  rewrite (team_max_small n r xs V Hx Sx), (team_max_small n r ys V Hy Sy) in H. by exists m'.
Qed.

Lemma parallel1_maximum f A C xs r m : valid_region n r -> holds m A xs -> sized m C n -> Z.of_nat (length xs) = n ->
  A <> C \/ map f xs = xs -> small xs ->
  exists m', parallel1 f A C r m = Ok (umax xs, m') /\ holds m' C (map f xs) /\
    length m' = length m /\ forall k, k <> C -> vget m' k = vget m k.
Proof.
  intros V HA HC Hx HAC Sx.
  destruct (parallel1_Ok m n r V f A C xs HA HC Hx HAC (small_bounded _ Sx)) as (m' & H & Hm).
  rewrite (team_max_small n r xs V Hx Sx) in H. by exists m'.
Qed.

Lemma relu_id xs : small xs -> map relu_element xs = xs.
Proof.
  induction 1 as [|x xs Hx Hxs IH]; [done|]. cbn [map]. rewrite IH. unfold relu_element. destruct (Z.ltb_spec x 0); [lia|done].
Qed.

Lemma map_id_eq {A} (l : list A) : map id l = l.
Proof. induction l as [|x l IH]; [done|]. cbn. by rewrite IH. Qed.

(** C15: The result of a bbop operation does not depend on the parallel execution:
    whatever number of threads up to 32 executes the iterations, in whatever order and
    distribution, memory, statistics and failure are the same, for operands below 2^31
    and a result array that is not an operand (RELU and copies may work in place). *)
Theorem bbop_op_schedule op A B C xs ys id r r' (st : machine (D := D)) :
  valid_region n r -> valid_region n r' -> holds (memory st) A xs -> holds (memory st) B ys -> sized (memory st) C n ->
  Z.of_nat (length xs) = n -> Z.of_nat (length ys) = n -> small xs -> small ys ->
  class_of op = ClsRelu \/ class_of op = ClsCopy \/ A <> C /\ B <> C ->
  bbop_op F op A B C n id r st = bbop_op F op A B C n id r' st.
Proof.
  intros V V' HA HB HC Hx Hy Sx Sy Hop.
  assert (E2 : A <> C /\ B <> C -> forall f, parallel2 f A B C r (memory st) = parallel2 f A B C r' (memory st)).
  { intros [HAC HBC] f. destruct (parallel2_maxima f A B C xs ys r _ V HA HB HC Hx Hy HAC HBC Sx Sy) as (m & -> & H1 & H2 & H3).
    destruct (parallel2_maxima f A B C xs ys r' _ V' HA HB HC Hx Hy HAC HBC Sx Sy) as (m' & -> & H1' & H2' & H3').
    do 2 f_equal. eapply store_eq; [done..|congruence|]. intros k Hk. by rewrite H3, H3'. }
  assert (E1 : forall f, map f xs = xs -> parallel1 f A C r (memory st) = parallel1 f A C r' (memory st)).
  { intros f Hf. destruct (parallel1_maximum f A C xs r _ V HA HC Hx (or_intror Hf) Sx) as (m & -> & H1 & H2 & H3).
    destruct (parallel1_maximum f A C xs r' _ V' HA HC Hx (or_intror Hf) Sx) as (m' & -> & H1' & H2' & H3').
    do 2 f_equal. eapply store_eq; [done..|congruence|]. intros k Hk. by rewrite H3, H3'. }
  unfold bbop_op. destruct (class_of op); try done; unfold bbop_two, bbop_one.
  1-4: by rewrite E2 by (by destruct Hop as [?|[?|?]]).
  - by rewrite E1 by apply map_id_eq.
  - by rewrite E1 by (by apply relu_id).
Qed.
End Operation.

(** ** What an operation leaves *)
Definition element_op (op : bbop_operation) : option (Z -> Z -> Z) :=
  match class_of op with
  | ClsAdd => Some add_elements
  | ClsSub => Some sub_elements
  | ClsMul => Some mul_elements
  | ClsDiv => Some div_elements
  | _ => None
  end.

(** The latency charged to a mechanism at this precision. *)
Definition latency_of (op : bbop_operation) (bp size : Z) (m : mechanism) : option Z :=
  match class_of op with
  | ClsAdd | ClsSub => charged (fun b => adder_latency (best_adder b) b) (table_at latency_simdram_ripple_carry_adder) bp size m
  | ClsMul | ClsDiv => charged (fun b => mult_latency (best_mult b) b) (mult_latency Mult_FULL) bp size m
  | _ => None
  end.

Section Executed.
Context {D : Type} (F : float_ops D) (n : Z) (Hn : 0 <= n < 2 ^ 27).
Local Abbreviation O := (fl_double F).

(** The statistics entry of an operation with largest operands [a] and [b]. *)
Record recorded (op : bbop_operation) (a b : Z) (s s' : bbop_statistic (D := D)) : Prop := {
  re_operation : operation s' = Some op;
  re_a : largest_input_a s' = Z.max (largest_input_a s) a;
  re_b : largest_input_b s' = Z.max (largest_input_b s) b;
  re_lat m v : latency_of op (Z.log2 (Z.max a b) + 1) n m = Some v -> lat s' m = d_add O (lat s m) (d_int O v)
}.

(** [C] holds the results, the entry [id] records the operation, and nothing
    else has changed. *)
Record executed (op : bbop_operation) (C id : Z) (out : list Z) (a b : Z) (st st' : machine (D := D)) : Prop := {
  ex_result : holds (memory st') C out;
  ex_arrays : length (memory st') = length (memory st);
  ex_others k : k <> C -> vget (memory st') k = vget (memory st) k;
  ex_entry : exists s s', vget (bbop_statistics st) id = Ok s /\ vset (bbop_statistics st) id s' = Ok (bbop_statistics st') /\ recorded op a b s s'
}.

Lemma record_stat_Ok id (f : bbop_statistic (D := D) -> res bbop_statistic) stats s s' : vget stats id = Ok s -> f s = Ok s' ->
  exists stats', record_stat id f stats = Ok stats' /\ vset stats id s' = Ok stats' /\ vget stats' id = Ok s'.
Proof.
  intros Hs Hf. unfold record_stat. rewrite Hs. cbn [mbind res_bind]. rewrite Hf. cbn [mbind res_bind].
  pose proof Hs as [H0 Hl]%vget_Ok. apply lookup_lt_Some in Hl.
  assert (E : vset stats id s' = Ok (<[Z.to_nat id := s']> stats)) by (apply vset_Ok; split; [lia|done]).
  eexists. split; [exact E|]. split; [exact E|]. by eapply vget_vset_eq.
Qed.

Lemma vset_vset (l l' l'' : list (bbop_statistic (D := D))) i x y : vset l i x = Ok l' -> vset l' i y = Ok l'' -> vset l i y = Ok l''.
Proof.
  intros [H ->]%vset_Ok [_ ->]%vset_Ok. rewrite list_insert_insert_eq. by apply vset_Ok.
Qed.

Lemma precision_Ok a b : 0 < Z.max a b < 2 ^ 31 -> precision_of (if b <? a then a else b) = Ok (Z.log2 (Z.max a b) + 1) /\ 1 <= Z.log2 (Z.max a b) + 1 <= 32.
Proof.
  intros H. replace (if b <? a then a else b) with (Z.max a b) by (destruct (Z.ltb_spec b a); lia).
  assert (0 <= Z.log2 (Z.max a b) < 31) by (split; [apply Z.log2_nonneg|apply Z.log2_lt_pow2; lia]). unfold precision_of.
  destruct (Z.leb_spec (Z.max a b) 0); [lia|]. cbn zeta. destruct (Z.leb_spec (Z.log2 (Z.max a b) + 1) 0); [lia|].
  destruct (Z.leb_spec 64 (Z.log2 (Z.max a b) + 1)); [lia|]. split; [done|lia].
Qed.

Lemma small_umax xs ys : small xs -> small ys -> Z.max (umax xs) (umax ys) < 2 ^ 31.
Proof.
  intros Sx Sy. assert (umax xs <= 2 ^ 31 - 1 /\ umax ys <= 2 ^ 31 - 1); [|lia].
  split; (apply umax_le; [lia|]); (eapply Forall_impl; [eassumption|]); cbn; lia.
Qed.

Lemma bbop_two_Ok f c best base name op A B C xs ys id r st :
  valid_region n r -> holds (memory st) A xs -> holds (memory st) B ys -> sized (memory st) C n ->
  Z.of_nat (length xs) = n -> Z.of_nat (length ys) = n -> A <> C -> B <> C -> small xs -> small ys ->
  is_Ok (vget (bbop_statistics st) id) -> 0 < Z.max (umax xs) (umax ys) -> energies_fit F n ->
  costs c best base name -> c = adders F \/ c = multipliers F ->
  (forall bp m, latency_of op bp n m = charged best base bp n m) ->
  exists st', bbop_two F f c op A B C id n r st = Ok st' /\ executed op C id (zip_with f xs ys) (umax xs) (umax ys) st st'.
Proof.
  intros V HA HB HC Hx Hy HAC HBC Sx Sy [s Hs] Hpos HE K Hc Hlat.
  destruct (parallel2_maxima n f A B C xs ys r _ V HA HB HC Hx Hy HAC HBC Sx Sy) as (m' & Hp & H1 & H2 & H3).
  unfold bbop_two. rewrite Hp. cbn [mbind res_bind].
  pose proof (small_umax xs ys Sx Sy).
  destruct (precision_Ok (umax xs) (umax ys) ltac:(lia)) as [Hprec Hbp].
  destruct (record_stat_Ok id (fun s => Ok (raise_largest (umax xs) (umax ys) s)) _ s _ Hs eq_refl) as (st1 & -> & Hv1 & Hg1).
  cbn [mbind res_bind]. rewrite Hprec. cbn [mbind res_bind]. assert (Hi : i32 n = n) by (apply i32_id; lia). rewrite Hi.
  destruct (charge_circuit_Ok F n Hn HE c best base name _ (raise_largest (umax xs) (umax ys) s) K Hc Hbp) as (s' & Hs' & Ha & Hb & Hl).
  destruct (record_stat_Ok id (fun s => s ← charge_circuit F c (Z.log2 (Z.max (umax xs) (umax ys)) + 1)
    (get_power_of_two_bit_precision (Z.log2 (Z.max (umax xs) (umax ys)) + 1)) n s; Ok (set_operation op s)) st1 _ (set_operation op s') Hg1) as (st2 & -> & Hv2 & _).
  { cbn beta. rewrite Hs'. done. }
  cbn [mbind res_bind]. eexists. split; [done|]. split; [done..|]. exists s, (set_operation op s'). split; [done|]. split; [by eapply vset_vset|].
  cbn in Ha, Hb. split; cbn.
  - done.
  - rewrite Ha. destruct (Z.ltb_spec (largest_input_a s) (umax xs)); lia.
  - rewrite Hb. destruct (Z.ltb_spec (largest_input_b s) (umax ys)); lia.
  - intros m v. rewrite Hlat. apply Hl.
Qed.

(** What an element-wise operation computes and charges. *)
Lemma bbop_op_Ok op f A B C xs ys id r st :
  element_op op = Some f ->
  valid_region n r -> holds (memory st) A xs -> holds (memory st) B ys -> sized (memory st) C n ->
  Z.of_nat (length xs) = n -> Z.of_nat (length ys) = n -> A <> C -> B <> C -> small xs -> small ys ->
  is_Ok (vget (bbop_statistics st) id) -> 0 < Z.max (umax xs) (umax ys) -> energies_fit F n ->
  exists st', bbop_op F op A B C n id r st = Ok st' /\ executed op C id (zip_with f xs ys) (umax xs) (umax ys) st st'.
Proof.
  unfold element_op, bbop_op. intros Hop V HA HB HC Hx Hy HAC HBC Sx Sy Hs Hpos HE.
  destruct (class_of op) eqn:E; try done; injection Hop as <-;
    first [eapply bbop_two_Ok; try done; [apply (adders_costs F)|by left|]|eapply bbop_two_Ok; try done; [apply (mults_costs F)|by right|]];
    intros bp m; unfold latency_of; by rewrite E.
Qed.

Lemma charge_relu_largest bp sbp s : largest_input_a (charge_relu F bp sbp n s) = largest_input_a s /\
  largest_input_b (charge_relu F bp sbp n s) = largest_input_b s.
Proof. split; reflexivity. Qed.

Lemma bbop_one_Ok f charge op A C xs id r st s s2 : valid_region n r -> holds (memory st) A xs -> sized (memory st) C n ->
  Z.of_nat (length xs) = n -> map f xs = xs -> small xs -> vget (bbop_statistics st) id = Ok s -> 0 <= largest_input_b s -> 0 < umax xs ->
  (forall bp v m, latency_of op bp n m = Some v -> False) ->
  let bp := Z.log2 (umax xs) + 1 in
  charge bp (get_power_of_two_bit_precision bp) (raise_largest (umax xs) (largest_input_b s) s) = Ok s2 ->
  largest_input_a s2 = Z.max (largest_input_a s) (umax xs) -> largest_input_b s2 = largest_input_b s ->
  exists st', bbop_one (D := D) f charge op A C id r st = Ok st' /\ executed op C id xs (umax xs) 0 st st'.
Proof.
  intros V HA HC Hx Hf Sx Hs Hb Hpos Hlat bp Hch Ea Eb.
  destruct (parallel1_maximum n f A C xs r _ V HA HC Hx (or_intror Hf) Sx) as (m' & Hp & H1 & H2 & H3).
  rewrite Hf in H1. unfold bbop_one. rewrite Hp. cbn [mbind res_bind].
  pose proof (small_umax xs xs Sx Sx) as Hu. destruct (precision_Ok (umax xs) 0 ltac:(lia)) as [Hprec _].
  rewrite (proj2 (Z.ltb_lt 0 (umax xs)) Hpos), Z.max_l in Hprec by lia.
  destruct (record_stat_Ok id (fun s => Ok (raise_largest (umax xs) (largest_input_b s) s)) _ s _ Hs eq_refl) as (st1 & -> & Hv1 & Hg1).
  cbn [mbind res_bind]. rewrite Hprec. cbn [mbind res_bind].
  match goal with |- context [record_stat id ?g st1] => destruct (record_stat_Ok id g st1 _ (set_operation op s2) Hg1) as (st2 & -> & Hv2 & _) end.
  { subst bp. cbn beta. by rewrite Hch. }
  cbn [mbind res_bind]. eexists. split; [done|]. split; [done..|]. exists s, (set_operation op s2). split; [done|]. split; [by eapply vset_vset|].
  split; cbn; [done|done|lia|]. by intros m v ?%Hlat.
Qed.

(** RELU leaves unsigned elements as they are. *)
Lemma bbop_relu_Ok A B C xs id r st s : valid_region n r -> holds (memory st) A xs -> sized (memory st) C n ->
  Z.of_nat (length xs) = n -> small xs -> vget (bbop_statistics st) id = Ok s -> 0 <= largest_input_b s -> 0 < umax xs ->
  exists st', bbop_op F BBOP_RELU A B C n id r st = Ok st' /\ executed BBOP_RELU C id xs (umax xs) 0 st st'.
Proof.
  intros V HA HC Hx Sx Hs Hb Hpos. change (bbop_op F BBOP_RELU A B C n id r st) with
    (bbop_one relu_element (fun bp sbp s => Ok (charge_relu F bp sbp n s)) BBOP_RELU A C id r st).
  eapply bbop_one_Ok; try done; [by apply relu_id|rewrite (proj1 (charge_relu_largest _ _ _))|rewrite (proj2 (charge_relu_largest _ _ _))]; cbn.
  - destruct (Z.ltb_spec (largest_input_a s) (umax xs)); lia.
  - by rewrite Z.ltb_irrefl.
Qed.

Lemma costs_of op f : element_op op = Some f -> exists c best base name, costs c best base name /\
  forall bp m, latency_of op bp n m = charged best base bp n m.
Proof.
  unfold element_op, latency_of. intros H. destruct (class_of op); try done; do 4 eexists;
    first [split; [apply (adders_costs F)|intros; reflexivity]|split; [apply (mults_costs F)|intros; reflexivity]].
Qed.

(** C14: An element-wise addition, subtraction, multiplication or division whose result
    array is neither operand, on fewer than 2^27 elements below 2^31 that are not all
    zero, and whose energies (computed in double) convert to int, succeeds and stores
    the element-wise results; of the latencies it charges, the one of DAFTPUM with
    dynamic precision is positive and the least: at most SIMDRAM's with dynamic
    precision, which is at most SIMDRAM's on 64 subarrays, which is at most SIMDRAM's on
    one, and DAFTPUM with static precision and under the activation window lie in
    between. *)
Theorem daftpum_never_slower op f A B C xs ys id r st :
  element_op op = Some f ->
  valid_region n r -> holds (memory st) A xs -> holds (memory st) B ys -> sized (memory st) C n ->
  Z.of_nat (length xs) = n -> Z.of_nat (length ys) = n -> A <> C -> B <> C -> small xs -> small ys ->
  is_Ok (vget (bbop_statistics st) id) -> 0 < Z.max (umax xs) (umax ys) -> energies_fit F n ->
  exists st' s s', bbop_op F op A B C n id r st = Ok st' /\ holds (memory st') C (zip_with f xs ys) /\
    vget (bbop_statistics st) id = Ok s /\ vget (bbop_statistics st') id = Ok s' /\
    exists v1 v64 vdyn vstatic vlat vtfaw,
      lat s' simdram_1_subarray = d_add O (lat s simdram_1_subarray) (d_int O v1) /\
      lat s' simdram_64_subarray = d_add O (lat s simdram_64_subarray) (d_int O v64) /\
      lat s' simdram_64_subarray_dynamic_precision = d_add O (lat s simdram_64_subarray_dynamic_precision) (d_int O vdyn) /\
      lat s' daftpum_static_latency_optimized = d_add O (lat s daftpum_static_latency_optimized) (d_int O vstatic) /\
      lat s' daftpum_latency_optimized = d_add O (lat s daftpum_latency_optimized) (d_int O vlat) /\
      lat s' daftpum_tfaw_enabled = d_add O (lat s daftpum_tfaw_enabled) (d_int O vtfaw) /\
      0 < vlat /\ vlat <= vdyn <= v64 /\ v64 <= v1 /\ vlat <= vstatic <= v64 /\ vlat <= vtfaw <= v1.
Proof.
  intros Hop V HA HB HC Hx Hy HAC HBC Sx Sy Hs Hpos HE.
  destruct (bbop_op_Ok op f A B C xs ys id r st) as (st' & Hst & [X1 _ _ (s & s' & Hg & Hv & [_ _ _ Hl])]); [done..|].
  exists st', s, s'. split; [done|]. split; [done|]. split; [done|]. split; [by eapply vget_vset_eq|].
  destruct (costs_of op f Hop) as (c & best & base & name & K & Hlat).
  pose proof (small_umax xs ys Sx Sy).
  destruct (precision_Ok (umax xs) (umax ys) ltac:(lia)) as [_ Hbp].
  destruct (charged_order c best base name _ n K Hbp Hn) as (v1 & v64 & vdyn & vstatic & vlat & vtfaw & E1 & E2 & E3 & E4 & E5 & E6 & Hord).
  exists v1, v64, vdyn, vstatic, vlat, vtfaw. split_and!; try apply Hord; apply Hl; by rewrite Hlat.
Qed.
End Executed.

(** ** The reduction *)
Section Reduction.
Context {D : Type} (F : float_ops D).

Lemma reduce_loop_Ok op f m A id xs : holds m A xs -> (forall o x, x ∈ xs -> reduce_element op o x = Ok (Some (f o x))) ->
  forall k o stats, (k <= length xs)%nat -> is_Ok (vget stats id) ->
  exists stats', reduce_loop (D := D) op m A id (map Z.of_nat (seq k (length xs - k))) o stats = Ok (Some (foldl f o (drop k xs)), stats') /\ is_Ok (vget stats' id).
Proof.
  intros Hm Hf k. remember (length xs - k)%nat as r eqn:Hr. revert k Hr. induction r as [|r IH]; intros k Hr o stats Hk [s Hs].
  - exists stats. rewrite drop_ge by lia. split; [done|by exists s].
  - destruct (lookup_lt_is_Some_2 xs k) as [x Hx]; [lia|]. cbn [seq map reduce_loop].
    rewrite (holds_read _ _ _ (Z.of_nat k) x Hm) by (apply vget_Ok; split; [lia|by rewrite Nat2Z.id]). cbn [mbind res_bind].
    rewrite Hf by (by eapply list_elem_of_lookup_2). cbn [mbind res_bind].
    destruct (record_stat_Ok id (fun s => Ok (raise_largest x (f o x) s)) stats s _ Hs eq_refl) as (st1 & -> & _ & Hg). cbn [mbind res_bind].
    rewrite (drop_S _ _ _ Hx). cbn [foldl]. apply IH; [lia|lia|by eexists].
Qed.

Lemma bbop_op_red_Ok op f A xs id st : holds (memory st) A xs -> (forall o x, x ∈ xs -> reduce_element op o x = Ok (Some (f o x))) ->
  0 <= id < MAX_BBOPS -> is_Ok (vget (bbop_statistics st) id) ->
  exists st', bbop_op_red (D := D) op A (Z.of_nat (length xs)) id st = Ok (foldl f 0 xs, st') /\ memory st' = memory st.
Proof.
  intros Hm Hf Hid Hs. unfold bbop_op_red, seqZ. rewrite Nat2Z.id.
  destruct (reduce_loop_Ok op f _ A id xs Hm Hf 0 0 (bbop_statistics st) ltac:(lia) Hs) as (stats & Hr & s & Hg).
  rewrite Nat.sub_0_r, drop_0 in Hr.
  replace ((fun i => Z.of_nat i + 0) <$> seq 0 (length xs)) with (map Z.of_nat (seq 0 (length xs))) by (apply map_ext; lia).
  rewrite Hr. cbn [mbind res_bind fst snd].
  destruct (record_stat_Ok id (fun s => Ok (set_operation BBOP_RED s)) stats s _ Hg eq_refl) as (st2 & -> & _). cbn [mbind res_bind].
  rewrite (proj2 (Z.leb_gt MAX_BBOPS id)) by lia. by eexists.
Qed.

(** The sum of a reduction is 0: the case falls through into the subtraction.
    [BBOP_ADD_8] adds up the elements. *)
Theorem reduction_results A xs id st : holds (memory st) A xs -> bounded xs -> 0 <= id < MAX_BBOPS -> is_Ok (vget (bbop_statistics st) id) ->
  (exists st', bbop_op_red (D := D) BBOP_ADD A (Z.of_nat (length xs)) id st = Ok (0, st')) /\
  (exists st', bbop_op_red (D := D) BBOP_ADD_8 A (Z.of_nat (length xs)) id st = Ok (u32 (foldr Z.add 0 xs), st')).
Proof.
  intros Hm Hx Hid Hs. split.
  - destruct (bbop_op_red_Ok BBOP_ADD (fun o x => u32 (u32 (o + x) - x)) A xs id st Hm ltac:(done) Hid Hs) as (st' & -> & _).
    exists st'. do 2 f_equal. assert (E : forall l, foldl (fun o x => u32 (u32 (o + x) - x)) 0 l = 0); [|done].
    induction l as [|x l IH]; [done|]. cbn [foldl]. replace (u32 (u32 (0 + x) - x)) with 0; [done|].
    unfold u32, wrap. rewrite Zminus_mod_idemp_l. by replace (0 + x - x) with 0 by lia.
  - destruct (bbop_op_red_Ok BBOP_ADD_8 (fun o x => u32 (o + x)) A xs id st Hm ltac:(done) Hid Hs) as (st' & -> & _).
    exists st'. do 2 f_equal. assert (E : forall l o, 0 <= o < 2 ^ 32 -> foldl (fun o x => u32 (o + x)) o l = u32 (o + foldr Z.add 0 l)); [|by rewrite E].
    unfold u32, wrap. induction l as [|x l IH]; intros o Ho; cbn [foldl foldr]; [rewrite Z.mod_small; lia|].
    rewrite IH by (apply Z.mod_pos_bound; lia). rewrite Zplus_mod_idemp_l. f_equal. lia.
Qed.
End Reduction.

(** Operands from 2^31 on: what is tracked depends on the number of threads. *)
Lemma large_operands_race : exists xs r r', valid_region 2 r /\ valid_region 2 r' /\ bounded xs /\ length xs = 2%nat /\ team_max xs r = 0 /\ team_max xs r' = 5.
Proof.
  exists [5; 2 ^ 31], (mkRegion 1 [(0, 0); (0, 1)]), (mkRegion 2 [(0, 0); (1, 1)]).
  assert (V : forall t o, 0 < t <= NUM_THREADS -> Forall (fun it => 0 <= it.1 < t) o -> map snd o = [0; 1] -> valid_region 2 (mkRegion t o)).
  { intros t o H1 H2 H3. split; [done|done|]. cbn [order]. by rewrite H3. }
  split; [apply V; [done|repeat (apply Forall_cons; split; [cbn; lia|]); by apply Forall_nil|done]|].
  split; [apply V; [done|repeat (apply Forall_cons; split; [cbn; lia|]); by apply Forall_nil|done]|].
  split; [repeat (apply Forall_cons; split; [lia|]); by apply Forall_nil|]. split; [done|]. split; reflexivity.
Qed.

(** ** Concrete inputs

    Rational arithmetic for [double]; logarithms, which only energies use, are
    left out. *)
Definition q_ops : double_ops Q :=
  mkDouble Q inject_Z (fun digits k => digits # Z.to_pos (10 ^ k)) Qplus Qminus Qmult Qdiv (fun x => x) (fun x => x) (fun x => inject_Z (Qceiling x)).
Definition q_float : float_ops Q :=
  mkFloat q_ops (fun x => x) (fun x y => negb (Qle_bool y x)) (fun x => Ok (Qfloor x)) (fun x => Ok (u32 (Qfloor x))).

Lemma q_named circuits unknown nm : is_Ok (named_energy q_float circuits unknown nm).
Proof. unfold named_energy. destruct (List.find _ circuits); by eexists. Qed.

Lemma q_consider l b : is_Ok (foldM (consider_energy q_float) l b).
Proof.
  revert b. induction l as [|c l IH]; intros b; [by eexists|]. cbn [foldM]. unfold consider_energy at 2. destruct (fl_lt q_float _ _); apply IH.
Qed.

Lemma q_energies_fit size : energies_fit q_float size.
Proof.
  intros c bp Hc _. split.
  - intros dyn salp. destruct Hc as [-> | ->]; by eexists.
  - intros nm tfaw. destruct Hc as [-> | ->]; cbn [daftpum_energy adders multipliers]; unfold get_daftpum_adder_energy, get_daftpum_multiplier_energy;
      cbn [fl_int q_float mbind res_bind]; (case_bool_decide; [apply q_consider|]).
    all: match goal with |- context [named_energy q_float ?cs ?u ?x] => destruct (q_named cs u x) as [e ->] end; by eexists.
Qed.

(** One thread, or two that take turns from the end. *)
Definition one_thread (n : Z) : region := mkRegion 1 (map (pair 0) (seqZ 0 n)).
Definition two_threads (n : Z) : region := mkRegion 2 (map (fun i => (Z.modulo i 2, i)) (rev (seqZ 0 n))).

Lemma one_thread_valid n : valid_region n (one_thread n).
Proof.
  split; cbn [team order one_thread]; [done|apply Forall_fmap, Forall_forall; intros i _; done|]. rewrite map_map. cbn [snd]. by rewrite map_id.
Qed.

Lemma two_threads_valid n : valid_region n (two_threads n).
Proof.
  split; cbn [team order two_threads]; [done|apply Forall_fmap, Forall_forall; intros i _; cbn; apply Z.mod_pos_bound; done|].
  rewrite map_map. cbn [snd]. rewrite map_id. symmetry. apply Permutation_rev.
Qed.

Definition example_machine : machine (D := Q) :=
  mkMachine [map Some [3; 5; 200]; map Some [1; 2; 7]; [None; None; None]] (initialize_bbop_statistics q_float).

Lemma bbop_op_schedule_witness :
  bbop_op q_float BBOP_MUL 0 1 2 3 0 (one_thread 3) example_machine = bbop_op q_float BBOP_MUL 0 1 2 3 0 (two_threads 3) example_machine /\
  exists st, bbop_op q_float BBOP_MUL 0 1 2 3 0 (two_threads 3) example_machine = Ok st /\ holds (memory st) 2 [3; 10; 1400].
Proof.
  split; [|eexists; split; vm_compute; reflexivity].
  apply (bbop_op_schedule q_float 3 BBOP_MUL 0 1 2 [3; 5; 200] [1; 2; 7] 0); try done.
  - apply one_thread_valid.
  - apply two_threads_valid.
  - by eexists.
  - repeat (apply Forall_cons; split; [lia|]). by apply Forall_nil.
  - repeat (apply Forall_cons; split; [lia|]). by apply Forall_nil.
  - right. by right.
Defined.

Lemma daftpum_never_slower_witness :
  exists st' s s', bbop_op q_float BBOP_ADD 0 1 2 3 0 (two_threads 3) example_machine = Ok st' /\ holds (memory st') 2 [4; 7; 207] /\
    vget (bbop_statistics example_machine) 0 = Ok s /\ vget (bbop_statistics st') 0 = Ok s' /\
    exists v1 v64 vdyn vstatic vlat vtfaw,
      lat s' simdram_1_subarray = d_add q_ops (lat s simdram_1_subarray) (d_int q_ops v1) /\
      lat s' simdram_64_subarray = d_add q_ops (lat s simdram_64_subarray) (d_int q_ops v64) /\
      lat s' simdram_64_subarray_dynamic_precision = d_add q_ops (lat s simdram_64_subarray_dynamic_precision) (d_int q_ops vdyn) /\
      lat s' daftpum_static_latency_optimized = d_add q_ops (lat s daftpum_static_latency_optimized) (d_int q_ops vstatic) /\
      lat s' daftpum_latency_optimized = d_add q_ops (lat s daftpum_latency_optimized) (d_int q_ops vlat) /\
      lat s' daftpum_tfaw_enabled = d_add q_ops (lat s daftpum_tfaw_enabled) (d_int q_ops vtfaw) /\
      0 < vlat /\ vlat <= vdyn <= v64 /\ v64 <= v1 /\ vlat <= vstatic <= v64 /\ vlat <= vtfaw <= v1.
Proof.
  apply (daftpum_never_slower q_float 3 ltac:(lia) BBOP_ADD add_elements 0 1 2 [3; 5; 200] [1; 2; 7] 0 (two_threads 3) example_machine); try done.
  - apply two_threads_valid.
  - by eexists.
  - repeat (apply Forall_cons; split; [lia|]). by apply Forall_nil.
  - repeat (apply Forall_cons; split; [lia|]). by apply Forall_nil.
  - by eexists.
  - apply q_energies_fit.
Defined.
