(* ===== verification/SigmoidPim.v ===== *)
(** * SigmoidPim: sigmoid programs on the Proteus model

    Models the programs that compute a sigmoid with operations of [Bbop]:
    [sigmoid_compare_pim.c] and [f6_sigmoid.c] of Proteus, and
    [f6_daftpum_wrapper.c], which also writes a trace for Ramulator.

    [sched] gives the parallel region of every operation, by its number.
    Memory is always available; a freed array has no cells.

    The programs are executed symbolically: [env_ok] says which function of
    the input every array holds and what every operation has recorded, and
    [step_call] moves both over one operation. *)
From Stdlib Require Import Ascii QArith Qround.
From stdpp Require Import prelude gmap strings.
From S2P Require Import Prelude BitUtils TraceFile Frontend CostModel Bbop BbopProps.
Open Scope Z_scope.

(** ** Memory *)
Definition malloc (size : Z) (m : store) : Z * store := (Z.of_nat (length m), m ++ [replicate (Z.to_nat size) None]).
Definition calloc (size : Z) (m : store) : Z * store := (Z.of_nat (length m), m ++ [replicate (Z.to_nat size) (Some 0)]).
Definition free (a : Z) (m : store) : res store := vset m a [].
Definition free_all (l : list Z) (m : store) : res store := foldM (fun m a => free a m) l m.

(** The loop that fills the constant arrays: (array, constant) pairs. *)
Definition fill (constants : list (Z * Z)) (size : Z) (m : store) : res store :=
  foldM (fun m i => foldM (fun m c => write m c.1 i c.2) constants m) (seqZ 0 size) m.

(** ** Sequences of operations *)
Record call := mkCall { c_op : bbop_operation; c_A : Z; c_B : Z; c_C : Z; c_id : Z }.

Section Programs.
Context {D : Type} (F : float_ops D) (sched : Z -> region).
Local Abbreviation machine := (machine (D := D)).

Definition run_calls (size : Z) (calls : list call) (st : machine) : res machine :=
  foldM (fun st c => bbop_op F (c_op c) (c_A c) (c_B c) (c_C c) (u64 size) (c_id c) (sched (c_id c)) st) calls st.

(** ** The rational approximation

    [sigmoid_f6_pim] and [f6_sigmoid_array_pim] start with the same
    allocations and operations; the arrays to free are returned. *)
Definition f6_operations (input output size : Z) (st : machine) : res (list Z * machine) :=
  let m := memory st in
  let '(x2, m) := malloc size m in
  let '(x3, m) := malloc size m in
  let '(t60x, m) := malloc size m in
  let '(t12x2, m) := malloc size m in
  let '(t24x2, m) := malloc size m in
  let '(num, m) := malloc size m in
  let '(den, m) := malloc size m in
  let '(temp, m) := malloc size m in
  let '(const_60, m) := malloc size m in
  let '(const_12, m) := malloc size m in
  let '(const_24, m) := malloc size m in
  let '(const_120, m) := malloc size m in
  let '(const_240, m) := malloc size m in
  m ← fill [(const_60, 60); (const_12, 12); (const_24, 24); (const_120, 120); (const_240, 240)] size m;
  st ← run_calls size
    [mkCall BBOP_MUL input input x2 0;
     mkCall BBOP_MUL x2 input x3 1;
     mkCall BBOP_MUL const_60 input t60x 2;
     mkCall BBOP_MUL const_12 x2 t12x2 3;
     mkCall BBOP_ADD const_120 t60x num 4;
     mkCall BBOP_ADD num t12x2 temp 5;
     mkCall BBOP_ADD temp x3 num 6;
     mkCall BBOP_MUL const_24 x2 t24x2 7;
     mkCall BBOP_ADD const_240 t24x2 den 8;
     mkCall BBOP_DIV num den output 9;
     mkCall BBOP_RELU output output output 10] (mkMachine m (bbop_statistics st));
  Ok ([x2; x3; t60x; t12x2; t24x2; num; den; temp; const_60; const_12; const_24; const_120; const_240], st).

Definition sigmoid_f6_pim (input output size : Z) (st : machine) : res machine :=
  p ← f6_operations input output size st;
  m ← free_all p.1 (memory p.2);
  Ok (mkMachine m (bbop_statistics p.2)).

(** The cap on the CPU. *)
Definition cap (output size : Z) (m : store) : res store :=
  foldM (fun m i => x ← read m output i; if 1 <? x then write m output i 1 else Ok m) (seqZ 0 size) m.

Definition f6_sigmoid_array_pim (input output size : Z) (st : machine) : res machine :=
  p ← f6_operations input output size st;
  m ← cap output size (memory p.2);
  m ← free_all p.1 m;
  Ok (mkMachine m (bbop_statistics p.2)).

(** ** The Taylor expansion *)
Definition sigmoid_taylor_pim (input output size : Z) (st : machine) : res machine :=
  let m := memory st in
  let '(neg_x, m) := malloc size m in
  let '(x2, m) := malloc size m in
  let '(x3, m) := malloc size m in
  let '(x4, m) := malloc size m in
  let '(x5, m) := malloc size m in
  let '(t2, m) := malloc size m in
  let '(t3, m) := malloc size m in
  let '(t4, m) := malloc size m in
  let '(t5, m) := malloc size m in
  let '(sum, m) := malloc size m in
  let '(denom, m) := malloc size m in
  let '(temp, m) := malloc size m in
  let '(const_0, m) := calloc size m in
  let '(const_1, m) := malloc size m in
  let '(const_2, m) := malloc size m in
  let '(const_6, m) := malloc size m in
  let '(const_24, m) := malloc size m in
  let '(const_120, m) := malloc size m in
  m ← fill [(const_1, 1); (const_2, 2); (const_6, 6); (const_24, 24); (const_120, 120)] size m;
  st ← run_calls size
    [mkCall BBOP_SUB const_0 input neg_x 0;
     mkCall BBOP_MUL neg_x neg_x x2 1;
     mkCall BBOP_MUL x2 neg_x x3 2;
     mkCall BBOP_MUL x3 neg_x x4 3;
     mkCall BBOP_MUL x4 neg_x x5 4;
     mkCall BBOP_DIV x2 const_2 t2 5;
     mkCall BBOP_DIV x3 const_6 t3 6;
     mkCall BBOP_DIV x4 const_24 t4 7;
     mkCall BBOP_DIV x5 const_120 t5 8;
     mkCall BBOP_ADD const_1 neg_x sum 9;
     mkCall BBOP_ADD sum t2 temp 10;
     mkCall BBOP_ADD temp t3 sum 11;
     mkCall BBOP_ADD sum t4 temp 12;
     mkCall BBOP_ADD temp t5 sum 13;
     mkCall BBOP_ADD const_1 sum denom 14;
     mkCall BBOP_DIV const_1 denom output 15] (mkMachine m (bbop_statistics st));
  m ← free_all [neg_x; x2; x3; x4; x5; t2; t3; t4; t5; sum; denom; temp; const_0; const_1; const_2; const_6; const_24; const_120] (memory st);
  Ok (mkMachine m (bbop_statistics st)).

(** ** The programs

    [main] of [sigmoid_compare_pim.c], with [SIZE] as an argument and the
    function the preprocessor selects; the result is the output file. *)
Definition compare_main (sigmoid_pim : Z -> Z -> Z -> machine -> res machine) (size : Z) : res (list (csv_row (D := D))) :=
  let stats := initialize_bbop_statistics F in
  let '(input, m) := malloc size [] in
  let '(output, m) := malloc size m in
  m ← foldM (fun m i => write m input i (u32 (Z.rem i 10))) (seqZ 0 size) m;
  st ← sigmoid_pim input output size (mkMachine m stats);
  Ok (print_bbop_statistic F st).1.
End Programs.

(** ** The wrapper

    [f6_daftpum_wrapper.c]: two element-wise operations on samples of another
    rational function, and a trace with the accesses of the first. *)
Definition N_DATA : Z := 10000.

Section Wrapper.
Context {D : Type} (F : float_ops D) (sched : Z -> region).
Local Abbreviation O := (fl_double F).
Local Abbreviation int := (d_int O).
Declare Scope wrapper_scope.
Local Infix "+" := (d_add O) : wrapper_scope.
Local Infix "-" := (d_sub O) : wrapper_scope.
Local Infix "*" := (d_mul O) : wrapper_scope.
Local Infix "/" := (d_div O) : wrapper_scope.
Delimit Scope wrapper_scope with wrapper.

Definition X_MIN : D := (int 0 - int 8)%wrapper.
Definition X_MAX : D := int 8.
Definition INT_SCALE : D := int 1000000.

Definition f6_nearest (x : D) : D :=
  let num := (int 128 + int 64 * x + int 16 * x * x + int 2 * x * x * x)%wrapper in
  let den := (int 256 + int 32 * x * x)%wrapper in
  let v := (num / den)%wrapper in
  let v := if fl_lt F v (int 0) then int 0 else v in
  if fl_lt F (int 1) v then int 1 else v.

Definition step : D := ((X_MAX - X_MIN) / int (N_DATA - 1))%wrapper.
Definition sample (i : Z) : D := (X_MIN + step * int i)%wrapper.

Definition element_a (i : Z) : res Z := fl_uint F (f6_nearest (sample i) * INT_SCALE)%wrapper.
Definition element_b (i : Z) : res Z := fl_uint F (f6_nearest (sample i + d_lit O 5 1 * step * int (Z.quot N_DATA 2)) * INT_SCALE)%wrapper.

(** [fprintf] of ["LD %llu"] and ["ST %llu"]. *)
Definition trace_line (is_write : bool) (addr : Z) : str :=
  (if is_write then ["S"; "T"; " "] else ["L"; "D"; " "])%char ++ print_nat 64 10 addr.

Definition trace_lines (i : Z) : list str :=
  let base := u64 (0x100000 + u64 (i * 64)) in
  [trace_line false base; trace_line false (u64 (base + u64 (N_DATA * 64))); trace_line true (u64 (base + u64 (u64 (2 * N_DATA) * 64)))].

Definition wrapper_round (A B C : Z) (p : store * list str) (i : Z) : res (store * list str) :=
  a ← element_a i;
  b ← element_b i;
  m ← write p.1 A i a;
  m ← write m B i b;
  m ← write m C i 0;
  Ok (m, p.2 ++ trace_lines i).

(** [main]: the output file and the trace file. *)
Definition wrapper_main : res (list (csv_row (D := D)) * str) :=
  let stats := initialize_bbop_statistics F in
  let '(A, m) := malloc N_DATA [] in
  let '(B, m) := malloc N_DATA m in
  let '(C, m) := malloc N_DATA m in
  p ← foldM (wrapper_round A B C) (seqZ 0 N_DATA) (m, []);
  st ← bbop_op F BBOP_ADD A B C (u64 N_DATA) 0 (sched 0) (mkMachine p.1 stats);
  st ← bbop_op F BBOP_MUL A B C (u64 N_DATA) 1 (sched 1) st;
  let '(rows, st) := print_bbop_statistic F st in
  m ← free_all [A; B; C] (memory st);
  Ok (rows, print_lines p.2).
End Wrapper.

(** ** Filling arrays *)
(** One round: cell [i] of every array. *)
Lemma fill_round constants n i : 0 <= i < n -> NoDup (map fst constants) -> forall m, (forall a c, (a, c) ∈ constants -> sized m a n) ->
  exists m', foldM (fun m c => write m c.1 i c.2) constants m = Ok m' /\ length m' = length m /\
    (forall a, a ∉ map fst constants -> vget m' a = vget m a) /\
    forall a c, (a, c) ∈ constants -> exists cs, vget m a = Ok cs /\ vget m' a = Ok (<[Z.to_nat i := Some c]> cs).
Proof.
  intros Hi. induction constants as [|[a c] l IH]; intros Hd m Hs.
  { exists m. split; [done|]. split; [done|]. split; [done|]. by intros a c ?%not_elem_of_nil. }
  cbn [map fst] in Hd. apply NoDup_cons in Hd as [Ha Hd]. cbn [foldM fst snd].
  destruct (write_Ok m a n i c (Hs a c ltac:(by left)) Hi) as (cs & Hcs & Hw). rewrite Hw. cbn [mbind res_bind].
  set (m1 := <[Z.to_nat a := _]> m) in *. pose proof (write_array _ _ _ _ _ _ Hcs Hw) as Hn1.
  assert (Ho : forall k, k <> a -> vget m1 k = vget m k) by (intros k Hk; by eapply write_others).
  assert (Hne : forall b d, (b, d) ∈ l -> b <> a).
  { intros b d Hb ->. apply Ha. apply (list_elem_of_fmap_2 fst l (a, d) Hb). }
  destruct (IH Hd m1) as (m' & H & H1 & H2 & H3).
  { intros b d Hb. destruct (Hs b d ltac:(by right)) as (bs & Hbs & Hl). exists bs. rewrite Ho by (by eapply Hne). done. }
  exists m'. split; [done|]. split; [rewrite H1; by apply (write_length _ _ _ _ _ Hw)|]. cbn [map fst]. split.
  - intros b [Hb1 Hb2]%not_elem_of_cons. rewrite H2 by done. by apply Ho.
  - intros b d [[= -> ->]|Hb]%elem_of_cons.
    + exists cs. split; [done|]. by rewrite H2.
    + destruct (H3 b d Hb) as (bs & Hbs & Hbs'). exists bs. split; [|done]. rewrite <- Ho by (by eapply Hne). done.
Qed.

(** The values at position [i] of the functions that fill the arrays. *)
Definition round_of (vs : list (Z * (Z -> Z))) (i : Z) : list (Z * Z) := map (fun v => (v.1, v.2 i)) vs.

Lemma round_arrays vs i : map fst (round_of vs i) = map fst vs.
Proof. unfold round_of. by rewrite map_map. Qed.

Lemma round_in vs i a c : (a, c) ∈ round_of vs i -> exists g, (a, g) ∈ vs /\ c = g i.
Proof. intros ([b g] & [= -> ->] & Hv)%list_elem_of_fmap. by exists g. Qed.

Definition filled (m0 : store) (vs : list (Z * (Z -> Z))) (n k : Z) (m : store) : Prop :=
  length m = length m0 /\ (forall a, a ∉ map fst vs -> vget m a = vget m0 a) /\
  forall a g, (a, g) ∈ vs -> exists cs, vget m a = Ok cs /\ Z.of_nat (length cs) = n /\
    forall i, 0 <= i < k -> vget cs i = Ok (Some (g i)).

Lemma filled_step m0 vs n k m : NoDup (map fst vs) -> 0 <= k < n -> filled m0 vs n k m ->
  exists m', foldM (fun m c => write m c.1 k c.2) (round_of vs k) m = Ok m' /\ filled m0 vs n (k + 1) m'.
Proof.
  intros Hd Hk (F1 & F2 & F3). destruct (fill_round (round_of vs k) n k Hk) with (m := m) as (m' & H & G1 & G2 & G3).
  { by rewrite round_arrays. }
  { intros a c (g & Hv & ->)%round_in. destruct (F3 a g Hv) as (cs & H1 & H2 & _). by exists cs. }
  rewrite round_arrays in G2. exists m'. split; [done|]. split; [congruence|]. split; [intros a Ha; by rewrite G2, F2|].
  intros a g Hv. destruct (F3 a g Hv) as (cs & E1 & E2 & E3).
  destruct (G3 a (g k)) as (cs' & E1' & E2'); [exact (list_elem_of_fmap_2 (fun v : Z * (Z -> Z) => (v.1, v.2 k)) vs (a, g) Hv)|].
  rewrite E1 in E1'. injection E1' as <-. eexists. split; [exact E2'|]. split; [by rewrite length_insert|]. intros i Hi.
  assert (Hs : vset cs k (Some (g k)) = Ok (<[Z.to_nat k := Some (g k)]> cs)) by (apply vset_Ok; split; [lia|done]).
  destruct (decide (i = k)) as [->|Hne]; [by eapply vget_vset_eq|]. rewrite (vget_vset_ne _ _ _ _ _ Hs) by congruence. apply E3. lia.
Qed.

(** A loop that writes cell [i] of some arrays in round [i]. *)
Lemma rounds_Ok (f : store -> Z -> res store) vs n m0 : 0 <= n -> NoDup (map fst vs) -> (forall a g, (a, g) ∈ vs -> sized m0 a n) ->
  (forall m i, 0 <= i < n -> f m i = foldM (fun m c => write m c.1 i c.2) (round_of vs i) m) ->
  exists m, foldM f (seqZ 0 n) m0 = Ok m /\ length m = length m0 /\ (forall a, a ∉ map fst vs -> vget m a = vget m0 a) /\
    forall a g, (a, g) ∈ vs -> holds m a (map g (seqZ 0 n)).
Proof.
  intros Hn Hd Hs Hf.
  assert (Hgo : forall k : nat, Z.of_nat k <= n -> exists m, foldM f (seqZ 0 (Z.of_nat k)) m0 = Ok m /\ filled m0 vs n (Z.of_nat k) m).
  { induction k as [|k IH]; intros Hk.
    - exists m0. split; [done|]. split; [done|]. split; [done|]. intros a g Hv. destruct (Hs a g Hv) as (cs & H1 & H2). exists cs. split; [done|]. split; [done|]. lia.
    - destruct IH as (m & Hm & Fm); [lia|]. destruct (filled_step m0 vs n (Z.of_nat k) m Hd ltac:(lia) Fm) as (m' & Hm' & Fm').
      rewrite Nat2Z.inj_succ, <- Z.add_1_r, seqZ_app, foldM_app, Hm by lia. change (seqZ (0 + Z.of_nat k) 1) with [Z.of_nat k]. cbn [mbind res_bind foldM].
      rewrite Hf, Hm' by lia. by exists m'. }
  destruct (Hgo (Z.to_nat n)) as (m & Hm & F1 & F2 & F3); [lia|]. rewrite Z2Nat.id in Hm, F3 by done. exists m. split; [done|]. split; [done|]. split; [done|].
  intros a g Hv. destruct (F3 a g Hv) as (cs & E1 & E2 & E3). unfold holds. rewrite E1. f_equal. apply list_eq. intros i. rewrite !list_lookup_fmap.
  destruct (decide (i < Z.to_nat n)%nat) as [Hi|Hi].
  - rewrite lookup_seqZ_lt by lia. specialize (E3 (Z.of_nat i) ltac:(lia)). apply vget_Ok in E3 as [_ E3]. by rewrite Nat2Z.id in E3.
  - rewrite lookup_seqZ_ge by lia. apply lookup_ge_None_2. lia.
Qed.

Lemma replicate_map {A} (c : Z) (l : list A) : map (fun _ => c) l = replicate (length l) c.
Proof. induction l as [|x l IH]; [done|]. cbn. by rewrite IH. Qed.

Lemma fill_Ok constants n m0 : 0 <= n -> NoDup (map fst constants) -> (forall a c, (a, c) ∈ constants -> sized m0 a n) ->
  exists m, fill constants n m0 = Ok m /\ length m = length m0 /\ (forall a, a ∉ map fst constants -> vget m a = vget m0 a) /\
    forall a c, (a, c) ∈ constants -> holds m a (replicate (Z.to_nat n) c).
Proof.
  intros Hn Hd Hs. set (vs := map (fun c : Z * Z => (c.1, fun _ : Z => c.2)) constants).
  assert (Hvs : map fst vs = map fst constants) by (subst vs; by rewrite map_map).
  destruct (rounds_Ok (fun m i => foldM (fun m c => write m c.1 i c.2) constants m) vs n m0) as (m & Hm & Hl & Ho & Hh).
  { done. }
  { by rewrite Hvs. }
  { intros a g ([b c] & [= -> ->] & Hc)%list_elem_of_fmap. by eapply Hs. }
  { intros m i _. f_equal. unfold round_of, vs. rewrite map_map. cbn. symmetry. erewrite map_ext; [apply map_id|]. by intros []. }
  rewrite Hvs in Ho. exists m. split; [done|]. split; [done|]. split; [done|]. intros a c Hc.
  specialize (Hh a (fun _ => c) (list_elem_of_fmap_2 (fun c : Z * Z => (c.1, fun _ : Z => c.2)) constants (a, c) Hc)).
  assert (E : map (fun _ : Z => c) (seqZ 0 n) = replicate (Z.to_nat n) c); [|by rewrite <- E].
  by rewrite replicate_map, length_seqZ.
Qed.

(** ** Symbolic execution

    Arrays of a program have numbers, from which [addr] gives their position.
    An environment says which function of the input an array holds, a log
    which operation was recorded under a number, with its largest operands. *)
Definition blank {D} (F : float_ops D) : bbop_statistic (D := D) :=
  mkStat None (fun _ => d_lit (fl_double F) 0 1) (fun _ => d_lit (fl_double F) 0 1) 0 0.

Lemma initialize_blank {D} (F : float_ops D) : initialize_bbop_statistics F = replicate (Z.to_nat MAX_BBOPS) (blank F).
Proof. done. Qed.

Definition upd {A} (e : nat -> option A) (i : nat) (v : A) : nat -> option A := fun j => if Nat.eqb j i then Some v else e j.

Section Symbolic.
Context {D : Type} (F : float_ops D) (sched : Z -> region) (n : Z) (Hn : 0 < n < 2 ^ 27) (HE : energies_fit F n).
Context (HV : forall id, valid_region n (sched id)).
Context (addr : nat -> Z) (Hinj : forall i j, addr i = addr j -> i = j) (arrays : nat).
Context (K : Z) (xs : list Z) (Hx : Z.of_nat (length xs) = n) (Hxs : Forall (fun x => 0 <= x <= K) xs).
Local Abbreviation machine := (machine (D := D)).
Local Abbreviation M := (umax xs).

(** A function whose values are small and that grows with the input. *)
Record good (g : Z -> Z) : Prop := {
  good_small x : 0 <= x <= K -> 0 <= g x < 2 ^ 31;
  good_mono x y : 0 <= x <= y -> y <= K -> g x <= g y
}.

Record env_ok (e : nat -> option (Z -> Z)) (log : nat -> option (bbop_operation * Z * Z)) (st : machine) : Prop := {
  eo_holds i g : e i = Some g -> holds (memory st) (addr i) (map g xs);
  eo_good i g : e i = Some g -> good g;
  eo_sized i : (i < arrays)%nat -> sized (memory st) (addr i) n;
  eo_log id : (id < Z.to_nat MAX_BBOPS)%nat -> exists s, vget (bbop_statistics st) (Z.of_nat id) = Ok s /\
    match log id with None => s = blank F | Some (op, a, b) => recorded F n op a b (blank F) s end
}.

Lemma xs_range x : x ∈ xs -> 0 <= x <= K.
Proof. pose proof Hxs as H. rewrite Forall_forall in H. apply H. Qed.

Lemma M_in : M ∈ xs.
Proof.
  destruct (umax_in xs) as [E|]; [|done]. destruct (lookup_lt_is_Some_2 xs 0) as [x Hin%list_elem_of_lookup_2]; [lia|]. 
  pose proof (umax_ge xs x Hin). pose proof (xs_range x Hin).
  rewrite E. replace 0 with x by lia. done.
Qed.

Lemma M_range : 0 <= M <= K.
Proof. apply xs_range, M_in. Qed.

Lemma good_umax g : good g -> umax (map g xs) = g M.
Proof.
  intros G. apply Z.le_antisymm.
  - apply umax_le; [apply (good_small g G), M_range|]. apply Forall_fmap, Forall_forall. intros x Hin. cbn.
    apply (good_mono g G); [split; [by apply xs_range|by apply umax_ge]|apply M_range].
  - apply umax_ge. apply list_elem_of_fmap_2, M_in.
Qed.

Lemma good_list g : good g -> small (map g xs).
Proof. intros G. apply Forall_fmap. eapply Forall_impl; [exact Hxs|]. intros x. apply (good_small g G). Qed.

Lemma env_step e log st st' op C id g a b : env_ok e log st -> good g -> log id = None -> (id < Z.to_nat MAX_BBOPS)%nat ->
  executed F n op (addr C) (Z.of_nat id) (map g xs) a b st st' -> env_ok (upd e C g) (upd log id (op, a, b)) st'.
Proof.
  intros [E1 E2 E3 E4] G Hlog Hid [X1 X2 X3 (s & s' & Hs & Hs' & R)]. split.
  - intros i h. unfold upd. destruct (Nat.eqb_spec i C) as [->|Hne]; [by intros [= <-]|]. intros Hi. eapply holds_same; [|by apply E1].
    apply X3. by intros ?%Hinj.
  - intros i h. unfold upd. destruct (Nat.eqb_spec i C) as [->|Hne]; [by intros [= <-]|]. apply E2.
  - intros i Hi. destruct (decide (i = C)) as [->|Hne]; [rewrite <- Hx, <- (length_map g); by apply holds_sized|].
    destruct (E3 i Hi) as (cs & H1 & H2). exists cs. split; [|done]. rewrite <- H1. apply X3. by intros ?%Hinj.
  - intros k Hk. unfold upd. destruct (E4 k Hk) as (t & Ht & Hl). destruct (Nat.eqb_spec k id) as [->|Hne].
    + exists s'. split; [by eapply vget_vset_eq|]. rewrite Hlog in Hl. rewrite Hs in Ht. injection Ht as <-. by rewrite Hl in R.
    + exists t. split; [|done]. rewrite <- Ht. eapply vget_vset_ne; [exact Hs'|]. by intros ?%Nat2Z.inj.
Qed.

Lemma step_call {T} e log st op f A B C gA gB g id (k : machine -> res T) P :
  env_ok e log st -> element_op op = Some f -> e A = Some gA -> e B = Some gB -> A <> C -> B <> C -> (C < arrays)%nat ->
  log id = None -> (id < Z.to_nat MAX_BBOPS)%nat -> good g -> (forall x, 0 <= x <= K -> f (gA x) (gB x) = g x) -> 0 < Z.max (gA M) (gB M) ->
  (forall st', env_ok (upd e C g) (upd log id (op, gA M, gB M)) st' -> exists t, k st' = Ok t /\ P t) ->
  exists t, (st' ← bbop_op F op (addr A) (addr B) (addr C) (u64 n) (Z.of_nat id) (sched (Z.of_nat id)) st; k st') = Ok t /\ P t.
Proof.
  intros E Hop HA HB HAC HBC HC Hlog Hid G Hg Hpos Hk. assert (Hu : u64 n = n) by (apply wrap_id; lia). rewrite Hu.
  destruct (bbop_op_Ok F n ltac:(lia) op f (addr A) (addr B) (addr C) (map gA xs) (map gB xs) (Z.of_nat id) (sched (Z.of_nat id)) st) as (st' & Hst & X);
    try done; try (by rewrite length_map); try (by intros ?%Hinj).
  - by apply (eo_holds _ _ _ E).
  - by apply (eo_holds _ _ _ E).
  - by apply (eo_sized _ _ _ E).
  - by apply good_list, (eo_good _ _ _ E A).
  - by apply good_list, (eo_good _ _ _ E B).
  - destruct (eo_log _ _ _ E id Hid) as (s & Hs & _). by exists s.
  - rewrite (good_umax gA), (good_umax gB) by (by eapply (eo_good _ _ _ E)). done.
  - rewrite Hst. cbn [mbind res_bind]. apply Hk. rewrite (good_umax gA), (good_umax gB) in X by (by eapply (eo_good _ _ _ E)).
    eapply env_step; [done..|]. assert (Hz : zip_with f (map gA xs) (map gB xs) = map g xs).
    { rewrite zip_with_fmap_l, zip_with_fmap_r. clear - Hg Hxs. induction Hxs as [|x l Hl Hll IH]; [done|]. cbn. rewrite IH by done. f_equal. by apply Hg. }
    by rewrite Hz in X.
Qed.
Lemma step_relu {T} e log st A gA id (k : machine -> res T) P :
  env_ok e log st -> e A = Some gA -> (A < arrays)%nat -> log id = None -> (id < Z.to_nat MAX_BBOPS)%nat -> 0 < gA M ->
  (forall st', env_ok (upd e A gA) (upd log id (BBOP_RELU, gA M, 0)) st' -> exists t, k st' = Ok t /\ P t) ->
  exists t, (st' ← bbop_op F BBOP_RELU (addr A) (addr A) (addr A) (u64 n) (Z.of_nat id) (sched (Z.of_nat id)) st; k st') = Ok t /\ P t.
Proof.
  intros E HA HAa Hlog Hid Hpos Hk. assert (Hu : u64 n = n) by (apply wrap_id; lia). rewrite Hu.
  destruct (eo_log _ _ _ E id Hid) as (s & Hs & Hb). rewrite Hlog in Hb. subst s. pose proof (eo_good _ _ _ E A gA HA) as G.
  destruct (bbop_relu_Ok F n (addr A) (addr A) (addr A) (map gA xs) (Z.of_nat id) (sched (Z.of_nat id)) st (blank F)) as (st' & Hst & X); try done.
  - by apply (eo_holds _ _ _ E).
  - by apply (eo_sized _ _ _ E).
  - by rewrite length_map.
  - by apply good_list.
  - by rewrite good_umax.
  - rewrite Hst. cbn [mbind res_bind]. apply Hk. rewrite good_umax in X by done. by eapply env_step.
Qed.
End Symbolic.

(** ** Allocation

    The arrays of the programs: the input, the output and the allocated ones. *)
Definition array_addr (input output base : Z) (i : nat) : Z :=
  match i with O => input | S O => output | S (S i) => base + Z.of_nat i end.

(** What they hold before the first operation, from the constants and the
    arrays [calloc] has cleared. *)
Definition start_env (constants : list (nat * Z)) (zeros : list nat) (i : nat) : option (Z -> Z) :=
  match i with
  | O => Some (fun x => x)
  | S O => None
  | S (S j) =>
      match List.find (fun p => Nat.eqb p.1 j) constants with
      | Some p => Some (fun _ => p.2)
      | None => if existsb (Nat.eqb j) zeros then Some (fun _ => 0) else None
      end
  end.

Lemma malloc_first size m : malloc size m = (Z.of_nat (length m) + Z.of_nat 0, m ++ [replicate (Z.to_nat size) None]).
Proof. unfold malloc. by rewrite Z.add_0_r. Qed.
Lemma malloc_app size m l : malloc size (m ++ l) = (Z.of_nat (length m) + Z.of_nat (length l), m ++ (l ++ [replicate (Z.to_nat size) None])).
Proof. unfold malloc. by rewrite length_app, Nat2Z.inj_add, <- app_assoc. Qed.
Lemma calloc_app size m l : calloc size (m ++ l) = (Z.of_nat (length m) + Z.of_nat (length l), m ++ (l ++ [replicate (Z.to_nat size) (Some 0)])).
Proof. unfold calloc. by rewrite length_app, Nat2Z.inj_add, <- app_assoc. Qed.

Section Start.
Context {D : Type} (F : float_ops D) (n : Z) (Hn : 0 < n < 2 ^ 27) (input output : Z) (xs : list Z) (st : machine (D := D)).
Context (K : Z) (Hx : Z.of_nat (length xs) = n) (Hxs : Forall (fun x => 0 <= x <= K) xs) (HK : K < 2 ^ 31).
Context (HI : holds (memory st) input xs) (HO : sized (memory st) output n) (Hio : input <> output).
Context (HS : bbop_statistics st = initialize_bbop_statistics F).
Local Abbreviation base := (Z.of_nat (length (memory st))).
Local Abbreviation addr := (array_addr input output base).

Lemma below_base a n' : sized (memory st) a n' -> a < base.
Proof. intros (cs & [H1 H2%lookup_lt_Some]%vget_Ok & _). lia. Qed.

Lemma addr_inj i j : addr i = addr j -> i = j.
Proof.
  pose proof (below_base input _ (holds_sized _ _ _ HI)). pose proof (below_base output _ HO).
  unfold array_addr. destruct i as [|[|i]], j as [|[|j]]; try done; lia.
Qed.

Lemma map_const (c : Z) : map (fun _ => c) xs = replicate (Z.to_nat n) c.
Proof. by rewrite replicate_map, <- Hx, Nat2Z.id. Qed.

Lemma vget_old a l : a < base -> vget (memory st ++ l) a = vget (memory st) a.
Proof. intros Ha. unfold vget, zlookup. destruct (Z.ltb_spec a 0); [done|]. by rewrite lookup_app_l by lia. Qed.

Lemma vget_new l i cs : l !! i = Some cs -> vget (memory st ++ l) (addr (S (S i))) = Ok cs.
Proof. intros Hi. cbn [array_addr]. apply vget_Ok. split; [lia|]. rewrite lookup_app_r by lia. rewrite <- Hi. f_equal. lia. Qed.

Context (l : list cells) (constants : list (nat * Z)) (zeros : list nat).
Context (Hl : Forall (fun cs => Z.of_nat (length cs) = n) l) (Hd : NoDup (map fst constants)).
Context (Hc : Forall (fun p => (p.1 < length l)%nat /\ 0 <= p.2 < 2 ^ 31) constants).
Context (Hz : Forall (fun i => l !! i = Some (replicate (Z.to_nat n) (Some 0)) /\ i ∉ map fst constants) zeros).

Lemma l_sized i : (i < length l)%nat -> exists cs, vget (memory st ++ l) (addr (S (S i))) = Ok cs /\ Z.of_nat (length cs) = n.
Proof.
  intros Hi. destruct (lookup_lt_is_Some_2 l i Hi) as [cs Hcs]. exists cs. split; [by apply vget_new|]. by apply (Forall_lookup_1 _ _ _ _ Hl Hcs).
Qed.

Definition const_arrays : list (Z * Z) := map (fun p => (addr (S (S p.1)), p.2)) constants.

Lemma const_arrays_in i : addr i ∈ map fst const_arrays -> exists j, i = S (S j) /\ j ∈ map fst constants.
Proof.
  unfold const_arrays. rewrite map_map. intros (p & Hi & Hp)%list_elem_of_fmap. cbn [fst] in Hi. apply addr_inj in Hi. exists p.1. split; [done|].
  by apply list_elem_of_fmap_2.
Qed.

Lemma const_array_elem p : p ∈ constants -> (addr (S (S p.1)), p.2) ∈ const_arrays.
Proof. apply (list_elem_of_fmap_2 (fun p : nat * Z => (addr (S (S p.1)), p.2))). Qed.

Lemma find_constant j p : List.find (fun p : nat * Z => Nat.eqb p.1 j) constants = Some p -> p ∈ constants /\ p.1 = j.
Proof. intros [H1 H2%Nat.eqb_eq]%find_some. split; [by apply list_elem_of_In|done]. Qed.

Lemma constant_good c : 0 <= c < 2 ^ 31 -> good K (fun _ => c).
Proof. intros Hc0. split; [done|lia]. Qed.

(** The programs start in this environment. *)
Lemma start_Ok : exists m, fill const_arrays n (memory st ++ l) = Ok m /\ length m = (length (memory st) + length l)%nat /\
  env_ok F n addr (2 + length l) K xs (start_env constants zeros) (fun _ => None) (mkMachine m (bbop_statistics st)).
Proof.
  destruct (fill_Ok const_arrays n (memory st ++ l)) as (m & Hm & Hlen & Ho & Hconst).
  { lia. }
  { unfold const_arrays. rewrite map_map. cbn [fst]. rewrite <- (map_map fst (fun j => addr (S (S j)))). apply NoDup_fmap_2; [|done]. by intros i j [= ->]%addr_inj. }
  { unfold const_arrays. intros a c ((j & c') & [= -> ->] & Hj)%list_elem_of_fmap. rewrite Forall_forall in Hc. apply (l_sized j (proj1 (Hc _ Hj))). }
  exists m. split; [done|]. split; [by rewrite Hlen, length_app|].
  assert (Hsame : forall i, (forall j, i = S (S j) -> j ∉ map fst constants) -> vget m (addr i) = vget (memory st ++ l) (addr i)).
  { intros i Hi. apply Ho. intros (j & -> & Hj)%const_arrays_in. by apply (Hi j). }
  split; cbn [memory bbop_statistics].
  - intros i g. destruct i as [|[|j]]; cbn [start_env]; [intros [= <-]|done|].
    + rewrite map_id_eq. unfold holds. rewrite Hsame by done. cbn [array_addr]. rewrite vget_old; [done|]. by eapply below_base, holds_sized.
    + destruct (List.find _ constants) as [[j' c]|] eqn:E.
      * apply find_constant in E as [Hin <-]. intros [= <-]. cbn [snd]. rewrite map_const. apply Hconst. exact (const_array_elem (j', c) Hin).
      * destruct (existsb _ zeros) eqn:Ez; [|done]. intros [= <-]. rewrite map_const. apply existsb_exists in Ez as (k & Hk%list_elem_of_In & <-%Nat.eqb_eq).
        rewrite Forall_forall in Hz. destruct (Hz j Hk) as [H1 H2]. unfold holds. rewrite Hsame by (by intros k [= <-]). rewrite fmap_replicate. by apply vget_new.
  - intros i g. destruct i as [|[|j]]; cbn [start_env]; [intros [= <-]; split; lia|done|].
    destruct (List.find _ constants) as [p|] eqn:E.
    + apply find_constant in E as [Hin <-]. intros [= <-]. apply constant_good. rewrite Forall_forall in Hc. by apply Hc.
    + destruct (existsb _ zeros); [|done]. intros [= <-]. by apply constant_good.
  - intros i Hi. destruct i as [|[|j]].
    + rewrite <- Hx. apply holds_sized. unfold holds. rewrite Hsame by done. cbn [array_addr]. rewrite vget_old; [done|]. by eapply below_base, holds_sized.
    + destruct HO as (cs & H1 & H2). exists cs. split; [|done]. rewrite Hsame by done. cbn [array_addr]. rewrite vget_old; [done|]. by eapply below_base.
    + destruct (decide (j ∈ map fst constants)) as [(p & -> & Hp)%list_elem_of_fmap|Hne].
      * assert (Hh : holds m (addr (S (S p.1))) (replicate (Z.to_nat n) p.2)) by (by apply Hconst, const_array_elem).
        apply holds_sized in Hh. rewrite length_replicate, Z2Nat.id in Hh by lia. done.
      * destruct (l_sized j ltac:(lia)) as (cs & H1 & H2). exists cs. split; [|done]. rewrite Hsame; [done|]. by intros k [= <-].
  - intros id Hid. exists (blank F). split; [|done]. rewrite HS, initialize_blank. apply vget_Ok. split; [lia|]. rewrite Nat2Z.id. by apply lookup_replicate_2.
Qed.
End Start.

(** ** Loops of the programs *)
Lemma free_all_Ok l : forall m, Forall (fun a => is_Ok (vget m a)) l -> exists m', free_all l m = Ok m' /\ forall k, k ∉ l -> vget m' k = vget m k.
Proof.
  induction l as [|a l IH]; intros m Hl; [by exists m|]. apply Forall_cons in Hl as [[c Hc] Hl]. unfold free_all in *. cbn [foldM]. unfold free at 2.
  pose proof Hc as [H0 H1%lookup_lt_Some]%vget_Ok. assert (E : vset m a [] = Ok (<[Z.to_nat a := []]> m)) by (apply vset_Ok; split; [lia|done]).
  rewrite E. cbn [mbind res_bind]. destruct (IH (<[Z.to_nat a := []]> m)) as (m' & Hm & Ho).
  { rewrite Forall_forall in *. intros b Hb. destruct (Hl b Hb) as [d Hbd]. destruct (decide (b = a)) as [->|Hne]; [exists []; by eapply vget_vset_eq|].
    exists d. rewrite <- Hbd. eapply vget_vset_ne; [exact E|congruence]. }
  exists m'. split; [done|]. intros k [Hk1 Hk2]%not_elem_of_cons. rewrite Ho by done. eapply vget_vset_ne; [exact E|congruence].
Qed.

Definition capped (x : Z) : Z := if 1 <? x then 1 else x.

(** The first [k] elements are capped. *)
Definition partly_capped (ys : list Z) (k : nat) : list Z := map capped (take k ys) ++ drop k ys.

Lemma partly_capped_step ys k y : ys !! k = Some y ->
  partly_capped ys k !! k = Some y /\ <[k := capped y]> (partly_capped ys k) = partly_capped ys (S k).
Proof.
  intros Hy. unfold partly_capped. pose proof (lookup_lt_Some _ _ _ Hy) as Hk.
  assert (Hl : length (map capped (take k ys)) = k) by (rewrite length_map, length_take; lia).
  rewrite (drop_S _ _ _ Hy), (take_S_r _ _ _ Hy), map_app, <- app_assoc. cbn [map app]. split; [by apply list_lookup_middle|].
  by rewrite insert_app_r_alt, Hl, Nat.sub_diag by lia.
Qed.

Lemma cap_Ok output ys n m0 : holds m0 output ys -> Z.of_nat (length ys) = n ->
  exists m, cap output n m0 = Ok m /\ holds m output (map capped ys) /\ length m = length m0 /\ forall k, k <> output -> vget m k = vget m0 k.
Proof.
  intros H0 Hn. assert (Hgo : forall k : nat, (k <= length ys)%nat -> exists m,
    foldM (fun m i => x ← read m output i; if 1 <? x then write m output i 1 else Ok m) (seqZ 0 (Z.of_nat k)) m0 = Ok m /\
    holds m output (partly_capped ys k) /\ length m = length m0 /\ forall a, a <> output -> vget m a = vget m0 a).
  { induction k as [|k IH]; intros Hk; [by exists m0|]. destruct IH as (m & Hm & F1 & F2 & F3); [lia|].
    destruct (lookup_lt_is_Some_2 ys k) as [y Hy]; [lia|]. destruct (partly_capped_step ys k y Hy) as [Hp Hs].
    rewrite Nat2Z.inj_succ, <- Z.add_1_r, seqZ_app, foldM_app, Hm by lia. change (seqZ (0 + Z.of_nat k) 1) with [Z.of_nat k]. cbn [mbind res_bind foldM].
    rewrite (holds_read _ _ _ (Z.of_nat k) y F1) by (apply vget_Ok; split; [lia|by rewrite Nat2Z.id]). cbn [mbind res_bind].
    unfold capped in Hs. destruct (1 <? y).
    - destruct (write_Ok m output (Z.of_nat (length (partly_capped ys k))) (Z.of_nat k) 1 (holds_sized _ _ _ F1)) as (cs & Hcs & Hw).
      { apply lookup_lt_Some in Hp. lia. }
      rewrite Hw. cbn [mbind res_bind]. eexists. split; [done|]. split_and!.
      + unfold holds in *. rewrite F1 in Hcs. injection Hcs as <-. rewrite (write_array _ _ _ _ _ _ F1 Hw), Nat2Z.id, <- Hs. by rewrite list_fmap_insert.
      + rewrite <- F2. by eapply write_length.
      + intros a Ha. rewrite <- F3 by done. by eapply write_others.
    - exists m. split; [done|]. split; [|done]. rewrite list_insert_id in Hs by done. by rewrite <- Hs. }
  destruct (Hgo (length ys)) as (m & Hm & F1 & F2); [done|]. rewrite Hn in Hm. exists m. split; [done|]. split; [|done].
  unfold partly_capped in F1. by rewrite firstn_all, drop_all, app_nil_r in F1.
Qed.

(** ** The rational approximation *)
Definition f6_numerator (x : Z) : Z := 120 + 60 * x + 12 * (x * x) + x * x * x.
Definition f6_denominator (x : Z) : Z := 240 + 24 * (x * x).

(** The operations with their largest operands, when the largest input is [M]. *)
Definition f6_log (M : Z) : list (bbop_operation * Z * Z) :=
  [(BBOP_MUL, M, M); (BBOP_MUL, M * M, M); (BBOP_MUL, 60, M); (BBOP_MUL, 12, M * M); (BBOP_ADD, 120, 60 * M);
   (BBOP_ADD, 120 + 60 * M, 12 * (M * M)); (BBOP_ADD, 120 + 60 * M + 12 * (M * M), M * M * M); (BBOP_MUL, 24, M * M);
   (BBOP_ADD, 240, 24 * (M * M)); (BBOP_DIV, f6_numerator M, f6_denominator M); (BBOP_RELU, f6_numerator M + f6_denominator M, 0)].

Lemma u32_small x : 0 <= x < 2 ^ 31 -> u32 x = x.
Proof. intros H. apply wrap_id. lia. Qed.

Lemma powers_bound x : 0 <= x <= 1000 -> 0 <= x * x <= 1000000 /\ 0 <= x * x * x <= 1000000000.
Proof. intros Hx. assert (0 <= x * x <= 1000000) by nia. split; [done|]. nia. Qed.

Lemma powers_mono x y : 0 <= x <= y -> x * x <= y * y /\ x * x * x <= y * y * y.
Proof. intros H. assert (0 <= x * x <= y * y) by nia. split; [lia|]. nia. Qed.

(** The values of the intermediate arrays stay small and grow. *)
Ltac good_f6 :=
  let z := fresh "z" in let w := fresh "w" in let Hz := fresh "Hz" in let Hw := fresh "Hw" in
  split; [intros z Hz; pose proof (powers_bound z Hz)|intros z w Hz Hw; pose proof (powers_mono z w Hz)];
  unfold f6_numerator, f6_denominator; lia.
Ltac value_f6 :=
  let z := fresh "z" in let Hz := fresh "Hz" in
  intros z Hz; pose proof (powers_bound z Hz); unfold mul_elements, add_elements, div_elements, f6_numerator, f6_denominator;
  rewrite ?(proj2 (Z.ltb_lt 0 _)) by lia; rewrite ?u32_small by lia; lia.

(** One call: the arrays, what the operands hold, what the result is. *)
Ltac f6_call step A B C gA gB g id :=
  lazymatch goal with E : env_ok _ _ _ _ _ _ ?env ?lg ?s |- _ =>
    eapply (step _ env lg s _ _ A B C gA gB g id _ _ E);
    [reflexivity|reflexivity|reflexivity|done|done|lia|reflexivity|cbv; lia|good_f6|value_f6|unfold f6_numerator, f6_denominator; lia|clear E; intros ? E; cbn beta]
  end.

Section F6.
Context {D : Type} (F : float_ops D) (sched : Z -> region) (n : Z) (Hn : 0 < n < 2 ^ 27) (HE : energies_fit F n).
Context (HV : forall id, valid_region n (sched id)) (input output : Z) (xs : list Z) (st : machine (D := D)).
Context (Hx : Z.of_nat (length xs) = n) (Hxs : Forall (fun x => 0 <= x <= 1000) xs) (Hpos : 0 < umax xs).
Context (HI : holds (memory st) input xs) (HO : sized (memory st) output n) (Hio : input <> output).
Context (HS : bbop_statistics st = initialize_bbop_statistics F).
Local Abbreviation base := (Z.of_nat (length (memory st))).
Local Abbreviation addr := (array_addr input output base).
Local Abbreviation M := (umax xs).

Definition f6_arrays : list cells := replicate 13 (replicate (Z.to_nat n) None).
Definition f6_constants : list (nat * Z) := [(8%nat, 60); (9%nat, 12); (10%nat, 24); (11%nat, 120); (12%nat, 240)].

Lemma f6_calls_Ok m0 : env_ok F n addr 15 1000 xs (start_env f6_constants []) (fun _ => None) m0 ->
  exists st', run_calls F sched n
    [mkCall BBOP_MUL (addr 0) (addr 0) (addr 2) 0;
     mkCall BBOP_MUL (addr 2) (addr 0) (addr 3) 1;
     mkCall BBOP_MUL (addr 10) (addr 0) (addr 4) 2;
     mkCall BBOP_MUL (addr 11) (addr 2) (addr 5) 3;
     mkCall BBOP_ADD (addr 13) (addr 4) (addr 7) 4;
     mkCall BBOP_ADD (addr 7) (addr 5) (addr 9) 5;
     mkCall BBOP_ADD (addr 9) (addr 3) (addr 7) 6;
     mkCall BBOP_MUL (addr 12) (addr 2) (addr 6) 7;
     mkCall BBOP_ADD (addr 14) (addr 6) (addr 8) 8;
     mkCall BBOP_DIV (addr 7) (addr 8) (addr 1) 9;
     mkCall BBOP_RELU (addr 1) (addr 1) (addr 1) 10] m0 = Ok st' /\
    exists e log, env_ok F n addr 15 1000 xs e log st' /\ e 0%nat = Some (fun x => x) /\
      e 1%nat = Some (fun x => f6_numerator x + f6_denominator x) /\ forall k, log k = f6_log M !! k.
Proof.
  intros E. unfold run_calls. cbn [foldM c_op c_A c_B c_C c_id].
  pose proof (addr_inj n input output xs st HI HO Hio) as Hinj. pose proof (M_range n Hn 1000 xs Hx Hxs) as HM.
  pose proof (powers_bound _ HM) as [HM2 HM3].
  pose proof (fun T => @step_call D F sched n Hn HE HV addr Hinj 15%nat 1000 xs Hx Hxs T) as Step.
  f6_call Step 0%nat 0%nat 2%nat (fun x : Z => x) (fun x : Z => x) (fun x => x * x) 0%nat.
  f6_call Step 2%nat 0%nat 3%nat (fun x => x * x) (fun x : Z => x) (fun x => x * x * x) 1%nat.
  f6_call Step 10%nat 0%nat 4%nat (fun _ : Z => 60) (fun x : Z => x) (fun x => 60 * x) 2%nat.
  f6_call Step 11%nat 2%nat 5%nat (fun _ : Z => 12) (fun x => x * x) (fun x => 12 * (x * x)) 3%nat.
  f6_call Step 13%nat 4%nat 7%nat (fun _ : Z => 120) (fun x => 60 * x) (fun x => 120 + 60 * x) 4%nat.
  f6_call Step 7%nat 5%nat 9%nat (fun x => 120 + 60 * x) (fun x => 12 * (x * x)) (fun x => 120 + 60 * x + 12 * (x * x)) 5%nat.
  f6_call Step 9%nat 3%nat 7%nat (fun x => 120 + 60 * x + 12 * (x * x)) (fun x => x * x * x) f6_numerator 6%nat.
  f6_call Step 12%nat 2%nat 6%nat (fun _ : Z => 24) (fun x => x * x) (fun x => 24 * (x * x)) 7%nat.
  f6_call Step 14%nat 6%nat 8%nat (fun _ : Z => 240) (fun x => 24 * (x * x)) f6_denominator 8%nat.
  f6_call Step 7%nat 8%nat 1%nat f6_numerator f6_denominator (fun x => f6_numerator x + f6_denominator x) 9%nat.
  pose proof (fun T => @step_relu D F sched n Hn HV addr Hinj 15%nat 1000 xs Hx Hxs T) as Relu.
  lazymatch goal with E : env_ok _ _ _ _ _ _ ?env ?lg ?s |- _ =>
    eapply (Relu _ env lg s 1%nat (fun x => f6_numerator x + f6_denominator x) 10%nat _ _ E) end;
    [reflexivity|lia|reflexivity|cbv; lia|unfold f6_numerator, f6_denominator; lia|clear E; intros ? E].
  eexists. split; [reflexivity|]. eexists _, _. split; [exact E|]. split; [reflexivity|]. split; [reflexivity|].
  intros k. do 11 (destruct k as [|k]; [reflexivity|]). reflexivity.
Qed.

(** What an operation list leaves in the statistics. *)
Definition logged (log : list (bbop_operation * Z * Z)) (stats : list (bbop_statistic (D := D))) : Prop :=
  forall id, (id < Z.to_nat MAX_BBOPS)%nat -> exists s, vget stats (Z.of_nat id) = Ok s /\
    match log !! id with None => s = blank F | Some (op, a, b) => recorded F n op a b (blank F) s end.

Lemma f6_operations_Ok : exists arrays st', f6_operations F sched input output n st = Ok (arrays, st') /\
  Forall (fun a => is_Ok (vget (memory st') a) /\ a <> input /\ a <> output) arrays /\
  holds (memory st') input xs /\ holds (memory st') output (map (fun x => f6_numerator x + f6_denominator x) xs) /\
  logged (f6_log M) (bbop_statistics st').
Proof.
  destruct (start_Ok F n Hn input output xs st 1000 Hx ltac:(lia) HI HO Hio HS f6_arrays f6_constants []) as (m & Hm & _ & E).
  { unfold f6_arrays. apply Forall_replicate. rewrite length_replicate. lia. }
  { cbn. rewrite !NoDup_cons, !not_elem_of_cons. split_and!; try done; try apply not_elem_of_nil; apply NoDup_nil_2. }
  { unfold f6_constants, f6_arrays. rewrite length_replicate. rewrite !Forall_cons, Forall_nil. cbn. lia. }
  { done. }
  destruct (f6_calls_Ok _ E) as (st' & Hst & e & log & E' & H0 & H1 & Hlog).
  exists (map (fun j => addr (S (S j))) (seq 0 13)), st'. split.
  { unfold f6_operations. rewrite malloc_first. cbv beta iota zeta. do 12 (rewrite malloc_app; cbv beta iota zeta).
    cbn [length app]. change (fill _ n _) with (fill (const_arrays input output st f6_constants) n (memory st ++ f6_arrays)).
    rewrite Hm. cbn [mbind res_bind].
    lazymatch type of Hst with ?t = _ => lazymatch goal with |- context [run_calls F sched n ?c ?s] => change (run_calls F sched n c s) with t end end.
    rewrite Hst. reflexivity. }
  pose proof (addr_inj n input output xs st HI HO Hio) as Hinj. split.
  { apply Forall_fmap, Forall_forall. intros j [_ Hj]%elem_of_seq. destruct (eo_sized _ _ _ _ _ _ _ _ _ E' (S (S j)) ltac:(lia)) as (cs & Hcs & _).
    split; [by exists cs|]. split; intros H; [apply (Hinj (S (S j)) 0%nat) in H|apply (Hinj (S (S j)) 1%nat) in H]; done. }
  split; [rewrite <- (map_id_eq xs); apply (eo_holds _ _ _ _ _ _ _ _ _ E' 0%nat _ H0)|]. split; [apply (eo_holds _ _ _ _ _ _ _ _ _ E' 1%nat _ H1)|].
  intros id Hid. rewrite <- Hlog. apply (eo_log _ _ _ _ _ _ _ _ _ E' id Hid).
Qed.

Lemma freed arrays m : Forall (fun a => is_Ok (vget m a) /\ a <> input /\ a <> output) arrays ->
  exists m', free_all arrays m = Ok m' /\ vget m' input = vget m input /\ vget m' output = vget m output.
Proof.
  intros H. destruct (free_all_Ok arrays m) as (m' & Hm & Ho); [eapply Forall_impl; [exact H|]; cbn; tauto|].
  rewrite Forall_forall in H. exists m'. split; [done|]. split; apply Ho; intros Hin; by destruct (H _ Hin) as (_ & ? & ?).
Qed.

(** The quotient is the sum of numerator and denominator. *)
Lemma sigmoid_f6_pim_computes : exists st', sigmoid_f6_pim F sched input output n st = Ok st' /\
  holds (memory st') input xs /\ holds (memory st') output (map (fun x => f6_numerator x + f6_denominator x) xs) /\
  logged (f6_log M) (bbop_statistics st').
Proof.
  destruct f6_operations_Ok as (arrays & st' & Hst & Ha & H0 & H1 & Hlog). destruct (freed arrays (memory st') Ha) as (m & Hm & F0 & F1).
  eexists. unfold sigmoid_f6_pim. rewrite Hst. cbn [mbind res_bind fst snd]. rewrite Hm. cbn [mbind res_bind]. split; [done|].
  split; [by eapply holds_same|]. split; [by eapply holds_same|done].
Qed.

(** C16: The in-memory f_6 with the cap on the CPU returns 1 for every input array of
    fewer than 2^27 values up to 1000 that are not all zero (and energies that convert
    to int): the division operation adds its operands, so every quotient exceeds 1
    before the cap. *)
Theorem f6_sigmoid_array_pim_constant : exists st', f6_sigmoid_array_pim F sched input output n st = Ok st' /\
  holds (memory st') output (replicate (Z.to_nat n) 1).
Proof.
  destruct f6_operations_Ok as (arrays & st' & Hst & Ha & H0 & H1 & Hlog).
  destruct (cap_Ok output _ n (memory st') H1) as (m & Hm & C1 & _ & C3); [by rewrite length_map|].
  destruct (freed arrays m) as (m' & Hm' & _ & F1).
  { eapply Forall_impl; [exact Ha|]. cbn. intros a ([c Hc] & Hi & Ho). split; [|done]. exists c. by rewrite C3. }
  eexists. unfold f6_sigmoid_array_pim. rewrite Hst. cbn [mbind res_bind fst snd]. rewrite Hm. cbn [mbind res_bind]. rewrite Hm'. cbn [mbind res_bind].
  split; [done|]. eapply holds_same; [exact F1|]. rewrite <- Hx, Nat2Z.id. rewrite map_map in C1.
  assert (E : map (fun x => capped (f6_numerator x + f6_denominator x)) xs = replicate (length xs) 1); [|by rewrite <- E].
  clear - Hxs. induction Hxs as [|x l Hx Hl IH]; [done|]. cbn [map length replicate]. rewrite IH by done. f_equal.
  pose proof (powers_bound x Hx). unfold capped, f6_numerator, f6_denominator. by rewrite (proj2 (Z.ltb_lt 1 _)) by lia.
Qed.
End F6.

(** ** The Taylor expansion

    Negated inputs are not less than 2^31: none is larger than 0 as [int]. *)
Lemma bbop_two_zero {D} (F : float_ops D) f c op A B C id size r (st : machine (D := D)) m s :
  parallel2 f A B C r (memory st) = Ok (0, 0, m) -> vget (bbop_statistics st) id = Ok s ->
  bbop_two F f c op A B C id size r st = Err UndefinedBehaviour.
Proof.
  intros Hp Hs. unfold bbop_two. rewrite Hp. cbn [mbind res_bind Z.ltb Z.compare].
  destruct (record_stat_Ok id (fun s => Ok (raise_largest 0 0 s)) _ s _ Hs eq_refl) as (st1 & -> & _). done.
Qed.

Lemma negated x : 0 <= x < 2 ^ 31 -> sub_elements 0 x = 0 \/ 2 ^ 31 <= sub_elements 0 x < 2 ^ 32.
Proof.
  intros Hx. unfold sub_elements, u32, wrap. destruct (decide (x = 0)) as [->|]; [by left|right].
  replace (0 - x) with (2 ^ 32 - x + (-1) * 2 ^ 32) by lia. rewrite Z.mod_add by lia. rewrite Z.mod_small; lia.
Qed.

Lemma foldM_two_err {A B} (f : B -> A -> res B) a b l x e : (y ← f x a; f y b) = Err e -> foldM f (a :: b :: l) x = Err e.
Proof. cbn. destruct (f x a) as [y|]; cbn; [by intros ->|done]. Qed.

Section Taylor.
Context {D : Type} (F : float_ops D) (sched : Z -> region) (n : Z) (Hn : 0 < n < 2 ^ 27) (HE : energies_fit F n).
Context (HV : forall id, valid_region n (sched id)) (input output : Z) (xs : list Z) (st : machine (D := D)).
Context (Hx : Z.of_nat (length xs) = n) (Hxs : small xs).
Context (HI : holds (memory st) input xs) (HO : sized (memory st) output n) (Hio : input <> output).
Context (HS : bbop_statistics st = initialize_bbop_statistics F).
Local Abbreviation base := (Z.of_nat (length (memory st))).
Local Abbreviation addr := (array_addr input output base).

Definition taylor_arrays : list cells :=
  replicate 12 (replicate (Z.to_nat n) None) ++ [replicate (Z.to_nat n) (Some 0)] ++ replicate 5 (replicate (Z.to_nat n) None).
Definition taylor_constants : list (nat * Z) := [(13%nat, 1); (14%nat, 2); (15%nat, 6); (16%nat, 24); (17%nat, 120)].

(** The first operation negates; the second one cannot be charged. *)
Lemma taylor_two_calls m0 : env_ok F n addr 20 (2 ^ 31 - 1) xs (start_env taylor_constants [12%nat]) (fun _ => None) m0 ->
  (st' ← bbop_op F BBOP_SUB (addr 14) (addr 0) (addr 2) (u64 n) 0 (sched 0) m0;
   bbop_op F BBOP_MUL (addr 2) (addr 2) (addr 3) (u64 n) 1 (sched 1) st') = Err UndefinedBehaviour.
Proof.
  intros E. assert (Hu : u64 n = n) by (apply wrap_id; lia). rewrite Hu.
  pose proof (addr_inj n input output xs st HI HO Hio) as Hinj.
  pose proof (eo_holds _ _ _ _ _ _ _ _ _ E 14%nat _ eq_refl) as Hz. pose proof (eo_holds _ _ _ _ _ _ _ _ _ E 0%nat _ eq_refl) as Hi.
  cbn beta in Hz. rewrite (map_const n xs Hx) in Hz. rewrite map_id_eq in Hi.
  pose proof (eo_sized _ _ _ _ _ _ _ _ _ E 2%nat ltac:(lia)) as S2. pose proof (eo_sized _ _ _ _ _ _ _ _ _ E 3%nat ltac:(lia)) as S3.
  destruct (eo_log _ _ _ _ _ _ _ _ _ E 0%nat ltac:(cbv; lia)) as (s0 & Hs0 & _). destruct (eo_log _ _ _ _ _ _ _ _ _ E 1%nat ltac:(cbv; lia)) as (s1 & Hs1 & _).
  assert (Sz : small (replicate (Z.to_nat n) 0)) by (by apply Forall_replicate).
  assert (Uz : umax (replicate (Z.to_nat n) 0) = 0) by (apply Z.le_antisymm; [by apply umax_le, Forall_replicate|apply umax_nonneg]).
  assert (Lz : Z.of_nat (length (replicate (Z.to_nat n) 0)) = n) by (rewrite length_replicate; lia).
  assert (N1 : addr 14 <> addr 2) by (by intros ?%Hinj). assert (N2 : addr 0 <> addr 2) by (by intros ?%Hinj). assert (N3 : addr 2 <> addr 3) by (by intros ?%Hinj).
  destruct (decide (umax xs = 0)) as [Hm|Hm].
  - destruct (parallel2_maxima n sub_elements _ _ _ _ _ (sched 0) _ (HV 0) Hz Hi S2 Lz Hx N1 N2 Sz Hxs) as (m & Hp & _).
    rewrite Uz, Hm in Hp. change (bbop_op F BBOP_SUB (addr 14) (addr 0) (addr 2) n 0 (sched 0) m0) with
      (bbop_two F sub_elements (adders F) BBOP_SUB (addr 14) (addr 0) (addr 2) 0 n (sched 0) m0). by rewrite (bbop_two_zero _ _ _ _ _ _ _ _ _ _ _ _ _ Hp Hs0).
  - destruct (bbop_op_Ok F n ltac:(lia) BBOP_SUB sub_elements _ _ _ _ _ 0 (sched 0) m0 eq_refl (HV 0) Hz Hi S2 Lz Hx N1 N2 Sz Hxs) as (st' & -> & [X1 _ X3 X4]);
      [by exists s0|pose proof (umax_nonneg xs); lia|done|]. cbn [mbind res_bind].
    set (neg := zip_with _ _ _) in *. assert (Hneg : Forall (fun x => x = 0 \/ 2 ^ 31 <= x < 2 ^ 32) neg).
    { subst neg. rewrite <- Hx, Nat2Z.id. clear - Hxs. induction Hxs as [|x l Hx Hl IH]; [done|]. cbn. constructor; [by apply negated|by apply IH]. }
    assert (Ln : Z.of_nat (length neg) = n) by (subst neg; rewrite length_zip_with; lia).
    assert (Bn : bounded neg) by (eapply Forall_impl; [exact Hneg|]; cbn; lia).
    assert (S3' : sized (memory st') (addr 3) n).
    { destruct S3 as (cs & H1 & H2). exists cs. split; [|done]. rewrite X3; [done|]. by intros ?%Hinj. }
    destruct (parallel2_Ok (memory st') n (sched 1) (HV 1) mul_elements _ _ _ _ _ X1 X1 S3' Ln Ln N3 N3 Bn Bn) as (m & Hp & _).
    rewrite !team_max_negative in Hp by done. change (bbop_op F BBOP_MUL (addr 2) (addr 2) (addr 3) n 1 (sched 1) st') with
      (bbop_two F mul_elements (multipliers F) BBOP_MUL (addr 2) (addr 2) (addr 3) 1 n (sched 1) st').
    destruct X4 as (t & t' & _ & Hv & _). eapply bbop_two_zero; [exact Hp|]. rewrite (vget_vset_ne _ _ _ _ _ Hv) by done. exact Hs1.
Qed.

(** No input leaves this program a defined result. *)
Lemma sigmoid_taylor_pim_undefined : sigmoid_taylor_pim F sched input output n st = Err UndefinedBehaviour.
Proof.
  destruct (start_Ok F n Hn input output xs st (2 ^ 31 - 1) Hx ltac:(lia) HI HO Hio HS taylor_arrays taylor_constants [12%nat]) as (m & Hm & _ & E).
  { unfold taylor_arrays. rewrite !Forall_app, Forall_singleton. split_and!; try apply Forall_replicate; rewrite length_replicate; lia. }
  { cbn. rewrite !NoDup_cons, !not_elem_of_cons. split_and!; try done; try apply not_elem_of_nil; apply NoDup_nil_2. }
  { unfold taylor_constants, taylor_arrays. rewrite !length_app, !length_replicate. rewrite !Forall_cons, Forall_nil. cbn. lia. }
  { apply Forall_singleton. split; [done|]. cbn. rewrite !not_elem_of_cons. split_and!; try done. apply not_elem_of_nil. }
  unfold sigmoid_taylor_pim. rewrite malloc_first. cbv beta iota zeta. do 17 (rewrite ?malloc_app, ?calloc_app; cbv beta iota zeta).
  cbn [length app]. change (fill _ n _) with (fill (const_arrays input output st taylor_constants) n (memory st ++ taylor_arrays)).
  rewrite Hm. cbn [mbind res_bind].
  lazymatch goal with |- context [run_calls F sched n ?c ?s] =>
    assert (R : run_calls F sched n c s = Err UndefinedBehaviour) by (apply foldM_two_err; exact (taylor_two_calls _ E)) end.
  by rewrite R.
Qed.
End Taylor.

(** ** The output file *)
Section Rows.
Context {D : Type} (F : float_ops D).
Local Abbreviation O := (fl_double F).

(** The line of an operation and a mechanism. *)
Definition row_of (i : Z) (op : bbop_operation) (s : bbop_statistic (D := D)) (m : mechanism) : csv_row (D := D) :=
  RowBbop i (get_bbop_name op) (largest_input_a s) (largest_input_b s) (mechanism_name m) (to_milli F (lat s) m) (to_milli F (ene s) m).

Lemma print_loop_rows stats : forall i p l p', print_loop F i stats p = (l, p') ->
  (forall r, r ∈ pr_rows p -> r ∈ pr_rows p') /\
  forall (k : nat) s op m, stats !! k = Some s -> operation s = Some op -> row_of (i + Z.of_nat k) op s m ∈ pr_rows p'.
Proof.
  induction stats as [|s stats IH]; intros i p l p'; cbn [print_loop].
  - intros [= <- <-]. split; [done|]. by intros k s op m H%list_elem_of_lookup_2%not_elem_of_nil.
  - destruct (print_one F i s p) as [s1 p1] eqn:E1. destruct (print_loop F (i + 1) stats p1) as [l1 p2] eqn:E2. intros [= <- <-].
    destruct (IH _ _ _ _ E2) as [H1 H2].
    assert (Hin : (forall r, r ∈ pr_rows p -> r ∈ pr_rows p1) /\ forall op m, operation s = Some op -> row_of i op s m ∈ pr_rows p1).
    { unfold print_one in E1. destruct (operation s) as [op|]; injection E1 as <- <-; [|done]. cbn [pr_rows]. split.
      - intros r Hr. apply elem_of_app. by left.
      - intros op' m [= <-]. apply elem_of_app. right.
        change (row_of i op s m ∈ map (row_of i op s) row_order). apply list_elem_of_fmap_2. by destruct m; repeat constructor. }
    split; [intros r Hr; by apply H1, Hin|]. intros [|k] t op m Ht Hop; [injection Ht as <-; rewrite Z.add_0_r; by apply H1, Hin|].
    replace (i + Z.of_nat (S k)) with (i + 1 + Z.of_nat k) by lia. by apply H2.
Qed.

Lemma print_rows st (k : nat) s op m : bbop_statistics st !! k = Some s -> operation s = Some op ->
  row_of (Z.of_nat k) op s m ∈ (print_bbop_statistic F st).1.
Proof.
  intros Hs Hop. unfold print_bbop_statistic. destruct (print_loop _ _ _ _) as [l p'] eqn:E. destruct (print_loop_rows _ _ _ _ _ E) as [_ H].
  cbn [fst]. apply elem_of_app. left. exact (H k s op m Hs Hop).
Qed.
End Rows.

(** ** The comparison program *)
Lemma store_loop f a n m0 : 0 <= n -> sized m0 a n ->
  exists m, foldM (fun m i => write m a i (f i)) (seqZ 0 n) m0 = Ok m /\ holds m a (map f (seqZ 0 n)) /\
    length m = length m0 /\ forall k, k <> a -> vget m k = vget m0 k.
Proof.
  intros Hn Hs. destruct (rounds_Ok (fun m i => write m a i (f i)) [(a, f)] n m0 Hn) as (m & Hm & Hl & Ho & Hh).
  { by apply NoDup_singleton. }
  { by intros b g [= -> _]%list_elem_of_singleton. }
  { intros m i _. cbn. by destruct (write m a i (f i)). }
  exists m. split; [done|]. split; [apply Hh; by left|]. split; [done|]. intros k Hk. apply Ho. cbn. by intros ->%list_elem_of_singleton.
Qed.

Section Compare.
Context {D : Type} (F : float_ops D) (sched : Z -> region) (n : Z) (Hn : 10 <= n < 2 ^ 27) (HE : energies_fit F n).
Context (HV : forall id, valid_region n (sched id)).
Local Abbreviation O := (fl_double F).

Definition compare_input : list Z := map (fun i => u32 (Z.rem i 10)) (seqZ 0 n).

Lemma compare_input_range : Forall (fun x => 0 <= x <= 9) compare_input.
Proof.
  unfold compare_input. apply Forall_fmap, Forall_forall. intros i [H1 H2]%elem_of_seqZ. cbn. rewrite Z.rem_mod_nonneg by lia.
  pose proof (Z.mod_pos_bound i 10 ltac:(lia)). rewrite u32_small; lia.
Qed.

Lemma compare_input_max : umax compare_input = 9.
Proof.
  pose proof compare_input_range as H. apply Z.le_antisymm; [apply umax_le; [done|]; eapply Forall_impl; [exact H|]; cbn; lia|].
  apply umax_ge. apply (list_elem_of_fmap_2 (fun i => u32 (Z.rem i 10)) _ 9). apply elem_of_seqZ. lia.
Qed.

Lemma compare_start : exists m, length m = 2%nat /\ holds m 0 compare_input /\ sized m 1 n /\
  forall f : Z -> Z -> Z -> machine -> res machine, compare_main F f n =
    (st ← f 0 1 n (mkMachine m (initialize_bbop_statistics F)); Ok (print_bbop_statistic F st).1).
Proof.
  unfold compare_main. cbn [malloc length app]. change (Z.of_nat 0) with 0. change (Z.of_nat 1) with 1.
  set (cs := replicate (Z.to_nat n) None). assert (Hcs : Z.of_nat (length cs) = n) by (subst cs; rewrite length_replicate; lia).
  destruct (store_loop (fun i => u32 (Z.rem i 10)) 0 n [cs; cs]) as (m & Hm & H1 & H2 & H3); [lia|by exists cs|].
  exists m. split; [done|]. split; [done|]. split; [exists cs; by rewrite H3|]. intros f. by rewrite Hm.
Qed.

(** C13: The comparison program of Proteus, for every array size from 10 to below 2^27
    for which the energies of the circuits convert to int, and every distribution of the
    iterations over threads. Built for f_6, it writes a file in which each of the ten
    multiplications, additions and divisions appears with its name, its largest operands
    (for the inputs 0 to 9) and, for the six mechanisms whose circuit is not chosen by
    its energy (SIMDRAM on one subarray, on 64, and with dynamic precision; DAFTPUM
    latency-optimised with static and with dynamic precision, and under the activation
    window), the latency of the cost tables at the precision the mechanism works with:
    32 bits, that of the larger operand, or the next of 8, 16 and 32 to it. Built for
    the Taylor expansion, it has no defined result: the first operation negates the
    inputs, the second sees no operand above 0 and converts log2(0) to int. *)
Theorem compare_main_results :
  (exists rows, compare_main F (sigmoid_f6_pim F sched) n = Ok rows /\
    forall (id : nat) op a b m v, f6_log 9 !! id = Some (op, a, b) -> latency_of op (Z.log2 (Z.max a b) + 1) n m = Some v ->
      exists e, RowBbop (Z.of_nat id) (get_bbop_name op) a b (mechanism_name m)
        (d_div O (d_add O (d_lit O 0 1) (d_int O v)) (d_int O 1000000)) e ∈ rows) /\
  compare_main F (sigmoid_taylor_pim F sched) n = Err UndefinedBehaviour.
Proof.
  destruct compare_start as (m & Hl & HI & HO & Hmain). rewrite !Hmain.
  assert (Hlen : Z.of_nat (length compare_input) = n) by (unfold compare_input; rewrite length_map, length_seqZ; lia). split.
  - destruct (sigmoid_f6_pim_computes F sched n ltac:(lia) HE HV 0 1 compare_input (mkMachine m (initialize_bbop_statistics F))) as (st' & -> & _ & _ & L);
      [done|eapply Forall_impl; [apply compare_input_range|]; cbn; lia|by rewrite compare_input_max|done..|].
    cbn [mbind res_bind]. eexists. split; [done|]. intros id op a b k v Hid Hv. rewrite compare_input_max in L.
    destruct (L id) as (s & Hs & R); [apply lookup_lt_Some in Hid; cbv in Hid |- *; lia|]. rewrite Hid in R. destruct R as [R1 R2 R3 R4].
    apply vget_Ok in Hs as [_ Hs]. rewrite Nat2Z.id in Hs. pose proof (print_rows F st' id s op k Hs R1) as Hrow. eexists.
    unfold row_of, to_milli in Hrow. rewrite (R4 k v Hv), R2, R3 in Hrow. cbn [blank largest_input_a largest_input_b lat] in Hrow.
    assert (Hab : Z.max 0 a = a /\ Z.max 0 b = b) by (do 11 (destruct id as [|id]; [by injection Hid as <- <- <-|]); done).
    destruct Hab as [Ea Eb]. rewrite Ea, Eb in Hrow. exact Hrow.
  - rewrite (sigmoid_taylor_pim_undefined F sched n ltac:(lia) HE HV 0 1 compare_input); try done. eapply Forall_impl; [apply compare_input_range|]; cbn; lia.
Qed.
End Compare.

(** ** The trace of the wrapper *)

(** The accesses to element [i]: two loads and a store. *)
Definition accesses_of (i : Z) : list load_store :=
  [mkLS false (0x100000 + i * 64); mkLS false (0x100000 + i * 64 + N_DATA * 64); mkLS true (0x100000 + i * 64 + 2 * N_DATA * 64)].
Definition wrapper_accesses : list load_store := seqZ 0 N_DATA ≫= accesses_of.

Lemma N_DATA_eq : N_DATA = 10000.
Proof. done. Qed.

#[local] Opaque N_DATA.

Lemma print_ull x : 0 <= x -> print_int x = print_nat 64 10 x.
Proof. intros Hx. unfold print_int. by rewrite (proj2 (Z.ltb_ge x 0)). Qed.

Lemma trace_lines_accesses i : 0 <= i < N_DATA -> trace_lines i = map (print_load_store false) (accesses_of i).
Proof.
  pose proof N_DATA_eq as HN. intros Hi. unfold trace_lines, u64.
  rewrite !(wrap_id 64) by (rewrite ?(wrap_id 64) by (rewrite ?(wrap_id 64) by lia; lia); lia).
  unfold accesses_of. cbn [map]. unfold print_load_store. cbn [ls_is_write ls_addr]. by rewrite !print_ull by lia.
Qed.

Lemma map_bind {A B C} (f : B -> C) (g : A -> list B) (l : list A) : map f (l ≫= g) = l ≫= (fun x => map f (g x)).
Proof. induction l as [|x l IH]; [done|]. rewrite !bind_cons, map_app. by rewrite IH. Qed.

Lemma list_bind_ext_elem {A B} (f g : A -> list B) (l : list A) : (forall x, x ∈ l -> f x = g x) -> l ≫= f = l ≫= g.
Proof.
  induction l as [|x l IH]; intros H; [done|]. rewrite !bind_cons, H by (by left). f_equal. apply IH. intros y Hy. apply H. by right.
Qed.

Lemma wrapper_addresses : NoDup (map ls_addr wrapper_accesses) /\
  Forall (fun t => 0x100000 <= ls_addr t < 0x100000 + 3 * N_DATA * 64 /\ ls_addr t mod 64 = 0) wrapper_accesses.
Proof.
  pose proof N_DATA_eq as HN. split.
  - unfold wrapper_accesses. rewrite map_bind. apply NoDup_bind.
    + intros i j x [H1 H2]%elem_of_seqZ [H3 H4]%elem_of_seqZ. unfold accesses_of. cbn. rewrite !elem_of_cons, !elem_of_nil. lia.
    + intros i _. unfold accesses_of. cbn. rewrite !NoDup_cons, !elem_of_cons, !elem_of_nil. split_and!; try lia. apply NoDup_nil_2.
    + apply NoDup_seqZ.
  - apply Forall_forall. intros t (i & Ht & Hi)%list_elem_of_bind. apply elem_of_seqZ in Hi. unfold accesses_of in Ht.
    rewrite !elem_of_cons, elem_of_nil in Ht. destruct Ht as [->|[->|[->|[]]]]; cbn [ls_addr]; (split; [lia|]); apply Z.mod_divide; try done;
      [exists (16384 + i)|exists (16384 + i + N_DATA)|exists (16384 + i + 2 * N_DATA)]; lia.
Qed.

Lemma wrapper_rounds {D} (F : float_ops D) A B C l : forall m lines,
  foldM (wrapper_round F A B C) l (m, lines) =
    (m ← foldM (fun m i => a ← element_a F i; b ← element_b F i; foldM (fun m c => write m c.1 i c.2) [(A, a); (B, b); (C, 0)] m) l m;
     Ok (m, lines ++ (l ≫= trace_lines))).
Proof.
  induction l as [|i l IH]; intros m lines; [cbn; by rewrite app_nil_r|]. cbn [foldM]. unfold wrapper_round at 2. cbn [fst snd].
  destruct (element_a F i) as [a|]; [|done]. destruct (element_b F i) as [b|]; [|done]. cbn [mbind res_bind].
  destruct (write m A i a) as [m1|]; [|done]. cbn [mbind res_bind]. destruct (write m1 B i b) as [m2|]; [|done]. cbn [mbind res_bind].
  destruct (write m2 C i 0) as [m3|]; [|done]. cbn [mbind res_bind]. rewrite IH. rewrite bind_cons, app_assoc. done.
Qed.

Section WrapperResults.
Context {D : Type} (F : float_ops D) (sched : Z -> region) (HE : energies_fit F N_DATA) (HV : forall id, valid_region N_DATA (sched id)).
Context (va vb : Z -> Z) (Ha : forall i, 0 <= i < N_DATA -> element_a F i = Ok (va i) /\ 0 <= va i <= 1000000).
Context (Hb : forall i, 0 <= i < N_DATA -> element_b F i = Ok (vb i) /\ 0 <= vb i <= 1000000).
Local Abbreviation xs := (map va (seqZ 0 N_DATA)).
Local Abbreviation ys := (map vb (seqZ 0 N_DATA)).
Context (Hpos : 0 < Z.max (umax xs) (umax ys)).

Lemma wrapper_data m0 : sized m0 0 N_DATA -> sized m0 1 N_DATA -> sized m0 2 N_DATA ->
  exists m, foldM (wrapper_round F 0 1 2) (seqZ 0 N_DATA) (m0, []) = Ok (m, seqZ 0 N_DATA ≫= trace_lines) /\
    holds m 0 xs /\ holds m 1 ys /\ sized m 2 N_DATA.
Proof.
  pose proof N_DATA_eq as HN. intros S0 S1 S2. rewrite wrapper_rounds.
  destruct (rounds_Ok (fun m i => a ← element_a F i; b ← element_b F i; foldM (fun m c => write m c.1 i c.2) [(0, a); (1, b); (2, 0)] m)
    [(0, va); (1, vb); (2, fun _ => 0)] N_DATA m0) as (m & Hm & _ & _ & Hh).
  { lia. }
  { cbn. rewrite !NoDup_cons, !not_elem_of_cons. split_and!; try done; try apply not_elem_of_nil; apply NoDup_nil_2. }
  { intros a g. rewrite !elem_of_cons, elem_of_nil. by intros [[= -> _]|[[= -> _]|[[= -> _]|[]]]]. }
  { intros m i Hi. destruct (Ha i Hi) as [-> _], (Hb i Hi) as [-> _]. done. }
  rewrite Hm. cbn [mbind res_bind app]. exists m. split; [done|]. split; [apply Hh; by left|]. split; [apply Hh; by right; left|].
  assert (H2 : holds m 2 (map (fun _ => 0) (seqZ 0 N_DATA))) by (apply Hh; by right; right; left).
  apply holds_sized in H2. rewrite length_map, length_seqZ, Z2Nat.id in H2 by lia. done.
Qed.
Lemma wrapper_file ratio : LoadStore_init ratio (FileContents (print_lines (seqZ 0 N_DATA ≫= trace_lines))) = Ok (replay_init ratio wrapper_accesses).
Proof.
  pose proof N_DATA_eq as HN.
  assert (E : seqZ 0 N_DATA ≫= trace_lines = map (fun p => print_load_store p.1 p.2) (map (pair false) wrapper_accesses)).
  { rewrite map_map. unfold wrapper_accesses. rewrite map_bind. cbn [fst snd]. apply list_bind_ext_elem. intros i Hi%elem_of_seqZ. apply trace_lines_accesses. lia. }
  rewrite E, load_store_file; [by rewrite map_map, map_id|]. apply Forall_fmap. eapply Forall_impl; [apply wrapper_addresses|]. cbn. lia.
Qed.

Lemma values_small (v : Z -> Z) : (forall i, 0 <= i < N_DATA -> 0 <= v i <= 1000000) -> small (map v (seqZ 0 N_DATA)).
Proof. intros H. apply Forall_fmap, Forall_forall. intros i Hi%elem_of_seqZ. specialize (H i ltac:(lia)). cbn. lia. Qed.

(** The two operations succeed and leave three arrays to free. *)
Lemma wrapper_calls m : holds m 0 xs -> holds m 1 ys -> sized m 2 N_DATA -> exists st,
  (st ← bbop_op F BBOP_ADD 0 1 2 (u64 N_DATA) 0 (sched 0) (mkMachine m (initialize_bbop_statistics F));
   bbop_op F BBOP_MUL 0 1 2 (u64 N_DATA) 1 (sched 1) st) = Ok st /\ Forall (fun a => is_Ok (vget (memory st) a)) [0; 1; 2].
Proof.
  pose proof N_DATA_eq as HN. intros H0 H1 H2. assert (Hu : u64 N_DATA = N_DATA) by (apply wrap_id; lia). rewrite Hu.
  assert (Sx : small xs) by (apply values_small; apply Ha). assert (Sy : small ys) by (apply values_small; apply Hb).
  assert (L : forall v : Z -> Z, Z.of_nat (length (map v (seqZ 0 N_DATA))) = N_DATA) by (intros v; rewrite length_map, length_seqZ; lia).
  destruct (bbop_op_Ok F N_DATA ltac:(lia) BBOP_ADD add_elements 0 1 2 xs ys 0 (sched 0) (mkMachine m (initialize_bbop_statistics F)))
    as (st1 & -> & [X1 _ X3 (s & s' & _ & Hs' & _)]); try done; [by exists (blank F)|]. cbn [mbind res_bind]. cbn [memory bbop_statistics] in *.
  assert (H2' : sized (memory st1) 2 N_DATA).
  { apply holds_sized in X1. rewrite length_zip_with, !length_map, length_seqZ in X1. replace (Z.of_nat _) with N_DATA in X1 by lia. done. }
  destruct (bbop_op_Ok F N_DATA ltac:(lia) BBOP_MUL mul_elements 0 1 2 xs ys 1 (sched 1) st1) as (st & -> & [Y1 _ Y3 _]); try done.
  { eapply holds_same; [by apply X3|done]. }
  { eapply holds_same; [by apply X3|done]. }
  { exists (blank F). by rewrite (vget_vset_ne _ _ _ _ _ Hs'). }
  exists st. split; [done|]. rewrite !Forall_cons, Forall_nil. split_and!; [| | |done].
  - exists (map Some xs). rewrite Y3, X3 by done. exact H0.
  - exists (map Some ys). rewrite Y3, X3 by done. exact H1.
  - eexists. exact Y1.
Qed.

(** C17: From the generator to the simulator: whenever the samples of the wrapper
    convert to integers up to 1000000 that are not all zero (and the energies to int),
    its run succeeds and the trace file it writes is read back by the LoadStoreTrace
    frontend as two loads and a store per element, 30000 accesses to pairwise different,
    64-byte aligned addresses. *)
Theorem wrapper_results : exists rows file, wrapper_main F sched = Ok (rows, file) /\
  (forall ratio, LoadStore_init ratio (FileContents file) = Ok (replay_init ratio wrapper_accesses)) /\
  NoDup (map ls_addr wrapper_accesses) /\ Forall (fun t => ls_addr t mod 64 = 0) wrapper_accesses.
Proof.
  pose proof N_DATA_eq as HN. set (cs := replicate (Z.to_nat N_DATA) (None (A := Z))).
  assert (Hs : forall i, 0 <= i < 3 -> sized [cs; cs; cs] i N_DATA).
  { intros i Hi. exists cs. split; [|subst cs; rewrite length_replicate; lia]. apply vget_Ok. split; [lia|]. assert (i = 0 \/ i = 1 \/ i = 2) as [->|[->| ->]] by lia; done. }
  destruct (wrapper_data [cs; cs; cs] (Hs 0 ltac:(lia)) (Hs 1 ltac:(lia)) (Hs 2 ltac:(lia))) as (m & Hm & H0 & H1 & H2).
  destruct wrapper_calls with (m := m) as (st & Hst & Hv); [done..|]. destruct (free_all_Ok [0; 1; 2] (memory st)) as (m' & Hm' & _); [done|].
  exists (print_bbop_statistic F st).1, (print_lines (seqZ 0 N_DATA ≫= trace_lines)). split.
  - unfold wrapper_main. cbn [malloc length app]. fold cs. change (Z.of_nat 0) with 0. change (Z.of_nat 1) with 1. change (Z.of_nat 2) with 2.
    rewrite Hm. cbn [mbind res_bind fst snd]. apply bind_Ok_inv in Hst as (st1 & -> & Hst). cbn [mbind res_bind]. rewrite Hst. cbn [mbind res_bind].
    assert (Hmem : forall st : machine (D := D), memory (print_bbop_statistic F st).2 = memory st) by (intros []; unfold print_bbop_statistic; by destruct (print_loop _ _ _ _)).
    pose proof (Hmem st) as Hmem'. destruct (print_bbop_statistic F st) as [rows st2]. cbn [fst snd] in *. rewrite Hmem', Hm'. cbn [mbind res_bind]. reflexivity.
  - split; [apply wrapper_file|]. split; [apply wrapper_addresses|]. eapply Forall_impl; [apply wrapper_addresses|]. cbn. tauto.
Qed.
End WrapperResults.

(** ** Concrete inputs *)
Definition pair_machine : machine (D := Q) := mkMachine [map Some [0; 7]; [None; None]] (initialize_bbop_statistics q_float).

Lemma f6_sigmoid_array_pim_constant_witness :
  exists st', f6_sigmoid_array_pim q_float (fun _ => two_threads 2) 0 1 2 pair_machine = Ok st' /\ holds (memory st') 1 [1; 1].
Proof.
  apply (f6_sigmoid_array_pim_constant q_float (fun _ => two_threads 2) 2 ltac:(lia) (q_energies_fit 2) (fun _ => two_threads_valid 2) 0 1 [0; 7] pair_machine); try done.
  - repeat (apply Forall_cons; split; [lia|]). by apply Forall_nil.
  - by eexists.
Defined.

Lemma compare_main_results_witness :
  (exists rows, compare_main q_float (sigmoid_f6_pim q_float (fun _ => two_threads 10)) 10 = Ok rows /\
    exists e, RowBbop 9 "BBOP_DIV" 2361 2184 "DAFTPUM_LAT" (d_div q_ops (d_add q_ops (0 # 10) (inject_Z 49668)) (inject_Z 1000000)) e ∈ rows) /\
  compare_main q_float (sigmoid_taylor_pim q_float (fun _ => two_threads 10)) 10 = Err UndefinedBehaviour.
Proof.
  destruct (compare_main_results q_float (fun _ => two_threads 10) 10 ltac:(lia) (q_energies_fit 10) (fun _ => two_threads_valid 10)) as [(rows & Hrows & H) Ht].
  split; [|exact Ht]. exists rows. split; [exact Hrows|].
  apply (H 9%nat BBOP_DIV 2361 2184 daftpum_latency_optimized 49668); reflexivity.
Defined.

Lemma q_nearest_range x : (0 <= f6_nearest q_float x <= 1)%Q.
Proof.
  unfold f6_nearest. set (v := d_div _ _ _). cbn [fl_lt q_float fl_double d_int q_ops].
  destruct (Qle_bool (inject_Z 0) v) eqn:E0; cbn [negb].
  - apply Qle_bool_iff in E0. destruct (Qle_bool v (inject_Z 1)) eqn:E1; cbn [negb]; [|by split].
    apply Qle_bool_iff in E1. by split.
  - by split.
Qed.

Lemma q_floor_range (x : Q) : (0 <= x <= 1)%Q -> 0 <= Qfloor (x * inject_Z 1000000) <= 1000000.
Proof.
  intros [H0 H1]. split.
  - change 0 with (Qfloor (inject_Z 0)). apply Qfloor_resp_le. apply (Qle_trans _ (0 * inject_Z 1000000)); [done|]. by apply Qmult_le_compat_r.
  - change 1000000 with (Qfloor (inject_Z 1000000)) at 2. apply Qfloor_resp_le. apply (Qle_trans _ (1 * inject_Z 1000000)); [by apply Qmult_le_compat_r|done].
Qed.

Lemma q_scaled x : exists v, fl_uint q_float (d_mul (fl_double q_float) (f6_nearest q_float x) (INT_SCALE q_float)) = Ok v /\ 0 <= v <= 1000000.
Proof.
  pose proof (q_floor_range _ (q_nearest_range x)) as Hr. set (y := f6_nearest q_float x) in *. clearbody y.
  exists (u32 (Qfloor (y * inject_Z 1000000))). split; [reflexivity|]. rewrite u32_small; lia.
Qed.

Lemma q_element_a i : exists v, element_a q_float i = Ok v /\ 0 <= v <= 1000000.
Proof. unfold element_a. apply q_scaled. Qed.
Lemma q_element_b i : exists v, element_b q_float i = Ok v /\ 0 <= v <= 1000000.
Proof. unfold element_b. apply q_scaled. Qed.

Definition value_a (i : Z) : Z := from_res 0 (element_a q_float i).
Definition value_b (i : Z) : Z := from_res 0 (element_b q_float i).

Lemma value_a_Ok i : element_a q_float i = Ok (value_a i) /\ 0 <= value_a i <= 1000000.
Proof. unfold value_a. destruct (q_element_a i) as (v & -> & Hv). done. Qed.
Lemma value_b_Ok i : element_b q_float i = Ok (value_b i) /\ 0 <= value_b i <= 1000000.
Proof. unfold value_b. destruct (q_element_b i) as (v & -> & Hv). done. Qed.

Lemma wrapper_results_witness : exists rows file, wrapper_main q_float (fun _ => one_thread N_DATA) = Ok (rows, file) /\
  (forall ratio, LoadStore_init ratio (FileContents file) = Ok (replay_init ratio wrapper_accesses)) /\
  NoDup (map ls_addr wrapper_accesses) /\ Forall (fun t => ls_addr t mod 64 = 0) wrapper_accesses.
Proof.
  apply (wrapper_results q_float (fun _ => one_thread N_DATA) (q_energies_fit N_DATA) (fun _ => one_thread_valid N_DATA) value_a value_b);
    [intros i _; apply value_a_Ok|intros i _; apply value_b_Ok|].
  pose proof N_DATA_eq as HN. assert (H : value_a 5000 ∈ map value_a (seqZ 0 N_DATA)) by (apply list_elem_of_fmap_2, elem_of_seqZ; lia).
  apply umax_ge in H. assert (E : 0 < value_a 5000) by (by vm_compute). lia.
Defined.
