(* ===== verification/Sigmoid.v ===== *)
(** * Sigmoid: the two sigmoid data paths

    Models [16 bit Azevedo/sigmoid.v] (a piecewise quadratic) and
    [fast_Vaisnav16/sigmoid.vhdl] with [pck_definitions.vhdl] (a piecewise
    linear): what the clocked output register is loaded with, for the input
    at a clock edge.  Numbers are Q4.12 in 16-bit two's complement; a bit
    slice of a signed register is unsigned and read back as signed. *)
From stdpp Require Import prelude.
From S2P Require Import Prelude.
Open Scope Z_scope.

Definition i16 (x : Z) : Z := swrap 16 x.
Definition in16 (x : Z) : Prop := - 32768 <= x < 32768.

Lemma i16_id x : in16 x -> i16 x = x.
Proof. intros H. apply swrap_id; [lia|exact H]. Qed.

(** ** sigmoid.v *)
Module Azevedo.
Definition XINF : Z := -22282.
Definition XMIN : Z := -13312.
Definition XMED : Z := 0.
Definition XMAX : Z := 13312.
Definition XSUP : Z := 22282.
Definition ZERO : Z := 0.
Definition ONE : Z := 4096.
Definition P2K1 : Z := 58.
Definition P2K0 : Z := 314.
Definition P3K2 : Z := 165.
Definition P3K1 : Z := 1116.
Definition P3K0 : Z := 2057.
Definition P4K2 : Z := -165.
Definition P4K1 : Z := 1116.
Definition P4K0 : Z := 2039.
Definition P5K1 : Z := 58.
Definition P5K0 : Z := 3782.

(** [t[27:12]], loaded into a signed 16-bit register. *)
Definition bits_27_12 (t : Z) : Z := i16 (Z.land (Z.shiftr t 12) 65535).

Definition sigmoid (x : Z) : Z :=
  if x <=? XINF then ZERO
  else if x <=? XMIN then
    let tmp := i32 (P2K1 * x + P2K0 * ONE) in
    bits_27_12 tmp
  else if x <=? XMED then
    let tmp_2 := i32 (P3K2 * x + P3K1 * ONE) in
    let tmp_3 := bits_27_12 tmp_2 in
    let tmp_4 := i32 (x * tmp_3 + P3K0 * ONE) in
    bits_27_12 tmp_4
  else if x <=? XMAX then
    let tmp_2 := i32 (P4K2 * x + P4K1 * ONE) in
    let tmp_3 := bits_27_12 tmp_2 in
    let tmp_4 := i32 (x * tmp_3 + P4K0 * ONE) in
    bits_27_12 tmp_4
  else if x <=? XSUP then
    let tmp := i32 (P5K1 * x + P5K0 * ONE) in
    bits_27_12 tmp
  else ONE.
End Azevedo.

(** ** sigmoid.vhdl *)
Module Vaisnav.
Definition one : Z := 4096.
Definition limit_5120 : Z := 20480.
Definition limit_2432 : Z := 9728.
Definition limit_1024 : Z := 4096.
Definition indep_864 : Z := 3456.
Definition indep_640 : Z := 2560.
Definition indep_512 : Z := 2048.

(** [abs] of [numeric_std] keeps the width: the most negative number is its
    own absolute value. *)
Definition abs (x : Z) : Z := i16 (Z.abs x).

Definition sigmoide (x : Z) : Z :=
  let abs_x := abs x in
  let y_tmp :=
    if limit_5120 <=? abs_x then one
    else if limit_2432 <=? abs_x then i16 (Z.shiftr abs_x 5 + indep_864)
    else if limit_1024 <=? abs_x then i16 (Z.shiftr abs_x 3 + indep_640)
    else i16 (Z.shiftr abs_x 2 + indep_512) in
  if 0 <=? x then y_tmp else i16 (one - y_tmp).
End Vaisnav.

(** ** Without overflow *)
(** A slice of a number that fits is a division. *)
Lemma bits_27_12_ok t : in16 (t / 4096) -> Azevedo.bits_27_12 t = t / 4096.
Proof.
  intros H. unfold Azevedo.bits_27_12. rewrite (Z.land_ones _ 16), Z.shiftr_div_pow2 by lia. change (2 ^ 12) with 4096.
  unfold i16, swrap. rewrite Zplus_mod_idemp_l. apply (swrap_id 16); [lia|exact H].
Qed.

(** The data path with exact arithmetic. *)
Definition azevedo_exact (x : Z) : Z :=
  if x <=? -22282 then 0
  else if x <=? -13312 then Z.shiftr (58 * x) 12 + 314
  else if x <=? 0 then Z.shiftr (x * (Z.shiftr (165 * x) 12 + 1116)) 12 + 2057
  else if x <=? 13312 then Z.shiftr (x * (Z.shiftr (-165 * x) 12 + 1116)) 12 + 2039
  else if x <=? 22282 then Z.shiftr (58 * x) 12 + 3782
  else 4096.

Lemma linear_ok k c x :
  Z.abs (k * x + c * 4096) < 2 ^ 27 -> Azevedo.bits_27_12 (i32 (k * x + c * 4096)) = Z.shiftr (k * x) 12 + c.
Proof.
  intros H. rewrite i32_id by lia. rewrite Z.shiftr_div_pow2 by lia. change (2 ^ 12) with 4096.
  rewrite bits_27_12_ok; [by rewrite Z.div_add by lia|]. unfold in16. split; [apply Z.div_le_lower_bound|apply Z.div_lt_upper_bound]; lia.
Qed.

Lemma azevedo_no_overflow x : in16 x -> Azevedo.sigmoid x = azevedo_exact x.
Proof.
  unfold in16, Azevedo.sigmoid, azevedo_exact. cbv zeta.
  unfold Azevedo.XINF, Azevedo.XMIN, Azevedo.XMED, Azevedo.XMAX, Azevedo.XSUP, Azevedo.P2K1, Azevedo.P2K0, Azevedo.P3K2, Azevedo.P3K1,
    Azevedo.P3K0, Azevedo.P4K2, Azevedo.P4K1, Azevedo.P4K0, Azevedo.P5K1, Azevedo.P5K0, Azevedo.ONE, Azevedo.ZERO.
  intros Hx. destruct (Z.leb_spec x (-22282)), (Z.leb_spec x (-13312)), (Z.leb_spec x 0), (Z.leb_spec x 13312), (Z.leb_spec x 22282);
    try lia; try done; try (by rewrite linear_ok by lia).
  - rewrite (linear_ok 165) by lia. apply linear_ok. rewrite Z.shiftr_div_pow2 by lia. change (2 ^ 12) with 4096.
    assert (-537 <= 165 * x / 4096 <= 0) by (split; [apply Z.div_le_lower_bound|apply Z.div_le_upper_bound]; lia). nia.
  - rewrite (linear_ok (-165)) by lia. apply linear_ok. rewrite Z.shiftr_div_pow2 by lia. change (2 ^ 12) with 4096.
    assert (-537 <= -165 * x / 4096 <= 0) by (split; [apply Z.div_le_lower_bound|apply Z.div_le_upper_bound]; lia). nia.
Qed.

(** ** The piecewise linear path *)
Definition vaisnav_exact (k : Z) : Z :=
  if 20480 <=? k then 4096
  else if 9728 <=? k then Z.shiftr k 5 + 3456
  else if 4096 <=? k then Z.shiftr k 3 + 2560
  else Z.shiftr k 2 + 2048.

Lemma vaisnav_exact_range k : 0 <= k -> 2048 <= vaisnav_exact k <= 4096.
Proof.
  intros Hk. unfold vaisnav_exact. rewrite !Z.shiftr_div_pow2 by lia. change (2 ^ 5) with 32. change (2 ^ 3) with 8. change (2 ^ 2) with 4.
  destruct (Z.leb_spec 20480 k); [lia|]. destruct (Z.leb_spec 9728 k), (Z.leb_spec 4096 k); try lia;
    match goal with |- context [?a / ?b] => pose proof (Z.div_pos a b ltac:(lia) ltac:(lia));
      pose proof (Z.mul_div_le a b ltac:(lia)) end; lia.
Qed.

(** All inputs but the most negative one: the result is exact, between 0 and
    one, and symmetric. *)
Lemma vaisnav_no_overflow x : -32768 < x < 32768 ->
  Vaisnav.sigmoide x = if 0 <=? x then vaisnav_exact x else 4096 - vaisnav_exact (- x).
Proof.
  intros Hx. unfold Vaisnav.sigmoide, Vaisnav.abs. cbv zeta.
  unfold Vaisnav.limit_5120, Vaisnav.limit_2432, Vaisnav.limit_1024, Vaisnav.one, Vaisnav.indep_864, Vaisnav.indep_640, Vaisnav.indep_512.
  rewrite (i16_id (Z.abs x)) by (unfold in16; lia). pose proof (vaisnav_exact_range (Z.abs x) ltac:(lia)) as Hr.
  assert (Hy : (if 20480 <=? Z.abs x then 4096 else if 9728 <=? Z.abs x then i16 (Z.shiftr (Z.abs x) 5 + 3456)
                else if 4096 <=? Z.abs x then i16 (Z.shiftr (Z.abs x) 3 + 2560) else i16 (Z.shiftr (Z.abs x) 2 + 2048))
               = vaisnav_exact (Z.abs x)).
  { unfold vaisnav_exact in *. destruct (20480 <=? Z.abs x); [done|]. destruct (9728 <=? Z.abs x); [apply i16_id; unfold in16; lia|].
    destruct (4096 <=? Z.abs x); apply i16_id; unfold in16; lia. }
  rewrite Hy. destruct (Z.leb_spec 0 x).
  - by rewrite Z.abs_eq by lia.
  - rewrite i16_id by (unfold in16; lia). by rewrite Z.abs_neq by lia.
Qed.

Lemma vaisnav_overflow : Vaisnav.sigmoide (-32768) = 10240.
Proof. done. Qed.
