(* ===== verification/SigmoidAccuracy.v ===== *)
(** * SigmoidAccuracy: how close the data paths come to the sigmoid

    The real sigmoid is enclosed at every input by integers: (1 + 1/4096)^k
    and (1 + 1/4096 + 2^-23)^k, rounded outwards, enclose exp (k / 4096).
    One sweep over the inputs compares the data paths with the enclosure. *)
From Stdlib Require Import Reals Lra.
From stdpp Require Import prelude.
From S2P Require Import Prelude Sigmoid.
Open Scope Z_scope.

Definition sigma (x : R) : R := (/ (1 + exp (- x)))%R.
(** The value of a Q4.12 number. *)
Definition q (x : Z) : R := (IZR x / 4096)%R.

(** ** The enclosure *)
Definition scale : Z := 4294967296.
Definition next_lo (lo : Z) : Z := lo + Z.shiftr lo 12.
Definition next_hi (hi : Z) : Z := hi + Z.shiftr hi 12 + Z.shiftr hi 23 + 2.

Record encloses (k lo hi : Z) : Prop := mkEncloses {
  en_pos : 0 < lo;
  en_lo : (IZR lo <= IZR scale * exp (q k))%R;
  en_hi : (IZR scale * exp (q k) <= IZR hi)%R
}.

Lemma shiftr_real a n d :
  0 <= n -> 2 ^ n = d -> (IZR d * IZR (Z.shiftr a n) <= IZR a < IZR d * IZR (Z.shiftr a n) + IZR d)%R.
Proof.
  intros Hn <-. rewrite Z.shiftr_div_pow2 by done. assert (Hp : 0 < 2 ^ n) by (by apply Z.pow_pos_nonneg).
  rewrite <- mult_IZR, <- plus_IZR. pose proof (Z.div_mod a (2 ^ n)). pose proof (Z.mod_pos_bound a (2 ^ n) Hp).
  split; [apply IZR_le|apply IZR_lt]; lia.
Qed.

Lemma exp_step : (1 + 1 / 4096 <= exp (1 / 4096) <= 1 + 1 / 4096 + 1 / 8388608)%R.
Proof.
  split; [apply exp_ineq1_le|]. pose proof (exp_ineq1_le (- (1 / 4096))) as H. pose proof (exp_pos (1 / 4096)) as Hp.
  assert (He : (exp (1 / 4096) * exp (- (1 / 4096)) = 1)%R) by (rewrite <- exp_plus, Rplus_opp_r; apply exp_0).
  pose proof (Rmult_le_compat_l _ _ _ (Rlt_le _ _ Hp) H) as Hm. rewrite He in Hm. lra.
Qed.

Lemma encloses_start : encloses 0 scale scale.
Proof. split; [done|..]; unfold q; replace (0 / 4096)%R with 0%R by lra; rewrite exp_0; lra. Qed.

Lemma encloses_next k lo hi : encloses k lo hi -> encloses (k + 1) (next_lo lo) (next_hi hi).
Proof.
  intros [Hpos Hlo Hhi]. pose proof (exp_pos (q k)) as Hek. pose proof exp_step as [Hs1 Hs2].
  assert (He : exp (q (k + 1)) = (exp (q k) * exp (1 / 4096))%R) by (rewrite <- exp_plus; f_equal; unfold q; rewrite plus_IZR; lra).
  set (E := (IZR scale * exp (q k))%R) in *.
  assert (HE : (0 < E)%R) by (apply Rmult_lt_0_compat; [apply IZR_lt; done|done]).
  assert (HE' : (IZR scale * exp (q (k + 1)) = E * exp (1 / 4096))%R) by (rewrite He; unfold E; ring).
  pose proof (shiftr_real lo 12 4096 ltac:(lia) eq_refl). pose proof (shiftr_real hi 12 4096 ltac:(lia) eq_refl).
  pose proof (shiftr_real hi 23 8388608 ltac:(lia) eq_refl).
  assert (Hu : (E * (1 + 1 / 4096) <= E * exp (1 / 4096) <= E * (1 + 1 / 4096 + 1 / 8388608))%R)
    by (split; apply Rmult_le_compat_l; lra).
  split.
  - unfold next_lo. pose proof (Z.shiftr_nonneg lo 12). lia.
  - rewrite HE'. unfold next_lo. rewrite plus_IZR. lra.
  - rewrite HE'. unfold next_hi. rewrite !plus_IZR. lra.
Qed.

(** ** The sweep *)
Fixpoint sweep (ok : Z -> Z -> Z -> bool) (n : nat) (k lo hi : Z) : bool :=
  match n with
  | O => true
  | S n => ok k lo hi && sweep ok n (k + 1) (next_lo lo) (next_hi hi)
  end.

Lemma sweep_spec ok n k lo hi m :
  sweep ok n k lo hi = true -> encloses k lo hi -> k <= m < k + Z.of_nat n ->
  exists lo' hi', encloses m lo' hi' /\ ok m lo' hi' = true.
Proof.
  revert k lo hi. induction n as [|n IH]; intros k lo hi; cbn [sweep]; intros H He Hm; [lia|].
  apply andb_true_iff in H as [H0 H]. destruct (decide (m = k)) as [->|]; [by exists lo, hi|].
  apply (IH _ _ _ H (encloses_next _ _ _ He)). lia.
Qed.

(** ** Comparison with the sigmoid *)
(** The result [y] is at most [c] / 4096 above or below the sigmoid of [k],
    and of [- k]. *)
Definition above (c y lo : Z) : bool := (y - c) * (scale + lo) <=? 4096 * lo.
Definition below (c y hi : Z) : bool := 4096 * hi <=? (y + c) * (scale + hi).
Definition above_neg (c y hi : Z) : bool := (y - c) * (scale + hi) <=? 4096 * scale.
Definition below_neg (c y lo : Z) : bool := 4096 * scale <=? (y + c) * (scale + lo).

Definition near (c y x : Z) : Prop := (Rabs (q y - sigma (q x)) <= IZR c / 4096)%R.

Lemma q_opp k : q (- k) = (- q k)%R.
Proof. unfold q. rewrite opp_IZR. lra. Qed.

(** With e = exp (k / 4096) the sigmoid of k is e / (1 + e), and that of - k
    is 1 / (1 + e). *)
Lemma sigma_pos k : (sigma (q k) = exp (q k) / (1 + exp (q k)))%R.
Proof. unfold sigma. rewrite exp_Ropp. pose proof (exp_pos (q k)). field. lra. Qed.
Lemma sigma_neg k : (sigma (q (- k)) = 1 / (1 + exp (q k)))%R.
Proof. unfold sigma. rewrite q_opp, Ropp_involutive. lra. Qed.

Lemma near_frac c y x num e :
  (0 < e -> sigma (q x) = num / (1 + e) -> (IZR y - IZR c) * (1 + e) <= 4096 * num ->
   4096 * num <= (IZR y + IZR c) * (1 + e) -> near c y x)%R.
Proof.
  intros He Hs Ha Hb. unfold near. set (s := sigma (q x)) in *.
  assert (Hn : (num = s * (1 + e))%R) by (rewrite Hs; field; lra). rewrite Hn, <- Rmult_assoc in Ha, Hb.
  apply Rmult_le_reg_r in Ha, Hb; [|lra..]. unfold q. apply Rabs_le. lra.
Qed.

Section Near.
Context (k lo hi : Z) (E : encloses k lo hi).
Let S : R := IZR scale.
Let e : R := exp (q k).

Local Lemma near_facts : (0 < e)%R /\ (0 < IZR lo)%R /\ (IZR lo <= S * e)%R /\ (S * e <= IZR hi)%R /\ (0 < S)%R.
Proof using E. destruct E. unfold S, e. split_and!; [apply exp_pos|by apply IZR_lt|done|done|by apply IZR_lt]. Qed.

(** The factor [scale] is common to both sides. *)
Local Lemma unscale (a b : R) : (S * a <= S * b -> a <= b)%R.
Proof using E. destruct near_facts as (_ & _ & _ & _ & HS). by apply Rmult_le_reg_l. Qed.

Lemma near_pos c y : 0 < c -> y - c <= 4096 -> above c y lo = true -> below c y hi = true -> near c y k.
Proof using E.
  unfold above, below. rewrite !Z.leb_le. intros Hc Hy Ha%IZR_le Hb%IZR_le.
  destruct near_facts as (He & Hlo & H1 & H2 & HS). rewrite !mult_IZR, ?minus_IZR, ?plus_IZR in *. fold S in Ha, Hb.
  apply IZR_le in Hy. rewrite minus_IZR in Hy. apply (near_frac c y k e e He (sigma_pos k)); apply unscale.
  - assert (0 <= (4096 - (IZR y - IZR c)) * (S * e - IZR lo))%R by (apply Rmult_le_pos; lra). lra.
  - destruct (Rle_lt_dec (IZR y + IZR c) 4096).
    + assert (0 <= (4096 - (IZR y + IZR c)) * (IZR hi - S * e))%R by (apply Rmult_le_pos; lra). lra.
    + assert (0 <= (IZR y + IZR c - 4096) * (S * e))%R by (apply Rmult_le_pos; lra).
      assert (0 <= (IZR y + IZR c) * S)%R by (apply Rmult_le_pos; lra). lra.
Qed.

Lemma near_neg c y : above_neg c y hi = true -> below_neg c y lo = true -> near c y (- k).
Proof using E.
  unfold above_neg, below_neg. rewrite !Z.leb_le. intros Ha%IZR_le Hb%IZR_le.
  destruct near_facts as (He & Hlo & H1 & H2 & HS). rewrite !mult_IZR, ?minus_IZR, ?plus_IZR in *. fold S in Ha, Hb.
  apply (near_frac c y (- k) 1 e He (sigma_neg k)); apply unscale.
  - destruct (Rle_lt_dec 0 (IZR y - IZR c)).
    + assert (0 <= (IZR y - IZR c) * (IZR hi - S * e))%R by (apply Rmult_le_pos; lra). lra.
    + assert (0 <= (IZR c - IZR y) * (S * (1 + e)))%R by (repeat apply Rmult_le_pos; lra). lra.
  - assert (Hp : (0 <= IZR y + IZR c)%R).
    { apply (Rmult_le_reg_r (S + IZR lo)); [lra|]. rewrite Rmult_0_l. lra. }
    assert (0 <= (IZR y + IZR c) * (S * e - IZR lo))%R by (apply Rmult_le_pos; lra). lra.
Qed.
End Near.

(** ** The two data paths *)
Definition azevedo_check (k lo hi : Z) : bool :=
  let y := azevedo_exact k in
  let z := azevedo_exact (- k) in
  above 29 y lo && below 29 y hi && above_neg 29 z hi && below_neg 29 z lo &&
  (-2 <=? y) && (y <=? 4097) && (-2 <=? z) && (z <=? 4097).

Lemma azevedo_sweep : sweep azevedo_check (Z.to_nat 32769) 0 scale scale = true.
Proof. vm_compute. reflexivity. Qed.

Lemma azevedo_checked k : 0 <= k <= 32768 -> exists lo hi, encloses k lo hi /\ azevedo_check k lo hi = true.
Proof. intros Hk. apply (sweep_spec _ _ _ _ _ k azevedo_sweep encloses_start). lia. Qed.

Lemma azevedo_bounds x :
  in16 x ->
  near 29 (Azevedo.sigmoid x) x /\ -2 <= Azevedo.sigmoid x <= 4097 /\
  (x <= -22282 -> Azevedo.sigmoid x = 0) /\ (22282 < x -> Azevedo.sigmoid x = 4096).
Proof.
  intros Hx. rewrite azevedo_no_overflow by done. destruct (azevedo_checked (Z.abs x)) as (lo & hi & E & Hc); [unfold in16 in Hx; lia|].
  unfold azevedo_check in Hc. bool_hyps. repeat match goal with H : (_ <=? _) = true |- _ => apply Z.leb_le in H end.
  assert (Hsat : (x <= -22282 -> azevedo_exact x = 0) /\ (22282 < x -> azevedo_exact x = 4096)).
  { unfold azevedo_exact. destruct (Z.leb_spec x (-22282)), (Z.leb_spec x (-13312)), (Z.leb_spec x 0), (Z.leb_spec x 13312),
      (Z.leb_spec x 22282); lia. }
  destruct (Z.abs_spec x) as [[Hsgn Ha]|[Hsgn Ha]]; rewrite Ha in *; rewrite ?Z.opp_involutive in *; (split; [|split; [lia|exact Hsat]]).
  - by apply (near_pos x lo hi E); [lia|lia|..].
  - rewrite <- (Z.opp_involutive x) at 2. by apply (near_neg (- x) lo hi E).
Qed.

(** C10: The piecewise quadratic data path approximates the sigmoid: for every 16-bit
    Q4.12 input the result differs from the real 1 / (1 + exp (-x)) by at most 29/4096,
    equals the formula evaluated in unbounded integers (no intermediate register
    overflows), is exactly 0 up to -22282 and exactly 1 from 22283 on, and lies between
    -2 and 4097 (units of 1/4096); both bounds are attained, at -22281 and 22282, so the
    result is slightly negative or above 1 next to the saturation points. *)
Theorem azevedo_accuracy x :
  in16 x ->
  near 29 (Azevedo.sigmoid x) x /\ -2 <= Azevedo.sigmoid x <= 4097 /\
  (x <= -22282 -> Azevedo.sigmoid x = 0) /\ (22282 < x -> Azevedo.sigmoid x = 4096) /\
  Azevedo.sigmoid x = azevedo_exact x /\ Azevedo.sigmoid (-22281) = -2 /\ Azevedo.sigmoid 22282 = 4097.
Proof.
  intros Hx. destruct (azevedo_bounds x Hx) as (H1 & H2 & H3 & H4). pose proof (azevedo_no_overflow x Hx).
  split; [exact H1|]. split; [exact H2|]. split; [exact H3|]. split; [exact H4|]. split; [done|]. split; by vm_compute.
Qed.

Lemma azevedo_accuracy_witness : near 29 (Azevedo.sigmoid (-13312)) (-13312).
Proof. apply (azevedo_accuracy (-13312)). done. Defined.

Definition vaisnav_check (k lo hi : Z) : bool := let y := vaisnav_exact k in above 78 y lo && below 78 y hi.

Lemma vaisnav_sweep : sweep vaisnav_check (Z.to_nat 32768) 0 scale scale = true.
Proof. vm_compute. reflexivity. Qed.

(** The sigmoid is symmetric about (0, 1/2). *)
Lemma near_mirror c y x : near c y x -> near c (4096 - y) (- x).
Proof.
  unfold near, q, sigma. rewrite minus_IZR, opp_IZR. replace (- (- IZR x / 4096))%R with (IZR x / 4096)%R by lra.
  rewrite exp_Ropp. pose proof (exp_pos (IZR x / 4096)) as He. intros H. rewrite <- Rabs_Ropp.
  replace (- ((4096 - IZR y) / 4096 - / (1 + exp (IZR x / 4096))))%R
    with (IZR y / 4096 - / (1 + / exp (IZR x / 4096)))%R; [done|]. field. lra.
Qed.

(** C11: The piecewise linear data path approximates the sigmoid within 78/4096, stays
    between 0 and 1 and satisfies f(x) + f(-x) = 1, for every input but the most
    negative one: for -8.0 the absolute value overflows and the result is 2.5. *)
Theorem vaisnav_accuracy x :
  in16 x ->
  (x <> -32768 -> near 78 (Vaisnav.sigmoide x) x /\ 0 <= Vaisnav.sigmoide x <= 4096 /\
    (x <> 0 -> Vaisnav.sigmoide x + Vaisnav.sigmoide (- x) = 4096)) /\
  (x = -32768 -> Vaisnav.sigmoide x = 10240).
Proof.
  intros Hx. split; [|by intros ->]. unfold in16 in Hx. intros Hne.
  destruct (sweep_spec _ _ _ _ _ (Z.abs x) vaisnav_sweep encloses_start) as (lo & hi & E & Hc); [lia|].
  unfold vaisnav_check in Hc. bool_hyps. pose proof (vaisnav_exact_range (Z.abs x) ltac:(lia)) as Hr.
  assert (Hn : near 78 (vaisnav_exact (Z.abs x)) (Z.abs x)) by (by apply (near_pos _ lo hi E); [lia|lia|..]).
  rewrite !vaisnav_no_overflow by lia. destruct (Z.leb_spec 0 x), (Z.leb_spec 0 (- x)); try lia.
  - split_and!; [by rewrite Z.abs_eq in Hn by lia|rewrite Z.abs_eq in Hr by lia; lia..].
  - rewrite Z.abs_eq in Hn, Hr by lia. split_and!; [done|lia|lia|]. intros _. rewrite Z.opp_involutive. lia.
  - rewrite Z.abs_neq in Hn, Hr by lia. split_and!; [|lia|lia|lia]. rewrite <- (Z.opp_involutive x) at 2. by apply near_mirror.
Qed.

Lemma vaisnav_accuracy_witness : near 78 (Vaisnav.sigmoide 4096) 4096 /\ Vaisnav.sigmoide (-32768) = 10240.
Proof.
  split; [apply (vaisnav_accuracy 4096); [done|lia]|]. apply (vaisnav_accuracy (-32768)); [done|lia].
Defined.
