(* ===== verification/SigmoidTop.v ===== *)
(** * SigmoidTop: the AXI4-Lite wrapper of the sigmoid cores

    Models [16 bit Azevedo/sigmoid_top.v]; [fast_Vaisnav16/sigmoid_top.v] is
    the same but for the core it instantiates.  One [edge] is one rising edge
    of the clock: the four clocked blocks (write channel, read channel,
    processing state machine and core) read the values before the edge.

    What the state machine sees of the core's output is a parameter.  With
    [transparent = false] the output is a register that is loaded at the same
    edge, as the clocked block of [sigmoid.v] describes.  With [transparent =
    true] the output already follows the input of the core, as with a latch
    that is open while the clock is high (what [if ck = '1'] of
    [sigmoid.vhdl] describes). *)
From stdpp Require Import prelude.
From S2P Require Import Prelude Sigmoid.
Open Scope Z_scope.

Definition ADDR_X : Z := 0.
Definition ADDR_Y : Z := 4.
Definition ADDR_CTRL : Z := 8.
Definition ADDR_STATUS : Z := 12.

(** The inputs of the module at an edge. *)
Record bus_in := mkBus {
  rst_n : bool;
  awaddr : Z;
  awvalid : bool;
  wdata : Z;
  wstrb : Z;
  wvalid : bool;
  bready : bool;
  araddr : Z;
  arvalid : bool;
  rready : bool
}.

Record write_regs := mkWrite {
  aw_ready : bool;
  w_ready : bool;
  b_resp : Z;
  b_valid : bool;
  x_reg : Z;
  start_reg : bool
}.

Record read_regs := mkRead {
  ar_ready : bool;
  r_resp : Z;
  r_data : Z;
  r_valid : bool
}.

Inductive fsm_state := S_IDLE | S_LOAD | S_WAIT | S_STORE.

Record fsm_regs := mkFsm {
  state : fsm_state;
  busy : bool;
  done_reg : bool;
  sigmoid_x : Z;
  y_reg : Z
}.

Record sigmoid_top := mkTop {
  t_write : write_regs;
  t_read : read_regs;
  t_fsm : fsm_regs;
  t_core : Z
}.

Section Top.
Variable core : Z -> Z.
Variable transparent : bool.

Definition write_block (i : bus_in) (w : write_regs) : write_regs :=
  if negb (rst_n i) then mkWrite false false 0 false 0 false
  else
    let accept := awvalid i && wvalid i && negb (b_valid w) in
    mkWrite accept accept (if accept then 0 else b_resp w)
      (if b_valid w && bready i then false else if accept then true else b_valid w)
      (if accept && (awaddr i =? ADDR_X) && Z.testbit (wstrb i) 0 then i16 (wdata i) else x_reg w)
      (accept && (awaddr i =? ADDR_CTRL) && Z.testbit (wdata i) 0).

(** [{16'd0, x}] of a signed register. *)
Definition zero_extend (x : Z) : Z := x mod 65536.

Definition read_mux (a : Z) (w : write_regs) (f : fsm_regs) : Z :=
  if a =? ADDR_X then zero_extend (x_reg w)
  else if a =? ADDR_Y then zero_extend (y_reg f)
  else if a =? ADDR_CTRL then Z.b2z (start_reg w)
  else if a =? ADDR_STATUS then 2 * Z.b2z (done_reg f) + Z.b2z (busy f)
  else 0.

Definition read_block (i : bus_in) (w : write_regs) (f : fsm_regs) (r : read_regs) : read_regs :=
  if negb (rst_n i) then mkRead false 0 0 false
  else
    let accept := arvalid i && negb (r_valid r) in
    mkRead accept (if accept then 0 else r_resp r) (if accept then read_mux (araddr i) w f else r_data r)
      (if r_valid r && rready i then false else if accept then true else r_valid r).

Definition fsm_block (i : bus_in) (w : write_regs) (sigmoid_y : Z) (f : fsm_regs) : fsm_regs :=
  if negb (rst_n i) then mkFsm S_IDLE false false 0 0
  else
    match state f with
    | S_IDLE =>
        if start_reg w && negb (busy f) then mkFsm S_LOAD true false (sigmoid_x f) (y_reg f)
        else mkFsm S_IDLE (busy f) false (sigmoid_x f) (y_reg f)
    | S_LOAD => mkFsm S_WAIT (busy f) (done_reg f) (x_reg w) (y_reg f)
    | S_WAIT => mkFsm S_STORE (busy f) (done_reg f) (sigmoid_x f) sigmoid_y
    | S_STORE => mkFsm S_IDLE false true (sigmoid_x f) (y_reg f)
    end.

Definition edge (i : bus_in) (s : sigmoid_top) : sigmoid_top :=
  let core_out := core (sigmoid_x (t_fsm s)) in
  let sigmoid_y := if transparent then core_out else t_core s in
  mkTop (write_block i (t_write s)) (read_block i (t_write s) (t_fsm s) (t_read s))
    (fsm_block i (t_write s) sigmoid_y (t_fsm s)) core_out.

(** ** Bus accesses *)
(** A master holds its valid signals until it sees ready, one edge after the
    access was taken, and accepts the response in the same cycle. *)
Definition idle_in : bus_in := mkBus true 0 false 0 0 false true 0 false true.
Definition write_in (a d : Z) : bus_in := mkBus true a true d 15 true true 0 false true.
Definition read_in (a : Z) : bus_in := mkBus true 0 false 0 0 false true a true true.

Definition idle (n : nat) (s : sigmoid_top) : sigmoid_top := Nat.iter n (edge idle_in) s.
Definition bus_write (a d : Z) (s : sigmoid_top) : sigmoid_top := edge (write_in a d) (edge (write_in a d) s).
Definition bus_read (a : Z) (s : sigmoid_top) : Z * sigmoid_top :=
  let s1 := edge (read_in a) s in (r_data (t_read s1), edge (read_in a) s1).

(** ** The benchmark loop *)
(** One round of [sigmoid_bench_ddr.c]: write X, write the start bit, read Y;
    the processor lets some cycles pass between the accesses. *)
Definition bench_point (p : Z * nat * nat) (s : sigmoid_top) : Z * sigmoid_top :=
  let '(x, gap1, gap2) := p in
  let s := idle gap1 (bus_write ADDR_X (x mod 65536) s) in
  let s := idle gap2 (bus_write ADDR_CTRL 1 s) in
  let '(y, s) := bus_read ADDR_Y s in
  (i16 y, s).

Fixpoint bench_loop (ps : list (Z * nat * nat)) (s : sigmoid_top) : list Z * sigmoid_top :=
  match ps with
  | [] => ([], s)
  | p :: ps =>
      let '(y, s) := bench_point p s in
      let '(ys, s) := bench_loop ps s in
      (y :: ys, s)
  end.

(** ** Rest states *)
(** No access and no computation under way. *)
Record resting (s : sigmoid_top) : Prop := mkResting {
  rs_bvalid : b_valid (t_write s) = false;
  rs_start : start_reg (t_write s) = false;
  rs_rvalid : r_valid (t_read s) = false;
  rs_state : state (t_fsm s) = S_IDLE;
  rs_busy : busy (t_fsm s) = false
}.

Lemma idle_S n s : idle (S n) s = edge idle_in (idle n s).
Proof. done. Qed.
Lemma idle_front n s : idle (S n) s = idle n (edge idle_in s).
Proof. unfold idle. by rewrite Nat.iter_succ_r. Qed.

(** [destruct] the registers of a resting state. *)
Ltac open_rest s H :=
  destruct s as [[awr wr br bv x st] [arr rr rd rv] [fs bu dn sx y] c]; destruct H as [H1 H2 H3 H4 H5]; cbn in H1, H2, H3, H4, H5; subst.

Lemma idle_rests n s : resting s ->
  resting (idle n s) /\ x_reg (t_write (idle n s)) = x_reg (t_write s) /\
  sigmoid_x (t_fsm (idle n s)) = sigmoid_x (t_fsm s) /\ y_reg (t_fsm (idle n s)) = y_reg (t_fsm s).
Proof.
  intros Hs. induction n as [|n (Hr & Hx & Hsx & Hy)]; [done|]. rewrite idle_S. revert Hr Hx Hsx Hy.
  generalize (idle n s). intros s' Hr Hx Hsx Hy. rewrite <- Hx, <- Hsx, <- Hy. clear Hs Hx Hsx Hy.
  open_rest s' Hr. done.
Qed.

Lemma write_x_rests d s : resting s -> let s1 := bus_write ADDR_X d s in
  resting s1 /\ x_reg (t_write s1) = i16 d /\ sigmoid_x (t_fsm s1) = sigmoid_x (t_fsm s).
Proof. intros Hs. open_rest s Hs. done. Qed.

Lemma read_rests s : resting s -> let r := bus_read ADDR_Y s in
  r.1 = zero_extend (y_reg (t_fsm s)) /\ resting r.2 /\ sigmoid_x (t_fsm r.2) = sigmoid_x (t_fsm s).
Proof. intros Hs. open_rest s Hs. done. Qed.

(** What the state machine stores for a start. *)
Definition result_of (s : sigmoid_top) : Z :=
  if transparent then core (x_reg (t_write s)) else core (sigmoid_x (t_fsm s)).

(** After a start the computation takes three edges: load, wait, store. *)
Lemma start_stores s : resting s -> let s1 := idle 3 (bus_write ADDR_CTRL 1 s) in
  resting s1 /\ sigmoid_x (t_fsm s1) = x_reg (t_write s) /\ y_reg (t_fsm s1) = result_of s.
Proof. intros Hs. open_rest s Hs. done. Qed.

Lemma start_read n s : resting s -> (2 <= n)%nat -> let r := bus_read ADDR_Y (idle n (bus_write ADDR_CTRL 1 s)) in
  r.1 = zero_extend (result_of s) /\ resting r.2 /\ sigmoid_x (t_fsm r.2) = x_reg (t_write s).
Proof.
  intros Hs Hn. destruct n as [|[|[|n]]]; [lia|lia| |].
  - open_rest s Hs. done.
  - destruct (start_stores s Hs) as (Hr & Hx & Hy). cbv zeta.
    replace (idle (S (S (S n))) (bus_write ADDR_CTRL 1 s)) with (idle n (idle 3 (bus_write ADDR_CTRL 1 s))).
    2: { rewrite !(idle_front (S _)), !idle_front. done. }
    destruct (idle_rests n _ Hr) as (Hr' & _ & Hx' & Hy'). destruct (read_rests _ Hr') as (H1 & H2 & H3).
    split_and!; [by rewrite H1, Hy', Hy|done|by rewrite H3, Hx', Hx].
Qed.

Hypothesis core16 : forall x, in16 (core x).

Lemma i16_extend y : in16 y -> i16 (zero_extend y) = y.
Proof. intros Hy. unfold i16, zero_extend, swrap. change 65536 with (2 ^ 16). rewrite Zplus_mod_idemp_l. by apply (i16_id y). Qed.

Lemma bench_point_ok x gap1 gap2 s : resting s -> in16 x -> (2 <= gap2)%nat ->
  let r := bench_point (x, gap1, gap2) s in
  r.1 = (if transparent then core x else core (sigmoid_x (t_fsm s))) /\ resting r.2 /\ sigmoid_x (t_fsm r.2) = x.
Proof using core16.
  intros Hs Hx Hg. cbv zeta. unfold bench_point. destruct (write_x_rests (x mod 65536) s Hs) as (H1 & Hx1 & Hs1).
  destruct (idle_rests gap1 _ H1) as (H2 & Hx2 & Hs2 & _). destruct (start_read gap2 _ H2 Hg) as (Hy & H3 & Hs3).
  destruct (bus_read _ _) as [y s'] eqn:Hr. cbn [fst snd] in *. unfold result_of in Hy.
  rewrite Hx2, Hx1, Hs2, Hs1 in *. fold (zero_extend x) in *. rewrite i16_extend in * by done. rewrite Hy.
  split_and!; [apply i16_extend; by destruct transparent|done|done].
Qed.

(** The inputs whose results a loop reads, one late for a registered core. *)
Definition computed_inputs (x0 : Z) (xs : list Z) : list Z :=
  if transparent then xs else take (length xs) (x0 :: xs).

Lemma bench_loop_ok ps : forall s, resting s -> Forall (fun p => in16 p.1.1 /\ (2 <= p.2)%nat) ps ->
  (bench_loop ps s).1 = map core (computed_inputs (sigmoid_x (t_fsm s)) (map (fun p => p.1.1) ps)) /\ resting (bench_loop ps s).2.
Proof using core16.
  induction ps as [|[[x g1] g2] ps IH]; intros s Hs Hps; [unfold computed_inputs; by destruct transparent|].
  apply Forall_cons in Hps as [[Hx Hg] Hps]. cbn [bench_loop]. destruct (bench_point_ok x g1 g2 s Hs Hx Hg) as (Hy & Hr & Hsx).
  destruct (bench_point _ s) as [y s']. cbn [fst snd] in *. destruct (IH s' Hr Hps) as [Hys Hr'].
  destruct (bench_loop ps s') as [ys s'']. cbn [fst snd] in *. split; [|done]. rewrite Hys, Hsx, Hy. unfold computed_inputs.
  by destruct transparent.
Qed.

(** The reset state, one edge with reset active. *)
Definition reset_in : bus_in := mkBus false 0 false 0 0 false false 0 false false.

Lemma reset_rests s : resting (edge reset_in s) /\ sigmoid_x (t_fsm (edge reset_in s)) = 0.
Proof. done. Qed.

(** The done flag is up for one cycle, three edges after the access. *)
Lemma done_pulse s n : resting s -> done_reg (t_fsm (idle n (bus_write ADDR_CTRL 1 s))) = (n =? 3)%nat.
Proof.
  intros Hs. destruct n as [|[|[|[|n]]]]; try by (open_rest s Hs).
  destruct (start_stores s Hs) as (Hr & _). cbn [Nat.eqb].
  replace (idle (S (S (S (S n)))) (bus_write ADDR_CTRL 1 s)) with (edge idle_in (idle n (idle 3 (bus_write ADDR_CTRL 1 s)))).
  2: { rewrite <- idle_S, !(idle_front (S _)), !idle_front. done. }
  destruct (idle_rests n _ Hr) as (Hr' & _). revert Hr'. generalize (idle n (idle 3 (bus_write ADDR_CTRL 1 s))).
  intros s' Hr'. open_rest s' Hr'. done.
Qed.
End Top.

(** C12: What software reads from the sigmoid wrapper after reset, for any number of
    points and any waiting times of at least two idle cycles between start and read:
    with a core whose output is transparent, the result of each point; with a registered
    core, as sigmoid.v describes, the result of the point before it, because the state
    machine samples one cycle early. The done flag is up for exactly one cycle after
    each start. *)
Theorem sigmoid_top_results (core : Z -> Z) (transparent : bool) s ps :
  (forall x, in16 (core x)) -> Forall (fun p => in16 p.1.1 /\ (2 <= p.2)%nat) ps ->
  let s0 := edge core transparent reset_in s in
  let xs := map (fun p => p.1.1) ps in
  (bench_loop core transparent ps s0).1 = map core (if transparent then xs else take (length xs) (0 :: xs)) /\
  (forall n s1, resting s1 -> done_reg (t_fsm (idle core transparent n (bus_write core transparent ADDR_CTRL 1 s1))) = (n =? 3)%nat) /\
  resting (bench_loop core transparent ps s0).2.
Proof.
  intros Hc Hps. destruct (reset_rests core transparent s) as [Hr H0].
  destruct (bench_loop_ok core transparent Hc ps _ Hr Hps) as [Hys Hr']. split_and!; [by rewrite Hys, H0| |done].
  intros n s1. apply done_pulse.
Qed.

(** Two points on the wrapper of [sigmoid.v]: the second result belongs to
    the first input, the first to the input after reset. *)
Definition unknown_top : sigmoid_top := mkTop (mkWrite true false 1 true 77 true) (mkRead true 2 5 true) (mkFsm S_WAIT true true 9 9) 3.

Lemma azevedo_16 x : in16 (i16 (Azevedo.sigmoid x)).
Proof. unfold in16, i16, swrap. pose proof (Z.mod_pos_bound (Azevedo.sigmoid x + 2 ^ (16 - 1)) (2 ^ 16) ltac:(lia)). lia. Qed.

Lemma sigmoid_top_results_witness :
  (bench_loop (fun x => i16 (Azevedo.sigmoid x)) false [(8192, 5%nat, 7%nat); (-8192, 0%nat, 2%nat)]
     (edge (fun x => i16 (Azevedo.sigmoid x)) false reset_in unknown_top)).1 = [2057; 3611].
Proof.
  refine (proj1 (sigmoid_top_results (fun x => i16 (Azevedo.sigmoid x)) false unknown_top [(8192, 5%nat, 7%nat); (-8192, 0%nat, 2%nat)] azevedo_16 _)).
  rewrite !Forall_cons, Forall_nil. cbn. unfold in16. lia.
Defined.
