(* ===== verification/TruncAdder.v ===== *)
(** * TruncAdder: the truncated adder and its AXI4-Lite wrapper

    Models [truncated_adder/full_adder_1bit.v],
    [AdderIMPACTZeroApproxOneBit.v], [ADD_APPROX.v] and
    [truncated_adder_top.v].  A vector of wires is a list of bits, the least
    significant first; the generate loop is a recursion along the carry
    chain. *)
From stdpp Require Import prelude.
From S2P Require Import Prelude Sigmoid SigmoidTop.
Open Scope Z_scope.

(** ** Cells *)
Definition AdderIMPACTZeroApproxOneBit (a b cin : bool) : bool * bool := (false, false).
Definition full_adder_1bit (a b cin : bool) : bool * bool :=
  (xorb (xorb a b) cin, (a && b) || (b && cin) || (a && cin)).

(** ** ADD_APPROX *)
(** The stages from position [i] on; [carry] is [carry[i]]. *)
Fixpoint adder_stages (approx_bits i : nat) (a b : list bool) (carry : bool) : list bool * bool :=
  match a, b with
  | x :: a, y :: b =>
      let '(s, c) :=
        if (i <? approx_bits)%nat then AdderIMPACTZeroApproxOneBit x y carry else full_adder_1bit x y carry in
      let '(sum, cout) := adder_stages approx_bits (S i) a b c in
      (s :: sum, cout)
  | _, _ => ([], carry)
  end.
Definition ADD_APPROX (approx_bits : nat) (a b : list bool) (cin : bool) : list bool * bool :=
  adder_stages approx_bits 0 a b cin.

(** ** Numbers *)
Fixpoint value (l : list bool) : Z :=
  match l with
  | [] => 0
  | b :: l => Z.b2z b + 2 * value l
  end.
Fixpoint bits (m : nat) (x : Z) : list bool :=
  match m with
  | O => []
  | S m => Z.odd x :: bits m (Z.div2 x)
  end.

Lemma value_bits m x : value (bits m x) = x mod 2 ^ Z.of_nat m.
Proof.
  revert x. induction m as [|m IH]; intros x; cbn [bits value]; [by rewrite Z.mod_1_r|].
  rewrite IH, Nat2Z.inj_succ, Z.pow_succ_r, Z.rem_mul_r by lia. rewrite Zmod_odd, Z.div2_div. by destruct (Z.odd x).
Qed.
Lemma length_bits m x : length (bits m x) = m.
Proof. revert x. induction m as [|m IH]; intros x; cbn; [done|]. by rewrite IH. Qed.

Lemma value_range l : 0 <= value l < 2 ^ Z.of_nat (length l).
Proof.
  induction l as [|b l IH]; cbn [value length]; [done|]. rewrite Nat2Z.inj_succ, Z.pow_succ_r by lia. destruct b; cbn; lia.
Qed.

(** The accurate stages are a ripple-carry adder. *)
Lemma accurate_stages n i a b c : (n <= i)%nat -> length a = length b ->
  let r := adder_stages n i a b c in
  value r.1 + 2 ^ Z.of_nat (length a) * Z.b2z r.2 = value a + value b + Z.b2z c /\ length r.1 = length a.
Proof.
  revert i b c. induction a as [|x a IH]; intros i [|y b] c Hi Hl; try done.
  - cbn. lia.
  - cbn [adder_stages]. destruct (Nat.ltb_spec i n); [lia|]. cbn [length] in Hl.
    specialize (IH (S i) b ((x && y) || (y && c) || (x && c)) ltac:(lia) ltac:(lia)). cbn [full_adder_1bit].
    destruct (adder_stages n (S i) a b _) as [sum cout]. cbn [fst snd value length] in *. destruct IH as [IH ->]. split; [|done].
    rewrite Nat2Z.inj_succ, Z.pow_succ_r by lia. destruct x, y, c; cbn [Z.b2z xorb andb orb] in *; lia.
Qed.

(** The approximate stages clear their bits and hand on no carry. *)
Lemma approx_stages n i a b c : (i <= n <= i + length a)%nat -> length a = length b ->
  let k := Z.of_nat (n - i) in
  let r := adder_stages n i a b c in
  value r.1 + 2 ^ Z.of_nat (length a) * Z.b2z r.2 =
    2 ^ k * (value a / 2 ^ k + value b / 2 ^ k) + (if (i <? n)%nat then 0 else Z.b2z c) /\ length r.1 = length a.
Proof.
  revert i b c. induction a as [|x a IH]; intros i b c Hi Hl; cbv zeta; destruct (Nat.ltb_spec i n) as [Hlt|Hge].
  - cbn in Hi. lia.
  - replace (n - i)%nat with 0%nat by lia. change (2 ^ Z.of_nat 0) with 1. rewrite !Z.div_1_r.
    destruct (accurate_stages n i [] b c ltac:(lia) Hl) as [H1 H2]. rewrite H1. split; [lia|done].
  - destruct b as [|y b]; [done|]. cbn [length] in *.
    specialize (IH (S i) b false ltac:(lia) ltac:(lia)). cbn [adder_stages]. destruct (Nat.ltb_spec i n); [|lia].
    unfold AdderIMPACTZeroApproxOneBit. cbv zeta in IH. destruct (adder_stages n (S i) a b false) as [sum cout].
    cbn [fst snd value length] in *. destruct IH as [IH ->]. split; [|done].
    replace (n - i)%nat with (S (n - S i)) by lia. rewrite !Nat2Z.inj_succ, !Z.pow_succ_r by lia.
    set (p := 2 ^ Z.of_nat (n - S i)) in *. assert (0 < p) by (apply Z.pow_pos_nonneg; lia).
    assert (Hd : forall (u : bool) l, (Z.b2z u + 2 * value l) / (2 * p) = value l / p).
    { intros u l. rewrite <- Z.div_div by lia. f_equal. rewrite Z.mul_comm, Z.div_add by lia. by destruct u. }
    rewrite !Hd. cbn [Z.b2z]. destruct (S i <? n)%nat; cbn [Z.b2z] in IH; lia.
  - replace (n - i)%nat with 0%nat by lia. change (2 ^ Z.of_nat 0) with 1. rewrite !Z.div_1_r.
    destruct (accurate_stages n i (x :: a) b c ltac:(lia) Hl) as [H1 H2]. rewrite H1. split; [lia|done].
Qed.

(** The carry chain of ADD_APPROX equals its arithmetic definition for every width
    and number of approximate bits n: sum and carry are 2^n times the sum of the
    truncated operands (the full sum when n = 0), so the error lies between 0 and
    2^(n+1) - 1. *)
Theorem truncated_adder_exact n a b cin :
  (n <= length a)%nat -> length a = length b ->
  let r := ADD_APPROX n a b cin in
  let total := value r.1 + 2 ^ Z.of_nat (length a) * Z.b2z r.2 in
  let p := 2 ^ Z.of_nat n in
  total = p * (value a / p + value b / p) + (if (n =? 0)%nat then Z.b2z cin else 0) /\
  0 <= value a + value b + Z.b2z cin - total <= (if (n =? 0)%nat then 0 else 2 * p - 1).
Proof.
  intros Hn Hl. cbv zeta. destruct (approx_stages n 0 a b cin ltac:(lia) Hl) as [Ht Hlen]. cbv zeta in Ht.
  rewrite Nat.sub_0_r in Ht. unfold ADD_APPROX. set (p := 2 ^ Z.of_nat n) in *. assert (Hp : 0 < p) by (apply Z.pow_pos_nonneg; lia).
  assert (Hz : (if (0 <? n)%nat then 0 else Z.b2z cin) = if (n =? 0)%nat then Z.b2z cin else 0) by (by destruct n).
  rewrite Hz in Ht. split; [exact Ht|]. rewrite Ht.
  pose proof (Z.div_mod (value a) p). pose proof (Z.div_mod (value b) p).
  pose proof (Z.mod_pos_bound (value a) p Hp). pose proof (Z.mod_pos_bound (value b) p Hp).
  destruct (Nat.eqb_spec n 0) as [-> |]; [|destruct cin; cbn [Z.b2z]; lia].
  subst p. change (2 ^ Z.of_nat 0) with 1 in *. rewrite !Z.div_1_r. lia.
Qed.

Lemma truncated_adder_exact_witness :
  value (ADD_APPROX 4 (bits 16 1000) (bits 16 2007) false).1 + 2 ^ 16 * Z.b2z (ADD_APPROX 4 (bits 16 1000) (bits 16 2007) false).2 = 2992.
Proof.
  refine (proj1 (truncated_adder_exact 4 (bits 16 1000) (bits 16 2007) false _ _)); cbn; lia.
Defined.

(** ** The AXI4-Lite wrapper of the truncated adder

    Models [truncated_adder/truncated_adder_top.v] with its default widths:
    the write handshake and registers, the state machine and the read
    channel, one function per clocked block. *)
Record adder_write := mkAdderWrite {
  s_axi_awready : bool;
  s_axi_wready : bool;
  s_axi_bvalid : bool;
  s_axi_bresp : Z;
  reg_a : Z;
  reg_b : Z;
  reg_ctrl_start : bool
}.

Inductive adder_state := STATE_IDLE | STATE_CALC | STATE_DONE.

Record adder_fsm := mkAdderFsm {
  a_state : adder_state;
  reg_status_busy : bool;
  reg_status_done : bool;
  reg_sum : Z
}.

Record adder_read := mkAdderRead {
  s_axi_arready : bool;
  s_axi_rvalid : bool;
  s_axi_rresp : Z;
  s_axi_rdata : Z
}.

Record adder_top := mkAdderTop {
  at_write : adder_write;
  at_fsm : adder_fsm;
  at_read : adder_read
}.

Definition DATA_WIDTH : nat := 16.
Definition APPROX_BITS : nat := 4.

(** The combinational core: [wire_sum]. *)
Definition wire_sum (a b : Z) : Z := value (ADD_APPROX APPROX_BITS (bits DATA_WIDTH a) (bits DATA_WIDTH b) false).1.

Lemma wire_sum_value a b : wire_sum a b = (16 * (a mod 65536 / 16 + b mod 65536 / 16)) mod 65536.
Proof.
  unfold wire_sum, ADD_APPROX, APPROX_BITS, DATA_WIDTH.
  destruct (approx_stages 4 0 (bits 16 a) (bits 16 b) false) as [Ht Hl]; [rewrite length_bits; lia|by rewrite !length_bits|].
  pose proof (value_range (adder_stages 4 0 (bits 16 a) (bits 16 b) false).1) as Hr. cbv zeta in Ht.
  rewrite Hl, length_bits in *. rewrite !value_bits in Ht. change (Z.of_nat (4 - 0)) with 4 in Ht. change (Z.of_nat 16) with 16 in *.
  change (2 ^ 4) with 16 in Ht. change (2 ^ 16) with 65536 in *. cbn [Nat.ltb Nat.leb] in Ht.
  rewrite <- (Z.mod_small _ 65536 Hr). rewrite Z.add_0_r in Ht. rewrite <- Ht, Z.mul_comm, Z.mod_add by lia. done.
Qed.

#[local] Opaque wire_sum.

(** [s_axi_awaddr[4:2]]. *)
Definition word_addr (a : Z) : Z := Z.land (Z.shiftr a 2) 7.

Definition adder_write_block (i : bus_in) (w : adder_write) : adder_write :=
  if negb (rst_n i) then mkAdderWrite false false false 0 0 0 false
  else
    let ready := negb (s_axi_awready w) && awvalid i && wvalid i in
    let exec := s_axi_awready w && awvalid i && s_axi_wready w && wvalid i in
    let sel := word_addr (awaddr i) in
    mkAdderWrite ready ready
      (if exec then true else if s_axi_bvalid w && bready i then false else s_axi_bvalid w)
      (if exec then 0 else s_axi_bresp w)
      (if exec && (sel =? 0) then wdata i mod 65536 else reg_a w)
      (if exec && (sel =? 1) then wdata i mod 65536 else reg_b w)
      (if exec && (sel =? 2) then Z.testbit (wdata i) 0 else reg_ctrl_start w).

Definition adder_fsm_block (i : bus_in) (w : adder_write) (f : adder_fsm) : adder_fsm :=
  if negb (rst_n i) then mkAdderFsm STATE_IDLE false false 0
  else
    match a_state f with
    | STATE_IDLE =>
        if reg_ctrl_start w then mkAdderFsm STATE_CALC true false (reg_sum f)
        else mkAdderFsm STATE_IDLE (reg_status_busy f) false (reg_sum f)
    | STATE_CALC => mkAdderFsm STATE_DONE false true (wire_sum (reg_a w) (reg_b w))
    | STATE_DONE => mkAdderFsm STATE_IDLE (reg_status_busy f) (reg_status_done f) (reg_sum f)
    end.

Definition adder_read_mux (sel : Z) (w : adder_write) (f : adder_fsm) : Z :=
  if sel =? 0 then reg_a w
  else if sel =? 1 then reg_b w
  else if sel =? 2 then Z.b2z (reg_ctrl_start w)
  else if sel =? 3 then 2 * Z.b2z (reg_status_done f) + Z.b2z (reg_status_busy f)
  else if sel =? 4 then reg_sum f
  else 0.

Definition adder_read_block (i : bus_in) (w : adder_write) (f : adder_fsm) (r : adder_read) : adder_read :=
  if negb (rst_n i) then mkAdderRead false false 0 0
  else
    let take := s_axi_arready r && arvalid i && negb (s_axi_rvalid r) in
    mkAdderRead (negb (s_axi_arready r) && arvalid i)
      (if take then true else if s_axi_rvalid r && rready i then false else s_axi_rvalid r)
      (if take then 0 else s_axi_rresp r)
      (if take then adder_read_mux (word_addr (araddr i)) w f else s_axi_rdata r).

Definition adder_edge (i : bus_in) (s : adder_top) : adder_top :=
  mkAdderTop (adder_write_block i (at_write s)) (adder_fsm_block i (at_write s) (at_fsm s))
    (adder_read_block i (at_write s) (at_fsm s) (at_read s)).

(** ** Bus accesses *)
(** Ready is raised at the first edge, the access takes place at the second,
    its response is taken at the third. *)
Definition adder_idle (n : nat) (s : adder_top) : adder_top := Nat.iter n (adder_edge idle_in) s.
Definition adder_bus_write (a d : Z) (s : adder_top) : adder_top :=
  adder_edge idle_in (adder_edge (write_in a d) (adder_edge (write_in a d) s)).
Definition adder_bus_read (a : Z) (s : adder_top) : Z * adder_top :=
  let s2 := adder_edge (read_in a) (adder_edge (read_in a) s) in
  (s_axi_rdata (at_read s2), adder_edge idle_in s2).

Definition A_REG : Z := 0.
Definition B_REG : Z := 4.
Definition CTRL_REG : Z := 8.
Definition SUM_REG : Z := 16.

(** No access under way; the state machine may be anywhere. *)
Record bus_rests (s : adder_top) : Prop := mkBusRests {
  br_aw : s_axi_awready (at_write s) = false;
  br_w : s_axi_wready (at_write s) = false;
  br_b : s_axi_bvalid (at_write s) = false;
  br_ar : s_axi_arready (at_read s) = false;
  br_r : s_axi_rvalid (at_read s) = false
}.

Ltac open_bus s H :=
  destruct s as [[aw wr bv bp a b st] [fs bu dn sm] [ar rv rp rd]]; destruct H as [H1 H2 H3 H4 H5];
  cbn in H1, H2, H3, H4, H5; subst.

Lemma adder_idle_S n s : adder_idle (S n) s = adder_edge idle_in (adder_idle n s).
Proof. done. Qed.

(** The registers the bus writes. *)
Definition operands (s : adder_top) : Z * Z * bool := (reg_a (at_write s), reg_b (at_write s), reg_ctrl_start (at_write s)).

Lemma idle_bus n s : bus_rests s -> bus_rests (adder_idle n s) /\ operands (adder_idle n s) = operands s.
Proof.
  intros Hs. induction n as [|n [Hr Ho]]; [done|]. rewrite adder_idle_S, <- Ho. clear Ho. revert Hr.
  generalize (adder_idle n s). intros s' Hr. open_bus s' Hr. done.
Qed.

Lemma write_bus s d : bus_rests s ->
  (bus_rests (adder_bus_write A_REG d s) /\ operands (adder_bus_write A_REG d s) = (d mod 65536, (operands s).1.2, (operands s).2)) /\
  (bus_rests (adder_bus_write B_REG d s) /\ operands (adder_bus_write B_REG d s) = ((operands s).1.1, d mod 65536, (operands s).2)) /\
  (bus_rests (adder_bus_write CTRL_REG d s) /\ operands (adder_bus_write CTRL_REG d s) = ((operands s).1, Z.testbit d 0)).
Proof. intros Hs. open_bus s Hs. done. Qed.

Lemma read_bus s : bus_rests s -> reg_sum (at_fsm s) = wire_sum (reg_a (at_write s)) (reg_b (at_write s)) ->
  (adder_bus_read SUM_REG s).1 = reg_sum (at_fsm s) /\
  bus_rests (adder_bus_read SUM_REG s).2 /\ operands (adder_bus_read SUM_REG s).2 = operands s.
Proof. intros Hs Hsum. open_bus s Hs. cbn in Hsum. subst. by destruct fs, st. Qed.

(** While the start bit stays set the sum is recomputed every three cycles:
    it is right three edges after the operands were last written, and from
    then on. *)
Lemma sum_settles s : bus_rests s -> reg_ctrl_start (at_write s) = true ->
  reg_sum (at_fsm (adder_idle 3 s)) = wire_sum (reg_a (at_write s)) (reg_b (at_write s)).
Proof. intros Hs Hst. open_bus s Hs. cbn in Hst. subst. by destruct fs. Qed.

Lemma sum_stays s : bus_rests s -> reg_sum (at_fsm s) = wire_sum (reg_a (at_write s)) (reg_b (at_write s)) ->
  reg_sum (at_fsm (adder_edge idle_in s)) = wire_sum (reg_a (at_write s)) (reg_b (at_write s)).
Proof. intros Hs Hsum. open_bus s Hs. cbn in Hsum. subst. by destruct fs, st. Qed.

Lemma sum_after n s : bus_rests s -> reg_ctrl_start (at_write s) = true -> (3 <= n)%nat ->
  reg_sum (at_fsm (adder_idle n s)) = wire_sum (reg_a (at_write s)) (reg_b (at_write s)).
Proof.
  intros Hs Hst Hn. induction Hn as [|n Hn IH]; [by apply sum_settles|]. rewrite adder_idle_S.
  destruct (idle_bus n s Hs) as [Hr Ho]. injection Ho as Ha Hb _. rewrite <- Ha, <- Hb in IH |- *. by apply sum_stays.
Qed.

(** With the operands in place and the start bit set. *)
Lemma started_sum s a b n :
  bus_rests s -> operands s = (a mod 65536, b mod 65536, true) -> (3 <= n)%nat ->
  (adder_bus_read SUM_REG (adder_idle n s)).1 = (16 * (a mod 65536 / 16 + b mod 65536 / 16)) mod 65536 /\
  bus_rests (adder_bus_read SUM_REG (adder_idle n s)).2 /\
  operands (adder_bus_read SUM_REG (adder_idle n s)).2 = (a mod 65536, b mod 65536, true).
Proof.
  intros Hs O Hn. injection O as Ha Hb Hst.
  pose proof (sum_after n s Hs Hst Hn) as Hsum. destruct (idle_bus n s Hs) as [H4 O4]. revert Hsum H4 O4.
  generalize (adder_idle n s). intros s' Hsum H4 O4. injection O4 as Ha4 Hb4 Hst4.
  destruct (read_bus s' H4) as (Hr & H5 & O5); [by rewrite Ha4, Hb4|]. rewrite O5, Hr, Hsum. split_and!; [|done|].
  - rewrite Ha, Hb, wire_sum_value, !Z.mod_mod by lia. done.
  - unfold operands. by rewrite Ha4, Hb4, Hst4, Ha, Hb, Hst.
Qed.

Lemma start_operands s a b : bus_rests s ->
  let s1 := adder_bus_write CTRL_REG 1 (adder_bus_write B_REG b (adder_bus_write A_REG a s)) in
  bus_rests s1 /\ operands s1 = (a mod 65536, b mod 65536, true).
Proof.
  intros Hs. cbv zeta. destruct (write_bus s a Hs) as [[H1 O1] _]. revert H1 O1. generalize (adder_bus_write A_REG a s). intros s1 H1 O1.
  destruct (write_bus s1 b H1) as [_ [[H2 O2] _]]. revert H2 O2. generalize (adder_bus_write B_REG b s1). intros s2 H2 O2.
  destruct (write_bus s2 1 H2) as [_ [_ [H3 O3]]]. split; [exact H3|]. rewrite O3, O2, O1. reflexivity.
Qed.

(** C18: The truncated adder's wrapper: writing both operands and the start bit over the
    bus and reading the sum at least three cycles later returns the truncated sum of
    exactly these operands, whatever the state machine was doing, and leaves the bus
    idle. *)
Theorem truncated_adder_computes s a b n :
  bus_rests s -> (3 <= n)%nat ->
  let s1 := adder_bus_write CTRL_REG 1 (adder_bus_write B_REG b (adder_bus_write A_REG a s)) in
  let r := adder_bus_read SUM_REG (adder_idle n s1) in
  r.1 = (16 * (a mod 65536 / 16 + b mod 65536 / 16)) mod 65536 /\ bus_rests r.2 /\
  operands r.2 = (a mod 65536, b mod 65536, true).
Proof. intros Hs Hn. destruct (start_operands s a b Hs) as [H1 O1]. exact (started_sum _ a b n H1 O1 Hn). Qed.

Lemma truncated_adder_computes_witness :
  (adder_bus_read SUM_REG (adder_idle 3 (adder_bus_write CTRL_REG 1 (adder_bus_write B_REG 2007 (adder_bus_write A_REG 1000
     (adder_edge reset_in (mkAdderTop (mkAdderWrite true true true 1 7 7 true) (mkAdderFsm STATE_DONE true true 9) (mkAdderRead true true 1 1)))))))).1 = 2992.
Proof.
  refine (proj1 (truncated_adder_computes _ 1000 2007 3 _ _)); [done|lia].
Defined.
