(* ===== verification/SimpleO3Props.v ===== *)
(** * SimpleO3Props: the processor frontend in a simulation

    Initialisation establishes the invariant of [SimpleO3Safety], so that a
    simulation does not fail; and a core whose wake-up was lost stays blocked
    for ever, with a run in which this happens. *)
From Stdlib Require Import Ascii.
From stdpp Require Import prelude gmap strings.
From S2P Require Import Prelude DramSpec Request BitUtils ChannelMapper MemSystem LLC LlcInv LlcProps InstWindow TraceFile Frontend Core SimpleO3 SimpleO3Safety Simulation.
Open Scope Z_scope.

(** ** Initialisation *)
Lemma sto_range width base s v : sto width base s = Ok v -> - 2 ^ (width - 1) <= v < 2 ^ (width - 1).
Proof.
  unfold sto. destruct (digits_in _ _ _) as [x|]; [|done].
  match goal with |- context [if (?a <=? ?b) && (?c <? ?d) then _ else _] => destruct (Z.leb_spec a b), (Z.ltb_spec c d) end;
    cbn; intros [= <-]; lia.
Qed.

Lemma parse_inst_in64 line i : parse_inst line = Ok i -> in64 (load_addr i) /\ in64 (store_addr i).
Proof.
  unfold parse_inst. intros (ts & _ & H)%bind_Ok_inv. destruct (_ && _); [done|].
  apply bind_Ok_inv in H as (t0 & _ & H). apply bind_Ok_inv in H as (b & _ & H).
  apply bind_Ok_inv in H as (t1 & _ & H). apply bind_Ok_inv in H as (ld & Hld%sto_range & H).
  destruct (_ =? 2); [injection H as <-; cbn; unfold in64; lia|].
  apply bind_Ok_inv in H as (t2 & _ & H). apply bind_Ok_inv in H as (st & Hst%sto_range & [= <-]). cbn. unfold in64. lia.
Qed.

(** A core that could be built has a trace that is not empty. *)
Lemma core_new_ok n id ipc depth insts f o :
  0 <= id < Z.of_nat n -> 0 < depth -> SimpleO3Core_new id ipc depth insts f = Ok o -> core_ok n o.
Proof.
  intros Hid Hd. unfold SimpleO3Core_new, Trace_new. intros (t & Ht & H)%bind_Ok_inv.
  apply bind_Ok_inv in Ht as (s & _ & Ht). apply bind_Ok_inv in Ht as (l & Hl & [= <-]).
  destruct (new_window ipc depth Hd) as (w & Hw & Hwok & _). rewrite Hw in H. cbn [mbind res_bind] in H.
  assert (Hall : Forall (fun i => in64 (load_addr i) /\ in64 (store_addr i)) l).
  { apply mapM_Ok in Hl. clear -Hl. induction Hl as [|x i ls l Hx _ IH]; [constructor|]. constructor; [by apply parse_inst_in64 in Hx|done]. }
  unfold fetch_inst, get_next_inst in H. cbn in H. apply bind_Ok_inv in H as (p & Hp & [= <-]).
  apply bind_Ok_inv in Hp as (i & Hi & Hp). destruct (Z.eqb_spec (Z.of_nat (length l)) 0) as [|Hne]; [done|]. injection Hp as <-.
  apply vget_Ok in Hi as [_ Hi]. rewrite Forall_forall in Hall. destruct (Hall i) as [H1 H2]; [by apply list_elem_of_lookup_2 in Hi|].
  split; cbn; try done. split; cbn; [done| |by apply Forall_forall]. apply Z.mod_pos_bound. lia.
Qed.

(** A configuration whose cache has powers of two for sizes. *)
Record good_config (g : SimpleO3_config) (line_bits set_bits : Z) : Prop := mkGood {
  gc_depth : 0 < default 128 (cfg_inst_window_depth g);
  gc_line : 0 <= line_bits <= 30 /\ default 64 (cfg_llc_linesize g) = 2 ^ line_bits;
  gc_sets : 0 <= set_bits <= 30;
  gc_ways : 1 <= default 8 (cfg_llc_associativity g);
  gc_mshrs : 0 <= default 16 (cfg_llc_num_mshr_per_core g);
  gc_size : forall cap, parse_capacity_str (default ["2"; "M"; "B"]%char (cfg_llc_capacity_per_core g)) = Ok cap ->
    i32 cap * Z.of_nat (length (cfg_traces g)) = 2 ^ set_bits * (2 ^ line_bits * default 8 (cfg_llc_associativity g))
}.

Lemma init_ok {T} (tr : T) g lb sb f :
  good_config g lb sb -> SimpleO3_init tr g = Ok f ->
  o3_ok (length (cfg_traces g)) (2 ^ lb) 0 f /\ f_translation f = tr.
Proof.
  intros [Hdep [Hlb Hline] Hsb Hways Hms Hsize] Hinit. unfold SimpleO3_init in Hinit.
  apply bind_Ok_inv in Hinit as (cap & Hcap & H). apply bind_Ok_inv in H as (size & [-> Hsz]%mul_int_Ok & H).
  apply bind_Ok_inv in H as (ms & [-> Hmsz]%mul_int_Ok & H). apply bind_Ok_inv in H as (c & Hc & H).
  apply bind_Ok_inv in H as (cores & Hcores & [= <-]). specialize (Hsize cap Hcap). rewrite Hsize, Hline in *.
  destruct (llc_new_ok (default 47 (cfg_llc_latency g)) lb sb _ _ Hlb Hsb Hways (conj (Z.mul_nonneg_nonneg _ _ Hms (Nat2Z.is_nonneg _)) (proj2 Hmsz)) (proj2 Hsz))
    as (c' & Hc' & Hok & _ & _ & _ & Hm & Hh & Hr & Hl & Hcnt). assert (c' = c) as -> by congruence.
  split; [|done]. apply mapM_Ok in Hcores. split; cbn.
  - split; [done|]. split; [|unfold counts_le; rewrite Hcnt; unfold counters; repeat constructor; done]. unfold queues_ok, line_bytes. rewrite Hm, Hh, Hr, Hl. split_and!; [|constructor|constructor|apply map_Forall_empty].
    apply i32_id. pose proof (Z.pow_pos_nonneg 2 lb). pose proof (Z.pow_le_mono_r 2 lb 30). lia.
  - rewrite <- (Forall2_length _ _ _ Hcores). apply length_imap.
  - apply Forall_forall. intros o [k Hk]%list_elem_of_lookup.
    destruct (Forall2_lookup_r _ _ _ _ _ Hcores Hk) as ([i t] & Hi & Hnew).
    apply list_lookup_imap_Some in Hi as (t' & Ht & [= -> ->]). apply lookup_lt_Some in Ht.
    eapply core_new_ok; [|exact Hdep|exact Hnew]. cbn. lia.
Qed.

(** ** Simulations *)
Section Run.
Context {T M : Type} `{TotalTranslation T} `{!IMemorySystem M}.
Variable n : nat.
Variable line : Z.
Context `{!TotalMemory M line}.

Definition sim_ok (k : Z) (s : sim_state (SimpleO3 T) M) : Prop :=
  o3_ok n line k (sim_frontend s) /\ tt_ok (f_translation (sim_frontend s)) /\ tm_ok (sim_memory s).

Lemma sim_round_ok k a b s :
  k + 2 * Z.of_nat n <= 2 ^ 31 - 1 -> sim_ok k s ->
  exists fin s', sim_round a b s = Ok (fin, s') /\ sim_ok (k + 2 * Z.of_nat n) s'.
Proof.
  intros Hk (Hf & Ht & Hm). unfold sim_round. set (k' := k + 2 * Z.of_nat n) in *.
  assert (Hrest : forall fc f m, o3_ok n line k' f -> tt_ok (f_translation f) -> tm_ok m ->
    exists fin s', (if fe_is_finished f then Ok (true, mkSim fc (sim_mem_count s) f m)
      else if a <=? sim_mem_count s + 1 then q ← sim_memory_tick f m; Ok (false, mkSim fc 0 q.1 q.2)
      else Ok (false, mkSim fc (sim_mem_count s + 1) f m)) = Ok (fin, s') /\ sim_ok k' s').
  { intros fc f m Hf1 Ht1 Hm1. destruct (fe_is_finished f); [by do 2 eexists|]. destruct (_ <=? _); [|by do 2 eexists].
    unfold sim_memory_tick. destruct (tm_tick m Hm1) as (cbs & m' & -> & Hm' & Hcbs). cbn [mbind res_bind fst snd].
    destruct (callbacks_ok n line k' cbs f Hf1 Hcbs) as (f' & Hcb & Hf' & Ht').
    change (foldM fe_callback cbs f) with (foldM SimpleO3_receive cbs f). rewrite Hcb. cbn [mbind res_bind fst snd].
    do 2 eexists. split; [done|]. split_and!; cbn; try done. by rewrite Ht'. }
  destruct (b <=? sim_fe_count s + 1).
  - destruct (o3_tick_ok n line k (sim_frontend s) (sim_memory s) Hk Hf Ht Hm) as (f' & m' & Htick & Hf' & Hm' & Ht').
    change (fe_tick (sim_frontend s) (sim_memory s)) with (SimpleO3_tick (sim_frontend s) (sim_memory s)).
    rewrite Htick. cbn [mbind res_bind]. apply Hrest; try done. by rewrite Ht'.
  - cbn [mbind res_bind]. apply Hrest; [|done|done]. apply (o3_mono n line k); [lia|done].
Qed.

Lemma sim_loop_ok a b rounds : forall k s,
  k + 2 * Z.of_nat n * Z.of_nat rounds <= 2 ^ 31 - 1 -> sim_ok k s -> is_Ok (sim_loop rounds a b s).
Proof.
  induction rounds as [|rounds IH]; intros k s Hk Hs; cbn [sim_loop]; [by eexists|].
  destruct (sim_round_ok k a b s) as (fin & s' & -> & Hs'); [lia|done|]. cbn [mbind res_bind fst snd].
  destruct fin; [by eexists|]. apply (IH (k + 2 * Z.of_nat n)); [lia|done].
Qed.
End Run.

(** C29: A simulation of the SimpleO3 frontend never fails: for a configuration whose
    cache has power-of-two sizes, and on top of any memory system that accepts or
    refuses line-sized requests without failing, no number of rounds of the main loop
    below 2^31 / (2 * cores) throws, asserts or has undefined behaviour in the cores,
    their windows and traces, the cache or the callbacks. The bound is there because the
    statistics of the cache are int and count every access: a longer simulation may
    overflow them. *)
Theorem simpleO3_never_fails {T M} `{TotalTranslation T} `{!IMemorySystem M} (tr : T) g lb sb f (m : M) `{!TotalMemory M (2 ^ lb)} rounds :
  good_config g lb sb -> tt_ok tr -> tm_ok m -> 0 < cfg_clock_ratio g < 2 ^ 31 -> 0 < mem_get_clock_ratio m < 2 ^ 31 ->
  SimpleO3_init tr g = Ok f -> 2 * Z.of_nat (length (cfg_traces g)) * Z.of_nat rounds < 2 ^ 31 -> is_Ok (sim_run rounds f m).
Proof.
  intros Hg Ht Hm Hc Hmc Hinit Hrounds. destruct (init_ok tr g lb sb f Hg Hinit) as [Hf Htr].
  assert (Hratio : f_clock_ratio f = cfg_clock_ratio g).
  { unfold SimpleO3_init in Hinit. repeat (apply bind_Ok_inv in Hinit as (? & _ & Hinit)). by injection Hinit as <-. }
  unfold sim_run. change (fe_get_clock_ratio f) with (f_clock_ratio f). rewrite Hratio, !i32_id by lia.
  destruct (Z.leb_spec (cfg_clock_ratio g) 0); [lia|]. destruct (Z.leb_spec (mem_get_clock_ratio m) 0); [lia|]. cbn [orb].
  apply (sim_loop_ok (length (cfg_traces g)) (2 ^ lb) _ _ _ 0); [lia|]. split_and!; cbn; try done. by rewrite Htr.
Qed.

(** ** A core that waits for ever *)
(** A core whose window is full, with an oldest instruction that is not
    ready, and that has another one to issue. *)
Record stuck (w : InstWindow) (o : SimpleO3Core) : Prop := mkStuck {
  st_window : o_window o = w;
  st_full : is_full w = true;
  st_load : 0 < w_load w;
  st_head : at_ (w_ready_list w) (w_tail_idx w) = Ok false;
  st_goal : o_reached o = false /\ 0 <= o_insts_retired o < o_num_expected_insts o;
  st_work : 0 < o_num_bubbles o \/ o_load_addr o <> -1
}.

(** Nothing in the cache will be reported to a core. *)
Definition forgotten (k : Z) (c : SimpleO3LLC) : Prop :=
  Forall (fun p => source_id p.2 <> k) (m_hit_list c) /\
  map_Forall (fun _ l => Forall (fun r => source_id r <> k) l) (m_receive_requests c).

(** The core at a position is stuck and forgotten; the cores send their
    position with their requests. *)
Record blocked {T} (k : nat) (w : InstWindow) (f : SimpleO3 T) : Prop := mkBlocked {
  bl_ids : forall i o, f_cores f !! i = Some o -> o_id o = Z.of_nat i;
  bl_core : exists o, f_cores f !! k = Some o /\ stuck w o;
  bl_cache : forgotten (Z.of_nat k) (f_llc f)
}.

(** What of the cache decides whom it reports to. *)
Definition same_waiting (c c' : SimpleO3LLC) : Prop :=
  m_hit_list c' = m_hit_list c /\ m_receive_requests c' = m_receive_requests c.

Lemma waiting_forgotten k c c' : same_waiting c c' -> forgotten k c -> forgotten k c'.
Proof. intros [H1 H2]. unfold forgotten. by rewrite H1, H2. Qed.

Lemma write_through_waiting c it g c' : write_through c it g = Ok c' -> same_waiting c c'.
Proof. unfold write_through. intros (q & _ & [= <-])%bind_Ok_inv. done. Qed.

Lemma allocate_waiting c clk i s a r c' : allocate_line c clk i s a = Ok (r, c') -> same_waiting c c'.
Proof.
  unfold allocate_line. intros (tag & _ & H)%bind_Ok_inv. apply bind_Ok_inv in H as (full & _ & H).
  apply bind_Ok_inv in H as (ev & Hev & H). destruct ev as [c1|]; [|by injection H as _ <-]. injection H as _ <-.
  enough (same_waiting c c1) by done. destruct full; [|by injection Hev as <-].
  destruct (find_if l_ready s) as [v|]; [|done]. apply fmap_Ok_inv in Hev as (c2 & Hev & [= <-]).
  unfold evict_line in Hev. apply bind_Ok_inv in Hev as (st & _ & [= <-]). by destruct (l_dirty v).
Qed.

Lemma receivers_forgotten k c a : forgotten k c -> Forall (fun r => source_id r <> k) (default [] (m_receive_requests c !! a)).
Proof. intros [_ H]. destruct (m_receive_requests c !! a) as [l|] eqn:Ha; [by apply (H a)|constructor]. Qed.

Lemma set_receivers_forgotten k c a l : forgotten k c -> Forall (fun r => source_id r <> k) l -> forgotten k (set_receivers c a l).
Proof. intros [H1 H2] Hl. split; [done|]. by apply map_Forall_insert_2. Qed.

(** A request of another core. *)
Lemma send_forgotten k c clk req ok req' c' :
  llc_send c clk req = Ok (ok, req', c') -> source_id req <> k -> forgotten k c -> forgotten k c'.
Proof.
  unfold llc_send. intros H Hs Hk. apply bind_Ok_inv in H as ([[i s] c1] & Hg & H).
  assert (Hk1 : forgotten k c1).
  { unfold llc_get_set in Hg. apply bind_Ok_inv in Hg as (x & _ & Hg). by destruct (m_cache_sets c !! x); injection Hg as _ _ <-. }
  apply bind_Ok_inv in H as (st & _ & H). apply bind_Ok_inv in H as (hit & _ & H). clear Hg Hk. destruct hit as [line|].
  - unfold send_hit in H. apply bind_Ok_inv in H as (tag & _ & [= _ _ <-]). destruct Hk1 as [H1 H2].
    split; [|exact H2]. apply Forall_app. split; [exact H1|by apply Forall_singleton].
  - unfold send_miss in H. apply bind_Ok_inv in H as (st2 & _ & H). cbv zeta in H. fold (fetch_of req) in H.
    assert (Hf : source_id (fetch_of req) <> k) by (by rewrite fetch_source).
    destruct (check_mshr_hit _ _) as [e|].
    + apply bind_Ok_inv in H as (c2 & Hw & [= _ _ <-]). eapply waiting_forgotten; [by eapply write_through_waiting|].
      apply set_receivers_forgotten; [exact Hk1|]. apply Forall_app. split; [by apply receivers_forgotten|by apply Forall_singleton].
    + dcase H; [apply bind_Ok_inv in H as (st3 & _ & [= _ _ <-]); exact Hk1|]. dcase H; [injection H as _ _ <-; exact Hk1|].
      apply bind_Ok_inv in H as ([[it|] c2] & Ha & H); [|done]. apply bind_Ok_inv in H as (c3 & Hw & [= _ _ <-]).
      apply allocate_waiting in Ha. apply write_through_waiting in Hw.
      assert (Hk3 : forgotten k c3) by (eapply waiting_forgotten, waiting_forgotten; [exact Hw|exact Ha|exact Hk1]).
      refine (set_receivers_forgotten k (with_m_mshrs c3 _) (addr (fetch_of req)) [fetch_of req] Hk3 _). by apply Forall_singleton.
Qed.

Section Blocked.
Context {T M : Type} `{ITranslation T} `{!IMemorySystem M}.
Hypothesis translate_source : forall (t : T) req ready req', translate t req = Ok (ready, req') -> source_id req' = source_id req.

Lemma retire_id clk o o' : core_retire clk o = Ok o' -> o_id o' = o_id o.
Proof using. unfold core_retire. intros (q & _ & [= <-])%bind_Ok_inv. by destruct (negb _ && _). Qed.

Lemma bubbles_id fuel : forall o i r o', issue_bubbles fuel o i = Ok (r, o') -> o_id o' = o_id o.
Proof using.
  induction fuel as [|fuel IH]; intros o i r o' Hb; cbn [issue_bubbles] in Hb; (dcase Hb; [|by injection Hb as _ <-]); [done|].
  repeat (dcase Hb; [by injection Hb as _ <-|]). apply bind_Ok_inv in Hb as (w & _ & Hb). by apply IH in Hb.
Qed.

Lemma fetch_id o o' : fetch_inst o = Ok o' -> o_id o' = o_id o.
Proof using. unfold fetch_inst. by intros (q & _ & [= <-])%bind_Ok_inv. Qed.

Lemma load_forgotten k t clk i o c b o' c' :
  issue_load t receive_cb clk i o c = Ok (b, o', c') -> o_id o <> k -> forgotten k c -> o_id o' = o_id o /\ forgotten k c'.
Proof using translate_source.
  unfold issue_load. intros Hl Hid Hc. repeat (dcase Hl; [by injection Hl as _ <- <-|]).
  apply bind_Ok_inv in Hl as ([ready req] & Ht & Hl). apply translate_source in Ht. cbn [source_id Request_src] in Ht.
  dcase Hl; [by injection Hl as _ <- <-|]. apply bind_Ok_inv in Hl as ([[ok r] c1] & Hs & Hl).
  apply send_forgotten with (k := k) in Hs; [|congruence|done].
  destruct ok; [apply bind_Ok_inv in Hl as (w & _ & [= _ <- <-])|injection Hl as _ <- <-]; done.
Qed.

Lemma store_forgotten k t clk o c b c' :
  issue_store t receive_cb clk o c = Ok (b, c') -> o_id o <> k -> forgotten k c -> forgotten k c'.
Proof using translate_source.
  unfold issue_store. intros Hl Hid Hc. dcase Hl; [by injection Hl as _ <-|].
  apply bind_Ok_inv in Hl as ([ready req] & Ht & Hl). apply translate_source in Ht. cbn [source_id Request_src] in Ht.
  dcase Hl; [by injection Hl as _ <-|]. apply bind_Ok_inv in Hl as ([[ok r] c1] & Hs & [= _ <-]).
  apply send_forgotten with (k := k) in Hs; [done|congruence|done].
Qed.

(** Another core. *)
Lemma other_tick k t clk o c o' c' :
  SimpleO3Core_tick t receive_cb clk o c = Ok (o', c') -> o_id o <> k -> forgotten k c -> o_id o' = o_id o /\ forgotten k c'.
Proof using translate_source.
  unfold SimpleO3Core_tick. intros (o1 & H1 & Hl)%bind_Ok_inv Hid Hc. apply retire_id in H1.
  apply bind_Ok_inv in Hl as ([i o2] & H2 & Hl). apply bubbles_id in H2. assert (Hid2 : o_id o2 = o_id o) by congruence.
  destruct i as [i|]; [|by injection Hl as <- <-]. apply bind_Ok_inv in Hl as ([[b o3] c3] & H3 & Hl).
  apply (load_forgotten k) in H3 as [Hid3 Hc3]; [|congruence|done]. assert (Hid3' : o_id o3 = o_id o) by congruence.
  dcase Hl; [by injection Hl as <- <-|]. apply bind_Ok_inv in Hl as ([b4 c4] & H4 & Hl).
  apply (store_forgotten k) in H4; [|congruence|done].
  dcase Hl; [|by injection Hl as <- <-]. apply bind_Ok_inv in Hl as (o5 & H5 & [= <- <-]). apply fetch_id in H5. split; [congruence|done].
Qed.

(** The stuck core: nothing retires, nothing is issued. *)
Lemma stuck_tick w t clk o c :
  stuck w o -> exists o', SimpleO3Core_tick t receive_cb clk o c = Ok (o', c) /\ stuck w o' /\ o_id o' = o_id o.
Proof using.
  intros [Hw Hfull Hload Hhead [Hgoal Hret] Hwork]. unfold SimpleO3Core_tick, core_retire, InstWindow_retire. rewrite Hw.
  assert (Hr : retire_loop (Z.to_nat (w_load w)) w 0 = Ok (0, w)).
  { destruct (Z.to_nat (w_load w)); [done|]. cbn [retire_loop]. destruct (_ && _); [|done]. by rewrite Hhead. }
  destruct (Z.eqb_spec (w_load w) 0); [lia|]. rewrite Hr. cbn [mbind res_bind fst snd]. rewrite Z.add_0_r.
  set (o1 := with_o_insts_retired (with_o_window o w) (u64 (o_insts_retired o))).
  assert (Hu : 0 <= u64 (o_insts_retired o) <= o_insts_retired o).
  { unfold u64, wrap. pose proof (Z.mod_pos_bound (o_insts_retired o) (2 ^ 64) ltac:(lia)). pose proof (Z.mod_le (o_insts_retired o) (2 ^ 64) ltac:(lia) ltac:(lia)). lia. }
  assert (Hnot : negb (o_reached o1) && (o_num_expected_insts o1 <=? o_insts_retired o1) = false).
  { apply andb_false_iff. right. apply Z.leb_gt. change (u64 (o_insts_retired o) < o_num_expected_insts o). lia. }
  rewrite Hnot. cbn [mbind res_bind]. exists o1. split;
    [|split; [|done]; split; try done; split; [exact Hgoal|]; change (0 <= u64 (o_insts_retired o) < o_num_expected_insts o); lia].
  change (o_num_bubbles o1) with (o_num_bubbles o). destruct (Z.leb_spec (o_num_bubbles o) 0) as [Hb|Hb].
  - replace (Z.to_nat (o_num_bubbles o)) with 0%nat by lia. cbn [issue_bubbles]. change (o_num_bubbles o1) with (o_num_bubbles o).
    destruct (Z.ltb_spec 0 (o_num_bubbles o)); [lia|]. cbn [mbind res_bind]. unfold issue_load.
    change (o_load_addr o1) with (o_load_addr o). change (o_window o1) with w. rewrite Hfull.
    destruct (Z.eqb_spec (o_load_addr o) (-1)); [lia|]. by destruct (_ =? _).
  - destruct (Z.to_nat (o_num_bubbles o)) eqn:Hn; [lia|]. cbn [issue_bubbles]. change (o_num_bubbles o1) with (o_num_bubbles o).
    destruct (Z.ltb_spec 0 (o_num_bubbles o)); [|lia]. change (o_window o1) with w. rewrite Hfull. by destruct (_ =? _).
Qed.

(** ** The frontend *)
Lemma core_receive_id o r o' : SimpleO3Core_receive o r = Ok o' -> o_id o' = o_id o.
Proof using. unfold SimpleO3Core_receive. intros (w & _ & [= <-])%bind_Ok_inv. by destruct (negb _ && _ && _). Qed.

Lemma insert_ids (cores : list SimpleO3Core) j o o' :
  (forall i o, cores !! i = Some o -> o_id o = Z.of_nat i) -> cores !! j = Some o -> o_id o' = o_id o ->
  forall i x, <[j := o']> cores !! i = Some x -> o_id x = Z.of_nat i.
Proof using.
  intros Hids Hj Ho i x Hx. destruct (decide (i = j)) as [->|Hne].
  - rewrite list_lookup_insert_eq in Hx by (by apply lookup_lt_Some in Hj). injection Hx as <-. rewrite Ho. by apply Hids.
  - rewrite list_lookup_insert_ne in Hx by done. by apply Hids.
Qed.

Lemma deliver_blocked k w req r cores cores' :
  deliver req cores r = Ok cores' -> source_id r <> Z.of_nat k ->
  (forall i o, cores !! i = Some o -> o_id o = Z.of_nat i) /\ (exists o, cores !! k = Some o /\ stuck w o) ->
  (forall i o, cores' !! i = Some o -> o_id o = Z.of_nat i) /\ (exists o, cores' !! k = Some o /\ stuck w o).
Proof using.
  unfold deliver. cbn [source_id set_depart set_arrive]. intros (o & Ho & Hd)%bind_Ok_inv Hk [Hids Hst].
  apply bind_Ok_inv in Hd as (o' & Hr & Hd). apply core_receive_id in Hr. apply vset_Ok in Hd as [Hb ->]. apply vget_Ok in Ho as [_ Ho].
  split; [by eapply insert_ids|]. destruct Hst as (x & Hx & Hs). exists x. split; [|done].
  rewrite list_lookup_insert_ne; [done|]. lia.
Qed.

Lemma receive_blocked k w (f : SimpleO3 T) req f' : SimpleO3_receive f req = Ok f' -> blocked k w f -> blocked k w f'.
Proof using.
  unfold SimpleO3_receive. intros (c & Hc & Hf)%bind_Ok_inv [Hids Hst Hk]. apply bind_Ok_inv in Hf as (cores & Hcores & [= <-]).
  assert (Hk' : forgotten (Z.of_nat k) c).
  { unfold llc_receive in Hc. destruct (list_find _ _) as [[j e]|]; [|by injection Hc as <-].
    apply bind_Ok_inv in Hc as (c1 & Hw & [= <-]). apply write_through_waiting in Hw. by apply (waiting_forgotten _ _ _ Hw) in Hk. }
  pose proof (receivers_forgotten _ _ (addr req) Hk') as Hrs. revert Hcores Hrs.
  assert (Hgo : forall l cs cs', foldM (deliver req) l cs = Ok cs' -> Forall (fun r => source_id r <> Z.of_nat k) l ->
    (forall i o, cs !! i = Some o -> o_id o = Z.of_nat i) /\ (exists o, cs !! k = Some o /\ stuck w o) ->
    (forall i o, cs' !! i = Some o -> o_id o = Z.of_nat i) /\ (exists o, cs' !! k = Some o /\ stuck w o)).
  { induction l as [|r l IH]; intros cs cs' Hf Hl Hcs; [by injection Hf as <-|]. apply Forall_cons in Hl as [Hr Hl].
    cbn in Hf. apply bind_Ok_inv in Hf as (cs1 & Hd & Hf). eapply IH; [exact Hf|exact Hl|]. by eapply deliver_blocked. }
  intros Hcores Hrs. destruct (Hgo _ _ _ Hcores Hrs (conj Hids Hst)) as [Hids' Hst'].
  split; [exact Hids'|exact Hst'|]. by apply set_receivers_forgotten.
Qed.

Lemma callbacks_blocked k w l : forall (f f' : SimpleO3 T), foldM SimpleO3_receive l f = Ok f' -> blocked k w f -> blocked k w f'.
Proof using.
  induction l as [|r l IH]; intros f f' Hf Hb; [by injection Hf as <-|]. cbn in Hf. apply bind_Ok_inv in Hf as (f1 & H1 & Hf).
  eapply IH; [exact Hf|]. by eapply receive_blocked.
Qed.

Lemma llc_tick_blocked k w clk (f : SimpleO3 T) (m : M) f' m' :
  llc_tick f_llc with_f_llc SimpleO3_receive clk f m = Ok (f', m') -> blocked k w f -> blocked k w f'.
Proof using.
  unfold llc_tick. intros ([f1 m1] & Hm & Hf)%bind_Ok_inv Hb. apply bind_Ok_inv in Hf as (f2 & Hh & [= <- _]). cbn [fst snd] in Hh.
  assert (Hb1 : blocked k w f1).
  { clear Hh. revert Hm. generalize (m_miss_list (f_llc f)), (@nil (Z * Request)). intros l. revert f m Hb.
    induction l as [|[t req] l IH]; intros f m Hb kept Hm; cbn [miss_loop] in Hm; [by injection Hm as <- _|].
    dcase Hm; [|by eapply IH]. apply bind_Ok_inv in Hm as ([[[ok req'] called] m2] & _ & Hm).
    apply bind_Ok_inv in Hm as (f3 & H3 & Hm). apply (callbacks_blocked k w) in H3; [|done].
    destruct H3 as [H31 H32 H33]. destruct ok; (eapply IH; [|exact Hm]); (split; [exact H31|exact H32|exact H33]). }
  clear Hm Hb. assert (Hl : Forall (fun p => source_id p.2 <> Z.of_nat k) ([] ++ m_hit_list (f_llc f1))) by apply Hb1.
  revert Hl Hh. generalize (m_hit_list (f_llc f1)), (@nil (Z * Request)). intros l. revert f1 Hb1.
  induction l as [|[t req] l IH]; intros f1 Hb1 kept Hl Hh; cbn [hit_loop] in Hh; [by injection Hh as <-|].
  dcase Hh; [|refine (IH f1 Hb1 (kept ++ [(t, req)]) _ Hh); by rewrite <- app_assoc]. destruct (callback req); [|done].
  apply Forall_app in Hl as [Hl1 [Hreq Hl2]%Forall_cons]. apply bind_Ok_inv in Hh as (f3 & H3 & Hh).
  apply (receive_blocked k w) in H3.
  - refine (IH _ _ kept _ Hh); [|by apply Forall_app]. destruct H3 as [H31 H32 [H33 H34]]. split; [done|done|]. split; [by apply Forall_app|done].
  - destruct Hb1 as [H11 H12 H13]. split; [done|done|]. apply set_receivers_forgotten; [done|by apply Forall_singleton].
Qed.

Lemma core_tick_at_blocked k w (f f' : SimpleO3 T) i : core_tick_at f i = Ok f' -> blocked k w f -> blocked k w f'.
Proof using translate_source.
  unfold core_tick_at. intros (o & Ho & Hf)%bind_Ok_inv [Hids Hst Hk]. apply vget_nat in Ho.
  apply bind_Ok_inv in Hf as ([o' c'] & Ht & [= <-]). cbn [fst snd] in *. destruct (decide (i = k)) as [->|Hne].
  - destruct Hst as (x & Hx & Hs). rewrite Ho in Hx. injection Hx as <-.
    destruct (stuck_tick w (f_translation f) (f_clk f) o (f_llc f) Hs) as (o1 & H1 & Hs1 & Hid1). rewrite Ht in H1. injection H1 as -> ->.
    split; cbn; [by eapply insert_ids| |done]. exists o1. split; [|done]. apply list_lookup_insert_eq. by apply lookup_lt_Some in Ho.
  - apply (other_tick (Z.of_nat k)) in Ht as [Hid Hk']; [|rewrite (Hids _ _ Ho); lia|done].
    split; cbn; [by eapply insert_ids| |done]. destruct Hst as (x & Hx & Hs). exists x. by rewrite list_lookup_insert_ne.
Qed.

Lemma o3_tick_blocked k w (f : SimpleO3 T) (m : M) f' m' : SimpleO3_tick f m = Ok (f', m') -> blocked k w f -> blocked k w f'.
Proof using translate_source.
  unfold SimpleO3_tick. intros ([f1 m1] & Hl & Hf)%bind_Ok_inv Hb. apply bind_Ok_inv in Hf as (f2 & Hc & [= <- _]).
  apply (llc_tick_blocked k w) in Hl; [|by destruct Hb]. cbn [fst] in Hc.
  refine (foldM_inv (blocked k w) core_tick_at _ f1 f2 _ Hl Hc). intros i g g' _ Hg Hi. by eapply core_tick_at_blocked.
Qed.

Lemma blocked_not_finished k w (f : SimpleO3 T) : blocked k w f -> SimpleO3_is_finished f = false.
Proof using.
  intros [_ (o & Ho & Hs) _]. unfold SimpleO3_is_finished. apply not_true_is_false. intros Hall. rewrite forallb_forall in Hall.
  apply list_elem_of_lookup_2, list_elem_of_In in Ho. specialize (Hall o Ho). destruct (st_goal _ _ Hs) as [Hg _]. congruence.
Qed.

Lemma sim_loop_blocked k w a b n : forall (s : sim_state (SimpleO3 T) M) fin s',
  blocked k w (sim_frontend s) -> sim_loop n a b s = Ok (fin, s') -> fin = false /\ blocked k w (sim_frontend s').
Proof using translate_source.
  induction n as [|n IH]; intros s fin s' Hb Hl; cbn [sim_loop] in Hl; [by injection Hl as <- <-|].
  apply bind_Ok_inv in Hl as ([fin1 s1] & H1 & Hl). cbn [fst snd] in Hl.
  enough (H2 : fin1 = false /\ blocked k w (sim_frontend s1)) by (destruct H2 as [-> Hb1]; exact (IH _ _ _ Hb1 Hl)).
  clear Hl. unfold sim_round in H1. cbv zeta in H1. apply bind_Ok_inv in H1 as ([fc [f m]] & Ht & H1).
  assert (Hbf : blocked k w f).
  { dcase Ht; [|by injection Ht as _ <- _]. apply bind_Ok_inv in Ht as ([f2 m2] & Ht & H2). injection H2 as _ -> _. exact (o3_tick_blocked k w _ _ _ _ Ht Hb). }
  change (fe_is_finished f) with (SimpleO3_is_finished f) in H1. rewrite (blocked_not_finished _ _ _ Hbf) in H1.
  dcase H1; [|by injection H1 as <- <-]. apply bind_Ok_inv in H1 as ([f3 m3] & H3 & [= <- <-]). split; [done|].
  unfold sim_memory_tick in H3. apply bind_Ok_inv in H3 as (q & _ & H3). apply bind_Ok_inv in H3 as (f4 & H4 & [= <- _]).
  exact (callbacks_blocked k w _ _ _ H4 Hbf).
Qed.
End Blocked.

Lemma sim_loop_more {F M} `{IFrontEnd F M} a b n r : forall (s : sim_state F M) s1,
  sim_loop n a b s = Ok (false, s1) -> sim_loop (n + r) a b s = sim_loop r a b s1.
Proof.
  induction n as [|n IH]; intros s s1 Hl; cbn [sim_loop Nat.add] in *; [by injection Hl as <-|].
  apply bind_Ok_inv in Hl as ([fin s2] & H1 & Hl). rewrite H1. cbn [mbind res_bind fst snd] in *. destruct fin; [done|by apply IH].
Qed.

(** The blocked states, decided. *)
Definition stuckb (o : SimpleO3Core) : bool :=
  is_full (o_window o) && (0 <? w_load (o_window o)) &&
  match at_ (w_ready_list (o_window o)) (w_tail_idx (o_window o)) with Ok b => negb b | Err _ => false end &&
  negb (o_reached o) && (0 <=? o_insts_retired o) && (o_insts_retired o <? o_num_expected_insts o) &&
  ((0 <? o_num_bubbles o) || negb (o_load_addr o =? -1)).

Definition blockedb {T} (k : nat) (f : SimpleO3 T) : bool :=
  forallb (fun q => o_id q.2 =? Z.of_nat q.1) (imap pair (f_cores f)) &&
  match f_cores f !! k with Some o => stuckb o | None => false end &&
  forallb (fun q => negb (source_id q.2 =? Z.of_nat k)) (m_hit_list (f_llc f)) &&
  forallb (fun q => forallb (fun r => negb (source_id r =? Z.of_nat k)) q.2) (map_to_list (m_receive_requests (f_llc f))).

Lemma stuckb_sound o : stuckb o = true -> stuck (o_window o) o.
Proof.
  unfold stuckb. intros H. apply andb_true_iff in H as [H Hw]. bool_hyps. destruct (at_ _ _) as [b|] eqn:Hat; [|done]. bool_hyps. subst.
  split; try done. apply orb_true_iff in Hw as [?|?]; bool_hyps; auto.
Qed.

Lemma blockedb_sound {T} k (f : SimpleO3 T) : blockedb k f = true -> exists o, f_cores f !! k = Some o /\ blocked k (o_window o) f.
Proof.
  unfold blockedb. intros (((H1 & H2)%andb_true_iff & H3)%andb_true_iff & H4)%andb_true_iff.
  rewrite forallb_forall in H1, H3, H4. destruct (f_cores f !! k) as [o|] eqn:Ho; [|done]. exists o. split; [done|]. split.
  - intros i x Hx. apply Z.eqb_eq. change (o_id (i, x).2 =? Z.of_nat (i, x).1 = true). apply H1, list_elem_of_In, list_elem_of_lookup.
    exists i. by rewrite list_lookup_imap, Hx.
  - exists o. split; [done|by apply stuckb_sound].
  - split.
    + apply Forall_forall. intros x Hx%list_elem_of_In. specialize (H3 x Hx). by bool_hyps.
    + intros a l Hl. apply elem_of_map_to_list, list_elem_of_In in Hl. specialize (H4 _ Hl). cbn in H4. rewrite forallb_forall in H4.
      apply Forall_forall. intros r Hr%list_elem_of_In. specialize (H4 r Hr). by bool_hyps.
Qed.

(** ** A load that is never answered *)
(** Two cores share one set of two lines.  Line 0 is filled by core 0, line 1
    is fetched by core 1, core 0 hits line 0 and evicts it with line 2, and
    before the hit is reported core 1 asks for line 0 again. *)
Definition print_inst (i : Inst) : str :=
  join " "%char ([print_int (bubble_count i); print_int (load_addr i)] ++
                 (if store_addr i =? -1 then [] else [print_int (store_addr i)])).

Definition trace_file (l : list Inst) : file := FileContents (print_lines (map print_inst l)).

Definition core0_trace : file := trace_file [mkInst 0 0 (-1); mkInst 43 0 (-1); mkInst 0 2048 (-1); mkInst 100000 0 (-1)].
Definition core1_trace : file := trace_file [mkInst 29 1024 (-1); mkInst 29 0 (-1); mkInst 100000 1024 (-1)].

Definition two_cores : SimpleO3_config :=
  mkO3Config 1 60 [core0_trace; core1_trace] (Some 1) (Some 64) (Some 20) (Some 1024) (Some 2) (Some ["1"; "K"; "B"]%char) (Some 4).
Definition two_cores_start : SimpleO3 NoTranslation :=
  from_res (mkO3 0 0 (mkNT 1) [] no_llc) (SimpleO3_init (mkNT (2 ^ 20)) two_cores).
Definition two_cores_after (rounds : nat) :=
  from_res (false, mkSim 0 0 two_cores_start (mkDelay 0 0 [])) (sim_run rounds two_cores_start (mkDelay 0 5 [])).

Lemma two_cores_good : good_config two_cores 10 0.
Proof.
  split; [cbn; lia..|]. intros cap Hcap. change (parse_capacity_str ["1"; "K"; "B"]%char = Ok cap) in Hcap.
  assert (Hc : parse_capacity_str ["1"; "K"; "B"]%char = Ok 1024) by (by vm_compute). rewrite Hc in Hcap. by injection Hcap as <-.
Qed.

Lemma two_cores_init : SimpleO3_init (mkNT (2 ^ 20)) two_cores = Ok two_cores_start.
Proof. apply from_res_Ok. by vm_compute. Qed.

Lemma simpleO3_never_fails_witness : is_Ok (sim_run 1000 two_cores_start (mkDelay 0 5 [])).
Proof.
  refine (simpleO3_never_fails (mkNT (2 ^ 20)) two_cores 10 0 two_cores_start (mkDelay 0 5 []) 1000
            two_cores_good _ _ _ _ two_cores_init _); cbn; try done; lia.
Defined.

(** Whether the frontend and the memory system have nothing left to do for
    any request. *)
Definition quiescent {T} (f : SimpleO3 T) (m : DelayMemory) : bool :=
  bool_decide (m_mshrs (f_llc f) = []) && bool_decide (m_miss_list (f_llc f) = []) &&
  bool_decide (m_hit_list (f_llc f) = []) && forallb (fun p => bool_decide (p.2 = [])) (map_to_list (m_receive_requests (f_llc f))) &&
  bool_decide (dm_queue m = []).

(** The cores of a state: whether the window is full, its oldest
    instruction, and whether the core has reached its goal. *)
Definition core_view (o : SimpleO3Core) : bool * option (bool * Z) * bool :=
  (is_full (o_window o), head (entries (o_window o)), o_reached o).

Lemma two_cores_run n :
  okb (sim_run n two_cores_start (mkDelay 0 5 [])) = true ->
  sim_run n two_cores_start (mkDelay 0 5 []) = Ok (two_cores_after n).
Proof. intros Hok. unfold two_cores_after. by apply from_res_Ok. Qed.

(** C36: A wake-up can be lost, and the core it was meant for never continues. Whatever
    translation that keeps the source of a request, and whatever memory system, a
    simulation runs on: if after n rounds a core is blocked (it has work left, its
    window is full and the oldest entry waits for data, and neither the queued hits nor
    the receivers of the cache name that core), then after any further number of rounds
    that return the simulation has not finished and the core has the same window. Such a
    state is reached in a run of two cores on one cache set: the report of a hit
    replaces the receivers of a miss to the same address (the witness takes it from that
    run after 200 rounds). *)
Theorem llc_lost_wakeup {T M} `{ITranslation T} `{!IMemorySystem M} (f : SimpleO3 T) (m : M) s k w n rounds fin s' :
  (forall (t : T) req ready req', translate t req = Ok (ready, req') -> source_id req' = source_id req) ->
  sim_run n f m = Ok (false, s) -> blocked k w (sim_frontend s) ->
  sim_run (n + rounds) f m = Ok (fin, s') ->
  fin = false /\ exists o, f_cores (sim_frontend s') !! k = Some o /\ o_window o = w /\ o_reached o = false.
Proof.
  intros Hsrc Hn Hb Hrun. unfold sim_run in *. destruct (_ || _); [done|]. rewrite (sim_loop_more _ _ _ _ _ _ Hn) in Hrun.
  apply (sim_loop_blocked Hsrc k w) in Hrun as [Hfin [_ (o & Ho & Hs) _]]; [|done]. split; [done|].
  exists o. split; [done|]. split; [apply (st_window _ _ Hs)|apply (st_goal _ _ Hs)].
Qed.

Lemma NoTranslation_source (t : NoTranslation) req ready req' :
  translate t req = Ok (ready, req') -> source_id req' = source_id req.
Proof.
  cbn. unfold NoTranslation_translate. intros H. apply bind_Ok_inv in H as (a & _ & [= _ <-]). done.
Qed.

(** After 200 rounds cache and memory system have nothing left to do, but the
    second core waits for line 0; it waits in every later round. *)
Lemma llc_lost_wakeup_witness :
  exists s, sim_run 200 two_cores_start (mkDelay 0 5 []) = Ok (false, s) /\
    quiescent (sim_frontend s) (sim_memory s) = true /\
    map core_view (f_cores (sim_frontend s)) = [(false, Some (true, -1), true); (true, Some (false, 0), false)] /\
    forall rounds fin s', sim_run (200 + rounds) two_cores_start (mkDelay 0 5 []) = Ok (fin, s') ->
      fin = false /\ exists o o', f_cores (sim_frontend s) !! 1%nat = Some o /\ f_cores (sim_frontend s') !! 1%nat = Some o' /\
        o_window o' = o_window o /\ o_reached o' = false.
Proof.
  assert (Hok : okb (sim_run 200 two_cores_start (mkDelay 0 5 [])) = true) by (by vm_compute).
  apply two_cores_run in Hok.
  assert (Hv : (two_cores_after 200).1 = false /\
    quiescent (sim_frontend (two_cores_after 200).2) (sim_memory (two_cores_after 200).2) = true /\
    map core_view (f_cores (sim_frontend (two_cores_after 200).2)) =
      [(false, Some (true, -1), true); (true, Some (false, 0), false)] /\
    blockedb 1 (sim_frontend (two_cores_after 200).2) = true).
  { split; [vm_compute; reflexivity|]. split; [vm_compute; reflexivity|]. split; vm_compute; reflexivity. }
  revert Hok Hv. generalize (two_cores_after 200). intros [b s] Hrun (Hb & Hq & Hc & Hbl). cbn [fst snd] in *. subst b. exists s.
  split; [exact Hrun|]. split; [exact Hq|]. split; [exact Hc|]. intros rounds fin s' Hmore.
  apply blockedb_sound in Hbl as (o & Ho & Hbl).
  destruct (llc_lost_wakeup two_cores_start (mkDelay 0 5 []) s 1 (o_window o) 200 rounds fin s' NoTranslation_source Hrun Hbl Hmore)
    as (Hfin & o' & Ho' & Hw & Hr). split; [exact Hfin|]. exists o, o'. split; [exact Ho|]. split; [exact Ho'|]. split; [exact Hw|exact Hr].
Defined.
