(* ===== verification/ControllerTrace.v ===== *)
(** * ControllerTrace: every command a controller issues is legal

    The operations of a controller either leave its device alone ([quiet])
    or issue one command that [check_timing] has just accepted ([checked]).
    An interface states this for a whole tick; each controller class is an
    instance, and the theorems about the issued trace are proved against the
    interface. *)
From Stdlib Require Import Sorted.
From stdpp Require Import prelude gmap strings.
From S2P Require Import Prelude DramSpec Commands Standards Node NodeTiming NodeTree Device DeviceInv DeviceProps Request AddrMapper Float32 ControllerState Controller Refresh RowPolicy ControllerInit GenericDdr Hbm Lpddr5 Controllers.
Open Scope Z_scope.

(** ** Operations that do not touch the device *)
Definition quiet (c c' : ControllerBase) : Prop :=
  c_device c' = c_device c /\ c_log c' = c_log c /\ c_clk c' = c_clk c.

#[export] Instance quiet_preorder : PreOrder quiet.
Proof. split; [by intros c|]. intros x y z (? & ? & ?) (? & ? & ?). split_and!; congruence. Qed.

(** One command issued at the current cycle, just accepted by the check. *)
Inductive checked (c c' : ControllerBase) : Prop :=
| checked_intro c0 cmd av c1 :
    quiet c c0 -> ctrl_check_timing c0 cmd av = Ok true -> issue c0 cmd av = Ok c1 -> quiet c1 c' ->
    checked c c'.

Lemma checked_quiet_l c0 c c' : quiet c0 c -> checked c c' -> checked c0 c'.
Proof. intros H0 [x cmd av y H1 H2 H3 H4]. by apply (checked_intro _ _ x cmd av y); [transitivity c|..]. Qed.

Lemma checked_quiet_r c c' c1 : checked c c' -> quiet c' c1 -> checked c c1.
Proof. intros [x cmd av y H1 H2 H3 H4] H5. by apply (checked_intro _ _ x cmd av y); [..|transitivity c']. Qed.

Lemma check_timing_quiet c c' cmd av : quiet c c' -> ctrl_check_timing c' cmd av = ctrl_check_timing c cmd av.
Proof. intros (Hd & _ & Hc). unfold ctrl_check_timing. by rewrite Hd, Hc. Qed.

Ltac quiet_done := repeat match goal with b : buf_id |- _ => destruct b end; by split_and!.

Lemma quiet_set_buf c b v : quiet c (set_buf c b v).
Proof. quiet_done. Qed.
Lemma quiet_count c k n : quiet c (count_stat c k n).
Proof. by split_and!. Qed.
Lemma quiet_call_back c r : quiet c (call_back c r).
Proof. unfold call_back. by destruct (callback r). Qed.

Lemma quiet_send c r ok r' c' : ctrl_send c r = Ok (ok, r', c') -> quiet c c'.
Proof.
  unfold ctrl_send. intros H. apply bind_Ok_inv in H as (r1 & _ & H). apply bind_Ok_inv in H as (av & _ & H).
  cbn zeta in H. apply bind_Ok_inv in H as (fc & _ & H). dcase H; [by injection H as <- <- <-|].
  dcase H.
  { destruct (enqueue _ _) as [k b]. destruct k; by injection H as <- <- <-. }
  dcase H; [|discriminate]. dcase H.
  - injection H as <- <- <-. etrans; [apply quiet_call_back|]. by split_and!.
  - destruct (enqueue _ _) as [k b]. destruct k; by injection H as <- <- <-.
Qed.

Lemma quiet_priority_send c r ok c' : ctrl_priority_send c r = Ok (ok, c') -> quiet c c'.
Proof.
  unfold ctrl_priority_send. intros H. dcase H; [discriminate|]. destruct (enqueue _ _) as [k b].
  dcase H; by injection H as <- <-.
Qed.

Lemma quiet_drain l : forall c, quiet c (drain c l).
Proof.
  induction l as [|r l IH]; intros c; cbn; [by split_and!|]. destruct (_ <? _); [by split_and!|].
  etrans; [|apply IH]. etrans; [apply (quiet_count c)|apply quiet_call_back].
Qed.

(** The prologue advances the clock and nothing else the device sees. *)
Lemma prologue_clk c :
  c_device (tick_prologue c) = c_device c /\ c_log (tick_prologue c) = c_log c /\
  c_clk (tick_prologue c) = c_clk c + 1.
Proof.
  unfold tick_prologue, serve_completed_reads. cbn zeta.
  match goal with |- context [drain ?x ?l] => destruct (quiet_drain l x) as (H1 & H2 & H3) end.
  rewrite H1, H2, H3. done.
Qed.

(** ** Request lifecycle *)
Lemma quiet_active_add c av n c' : active_add c av n = Ok c' -> quiet c c'.
Proof. unfold active_add. intros H. inv_res. by subst. Qed.

Lemma quiet_forget c b r : quiet c (forget_write c b r).
Proof. unfold forget_write. by destruct (decide _). Qed.

Lemma quiet_complete c r : quiet c (complete c r).
Proof.
  unfold complete. destruct (_ =? Type_Read); [by split_and!|].
  destruct (_ =? Type_Write); [etrans; [apply quiet_call_back|by split_and!]|]. by destruct (_ =? _).
Qed.

Lemma quiet_retire c b i c' : retire_request c b i = Ok c' -> quiet c c'.
Proof.
  unfold retire_request. intros H. apply bind_Ok_inv in H as (r & _ & H). apply bind_Ok_inv in H as (c1 & H1 & H).
  injection H as <-. etrans; [|apply quiet_set_buf]. etrans; [|apply quiet_complete]. etrans; [|apply quiet_forget].
  destruct (decide _); [by eapply quiet_active_add|by injection H1 as <-].
Qed.

Lemma quiet_promote c r p : promote c r = Ok p -> quiet c p.2.
Proof.
  unfold promote. intros H. destruct (enqueue _ _) as [k b]. destruct k.
  - apply bind_Ok_inv in H as (c1 & H1 & H). injection H as <-. apply quiet_active_add in H1. cbn. by etrans; [|exact H1].
  - by injection H as <-.
Qed.

Lemma quiet_promote_to_active c b i c' : promote_to_active c b i = Ok c' -> quiet c c'.
Proof.
  unfold promote_to_active. intros H. apply bind_Ok_inv in H as (r & _ & H). apply bind_Ok_inv in H as (p & H1 & H).
  apply quiet_promote in H1. dcase H; injection H as <-; [|done].
  etrans; [exact H1|]. etrans; [apply quiet_forget|apply quiet_set_buf].
Qed.

Lemma quiet_advance c b i c' : advance_request c b i = Ok c' -> quiet c c'.
Proof.
  unfold advance_request. intros H. apply bind_Ok_inv in H as (r & _ & H). dcase H; [by eapply quiet_retire|].
  apply bind_Ok_inv in H as (m & _ & H). dcase H; [by eapply quiet_promote_to_active|by injection H as <-].
Qed.

(** ** Scheduling *)
Lemma quiet_set_write_mode c : quiet c (set_write_mode c).
Proof. unfold set_write_mode. cbn zeta. by repeat case_match. Qed.

(** A chosen request whose command may be issued now. *)
Definition cand_ready (c : ControllerBase) (cand : Candidate) : Prop :=
  forall b i, cand = Some (b, i) ->
    exists r, request_at c b i = Ok r /\ ctrl_check_timing c (command r) (addr_vec r) = Ok true.

Definition picks (c : ControllerBase) (p : Candidate * ControllerBase) : Prop := quiet c p.2 /\ cand_ready p.2 p.1.

Lemma picks_none c c' : quiet c c' -> picks c (None, c').
Proof. by split. Qed.

Lemma picks_trans c0 c p : quiet c0 c -> picks c p -> picks c0 p.
Proof. intros H [H1 H2]. split; [by etrans|done]. Qed.

Lemma pick_best_ready_picks c b f p : pick_best_ready_from c b f = Ok p -> picks c p.
Proof.
  unfold pick_best_ready_from. intros H. apply bind_Ok_inv in H as (q & _ & H). cbn zeta in H.
  destruct q.1 as [it|]; [|injection H as <-; apply picks_none, quiet_set_buf].
  apply bind_Ok_inv in H as (r & Hr & H). apply bind_Ok_inv in H as (ok & Hok & H).
  destruct ok; injection H as <-; [|apply picks_none, quiet_set_buf].
  split; [apply quiet_set_buf|]. intros b' i [= <- <-]. eauto.
Qed.

Lemma pick_priority_picks c f p : pick_priority_if c f = Ok p -> picks c p.
Proof.
  unfold pick_priority_if. intros H. destruct (buffer (c_priority_buffer c)) as [|r rest] eqn:Hb;
    [by injection H as <-|].
  apply bind_Ok_inv in H as (cmd & _ & H). cbn zeta in H. apply bind_Ok_inv in H as (ok & Hok & H).
  destruct ok; cbn in H; [|by injection H as <-]. apply bind_Ok_inv in H as (cl & _ & H).
  destruct cl; [by injection H as <-|]. apply bind_Ok_inv in H as (fb & _ & H).
  destruct fb; cbn in H; injection H as <-; [|done]. split; [done|]. intros b i [= <- <-].
  exists (set_command r cmd). split; [|exact Hok]. unfold request_at. cbn. by rewrite Hb.
Qed.

Lemma pick_rw_picks c f p : pick_rw_if c f = Ok p -> picks c p.
Proof. intros H. eapply picks_trans; [apply quiet_set_write_mode|]. by eapply pick_best_ready_picks. Qed.

(** ** Row policy, plugins and refresh *)
Lemma quiet_rowpolicy_on_issue c r c' : rowpolicy_on_issue c r = Ok c' -> quiet c c'.
Proof. unfold rowpolicy_on_issue. intros H. destruct (c_rowpolicy c); inv_res; by subst. Qed.

Lemma quiet_plugins_on_issue c r c' : plugins_on_issue c r = Ok c' -> quiet c c'.
Proof. unfold plugins_on_issue. intros H. inv_res. by subst. Qed.

Lemma quiet_inject st i st' : inject_precharge st i = Ok st' -> quiet st.2 st'.2.
Proof.
  unfold inject_precharge. destruct st as [p c]. intros H. apply bind_Ok_inv in H as (n & _ & H).
  apply bind_Ok_inv in H as (j & _ & H). dcase H; [by injection H as <-|].
  apply bind_Ok_inv in H as (nd & _ & H). apply bind_Ok_inv in H as (av & _ & H).
  apply bind_Ok_inv in H as (ok & _ & H). dcase H; [by injection H as <-|].
  apply bind_Ok_inv in H as ([k c1] & H1 & H). apply quiet_priority_send in H1.
  dcase H; [apply bind_Ok_inv in H as (l & _ & H)|]; by injection H as <-.
Qed.

Lemma quiet_rowpolicy_pre c c' : rowpolicy_pre_schedule c = Ok c' -> quiet c c'.
Proof.
  unfold rowpolicy_pre_schedule. intros H. destruct (c_rowpolicy c) as [|p]; [by injection H as <-|].
  unfold ClosedCAP_pre_schedule in H. apply bind_Ok_inv in H as (st & Hf & H). injection H as <-.
  change (quiet c st.2). refine (foldM_inv (fun st => quiet c st.2) _ _ _ _ _ _ Hf); [|done].
  intros i a b _ Ha Hb. etrans; [exact Ha|]. by eapply quiet_inject.
Qed.

Lemma quiet_send_refresh cmd what c n c' : send_refresh cmd what c n = Ok c' -> quiet c c'.
Proof.
  unfold send_refresh. intros H. apply bind_Ok_inv in H as (av & _ & H).
  apply bind_Ok_inv in H as ([k c1] & H1 & H). apply quiet_priority_send in H1. dcase H; [|discriminate].
  by injection H as <-.
Qed.

Lemma quiet_service r c r' b c' : service_pending_refpb r c = Ok (b, r', c') -> quiet c c'.
Proof.
  unfold service_pending_refpb. intros H. destruct (h_pending_refpbs r); [by injection H as <- <- <-|].
  apply bind_Ok_inv in H as (av & _ & H). apply bind_Ok_inv in H as ([k c1] & H1 & H).
  apply quiet_priority_send in H1. dcase H; inv_res; by subst.
Qed.

Lemma quiet_refresh_tick c c' : refresh_tick c = Ok c' -> quiet c c'.
Proof.
  unfold refresh_tick. intros H. destruct (c_refresh c) as [|r|r|r].
  - by injection H as <-.
  - unfold AllBankRefresh_tick in H. dcase H; [|by injection H as <-]. cbn zeta in H.
    refine (foldM_inv (quiet c) _ _ _ _ _ _ H); [|by split_and!]. intros n a b _ Ha Hb. etrans; [exact Ha|].
    by eapply quiet_send_refresh.
  - unfold PerBankRefresh_tick in H. dcase H; [|by injection H as <-]. apply bind_Ok_inv in H as (n & _ & H).
    apply bind_Ok_inv in H as (c1 & H1 & H). apply quiet_send_refresh in H1. by injection H as <-.
  - unfold HBM34PerBankRefresh_tick in H. apply bind_Ok_inv in H as ([[b r1] c1] & H1 & H).
    apply quiet_service in H1. dcase H; [by injection H as <-|]. dcase H; [by injection H as <-|].
    apply bind_Ok_inv in H as (sd & _ & H). dcase H; [by injection H as <-|].
    apply bind_Ok_inv in H as ([[b2 r2] c2] & H2 & H). apply quiet_service in H2. injection H as <-.
    by transitivity c1; [|transitivity c2].
Qed.

(** The hooks before scheduling only advance the clock. *)
Definition tick_started (c c' : ControllerBase) : Prop :=
  c_device c' = c_device c /\ c_log c' = c_log c /\ c_clk c' = c_clk c + 1.

Lemma tick_started_quiet c c1 c2 : tick_started c c1 -> quiet c1 c2 -> tick_started c c2.
Proof. intros (? & ? & ?) (? & ? & ?). split_and!; congruence. Qed.

Lemma pre_tick_started c c' : pre_tick c = Ok c' -> tick_started c c'.
Proof.
  unfold pre_tick. intros H. apply bind_Ok_inv in H as (c1 & H1 & H). apply bind_Ok_inv in H as (c2 & H2 & H).
  injection H as <-. eapply tick_started_quiet; [apply (prologue_clk c)|].
  etrans; [by eapply quiet_refresh_tick|]. etrans; [by eapply quiet_rowpolicy_pre|]. by split_and!.
Qed.

(** ** Serving a candidate *)
Lemma request_write c b i r : is_Ok (request_at c b i) -> request_at (write_request c b i r) b i = Ok r.
Proof.
  unfold request_at, write_request, modify_at. intros [x H].
  destruct (buffer (get_buf c b) !! i) as [y|] eqn:E; [|discriminate].
  destruct b; cbn in *; by rewrite list_lookup_alter_eq, E.
Qed.

Lemma quiet_stats_once c b i c' : stats_once c b i = Ok c' -> quiet c c'.
Proof.
  unfold stats_once. intros H. apply bind_Ok_inv in H as (r & _ & H). dcase H; [by injection H as <-|].
  unfold update_request_stats in H. cbn zeta in H. apply bind_Ok_inv in H as (r' & _ & H).
  etrans; [apply quiet_set_buf|]. unfold count_row_outcome in H.
  repeat (dcase H || (apply bind_Ok_inv in H as (? & _ & H))); by injection H as <-.
Qed.

(** A request keeps its command and address while its statistics are counted. *)
Definition same_cmd (c c' : ControllerBase) (b : buf_id) (i : nat) : Prop :=
  forall r, request_at c b i = Ok r ->
    exists r', request_at c' b i = Ok r' /\ command r' = command r /\ addr_vec r' = addr_vec r /\
               final_command r' = final_command r.

Lemma count_row_outcome_bufs c r c' : count_row_outcome c r = Ok c' -> forall b, get_buf c' b = get_buf c b.
Proof.
  unfold count_row_outcome. intros H b.
  repeat (dcase H || (apply bind_Ok_inv in H as (? & _ & H))); injection H as <-; by destruct b.
Qed.

Lemma stats_once_same c b i c' : stats_once c b i = Ok c' -> same_cmd c c' b i.
Proof.
  unfold stats_once. intros H r Hr. rewrite Hr in H. cbn in H. dcase H; [injection H as <-; eauto|].
  unfold update_request_stats in H. cbn zeta in H. apply bind_Ok_inv in H as (r' & Hr' & H).
  apply count_row_outcome_bufs with (b := b) in H. exists r'. unfold request_at in *. rewrite H. split; [done|].
  destruct (buffer (get_buf c b) !! i) as [y|] eqn:E; [|discriminate]. injection Hr as ->.
  assert (Hy : buffer (get_buf (set_buf c b (modify_at (get_buf c b) i (fun r => set_stat_updated r true))) b) !! i
               = Some (set_stat_updated r true)) by (destruct b; cbn in *; by rewrite list_lookup_alter_eq, E).
  rewrite Hy in Hr'. by injection Hr' as <-.
Qed.

Lemma try_upgrade_ready c r r' :
  rowpolicy_try_upgrade_command c r = Ok r' ->
  addr_vec r' = addr_vec r /\
  (ctrl_check_timing c (command r) (addr_vec r) = Ok true -> ctrl_check_timing c (command r') (addr_vec r') = Ok true).
Proof.
  unfold rowpolicy_try_upgrade_command. intros H. destruct (c_rowpolicy c) as [|p]; [by injection H as <-|].
  unfold ClosedCAP_try_upgrade_command in H. do 2 (dcase H; [by injection H as <-|]).
  apply bind_Ok_inv in H as (id & _ & H). dcase H; [by injection H as <-|].
  apply bind_Ok_inv in H as (n & _ & H). dcase H; [by injection H as <-|].
  apply bind_Ok_inv in H as (rd & Hrd & H). destruct rd.
  { injection H as <-. cbn. split; [done|intros _]. by dcase Hrd. }
  apply bind_Ok_inv in H as (wr & Hwr & H). destruct wr; injection H as <-; [|done].
  cbn. split; [done|intros _]. by dcase Hwr.
Qed.

(** A candidate that stays ready. *)
Definition keeps_ready (c c' : ControllerBase) (b : buf_id) (i : nat) : Prop :=
  cand_ready c (Some (b, i)) -> quiet c c' /\ cand_ready c' (Some (b, i)).

Lemma write_keeps_ready c b i r' :
  (forall r, request_at c b i = Ok r -> ctrl_check_timing c (command r) (addr_vec r) = Ok true ->
     ctrl_check_timing c (command r') (addr_vec r') = Ok true) ->
  keeps_ready c (write_request c b i r') b i.
Proof.
  intros H Hc. destruct (Hc b i eq_refl) as (r & Hr & Ht). split; [apply quiet_set_buf|].
  intros b' i' [= <- <-]. exists r'. split; [apply request_write; by eexists|].
  rewrite (check_timing_quiet c) by apply quiet_set_buf. by eapply H.
Qed.

Lemma upgrade_keeps_ready c b i c' : upgrade_candidate c b i = Ok c' -> keeps_ready c c' b i.
Proof.
  unfold upgrade_candidate. intros H. apply bind_Ok_inv in H as (r & Hr & H). apply bind_Ok_inv in H as (r' & Hu & H).
  injection H as <-. apply write_keeps_ready. intros r0 Hr0 Ht. destruct (try_upgrade_ready _ _ _ Hu) as [_ Hk].
  apply Hk. congruence.
Qed.

Lemma upgrade_in_slot_keeps_ready sm c b i slot c' : upgrade_in_slot sm c b i slot = Ok c' -> keeps_ready c c' b i.
Proof.
  unfold upgrade_in_slot. intros H. apply bind_Ok_inv in H as (r & Hr & H). cbn zeta in H.
  apply bind_Ok_inv in H as (r' & Hu & H). apply bind_Ok_inv in H as (k & _ & H). injection H as <-.
  apply write_keeps_ready. intros r0 Hr0 Ht. assert (r0 = r) as -> by congruence.
  destruct (try_upgrade_ready _ _ _ Hu) as [Ha Hk]. destruct k; [by apply Hk|]. cbn. by rewrite Ha.
Qed.

Lemma stats_keeps_ready c b i c' : stats_once c b i = Ok c' -> keeps_ready c c' b i.
Proof.
  intros H Hc. pose proof (quiet_stats_once _ _ _ _ H) as Hq. split; [done|]. intros b' i' [= <- <-].
  destruct (Hc b i eq_refl) as (r & Hr & Ht).
  destruct (stats_once_same _ _ _ _ H r Hr) as (r' & Hr' & Hcm & Hav & _).
  exists r'. split; [done|]. rewrite (check_timing_quiet c) by done. by rewrite Hcm, Hav.
Qed.

Lemma issue_candidate_checked c b i c' :
  cand_ready c (Some (b, i)) -> issue_candidate c b i = Ok c' -> checked c c'.
Proof.
  intros Hc H. destruct (Hc b i eq_refl) as (r & Hr & Ht). unfold issue_candidate in H. rewrite Hr in H. cbn in H.
  apply bind_Ok_inv in H as (c1 & H1 & H). apply bind_Ok_inv in H as (c2 & H2 & H).
  apply (checked_intro _ _ c (command r) (addr_vec r) c1); [done..|].
  etrans; [by eapply quiet_rowpolicy_on_issue|by eapply quiet_plugins_on_issue].
Qed.

(** Zero or one checked command. *)
Definition at_most_one (c c' : ControllerBase) : Prop := quiet c c' \/ checked c c'.

Lemma at_most_one_quiet_l c0 c c' : quiet c0 c -> at_most_one c c' -> at_most_one c0 c'.
Proof. intros H [H1|H1]; [left; by etrans|right; by eapply checked_quiet_l]. Qed.

Lemma at_most_one_quiet_r c c' c1 : at_most_one c c' -> quiet c' c1 -> at_most_one c c1.
Proof. intros [H1|H1] H; [left; by etrans|right; by eapply checked_quiet_r]. Qed.

(** The part of a tick that every controller class shares. *)
Lemma serve_ready c1 c b i c2 c3 c4 :
  keeps_ready c1 c b i -> cand_ready c1 (Some (b, i)) ->
  stats_once c b i = Ok c2 -> issue_candidate c2 b i = Ok c3 -> quiet c3 c4 -> checked c1 c4.
Proof.
  intros Hk Hc Hs Hi Hq. destruct (Hk Hc) as [Hq1 Hc1]. destruct (stats_keeps_ready _ _ _ _ Hs Hc1) as [Hq2 Hc2].
  apply (checked_quiet_r _ c3); [|done]. apply (checked_quiet_l _ c); [done|]. apply (checked_quiet_l _ c2); [done|].
  by eapply issue_candidate_checked.
Qed.

Lemma select_candidate_picks c p : select_candidate c = Ok p -> picks c p.
Proof.
  unfold select_candidate. intros H. apply bind_Ok_inv in H as (p1 & H1 & H). apply pick_best_ready_picks in H1.
  apply bind_Ok_inv in H as (p2 & H2 & H).
  assert (Hp2 : picks c p2).
  { dcase H2; [by injection H2 as <-|]. eapply picks_trans; [apply H1|]. by eapply pick_priority_picks. }
  dcase H; [by injection H as <-|]. eapply picks_trans; [apply Hp2|]. by eapply pick_rw_picks.
Qed.

Lemma serve_candidate_checked c cand c' :
  cand_ready c cand -> serve_candidate cand c = Ok c' -> at_most_one c c'.
Proof.
  intros Hc H. destruct cand as [[b i]|]; [|injection H as <-; by left]. cbn in H.
  apply bind_Ok_inv in H as (c1 & H1 & H). apply bind_Ok_inv in H as (c2 & H2 & H).
  apply bind_Ok_inv in H as (c3 & H3 & H). right.
  eapply (serve_ready c c1); [by apply upgrade_keeps_ready|done..|by eapply quiet_advance].
Qed.

(** ** The HBM slots *)
Lemma select_slot_picks sm c slot p : select_slot sm c slot = Ok p -> picks c p.
Proof.
  unfold select_slot. cbn zeta. intros H. apply bind_Ok_inv in H as (p1 & H1 & H).
  assert (Hp1 : picks c p1).
  { destruct (decide _); [by eapply pick_best_ready_picks|]. injection H1 as <-. by apply picks_none. }
  apply bind_Ok_inv in H as (p2 & H2 & H).
  assert (Hp2 : picks c p2).
  { dcase H2; [by injection H2 as <-|]. eapply picks_trans; [apply Hp1|]. by eapply pick_priority_picks. }
  dcase H; [by injection H as <-|]. eapply picks_trans; [apply Hp2|]. by eapply pick_rw_picks.
Qed.

Lemma try_issue_slot_checked sm c slot o c' : try_issue_slot sm c slot = Ok (o, c') -> at_most_one c c'.
Proof.
  unfold try_issue_slot. intros H. apply bind_Ok_inv in H as ([cand c0] & H0 & H). apply select_slot_picks in H0 as [Hq Hc].
  cbn in Hq, Hc, H. destruct cand as [[b i]|]; [|injection H as <- <-; by left].
  apply bind_Ok_inv in H as (c1 & H1 & H). apply bind_Ok_inv in H as (c2 & H2 & H).
  apply bind_Ok_inv in H as (r & _ & H). apply bind_Ok_inv in H as (c3 & H3 & H). apply bind_Ok_inv in H as (c4 & H4 & H).
  injection H as _ <-. right. apply (checked_quiet_l _ c0); [done|].
  eapply (serve_ready c0 c1); [by eapply upgrade_in_slot_keeps_ready|done..|by eapply quiet_advance].
Qed.

(** ** The LPDDR5 scans *)
Definition act2_ready (l : LPDDR5Controller) (i : nat) : Prop :=
  exists r, activating_at l i = Ok r /\
    ctrl_check_timing (l_base l) (l_cmd_act2 (l_const l)) (addr_vec r) = Ok true.

Definition scan_ready (l : LPDDR5Controller) (st : act2_scan) : Prop :=
  forall i dl ar, sc_best st = Some (i, dl, ar) ->
    exists r, sc_buffer st !! i = Some r /\
      ctrl_check_timing (l_base l) (l_cmd_act2 (l_const l)) (addr_vec r) = Ok true.

Lemma scan_keep l best buf it r r' :
  buf !! it = Some r -> addr_vec r' = addr_vec r -> scan_ready l (mkScan best buf) ->
  scan_ready l (mkScan best (<[it := r']> buf)).
Proof.
  intros Hr Ha H i dl ar Hb. destruct (H i dl ar Hb) as (x & Hx & Ht). cbn in *.
  destruct (decide (i = it)) as [->|Hne].
  - exists r'. rewrite list_lookup_insert_eq by (by eapply lookup_lt_Some). split; [done|]. rewrite Ha. congruence.
  - exists x. by rewrite list_lookup_insert_ne.
Qed.

Lemma act2_step_ready l kind st it st' : scan_ready l st -> act2_step l kind st it = Ok st' -> scan_ready l st'.
Proof.
  intros Hst H. unfold act2_step in H. cbn zeta in H. apply bind_Ok_inv in H as (r & Hr & H).
  do 5 (apply bind_Ok_inv in H as (? & _ & H)). apply bind_Ok_inv in H as (ok & Hok & H).
  apply bind_Ok_inv in H as (skip & Hskip & H). cbn in Hok.
  assert (Hr' : sc_buffer st !! it = Some r)
    by (destruct (sc_buffer st !! it) as [y|]; [injection Hr as ->; done|discriminate]).
  destruct st as [best buf]. cbn in Hr', H, Hst.
  assert (Hkeep : scan_ready l (mkScan best (<[it := set_command r (l_cmd_act2 (l_const l))]> buf))) by (by eapply scan_keep).
  destruct skip; [by injection H as <-|].
  assert (Hok' : ok = true).
  { destruct kind; [apply bind_Ok_inv in Hskip as (? & _ & Hskip)|]; injection Hskip as Hskip;
      [by destruct ok; [|rewrite orb_true_r in Hskip]|by destruct ok]. }
  subst ok.
  assert (Hnew : forall dl, scan_ready l (mkScan (Some (it, dl, arrive r)) (<[it := set_command r (l_cmd_act2 (l_const l))]> buf))).
  { intros dl i dl' ar [= <- <- <-]. cbn. eexists. split; [apply list_lookup_insert_eq; by eapply lookup_lt_Some|done]. }
  repeat case_match; injection H as <-; solve [apply Hkeep|apply Hnew].
Qed.

Lemma pick_act2_ready kind l o l' :
  pick_act2 kind l = Ok (o, l') ->
  l_base l' = l_base l /\ l_const l' = l_const l /\ m_cas_issued l' = m_cas_issued l /\
  forall i, o = Some i -> act2_ready l' i.
Proof.
  unfold pick_act2. intros H. cbn zeta in H. apply bind_Ok_inv in H as (st & Hst & H). injection H as <- <-.
  split_and!; [done..|]. intros i Hi.
  assert (Hs : scan_ready l st).
  { refine (foldM_inv (scan_ready l) _ _ _ _ _ _ Hst); [|by intros ? ? ? [=]].
    intros it a b _ Ha Hb. by eapply act2_step_ready. }
  destruct (sc_best st) as [[[j dl] ar]|] eqn:E; [|discriminate]. injection Hi as <-.
  destruct (Hs j dl ar E) as (r & Hr & Ht). exists r. split; [|done]. unfold activating_at. cbn. by rewrite Hr.
Qed.

Lemma lp_notify_quiet l r l' :
  lp_notify l r = Ok l' -> quiet (l_base l) (l_base l').
Proof.
  unfold lp_notify. intros H. apply bind_Ok_inv in H as (c1 & H1 & H). apply bind_Ok_inv in H as (c2 & H2 & H).
  injection H as <-. etrans; [by eapply quiet_rowpolicy_on_issue|by eapply quiet_plugins_on_issue].
Qed.

Lemma set_owner_base l bank v dl l' : set_owner l bank v dl = Ok l' -> l_base l' = l_base l.
Proof. unfold set_owner. intros H. inv_res. by subst. Qed.

Lemma promote_from_activating_quiet l i l' :
  promote_from_activating l i = Ok l' -> quiet (l_base l) (l_base l').
Proof.
  unfold promote_from_activating. intros H. do 6 (apply bind_Ok_inv in H as (? & _ & H)).
  apply bind_Ok_inv in H as (p & Hp & H). apply bind_Ok_inv in H as (? & _ & H).
  apply set_owner_base in H. rewrite H. by eapply quiet_promote.
Qed.

Lemma move_to_activating_quiet l b i l' : move_to_activating l b i = Ok l' -> quiet (l_base l) (l_base l').
Proof.
  unfold move_to_activating. intros H. cbn zeta in H. do 4 (apply bind_Ok_inv in H as (? & _ & H)).
  destruct (enqueue _ _) as [k ab]. apply bind_Ok_inv in H as (? & _ & H). apply set_owner_base in H.
  rewrite H. cbn. etrans; [apply quiet_forget|apply quiet_set_buf].
Qed.

Lemma count_row_outcome_quiet c r c' : count_row_outcome c r = Ok c' -> quiet c c'.
Proof.
  unfold count_row_outcome. intros H. repeat (dcase H || (apply bind_Ok_inv in H as (? & _ & H))); by injection H as <-.
Qed.

Lemma issue_owned_act2_checked l i kind l' :
  act2_ready l i -> issue_owned_act2 l i kind = Ok l' -> checked (l_base l) (l_base l').
Proof.
  intros (r & Hr & Ht) H. unfold issue_owned_act2 in H. rewrite Hr in H. cbn [mbind res_bind] in H.
  do 6 (apply bind_Ok_inv in H as (? & _ & H)). apply bind_Ok_inv in H as (l1 & H1 & H).
  assert (Hq : quiet (l_base l) (l_base l1) /\ l_const l1 = l_const l).
  { dcase H1; [by injection H1 as <-|]. apply bind_Ok_inv in H1 as (c1 & Hc & H1). injection H1 as <-.
    split; [|done]. by eapply count_row_outcome_quiet. }
  destruct Hq as [Hq Hk]. apply bind_Ok_inv in H as (c2 & H2 & H). apply bind_Ok_inv in H as (r2 & _ & H).
  apply bind_Ok_inv in H as (l3 & H3 & H). apply bind_Ok_inv in H as (l4 & H4 & H).
  apply lp_notify_quiet in H3. cbn in H3. apply promote_from_activating_quiet in H4.
  apply (checked_intro _ _ (l_base l1) (l_cmd_act2 (l_const l)) (addr_vec r) c2); [done|..].
  - by rewrite (check_timing_quiet (l_base l)).
  - by rewrite <- Hk.
  - etrans; [exact H3|]. etrans; [exact H4|]. destruct kind; by injection H as <-.
Qed.

Lemma try_issue_cas_sync_checked l b i s l' :
  try_issue_cas_sync l b i = Ok (s, l') ->
  at_most_one (l_base l) (l_base l') /\ (s = false -> l' = l).
Proof.
  unfold try_issue_cas_sync. intros H. cbn zeta in H. apply bind_Ok_inv in H as (r & Hr & H).
  dcase H; [injection H as <- <-; split; [by left|done]|]. dcase H.
  - apply bind_Ok_inv in H as ([o l1] & H1 & H). apply pick_act2_ready in H1 as (Hb & _ & _ & Ha). cbn in H.
    destruct o as [j|]; [|discriminate]. apply bind_Ok_inv in H as (l2 & H2 & H). injection H as <- <-.
    split; [|done]. right. rewrite <- Hb. by eapply issue_owned_act2_checked; [apply Ha|].
  - apply bind_Ok_inv in H as (ok & Hok & H). destruct ok; cbn in H; [|injection H as <- <-; split; [by left|done]].
    apply bind_Ok_inv in H as (c1 & H1 & H). apply bind_Ok_inv in H as (l1 & H2 & H). injection H as <- <-.
    split; [|done]. apply lp_notify_quiet in H2. right. by eapply checked_intro; [reflexivity|..].
Qed.

Lemma issue_standard_checked l b i l' :
  cand_ready (l_base l) (Some (b, i)) -> issue_standard_candidate l b i = Ok l' -> checked (l_base l) (l_base l').
Proof.
  intros Hc H. unfold issue_standard_candidate in H. cbn zeta in H. apply bind_Ok_inv in H as (c1 & H1 & H).
  apply bind_Ok_inv in H as (r & _ & H). apply bind_Ok_inv in H as (bank & _ & H). apply bind_Ok_inv in H as (? & _ & H).
  apply bind_Ok_inv in H as (c2 & H2 & H). apply bind_Ok_inv in H as (c3 & H3 & H).
  assert (Hs : stats_once c1 b i = Ok c2).
  { rewrite <- H2. f_equal. unfold extend_wck_expiry. cbn zeta. by repeat case_match. }
  eapply (serve_ready (l_base l) c1); [by apply upgrade_keeps_ready|done|exact Hs|exact H3|].
  dcase H; [by apply move_to_activating_quiet in H|].
  apply bind_Ok_inv in H as (c4 & H4 & H). injection H as <-. by eapply quiet_advance.
Qed.

Lemma continue_cas_checked l l' : continue_cas l = Ok l' -> at_most_one (l_base l) (l_base l').
Proof.
  unfold continue_cas. intros H. destruct (m_cas_req l) as [[b i]|]; [|discriminate].
  apply bind_Ok_inv in H as (r & Hr & H). apply bind_Ok_inv in H as (ok & Hok & H).
  destruct ok; cbn in H; [|injection H as <-; by left]. right.
  apply bind_Ok_inv in H as (c2 & H2 & H). apply bind_Ok_inv in H as (c3 & H3 & H). apply bind_Ok_inv in H as (c4 & H4 & H).
  injection H as <-. cbn.
  assert (Hs : stats_once (l_base l) b i = Ok c2).
  { rewrite <- H2. f_equal. unfold extend_wck_expiry. cbn zeta. by repeat case_match. }
  eapply (serve_ready (l_base l) (l_base l)); [by intros Hc; split|..|exact Hs|exact H3|].
  - intros b' i' [= <- <-]. eauto.
  - dcase H4; [by eapply quiet_retire|by injection H4 as <-].
Qed.

Lemma select_normal_picks l cand l' :
  select_normal_candidate l = Ok (cand, l') ->
  quiet (l_base l) (l_base l') /\ cand_ready (l_base l') cand.
Proof.
  unfold select_normal_candidate. intros H. apply bind_Ok_inv in H as (p1 & H1 & H). apply pick_best_ready_picks in H1.
  apply bind_Ok_inv in H as (p2 & H2 & H).
  assert (Hp2 : picks (l_base l) p2).
  { dcase H2; [by injection H2 as <-|]. eapply picks_trans; [apply H1|]. by eapply pick_priority_picks. }
  apply bind_Ok_inv in H as (p3 & H3 & H). injection H as <- <-.
  dcase H3; [by injection H3 as <-|]. by eapply picks_trans; [apply Hp2|eapply pick_rw_picks].
Qed.

Lemma LPDDR5_slot l l' : LPDDR5_tick l = Ok l' ->
  exists c, tick_started (l_base l) c /\ at_most_one c (l_base l').
Proof.
  unfold LPDDR5_tick. intros H. apply bind_Ok_inv in H as (c & Hp & H). exists c. split; [by apply pre_tick_started|].
  apply bind_Ok_inv in H as ([u l1] & Hu & H). apply pick_act2_ready in Hu as (Hb & _ & _ & Ha). cbn in Hb, H.
  rewrite <- Hb. dcase H.
  { apply bind_Ok_inv in H as (? & _ & H). apply bind_Ok_inv in H as (l2 & H2 & H). injection H as <-.
    cbn. by apply continue_cas_checked. }
  apply bind_Ok_inv in H as (l2 & H2 & H). injection H as <-. cbn.
  destruct u as [i|]; [right; by eapply issue_owned_act2_checked; [apply Ha|]|].
  apply bind_Ok_inv in H2 as ([cand l3] & H3 & H2). apply select_normal_picks in H3 as [Hq Hc]. cbn in H2.
  apply (at_most_one_quiet_l _ (l_base l3)); [done|]. destruct cand as [[b i]|].
  - apply bind_Ok_inv in H2 as ([s l4] & H4 & H2). apply try_issue_cas_sync_checked in H4 as [H4 Hs]. cbn in H2.
    destruct s; [by injection H2 as <-|]. rewrite (Hs eq_refl) in H2. right. by eapply issue_standard_checked.
  - apply bind_Ok_inv in H2 as ([o l4] & H4 & H2). apply pick_act2_ready in H4 as (Hb4 & _ & _ & Ha4). cbn in H2.
    rewrite <- Hb4. destruct o as [i|]; [right; by eapply issue_owned_act2_checked; [apply Ha4|]|].
    injection H2 as <-. by left.
Qed.

(** ** What a tick promises *)
Inductive issues : nat -> ControllerBase -> ControllerBase -> Prop :=
| issues_quiet n c c' : quiet c c' -> issues n c c'
| issues_step n c c1 c' : checked c c1 -> issues n c1 c' -> issues (S n) c c'.

Lemma at_most_one_issues n c c1 c2 : at_most_one c c1 -> issues n c1 c2 -> issues (S n) c c2.
Proof.
  intros [H|H] Hi; [|by eapply issues_step]. destruct Hi as [n c1 c2 H2|n c1 x c2 H1 H2].
  - apply issues_quiet. by etrans.
  - apply (issues_step _ _ x); [by eapply checked_quiet_l|]. clear -H2.
    induction H2; [by apply issues_quiet|by eapply issues_step].
Qed.

Lemma GenericDDR_slot c c' : GenericDDR_tick c = Ok c' ->
  exists c1, tick_started c c1 /\ issues 1 c1 c'.
Proof.
  unfold GenericDDR_tick. intros H. apply bind_Ok_inv in H as (c1 & H1 & H). exists c1.
  split; [by apply pre_tick_started|]. apply bind_Ok_inv in H as ([cand c2] & H2 & H).
  apply select_candidate_picks in H2 as [Hq Hc]. cbn [fst snd] in *. apply bind_Ok_inv in H as (c3 & H3 & H).
  injection H as <-. apply (at_most_one_issues 0 c1 c3); [|by apply issues_quiet].
  eapply at_most_one_quiet_l; [exact Hq|]. by eapply serve_candidate_checked.
Qed.

Lemma HBM_slot c c' : HBM_tick c = Ok c' -> exists c1, tick_started c c1 /\ issues 2 c1 c'.
Proof.
  unfold HBM_tick, hbm_tick_prologue. intros H. apply bind_Ok_inv in H as (c1 & H1 & H). exists c1. split; [by apply pre_tick_started|].
  apply bind_Ok_inv in H as ([o1 c2] & H2 & H). apply bind_Ok_inv in H as ([o2 c3] & H3 & H). cbn [fst snd] in *.
  injection H as <-. apply (at_most_one_issues 1 c1 c2); [by eapply try_issue_slot_checked|].
  apply (at_most_one_issues 0 c2 c3); [by eapply try_issue_slot_checked|by apply issues_quiet].
Qed.

Lemma HBM34_slot h h' : HBM34_tick h = Ok h' -> exists c1, tick_started (h34_base h) c1 /\ issues 2 c1 (h34_base h').
Proof.
  unfold HBM34_tick, hbm_tick_prologue. intros H. apply bind_Ok_inv in H as (c1 & H1 & H). cbn zeta in H.
  exists c1. split; [by apply pre_tick_started|].
  apply bind_Ok_inv in H as ([o1 c2] & H2 & H). apply bind_Ok_inv in H as ([o2 c3] & H3 & H). cbn [fst snd] in *.
  apply bind_Ok_inv in H as (h1 & _ & H). injection H as <-. cbn [h34_base with_h34_base].
  apply (at_most_one_issues 1 c1 c2).
  - dcase H2; [by eapply try_issue_slot_checked|]. injection H2 as <- <-. by left.
  - apply (at_most_one_issues 0 c2 c3); [by eapply try_issue_slot_checked|by apply issues_quiet].
Qed.

(** A controller whose tick advances the clock by one cycle and issues at
    most [slots] commands in it, each accepted by the timing check. *)
Class TracedController (A : Type) `{IController A} := {
  slots : nat;
  tick_traced : forall a a', ctl_tick a = Ok a' -> exists c, tick_started (base a) c /\ issues slots c (base a')
}.

Lemma GenericDDRController_slot a a' : GenericDDRController_tick a = Ok a' ->
  exists c, tick_started (g_base a) c /\ issues 1 c (g_base a').
Proof. unfold GenericDDRController_tick. intros (c & H & <-)%fmap_Ok_inv. by apply GenericDDR_slot. Qed.

Lemma HBM12Controller_slot a a' : HBM12Controller_tick a = Ok a' ->
  exists c, tick_started (h12_base a) c /\ issues 2 c (h12_base a').
Proof. unfold HBM12Controller_tick. intros (c & H & <-)%fmap_Ok_inv. by apply HBM_slot. Qed.

Lemma LPDDR5_one_slot l l' : LPDDR5_tick l = Ok l' ->
  exists c, tick_started (l_base l) c /\ issues 1 c (l_base l').
Proof.
  intros H. destruct (LPDDR5_slot l l' H) as (c & Hs & Hi). exists c. split; [done|].
  apply (at_most_one_issues 0 c (l_base l')); [done|by apply issues_quiet].
Qed.

Lemma issues_weaken n m c c' : (n <= m)%nat -> issues n c c' -> issues m c c'.
Proof.
  intros Hle Hi. revert m Hle. induction Hi as [n c c' Hq|n c c1 c' Hc Hi IH]; intros m Hle; [by apply issues_quiet|].
  destruct m as [|m]; [lia|]. eapply issues_step; [exact Hc|]. apply IH. lia.
Qed.

#[local] Strategy opaque [GenericDDRController_tick HBM12Controller_tick HBM34_tick LPDDR5_tick].

Lemma controller_slots a a' : controller_tick a = Ok a' ->
  exists c, tick_started (controller_base a) c /\ issues 2 c (controller_base a').
Proof.
  destruct a as [a|a|a|a]; unfold controller_tick; intros (b & H & <-)%fmap_Ok_inv.
  - destruct (GenericDDRController_slot a b H) as (c & Hs & Hi). exists c. split; [done|].
    by apply (issues_weaken 1); [lia|].
  - by apply HBM12Controller_slot.
  - by apply HBM34_slot.
  - destruct (LPDDR5_one_slot a b H) as (c & Hs & Hi). exists c. split; [done|]. by apply (issues_weaken 1); [lia|].
Qed.

#[export] Instance GenericDDR_traced : TracedController GenericDDRController :=
  { slots := 1; tick_traced := GenericDDRController_slot }.
#[export] Instance HBM12_traced : TracedController HBM12Controller := { slots := 2; tick_traced := HBM12Controller_slot }.
#[export] Instance HBM34_traced : TracedController HBM34Controller := { slots := 2; tick_traced := HBM34_slot }.
#[export] Instance LPDDR5_traced : TracedController LPDDR5Controller := { slots := 1; tick_traced := LPDDR5_one_slot }.
#[export] Instance any_traced : TracedController controller := { slots := 2; tick_traced := controller_slots }.

(** ** Legal traces *)
Inductive legal (dev0 : DRAMDevice) : list issued -> DRAMDevice -> Prop :=
| legal_nil : legal dev0 [] dev0
| legal_snoc hs dev h dev' :
    legal dev0 hs dev -> dev_check_timing dev (i_cmd h) (i_av h) (i_clk h) = Ok true ->
    issue_command dev (i_cmd h) (i_av h) (i_clk h) = Ok dev' -> legal dev0 (hs ++ [h]) dev'.

Lemma legal_issue_all dev0 hs dev : legal dev0 hs dev -> issue_all hs dev0 = Ok dev.
Proof.
  induction 1 as [|hs dev h dev' _ IH _ Hi]; [done|]. unfold issue_all in *. rewrite foldM_app, IH. cbn. by rewrite Hi.
Qed.

Lemma legal_take dev0 hs dev : legal dev0 hs dev -> forall k h, hs !! k = Some h ->
  exists dk dk', legal dev0 (take k hs) dk /\ dev_check_timing dk (i_cmd h) (i_av h) (i_clk h) = Ok true /\
    issue_command dk (i_cmd h) (i_av h) (i_clk h) = Ok dk'.
Proof.
  induction 1 as [|hs dev h dev' Hl IH Hc Hi]; intros k x Hx; [done|].
  destruct (decide (k < length hs)%nat) as [Hk|Hk].
  - rewrite lookup_app_l in Hx by done. rewrite take_app_le by lia. by apply IH.
  - rewrite lookup_app_r in Hx by lia. apply list_lookup_singleton_Some in Hx as [Hx0 ->].
    rewrite take_app_length' by lia. eauto.
Qed.

(** The part of the state of a controller that a trace determines. *)
Record trace_inv (dev0 : DRAMDevice) (n : nat) (c : ControllerBase) : Prop := {
  ti_legal : legal dev0 (c_log c) (c_device c);
  ti_clk : 0 <= c_clk c;
  ti_times : Forall (fun h => 0 <= i_clk h <= c_clk c) (c_log c);
  ti_sorted : StronglySorted Z.le (map i_clk (c_log c));
  ti_slots : forall t, (count (fun h => (i_clk h =? t)%Z) (c_log c) <= n)%nat
}.

Lemma quiet_trace dev0 n c c' : quiet c c' -> trace_inv dev0 n c -> trace_inv dev0 n c'.
Proof. intros (Hd & Hl & Hc) [? ? ? ? ?]. split; rewrite ?Hd, ?Hl, ?Hc; done. Qed.

Lemma checked_log c c' : checked c c' ->
  exists h, c_log c' = c_log c ++ [h] /\ i_clk h = c_clk c /\ c_clk c' = c_clk c /\
    dev_check_timing (c_device c) (i_cmd h) (i_av h) (i_clk h) = Ok true /\
    issue_command (c_device c) (i_cmd h) (i_av h) (i_clk h) = Ok (c_device c').
Proof.
  intros [c0 cmd av c1 (Hd0 & Hl0 & Hc0) Ht Hi (Hd1 & Hl1 & Hc1)]. unfold issue in Hi.
  apply bind_Ok_inv in Hi as (dev & Hi & [= <-]). cbn in Hd1, Hl1, Hc1.
  exists (mkIssued cmd av (c_clk c)). cbn. unfold ctrl_check_timing in Ht.
  rewrite Hd0, Hc0 in Ht, Hi. rewrite Hl1, Hd1, Hc1, Hl0, Hc0. done.
Qed.

Lemma issues_log n c c' : issues n c c' ->
  exists hs, (length hs <= n)%nat /\ c_log c' = c_log c ++ hs /\ c_clk c' = c_clk c /\
    Forall (fun h => i_clk h = c_clk c) hs /\
    forall dev0, legal dev0 (c_log c) (c_device c) -> legal dev0 (c_log c') (c_device c').
Proof.
  induction 1 as [n c c' (Hd & Hl & Hc)|n c c1 c' Hch _ (hs & Hlen & Hl & Hc & Hcl & Hleg)].
  - exists []. rewrite Hl, Hd, app_nil_r. cbn. split_and!; [lia|done..].
  - apply checked_log in Hch as (h & Hl1 & Hh & Hc1 & Ht & Hi). exists (h :: hs). cbn. split_and!.
    + lia.
    + by rewrite Hl, Hl1, <- app_assoc.
    + congruence.
    + constructor; [done|]. by rewrite <- Hc1.
    + intros dev0 H0. apply Hleg. rewrite Hl1. by eapply legal_snoc.
Qed.

Lemma StronglySorted_app_le (l k : list Z) (x : Z) :
  StronglySorted Z.le l -> Forall (fun y => y <= x) l -> Forall (fun y => y = x) k -> StronglySorted Z.le (l ++ k).
Proof.
  intros Hs Hl Hk. induction Hs as [|y l Hs IH Hy]; cbn.
  - induction Hk as [|y k -> Hk IH]; constructor; [done|]. eapply Forall_impl; [exact Hk|]. cbn. lia.
  - inversion_clear Hl. constructor; [by apply IH|]. apply Forall_app. split; [done|].
    eapply Forall_impl; [exact Hk|]. cbn. lia.
Qed.

Lemma count_all_false {A} (p : A -> bool) l : Forall (fun x => p x = false) l -> count p l = 0%nat.
Proof. induction 1 as [|x l Hx _ IH]; [done|]. by rewrite count_cons, Hx, IH. Qed.

Lemma count_le_length {A} (p : A -> bool) l : (count p l <= length l)%nat.
Proof. induction l as [|x l IH]; [done|]. rewrite count_cons. cbn. destruct (p x); lia. Qed.

Lemma tick_trace dev0 n c c1 c' :
  tick_started c c1 -> issues n c1 c' -> trace_inv dev0 n c -> trace_inv dev0 n c'.
Proof.
  intros (Hd & Hl & Hc) Hi [H1 H2 H3 H4 H5]. apply issues_log in Hi as (hs & Hlen & Hl' & Hc' & Hcl & Hleg).
  assert (Hb : Forall (fun h => 0 <= i_clk h <= c_clk c1) (c_log c1)).
  { rewrite Hl. eapply Forall_impl; [exact H3|]. cbn. lia. }
  split.
  - apply Hleg. by rewrite Hl, Hd.
  - lia.
  - rewrite Hl', Hc'. apply Forall_app. split; [done|]. eapply Forall_impl; [exact Hcl|]. cbn. lia.
  - rewrite Hl', map_app. apply (StronglySorted_app_le _ _ (c_clk c1)).
    + by rewrite Hl.
    + apply Forall_fmap. eapply Forall_impl; [exact Hb|]. cbn. lia.
    + by apply Forall_fmap.
  - intros t. rewrite Hl', count_app, Hl. specialize (H5 t). destruct (decide (t = c_clk c1)) as [->|Hne].
    + rewrite (count_all_false _ (c_log c)); [pose proof (count_le_length (fun h => (i_clk h =? c_clk c1)%Z) hs); lia|].
      eapply Forall_impl; [exact H3|]. cbn. lia.
    + rewrite (count_all_false _ hs); [lia|]. eapply Forall_impl; [exact Hcl|]. cbn. lia.
Qed.

Section Traced.
Context {A : Type} `{TracedController A}.

Lemma reach_trace dev0 (a0 a : A) :
  trace_inv dev0 slots (base a0) -> reach a0 a -> trace_inv dev0 slots (base a).
Proof.
  intros Hini. induction 1 as [|a req ok req' a' _ IH Hs|a req ok a' _ IH Hs|a a' _ IH Ht]; [done|..].
  - unfold ctl_send in Hs. apply bind_Ok_inv in Hs as ([[k r] c] & Hs & He). injection He as _ _ <-.
    rewrite base_set_base. eapply quiet_trace; [by eapply quiet_send|done].
  - unfold ctl_priority_send in Hs. apply bind_Ok_inv in Hs as ([k c] & Hs & He). injection He as _ <-.
    rewrite base_set_base. eapply quiet_trace; [by eapply quiet_priority_send|done].
  - destruct (tick_traced a a' Ht) as (c & Hst & Hi). by eapply tick_trace.
Qed.

(** The state in which a memory system hands a controller over. *)
Definition starts (a0 : A) (dev0 : DRAMDevice) (ch : Z) : Prop :=
  c_device (base a0) = set_channel_id dev0 ch /\ c_log (base a0) = [] /\ c_clk (base a0) = 0.

Lemma starts_trace (a0 : A) dev0 ch : starts a0 dev0 ch -> trace_inv (set_channel_id dev0 ch) slots (base a0).
Proof.
  intros (Hd & Hl & Hc). split; rewrite ?Hd, ?Hl, ?Hc; try done; [apply legal_nil|constructor..|cbn; lia].
Qed.

(** C2: End to end timing safety, for every controller class (GenericDDR, HBM1/2,
    HBM3/4, LPDDR5): after any interleaving of send, priority_send and tick calls, with
    any requests, refresh manager, row policy and plugins, every command in the issued
    trace satisfied all timing constraints of the standard against all commands issued
    before it. *)
Theorem issued_commands_obey_timing d cfg s dev0 ch (a0 a : A) k h :
  In d all_standards -> construct d cfg = Ok s -> init s = Ok dev0 -> starts a0 dev0 ch -> reach a0 a ->
  c_log (base a) !! k = Some h ->
  forall p x, node_at (m_root dev0) p = Some x -> visits (i_av h) 0 p = true ->
    timing_ok s (length p) (events_at 0 ch p (take k (c_log (base a)))) (i_cmd h) (i_clk h).
Proof.
  intros Hin Hcon Hi Hst Hr Hk p x Hx Hv.
  pose proof (reach_trace _ _ _ (starts_trace _ _ _ Hst) Hr) as [Hl _ Ht _ _].
  destruct (legal_take _ _ _ Hl k h Hk) as (dk & dk' & Hlk & Hc & Hik).
  pose proof (legal_issue_all _ _ _ Hlk) as Hrun.
  pose proof (Forall_lookup_1 _ _ _ _ Ht Hk) as Hhc. cbn in Hhc.
  assert (Hsp : m_spec dev0 = s).
  { unfold init in Hi. inv_res. by subst. }
  destruct (issue_all_run s _ (set_channel_id dev0 ch) dk _ Hsp ltac:(reflexivity) Hrun) as (n & _ & _).
  assert (Hspk : m_spec dk = s).
  { clear -Hlk Hsp. induction Hlk as [|hs dv h dv' _ IH _ Hi]; [done|]. rewrite <- IH. unfold issue_command in Hi.
    apply bind_Ok_inv in Hi as (r & _ & Ha). by apply apply_action_equiv in Ha as [-> _]. }
  destruct (standard_static d cfg s Hin Hcon) as (Hcs & _).
  assert (Hcr : 0 <= i_cmd h < command_count s).
  { rewrite <- Hspk. eapply issue_cmd_range; [|exact Hik]. rewrite Hspk. apply Hcs. }
  refine (proj1 (check_after_history d cfg s dev0 ch _ dk (i_cmd h) (i_av h) (i_clk h) true
    Hin Hcon Hi _ Hrun Hcr (proj1 Hhc) Hc) eq_refl p x Hx Hv).
  apply Forall_take. eapply Forall_impl; [exact Ht|]. cbn. lia.
Qed.

(** C19: The issued trace is in time order, the state of the device is the result of
    issuing it, and no cycle carries more commands than the controller class has slots:
    one for GenericDDR and LPDDR5, two (row and column bus) for HBM. *)
Theorem command_bus_exclusive dev0 ch (a0 a : A) :
  starts a0 dev0 ch -> reach a0 a ->
  StronglySorted Z.le (map i_clk (c_log (base a))) /\
  Forall (fun h => 0 <= i_clk h <= c_clk (base a)) (c_log (base a)) /\
  (forall t, (count (fun h => (i_clk h =? t)%Z) (c_log (base a)) <= slots)%nat) /\
  issue_all (c_log (base a)) (set_channel_id dev0 ch) = Ok (c_device (base a)).
Proof.
  intros Hst Hr. pose proof (reach_trace _ _ _ (starts_trace _ _ _ Hst) Hr) as [Hl _ Ht Hs Hn].
  split_and!; [done..|]. by apply legal_issue_all.
Qed.
End Traced.
