(* ===== verification/Settle.v ===== *)
(** * Settle: a device that was left alone is ready, and the LPDDR5 table

    Every entry of the timing table is a number of cycles between two
    commands.  [settle_time] is the largest of them: when a controller has
    issued nothing for that long, every command passes the timing check. *)
From Stdlib Require Import Sorted.
From stdpp Require Import prelude gmap strings.
From S2P Require Import Prelude DramSpec Commands Standards Node NodeTiming NodeTree Device DeviceInv DeviceProps Request AddrMapper Float32 ControllerState Controller Refresh RowPolicy ControllerInit GenericDdr Hbm Lpddr5 Controllers ControllerTrace.
Open Scope Z_scope.

(** ** On histories *)
Lemma times_app k p evs evs' : times k p (evs ++ evs') = times k p evs ++ times k p evs'.
Proof. apply omap_app. Qed.

Lemma times_bound k p evs t x : Forall (fun e : event => e.2 <= x) evs -> t ∈ times k p evs -> t <= x.
Proof.
  intros Hb Ht. apply list_elem_of_omap in Ht as (e & He & Hx). rewrite Forall_forall in Hb. specialize (Hb e He).
  destruct (_ && _); [|done]. by injection Hx as <-.
Qed.

(** ** Driven devices *)
Section Driven.
Context (dev0 : DRAMDevice) (ch : Z).

(** The device is what issuing [hs] made of a fresh one. *)
Definition driven (hs : list issued) (x : Z) (dev : DRAMDevice) : Prop :=
  Forall (fun h => 0 <= i_clk h <= x) hs /\ issue_all hs (set_channel_id dev0 ch) = Ok dev.

Lemma trace_driven n c : trace_inv (set_channel_id dev0 ch) n c -> driven (c_log c) (c_clk c) (c_device c).
Proof. intros [H1 H2 H3 _ _]. split; [done|]. by apply legal_issue_all. Qed.

Lemma events_bound p hs x : Forall (fun h => 0 <= i_clk h <= x) hs -> Forall (fun e : event => e.2 <= x) (events_at 0 ch p hs).
Proof. intros H. apply Forall_fmap. eapply Forall_impl; [exact H|]. cbn. lia. Qed.

Lemma driven_times hs x dev : driven hs x dev -> Forall (fun h => 0 <= i_clk h) hs.
Proof. intros [H _]. eapply Forall_impl; [exact H|]. cbn. lia. Qed.

End Driven.

(** ** The settle time of a table *)
Definition zmax (l : list Z) : Z := foldr Z.max 1 l.

Definition settle_time (s : DRAMSpec) : Z :=
  zmax (map (fun row => zmax (map (fun es => zmax (map tc_val es)) row)) (timing_cons s)).

Lemma zmax_ge x l : x ∈ l -> x <= zmax l.
Proof. unfold zmax. induction l as [|y l IH]; [by intros ?%not_elem_of_nil|]. cbn. intros [->|H%IH]%elem_of_cons; lia. Qed.

Lemma zmax_pos l : 1 <= zmax l.
Proof. unfold zmax. induction l; cbn; lia. Qed.

Lemma settle_entry s lvl p es e : cons_at (timing_cons s) lvl p = Ok es -> In e es -> tc_val e <= settle_time s.
Proof.
  unfold cons_at. intros (row & [_ Hr]%vget_Ok & [_ Hl]%vget_Ok)%bind_Ok_inv He. apply list_elem_of_lookup_2 in Hr, Hl. apply list_elem_of_In in He.
  etrans; [apply (zmax_ge _ (map tc_val es)); by apply list_elem_of_fmap_2|].
  etrans; [apply (zmax_ge _ (map (fun es => zmax (map tc_val es)) row)); by apply (list_elem_of_fmap_2 (fun es => zmax (map tc_val es)))|].
  apply zmax_ge. by apply (list_elem_of_fmap_2 (fun row => zmax (map (fun es => zmax (map tc_val es)) row))).
Qed.

Lemma timing_ok_settled s lvl evs c x : Forall (fun e : event => e.2 + settle_time s <= x) evs -> timing_ok s lvl evs c x.
Proof.
  intros Hb p es e Hes He _. pose proof (settle_entry s lvl p es e Hes He) as Hv.
  assert (Ht : forall k t, t ∈ times k p evs -> t + tc_val e <= x).
  { intros k t Ht. assert (t <= x - settle_time s); [|lia]. eapply times_bound; [|exact Ht]. eapply Forall_impl; [exact Hb|]. cbn. lia. }
  destruct (tc_sibling e).
  - apply Forall_forall. intros t. apply Ht.
  - intros i t Hi _. apply (Ht Target). by apply list_elem_of_lookup_2, list_elem_of_In, in_rev, list_elem_of_In in Hi.
Qed.

(** Every command is ready. *)
Definition all_ready (c : ControllerBase) : Prop := forall cmd av b, 0 <= cmd < command_count (spec_of c) -> ctrl_check_timing c cmd av = Ok b -> b = true.

Lemma settled_ready d cfg s dev0 ch n c c1 x :
  In d all_standards -> construct d cfg = Ok s -> init s = Ok dev0 -> m_spec (c_device c) = s ->
  trace_inv (set_channel_id dev0 ch) n c -> tick_started c c1 -> Forall (fun h => i_clk h <= x) (c_log c) -> x + settle_time s <= c_clk c1 ->
  all_ready c1.
Proof.
  intros Hin Hcon Hinit Hsp Ht (T1 & _ & T3) Hx Hle cmd av b Hc Hb. pose proof (trace_driven dev0 ch n c Ht) as Hd. pose proof (ti_clk _ _ _ Ht) as H0.
  unfold ctrl_check_timing, spec_of in *. rewrite T1 in *. rewrite Hsp in Hc.
  apply (check_after_history d cfg s dev0 ch (c_log c) (c_device c) cmd av (c_clk c1) b Hin Hcon Hinit (driven_times _ _ _ _ _ Hd) (proj2 Hd) Hc ltac:(lia) Hb).
  intros p y _ _. apply timing_ok_settled. unfold events_at. apply Forall_fmap. eapply Forall_impl; [exact Hx|]. cbn. lia.
Qed.

(** ** What the LPDDR5 controller assumes about the timing table

    The controller's deadline assertions are only sound for tables like the
    one of [lpddr5.py]: an ACT2 is delayed by nothing but the cycle each
    command occupies the bus, and an access may follow its CAS in the next
    cycle ([nCAS] is 0).  [lp_table_ok]
    checks this on a loaded table; the lemmas turn it into facts about
    [check_timing] on a device that a controller has driven. *)
(** The commands of the standard by number. *)
Definition lpACT1 : Z := 0.
Definition lpACT2 : Z := 1.
Definition lpPREpb : Z := 2.
Definition lpPREab : Z := 3.
Definition lpCAS_RD : Z := 4.
Definition lpCAS_WR : Z := 5.
Definition lpRD : Z := 6.
Definition lpWR : Z := 7.
Definition lpRDA : Z := 8.
Definition lpWRA : Z := 9.
Definition lpREFab : Z := 10.
Definition lpREFpb : Z := 11.

Definition is_cas (cmd : Z) : bool := (cmd =? lpCAS_RD) || (cmd =? lpCAS_WR).

(** One constraint of the table, after command [p]. *)
Definition lp_entry_ok (p : Z) (e : TimingConsEntry) : bool :=
  (negb (tc_cmd e =? lpACT2) && negb (is_cas p)) || (tc_val e <=? 1).

Definition lp_table_ok (s : DRAMSpec) : bool :=
  forallb (fun row => forallb (fun '(p, es) => forallb (lp_entry_ok (Z.of_nat p)) es) (imap pair row)) (timing_cons s).

Lemma entry_ok s lvl p es e :
  lp_table_ok s = true -> cons_at (timing_cons s) lvl p = Ok es -> In e es -> lp_entry_ok p e = true.
Proof.
  intros Ht Hes He. unfold cons_at in Hes. apply bind_Ok_inv in Hes as (row & [_ Hr]%vget_Ok & [Hp Hl]%vget_Ok).
  unfold lp_table_ok in Ht. rewrite forallb_forall in Ht. specialize (Ht row). rewrite forallb_forall in Ht.
  specialize (Ht ltac:(by eapply list_elem_of_In, list_elem_of_lookup_2) (Z.to_nat p, es)). cbn beta iota in Ht.
  rewrite Z2Nat.id in Ht by done. rewrite forallb_forall in Ht. apply Ht; [|done].
  apply list_elem_of_In, list_elem_of_lookup. exists (Z.to_nat p). by rewrite list_lookup_imap, Hl.
Qed.

(** ** On histories *)

(** A constraint of at most one cycle is met by everything before. *)
Lemma short_entry s lvl evs p es e x :
  cons_at (timing_cons s) lvl p = Ok es -> In e es -> tc_val e <= 1 -> Forall (fun e : event => e.2 <= x - 1) evs ->
  if tc_sibling e then Forall (fun t => t + tc_val e <= x) (times Sibling p evs)
  else forall i t, rev (times Target p evs) !! i = Some t -> tc_window e <= Z.of_nat i + 1 -> t + tc_val e <= x.
Proof.
  intros _ _ Hv Hb. destruct (tc_sibling e).
  - apply Forall_forall. intros t Ht. pose proof (times_bound _ _ _ _ _ Hb Ht). lia.
  - intros i t Hi _. apply list_elem_of_lookup_2, list_elem_of_In, in_rev, list_elem_of_In in Hi.
    pose proof (times_bound _ _ _ _ _ Hb Hi). lia.
Qed.

Lemma timing_ok_act2 s lvl evs x :
  lp_table_ok s = true -> Forall (fun e : event => e.2 <= x - 1) evs -> timing_ok s lvl evs lpACT2 x.
Proof.
  intros Ht Hb p es e Hes He Hc. pose proof (entry_ok s lvl p es e Ht Hes He) as Hok. unfold lp_entry_ok in Hok.
  rewrite Hc in Hok. cbn in Hok. bool_hyps. by apply (short_entry s lvl evs p es e x).
Qed.

(** An access that was ready when its CAS was issued is ready in the next cycle. *)
Lemma timing_ok_cas s lvl evs k cas cmd x :
  lp_table_ok s = true -> is_cas cas = true -> Forall (fun e : event => e.2 <= x) evs ->
  timing_ok s lvl evs cmd x -> timing_ok s lvl (evs ++ [(k, cas, x)]) cmd (x + 1).
Proof.
  intros Ht Hcas Hb Hok p es e Hes He Hc. destruct (decide (p = cas)) as [->|Hne].
  - pose proof (entry_ok s lvl cas es e Ht Hes He) as Hv. unfold lp_entry_ok in Hv. rewrite Hcas, andb_false_r in Hv. cbn in Hv.
    bool_hyps. apply (short_entry s lvl _ cas es e (x + 1)); [done..|]. replace (x + 1 - 1) with x by lia.
    apply Forall_app. split; [done|]. by apply Forall_singleton.
  - assert (Hsame : forall k', times k' p (evs ++ [(k, cas, x)]) = times k' p evs).
    { intros k'. rewrite times_app. cbn. destruct (Z.eqb_spec cas p); [congruence|]. by rewrite andb_false_r, app_nil_r. }
    specialize (Hok p es e Hes He Hc). rewrite !Hsame. destruct (tc_sibling e).
    + eapply Forall_impl; [exact Hok|]. cbn. lia.
    + intros i t Hi Hw. specialize (Hok i t Hi Hw). lia.
Qed.

(** ** On devices *)
Section Table.
Context (d : standard) (cfg : dram_config) (s : DRAMSpec) (dev0 : DRAMDevice) (ch : Z).
Context (Hin : In d all_standards) (Hcon : construct d cfg = Ok s) (Hinit : init s = Ok dev0).
Context (Htab : lp_table_ok s = true).

Lemma act2_ready hs x dev av b :
  driven dev0 ch hs x dev -> 0 <= x -> 0 <= lpACT2 < command_count s -> dev_check_timing dev lpACT2 av (x + 1) = Ok b -> b = true.
Proof.
  intros Hd Hx Hc Hb.
  apply (check_after_history d cfg s dev0 ch hs dev lpACT2 av (x + 1) b Hin Hcon Hinit (driven_times _ _ _ _ _ Hd) (proj2 Hd) Hc ltac:(lia) Hb).
  intros p y _ _. apply timing_ok_act2; [done|]. replace (x + 1 - 1) with x by lia. apply events_bound, Hd.
Qed.

Lemma cas_then_access hs x dev cas av dev' cmd b :
  driven dev0 ch hs x dev -> 0 <= x -> is_cas cas = true -> 0 <= cmd < command_count s ->
  dev_check_timing dev cmd av x = Ok true -> issue_command dev cas av x = Ok dev' ->
  dev_check_timing dev' cmd av (x + 1) = Ok b -> b = true.
Proof.
  intros Hd Hx Hcas Hc Ht Hi Hb.
  assert (Hd' : driven dev0 ch (hs ++ [mkIssued cas av x]) x dev').
  { destruct Hd as [H1 H2]. split; [apply Forall_app; split; [done|]; apply Forall_singleton; cbn; lia|].
    unfold issue_all in *. rewrite foldM_app, H2. cbn. by rewrite Hi. }
  apply (check_after_history d cfg s dev0 ch _ dev' cmd av (x + 1) b Hin Hcon Hinit (driven_times _ _ _ _ _ Hd') (proj2 Hd') Hc ltac:(lia) Hb).
  intros p y Hy Hv. unfold events_at. rewrite map_app. apply timing_ok_cas; [done..|apply events_bound, Hd|].
  exact (proj1 (check_after_history d cfg s dev0 ch hs dev cmd av x true Hin Hcon Hinit (driven_times _ _ _ _ _ Hd) (proj2 Hd) Hc Hx Ht)
    eq_refl p y Hy Hv).
Qed.
End Table.
