(* ===== verification/ServeSafety.v ===== *)
(** * ServeSafety: serving a request keeps the invariant

    The second half of a tick: upgrading, counting, issuing, and retiring or
    promoting the chosen request. *)
From stdpp Require Import prelude gmap strings.
From S2P Require Import Prelude DramSpec Commands Standards Node NodeTiming NodeTree Device DeviceInv DeviceProps BankSafety BankProgress IssueSafety Request CmdTrace AddrMapper Float32 ControllerState Controller Refresh NodeAddr HbmRefresh RowPolicy ControllerInit GenericDdr ControllerSafety Hbm Lpddr5 Controllers ControllerTrace.
Open Scope Z_scope.

Local Abbreviation total := (fun _ : err => False).

Section Serve.
Context (d : standard) (cfg : dram_config) (s : DRAMSpec).
Context (Hin : In d all_standards) (Hcon : construct d cfg = Ok s) (Hs : spec_ok s).
Local Abbreviation T := (std_traits d).

(** ** Upgrading the command *)
Lemma issuable_RD_WR n c cmd av name :
  ctrl_ok d s n c -> name ∈ ["RD"; "WR"] -> get_command_id s name = Ok cmd ->
  issuable d s (c_device c) cmd av -> readable d av /\ concrete d s av.
Proof.
  intros Hc Hn Hid Hi. destruct (issuable_named d cfg s Hin Hcon _ _ _ (ck_dev _ _ _ _ Hc) Hi) as (name' & ci & Hid' & Hci & Hav & _).
  rewrite <- (command_id_inj d cfg s name name' cmd Hin Hcon Hid Hid') in Hci.
  assert (impl_target ci = Single) as Ht by (by_impl Hci; try closed_elem; done). by rewrite Ht in Hav.
Qed.

(** The upgraded request, if the policy upgrades it. *)
Definition upgraded (r r' : Request) : Prop :=
  r' = r \/ exists name cmd, name ∈ ["RDA"; "WRA"] /\ get_command_id s name = Ok cmd /\ concrete d s (addr_vec r) /\
    readable d (addr_vec r) /\ r' = set_final_command (set_command r cmd) cmd.

Lemma AP_wanted name cmd av :
  name ∈ ["RDA"; "WRA"] -> get_command_id s name = Ok cmd -> concrete d s av -> readable d av -> wanted d s cmd av.
Proof.
  intros Hn Hid Hav Hrd. destruct (standard_handlers d cfg s name cmd Hin Hcon Hid) as (ci & Hci & _). exists name, ci.
  assert ((name ∉ opening_names) /\ impl_target ci = Single) as [Ho Ht] by (by_impl Hci; try closed_elem; (split; [closed_elem|done])).
  split_and!; try done. by rewrite Ht.
Qed.

Lemma cap_upgrade_safe n c p r :
  ctrl_ok d s n c -> cap_ok s (c_device c) p -> req_ok d s n r -> issuable d s (c_device c) (command r) (addr_vec r) ->
  ends total (ClosedCAP_try_upgrade_command p c r) (upgraded r).
Proof.
  intros Hc Hp Hr Hi. unfold ClosedCAP_try_upgrade_command. destruct (m_has_ap p) eqn:Eap; [|by left]. cbn [negb].
  destruct (co_ap _ _ _ Hp Eap) as [Hrda Hwra]. apply ends_if; [by left|intros _].
  destruct (flat_id_total d cfg s Hin Hcon (c_device c) (addr_vec r) (ck_dev _ _ _ _ Hc) (ro_addr _ _ _ _ Hr)) as [i ->].
  cbn [mbind res_bind]. apply ends_if; [by left|]. intros Hrange. bool_hyps.
  destruct (proj2 (vget_is_Ok (m_col_accesses p) i)) as [k ->]; [lia|]. cbn [mbind res_bind]. apply ends_if; [by left|intros _].
  assert (Hask : forall name cmd, name ∈ ["RDA"; "WRA"] -> get_command_id s name = Ok cmd ->
            is_Ok (ctrl_check_timing c cmd (addr_vec r))).
  { intros name cmd _ Hid. apply (check_safe d s); [apply Hc| |apply Hr]. by destruct (command_id_range d cfg s name cmd Hin Hcon Hid). }
  apply ends_bind. destruct (command r =? m_cmd_rd p) eqn:Erd; bool_hyps.
  - destruct (Hask "RDA" (m_cmd_rda p)) as [t ->]; [closed_elem|done|]. cbn [ends]. destruct t.
    + right. exists "RDA", (m_cmd_rda p). rewrite Erd in Hi.
      destruct (issuable_RD_WR n c _ _ "RD" Hc ltac:(closed_elem) (co_rd _ _ _ Hp) Hi). split_and!; try done. closed_elem.
    + apply ends_bind. destruct (command r =? m_cmd_wr p) eqn:Ewr; bool_hyps; [|by left].
      destruct (Hask "WRA" (m_cmd_wra p)) as [t ->]; [closed_elem|done|]. cbn [ends]. destruct t; [|by left].
      right. exists "WRA", (m_cmd_wra p). rewrite Ewr in Hi.
      destruct (issuable_RD_WR n c _ _ "WR" Hc ltac:(closed_elem) (co_wr _ _ _ Hp) Hi). split_and!; try done. closed_elem.
  - cbn [ends]. apply ends_bind. destruct (command r =? m_cmd_wr p) eqn:Ewr; bool_hyps; [|by left].
    destruct (Hask "WRA" (m_cmd_wra p)) as [t ->]; [closed_elem|done|]. cbn [ends]. destruct t; [|by left].
    right. exists "WRA", (m_cmd_wra p). rewrite Ewr in Hi.
    destruct (issuable_RD_WR n c _ _ "WR" Hc ltac:(closed_elem) (co_wr _ _ _ Hp) Hi). split_and!; try done. closed_elem.
Qed.

Lemma req_ok_upgraded n r r' : req_ok d s n r -> upgraded r r' -> req_ok d s n r' /\ addr_vec r' = addr_vec r.
Proof.
  intros Hr [->|(name & cmd & Hn & Hid & Hav & Hrd & ->)]; [done|]. destruct Hr. split; [|done]. split; try done.
  by eapply AP_wanted.
Qed.

Lemma issuable_upgraded dev r r' :
  upgraded r r' -> issuable d s dev (command r) (addr_vec r) -> issuable d s dev (command r') (addr_vec r').
Proof.
  intros [->|(name & cmd & Hn & Hid & Hav & Hrd & ->)]; [done|]. intros _. apply wanted_issuable. by eapply AP_wanted.
Qed.

Lemma rowpolicy_upgrade_safe n c r :
  ctrl_ok d s n c -> req_ok d s n r -> issuable d s (c_device c) (command r) (addr_vec r) ->
  ends total (rowpolicy_try_upgrade_command c r) (upgraded r).
Proof.
  intros Hc Hr Hi. unfold rowpolicy_try_upgrade_command. pose proof (ck_policy _ _ _ _ Hc) as Hp.
  destruct (c_rowpolicy c) as [|p]; [by left|]. by apply (cap_upgrade_safe n).
Qed.

Lemma upgrade_safe n c b i :
  ctrl_ok d s n c -> cand_ok d s c (Some (b, i)) ->
  ends total (upgrade_candidate c b i) (fun c' => ctrl_ok d s n c' /\ cand_ok d s c' (Some (b, i))).
Proof.
  intros Hc (r & Hr & Hi). unfold upgrade_candidate. rewrite (request_at_Ok _ _ _ _ Hr). cbn [mbind res_bind].
  assert (Hro : req_ok d s n r) by (apply (ck_reqs _ _ _ _ Hc b); by eapply list_elem_of_lookup_2).
  apply ends_bind. eapply ends_mono; [by apply (rowpolicy_upgrade_safe n)|]. intros r' _ Hr'. cbn. split.
  - apply ok_modify; [done|]. intros x Hx _. rewrite Hr in Hx. injection Hx as <-. by apply req_ok_upgraded.
  - exists r'. split.
    + unfold write_request. rewrite get_set_buf, decide_True by done. cbn. by rewrite list_lookup_alter_eq, Hr.
    + replace (c_device (write_request c b i r')) with (c_device c) by (by destruct b). by apply (issuable_upgraded _ r).
Qed.

(** ** Statistics *)
Lemma count_core_safe l k src n : length l = n -> (src = -1 \/ 0 <= src < Z.of_nat n) ->
  k = count_core l src -> exists l', k = Ok l' /\ length l' = n.
Proof.
  intros Hl Hsrc ->. unfold count_core. destruct (Z.eqb_spec src (-1)); [by exists l|].
  unfold vadd. destruct (proj2 (vget_is_Ok l src)) as [x ->]; [lia|]. cbn.
  destruct (vset_total l src (x + 1)) as [l' Hl']; [lia|]. exists l'. split; [done|]. by rewrite (vset_length _ _ _ _ Hl').
Qed.

Lemma count_row_safe n c r : ctrl_ok d s n c -> req_ok d s n r -> ends total (count_row_outcome c r) (ctrl_ok d s n).
Proof.
  intros Hc Hr. unfold count_row_outcome. pose proof Hc as [H1 H2 H3 H4 H5 H6 H7 H8 H9 H10 H11 H12].
  destruct (type_id r =? Type_Read) eqn:Et; [|destruct (type_id r =? Type_Write) eqn:Et'; [|exact Hc]]; bool_hyps.
  - assert (Hav : concrete d s (addr_vec r)) by (apply (ro_rw _ _ _ _ Hr); auto).
    destruct (row_total d cfg s Hin Hcon n c Hc r check_rowbuffer_hit (or_introl eq_refl) Hr Hav) as [h ->]. cbn [mbind res_bind].
    destruct (row_total d cfg s Hin Hcon n c Hc r check_node_open (or_intror eq_refl) Hr Hav) as [o ->]. cbn [mbind res_bind].
    destruct h; [|destruct o]; cbn -[count_core];
      (edestruct count_core_safe as (l' & -> & Hl'); [..|reflexivity|]; [eassumption|apply (ro_source _ _ _ _ Hr)|]); by split.
  - assert (Hav : concrete d s (addr_vec r)) by (apply (ro_rw _ _ _ _ Hr); auto).
    destruct (row_total d cfg s Hin Hcon n c Hc r check_rowbuffer_hit (or_introl eq_refl) Hr Hav) as [h ->]. cbn [mbind res_bind].
    destruct (row_total d cfg s Hin Hcon n c Hc r check_node_open (or_intror eq_refl) Hr Hav) as [o ->]. cbn [mbind res_bind].
    destruct h; [|destruct o]; by split.
Qed.

Lemma stats_safe n c b i :
  ctrl_ok d s n c -> cand_ok d s c (Some (b, i)) ->
  ends total (stats_once c b i) (fun c' => ctrl_ok d s n c' /\ cand_ok d s c' (Some (b, i))).
Proof.
  intros Hc (r & Hr & Hi). apply (ends_mono _ _ (ctrl_ok d s n)).
  - unfold stats_once. rewrite (request_at_Ok _ _ _ _ Hr). cbn [mbind res_bind]. apply ends_if; [done|intros _].
    unfold update_request_stats. cbn zeta. set (c1 := set_buf c b _).
    assert (Hc1 : ctrl_ok d s n c1) by (apply ok_modify; [done|]; intros x _ Hx; split; [by apply req_ok_stat|done]).
    assert (H1 : buffer (get_buf c1 b) !! i = Some (set_stat_updated r true)).
    { unfold c1. rewrite get_set_buf, decide_True by done. cbn. by rewrite list_lookup_alter_eq, Hr. }
    rewrite (request_at_Ok _ _ _ _ H1). cbn [mbind res_bind]. apply count_row_safe; [done|].
    apply (ck_reqs _ _ _ _ Hc1 b). by eapply list_elem_of_lookup_2.
  - intros c' Hst Hc'. split; [done|]. destruct (quiet_stats_once _ _ _ _ Hst) as (Hd & _).
    destruct (stats_once_same _ _ _ _ Hst r (request_at_Ok _ _ _ _ Hr)) as (r' & Hr' & Hcm & Hav & _).
    exists r'. unfold request_at in Hr'. destruct (buffer (get_buf c' b) !! i) as [y|]; [|done]. injection Hr' as ->.
    split; [done|]. by rewrite Hd, Hcm, Hav.
Qed.

(** ** Issuing *)
Lemma banks_length dev dev' : dev_ok d s dev -> dev_ok d s dev' -> length (m_bank_nodes dev') = length (m_bank_nodes dev).
Proof. intros H H'. by rewrite (dk_banks _ _ _ H), (dk_banks _ _ _ H'). Qed.

Lemma refresh_ok_issue dev dev' m :
  (forall p, in_tree dev p -> in_tree dev' p) -> refresh_ok d s dev m -> refresh_ok d s dev' m.
Proof.
  intros Hp. destruct m as [|r|r|r]; cbn; try done.
  - intros [H1 H2]. split; [done|]. by eapply Forall_impl.
  - intros (H1 & H2 & H3). split_and!; try done; [|lia..]. eapply Forall_impl; [exact H2|]. intros p [? ?]. auto.
Qed.

Lemma policy_ok_issue dev dev' p :
  length (m_bank_nodes dev') = length (m_bank_nodes dev) -> policy_ok s dev p -> policy_ok s dev' p.
Proof. intros Hl. destruct p as [|p]; [done|]. cbn. intros []. split; try done; congruence. Qed.

Lemma issue_ctrl_safe n c cmd av :
  ctrl_ok d s n c -> issuable d s (c_device c) cmd av -> addr_ok s (row_lvl d) av ->
  ends total (issue c cmd av) (fun c' => ctrl_ok d s n c' /\ forall b, get_buf c' b = get_buf c b).
Proof.
  intros [H1 H2 H3 H4 H5 H6 H7 H8 H9 H10 H11 H12] Hi Ha. unfold issue.
  destruct (issue_safe d cfg s Hin Hcon Hs (c_device c) cmd av (c_clk c) H1 H2 Hi Ha) as (dev' & Hd & Hok & Hwf).
  rewrite Hd. cbn. pose proof (banks_length _ _ H1 Hok) as Hbl. split; [|by intros []]. split; cbn; try done; [congruence|..].
  - apply (refresh_ok_issue (c_device c)); [|done]. intros p. by apply (issue_nodes d cfg s (c_device c) cmd av (c_clk c)).
  - by apply (policy_ok_issue (c_device c)).
Qed.

Lemma reset_bank_safe dev p i :
  cap_ok s dev p -> 0 <= i < Z.of_nat (length (m_bank_nodes dev)) -> exists p', reset_bank p i = Ok p' /\ cap_ok s dev p'.
Proof.
  intros [H1 H2 H3 H4 H5 H6] Hi. unfold reset_bank.
  destruct (vset_total (m_col_accesses p) i 0) as [a Ha]; [lia|]. destruct (vset_total (m_prepb_injected p) i false) as [b Hb]; [lia|].
  rewrite Ha. cbn. rewrite Hb. cbn. eexists. split; [done|]. apply vset_length in Ha, Hb. split; cbn; try done; congruence.
Qed.

Lemma cap_on_issue_safe dev p r cmd name ci :
  dev_ok d s dev -> cap_ok s dev p -> command r = cmd -> get_command_id s name = Ok cmd -> impl_by_name T name = Some ci ->
  addr_for d s (impl_target ci) (addr_vec r) -> addr_ok s (row_lvl d) (addr_vec r) ->
  ends total (ClosedCAP_on_issue p dev r) (cap_ok s dev).
Proof.
  intros Hok Hp <- Hid Hci Hav Ha. destruct (standard_handlers d cfg s name _ Hin Hcon Hid) as (c' & Hc' & Hh).
  rewrite Hci in Hc'. injection Hc' as <-. pose proof (ha_meta _ _ _ Hh) as Hm.
  unfold ClosedCAP_on_issue. rewrite (dk_spec _ _ _ Hok).
  destruct (zlookup (command_meta s) (command r)) as [m|] eqn:Em; [|done]. unfold vget at 1. rewrite Em. cbn [of_option mbind res_bind].
  pose proof (of_zlookup _ _ _ (ha_target _ _ _ Hh)) as Ht.
  apply ends_bind. apply (ends_mono _ _ (cap_ok s dev)).
  - apply ends_if; [intros _|done]. destruct (impl_target ci) eqn:Et; [..|by destruct Hav]; destruct Hav as [Hrd Hav].
    + destruct (flat_bank d s dev _ (row_pos d cfg s Hin Hcon) Hok Hav) as (i & Hi & Hpth).
      rewrite (for_each_single _ d s dev _ _ p i Hok Ht Hi).
      destruct (reset_bank_safe dev p i Hp) as (p' & -> & Hp'); [apply vget_is_Ok; by eexists|done].
    + rewrite (for_each_all _ d s dev _ _ p Hok Hrd Ht). apply ends_foldM; [|done]. intros i p1 Hi' Hp1.
      unfold matching in Hi'. apply list_elem_of_In, filter_In in Hi' as [Hi' _].
      destruct (reset_bank_safe dev p1 i Hp1) as (p' & -> & Hp'); [apply list_elem_of_In, elem_of_seqZ in Hi'; lia|done].
  - intros p1 _ Hp1. apply ends_if; [intros _|done].
    destruct (flat_id_total d cfg s Hin Hcon dev (addr_vec r) Hok Ha) as [i ->]. cbn [mbind res_bind].
    apply ends_if; [|done]. intros Hr. bool_hyps. unfold vadd.
    destruct (proj2 (vget_is_Ok (m_col_accesses p1) i)) as [x ->]; [lia|]. cbn.
    destruct (vset_total (m_col_accesses p1) i (x + 1)) as [a Hva]; [lia|]. rewrite Hva. cbn. apply vset_length in Hva.
    destruct Hp1. split; cbn; try done. congruence.
Qed.

Lemma plugins_safe n c r :
  ctrl_ok d s n c -> req_ok d s n r -> 0 <= command r < command_count s -> ends total (plugins_on_issue c r) (ctrl_ok d s n).
Proof.
  intros Hc Hr Hcmd. unfold plugins_on_issue. destruct (standard_static d cfg s Hin Hcon) as (C & _ & _ & _ & _ & _ & _ & Hst).
  destruct (vget_is_Ok (command_names s) (command r)) as [_ Hname].
  destruct Hname as [name Hname].
  { rewrite (con_names _ _ C). rewrite (con_command_count _ _ C) in Hcmd. unfold std_static_ok in Hst. bool_hyps. lia. }
  assert (Hp : forall p, p ∈ c_plugins c -> exists p', plugin_on_issue c r p = Ok p' /\ plugin_ok s p').
  { intros p Hp. pose proof (proj1 (Forall_forall _ _) (ck_plugins _ _ _ _ Hc) p Hp) as Hpo.
    destruct p as [m|l|binary k f]; cbn; [by eexists..|].
    unfold CmdTraceRecorder_on_issue, write_binary_record, write_text_record, spec_of.
    rewrite (dk_spec _ _ _ (ck_dev _ _ _ _ Hc)), Hname. cbn [mbind res_bind].
    destruct (mapM_total (vget (addr_vec r)) (seqZ 0 k)) as [l ->]; [|destruct binary; by eexists].
    intros i Hi%list_elem_of_In%elem_of_seqZ. apply vget_is_Ok. pose proof (ro_length _ _ _ _ Hr) as Hlen. cbn in Hpo. lia. }
  destruct (mapM_total (plugin_on_issue c r) (c_plugins c)) as [ps Hps].
  { intros p Hpin%list_elem_of_In. destruct (Hp p Hpin) as (p' & -> & _). by eexists. }
  rewrite Hps. cbn. destruct Hc. split; cbn; try done. apply Forall_lookup. intros i p' Hi. apply mapM_Ok in Hps.
  destruct (Forall2_lookup_r _ _ _ _ _ Hps Hi) as (p & Hpi & Hpo).
  destruct (Hp p) as (p1 & H1 & H2); [by eapply list_elem_of_lookup_2|]. rewrite Hpo in H1. by injection H1 as <-.
Qed.

(** What is known of the candidate once its command was issued. *)
Definition issued_ok (c : ControllerBase) (b : buf_id) (i : nat) : Prop :=
  exists r m, buffer (get_buf c b) !! i = Some r /\ vget (command_meta s) (command r) = Ok m /\
    (is_opening m = true -> concrete d s (addr_vec r)).

Lemma opening_meta name ci : impl_by_name T name = Some ci -> is_opening (impl_meta ci) = true -> name ∈ opening_names.
Proof. intros Hn Hm. by_impl Hn; try done; closed_elem. Qed.

Lemma issue_candidate_safe n c b i :
  ctrl_ok d s n c -> cand_ok d s c (Some (b, i)) ->
  ends total (issue_candidate c b i) (fun c' => ctrl_ok d s n c' /\ issued_ok c' b i).
Proof.
  intros Hc (r & Hr & Hi). unfold issue_candidate. rewrite (request_at_Ok _ _ _ _ Hr). cbn [mbind res_bind].
  assert (Hro : req_ok d s n r) by (apply (ck_reqs _ _ _ _ Hc b); by eapply list_elem_of_lookup_2).
  destruct (meta_of d cfg s Hin Hcon n c Hc _ _ Hi) as (name & ci & m & Hid & Hci & Hav & Hm & Hsm & _ & Hop).
  apply ends_bind. eapply ends_mono; [apply (issue_ctrl_safe n c); [done..|apply Hro]|]. intros c1 _ [Hc1 Hb1].
  apply ends_bind. apply (ends_mono _ _ (fun c' => ctrl_ok d s n c' /\ forall b, get_buf c' b = get_buf c1 b)).
  - unfold rowpolicy_on_issue. pose proof (ck_policy _ _ _ _ Hc1) as Hp. destruct (c_rowpolicy c1) as [|p]; [done|].
    apply ends_bind. eapply ends_mono; [eapply (cap_on_issue_safe (c_device c1) p r _ name ci); try done; [apply Hc1|apply Hro]|].
    intros p' _ Hp'. cbn. split; [|by intros []]. destruct Hc1. by split.
  - intros c2 _ [Hc2 Hb2]. eapply ends_mono; [apply plugins_safe; [done..|]|].
    { by destruct (command_id_range d cfg s name _ Hin Hcon Hid). }
    intros c3 H3 Hc3. split; [done|]. exists r, m. unfold spec_of in Hm. rewrite (dk_spec _ _ _ (ck_dev _ _ _ _ Hc)) in Hm.
    split_and!; [|done|].
    + unfold plugins_on_issue in H3. apply bind_Ok_inv in H3 as (ps & _ & [= <-]).
      replace (get_buf (with_c_plugins c2 ps) b) with (get_buf c2 b) by (by destruct b). by rewrite Hb2, Hb1.
    + intros Ho. apply Hop. apply (opening_meta name ci Hci).
      change (is_opening (strip_bus (impl_meta ci)) = true). by rewrite <- Hsm.
Qed.

(** ** Retiring and promoting *)
Lemma active_add_safe n c av k : ctrl_ok d s n c -> concrete d s av ->
  ends total (active_add c av k) (fun c' => ctrl_ok d s n c' /\ forall b, get_buf c' b = get_buf c b).
Proof.
  intros Hc Hav. unfold active_add. destruct (flat_in_range d cfg s Hin Hcon n c Hc av Hav) as (i & -> & Hi). cbn [mbind res_bind].
  rewrite <- (ck_count _ _ _ _ Hc) in Hi. unfold vadd. destruct (proj2 (vget_is_Ok _ _) Hi) as [x ->]. cbn [mbind res_bind].
  destruct (vset_total _ i (x + k) Hi) as [l Hl]. rewrite Hl. cbn. apply vset_length in Hl. split; [|by intros []].
  destruct Hc. split; cbn; try done. congruence.
Qed.

Lemma ok_forget n c b r : ctrl_ok d s n c -> ctrl_ok d s n (forget_write c b r).
Proof. intros []. unfold forget_write. case_match; by split. Qed.

Lemma ok_complete n c r : ctrl_ok d s n c -> ctrl_ok d s n (complete c r).
Proof.
  intros Hc. unfold complete. repeat case_match; try done; try (by apply ok_count, ok_call_back).
  all: destruct Hc; by split.
Qed.

Lemma retire_safe n c b i r : ctrl_ok d s n c -> buffer (get_buf c b) !! i = Some r ->
  ends total (retire_request c b i) (ctrl_ok d s n).
Proof.
  intros Hc Hr. unfold retire_request. rewrite (request_at_Ok _ _ _ _ Hr). cbn [mbind res_bind].
  apply ends_bind. apply (ends_mono _ _ (ctrl_ok d s n)).
  - case_decide as Eb; [subst b|done]. eapply ends_mono; [apply (active_add_safe n); [done|]|by intros c' _ [? _]].
    apply (ck_active _ _ _ _ Hc). by eapply list_elem_of_lookup_2.
  - intros c1 _ Hc1. cbn. by apply ok_remove, ok_complete, ok_forget.
Qed.

Lemma promote_safe n c r : ctrl_ok d s n c -> req_ok d s n r -> concrete d s (addr_vec r) ->
  ends total (promote c r) (fun p => ctrl_ok d s n p.2).
Proof.
  intros Hc Hr Hav. unfold promote, enqueue. destruct (_ <? _); cbn zeta; cycle 1.
  { cbn. by apply (ok_set_buf d s n c Bactive (c_active_buffer c) Hc), (fun r => ok_active_reqs d s n c Bactive r Hc). }
  apply ends_bind. eapply ends_mono; [apply (active_add_safe n); [|done]|by intros c' _ [? _]].
  apply (ok_set_buf d s n c Bactive _ Hc). cbn. intros x [Hx|Hx]%elem_of_app.
  - by apply (ok_active_reqs d s n c Bactive x Hc).
  - by apply list_elem_of_singleton in Hx as ->.
Qed.

Lemma advance_safe n c b i : ctrl_ok d s n c -> issued_ok c b i -> ends total (advance_request c b i) (ctrl_ok d s n).
Proof.
  intros Hc (r & m & Hr & Hm & Hop). unfold advance_request. rewrite (request_at_Ok _ _ _ _ Hr). cbn [mbind res_bind].
  apply ends_if; [intros _; by eapply retire_safe|intros _]. unfold spec_of. rewrite (dk_spec _ _ _ (ck_dev _ _ _ _ Hc)), Hm.
  cbn [mbind res_bind]. apply ends_if; [|done]. intros Ho. specialize (Hop Ho).
  unfold promote_to_active. rewrite (request_at_Ok _ _ _ _ Hr). cbn [mbind res_bind]. apply ends_bind.
  assert (Hro : req_ok d s n r) by (apply (ck_reqs _ _ _ _ Hc b); by eapply list_elem_of_lookup_2).
  eapply ends_mono; [by apply (promote_safe n)|]. intros [ok c1] _ Hc1. cbn. destruct ok; [|done]. cbn. by apply ok_remove, ok_forget.
Qed.

Lemma serve_safe n c cand : ctrl_ok d s n c -> cand_ok d s c cand -> ends total (serve_candidate cand c) (ctrl_ok d s n).
Proof.
  intros Hc Hcd. unfold serve_candidate. destruct cand as [[b i]|]; [|done].
  apply ends_bind. eapply ends_mono; [by apply upgrade_safe|]. intros c1 _ [H1 H2].
  apply ends_bind. eapply ends_mono; [by apply stats_safe|]. intros c2 _ [H3 H4].
  apply ends_bind. eapply ends_mono; [by apply issue_candidate_safe|]. intros c3 _ [H5 H6]. by apply (advance_safe n _ b i).
Qed.
End Serve.
