(* ===== verification/TickSafety.v ===== *)
(** * TickSafety: a whole tick, a send, and the initial state

    The hooks of the refresh manager and the row policy, the tick of the
    GenericDDR controller, sending a valid request, and [ctrl_ok] of a
    controller that was just set up. *)
From stdpp Require Import prelude gmap strings.
From S2P Require Import Prelude DramSpec Commands Standards Node NodeTiming NodeTree Device DeviceInv DeviceProps BankSafety BankProgress IssueSafety Request BitUtils AddrMapper Float32 ControllerState Controller Refresh NodeAddr HbmRefresh RowPolicy ControllerInit GenericDdr ControllerSafety Hbm Lpddr5 Controllers ControllerTrace ServeSafety.
Open Scope Z_scope.

Local Abbreviation total := (fun _ : err => False).

(** The priority buffer has no room for the requests of the next refresh. *)
Definition refresh_demand (m : RefreshManager) : Z :=
  match m with AllBank r => Z.of_nat (length (ab_ref_nodes r)) | PerBank _ => 1 | _ => 0 end.

Definition crowded (b : ReqBuffer) (k : Z) : Prop := max_size b < buf_size b + k.

(** The one way a tick may fail. *)
Definition no_room (c : ControllerBase) (e : err) : Prop :=
  refresh_error e /\ crowded (c_priority_buffer c) (refresh_demand (c_refresh c)).

Section Tick.
Context (d : standard) (cfg : dram_config) (s : DRAMSpec).
Context (Hin : In d all_standards) (Hcon : construct d cfg = Ok s) (Hs : spec_ok s) (Horg : org_ok s).
Local Abbreviation T := (std_traits d).

(** ** Priority requests *)
Lemma maintenance_ok n name cmd ci av :
  (name ∉ opening_names) -> get_command_id s name = Ok cmd -> impl_by_name T name = Some ci ->
  addr_for d s (impl_target ci) av -> addr_ok s (row_lvl d) av -> (Z.to_nat (level_count s) <= length av)%nat ->
  req_ok d s n (Request_cmd av cmd).
Proof. intros. split; cbn; try done; [by exists name, ci|intros [?|?]; done|by left]. Qed.

Lemma priority_send_safe n c r :
  ctrl_ok d s n c -> req_ok d s n r ->
  exists ok c', ctrl_priority_send c r = Ok (ok, c') /\ ctrl_ok d s n c' /\ c_device c' = c_device c /\
    c_rowpolicy c' = c_rowpolicy c /\ c_refresh c' = c_refresh c /\
    (if ok then buf_size (c_priority_buffer c') = buf_size (c_priority_buffer c) + 1 /\
                max_size (c_priority_buffer c') = max_size (c_priority_buffer c)
     else crowded (c_priority_buffer c) 1).
Proof.
  intros Hc Hr. destruct (ro_wanted _ _ _ _ Hr) as (name & ci & _ & Hid & _).
  destruct (command_id_range d cfg s name _ Hin Hcon Hid) as [Hrange _]. unfold ctrl_priority_send, spec_of, enqueue.
  rewrite (dk_spec _ _ _ (ck_dev _ _ _ _ Hc)).
  destruct (Z.ltb_spec (final_command r) 0); [lia|]. destruct (Z.leb_spec (command_count s) (final_command r)); [lia|]. cbn [orb].
  assert (Hok : ctrl_ok d s n (set_buf c Bpriority (mkBuf (buffer (c_priority_buffer c) ++ [r]) (max_size (c_priority_buffer c))))).
  { apply ok_set_buf; [done|]. cbn. intros x [Hx|Hx]%elem_of_app; [by apply (ok_active_reqs d s n c Bpriority x Hc)|].
    apply list_elem_of_singleton in Hx as ->. done. }
  assert (Hlen : Z.of_nat (length (buffer (c_priority_buffer c) ++ [r])) = Z.of_nat (length (buffer (c_priority_buffer c))) + 1)
    by (rewrite length_app; cbn; lia).
  destruct (Z.ltb_spec (buf_size (c_priority_buffer c)) (max_size (c_priority_buffer c))).
  - destruct (true && _).
    + exists true; eexists; split; [done|]. split; [exact (ok_count _ _ _ _ _ _ Hok)|]. split_and!; done.
    + exists true; eexists; split; [done|]. split; [exact Hok|]. split_and!; done.
  - exists false; eexists; split; [done|]. split; [by destruct Hc|]. split_and!; try done. unfold crowded. lia.
Qed.

(** ** Refresh *)
Lemma refresh_targets name ci : impl_by_name T name = Some ci ->
  (name = "REFab" -> impl_target ci = All) /\ (name = "REFpb" -> impl_target ci = Single).
Proof. intros Hn. by_impl Hn; split; intros E; done. Qed.

Lemma send_refresh_safe n c cmd what p name ci :
  ctrl_ok d s n c -> in_tree (c_device c) p -> (name ∉ opening_names) -> get_command_id s name = Ok cmd ->
  impl_by_name T name = Some ci -> (impl_target ci = All \/ (impl_target ci = Single /\ length p = bank_lvl d)) ->
  ends (fun e => e = Throw what /\ crowded (c_priority_buffer c) 1) (send_refresh cmd what c p)
    (fun c' => ctrl_ok d s n c' /\ c_device c' = c_device c /\ c_refresh c' = c_refresh c /\
       buf_size (c_priority_buffer c') = buf_size (c_priority_buffer c) + 1 /\
       max_size (c_priority_buffer c') = max_size (c_priority_buffer c)).
Proof.
  intros Hc Hp Hop Hid Hci Htgt. unfold send_refresh.
  destruct (build_addr_vec_ok d cfg s Hin Hcon (sizes_length s Horg) (c_device c) p (ck_dev _ _ _ _ Hc) Hp)
    as (av & -> & Hn & _ & Hrd & Ha & Hcn). cbn [mbind res_bind].
  assert (Hr : req_ok d s n (Request_cmd av cmd)).
  { eapply maintenance_ok; eauto; [|rewrite (nn_length _ _ _ Hn); lia].
    destruct Htgt as [->|[-> Hl]]; [done|]. split; [done|]. by apply Hcn. }
  destruct (priority_send_safe n c _ Hc Hr) as (ok & c' & -> & Hc' & Hd & _ & Hrf & Hsz). cbn [mbind res_bind fst snd].
  destruct ok; cbn; [by destruct Hsz|done].
Qed.

Lemma send_all_safe n cmd what name ci nodes : forall c,
  ctrl_ok d s n c -> Forall (in_tree (c_device c)) nodes -> (name ∉ opening_names) -> get_command_id s name = Ok cmd ->
  impl_by_name T name = Some ci -> impl_target ci = All ->
  ends (fun e => e = Throw what /\ crowded (c_priority_buffer c) (Z.of_nat (length nodes)))
    (foldM (send_refresh cmd what) nodes c) (ctrl_ok d s n).
Proof.
  induction nodes as [|p nodes IH]; intros c Hc Hn Hop Hid Hci Ht; [done|]. apply Forall_cons in Hn as [Hp Hn].
  cbn [foldM]. apply ends_bind. eapply ends_mono.
  - eapply ends_weaken; [|by apply (send_refresh_safe n c cmd what p name ci); eauto].
    intros e [-> He]. split; [done|]. unfold crowded in *. cbn [length]. lia.
  - intros c' _ (Hc' & Hd & _ & Hsz & Hmx). eapply ends_weaken; [|apply IH; try done; by rewrite Hd].
    intros e [-> He]. split; [done|]. unfold crowded in *. cbn [length]. lia.
Qed.

Lemma ok_with_refresh n c r : ctrl_ok d s n c -> refresh_ok d s (c_device c) r -> ctrl_ok d s n (with_c_refresh c r).
Proof. intros [] Hr. by split. Qed.

(** The REFpb of a bank the HBM3/4 manager knows. *)
Lemma refpb_send_safe n c r b :
  ctrl_ok d s n c -> get_command_id s "REFpb" = Ok (h_cmd_refpb r) -> ref_ok (is_bank d s) r b ->
  exists av ok c', build_addr_vec (c_device c) (br_node b) = Ok av /\
    ctrl_priority_send c (Request_cmd av (h_cmd_refpb r)) = Ok (ok, c') /\ ctrl_ok d s n c' /\ c_device c' = c_device c.
Proof.
  intros Hc Hid [(p & -> & Hb & _) _]. pose proof (ck_dev _ _ _ _ Hc) as Hok.
  assert (Hp : in_tree (c_device c) p) by (apply (dk_nodes _ _ _ Hok); by rewrite (dk_banks _ _ _ Hok)).
  destruct (build_addr_vec_ok d cfg s Hin Hcon (sizes_length s Horg) _ p Hok Hp) as (av & -> & Hn & _ & Hrd & Ha & Hcn).
  destruct (standard_handlers d cfg s _ _ Hin Hcon Hid) as (ci & Hci & _).
  assert (impl_target ci = Single) as Ht by (by apply (refresh_targets _ _ Hci)).
  destruct (priority_send_safe n c (Request_cmd av (h_cmd_refpb r)) Hc) as (ok & c' & Hs' & Hc' & Hd & _); [|by exists av, ok, c'].
  eapply (maintenance_ok n "REFpb"); eauto; [closed_elem| |rewrite (nn_length _ _ _ Hn); lia].
  rewrite Ht. split; [done|]. apply Hcn. by apply (is_bank_length d cfg s Hin Hcon Horg).
Qed.

Lemma service_safe n c r :
  ctrl_ok d s n c -> get_command_id s "REFpb" = Ok (h_cmd_refpb r) -> h34_ok (is_bank d s) r ->
  ends total (service_pending_refpb r c)
    (fun x => ctrl_ok d s n x.2 /\ h34_ok (is_bank d s) x.1.2 /\ h_const x.1.2 = h_const r).
Proof.
  intros Hc Hid Hr. unfold service_pending_refpb. destruct (h_pending_refpbs r) as [|b rest] eqn:Ep; [done|].
  pose proof (ho_pending _ _ Hr) as Hpd. rewrite Ep in Hpd. apply Forall_cons in Hpd as [Hb _].
  destruct (refpb_send_safe n c r b Hc Hid Hb) as (av & ok & c' & -> & Hsd & Hc' & _). cbn [mbind res_bind]. rewrite Hsd. cbn [mbind res_bind fst snd].
  destruct ok; cbn [negb]; [|done]. destruct (sent_ok (is_bank d s) r (c_clk c) b rest Hr Ep) as (r' & Hs' & Hr' & Hk).
  unfold sent_refpb in Hs'. apply bind_Ok_inv in Hs' as (st & -> & (st' & Hst' & (g & Hg & [= <-])%bind_Ok_inv)%bind_Ok_inv).
  cbn [mbind res_bind]. rewrite Hst'. cbn [mbind res_bind]. rewrite Hg. done.
Qed.

Lemma refpb_cmd_const r r' : h_const r' = h_const r -> h_cmd_refpb r' = h_cmd_refpb r.
Proof. by intros [=]. Qed.

(** The HBM3/4 manager retries a REFpb that found no room: it never fails. *)
Lemma hbm34_refresh_safe n c r :
  ctrl_ok d s n c -> get_command_id s "REFpb" = Ok (h_cmd_refpb r) -> h34_ok (is_bank d s) r ->
  ends total (HBM34PerBankRefresh_tick r c) (ctrl_ok d s n).
Proof.
  intros Hc Hid Hr. assert (Hput : forall c r', ctrl_ok d s n c -> h34_ok (is_bank d s) r' -> h_const r' = h_const r ->
    ctrl_ok d s n (with_c_refresh c (HBM34PerBank r'))).
  { intros c1 r' H1 H2 Hk. apply ok_with_refresh; [done|]. split; [by rewrite (refpb_cmd_const _ _ Hk)|done]. }
  unfold HBM34PerBankRefresh_tick. apply ends_bind. eapply ends_mono; [by apply (service_safe n)|].
  intros [[served r1] c1] _ (H1 & H2 & H3). cbn in H1, H2, H3.
  apply ends_if; [intros _; by apply Hput|intros _]. apply ends_if; [intros _; by apply Hput|intros _].
  destruct (seed_ok (is_bank d s) r1 (c_clk c1) H2) as (b & r2 & -> & H4 & H5). cbn [mbind res_bind fst snd].
  assert (H6 : h_const r2 = h_const r) by congruence.
  apply ends_if; [intros _; apply Hput; [done|by apply ok_next_refresh|done]|intros _]. apply ends_bind.
  eapply ends_mono; [apply (service_safe n); [done|by rewrite (refpb_cmd_const _ _ H6)|done]|].
  intros [[served' r3] c3] _ (H7 & H8 & H9). cbn in H7, H8, H9. apply Hput; [done|by apply ok_next_refresh|]. 
  change (h_const r3 = h_const r). congruence.
Qed.

Lemma refresh_safe n c : ctrl_ok d s n c ->
  ends (fun e => refresh_error e /\ crowded (c_priority_buffer c) (refresh_demand (c_refresh c))) (refresh_tick c) (ctrl_ok d s n).
Proof.
  intros Hc. pose proof (ck_refresh _ _ _ _ Hc) as Hr. unfold refresh_tick, refresh_demand.
  destruct (c_refresh c) as [|r|r|r]; cbn in Hr; [exact Hc| | |].
  - destruct Hr as [Hid Hn]. destruct (standard_handlers d cfg s _ _ Hin Hcon Hid) as (ci & Hci & _).
    assert (impl_target ci = All) as Ht by (by apply (refresh_targets _ _ Hci)).
    unfold AllBankRefresh_tick. apply ends_if; [intros _|done]. cbn zeta. eapply ends_weaken; cycle 1.
    + apply (send_all_safe n _ _ "REFab" ci); [by apply ok_with_refresh|exact Hn|closed_elem|exact Hid|exact Hci|exact Ht].
    + intros e [-> He]. split; [by left|exact He].
  - destruct Hr as (Hid & Hn & Hidx). destruct (standard_handlers d cfg s _ _ Hin Hcon Hid) as (ci & Hci & _).
    assert (impl_target ci = Single) as Ht by (by apply (refresh_targets _ _ Hci)).
    unfold PerBankRefresh_tick. apply ends_if; [intros _|done].
    destruct (proj2 (vget_is_Ok (pb_bank_nodes r) (pb_next_bank_idx r)) Hidx) as [p Hp]. rewrite Hp. cbn [mbind res_bind].
    apply vget_Ok in Hp as [_ Hp]. pose proof (Forall_lookup_1 _ _ _ _ Hn Hp) as [Hpt Hpl].
    apply ends_bind. eapply ends_mono.
    + eapply ends_weaken; [|apply (send_refresh_safe n c _ _ p "REFpb" ci); eauto; closed_elem].
      intros e [-> He]. split; [by right|exact He].
    + intros c' _ (Hc' & Hd & _). cbn. apply ok_with_refresh; [done|]. cbn. rewrite Hd. split_and!; try done;
        apply Z.mod_pos_bound; lia.
  - destruct Hr as [Hid Hr]. eapply ends_weaken; [|by apply hbm34_refresh_safe]. done.
Qed.

(** ** The row policy before scheduling *)
Lemma bank_node_path dev i p : dev_ok d s dev -> vget (m_bank_nodes dev) i = Ok p -> in_tree dev p /\ length p = bank_lvl d.
Proof.
  intros Hok Hp. apply vget_Ok in Hp as [_ Hp]. apply list_elem_of_lookup_2 in Hp. split; [by apply (dk_nodes _ _ _ Hok)|].
  rewrite (dk_banks _ _ _ Hok) in Hp. by apply (is_bank_length d cfg s Hin Hcon Horg).
Qed.

Lemma inject_safe n dev p c i :
  c_device c = dev -> ctrl_ok d s n c -> cap_ok s dev p -> 0 <= i < Z.of_nat (length (m_bank_nodes dev)) ->
  ends total (inject_precharge (p, c) i) (fun st => c_device st.2 = dev /\ ctrl_ok d s n st.2 /\ cap_ok s dev st.1).
Proof.
  intros Hd Hc Hp Hi. pose proof Hp as [H1 H2 H3 H4 H5 H6]. unfold inject_precharge.
  destruct (proj2 (vget_is_Ok (m_col_accesses p) i)) as [k ->]; [lia|]. cbn [mbind res_bind].
  destruct (proj2 (vget_is_Ok (m_prepb_injected p) i)) as [j Hj]; [lia|].
  apply ends_bind. apply (ends_mono _ _ (fun _ => True)); [apply ends_if; [done|intros _; by rewrite Hj]|].
  intros inj _ _. apply ends_if; [done|intros _]. rewrite Hd.
  destruct (proj2 (vget_is_Ok (m_bank_nodes dev) i) Hi) as [q Hq]. rewrite Hq. cbn [mbind res_bind].
  pose proof (ck_dev _ _ _ _ Hc) as Hok. rewrite Hd in Hok. destruct (bank_node_path dev i q Hok Hq) as [Hqt Hql].
  destruct (build_addr_vec_ok d cfg s Hin Hcon (sizes_length s Horg) dev q Hok Hqt) as (av & -> & Hn & _ & Hrd & Ha & Hcn). cbn [mbind res_bind].
  destruct (command_id_range d cfg s _ _ Hin Hcon H3) as [Hrg _].
  destruct (check_safe d s (c_device c) (m_cmd_prepb p) av (c_clk c)) as [t Ht]; [by rewrite Hd|done..|].
  unfold ctrl_check_timing. rewrite Ht. cbn [mbind res_bind]. apply ends_if; [done|intros _].
  assert (Hr : req_ok d s n (Request_cmd av (m_cmd_prepb p))).
  { eapply (maintenance_ok n "PREpb" _ (Cmd_PREpb T)); eauto; [apply pre_not_opening|split; [done|by apply Hcn]|].
    rewrite (nn_length _ _ _ Hn). lia. }
  destruct (priority_send_safe n c _ Hc Hr) as (ok & c' & -> & Hc' & Hd' & _). cbn [mbind res_bind fst snd].
  destruct ok; cbn; [|split_and!; [congruence|done..]].
  destruct (vset_total (m_prepb_injected p) i true) as [b Hb]; [lia|]. rewrite Hb. cbn. apply vset_length in Hb.
  split_and!; [congruence|done|]. split; cbn; try done. congruence.
Qed.

Lemma rowpolicy_pre_safe n c : ctrl_ok d s n c -> ends total (rowpolicy_pre_schedule c) (ctrl_ok d s n).
Proof.
  intros Hc. unfold rowpolicy_pre_schedule. pose proof (ck_policy _ _ _ _ Hc) as Hp. destruct (c_rowpolicy c) as [|p]; [done|].
  unfold ClosedCAP_pre_schedule. apply ends_bind. eapply ends_mono.
  - apply (ends_foldM total (fun st => c_device st.2 = c_device c /\ ctrl_ok d s n st.2 /\ cap_ok s (c_device c) st.1)); [|done].
    intros i [p1 c1] Hi (H1 & H2 & H3). apply (inject_safe n); try done. rewrite <- (co_accesses _ _ _ Hp).
    apply elem_of_seqZ in Hi. lia.
  - intros [p1 c1] _ (H1 & H2 & H3). cbn in *. rewrite <- H1 in H3. destruct H2. by split.
Qed.

(** ** A tick *)
Lemma ok_drain n l : forall c, ctrl_ok d s n c -> ctrl_ok d s n (drain c l).
Proof.
  induction l as [|r l IH]; intros c Hc; cbn [drain]; [destruct Hc; by split|]. case_match; [destruct Hc; by split|].
  by apply IH, ok_call_back, ok_count.
Qed.

Lemma ok_prologue n c : ctrl_ok d s n c -> ctrl_ok d s n (tick_prologue c).
Proof. intros Hc. unfold tick_prologue, serve_completed_reads. apply ok_drain. do 5 apply ok_count. destruct Hc. by split. Qed.

Lemma prologue_refresh c : c_priority_buffer (tick_prologue c) = c_priority_buffer c /\ c_refresh (tick_prologue c) = c_refresh c.
Proof.
  unfold tick_prologue, serve_completed_reads. set (c1 := count_stat _ _ _).
  change (c_priority_buffer c) with (c_priority_buffer c1). change (c_refresh c) with (c_refresh c1).
  generalize (c_pending c1) as l. generalize c1 as c0. clear. intros c0 l. revert c0.
  induction l as [|r l IH]; intros c0; cbn [drain]; [done|]. case_match; [done|].
  destruct (IH (call_back (count_stat c0 s_read_latency (depart r - arrive r)) r)) as [-> ->].
  unfold call_back. by destruct (callback r).
Qed.

Lemma ok_plugins_pre n c : ctrl_ok d s n c -> ctrl_ok d s n (plugins_pre_schedule c).
Proof.
  intros [H1 H2 H3 H4 H5 H6 H7 H8 H9 H10 H11 H12]. split; try done. cbn. apply Forall_fmap. eapply Forall_impl; [exact H11|].
  by intros [m|l|k f].
Qed.

Lemma pre_tick_safe n c : ctrl_ok d s n c ->
  ends (fun e => refresh_error e /\ crowded (c_priority_buffer c) (refresh_demand (c_refresh c))) (pre_tick c) (ctrl_ok d s n).
Proof.
  intros Hc. destruct (prologue_refresh c) as [Hpb Hrf]. unfold pre_tick. apply ends_bind.
  eapply ends_mono; [rewrite <- Hpb, <- Hrf; apply refresh_safe, ok_prologue, Hc|]. intros c1 _ H1.
  apply ends_bind. eapply ends_mono; [eapply ends_weaken; [|by apply rowpolicy_pre_safe]; done|]. intros c2 _ H2%ok_plugins_pre. exact H2.
Qed.

Lemma tick_safe n c : ctrl_ok d s n c ->
  ends (fun e => refresh_error e /\ crowded (c_priority_buffer c) (refresh_demand (c_refresh c))) (GenericDDR_tick c) (ctrl_ok d s n).
Proof.
  intros Hc. assert (Hweak : forall (E : err -> Prop) e, (False : Prop) -> E e) by done.
  unfold GenericDDR_tick. apply ends_bind. eapply ends_mono; [by apply pre_tick_safe|]. intros c2 _ H2.
  apply ends_bind. eapply ends_mono; [eapply ends_weaken; [apply Hweak|by eapply (select_safe d cfg s)]|]. intros [cand c3] _ [H3 H4].
  apply ends_bind. eapply ends_mono; [eapply ends_weaken; [apply Hweak|by eapply (serve_safe d cfg s)]|]. intros c4 _ H5. exact H5.
Qed.

(** ** Sending *)

(** The address of a request fits the mapper of the controller. *)
Definition addressable (a : AddrMapper) (req : Request) : Prop :=
  let m := am_base a in
  match am_impl a with
  | MapChRaBaRoCo => 0 <= intra_channel_addr req < capacity m (order_ChRaBaRoCo m)
  | MapRoBaRaCoCh => 0 <= intra_channel_addr req < capacity m (order_RoBaRaCoCh m)
  | MapMOP4CLXOR => exists cw rw,
      vget (m_addr_bits m) (m_col_idx m) = Ok cw /\ 2 <= cw /\ vget (m_addr_bits m) (m_row_idx m) = Ok rw /\
      widths_sum m (seqZ 0 (m_col_idx m)) < 32 /\
      0 <= intra_channel_addr req < 2 ^ (m_tx_offset m + (cw + widths_sum m (seqZ 0 (m_row_idx m)) + rw))
  | MapPassThrough => req_addr d s (addr_vec req) /\ Z.of_nat (length (addr_vec req)) = level_count s
  end.

Record valid_request (n : nat) (c : ControllerBase) (req : Request) : Prop := {
  vr_type : type_id req = Type_Read \/ type_id req = Type_Write;
  vr_source : source_id req = -1 \/ 0 <= source_id req < Z.of_nat n;
  vr_addr : addressable (c_mapper c) req
}.

Lemma mapper_safe a req : AddrMapperBase_init s = Ok (am_base a) -> addressable a req ->
  exists av, mapper_apply a req = Ok (set_addr_vec req av) /\ req_addr d s av /\ Z.of_nat (length av) = level_count s.
Proof.
  intros Hi Ha. destruct (AddrMapperBase_init_ok d cfg s Hin Hcon Horg) as (m & Hm & Hok & Hfit & Hn & _).
  rewrite Hm in Hi. injection Hi as ->. unfold mapper_apply, addressable in *. destruct (am_impl a).
  - destruct (linear_roundtrip _ _ Hok (order_ChRaBaRoCo_ok _) req Ha) as (av & Hap & _ & Hl & Hf & _).
    exists av. rewrite ChRaBaRoCo_linear. split_and!; [done|by eapply in_field_req_addr|lia].
  - destruct (linear_roundtrip _ _ Hok (order_RoBaRaCoCh_ok _ Hok) req Ha) as (av & Hap & _ & Hl & Hf & _).
    exists av. rewrite RoBaRaCoCh_linear. split_and!; [done|by eapply in_field_req_addr|lia].
  - destruct Ha as (cw & rw & H1 & H2 & H3 & H4 & H5).
    destruct (mop_roundtrip _ req cw rw Hok H1 H2 H3 H4 H5) as (av & Hap & _ & Hl & Hf). exists av.
    split_and!; [done|by eapply in_field_req_addr|lia].
  - exists (addr_vec req). destruct Ha. split_and!; try done. unfold PassThroughAddrMapper_apply. by destruct req.
Qed.

Lemma req_addr_channel av ch : req_addr d s av -> req_addr d s (<[0%nat := ch]> av).
Proof.
  intros [H1 [H2 H3]]. split; [|split].
  - intros lvl Hl. rewrite list_lookup_insert_ne by lia. by apply H1.
  - intros lvl Hl. apply lookup_lt_is_Some. rewrite length_insert. apply lookup_lt_is_Some. by apply H2.
  - intros lvl Hl. rewrite list_lookup_insert_ne by lia. by apply H3.
Qed.

(** The request types are the read and the write command. *)
Lemma request_commands ty : ty = Type_Read \/ ty = Type_Write -> exists name cmd ci,
  vget (supported_requests s) ty = Ok cmd /\ (name ∉ opening_names) /\ get_command_id s name = Ok cmd /\
  impl_by_name T name = Some ci /\ impl_target ci = Single.
Proof.
  intros Hty. destruct (standard_static d cfg s Hin Hcon) as (C & _ & _ & Hnd & _ & _ & _ & Hst).
  unfold std_static_ok in Hst. bool_hyps. rewrite (con_requests _ _ C).
  destruct (std_requests d) as [|r [|w [|]]]; try done. bool_hyps.
  assert (Hid : forall i name, name_at (std_commands d) i name = true -> get_command_id s name = Ok i)
    by (intros i name Hi; unfold get_command_id; rewrite (con_commands _ _ C); eauto using name_at_id).
  destruct Hty as [-> | ->].
  - exists "RD", r, (Cmd_RD T). split_and!; try done; [closed_elem|by apply Hid].
  - exists "WR", w, (Cmd_WR T). split_and!; try done; [closed_elem|by apply Hid].
Qed.

Lemma send_safe n c req : ctrl_ok d s n c -> valid_request n c req ->
  ends total (ctrl_send c req) (fun p => ctrl_ok d s n p.2).
Proof.
  intros Hc [Hty Hsrc Ha]. destruct (mapper_safe _ _ (ck_mapper _ _ _ _ Hc) Ha) as (av & Hap & Hav & Hlen).
  destruct (level_count_row d cfg s Hin Hcon) as [Hlc Hrl].
  destruct (request_commands (type_id req) Hty) as (name & fc & ci & Hfc & Hop & Hid & Hci & Ht).
  unfold ctrl_send. rewrite Hap. cbn [mbind res_bind]. destruct (vset_total av 0 (c_channel_id c)) as [av' Hv]; [lia|].
  cbn [addr_vec set_addr_vec]. rewrite Hv. cbn [mbind res_bind]. cbn zeta. unfold spec_of. rewrite (dk_spec _ _ _ (ck_dev _ _ _ _ Hc)).
  cbn [type_id set_addr_vec]. rewrite Hfc. cbn [mbind res_bind].
  set (req1 := set_final_command _ fc). apply vset_Ok in Hv as [_ ->].
  assert (Hr : forall t, req_ok d s n (set_arrive req1 t)).
  { intros t. pose proof (req_addr_channel av (c_channel_id c) Hav) as [Hcn Hao]. split; cbn.
    - exists name, ci. rewrite Ht. split_and!; try done. split; [|done]. unfold readable. rewrite length_insert. lia.
    - exact Hao.
    - rewrite length_insert. lia.
    - done.
    - exact Hsrc. }
  assert (Henq : forall b r, req_ok d s n r -> b <> Bactive -> ctrl_ok d s n (set_buf c b (enqueue (get_buf c b) r).2)).
  { intros b r Hr0 Hb. apply ok_set_buf; [done|]. unfold enqueue. destruct (_ <? _); cbn.
    - intros x [Hx|Hx]%elem_of_app; [by apply (ok_active_reqs d s n c b x Hc)|]. by apply list_elem_of_singleton in Hx as ->.
    - intros x Hx. by apply (ok_active_reqs d s n c b x Hc). }
  apply ends_if; [intros _; cbn; do 2 apply ok_count; destruct Hc; by split|intros _].
  pose proof (Henq Bread (set_arrive req1 (c_clk c)) (Hr _) ltac:(done)) as Hrd.
  pose proof (Henq Bwrite (set_arrive req1 (c_clk c)) (Hr _) ltac:(done)) as Hwr. cbn [set_buf get_buf] in Hrd, Hwr.
  apply ends_if; [intros _|intros Hnr].
  { destruct (enqueue (c_read_buffer c) _) as [[] b]; cbn; [by apply ok_count|done]. }
  apply ends_if; [intros _|intros Hnw].
  - apply ends_if; [intros _; cbn; do 2 apply ok_count; by apply ok_call_back|intros _].
    destruct (enqueue (c_write_buffer c) _) as [[] b]; cbn; [|done]. apply ok_count. cbn in Hwr. destruct Hwr. by split.
  - bool_hyps. cbn in Hnr, Hnw. by destruct Hty.
Qed.

(** ** The initial state *)
Lemma paths_at_level_in B x : forall p, p ∈ paths_at_level B x -> is_Some (node_at x p).
Proof.
  induction x as [l id b r h ch IH] using node_ind'. intros p Hp. cbn in Hp.
  destruct (Nat.eqb_spec l B) as [->|Hne]; [apply list_elem_of_singleton in Hp as ->; by eexists|].
  apply list_elem_of_In, in_concat in Hp as (ps & Hps & Hp).
  apply list_elem_of_In, list_elem_of_lookup in Hps as [i Hi].
  rewrite list_lookup_imap, list_lookup_fmap in Hi. destruct (ch !! i) as [c|] eqn:Hc; [|done].
  cbn in Hi. injection Hi as <-. apply in_map_iff in Hp as (q & <- & Hq). cbn. rewrite Hc. cbn.
  rewrite Forall_lookup in IH. apply (IH i c Hc). by apply list_elem_of_In.
Qed.

Lemma banks_nonempty dev : dev_ok d s dev -> (0 < length (m_bank_nodes dev))%nat.
Proof.
  intros Hok. rewrite (dk_banks _ _ _ Hok), length_all_paths. unfold bank_sizes, sizes_below.
  assert (H : Forall (fun k => 0 < k)%nat (map Z.to_nat (take (bank_lvl d - 0) (drop 1 (level_sizes s))))).
  { apply Forall_fmap, Forall_take, Forall_drop, Forall_lookup. intros i sz Hi. cbn. pose proof (oo_sizes s Horg _ _ Hi). lia. }
  induction H as [|k l Hk _ IH]; cbn; lia.
Qed.

Lemma in_tree_channel dev ch p : in_tree dev p -> in_tree (set_channel_id dev ch) p.
Proof. unfold in_tree. cbn. by destruct (m_root dev), p. Qed.

Lemma make_refresh_ok dev k m :
  dev_ok d s dev -> m_bank_nodes dev = paths_at_level (bank_lvl d) (m_root dev) ->
  make_refresh k dev = Ok m -> refresh_ok d s dev m.
Proof.
  intros Hok Hbn. destruct k; cbn [make_refresh]; try done; [by intros [= <-]|..].
  - intros (r & Hr & [= <-])%bind_Ok_inv. unfold AllBankRefresh_init in Hr. rewrite (dk_spec _ _ _ Hok) in Hr.
    cbn zeta in Hr. inv_res. dcase Hr; [discriminate|]. injection Hr as <-. cbn. split; [done|].
    apply Forall_forall. intros p Hp. by eapply paths_at_level_in.
  - intros (r & Hr & [= <-])%bind_Ok_inv. unfold PerBankRefresh_init in Hr. rewrite (dk_spec _ _ _ Hok) in Hr. cbn zeta in Hr.
    destruct (standard_levels d cfg s Hin Hcon) as [_ Hbl]. rewrite Hbl in Hr. cbn [mbind res_bind] in Hr. inv_res. subst r. cbn.
    fold (bank_lvl d). rewrite <- Hbn. pose proof (banks_nonempty dev Hok). split; [done|]. split; [|lia].
    apply Forall_lookup. intros i p Hp. apply (bank_node_path dev (Z.of_nat i) p Hok). by apply vget_nat.
  - intros (r & Hr & [= <-])%bind_Ok_inv. by destruct (h34_init_ok d cfg s Hin Hcon Horg dev r Hok (eq_sym Hbn) Hr) as (H1 & _ & H2 & _).
Qed.

Lemma ClosedCAP_init_ok dev cap p : dev_ok d s dev -> ClosedCAP_init cap dev = Ok p -> cap_ok s dev p.
Proof.
  intros Hok. unfold ClosedCAP_init. rewrite (dk_spec _ _ _ Hok). cbn zeta.
  intros (pre & H1 & (rd & H2 & (wr & H3 & (rda & H4 & (wra & H5 & [= <-])%bind_Ok_inv)%bind_Ok_inv)%bind_Ok_inv)%bind_Ok_inv)%bind_Ok_inv.
  split; cbn; try done; [by rewrite length_replicate..|]. intros Hap. bool_hyps.
  dcase H4; [|injection H4 as <-; done]. dcase H5; [done|injection H5 as <-; done].
Qed.

Lemma setup_plugins_ok (c : ControllerBase) ks ps ps' :
  spec_of c = s -> Forall (plugin_ok s) ps -> mapM (fun kp => setup_plugin c kp.1 kp.2) (zip ks ps) = Ok ps' ->
  Forall (plugin_ok s) ps'.
Proof.
  intros Hsp Hps Hm. apply mapM_Ok in Hm. apply Forall_lookup. intros i p' Hi.
  destruct (Forall2_lookup_r _ _ _ _ _ Hm Hi) as ([k p] & Hk & Hp). cbn in Hp.
  apply lookup_zip_with_Some in Hk as (k0 & p0 & [= -> ->] & _ & Hp0). pose proof (Forall_lookup_1 _ _ _ _ Hps Hp0) as Hok.
  unfold setup_plugin in Hp. destruct k0, p0; try (by injection Hp as <-).
  - by apply bind_Ok_inv in Hp as (m & _ & [= <-]).
  - injection Hp as <-. cbn. rewrite Hsp. lia.
Qed.

Lemma create_registered : create registry (std_name d) cfg = Ok s.
Proof.
  destruct (standard_static d cfg s Hin Hcon) as (C & _). unfold create.
  rewrite (registry_lookup d Hin).
  cbn [of_option mbind res_bind]. rewrite Hcon. cbn [mbind res_bind]. rewrite <- (con_name _ _ C). by destruct s.
Qed.

Lemma init_bank_nodes dev : init s = Ok dev -> m_bank_nodes dev = paths_at_level (bank_lvl d) (m_root dev).
Proof.
  destruct (standard_levels d cfg s Hin Hcon) as [_ Hbl]. unfold init. rewrite Hbl. cbn [mbind res_bind].
  intros (r & _ & [= <-])%bind_Ok_inv. done.
Qed.

Lemma init_base_dev cc c0 :
  cc_dram_impl cc = std_name d -> cc_dram cc = cfg -> init_base registry cc = Ok c0 -> dev_ok d s (c_device c0).
Proof.
  intros Hname Hcfg. unfold init_base. rewrite Hname, Hcfg, create_registered. cbn [mbind res_bind].
  intros (dev & Hi & H)%bind_Ok_inv. inv_res. subst c0. by apply (init_dev_ok d cfg s dev Hin Hcon).
Qed.

Lemma setup_ok cc n ch c0 c :
  cc_dram_impl cc = std_name d -> cc_dram cc = cfg -> 0 <= n ->
  init_base registry cc = Ok c0 -> setup_controller cc n ch c0 = Ok c -> ctrl_ok d s (Z.to_nat n) c.
Proof.
  intros Hname Hcfg Hn. unfold init_base. rewrite Hname, Hcfg, create_registered. cbn [mbind res_bind].
  intros (dev & Hi & (bl & _ & (tck & _ & (rf & Hr & (rp & Hp & (mp & Hm & [= <-])%bind_Ok_inv)%bind_Ok_inv)%bind_Ok_inv)%bind_Ok_inv)%bind_Ok_inv)%bind_Ok_inv.
  pose proof (init_dev_ok d cfg s dev Hin Hcon Hi) as Hok. pose proof (init_banks_wf d cfg s Hin Hcon dev Hi) as Hwf.
  unfold setup_controller. cbn zeta. intros (ps & Hps & [= <-])%bind_Ok_inv.
  assert (Hlen : forall l, length (vresize l n 0) = Z.to_nat n) by (intros l; pose proof (length_vresize l n 0 Hn); lia).
  split; cbn; try done.
  - by apply set_channel_id_ok.
  - by apply set_channel_id_wf.
  - intros b r Hr0. destruct b; by apply elem_of_nil in Hr0.
  - intros r Hr0. by apply elem_of_nil in Hr0.
  - by rewrite length_replicate.
  - apply (refresh_ok_issue d s dev); [apply in_tree_channel|].
    apply (make_refresh_ok dev (cc_refresh cc)); [done|by apply init_bank_nodes|done..].
  - apply (policy_ok_issue s dev); [done|]. unfold make_rowpolicy in Hp. destruct (cc_rowpolicy cc); [by injection Hp as <-|].
    apply bind_Ok_inv in Hp as (p & Hp & [= <-]). by eapply ClosedCAP_init_ok.
  - eapply setup_plugins_ok; [| |exact Hps]; [by cbn; apply Hok|]. cbn. apply Forall_fmap, Forall_true.
    pose proof (oo_length s Horg). intros [ | | ]; cbn; try done. lia.
  - unfold make_mapper in Hm. rewrite (dk_spec _ _ _ Hok) in Hm. apply bind_Ok_inv in Hm as (b & Hb & [= <-]). done.
Qed.
End Tick.
