(* ===== verification/HbmSafety.v ===== *)
(** * HbmSafety: the GenericDDR and HBM controllers never go wrong

    The two slots of the HBM controllers reuse the scheduler and the serving
    code of the GenericDDR controller under a filter.  [SafeController] is
    what a controller class owes to its users: an invariant that its tick
    keeps and that makes the tick fail only on a refresh that finds no room.
    The theorem is proved once against that interface. *)
From stdpp Require Import prelude gmap strings.
From S2P Require Import Prelude DramSpec Commands Standards Node NodeTiming NodeTree Device DeviceInv DeviceProps BankSafety BankProgress IssueSafety Request BitUtils AddrMapper Float32 ControllerState Controller Refresh NodeAddr HbmRefresh RowPolicy ControllerInit GenericDdr ControllerSafety Hbm Lpddr5 Controllers ControllerTrace ServeSafety TickSafety.
Open Scope Z_scope.

Local Abbreviation total := (fun _ : err => False).

Section Slots.
Context (d : standard) (cfg : dram_config) (s : DRAMSpec).
Context (Hin : In d all_standards) (Hcon : construct d cfg = Ok s) (Hs : spec_ok s) (Horg : org_ok s).

(** A slot matcher answers for every request the scheduler may ask about. *)
Definition matcher_ok (sm : SlotMatcher) : Prop :=
  forall n c c' r slot, ctrl_ok d s n c -> ctrl_ok d s n c' -> req_ok d s n r ->
    issuable d s (c_device c') (command r) (addr_vec r) -> is_Ok (sm c r slot).

Lemma HBM_matcher_ok : matcher_ok HBM_slot_matches.
Proof.
  intros n c c' r slot Hc Hc' Hr Hi. unfold HBM_slot_matches, spec_of.
  destruct (meta_of d cfg s Hin Hcon n c' Hc' _ _ Hi) as (_ & _ & m & _ & _ & _ & Hm & _).
  unfold spec_of in Hm. rewrite (dk_spec _ _ _ (ck_dev _ _ _ _ Hc')) in Hm.
  rewrite (dk_spec _ _ _ (ck_dev _ _ _ _ Hc)), Hm. by eexists.
Qed.

Section Matcher.
Context (sm : SlotMatcher) (Hsm : matcher_ok sm) (n : nat).

Lemma select_slot_safe c slot : ctrl_ok d s n c ->
  ends total (select_slot sm c slot) (fun p => ctrl_ok d s n p.2 /\ cand_ok d s p.2 p.1).
Proof.
  intros Hc. unfold select_slot. cbn zeta.
  assert (Hf : forall c', ctrl_ok d s n c' -> filter_ok d s n c' (Some (fun req => sm c req slot)))
    by (intros c' Hc' r Hr Hi; by apply (Hsm n c c')).
  apply ends_bind. apply (ends_mono _ _ (fun p => ctrl_ok d s n p.2 /\ cand_ok d s p.2 p.1)).
  { case_decide; [|done]. eapply (pick_best_safe d cfg s Hin Hcon n); [done|by apply Hf]. }
  intros p _ [H1 H2]. apply ends_bind. apply (ends_mono _ _ (fun p => ctrl_ok d s n p.2 /\ cand_ok d s p.2 p.1)).
  { apply ends_if; [done|]. intros _. eapply (pick_priority_safe d cfg s Hin Hcon n); [done|by apply Hf]. }
  intros q _ [H3 H4]. apply ends_if; [done|]. intros _. eapply (pick_rw_safe d cfg s Hin Hcon n); [done|by apply Hf].
Qed.

Lemma upgrade_in_slot_safe c b i slot :
  ctrl_ok d s n c -> cand_ok d s c (Some (b, i)) ->
  ends total (upgrade_in_slot sm c b i slot) (fun c' => ctrl_ok d s n c' /\ cand_ok d s c' (Some (b, i))).
Proof.
  intros Hc (r & Hr & Hi). unfold upgrade_in_slot. rewrite (request_at_Ok _ _ _ _ Hr). cbn [mbind res_bind]. cbn zeta.
  assert (Hro : req_ok d s n r) by (apply (ck_reqs _ _ _ _ Hc b); by eapply list_elem_of_lookup_2).
  apply ends_bind. eapply ends_mono; [by apply (rowpolicy_upgrade_safe d cfg s Hin Hcon n)|]. intros r' _ Hu.
  destruct (req_ok_upgraded d cfg s Hin Hcon n r r' Hro Hu) as [Hr' Hav].
  pose proof (issuable_upgraded d cfg s Hin Hcon (c_device c) r r' Hu Hi) as Hi'.
  apply ends_bind. apply (ends_mono _ _ (fun _ => True)).
  { apply ends_if; [done|]. intros _. destruct (Hsm n c c r' slot) as [k ->]; done. }
  intros keep _ _. cbn. set (r2 := if keep then r' else _).
  assert (H2 : req_ok d s n r2 /\ addr_vec r2 = addr_vec r /\ issuable d s (c_device c) (command r2) (addr_vec r2)).
  { unfold r2. destruct keep; [done|]. cbn. split; [by apply req_ok_command|]. by rewrite Hav. }
  destruct H2 as (H2 & H3 & H4). split.
  - apply ok_modify; [done|]. intros x Hx _. rewrite Hr in Hx. by injection Hx as <-.
  - exists r2. split.
    + unfold write_request. rewrite get_set_buf, decide_True by done. cbn. by rewrite list_lookup_alter_eq, Hr.
    + replace (c_device (write_request c b i r2)) with (c_device c) by (by destruct b). done.
Qed.

(** An issued command carries the address vector of a request. *)
Definition issued_fits (o : option IssuedCommand) : Prop :=
  match o with None => True | Some ic => (Z.to_nat (level_count s) <= length (ic_addr_vec ic))%nat end.

Lemma try_issue_safe c slot : ctrl_ok d s n c ->
  ends total (try_issue_slot sm c slot) (fun p => ctrl_ok d s n p.2 /\ issued_fits p.1).
Proof.
  intros Hc. unfold try_issue_slot. apply ends_bind. eapply ends_mono; [by apply select_slot_safe|].
  intros [[[b i]|] c1] _ [H1 H2]; [|done]. cbn in H1, H2.
  apply ends_bind. eapply ends_mono; [by apply upgrade_in_slot_safe|]. intros c2 _ [H3 H4].
  apply ends_bind. eapply ends_mono; [by apply (stats_safe d cfg s Hin Hcon n)|]. intros c3 _ [H5 H6].
  pose proof H6 as (r & Hr & _). rewrite (request_at_Ok _ _ _ _ Hr). cbn [mbind res_bind]. cbn zeta.
  apply ends_bind. eapply ends_mono; [by apply (issue_candidate_safe d cfg s Hin Hcon Hs n)|]. intros c4 _ [H7 H8].
  apply ends_bind. eapply ends_mono; [by apply (advance_safe d cfg s Hin Hcon n _ b i)|]. intros c5 _ H9. cbn.
  split; [done|]. apply (ro_length d s n). apply (ck_reqs _ _ _ _ H5 b). by eapply list_elem_of_lookup_2.
Qed.
End Matcher.
End Slots.

(** ** The HBM3/4 controller *)
Section Hbm34.
Context (d : standard) (cfg : dram_config) (s : DRAMSpec).
Context (Hin : In d all_standards) (Hcon : construct d cfg = Ok s) (Hs : spec_ok s) (Horg : org_ok s).

(** The levels it reads are levels of the standard. *)
Record h34_levels (h : HBM34Controller) : Prop := {
  hl_pc : 0 <= h34_level_pc h < level_count s;
  hl_sid : 0 <= h34_level_sid h < level_count s;
  hl_bg : 0 <= h34_level_bg h < level_count s;
  hl_bank : 0 <= h34_level_bank h < level_count s
}.

Lemma HBM34_init_levels c h : dev_ok d s (c_device c) -> HBM34_init c = Ok h -> h34_levels h /\ h34_base h = c.
Proof.
  intros Hok. unfold HBM34_init, spec_of. rewrite (dk_spec _ _ _ Hok). cbn zeta. intros H. inv_res. subst h. cbn. split; [|done].
  destruct (level_count_row d cfg s Hin Hcon) as [Hlc Hr].
  assert (Hmid : forall name i, name ∈ mid_levels -> get_level_id s name = Ok i -> 0 <= i < level_count s)
    by (intros name i Hn Hi; pose proof (mid_level_range d cfg s Hin Hcon name i Hn Hi); lia).
  split; cbn; (eapply Hmid; [|eassumption]; closed_elem).
Qed.

Lemma coord_total (av : AddrVec_t) lvl :
  0 <= lvl < level_count s -> (Z.to_nat (level_count s) <= length av)%nat -> is_Ok (vget av lvl).
Proof. intros. apply vget_is_Ok. lia. Qed.

Lemma bank_key_total h av :
  h34_levels h -> (Z.to_nat (level_count s) <= length av)%nat -> is_Ok (bank_key h av).
Proof.
  intros [H1 H2 H3 H4] Hl. unfold bank_key. destruct (coord_total av _ H2 Hl) as [x ->]. cbn.
  destruct (coord_total av _ H3 Hl) as [y ->]. cbn. destruct (coord_total av _ H4 Hl) as [z ->]. by eexists.
Qed.

Lemma HBM34_matcher_ok h : h34_levels h -> matcher_ok d s (HBM34_slot_matches h).
Proof.
  intros Hh n c c' r slot Hc Hc' Hr Hi. unfold HBM34_slot_matches. destruct (is_rising_edge c).
  { eapply (HBM_matcher_ok d cfg s Hin Hcon n c c'); done. }
  destruct slot; [by eexists|]. destruct (_ && _); [by eexists|]. unfold can_issue_falling_edge_pre. cbn zeta.
  destruct (negb _); [by eexists|]. pose proof (ro_length _ _ _ _ Hr) as Hl.
  destruct (coord_total (addr_vec r) _ (hl_pc _ Hh) Hl) as [pc ->]. cbn [mbind res_bind].
  destruct (negb _); [by eexists|]. destruct (is_all_bank_row_command _ _); [by eexists|].
  destruct (command r =? _); [|by eexists].
  destruct (bank_key_total h (addr_vec r) Hh Hl) as [k ->]. by eexists.
Qed.

Lemma record_total h cmd av clk : h34_levels h -> (Z.to_nat (level_count s) <= length av)%nat ->
  ends total (record_rising_row_issued_command_info h cmd av clk) (fun h' => h34_levels h').
Proof.
  intros Hh Hl. unfold record_rising_row_issued_command_info. destruct (coord_total av _ (hl_pc _ Hh) Hl) as [pc ->]. cbn [mbind res_bind].
  apply ends_bind. apply (ends_mono _ _ (fun _ => True)).
  - apply ends_if; [done|]. intros _. by destruct (bank_key_total h av Hh Hl) as [k ->].
  - intros k _ _. by destruct Hh.
Qed.

Definition h34_safe (n : nat) (h : HBM34Controller) : Prop := h34_levels h /\ ctrl_ok d s n (h34_base h).

Lemma HBM34_tick_safe n h : h34_safe n h ->
  ends (fun e => refresh_error e /\ crowded (c_priority_buffer (h34_base h)) (refresh_demand (c_refresh (h34_base h))))
    (HBM34_tick h) (h34_safe n).
Proof.
  intros [Hh Hc]. assert (Hweak : forall (E : err -> Prop) e, (False : Prop) -> E e) by done.
  pose proof (HBM34_matcher_ok h Hh) as Hm. unfold HBM34_tick, hbm_tick_prologue.
  apply ends_bind. eapply ends_mono; [by eapply (pre_tick_safe d cfg s)|]. intros c1 _ H1. cbn zeta.
  apply ends_bind. apply (ends_mono _ _ (fun p => ctrl_ok d s n p.2)).
  { apply ends_if; [intros _|done]. eapply ends_mono; [eapply ends_weaken; [apply Hweak|by eapply (try_issue_safe d cfg s)]|].
    by intros p _ [? _]. }
  intros p _ H2. apply ends_bind.
  eapply ends_mono; [eapply ends_weaken; [apply Hweak|by eapply (try_issue_safe d cfg s)]|]. intros q _ [H3 H4].
  apply ends_bind. apply (ends_mono _ _ (fun h' => h34_levels h')).
  { destruct (q.1) as [ic|]; [|done]. apply ends_if; [intros _|done]. eapply ends_weaken; [apply Hweak|by apply record_total]. }
  intros h' _ [G1 G2 G3 G4]. split; [by split|exact H3].
Qed.

Lemma HBM_tick_safe n c : ctrl_ok d s n c ->
  ends (fun e => refresh_error e /\ crowded (c_priority_buffer c) (refresh_demand (c_refresh c))) (HBM_tick c) (ctrl_ok d s n).
Proof.
  intros Hc. assert (Hweak : forall (E : err -> Prop) e, (False : Prop) -> E e) by done.
  pose proof (HBM_matcher_ok d cfg s Hin Hcon) as Hm. unfold HBM_tick, hbm_tick_prologue.
  apply ends_bind. eapply ends_mono; [by eapply (pre_tick_safe d cfg s)|]. intros c1 _ H1.
  do 2 (apply ends_bind; eapply ends_mono; [eapply ends_weaken; [apply Hweak|by eapply (try_issue_safe d cfg s)]|];
        intros ? _ [? _]). done.
Qed.
End Hbm34.
