(* ===== verification/RefreshOrder.v ===== *)
(** * RefreshOrder: the HBM3/4 manager refreshes banks round robin

    The REFpbs the manager hands to its controller, in order, are the banks
    of a fixed enumeration: all pseudo-channels of one bank, then the next
    bank of the stack, then the next stack.  A REFpb the controller has no
    room for is retried, never skipped. *)
From stdpp Require Import prelude gmap strings.
From S2P Require Import Prelude DramSpec Commands Standards Node NodeTiming NodeTree Device DeviceInv DeviceProps BankSafety BankProgress IssueSafety Request BitUtils AddrMapper Float32 ControllerState Controller Refresh NodeAddr HbmRefresh RowPolicy ControllerInit GenericDdr ControllerSafety Hbm Lpddr5 Controllers ControllerTrace ServeSafety TickSafety.
Open Scope Z_scope.

(** The pseudo-channel, stack and bank of the [m]-th REFpb. *)
Definition ref_pos (r : HBM34PerBankRefresh) (m : Z) : Z * Z * Z :=
  let q := m / h_pc_count r in
  (m mod h_pc_count r, (q / h_banks_per_sid r) mod h_sid_count r, q mod h_banks_per_sid r).

Definition pos_of (b : BankRef) : Z * Z * Z := (br_pc b, br_sid b, br_flat_bank b).

(** ** The enumeration *)
Section Enumeration.
Context (r : HBM34PerBankRefresh).
Context (Hp : 0 < h_pc_count r) (Hn : 0 < h_banks_per_sid r) (Hs : 0 < h_sid_count r).

(** How many banks there are. *)
Definition round_length : Z := h_pc_count r * (h_banks_per_sid r * h_sid_count r).

Lemma ref_pos_at k pc : 0 <= pc < h_pc_count r ->
  ref_pos r (k * h_pc_count r + pc) = (pc, (k / h_banks_per_sid r) mod h_sid_count r, k mod h_banks_per_sid r).
Proof.
  intros Hpc. unfold ref_pos. cbn zeta.
  rewrite Z.div_add_l, (Z.div_small pc), Z.add_0_r by lia. f_equal. f_equal.
  rewrite Z.add_comm, Z.mod_add by lia. by apply Z.mod_small.
Qed.

(** No bank comes back before all the others. *)
Lemma ref_pos_period i j : ref_pos r i = ref_pos r j -> (i - j) mod round_length = 0.
Proof.
  unfold ref_pos, round_length. cbn zeta. intros [= H1 H2 H3].
  pose proof (Z.div_mod i (h_pc_count r)) as Ei. pose proof (Z.div_mod j (h_pc_count r)) as Ej.
  set (qi := i / h_pc_count r) in *. set (qj := j / h_pc_count r) in *.
  pose proof (Z.div_mod qi (h_banks_per_sid r)) as Fi. pose proof (Z.div_mod qj (h_banks_per_sid r)) as Fj.
  set (si := qi / h_banks_per_sid r) in *. set (sj := qj / h_banks_per_sid r) in *.
  pose proof (Z.div_mod si (h_sid_count r)) as Gi. pose proof (Z.div_mod sj (h_sid_count r)) as Gj.
  apply Z.mod_divide; [nia|]. exists (si / h_sid_count r - sj / h_sid_count r).
  assert (E1 : i - j = h_pc_count r * (qi - qj)) by lia.
  assert (E2 : qi - qj = h_banks_per_sid r * (si - sj)) by lia.
  assert (E3 : si - sj = h_sid_count r * (si / h_sid_count r - sj / h_sid_count r)) by lia.
  rewrite E1, E2, E3. ring.
Qed.
End Enumeration.

(** ** The invariant: [m] REFpbs were sent, [k] positions were seeded *)
Record round_robin (r : HBM34PerBankRefresh) (m k : Z) : Prop := {
  rr_range : 0 <= m <= k * h_pc_count r;
  rr_k : 0 <= k;
  rr_sid : h_next_sid r = (k / h_banks_per_sid r) mod h_sid_count r;
  rr_flat : h_next_flat_bank r = k mod h_banks_per_sid r;
  rr_pending : map pos_of (h_pending_refpbs r) = map (ref_pos r) (seqZ m (k * h_pc_count r - m))
}.

Lemma ref_pos_const r r' m : h_const r' = h_const r -> ref_pos r' m = ref_pos r m.
Proof. unfold h_const, ref_pos. intros [=]. congruence. Qed.

Lemma rr_advance r k :
  0 < h_banks_per_sid r -> 0 < h_sid_count r ->
  h_next_sid r = (k / h_banks_per_sid r) mod h_sid_count r -> h_next_flat_bank r = k mod h_banks_per_sid r -> 0 <= k ->
  let r' := advance_logical_cursor r in
  h_next_sid r' = ((k + 1) / h_banks_per_sid r) mod h_sid_count r /\ h_next_flat_bank r' = (k + 1) mod h_banks_per_sid r.
Proof.
  intros Hn Hs H1 H2 Hk. unfold advance_logical_cursor. cbn zeta. rewrite H2.
  pose proof (Z.div_mod k (h_banks_per_sid r) ltac:(lia)) as Ek. pose proof (Z.mod_pos_bound k (h_banks_per_sid r) Hn) as Bk.
  set (q := k / h_banks_per_sid r) in *. set (t := k mod h_banks_per_sid r) in *.
  destruct (Z.eqb_spec (t + 1) (h_banks_per_sid r)) as [E|E]; cbn.
  - assert (Ek1 : k + 1 = (q + 1) * h_banks_per_sid r) by lia. rewrite Ek1, Z.div_mul, Z.mod_mul by lia.
    rewrite H1, Z.add_mod_idemp_l by lia. done.
  - assert (Ek1 : k + 1 = q * h_banks_per_sid r + (t + 1)) by lia.
    rewrite Ek1, Z.div_add_l, (Z.div_small (t + 1)), Z.add_0_r by lia. split; [done|].
    rewrite (Z.add_comm (q * _)), Z.mod_add by lia. symmetry. apply Z.mod_small. lia.
Qed.

Lemma seed_pos r l k :
  h_next_sid r = (k / h_banks_per_sid r) mod h_sid_count r -> h_next_flat_bank r = k mod h_banks_per_sid r ->
  mapM (seed_one r) (seqZ 0 (h_pc_count r)) = Ok l -> map pos_of l = map (ref_pos r) (seqZ (k * h_pc_count r) (h_pc_count r)).
Proof.
  intros H1 H2 Hl%mapM_Ok. replace (seqZ (k * h_pc_count r) (h_pc_count r)) with
    (map (fun pc => k * h_pc_count r + pc) (seqZ 0 (h_pc_count r))).
  2: { transitivity (seqZ (k * h_pc_count r + 0) (h_pc_count r)); [apply fmap_add_seqZ|by rewrite Z.add_0_r]. }
  rewrite map_map. apply list_eq. intros i. rewrite !list_lookup_fmap. destruct (l !! i) as [b|] eqn:Eb.
  - destruct (Forall2_lookup_r _ _ _ _ _ Hl Eb) as (pc & Hpc & Hs). rewrite Hpc. cbn. f_equal.
    apply list_elem_of_lookup_2, elem_of_seqZ in Hpc. rewrite ref_pos_at by lia. unfold seed_one in Hs. inv_res. subst b.
    unfold pos_of. cbn. congruence.
  - apply lookup_ge_None in Eb. rewrite <- (Forall2_length _ _ _ Hl) in Eb. by rewrite (proj2 (lookup_ge_None _ _) Eb).
Qed.

Lemma rr_seed P r clk b r' m k :
  h34_ok P r -> 0 < h_pc_count r -> round_robin r m k -> seed_pending_refpbs clk r = Ok (b, r') ->
  h_const r' = h_const r /\ exists k', round_robin r' m k'.
Proof.
  intros Hok Hp [R1 R2 R3 R4 R5]. unfold seed_pending_refpbs. fold (seed_one r). intros (bl & _ & H)%bind_Ok_inv.
  destruct bl; [injection H as <- <-; split; [done|]; by exists k|]. apply bind_Ok_inv in H as (l & Hl & [= <- <-]).
  pose proof (ho_sid _ _ Hok). pose proof (ho_flat _ _ Hok). rewrite const_advance. split; [done|]. exists (k + 1).
  set (r1 := with_h_pending r (h_pending_refpbs r ++ l)).
  destruct (rr_advance r1 k) as [E1 E2]; cbn; [lia..|done|done|lia|].
  assert (Ec : h_const (advance_logical_cursor r1) = h_const r1) by apply const_advance.
  assert (Ed : h_pc_count (advance_logical_cursor r1) = h_pc_count r /\ h_sid_count (advance_logical_cursor r1) = h_sid_count r /\
    h_banks_per_sid (advance_logical_cursor r1) = h_banks_per_sid r) by (by injection Ec).
  assert (Ep : h_pending_refpbs (advance_logical_cursor r1) = h_pending_refpbs r ++ l)
    by (unfold advance_logical_cursor; by case_match).
  destruct Ed as (D1 & D2 & D3). split; rewrite ?D1, ?D2, ?D3; [nia|lia|exact E1|exact E2|].
  rewrite Ep, map_app, R5, (seed_pos r l k R3 R4 Hl), <- map_app.
  replace ((k + 1) * h_pc_count r - m) with ((k * h_pc_count r - m) + h_pc_count r) by lia.
  rewrite seqZ_app by lia. replace (m + (k * h_pc_count r - m)) with (k * h_pc_count r) by lia.
  apply map_ext. intros x. symmetry. by apply (ref_pos_const r).
Qed.

(** ** What the manager sends *)
Section Sends.
Context (d : standard) (cfg : dram_config) (s : DRAMSpec).
Context (Hin : In d all_standards) (Hcon : construct d cfg = Ok s) (Horg : org_ok s).

(** [x] is the REFpb of the [m]-th bank of the enumeration. *)
Definition refpb_at (r : HBM34PerBankRefresh) (m : Z) (x : Request) : Prop :=
  final_command x = h_cmd_refpb r /\
  exists p, is_bank d s p /\ names_node s p (addr_vec x) /\
    coords r (ref_pos r m).1.1 (ref_pos r m).1.2 (ref_pos r m).2 p.

Lemma refpb_at_const r r' m x : h_const r' = h_const r -> refpb_at r' m x -> refpb_at r m x.
Proof.
  intros Hk (H1 & p & H2 & H3 & H4). rewrite (ref_pos_const r r' m Hk) in H4. unfold refpb_at, coords in *.
  injection Hk as E1 E2 E3 E4 E5 E6 E7 E8 E9 E10 E11 E12 E13. rewrite <- E1, <- E2, <- E3, <- E4, <- E5, <- E10. eauto.
Qed.

(** The step of the invariant over the requests accepted meanwhile. *)
Definition sends (r : HBM34PerBankRefresh) (m : Z) (c : ControllerBase) (r' : HBM34PerBankRefresh) (c' : ControllerBase) : Prop :=
  h_const r' = h_const r /\ h34_ok (is_bank d s) r' /\ c_device c' = c_device c /\
  exists sent, buffer (c_priority_buffer c') = buffer (c_priority_buffer c) ++ sent /\
    (exists k, round_robin r' (m + Z.of_nat (length sent)) k) /\
    forall i x, sent !! i = Some x -> refpb_at r (m + Z.of_nat i) x.

Lemma sends_nothing r m k c r' c' :
  h_const r' = h_const r -> h34_ok (is_bank d s) r' -> round_robin r' m k ->
  c_device c' = c_device c -> c_priority_buffer c' = c_priority_buffer c -> sends r m c r' c'.
Proof. intros ? ? ? ? E. split_and!; try done. exists []. rewrite app_nil_r, E. cbn. rewrite Z.add_0_r. split_and!; [done|eauto|done]. Qed.

Lemma rr_same r r' m k :
  h_const r' = h_const r -> h_next_sid r' = h_next_sid r -> h_next_flat_bank r' = h_next_flat_bank r ->
  h_pending_refpbs r' = h_pending_refpbs r -> round_robin r m k -> round_robin r' m k.
Proof.
  intros Hk Hs Hf Hp [R1 R2 R3 R4 R5].
  assert (h_pc_count r' = h_pc_count r /\ h_sid_count r' = h_sid_count r /\ h_banks_per_sid r' = h_banks_per_sid r) as (D1 & D2 & D3)
    by (by injection Hk).
  split; rewrite ?D1, ?D2, ?D3, ?Hs, ?Hf, ?Hp; try done. rewrite R5. apply map_ext. intros x. symmetry. by apply ref_pos_const.
Qed.

Lemma rr_pop r r' b rest m k :
  h_pending_refpbs r = b :: rest -> round_robin r m k -> h_const r' = h_const r -> h_next_sid r' = h_next_sid r ->
  h_next_flat_bank r' = h_next_flat_bank r -> h_pending_refpbs r' = rest ->
  pos_of b = ref_pos r m /\ round_robin r' (m + 1) k.
Proof.
  intros Hp [R1 R2 R3 R4 R5] Hk Hs Hf Hr. rewrite Hp in R5. cbn [map] in R5.
  destruct (decide (0 < k * h_pc_count r - m)) as [Hlt|]; [|rewrite seqZ_nil in R5 by lia; done].
  rewrite seqZ_cons in R5 by lia. cbn [map] in R5. pose proof (f_equal tail R5) as El. apply (f_equal head) in R5. cbn [tail head] in El, R5. assert (Eb : pos_of b = ref_pos r m) by congruence. split; [done|].
  assert (h_pc_count r' = h_pc_count r /\ h_sid_count r' = h_sid_count r /\ h_banks_per_sid r' = h_banks_per_sid r) as (D1 & D2 & D3)
    by (by injection Hk).
  split; rewrite ?D1, ?D2, ?D3, ?Hs, ?Hf, ?Hr; try done; [lia|]. rewrite El.
  replace (Z.succ m) with (m + 1) by lia. replace (Z.pred (k * h_pc_count r - m)) with (k * h_pc_count r - (m + 1)) by lia.
  apply map_ext. intros x. symmetry. by apply ref_pos_const.
Qed.

Lemma priority_send_appends c x ok c' : ctrl_priority_send c x = Ok (ok, c') ->
  c_device c' = c_device c /\ c_clk c' = c_clk c /\
  buffer (c_priority_buffer c') = buffer (c_priority_buffer c) ++ (if ok then [x] else []).
Proof.
  unfold ctrl_priority_send, enqueue. intros H. dcase H; [discriminate|]. clear Ec. destruct (_ <? _); cbn in H.
  - dcase H; injection H as <- <-; done.
  - injection H as <- <-. by rewrite app_nil_r.
Qed.

Lemma service_sends r m k c v r' c' :
  dev_ok d s (c_device c) -> h34_ok (is_bank d s) r -> round_robin r m k ->
  service_pending_refpb r c = Ok (v, r', c') ->
  sends r m c r' c' /\ c_clk c' = c_clk c /\ (v = false -> r' = r /\ c' = c).
Proof.
  intros Hdev Hok Hrr. unfold service_pending_refpb. destruct (h_pending_refpbs r) as [|b rest] eqn:Ep.
  { intros [= <- <- <-]. split; [by eapply sends_nothing|done]. }
  intros (av & Hav & ([ok c1] & Hsd & H)%bind_Ok_inv)%bind_Ok_inv. cbn in H.
  destruct (priority_send_appends _ _ _ _ Hsd) as (Hd & Hclk & Hbuf). destruct ok; cbn in H; cycle 1.
  { injection H as <- <- <-. split; [|done]. split_and!; try done. exists []. rewrite Hbuf. split_and!; [done| |done].
    exists k. cbn. by rewrite Z.add_0_r. }
  destruct (sent_ok (is_bank d s) r (c_clk c) b rest Hok Ep) as (r1 & Hs1 & Hok1 & Hk1). unfold sent_refpb in Hs1.
  assert (Hr1 : v = true /\ r' = r1 /\ c' = c1 /\ h_next_sid r1 = h_next_sid r /\ h_next_flat_bank r1 = h_next_flat_bank r /\
    h_pending_refpbs r1 = rest).
  { apply bind_Ok_inv in Hs1 as (st & E1 & (st' & E2 & (g & E3 & [= <-])%bind_Ok_inv)%bind_Ok_inv).
    rewrite E1 in H. cbn in H. rewrite E2 in H. cbn in H. rewrite E3 in H. cbn in H. by injection H as <- <- <-. }
  clear Hs1 H. destruct Hr1 as (-> & -> & -> & Hsid & Hfl & Hpd).
  destruct (rr_pop r r1 b rest m k Ep Hrr Hk1 Hsid Hfl Hpd) as [Hpos Hrr1]. split; [|done].
  split_and!; try done. exists [Request_cmd av (h_cmd_refpb r)]. split_and!; [done|by exists k|].
  intros [|i] x Hx; cbn in Hx; [|done]. injection Hx as <-. split; [done|]. cbn [addr_vec Request_cmd]. rewrite Z.add_0_r.
  pose proof (ho_pending _ _ Hok) as Hall. rewrite Ep in Hall. apply Forall_cons in Hall as [[(p & Hp & Hb & Hc) _] _].
  exists p. rewrite <- Hpos. split; [done|]. split; [|exact Hc]. rewrite Hp in Hav.
  assert (Ht : is_Some (node_at (m_root (c_device c)) p)) by (apply (dk_nodes _ _ _ Hdev); by rewrite (dk_banks _ _ _ Hdev)).
  destruct (build_addr_vec_ok d cfg s Hin Hcon (sizes_length s Horg) (c_device c) p Hdev Ht) as (av' & Hav' & Hn & _).
  rewrite Hav in Hav'. by injection Hav' as ->.
Qed.

Lemma tick_sends r m k c c' :
  dev_ok d s (c_device c) -> h34_ok (is_bank d s) r -> 0 < h_pc_count r -> round_robin r m k ->
  HBM34PerBankRefresh_tick r c = Ok c' -> exists r', c_refresh c' = HBM34PerBank r' /\ sends r m c r' c'.
Proof.
  intros Hdev Hok Hpc Hrr. unfold HBM34PerBankRefresh_tick. intros ([[v r1] c1] & Hs1 & H)%bind_Ok_inv.
  destruct (service_sends r m k c v r1 c1 Hdev Hok Hrr Hs1) as (S1 & _ & Hidle).
  destruct v; [injection H as <-; by exists r1|]. destruct (Hidle eq_refl) as [-> ->]. clear Hidle Hs1 S1.
  dcase H; [injection H as <-; exists r; split; [done|]; by eapply sends_nothing|]. apply bind_Ok_inv in H as ([b r2] & Hsd & H).
  destruct (seed_ok _ r (c_clk c) Hok) as (b' & r2' & Hsd' & Hok2 & Hk2). rewrite Hsd in Hsd'. injection Hsd' as <- <-.
  destruct (rr_seed _ _ _ _ _ m k Hok Hpc Hrr Hsd) as (_ & k' & Hrr2). cbn in H.
  dcase H; [injection H as <-; exists (with_h_next_refresh_clk r2 (c_clk c + 1)); split; [done|]|].
  { apply (sends_nothing r m k'); [done|by apply ok_next_refresh|by apply (rr_same r2)|done..]. }
  apply bind_Ok_inv in H as ([[v r3] c3] & Hs3 & [= <-]). eexists. split; [done|].
  destruct (service_sends r2 m k' c v r3 c3 Hdev Hok2 Hrr2 Hs3) as ((K & O & D & sent & Hb & (k3 & Hrr3) & Hat) & _).
  split_and!; [by rewrite <- Hk2|by apply ok_next_refresh|done|]. exists sent. split_and!; [done| |].
  - exists k3. by apply (rr_same r3).
  - intros i x Hx. apply (refpb_at_const r r2); [done|]. by apply Hat.
Qed.

(** The requests accepted from the manager over a history of its ticks. *)
Inductive refpb_history (r0 : HBM34PerBankRefresh) : list Request -> HBM34PerBankRefresh -> Prop :=
| hist_nil : refpb_history r0 [] r0
| hist_tick l r c c' r' sent :
    refpb_history r0 l r -> dev_ok d s (c_device c) -> HBM34PerBankRefresh_tick r c = Ok c' ->
    c_refresh c' = HBM34PerBank r' -> buffer (c_priority_buffer c') = buffer (c_priority_buffer c) ++ sent ->
    refpb_history r0 (l ++ sent) r'.

Lemma history_round_robin r0 l r :
  h34_ok (is_bank d s) r0 -> 0 < h_pc_count r0 -> round_robin r0 0 0 -> refpb_history r0 l r ->
  h_const r = h_const r0 /\ h34_ok (is_bank d s) r /\ (exists k, round_robin r (Z.of_nat (length l)) k) /\
  forall i x, l !! i = Some x -> refpb_at r0 (Z.of_nat i) x.
Proof.
  intros Hok Hpc Hrr. induction 1 as [|l r c c' r' sent _ (IH1 & IH2 & (k & IH3) & IH4) Hdev Ht Hrf Hb]; [by split_and!; [..|exists 0|]|].
  assert (Hpc' : 0 < h_pc_count r) by (injection IH1 as E1 E2 E3 E4 E5 E6 E7; by rewrite E7).
  destruct (tick_sends r _ k c c' Hdev IH2 Hpc' IH3 Ht) as (r1 & Hr1 & K & O & _ & sent' & Hb' & (k' & Hrr') & Hat).
  rewrite Hrf in Hr1. injection Hr1 as <-. rewrite Hb in Hb'. apply app_inv_head in Hb' as <-.
  split_and!; [congruence|done| |].
  - exists k'. by rewrite length_app, Nat2Z.inj_add.
  - intros i x [Hx|[Hle Hx]]%lookup_app_Some; [by apply IH4|]. apply (refpb_at_const r0 r); [done|].
    replace (Z.of_nat i) with (Z.of_nat (length l) + Z.of_nat (i - length l)) by lia. by apply Hat.
Qed.
End Sends.

(** C24: The HBM3/4 per-bank refresh manager implements a round robin over all banks:
    from init, over any history of its ticks (with any controllers and clocks, and
    whatever requests the controller refused meanwhile), the i-th REFpb it got accepted
    is addressed to the i-th bank of the fixed enumeration (pseudo-channels, then banks,
    then stacks), no bank comes back before all others were refreshed, and no tick of it
    fails. *)
Theorem hbm34_refresh_round_robin d cfg s dev r0 l r :
  In d all_standards -> construct d cfg = Ok s -> org_ok s -> init s = Ok dev ->
  HBM34PerBankRefresh_init dev = Ok r0 -> refpb_history d s r0 l r ->
  (forall i x, l !! i = Some x -> refpb_at d s r0 (Z.of_nat i) x) /\
  (forall i j, ref_pos r0 i = ref_pos r0 j -> (i - j) mod round_length r0 = 0) /\
  (forall n c, ctrl_ok d s n c -> is_Ok (HBM34PerBankRefresh_tick r c)).
Proof.
  intros Hin Hcon Horg Hi Hr0 Hh. pose proof (init_dev_ok d cfg s dev Hin Hcon Hi) as Hok.
  destruct (h34_init_ok d cfg s Hin Hcon Horg dev r0 Hok (eq_sym (init_bank_nodes d cfg s Hin Hcon dev Hi)) Hr0)
    as (H1 & _ & Hid & Hs & Hf & Hp & Hpc).
  pose proof (ho_sid _ _ H1). pose proof (ho_flat _ _ H1).
  assert (Hrr : round_robin r0 0 0).
  { split; [lia..| | |]; rewrite ?Hs, ?Hf, ?Hp; [by rewrite Z.div_0_l, Z.mod_0_l by lia|by rewrite Z.mod_0_l by lia|]. by rewrite seqZ_nil by lia. }
  destruct (history_round_robin d cfg s Hin Hcon Horg r0 l r H1 ltac:(lia) Hrr Hh) as (K & O & _ & Hat).
  split_and!; [done|intros i j; apply ref_pos_period; lia|]. intros n c Hc.
  pose proof (hbm34_refresh_safe d cfg s Hin Hcon Horg n c r Hc) as Hsf.
  specialize (Hsf ltac:(by rewrite (refpb_cmd_const _ _ K)) O). destruct (HBM34PerBankRefresh_tick r c); [by eexists|done].
Qed.
