(* ===== verification/Bookkeeping.v ===== *)
(** * Bookkeeping: requests are neither lost nor duplicated

    The controller moves requests between its buffers, rewrites their
    command fields while scheduling, and counts them.  Here the accounts are
    balanced: every accepted request is in exactly one place until its
    callback has been called, the counters agree with the buffers, the set of
    buffered write addresses is the set of addresses in the write buffer. *)
From stdpp Require Import prelude gmap strings.
From S2P Require Import Prelude DramSpec Commands Standards Node NodeTiming NodeTree Device DeviceInv DeviceProps Request AddrMapper Float32 ControllerState Controller Refresh RowPolicy ControllerInit GenericDdr Hbm Lpddr5 Controllers ControllerTrace.
Open Scope Z_scope.

(** What a request keeps while it is scheduled. *)
Record rid := mkRid { id_addr : Z; id_type : Z; id_callback : option Z; id_av : AddrVec_t }.

Definition ident (r : Request) : rid := mkRid (addr r) (type_id r) (callback r) (addr_vec r).

Definition ids (b : ReqBuffer) : list rid := map ident (buffer b).

(** The requests held in the buffers, and [X] held elsewhere. *)
Definition pool (X : list rid) (c : ControllerBase) : list rid :=
  ids (c_active_buffer c) ++ ids (c_priority_buffer c) ++ ids (c_read_buffer c) ++ ids (c_write_buffer c) ++ X.

Definition of_type (t : Z) (l : list rid) : Z := Z.of_nat (count (fun x => (id_type x =? t)%Z) l).

(** The balance of the counters, the places and the callbacks. *)
Record accounts (cbs : list Z) (P : list rid) (st : counters) (pend done : list Request) : Prop := {
  ac_reads : st s_num_read_reqs =
    st s_num_read_reqs_forwarded + st s_num_read_reqs_served + of_type Type_Read P;
  ac_writes : st s_num_write_reqs =
    st s_num_write_reqs_coalesced + st s_num_write_reqs_served + of_type Type_Write P;
  ac_maintenance : st s_num_maintenance_reqs = st s_num_maintenance_reqs_served + of_type (-1) P;
  ac_callbacks : omap id_callback P ++ omap callback pend ++ omap callback done ≡ₚ cbs;
  ac_silent : Forall (fun x => id_type x = Type_Read \/ id_type x = Type_Write \/ id_callback x = None) P
}.

(** The write-forwarding set and the bounds. *)
Record bufs_ok (c : ControllerBase) : Prop := {
  bo_addrs : c_buffered_write_addrs c = list_to_set (map id_addr (ids (c_write_buffer c)));
  bo_nodup : NoDup (map id_addr (ids (c_write_buffer c)));
  bo_bounds : forall b, buf_ok (get_buf c b)
}.

Record book (cbs : list Z) (X : list rid) (c : ControllerBase) : Prop := {
  bk_accounts : accounts cbs (pool X c) (c_stats c) (c_pending c) (c_done c);
  bk_bufs : bufs_ok c
}.

(** ** Permutations *)
Lemma count_Permutation {A} (p : A -> bool) l k : l ≡ₚ k -> count p l = count p k.
Proof.
  induction 1 as [|x l k _ IH|x y l|l k m _ IH1 _ IH2]; rewrite ?count_cons; [done|lia..].
Qed.

#[export] Instance of_type_Proper t : Proper ((≡ₚ) ==> (=)) (of_type t).
Proof. intros l k H. unfold of_type. by rewrite (count_Permutation _ l k H). Qed.

Lemma of_type_cons t x l : of_type t (x :: l) = (if id_type x =? t then 1 else 0) + of_type t l.
Proof. unfold of_type. rewrite count_cons. destruct (_ =? _); lia. Qed.

Lemma ids_erase b i r : buffer b !! i = Some r -> ids b ≡ₚ ident r :: ids (remove b i).
Proof.
  unfold ids, remove, erase. cbn. intros H. rewrite (delete_Permutation _ _ _ H) at 1. done.
Qed.

Lemma pool_set X c b v x l :
  ids v ≡ₚ x :: ids (get_buf c b) -> l ≡ₚ pool X c -> pool X (set_buf c b v) ≡ₚ x :: l.
Proof.
  intros Hv ->. unfold pool. destruct b; cbn in *; rewrite Hv; solve_Permutation.
Qed.

(** ** Operations that keep the accounts *)
Definition book_stats : list stat :=
  [s_num_read_reqs; s_num_write_reqs; s_num_maintenance_reqs; s_num_read_reqs_served; s_num_write_reqs_served;
   s_num_maintenance_reqs_served; s_num_read_reqs_forwarded; s_num_write_reqs_coalesced].

Definition same_geometry (d d' : DRAMDevice) : Prop := m_spec d' = m_spec d /\ m_bank_level d' = m_bank_level d.

#[export] Instance same_geometry_preorder : PreOrder same_geometry.
Proof. split; [by intros d|]. intros x y z [? ?] [? ?]. split; congruence. Qed.

Record still (c c' : ControllerBase) : Prop := {
  st_ids : forall b, ids (get_buf c' b) = ids (get_buf c b);
  st_max : forall b, max_size (get_buf c' b) = max_size (get_buf c b);
  st_pending : c_pending c' = c_pending c;
  st_done : c_done c' = c_done c;
  st_addrs : c_buffered_write_addrs c' = c_buffered_write_addrs c;
  st_active : c_active_per_bank c' = c_active_per_bank c;
  st_stats : forall k, k ∈ book_stats -> c_stats c' k = c_stats c k;
  st_geometry : same_geometry (c_device c) (c_device c')
}.

#[export] Instance still_preorder : PreOrder still.
Proof.
  split; [by intros c|]. intros x y z [A1 A2 A3 A4 A5 A6 A7 A8] [B1 B2 B3 B4 B5 B6 B7 B8].
  split; intros; [rewrite B1, A1|rewrite B2, A2|rewrite B3, A3|rewrite B4, A4|rewrite B5, A5|rewrite B6, A6
    |rewrite B7, A7|by etrans]; done.
Qed.

Lemma get_flat_geometry d d' av : same_geometry d d' -> get_flat_bank_id d' av = get_flat_bank_id d av.
Proof. intros [Hs Hl]. unfold get_flat_bank_id. by rewrite Hs, Hl. Qed.

Lemma pool_still X c c' : still c c' -> pool X c' = pool X c.
Proof.
  intros H. pose proof (st_ids _ _ H) as Hi. unfold pool.
  by rewrite (Hi Bactive : ids (c_active_buffer c') = _), (Hi Bpriority : ids (c_priority_buffer c') = _),
    (Hi Bread : ids (c_read_buffer c') = _), (Hi Bwrite : ids (c_write_buffer c') = _).
Qed.

Lemma ids_length b b' : ids b' = ids b -> buf_size b' = buf_size b.
Proof. unfold ids, buf_size. intros H. apply (f_equal length) in H. rewrite !length_map in H. lia. Qed.

Lemma accounts_perm cbs P P' st st' pend done :
  P' ≡ₚ P -> (forall k, k ∈ book_stats -> st' k = st k) ->
  accounts cbs P st pend done -> accounts cbs P' st' pend done.
Proof.
  intros HP Hs [A1 A2 A3 A4 A5]. split; rewrite ?HP, ?Hs by closed_elem; try done.
Qed.

#[export] Instance accounts_Proper cbs : Proper ((≡ₚ) ==> (=) ==> (=) ==> (=) ==> iff) (accounts cbs).
Proof.
  intros P P' HP st ? <- pe ? <- dn ? <-. split; intros A; (eapply accounts_perm; [|done|exact A]); by rewrite HP.
Qed.

Lemma still_book cbs X c c' : still c c' -> book cbs X c -> book cbs X c'.
Proof.
  intros H [B1 [B6 B7 B9]]. split; [|split; rewrite ?(st_addrs _ _ H)].
  - rewrite (st_pending _ _ H), (st_done _ _ H).
    eapply accounts_perm; [by rewrite (pool_still X _ _ H)|exact (st_stats _ _ H)|done].
  - by rewrite (st_ids _ _ H Bwrite : ids (c_write_buffer c') = _).
  - by rewrite (st_ids _ _ H Bwrite : ids (c_write_buffer c') = _).
  - intros b. specialize (B9 b). unfold buf_ok in *. rewrite (st_max _ _ H), (ids_length _ _ (st_ids _ _ H b)). done.
Qed.

Lemma still_set_buf c b v : ids v = ids (get_buf c b) -> max_size v = max_size (get_buf c b) -> still c (set_buf c b v).
Proof. intros Hi Hm. split; try (by destruct b); intros b'; destruct b, b'; cbn in *; done. Qed.

Lemma ids_modify b i f : (forall r, ident (f r) = ident r) -> ids (modify_at b i f) = ids b.
Proof.
  intros Hf. unfold ids, modify_at. cbn. apply list_eq. intros k. rewrite !list_lookup_fmap.
  destruct (decide (k = i)) as [->|Hne]; [|by rewrite list_lookup_alter_ne].
  rewrite list_lookup_alter_eq. destruct (buffer b !! i); cbn; [by rewrite Hf|done].
Qed.

Lemma ids_modify_const b i r r' :
  buffer b !! i = Some r -> ident r' = ident r -> ids (modify_at b i (fun _ => r')) = ids b.
Proof.
  intros Hr Hi. unfold ids, modify_at. cbn. apply list_eq. intros k. rewrite !list_lookup_fmap.
  destruct (decide (k = i)) as [->|Hne]; [|by rewrite list_lookup_alter_ne].
  by rewrite list_lookup_alter_eq, Hr; cbn; rewrite Hi.
Qed.

Lemma still_count c k n : k ∉ book_stats -> still c (count_stat c k n).
Proof. intros Hk. split; try done. intros k' Hk'. cbn. unfold bump. by destruct (decide _) as [->|]. Qed.

(** The scheduler rewrites commands only. *)
Lemma frfcfs_ids c f b p : get_best_request c b f = Ok p -> ids p.2 = ids b /\ max_size p.2 = max_size b.
Proof.
  unfold get_best_request. intros H. apply bind_Ok_inv in H as (st & Hst & H). injection H as <-. cbn. split; [|done].
  refine (foldM_inv (fun st => map ident (fr_buffer st) = ids b) _ _ _ _ _ _ Hst); [|done].
  intros it a a' _ Ha Hs. unfold frfcfs_step in Hs. apply bind_Ok_inv in Hs as (r & Hr & Hs).
  apply bind_Ok_inv in Hs as (cmd & _ & Hs). cbn zeta in Hs. apply bind_Ok_inv in Hs as (ok & _ & Hs).
  assert (Hl : map ident (<[it := set_command r cmd]> (fr_buffer a)) = ids b).
  { rewrite <- Ha. etrans; [apply (list_fmap_insert ident)|]. apply list_insert_id. rewrite list_lookup_fmap.
    destruct (fr_buffer a !! it) as [y|]; [injection Hr as ->; done|discriminate]. }
  dcase Hs; [by injection Hs as <-|]. apply bind_Ok_inv in Hs as (t & _ & Hs).
  repeat case_match; by injection Hs as <-.
Qed.

Lemma still_pick_best c b f p : pick_best_ready_from c b f = Ok p -> still c p.2.
Proof.
  unfold pick_best_ready_from. intros H. apply bind_Ok_inv in H as (q & Hq & H). cbn zeta in H.
  apply frfcfs_ids in Hq as [Hi Hm].
  assert (Hs : still c (set_buf c b q.2)) by (by apply still_set_buf).
  destruct q.1; [|by injection H as <-]. apply bind_Ok_inv in H as (r & _ & H). apply bind_Ok_inv in H as (ok & _ & H).
  destruct ok; by injection H as <-.
Qed.

Lemma still_pick_priority c f p : pick_priority_if c f = Ok p -> still c p.2.
Proof.
  unfold pick_priority_if. intros H. destruct (buffer (c_priority_buffer c)) as [|r rest]; [by injection H as <-|].
  apply bind_Ok_inv in H as (cmd & _ & H). cbn zeta in H.
  assert (Hs : still c (with_c_priority_buffer c (modify_at (c_priority_buffer c) 0 (fun r => set_command r cmd)))).
  { apply (still_set_buf c Bpriority); [|done]. by apply ids_modify. }
  apply bind_Ok_inv in H as (ok & _ & H). dcase H; [by injection H as <-|].
  apply bind_Ok_inv in H as (cl & _ & H). destruct cl; [by injection H as <-|].
  apply bind_Ok_inv in H as (fb & _ & H). dcase H; by injection H as <-.
Qed.

Lemma still_set_write_mode c : still c (set_write_mode c).
Proof. unfold set_write_mode. cbn zeta. repeat case_match; by split. Qed.

Lemma still_pick_rw c f p : pick_rw_if c f = Ok p -> still c p.2.
Proof. intros H. etrans; [apply still_set_write_mode|]. by eapply still_pick_best. Qed.

Lemma still_select c p : select_candidate c = Ok p -> still c p.2.
Proof.
  unfold select_candidate. intros H. apply bind_Ok_inv in H as (p1 & H1 & H). apply still_pick_best in H1.
  apply bind_Ok_inv in H as (p2 & H2 & H).
  assert (Hp2 : still c p2.2).
  { dcase H2; [by injection H2 as <-|]. etrans; [exact H1|]. by eapply still_pick_priority. }
  dcase H; [by injection H as <-|]. etrans; [exact Hp2|]. by eapply still_pick_rw.
Qed.

Lemma still_select_slot sm c slot p : select_slot sm c slot = Ok p -> still c p.2.
Proof.
  unfold select_slot. cbn zeta. intros H. apply bind_Ok_inv in H as (p1 & H1 & H).
  assert (Hp1 : still c p1.2) by (destruct (decide _); [by eapply still_pick_best|by injection H1 as <-]).
  apply bind_Ok_inv in H as (p2 & H2 & H).
  assert (Hp2 : still c p2.2).
  { dcase H2; [by injection H2 as <-|]. etrans; [exact Hp1|]. by eapply still_pick_priority. }
  dcase H; [by injection H as <-|]. etrans; [exact Hp2|]. by eapply still_pick_rw.
Qed.

Lemma request_at_Some c b i r : request_at c b i = Ok r -> buffer (get_buf c b) !! i = Some r.
Proof. unfold request_at. destruct (buffer (get_buf c b) !! i); [by intros [= ->]|discriminate]. Qed.

Lemma still_write c b i r r' :
  request_at c b i = Ok r -> ident r' = ident r -> still c (write_request c b i r').
Proof. intros Hr%request_at_Some Hi. apply still_set_buf; [|done]. by eapply ids_modify_const. Qed.

Lemma try_upgrade_ident c r r' : rowpolicy_try_upgrade_command c r = Ok r' -> ident r' = ident r.
Proof.
  unfold rowpolicy_try_upgrade_command, ClosedCAP_try_upgrade_command. intros H.
  repeat (case_match || (apply bind_Ok_inv in H as (? & _ & H))); by injection H as <-.
Qed.

Lemma still_upgrade c b i c' : upgrade_candidate c b i = Ok c' -> still c c'.
Proof.
  unfold upgrade_candidate. intros H. apply bind_Ok_inv in H as (r & Hr & H). apply bind_Ok_inv in H as (r' & Hu & H).
  injection H as <-. eapply still_write; [exact Hr|]. by eapply try_upgrade_ident.
Qed.

Lemma still_upgrade_in_slot sm c b i slot c' : upgrade_in_slot sm c b i slot = Ok c' -> still c c'.
Proof.
  unfold upgrade_in_slot. intros H. apply bind_Ok_inv in H as (r & Hr & H). cbn zeta in H.
  apply bind_Ok_inv in H as (r' & Hu & H). apply bind_Ok_inv in H as (k & _ & H). injection H as <-.
  eapply still_write; [exact Hr|]. apply try_upgrade_ident in Hu. by destruct k.
Qed.

Lemma count_row_outcome_still c r c' : count_row_outcome c r = Ok c' -> still c c'.
Proof.
  unfold count_row_outcome. intros H.
  repeat (dcase H || (apply bind_Ok_inv in H as (? & _ & H))); injection H as <-;
    (split; try done; intros k Hk; cbn; unfold bump; repeat destruct (decide _); subst; try done; closed_elem).
Qed.

Lemma still_stats_once c b i c' : stats_once c b i = Ok c' -> still c c'.
Proof.
  unfold stats_once. intros H. apply bind_Ok_inv in H as (r & _ & H). dcase H; [by injection H as <-|].
  unfold update_request_stats in H. cbn zeta in H. apply bind_Ok_inv in H as (r' & _ & H).
  transitivity (set_buf c b (modify_at (get_buf c b) i (fun r => set_stat_updated r true)));
    [|by eapply count_row_outcome_still].
  apply still_set_buf; [by apply ids_modify|done].
Qed.

Lemma apply_action_geometry dev cmd av clk dev' : apply_action dev cmd av clk = Ok dev' -> same_geometry dev dev'.
Proof.
  unfold apply_action. intros H. apply bind_Ok_inv in H as (f & _ & H). destruct f as [f|]; [|by injection H as <-].
  eapply (for_each_inv (same_geometry dev)); [|done|exact H]. intros d1 i d2 Hg Ha. unfold act_on in Ha. inv_res.
  subst d2. etrans; [exact Hg|done].
Qed.

Lemma issue_geometry dev cmd av clk dev' : issue_command dev cmd av clk = Ok dev' -> same_geometry dev dev'.
Proof.
  unfold issue_command. intros H. apply bind_Ok_inv in H as (r & _ & H). by apply apply_action_geometry in H.
Qed.

Lemma still_issue c cmd av c' : issue c cmd av = Ok c' -> still c c'.
Proof.
  unfold issue. intros H. apply bind_Ok_inv in H as (dev & Hi & H). injection H as <-. apply issue_geometry in Hi.
  split; intros; try (by destruct b); done.
Qed.

Lemma still_rowpolicy_on_issue c r c' : rowpolicy_on_issue c r = Ok c' -> still c c'.
Proof.
  unfold rowpolicy_on_issue. intros H. destruct (c_rowpolicy c); inv_res; subst; [done|].
  split; intros; try (by destruct b); done.
Qed.

Lemma still_plugins_on_issue c r c' : plugins_on_issue c r = Ok c' -> still c c'.
Proof. unfold plugins_on_issue. intros H. inv_res. subst. split; intros; try (by destruct b); done. Qed.

Lemma still_issue_candidate c b i c' : issue_candidate c b i = Ok c' -> still c c'.
Proof.
  unfold issue_candidate. intros H. apply bind_Ok_inv in H as (r & _ & H). apply bind_Ok_inv in H as (c1 & H1 & H).
  apply bind_Ok_inv in H as (c2 & H2 & H). etrans; [by eapply still_issue|].
  etrans; [by eapply still_rowpolicy_on_issue|by eapply still_plugins_on_issue].
Qed.

(** ** Operations that move requests *)
Lemma bump_eq k n st : bump k n st k = st k + n.
Proof. unfold bump. by rewrite decide_True. Qed.
Lemma bump_ne k k' n st : k' <> k -> bump k n st k' = st k'.
Proof. unfold bump. intros H. by rewrite decide_False. Qed.

Definition cb_list (r : Request) : list Z := option_list (callback r).

Lemma omap_cons_cb x l : omap id_callback (x :: l) = option_list (id_callback x) ++ omap id_callback l.
Proof. cbn. by destruct (id_callback x). Qed.
Lemma omap_snoc_cb l r : omap callback (l ++ [r]) = omap callback l ++ cb_list r.
Proof. rewrite omap_app. unfold cb_list. cbn. by destruct (callback r). Qed.

Ltac balance :=
  repeat match goal with
  | |- context [bump ?k ?n ?st ?k] => rewrite (bump_eq k n st)
  | |- context [bump ?k ?n ?st ?k'] => rewrite (bump_ne k k' n st) by discriminate
  end; rewrite ?of_type_cons; cbn [id_type ident];
  repeat match goal with H : type_id _ = _ |- _ => rewrite !H end; cbn; lia.

(** A request enters a buffer. *)
Lemma accounts_enter cbs P st pend done r k :
  ((type_id r = Type_Read /\ k = s_num_read_reqs) \/ (type_id r = Type_Write /\ k = s_num_write_reqs) \/
   (type_id r = -1 /\ k = s_num_maintenance_reqs /\ callback r = None)) ->
  accounts cbs P st pend done -> accounts (cb_list r ++ cbs) (ident r :: P) (bump k 1 st) pend done.
Proof.
  intros Hk [A1 A2 A3 A4 A5]. split.
  - destruct Hk as [[Ht ->]|[[Ht ->]|(Ht & -> & _)]]; balance.
  - destruct Hk as [[Ht ->]|[[Ht ->]|(Ht & -> & _)]]; balance.
  - destruct Hk as [[Ht ->]|[[Ht ->]|(Ht & -> & _)]]; balance.
  - rewrite omap_cons_cb, <- A4. unfold cb_list. cbn. by rewrite <- app_assoc.
  - constructor; [|done]. cbn. destruct Hk as [[-> _]|[[-> _]|(_ & _ & ->)]]; auto.
Qed.

(** A read is answered from the write buffer: it never enters a buffer. *)
Lemma accounts_forward cbs P st pend done r :
  accounts cbs P st pend done ->
  accounts (cb_list r ++ cbs) P (bump s_num_read_reqs_forwarded 1 (bump s_num_read_reqs 1 st)) (pend ++ [r]) done.
Proof.
  intros [A1 A2 A3 A4 A5]. split; [balance..| |done]. rewrite omap_snoc_cb, <- A4. solve_Permutation.
Qed.

(** A write is absorbed by a buffered one: its callback is called at once. *)
Lemma accounts_coalesce cbs P st pend done r :
  accounts cbs P st pend done ->
  accounts (cb_list r ++ cbs) P (bump s_num_write_reqs_coalesced 1 (bump s_num_write_reqs 1 st)) pend
    (match callback r with Some _ => done ++ [r] | None => done end).
Proof.
  intros [A1 A2 A3 A4 A5]. split; [balance..| |done].
  destruct (callback r) eqn:E; [rewrite omap_snoc_cb|]; unfold cb_list; rewrite <- A4, ?E; cbn; solve_Permutation.
Qed.

(** The effect of completing a request on the accounts. *)
Lemma accounts_complete cbs P c r :
  accounts cbs (ident r :: P) (c_stats c) (c_pending c) (c_done c) ->
  accounts cbs P (c_stats (complete c r)) (c_pending (complete c r)) (c_done (complete c r)).
Proof.
  intros [A1 A2 A3 A4 A5]. rewrite of_type_cons in A1, A2, A3. cbn [id_type ident] in A1, A2, A3.
  rewrite omap_cons_cb in A4. apply Forall_cons in A5 as [A5 A6]. cbn in A4, A5. unfold complete.
  destruct (Z.eqb_spec (type_id r) Type_Read) as [Ht|Ht].
  { rewrite ?Ht in A1; rewrite ?Ht in A2; rewrite ?Ht in A3. cbn in A1, A2, A3. cbn. split; [balance..| |done].
    rewrite omap_snoc_cb, <- A4. unfold cb_list. cbn. solve_Permutation. }
  destruct (Z.eqb_spec (type_id r) Type_Write) as [Hw|Hw].
  { rewrite ?Hw in A1; rewrite ?Hw in A2; rewrite ?Hw in A3. cbn in A1, A2, A3. unfold call_back.
    destruct (callback r) eqn:E; cbn; (split; [balance..| |done]); rewrite <- A4; [rewrite omap_snoc_cb|done].
    unfold cb_list. rewrite E. cbn. solve_Permutation. }
  destruct A5 as [?|[?|Hn]]; [done..|]. rewrite Hn in A4. cbn in A4.
  destruct (Z.eqb_spec (type_id r) (-1)) as [Hm|Hm]; cbn; split; try done; balance.
Qed.

Lemma accounts_depart cbs P st r pend done l :
  accounts cbs P st (r :: pend) done ->
  accounts cbs P (bump s_read_latency l st) pend (match callback r with Some _ => done ++ [r] | None => done end).
Proof.
  intros [A1 A2 A3 A4 A5]. split; [balance..| |done]. rewrite <- A4.
  destruct (callback r) eqn:E; [rewrite omap_snoc_cb|]; unfold cb_list; cbn; rewrite E; cbn; solve_Permutation.
Qed.

(** ** The accounts of a controller *)
Lemma mapper_apply_shape a r r' : mapper_apply a r = Ok r' -> exists av, r' = set_addr_vec r av.
Proof.
  destruct r. unfold mapper_apply. intros H. destruct (am_impl a);
    unfold ChRaBaRoCo_apply, RoBaRaCoCh_apply, MOP4CLXOR_apply, PassThroughAddrMapper_apply in H; inv_res; subst;
    eexists; reflexivity.
Qed.

Lemma enqueue_inv b r ok b' : enqueue b r = (ok, b') ->
  if ok then b' = mkBuf (buffer b ++ [r]) (max_size b) /\ buf_size b < max_size b else b' = b.
Proof.
  unfold enqueue. destruct (Z.ltb_spec (buf_size b) (max_size b)); intros [= <- <-]; done.
Qed.

Lemma enqueue_bounds c b r ok b' : buf_ok (get_buf c b) -> enqueue (get_buf c b) r = (ok, b') -> buf_ok b'.
Proof. intros H He. by destruct (enqueue_ok _ _ _ _ H He). Qed.

Lemma bounds_set c b v : (forall b, buf_ok (get_buf c b)) -> buf_ok v -> forall b', buf_ok (get_buf (set_buf c b v) b').
Proof. intros H Hv b'. pose proof (H b'). by destruct b, b'. Qed.

Lemma ids_snoc l m r : ids (mkBuf (l ++ [r]) m) ≡ₚ ident r :: map ident l.
Proof. unfold ids. cbn. rewrite map_app. cbn. by rewrite Permutation_app_comm. Qed.

Lemma drain_accounts cbs P l : forall c0, accounts cbs P (c_stats c0) l (c_done c0) ->
  accounts cbs P (c_stats (drain c0 l)) (c_pending (drain c0 l)) (c_done (drain c0 l)).
Proof.
  induction l as [|r l IH]; intros c0 A; cbn [drain]; [done|]. destruct (_ <? _); [done|]. apply IH.
  apply accounts_depart with (l := depart r - arrive r) in A. unfold call_back. cbn.
  by destruct (callback r).
Qed.

(** Everything but the counters, the pending reads and the callbacks. *)
Definition framed (c c' : ControllerBase) : Prop :=
  (forall b, get_buf c' b = get_buf c b) /\ c_buffered_write_addrs c' = c_buffered_write_addrs c /\
  c_active_per_bank c' = c_active_per_bank c /\ c_device c' = c_device c.

Lemma framed_pool X c c' : framed c c' -> pool X c' = pool X c.
Proof.
  intros [Hb _]. unfold pool. by rewrite (Hb Bactive : c_active_buffer c' = _), (Hb Bpriority : c_priority_buffer c' = _),
    (Hb Bread : c_read_buffer c' = _), (Hb Bwrite : c_write_buffer c' = _).
Qed.

Lemma framed_bufs c c' : framed c c' -> bufs_ok c -> bufs_ok c'.
Proof.
  intros (Hb & Ha & _) [B2 B3 B5].
  split; rewrite ?Ha; try (by rewrite (Hb Bwrite : c_write_buffer c' = _)). intros b. by rewrite Hb.
Qed.

Lemma framed_book cbs X c c' :
  framed c c' -> accounts cbs (pool X c) (c_stats c') (c_pending c') (c_done c') -> bufs_ok c -> book cbs X c'.
Proof. intros Hf A B. split; [by rewrite (framed_pool X _ _ Hf)|by eapply framed_bufs]. Qed.

Lemma framed_drain l : forall c0, framed c0 (drain c0 l).
Proof.
  induction l as [|r l IH]; intros c0; cbn [drain]; [by repeat split; intros []|].
  destruct (_ <? _); [by repeat split; intros []|].
  destruct (IH (call_back (count_stat c0 s_read_latency (depart r - arrive r)) r)) as (H1 & H2 & H3 & H4).
  unfold framed. rewrite H2, H3, H4. split; [intros b; rewrite H1|]; unfold call_back;
    destruct (callback r); try done; by destruct b.
Qed.

Section Book.
Context (cbs : list Z) (X : list rid) (c : ControllerBase) (B : book cbs X c).

Lemma book_priority_send r ok c' :
  type_id r = -1 -> callback r = None -> ctrl_priority_send c r = Ok (ok, c') -> book cbs X c'.
Proof.
  intros Ht Hcb H. unfold ctrl_priority_send in H. dcase H; [discriminate|].
  destruct (enqueue (c_priority_buffer c) r) as [k b] eqn:He.
  pose proof (enqueue_bounds c Bpriority r k b (bo_bounds _ (bk_bufs _ _ _ B) Bpriority) He) as Hb.
  pose proof (enqueue_inv _ _ _ _ He) as Hi. destruct B as [B1 [B2 B3 B5]]. rewrite Ht in H. destruct k; cbn in H.
  - destruct Hi as [-> _]. injection H as <- <-. split; [|split; [done|done|by apply (bounds_set c Bpriority)]].
    change cbs with ([] ++ cbs). replace [] with (cb_list r) by (unfold cb_list; by rewrite Hcb).
    eapply accounts_perm; [|done|apply (accounts_enter cbs (pool X c) _ _ _ r s_num_maintenance_reqs); [by right; right|exact B1]].
    apply (pool_set X c Bpriority); [apply ids_snoc|done].
  - subst b. injection H as <- <-. split; [done|split; [done..|by apply (bounds_set c Bpriority)]].
Qed.

Lemma book_prologue : book cbs X (tick_prologue c).
Proof.
  unfold tick_prologue, serve_completed_reads. cbn zeta.
  set (c1 := count_stat (count_stat (count_stat (count_stat (count_stat (with_c_clk c (c_clk c + 1)) _ _) _ _) _ _) _ _) _ _).
  assert (B' : book cbs X c1).
  { eapply still_book; [|exact B]. unfold c1. do 5 (etrans; [|apply still_count; closed_elem]). split; intros; try (by destruct b); done. }
  eapply framed_book; [apply framed_drain| |apply B']. apply drain_accounts. apply B'.
Qed.

(** A read or write enters its buffer. *)
Lemma book_enter_read r v :
  type_id r = Type_Read -> enqueue (c_read_buffer c) r = (true, v) ->
  book (cb_list r ++ cbs) X (count_stat (with_c_read_buffer c v) s_num_read_reqs 1).
Proof.
  intros Ht He. pose proof (enqueue_bounds c Bread r true v (bo_bounds _ (bk_bufs _ _ _ B) Bread) He) as Hb.
  destruct (enqueue_inv _ _ _ _ He) as [-> _]. destruct B as [B1 [B2 B3 B5]].
  split; [|split; [done|done|by apply (bounds_set c Bread)]].
  eapply accounts_perm; [|done|apply (accounts_enter cbs (pool X c) _ _ _ r s_num_read_reqs); [by left|exact B1]].
  apply (pool_set X c Bread); [apply ids_snoc|done].
Qed.

Lemma book_enter_write r v :
  type_id r = Type_Write -> addr r ∉ c_buffered_write_addrs c -> enqueue (c_write_buffer c) r = (true, v) ->
  book (cb_list r ++ cbs) X
    (count_stat (with_c_buffered_write_addrs (with_c_write_buffer c v) ({[addr r]} ∪ c_buffered_write_addrs c))
       s_num_write_reqs 1).
Proof.
  intros Ht Hn He. pose proof (enqueue_bounds c Bwrite r true v (bo_bounds _ (bk_bufs _ _ _ B) Bwrite) He) as Hb.
  destruct (enqueue_inv _ _ _ _ He) as [-> _]. destruct B as [B1 [B2 B3 B5]]. rewrite B2 in Hn.
  rewrite elem_of_list_to_set in Hn.
  assert (Hm : map id_addr (ids (mkBuf (buffer (c_write_buffer c) ++ [r]) (max_size (c_write_buffer c)))) =
               map id_addr (ids (c_write_buffer c)) ++ [addr r]) by (unfold ids; cbn; by rewrite !map_app).
  split; [|split; [| |by apply (bounds_set c Bwrite)]].
  - eapply accounts_perm; [|done|apply (accounts_enter cbs (pool X c) _ _ _ r s_num_write_reqs); [by right; left|exact B1]].
    apply (pool_set X c Bwrite); [apply ids_snoc|done].
  - cbn [c_write_buffer c_buffered_write_addrs count_stat with_c_stats with_c_buffered_write_addrs with_c_write_buffer].
    rewrite Hm, B2, list_to_set_app_L, list_to_set_singleton_L. by rewrite (comm_L (∪)).
  - cbn [c_write_buffer count_stat with_c_stats with_c_buffered_write_addrs with_c_write_buffer].
    rewrite Hm. apply NoDup_app. split_and!; [done| |apply NoDup_singleton].
    intros x Hx ->%list_elem_of_singleton. done.
Qed.

(** A rejected request leaves the buffers as they were. *)
Lemma book_reject b v r : enqueue (get_buf c b) r = (false, v) -> book cbs X (set_buf c b v).
Proof.
  intros He. pose proof (enqueue_inv _ _ _ _ He) as Hv. cbn in Hv. subst v. eapply still_book; [|exact B].
  by apply still_set_buf.
Qed.

Lemma book_send r ok r' c' :
  ctrl_send c r = Ok (ok, r', c') -> book (if ok then cb_list r ++ cbs else cbs) X c'.
Proof.
  unfold ctrl_send. intros H. apply bind_Ok_inv in H as (r1 & H1 & H). apply mapper_apply_shape in H1 as (av1 & ->).
  apply bind_Ok_inv in H as (av & _ & H). cbn zeta in H. apply bind_Ok_inv in H as (fc & _ & H).
  set (r2 := set_final_command (set_addr_vec (set_addr_vec r av1) av) fc) in *.
  dcase H.
  { injection H as <- _ <-. apply (framed_book _ X c); [by repeat split; intros []| |apply B].
    change (cb_list r) with (cb_list (set_depart (set_arrive r2 (c_clk c)) (c_clk c + 1))).
    apply accounts_forward, B. }
  dcase H; bool_hyps.
  - destruct (enqueue _ _) as [k b] eqn:He. destruct k; injection H as <- _ <-.
    + by apply (book_enter_read (set_arrive r2 (c_clk c))).
    + by apply (book_reject Bread b (set_arrive r2 (c_clk c))).
  - dcase H; [|discriminate]. bool_hyps. dcase H.
    + injection H as <- _ <-. apply (framed_book _ X c); [| |apply B].
      * unfold call_back. by destruct (callback _); repeat split; intros [].
      * change (cb_list r) with (cb_list (set_arrive r2 (c_clk c))).
        pose proof (accounts_coalesce cbs (pool X c) _ _ _ (set_arrive r2 (c_clk c)) (bk_accounts _ _ _ B)) as A.
        unfold call_back. destruct (callback (set_arrive r2 (c_clk c))); exact A.
    + destruct (enqueue _ _) as [k b] eqn:He. destruct k; injection H as <- _ <-.
      * apply (book_enter_write (set_arrive r2 (c_clk c))); [done| |done].
        unfold bool_count in *. by apply bool_decide_eq_false in Ec2.
      * by apply (book_reject Bwrite b (set_arrive r2 (c_clk c))).
Qed.
End Book.

(** *** Forwarding and coalescing *)
(** A read answered from the write buffer: it is pending, due in the next
    cycle, and no buffer has it.  A write that joins a buffered one leaves the
    write buffer as it is. *)
Definition forwarded (c c' : ControllerBase) (ok : bool) (r' : Request) : Prop :=
  ok = true /\ c_pending c' = c_pending c ++ [r'] /\ depart r' = c_clk c + 1 /\
  c_read_buffer c' = c_read_buffer c /\ c_write_buffer c' = c_write_buffer c.
Definition coalesced (c c' : ControllerBase) (ok : bool) : Prop := ok = true /\ c_write_buffer c' = c_write_buffer c.

Lemma snoc_ne {A} (l : list A) x : l <> l ++ [x].
Proof. intros H. apply (f_equal length) in H. rewrite length_app in H. cbn in H. lia. Qed.

Lemma send_lookup c r ok r' c' :
  ctrl_send c r = Ok (ok, r', c') ->
  (type_id r = Type_Read -> addr r ∈ c_buffered_write_addrs c <-> forwarded c c' ok r') /\
  (type_id r = Type_Write -> addr r ∈ c_buffered_write_addrs c <-> coalesced c c' ok).
Proof.
  unfold ctrl_send. intros H. apply bind_Ok_inv in H as (r1 & H1 & H). apply mapper_apply_shape in H1 as (av1 & ->).
  apply bind_Ok_inv in H as (av & _ & H). cbn zeta in H. apply bind_Ok_inv in H as (fc & _ & H).
  set (r2 := set_final_command (set_addr_vec (set_addr_vec r av1) av) fc) in *.
  change (type_id r) with (type_id r2). change (addr r) with (addr r2). unfold bool_count in H.
  change (addr (set_arrive r2 (c_clk c))) with (addr r2) in H. change (type_id (set_arrive r2 (c_clk c))) with (type_id r2) in H.
  unfold Type_Read, Type_Write in *. case_bool_decide as Hin.
  - destruct (Z.eqb_spec (type_id r2) 0) as [Hr|Hr]; cbn [andb] in H.
    + injection H as <- <- <-. split; [|lia]. intros _. split; [|done]. intros _. by split_and!.
    + split; [lia|]. intros Hw. rewrite Hw in H. cbn in H. injection H as <- _ <-. split; [|done]. intros _.
      split; [done|]. unfold call_back. by destruct (callback _).
  - rewrite andb_false_r in H. destruct (Z.eqb_spec (type_id r2) 0) as [Hr|Hr].
    + split; [|lia]. intros _. split; [done|]. intros (-> & Hp & _). exfalso.
      destruct (enqueue _ _) as [[] b]; [injection H as <- <-|discriminate H]. by apply snoc_ne in Hp.
    + split; [lia|]. intros Hw. rewrite Hw in H. cbn in H. split; [done|]. intros (-> & Hb). exfalso.
      destruct (enqueue _ _) as [[] b] eqn:He; [injection H as _ <-|discriminate H]. apply enqueue_inv in He as [-> _].
      apply (f_equal buffer) in Hb. cbn in Hb. symmetry in Hb. by apply snoc_ne in Hb.
Qed.

(** ** Requests leaving a buffer *)
Lemma pool_remove X c b i r :
  buffer (get_buf c b) !! i = Some r ->
  pool X c ≡ₚ ident r :: pool X (set_buf c b (remove (get_buf c b) i)).
Proof.
  intros H. pose proof (ids_erase _ _ _ H) as He. unfold pool. destruct b; cbn in *; rewrite He; solve_Permutation.
Qed.

Lemma elem_of_removed b i r x :
  NoDup (map id_addr (ids b)) -> buffer b !! i = Some r ->
  x ∈ map id_addr (ids (remove b i)) <-> x ∈ map id_addr (ids b) /\ x <> addr r.
Proof.
  intros Hn Hr. pose proof (ids_erase _ _ _ Hr) as He. rewrite He in *. cbn in *.
  apply NoDup_cons in Hn as [Hn _]. rewrite elem_of_cons. split; [|intuition].
  intros Hx. split; [auto|]. by intros ->.
Qed.

(** The address set and the bounds after a request left buffer [b]. *)
Definition leave (c : ControllerBase) (b : buf_id) (i : nat) (r : Request) : ControllerBase :=
  set_buf (forget_write c b r) b (remove (get_buf (forget_write c b r) b) i).

Lemma forget_write_bufs c b r b' : get_buf (forget_write c b r) b' = get_buf c b'.
Proof. unfold forget_write. destruct (decide _); by destruct b'. Qed.

Lemma left_bufs c b i r : bufs_ok c -> buffer (get_buf c b) !! i = Some r -> bufs_ok (leave c b i r).
Proof.
  intros [Ha Hn Hb] Hr. split.
  - unfold leave, forget_write. destruct b; try done. rewrite decide_True by done.
    cbn [get_buf set_buf with_c_write_buffer with_c_buffered_write_addrs c_buffered_write_addrs c_write_buffer] in *. rewrite Ha. apply set_eq. intros x.
    rewrite elem_of_difference, elem_of_singleton, !elem_of_list_to_set. symmetry. by apply elem_of_removed.
  - unfold leave, forget_write. destruct b; try done. rewrite decide_True by done. cbn in *. rewrite (ids_erase _ _ _ Hr) in Hn. cbn in Hn.
    by apply NoDup_cons in Hn as [_ Hn].
  - unfold leave. apply bounds_set; [intros b'; by rewrite forget_write_bufs|].
    apply remove_ok. rewrite forget_write_bufs. apply Hb.
Qed.

Lemma framed_complete c r : framed c (complete c r).
Proof.
  unfold complete, call_back. destruct (_ =? _); [by repeat split; intros []|].
  destruct (_ =? _); [by destruct (callback r); repeat split; intros []|]. by destruct (_ =? _); repeat split; intros [].
Qed.

Lemma framed_set_buf c c' b v : framed c c' -> framed (set_buf c b v) (set_buf c' b v).
Proof.
  intros (H1 & H2 & H3 & H4). unfold framed. split_and!; [|by destruct b..].
  intros b'. pose proof (H1 b') as H. destruct b, b'; cbn in *; done.
Qed.

Lemma active_add_frame c av n c' : active_add c av n = Ok c' ->
  (forall b, get_buf c' b = get_buf c b) /\ c_buffered_write_addrs c' = c_buffered_write_addrs c /\
  c_stats c' = c_stats c /\ c_pending c' = c_pending c /\ c_done c' = c_done c /\ c_device c' = c_device c.
Proof. unfold active_add. intros H. inv_res. subst. by split_and!; try intros []. Qed.

Lemma pool_bufs X c c' : (forall b, get_buf c' b = get_buf c b) -> pool X c' = pool X c.
Proof.
  intros Hb. unfold pool. by rewrite (Hb Bactive : c_active_buffer c' = _), (Hb Bpriority : c_priority_buffer c' = _),
    (Hb Bread : c_read_buffer c' = _), (Hb Bwrite : c_write_buffer c' = _).
Qed.

Lemma pool_left X c b i r :
  buffer (get_buf c b) !! i = Some r -> pool X c ≡ₚ ident r :: pool X (leave c b i r).
Proof.
  intros H. unfold leave. rewrite <- (pool_bufs X c (forget_write c b r)) by (intros; apply forget_write_bufs).
  apply pool_remove. by rewrite forget_write_bufs.
Qed.

Lemma left_accounts c b i r :
  c_stats (leave c b i r) = c_stats c /\ c_pending (leave c b i r) = c_pending c /\ c_done (leave c b i r) = c_done c.
Proof. unfold leave, forget_write. by destruct b. Qed.

Lemma active_add_bufs c av n c' : active_add c av n = Ok c' -> bufs_ok c -> bufs_ok c'.
Proof.
  intros (F1 & F2 & _)%active_add_frame [B1 B2 B3]. split; rewrite ?F2; try (by rewrite (F1 Bwrite : c_write_buffer c' = _)).
  intros b. by rewrite F1.
Qed.

Lemma book_retire cbs X c b i c' : book cbs X c -> retire_request c b i = Ok c' -> book cbs X c'.
Proof.
  intros [B1 B2] H. unfold retire_request in H. apply bind_Ok_inv in H as (r & Hr & H).
  apply request_at_Some in Hr. apply bind_Ok_inv in H as (c1 & H1 & H). injection H as <-.
  assert (F : (forall b, get_buf c1 b = get_buf c b) /\ bufs_ok c1 /\
              c_stats c1 = c_stats c /\ c_pending c1 = c_pending c /\ c_done c1 = c_done c).
  { destruct (decide _); [|by injection H1 as <-]. pose proof (active_add_bufs _ _ _ _ H1 B2).
    apply active_add_frame in H1 as (? & _ & ? & ? & ? & _). done. }
  destruct F as (F1 & F2 & F3 & F4 & F5). pose proof (framed_complete (forget_write c1 b r) r) as Hf.
  rewrite (proj1 Hf b). rewrite <- (F1 b) in Hr.
  apply (framed_book cbs X (leave c1 b i r)); [by apply framed_set_buf| |by apply left_bufs].
  rewrite <- (pool_bufs X c c1) in B1 by done. rewrite (pool_left X c1 b i r), <- F3, <- F4, <- F5 in B1 by done.
  assert (A : accounts cbs (ident r :: pool X (leave c1 b i r)) (c_stats (forget_write c1 b r))
                (c_pending (forget_write c1 b r)) (c_done (forget_write c1 b r))) by (by destruct b).
  apply accounts_complete in A. by destruct b.
Qed.

Lemma book_promote cbs X c r ok c' :
  book cbs X c -> promote c r = Ok (ok, c') ->
  c_stats c' = c_stats c /\ c_pending c' = c_pending c /\ c_done c' = c_done c /\ bufs_ok c' /\
  (if ok then pool X c' ≡ₚ ident r :: pool X c else pool X c' = pool X c) /\
  (forall b, exists l, buffer (get_buf c' b) = buffer (get_buf c b) ++ l).
Proof.
  intros [B1 B2] H. unfold promote in H. destruct (enqueue (c_active_buffer c) r) as [k ab] eqn:He.
  pose proof (enqueue_bounds c Bactive r k ab (bo_bounds _ B2 Bactive) He) as Hb. pose proof (enqueue_inv _ _ _ _ He) as Hi.
  assert (B3 : bufs_ok (with_c_active_buffer c ab)).
  { destruct B2 as [? ? Hbs]. split; try done. by apply (bounds_set c Bactive). }
  destruct k.
  - destruct Hi as [-> _]. apply bind_Ok_inv in H as (c1 & H1 & H). injection H as <- <-.
    pose proof (active_add_bufs _ _ _ _ H1 B3) as B4. apply active_add_frame in H1 as (F1 & _ & F3 & F4 & F5 & _).
    rewrite F3, F4, F5. split_and!; try done.
    + rewrite (pool_bufs X _ c1 F1). apply (pool_set X c Bactive); [apply ids_snoc|done].
    + intros b. rewrite F1. destruct b; cbn; eauto using app_nil_r; exists []; by rewrite app_nil_r.
  - subst ab. injection H as <- <-. split_and!; try done. intros b. exists []. rewrite app_nil_r. by destruct b.
Qed.

Lemma book_promote_to_active cbs X c b i c' : book cbs X c -> promote_to_active c b i = Ok c' -> book cbs X c'.
Proof.
  intros B H. unfold promote_to_active in H. apply bind_Ok_inv in H as (r & Hr & H). apply request_at_Some in Hr.
  apply bind_Ok_inv in H as ([ok c1] & H1 & H). destruct (book_promote _ X _ _ _ _ B H1) as (F1 & F2 & F3 & F4 & F5 & F6).
  destruct B as [B1 _]. cbn in H. destruct ok; injection H as <-; [|split; [by rewrite F1, F2, F3, F5|done]].
  assert (Hr1 : buffer (get_buf c1 b) !! i = Some r) by (destruct (F6 b) as [l ->]; by apply lookup_app_l_Some).
  change (book cbs X (leave c1 b i r)). split; [|by apply left_bufs].
  destruct (left_accounts c1 b i r) as (-> & -> & ->). rewrite F1, F2, F3. rewrite (pool_left X c1 b i r Hr1) in F5.
  apply Permutation_cons_inv in F5. by rewrite F5.
Qed.

Lemma book_advance cbs X c b i c' : book cbs X c -> advance_request c b i = Ok c' -> book cbs X c'.
Proof.
  intros B H. unfold advance_request in H. apply bind_Ok_inv in H as (r & _ & H). dcase H; [by eapply book_retire|].
  apply bind_Ok_inv in H as (m & _ & H). dcase H; [by eapply book_promote_to_active|by injection H as <-].
Qed.

(** ** The hooks *)
Lemma still_with_refresh c r : still c (with_c_refresh c r).
Proof. split; intros; try (by destruct b); done. Qed.
Lemma still_with_rowpolicy c r : still c (with_c_rowpolicy c r).
Proof. split; intros; try (by destruct b); done. Qed.

Lemma still_plugins_pre c : still c (plugins_pre_schedule c).
Proof. split; intros; try (by destruct b); done. Qed.

Lemma book_send_refresh cbs X cmd what c n c' :
  book cbs X c -> send_refresh cmd what c n = Ok c' -> book cbs X c'.
Proof.
  intros B H. unfold send_refresh in H. apply bind_Ok_inv in H as (av & _ & H). apply bind_Ok_inv in H as ([k c1] & H1 & H).
  dcase H; [|discriminate]. injection H as <-. by eapply book_priority_send in H1.
Qed.

Lemma book_service cbs X r c k r' c' :
  book cbs X c -> service_pending_refpb r c = Ok (k, r', c') -> book cbs X c'.
Proof.
  intros B H. unfold service_pending_refpb in H. destruct (h_pending_refpbs r); [by injection H as <- <- <-|].
  apply bind_Ok_inv in H as (av & _ & H). apply bind_Ok_inv in H as ([ok c1] & H1 & H).
  eapply book_priority_send in H1; [|done..]. dcase H; inv_res; by subst.
Qed.

Lemma book_refresh_tick cbs X c c' : book cbs X c -> refresh_tick c = Ok c' -> book cbs X c'.
Proof.
  intros B H. unfold refresh_tick in H. destruct (c_refresh c) as [|r|r|r].
  - by injection H as <-.
  - unfold AllBankRefresh_tick in H. dcase H; [|by injection H as <-]. cbn zeta in H.
    refine (foldM_inv (book cbs X) _ _ _ _ _ _ H); [|by eapply still_book; [apply still_with_refresh|]].
    intros n a b _ Ha Hb. by eapply book_send_refresh.
  - unfold PerBankRefresh_tick in H. dcase H; [|by injection H as <-]. apply bind_Ok_inv in H as (n & _ & H).
    apply bind_Ok_inv in H as (c1 & H1 & H). injection H as <-. eapply still_book; [apply still_with_refresh|].
    by eapply book_send_refresh.
  - unfold HBM34PerBankRefresh_tick in H. apply bind_Ok_inv in H as ([[b r1] c1] & H1 & H).
    pose proof (book_service _ _ _ _ _ _ _ B H1) as B1.
    assert (Hw : forall r, book cbs X (with_c_refresh c1 r)) by (intros; by eapply still_book; [apply still_with_refresh|]).
    dcase H; [by injection H as <-|]. dcase H; [by injection H as <-|].
    apply bind_Ok_inv in H as (sd & _ & H). dcase H; [by injection H as <-|].
    apply bind_Ok_inv in H as ([[b2 r2] c2] & H2 & H). injection H as <-.
    eapply still_book; [apply still_with_refresh|]. by eapply book_service.
Qed.

Lemma book_rowpolicy_pre cbs X c c' : book cbs X c -> rowpolicy_pre_schedule c = Ok c' -> book cbs X c'.
Proof.
  intros B H. unfold rowpolicy_pre_schedule in H. destruct (c_rowpolicy c) as [|p]; [by injection H as <-|].
  unfold ClosedCAP_pre_schedule in H. apply bind_Ok_inv in H as (st & Hf & H). injection H as <-.
  eapply still_book; [apply still_with_rowpolicy|].
  refine (foldM_inv (fun st => book cbs X st.2) _ _ _ _ _ _ Hf); [|done].
  intros i [p0 c0] b _ Ha Hb. unfold inject_precharge in Hb. apply bind_Ok_inv in Hb as (n & _ & Hb).
  apply bind_Ok_inv in Hb as (j & _ & Hb). dcase Hb; [by injection Hb as <-|].
  do 3 (apply bind_Ok_inv in Hb as (? & _ & Hb)). dcase Hb; [by injection Hb as <-|].
  apply bind_Ok_inv in Hb as ([k c1] & H1 & Hb). eapply book_priority_send in H1; [|exact Ha|done..].
  dcase Hb; [apply bind_Ok_inv in Hb as (? & _ & Hb)|]; by injection Hb as <-.
Qed.

Lemma book_pre_tick cbs X c c' : book cbs X c -> pre_tick c = Ok c' -> book cbs X c'.
Proof.
  intros B. unfold pre_tick. intros (c1 & H1 & (c2 & H2 & [= <-])%bind_Ok_inv)%bind_Ok_inv.
  apply (still_book _ _ c2); [apply still_plugins_pre|]. apply (book_rowpolicy_pre _ _ c1); [|exact H2].
  apply (book_refresh_tick _ _ (tick_prologue c)); [|exact H1]. by apply book_prologue.
Qed.

(** ** Ticks *)
Lemma book_serve cbs X cand c c' : book cbs X c -> serve_candidate cand c = Ok c' -> book cbs X c'.
Proof.
  intros B. unfold serve_candidate. destruct cand as [[b i]|]; [|by intros [= <-]].
  intros (c1 & H1 & (c2 & H2 & (c3 & H3 & H)%bind_Ok_inv)%bind_Ok_inv)%bind_Ok_inv.
  eapply book_advance; [|exact H]. eapply still_book; [by eapply still_issue_candidate|].
  eapply still_book; [by eapply still_stats_once|]. eapply still_book; [by eapply still_upgrade|done].
Qed.

Lemma book_GenericDDR cbs X c c' : book cbs X c -> GenericDDR_tick c = Ok c' -> book cbs X c'.
Proof.
  intros B. unfold GenericDDR_tick.
  intros (c1 & H1 & (p & H2 & (c3 & H3 & [= <-])%bind_Ok_inv)%bind_Ok_inv)%bind_Ok_inv.
  change (book cbs X c3). eapply book_serve; [|exact H3]. eapply still_book; [by eapply still_select|].
  by eapply book_pre_tick.
Qed.

Lemma book_try_issue_slot cbs X sm c slot o c' :
  book cbs X c -> try_issue_slot sm c slot = Ok (o, c') -> book cbs X c'.
Proof.
  intros B. unfold try_issue_slot. intros (p & H1 & H)%bind_Ok_inv.
  pose proof (still_book cbs X _ _ (still_select_slot _ _ _ _ H1) B) as B1.
  destruct p.1 as [[b i]|]; [|by injection H as _ <-].
  apply bind_Ok_inv in H as (c1 & H2 & H). apply bind_Ok_inv in H as (c2 & H3 & H). apply bind_Ok_inv in H as (r & _ & H).
  apply bind_Ok_inv in H as (c3 & H4 & H). apply bind_Ok_inv in H as (c4 & H5 & H). injection H as _ <-.
  eapply book_advance; [|exact H5]. eapply still_book; [by eapply still_issue_candidate|].
  eapply still_book; [by eapply still_stats_once|]. eapply still_book; [by eapply still_upgrade_in_slot|done].
Qed.

Lemma book_HBM cbs X c c' : book cbs X c -> HBM_tick c = Ok c' -> book cbs X c'.
Proof.
  intros B. unfold HBM_tick, hbm_tick_prologue.
  intros (c1 & H1 & ([o2 c2] & H2 & ([o3 c3] & H3 & [= <-])%bind_Ok_inv)%bind_Ok_inv)%bind_Ok_inv.
  change (book cbs X c3). eapply book_try_issue_slot; [|exact H3]. eapply book_try_issue_slot; [|exact H2].
  by eapply book_pre_tick.
Qed.

Lemma book_HBM34 cbs X h h' : book cbs X (h34_base h) -> HBM34_tick h = Ok h' -> book cbs X (h34_base h').
Proof.
  intros B. unfold HBM34_tick, hbm_tick_prologue. cbn zeta.
  intros (c1 & H1 & ([o2 c2] & H2 & ([o3 c3] & H3 & (h1 & _ & [= <-])%bind_Ok_inv)%bind_Ok_inv)%bind_Ok_inv)%bind_Ok_inv.
  change (book cbs X c3). eapply book_try_issue_slot; [|exact H3]. pose proof (book_pre_tick _ _ _ _ B H1) as B1.
  destruct (is_rising_edge c1); [by eapply book_try_issue_slot|]. by injection H2 as _ <-.
Qed.

(** ** LPDDR5: requests also wait in the activating buffer *)
Definition activating_ids (l : LPDDR5Controller) : list rid := ids (m_activating_buffer l).

Definition lp_book (cbs : list Z) (l : LPDDR5Controller) : Prop := book cbs (activating_ids l) (l_base l).

Lemma pick_act2_ids kind l o l' :
  pick_act2 kind l = Ok (o, l') -> activating_ids l' = activating_ids l /\ l_base l' = l_base l.
Proof.
  unfold pick_act2. cbn zeta. intros (st & Hst & [= _ <-])%bind_Ok_inv. split; [|done].
  refine (foldM_inv (fun st => map ident (sc_buffer st) = activating_ids l) _ _ _ _ _ _ Hst); [|done].
  intros it a a' _ Ha. unfold act2_step. cbn zeta. intros (r & Hr & Hs)%bind_Ok_inv.
  do 7 (apply bind_Ok_inv in Hs as (? & _ & Hs)).
  assert (Hl : map ident (<[it := set_command r (l_cmd_act2 (l_const l))]> (sc_buffer a)) = activating_ids l).
  { rewrite <- Ha. etrans; [apply (list_fmap_insert ident)|]. apply list_insert_id. rewrite list_lookup_fmap.
    destruct (sc_buffer a !! it) as [y|]; [injection Hr as ->; done|discriminate]. }
  repeat case_match; by injection Hs as <-.
Qed.

Lemma still_lp_notify l r l' :
  lp_notify l r = Ok l' -> still (l_base l) (l_base l') /\ m_activating_buffer l' = m_activating_buffer l.
Proof.
  unfold lp_notify. intros (c1 & H1 & (c2 & H2 & [= <-])%bind_Ok_inv)%bind_Ok_inv. split; [|done].
  etrans; [by eapply still_rowpolicy_on_issue|by eapply still_plugins_on_issue].
Qed.

Lemma set_owner_frame l bank v dl l' :
  set_owner l bank v dl = Ok l' -> l_base l' = l_base l /\ m_activating_buffer l' = m_activating_buffer l.
Proof. unfold set_owner. intros H. inv_res. by subst. Qed.

Lemma pool_X X X' c : X ≡ₚ X' -> pool X c ≡ₚ pool X' c.
Proof. intros H. unfold pool. by rewrite H. Qed.

Lemma book_X cbs X X' c : X ≡ₚ X' -> book cbs X c -> book cbs X' c.
Proof. intros H [A B]. split; [|done]. by rewrite <- (pool_X X X' c H). Qed.

Lemma lp_promote cbs l i l' : lp_book cbs l -> promote_from_activating l i = Ok l' -> lp_book cbs l'.
Proof.
  intros B. unfold promote_from_activating. intros (r & Hr & H)%bind_Ok_inv.
  do 5 (apply bind_Ok_inv in H as (? & _ & H)). apply bind_Ok_inv in H as ([ok c1] & Hp & H).
  apply bind_Ok_inv in H as (? & Hok & H). apply set_owner_frame in H as [Hb Ha].
  assert (Hr' : buffer (m_activating_buffer l) !! i = Some r)
    by (unfold activating_at in Hr; destruct (buffer _ !! i); [by injection Hr as ->|discriminate]).
  unfold lp_book, activating_ids. rewrite Hb, Ha. cbn.
  destruct (book_promote _ _ _ _ _ _ B Hp) as (F1 & F2 & F3 & F4 & F5 & _). destruct ok; [|discriminate].
  split; [|done]. rewrite F1, F2, F3. destruct B as [A _].
  assert (Hx : activating_ids l ≡ₚ ident r :: ids (remove (m_activating_buffer l) i)) by (by apply ids_erase).
  rewrite (pool_X _ _ c1 Hx) in F5.
  assert (Hc : forall c, pool (ident r :: ids (remove (m_activating_buffer l) i)) c ≡ₚ
                         ident r :: pool (ids (remove (m_activating_buffer l) i)) c) by (intros; unfold pool; solve_Permutation).
  rewrite Hc in F5. apply Permutation_cons_inv in F5. by rewrite F5.
Qed.

Lemma lp_move cbs l b i l' : lp_book cbs l -> move_to_activating l b i = Ok l' -> lp_book cbs l'.
Proof.
  intros [A B]. unfold move_to_activating. cbn zeta. intros (r & Hr & H)%bind_Ok_inv. apply request_at_Some in Hr.
  do 3 (apply bind_Ok_inv in H as (? & _ & H)). destruct (enqueue (m_activating_buffer l) r) as [k ab] eqn:He.
  apply bind_Ok_inv in H as (? & Hok & H). destruct k; [|discriminate]. apply enqueue_inv in He as [-> _].
  apply set_owner_frame in H as [Hb Ha]. unfold lp_book, activating_ids. rewrite Hb, Ha. cbn.
  change (set_buf (forget_write (l_base l) b r) b (remove (get_buf (forget_write (l_base l) b r) b) i))
    with (leave (l_base l) b i r).
  apply (book_X _ (ident r :: activating_ids l)); [symmetry; apply (ids_snoc _ (max_size (m_activating_buffer l)))|].
  split; [|by apply left_bufs]. destruct (left_accounts (l_base l) b i r) as (-> & -> & ->).
  assert (Hp : pool (ident r :: activating_ids l) (leave (l_base l) b i r) ≡ₚ
               ident r :: pool (activating_ids l) (leave (l_base l) b i r)) by (unfold pool; solve_Permutation).
  by rewrite Hp, <- pool_left.
Qed.

Lemma lp_issue_owned cbs l i kind l' : lp_book cbs l -> issue_owned_act2 l i kind = Ok l' -> lp_book cbs l'.
Proof.
  intros B. unfold issue_owned_act2. intros (r & Hr & H)%bind_Ok_inv. do 6 (apply bind_Ok_inv in H as (? & _ & H)).
  apply bind_Ok_inv in H as (l1 & H1 & H).
  assert (Hr' : buffer (m_activating_buffer l) !! i = Some r)
    by (unfold activating_at in Hr; destruct (buffer _ !! i); [by injection Hr as ->|discriminate]).
  assert (B1 : lp_book cbs l1).
  { dcase H1; [by injection H1 as <-|]. apply bind_Ok_inv in H1 as (c1 & Hc & [= <-]).
    unfold lp_book, activating_ids. cbn [m_activating_buffer with_m_activating_buffer l_base with_l_base].
    rewrite (ids_modify_const _ i r) by done. eapply still_book; [by eapply count_row_outcome_still|exact B]. }
  apply bind_Ok_inv in H as (c2 & H2 & H). apply bind_Ok_inv in H as (r2 & _ & H).
  apply bind_Ok_inv in H as (l3 & H3 & H). apply bind_Ok_inv in H as (l4 & H4 & H).
  apply still_lp_notify in H3 as [H3 Ha3].
  assert (B3 : lp_book cbs l3).
  { unfold lp_book, activating_ids. rewrite Ha3. eapply still_book; [exact H3|].
    eapply still_book; [by eapply still_issue|exact B1]. }
  pose proof (lp_promote _ _ _ _ B3 H4) as B4. destruct kind; by injection H as <-.
Qed.

Lemma lp_extend l cmd : l_base (extend_wck_expiry l cmd) = l_base l /\
  m_activating_buffer (extend_wck_expiry l cmd) = m_activating_buffer l.
Proof. unfold extend_wck_expiry. cbn zeta. by destruct (_ <? _). Qed.

Lemma lp_cas_sync cbs l b i s l' : lp_book cbs l -> try_issue_cas_sync l b i = Ok (s, l') -> lp_book cbs l'.
Proof.
  intros B. unfold try_issue_cas_sync. cbn zeta. intros (r & Hr & H)%bind_Ok_inv.
  dcase H; [by injection H as _ <-|]. dcase H.
  - apply bind_Ok_inv in H as ([o l1] & H1 & H). apply pick_act2_ids in H1 as [Hi Hb]. cbn [fst snd] in H.
    destruct o as [j|]; [|discriminate]. apply bind_Ok_inv in H as (l2 & H2 & [= _ <-]).
    eapply lp_issue_owned; [|exact H2]. unfold lp_book. by rewrite Hi, Hb.
  - apply bind_Ok_inv in H as (ok & _ & H). dcase H; [by injection H as _ <-|].
    apply bind_Ok_inv in H as (c1 & H1 & H). apply bind_Ok_inv in H as (l1 & H2 & [= _ <-]).
    apply still_lp_notify in H2 as [H2 Ha]. unfold lp_book, activating_ids.
    cbn [m_activating_buffer with_m_cas_req with_m_cas_issued l_base]. rewrite Ha.
    eapply still_book; [exact H2|]. eapply still_book; [by eapply still_issue|exact B].
Qed.

Lemma lp_issue_standard cbs l b i l' : lp_book cbs l -> issue_standard_candidate l b i = Ok l' -> lp_book cbs l'.
Proof.
  intros B. unfold issue_standard_candidate. cbn zeta. intros (c1 & H1 & (r & _ & (bank & _ & (? & _ & H)%bind_Ok_inv)%bind_Ok_inv)%bind_Ok_inv)%bind_Ok_inv.
  apply bind_Ok_inv in H as (c2 & H2 & H). apply bind_Ok_inv in H as (c3 & H3 & H).
  set (lx := if is_access_cmd _ _ then _ else _) in *.
  assert (Hx : l_base lx = c1 /\ m_activating_buffer lx = m_activating_buffer l).
  { unfold lx. destruct (is_access_cmd _ _); [|done].
    destruct (lp_extend (with_l_base l c1) (command r)) as [E1 E2]. by cbn; rewrite E1, E2. }
  destruct Hx as [Hx1 Hx2]. rewrite Hx1 in H2.
  assert (B3 : lp_book cbs (with_l_base lx c3)).
  { unfold lp_book, activating_ids. cbn [m_activating_buffer with_l_base l_base]. rewrite Hx2.
    eapply still_book; [by eapply still_issue_candidate|]. eapply still_book; [by eapply still_stats_once|].
    eapply still_book; [by eapply still_upgrade|exact B]. }
  dcase H; [by eapply lp_move|]. apply bind_Ok_inv in H as (c4 & H4 & [= <-]).
  unfold lp_book in *. cbn [l_base with_l_base] in *. by eapply book_advance.
Qed.

Lemma lp_continue cbs l l' : lp_book cbs l -> continue_cas l = Ok l' -> lp_book cbs l'.
Proof.
  intros B. unfold continue_cas. destruct (m_cas_req l) as [[b i]|]; [|done]. intros (r & _ & (ok & _ & H)%bind_Ok_inv)%bind_Ok_inv.
  dcase H; [by injection H as <-|]. cbn zeta in H.
  apply bind_Ok_inv in H as (c2 & H2 & H). apply bind_Ok_inv in H as (c3 & H3 & H). apply bind_Ok_inv in H as (c4 & H4 & [= <-]).
  destruct (lp_extend (with_m_cas_issued l false) (command r)) as [E1 E2].
  unfold lp_book, activating_ids. cbn [m_activating_buffer with_l_base l_base with_s_cas_issued] in *. rewrite E2. rewrite E1 in H2.
  assert (B3 : book cbs (ids (m_activating_buffer l)) c3).
  { eapply still_book; [by eapply still_issue_candidate|]. by eapply still_book; [eapply still_stats_once|]. }
  dcase H4; [by eapply book_retire|by injection H4 as <-].
Qed.

Lemma lp_select cbs l cand l' : lp_book cbs l -> select_normal_candidate l = Ok (cand, l') -> lp_book cbs l'.
Proof.
  intros B. unfold select_normal_candidate. intros (p1 & H1 & (p2 & H2 & (p3 & H3 & [= _ <-])%bind_Ok_inv)%bind_Ok_inv)%bind_Ok_inv.
  apply still_pick_best in H1.
  assert (S2 : still (l_base l) p2.2).
  { dcase H2; [by injection H2 as <-|]. etrans; [exact H1|]. by eapply still_pick_priority. }
  unfold lp_book, activating_ids. cbn [m_activating_buffer with_l_base l_base].
  eapply still_book; [|exact B]. dcase H3; [by injection H3 as <-|]. etrans; [exact S2|]. by eapply still_pick_rw.
Qed.

Lemma book_LPDDR5 cbs l l' : lp_book cbs l -> LPDDR5_tick l = Ok l' -> lp_book cbs l'.
Proof.
  intros B. unfold LPDDR5_tick. intros (c & Hp & ([u l1] & Hu & H)%bind_Ok_inv)%bind_Ok_inv. cbn [fst snd] in H.
  apply pick_act2_ids in Hu as [Hi Hb].
  assert (B1 : lp_book cbs l1) by (unfold lp_book; rewrite Hi, Hb; by eapply book_pre_tick).
  dcase H.
  { apply bind_Ok_inv in H as (? & _ & H). apply bind_Ok_inv in H as (l2 & H2 & [= <-]).
    pose proof (lp_continue _ _ _ B1 H2) as B2. exact B2. }
  apply bind_Ok_inv in H as (l2 & H2 & [= <-]). enough (B2 : lp_book cbs l2) by exact B2.
  destruct u as [i|]; [by eapply lp_issue_owned|]. apply bind_Ok_inv in H2 as ([cand l3] & H3 & H2).
  pose proof (lp_select _ _ _ _ B1 H3) as B3. cbn [fst snd] in H2. destruct cand as [[b i]|].
  - apply bind_Ok_inv in H2 as ([s l4] & H4 & H2). pose proof (lp_cas_sync _ _ _ _ _ _ B3 H4) as B4. cbn [fst snd] in H2.
    destruct s; [by injection H2 as <-|by eapply lp_issue_standard].
  - apply bind_Ok_inv in H2 as ([o l4] & H4 & H2). apply pick_act2_ids in H4 as [Hi4 Hb4]. cbn [fst snd] in H2.
    assert (B4 : lp_book cbs l4) by (unfold lp_book; by rewrite Hi4, Hb4).
    destruct o as [i|]; [by eapply lp_issue_owned|by injection H2 as <-].
Qed.

(** ** The interface *)
Class BookController (A : Type) `{IController A} := {
  elsewhere : A -> list rid;
  elsewhere_set_base : forall a c, elsewhere (set_base a c) = elsewhere a;
  tick_book : forall cbs a a', book cbs (elsewhere a) (base a) -> ctl_tick a = Ok a' ->
    book cbs (elsewhere a') (base a')
}.

#[local] Strategy opaque [GenericDDR_tick HBM_tick HBM34_tick LPDDR5_tick].

Definition nowhere {A : Type} (_ : A) : list rid := [].

#[export, refine] Instance GenericDDR_book : BookController GenericDDRController := { elsewhere := nowhere }.
Proof.
  - done.
  - intros cbs a a' B H. unfold ctl_tick, GenericDDR_controller, GenericDDRController_tick in H.
    apply fmap_Ok_inv in H as (c & H & <-). by eapply book_GenericDDR.
Defined.

#[export, refine] Instance HBM12_book : BookController HBM12Controller := { elsewhere := nowhere }.
Proof.
  - done.
  - intros cbs a a' B H. unfold ctl_tick, HBM12_controller, HBM12Controller_tick in H.
    apply fmap_Ok_inv in H as (c & H & <-). by eapply book_HBM.
Defined.

#[export, refine] Instance HBM34_book : BookController HBM34Controller := { elsewhere := nowhere }.
Proof.
  - done.
  - intros cbs a a' B H. exact (book_HBM34 cbs [] a a' B H).
Defined.

#[export, refine] Instance LPDDR5_book : BookController LPDDR5Controller := { elsewhere := activating_ids }.
Proof.
  - done.
  - intros cbs a a' B H. exact (book_LPDDR5 cbs a a' B H).
Defined.

Section Conservation.
Context {A : Type} `{BookController A}.

(** Calls of a memory system and of the maintenance components, with the
    requests that [send] has accepted. *)
Inductive served (a0 : A) : list Request -> A -> Prop :=
| served_refl : served a0 [] a0
| served_send acc a req ok req' a' :
    served a0 acc a -> ctl_send a req = Ok (ok, req', a') -> served a0 (if ok then req :: acc else acc) a'
| served_maintenance acc a av cmd ok a' :
    served a0 acc a -> ctl_priority_send a (Request_cmd av cmd) = Ok (ok, a') -> served a0 acc a'
| served_tick acc a a' : served a0 acc a -> ctl_tick a = Ok a' -> served a0 acc a'.

(** A controller that holds nothing yet. *)
Definition idle (a : A) : Prop :=
  (forall b, buffer (get_buf (base a) b) = [] /\ 0 <= max_size (get_buf (base a) b)) /\
  c_pending (base a) = [] /\ c_done (base a) = [] /\ c_stats (base a) = zero_counters /\
  c_buffered_write_addrs (base a) = ∅ /\ elsewhere a = [].

Lemma idle_book (a : A) : idle a -> book [] (elsewhere a) (base a).
Proof.
  intros (Hb & Hp & Hd & Hs & Ha & He). destruct (Hb Bactive) as [H1 _], (Hb Bpriority) as [H2 _], (Hb Bread) as [H3 _],
    (Hb Bwrite) as [H4 _]. cbn in H1, H2, H3, H4. unfold pool, ids.
  split; [|split].
  - rewrite Hp, Hd, Hs. unfold pool, ids. by rewrite H1, H2, H3, H4, He.
  - unfold ids. by rewrite H4, Ha.
  - unfold ids. rewrite H4. constructor.
  - intros b. destruct (Hb b) as [Hb1 Hb2]. unfold buf_ok, buf_size. by rewrite Hb1.
Qed.

Lemma served_book (a0 : A) acc a :
  idle a0 -> served a0 acc a -> book (omap callback acc) (elsewhere a) (base a).
Proof.
  intros Hi. induction 1 as [|acc a req ok req' a' _ IH Hs|acc a av cmd ok a' _ IH Hs|acc a a' _ IH Ht];
    [by apply idle_book|..].
  - unfold ctl_send in Hs. apply bind_Ok_inv in Hs as ([[k r] c] & Hs & [= <- <- <-]).
    rewrite base_set_base, elsewhere_set_base. pose proof (book_send _ _ _ IH _ _ _ _ Hs) as B.
    destruct k; [|done]. replace (omap callback (req :: acc)) with (cb_list req ++ omap callback acc); [done|].
    cbn. unfold cb_list. by destruct (callback req).
  - unfold ctl_priority_send in Hs. apply bind_Ok_inv in Hs as ([k c] & Hs & [= <- <-]).
    rewrite base_set_base, elsewhere_set_base. by eapply book_priority_send in Hs.
  - by eapply tick_book.
Qed.

(** C5: No response is lost or duplicated: for every controller class and every
    interleaving of calls, the callbacks of the accepted requests are, as a multiset,
    those of the requests still buffered, those of the pending reads and those already
    called; once everything has drained, exactly the accepted callbacks have been
    called. This covers forwarded reads, coalesced writes and promoted requests. *)
Theorem callbacks_exactly_once (a0 : A) acc a :
  idle a0 -> served a0 acc a ->
  omap id_callback (pool (elsewhere a) (base a)) ++ omap callback (c_pending (base a)) ++
    omap callback (c_done (base a)) ≡ₚ omap callback acc /\
  (pool (elsewhere a) (base a) = [] -> c_pending (base a) = [] ->
     omap callback (c_done (base a)) ≡ₚ omap callback acc).
Proof.
  intros Hi Hs. pose proof (ac_callbacks _ _ _ _ _ (bk_accounts _ _ _ (served_book _ _ _ Hi Hs))) as Hc.
  split; [done|]. intros Hp Hq. by rewrite Hp, Hq in Hc.
Qed.

(** C9: The request counters balance: reads received = forwarded + served + held, writes
    received = coalesced + served + held, maintenance requests received = served + held,
    for every controller class. *)
Theorem request_counters_balance (a0 : A) acc a :
  idle a0 -> served a0 acc a ->
  let st := c_stats (base a) in
  let held t := of_type t (pool (elsewhere a) (base a)) in
  st s_num_read_reqs = st s_num_read_reqs_forwarded + st s_num_read_reqs_served + held Type_Read /\
  st s_num_write_reqs = st s_num_write_reqs_coalesced + st s_num_write_reqs_served + held Type_Write /\
  st s_num_maintenance_reqs = st s_num_maintenance_reqs_served + held (-1).
Proof. intros Hi Hs. by destruct (bk_accounts _ _ _ (served_book _ _ _ Hi Hs)). Qed.

(** C8: m_buffered_write_addrs is exactly the set of addresses in the write buffer,
    which holds at most one write per address, and no buffer exceeds its size. In
    consequence, whenever a send returns: a read is forwarded (accepted, appended to the
    pending reads with the next cycle as departure, no buffer changed) exactly when a
    write to its address is buffered, and a write is coalesced (accepted without a
    change of the write buffer) exactly when a write to its address is buffered. *)
Theorem write_forwarding_set_exact (a0 : A) acc a :
  idle a0 -> served a0 acc a ->
  (forall x, x ∈ c_buffered_write_addrs (base a) <-> exists r, r ∈ buffer (c_write_buffer (base a)) /\ addr r = x) /\
  NoDup (map addr (buffer (c_write_buffer (base a)))) /\
  (forall b, buf_size (get_buf (base a) b) <= max_size (get_buf (base a) b)) /\
  (forall req ok req' a', ctl_send a req = Ok (ok, req', a') ->
     let buffered := exists r, r ∈ buffer (c_write_buffer (base a)) /\ addr r = addr req in
     (type_id req = Type_Read -> buffered <-> forwarded (base a) (base a') ok req') /\
     (type_id req = Type_Write -> buffered <-> coalesced (base a) (base a') ok)).
Proof.
  intros Hi Hs. destruct (bk_bufs _ _ _ (served_book _ _ _ Hi Hs)) as [B1 B2 B3].
  assert (Hm : map id_addr (ids (c_write_buffer (base a))) = map addr (buffer (c_write_buffer (base a))))
    by (unfold ids; by rewrite map_map).
  rewrite Hm in B1, B2.
  assert (Hset : forall x, x ∈ c_buffered_write_addrs (base a) <-> exists r, r ∈ buffer (c_write_buffer (base a)) /\ addr r = x).
  { intros x. rewrite B1, elem_of_list_to_set, list_elem_of_fmap. split; intros (r & ? & ?); eauto. }
  split_and!; [done|done|done|]. intros req ok req' a' Hsend. cbv zeta. rewrite <- Hset.
  unfold ctl_send in Hsend. apply bind_Ok_inv in Hsend as ([[k r] c'] & Hc & [= <- <- <-]). rewrite base_set_base.
  exact (send_lookup _ _ _ _ _ Hc).
Qed.
End Conservation.
