(* ===== verification/ServeFrame.v ===== *)
(** * ServeFrame: what the shared controller code leaves alone

    [calm] relates two states of a controller that hold the same requests (up
    to the command under consideration), the same pending reads, per-bank
    counts, watermarks and row policy; the lemmas say which operations of the
    shared scheduling and serving code are calm and what the others change. *)
From stdpp Require Import prelude gmap strings.
From S2P Require Import Prelude DramSpec Commands Standards Node NodeTiming NodeTree Device DeviceInv DeviceProps BankSafety BankProgress IssueSafety Request BitUtils AddrMapper Float32 ControllerState Controller Scheduler Refresh NodeAddr HbmRefresh RowPolicy ControllerInit GenericDdr ControllerSafety Hbm Lpddr5 Controllers ControllerTrace ServeSafety TickSafety Bookkeeping.
Open Scope Z_scope.

(** What a request wants and where. *)
Definition key (r : Request) : AddrVec_t * Z := (addr_vec r, final_command r).
Definition keys (b : ReqBuffer) : list (AddrVec_t * Z) := map key (buffer b).

(** The watermarks, which nothing writes after construction. *)
Definition marks (c : ControllerBase) : f32 * f32 := (c_wr_low_watermark c, c_wr_high_watermark c).

Record calm (c c' : ControllerBase) : Prop := {
  cm_keys : forall b, keys (get_buf c' b) = keys (get_buf c b);
  cm_max : forall b, max_size (get_buf c' b) = max_size (get_buf c b);
  cm_count : c_active_per_bank c' = c_active_per_bank c;
  cm_policy : c_rowpolicy c' = c_rowpolicy c;
  cm_pending : c_pending c' = c_pending c;
  cm_refresh : c_refresh c' = c_refresh c;
  cm_marks : marks c' = marks c
}.

#[export] Instance calm_preorder : PreOrder calm.
Proof.
  split; [by intros c|]. intros x y z [A1 A2 A3 A4 A5 A6 A7] [B1 B2 B3 B4 B5 B6 B7].
  split; intros; [rewrite B1, A1|rewrite B2, A2|congruence..]; done.
Qed.

Lemma calm_set_buf c b v : keys v = keys (get_buf c b) -> max_size v = max_size (get_buf c b) -> calm c (set_buf c b v).
Proof. intros Hk Hm. split; try (by destruct b); intros b'; destruct b, b'; cbn in *; done. Qed.

Lemma keys_modify b i f : (forall r, key (f r) = key r) -> keys (modify_at b i f) = keys b.
Proof.
  intros Hf. unfold keys, modify_at. cbn. apply list_eq. intros k. rewrite !list_lookup_fmap.
  destruct (decide (k = i)) as [->|Hne]; [|by rewrite list_lookup_alter_ne].
  rewrite list_lookup_alter_eq. destruct (buffer b !! i); cbn; [by rewrite Hf|done].
Qed.

Lemma keys_lookup b b' i r : keys b' = keys b -> buffer b' !! i = Some r -> exists r0, buffer b !! i = Some r0 /\ key r0 = key r.
Proof.
  intros Hk Hr. apply (f_equal (fun l => l !! i)) in Hk. unfold keys in Hk. rewrite !list_lookup_fmap, Hr in Hk. cbn in Hk.
  destruct (buffer b !! i) as [r0|]; [|done]. exists r0. split; [done|]. symmetry. by apply Some_inj.
Qed.

Lemma keys_elem b b' r : keys b' = keys b -> r ∈ buffer b' -> exists r0, r0 ∈ buffer b /\ key r0 = key r.
Proof.
  intros Hk Hr. apply list_elem_of_lookup in Hr as [i Hi]. destruct (keys_lookup b b' i r Hk Hi) as (r0 & H0 & E).
  exists r0. split; [by eapply list_elem_of_lookup_2|done].
Qed.

(** ** Calm operations *)
Lemma frfcfs_keys c f b p : get_best_request c b f = Ok p -> keys p.2 = keys b /\ max_size p.2 = max_size b.
Proof.
  unfold get_best_request. intros H. apply bind_Ok_inv in H as (st & Hst & H). injection H as <-. cbn. split; [|done].
  refine (foldM_inv (fun st => map key (fr_buffer st) = keys b) _ _ _ _ _ _ Hst); [|done].
  intros it a a' _ Ha Hs. unfold frfcfs_step in Hs. apply bind_Ok_inv in Hs as (r & Hr & Hs).
  apply bind_Ok_inv in Hs as (cmd & _ & Hs). cbn zeta in Hs. apply bind_Ok_inv in Hs as (ok & _ & Hs).
  assert (Hl : map key (<[it := set_command r cmd]> (fr_buffer a)) = keys b).
  { rewrite <- Ha. etrans; [apply (list_fmap_insert key)|]. apply list_insert_id. rewrite list_lookup_fmap.
    destruct (fr_buffer a !! it) as [y|]; [injection Hr as ->; done|discriminate]. }
  dcase Hs; [by injection Hs as <-|]. apply bind_Ok_inv in Hs as (t & _ & Hs).
  repeat case_match; by injection Hs as <-.
Qed.

Lemma calm_write_mode c : calm c (set_write_mode c).
Proof. unfold set_write_mode. cbn zeta. repeat case_match; by split. Qed.

Lemma calm_count_row c r c' : count_row_outcome c r = Ok c' -> calm c c'.
Proof.
  unfold count_row_outcome. intros H. repeat (dcase H || (apply bind_Ok_inv in H as (? & _ & H))); injection H as <-; by split.
Qed.

Lemma calm_stats_once c b i c' : stats_once c b i = Ok c' -> calm c c'.
Proof.
  unfold stats_once. intros H. apply bind_Ok_inv in H as (r & _ & H). dcase H; [by injection H as <-|].
  unfold update_request_stats in H. cbn zeta in H. apply bind_Ok_inv in H as (r' & _ & H).
  transitivity (set_buf c b (modify_at (get_buf c b) i (fun r => set_stat_updated r true)));
    [apply calm_set_buf; [by apply keys_modify|done]|by eapply calm_count_row].
Qed.

Lemma issue_frame c cmd av c' : issue c cmd av = Ok c' ->
  calm c c' /\ (forall b, get_buf c' b = get_buf c b) /\ c_clk c' = c_clk c /\
  issue_command (c_device c) cmd av (c_clk c) = Ok (c_device c').
Proof.
  unfold issue. intros H. apply bind_Ok_inv in H as (dev & Hi & H). injection H as <-.
  split; [split; intros; try (by destruct b); done|]. split_and!; [by intros []|done..].
Qed.

(** Under the open row policy the hooks of an issue only touch the plugins. *)
Definition notify (c : ControllerBase) (r : Request) : res ControllerBase :=
  c ← rowpolicy_on_issue c r; plugins_on_issue c r.

Lemma notify_frame c r c' : c_rowpolicy c = OpenRowPolicy -> notify c r = Ok c' ->
  calm c c' /\ quiet c c' /\ (forall b, get_buf c' b = get_buf c b).
Proof.
  intros Hp. unfold notify, rowpolicy_on_issue. rewrite Hp. cbn [mbind res_bind]. intros H.
  split_and!; [|by eapply quiet_plugins_on_issue|].
  - unfold plugins_on_issue in H. inv_res. subst. split; intros; try (by destruct b); done.
  - unfold plugins_on_issue in H. inv_res. subst. by intros [].
Qed.

Lemma issue_candidate_frame c b i c' r : c_rowpolicy c = OpenRowPolicy -> issue_candidate c b i = Ok c' ->
  buffer (get_buf c b) !! i = Some r ->
  calm c c' /\ (forall b, get_buf c' b = get_buf c b) /\ c_clk c' = c_clk c /\
  issue_command (c_device c) (command r) (addr_vec r) (c_clk c) = Ok (c_device c').
Proof.
  intros Hp H Hr. unfold issue_candidate in H. rewrite (request_at_Ok _ _ _ _ Hr) in H. cbn [mbind res_bind] in H.
  apply bind_Ok_inv in H as (c1 & H1 & H). destruct (issue_frame _ _ _ _ H1) as (F1 & F2 & F3 & F4).
  destruct (notify_frame c1 r c') as (G1 & (G2 & _ & G3) & G4); [by rewrite (cm_policy _ _ F1)|done|].
  split_and!; [by etrans|intros b'; by rewrite G4, F2|congruence|]. by rewrite G2.
Qed.

(** ** Choosing *)

(** What the scheduler knows of its candidate. *)
Record chosen (c : ControllerBase) (f : RequestFilter) (b : buf_id) (i : nat) (c' : ControllerBase) (r : Request) : Prop := {
  ch_lookup : buffer (get_buf c' b) !! i = Some r;
  ch_resolved : ctrl_get_preq_command c (final_command r) (addr_vec r) = Ok (command r);
  ch_ready : ctrl_check_timing c (command r) (addr_vec r) = Ok true;
  ch_filter : run_filter f r = Ok true
}.

Lemma frfcfs_chosen c f b o v : get_best_request c b f = Ok (o, v) ->
  (forall j r, buffer v !! j = Some r -> resolved c r) /\
  (forall i, o = Some i -> exists r, buffer v !! i = Some r /\ eligible f r).
Proof.
  intros H. destruct (get_best_visited c f b o v H) as (o' & t & -> & V). split.
  - intros j r Hj. apply (vi_resolved _ _ _ _ _ _ _ V j); [|done]. apply lookup_lt_Some in Hj.
    by rewrite (vi_length _ _ _ _ _ _ _ V) in Hj.
  - intros i Hi. destruct o' as [[j r]|]; [|done]. injection Hi as ->.
    destruct (vi_some _ _ _ _ _ _ _ V i r eq_refl) as (_ & Hr & He & _). eauto.
Qed.

Lemma pick_best_frame c b f p : pick_best_ready_from c b f = Ok p ->
  calm c p.2 /\ quiet c p.2 /\ (forall b' i, p.1 = Some (b', i) -> b' = b /\ exists r, chosen c f b i p.2 r).
Proof.
  unfold pick_best_ready_from. intros H. apply bind_Ok_inv in H as ([o v] & Hq & H). cbn zeta in H. cbn [fst snd] in H.
  destruct (frfcfs_keys _ _ _ _ Hq) as [Hk Hm]. cbn in Hk, Hm.
  assert (Hs : calm c (set_buf c b v)) by (by apply calm_set_buf).
  destruct (frfcfs_chosen c f (get_buf c b) o v Hq) as (Hres & Hsel).
  destruct o as [i|]; [|injection H as <-; split_and!; [done|apply quiet_set_buf|done]].
  destruct (Hsel i eq_refl) as (r0 & Hr0 & Hel). apply bind_Ok_inv in H as (r & Hr & H). apply bind_Ok_inv in H as (ok & Hok & H).
  apply request_at_Some in Hr. rewrite get_set_buf, decide_True in Hr by done. rewrite Hr0 in Hr. injection Hr as ->.
  destruct ok; injection H as <-; cbn [fst snd]; (split_and!; [done|apply quiet_set_buf|]); [|done].
  intros b' i' [= <- <-]. split; [done|]. exists r. split.
  - rewrite get_set_buf, decide_True by done. done.
  - by apply (Hres i).
  - rewrite <- Hok. symmetry. apply check_timing_quiet, quiet_set_buf.
  - done.
Qed.

Lemma pick_priority_frame c f p : pick_priority_if c f = Ok p ->
  calm c p.2 /\ quiet c p.2 /\ (forall b i, p.1 = Some (b, i) ->
    b = Bpriority /\ exists r, chosen c f b i p.2 r /\ would_close_active p.2 r = Ok false).
Proof.
  unfold pick_priority_if. intros H. destruct (buffer (c_priority_buffer c)) as [|r rest] eqn:Eb; [by injection H as <-|].
  apply bind_Ok_inv in H as (cmd & Hcmd & H). cbn zeta in H. set (c1 := with_c_priority_buffer c _) in H.
  assert (Hs : calm c c1) by (apply (calm_set_buf c Bpriority); [by apply keys_modify|done]).
  assert (Hq : quiet c c1) by (by split_and!).
  apply bind_Ok_inv in H as (ok & Hok & H). destruct ok; [|by injection H as <-]. cbn [negb] in H.
  apply bind_Ok_inv in H as (cl & Hcl & H). destruct cl; [by injection H as <-|].
  apply bind_Ok_inv in H as (fb & Hfb & H). destruct fb; [|by injection H as <-]. injection H as <-. cbn [fst snd].
  split_and!; [done..|]. intros b i [= <- <-]. split; [done|]. exists (set_command r cmd). split; [|done]. split; try done.
  - cbn. by rewrite Eb.
Qed.

Lemma would_close_write_mode c r : would_close_active (set_write_mode c) r = would_close_active c r.
Proof.
  assert (H : forall w, would_close_active (with_c_is_write_mode c w) r = would_close_active c r).
  { intros w. assert (Hsc : forall sb av ids, scan_active (with_c_is_write_mode c w) sb av ids = scan_active c sb av ids).
    { intros sb av ids. induction ids as [|i ids IH]; [done|]. cbn [scan_active]. by rewrite IH. }
    unfold would_close_active. change (spec_of (with_c_is_write_mode c w)) with (spec_of c).
    destruct (vget (command_meta (spec_of c)) (command r)) as [m|]; [cbn [mbind res_bind]|done]. destruct (negb _); [done|]. cbn [c_active_buffer with_c_is_write_mode].
    destruct (_ =? 0); [done|]. destruct (vget (bank_targets (spec_of c)) (command r)) as [t|]; [cbn [mbind res_bind]|done]. destruct (decide _); [done|]. apply Hsc. }
  unfold set_write_mode. repeat case_match; done.
Qed.

Lemma pick_rw_frame c f p : pick_rw_if c f = Ok p ->
  calm c p.2 /\ quiet c p.2 /\ (forall b i, p.1 = Some (b, i) ->
    (b = Bread \/ b = Bwrite) /\ exists r, chosen c f b i p.2 r /\ would_close_active c r = Ok false).
Proof.
  unfold pick_rw_if. cbn zeta. intros H. pose proof (calm_write_mode c) as Hc. pose proof (quiet_set_write_mode c) as Hq.
  destruct (pick_best_frame _ _ _ _ H) as (H1 & H2 & H3). split; [by etrans|]. split; [by etrans|]. intros b i Hi.
  destruct (H3 b i Hi) as (-> & r & [K1 K2 K3 K4]). split; [case_match; auto|]. exists r. cbn in K4.
  apply bind_Ok_inv in K4 as (cl & Hcl & K4). destruct cl; [discriminate|].
  split; [|by rewrite <- would_close_write_mode]. split; [done| |by rewrite <- (check_timing_quiet _ _ _ _ Hq)|done].
  unfold ctrl_get_preq_command in *. destruct Hq as (Hd & _ & Hk). by rewrite Hd, Hk in K2.
Qed.

(** ** Before scheduling *)

(** The hooks only append requests of kind [F] to the priority buffer. *)
Record fed (F : Request -> Prop) (c c' : ControllerBase) : Prop := {
  fd_bufs : forall b, b <> Bpriority -> get_buf c' b = get_buf c b;
  fd_count : c_active_per_bank c' = c_active_per_bank c;
  fd_policy : c_rowpolicy c' = c_rowpolicy c;
  fd_marks : marks c' = marks c;
  fd_room : max_size (c_priority_buffer c') = max_size (c_priority_buffer c);
  fd_prio : exists l, buffer (c_priority_buffer c') = buffer (c_priority_buffer c) ++ l /\ Forall F l
}.

#[export] Instance fed_preorder F : PreOrder (fed F).
Proof.
  split; [intros c; split; try done; exists []; by rewrite app_nil_r|].
  intros x y z [A1 A2 A3 Am Ar (l & A4 & A5)] [B1 B2 B3 Bm Br (k & B4 & B5)]. split; [intros b Hb; rewrite B1, A1 by done; done|congruence..|].
  exists (l ++ k). rewrite B4, A4, app_assoc. split; [done|]. by apply Forall_app.
Qed.

Lemma fed_same F c c' : (forall b, get_buf c' b = get_buf c b) -> c_active_per_bank c' = c_active_per_bank c ->
  c_rowpolicy c' = c_rowpolicy c -> marks c' = marks c -> fed F c c'.
Proof.
  intros Hb H1 H2 H3. pose proof (Hb Bpriority : c_priority_buffer c' = _) as Hp. split; auto; [by rewrite Hp|].
  exists []. by rewrite app_nil_r, Hp.
Qed.

Lemma fed_priority_send (F : Request -> Prop) c r ok c' : F r -> ctrl_priority_send c r = Ok (ok, c') -> fed F c c'.
Proof.
  intros HF H. unfold ctrl_priority_send in H. dcase H; [discriminate|]. destruct (enqueue _ _) as [k b] eqn:He.
  pose proof (enqueue_inv _ _ _ _ He) as Hi.
  assert (Hf : fed F c (with_c_priority_buffer c b)).
  { split; [by intros []|done..| |]; cbn.
    - destruct k; [by destruct Hi as [-> _]|by subst b].
    - destruct k; [destruct Hi as [-> _]; exists [r]; split; [done|by apply Forall_singleton]|].
      subst b. exists []. by rewrite app_nil_r. }
  dcase H; injection H as <- <-; [|done]. etrans; [exact Hf|]. by apply fed_same; [intros []|..].
Qed.

Lemma fed_send_refresh (F : Request -> Prop) cmd what c p c' :
  (forall av, F (Request_cmd av cmd)) -> send_refresh cmd what c p = Ok c' -> fed F c c'.
Proof.
  intros HF H. unfold send_refresh in H. apply bind_Ok_inv in H as (av & _ & ([k c1] & H1 & H)%bind_Ok_inv).
  dcase H; [|discriminate]. injection H as <-. by eapply fed_priority_send in H1.
Qed.

Lemma fed_refresh F c r : fed F c (with_c_refresh c r).
Proof. by apply fed_same; [intros []|..]. Qed.

Lemma fed_service (F : Request -> Prop) r c v r' c' :
  (forall av, F (Request_cmd av (h_cmd_refpb r))) -> service_pending_refpb r c = Ok (v, r', c') ->
  fed F c c' /\ h_cmd_refpb r' = h_cmd_refpb r.
Proof.
  intros HF H. unfold service_pending_refpb in H. destruct (h_pending_refpbs r); [by injection H as <- <- <-|].
  apply bind_Ok_inv in H as (av & _ & ([ok c1] & H1 & H)%bind_Ok_inv). apply (fed_priority_send F) in H1; [|done].
  dcase H; inv_res; subst; done.
Qed.

Lemma seed_cmd clk r b r' : seed_pending_refpbs clk r = Ok (b, r') -> h_cmd_refpb r' = h_cmd_refpb r.
Proof.
  unfold seed_pending_refpbs. intros (bl & _ & H)%bind_Ok_inv. destruct bl; [by injection H as <- <-|].
  apply bind_Ok_inv in H as (l & _ & [= <- <-]). unfold advance_logical_cursor. by case_match.
Qed.

(** The command a refresh manager asks for. *)
Definition manager_cmd (m : RefreshManager) : option Z :=
  match m with
  | NoRefresh => None
  | AllBank r => Some (ab_cmd_refab r)
  | PerBank r => Some (pb_cmd_refpb r)
  | HBM34PerBank r => Some (h_cmd_refpb r)
  end.

Lemma fed_refresh_tick (F : Request -> Prop) c c' :
  (forall cmd av, manager_cmd (c_refresh c) = Some cmd -> F (Request_cmd av cmd)) -> refresh_tick c = Ok c' -> fed F c c'.
Proof.
  intros HF H. unfold refresh_tick in H. destruct (c_refresh c) as [|r|r|r]; cbn in HF.
  - by injection H as <-.
  - unfold AllBankRefresh_tick in H. dcase H; [|by injection H as <-]. cbn zeta in H.
    refine (foldM_inv (fed F c) _ _ _ _ _ _ H); [|apply fed_refresh].
    intros n a b _ Ha Hb. etrans; [exact Ha|]. eapply fed_send_refresh; [|exact Hb]. intros av. by apply HF.
  - unfold PerBankRefresh_tick in H. dcase H; [|by injection H as <-]. apply bind_Ok_inv in H as (n & _ & (c1 & H1 & [= <-])%bind_Ok_inv).
    etrans; [|apply fed_refresh]. eapply fed_send_refresh; [|exact H1]. intros av. by apply HF.
  - unfold HBM34PerBankRefresh_tick in H. apply bind_Ok_inv in H as ([[b r1] c1] & H1 & H).
    destruct (fed_service F _ _ _ _ _ (fun av => HF _ av eq_refl) H1) as [F1 E1].
    assert (Hw : forall m, fed F c (with_c_refresh c1 m)) by (intros; etrans; [exact F1|apply fed_refresh]).
    dcase H; [by injection H as <-|]. dcase H; [by injection H as <-|].
    apply bind_Ok_inv in H as ([b2 r2] & Hsd & H). dcase H; [by injection H as <-|]. apply seed_cmd in Hsd. cbn in H.
    apply bind_Ok_inv in H as ([[b3 r3] c3] & H3 & [= <-]).
    destruct (fed_service F r2 c1 _ _ _ ltac:(intros av; rewrite Hsd, E1; by apply HF) H3) as [F3 _].
    etrans; [exact F1|]. etrans; [exact F3|apply fed_refresh].
Qed.

Lemma prologue_bufs c b : get_buf (tick_prologue c) b = get_buf c b /\
  c_active_per_bank (tick_prologue c) = c_active_per_bank c /\ c_rowpolicy (tick_prologue c) = c_rowpolicy c /\
  marks (tick_prologue c) = marks c.
Proof.
  unfold tick_prologue, serve_completed_reads. set (c1 := count_stat _ _ _).
  assert (H : forall l c0, get_buf (drain c0 l) b = get_buf c0 b /\ c_active_per_bank (drain c0 l) = c_active_per_bank c0 /\
    c_rowpolicy (drain c0 l) = c_rowpolicy c0 /\ marks (drain c0 l) = marks c0).
  { intros l. induction l as [|r l IH]; intros c0; cbn [drain]; [by destruct b|]. case_match; [by destruct b|].
    destruct (IH (call_back (count_stat c0 s_read_latency (depart r - arrive r)) r)) as (-> & -> & -> & ->).
    unfold call_back. destruct (callback r); by destruct b. }
  destruct (H (c_pending c1) c1) as (-> & -> & -> & ->). by destruct b.
Qed.

Lemma fed_prologue F c : fed F c (tick_prologue c).
Proof.
  pose proof (prologue_bufs c) as H. revert H. generalize (tick_prologue c). intros c0 H.
  apply fed_same; [intros b; by destruct (H b)|apply (H Bread)..].
Qed.

Lemma fed_plugins_pre F c : fed F c (plugins_pre_schedule c).
Proof. by apply fed_same; [intros []|..]. Qed.

Lemma rowpolicy_pre_open c : c_rowpolicy c = OpenRowPolicy -> rowpolicy_pre_schedule c = Ok c.
Proof. unfold rowpolicy_pre_schedule. by intros ->. Qed.

Lemma fed_pre_tick_from (F : Request -> Prop) c0 c c' : fed F c0 c -> c_rowpolicy c0 = OpenRowPolicy ->
  (forall cmd av, manager_cmd (c_refresh c) = Some cmd -> F (Request_cmd av cmd)) ->
  (c1 ← refresh_tick c; c2 ← rowpolicy_pre_schedule c1; Ok (plugins_pre_schedule c2)) = Ok c' -> fed F c0 c'.
Proof.
  intros H0 Hp HF (c1 & H1 & H)%bind_Ok_inv. apply (fed_refresh_tick F) in H1; [|done].
  assert (H01 : fed F c0 c1) by (by transitivity c).
  rewrite (rowpolicy_pre_open c1) in H by (by rewrite (fd_policy _ _ _ H01)). cbn [mbind res_bind] in H.
  injection H as <-. transitivity c1; [done|]. apply fed_plugins_pre.
Qed.

Lemma fed_pre_tick (F : Request -> Prop) c c' : c_rowpolicy c = OpenRowPolicy ->
  (forall cmd av, manager_cmd (c_refresh c) = Some cmd -> F (Request_cmd av cmd)) -> pre_tick c = Ok c' -> fed F c c'.
Proof.
  intros Hp HF. unfold pre_tick. intros H.
  apply (fed_pre_tick_from F c (tick_prologue c) c' (fed_prologue F c) Hp); [|exact H]. intros cmd av. rewrite (proj2 (prologue_refresh c)). apply HF.
Qed.

(** ** Retiring and promoting *)
Lemma retire_frame c b i r c' : buffer (get_buf c b) !! i = Some r -> retire_request c b i = Ok c' ->
  (forall b', get_buf c' b' = if decide (b' = b) then remove (get_buf c b) i else get_buf c b') /\
  quiet c c' /\ c_rowpolicy c' = c_rowpolicy c /\
  (if decide (b = Bactive) then exists k, get_flat_bank_id (c_device c) (addr_vec r) = Ok k /\
     vadd (c_active_per_bank c) k (-1) = Ok (c_active_per_bank c')
   else c_active_per_bank c' = c_active_per_bank c).
Proof.
  intros Hr H. split_and!; [|by eapply quiet_retire|..]; unfold retire_request in H; rewrite (request_at_Ok _ _ _ _ Hr) in H;
    cbn [mbind res_bind] in H; apply bind_Ok_inv in H as (c1 & H1 & [= <-]).
  - assert (F1 : forall b, get_buf c1 b = get_buf c b).
    { destruct (decide _); [by apply active_add_frame in H1 as (? & _)|by injection H1 as <-]. }
    intros b'. rewrite get_set_buf, !(proj1 (framed_complete (forget_write c1 b r) r)), !forget_write_bufs, !F1. done.
  - assert (F2 : c_rowpolicy c1 = c_rowpolicy c).
    { destruct (decide _); [unfold active_add in H1; inv_res; by subst|by injection H1 as <-]. }
    transitivity (c_rowpolicy c1); [|done]. unfold complete, call_back, forget_write. repeat case_match; by destruct b.
  - assert (F3 : forall x, c_active_per_bank (set_buf (complete (forget_write c1 b r) r) b x) = c_active_per_bank c1).
    { intros x. unfold complete, call_back, forget_write. repeat case_match; by destruct b. }
    rewrite F3. destruct (decide (b = Bactive)); [|by injection H1 as <-].
    unfold active_add in H1. apply bind_Ok_inv in H1 as (k & Hk & (l & Hl & [= <-])%bind_Ok_inv). by exists k.
Qed.

Lemma promote_frame c r c' : promote c r = Ok (true, c') ->
  (forall b, get_buf c' b = if decide (b = Bactive) then mkBuf (buffer (c_active_buffer c) ++ [r]) (max_size (c_active_buffer c)) else get_buf c b) /\
  quiet c c' /\ c_rowpolicy c' = c_rowpolicy c /\
  exists k, get_flat_bank_id (c_device c) (addr_vec r) = Ok k /\ vadd (c_active_per_bank c) k 1 = Ok (c_active_per_bank c').
Proof.
  intros H. split_and!; [|by apply (quiet_promote c r (true, c'))|..]; unfold promote in H; destruct (enqueue _ _) as [k ab] eqn:He;
    pose proof (enqueue_inv _ _ _ _ He) as Hi; (destruct k; [|discriminate]); destruct Hi as [-> _];
    apply bind_Ok_inv in H as (c1 & H1 & [= <-]); unfold active_add in H1; apply bind_Ok_inv in H1 as (i & Hf & (l & Hl & [= <-])%bind_Ok_inv).
  - by intros [].
  - done.
  - by exists i.
Qed.
