(* ===== verification/ActiveInv.v ===== *)
(** * ActiveInv: the buffers of a controller with the open row policy

    A controller with the open row policy moves a request to the active
    buffer when it opens the request's row, and refuses every command that
    would close the bank of an active request.  [act_bufs] is what this
    maintains: an active request finds its row open, no two of them share a
    bank, and the count per bank is exact.  The lemmas say which operations
    keep it; they hold for every standard and serve the GenericDDR and the
    LPDDR5 controller. *)
From Stdlib Require Import Sorted.
From stdpp Require Import prelude gmap strings.
From S2P Require Import Prelude DramSpec Commands Standards Node NodeTiming NodeTree Device DeviceInv DeviceProps BankSafety BankProgress IssueSafety Request BitUtils AddrMapper Float32 ControllerState Controller Refresh NodeAddr HbmRefresh RowPolicy ControllerInit GenericDdr ControllerSafety Hbm Lpddr5 Controllers ControllerTrace ServeSafety TickSafety Bookkeeping ServeFrame.
Open Scope Z_scope.

Local Abbreviation total := (fun _ : err => False).

(** ** Keys of buffers *)
Lemma keys_remove b i : keys (remove b i) = delete i (keys b).
Proof. apply (list_fmap_delete key). Qed.

Lemma key_in_keys b i r : buffer b !! i = Some r -> key r ∈ keys b.
Proof. intros H. apply (list_elem_of_fmap_2 key). by eapply list_elem_of_lookup_2. Qed.

Lemma vadd_lookup (l l' : list Z) (i : nat) v : vadd l (Z.of_nat i) v = Ok l' ->
  forall j, l' !! j = if decide (j = i) then (fun x => x + v) <$> l !! j else l !! j.
Proof.
  unfold vadd. intros (x & Hx & H)%bind_Ok_inv. apply vget_nat in Hx. apply vset_Ok in H as [Hi ->]. rewrite Nat2Z.id.
  intros j. case_decide as E; [subst j; rewrite list_lookup_insert_eq by lia; by rewrite Hx|by rewrite list_lookup_insert_ne].
Qed.

Lemma promote_room c r p : buf_size (c_active_buffer c) < max_size (c_active_buffer c) -> promote c r = Ok p -> p.1 = true.
Proof.
  intros Hlt. unfold promote, enqueue. rewrite (proj2 (Z.ltb_lt _ _) Hlt). by intros (c1 & _ & [= <-])%bind_Ok_inv.
Qed.

(** Under the open row policy nothing is upgraded. *)
Lemma set_buf_id c b v : v = get_buf c b -> set_buf c b v = c.
Proof. intros ->. destruct c, b; done. Qed.

Lemma upgrade_open c b i r : c_rowpolicy c = OpenRowPolicy -> buffer (get_buf c b) !! i = Some r -> upgrade_candidate c b i = Ok c.
Proof.
  intros Hp Hr. unfold upgrade_candidate, rowpolicy_try_upgrade_command. rewrite (request_at_Ok _ _ _ _ Hr), Hp. cbn [mbind res_bind].
  f_equal. apply set_buf_id. unfold modify_at. destruct (get_buf c b) as [l m] eqn:Eb. cbn in *. f_equal.
  apply list_eq. intros j. destruct (decide (j = i)) as [->|]; [by rewrite list_lookup_alter_eq, Hr|by rewrite list_lookup_alter_ne].
Qed.

Lemma scan_active_false c av ids : scan_active c false av ids = Ok false ->
  forall i, i ∈ ids -> exists n, vget (c_active_per_bank c) i = Ok n /\ (n = 0 \/ bank_matches (c_device c) i av = Ok false).
Proof.
  induction ids as [|j ids IH]; intros H i Hi; [by apply not_elem_of_nil in Hi|]. cbn [scan_active] in H.
  apply bind_Ok_inv in H as (n & Hn & H). apply elem_of_cons in Hi. destruct (Z.eqb_spec n 0) as [E|E].
  { destruct Hi as [->|Hi]; [exists n; auto|by apply IH]. }
  cbn [mbind res_bind] in H. apply bind_Ok_inv in H as (m & Hm & H). destruct m; [discriminate|].
  destruct Hi as [->|Hi]; [exists n; auto|by apply IH].
Qed.

(** ** What a send changes *)
Definition arriving (s : DRAMSpec) (x : Request) : Prop :=
  (type_id x = Type_Read \/ type_id x = Type_Write) /\ vget (supported_requests s) (type_id x) = Ok (final_command x).

Record appended (c c' : ControllerBase) : Prop := {
  ap_active : c_active_buffer c' = c_active_buffer c;
  ap_prio : c_priority_buffer c' = c_priority_buffer c;
  ap_count : c_active_per_bank c' = c_active_per_bank c;
  ap_policy : c_rowpolicy c' = c_rowpolicy c;
  ap_refresh : c_refresh c' = c_refresh c;
  ap_marks : marks c' = marks c;
  ap_pending : exists l, c_pending c' = c_pending c ++ l /\ Forall (fun r => depart r = c_clk c + 1) l;
  ap_rw : forall b, exists ks, get_buf c' b = mkBuf (buffer (get_buf c b) ++ ks) (max_size (get_buf c b)) /\ Forall (arriving (spec_of c)) ks
}.

Lemma buf_eta b : mkBuf (buffer b ++ []) (max_size b) = b.
Proof. rewrite app_nil_r. by destruct b. Qed.

Lemma appended_same c c' l : (forall b, get_buf c' b = get_buf c b) -> c_active_per_bank c' = c_active_per_bank c ->
  c_rowpolicy c' = c_rowpolicy c -> c_refresh c' = c_refresh c -> marks c' = marks c ->
  c_pending c' = c_pending c ++ l -> Forall (fun r => depart r = c_clk c + 1) l -> appended c c'.
Proof.
  intros H1 H2 H3 H4 H5 H6 H7. split; [apply (H1 Bactive)|apply (H1 Bpriority)|done..|by exists l|]. intros b. exists []. by rewrite buf_eta, H1.
Qed.

Lemma appended_enqueue c b r ok v : b = Bread \/ b = Bwrite -> arriving (spec_of c) r -> enqueue (get_buf c b) r = (ok, v) ->
  appended c (set_buf c b v).
Proof.
  intros Hb Hr He. pose proof (enqueue_inv _ _ _ _ He) as Hi.
  assert (Hv : exists ks, v = mkBuf (buffer (get_buf c b) ++ ks) (max_size (get_buf c b)) /\ Forall (arriving (spec_of c)) ks).
  { destruct ok; [destruct Hi as [-> _]; exists [r]; split; [done|by apply Forall_singleton]|subst v; exists []; by rewrite buf_eta]. }
  split; try (by destruct Hb as [-> | ->]); [exists []; rewrite app_nil_r; by destruct Hb as [-> | ->]|].
  intros b'. rewrite get_set_buf. destruct (decide (b' = b)) as [->|]; [done|]. exists []. by rewrite buf_eta.
Qed.

Lemma appended_then c c' c'' : appended c c' -> (forall b, get_buf c'' b = get_buf c' b) -> c_active_per_bank c'' = c_active_per_bank c' ->
  c_rowpolicy c'' = c_rowpolicy c' -> c_refresh c'' = c_refresh c' -> marks c'' = marks c' -> c_pending c'' = c_pending c' -> appended c c''.
Proof.
  intros [A1 A2 A3 A4 A5 A6 A7 A8] H1 H2 H3 H4 H5 H6. split; rewrite ?H4, ?H5, ?H6; try done; [rewrite <- A1; apply (H1 Bactive)|rewrite <- A2; apply (H1 Bpriority)|congruence..|].
  intros b. rewrite H1. apply A8.
Qed.

Lemma send_appended c req ok r c' : ctrl_send c req = Ok (ok, r, c') -> appended c c'.
Proof.
  unfold ctrl_send. intros (r1 & _ & (av & _ & H)%bind_Ok_inv)%bind_Ok_inv. cbn zeta in H. apply bind_Ok_inv in H as (fc & Hfc & H).
  set (r2 := set_final_command _ fc) in H.
  assert (Harr : type_id r2 = Type_Read \/ type_id r2 = Type_Write -> forall t, arriving (spec_of c) (set_arrive r2 t)).
  { intros Ht t. split; [done|exact Hfc]. }
  change (type_id (set_arrive r2 (c_clk c))) with (type_id r2) in H. clearbody r2.
  dcase H; [injection H as <- <- <-; eapply appended_same; [by intros []|done..|by apply Forall_singleton]|]. dcase H.
  { destruct (enqueue _ _) as [k b] eqn:He. pose proof (appended_enqueue c Bread _ k b (or_introl eq_refl) (Harr (or_introl (proj1 (Z.eqb_eq _ _) Ec0)) _) He) as Ha.
    dcase H; injection H as <- <- <-; eapply appended_then; try exact Ha; try done; by intros []. }
  dcase H; [|discriminate]. dcase H.
  { injection H as <- <- <-. unfold call_back. destruct (callback _); (eapply (appended_same _ _ []); [by intros []|done..|by rewrite app_nil_r|done]). }
  destruct (enqueue _ _) as [k b] eqn:He. pose proof (appended_enqueue c Bwrite _ k b (or_intror eq_refl) (Harr (or_intror (proj1 (Z.eqb_eq _ _) Ec1)) _) He) as Ha.
  dcase H; injection H as <- <- <-; eapply appended_then; try exact Ha; try done; by intros [].
Qed.

Section Active.
Context (d : standard) (cfg : dram_config) (s : DRAMSpec).
Context (Hin : In d all_standards) (Hcon : construct d cfg = Ok s) (Hs : spec_ok s).
Local Abbreviation T := (std_traits d).

(** ** Requests and banks *)
Definition banks : list (list nat) := all_paths (bank_sizes d s).

Definition rw_names : list string := ["RD"; "WR"].
Definition maint_names : list string := ["PREpb"; "PREab"; "REFab"; "REFpb"].

(** A request, by its address and the command it wants: a read or write, a
    maintenance command. *)
Definition accessing (k : AddrVec_t * Z) : Prop := concrete d s k.1 /\ exists name, name ∈ rw_names /\ get_command_id s name = Ok k.2.
Definition maintaining (k : AddrVec_t * Z) : Prop := exists name, name ∈ maint_names /\ get_command_id s name = Ok k.2.

Definition bk (k : AddrVec_t * Z) : list nat := bank_path d k.1.

(** The row a request wants is open. *)
Definition row_open (dev : DRAMDevice) (k : AddrVec_t * Z) : Prop :=
  exists b row, bank_of dev (bk k) = Some b /\ m_state b = T_Opened T /\ vget k.1 (T_Row T) = Ok row /\ row_present b row = true.

(** The shared buffers and counts, against the device. *)
Record act_bufs (c : ControllerBase) : Prop := {
  ab_policy : c_rowpolicy c = OpenRowPolicy;
  ab_max : Z.of_nat (length banks) <= max_size (c_active_buffer c);
  ab_rw : forall b k, b = Bread \/ b = Bwrite -> k ∈ keys (get_buf c b) -> accessing k;
  ab_prio : forall k, k ∈ keys (c_priority_buffer c) -> maintaining k;
  ab_active : forall k, k ∈ keys (c_active_buffer c) -> accessing k /\ row_open (c_device c) k;
  ab_nodup : NoDup (map bk (keys (c_active_buffer c)));
  ab_count : forall i p, banks !! i = Some p ->
    c_active_per_bank c !! i = Some (if decide (p ∈ map bk (keys (c_active_buffer c))) then 1 else 0)
}.

Lemma bk_in_keys b i r : buffer b !! i = Some r -> bk (key r) ∈ map bk (keys b).
Proof. intros H. apply (list_elem_of_fmap_2 bk). by eapply key_in_keys. Qed.

Lemma bk_bank dev k : dev_ok d s dev -> concrete d s k.1 -> bk k ∈ banks.
Proof.
  intros Hok Hc. destruct (flat_bank d s dev k.1 (row_pos d cfg s Hin Hcon) Hok Hc) as (i & _ & Hp). apply vget_Ok in Hp as [_ Hp].
  unfold banks. rewrite <- (dk_banks _ _ _ Hok). by eapply list_elem_of_lookup_2.
Qed.

Lemma bank_exists dev p : dev_ok d s dev -> p ∈ banks -> exists b, bank_of dev p = Some b.
Proof.
  intros Hok Hp. destruct (dk_nodes _ _ _ Hok p) as [x Hx]; [by rewrite (dk_banks _ _ _ Hok)|]. exists (n_bank x). unfold bank_of. by rewrite Hx.
Qed.

Lemma flat_index dev av : dev_ok d s dev -> concrete d s av ->
  exists i : nat, get_flat_bank_id dev av = Ok (Z.of_nat i) /\ banks !! i = Some (bank_path d av).
Proof.
  intros Hok Hc. destruct (flat_bank d s dev av (row_pos d cfg s Hin Hcon) Hok Hc) as (i & Hi & Hp). apply vget_Ok in Hp as [H0 Hp].
  rewrite (dk_banks _ _ _ Hok) in Hp. exists (Z.to_nat i). by rewrite Z2Nat.id.
Qed.

Lemma banks_inj i j p : banks !! i = Some p -> banks !! j = Some p -> i = j.
Proof. apply NoDup_lookup, NoDup_all_paths. Qed.

Lemma bank_index_of dev (p : list nat) : dev_ok d s dev -> p ∈ banks ->
  exists j : nat, banks !! j = Some p /\ vget (m_bank_nodes dev) (Z.of_nat j) = Ok p /\ Z.of_nat j ∈ seqZ 0 (Z.of_nat (length (m_bank_nodes dev))).
Proof.
  intros Hok [j Hj]%list_elem_of_lookup. exists j. rewrite (dk_banks _ _ _ Hok). split_and!; [done|by apply vget_nat|].
  apply elem_of_seqZ. apply lookup_lt_Some in Hj. unfold banks in Hj. lia.
Qed.

(** At most one entry per bank: no buffer of that size is full. *)
Lemma banks_room (ks : list (AddrVec_t * Z)) p :
  NoDup (map bk ks) -> (forall k, k ∈ ks -> bk k ∈ banks) -> p ∈ banks -> p ∉ map bk ks -> (length ks < length banks)%nat.
Proof.
  intros Hn Hb Hp Hnp. assert (H : (length (p :: map bk ks) <= length banks)%nat).
  { apply NoDup_incl_length; [apply NoDup_ListNoDup; by constructor|]. intros q Hq%list_elem_of_In.
    apply list_elem_of_In. apply elem_of_cons in Hq as [->|Hq]; [done|]. apply list_elem_of_fmap in Hq as (k & -> & Hk). auto. }
  cbn in H. rewrite length_map in H. lia.
Qed.

Lemma nodup_remove b i r : NoDup (map bk (keys b)) -> buffer b !! i = Some r ->
  NoDup (map bk (keys (remove b i))) /\
  forall q, q ∈ map bk (keys (remove b i)) <-> q ∈ map bk (keys b) /\ q <> bk (key r).
Proof.
  intros Hn Hr. rewrite keys_remove. rewrite (list_fmap_delete bk (keys b) i : map bk (delete i (keys b)) = delete i (map bk (keys b))).
  assert (Hi : map bk (keys b) !! i = Some (bk (key r))) by (unfold keys; by rewrite !list_lookup_fmap, Hr).
  pose proof (delete_Permutation _ _ _ Hi) as Hp. rewrite Hp in Hn. apply NoDup_cons in Hn as [Hni Hn]. split; [done|].
  intros q. assert (Hq : q ∈ map bk (keys b) <-> q = bk (key r) \/ q ∈ delete i (map bk (keys b))) by (by rewrite <- elem_of_cons, <- Hp).
  rewrite Hq. split; [intros H; split; [by right|by intros ->]|]. by intros [[->|?] ?].
Qed.

Lemma active_bank c k : dev_ok d s (c_device c) -> act_bufs c -> k ∈ keys (c_active_buffer c) -> bk k ∈ banks.
Proof. intros Hok HB Hk. destruct (ab_active _ HB k Hk) as [[Hc _] _]. by apply (bk_bank (c_device c)). Qed.

Lemma active_room c k : dev_ok d s (c_device c) -> act_bufs c -> bk k ∈ banks -> bk k ∉ map bk (keys (c_active_buffer c)) ->
  buf_size (c_active_buffer c) < max_size (c_active_buffer c).
Proof.
  intros Hok HB Hk Hn. pose proof (ab_max _ HB) as Hm.
  pose proof (banks_room (keys (c_active_buffer c)) (bk k) (ab_nodup _ HB)
    (fun k0 => active_bank c k0 Hok HB) Hk Hn) as Hl. unfold keys in Hl. rewrite length_map in Hl. unfold buf_size. lia.
Qed.

Lemma not_active c k b : act_bufs c -> bank_of (c_device c) (bk k) = Some b -> m_state b <> T_Opened T ->
  bk k ∉ map bk (keys (c_active_buffer c)).
Proof.
  intros HB Hb Hst (k' & Ek & Hk')%list_elem_of_fmap. destruct (ab_active _ HB k' Hk') as [_ (b' & row & Hb' & Ho & _)].
  rewrite <- Ek, Hb in Hb'. injection Hb' as <-. done.
Qed.

(** ** What keeps the invariant *)

(** A calm step, when the banks of active requests stay. *)
Lemma bufs_calm c c' : act_bufs c -> calm c c' ->
  (forall k, k ∈ keys (c_active_buffer c) -> bank_of (c_device c') (bk k) = bank_of (c_device c) (bk k)) -> act_bufs c'.
Proof.
  intros [B1 B2 B3 B4 B5 B6 B7] Hcalm Hsame. pose proof (cm_keys _ _ Hcalm) as C1. pose proof (cm_max _ _ Hcalm Bactive) as Cm. cbn in Cm.
  specialize (C1 Bactive) as Ca. cbn in Ca. specialize (C1 Bpriority) as Cp. cbn in Cp. split.
  - rewrite (cm_policy _ _ Hcalm). done.
  - by rewrite Cm.
  - intros b k Hb. rewrite C1. by apply B3.
  - intros k. rewrite Cp. apply B4.
  - intros k. rewrite Ca. intros Hk. destruct (B5 k Hk) as [H1 (b & row & Hb & H2)]. split; [done|]. exists b, row. by rewrite Hsame.
  - by rewrite Ca.
  - intros i p Hp. rewrite (cm_count _ _ Hcalm), Ca. by apply B7.
Qed.

Lemma bufs_promote c c' r : dev_ok d s (c_device c) -> act_bufs c -> promote c r = Ok (true, c') ->
  accessing (key r) -> row_open (c_device c) (key r) -> bk (key r) ∉ map bk (keys (c_active_buffer c)) -> act_bufs c'.
Proof.
  intros Hok [B1 B2 B3 B4 B5 B6 B7] Hp Ha Ho Hn. destruct (promote_frame c r c' Hp) as (F1 & (F2 & _) & F3 & k & F4 & F5).
  destruct (flat_index (c_device c) (addr_vec r) Hok (proj1 Ha)) as (i & Hi & Hb). rewrite Hi in F4. injection F4 as <-.
  pose proof (F1 Bactive) as Fa. rewrite decide_True in Fa by done. cbn in Fa.
  assert (Hk : keys (c_active_buffer c') = keys (c_active_buffer c) ++ [key r]) by (rewrite Fa; apply map_app).
  assert (Hbs : map bk (keys (c_active_buffer c')) = map bk (keys (c_active_buffer c)) ++ [bk (key r)]) by (rewrite Hk; apply map_app).
  split.
  - congruence.
  - by rewrite Fa.
  - intros b x [->| ->]; rewrite F1, decide_False by done; apply B3; auto.
  - intros x. specialize (F1 Bpriority). rewrite decide_False in F1 by done. cbn in F1. rewrite F1. apply B4.
  - intros x. rewrite Hk, F2. intros [Hx|Hx]%elem_of_app; [by apply B5|]. apply list_elem_of_singleton in Hx as ->. done.
  - rewrite Hbs. apply NoDup_app. split_and!; [done| |apply NoDup_singleton]. intros q Hq Hq2. apply list_elem_of_singleton in Hq2 as ->. done.
  - intros j q Hq. rewrite Hbs, (vadd_lookup _ _ _ _ F5), (B7 j q Hq). case_decide as E.
    + subst j. change (bank_path d (addr_vec r)) with (bk (key r)) in Hb. rewrite Hb in Hq. injection Hq as <-.
      rewrite decide_False by done. rewrite decide_True by (apply elem_of_app; right; by apply list_elem_of_singleton). done.
    + assert (Hne : q <> bk (key r)) by (intros ->; apply E; by eapply banks_inj).
      f_equal. apply decide_ext. rewrite elem_of_app, list_elem_of_singleton. tauto.
Qed.

Lemma bufs_retire c b i r c' : dev_ok d s (c_device c) -> act_bufs c -> buffer (get_buf c b) !! i = Some r ->
  retire_request c b i = Ok c' -> act_bufs c'.
Proof.
  intros Hok HB Hr H. destruct (retire_frame c b i r c' Hr H) as (F1 & (F2 & _) & F3 & F4). pose proof HB as [B1 B2 B3 B4 B5 B6 B7].
  assert (Hsub : forall b' k, k ∈ keys (get_buf c' b') -> k ∈ keys (get_buf c b')).
  { intros b' k. rewrite F1. destruct (decide (b' = b)) as [->|]; [|done]. rewrite keys_remove. apply elem_of_erase. }
  assert (Hmax : max_size (c_active_buffer c') = max_size (c_active_buffer c)).
  { specialize (F1 Bactive). cbn in F1. rewrite F1. by destruct b. }
  split.
  - congruence.
  - by rewrite Hmax.
  - intros b' k Hb' Hk. apply (B3 b' k Hb'). by apply Hsub.
  - intros k Hk. apply B4. by apply (Hsub Bpriority).
  - intros k Hk. rewrite F2. apply B5. by apply (Hsub Bactive).
  - specialize (F1 Bactive). cbn in F1. rewrite F1. destruct (decide _) as [<-|]; [|done]. by apply (nodup_remove (c_active_buffer c) i r).
  - intros j p Hp. destruct (decide (b = Bactive)) as [->|Hne].
    + rewrite (F1 Bactive : c_active_buffer c' = remove (c_active_buffer c) i). destruct F4 as (k & F4 & F5). destruct (nodup_remove (c_active_buffer c) i r B6 Hr) as [_ Hel].
      assert (Hka : key r ∈ keys (c_active_buffer c)) by (by eapply key_in_keys).
      destruct (B5 _ Hka) as [[Hav _] _]. destruct (flat_index (c_device c) (addr_vec r) Hok Hav) as (m & Hm & Hbm).
      rewrite Hm in F4. injection F4 as <-. rewrite (vadd_lookup _ _ _ _ F5), (B7 j p Hp).
      change (bank_path d (addr_vec r)) with (bk (key r)) in Hbm. case_decide as E.
      * subst j. rewrite Hbm in Hp. injection Hp as <-. rewrite decide_True by (by eapply (bk_in_keys (c_active_buffer c))).
        rewrite decide_False by (intros [_ ?]%Hel; done). done.
      * f_equal. apply decide_ext. rewrite Hel. split; [intros Hpi; split; [done|]|by intros [? _]].
        intros ->. apply E. by eapply banks_inj.
    + assert (Fa : c_active_buffer c' = c_active_buffer c) by (pose proof (F1 Bactive); by destruct b). rewrite Fa, F4. by apply B7.
Qed.

Lemma bufs_drop c b i r : act_bufs c -> b = Bread \/ b = Bwrite ->
  act_bufs (set_buf (forget_write c b r) b (remove (get_buf (forget_write c b r) b) i)).
Proof.
  intros [B1 B2 B3 B4 B5 B6 B7] Hb.
  assert (Hg : forall b', get_buf (forget_write c b r) b' = get_buf c b') by (intros []; by destruct Hb as [-> | ->]).
  assert (Hrw : forall b' k, b' = Bread \/ b' = Bwrite ->
    k ∈ keys (get_buf (set_buf (forget_write c b r) b (remove (get_buf (forget_write c b r) b) i)) b') -> accessing k).
  { intros b' k Hb'. rewrite get_set_buf, !Hg. destruct (decide (b' = b)) as [->|]; [|by apply B3].
    rewrite keys_remove. intros Hk%elem_of_erase. by apply (B3 b). }
  destruct Hb as [-> | ->]; by split.
Qed.

Lemma bufs_fed c c' : act_bufs c -> fed (fun r => maintaining (key r)) c c' -> c_device c' = c_device c -> act_bufs c'.
Proof.
  intros [B1 B2 B3 B4 B5 B6 B7] Hf Hd. pose proof (fd_bufs _ _ _ Hf) as F1. pose proof (F1 Bactive ltac:(done)) as Fa. cbn in Fa.
  destruct (fd_prio _ _ _ Hf) as (l & F4 & F5).
  split; rewrite ?(fd_policy _ _ _ Hf), ?Fa, ?(fd_count _ _ _ Hf), ?Hd; try done.
  - intros b k Hb. rewrite F1 by (by destruct Hb as [-> | ->]). by apply B3.
  - intros k. unfold keys. rewrite F4, map_app. intros [Hk|Hk]%elem_of_app; [by apply B4|].
    apply list_elem_of_fmap in Hk as (r & -> & Hr). by apply (proj1 (Forall_forall _ _) F5 r).
Qed.

Lemma manager_maintains n c cmd av : ctrl_ok d s n c -> manager_cmd (c_refresh c) = Some cmd -> maintaining (key (Request_cmd av cmd)).
Proof.
  intros Hc. pose proof (ck_refresh _ _ _ _ Hc) as Hr.
  destruct (c_refresh c) as [|r|r|r]; cbn in *; [done|..]; intros [= <-]; destruct Hr as [H _].
  - exists "REFab". split; [closed_elem|done].
  - exists "REFpb". split; [closed_elem|done].
  - exists "REFpb". split; [closed_elem|done].
Qed.

Lemma arriving_accessing n x : arriving s x -> req_ok d s n x -> accessing (key x).
Proof.
  intros [Hty Hf] Hr. split; [by apply (ro_rw _ _ _ _ Hr)|].
  destruct (standard_static d cfg s Hin Hcon) as (C & _ & _ & Hnd & _ & _ & _ & Hst).
  unfold std_static_ok in Hst. bool_hyps. rewrite (con_requests _ _ C) in Hf.
  destruct (std_requests d) as [|a [|w [|]]]; try done. bool_hyps.
  assert (Hid : forall i name, name_at (std_commands d) i name = true -> get_command_id s name = Ok i).
  { intros i name Hi. unfold get_command_id. rewrite (con_commands _ _ C). by eapply name_at_id. }
  destruct Hty as [E|E]; rewrite E in Hf; injection Hf as Hf; [exists "RD"|exists "WR"]; (split; [closed_elem|]); cbn; rewrite <- Hf; by apply Hid.
Qed.

Lemma bufs_appended n c c' : ctrl_ok d s n c -> ctrl_ok d s n c' -> act_bufs c -> appended c c' -> c_device c' = c_device c -> act_bufs c'.
Proof.
  intros Hc Hc' [B1 B2 B3 B4 B5 B6 B7] [A1 A2 A3 A4 _ _ _ A5] Hd. split; rewrite ?A1, ?A2, ?A3, ?A4, ?Hd; try done.
  intros b k Hb. destruct (A5 b) as (ks & Hk & Hf). unfold keys. rewrite Hk. cbn [buffer]. rewrite map_app. intros [Hx|Hx]%elem_of_app; [by apply (B3 b)|].
  apply list_elem_of_fmap in Hx as (x & -> & Hx). apply (arriving_accessing n).
  - rewrite Forall_forall in Hf. unfold spec_of in Hf. rewrite (dk_spec _ _ _ (ck_dev _ _ _ _ Hc)) in Hf. by apply Hf.
  - apply (ck_reqs _ _ _ _ Hc' b). rewrite Hk. apply elem_of_app. by right.
Qed.

(** ** Commands by number, name and implementation *)
Definition named (i : Z) (name : string) (ci : cmd_impl) : Prop := get_command_id s name = Ok i /\ impl_by_name T name = Some ci.

Lemma named_handlers i name ci : named i name ci -> handlers_at s i ci /\ 0 <= i < command_count s.
Proof.
  intros [Hid Hc]. destruct (standard_handlers d cfg s name i Hin Hcon Hid) as (c' & Hc' & Hh). rewrite Hc in Hc'. injection Hc' as <-.
  split; [done|]. by destruct (command_id_range d cfg s name i Hin Hcon Hid).
Qed.

Lemma named_meta i name ci : named i name ci -> exists m, vget (command_meta s) i = Ok m /\ strip_bus m = strip_bus (impl_meta ci).
Proof.
  intros H. destruct (named_handlers i name ci H) as [Hh _]. pose proof (ha_meta _ _ _ Hh) as Hm.
  destruct (zlookup (command_meta s) i) as [m|] eqn:Em; [|done]. exists m. split; [unfold vget; by rewrite Em|].
  cbn [fmap option_fmap option_map] in Hm. congruence.
Qed.

Lemma named_unique i name ci n1 c1 : named i name ci -> named i n1 c1 -> n1 = name /\ c1 = ci.
Proof.
  intros [H1 H2] [H3 H4]. assert (n1 = name) as -> by (by eapply (command_id_inj d cfg s)). split; [done|congruence].
Qed.

Lemma named_addr i name ci av : named i name ci -> wanted d s i av -> addr_for d s (impl_target ci) av.
Proof.
  intros H (n1 & c1 & _ & Hid & Hc & Hav). by destruct (named_unique i name ci n1 c1 H (conj Hid Hc)) as [_ <-].
Qed.

(** The effect of a command on the banks. *)
Lemma named_effect dev i name ci av clk dev' :
  named i name ci -> dev_ok d s dev -> addr_for d s (impl_target ci) av -> issue_command dev i av clk = Ok dev' ->
  forall p, p ∈ banks ->
    match impl_action ci with
    | Some f =>
        (reaches d dev (impl_target ci) av p ->
           exists b b', bank_of dev p = Some b /\ f b i av clk = Ok b' /\ bank_of dev' p = Some b') /\
        (~ reaches d dev (impl_target ci) av p -> bank_of dev' p = bank_of dev p)
    | None => bank_of dev' p = bank_of dev p
    end.
Proof.
  intros Hn Hok Hav Hiss p Hp. destruct (named_handlers i name ci Hn) as [Hh Hr].
  destruct (issue_effect d s dev i av clk ci dev' (row_pos d cfg s Hin Hcon) Hs Hr Hok Hh Hav Hiss) as (_ & _ & _ & He).
  apply He. by rewrite (dk_banks _ _ _ Hok).
Qed.

(** ** Precharging *)
Lemma would_close_false n c r name ci :
  ctrl_ok d s n c -> act_bufs c -> named (command r) name ci -> is_closing (impl_meta ci) = true ->
  addr_for d s (impl_target ci) (addr_vec r) -> would_close_active c r = Ok false ->
  forall p, p ∈ map bk (keys (c_active_buffer c)) -> ~ reaches d (c_device c) (impl_target ci) (addr_vec r) p.
Proof.
  intros Hc HB Hcmd Hcl Hav H p Hp [_ Hre]. pose proof (ck_dev _ _ _ _ Hc) as Hok.
  destruct (named_meta _ _ _ Hcmd) as (m & Hm & Es). destruct (named_handlers _ name ci Hcmd) as [Hh _].
  pose proof (of_zlookup _ _ _ (ha_target _ _ _ Hh)) as Ht.
  unfold would_close_active, spec_of in H. rewrite (dk_spec _ _ _ Hok), Hm, Ht in H. cbn [mbind res_bind] in H.
  assert (Ecl : is_closing m = true) by (change (is_closing m) with (is_closing (strip_bus m)); by rewrite Es).
  rewrite Ecl in H. cbn [negb] in H. destruct (Z.eqb_spec (buf_size (c_active_buffer c)) 0) as [E0|E0].
  { unfold buf_size in E0. destruct (buffer (c_active_buffer c)) eqn:Eb; [|cbn in E0; lia]. unfold keys in Hp. rewrite Eb in Hp. by apply not_elem_of_nil in Hp. }
  assert (Hpb : p ∈ banks) by (apply list_elem_of_fmap in Hp as (k & -> & Hk); by apply (active_bank c)).
  destruct (bank_index_of (c_device c) p Hok Hpb) as (j & Hj & Hpj & Hjin). pose proof (ab_count _ HB j p Hj) as Hct. rewrite decide_True in Hct by done.
  destruct Hav as [Hrd Hav]. destruct (decide (impl_target ci = Single)) as [Et|Et].
  - rewrite Et in Hav, Hre. destruct (flat_index (c_device c) (addr_vec r) Hok Hav) as (i & Hi & Hbi). rewrite <- Hre in Hbi.
    rewrite Hi in H. cbn [mbind res_bind] in H. rewrite (banks_inj _ _ _ Hbi Hj) in H. rewrite (proj2 (vget_nat _ _ _) Hct) in H. discriminate.
  - destruct (impl_target ci) eqn:Et'; [done| |done]. cbn [mbind res_bind] in H.
    destruct (scan_active_false c (addr_vec r) _ H (Z.of_nat j)) as (x & Hx & Hor); [by rewrite (ck_count _ _ _ _ Hc)|].
    rewrite (proj2 (vget_nat _ _ _) Hct) in Hx. injection Hx as <-. destruct Hor as [?|Hmt]; [done|].
    rewrite (bank_matches_spec d s (c_device c) (addr_vec r) _ p Hok Hrd Hpj), bool_decide_true in Hmt by done. discriminate.
Qed.

(** ** What the device answers *)
Lemma access_impl_named k : accessing k -> exists name ci, named k.2 name ci /\ name ∈ rw_names /\ name ∈ access_names /\
  impl_action ci = None /\ impl_target ci = Single.
Proof.
  intros [_ (name & Hn & Hid)]. destruct (standard_handlers d cfg s name _ Hin Hcon Hid) as (ci & Hci & _). exists name, ci.
  assert (Ha : name ∈ access_names) by (unfold rw_names in Hn; repeat (apply elem_of_cons in Hn as [->|Hn]; [closed_elem|]); by apply not_elem_of_nil in Hn).
  split_and!; [by split|done..| |].
  - unfold rw_names in Hn. by_impl Hci; try done; closed_elem.
  - by apply (access_impl T name ci).
Qed.

Lemma access_resolved n c r : ctrl_ok d s n c -> req_ok d s n r -> accessing (key r) ->
  ctrl_get_preq_command c (final_command r) (addr_vec r) = Ok (command r) ->
  exists b row bc, bank_of (c_device c) (bk (key r)) = Some b /\ bank_wf T b /\ vget (addr_vec r) (T_Row T) = Ok row /\
    resolve T b (addr_vec r) = Ok bc /\ command r = bank_cmd_id T (final_command r) bc /\
    match bc with
    | bACCESS => m_state b = T_Opened T /\ row_present b row = true
    | bPRE => m_state b = T_Opened T /\ row_present b row = false
    | bACT2 => T_Activating T = Some (m_state b)
    | bACT => m_state b = T_Closed T /\ T_ACT2 T = None
    | bACT1 => m_state b = T_Closed T /\ is_Some (T_ACT2 T)
    end.
Proof.
  intros Hc Hr Hacc Hpre. pose proof Hacc as [Hav _]. assert (Hra : req_addr d s (addr_vec r)) by (split; [exact Hav|apply Hr]).
  destruct (req_addr_row d cfg s Hin Hcon _ Hra) as [_ [row Hrow]]. pose proof (ck_dev _ _ _ _ Hc) as Hok.
  destruct (access_impl_named _ Hacc) as (name & ci & [Hid Hci] & _ & Han & _).
  destruct (dev_resolve d cfg s Hin Hcon (c_device c) name (final_command r) ci (addr_vec r) (c_clk c) Hok Han Hid Hci Hra) as (b & Hb & Hbin & Hcmd).
  destruct (ck_banks _ _ _ _ Hc _ Hbin) as (b' & Hb' & Hwf). rewrite Hb in Hb'. injection Hb' as <-.
  destruct (resolve_total T b (addr_vec r) row Hwf Hrow) as [bc Hbc]. unfold ctrl_get_preq_command in Hpre.
  rewrite (Hcmd bc Hbc) in Hpre. injection Hpre as Hpre. exists b, row, bc. split_and!; [done..|].
  unfold resolve in Hbc. rewrite Hrow in Hbc. cbn [mbind res_bind] in Hbc.
  destruct (Z.eqb_spec (m_state b) (T_Closed T)); [injection Hbc as <-; by destruct (T_ACT2 T)|].
  destruct (enum_is (T_Activating T) (m_state b)) eqn:Ea; [injection Hbc as <-; by apply enum_is_true in Ea|].
  destruct (Z.eqb_spec (m_state b) (T_Opened T)); [|discriminate]. injection Hbc as <-. by destruct (row_present b row).
Qed.

(** Maintenance commands and their implementations. *)
Definition maint (i : Z) (ci : cmd_impl) : Prop := exists name, name ∈ maint_names /\ named i name ci.

Lemma maint_cases i ci : maint i ci ->
  (i = T_PREpb T /\ ci = Cmd_PREpb T) \/ (i = T_PREab T /\ ci = Cmd_PREab T) \/
  (get_command_id s "REFab" = Ok i /\ ci = Cmd_REFab T) \/ (get_command_id s "REFpb" = Ok i /\ ci = Cmd_REFpb T).
Proof.
  destruct (standard_command_ids d cfg s Hin Hcon) as (Hpb & Hab & _). intros (name & Hn & Hid & Hci). unfold maint_names in Hn.
  repeat (apply elem_of_cons in Hn as [->|Hn]); [..|by apply not_elem_of_nil in Hn]; injection Hci as <-.
  - rewrite Hpb in Hid. injection Hid as <-. by left.
  - rewrite Hab in Hid. injection Hid as <-. by right; left.
  - by right; right; left.
  - by right; right; right.
Qed.

Lemma maint_named i ci : maint i ci -> exists name, (name ∉ opening_names) /\ (name ∉ rw_names) /\ named i name ci.
Proof.
  intros (name & Hn & H). exists name. unfold maint_names in Hn.
  repeat (apply elem_of_cons in Hn as [->|Hn]; [split; [closed_elem|split; [closed_elem|done]]|]). by apply not_elem_of_nil in Hn.
Qed.

Lemma maint_not_opening i ci : maint i ci -> exists m, vget (command_meta s) i = Ok m /\ is_opening m = false.
Proof.
  intros Hm. destruct (maint_named i ci Hm) as (name & _ & _ & Hn). destruct (named_meta _ _ _ Hn) as (m & H1 & H2). exists m. split; [done|].
  change (is_opening m) with (is_opening (strip_bus m)). rewrite H2.
  by destruct (maint_cases i ci Hm) as [[_ ->]|[[_ ->]|[[_ ->]|[_ ->]]]].
Qed.

(** A maintenance command that acts on banks closes them. *)
Lemma maint_closes i ci f : maint i ci -> impl_action ci = Some f -> is_closing (impl_meta ci) = true /\
  forall b cmd av clk x, f b cmd av clk = Ok x -> x = mkBank (T_Closed T) ∅.
Proof.
  intros Hm Hf. destruct (maint_cases i ci Hm) as [[_ ->]|[[_ ->]|[[_ ->]|[_ ->]]]]; cbn in Hf; try discriminate; injection Hf as <-;
    (split; [done|]); intros b cmd av clk x; cbn; by intros [= <-].
Qed.

Lemma maint_pre : maint (T_PREpb T) (Cmd_PREpb T) /\ maint (T_PREab T) (Cmd_PREab T).
Proof.
  destruct (standard_command_ids d cfg s Hin Hcon) as (Hpb & Hab & _).
  split; [exists "PREpb"|exists "PREab"]; (split; [closed_elem|by split]).
Qed.

(** The command is the wanted one, or closes a bank that is not closed. *)
Definition clears (dev : DRAMDevice) (r : Request) (ci : cmd_impl) : Prop :=
  is_Some (impl_action ci) /\ exists p b, reaches d dev (impl_target ci) (addr_vec r) p /\ bank_of dev p = Some b /\ m_state b <> T_Closed T.

Lemma maint_resolved n c r : ctrl_ok d s n c -> req_ok d s n r -> maintaining (key r) ->
  ctrl_get_preq_command c (final_command r) (addr_vec r) = Ok (command r) ->
  exists ci, maint (command r) ci /\ addr_for d s (impl_target ci) (addr_vec r) /\
    (command r = final_command r \/ clears (c_device c) r ci).
Proof.
  intros Hc Hr (name & Hn & Hid) Hpre. change (key r).2 with (final_command r) in Hid. pose proof (ck_dev _ _ _ _ Hc) as Hok.
  destruct (standard_handlers d cfg s name _ Hin Hcon Hid) as (ci & Hci & Hh).
  pose proof (named_addr _ name ci (addr_vec r) (conj Hid Hci) (ro_wanted _ _ _ _ Hr)) as Hav.
  assert (Hm : maint (final_command r) ci) by (by exists name). destruct maint_pre as [Hpb Hab].
  unfold ctrl_get_preq_command in Hpre. set (f := final_command r) in *. clearbody f.
  assert (Hsin : forall g, impl_target ci = Single -> impl_preq ci = Some g -> exists b, reaches d (c_device c) Single (addr_vec r) (bk (key r)) /\
    bank_of (c_device c) (bk (key r)) = Some b /\ g b f (addr_vec r) (c_clk c) = Ok (command r)).
  { intros g Et Eg. rewrite Et in Hav.
    destruct (get_preq_single d s (c_device c) f (addr_vec r) (c_clk c) ci g (row_pos d cfg s Hin Hcon) Hok Hh Et Eg (proj2 Hav)) as (b & Hb & Hbin & He).
    exists b. rewrite <- He. by split_and!. }
  destruct (maint_cases _ _ Hm) as [[-> ->]|[[-> ->]|[[Hf ->]|[Hf ->]]]].
  - destruct (Hsin _ eq_refl eq_refl) as (b & _ & _ & Hb). exists (Cmd_PREpb T). unfold PREpb_preq in Hb.
    assert (command r = T_PREpb T) as -> by (repeat dcase Hb; by injection Hb as <-). split_and!; [done..|by left].
  - exists (Cmd_PREab T). unfold get_preq_command in Hpre. rewrite (dk_spec _ _ _ Hok), (of_zlookup _ _ _ (ha_preq _ _ _ Hh)) in Hpre.
    cbn in Hpre. injection Hpre as <-. split_and!; [done..|by left].
  - destruct (get_preq_all d s (c_device c) f (addr_vec r) (c_clk c) (Cmd_REFab T) _ (command r) Hok Hh eq_refl eq_refl (proj1 Hav) Hpre)
      as [[-> _]|(Hne & p & b & Hre & Hb & Hq)]; [exists (Cmd_REFab T); split_and!; [done..|by left]|].
    unfold REFab_preq in Hq. destruct (Z.eqb_spec (m_state b) (T_Closed T)); cbn in Hq; injection Hq as Hq; [done|].
    exists (Cmd_PREab T). rewrite <- Hq. split_and!; [done..|]. right. split; [by eexists|]. by exists p, b.
  - destruct (Hsin _ eq_refl eq_refl) as (b & Hre & Hb & Hq). unfold REFpb_preq in Hq.
    destruct (Z.eqb_spec (m_state b) (T_Closed T)); cbn in Hq; injection Hq as Hq; rewrite <- Hq.
    + exists (Cmd_REFpb T). split_and!; [done..|by left].
    + exists (Cmd_PREpb T). split_and!; [done..|]. right. split; [by eexists|]. by exists (bk (key r)), b.
Qed.

(** Its effect, when it spares the banks that are needed. *)
Lemma maint_effect (needed : list nat -> Prop) dev i ci av clk dev' : dev_ok d s dev -> maint i ci -> addr_for d s (impl_target ci) av ->
  (is_closing (impl_meta ci) = true -> forall p, needed p -> ~ reaches d dev (impl_target ci) av p) ->
  issue_command dev i av clk = Ok dev' -> forall q, q ∈ banks ->
    (is_Some (impl_action ci) -> reaches d dev (impl_target ci) av q -> bank_of dev' q = Some (mkBank (T_Closed T) ∅)) /\
    (bank_of dev' q = bank_of dev q \/ (~ needed q /\ bank_of dev' q = Some (mkBank (T_Closed T) ∅))).
Proof.
  intros Hok Hm Hav Hfree Hi q Hq. destruct (maint_named _ _ Hm) as (name & _ & _ & Hn).
  pose proof (named_effect _ i name ci av clk dev' Hn Hok Hav Hi q Hq) as He. pose proof (fun f => maint_closes i ci f Hm) as Hcl.
  destruct (impl_action ci) as [f|]; [|split; [by intros [? ?]|by left]]. destruct (Hcl f eq_refl) as [Hc Hf]. destruct He as [He1 He2].
  assert (Hre : reaches d dev (impl_target ci) av q -> bank_of dev' q = Some (mkBank (T_Closed T) ∅)).
  { intros Hr. destruct (He1 Hr) as (b & b' & _ & Ha & Hb'). by rewrite Hb', (Hf _ _ _ _ _ Ha). }
  split; [intros _; exact Hre|]. destruct (decide (reaches d dev (impl_target ci) av q)) as [Hr|Hr]; [right|left; by apply He2].
  split; [|by apply Hre]. intros Hn'. by apply (Hfree Hc q Hn').
Qed.

Lemma maint_wanted i ci av : maint i ci -> addr_for d s (impl_target ci) av -> wanted d s i av.
Proof. intros Hm Hav. destruct (maint_named i ci Hm) as (name & Hn & _ & H1 & H2). by exists name, ci. Qed.
End Active.

(** ** A controller that was just built

    [fresh] is the state [init_base] and [setup_controller] leave: empty
    buffers, clock zero, closed banks, the refresh manager and watermarks of
    the configuration.  It satisfies [act_bufs] and the trace invariant. *)
Section Setup.
Context (d : standard) (cc : controller_config) (s : DRAMSpec).
Context (Hin : In d all_standards) (Hcon : construct d (cc_dram cc) = Ok s).

Record fresh (dev0 : DRAMDevice) (ch : Z) (c : ControllerBase) : Prop := {
  fs_device : c_device c = set_channel_id dev0 ch;
  fs_log : c_log c = [];
  fs_clk : c_clk c = 0;
  fs_policy : make_rowpolicy (cc_rowpolicy cc) dev0 = Ok (c_rowpolicy c);
  fs_refresh : make_refresh (cc_refresh cc) dev0 = Ok (c_refresh c);
  fs_marks : marks c = (default f32_0_2 (cc_wr_low_watermark cc), default f32_0_8 (cc_wr_high_watermark cc));
  fs_bufs : forall b, buffer (get_buf c b) = [];
  fs_pending : c_pending c = [];
  fs_max : forall b, max_size (get_buf c b) = u64 (match b with
    | Bactive => Z.of_nat (length (banks d s))
    | Bpriority => default 1568 (cc_priority_buffer_size cc)
    | Bread => default 32 (cc_read_buffer_size cc)
    | Bwrite => default 32 (cc_write_buffer_size cc) end);
  fs_count : c_active_per_bank c = replicate (length (banks d s)) 0;
  fs_done : c_done c = [];
  fs_stats : c_stats c = zero_counters;
  fs_addrs : c_buffered_write_addrs c = ∅
}.

Lemma setup_fresh n ch c0 c : spec_ok s -> org_ok s -> cc_dram_impl cc = std_name d ->
  init_base registry cc = Ok c0 -> setup_controller cc n ch c0 = Ok c ->
  exists dev0, init s = Ok dev0 /\ fresh dev0 ch c /\ spec_of c0 = s /\ m_bank_nodes (c_device c0) = banks d s.
Proof.
  intros Hs Horg Hname. unfold init_base. rewrite Hname, (create_registered d (cc_dram cc) s Hin Hcon Hs Horg). cbn [mbind res_bind].
  intros (dev & Hi & (bl & _ & (tck & _ & (rf & Hrf & (rp & Hp & (mp & _ & [= <-])%bind_Ok_inv)%bind_Ok_inv)%bind_Ok_inv)%bind_Ok_inv)%bind_Ok_inv)%bind_Ok_inv.
  pose proof (init_dev_ok d (cc_dram cc) s dev Hin Hcon Hi) as Hok.
  unfold setup_controller. cbn zeta. intros (ps & _ & [= <-])%bind_Ok_inv. exists dev. unfold spec_of. cbn [c_device].
  rewrite (dk_spec _ _ _ Hok), (dk_banks _ _ _ Hok). split; [done|]. split; [|done]. split; try done; by intros [].
Qed.

Section Fresh.
Context (dev0 : DRAMDevice) (ch : Z) (Hinit : init s = Ok dev0) (c : ControllerBase) (F : fresh dev0 ch c).

Lemma fresh_keys b : keys (get_buf c b) = [].
Proof. unfold keys. by rewrite (fs_bufs _ _ _ F). Qed.

Lemma fresh_banks p b : p ∈ banks d s -> bank_of (c_device c) p = Some b -> b = mkBank (T_Closed (std_traits d)) ∅.
Proof.
  intros Hp Hb. rewrite (fs_device _ _ _ F) in Hb.
  assert (Hcl : bank_of (set_channel_id dev0 ch) p = Some (mkBank (T_Closed (std_traits d)) ∅)); [|congruence].
  etrans; [|apply (init_banks_closed d (cc_dram cc) s Hin Hcon dev0 p Hinit)].
  - unfold bank_of. cbn. by destruct (m_root dev0), p.
  - by rewrite (dk_banks _ _ _ (init_dev_ok d (cc_dram cc) s dev0 Hin Hcon Hinit)).
Qed.

Lemma fresh_bufs_ok : cc_rowpolicy cc = CfgOpen -> Z.of_nat (length (banks d s)) < 2 ^ 64 -> act_bufs d s c.
Proof.
  intros Hpol Hfit. pose proof (fs_policy _ _ _ F) as Hp. rewrite Hpol in Hp. injection Hp as Hp.
  pose proof (fresh_keys Bactive) as Ka. pose proof (fresh_keys Bpriority) as Kp. cbn in Ka, Kp.
  split; rewrite ?Ka, ?Kp; try done; try (by intros x ?%not_elem_of_nil).
  - rewrite (fs_max _ _ _ F Bactive : max_size (c_active_buffer c) = _). unfold u64, wrap. rewrite Z.mod_small by lia. lia.
  - intros b x _. by rewrite fresh_keys; intros ?%not_elem_of_nil.
  - constructor.
  - intros i p Hp'. rewrite (fs_count _ _ _ F), decide_False by (by apply not_elem_of_nil). apply lookup_replicate_2. by apply lookup_lt_Some in Hp'.
Qed.

Lemma fresh_trace k : trace_inv (set_channel_id dev0 ch) k c.
Proof.
  destruct F as [F1 F2 F3 _ _ _ _ _ _ _ _ _ _]. split; rewrite ?F1, ?F2, ?F3; [constructor|lia|constructor..|]. intros t. cbn. lia.
Qed.
End Fresh.
End Setup.
