(* ===== verification/LpInv.v ===== *)
(** * LpInv: the invariant of the LPDDR5 controller

    Between ACT1 and ACT2 a bank is owned by a request in the activating
    buffer, with a deadline.  The invariant ties the three views of this
    together: the owner and deadline vectors, the activating buffer, and the
    state of the banks; and it says that a request in the active buffer finds
    its row open.  The lemmas describe the effect of each command on the
    banks, and which changes of the shared state keep the invariant. *)
From stdpp Require Import prelude gmap strings.
From S2P Require Import Prelude DramSpec Commands Standards Node NodeTiming NodeTree Device DeviceInv DeviceProps BankSafety BankProgress IssueSafety Request BitUtils AddrMapper Float32 ControllerState Controller Refresh NodeAddr HbmRefresh RowPolicy ControllerInit GenericDdr ControllerSafety Hbm Lpddr5 Controllers ControllerTrace Settle ServeSafety TickSafety Bookkeeping ServeFrame ActiveInv.
Open Scope Z_scope.

Lemma LPDDR5_in : In LPDDR5_std all_standards.
Proof. do 4 right. left. reflexivity. Qed.

Section Lp.
Context (cfg : dram_config) (s : DRAMSpec).
Context (Hcon : construct LPDDR5_std cfg = Ok s) (Hs : spec_ok s) (Horg : org_ok s).
Local Abbreviation d := LPDDR5_std.
Local Abbreviation T := LPDDR5_traits.
Local Abbreviation banks := (banks d s).
Local Abbreviation bk := (bk d).
Local Abbreviation accessing := (accessing d s).
Local Abbreviation row_open := (row_open d).
Local Abbreviation lp_bufs := (act_bufs d s).

(** ** Commands by number *)
Lemma lp_id name i : name_at (std_commands d) i name = true -> get_command_id s name = Ok i.
Proof.
  intros Hi. destruct (standard_static d cfg s LPDDR5_in Hcon) as (C & _ & _ & Hnd & _). unfold get_command_id.
  rewrite (con_commands _ _ C). by eapply name_at_id.
Qed.

Lemma lp_named name i ci : name_at (std_commands d) i name = true -> impl_by_name T name = Some ci -> named d s i name ci.
Proof. intros Hi Hc. split; [by apply lp_id|done]. Qed.

Lemma lp_handlers name i ci : name_at (std_commands d) i name = true -> impl_by_name T name = Some ci ->
  handlers_at s i ci /\ 0 <= i < command_count s.
Proof. intros Hi Hc. apply (named_handlers d cfg s LPDDR5_in Hcon i name ci). by apply lp_named. Qed.

(** ** The effect of a command on the banks *)
Lemma lp_effect dev name i ci av clk dev' :
  name_at (std_commands d) i name = true -> impl_by_name T name = Some ci -> dev_ok d s dev ->
  addr_for d s (impl_target ci) av -> issue_command dev i av clk = Ok dev' ->
  forall p, p ∈ banks ->
    match impl_action ci with
    | Some f =>
        (reaches d dev (impl_target ci) av p ->
           exists b b', bank_of dev p = Some b /\ f b i av clk = Ok b' /\ bank_of dev' p = Some b') /\
        (~ reaches d dev (impl_target ci) av p -> bank_of dev' p = bank_of dev p)
    | None => bank_of dev' p = bank_of dev p
    end.
Proof.
  intros Hi Hc. by eapply (named_effect d cfg s LPDDR5_in Hcon Hs), lp_named.
Qed.

(** ** The parts of the invariant *)

(** Bank [p] is owned, with deadline [dl]. *)
Definition own (l : LPDDR5Controller) (p : list nat) (dl : Z) : Prop :=
  exists i : nat, banks !! i = Some p /\ m_act2_owner_valid l !! i = Some true /\ m_act2_deadline l !! i = Some dl.

Definition owned (l : LPDDR5Controller) (p : list nat) : Prop := exists dl, own l p dl.

Record lp_ids (k : lp_consts) : Prop := {
  id_act1 : l_cmd_act1 k = lpACT1;
  id_act2 : l_cmd_act2 k = lpACT2;
  id_cas_rd : l_cmd_cas_rd k = lpCAS_RD;
  id_cas_wr : l_cmd_cas_wr k = lpCAS_WR;
  id_rd : l_cmd_rd k = lpRD;
  id_wr : l_cmd_wr k = lpWR;
  id_rda : l_cmd_rda k = lpRDA;
  id_wra : l_cmd_wra k = lpWRA
}.

(** The activation state, against the device. *)
Record lp_acts (n : nat) (dev : DRAMDevice) (l : LPDDR5Controller) : Prop := {
  la_ids : lp_ids (l_const l);
  la_aad : 1 <= m_nAAD (l_const l);
  la_valid : length (m_act2_owner_valid l) = length banks;
  la_deadline : length (m_act2_deadline l) = length banks;
  la_max : max_size (m_activating_buffer l) = Z.of_nat (length banks);
  la_reqs : forall r, r ∈ buffer (m_activating_buffer l) -> req_ok d s n r;
  la_waiting : forall k, k ∈ keys (m_activating_buffer l) -> accessing k;
  la_nodup : NoDup (map bk (keys (m_activating_buffer l)));
  la_owned : forall p, owned l p <-> p ∈ map bk (keys (m_activating_buffer l));
  la_state : forall p b, p ∈ banks -> bank_of dev p = Some b -> (T_Activating T = Some (m_state b) <-> owned l p);
  la_inj : forall p q dl, own l p dl -> own l q dl -> p = q
}.

Record lp_inv (n : nat) (l : LPDDR5Controller) : Prop := {
  li_base : ctrl_ok d s n (l_base l);
  li_clk : 0 <= c_clk (l_base l);
  li_bufs : lp_bufs (l_base l);
  li_acts : lp_acts n (c_device (l_base l)) l
}.

(** Every deadline is in a range. *)
Definition due (l : LPDDR5Controller) (lo hi : Z) : Prop := forall p dl, own l p dl -> lo <= dl <= hi.

(** The access whose CAS was issued is ready in the next cycle, and no
    deadline expires before. *)
Definition cas_ok (l : LPDDR5Controller) : Prop := m_cas_issued l = true ->
  (forall p dl, own l p dl -> c_clk (l_base l) + 2 <= dl) /\
  exists b i r, m_cas_req l = Some (b, i) /\ buffer (get_buf (l_base l) b) !! i = Some r /\ b <> Bpriority /\
    command r = final_command r /\ accessing (key r) /\
    dev_check_timing (c_device (l_base l)) (command r) (addr_vec r) (c_clk (l_base l) + 1) = Ok true.

(** The invariant between ticks. *)
Record lp_ok (n : nat) (l : LPDDR5Controller) : Prop := {
  lk_inv : lp_inv n l;
  lk_due : due l (c_clk (l_base l) + 1) (c_clk (l_base l) + m_nAAD (l_const l));
  lk_cas : cas_ok l
}.

(** ** Banks and requests *)
(** ** Owners *)
Lemma own_bank l p dl : own l p dl -> p ∈ banks.
Proof. intros (i & Hi & _). by eapply list_elem_of_lookup_2. Qed.

Lemma own_functional l p dl dl' : own l p dl -> own l p dl' -> dl' = dl.
Proof. intros (i & H1 & _ & H2) (j & H3 & _ & H4). rewrite (banks_inj d s _ _ _ H3 H1) in H4. congruence. Qed.

Lemma own_at l (i : nat) p dl : banks !! i = Some p -> own l p dl ->
  vget (m_act2_owner_valid l) (Z.of_nat i) = Ok true /\ vget (m_act2_deadline l) (Z.of_nat i) = Ok dl.
Proof. intros Hi (j & H1 & H2 & H3). rewrite (banks_inj d s _ _ _ H1 Hi) in *. split; by apply vget_nat. Qed.

Lemma not_owned_at n dev l (i : nat) p : lp_acts n dev l -> banks !! i = Some p -> ~ owned l p ->
  vget (m_act2_owner_valid l) (Z.of_nat i) = Ok false.
Proof.
  intros H Hi Hn. apply vget_nat. pose proof (lookup_lt_Some _ _ _ Hi) as Hlt.
  destruct (lookup_lt_is_Some_2 (m_act2_owner_valid l) i) as [v Hv]; [rewrite (la_valid _ _ _ H); lia|].
  destruct (lookup_lt_is_Some_2 (m_act2_deadline l) i) as [x Hx]; [rewrite (la_deadline _ _ _ H); lia|].
  destruct v; [|done]. exfalso. apply Hn. exists x, i. done.
Qed.

Lemma set_owner_own l (i : nat) p v dl : banks !! i = Some p ->
  length (m_act2_owner_valid l) = length banks -> length (m_act2_deadline l) = length banks ->
  exists l', set_owner l (Z.of_nat i) v dl = Ok l' /\
    l' = with_m_act2_deadline (with_m_act2_owner_valid l (<[i := v]> (m_act2_owner_valid l))) (<[i := dl]> (m_act2_deadline l)) /\
    forall q x, own l' q x <-> if decide (q = p) then v = true /\ x = dl else own l q x.
Proof.
  intros Hi Hv Hd. pose proof (lookup_lt_Some _ _ _ Hi) as Hlt. unfold set_owner.
  destruct (vset_total (m_act2_owner_valid l) (Z.of_nat i) v) as [a Ha]; [lia|]. rewrite Ha. cbn.
  destruct (vset_total (m_act2_deadline l) (Z.of_nat i) dl) as [b Hb]; [lia|]. rewrite Hb. cbn.
  apply vset_Ok in Ha as [_ ->], Hb as [_ ->]. rewrite Nat2Z.id. eexists. split; [done|]. split; [done|]. intros q x. unfold own. cbn. case_decide as E.
  - subst q. split.
    + intros (j & H1 & H2 & H3). rewrite (banks_inj d s _ _ _ H1 Hi) in *. rewrite list_lookup_insert_eq in H2 by lia.
      rewrite list_lookup_insert_eq in H3 by lia. split; congruence.
    + intros [-> ->]. exists i. rewrite !list_lookup_insert_eq by lia. done.
  - assert (Hne : forall j, banks !! j = Some q -> j <> i) by (intros j Hj ->; congruence).
    split; intros (j & H1 & H2 & H3); exists j; (split; [done|]).
    + rewrite list_lookup_insert_ne in H2 by (by apply not_eq_sym, Hne). by rewrite list_lookup_insert_ne in H3 by (by apply not_eq_sym, Hne).
    + by rewrite !list_lookup_insert_ne by (by apply not_eq_sym, Hne).
Qed.
End Lp.
