(* ===== verification/LpAct2.v ===== *)
(** * LpAct2: choosing and issuing an ACT2

    Under the invariant of [LpInv] both scans of the activating buffer
    succeed, the urgent one finds every request whose deadline is now, and
    issuing the chosen ACT2 opens the row, moves the request to the active
    buffer and frees the bank, without an assertion failing. *)
From stdpp Require Import prelude gmap strings.
From S2P Require Import Prelude DramSpec Commands Standards Node NodeTiming NodeTree Device DeviceInv DeviceProps BankSafety BankProgress IssueSafety Request BitUtils AddrMapper Float32 ControllerState Controller Refresh NodeAddr HbmRefresh RowPolicy ControllerInit GenericDdr ControllerSafety Hbm Lpddr5 Controllers ControllerTrace Settle ServeSafety TickSafety Bookkeeping ServeFrame ActiveInv LpInv.
Open Scope Z_scope.

Local Abbreviation total := (fun _ : err => False).

Section Act2.
Context (cfg : dram_config) (s : DRAMSpec).
Context (Hcon : construct LPDDR5_std cfg = Ok s) (Hs : spec_ok s) (Horg : org_ok s).
Local Abbreviation d := LPDDR5_std.
Local Abbreviation T := LPDDR5_traits.
Local Abbreviation banks := (banks d s).
Local Abbreviation bk := (bk d).
Local Abbreviation accessing := (accessing d s).
Local Abbreviation row_open := (row_open d).
Local Abbreviation lp_bufs := (act_bufs d s).
Local Abbreviation own := (own s).
Local Abbreviation owned := (owned s).

(** ** Transport of the invariant *)
Definition same_banks (dev dev' : DRAMDevice) : Prop := forall p, p ∈ banks -> bank_of dev' p = bank_of dev p.

Lemma own_same l l' p dl : m_act2_owner_valid l' = m_act2_owner_valid l -> m_act2_deadline l' = m_act2_deadline l ->
  own l' p dl <-> own l p dl.
Proof. intros H1 H2. unfold LpInv.own. by rewrite H1, H2. Qed.

Lemma owned_same l l' p : m_act2_owner_valid l' = m_act2_owner_valid l -> m_act2_deadline l' = m_act2_deadline l ->
  owned l' p <-> owned l p.
Proof. intros H1 H2. unfold LpInv.owned. by setoid_rewrite (own_same l l' p _ H1 H2). Qed.

(** Everything but the requests' commands in the activating buffer. *)
Record same_acts (l l' : LPDDR5Controller) : Prop := {
  sa_const : l_const l' = l_const l;
  sa_valid : m_act2_owner_valid l' = m_act2_owner_valid l;
  sa_deadline : m_act2_deadline l' = m_act2_deadline l;
  sa_keys : keys (m_activating_buffer l') = keys (m_activating_buffer l);
  sa_max : max_size (m_activating_buffer l') = max_size (m_activating_buffer l)
}.

Lemma acts_same n dev dev' l l' : lp_acts s n dev l -> same_banks dev dev' -> same_acts l l' ->
  (forall r, r ∈ buffer (m_activating_buffer l') -> req_ok d s n r) -> lp_acts s n dev' l'.
Proof.
  intros [A1 A2 A3 A4 A5 A6 A7 A8 A9 A10 A11] Hsame [S1 S2 S3 S4 S5] Hreq.
  split; rewrite ?S1, ?S2, ?S3, ?S4, ?S5; try done.
  - intros p. by rewrite (owned_same l l').
  - intros p b Hp Hb. rewrite (owned_same l l') by done. apply A10; [done|]. by rewrite <- Hsame.
  - intros p q dl. rewrite !(own_same l l') by done. apply A11.
Qed.

Lemma same_acts_base l c : same_acts l (with_l_base l c).
Proof. by split. Qed.

(** A calm change of the base that does not touch the banks. *)
Lemma inv_calm n l l' : lp_inv s n l -> ctrl_ok d s n (l_base l') -> 0 <= c_clk (l_base l') -> calm (l_base l) (l_base l') ->
  same_banks (c_device (l_base l)) (c_device (l_base l')) -> same_acts l l' ->
  (forall r, r ∈ buffer (m_activating_buffer l') -> req_ok d s n r) -> lp_inv s n l'.
Proof.
  intros [I1 I2 I3 I4] H1 H2 H3 H4 H5 H6. split; [done..| |].
  - apply (bufs_calm d s (l_base l)); [done..|]. intros k Hk. apply H4, (active_bank d cfg s LPDDR5_in Hcon (l_base l)); [apply I1|done..].
  - by apply (acts_same n (c_device (l_base l)) _ l).
Qed.

(** ** Scanning the activating buffer *)

(** Any ACT2 passes the timing check now; see [Settle]. *)
Definition act2_free (c : ControllerBase) : Prop := forall av b, ctrl_check_timing c lpACT2 av = Ok b -> b = true.

Lemma act2_id : get_command_id s "ACT2" = Ok lpACT2.
Proof. by apply (lp_id cfg s Hcon). Qed.

Lemma act2_range : 0 <= lpACT2 < command_count s.
Proof. by destruct (command_id_range d cfg s "ACT2" _ LPDDR5_in Hcon act2_id). Qed.

(** What the scan knows of the activating buffer after [k] requests. *)
Record scanning (n : nat) (l : LPDDR5Controller) (kind : Act2IssueKind) (k : nat) (st : act2_scan) : Prop := {
  sg_keys : map key (sc_buffer st) = keys (m_activating_buffer l);
  sg_reqs : forall r, r ∈ sc_buffer st -> req_ok d s n r;
  sg_some : forall i dl ar, sc_best st = Some (i, dl, ar) -> exists r, sc_buffer st !! i = Some r /\ command r = lpACT2 /\
    (kind = Urgent -> exists dl, own l (bk (key r)) dl /\ dl <= c_clk (l_base l));
  sg_none : sc_best st = None -> forall j r, (j < k)%nat -> sc_buffer st !! j = Some r ->
    kind = Urgent /\ forall dl, own l (bk (key r)) dl -> c_clk (l_base l) < dl
}.

Lemma owner_at n l r : lp_inv s n l -> r ∈ buffer (m_activating_buffer l) \/ key r ∈ keys (m_activating_buffer l) ->
  exists i p dl, get_flat_bank_id (c_device (l_base l)) (addr_vec r) = Ok (Z.of_nat i) /\ p = bk (key r) /\ banks !! i = Some p /\
    own l p dl /\ vget (m_act2_owner_valid l) (Z.of_nat i) = Ok true /\ vget (m_act2_deadline l) (Z.of_nat i) = Ok dl.
Proof.
  intros [I1 _ _ I4] Hr. assert (Hk : key r ∈ keys (m_activating_buffer l)).
  { destruct Hr as [Hr|]; [|done]. unfold keys. by apply (list_elem_of_fmap_2 key). }
  destruct (la_waiting _ _ _ _ I4 _ Hk) as [Hc _].
  destruct (flat_index d cfg s LPDDR5_in Hcon (c_device (l_base l)) (addr_vec r) (ck_dev _ _ _ _ I1) Hc) as (i & Hi & Hp).
  assert (Ho : owned l (bk (key r))) by (apply (la_owned _ _ _ _ I4); by apply (list_elem_of_fmap_2 bk)).
  destruct Ho as [dl Hdl]. exists i, (bk (key r)), dl. destruct (own_at s l i (bk (key r)) dl Hp Hdl). done.
Qed.

Lemma scanning_write n l kind k st it r best :
  scanning n l kind k st -> sc_buffer st !! it = Some r -> (it = k) ->
  (forall i dl ar, best = Some (i, dl, ar) -> sc_best st = Some (i, dl, ar) \/
     (i = it /\ (kind = Urgent -> exists dl, own l (bk (key r)) dl /\ dl <= c_clk (l_base l)))) ->
  (best = None -> sc_best st = None /\ kind = Urgent /\ forall dl, own l (bk (key r)) dl -> c_clk (l_base l) < dl) ->
  scanning n l kind (S k) (mkScan best (<[it := set_command r lpACT2]> (sc_buffer st))).
Proof.
  intros [G1 G2 G3 G4] Hr -> Hsome Hnone. pose proof (lookup_lt_Some _ _ _ Hr) as Hlt.
  split; cbn [sc_buffer sc_best].
  - rewrite <- G1. rewrite (list_fmap_insert key). apply list_insert_id. by rewrite list_lookup_fmap, Hr.
  - intros x [j Hj]%list_elem_of_lookup. destruct (decide (j = k)) as [->|Hne].
    + rewrite list_lookup_insert_eq in Hj by done. injection Hj as <-. apply req_ok_command, G2. by eapply list_elem_of_lookup_2.
    + rewrite list_lookup_insert_ne in Hj by done. apply G2. by eapply list_elem_of_lookup_2.
  - intros i dl ar Hb. destruct (decide (i = k)) as [->|Hne].
    + exists (set_command r lpACT2). rewrite list_lookup_insert_eq by done. split_and!; [done..|].
      intros Hk. destruct (Hsome k dl ar Hb) as [Ho|[_ Ho]]; [|by apply Ho].
      destruct (G3 k dl ar Ho) as (r0 & Hr0 & _ & Hu). rewrite Hr in Hr0. injection Hr0 as <-. by apply Hu.
    + rewrite list_lookup_insert_ne by done. destruct (Hsome i dl ar Hb) as [Ho|[-> _]]; [by apply (G3 i dl ar)|done].
  - intros Hb j x Hj Hx. destruct (Hnone Hb) as (Hn & Hk & Hd). destruct (decide (j = k)) as [->|Hne].
    + rewrite list_lookup_insert_eq in Hx by done. injection Hx as <-. done.
    + rewrite list_lookup_insert_ne in Hx by done. apply (G4 Hn j x); [lia|done].
Qed.

Lemma act2_step_safe n l kind k st : lp_inv s n l -> act2_free (l_base l) -> (forall p dl, own l p dl -> 0 <= dl) ->
  (k < length (buffer (m_activating_buffer l)))%nat -> scanning n l kind k st ->
  ends total (act2_step l kind st k) (scanning n l kind (S k)).
Proof.
  intros HI Hfree Hpos Hk Hst. assert (Hlen : length (sc_buffer st) = length (buffer (m_activating_buffer l))).
  { pose proof (f_equal length (sg_keys _ _ _ _ _ Hst)) as H. unfold keys in H. by rewrite !length_map in H. }
  destruct (lookup_lt_is_Some_2 (sc_buffer st) k) as [r Hr]; [lia|].
  assert (Hkey : key r ∈ keys (m_activating_buffer l)).
  { rewrite <- (sg_keys _ _ _ _ _ Hst). apply (list_elem_of_fmap_2 key). by eapply list_elem_of_lookup_2. }
  destruct (owner_at n l r HI (or_intror Hkey)) as (i & p & dl & Hi & -> & Hp & Ho & Hv & Hd).
  assert (Hro : req_ok d s n r) by (apply (sg_reqs _ _ _ _ _ Hst); by eapply list_elem_of_lookup_2).
  unfold act2_step. cbn zeta. rewrite Hr. cbn [of_option mbind res_bind]. rewrite Hi. cbn [mbind res_bind].
  rewrite Hv. cbn [mbind res_bind assert_]. rewrite Hd. cbn [mbind res_bind]. pose proof (Hpos _ _ Ho) as H0.
  rewrite (proj2 (Z.leb_le 0 dl) H0). cbn [assert_ mbind res_bind].
  change (addr_vec (set_command r _)) with (addr_vec r). rewrite (id_act2 _ (la_ids _ _ _ _ (li_acts _ _ _ HI))).
  destruct (check_safe d s (c_device (l_base l)) lpACT2 (addr_vec r) (c_clk (l_base l))) as [t Ht];
    [apply HI|apply act2_range|apply Hro|]. change (ctrl_check_timing (l_base l) lpACT2 (addr_vec r) = Ok t) in Ht.
  rewrite Ht. cbn [mbind res_bind]. apply Hfree in Ht as ->.
  assert (Huq : forall x, own l (bk (key r)) x -> x = dl) by (intros x Hx; by eapply (own_functional s l (bk (key r)))).
  assert (Hnew : (kind = Urgent -> dl <= c_clk (l_base l)) -> forall a,
    scanning n l kind (S k) (mkScan (Some (k, dl, a)) (<[k := set_command r lpACT2]> (sc_buffer st)))).
  { intros Hu a. apply (scanning_write n l kind k st k r); [done..| |done]. intros ? ? ? [= <- _ _]. right. split; [done|].
    intros Hk'. exists dl. auto. }
  assert (Hold : forall b, sc_best st = Some b ->
    scanning n l kind (S k) (mkScan (sc_best st) (<[k := set_command r lpACT2]> (sc_buffer st)))).
  { intros b Hb. apply (scanning_write n l kind k st k r); [done..|intros; by left|by rewrite Hb]. }
  assert (Hpick : (kind = Urgent -> dl <= c_clk (l_base l)) -> ends total
    match sc_best st with
    | Some (_, best_deadline, best_arrive) =>
        if (dl <? best_deadline) || ((dl =? best_deadline) && (arrive (set_command r lpACT2) <? best_arrive))
        then Ok (mkScan (Some (k, dl, arrive (set_command r lpACT2))) (<[k := set_command r lpACT2]> (sc_buffer st)))
        else Ok (mkScan (sc_best st) (<[k := set_command r lpACT2]> (sc_buffer st)))
    | None => Ok (mkScan (Some (k, dl, arrive (set_command r lpACT2))) (<[k := set_command r lpACT2]> (sc_buffer st)))
    end (scanning n l kind (S k))).
  { intros Hu. destruct (sc_best st) as [[[j bd] ba]|] eqn:Eb; [|by apply Hnew].
    apply ends_if; intros _; [by apply Hnew|]. by eapply Hold. }
  destruct kind.
  - rewrite orb_true_r, orb_false_r. cbn [assert_ mbind res_bind]. destruct (Z.ltb_spec (c_clk (l_base l)) dl); [|apply Hpick; lia].
    cbn. apply (scanning_write n l Urgent k st k r); [done..|intros; by left|]. intros Hb. split_and!; [done..|].
    intros x Hx. by rewrite (Huq x Hx).
  - cbn. by apply Hpick.
Qed.

(** The scan as a whole. *)
Record picked (n : nat) (l : LPDDR5Controller) (kind : Act2IssueKind) (o : option nat) (l' : LPDDR5Controller) : Prop := {
  pk_inv : lp_inv s n l';
  pk_acts : same_acts l l';
  pk_rest : l' = with_m_activating_buffer l (m_activating_buffer l');
  pk_some : forall i, o = Some i -> exists r, buffer (m_activating_buffer l') !! i = Some r /\ command r = lpACT2 /\
    (kind = Urgent -> exists dl, own l (bk (key r)) dl /\ dl <= c_clk (l_base l));
  pk_none : o = None -> match kind with Urgent => forall p dl, own l p dl -> c_clk (l_base l) < dl | Deferred => forall p, ~ owned l p end
}.

Lemma pick_act2_safe n l kind : lp_inv s n l -> act2_free (l_base l) -> (forall p dl, own l p dl -> 0 <= dl) ->
  ends total (pick_act2 kind l) (fun p => picked n l kind p.1 p.2).
Proof.
  intros HI Hfree Hpos. unfold pick_act2. cbn zeta. apply ends_bind. pose proof (li_acts _ _ _ HI) as HA. eapply ends_mono.
  - apply (ends_seq total (scanning n l kind)); [intros k st Hk; by apply act2_step_safe|].
    split; cbn; [done|apply HA|done|intros; lia].
  - intros st _ [G1 G2 G3 G4]. cbn [ends fst snd].
    assert (Hsa : same_acts l (with_m_activating_buffer l (mkBuf (sc_buffer st) (max_size (m_activating_buffer l))))) by (by split).
    split; [|done|done|..].
    + apply (inv_calm n l); [done|apply HI|apply HI|done|by intros ?|done|done].
    + intros i Hi. destruct (sc_best st) as [[[j bd] ba]|] eqn:Eb; [|done]. cbn in Hi. injection Hi as ->. by apply (G3 i bd ba).
    + intros Hn. destruct (sc_best st) as [[[j bd] ba]|] eqn:Eb; [done|]. specialize (G4 eq_refl).
      assert (Hall : forall p, owned l p -> kind = Urgent /\ forall dl, own l p dl -> c_clk (l_base l) < dl).
      { intros p Hp. apply (la_owned _ _ _ _ HA) in Hp. apply list_elem_of_fmap in Hp as (k & -> & Hk).
        rewrite <- G1 in Hk. apply list_elem_of_fmap in Hk as (r & -> & Hr). apply list_elem_of_lookup in Hr as [j Hj].
        apply (G4 j r); [|done]. apply lookup_lt_Some in Hj. pose proof (f_equal length G1) as H.
        unfold keys in H. rewrite !length_map in H. lia. }
      destruct kind; [intros p dl Ho; apply (Hall p); [by exists dl|done]|]. intros p Hp. by destruct (Hall p Hp).
Qed.

(** ** Issuing the chosen ACT2 *)
Lemma act2_effect dev av clk dev' :
  dev_ok d s dev -> concrete d s av -> readable d av -> issue_command dev lpACT2 av clk = Ok dev' ->
  (exists b row, bank_of dev' (bank_path d av) = Some b /\ m_state b = T_Opened T /\ vget av (T_Row T) = Ok row /\ row_present b row = true) /\
  forall q, q ∈ banks -> q <> bank_path d av -> bank_of dev' q = bank_of dev q.
Proof.
  intros Hok Hc Hrd Hi. pose proof (lp_effect cfg s Hcon Hs dev "ACT2" lpACT2 (Cmd_ACT2 T) av clk dev' eq_refl eq_refl Hok (conj Hrd Hc) Hi) as He.
  cbn [impl_action impl_target Cmd_ACT2] in He. split.
  - assert (Hp : bank_path d av ∈ banks) by (by apply (bk_bank d cfg s LPDDR5_in Hcon dev (av, 0))).
    destruct (proj1 (He _ Hp)) as (b & b' & _ & Ha & Hb'); [split; [by rewrite (dk_banks _ _ _ Hok)|done]|].
    unfold ACT2_action in Ha. apply bind_Ok_inv in Ha as (row & Hrow & [= <-]). exists (mkBank (T_Opened T) (<[row := T_Opened T]> (m_row_state b))), row.
    split_and!; try done. apply row_present_true. cbn. rewrite lookup_insert_eq. by eexists.
  - intros q Hq Hne. apply (proj2 (He q Hq)). by intros [_ ->].
Qed.

(** Releasing the owner of the bank that was opened. *)
Lemma acts_release n dev dev' l l' i r b' :
  lp_acts s n dev l -> buffer (m_activating_buffer l) !! i = Some r ->
  (forall q, q ∈ banks -> q <> bk (key r) -> bank_of dev' q = bank_of dev q) ->
  bank_of dev' (bk (key r)) = Some b' -> T_Activating T <> Some (m_state b') ->
  l_const l' = l_const l -> m_activating_buffer l' = remove (m_activating_buffer l) i ->
  length (m_act2_owner_valid l') = length banks -> length (m_act2_deadline l') = length banks ->
  (forall q x, own l' q x <-> if decide (q = bk (key r)) then false = true /\ x = -1 else own l q x) ->
  lp_acts s n dev' l'.
Proof.
  intros [A1 A2 A3 A4 A5 A6 A7 A8 A9 A10 A11] Hr Hsame Hb' Hst S1 S2 S3 S4 Ho.
  destruct (nodup_remove d _ i r A8 Hr) as [Hnd Hel].
  assert (Hod : forall q, owned l' q <-> owned l q /\ q <> bk (key r)).
  { intros q. split.
    - intros [x Hx%Ho]. case_decide; [by destruct Hx|]. split; [by exists x|done].
    - intros [[x Hx] Hne]. exists x. apply Ho. by rewrite decide_False. }
  split; rewrite ?S1, ?S2; try done.
  - intros x Hx%elem_of_erase. by apply A6.
  - intros k. rewrite keys_remove. intros Hk. apply A7. by eapply elem_of_erase.
  - intros q. rewrite Hod, Hel. by rewrite A9.
  - intros q b Hq Hb. rewrite Hod. destruct (decide (q = bk (key r))) as [->|Hne].
    + rewrite Hb' in Hb. injection Hb as <-. split; [done|]. by intros [_ ?].
    + rewrite (A10 q b Hq); [|by rewrite <- Hsame]. tauto.
  - intros q q' x Hq%Ho Hq'%Ho. repeat case_decide; try (by destruct Hq); try (by destruct Hq'). by eapply A11.
Qed.

(** What no step of a tick changes before the end of the tick. *)
Record steady (l l' : LPDDR5Controller) : Prop := {
  st_clk : c_clk (l_base l') = c_clk (l_base l);
  st_const : l_const l' = l_const l;
  st_cas : m_cas_issued l' = m_cas_issued l
}.

#[export] Instance steady_preorder : PreOrder steady.
Proof. split; [by intros l|]. intros x y z [A1 A2 A3] [B1 B2 B3]. split; congruence. Qed.

(** The invariant after the bank [p] was released. *)
Definition released (n : nat) (l : LPDDR5Controller) (p : list nat) (l' : LPDDR5Controller) : Prop :=
  lp_inv s n l' /\ steady l l' /\ forall q x, own l' q x <-> own l q x /\ q <> p.

Lemma waiting_request n l i r : lp_inv s n l -> buffer (m_activating_buffer l) !! i = Some r ->
  req_ok d s n r /\ accessing (key r) /\ readable d (addr_vec r) /\
  exists b, bank_of (c_device (l_base l)) (bk (key r)) = Some b /\ T_Activating T = Some (m_state b).
Proof.
  intros HI Hr. pose proof (li_acts _ _ _ HI) as HA. pose proof (ck_dev _ _ _ _ (li_base _ _ _ HI)) as Hok.
  assert (Hro : req_ok d s n r) by (apply (la_reqs _ _ _ _ HA); by eapply list_elem_of_lookup_2).
  assert (Hacc : accessing (key r)) by (apply (la_waiting _ _ _ _ HA); by eapply key_in_keys).
  split_and!; [done..| |].
  - by destruct (req_addr_row d cfg s LPDDR5_in Hcon (addr_vec r) (conj (proj1 Hacc) (ro_addr _ _ _ _ Hro))).
  - assert (Hp : bk (key r) ∈ banks) by (apply (bk_bank d cfg s LPDDR5_in Hcon (c_device (l_base l))); [done|apply Hacc]).
    destruct (bank_exists d s (c_device (l_base l)) (bk (key r)) Hok Hp) as [b Hb]. exists b. split; [done|].
    apply (la_state _ _ _ _ HA (bk (key r)) b Hp Hb), (la_owned _ _ _ _ HA). by eapply bk_in_keys.
Qed.

Lemma activating_not_open b : T_Activating T = Some (m_state b) -> m_state b <> T_Opened T.
Proof. cbn. intros [= H]. by rewrite <- H. Qed.

(** Releasing the bank once its ACT2 was issued. *)
Lemma promote_from_safe n l c i r :
  lp_inv s n l -> buffer (m_activating_buffer l) !! i = Some r -> (forall p dl, own l p dl -> c_clk (l_base l) <= dl) ->
  ctrl_ok d s n c -> calm (l_base l) c -> c_clk c = c_clk (l_base l) ->
  issue_command (c_device (l_base l)) lpACT2 (addr_vec r) (c_clk (l_base l)) = Ok (c_device c) ->
  ends total (promote_from_activating (with_l_base l c) i) (released n l (bk (key r))).
Proof.
  intros HI Hr Hdl Hc Hcalm Hclk Hiss. pose proof (li_acts _ _ _ HI) as HA. pose proof (ck_dev _ _ _ _ (li_base _ _ _ HI)) as Hok.
  destruct (waiting_request n l i r HI Hr) as (Hro & Hacc & Hrd & b & Hb & Hst).
  destruct (act2_effect (c_device (l_base l)) (addr_vec r) _ (c_device c) Hok (proj1 Hacc) Hrd Hiss) as [Hopen Hsame].
  change (bank_path d (addr_vec r)) with (bk (key r)) in Hopen, Hsame.
  pose proof (not_active d s (l_base l) (key r) b (li_bufs _ _ _ HI) Hb (activating_not_open b Hst)) as Hna.
  assert (HB : lp_bufs c).
  { apply (bufs_calm d s (l_base l)); [apply HI|done|]. intros k Hk. apply Hsame; [by apply (active_bank d cfg s LPDDR5_in Hcon (l_base l)); [|apply HI|]|].
    intros E. apply Hna. rewrite <- E. by apply (list_elem_of_fmap_2 bk). }
  assert (Hna' : bk (key r) ∉ map bk (keys (c_active_buffer c))) by (by rewrite (cm_keys _ _ Hcalm Bactive : keys (c_active_buffer c) = _)).
  assert (Hp : bk (key r) ∈ banks) by (apply (bk_bank d cfg s LPDDR5_in Hcon (c_device (l_base l))); [done|apply Hacc]).
  destruct (owner_at n l r HI) as (j & p & dl & Hj & -> & Hbj & Ho & Hv & Hd); [left; by eapply list_elem_of_lookup_2|].
  destruct (flat_index d cfg s LPDDR5_in Hcon (c_device c) (addr_vec r) (ck_dev _ _ _ _ Hc) (proj1 Hacc)) as (j' & Hj' & Hbj').
  rewrite (banks_inj d s _ _ _ Hbj' Hbj) in Hj'. clear j' Hbj'.
  unfold promote_from_activating, activating_at. cbn [m_activating_buffer with_l_base l_base]. rewrite Hr. cbn [of_option mbind res_bind].
  rewrite Hj'. cbn [mbind res_bind m_act2_owner_valid m_act2_deadline with_l_base]. rewrite Hv. cbn [mbind res_bind assert_]. rewrite Hd. cbn [mbind res_bind].
  rewrite Hclk, (proj2 (Z.leb_le _ _) (Hdl _ _ Ho)). cbn [assert_ mbind res_bind].
  apply ends_bind. eapply ends_mono; [apply (promote_safe d cfg s LPDDR5_in Hcon n c r Hc Hro (proj1 Hacc))|].
  intros [ok c1] Hpr Hc1. cbn [fst snd] in Hc1 |- *.
  assert (ok = true) as -> by (eapply (promote_room c r (ok, c1)); [by apply (active_room d cfg s LPDDR5_in Hcon c (key r)); [apply Hc|..]|done]).
  cbn [assert_ mbind res_bind]. pose proof (promote_frame c r c1 Hpr) as (_ & (F1 & _ & F2) & _).
  edestruct (set_owner_own s (with_m_activating_buffer (with_l_base (with_l_base l c) c1) (remove (m_activating_buffer l) i)) j (bk (key r)) false (-1))
    as (l' & Hl' & El' & Hown); [done|apply HA|apply HA|].
  change (m_activating_buffer (with_l_base l c)) with (m_activating_buffer l). rewrite Hl'. cbn [ends].
  assert (Hown' : forall q x, own l' q x <-> if decide (q = bk (key r)) then false = true /\ x = -1 else own l q x) by exact Hown.
  clear Hown Hl'. split; [|split].
  - split; [by subst l'|subst l'; cbn; rewrite F2, Hclk; apply HI| |].
    + replace (l_base l') with c1 by (by subst l'). apply (bufs_promote d cfg s LPDDR5_in Hcon c c1 r); [apply Hc|done..].
    + replace (l_base l') with c1 by (by subst l'). rewrite F1. destruct Hopen as (b1 & row & Hb1 & Hs1 & _).
      apply (acts_release n (c_device (l_base l)) (c_device c) l l' i r b1); try done; try (by subst l').
      * rewrite Hs1. done.
      * subst l'. cbn. rewrite length_insert. apply HA.
      * subst l'. cbn. rewrite length_insert. apply HA.
  - subst l'. split; [|done..]. cbn. congruence.
  - intros q x. rewrite Hown'. case_decide; [split; [by intros [? _]|by intros [_ ?]]|]. tauto.
Qed.

(** The statistics of the request are counted on its first command. *)
Lemma act2_stats_safe n l i r : lp_inv s n l -> buffer (m_activating_buffer l) !! i = Some r ->
  ends total (if is_stat_updated r then Ok l
              else
                let r := set_stat_updated r true in
                c ← count_row_outcome (l_base l) r;
                Ok (with_m_activating_buffer (with_l_base l c) (modify_at (m_activating_buffer l) i (fun _ => r))))
    (fun l' => lp_inv s n l' /\ steady l l' /\ same_acts l l' /\ exists r', buffer (m_activating_buffer l') !! i = Some r' /\ key r' = key r /\ command r' = command r).
Proof.
  intros HI Hr. apply ends_if; [intros _; split_and!; [done..|by exists r]|intros _]. cbn zeta.
  destruct (waiting_request n l i r HI Hr) as (Hro & _). pose proof (req_ok_stat d s n r true Hro) as Hro'.
  apply ends_bind. eapply ends_mono; [apply (count_row_safe d cfg s LPDDR5_in Hcon n); [apply HI|exact Hro']|].
  intros c Hcr Hc. destruct (count_row_outcome_quiet _ _ _ Hcr) as (Q1 & _ & Q3). cbn [ends].
  assert (Hsa : same_acts l (with_m_activating_buffer (with_l_base l c) (modify_at (m_activating_buffer l) i (fun _ => set_stat_updated r true)))).
  { split; try done. cbn. unfold keys, modify_at. cbn. apply list_eq. intros k. rewrite !list_lookup_fmap.
    destruct (decide (k = i)) as [->|Hne]; [by rewrite list_lookup_alter_eq, Hr|by rewrite list_lookup_alter_ne]. }
  split_and!; [|by split|done|].
  - apply (inv_calm n l); [done..|cbn; rewrite Q3; apply HI|by eapply calm_count_row|intros p _; cbn; by rewrite Q1|done|].
    cbn. intros x [j Hj]%list_elem_of_lookup. destruct (decide (j = i)) as [->|Hne].
    + rewrite list_lookup_alter_eq, Hr in Hj. cbn in Hj. by injection Hj as <-.
    + rewrite list_lookup_alter_ne in Hj by done. apply (la_reqs _ _ _ _ (li_acts _ _ _ HI)). by eapply list_elem_of_lookup_2.
  - exists (set_stat_updated r true). cbn. by rewrite list_lookup_alter_eq, Hr.
Qed.

Lemma lp_notify_safe n l r : ctrl_ok d s n (l_base l) -> c_rowpolicy (l_base l) = OpenRowPolicy -> req_ok d s n r ->
  0 <= command r < command_count s ->
  ends total (lp_notify l r) (fun l' => l' = with_l_base l (l_base l') /\ ctrl_ok d s n (l_base l') /\ notify (l_base l) r = Ok (l_base l')).
Proof.
  intros Hc Hp Hr Hcmd. unfold lp_notify, notify, rowpolicy_on_issue. rewrite Hp. cbn [mbind res_bind].
  pose proof (plugins_safe d cfg s LPDDR5_in Hcon n (l_base l) r Hc Hr Hcmd) as H.
  destruct (plugins_on_issue (l_base l) r) as [c|]; [|done]. done.
Qed.

Lemma released_same n l l1 p l' : lp_inv s n l1 -> steady l l1 -> same_acts l l1 -> released n l1 p l' -> released n l p l'.
Proof.
  intros _ Hst Hsa (H1 & H2 & H3). split_and!; [done|by etrans|]. intros q x. rewrite H3.
  by rewrite (own_same l l1 q x (sa_valid _ _ Hsa) (sa_deadline _ _ Hsa)).
Qed.

Lemma issue_owned_act2_safe n l i kind r :
  lp_inv s n l -> buffer (m_activating_buffer l) !! i = Some r -> command r = lpACT2 ->
  (forall p dl, own l p dl -> c_clk (l_base l) <= dl) ->
  ends total (issue_owned_act2 l i kind) (released n l (bk (key r))).
Proof.
  intros HI Hr Hcmd Hdl. pose proof (la_ids _ _ _ _ (li_acts _ _ _ HI)) as Hids.
  destruct (owner_at n l r HI) as (j & p & dl & Hj & -> & Hbj & Ho & Hv & Hd); [left; by eapply list_elem_of_lookup_2|].
  pose proof (Hdl _ _ Ho) as Hle. pose proof (li_clk _ _ _ HI) as H0. destruct (waiting_request n l i r HI Hr) as (Hro & _).
  assert (Hat : activating_at l i = Ok r) by (unfold activating_at; by rewrite Hr).
  unfold issue_owned_act2. rewrite Hat. cbn [mbind res_bind]. rewrite Hcmd, (id_act2 _ Hids), Z.eqb_refl. cbn [assert_ mbind res_bind].
  rewrite Hj. cbn [mbind res_bind]. rewrite Hv. cbn [assert_ mbind res_bind]. rewrite Hd. cbn [mbind res_bind].
  rewrite (proj2 (Z.leb_le _ _) Hle), (proj2 (Z.leb_le 0 dl)) by lia. cbn [andb assert_ mbind res_bind].
  apply ends_bind. eapply ends_mono; [by apply (act2_stats_safe n l i r)|]. intros l1 _ (HI1 & Hst1 & Hsa1 & r1 & Hr1 & Ek & Ec).
  destruct (waiting_request n l1 i r1 HI1 Hr1) as (Hro1 & Hacc1 & Hrd1 & b & Hb & Hact).
  assert (Eav : addr_vec r = addr_vec r1) by (by injection Ek).
  rewrite (sa_const _ _ Hsa1), (id_act2 _ Hids), Eav.
  assert (Hissu : issuable d s (c_device (l_base l1)) lpACT2 (addr_vec r1)).
  { right. split_and!; [done|apply Hacc1|]. exists b. split; [done|]. right. right. split_and!; [by eexists|done|done]. }
  apply ends_bind. eapply ends_mono; [apply (issue_ctrl_safe d cfg s LPDDR5_in Hcon Hs n); [apply HI1|done|apply Hro1]|].
  intros c Hi [Hc _]. destruct (issue_frame _ _ _ _ Hi) as (Fc & _ & Fk & Fi).
  assert (Hat1 : activating_at l1 i = Ok r1) by (unfold activating_at; by rewrite Hr1). rewrite Hat1. cbn [mbind res_bind].
  assert (Hpol : c_rowpolicy c = OpenRowPolicy) by (rewrite (cm_policy _ _ Fc); apply (ab_policy _ _ _ (li_bufs _ _ _ HI1))).
  apply ends_bind. eapply ends_mono; [apply (lp_notify_safe n (with_l_base l1 c) r1 Hc Hpol Hro1)|].
  { rewrite Ec, Hcmd. apply act2_range. }
  intros l2 _ (El2 & Hc2 & Hn). cbn in Hn. destruct (notify_frame c r1 _ Hpol Hn) as (N1 & (N2 & _ & N3) & _).
  apply ends_bind. eapply ends_mono.
  - rewrite El2. cbn. apply (promote_from_safe n l1 (l_base l2) i r1 HI1 Hr1).
    + intros q x Hx. rewrite (st_clk _ _ Hst1). apply (Hdl q x). by apply (own_same l l1 q x (sa_valid _ _ Hsa1) (sa_deadline _ _ Hsa1)).
    + done.
    + by etrans.
    + congruence.
    + by rewrite N2.
  - intros l3 _ H3. rewrite Ek in H3. apply (released_same n l l1) in H3; [|done..]. destruct H3 as ([I1 I2 I3 I4] & [J1 J2 J3] & H3). cbn.
    destruct kind; (split; [|split; [by split|exact H3]]); (split; [done..|]); by destruct I4.
Qed.
End Act2.
