(* ===== verification/LpGuards.v ===== *)
(** * LpGuards: what the LPDDR5 controller's filters guarantee

    A command that passed [would_close_active] closes no bank an active
    request needs; one that passed [would_block_activating] touches no bank
    between its ACT1 and its ACT2.  With the answer of the device for the
    request's final command this leaves three kinds of candidates: an access
    to an open row, the ACT1 of a closed bank, and a precharge or refresh of
    banks that are neither active nor activating. *)
From stdpp Require Import prelude gmap strings.
From S2P Require Import Prelude DramSpec Commands Standards Node NodeTiming NodeTree Device DeviceInv DeviceProps BankSafety BankProgress IssueSafety Request BitUtils AddrMapper Float32 ControllerState Controller Refresh NodeAddr HbmRefresh RowPolicy ControllerInit GenericDdr ControllerSafety Hbm Lpddr5 Controllers ControllerTrace Settle ServeSafety TickSafety Bookkeeping ServeFrame ActiveInv LpInv LpAct2.
Open Scope Z_scope.

Local Abbreviation total := (fun _ : err => False).

(** A search for a bank whose flag is set. *)
Definition search (flags : list bool) (found : bool) (i : Z) : res (bool * bool) :=
  o ← vget flags i; if (o : bool) then Ok (true, false) else Ok (found, true).

Lemma search_none flags keep ids st b : visit_loop (search flags) keep ids st = Ok (false, b) ->
  forall i, i ∈ ids -> keep i = Ok false \/ vget flags i = Ok false.
Proof.
  revert st. induction ids as [|j ids IH]; intros st H i Hi; [by apply not_elem_of_nil in Hi|]. cbn [visit_loop] in H.
  apply bind_Ok_inv in H as (k & Hk & H). apply elem_of_cons in Hi. destruct k.
  - apply bind_Ok_inv in H as ([r1 r2] & Hr & H). unfold search in Hr. apply bind_Ok_inv in Hr as (o & Ho & Hr).
    destruct o; injection Hr as <- <-; [discriminate|]. cbn in H. destruct Hi as [->|Hi]; [by right|by eapply IH].
  - destruct Hi as [->|Hi]; [by left|by eapply IH].
Qed.

Section Guards.
Context (cfg : dram_config) (s : DRAMSpec).
Context (Hcon : construct LPDDR5_std cfg = Ok s) (Hs : spec_ok s) (Horg : org_ok s).
Local Abbreviation d := LPDDR5_std.
Local Abbreviation T := LPDDR5_traits.
Local Abbreviation banks := (banks d s).
Local Abbreviation bk := (bk d).
Local Abbreviation accessing := (accessing d s).
Local Abbreviation row_open := (row_open d).
Local Abbreviation lp_bufs := (act_bufs d s).
Local Abbreviation own := (own s).
Local Abbreviation owned := (owned s).

(** ** Touching a bank that is being activated *)
Lemma would_block_false n l cmd av name ci :
  lp_inv s n l -> named d s cmd name ci -> is_closing (impl_meta ci) || is_refreshing (impl_meta ci) = true ->
  addr_for d s (impl_target ci) av -> would_block_activating l cmd av = Ok false ->
  forall p, owned l p -> ~ reaches d (c_device (l_base l)) (impl_target ci) av p.
Proof.
  intros HI Hcmd Hcl [Hrd Hav] H p Hp [_ Hre]. pose proof (ck_dev _ _ _ _ (li_base _ _ _ HI)) as Hok.
  destruct (named_meta d cfg s LPDDR5_in Hcon _ _ _ Hcmd) as (m & Hm & Es). destruct (named_handlers d cfg s LPDDR5_in Hcon _ name ci Hcmd) as [Hh _].
  pose proof (of_zlookup _ _ _ (ha_target _ _ _ Hh)) as Ht.
  unfold would_block_activating, for_each_target_bank_while, spec_of in H. rewrite (dk_spec _ _ _ Hok), Hm, Ht in H. cbn [mbind res_bind] in H.
  assert (Ecl : negb (is_closing m) && negb (is_refreshing m) = false).
  { change (is_closing m) with (is_closing (strip_bus m)). change (is_refreshing m) with (is_refreshing (strip_bus m)). rewrite Es.
    cbn. by rewrite <- negb_orb, Hcl. }
  rewrite Ecl in H. destruct Hp as [dl Hp]. pose proof (own_bank s l p dl Hp) as Hpb.
  destruct (bank_index_of d s (c_device (l_base l)) p Hok Hpb) as (j & Hj & Hpj & Hin).
  destruct (own_at s l j p dl Hj Hp) as [Hv _].
  destruct (impl_target ci) eqn:Et; [..|done].
  - destruct (flat_index d cfg s LPDDR5_in Hcon (c_device (l_base l)) av Hok Hav) as (i & Hi & Hbi). rewrite <- Hre in Hbi.
    rewrite Hi, (banks_inj d s _ _ _ Hbi Hj) in H. cbn [mbind res_bind] in H. rewrite Hv in H. discriminate.
  - apply bind_Ok_inv in H as ([f b] & Hl & H). cbn in H. injection H as ->.
    destruct (search_none (m_act2_owner_valid l) _ _ _ _ Hl (Z.of_nat j) Hin) as [Hk|Hk].
    + rewrite (bank_matches_spec d s (c_device (l_base l)) av _ p Hok Hrd Hpj), bool_decide_true in Hk by done. discriminate.
    + rewrite Hv in Hk. discriminate.
Qed.

(** ** The filter never fails *)
Lemma lp_acts_id l n : lp_inv s n l -> l_cmd_act2 (l_const l) = lpACT2.
Proof. intros HI. apply (id_act2 _ (la_ids _ _ _ _ (li_acts _ _ _ HI))). Qed.

Lemma issuable_act2 n l av : lp_inv s n l -> issuable d s (c_device (l_base l)) lpACT2 av ->
  exists j : nat, get_flat_bank_id (c_device (l_base l)) av = Ok (Z.of_nat j) /\ vget (m_act2_owner_valid l) (Z.of_nat j) = Ok true.
Proof.
  intros HI [(name & c & Hop & Hid & _)|(_ & Hav & b & Hb & Ho)].
  { exfalso. apply Hop. rewrite (command_id_inj d cfg s name "ACT2" lpACT2 LPDDR5_in Hcon Hid); [closed_elem|by apply (lp_id cfg s Hcon)]. }
  pose proof (ck_dev _ _ _ _ (li_base _ _ _ HI)) as Hok. destruct (flat_index d cfg s LPDDR5_in Hcon _ av Hok Hav) as (j & Hj & Hbj).
  assert (Hst : T_Activating T = Some (m_state b)) by (destruct Ho as [[? _]|[(_ & ? & _)|(_ & _ & ?)]]; done).
  assert (Hp : bank_path d av ∈ banks) by (by eapply list_elem_of_lookup_2).
  destruct (proj1 (la_state _ _ _ _ (li_acts _ _ _ HI) _ b Hp Hb) Hst) as [dl Ho'].
  exists j. split; [done|]. by destruct (own_at s l j _ dl Hbj Ho').
Qed.

Lemma owned_candidate n l r : lp_inv s n l -> issuable d s (c_device (l_base l)) (command r) (addr_vec r) ->
  is_owned_act2_candidate l r = Ok (negb (command r =? lpACT2)).
Proof.
  intros HI Hi. unfold is_owned_act2_candidate. rewrite (lp_acts_id l n HI). destruct (Z.eqb_spec (command r) lpACT2) as [E|E]; [|done].
  rewrite E in Hi. destruct (issuable_act2 n l (addr_vec r) HI Hi) as (j & -> & Hv). cbn [negb mbind res_bind]. by rewrite Hv.
Qed.

Lemma would_block_total n l cmd av : lp_inv s n l -> issuable d s (c_device (l_base l)) cmd av -> is_Ok (would_block_activating l cmd av).
Proof.
  intros HI Hi. pose proof (li_base _ _ _ HI) as Hc. pose proof (ck_dev _ _ _ _ Hc) as Hok.
  destruct (meta_of d cfg s LPDDR5_in Hcon n (l_base l) Hc cmd av Hi) as (name & ci & m & _ & _ & [Hrd Hav] & Hm & _ & Ht & _).
  unfold would_block_activating, for_each_target_bank_while. rewrite Hm. cbn [mbind res_bind]. destruct (_ && _); [by eexists|].
  unfold spec_of in Ht. rewrite Ht. cbn [mbind res_bind].
  assert (Hget : forall i, i ∈ seqZ 0 (Z.of_nat (length (m_bank_nodes (c_device (l_base l))))) -> exists o, vget (m_act2_owner_valid l) i = Ok o).
  { intros i Hi'%elem_of_seqZ. apply vget_is_Ok. rewrite (la_valid _ _ _ _ (li_acts _ _ _ HI)). rewrite (dk_banks _ _ _ Hok) in Hi'. unfold ActiveInv.banks. lia. }
  destruct (impl_target ci); [..|done].
  - destruct (flat_in_range d cfg s LPDDR5_in Hcon n (l_base l) Hc av Hav) as (i & -> & Hr). cbn [mbind res_bind].
    destruct (Hget i) as [o ->]; [apply elem_of_seqZ; lia|]. destruct o; by eexists.
  - edestruct (visit_loop_total (fun _ : bool => True)) as (r & Hr & _); [..|rewrite Hr; by eexists]; [| |done].
    + intros i Hi'. destruct (elem_of_index (c_device (l_base l)) i Hi') as [p Hp].
      rewrite (bank_matches_spec d s _ av i p Hok Hrd Hp). by eexists.
    + intros st i Hi' _. destruct (Hget i Hi') as [o Ho]. rewrite Ho. destruct o; by eexists.
Qed.

Lemma lp_filter_ok n l : lp_inv s n l -> filter_ok d s n (l_base l) (lp_filter l).
Proof.
  intros HI r Hr Hi. cbn. rewrite (owned_candidate n l r HI Hi). cbn [mbind res_bind]. destruct (negb (negb _)); [by eexists|].
  destruct (would_block_total n l _ _ HI Hi) as [b ->]. by eexists.
Qed.

Lemma lp_filter_passed n l r : lp_inv s n l -> issuable d s (c_device (l_base l)) (command r) (addr_vec r) -> run_filter (lp_filter l) r = Ok true ->
  command r <> lpACT2 /\ would_block_activating l (command r) (addr_vec r) = Ok false.
Proof.
  intros HI Hi. cbn. rewrite (owned_candidate n l r HI Hi). cbn [mbind res_bind]. destruct (Z.eqb_spec (command r) lpACT2); [done|].
  cbn [negb]. intros (b & Hb & H)%bind_Ok_inv. split; [done|]. rewrite Hb. by destruct b.
Qed.

(** ** What the device answers for an access *)
Lemma lp_access_resolved n c r : ctrl_ok d s n c -> req_ok d s n r -> accessing (key r) ->
  ctrl_get_preq_command c (final_command r) (addr_vec r) = Ok (command r) ->
  exists b row, bank_of (c_device c) (bk (key r)) = Some b /\ vget (addr_vec r) (T_Row T) = Ok row /\
    ((command r = final_command r /\ m_state b = T_Opened T /\ row_present b row = true) \/
     (command r = lpPREpb /\ m_state b = T_Opened T /\ row_present b row = false) \/
     (command r = lpACT1 /\ m_state b = T_Closed T) \/
     (command r = lpACT2 /\ T_Activating T = Some (m_state b))).
Proof.
  intros Hc Hr Hacc Hpre. destruct (access_resolved d cfg s LPDDR5_in Hcon n c r Hc Hr Hacc Hpre) as (b & row & bc & Hb & _ & Hrow & _ & Hcmd & Hbc).
  exists b, row. split_and!; [done..|]. destruct bc; cbn in Hcmd.
  - by destruct Hbc.
  - right; right; left. by destruct Hbc.
  - by right; right; right.
  - right; left. by destruct Hbc.
  - left. by destruct Hbc.
Qed.

(** A maintenance command is none of the others. *)
Lemma maint_neq i ci name j : maint d s i ci -> name_at (std_commands d) j name = true -> name ∉ maint_names -> i <> j.
Proof.
  intros (n1 & Hn & Hid & _) Hj Hno ->. apply Hno.
  by rewrite (command_id_inj d cfg s name n1 j LPDDR5_in Hcon (lp_id cfg s Hcon name j Hj) Hid).
Qed.

(** A read or write by number. *)
Lemma accessing_num k : accessing k -> k.2 = lpRD \/ k.2 = lpWR.
Proof.
  intros [_ (name & Hn & Hid)]. unfold rw_names in Hn. repeat (apply elem_of_cons in Hn as [->|Hn]); [..|by apply not_elem_of_nil in Hn].
  - left. rewrite (lp_id cfg s Hcon "RD" lpRD eq_refl) in Hid. by injection Hid.
  - right. rewrite (lp_id cfg s Hcon "WR" lpWR eq_refl) in Hid. by injection Hid.
Qed.
End Guards.

(** ** The candidates of the LPDDR5 controller

    [kind] lists what a candidate can be; [select_normal_candidate] returns
    one of these kinds, ready in the current cycle, and keeps the invariant. *)
Section Select.
Context (cfg : dram_config) (s : DRAMSpec).
Context (Hcon : construct LPDDR5_std cfg = Ok s) (Hs : spec_ok s) (Horg : org_ok s).
Local Abbreviation d := LPDDR5_std.
Local Abbreviation T := LPDDR5_traits.
Local Abbreviation banks := (banks d s).
Local Abbreviation bk := (bk d).
Local Abbreviation accessing := (accessing d s).
Local Abbreviation row_open := (row_open d).
Local Abbreviation lp_bufs := (act_bufs d s).
Local Abbreviation own := (own s).
Local Abbreviation owned := (owned s).

Inductive kind (l : LPDDR5Controller) (b : buf_id) (r : Request) : Prop :=
| k_access :
    b <> Bpriority -> accessing (key r) -> command r = final_command r -> row_open (c_device (l_base l)) (key r) -> kind l b r
| k_act1 bs :
    b = Bread \/ b = Bwrite -> accessing (key r) -> command r = lpACT1 ->
    bank_of (c_device (l_base l)) (bk (key r)) = Some bs -> m_state bs = T_Closed T -> kind l b r
| k_maint ci :
    b <> Bactive -> maint d s (command r) ci -> addr_for d s (impl_target ci) (addr_vec r) ->
    (is_closing (impl_meta ci) = true -> forall p, p ∈ map bk (keys (c_active_buffer (l_base l))) \/ owned l p ->
       ~ reaches d (c_device (l_base l)) (impl_target ci) (addr_vec r) p) ->
    kind l b r.

(** A candidate of a known kind that may be issued now. *)
Definition lp_cand (l : LPDDR5Controller) (cand : Candidate) : Prop :=
  match cand with
  | None => True
  | Some (b, i) => exists r, buffer (get_buf (l_base l) b) !! i = Some r /\
      ctrl_check_timing (l_base l) (command r) (addr_vec r) = Ok true /\ kind l b r
  end.

(** What a pick leaves of the controller. *)
Definition picks_lp (n : nat) (l l' : LPDDR5Controller) : Prop :=
  lp_inv s n l' /\ quiet (l_base l) (l_base l') /\ l' = with_l_base l (l_base l').

Lemma picks_lp_trans n l l1 l2 : picks_lp n l l1 -> picks_lp n l1 l2 -> picks_lp n l l2.
Proof.
  intros (_ & H1 & E1) (H2 & H3 & E2). split_and!; [done|by etrans|]. rewrite E2. by rewrite E1 at 1.
Qed.

Lemma picks_lp_intro n l c : lp_inv s n l -> ctrl_ok d s n c -> calm (l_base l) c -> quiet (l_base l) c -> picks_lp n l (with_l_base l c).
Proof.
  intros HI Hc Hcalm Hq. pose proof Hq as (Q1 & _ & Q3). split_and!; [|done..].
  apply (inv_calm cfg s Hcon n l); [done|done|cbn; rewrite Q3; apply HI|done|intros p _; cbn; by rewrite Q1|apply same_acts_base|].
  apply (la_reqs _ _ _ _ (li_acts _ _ _ HI)).
Qed.

Lemma request_known n l c b i r : lp_inv s n l -> ctrl_ok d s n c -> calm (l_base l) c -> buffer (get_buf c b) !! i = Some r ->
  req_ok d s n r /\ key r ∈ keys (get_buf (l_base l) b).
Proof.
  intros HI Hc Hcalm Hr. split; [apply (ck_reqs _ _ _ _ Hc b); by eapply list_elem_of_lookup_2|].
  rewrite <- (cm_keys _ _ Hcalm b). by eapply key_in_keys.
Qed.

(** The active buffer: its rows are open, so it only offers accesses. *)
Lemma pick_active_safe n l : lp_inv s n l ->
  ends total (pick_best_ready_from (l_base l) Bactive None) (fun p => picks_lp n l (with_l_base l p.2) /\ lp_cand (with_l_base l p.2) p.1).
Proof.
  intros HI. pose proof (li_base _ _ _ HI) as Hc. eapply ends_mono.
  { eapply (pick_best_safe d cfg s LPDDR5_in Hcon n (l_base l) Hc None). intros r _ _. by eexists. }
  intros [cand c] Hp [Hc' _]. destruct (pick_best_frame _ _ _ _ Hp) as (Hcalm & Hq & Hsel). cbn [fst snd] in *.
  split; [by apply picks_lp_intro|]. destruct cand as [[b i]|]; [|done]. destruct (Hsel b i eq_refl) as (-> & r & [K1 K2 K3 _]).
  exists r. split; [done|]. split; [by rewrite <- K3; apply check_timing_quiet|].
  destruct (request_known n l c Bactive i r HI Hc' Hcalm K1) as [Hr Hk].
  destruct (ab_active _ _ _ (li_bufs _ _ _ HI) _ Hk) as [Hacc Hop].
  destruct (lp_access_resolved cfg s Hcon n (l_base l) r Hc Hr Hacc K2) as (bs & row & Hb & Hrow & Hcase).
  assert (Hop' : row_open (c_device c) (key r)) by (by destruct Hq as (-> & _)).
  destruct Hop as (b' & row' & Hb' & Hst & Hrow' & Hpr). rewrite Hb in Hb'. injection Hb' as <-.
  change (vget (addr_vec r) (T_Row T) = Ok row') in Hrow'. rewrite Hrow in Hrow'. injection Hrow' as <-.
  apply k_access; [done..| |done]. destruct Hcase as [[? _]|[(_ & _ & ?)|[[_ ?]|[_ ?]]]]; [done|congruence..| |].
  - rewrite Hst in *. done.
  - rewrite Hst in *. done.
Qed.

(** A precharge or refresh that passed both guards. *)
Lemma maint_kind n l l' b r ci :
  lp_inv s n l -> picks_lp n l l' -> calm (l_base l) (l_base l') -> b <> Bactive -> maint d s (command r) ci ->
  addr_for d s (impl_target ci) (addr_vec r) -> would_close_active (l_base l) r = Ok false \/ would_close_active (l_base l') r = Ok false ->
  would_block_activating l (command r) (addr_vec r) = Ok false -> kind l' b r.
Proof.
  intros HI (HI' & (Q1 & _) & El) Hcalm Hb Hm Hav Hclose Hblock. destruct (maint_named d s _ _ Hm) as (name & _ & _ & Hn).
  apply (k_maint l' b r ci); [done..|]. intros Hcl p Hp. rewrite Q1. destruct Hp as [Hp|Hp].
  - destruct Hclose as [Hclose|Hclose].
    + eapply (would_close_false d cfg s LPDDR5_in Hcon n (l_base l) r name ci); [apply HI|apply HI|done..|].
      by rewrite <- (cm_keys _ _ Hcalm Bactive : keys (c_active_buffer (l_base l')) = keys (c_active_buffer (l_base l))).
    + rewrite <- Q1. eapply (would_close_false d cfg s LPDDR5_in Hcon n (l_base l') r name ci); [apply HI'|apply HI'|done..].
  - assert (Ho : owned l p) by (rewrite El in Hp; exact Hp).
    eapply (would_block_false cfg s Hcon n l _ _ name ci); [done|done|by rewrite Hcl|done..].
Qed.

Lemma pick_priority_lp n l : lp_inv s n l ->
  ends total (pick_priority_if (l_base l) (lp_filter l)) (fun p => picks_lp n l (with_l_base l p.2) /\ lp_cand (with_l_base l p.2) p.1).
Proof.
  intros HI. pose proof (li_base _ _ _ HI) as Hc. eapply ends_mono.
  { eapply (pick_priority_safe d cfg s LPDDR5_in Hcon n (l_base l) Hc). by apply (lp_filter_ok cfg s Hcon). }
  intros [cand c] Hp [Hc' Hcand]. destruct (pick_priority_frame _ _ _ Hp) as (Hcalm & Hq & Hsel). cbn [fst snd] in *.
  pose proof (picks_lp_intro n l c HI Hc' Hcalm Hq) as Hpk. split; [done|]. destruct cand as [[b i]|]; [|done].
  destruct (Hsel b i eq_refl) as (-> & r & [K1 K2 K3 K4] & Hclose).
  exists r. split; [done|]. split; [by rewrite <- K3; apply check_timing_quiet|].
  destruct (request_known n l c Bpriority i r HI Hc' Hcalm K1) as [Hr Hk].
  destruct (maint_resolved d cfg s LPDDR5_in Hcon n (l_base l) r Hc Hr (ab_prio _ _ _ (li_bufs _ _ _ HI) _ Hk) K2) as (ci & Hm & Hav & _).
  apply (maint_kind n l _ Bpriority r ci); try done; [by right|].
  eapply (lp_filter_passed cfg s Hcon n l r HI); [|done]. eapply (get_preq_safe d cfg s LPDDR5_in Hcon); [apply Hc|apply Hr|exact K2].
Qed.

Lemma pick_rw_lp n l : lp_inv s n l ->
  ends total (pick_rw_if (l_base l) (lp_filter l)) (fun p => picks_lp n l (with_l_base l p.2) /\ lp_cand (with_l_base l p.2) p.1).
Proof.
  intros HI. pose proof (li_base _ _ _ HI) as Hc. eapply ends_mono.
  { eapply (pick_rw_safe d cfg s LPDDR5_in Hcon n (l_base l)); [done|]. by apply (lp_filter_ok cfg s Hcon). }
  intros [cand c] Hp [Hc' Hcand]. destruct (pick_rw_frame _ _ _ Hp) as (Hcalm & Hq & Hsel). cbn [fst snd] in *.
  pose proof (picks_lp_intro n l c HI Hc' Hcalm Hq) as Hpk. split; [done|]. destruct cand as [[b i]|]; [|done].
  destruct (Hsel b i eq_refl) as (Hbb & r & [K1 K2 K3 K4] & Hclose).
  exists r. split; [done|]. split; [by rewrite <- K3; apply check_timing_quiet|].
  destruct (request_known n l c b i r HI Hc' Hcalm K1) as [Hr Hk].
  assert (Hacc : accessing (key r)) by (by apply (ab_rw _ _ _ (li_bufs _ _ _ HI) b)).
  assert (Hiss : issuable d s (c_device (l_base l)) (command r) (addr_vec r))
    by (eapply (get_preq_safe d cfg s LPDDR5_in Hcon); [apply Hc|apply Hr|exact K2]).
  destruct (lp_filter_passed cfg s Hcon n l r HI Hiss K4) as [Hn2 Hblock].
  destruct (lp_access_resolved cfg s Hcon n (l_base l) r Hc Hr Hacc K2) as (bs & row & Hb & Hrow & Hcase). destruct Hq as (Q1 & _).
  destruct Hcase as [(Ef & Hst & Hpr)|[(Ef & Hst & _)|[[Ef Hst]|[? _]]]]; [| | |done].
  - apply k_access; [destruct Hbb as [-> | ->]; done|done..|]. exists bs, row. cbn. by rewrite Q1.
  - destruct (req_addr_row d cfg s LPDDR5_in Hcon (addr_vec r) (conj (proj1 Hacc) (ro_addr _ _ _ _ Hr))) as [Hrd _].
    apply (maint_kind n l _ b r (Cmd_PREpb T)); try done; [destruct Hbb as [-> | ->]; done|rewrite Ef; apply (maint_pre d cfg s LPDDR5_in Hcon)|split; [done|apply Hacc]|by left].
  - apply (k_act1 _ b r bs); [done..| |done]. cbn. by rewrite Q1.
Qed.

Lemma select_normal_safe n l : lp_inv s n l ->
  ends total (select_normal_candidate l) (fun p => picks_lp n l p.2 /\ lp_cand p.2 p.1).
Proof.
  intros HI. unfold select_normal_candidate. apply ends_bind. eapply ends_mono; [by apply pick_active_safe|].
  intros p _ [H1 H2]. apply ends_bind. apply (ends_mono _ _ (fun q => picks_lp n l (with_l_base l q.2) /\ lp_cand (with_l_base l q.2) q.1)).
  { apply ends_if; [done|intros _]. eapply ends_mono; [apply (pick_priority_lp n (with_l_base l p.2)), H1|].
    intros q _ [H3 H4]. split; [by eapply picks_lp_trans|exact H4]. }
  intros q _ [H3 H4]. apply ends_bind. apply (ends_mono _ _ (fun q => picks_lp n l (with_l_base l q.2) /\ lp_cand (with_l_base l q.2) q.1)).
  { apply ends_if; [done|intros _]. eapply ends_mono; [apply (pick_rw_lp n (with_l_base l q.2)), H3|].
    intros o _ [H5 H6]. split; [by eapply picks_lp_trans|exact H6]. }
  intros o _ Ho. exact Ho.
Qed.
End Select.
