(* ===== verification/LpServe.v ===== *)
(** * LpServe: serving a candidate of the LPDDR5 controller

    Issuing a candidate of a known kind keeps the invariant: an access
    retires its request, an ACT1 moves it to the activating buffer with a new
    deadline, maintenance closes banks nobody needs; the CAS path leaves the
    access ready for the next cycle. *)
From stdpp Require Import prelude gmap strings.
From S2P Require Import Prelude DramSpec Commands Standards Node NodeTiming NodeTree Device DeviceInv DeviceProps BankSafety BankProgress IssueSafety Request BitUtils AddrMapper Float32 ControllerState Controller Refresh NodeAddr HbmRefresh RowPolicy ControllerInit GenericDdr ControllerSafety Hbm Lpddr5 Controllers ControllerTrace Settle ServeSafety TickSafety Bookkeeping ServeFrame ActiveInv LpInv LpAct2 LpGuards.
Open Scope Z_scope.

Local Abbreviation total := (fun _ : err => False).

Section Serve.
Context (cfg : dram_config) (s : DRAMSpec).
Context (Hcon : construct LPDDR5_std cfg = Ok s) (Hs : spec_ok s) (Horg : org_ok s).
Local Abbreviation d := LPDDR5_std.
Local Abbreviation T := LPDDR5_traits.
Local Abbreviation banks := (banks d s).
Local Abbreviation bk := (bk d).
Local Abbreviation accessing := (accessing d s).
Local Abbreviation row_open := (row_open d).
Local Abbreviation lp_bufs := (act_bufs d s).
Local Abbreviation own := (own s).
Local Abbreviation owned := (owned s).

(** ** Retiring a request *)
(** ** Effects on the banks *)

(** Every bank stays, or was closed while nobody needed it. *)
Definition harmless (l : LPDDR5Controller) (dev' : DRAMDevice) : Prop := forall q, q ∈ banks ->
  bank_of dev' q = bank_of (c_device (l_base l)) q \/
  ((q ∉ map bk (keys (c_active_buffer (l_base l)))) /\ ~ owned l q /\ bank_of dev' q = Some (mkBank (T_Closed T) ∅)).

Lemma inv_harmless n l c : lp_inv s n l -> ctrl_ok d s n c -> calm (l_base l) c -> c_clk c = c_clk (l_base l) ->
  harmless l (c_device c) -> lp_inv s n (with_l_base l c).
Proof.
  intros HI Hc Hcalm Hclk Hh. pose proof (ck_dev _ _ _ _ (li_base _ _ _ HI)) as Hok. pose proof HI as [I1 I2 I3 I4]. split; [done|cbn; lia| |].
  - apply (bufs_calm d s (l_base l)); [done..|]. intros k Hk. destruct (Hh (bk k)) as [?|(Hn & _)]; [by apply (active_bank d cfg s LPDDR5_in Hcon (l_base l))|done|].
    exfalso. apply Hn. by apply (list_elem_of_fmap_2 bk).
  - pose proof I4 as [A1 A2 A3 A4 A5 A6 A7 A8 A9 A10 A11]. split; try done. intros p b Hp Hb.
    change (owned (with_l_base l c) p) with (owned l p). cbn in Hb. destruct (Hh p Hp) as [E|(_ & Hno & E)]; rewrite E in Hb; [by apply A10|].
    injection Hb as <-. cbn. split; [done|]. by intros ?%Hno.
Qed.

Lemma access_harmless l cmd av clk dev' : dev_ok d s (c_device (l_base l)) -> cmd = lpRD \/ cmd = lpWR \/ cmd = lpCAS_RD \/ cmd = lpCAS_WR ->
  addr_for d s Single av -> issue_command (c_device (l_base l)) cmd av clk = Ok dev' -> harmless l dev'.
Proof.
  intros Hok Hcmd Hav Hi q Hq. left. destruct Hcmd as [->|[->|[->| ->]]].
  - by apply (lp_effect cfg s Hcon Hs _ "RD" lpRD (Cmd_RD T) av clk dev').
  - by apply (lp_effect cfg s Hcon Hs _ "WR" lpWR (Cmd_WR T) av clk dev').
  - by apply (lp_effect cfg s Hcon Hs _ "CAS_RD" lpCAS_RD Cmd_CAS_RD av clk dev').
  - by apply (lp_effect cfg s Hcon Hs _ "CAS_WR" lpCAS_WR Cmd_CAS_WR av clk dev').
Qed.

Lemma maint_harmless l cmd ci av clk dev' : dev_ok d s (c_device (l_base l)) -> maint d s cmd ci -> addr_for d s (impl_target ci) av ->
  (is_closing (impl_meta ci) = true -> forall p, p ∈ map bk (keys (c_active_buffer (l_base l))) \/ owned l p ->
     ~ reaches d (c_device (l_base l)) (impl_target ci) av p) ->
  issue_command (c_device (l_base l)) cmd av clk = Ok dev' -> harmless l dev'.
Proof.
  intros Hok Hm Hav Hfree Hi q Hq.
  destruct (maint_effect d cfg s LPDDR5_in Hcon Hs (fun p => p ∈ map bk (keys (c_active_buffer (l_base l))) \/ owned l p)
    _ _ _ _ _ _ Hok Hm Hav Hfree Hi q Hq) as [_ [H|[H1 H2]]]; [by left|right]. split_and!; [|intros H|]; tauto.
Qed.

(** ** The common part: statistics and issue *)
Record served_lp (n : nat) (l : LPDDR5Controller) (b : buf_id) (i : nat) (r : Request) (c : ControllerBase) : Prop := {
  sv_ok : ctrl_ok d s n c;
  sv_calm : calm (l_base l) c;
  sv_clk : c_clk c = c_clk (l_base l);
  sv_issue : issue_command (c_device (l_base l)) (command r) (addr_vec r) (c_clk (l_base l)) = Ok (c_device c);
  sv_req : exists r', buffer (get_buf c b) !! i = Some r' /\ key r' = key r /\ command r' = command r
}.

Lemma serve_lp n l b i r (k : ControllerBase -> res LPDDR5Controller) Q :
  lp_inv s n l -> buffer (get_buf (l_base l) b) !! i = Some r -> issuable d s (c_device (l_base l)) (command r) (addr_vec r) ->
  (forall c, served_lp n l b i r c -> ends total (k c) Q) ->
  ends total (c ← stats_once (l_base l) b i; c ← issue_candidate c b i; k c) Q.
Proof.
  intros HI Hr Hi Hk. pose proof (li_base _ _ _ HI) as Hc. apply ends_bind.
  eapply ends_mono; [apply (stats_safe d cfg s LPDDR5_in Hcon n); [done|by exists r]|]. intros c1 H1 [Hc1 Hcand1].
  pose proof (quiet_stats_once _ _ _ _ H1) as (Q1 & _ & Q3). pose proof (calm_stats_once _ _ _ _ H1) as Hcalm.
  destruct (stats_once_same _ _ _ _ H1 r (request_at_Ok _ _ _ _ Hr)) as (r1 & Hr1 & E1 & E2 & E3). apply request_at_Some in Hr1.
  apply ends_bind. eapply ends_mono; [by apply (issue_candidate_safe d cfg s LPDDR5_in Hcon Hs n)|]. intros c2 H2 [Hc2 _].
  assert (Hpol : c_rowpolicy c1 = OpenRowPolicy) by (rewrite (cm_policy _ _ Hcalm); apply (ab_policy _ _ _ (li_bufs _ _ _ HI))).
  destruct (issue_candidate_frame c1 b i c2 r1 Hpol H2 Hr1) as (G1 & G2 & G3 & G4). apply Hk. split.
  - done.
  - by etrans.
  - congruence.
  - by rewrite <- E1, <- E2, <- Q1, <- Q3.
  - exists r1. rewrite G2. split_and!; [done| |done]. unfold key. congruence.
Qed.

Lemma kind_issuable n l b r : lp_inv s n l -> req_ok d s n r -> kind s l b r -> issuable d s (c_device (l_base l)) (command r) (addr_vec r).
Proof.
  intros HI Hr [Hb Hacc -> Hop|bs Hb Hacc -> Hbs Hst|ci Hb Hm Hav _].
  - apply wanted_issuable, Hr.
  - right. destruct (req_addr_row d cfg s LPDDR5_in Hcon (addr_vec r) (conj (proj1 Hacc) (ro_addr _ _ _ _ Hr))) as [Hrd _].
    split_and!; [done|apply Hacc|]. exists bs. split; [done|]. right. left. split_and!; [by eexists|done..].
  - by apply wanted_issuable, (maint_wanted d s _ ci).
Qed.

(** ** ACT1 *)
Lemma act1_effect dev av clk dev' :
  dev_ok d s dev -> concrete d s av -> readable d av -> issue_command dev lpACT1 av clk = Ok dev' ->
  (exists b, bank_of dev' (bank_path d av) = Some b /\ T_Activating T = Some (m_state b)) /\
  forall q, q ∈ banks -> q <> bank_path d av -> bank_of dev' q = bank_of dev q.
Proof.
  intros Hok Hc Hrd Hi. pose proof (lp_effect cfg s Hcon Hs dev "ACT1" lpACT1 (Cmd_ACT1 T) av clk dev' eq_refl eq_refl Hok (conj Hrd Hc) Hi) as He.
  cbn [impl_action impl_target Cmd_ACT1] in He. split.
  - assert (Hp : bank_path d av ∈ banks) by (by apply (bk_bank d cfg s LPDDR5_in Hcon dev (av, 0))).
    destruct (proj1 (He _ Hp)) as (b & b' & _ & Ha & Hb'); [split; [by rewrite (dk_banks _ _ _ Hok)|done]|].
    injection Ha as <-. by eexists.
  - intros q Hq Hne. apply (proj2 (He q Hq)). by intros [_ ->].
Qed.

(** Taking the bank of an ACT1. *)
Lemma acts_take n dev dev' l l' r b' x :
  lp_acts s n dev l -> req_ok d s n r -> accessing (key r) -> ~ owned l (bk (key r)) ->
  (forall q dl, own l q dl -> dl <> x) ->
  (forall q, q ∈ banks -> q <> bk (key r) -> bank_of dev' q = bank_of dev q) ->
  bank_of dev' (bk (key r)) = Some b' -> T_Activating T = Some (m_state b') ->
  l_const l' = l_const l -> m_activating_buffer l' = mkBuf (buffer (m_activating_buffer l) ++ [r]) (max_size (m_activating_buffer l)) ->
  length (m_act2_owner_valid l') = length banks -> length (m_act2_deadline l') = length banks ->
  (forall q dl, own l' q dl <-> if decide (q = bk (key r)) then true = true /\ dl = x else own l q dl) ->
  lp_acts s n dev' l'.
Proof.
  intros [A1 A2 A3 A4 A5 A6 A7 A8 A9 A10 A11] Hro Hacc Hno Hx Hsame Hb' Hst S1 S2 S3 S4 Ho.
  assert (Hk : keys (m_activating_buffer l') = keys (m_activating_buffer l) ++ [key r]) by (rewrite S2; apply map_app).
  assert (Hbs : map bk (keys (m_activating_buffer l')) = map bk (keys (m_activating_buffer l)) ++ [bk (key r)]) by (rewrite Hk; apply map_app).
  assert (Hod : forall q, owned l' q <-> owned l q \/ q = bk (key r)).
  { intros q. split.
    - intros [y Hy%Ho]. case_decide; [by right|left; by exists y].
    - intros Hq. destruct (decide (q = bk (key r))) as [->|Hne]; [exists x; apply Ho; by rewrite decide_True|].
      destruct Hq as [[y Hy]|?]; [|done]. exists y. apply Ho. by rewrite decide_False. }
  split; rewrite ?S1; try done.
  - by rewrite S2.
  - rewrite S2. cbn. intros y [Hy|Hy]%elem_of_app; [by apply A6|]. by apply list_elem_of_singleton in Hy as ->.
  - intros k. rewrite Hk. intros [Hy|Hy]%elem_of_app; [by apply A7|]. by apply list_elem_of_singleton in Hy as ->.
  - rewrite Hbs. apply NoDup_app. split_and!; [done| |apply NoDup_singleton]. intros q Hq Hq2. apply list_elem_of_singleton in Hq2 as ->.
    by apply Hno, A9.
  - intros q. rewrite Hod, Hbs, elem_of_app, list_elem_of_singleton. by rewrite A9.
  - intros q b Hq Hb. rewrite Hod. destruct (decide (q = bk (key r))) as [->|Hne].
    + rewrite Hb' in Hb. injection Hb as <-. split; [by right|done].
    + rewrite (A10 q b Hq); [|by rewrite <- Hsame]. tauto.
  - intros q q' y Hq%Ho Hq'%Ho. destruct (decide (q = bk (key r))), (decide (q' = bk (key r))); [congruence| | |by eapply A11].
    + destruct Hq as [_ ->]. by destruct (Hx _ _ Hq').
    + destruct Hq' as [_ ->]. by destruct (Hx _ _ Hq).
Qed.

Lemma served_request n l b i r c : lp_inv s n l -> buffer (get_buf (l_base l) b) !! i = Some r -> served_lp n l b i r c ->
  exists r', buffer (get_buf c b) !! i = Some r' /\ key r' = key r /\ command r' = command r /\ req_ok d s n r'.
Proof.
  intros HI Hr [V1 _ _ _ (r' & H1 & H2 & H3)]. exists r'. split_and!; [done..|]. apply (ck_reqs _ _ _ _ V1 b). by eapply list_elem_of_lookup_2.
Qed.

Definition taken (n : nat) (l : LPDDR5Controller) (p : list nat) (l' : LPDDR5Controller) : Prop :=
  lp_inv s n l' /\ steady l l' /\
  forall q x, own l' q x <-> if decide (q = p) then true = true /\ x = c_clk (l_base l) + m_nAAD (l_const l) else own l q x.

Lemma move_safe n l b i r c bs : lp_inv s n l -> buffer (get_buf (l_base l) b) !! i = Some r -> served_lp n l b i r c ->
  b = Bread \/ b = Bwrite -> accessing (key r) -> command r = lpACT1 -> bank_of (c_device (l_base l)) (bk (key r)) = Some bs ->
  m_state bs = T_Closed T -> (forall q dl, own l q dl -> dl < c_clk (l_base l) + m_nAAD (l_const l)) ->
  ends total (move_to_activating (with_l_base l c) b i) (taken n l (bk (key r))).
Proof.
  intros HI Hr Hsv Hbb Hacc Hcmd Hbs Hst Hdl. pose proof (li_acts _ _ _ HI) as HA. pose proof (ck_dev _ _ _ _ (li_base _ _ _ HI)) as Hok.
  destruct (served_request n l b i r c HI Hr Hsv) as (r' & Hr' & Ek & Ec & Hro). destruct Hsv as [V1 V2 V3 V4 _].
  assert (Eav : addr_vec r' = addr_vec r) by (by injection Ek). rewrite Hcmd in V4.
  destruct (req_addr_row d cfg s LPDDR5_in Hcon (addr_vec r') ltac:(split; [rewrite Eav; apply Hacc|apply Hro])) as [Hrd _]. rewrite Eav in Hrd.
  destruct (act1_effect _ _ _ _ Hok (proj1 Hacc) Hrd V4) as [(b1 & Hb1 & Ha1) Hsame]. change (bank_path d (key r).1) with (bk (key r)) in Hsame, Hb1.
  assert (Hp : bk (key r) ∈ banks) by (apply (bk_bank d cfg s LPDDR5_in Hcon (c_device (l_base l))); [done|apply Hacc]).
  assert (Hno : ~ owned l (bk (key r))).
  { intros Ho. apply (la_state _ _ _ _ HA (bk (key r)) bs Hp Hbs) in Ho. by rewrite Hst in Ho. }
  assert (Hna : bk (key r) ∉ map bk (keys (c_active_buffer (l_base l)))) by (apply (not_active d s (l_base l) _ bs); [apply HI|done|by rewrite Hst]).
  destruct (flat_index d cfg s LPDDR5_in Hcon (c_device c) (addr_vec r') (ck_dev _ _ _ _ V1)) as (j & Hj & Hbj); [rewrite Eav; apply Hacc|].
  rewrite Eav in Hbj. change (bank_path d (addr_vec r)) with (bk (key r)) in Hbj.
  pose proof (not_owned_at s n _ l j _ HA Hbj Hno) as Hv.
  assert (HB : lp_bufs c).
  { apply (bufs_calm d s (l_base l)); [apply HI|done|]. intros k Hk. apply Hsame; [by apply (active_bank d cfg s LPDDR5_in Hcon (l_base l)); [|apply HI|]|].
    intros E. apply Hna. rewrite <- E. by apply (list_elem_of_fmap_2 bk). }
  assert (Hroom : buf_size (m_activating_buffer l) < max_size (m_activating_buffer l)).
  { rewrite (la_max _ _ _ _ HA). unfold buf_size.
    assert (Hl : (length (keys (m_activating_buffer l)) < length banks)%nat).
    { apply (banks_room d s _ (bk (key r)) (la_nodup _ _ _ _ HA)); [|done|by intros ?%(la_owned _ _ _ _ HA)].
      intros k Hk. apply (bk_bank d cfg s LPDDR5_in Hcon (c_device (l_base l))); [done|]. apply (la_waiting _ _ _ _ HA k Hk). }
    unfold keys in Hl. rewrite length_map in Hl. lia. }
  unfold move_to_activating, enqueue. cbn [l_base with_l_base m_act2_owner_valid m_activating_buffer l_const]. cbn zeta.
  rewrite (request_at_Ok _ _ _ _ Hr'). cbn [mbind res_bind]. rewrite Hj. cbn [mbind res_bind]. rewrite Hv. cbn [negb assert_ mbind res_bind].
  rewrite (proj2 (Z.ltb_lt _ _) Hroom). cbn [assert_ mbind res_bind with_m_activating_buffer with_l_base l_const].
  set (c1 := set_buf _ _ _). match goal with |- ends _ (set_owner ?x _ _ _) _ => set (l1 := x) end.
  destruct (set_owner_own s l1 j (bk (key r)) true (c_clk c + m_nAAD (l_const l)) Hbj) as (l' & Hl' & El' & Hown); [apply HA..|].
  replace (c_clk (forget_write c b r')) with (c_clk c) by (by destruct Hbb as [-> | ->]). rewrite Hl'. cbn [ends]. rewrite V3 in Hown.
  assert (Hown' : forall q x, own l' q x <-> if decide (q = bk (key r)) then true = true /\ x = c_clk (l_base l) + m_nAAD (l_const l) else own l q x) by exact Hown.
  assert (Hb' : l_base l' = c1) by (by subst l'). assert (Hdev : c_device c1 = c_device c) by (by destruct Hbb as [-> | ->]).
  assert (Hclk : c_clk c1 = c_clk (l_base l)) by (rewrite <- V3; by destruct Hbb as [-> | ->]).
  split; [|split; [split; [by rewrite Hb'|by subst l'..]|exact Hown']].
  split; rewrite ?Hb'; [by apply ok_remove, ok_forget|rewrite Hclk; apply HI|by apply bufs_drop|]. rewrite Hdev.
  apply (acts_take n (c_device (l_base l)) (c_device c) l l' r' b1 (c_clk (l_base l) + m_nAAD (l_const l))); rewrite ?Ek; try done.
  - intros q dl Hq E. specialize (Hdl q dl Hq). lia.
  - by subst l'.
  - by subst l'.
  - subst l'. cbn. rewrite length_insert. apply HA.
  - subst l'. cbn. rewrite length_insert. apply HA.
Qed.

(** ** Serving a candidate without CAS *)
Lemma with_base_id l : with_l_base l (l_base l) = l.
Proof. by destruct l. Qed.

(** Counters and the WCK expiry are not part of the invariant. *)
Lemma inv_same_base n l l' : lp_inv s n l -> l_base l' = l_base l -> l_const l' = l_const l ->
  m_activating_buffer l' = m_activating_buffer l -> m_act2_owner_valid l' = m_act2_owner_valid l ->
  m_act2_deadline l' = m_act2_deadline l -> lp_inv s n l'.
Proof.
  intros HI E1 E2 E3 E4 E5. apply (inv_calm cfg s Hcon n l); rewrite ?E1; [done|apply HI|apply HI|done|done|by split; rewrite ?E3|].
  rewrite E3. apply (la_reqs _ _ _ _ (li_acts _ _ _ HI)).
Qed.

Lemma retire_lp n l c b i r : lp_inv s n (with_l_base l c) -> buffer (get_buf c b) !! i = Some r ->
  ends total (retire_request c b i) (fun c' => lp_inv s n (with_l_base l c') /\ c_clk c' = c_clk c).
Proof.
  intros HI Hr. pose proof (li_base _ _ _ HI) as Hc. cbn in Hc.
  eapply ends_mono; [by apply (retire_safe d cfg s LPDDR5_in Hcon n c b i r)|]. intros c' H Hc'.
  pose proof (quiet_retire _ _ _ _ H) as (Q1 & _ & Q3). split; [|done]. split; cbn.
  - done.
  - rewrite Q3. apply (li_clk _ _ _ HI).
  - apply (bufs_retire d cfg s LPDDR5_in Hcon c b i r); [apply Hc|apply (li_bufs _ _ _ HI)|done..].
  - rewrite Q1. apply (acts_same s n (c_device c) _ (with_l_base l c)); [apply HI|done|by split|apply (la_reqs _ _ _ _ (li_acts _ _ _ HI))].
Qed.

Lemma advance_lp n l c b i r : lp_inv s n (with_l_base l c) -> buffer (get_buf c b) !! i = Some r ->
  command r = final_command r \/ (exists m, vget (command_meta s) (command r) = Ok m /\ is_opening m = false) ->
  ends total (advance_request c b i) (fun c' => lp_inv s n (with_l_base l c') /\ c_clk c' = c_clk c).
Proof.
  intros HI Hr Hcase. pose proof (li_base _ _ _ HI) as Hc. cbn in Hc. unfold advance_request. rewrite (request_at_Ok _ _ _ _ Hr). cbn [mbind res_bind].
  destruct (Z.eqb_spec (command r) (final_command r)) as [E|E]; [by eapply retire_lp|].
  destruct Hcase as [?|(m & Hm & Hop)]; [done|]. unfold spec_of. rewrite (dk_spec _ _ _ (ck_dev _ _ _ _ Hc)), Hm. cbn [mbind res_bind]. by rewrite Hop.
Qed.

(** An access or a maintenance command: the owners stay. *)
Lemma serve_harmless n l b i r c : lp_inv s n l -> buffer (get_buf (l_base l) b) !! i = Some r -> kind s l b r -> command r <> lpACT1 ->
  served_lp n l b i r c -> ends total (advance_request c b i) (fun c' => lp_inv s n (with_l_base l c') /\ c_clk c' = c_clk (l_base l)).
Proof.
  intros HI Hr Hk Hn1 Hsv. pose proof (ck_dev _ _ _ _ (li_base _ _ _ HI)) as Hok.
  destruct (served_request n l b i r c HI Hr Hsv) as (r' & Hr' & Ek & Ec & Hro). pose proof Hsv as [V1 V2 V3 V4 _].
  assert (Efc : final_command r' = final_command r) by (by injection Ek). assert (Eav : addr_vec r' = addr_vec r) by (by injection Ek).
  assert (Hh : harmless l (c_device c) /\ (command r' = final_command r' \/ (exists m, vget (command_meta s) (command r') = Ok m /\ is_opening m = false))).
  { destruct Hk as [Hb Hacc E Hop|bs Hb Hacc E _ _|ci Hb Hm Hav Hfree]; [|done|].
    - rewrite E in V4. split; [|left; congruence]. eapply access_harmless; [done| | |exact V4]; [destruct (accessing_num cfg s Hcon _ Hacc); auto|].
      split; [|apply Hacc]. destruct (req_addr_row d cfg s LPDDR5_in Hcon (addr_vec r) ltac:(split; [apply Hacc|rewrite <- Eav; apply Hro])) as [Hrd _]. done.
    - split; [by eapply maint_harmless|]. right. rewrite Ec. by apply (maint_not_opening d cfg s LPDDR5_in Hcon _ ci). }
  destruct Hh as [Hh Hcase]. rewrite <- V3. apply (advance_lp n l c b i r'); [by apply inv_harmless|done..].
Qed.

Definition progressed (n : nat) (l l' : LPDDR5Controller) : Prop :=
  lp_inv s n l' /\ steady l l' /\ forall q x, own l' q x -> own l q x \/ x = c_clk (l_base l) + m_nAAD (l_const l).

Lemma kind_not_act1 l b r : kind s l b r -> command r <> lpACT1 \/
  exists bs, (b = Bread \/ b = Bwrite) /\ accessing (key r) /\ command r = lpACT1 /\
    bank_of (c_device (l_base l)) (bk (key r)) = Some bs /\ m_state bs = T_Closed T.
Proof.
  intros [Hb Hacc E Hop|bs Hb Hacc E H1 H2|ci Hb Hm Hav Hfree]; [left|right; by exists bs|left; by apply (maint_neq cfg s Hcon _ ci "ACT1"); [|done|closed_elem]].
  rewrite E. destruct (accessing_num cfg s Hcon _ Hacc) as [E'|E']; cbn in E'; by rewrite E'.
Qed.

Lemma issue_standard_safe n l b i r : lp_inv s n l -> buffer (get_buf (l_base l) b) !! i = Some r -> kind s l b r ->
  (forall q dl, own l q dl -> dl < c_clk (l_base l) + m_nAAD (l_const l)) ->
  ends total (issue_standard_candidate l b i) (progressed n l).
Proof.
  intros HI Hr Hk Hdl. pose proof (li_base _ _ _ HI) as Hc. pose proof (la_ids _ _ _ _ (li_acts _ _ _ HI)) as Hids.
  assert (Hro : req_ok d s n r) by (apply (ck_reqs _ _ _ _ Hc b); by eapply list_elem_of_lookup_2).
  pose proof (kind_issuable n l b r HI Hro Hk) as Hiss.
  unfold issue_standard_candidate. cbn zeta. rewrite (upgrade_open _ b i r (ab_policy _ _ _ (li_bufs _ _ _ HI)) Hr). cbn [mbind res_bind].
  rewrite with_base_id, (request_at_Ok _ _ _ _ Hr). cbn [mbind res_bind].
  destruct (flat_id_total d cfg s LPDDR5_in Hcon (c_device (l_base l)) (addr_vec r) (ck_dev _ _ _ _ Hc) (ro_addr _ _ _ _ Hro)) as [bank Hbank].
  rewrite Hbank. cbn [mbind res_bind]. rewrite (id_act1 _ Hids). set (l1 := if is_access_cmd _ _ then _ else _).
  assert (E1 : l_base l1 = l_base l /\ l_const l1 = l_const l /\ m_activating_buffer l1 = m_activating_buffer l /\
    m_act2_owner_valid l1 = m_act2_owner_valid l /\ m_act2_deadline l1 = m_act2_deadline l /\ m_cas_issued l1 = m_cas_issued l).
  { unfold l1, extend_wck_expiry. repeat case_match; done. }
  destruct E1 as (E1 & E2 & E3 & E4 & E5 & E6). pose proof (inv_same_base n l l1 HI E1 E2 E3 E4 E5) as HI1.
  assert (Hst : steady l l1) by (split; congruence). clearbody l1.
  assert (Hown : forall q x, own l1 q x <-> own l q x) by (intros q x; by apply own_same).
  assert (Hk1 : kind s l1 b r).
  { destruct Hk as [? ? ? ?|bs|ci]; [apply k_access|apply (k_act1 s l1 b r bs)|apply (k_maint s l1 b r ci)]; rewrite ?E1; try done.
    intros Hcl p [Hp|Hp]; [by apply H2; [|left]|]. apply H2; [done|]. right. by apply (owned_same s l l1). }
  assert (Hr1 : buffer (get_buf (l_base l1) b) !! i = Some r) by (by rewrite E1).
  destruct (Z.eqb_spec (command r) lpACT1) as [Ea|Ea].
  - destruct (kind_not_act1 l1 b r Hk1) as [?|(bs & Hb & Hacc & _ & Hbs & Hcl)]; [done|].
    destruct (flat_index d cfg s LPDDR5_in Hcon (c_device (l_base l)) (addr_vec r) (ck_dev _ _ _ _ Hc) (proj1 Hacc)) as (j & Hj & Hbj). rewrite Hbank in Hj. injection Hj as ->.
    assert (Hno : ~ owned l (bk (key r))).
    { intros Ho. rewrite E1 in Hbs. apply (la_state _ _ _ _ (li_acts _ _ _ HI) (bk (key r)) bs) in Ho; [by rewrite Hcl in Ho|by eapply list_elem_of_lookup_2|done]. }
    rewrite (not_owned_at s n _ l j _ (li_acts _ _ _ HI) Hbj Hno). cbn [mbind res_bind negb assert_].
    eapply (serve_lp n l1 b i r); [done..|by rewrite E1|]. intros c Hsv.
    eapply ends_mono; [eapply (move_safe n l1 b i r c bs); try done|].
    + intros q x Hq%Hown. rewrite E1, E2. by apply Hdl with q.
    + intros l' _ (H1 & H2 & H3). split; [done|]. split; [by transitivity l1|]. intros q x Hq%H3. rewrite E1, E2 in Hq.
      case_decide; [right; apply Hq|left; by apply Hown].
  - cbn [mbind res_bind]. eapply (serve_lp n l1 b i r); [done..|by rewrite E1|]. intros c Hsv.
    apply ends_bind. eapply ends_mono; [by eapply (serve_harmless n l1 b i r c)|]. intros c' _ [H1 H2]. cbn [ends].
    split; [exact H1|]. split.
    + transitivity l1; [done|]. by split.
    + intros q x Hq. left. by apply Hown.
Qed.
End Serve.
