(* ===== verification/LpSafety.v ===== *)
(** * LpSafety: the LPDDR5 controller never fails an assertion

    The CAS path, the tick, sending a request and the initial state.  An
    ACT2 is never late: a tick that starts with all deadlines ahead ends with
    all deadlines ahead, because deadlines are pairwise different, an ACT2
    passes its timing check in every cycle, and a CAS, which occupies two
    cycles, is only issued when no deadline falls into them. *)
From stdpp Require Import prelude gmap strings.
From S2P Require Import Prelude DramSpec Commands Standards Node NodeTiming NodeTree Device DeviceInv DeviceProps BankSafety BankProgress IssueSafety Request BitUtils AddrMapper Float32 ControllerState Controller Refresh NodeAddr HbmRefresh RowPolicy ControllerInit GenericDdr ControllerSafety Hbm Lpddr5 Controllers ControllerTrace Settle ServeSafety TickSafety Bookkeeping ServeFrame ActiveInv LpInv LpAct2 LpGuards LpServe.
Open Scope Z_scope.

Local Abbreviation total := (fun _ : err => False).

Lemma deadline_within_spec clk owner : forall deadline,
  if deadline_within clk owner deadline
  then exists i dl, owner !! i = Some true /\ deadline !! i = Some dl /\ dl <= clk + 1
  else forall (i : nat) dl, owner !! i = Some true -> deadline !! i = Some dl -> clk + 1 < dl.
Proof.
  induction owner as [|o owner IH]; intros [|dl deadline]; cbn [deadline_within]; [done..|].
  specialize (IH deadline). destruct (deadline_within clk owner deadline).
  - rewrite orb_true_r. destruct IH as (i & x & H1 & H2 & H3). by exists (S i), x.
  - rewrite orb_false_r. destruct o; cbn [andb].
    + destruct (Z.leb_spec dl (clk + 1)); [by exists 0%nat, dl|]. intros [|i] x H1 H2; [cbn in H2; by injection H2 as <-|by apply (IH i)].
    + intros [|i] x H1 H2; [done|by apply (IH i)].
Qed.

Section Lp.
Context (cfg : dram_config) (s : DRAMSpec).
Context (Hcon : construct LPDDR5_std cfg = Ok s) (Hs : spec_ok s) (Horg : org_ok s).
Local Abbreviation d := LPDDR5_std.
Local Abbreviation T := LPDDR5_traits.
Local Abbreviation banks := (banks d s).
Local Abbreviation bk := (bk d).
Local Abbreviation accessing := (accessing d s).
Local Abbreviation row_open := (row_open d).
Local Abbreviation lp_bufs := (act_bufs d s).
Local Abbreviation maintaining := (maintaining s).
Local Abbreviation own := (own s).
Local Abbreviation owned := (owned s).

(** ** CAS and the access after it *)

(** What [Settle] provides on a device a controller has driven. *)
Definition cas_ready (c : ControllerBase) : Prop := forall cas av cmd dev' b, is_cas cas = true -> 0 <= cmd < command_count s ->
  ctrl_check_timing c cmd av = Ok true -> issue_command (c_device c) cas av (c_clk c) = Ok dev' ->
  dev_check_timing dev' cmd av (c_clk c + 1) = Ok b -> b = true.

Lemma would_block_deadline n l : lp_inv s n l ->
  if cas_would_block_deadline l then exists p, owned l p else forall p dl, own l p dl -> c_clk (l_base l) + 2 <= dl.
Proof.
  intros HI. unfold cas_would_block_deadline. pose proof (deadline_within_spec (c_clk (l_base l)) (m_act2_owner_valid l) (m_act2_deadline l)) as H.
  destruct (deadline_within _ _ _).
  - destruct H as (i & dl & H1 & H2 & _). destruct (lookup_lt_is_Some_2 banks i) as [p Hp].
    { rewrite <- (la_valid _ _ _ _ (li_acts _ _ _ HI)). by apply lookup_lt_Some in H1. }
    exists p, dl, i. done.
  - intros p dl (i & _ & H1 & H2). specialize (H i dl H1 H2). lia.
Qed.

(** The tick is used up without a new owner. *)
Definition used (n : nat) (l l' : LPDDR5Controller) : Prop :=
  lp_inv s n l' /\ c_clk (l_base l') = c_clk (l_base l) /\ l_const l' = l_const l /\ (forall q x, own l' q x -> own l q x) /\ cas_ok s l'.

Lemma released_used n l l0 p l' : m_cas_issued l = false -> same_acts l0 l -> c_clk (l_base l) = c_clk (l_base l0) ->
  released s n l p l' -> used n l0 l'.
Proof.
  intros Hcas Hsa Hclk (H1 & [S1 S2 S3] & H3). split_and!; [done|congruence|rewrite S2; apply Hsa|..].
  - intros q x [Hq _]%H3. by apply (own_same s l0 l q x (sa_valid _ _ Hsa) (sa_deadline _ _ Hsa)).
  - intros E. congruence.
Qed.

Lemma is_access_kind n l b r : lp_inv s n l -> kind s l b r -> is_access_cmd (l_const l) (command r) = true ->
  b <> Bpriority /\ accessing (key r) /\ command r = final_command r /\ (command r = lpRD \/ command r = lpWR).
Proof.
  intros HI Hk. pose proof (la_ids _ _ _ _ (li_acts _ _ _ HI)) as [J1 J2 J3 J4 J5 J6 J7 J8]. unfold is_access_cmd. rewrite J5, J6, J7, J8.
  destruct Hk as [Hb Hacc E _|bs _ _ -> _ _|ci _ Hm _ _]; [|done|].
  { intros _. split_and!; try done. rewrite E. by apply (accessing_num cfg s Hcon (key r)). }
  intros H. exfalso. pose proof (fun name j => maint_neq cfg s Hcon _ ci name j Hm) as Hne. rewrite !orb_true_iff, !Z.eqb_eq in H.
  destruct H as [[[H|H]|H]|H]; revert H; [apply (Hne "RD")|apply (Hne "WR")|apply (Hne "RDA")|apply (Hne "WRA")]; done || closed_elem.
Qed.

Lemma cas_addr n r : req_ok d s n r -> accessing (key r) -> addr_for d s Single (addr_vec r).
Proof.
  intros Hr Hacc. split; [|apply Hacc].
  by destruct (req_addr_row d cfg s LPDDR5_in Hcon (addr_vec r) (conj (proj1 Hacc) (ro_addr _ _ _ _ Hr))).
Qed.

Lemma issue_cas_safe n l b i r cas :
  lp_inv s n l -> buffer (get_buf (l_base l) b) !! i = Some r -> cas_ready (l_base l) -> cas = lpCAS_RD \/ cas = lpCAS_WR ->
  b <> Bpriority -> accessing (key r) -> command r = final_command r -> command r = lpRD \/ command r = lpWR ->
  ctrl_check_timing (l_base l) (command r) (addr_vec r) = Ok true -> (forall p dl, own l p dl -> c_clk (l_base l) + 2 <= dl) ->
  ends total (c ← issue (l_base l) cas (addr_vec r);
              l ← lp_notify (with_l_base l c) (set_command r cas);
              Ok (true, with_m_cas_req (with_m_cas_issued l true) (Some (b, i)))) (fun p => p.1 = true /\ used n l p.2).
Proof.
  intros HI Hr Hready Hcas Hb Hacc Hfin Hrw Ht Hdl. pose proof (li_base _ _ _ HI) as Hc.
  assert (Hro : req_ok d s n r) by (apply (ck_reqs _ _ _ _ Hc b); by eapply list_elem_of_lookup_2).
  pose proof (cas_addr n r Hro Hacc) as Hav.
  assert (Hid : exists name ci, (name_at (std_commands d) cas name = true /\ impl_by_name T name = Some ci) /\ (name ∉ opening_names) /\ impl_target ci = Single).
  { destruct Hcas as [-> | ->]; [exists "CAS_RD", Cmd_CAS_RD|exists "CAS_WR", Cmd_CAS_WR]; (split_and!; [done..|closed_elem|done]). }
  destruct Hid as (name & ci & [Hn1 Hn2] & Hn3 & Hn4). destruct (lp_handlers cfg s Hcon name cas ci Hn1 Hn2) as [_ Hrange].
  apply ends_bind. eapply ends_mono; [apply (issue_ctrl_safe d cfg s LPDDR5_in Hcon Hs n); [done| |apply Hro]|].
  { left. exists name, ci. split_and!; [done|by apply (lp_id cfg s Hcon)|done|by rewrite Hn4]. }
  intros c Hi [Hc1 _]. destruct (issue_frame _ _ _ _ Hi) as (Fc & Fb & Fk & Fi).
  assert (Hpol : c_rowpolicy c = OpenRowPolicy) by (rewrite (cm_policy _ _ Fc); apply (ab_policy _ _ _ (li_bufs _ _ _ HI))).
  apply ends_bind. eapply ends_mono; [apply (lp_notify_safe cfg s Hcon n (with_l_base l c) (set_command r cas) Hc1 Hpol); [by apply req_ok_command|exact Hrange]|].
  intros l2 _ (El2 & Hc2 & Hn). cbn in Hn. destruct (notify_frame c _ _ Hpol Hn) as (N1 & (N2 & _ & N3) & N4). cbn [ends fst snd]. split; [done|].
  assert (HI2 : lp_inv s n (with_l_base l (l_base l2))).
  { apply (inv_harmless cfg s Hcon n l); [done..|by transitivity c|congruence|].
    eapply (access_harmless cfg s Hcon Hs); [apply Hc| |exact Hav|by rewrite N2; exact Fi]. destruct Hcas; auto. }
  assert (Ebase : l2 = with_l_base l (l_base l2)) by (by rewrite El2).
  assert (Hclk : c_clk (l_base l2) = c_clk (l_base l)) by congruence.
  set (l3 := with_m_cas_req _ _). assert (Eo : forall q x, own l3 q x <-> own l q x) by (intros q x; unfold l3; rewrite Ebase; apply own_same; done).
  split_and!; [|exact Hclk|unfold l3; by rewrite Ebase|intros q x; by apply Eo|].
  - apply (inv_same_base cfg s Hcon n (with_l_base l (l_base l2))); [done|unfold l3; by rewrite Ebase..].
  - intros _. split; [intros q x Hq%Eo; change (c_clk (l_base l3)) with (c_clk (l_base l2)); rewrite Hclk; by apply Hdl with q|].
    exists b, i, r. change (l_base l3) with (l_base l2). rewrite N4, Fb, Hclk, N2. split_and!; try done.
    assert (Hr2 : 0 <= command r < command_count s).
    { destruct Hrw as [-> | ->]; [by apply (lp_handlers cfg s Hcon "RD" lpRD (Cmd_RD T))|by apply (lp_handlers cfg s Hcon "WR" lpWR (Cmd_WR T))]. }
    destruct (check_safe d s (c_device c) (command r) (addr_vec r) (c_clk (l_base l) + 1)) as [t Hct]; [apply Hc1|done|apply Hro|].
    rewrite Hct. f_equal. apply (Hready cas (addr_vec r) (command r) (c_device c) t); try done. destruct Hcas as [-> | ->]; done.
Qed.

Lemma try_cas_safe n l b i r :
  lp_inv s n l -> buffer (get_buf (l_base l) b) !! i = Some r -> kind s l b r -> ctrl_check_timing (l_base l) (command r) (addr_vec r) = Ok true ->
  act2_free (l_base l) -> cas_ready (l_base l) -> m_cas_issued l = false -> (forall p dl, own l p dl -> c_clk (l_base l) < dl) ->
  ends total (try_issue_cas_sync l b i) (fun p => if (p.1 : bool) then used n l p.2 else p.2 = l).
Proof.
  intros HI Hr Hk Ht Hfree Hready Hcas Hdl. unfold try_issue_cas_sync. cbn zeta. rewrite (request_at_Ok _ _ _ _ Hr). cbn [mbind res_bind].
  apply ends_if; [done|]. intros Hacc. apply orb_false_iff in Hacc as [Hacc _]. apply negb_false_iff in Hacc.
  destruct (is_access_kind n l b r HI Hk Hacc) as (Hb & Ha & Hfin & Hrw). pose proof (li_base _ _ _ HI) as Hc. pose proof (li_clk _ _ _ HI) as H0.
  assert (Hro : req_ok d s n r) by (apply (ck_reqs _ _ _ _ Hc b); by eapply list_elem_of_lookup_2).
  pose proof (would_block_deadline n l HI) as Hbl. destruct (cas_would_block_deadline l).
  - destruct Hbl as [p Hp]. apply ends_bind. eapply ends_mono.
    { apply (pick_act2_safe cfg s Hcon n l Deferred HI Hfree). intros q x Hq. specialize (Hdl q x Hq). lia. }
    intros [o l'] _ [P1 P2 P3 P4 P5]. cbn [fst snd] in *. destruct o as [j|]; [|by destruct (P5 eq_refl p Hp)].
    destruct (P4 j eq_refl) as (r' & Hr' & Hcmd & _).
    assert (Hbase : l_base l' = l_base l) by (by rewrite P3).
    apply ends_bind. eapply ends_mono; [eapply (issue_owned_act2_safe cfg s Hcon Hs n l' j Deferred r'); try done|].
    + intros q x Hq. rewrite Hbase. apply (own_same s l l') in Hq; [|apply P2..]. specialize (Hdl q x Hq). lia.
    + intros l2 _ H2. cbn. eapply (released_used n l' l); [by rewrite P3|done|by rewrite Hbase|done].
  - pose proof (la_ids _ _ _ _ (li_acts _ _ _ HI)) as Hids. rewrite (id_cas_rd _ Hids), (id_cas_wr _ Hids). set (cas := if is_read_cmd _ _ then _ else _).
    assert (Hcc : cas = lpCAS_RD \/ cas = lpCAS_WR) by (unfold cas; case_match; auto).
    destruct (check_safe d s (c_device (l_base l)) cas (addr_vec r) (c_clk (l_base l))) as [t Hct]; [apply Hc| |apply Hro|].
    { destruct Hcc as [-> | ->]; [by apply (lp_handlers cfg s Hcon "CAS_RD" lpCAS_RD Cmd_CAS_RD)|by apply (lp_handlers cfg s Hcon "CAS_WR" lpCAS_WR Cmd_CAS_WR)]. }
    unfold ctrl_check_timing. rewrite Hct. cbn [mbind res_bind]. destruct t; cbn [negb].
    + eapply ends_mono; [by apply (issue_cas_safe n l b i r cas)|]. intros p _ [E Hu]. by rewrite E.
    + split_and!; try done. intros E. cbn in E. by rewrite Hcas in E.
Qed.

Lemma continue_cas_safe n l b i r :
  lp_inv s n l -> m_cas_req l = Some (b, i) -> buffer (get_buf (l_base l) b) !! i = Some r -> command r = final_command r ->
  accessing (key r) -> ctrl_check_timing (l_base l) (command r) (addr_vec r) = Ok true ->
  ends total (continue_cas l) (fun l' => used n l l' /\ m_cas_issued l' = false).
Proof.
  intros HI Hreq Hr Hfin Hacc Ht. pose proof (li_base _ _ _ HI) as Hc.
  assert (Hro : req_ok d s n r) by (apply (ck_reqs _ _ _ _ Hc b); by eapply list_elem_of_lookup_2).
  unfold continue_cas. rewrite Hreq, (request_at_Ok _ _ _ _ Hr). cbn [mbind res_bind]. rewrite Ht. cbn [mbind res_bind negb]. cbn zeta.
  set (l1 := with_s_cas_issued _ _).
  assert (E1 : l_base l1 = l_base l /\ l_const l1 = l_const l /\ m_activating_buffer l1 = m_activating_buffer l /\
    m_act2_owner_valid l1 = m_act2_owner_valid l /\ m_act2_deadline l1 = m_act2_deadline l /\ m_cas_issued l1 = false).
  { unfold l1, extend_wck_expiry. case_match; done. }
  destruct E1 as (E1 & E2 & E3 & E4 & E5 & E6). pose proof (inv_same_base cfg s Hcon n l l1 HI E1 E2 E3 E4 E5) as HI1. clearbody l1.
  eapply (serve_lp cfg s Hcon Hs n l1 b i r); [done|by rewrite E1|rewrite Hfin; apply wanted_issuable, Hro|].
  intros c Hsv. rewrite (proj2 (Z.eqb_eq _ _) Hfin). destruct (served_request s n l1 b i r c HI1 ltac:(by rewrite E1) Hsv) as (r' & Hr' & _).
  destruct Hsv as [V1 V2 V3 V4 _]. apply ends_bind. eapply ends_mono; [eapply (retire_lp cfg s Hcon n l1 c b i r'); [|done]|].
  - apply (inv_harmless cfg s Hcon n l1); [done..|]. eapply (access_harmless cfg s Hcon Hs); [apply HI1| |by eapply cas_addr|exact V4].
    rewrite Hfin. destruct (accessing_num cfg s Hcon _ Hacc); auto.
  - intros c' _ [H1 H2]. cbn [ends]. split; [|done]. split_and!; [done|cbn; congruence|done| |].
    + intros q x Hq. apply (own_same s l l1 q x); done.
    + intros E. cbn in E. by rewrite E6 in E.
Qed.

(** ** Before scheduling *)
Lemma pre_tick_lp n l : lp_inv s n l ->
  ends (no_room (l_base l)) (pre_tick (l_base l))
    (fun c => lp_inv s n (with_l_base l c) /\ tick_started (l_base l) c /\ forall b, b <> Bpriority -> get_buf c b = get_buf (l_base l) b).
Proof.
  intros HI. pose proof (li_base _ _ _ HI) as Hc. eapply ends_mono; [by apply (pre_tick_safe d cfg s LPDDR5_in Hcon Horg n)|].
  intros c Hp Hc'. pose proof (pre_tick_started _ _ Hp) as (T1 & T2 & T3). pose proof (li_clk _ _ _ HI) as H0.
  assert (Hfed : fed (fun r => maintaining (key r)) (l_base l) c).
  { apply (fed_pre_tick _ (l_base l)); [apply (ab_policy _ _ _ (li_bufs _ _ _ HI))|intros cmd av; by apply (manager_maintains d s n)|done]. }
  split_and!; [|done|apply Hfed]. split; cbn; [done|lia|apply (bufs_fed d s (l_base l)); [apply HI|done..]|].
  apply (acts_same s n (c_device (l_base l)) _ l); [apply HI|intros q _; by rewrite T1|by split|apply (la_reqs _ _ _ _ (li_acts _ _ _ HI))].
Qed.

(** ** The tick *)

(** The state at the end of a tick. *)
Definition ended (n : nat) (l0 l : LPDDR5Controller) : Prop :=
  lp_inv s n l /\ c_clk (l_base l) = c_clk (l_base l0) /\ l_const l = l_const l0 /\ cas_ok s l /\
  due s l (c_clk (l_base l0) + 1) (c_clk (l_base l0) + m_nAAD (l_const l0)).

Lemma ended_ok n l0 l : ended n l0 l -> lp_ok s n (lp_post_tick l).
Proof.
  intros (H1 & H2 & H3 & H4 & H5). unfold lp_post_tick. change (post_tick (l_base l)) with (l_base l). rewrite with_base_id.
  split; [done| |done]. by rewrite H2, H3.
Qed.

Lemma used_ended n l l' lo : used n l l' -> due s l lo (c_clk (l_base l) + m_nAAD (l_const l)) -> c_clk (l_base l) + 1 <= lo -> ended n l l'.
Proof.
  intros (U1 & U2 & U3 & U4 & U5) Hd Hlo. split_and!; [done..|]. intros q x Hq%U4. specialize (Hd q x Hq). lia.
Qed.

(** The urgent ACT2 was the only one at its deadline. *)
Lemma urgent_ended n l l1 p l' : lp_inv s n l -> same_acts l l1 -> l_base l1 = l_base l -> m_cas_issued l1 = false ->
  due s l (c_clk (l_base l)) (c_clk (l_base l) + m_nAAD (l_const l)) -> (exists dl, own l p dl /\ dl <= c_clk (l_base l)) ->
  released s n l1 p l' -> ended n l l'.
Proof.
  intros HI Hsa Hb Hcas Hd (dl & Hp & Hle) Hrel.
  destruct (released_used n l1 l p l' Hcas Hsa ltac:(by rewrite Hb) Hrel) as (U1 & U2 & U3 & U4 & U5). destruct Hrel as (_ & _ & Hown).
  split_and!; [done..|]. intros q x Hq. pose proof (U4 q x Hq) as Hq0. pose proof (Hd q x Hq0) as Hx. pose proof (Hd p dl Hp) as Hdl.
  apply Hown in Hq as [_ Hne]. assert (x <> c_clk (l_base l)); [|lia]. intros ->. apply Hne.
  assert (dl = c_clk (l_base l)) as -> by lia. by apply (la_inj _ _ _ _ (li_acts _ _ _ HI) q p (c_clk (l_base l))).
Qed.

(** A tick on which no ACT2 is urgent. *)
Lemma normal_safe n l : lp_inv s n l -> act2_free (l_base l) -> cas_ready (l_base l) -> m_cas_issued l = false ->
  due s l (c_clk (l_base l) + 1) (c_clk (l_base l) + m_nAAD (l_const l) - 1) ->
  ends total
    (p ← select_normal_candidate l;
     match p.1 with
     | None =>
         q ← pick_deferred_act2 p.2;
         match q.1 with
         | Some i => issue_owned_act2 q.2 i Deferred
         | None => Ok q.2
         end
     | Some (b, i) =>
         s ← try_issue_cas_sync p.2 b i;
         if (s.1 : bool) then Ok s.2 else issue_standard_candidate s.2 b i
     end) (ended n l).
Proof.
  intros HI Hfree Hready Hcas Hd. pose proof (li_clk _ _ _ HI) as H0. pose proof (la_aad _ _ _ _ (li_acts _ _ _ HI)) as Haad.
  apply ends_bind. eapply ends_mono; [by apply (select_normal_safe cfg s Hcon n)|]. intros [cand l1] _ [(HI1 & Hq1 & E1) Hcand]. cbn [fst snd] in *.
  pose proof Hq1 as (Q1 & _ & Q3).
  assert (Hown : forall q x, own l1 q x <-> own l q x) by (intros q x; rewrite E1; by apply own_same).
  assert (Hcas1 : m_cas_issued l1 = false) by (by rewrite E1). assert (Hconst : l_const l1 = l_const l) by (by rewrite E1).
  assert (Hfree1 : act2_free (l_base l1)) by (intros av b; rewrite (check_timing_quiet _ _ _ _ Hq1); apply Hfree).
  assert (Hready1 : cas_ready (l_base l1)).
  { intros cas av cmd dev' b G1 G2. rewrite (check_timing_quiet _ _ _ _ Hq1), Q1, Q3. by apply Hready. }
  assert (Hd1 : due s l1 (c_clk (l_base l1) + 1) (c_clk (l_base l1) + m_nAAD (l_const l1) - 1))
    by (intros q x Hq%Hown; rewrite Q3, Hconst; by apply Hd with q).
  apply (ends_mono _ _ (ended n l1)); [|intros l' _ (G1 & G2 & G3 & G4 & G5); rewrite Q3, Hconst in *; by split_and!].
  clear E1 Hd Hq1 Q1 Q3 Hown Hcas Hready Hfree Haad. pose proof (la_aad _ _ _ _ (li_acts _ _ _ HI1)) as Haad.
  destruct cand as [[b i]|].
  - destruct Hcand as (r & Hr & Ht & Hk). apply ends_bind. eapply ends_mono; [eapply (try_cas_safe n l1 b i r); try done|].
    { intros p x Hp. specialize (Hd1 p x Hp). lia. }
    intros [[] l2] _ H2; cbn [fst snd] in *.
    + eapply (used_ended n l1 l2 (c_clk (l_base l1) + 1)); [done| |lia]. intros q x Hq. specialize (Hd1 q x Hq). lia.
    + subst l2. eapply ends_mono; [eapply (issue_standard_safe cfg s Hcon Hs n l1 b i r); try done|].
      { intros q x Hq. specialize (Hd1 q x Hq). lia. }
      intros l2 _ (G1 & [G2 G3 G4] & G5). split_and!; [done..|intros E; congruence|]. intros q x Hq. apply G5 in Hq as [Hq| ->]; [|lia].
      specialize (Hd1 q x Hq). lia.
  - apply ends_bind. eapply ends_mono; [apply (pick_act2_safe cfg s Hcon n l1 Deferred HI1 Hfree1)|].
    { intros q x Hq. specialize (Hd1 q x Hq). pose proof (li_clk _ _ _ HI1). lia. }
    intros [o l2] _ [P1 P2 P3 P4 P5]. cbn [fst snd] in *. assert (Hb2 : l_base l2 = l_base l1) by (by rewrite P3).
    assert (Hown2 : forall q x, own l2 q x <-> own l1 q x) by (intros q x; apply own_same; apply P2).
    assert (Hcas2 : m_cas_issued l2 = false) by (by rewrite P3). destruct o as [j|].
    + destruct (P4 j eq_refl) as (r' & Hr' & Hcmd & _). eapply ends_mono; [eapply (issue_owned_act2_safe cfg s Hcon Hs n l2 j Deferred r'); try done|].
      { intros q x Hq%Hown2. rewrite Hb2. specialize (Hd1 q x Hq). lia. }
      intros l3 _ H3. eapply (used_ended n l1 l3 (c_clk (l_base l1) + 1)); [|intros q x Hq; specialize (Hd1 q x Hq); lia|lia].
      by eapply (released_used n l2 l1); [| |by rewrite Hb2|].
    + cbn [ends]. split_and!; [done|by rewrite Hb2|apply P2|intros E; congruence|]. intros q x Hq%Hown2. specialize (Hd1 q x Hq). lia.
Qed.

(** The whole tick, on a device that ran a history. *)
Section Tick.
Context (dev0 : DRAMDevice) (ch : Z) (Hinit : init s = Ok dev0) (Htab : lp_table_ok s = true).

Definition lp_safe (n : nat) (l : LPDDR5Controller) : Prop :=
  lp_ok s n l /\ trace_inv (set_channel_id dev0 ch) 1 (l_base l).

Lemma started_ready c c1 : trace_inv (set_channel_id dev0 ch) 1 c -> tick_started c c1 -> act2_free c1 /\ cas_ready c1.
Proof.
  intros Ht (T1 & _ & T3). pose proof (trace_driven dev0 ch 1 c Ht) as Hd. pose proof (ti_clk _ _ _ Ht) as H0. split.
  - intros av b Hb. unfold ctrl_check_timing in Hb. rewrite T1, T3 in Hb.
    apply (act2_ready d cfg s dev0 ch LPDDR5_in Hcon Hinit Htab (c_log c) (c_clk c) (c_device c) av b Hd H0); [by apply (act2_range cfg s Hcon)|done].
  - intros cas av cmd dev' b Hcas Hcmd Hct Hi Hb. unfold ctrl_check_timing in Hct. rewrite T1, T3 in *.
    eapply (cas_then_access d cfg s dev0 ch LPDDR5_in Hcon Hinit Htab (c_log c) (c_clk c + 1) (c_device c) cas av dev' cmd b); try done; [|lia].
    destruct Hd as [Hd1 Hd2]. split; [|done]. eapply Forall_impl; [exact Hd1|]. cbn. lia.
Qed.

Lemma LPDDR5_tick_ok n l : lp_safe n l -> ends (no_room (l_base l)) (LPDDR5_tick l) (lp_ok s n).
Proof.
  intros [[HI Hdue Hcas] Htr]. assert (Hweak : forall (E : err -> Prop) e, (False : Prop) -> E e) by done.
  unfold LPDDR5_tick. apply ends_bind. eapply ends_mono; [by apply pre_tick_lp|]. intros c Hpre (HI0 & Hst & Hbufs).
  pose proof Hst as (T1 & T2 & T3). destruct (started_ready (l_base l) c Htr Hst) as [Hfree Hready].
  set (l0 := with_l_base l c) in *. pose proof (li_clk _ _ _ HI) as H0.
  assert (Hown0 : forall q x, own l0 q x <-> own l q x) by (intros q x; by apply own_same).
  assert (Hdue0 : due s l0 (c_clk c) (c_clk c + m_nAAD (l_const l) - 1)) by (intros q x Hq%Hown0; specialize (Hdue q x Hq); lia).
  apply ends_bind. eapply ends_mono.
  { eapply ends_weaken; [apply Hweak|]. apply (pick_act2_safe cfg s Hcon n l0 Urgent HI0 Hfree). intros q x Hq. specialize (Hdue0 q x Hq). lia. }
  intros [o l1] _ [P1 P2 P3 P4 P5]. cbn [fst snd] in *.
  assert (Hb1 : l_base l1 = c) by (by rewrite P3). assert (Hc1 : l_const l1 = l_const l) by (by rewrite P3).
  assert (Hown1 : forall q x, own l1 q x <-> own l q x) by (intros q x; rewrite <- Hown0; apply own_same; apply P2).
  assert (Ecas : m_cas_issued l1 = m_cas_issued l) by (by rewrite P3). assert (Ereq : m_cas_req l1 = m_cas_req l) by (by rewrite P3).
  eapply ends_weaken; [apply Hweak|]. destruct (m_cas_issued l1) eqn:Ec.
  - destruct (Hcas (eq_sym Ecas)) as (Hfar & b & i & r & Hreq & Hr & Hb & Hfin & Hacc & Ht).
    destruct o as [i'|].
    { destruct (P4 i' eq_refl) as (r' & _ & _ & Hu). destruct (Hu eq_refl) as (dl & Hdl%Hown0 & Hle). cbn in Hle. specialize (Hfar _ _ Hdl). lia. }
    rewrite bool_decide_true by done. cbn [assert_ mbind res_bind]. apply ends_bind. eapply ends_mono.
    { apply (continue_cas_safe n l1 b i r); [done|congruence|by rewrite Hb1, Hbufs|done..|]. unfold ctrl_check_timing. by rewrite Hb1, T1, T3. }
    intros l2 _ [Hu _]. cbn [ends]. apply (ended_ok n l1).
    eapply (used_ended n l1 l2 (c_clk c + 1)); [done| |rewrite Hb1; lia]. rewrite Hb1, Hc1.
    intros q x Hq%Hown1. pose proof (Hfar q x Hq). pose proof (Hdue q x Hq). lia.
  - apply ends_bind. apply (ends_mono _ _ (ended n l0)); [|intros l2 _ H2; by apply (ended_ok n l0)]. destruct o as [i|].
    + destruct (P4 i eq_refl) as (r & Hr & Hcmd & Hu).
      eapply ends_mono; [eapply (issue_owned_act2_safe cfg s Hcon Hs n l1 i Urgent r); try done|].
      { intros q x Hq%Hown1%Hown0. specialize (Hdue0 q x Hq). rewrite Hb1. lia. }
      intros l2 _ H2. eapply (urgent_ended n l0 l1 (bk (key r))); [done|done|by rewrite Hb1|done| |by apply Hu|done].
      intros q x Hq. specialize (Hdue0 q x Hq). cbn. lia.
    + assert (Hno : forall p dl, own l0 p dl -> c_clk c < dl) by (by apply P5).
      apply (ends_mono _ _ (ended n l1)); [|intros l2 _ (G1 & G2 & G3 & G4 & G5); rewrite Hb1, Hc1 in *; by split_and!].
      apply normal_safe; rewrite ?Hb1; [done..|]. rewrite Hc1. intros q x Hq%Hown1%Hown0. pose proof (Hno q x Hq). specialize (Hdue0 q x Hq). lia.
Qed.

Lemma LPDDR5_tick_safe n l : lp_safe n l -> ends (no_room (l_base l)) (LPDDR5_tick l) (lp_safe n).
Proof.
  intros Hl. eapply ends_mono; [by apply LPDDR5_tick_ok|]. intros l' Ht Hok. split; [done|].
  destruct (LPDDR5_one_slot l l' Ht) as (c & Hst & Hi). eapply tick_trace; [done..|]. apply Hl.
Qed.
End Tick.
End Lp.

(** ** Sending to an LPDDR5 controller, and its initial state

    The remaining obligations of [lp_safe]: an accepted request joins the
    read or write buffer and nothing else moves; a controller that was just
    built has every bank closed and owns none. *)
Section Setup.
Context (cfg : dram_config) (s : DRAMSpec).
Context (Hcon : construct LPDDR5_std cfg = Ok s) (Hs : spec_ok s) (Horg : org_ok s).
Context (dev0 : DRAMDevice) (ch : Z) (Hinit : init s = Ok dev0).
Local Abbreviation d := LPDDR5_std.
Local Abbreviation T := LPDDR5_traits.
Local Abbreviation banks := (banks d s).
Local Abbreviation bk := (bk d).
Local Abbreviation accessing := (accessing d s).
Local Abbreviation row_open := (row_open d).
Local Abbreviation lp_bufs := (act_bufs d s).
Local Abbreviation own := (own s).

(** A send that is accepted or refused, on any history. *)
Lemma LPDDR5_send_safe n l req : lp_safe s dev0 ch n l -> valid_request d s n (l_base l) req ->
  ends total (ctrl_send (l_base l) req) (fun p => lp_safe s dev0 ch n (with_l_base l p.2)).
Proof.
  intros [[HI Hdue Hcas] Htr] Hv. eapply ends_mono; [apply (send_safe d cfg s LPDDR5_in Hcon Horg n); [apply HI|done]|].
  intros [[ok r] c] Hsd Hc. cbn [snd] in *. pose proof (quiet_send _ _ _ _ _ Hsd) as Hq. pose proof Hq as (Q1 & _ & Q3).
  pose proof (send_appended _ _ _ _ _ Hsd) as Ha. split; [|by eapply quiet_trace]. split.
  - split; cbn; [done|rewrite Q3; apply HI|by apply (bufs_appended d cfg s LPDDR5_in Hcon n (l_base l)); [apply HI| |apply HI|..]|].
    rewrite Q1. apply (acts_same s n (c_device (l_base l)) _ l); [apply HI|done|by split|apply (la_reqs _ _ _ _ (li_acts _ _ _ HI))].
  - cbn. rewrite Q3. exact Hdue.
  - intros E. destruct (Hcas E) as (H1 & b & i & x & H2 & H3 & H4). split; [intros p dl Hp; cbn; rewrite Q3; by apply H1 with p|].
    exists b, i, x. cbn. rewrite Q1, Q3. split_and!; [done| |apply H4..]. destruct (ap_rw _ _ Ha b) as (ks & -> & _). by apply lookup_app_l_Some.
Qed.

(** ** The initial state *)
Lemma LPDDR5_init_ids c l : spec_of c = s -> LPDDR5_init c = Ok l ->
  exists k, lp_ids k /\ get_timing_value s "nAAD" = Ok (m_nAAD k) /\
  l = mkLP c k (mkBuf [] (Z.of_nat (length (m_bank_nodes (c_device c)))))
    (replicate (length (m_bank_nodes (c_device c))) false) (replicate (length (m_bank_nodes (c_device c))) (-1)) 0 false None 0 0 0 0.
Proof.
  intros Hsp. unfold LPDDR5_init. cbn zeta. rewrite Hsp.
  rewrite (lp_id cfg s Hcon "ACT1" lpACT1 eq_refl), (lp_id cfg s Hcon "ACT2" lpACT2 eq_refl), (lp_id cfg s Hcon "CAS_RD" lpCAS_RD eq_refl),
    (lp_id cfg s Hcon "CAS_WR" lpCAS_WR eq_refl), (lp_id cfg s Hcon "RD" lpRD eq_refl), (lp_id cfg s Hcon "WR" lpWR eq_refl),
    (lp_id cfg s Hcon "RDA" lpRDA eq_refl), (lp_id cfg s Hcon "WRA" lpWRA eq_refl). cbn [mbind res_bind].
  intros H. inv_res. subst l. eexists. split_and!; [..|reflexivity]; [by split|done].
Qed.

End Setup.

(** What the LPDDR5 controller assumes of its configuration: the table of
    [Settle], an activation window, the open row policy, and a number of
    banks that fits the buffer size. *)
Record lp_config (s : DRAMSpec) (cc : controller_config) : Prop := {
  lc_table : lp_table_ok s = true;
  lc_aad : forall k, get_timing_value s "nAAD" = Ok k -> 1 <= k;
  lc_policy : cc_rowpolicy cc = CfgOpen;
  lc_banks : Z.of_nat (length (banks LPDDR5_std s)) < 2 ^ 64
}.

Lemma fresh_safe cc s dev0 ch n c c0 l :
  construct LPDDR5_std (cc_dram cc) = Ok s -> init s = Ok dev0 -> fresh LPDDR5_std cc s dev0 ch c -> ctrl_ok LPDDR5_std s n c ->
  spec_of c0 = s -> m_bank_nodes (c_device c0) = banks LPDDR5_std s -> LPDDR5_init c0 = Ok l -> lp_config s cc ->
  lp_safe s dev0 ch n (with_l_base l c).
Proof.
  intros Hcon Hinit F Hc Hsp Hbn Hl [_ Haad Hpol Hfit]. destruct (LPDDR5_init_ids (cc_dram cc) s Hcon c0 l Hsp Hl) as (k & Hids & Hn & ->). clear Hl. rewrite Hbn.
  set (l := with_l_base _ c). assert (Hnone : forall q x, ~ own s l q x).
  { intros q x (i & _ & Hv & _). cbn in Hv. by apply lookup_replicate in Hv as [? _]. }
  split; [split|].
  - split; cbn; [done|rewrite (fs_clk _ _ _ _ _ _ F); lia|by apply (fresh_bufs_ok LPDDR5_std cc s dev0 ch)|].
    split; cbn; [done|by apply Haad|by rewrite length_replicate|by rewrite length_replicate|done|..].
    + by intros r ?%not_elem_of_nil.
    + by intros x ?%not_elem_of_nil.
    + constructor.
    + intros p. split; [intros [x Hx]; by apply Hnone in Hx|by intros ?%not_elem_of_nil].
    + intros p b Hp Hb. rewrite (fresh_banks LPDDR5_std cc s LPDDR5_in Hcon dev0 ch Hinit c F p b Hp Hb). split; [done|]. intros [x Hx]. by apply Hnone in Hx.
    + intros p q x Hx. by apply Hnone in Hx.
  - intros q x Hx. by apply Hnone in Hx.
  - done.
  - by apply (fresh_trace LPDDR5_std cc s).
Qed.
