(* ===== verification/SafeControllers.v ===== *)
(** * SafeControllers: controllers never go wrong

    [SafeController] is what a controller class owes to the memory system: an
    invariant that [tick] and [send] keep, under which a send of a valid
    request succeeds and a tick fails only on a refresh that finds the
    priority buffer full.  The four controller classes are an instance; the
    theorem is proved once against the interface. *)
From stdpp Require Import prelude gmap strings.
From S2P Require Import Prelude DramSpec Commands Standards Node NodeTiming NodeTree Device DeviceInv DeviceProps BankSafety BankProgress IssueSafety Request BitUtils AddrMapper Float32 ControllerState Controller Refresh NodeAddr HbmRefresh RowPolicy ControllerInit GenericDdr ControllerSafety Hbm Lpddr5 Controllers ControllerTrace Settle ServeSafety TickSafety HbmSafety Bookkeeping ServeFrame ActiveInv LpInv LpSafety.
Open Scope Z_scope.

Local Abbreviation total := (fun _ : err => False).

Class SafeController (A : Type) `{IController A} (d : standard) (s : DRAMSpec) (n : nat) := {
  safe : A -> Prop;
  safe_base : forall a, safe a -> ctrl_ok d s n (base a);
  safe_send : forall a req, safe a -> valid_request d s n (base a) req -> ends total (ctl_send a req) (fun p => safe p.2);
  safe_tick : forall a, safe a -> ends (no_room (base a)) (ctl_tick a) safe
}.

(** ** Histories of valid calls *)
Section Runs.
Context {A : Type} `{IController A} (d : standard) (s : DRAMSpec) (n : nat).

(** Ticks and sends of valid requests, in any order. *)
Inductive valid_run (a0 : A) : A -> Prop :=
| vrun_refl : valid_run a0 a0
| vrun_tick a a' : valid_run a0 a -> ctl_tick a = Ok a' -> valid_run a0 a'
| vrun_send a req ok r a' :
    valid_run a0 a -> valid_request d s n (base a) req -> ctl_send a req = Ok (ok, r, a') -> valid_run a0 a'.

Lemma valid_run_safe `{!SafeController A d s n} a0 a : safe a0 -> valid_run a0 a -> safe a.
Proof.
  intros H0. induction 1 as [|a a' _ IH Ht|a req ok r a' _ IH Hv Hsd]; [done|..].
  - pose proof (safe_tick a IH) as Hs. by rewrite Ht in Hs.
  - pose proof (safe_send a req IH Hv) as Hs. by rewrite Hsd in Hs.
Qed.
End Runs.

(** ** The instances *)
Section Instances.
Context (d : standard) (cfg : dram_config) (s : DRAMSpec) (n : nat).
Context (Hin : In d all_standards) (Hcon : construct d cfg = Ok s) (Hs : spec_ok s) (Horg : org_ok s).

(** A class whose invariant is that of its base sends safely. *)
Lemma base_send_safe {A} `{IController A} (I : A -> Prop) (a : A) req :
  (forall c, ctrl_ok d s n c -> I (set_base a c)) -> ctrl_ok d s n (base a) -> valid_request d s n (base a) req ->
  ends total (ctl_send a req) (fun p => I p.2).
Proof.
  intros HI Ha Hv. unfold ctl_send. apply ends_bind.
  eapply ends_mono; [by apply (send_safe d cfg s Hin Hcon Horg n)|]. intros [[ok r] c] _ Hc. by apply HI.
Qed.

(** The LPDDR5 controller also needs the history of its device. *)
Definition lpddr5_safe (l : LPDDR5Controller) : Prop :=
  d = LPDDR5_std /\ lp_table_ok s = true /\ exists dev0 ch, init s = Ok dev0 /\ lp_safe s dev0 ch n l.

Definition controller_safe (a : controller) : Prop :=
  match a with
  | CtlHBM34 h => h34_safe d s n h
  | CtlLPDDR5 l => lpddr5_safe l
  | a => ctrl_ok d s n (base a)
  end.

Lemma lpddr5_send_safe l req : lpddr5_safe l -> valid_request d s n (l_base l) req ->
  ends total (ctl_send l req) (fun p => lpddr5_safe p.2).
Proof.
  intros (Ed & Ht & dev0 & ch & Hi & Hl) Hv. assert (Hcon' : construct LPDDR5_std cfg = Ok s) by (by rewrite <- Ed). rewrite Ed in Hv.
  unfold ctl_send. apply ends_bind. eapply ends_mono; [by apply (LPDDR5_send_safe cfg s Hcon' Horg dev0 ch n l req)|].
  intros [[ok r] c] _ Hc. split_and!; [done..|]. by exists dev0, ch.
Qed.

Lemma lpddr5_tick_safe l : lpddr5_safe l -> ends (no_room (l_base l)) (LPDDR5_tick l) lpddr5_safe.
Proof.
  intros (Ed & Ht & dev0 & ch & Hi & Hl). assert (Hcon' : construct LPDDR5_std cfg = Ok s) by (by rewrite <- Ed).
  eapply ends_mono; [by apply (LPDDR5_tick_safe cfg s Hcon' Hs Horg dev0 ch Hi Ht n)|]. intros l' _ Hl'. split_and!; [done..|]. by exists dev0, ch.
Qed.

Lemma lpddr5_base l : lpddr5_safe l -> ctrl_ok d s n (l_base l).
Proof. intros (Ed & _ & dev0 & ch & _ & [[HI _ _] _]). rewrite Ed. apply HI. Qed.

#[refine] Instance safe_controller : SafeController controller d s n := {
  safe := controller_safe
}.
Proof.
  - by intros [a|a|a|a]; [..|intros [_ ?]|apply lpddr5_base].
  - intros [a|a|a|a] req Ha Hv.
    1,2: by apply (base_send_safe controller_safe).
    + apply (base_send_safe controller_safe); [|apply Ha|done]. intros c Hc. destruct Ha as [[] _]. by split.
    + pose proof (lpddr5_send_safe a req Ha Hv) as H. unfold ctl_send in *. cbn in *. by destruct (ctrl_send (l_base a) req) as [[[ok r] c]|].
  - intros [a|a|a|a] Ha; cbn.
    + pose proof (tick_safe d cfg s Hin Hcon Hs Horg n (g_base a) Ha) as H. unfold GenericDDRController_tick. by destruct (GenericDDR_tick _).
    + pose proof (HBM_tick_safe d cfg s Hin Hcon Hs Horg n (h12_base a) Ha) as H. unfold HBM12Controller_tick. by destruct (HBM_tick _).
    + pose proof (HBM34_tick_safe d cfg s Hin Hcon Hs Horg n a Ha) as H. by destruct (HBM34_tick _).
    + pose proof (lpddr5_tick_safe a Ha) as H. by destruct (LPDDR5_tick a).
Defined.

(** What a class asks of the configuration. *)
Definition class_ok (cls : controller_class) (cc : controller_config) : Prop :=
  match cls with ClsLPDDR5 => d = LPDDR5_std /\ lp_config s cc | _ => True end.

(** Construction and [setup] establish the invariant. *)
Lemma make_safe cls cc cores ch a0 c :
  cc_dram_impl cc = std_name d -> cc_dram cc = cfg -> 0 <= cores -> n = Z.to_nat cores -> class_ok cls cc ->
  make_controller registry cls cc = Ok a0 -> setup_controller cc cores ch (base a0) = Ok c ->
  controller_safe (set_base a0 c).
Proof.
  intros Hname Hcfg Hn En Hcls. unfold make_controller. intros (c0 & Hi & Hm)%bind_Ok_inv Hsu.
  assert (Hok : base a0 = c0 -> ctrl_ok d s n c)
    by (intros E; rewrite E in Hsu; rewrite En; by eapply (setup_ok d cfg s)).
  destruct cls; [injection Hm as <-; by apply Hok..| |].
  - apply fmap_Ok_inv in Hm as (h & Hh & <-).
    assert (Hdev : dev_ok d s (c_device c0)) by (eapply (init_base_dev d cfg s); eauto).
    destruct (HBM34_init_levels d cfg s Hin Hcon c0 h Hdev Hh) as [[] Hb]. split; [by split|by apply Hok].
  - apply fmap_Ok_inv in Hm as (l & Hl & <-). destruct Hcls as [Ed [L1 L2 L3 L4]].
    assert (Hcon' : construct LPDDR5_std cfg = Ok s) by (by rewrite <- Ed). cbn in Hsu.
    assert (Hb : l_base l = c0) by (unfold LPDDR5_init in Hl; inv_res; by subst l). specialize (Hok Hb). rewrite Hb in Hsu. rewrite Ed in Hok.
    destruct (setup_fresh LPDDR5_std cc s LPDDR5_in ltac:(by rewrite Hcfg) cores ch c0 c) as (dev0 & Hd0 & Hf & Hsp & Hbn); [done|done|by rewrite <- Ed|done..|].
    split_and!; [done..|]. exists dev0, ch. split; [done|]. eapply (fresh_safe cc s dev0 ch n c c0 l); by try rewrite Hcfg.
Qed.
End Instances.

