(* ===== verification/Progress.v ===== *)
(** * Progress: every candidate of a GenericDDR controller is progress

    For a standard with a single activation command.  [backlog] weighs the
    work a controller still has; [move] lists what a candidate can be: an
    access to an open row, the activation of a closed bank, or a maintenance
    command that is the wanted one or closes a bank.  Serving a move keeps the
    invariant and shrinks the [backlog]. *)
From stdpp Require Import prelude gmap strings.
From S2P Require Import Prelude DramSpec Commands Standards Node NodeTiming NodeTree Device DeviceInv DeviceProps BankSafety BankProgress IssueSafety Request BitUtils AddrMapper Float32 ControllerState Controller Scheduler Refresh NodeAddr HbmRefresh RowPolicy ControllerInit GenericDdr ControllerSafety Hbm Lpddr5 Controllers ControllerTrace Settle ServeSafety TickSafety Bookkeeping ServeFrame ActiveInv.
Open Scope Z_scope.

(** ** The work a controller still has to do

    [backlog] weighs the requests a GenericDDR controller holds and the banks
    it may have to close.  Under the invariant of [ActiveInv], serving any
    candidate makes it smaller; and when every command is ready, a candidate
    is found unless the controller holds no request at all. *)
(** ** Counting *)
Lemma count_mono {A} (p q : A -> bool) l : (forall x, x ∈ l -> p x = true -> q x = true) -> (count p l <= count q l)%nat.
Proof.
  induction l as [|x l IH]; intros H; [done|]. rewrite !count_cons. specialize (IH ltac:(intros y Hy; apply H; by right)).
  pose proof (H x ltac:(by left)). destruct (p x), (q x); lia.
Qed.

Lemma count_strict {A} (p q : A -> bool) l y : (forall x, x ∈ l -> p x = true -> q x = true) ->
  y ∈ l -> p y = false -> q y = true -> (count p l < count q l)%nat.
Proof.
  induction l as [|x l IH]; intros H Hy Hp Hq; [by apply not_elem_of_nil in Hy|]. rewrite !count_cons.
  assert (Hl : forall z, z ∈ l -> p z = true -> q z = true) by (intros z Hz; apply H; by right).
  pose proof (H x ltac:(by left)) as Hx. apply elem_of_cons in Hy as [->|Hy].
  - rewrite Hp, Hq. pose proof (count_mono p q l Hl). lia.
  - specialize (IH Hl Hy Hp Hq). destruct (p x), (q x); lia.
Qed.

Lemma count_except {A} (p q : A -> bool) l y : NoDup l -> (forall x, x ∈ l -> x <> y -> p x = true -> q x = true) ->
  (count p l <= S (count q l))%nat.
Proof.
  induction l as [|x l IH]; intros Hn H; [cbn; lia|]. apply NoDup_cons in Hn as [Hx Hn]. rewrite !count_cons.
  assert (Hl : forall z, z ∈ l -> z <> y -> p z = true -> q z = true) by (intros z Hz; apply H; by right).
  pose proof (H x ltac:(by left)) as Hxy. pose proof (IH Hn Hl) as Hle.
  destruct (p x) eqn:Ep; [|lia]. destruct (q x) eqn:Eq; [lia|].
  assert (Hm : (count p l <= count q l)%nat); [|lia]. apply count_mono. intros z Hz. apply Hl; [done|]. intros ->.
  assert (x <> y) as Hne by (by intros ->). by discriminate (Hxy Hne eq_refl).
Qed.

(** ** The measure *)
Section Backlog.
Context (d : standard) (s : DRAMSpec).
Local Abbreviation T := (std_traits d).

(** Bank [p] is not closed. *)
Definition unclosed (dev : DRAMDevice) (p : list nat) : bool :=
  match bank_of dev p with Some b => negb (m_state b =? T_Closed T) | None => false end.

Definition active_banks (c : ControllerBase) : list (list nat) := map (bk d) (keys (c_active_buffer c)).

(** The banks that are open for nobody. *)
Definition leftover (c : ControllerBase) : nat :=
  count (fun p => unclosed (c_device c) p && bool_decide (p ∉ active_banks c)) (banks d s).

Definition backlog (c : ControllerBase) : Z :=
  3 * (buf_size (c_read_buffer c) + buf_size (c_write_buffer c)) + 2 * buf_size (c_active_buffer c) +
  Z.of_nat (leftover c) + buf_size (c_priority_buffer c).

(** Only the banks, the keys of active requests and the sizes matter. *)
Lemma keys_size b b' : keys b' = keys b -> buf_size b' = buf_size b.
Proof. intros H. apply (f_equal length) in H. unfold keys in H. rewrite !length_map in H. unfold buf_size. lia. Qed.

Lemma leftover_le c c' : keys (c_active_buffer c') = keys (c_active_buffer c) ->
  (forall q, q ∈ banks d s -> q ∉ active_banks c -> unclosed (c_device c') q = true -> unclosed (c_device c) q = true) ->
  (leftover c' <= leftover c)%nat.
Proof.
  intros Hk Hq. apply count_mono. intros q Hin. unfold active_banks. rewrite Hk. rewrite !andb_true_iff, !bool_decide_eq_true. intros [H1 H2]. auto.
Qed.

Lemma leftover_lt c c' p : keys (c_active_buffer c') = keys (c_active_buffer c) ->
  (forall q, q ∈ banks d s -> q ∉ active_banks c -> unclosed (c_device c') q = true -> unclosed (c_device c) q = true) ->
  p ∈ banks d s -> p ∉ active_banks c -> unclosed (c_device c) p = true -> unclosed (c_device c') p = false -> (leftover c' < leftover c)%nat.
Proof.
  intros Hk Hq Hp Hna H1 H2. eapply (count_strict _ _ _ p); [|done|by rewrite H2|by rewrite H1, bool_decide_true].
  intros q Hin. unfold active_banks. rewrite Hk. rewrite !andb_true_iff, !bool_decide_eq_true. intros [H3 H4]. auto.
Qed.

Lemma leftover_calm c c' : calm c c' -> (forall q, q ∈ banks d s -> bank_of (c_device c') q = bank_of (c_device c) q) ->
  (leftover c' <= leftover c)%nat.
Proof.
  intros Hc Hq. apply leftover_le; [apply (cm_keys _ _ Hc Bactive)|]. intros q Hin _. unfold unclosed. by rewrite Hq.
Qed.

Lemma backlog_calm c c' : calm c c' -> (leftover c' <= leftover c)%nat -> backlog c' <= backlog c - Z.of_nat (leftover c) + Z.of_nat (leftover c').
Proof.
  intros Hc Hl. unfold backlog. pose proof (fun b => keys_size _ _ (cm_keys _ _ Hc b)) as Hs.
  pose proof (Hs Bactive). pose proof (Hs Bpriority). pose proof (Hs Bread). pose proof (Hs Bwrite). cbn [get_buf] in *. lia.
Qed.

(** ** Retiring and promoting *)
Lemma buf_size_remove b i r : buffer b !! i = Some r -> buf_size b = buf_size (remove b i) + 1.
Proof. intros Hr. unfold buf_size, remove. cbn. rewrite (length_erase _ _ _ Hr). lia. Qed.

Lemma backlog_retire c b i r c' : buffer (get_buf c b) !! i = Some r -> retire_request c b i = Ok c' ->
  NoDup (active_banks c) -> backlog c' < backlog c.
Proof.
  intros Hr H Hnd. destruct (retire_frame c b i r c' Hr H) as (F1 & (F2 & _) & _). pose proof (buf_size_remove _ _ _ Hr) as Hsz.
  assert (Hl : (leftover c' <= (if decide (b = Bactive) then 1 else 0) + leftover c)%nat).
  { unfold leftover. rewrite F2. case_decide as Eb.
    - apply (count_except _ _ _ (bk d (key r)) (NoDup_all_paths _)). intros q _ Hne. rewrite !andb_true_iff, !bool_decide_eq_true.
      intros [H1 H2]. split; [done|]. intros H3. apply H2. unfold active_banks.
      assert (c_active_buffer c' = remove (c_active_buffer c) i) as -> by (pose proof (F1 Bactive) as Fa; by rewrite Eb in Fa).
      apply (nodup_remove d (c_active_buffer c) i r Hnd); [by rewrite Eb in Hr|done].
    - apply count_mono. unfold active_banks. pose proof (F1 Bactive) as Fa. rewrite decide_False in Fa by congruence. cbn in Fa. by rewrite Fa. }
  unfold backlog. pose proof (F1 Bactive) as E1. pose proof (F1 Bpriority) as E2. pose proof (F1 Bread) as E3. pose proof (F1 Bwrite) as E4.
  destruct b; cbn -[buf_size] in *; repeat case_decide; try congruence; rewrite ?E1, ?E2, ?E3, ?E4; lia.
Qed.

(** The activation of a request's bank, and its move to the active buffer. *)
Lemma backlog_promote c0 c b i r c' : b = Bread \/ b = Bwrite -> buffer (get_buf c b) !! i = Some r -> calm c0 c ->
  (forall q, q ∈ banks d s -> q <> bk d (key r) -> bank_of (c_device c) q = bank_of (c_device c0) q) ->
  promote_to_active c b i = Ok c' -> buf_size (c_active_buffer c) < max_size (c_active_buffer c) -> backlog c' < backlog c0.
Proof.
  intros Hb Hr Hcalm Hsame H Hroom. unfold promote_to_active in H. rewrite (request_at_Ok _ _ _ _ Hr) in H. cbn [mbind res_bind] in H.
  apply bind_Ok_inv in H as ([ok c1] & H1 & H). pose proof (promote_room c r (ok, c1) Hroom H1) as Hok. cbn in Hok. subst ok.
  cbn [fst snd] in H. injection H as <-. destruct (promote_frame c r c1 H1) as (F1 & (F2 & _) & _).
  pose proof (fun b => keys_size _ _ (cm_keys _ _ Hcalm b)) as Hs. set (c2 := set_buf _ _ _).
  assert (G : forall b', get_buf c2 b' = if decide (b' = b) then remove (get_buf c b) i else get_buf c1 b').
  { intros b'. unfold c2. rewrite get_set_buf, !forget_write_bufs. case_decide; [|done]. rewrite F1, decide_False; [done|]. by destruct Hb as [-> | ->]. }
  assert (Gd : c_device c2 = c_device c) by (rewrite <- F2; by destruct Hb as [-> | ->]). clearbody c2.
  assert (Ga : c_active_buffer c2 = mkBuf (buffer (c_active_buffer c) ++ [r]) (max_size (c_active_buffer c))).
  { pose proof (G Bactive) as Ga. rewrite decide_False in Ga by (by destruct Hb as [-> | ->]). rewrite F1 in Ga. exact Ga. }
  assert (Hka : active_banks c2 = active_banks c0 ++ [bk d (key r)]).
  { pose proof (cm_keys _ _ Hcalm Bactive) as Hk. cbn in Hk. unfold active_banks. rewrite <- Hk, Ga. unfold keys. cbn [buffer]. by rewrite !map_app. }
  assert (Hl : (leftover c2 <= leftover c0)%nat).
  { apply count_mono. intros q Hq. rewrite !andb_true_iff, !bool_decide_eq_true. rewrite Hka, elem_of_app, list_elem_of_singleton. intros [H2 H3].
    split; [|tauto]. unfold unclosed in *. rewrite Gd in H2. rewrite <- Hsame; [done..|]. intros ->. tauto. }
  assert (Hsz : buf_size (c_active_buffer c2) = buf_size (c_active_buffer c) + 1).
  { rewrite Ga. unfold buf_size. cbn [buffer]. rewrite length_app. cbn. lia. }
  pose proof (buf_size_remove _ _ _ Hr) as Hrm. pose proof (G Bpriority) as E2. pose proof (G Bread) as E3. pose proof (G Bwrite) as E4.
  pose proof (F1 Bpriority) as P2. pose proof (F1 Bread) as P3. pose proof (F1 Bwrite) as P4.
  pose proof (Hs Bactive). pose proof (Hs Bpriority). pose proof (Hs Bread). pose proof (Hs Bwrite).
  unfold backlog. destruct Hb as [-> | ->]; cbn -[buf_size] in *; repeat case_decide; try congruence; rewrite ?E2, ?E3, ?E4, ?P2, ?P3, ?P4; lia.
Qed.
End Backlog.

Lemma ends_inv {A} E (m : res A) Q x : ends E m Q -> m = Ok x -> Q x.
Proof. intros H ->. exact H. Qed.

(** ** What serving leaves of the rest of the controller *)
Record kept (c c' : ControllerBase) : Prop := {
  kp_clk : c_clk c' = c_clk c;
  kp_spec : spec_of c' = spec_of c;
  kp_refresh : c_refresh c' = c_refresh c;
  kp_marks : marks c' = marks c;
  kp_max : forall b, max_size (get_buf c' b) = max_size (get_buf c b);
  kp_pending : exists l, c_pending c' = c_pending c ++ l /\ Forall (fun r => depart r = c_clk c + read_latency (spec_of c)) l
}.

#[export] Instance kept_preorder : PreOrder kept.
Proof.
  split; [intros c; split; try done; exists []; by rewrite app_nil_r|].
  intros x y z [A1 A2 A3 A4 A5 (l & A6 & A7)] [B1 B2 B3 B4 B5 (k & B6 & B7)]. split; [congruence..|intros b; by rewrite B5|].
  exists (l ++ k). rewrite B6, A6, app_assoc. split; [done|]. rewrite A1, A2 in B7. by apply Forall_app.
Qed.

Lemma calm_kept c c' : calm c c' -> c_clk c' = c_clk c -> spec_of c' = spec_of c -> kept c c'.
Proof.
  intros [H1 H2 H3 H4 H5 H6 H7] Hc Hs. split; try done. exists []. by rewrite app_nil_r, H5.
Qed.

Lemma active_add_kept c av k c' : active_add c av k = Ok c' -> kept c c'.
Proof.
  unfold active_add. intros (i & _ & (l & _ & [= <-])%bind_Ok_inv)%bind_Ok_inv. split; try done; try (by intros []). exists []. by rewrite app_nil_r.
Qed.

Lemma forget_kept c b r : kept c (forget_write c b r).
Proof. unfold forget_write. destruct (decide _); split; try done; try (by intros []); exists []; by rewrite app_nil_r. Qed.

Lemma set_buf_kept c b v : max_size v = max_size (get_buf c b) -> kept c (set_buf c b v).
Proof.
  intros Hm. assert (Hg : forall b', max_size (get_buf (set_buf c b v) b') = max_size (get_buf c b')).
  { intros b'. rewrite get_set_buf. by destruct (decide (b' = b)) as [->|]. }
  split; [by destruct b..|done|]. exists []. rewrite app_nil_r. by destruct b.
Qed.

Lemma complete_kept c r : kept c (complete c r).
Proof.
  assert (H : forall c', (forall b, get_buf c' b = get_buf c b) -> c_clk c' = c_clk c -> c_device c' = c_device c -> c_refresh c' = c_refresh c ->
    marks c' = marks c -> c_pending c' = c_pending c -> kept c c').
  { intros c' H1 H2 H3 H4 H5 H6. split; try done; [unfold spec_of; by rewrite H3|intros b; by rewrite H1|]. exists []. by rewrite app_nil_r. }
  unfold complete. destruct (type_id r =? Type_Read).
  { split; try done; try (by intros []). eexists. split; [done|]. by apply Forall_singleton. }
  destruct (type_id r =? Type_Write); [|destruct (type_id r =? -1)].
  - unfold call_back. destruct (callback r); apply H; try done; by intros [].
  - apply H; try done; by intros [].
  - done.
Qed.

Lemma retire_kept c b i c' : retire_request c b i = Ok c' -> kept c c'.
Proof.
  unfold retire_request. intros (r & _ & (c1 & H1 & [= <-])%bind_Ok_inv)%bind_Ok_inv.
  transitivity c1; [destruct (decide _); [by eapply active_add_kept|by injection H1 as <-]|].
  etrans; [apply (forget_kept c1 b r)|]. etrans; [apply (complete_kept _ r)|]. apply set_buf_kept.
  rewrite (proj1 (framed_complete (forget_write c1 b r) r)), forget_write_bufs. done.
Qed.

Lemma promote_kept c r ok c' : promote c r = Ok (ok, c') -> kept c c'.
Proof.
  unfold promote. destruct (enqueue _ _) as [k v] eqn:He. pose proof (enqueue_inv _ _ _ _ He) as Hi.
  assert (Hv : kept c (with_c_active_buffer c v)).
  { apply (set_buf_kept c Bactive). destruct k; [by destruct Hi as [-> _]|by subst v]. }
  destruct k; [|by intros [= _ <-]]. intros (c1 & H1 & [= _ <-])%bind_Ok_inv. etrans; [exact Hv|]. by eapply active_add_kept.
Qed.

Lemma promote_to_active_kept c b i c' : promote_to_active c b i = Ok c' -> kept c c'.
Proof.
  unfold promote_to_active. intros (r & _ & ([ok c1] & H1 & H)%bind_Ok_inv)%bind_Ok_inv. apply promote_kept in H1. destruct ok; cbn in H; injection H as <-; [|done].
  etrans; [exact H1|]. etrans; [apply (forget_kept c1 b r)|]. by apply set_buf_kept.
Qed.

Section Progress.
Context (d : standard) (cfg : dram_config) (s : DRAMSpec).
Context (Hin : In d all_standards) (Hcon : construct d cfg = Ok s) (Hs : spec_ok s) (Hone : T_ACT2 (std_traits d) = None).
Local Abbreviation T := (std_traits d).
Local Abbreviation good n c := (ctrl_ok d s n c /\ act_bufs d s c).

Inductive move (c : ControllerBase) (b : buf_id) (r : Request) : Prop :=
| mv_access : b <> Bpriority -> accessing d s (key r) -> command r = final_command r -> move c b r
| mv_open bs :
    b = Bread \/ b = Bwrite -> accessing d s (key r) -> command r = enum_val (T_ACT T) ->
    bank_of (c_device c) (bk d (key r)) = Some bs -> m_state bs = T_Closed T -> move c b r
| mv_maint ci :
    b <> Bactive -> maint d s (command r) ci -> addr_for d s (impl_target ci) (addr_vec r) ->
    (is_closing (impl_meta ci) = true -> forall p, p ∈ active_banks d c -> ~ reaches d (c_device c) (impl_target ci) (addr_vec r) p) ->
    command r = final_command r \/ clears d (c_device c) r ci -> move c b r.

(** A pick keeps the invariant and returns a move. *)
Definition picked (n : nat) (c : ControllerBase) (p : Candidate * ControllerBase) : Prop :=
  calm c p.2 /\ quiet c p.2 /\ good n p.2 /\
  forall b i, p.1 = Some (b, i) -> exists r, buffer (get_buf p.2 b) !! i = Some r /\ req_ok d s n r /\ move p.2 b r.

Lemma good_calm n c c' : good n c -> ctrl_ok d s n c' -> calm c c' -> quiet c c' -> good n c'.
Proof. intros [_ H] Hc Hcalm (Hd & _). split; [done|]. apply (bufs_calm d s c); [done..|]. intros k _. by rewrite Hd. Qed.

(** The chosen request is one of the original ones, with a new command. *)
Lemma chosen_request n c c' f b i r : good n c -> good n c' -> calm c c' -> chosen c f b i c' r ->
  req_ok d s n r /\ key r ∈ keys (get_buf c b).
Proof.
  intros _ [H1 _] Hcalm [K1 _ _ _]. split; [apply (ck_reqs _ _ _ _ H1 b); by eapply list_elem_of_lookup_2|].
  rewrite <- (cm_keys _ _ Hcalm b). by eapply key_in_keys.
Qed.

Lemma maint_move c c' b r name ci n : good n c -> calm c c' -> quiet c c' -> b <> Bactive -> maint d s (command r) ci -> named d s (command r) name ci ->
  addr_for d s (impl_target ci) (addr_vec r) -> would_close_active c r = Ok false ->
  command r = final_command r \/ clears d (c_device c) r ci -> move c' b r.
Proof.
  intros [H1 H2] Hcalm (Hd & _) Hb Hm Hn Hav Hcl Hcase. apply (mv_maint c' b r ci); rewrite ?Hd; try done.
  intros Hclose p Hp. apply (would_close_false d cfg s Hin Hcon n c r name ci); try done.
  pose proof (cm_keys _ _ Hcalm Bactive) as Hk. cbn in Hk. unfold active_banks in Hp. by rewrite Hk in Hp.
Qed.

Lemma no_filter n c : filter_ok d s n c None.
Proof. intros r _ _. by exists true. Qed.

Lemma pick_active_move n c p : good n c -> pick_best_ready_from c Bactive None = Ok p -> picked n c p.
Proof.
  intros Hg Hp. destruct (pick_best_frame _ _ _ _ Hp) as (Hcalm & Hq & Hsel).
  assert (Hg' : good n p.2).
  { eapply good_calm; [exact Hg| |done..]. apply (ends_inv _ _ _ _ (pick_best_safe d cfg s Hin Hcon n c (proj1 Hg) None (no_filter n c) Bactive) Hp). }
  split_and!; [done..|apply Hg'|apply Hg'|]. intros b i Hi. destruct (Hsel b i Hi) as (-> & r & Hch).
  destruct (chosen_request n c p.2 _ _ _ _ Hg Hg' Hcalm Hch) as [Hr Hk]. exists r. split_and!; [apply Hch|done|].
  destruct (ab_active _ _ _ (proj2 Hg) _ Hk) as [Hacc (b' & row' & Hb' & Hst & Hrow' & Hpr)]. apply mv_access; [done..|].
  destruct (access_resolved d cfg s Hin Hcon n c r (proj1 Hg) Hr Hacc (ch_resolved _ _ _ _ _ _ Hch)) as (bs & row & bc & Hb & _ & Hrow & Hres & Hcmd & Hbc).
  rewrite Hb in Hb'. injection Hb' as <-. change (key r).1 with (addr_vec r) in Hrow'. rewrite Hrow in Hrow'. injection Hrow' as <-.
  pose proof (tw_states _ (T_wf d cfg s Hin Hcon)) as Hne. rewrite Hcmd. destruct bc; cbn; try done.
  - destruct Hbc. congruence.
  - destruct Hbc. congruence.
  - destruct (tw_activating _ (T_wf d cfg s Hin Hcon) _ Hbc). congruence.
  - destruct Hbc. congruence.
Qed.

Lemma pick_priority_move n c p : good n c -> pick_priority_if c None = Ok p -> picked n c p.
Proof.
  intros Hg Hp. destruct (pick_priority_frame _ _ _ Hp) as (Hcalm & Hq & Hsel).
  assert (Hg' : good n p.2).
  { eapply good_calm; [exact Hg| |done..]. apply (ends_inv _ _ _ _ (pick_priority_safe d cfg s Hin Hcon n c (proj1 Hg) None (no_filter n c)) Hp). }
  split_and!; [done..|apply Hg'|apply Hg'|]. intros b i Hi. destruct (Hsel b i Hi) as (-> & r & Hch & Hcl).
  destruct (chosen_request n c p.2 _ _ _ _ Hg Hg' Hcalm Hch) as [Hr Hk]. exists r. split_and!; [apply Hch|done|].
  destruct (maint_resolved d cfg s Hin Hcon n c r (proj1 Hg) Hr (ab_prio _ _ _ (proj2 Hg) _ Hk) (ch_resolved _ _ _ _ _ _ Hch)) as (ci & Hm & Hav & Hcase).
  destruct (maint_named d s _ _ Hm) as (name & _ & _ & Hn).
  eapply (maint_move p.2 p.2 _ r name ci n); try done. by rewrite (proj1 Hq).
Qed.

Lemma pick_rw_move n c p : good n c -> pick_rw_if c None = Ok p -> picked n c p.
Proof.
  intros Hg Hp. destruct (pick_rw_frame _ _ _ Hp) as (Hcalm & Hq & Hsel).
  assert (Hg' : good n p.2).
  { eapply good_calm; [exact Hg| |done..]. apply (ends_inv _ _ _ _ (pick_rw_safe d cfg s Hin Hcon n c None (proj1 Hg) (no_filter n c)) Hp). }
  split_and!; [done..|apply Hg'|apply Hg'|]. intros b i Hi. destruct (Hsel b i Hi) as (Hbb & r & Hch & Hcl).
  destruct (chosen_request n c p.2 _ _ _ _ Hg Hg' Hcalm Hch) as [Hr Hk]. exists r. split_and!; [apply Hch|done|].
  assert (Hacc : accessing d s (key r)) by (by apply (ab_rw _ _ _ (proj2 Hg) b)).
  destruct (access_resolved d cfg s Hin Hcon n c r (proj1 Hg) Hr Hacc (ch_resolved _ _ _ _ _ _ Hch)) as (bs & row & bc & Hb & Hwf & Hrow & _ & Hcmd & Hbc).
  pose proof (tw_states _ (T_wf d cfg s Hin Hcon)) as Hne. destruct Hq as (Hd & Hq). destruct bc; cbn in Hcmd.
  - eapply (mv_open p.2 b r bs); [done..|by rewrite Hd|apply Hbc].
  - destruct Hbc as [_ Hx]. rewrite Hone in Hx. by destruct Hx.
  - destruct (proj2 (tw_split _ (T_wf d cfg s Hin Hcon))) as [? Hx]; [by rewrite Hbc|]. by rewrite Hone in Hx.
  - destruct (req_addr_row d cfg s Hin Hcon (addr_vec r) (conj (proj1 Hacc) (ro_addr _ _ _ _ Hr))) as [Hrd _].
    destruct (maint_pre d cfg s Hin Hcon) as [Hm _]. rewrite <- Hcmd in Hm. destruct (maint_named d s _ _ Hm) as (name & _ & _ & Hn).
    eapply (maint_move c p.2 b r name _ n); try done; [by destruct Hbb as [-> | ->]|split; [done|apply Hacc]|].
    right. split; [by eexists|]. exists (bk d (key r)), bs. split_and!; [|done|destruct Hbc; congruence].
    split; [|done]. rewrite (dk_banks _ _ _ (ck_dev _ _ _ _ (proj1 Hg))). by apply (bk_bank d cfg s Hin Hcon (c_device c)); [apply Hg|apply Hacc].
  - apply mv_access; [by destruct Hbb as [-> | ->]|done..].
Qed.

Lemma picked_trans n c p q : picked n c p -> picked n p.2 q -> picked n c q.
Proof. intros (A1 & A2 & _) (B1 & B2 & B3). split; [by etrans|]. split; [by etrans|done]. Qed.

Lemma select_move n c p : good n c -> select_candidate c = Ok p -> picked n c p.
Proof.
  intros Hg. unfold select_candidate. intros (p1 & H1 & (p2 & H2 & H3)%bind_Ok_inv)%bind_Ok_inv.
  pose proof (pick_active_move n c p1 Hg H1) as P1. assert (P2 : picked n c p2).
  { dcase H2; [by injection H2 as <-|]. eapply picked_trans; [exact P1|]. apply pick_priority_move; [apply P1|done]. }
  dcase H3; [by injection H3 as <-|]. eapply picked_trans; [exact P2|]. apply pick_rw_move; [apply P2|done].
Qed.

(** ** Serving a move *)

(** The effect of the issued command, before the request moves on. *)
Lemma move_effect n c b r dev' : good n c -> req_ok d s n r -> move c b r ->
  issue_command (c_device c) (command r) (addr_vec r) (c_clk c) = Ok dev' ->
  ((exists m, vget (command_meta s) (command r) = Ok m /\ is_opening m = true) /\ command r <> final_command r /\ (b = Bread \/ b = Bwrite) /\ accessing d s (key r) /\
   row_open d dev' (key r) /\ bk d (key r) ∉ active_banks d c /\
   forall q, q ∈ banks d s -> q <> bk d (key r) -> bank_of dev' q = bank_of (c_device c) q) \/
  ((exists m, vget (command_meta s) (command r) = Ok m /\ (command r = final_command r \/ is_opening m = false)) /\
   (forall q, q ∈ active_banks d c -> bank_of dev' q = bank_of (c_device c) q) /\
   (forall q, q ∈ banks d s -> unclosed d dev' q = true -> unclosed d (c_device c) q = true) /\
   (command r = final_command r \/ exists p, p ∈ banks d s /\ (p ∉ active_banks d c) /\ unclosed d (c_device c) p = true /\ unclosed d dev' p = false)).
Proof.
  intros [Hc HB] Hr Hm Hi. pose proof (ck_dev _ _ _ _ Hc) as Hok.
  assert (Hact : forall q, q ∈ active_banks d c -> q ∈ banks d s).
  { intros q (k & -> & Hk)%list_elem_of_fmap. by apply (active_bank d cfg s Hin Hcon c). }
  destruct Hm as [Hb Hacc E|bs Hb Hacc E Hbs Hst|ci Hb Hm Hav Hfree Hcase].
  - right. destruct (access_impl_named d cfg s Hin Hcon _ Hacc) as (name & ci & Hn & _ & _ & Hna & Htg).
    change (key r).2 with (final_command r) in Hn. rewrite <- E in Hn.
    destruct (named_meta d cfg s Hin Hcon _ _ _ Hn) as (m & Hm & _).
    assert (Hsame : forall q, q ∈ banks d s -> bank_of dev' q = bank_of (c_device c) q).
    { intros q Hq. pose proof (named_effect d cfg s Hin Hcon Hs _ _ name ci (addr_vec r) (c_clk c) dev' Hn Hok) as He. rewrite Htg, Hna in He.
      destruct (req_addr_row d cfg s Hin Hcon (addr_vec r) (conj (proj1 Hacc) (ro_addr _ _ _ _ Hr))) as [Hrd _].
      by apply (He (conj Hrd (proj1 Hacc)) Hi). }
    split_and!; [by exists m; auto|auto|intros q Hq; unfold unclosed; by rewrite Hsame|by left].
  - left. destruct (tw_act _ (T_wf d cfg s Hin Hcon) Hone) as [a Ha]. rewrite Ha in *. cbn in E.
    destruct (standard_command_ids d cfg s Hin Hcon) as (_ & _ & Hid & _). specialize (Hid a Ha).
    assert (Hn : named d s (command r) "ACT" (Cmd_ACT T)) by (rewrite E; by split).
    destruct (req_addr_row d cfg s Hin Hcon (addr_vec r) (conj (proj1 Hacc) (ro_addr _ _ _ _ Hr))) as [Hrd _].
    pose proof (named_effect d cfg s Hin Hcon Hs _ _ _ _ _ _ dev' Hn Hok (conj Hrd (proj1 Hacc)) Hi) as He. cbn in He.
    pose proof (bk_bank d cfg s Hin Hcon _ _ Hok (proj1 Hacc)) as Hp. split_and!; [|  |done|done| | |].
    + destruct (named_meta d cfg s Hin Hcon _ _ _ Hn) as (m & Hm & Es). exists m. split; [done|].
      change (is_opening m) with (is_opening (strip_bus m)). by rewrite Es.
    + intros E2. destruct Hacc as [_ (name & Hnm & Hid2)]. change (key r).2 with (final_command r) in Hid2. rewrite <- E2, E in Hid2.
      rewrite (command_id_inj d cfg s name "ACT" a Hin Hcon Hid2 Hid) in Hnm. closed_elem.
    + destruct (proj1 (He _ Hp)) as (b0 & b' & _ & Hf & Hb'); [split; [by rewrite (dk_banks _ _ _ Hok)|done]|].
      unfold ACT_action in Hf. apply bind_Ok_inv in Hf as (row & Hrow & [= <-]). eexists _, row. split_and!; [exact Hb'|done..|].
      apply row_present_true. cbn. rewrite lookup_insert_eq. by eexists.
    + eapply (not_active d s c _ bs HB Hbs). rewrite Hst. pose proof (tw_states _ (T_wf d cfg s Hin Hcon)). congruence.
    + intros q Hq Hne. apply (proj2 (He q Hq)). by intros [_ ?].
  - right. pose proof (maint_effect d cfg s Hin Hcon Hs (fun p => p ∈ active_banks d c) _ _ _ _ _ _ Hok Hm Hav Hfree Hi) as He.
    destruct (maint_not_opening d cfg s Hin Hcon _ ci Hm) as (m & Hmt & Hop). split_and!.
    + exists m. auto.
    + intros q Hq. destruct (He q (Hact q Hq)) as [_ [?|[? _]]]; done.
    + intros q Hq. unfold unclosed. destruct (He q Hq) as [_ [->|[_ ->]]]; [done|]. cbn. by rewrite Z.eqb_refl.
    + destruct Hcase as [?|[Ha (p & bp & Hre & Hbp & Hst)]]; [by left|right]. pose proof Hre as [Hpb _]. rewrite (dk_banks _ _ _ Hok) in Hpb.
      exists p. split_and!; [done| |unfold unclosed; rewrite Hbp; by apply negb_true_iff, Z.eqb_neq|].
      * intros Hp. destruct Ha as [f Ha]. apply (Hfree (proj1 (maint_closes d cfg s Hin Hcon _ ci f Hm Ha)) p Hp Hre).
      * unfold unclosed. rewrite (proj1 (He p Hpb) Ha Hre). cbn. by rewrite Z.eqb_refl.
Qed.

Lemma move_issuable c b r n : good n c -> req_ok d s n r -> move c b r -> issuable d s (c_device c) (command r) (addr_vec r).
Proof.
  intros _ Hr [Hb Hacc ->|bs Hb Hacc -> Hbs Hst|ci Hb Hm Hav _ _].
  - apply wanted_issuable, Hr.
  - right. destruct (req_addr_row d cfg s Hin Hcon (addr_vec r) (conj (proj1 Hacc) (ro_addr _ _ _ _ Hr))) as [Hrd _].
    split_and!; [done|apply Hacc|]. exists bs. split; [done|]. left. by split_and!.
  - by apply wanted_issuable, (maint_wanted d s _ ci).
Qed.

(** Serving up to the issue. *)
Lemma serve_issue n c b i r c' : good n c -> buffer (get_buf c b) !! i = Some r -> serve_candidate (Some (b, i)) c = Ok c' ->
  exists c2 r2, calm c c2 /\ c_clk c2 = c_clk c /\ issue_command (c_device c) (command r) (addr_vec r) (c_clk c) = Ok (c_device c2) /\
    buffer (get_buf c2 b) !! i = Some r2 /\ key r2 = key r /\ command r2 = command r /\ advance_request c2 b i = Ok c'.
Proof.
  intros [_ HB] Hr. cbn. rewrite (upgrade_open c b i r (ab_policy _ _ _ HB) Hr). cbn [mbind res_bind].
  intros (c1 & H1 & (c2 & H2 & H3)%bind_Ok_inv)%bind_Ok_inv.
  pose proof (quiet_stats_once _ _ _ _ H1) as (Q1 & _ & Q3). pose proof (calm_stats_once _ _ _ _ H1) as Hcalm.
  destruct (stats_once_same _ _ _ _ H1 r (request_at_Ok _ _ _ _ Hr)) as (r1 & Hr1 & E1 & E2 & E3). apply request_at_Some in Hr1.
  assert (Hpol : c_rowpolicy c1 = OpenRowPolicy) by (rewrite (cm_policy _ _ Hcalm); apply (ab_policy _ _ _ HB)).
  destruct (issue_candidate_frame c1 b i c2 r1 Hpol H2 Hr1) as (G1 & G2 & G3 & G4). exists c2, r1. split_and!; try done.
  - by etrans.
  - congruence.
  - by rewrite <- E1, <- E2, <- Q1, <- Q3.
  - by rewrite G2.
  - unfold key. congruence.
Qed.

Lemma serve_progress n c b i r c' : good n c -> buffer (get_buf c b) !! i = Some r -> req_ok d s n r -> move c b r ->
  serve_candidate (Some (b, i)) c = Ok c' -> good n c' /\ backlog d s c' < backlog d s c /\ kept c c'.
Proof.
  intros Hg Hr Hro Hm Hserve. pose proof Hg as [Hc HB]. pose proof (ck_dev _ _ _ _ Hc) as Hok.
  assert (Hc' : ctrl_ok d s n c').
  { apply (ends_inv _ _ _ _ (serve_safe d cfg s Hin Hcon Hs n c (Some (b, i)) Hc ltac:(exists r; split; [done|by eapply move_issuable])) Hserve). }
  destruct (serve_issue n c b i r c' Hg Hr Hserve) as (c2 & r2 & Hcalm & Hclk & Hi & Hr2 & Ek & Ec & Hadv).
  assert (Ef : final_command r2 = final_command r) by (by injection Ek). assert (Ea : addr_vec r2 = addr_vec r) by (by injection Ek).
  destruct (issue_safe d cfg s Hin Hcon Hs (c_device c) (command r) (addr_vec r) (c_clk c) Hok (ck_banks _ _ _ _ Hc)
    (move_issuable c b r n Hg Hro Hm) (ro_addr _ _ _ _ Hro)) as (dev' & Hi' & Hok2 & _).
  rewrite Hi in Hi'. injection Hi' as <-. assert (Hsp : spec_of c2 = spec_of c) by (unfold spec_of; by rewrite (dk_spec _ _ _ Hok), (dk_spec _ _ _ Hok2)).
  assert (Hk2 : kept c c2) by (by apply calm_kept).
  unfold advance_request in Hadv. rewrite (request_at_Ok _ _ _ _ Hr2) in Hadv. cbn [mbind res_bind] in Hadv. unfold spec_of in Hadv.
  rewrite (dk_spec _ _ _ Hok2), Ec, Ef in Hadv.
  destruct (move_effect n c b r _ Hg Hro Hm Hi) as [((m & Hmeta & Hop) & Hne & Hb & Hacc & Hopen & Hna & Hsame)|((m & Hmeta & Hcase) & Hsame & Hun & Hclr)].
  - rewrite (proj2 (Z.eqb_neq _ _) Hne), Hmeta in Hadv. cbn [mbind res_bind] in Hadv. rewrite Hop in Hadv.
    assert (HB2 : act_bufs d s c2).
    { apply (bufs_calm d s c); [done..|]. intros k Hk. apply Hsame; [by apply (active_bank d cfg s Hin Hcon c)|]. intros E. apply Hna. rewrite <- E. by apply list_elem_of_fmap_2. }
    assert (Hna2 : bk d (key r2) ∉ map (bk d) (keys (c_active_buffer c2))) by (rewrite Ek; by rewrite (cm_keys _ _ Hcalm Bactive : keys (c_active_buffer c2) = _)).
    assert (Hroom : buf_size (c_active_buffer c2) < max_size (c_active_buffer c2)).
    { apply (active_room d cfg s Hin Hcon c2 (key r2)); [done..| |done]. rewrite Ek. by apply (bk_bank d cfg s Hin Hcon (c_device c)); [|apply Hacc]. }
    split_and!; [done| | |].
    + pose proof Hadv as Hadv'. unfold promote_to_active in Hadv'. rewrite (request_at_Ok _ _ _ _ Hr2) in Hadv'. cbn [mbind res_bind] in Hadv'.
      apply bind_Ok_inv in Hadv' as ([ok c3] & Hpr & Hadv'). pose proof (promote_room c2 r2 (ok, c3) Hroom Hpr) as Eok. cbn in Eok. subst ok.
      cbn in Hadv'. injection Hadv' as <-. apply bufs_drop; [|done].
      eapply (bufs_promote d cfg s Hin Hcon c2 c3 r2); try done; by rewrite Ek.
    + eapply (backlog_promote d s c c2 b i r2); try done. intros q Hq. rewrite Ek. by apply Hsame.
    + etrans; [exact Hk2|]. by eapply promote_to_active_kept.
  - assert (HB2 : act_bufs d s c2) by (apply (bufs_calm d s c); [done..|]; intros k Hk; apply Hsame; by apply list_elem_of_fmap_2).
    assert (Hle : (leftover d s c2 <= leftover d s c)%nat).
    { apply leftover_le; [apply (cm_keys _ _ Hcalm Bactive)|]. intros q Hq _. by apply Hun. }
    pose proof (backlog_calm d s c c2 Hcalm Hle) as Hlog. destruct (Z.eqb_spec (command r) (final_command r)) as [E|E].
    + split_and!; [done| | |].
      * by apply (bufs_retire d cfg s Hin Hcon c2 b i r2).
      * pose proof (backlog_retire d s c2 b i r2 c' Hr2 Hadv (ab_nodup _ _ _ HB2)). lia.
      * etrans; [exact Hk2|]. by eapply retire_kept.
    + destruct Hcase as [?|Hop]; [done|]. destruct Hclr as [?|(p & Hp & Hpa & Hu1 & Hu2)]; [done|]. rewrite Hmeta in Hadv. cbn [mbind res_bind] in Hadv.
      rewrite Hop in Hadv. injection Hadv as <-. split_and!; [done..| |done].
      assert (leftover d s c2 < leftover d s c)%nat; [|lia].
      apply (leftover_lt d s c c2 p); [apply (cm_keys _ _ Hcalm Bactive)| |done..]. intros q Hq _. by apply Hun.
Qed.

(** ** When every command is ready, only an idle controller finds none *)

(** The watermarks leave an empty write buffer and do not force one. *)
Definition marks_ok (c : ControllerBase) : Prop :=
  let wmax := f32_of_Z (max_size (c_write_buffer c)) in
  flt f32_0 (fmul (c_wr_low_watermark c) wmax) = true /\ flt (fmul (c_wr_high_watermark c) wmax) f32_0 = false.

Lemma issuable_command_range n c cmd av : ctrl_ok d s n c -> issuable d s (c_device c) cmd av -> 0 <= cmd < command_count s.
Proof.
  intros Hc Hi. destruct (meta_of d cfg s Hin Hcon n c Hc cmd av Hi) as (name & ci & m & Hid & _).
  by destruct (command_id_range d cfg s name cmd Hin Hcon Hid).
Qed.

Lemma ready_resolved n c r b : ctrl_ok d s n c -> all_ready c -> req_ok d s n r -> resolved c r ->
  ctrl_check_timing c (command r) (addr_vec r) = Ok b -> b = true.
Proof.
  intros Hc Hrdy Hr Hres Hb. apply (Hrdy (command r) (addr_vec r) b); [|done]. unfold spec_of. rewrite (dk_spec _ _ _ (ck_dev _ _ _ _ Hc)).
  apply (issuable_command_range n c _ (addr_vec r) Hc). eapply (get_preq_safe d cfg s Hin Hcon); [apply Hc|apply Hr|exact Hres].
Qed.

Lemma pick_best_none n c b f c' : ctrl_ok d s n c -> filter_ok d s n c f -> all_ready c -> pick_best_ready_from c b f = Ok (None, c') ->
  forall r, r ∈ buffer (get_buf c' b) -> is_Ok (run_filter f r) /\ ~ eligible f r.
Proof.
  intros Hc Hf Hrdy H. unfold pick_best_ready_from in H. apply bind_Ok_inv in H as ([o v] & Hq & H). cbn zeta in H. cbn [fst snd] in H.
  destruct (get_best_visited c f (get_buf c b) o v Hq) as (o' & t & -> & V).
  assert (Hlen : forall j r, buffer v !! j = Some r -> (j < length (buffer (get_buf c b)))%nat).
  { intros j r Hj. apply lookup_lt_Some in Hj. by rewrite (vi_length _ _ _ _ _ _ _ V) in Hj. }
  destruct o' as [[i r]|]; cbn in H.
  - exfalso. destruct (vi_some _ _ _ _ _ _ _ V i r eq_refl) as (Hi & Hr & _ & _). destruct (vi_resolved _ _ _ _ _ _ _ V i r Hi Hr) as [Hres _].
    assert (Hreq : req_ok d s n r).
    { destruct (lookup_lt_is_Some_2 _ _ Hi) as [r0 Hr0]. destruct (vi_final _ _ _ _ _ _ _ V i r0 r Hr0 Hr) as [cmd ->].
      apply req_ok_command, (ck_reqs _ _ _ _ Hc b). by eapply list_elem_of_lookup_2. }
    apply bind_Ok_inv in H as (r1 & Hr1 & (ok & Hok & H)%bind_Ok_inv). apply request_at_Some in Hr1.
    rewrite get_set_buf, decide_True in Hr1 by done. rewrite Hr in Hr1. injection Hr1 as <-.
    rewrite (check_timing_quiet _ _ _ _ (quiet_set_buf c b v)) in Hok. by rewrite (ready_resolved n c r ok Hc Hrdy Hreq Hres Hok) in H.
  - injection H as <-. intros r Hr. rewrite get_set_buf, decide_True in Hr by done. apply list_elem_of_lookup in Hr as [j Hj].
    destruct (vi_resolved _ _ _ _ _ _ _ V j r (Hlen j r Hj) Hj) as [_ Hf']. split; [done|]. by apply (vi_none _ _ _ _ _ _ _ V eq_refl j r (Hlen j r Hj)).
Qed.

Lemma keys_nil b b' : keys b' = keys b -> buffer b' = [] -> buffer b = [].
Proof. unfold keys. intros H E. rewrite E in H. by destruct (buffer b). Qed.

Lemma no_active_closes c r b : buffer (c_active_buffer c) = [] -> would_close_active c r = Ok b -> b = false.
Proof.
  intros He. unfold would_close_active. intros (m & _ & H)%bind_Ok_inv. destruct (negb _); [by injection H|].
  unfold buf_size in H. rewrite He in H. by injection H.
Qed.

Lemma pick_active_none n c c' : ctrl_ok d s n c -> all_ready c -> pick_best_ready_from c Bactive None = Ok (None, c') -> buffer (c_active_buffer c') = [].
Proof.
  intros Hc Hrdy H. pose proof (pick_best_none n c Bactive None c' Hc (no_filter n c) Hrdy H) as Hn. cbn in Hn.
  destruct (buffer (c_active_buffer c')) as [|r l]; [done|]. destruct (Hn r) as [_ Hne]; [by left|]. by destruct Hne.
Qed.

Lemma pick_priority_none n c c' : ctrl_ok d s n c -> all_ready c -> buffer (c_active_buffer c) = [] ->
  pick_priority_if c None = Ok (None, c') -> c' = c /\ buffer (c_priority_buffer c) = [].
Proof.
  intros Hc Hrdy He. unfold pick_priority_if. destruct (buffer (c_priority_buffer c)) as [|r l] eqn:Eb; [by intros [= <-]|].
  assert (Hr : req_ok d s n r) by (apply (ck_reqs _ _ _ _ Hc Bpriority); cbn; rewrite Eb; by left).
  intros (cmd & Hcmd & H)%bind_Ok_inv. cbn zeta in H. set (c1 := with_c_priority_buffer c _) in H.
  apply bind_Ok_inv in H as (ok & Hok & H). assert (ok = true) as ->.
  { apply (ready_resolved n c (set_command r cmd) ok Hc Hrdy); [by apply req_ok_command|exact Hcmd|exact Hok]. }
  cbn [negb] in H. apply bind_Ok_inv in H as (cl & Hcl & H). rewrite (no_active_closes c1 _ cl He Hcl) in H. cbn in H. discriminate.
Qed.

Lemma set_mode_empty c : marks_ok c -> let c1 := set_write_mode c in
  buffer (get_buf c1 (if c_is_write_mode c1 then Bwrite else Bread)) = [] -> buffer (c_read_buffer c) = [] /\ buffer (c_write_buffer c) = [].
Proof.
  intros [Hlow Hhigh]. cbn zeta. assert (Hb : forall b, get_buf (set_write_mode c) b = get_buf c b).
  { unfold set_write_mode. cbn zeta. intros []; repeat case_match; done. }
  rewrite Hb. intros He. assert (Hw : buffer (c_write_buffer c) = [] -> f32_of_Z (buf_size (c_write_buffer c)) = f32_0).
  { intros E. unfold buf_size. rewrite E. by vm_compute. }
  assert (Hr : (buf_size (c_read_buffer c) =? 0) = true -> buffer (c_read_buffer c) = []).
  { unfold buf_size. intros E%Z.eqb_eq. by destruct (buffer (c_read_buffer c)). }
  unfold set_write_mode in He. cbn zeta in He. destruct (c_is_write_mode c) eqn:Em; cbn [negb] in He.
  - destruct (flt _ _ && negb _) eqn:Ec; cbn in He.
    + apply andb_prop in Ec as [_ Ec]. unfold buf_size in Ec. by rewrite He in Ec.
    + rewrite Em in He. cbn in He. rewrite (Hw He), Hlow in Ec. cbn in Ec. apply negb_false_iff in Ec. split; [by apply Hr|done].
  - destruct (flt _ _ || _) eqn:Ec; cbn in He.
    + rewrite (Hw He), Hhigh in Ec. cbn in Ec. split; [by apply Hr|done].
    + rewrite Em in He. cbn in He. apply orb_false_iff in Ec as [_ Ec]. unfold buf_size in Ec. by rewrite He in Ec.
Qed.

Lemma pick_rw_none n c c' : ctrl_ok d s n c -> all_ready c -> marks_ok c -> buffer (c_active_buffer c) = [] ->
  pick_rw_if c None = Ok (None, c') -> buffer (c_read_buffer c) = [] /\ buffer (c_write_buffer c) = [].
Proof.
  intros Hc Hrdy Hmk He. unfold pick_rw_if. cbn zeta. intros H. apply set_mode_empty; [done|]. set (c1 := set_write_mode c) in *. cbn zeta.
  set (b := if c_is_write_mode c1 then Bwrite else Bread) in *.
  pose proof (quiet_set_write_mode c) as Hq. destruct Hq as (Q1 & Q2 & Q3). fold c1 in Q1, Q2, Q3.
  assert (Hc1 : ctrl_ok d s n c1) by (by apply ok_write_mode).
  assert (Hrdy1 : all_ready c1).
  { intros cmd av k. unfold spec_of, ctrl_check_timing. rewrite Q1, Q3. apply Hrdy. }
  assert (He1 : buffer (c_active_buffer c1) = []).
  { rewrite <- He. unfold c1, set_write_mode. cbn zeta. repeat case_match; done. }
  set (f := Some _) in H. assert (Hf : filter_ok d s n c1 f).
  { intros r Hr Hi. cbn. destruct (would_close_total d cfg s Hin Hcon n c1 Hc1 r Hi) as [k ->]. cbn. destruct k; by eexists. }
  pose proof (pick_best_none n c1 b f c' Hc1 Hf Hrdy1 H) as Hn. pose proof (pick_best_frame c1 b f (None, c') H) as (Hcalm & _ & _).
  apply (keys_nil _ (get_buf c' b)); [apply (cm_keys _ _ Hcalm b)|]. destruct (buffer (get_buf c' b)) as [|r l]; [done|].
  destruct (Hn r) as [[k Hk] Hne]; [by left|]. exfalso. apply Hne. unfold eligible. cbn in *.
  apply bind_Ok_inv in Hk as (cl & Hcl & _). rewrite Hcl. by rewrite (no_active_closes c1 r cl He1 Hcl).
Qed.

(** No candidate although everything is ready: nothing is left to do. *)
Lemma select_idle n c c' : good n c -> all_ready c -> marks_ok c -> select_candidate c = Ok (None, c') -> forall b, buffer (get_buf c b) = [].
Proof.
  intros Hg Hrdy Hmk H. unfold select_candidate in H. apply bind_Ok_inv in H as ([p1 c1] & H1 & ([p2 c2] & H2 & H3)%bind_Ok_inv). cbn [fst snd] in *.
  pose proof (pick_active_move n c _ Hg H1) as (C1 & Q1 & G1 & _). cbn [fst snd] in *. pose proof Q1 as (D1 & _ & K1).
  assert (R1 : all_ready c1) by (intros cmd av k; unfold spec_of, ctrl_check_timing; rewrite D1, K1; apply Hrdy).
  assert (M1 : marks_ok c1).
  { pose proof (cm_marks _ _ C1) as Em. pose proof (cm_max _ _ C1 Bwrite) as Ex. cbn in Ex. injection Em as E1 E2. unfold marks_ok. by rewrite E1, E2, Ex. }
  destruct p1 as [x|]; [rewrite bool_decide_true in H2 by (by eexists); injection H2 as <- <-; rewrite bool_decide_true in H3 by (by eexists); discriminate|].
  rewrite bool_decide_false in H2 by (by intros [? ?]). pose proof (pick_active_none n c c1 (proj1 Hg) Hrdy H1) as A1.
  destruct p2 as [x|]; [rewrite bool_decide_true in H3 by (by eexists); discriminate|]. rewrite bool_decide_false in H3 by (by intros [? ?]).
  destruct (pick_priority_none n c1 c2 (proj1 G1) R1 A1 H2) as [-> P1]. unfold buf_size in H3. rewrite P1 in H3. cbn in H3.
  destruct (pick_rw_none n c1 c' (proj1 G1) R1 M1 A1 H3) as [B1 B2].
  intros b. apply (keys_nil _ (get_buf c1 b)); [apply (cm_keys _ _ C1 b)|]. by destruct b.
Qed.
End Progress.
