(* ===== verification/Drains.v ===== *)
(** * Drains: one tick of a GenericDDR controller

    What the hooks before scheduling do to the refresh period, the pending
    reads and the buffers ([begun]); the invariant [live] of a controller that
    makes progress; and a tick as the hooks followed by either less backlog or
    an idle slot ([ticked]). *)
From stdpp Require Import prelude gmap strings.
From S2P Require Import Prelude DramSpec Commands Standards Node NodeTiming NodeTree Device DeviceInv DeviceProps BankSafety BankProgress IssueSafety Request BitUtils AddrMapper Float32 ControllerState Controller Scheduler Refresh NodeAddr HbmRefresh RowPolicy ControllerInit GenericDdr ControllerSafety Hbm Lpddr5 Controllers ControllerTrace Settle ServeSafety TickSafety Bookkeeping ServeFrame ActiveInv Progress.
Open Scope Z_scope.

(** ** The refresh managers by period *)
Definition refresh_period (m : RefreshManager) : Z :=
  match m with AllBank r => ab_nrefi r | PerBank r => pb_nrefipb r | _ => 0 end.

Definition refresh_next (m : RefreshManager) : Z :=
  match m with AllBank r => ab_next_refresh_cycle r | PerBank r => pb_next_refresh_cycle r | _ => 0 end.

Definition periodic (m : RefreshManager) : bool :=
  match m with AllBank _ | PerBank _ => true | _ => false end.

(** The manager waits for a cycle of the current period. *)
Definition refresh_due (c : ControllerBase) : Prop :=
  match c_refresh c with
  | NoRefresh => True
  | HBM34PerBank _ => False
  | m => c_clk c < refresh_next m <= c_clk c + refresh_period m
  end.

Definition until (c : ControllerBase) : Z := if periodic (c_refresh c) then refresh_next (c_refresh c) - c_clk c else 0.

Lemma send_refresh_effect cmd what c p c' : send_refresh cmd what c p = Ok c' ->
  buf_size (c_priority_buffer c') = buf_size (c_priority_buffer c) + 1 /\ c_pending c' = c_pending c /\ c_refresh c' = c_refresh c.
Proof.
  unfold send_refresh. intros (av & _ & ([ok c1] & H1 & H)%bind_Ok_inv)%bind_Ok_inv. destruct ok; [|done]. injection H as <-. cbn [fst snd].
  unfold ctrl_priority_send in H1. dcase H1; [discriminate|]. destruct (enqueue _ _) as [k v] eqn:He. pose proof (enqueue_inv _ _ _ _ He) as Hi.
  assert (Hk : k = true) by (dcase H1; [by bool_hyps|by injection H1]). subst k. destruct Hi as [-> _].
  assert (Hsz : buf_size (mkBuf (buffer (c_priority_buffer c) ++ [Request_cmd av cmd]) (max_size (c_priority_buffer c))) = buf_size (c_priority_buffer c) + 1).
  { unfold buf_size. cbn [buffer]. rewrite length_app. cbn. lia. }
  dcase H1; injection H1 as <-; by split_and!.
Qed.

Lemma send_all_effect cmd what nodes : forall c c', foldM (send_refresh cmd what) nodes c = Ok c' ->
  buf_size (c_priority_buffer c') = buf_size (c_priority_buffer c) + Z.of_nat (length nodes) /\ c_pending c' = c_pending c /\ c_refresh c' = c_refresh c.
Proof.
  induction nodes as [|p nodes IH]; intros c c' H; cbn [foldM] in H; [injection H as <-; split_and!; [cbn [length]; lia|done..]|].
  apply bind_Ok_inv in H as (c1 & H1 & H). destruct (send_refresh_effect _ _ _ _ _ H1) as (E1 & E2 & E3). destruct (IH _ _ H) as (F1 & F2 & F3).
  cbn [length]. split_and!; [lia|congruence..].
Qed.

(** What one call of the manager does to the controller. *)
Lemma refresh_step c c' : (forall r, c_refresh c <> HBM34PerBank r) -> refresh_tick c = Ok c' ->
  c_pending c' = c_pending c /\ refresh_period (c_refresh c') = refresh_period (c_refresh c) /\
  refresh_demand (c_refresh c') = refresh_demand (c_refresh c) /\ periodic (c_refresh c') = periodic (c_refresh c) /\
  (forall r, c_refresh c' <> HBM34PerBank r) /\
  if periodic (c_refresh c) && (c_clk c =? refresh_next (c_refresh c))
  then buf_size (c_priority_buffer c') = buf_size (c_priority_buffer c) + refresh_demand (c_refresh c) /\
    refresh_next (c_refresh c') = refresh_next (c_refresh c) + refresh_period (c_refresh c)
  else c' = c.
Proof.
  intros Hno. unfold refresh_tick. destruct (c_refresh c) as [|r|r|r] eqn:Er; [| | |by destruct (Hno r)]; cbn [periodic refresh_next andb].
  - intros [= <-]. rewrite Er. by split_and!.
  - unfold AllBankRefresh_tick. destruct (_ =? _); [|intros [= <-]; rewrite Er; by split_and!]. cbn zeta. intros H.
    apply send_all_effect in H as (E1 & E2 & E3). rewrite E3. cbn in *. by split_and!.
  - unfold PerBankRefresh_tick. destruct (_ =? _); [|intros [= <-]; rewrite Er; by split_and!].
    intros (node & _ & (c1 & H1 & [= <-])%bind_Ok_inv)%bind_Ok_inv. apply send_refresh_effect in H1 as (E1 & E2 & E3). cbn in *. by split_and!.
Qed.

(** ** Pending reads *)
Lemma drain_pending l : forall c, exists k, c_pending (drain c l) = drop k l /\ (Forall (fun r => depart r <= c_clk c) l -> c_pending (drain c l) = []).
Proof.
  induction l as [|r l IH]; intros c; cbn [drain]; [by exists 0%nat|]. destruct (Z.ltb_spec (c_clk c) (depart r)).
  - exists 0%nat. split; [done|]. intros [Hr _]%Forall_cons. lia.
  - destruct (IH (call_back (count_stat c s_read_latency (depart r - arrive r)) r)) as (k & E1 & E2). exists (S k). split; [exact E1|].
    intros [_ Hl]%Forall_cons. apply E2. eapply Forall_impl; [exact Hl|]. intros x. unfold call_back. by destruct (callback r).
Qed.

Lemma prologue_pending c : exists k, c_pending (tick_prologue c) = drop k (c_pending c) /\
  (Forall (fun r => depart r <= c_clk c + 1) (c_pending c) -> c_pending (tick_prologue c) = []).
Proof. unfold tick_prologue, serve_completed_reads. set (c1 := count_stat _ _ _). apply (drain_pending (c_pending c1) c1). Qed.

(** ** Before scheduling *)
Record begun (c c1 : ControllerBase) : Prop := {
  bg_started : tick_started c c1;
  bg_bufs : forall b, b <> Bpriority -> get_buf c1 b = get_buf c b;
  bg_marks : marks c1 = marks c;
  bg_room : max_size (c_priority_buffer c1) = max_size (c_priority_buffer c);
  bg_pending : exists k, c_pending c1 = drop k (c_pending c) /\ (Forall (fun r => depart r <= c_clk c + 1) (c_pending c) -> c_pending c1 = []);
  bg_period : refresh_period (c_refresh c1) = refresh_period (c_refresh c);
  bg_demand : refresh_demand (c_refresh c1) = refresh_demand (c_refresh c);
  bg_periodic : periodic (c_refresh c1) = periodic (c_refresh c);
  bg_kind : forall r, c_refresh c1 <> HBM34PerBank r;
  bg_fired : if periodic (c_refresh c) && (c_clk c + 1 =? refresh_next (c_refresh c))
    then buf_size (c_priority_buffer c1) = buf_size (c_priority_buffer c) + refresh_demand (c_refresh c) /\
      refresh_next (c_refresh c1) = refresh_next (c_refresh c) + refresh_period (c_refresh c)
    else c_priority_buffer c1 = c_priority_buffer c /\ c_refresh c1 = c_refresh c
}.

Lemma begun_from c c0 c2 c1 : fed (fun _ => True) c c1 -> tick_started c c1 ->
  c_priority_buffer c0 = c_priority_buffer c -> c_refresh c0 = c_refresh c -> c_clk c0 = c_clk c + 1 ->
  (exists k, c_pending c0 = drop k (c_pending c) /\ (Forall (fun r => depart r <= c_clk c + 1) (c_pending c) -> c_pending c0 = [])) ->
  refresh_tick c0 = Ok c2 -> c_pending c1 = c_pending c2 -> c_refresh c1 = c_refresh c2 -> c_priority_buffer c1 = c_priority_buffer c2 ->
  (forall r, c_refresh c <> HBM34PerBank r) -> begun c c1.
Proof.
  intros Hf Hst P1 P2 Hclk D H2 E1 E2 E3 Hno. apply refresh_step in H2; [|by rewrite P2]. rewrite P1, P2, Hclk in H2.
  destruct H2 as (R1 & R2 & R3 & R4 & R5 & R6).
  split; rewrite ?E1, ?E2, ?E3, ?R1; try done; [apply (fd_bufs _ _ _ Hf)|apply (fd_marks _ _ _ Hf)|by rewrite <- E3; apply (fd_room _ _ _ Hf)|].
  destruct (_ && _); [done|]. by rewrite R6.
Qed.

Lemma hooks_begun c c0 c1 : fed (fun _ => True) c c1 -> tick_started c c1 -> fed (fun _ => True) c c0 ->
  c_priority_buffer c0 = c_priority_buffer c -> c_refresh c0 = c_refresh c -> c_clk c0 = c_clk c + 1 ->
  (exists k, c_pending c0 = drop k (c_pending c) /\ (Forall (fun r => depart r <= c_clk c + 1) (c_pending c) -> c_pending c0 = [])) ->
  c_rowpolicy c = OpenRowPolicy -> (forall r, c_refresh c <> HBM34PerBank r) ->
  (c2 ← refresh_tick c0; c3 ← rowpolicy_pre_schedule c2; Ok (plugins_pre_schedule c3)) = Ok c1 -> begun c c1.
Proof.
  intros Hf Hst F0 P1 P2 Hclk D Hp Hno (c2 & H2 & H)%bind_Ok_inv. assert (Hp2 : c_rowpolicy c2 = OpenRowPolicy).
  { pose proof (fed_refresh_tick (fun _ => True) _ _ ltac:(done) H2) as F2. by rewrite (fd_policy _ _ _ F2), (fd_policy _ _ _ F0). }
  rewrite (rowpolicy_pre_open c2 Hp2) in H. cbn [mbind res_bind] in H. injection H as <-. by apply (begun_from c c0 c2).
Qed.

Lemma pre_tick_hooks c c1 : fed (fun _ => True) c c1 -> tick_started c c1 -> c_rowpolicy c = OpenRowPolicy ->
  (forall r, c_refresh c <> HBM34PerBank r) -> pre_tick c = Ok c1 -> begun c c1.
Proof.
  intros Hf Hst Hp Hno. unfold pre_tick. intros H. destruct (prologue_refresh c) as [P1 P2]. destruct (prologue_clk c) as (_ & _ & Hclk).
  apply (hooks_begun c (tick_prologue c) c1 Hf Hst (fed_prologue (fun _ => True) c) P1 P2 Hclk (prologue_pending c) Hp Hno H).
Qed.

Lemma pre_tick_begun c c1 : c_rowpolicy c = OpenRowPolicy -> (forall r, c_refresh c <> HBM34PerBank r) -> pre_tick c = Ok c1 -> begun c c1.
Proof.
  intros Hp Hno H. pose proof (pre_tick_started _ _ H) as Hst.
  by apply (pre_tick_hooks c c1 (fed_pre_tick (fun _ => True) c c1 Hp ltac:(done) H) Hst Hp Hno H).
Qed.

(** ** Ticks *)
Section Drains.
Context (d : standard) (cfg : dram_config) (s : DRAMSpec).
Context (Hin : In d all_standards) (Hcon : construct d cfg = Ok s) (Hs : spec_ok s) (Horg : org_ok s).
Context (Hone : T_ACT2 (std_traits d) = None).
Context (dev0 : DRAMDevice) (ch : Z) (Hinit : init s = Ok dev0).

(** A read departs at most this long after its request was served or
    forwarded. *)
Definition read_horizon : Z := Z.max 1 (read_latency s).

(** The cycles one unit of backlog may take. *)
Definition pace : Z := settle_time s + read_horizon + 1.

Record live (n : nat) (c : ControllerBase) : Prop := {
  lv_ok : ctrl_ok d s n c;
  lv_bufs : act_bufs d s c;
  lv_marks : marks_ok c;
  lv_due : refresh_due c;
  lv_pending : Forall (fun r => depart r <= c_clk c + read_horizon) (c_pending c);
  lv_trace : trace_inv (set_channel_id dev0 ch) 1 c
}.

Lemma live_spec n c : live n c -> spec_of c = s.
Proof. intros H. apply (dk_spec _ _ _ (ck_dev _ _ _ _ (lv_ok _ _ H))). Qed.

Lemma due_kind c : refresh_due c -> forall r, c_refresh c <> HBM34PerBank r.
Proof. unfold refresh_due. intros H r E. by rewrite E in H. Qed.

Lemma marks_ok_same c c' : marks c' = marks c -> max_size (c_write_buffer c') = max_size (c_write_buffer c) -> marks_ok c -> marks_ok c'.
Proof. unfold marks, marks_ok. intros [= -> ->] ->. done. Qed.

(** A tick: the hooks, then a pick, then at most one issue. *)
Record ticked (n : nat) (c c1 c' : ControllerBase) : Prop := {
  tk_begun : begun c c1;
  tk_kept : kept c1 c';
  tk_done : backlog d s c' < backlog d s c1 \/
    (backlog d s c' <= backlog d s c1 /\ c_log c' = c_log c /\ c_pending c' = c_pending c1 /\ (all_ready c1 -> forall b, buffer (get_buf c1 b) = []))
}.

Lemma begun_good n c c1 : live n c -> pre_tick c = Ok c1 -> begun c c1 -> ctrl_ok d s n c1 /\ act_bufs d s c1.
Proof.
  intros [L1 L2 _ _ _ _] H Hb. split; [by apply (ends_inv _ _ _ _ (pre_tick_safe d cfg s Hin Hcon Horg n c L1) H)|].
  apply (bufs_fed d s c); [done| |apply (bg_started _ _ Hb)].
  apply (fed_pre_tick (fun r => maintaining s (key r)) c c1 (ab_policy _ _ _ L2)); [|done]. intros cmd av. by apply (manager_maintains d s n).
Qed.

Lemma begun_marks c c1 : begun c c1 -> marks_ok c -> marks_ok c1.
Proof.
  intros Hb. apply marks_ok_same; [apply (bg_marks _ _ Hb)|]. pose proof (bg_bufs _ _ Hb Bwrite ltac:(done)) as E. cbn in E. by rewrite E.
Qed.

Lemma tick_ticked n c c' : live n c -> GenericDDR_tick c = Ok c' -> exists c1, ticked n c c1 c' /\ ctrl_ok d s n c' /\ act_bufs d s c'.
Proof.
  intros HL. unfold GenericDDR_tick. intros (c1 & H1 & ([cand c2] & H2 & (c3 & H3 & [= <-])%bind_Ok_inv)%bind_Ok_inv)%bind_Ok_inv.
  cbn [fst snd] in H3. change (post_tick c3) with c3. exists c1.
  pose proof (pre_tick_begun c c1 (ab_policy _ _ _ (lv_bufs _ _ HL)) (due_kind c (lv_due _ _ HL)) H1) as Hb.
  pose proof (begun_good n c c1 HL H1 Hb) as Hg. pose proof (begun_marks c c1 Hb (lv_marks _ _ HL)) as Hmk.
  destruct (select_move d cfg s Hin Hcon Hone n c1 _ Hg H2) as (Hcalm & (Q1 & Q2 & Q3) & Hg2 & Hcand). cbn [fst snd] in *.
  assert (Hk : kept c1 c2) by (apply calm_kept; [done..|]; unfold spec_of; by rewrite Q1).
  pose proof (leftover_calm d s c1 c2 Hcalm ltac:(intros q _; by rewrite Q1)) as Hl. pose proof (backlog_calm d s c1 c2 Hcalm Hl) as Hlog.
  destruct cand as [[b i]|].
  - destruct (Hcand b i eq_refl) as (r & Hr & Hro & Hm). destruct (serve_progress d cfg s Hin Hcon Hs Hone n c2 b i r c3 Hg2 Hr Hro Hm H3) as ([G1 G2] & G3 & G4).
    split_and!; [|done..]. split; [done|by etrans|left; lia].
  - cbn in H3. injection H3 as <-. split_and!; [|apply Hg2..]. split; [done..|]. right. split_and!; [lia| | |].
    + rewrite Q2. apply (bg_started _ _ Hb).
    + apply (cm_pending _ _ Hcalm).
    + intros Hrdy. by apply (select_idle d cfg s Hin Hcon n c1 c2).
Qed.

Lemma ticked_live n c c1 c' : live n c -> ticked n c c1 c' -> ctrl_ok d s n c' -> act_bufs d s c' -> GenericDDR_tick c = Ok c' ->
  0 < refresh_period (c_refresh c) \/ periodic (c_refresh c) = false -> live n c' /\ c_clk c' = c_clk c + 1.
Proof.
  intros HL [Hb Hk _] Hok HB Ht Hpos. pose proof (bg_started _ _ Hb) as (T1 & T2 & T3).
  assert (Hclk : c_clk c' = c_clk c + 1) by (rewrite (kp_clk _ _ Hk); done). split; [|done]. split; try done.
  - apply (marks_ok_same c1); [apply (kp_marks _ _ Hk)|apply (kp_max _ _ Hk Bwrite)|by apply (begun_marks c), (lv_marks _ _ HL)].
  - pose proof (bg_fired _ _ Hb) as Hf. pose proof (bg_period _ _ Hb) as Hp. pose proof (bg_periodic _ _ Hb) as Hpd. pose proof (bg_kind _ _ Hb) as Hno.
    pose proof (lv_due _ _ HL) as Hd. unfold refresh_due in *. rewrite (kp_refresh _ _ Hk), Hclk.
    destruct (c_refresh c) as [|r|r|r] eqn:Er; [| | |done]; destruct (c_refresh c1) as [|r'|r'|r'] eqn:Er1;
      try discriminate Hpd; try (by destruct (Hno r')); try done; cbn [periodic andb refresh_next refresh_period] in *;
      (destruct Hpos as [Hpos|?]; [|discriminate]); (case_match; [bool_hyps; destruct Hf as [_ Hf]; lia|]);
      destruct Hf as [_ Hf]; try discriminate Hf; injection Hf as ->; match goal with E : (_ =? _) = false |- _ => apply Z.eqb_neq in E end; lia.
  - destruct (bg_pending _ _ Hb) as (k & E & _). destruct (kp_pending _ _ Hk) as (l & E' & Hl). rewrite E', E, Hclk. apply Forall_app. split.
    + apply Forall_drop. eapply Forall_impl; [apply (lv_pending _ _ HL)|]. cbn. lia.
    + eapply Forall_impl; [exact Hl|]. cbn. intros x ->. rewrite T3. unfold spec_of. rewrite T1, (dk_spec _ _ _ (ck_dev _ _ _ _ (lv_ok _ _ HL))).
      unfold read_horizon. lia.
  - destruct (GenericDDR_slot c c' Ht) as (c2 & Hst & Hi). by eapply tick_trace; [..|apply (lv_trace _ _ HL)].
Qed.
End Drains.
