(* ===== verification/Liveness.v ===== *)
(** * Liveness: the potential of a GenericDDR controller

    [effort] adds to the weighted backlog the cycles until every command is
    ready again and the cycles until the last pending read departs.  Every
    tick of a controller that still has work to do decreases it, apart from
    the work a refresh adds; [potential] pays for that work over the cycles
    of a refresh period.  When the period is long enough, the controller has
    nothing left to do after a number of ticks that is known in advance. *)
From stdpp Require Import prelude gmap strings.
From S2P Require Import Prelude DramSpec Commands Standards Node NodeTiming NodeTree Device DeviceInv DeviceProps BankSafety BankProgress IssueSafety Request BitUtils AddrMapper Float32 ControllerState Controller Scheduler Refresh NodeAddr HbmRefresh RowPolicy ControllerInit GenericDdr ControllerSafety Hbm Lpddr5 Controllers ControllerTrace Settle ServeSafety TickSafety Bookkeeping ServeFrame ActiveInv SafeControllers Progress Drains.
Open Scope Z_scope.

Lemma do_calls_tick {A} `{IController A} (a : A) ks : do_calls (CTick :: ks) a = (a1 ← ctl_tick a; do_calls ks a1).
Proof. done. Qed.

Section Liveness.
Context (d : standard) (cfg : dram_config) (s : DRAMSpec).
Context (Hin : In d all_standards) (Hcon : construct d cfg = Ok s) (Hs : spec_ok s) (Horg : org_ok s).
Context (Hone : T_ACT2 (std_traits d) = None).
Context (dev0 : DRAMDevice) (ch : Z) (Hinit : init s = Ok dev0).
Local Abbreviation live := (live d s dev0 ch).

(** Nothing is left to do. *)
Definition drained (c : ControllerBase) : Prop := (forall b, buffer (get_buf c b) = []) /\ c_pending c = [].

(** The commands were issued before [L]; the pending reads depart before [H]. *)
Record within (L H : Z) (c : ControllerBase) : Prop := {
  wi_log : Forall (fun h => i_clk h <= L) (c_log c);
  wi_pending : Forall (fun r => depart r <= H) (c_pending c);
  wi_horizon : c_pending c = [] \/ c_clk c <= H
}.

Definition stall (L : Z) (c : ControllerBase) : Z := Z.max 0 (L + settle_time s - 1 - c_clk c).
Definition wait (H : Z) (c : ControllerBase) : Z := if bool_decide (c_pending c = []) then 0 else H + 1 - c_clk c.
Definition effort (L H : Z) (c : ControllerBase) : Z := pace s * backlog d s c + stall L c + wait H c.

(** The refresh cycles a potential has to reserve. *)
Definition slack (c : ControllerBase) : Z := if periodic (c_refresh c) then refresh_period (c_refresh c) else 0.
Definition potential (L H : Z) (c : ControllerBase) : Z := 2 * effort L H c - until c.

(** The period leaves room for the work of a refresh. *)
Definition steady (m : RefreshManager) : Prop :=
  periodic m = true -> 0 < refresh_period m /\ 2 * pace s * refresh_demand m <= refresh_period m.

Lemma horizon_pos : 1 <= read_horizon s.
Proof. unfold read_horizon. lia. Qed.

Lemma settle_pos : 1 <= settle_time s.
Proof. apply zmax_pos. Qed.

Lemma pace_pos : 3 <= pace s.
Proof. pose proof horizon_pos. pose proof settle_pos. unfold pace. lia. Qed.

Lemma backlog_nonneg c : 0 <= backlog d s c /\ buf_size (c_priority_buffer c) <= backlog d s c.
Proof. unfold backlog, buf_size. lia. Qed.

Lemma wait_nonneg L H c : within L H c -> 0 <= wait H c.
Proof. intros [_ _ Hh]. unfold wait. case_bool_decide; [done|]. destruct Hh; [done|lia]. Qed.

Lemma effort_backlog L H c : within L H c -> pace s * backlog d s c <= effort L H c.
Proof. intros Hw%wait_nonneg. unfold effort, stall. lia. Qed.

Lemma effort_nonneg L H c : within L H c -> 0 <= effort L H c.
Proof. intros Hw%effort_backlog. pose proof (backlog_nonneg c). pose proof pace_pos. nia. Qed.

Lemma until_slack n c : live n c -> 0 <= until c <= slack c.
Proof.
  intros HL. pose proof (lv_due _ _ _ _ _ _ HL) as Hd. unfold until, slack, refresh_due in *.
  by destruct (c_refresh c); cbn [periodic refresh_next refresh_period] in *; [lia|lia|lia|].
Qed.

(** ** The hooks *)
Definition fires (c : ControllerBase) : bool := periodic (c_refresh c) && (c_clk c + 1 =? refresh_next (c_refresh c)).
Definition added (c : ControllerBase) : Z := if fires c then refresh_demand (c_refresh c) else 0.

Lemma demand_nonneg m : 0 <= refresh_demand m.
Proof. destruct m; cbn; lia. Qed.

Lemma added_nonneg c : 0 <= added c.
Proof. unfold added. case_match; [apply demand_nonneg|lia]. Qed.

Lemma begun_backlog c c1 : begun c c1 -> backlog d s c1 = backlog d s c + added c.
Proof.
  intros Hb. pose proof (bg_bufs _ _ Hb) as B. pose proof (B Bactive ltac:(done)) as E1. pose proof (B Bread ltac:(done)) as E2.
  pose proof (B Bwrite ltac:(done)) as E3. cbn in E1, E2, E3. pose proof (bg_fired _ _ Hb) as F. destruct (bg_started _ _ Hb) as (E & _).
  unfold backlog, leftover, active_banks, added, fires. rewrite E1, E2, E3, E. destruct (_ && _); [lia|]. destruct F as [-> _]. lia.
Qed.

Lemma begun_empty c c1 : begun c c1 -> (forall b, buffer (get_buf c1 b) = []) -> (forall b, buffer (get_buf c b) = []) /\ added c = 0.
Proof.
  intros Hb He. pose proof (bg_fired _ _ Hb) as F. pose proof (He Bpriority) as Ep. cbn in Ep. pose proof (demand_nonneg (c_refresh c)) as Hd.
  assert (Hp : buffer (c_priority_buffer c) = [] /\ added c = 0).
  { unfold added, fires. destruct (_ && _); [|destruct F as [<- _]; done]. destruct F as [F _]. unfold buf_size in F. rewrite Ep in F. cbn [length] in F.
    split; [|lia]. destruct (buffer (c_priority_buffer c)); [done|]. cbn [length] in F. lia. }
  split; [|apply Hp]. intros b. destruct (decide (b = Bpriority)) as [->|Hne]; [apply Hp|]. by rewrite <- (bg_bufs _ _ Hb b Hne).
Qed.

(** The reads that depart. *)
Lemma begun_wait L H c c1 : within L H c -> begun c c1 ->
  Forall (fun r => depart r <= H) (c_pending c1) /\ (c_pending c1 = [] \/ c_clk c1 <= H) /\ wait H c1 <= Z.max 0 (wait H c - 1).
Proof.
  intros [_ Hp Hh] Hb. destruct (bg_pending _ _ Hb) as (k & E & Hall). destruct (bg_started _ _ Hb) as (_ & _ & Hc).
  assert (Hd : c_pending c = [] -> c_pending c1 = []) by (intros E'; rewrite E, E'; by destruct k).
  split; [rewrite E; by apply Forall_drop|]. unfold wait. destruct (decide (H <= c_clk c + 1)) as [Hle|Hgt].
  - assert (E0 : c_pending c1 = []) by (apply Hall; eapply Forall_impl; [exact Hp|]; cbn; lia). split; [by left|]. rewrite bool_decide_true by done. lia.
  - split; [right; lia|]. do 2 case_bool_decide; try tauto; lia.
Qed.

(** ** One tick *)

#[export] Instance drained_dec c : Decision (drained c).
Proof.
  refine (cast_if (decide (Forall (fun b => buffer (get_buf c b) = []) [Bactive; Bpriority; Bread; Bwrite] /\ c_pending c = [])));
    [|abstract (intros [H1 H2]; apply n; split; [by repeat constructor|done])].
  abstract (destruct a as [H1 H2]; split; [intros b; rewrite Forall_forall in H1; apply H1; destruct b; closed_elem|done]).
Defined.

(** After an issue, everything is settled a settle time later. *)
Lemma busy_horizon n H c1 c' : live n c' -> c_clk c' = c_clk c1 -> 0 <= wait H c1 ->
  exists H', within (c_clk c') H' c' /\ wait H' c' <= wait H c1 + read_horizon s + 1.
Proof.
  intros HL' Hclk W0. pose proof horizon_pos. pose proof (lv_pending _ _ _ _ _ _ HL') as Hp.
  assert (Hlog : Forall (fun h => i_clk h <= c_clk c') (c_log c')).
  { eapply Forall_impl; [apply (ti_times _ _ _ (lv_trace _ _ _ _ _ _ HL'))|]. cbn. lia. }
  unfold wait in W0 |- *. case_bool_decide as E1.
  - exists (c_clk c' + read_horizon s). split; [split; [done..|right; lia]|]. case_bool_decide; lia.
  - exists (Z.max H (c_clk c' + read_horizon s)). split; [split; [done|eapply Forall_impl; [exact Hp|]; cbn; lia|right; lia]|]. case_bool_decide; lia.
Qed.

Lemma busy_within n L H c c1 c' : within L H c -> begun c c1 -> kept c1 c' -> live n c' -> backlog d s c' < backlog d s c1 ->
  exists L' H', within L' H' c' /\ effort L' H' c' <= effort L H c + pace s * added c - 1.
Proof.
  intros Hw Hb Hk HL' Hlt. pose proof (begun_backlog c c1 Hb) as Eb. destruct (begun_wait L H c c1 Hw Hb) as (W1 & W2 & W3).
  pose proof (wait_nonneg _ _ _ Hw) as W0. pose proof (kp_clk _ _ Hk) as Hclk. pose proof horizon_pos. pose proof settle_pos.
  assert (W4 : 0 <= wait H c1) by (unfold wait; case_bool_decide; [done|]; destruct W2; [done|lia]).
  destruct (busy_horizon n H c1 c' HL' Hclk W4) as (H' & Hw' & W5). exists (c_clk c'), H'. split; [done|].
  assert (Hst : stall (c_clk c') c' = settle_time s - 1) by (unfold stall; lia). assert (Hst0 : 0 <= stall L c) by (unfold stall; lia).
  unfold effort. rewrite Hst. assert (pace s * backlog d s c' <= pace s * backlog d s c + pace s * added c - pace s); [|unfold pace in *; lia].
  pose proof pace_pos. nia.
Qed.

Lemma idle_within L H c c1 c' : within L H c -> ~ drained c -> trace_inv (set_channel_id dev0 ch) 1 c -> m_spec (c_device c) = s ->
  begun c c1 -> kept c1 c' -> backlog d s c' <= backlog d s c1 -> c_log c' = c_log c -> c_pending c' = c_pending c1 ->
  (all_ready c1 -> forall b, buffer (get_buf c1 b) = []) ->
  exists L' H', within L' H' c' /\ effort L' H' c' <= effort L H c + pace s * added c - 1.
Proof.
  intros Hw Hnd Htr Hsp Hb Hk Hle Hlog Hpe Hidle. pose proof (begun_backlog c c1 Hb) as Eb. destruct (begun_wait L H c c1 Hw Hb) as (W1 & W2 & W3).
  pose proof (wait_nonneg _ _ _ Hw) as W0. pose proof (kp_clk _ _ Hk) as Hclk. pose proof (bg_started _ _ Hb) as Hst. pose proof Hst as (_ & _ & T3).
  exists L, H. assert (Ew : wait H c' = wait H c1) by (unfold wait; by rewrite Hpe, Hclk). split.
  { split; [rewrite Hlog; apply Hw|by rewrite Hpe|by rewrite Hpe, Hclk]. }
  assert (Hmul : pace s * backlog d s c' <= pace s * backlog d s c + pace s * added c) by (pose proof pace_pos; nia).
  assert (Hmove : stall L c' + wait H c' <= stall L c + wait H c - 1); [|unfold effort; lia].
  rewrite Ew. unfold stall. rewrite Hclk, T3. destruct (decide (L + settle_time s <= c_clk c + 1)) as [Hset|Hset]; [|lia].
  destruct (begun_empty c c1 Hb) as [He Ha].
  { apply Hidle. apply (settled_ready d cfg s dev0 ch 1 c c1 L); try done; [apply Hw|lia]. }
  assert (wait H c <> 0); [|lia]. unfold wait. case_bool_decide as Ep; [by destruct Hnd|]. destruct (wi_horizon _ _ _ Hw); [done|lia].
Qed.

(** A tick of a controller that is not drained. *)
Lemma potential_step n L H c c' : live n c -> steady (c_refresh c) -> within L H c -> ~ drained c -> GenericDDR_tick c = Ok c' ->
  exists L' H', live n c' /\ steady (c_refresh c') /\ within L' H' c' /\ potential L' H' c' <= potential L H c - 1 /\ slack c' = slack c /\
    refresh_demand (c_refresh c') = refresh_demand (c_refresh c) /\ max_size (c_priority_buffer c') = max_size (c_priority_buffer c).
Proof.
  intros HL Hrel Hw Hnd Ht. destruct (tick_ticked d cfg s Hin Hcon Hs Horg Hone dev0 ch n c c' HL Ht) as (c1 & Htk & Hok & HB).
  destruct (ticked_live d s dev0 ch n c c1 c' HL Htk Hok HB Ht) as [HL' Hclk].
  { destruct (periodic (c_refresh c)) eqn:Ep; [left; by apply Hrel|by right]. }
  destruct Htk as [Hb Hk Hdone]. assert (Heff : exists L' H', within L' H' c' /\ effort L' H' c' <= effort L H c + pace s * added c - 1).
  { destruct Hdone as [Hlt|(Hle & Hlog & Hpe & Hidle)]; [by apply (busy_within n L H c c1 c')|].
    apply (idle_within L H c c1 c'); try done; [apply (lv_trace _ _ _ _ _ _ HL)|by eapply live_spec]. }
  destruct Heff as (L' & H' & Hw' & Heff). exists L', H'. pose proof (bg_period _ _ Hb) as E1. pose proof (bg_demand _ _ Hb) as E2. pose proof (bg_periodic _ _ Hb) as E3.
  pose proof (bg_room _ _ Hb) as E4. pose proof (kp_max _ _ Hk Bpriority) as E5. pose proof (bg_fired _ _ Hb) as F. pose proof (kp_refresh _ _ Hk) as E6. cbn in E5.
  split_and!; [done|unfold steady in *; rewrite E6, E1, E2, E3; done|done| |unfold slack; by rewrite E6, E1, E3|congruence|congruence].
  unfold potential, until. rewrite E6, E3, Hclk. unfold added, fires in Heff. destruct (periodic (c_refresh c)) eqn:Ep; cbn [andb] in *; [|lia].
  destruct (Hrel Ep) as [Hp Hd]. destruct (Z.eqb_spec (c_clk c + 1) (refresh_next (c_refresh c))) as [E|E].
  - destruct F as [_ ->]. rewrite <- E. lia.
  - destruct F as [_ ->]. lia.
Qed.

(** ** Draining *)

(** The room in the priority buffer that a potential asks for. *)
Definition spacious (c : ControllerBase) (x : Z) : Prop :=
  x + 2 * pace s * refresh_demand (c_refresh c) <= 2 * pace s * max_size (c_priority_buffer c).

Lemma spacious_tick n L H c x : live n c -> within L H c -> potential L H c + slack c <= x -> spacious c x -> is_Ok (GenericDDR_tick c).
Proof.
  intros HL Hw Hx Hr. pose proof (tick_safe d cfg s Hin Hcon Hs Horg n c (lv_ok _ _ _ _ _ _ HL)) as Ht.
  destruct (GenericDDR_tick c) as [c'|e]; [by eexists|]. cbn in Ht. destruct Ht as [_ Ht]. exfalso.
  pose proof (effort_backlog L H c Hw) as He. pose proof (backlog_nonneg c) as [_ Hb]. pose proof (until_slack n c HL) as Hu. pose proof pace_pos.
  unfold spacious, crowded, potential in *. nia.
Qed.

#[local] Strategy opaque [GenericDDR_tick].

Lemma do_tick (a : GenericDDRController) ks c' : GenericDDR_tick (g_base a) = Ok c' -> do_calls (CTick :: ks) a = do_calls ks (mkGenericDDR c').
Proof.
  intros H. rewrite do_calls_tick. unfold ctl_tick, GenericDDR_controller, GenericDDRController_tick. by rewrite H.
Qed.

Lemma ticks_drain n fuel : forall L H (a : GenericDDRController), live n (g_base a) -> steady (c_refresh (g_base a)) -> within L H (g_base a) ->
  potential L H (g_base a) + slack (g_base a) < Z.of_nat fuel -> spacious (g_base a) (Z.of_nat fuel) ->
  exists k a', (k < fuel)%nat /\ do_calls (repeat CTick k) a = Ok a' /\ drained (g_base a').
Proof.
  induction fuel as [|fuel IH]; intros L H a HL Hst Hw Hf Hr.
  { pose proof (effort_nonneg L H _ Hw). pose proof (until_slack n _ HL). unfold potential in Hf. lia. }
  destruct (decide (drained (g_base a))) as [Hd|Hd]; [exists 0%nat, a; split_and!; [lia|done..]|].
  destruct (spacious_tick n L H (g_base a) (Z.of_nat (S fuel)) HL Hw ltac:(lia) Hr) as [c' Hc'].
  destruct (potential_step n L H (g_base a) c' HL Hst Hw Hd Hc') as (L' & H' & HL' & Hst' & Hw' & Hp & Es & Ed & Em).
  destruct (IH L' H' (mkGenericDDR c')) as (k & a' & Hk & Hdo & Hdr); [done..|cbn; lia|unfold spacious in *; cbn; rewrite Ed, Em; lia|].
  exists (S k), a'. split_and!; [lia| |done]. cbn [repeat]. by rewrite (do_tick a _ c' Hc').
Qed.

(** The number of ticks after which the work of [c] is done. *)
Definition drain_bound (c : ControllerBase) : Z := 2 * pace s * (backlog d s c + 1) + slack c.

Lemma live_drains n a : live n (g_base a) -> steady (c_refresh (g_base a)) -> spacious (g_base a) (drain_bound (g_base a)) ->
  exists k a', Z.of_nat k <= drain_bound (g_base a) /\ do_calls (repeat CTick k) a = Ok a' /\ drained (g_base a').
Proof.
  intros HL Hst Hr. pose proof horizon_pos as H1. pose proof settle_pos as H2. pose proof pace_pos. pose proof (backlog_nonneg (g_base a)) as [H3 _].
  pose proof (until_slack n _ HL) as Hu. set (c := g_base a) in *.
  assert (Hw : within (c_clk c) (c_clk c + read_horizon s) c).
  { split; [eapply Forall_impl; [apply (ti_times _ _ _ (lv_trace _ _ _ _ _ _ HL))|]; cbn; lia|apply (lv_pending _ _ _ _ _ _ HL)|right; lia]. }
  assert (Hwait : wait (c_clk c + read_horizon s) c <= read_horizon s + 1) by (unfold wait; case_bool_decide; lia).
  assert (Hpos : 0 <= drain_bound c) by (unfold drain_bound; nia).
  assert (Hpot : potential (c_clk c) (c_clk c + read_horizon s) c + slack c < drain_bound c).
  { unfold potential, effort, drain_bound, stall. unfold pace in *. lia. }
  destruct (ticks_drain n (Z.to_nat (drain_bound c)) _ _ a HL Hst Hw) as (k & a' & Hk & Hdo & Hdr); [fold c; rewrite Z2Nat.id; lia|fold c; by rewrite Z2Nat.id|].
  exists k, a'. split_and!; [lia|done..].
Qed.

(** ** Every call keeps a controller live *)
Lemma quiet_due c c' : c_refresh c' = c_refresh c -> c_clk c' = c_clk c -> refresh_due c -> refresh_due c'.
Proof. unfold refresh_due. by intros -> ->. Qed.

Lemma send_live n c req ok r c' : live n c -> valid_request d s n c req -> ctrl_send c req = Ok (ok, r, c') -> live n c' /\ c_refresh c' = c_refresh c.
Proof.
  intros [L1 L2 L3 L4 L5 L6] Hv H. pose proof (quiet_send _ _ _ _ _ H) as Hq. pose proof Hq as (Q1 & Q2 & Q3). pose proof (send_appended _ _ _ _ _ H) as Ha.
  pose proof (send_safe d cfg s Hin Hcon Horg n c req L1 Hv) as Hok. rewrite H in Hok. cbn in Hok. split; [|apply (ap_refresh _ _ Ha)]. split.
  - done.
  - by apply (bufs_appended d cfg s Hin Hcon n c c').
  - apply (marks_ok_same c); [apply (ap_marks _ _ Ha)| |done]. destruct (ap_rw _ _ Ha Bwrite) as (ks & E & _). cbn in E. by rewrite E.
  - by apply (quiet_due c); [apply (ap_refresh _ _ Ha)|..].
  - destruct (ap_pending _ _ Ha) as (l & -> & Hl). rewrite Q3. apply Forall_app. split; [done|]. eapply Forall_impl; [exact Hl|]. cbn. pose proof horizon_pos. lia.
  - by eapply quiet_trace.
Qed.

Lemma tick_live n c c' : live n c -> steady (c_refresh c) -> GenericDDR_tick c = Ok c' -> live n c' /\ steady (c_refresh c').
Proof.
  intros HL Hst Ht. destruct (tick_ticked d cfg s Hin Hcon Hs Horg Hone dev0 ch n c c' HL Ht) as (c1 & Htk & Hok & HB). split.
  - apply (ticked_live d s dev0 ch n c c1 c' HL Htk Hok HB Ht). destruct (periodic (c_refresh c)) eqn:Ep; [left; by apply Hst|by right].
  - destruct Htk as [Hb Hk _]. unfold steady. by rewrite (kp_refresh _ _ Hk), (bg_period _ _ Hb), (bg_demand _ _ Hb), (bg_periodic _ _ Hb).
Qed.

Lemma run_live n (a0 a : GenericDDRController) : live n (g_base a0) -> steady (c_refresh (g_base a0)) -> valid_run d s n a0 a ->
  live n (g_base a) /\ steady (c_refresh (g_base a)).
Proof.
  intros H0 S0. induction 1 as [|a a' _ [IH1 IH2] Ht|a req ok r a' _ [IH1 IH2] Hv Hsd]; [done|..].
  - unfold ctl_tick, GenericDDR_controller, GenericDDRController_tick in Ht. apply fmap_Ok_inv in Ht as (c & Ht & <-). by apply (tick_live n (g_base a)).
  - unfold ctl_send in Hsd. apply bind_Ok_inv in Hsd as ([[k q] c] & Hsd & [= <- <- <-]).
    destruct (send_live n (g_base a) req k q c IH1 Hv Hsd) as [H1 H2]. split; [exact H1|]. unfold steady. cbn. by rewrite H2.
Qed.
End Liveness.

(** ** From construction *)
Section Draining.
Context (d : standard) (cc : controller_config) (s : DRAMSpec).
Context (Hin : In d all_standards) (Hname : cc_dram_impl cc = std_name d) (Hcon : construct d (cc_dram cc) = Ok s) (Hs : spec_ok s) (Horg : org_ok s).

Lemma fresh_due dev0 m c : make_refresh (cc_refresh cc) dev0 = Ok m -> cc_refresh cc <> CfgHBM34PerBank -> steady s m -> c_refresh c = m -> c_clk c = 0 ->
  refresh_due c.
Proof.
  intros Hm Hk Hst Er Ec. unfold refresh_due. rewrite Er, Ec. destruct (cc_refresh cc); cbn in Hm; [by injection Hm as <-|..|done].
  - apply bind_Ok_inv in Hm as (r & Hr & [= <-]). destruct (Hst eq_refl) as [Hp _]. unfold AllBankRefresh_init in Hr. inv_res. dcase Hr; [discriminate|].
    injection Hr as <-. cbn in *. lia.
  - apply bind_Ok_inv in Hm as (r & Hr & [= <-]). destruct (Hst eq_refl) as [Hp _]. unfold PerBankRefresh_init in Hr. inv_res. subst r. cbn in *. lia.
Qed.

(** The configurations that drain: the open row policy on a standard with
    one activation command, a periodic refresh manager or none, a period long
    enough for the work of a refresh, and watermarks that neither keep an
    empty write buffer in write mode nor force one into it. *)
Record drain_config (c0 : ControllerBase) : Prop := {
  dc_one : T_ACT2 (std_traits d) = None;
  dc_open : cc_rowpolicy cc = CfgOpen;
  dc_kind : cc_refresh cc <> CfgHBM34PerBank;
  dc_banks : Z.of_nat (length (banks d s)) < 2 ^ 64;
  dc_steady : steady s (c_refresh c0);
  dc_marks : marks_ok c0
}.

Lemma setup_live n ch c00 c0 : 0 <= n -> init_base registry cc = Ok c00 -> setup_controller cc n ch c00 = Ok c0 -> drain_config c0 ->
  exists dev0, init s = Ok dev0 /\ live d s dev0 ch (Z.to_nat n) c0 /\ idle (mkGenericDDR c0).
Proof.
  intros Hn Hi Hsu [D1 D2 D3 D4 D5 D6]. destruct (setup_fresh d cc s Hin Hcon n ch c00 c0 Hs Horg Hname Hi Hsu) as (dev0 & Hd0 & F & _).
  exists dev0. split; [done|]. split.
  - split; [by eapply (setup_ok d (cc_dram cc) s)|by apply (fresh_bufs_ok d cc s dev0 ch c0 F)|done| | |by apply (fresh_trace d cc s dev0 ch c0 F)].
    + by apply (fresh_due dev0 (c_refresh c0)); [apply (fs_refresh _ _ _ _ _ _ F)|done..|apply (fs_clk _ _ _ _ _ _ F)].
    + rewrite (fs_pending _ _ _ _ _ _ F). constructor.
  - destruct F as [_ _ _ _ _ _ F1 F2 F3 _ F4 F5 F6]. split; [|done]. intros b. cbn. rewrite F1, F3. split; [done|]. apply Z.mod_pos_bound. lia.
Qed.

(** ** Runs as served histories *)
Lemma valid_run_served n (a0 a : GenericDDRController) : valid_run d s n a0 a -> exists acc, served a0 acc a.
Proof.
  induction 1 as [|a a' _ [acc IH] Ht|a req ok r a' _ [acc IH] _ Hsd]; [by exists []; constructor|by exists acc; eapply served_tick|].
  eexists. by eapply served_send.
Qed.

Lemma ticks_served (a0 : GenericDDRController) acc k : forall a a', served a0 acc a -> do_calls (repeat CTick k) a = Ok a' -> served a0 acc a'.
Proof.
  induction k as [|k IH]; intros a a' Hsv H; [by injection H as <-|]. cbn [repeat] in H. rewrite do_calls_tick in H. apply bind_Ok_inv in H as (a1 & H1 & H).
  apply (IH a1); [by eapply served_tick|exact H].
Qed.

Lemma drained_pool a : drained (g_base a) -> pool (elsewhere a) (g_base a) = [].
Proof.
  intros [He _]. pose proof (He Bactive) as E1. pose proof (He Bpriority) as E2. pose proof (He Bread) as E3. pose proof (He Bwrite) as E4.
  cbn in E1, E2, E3, E4. unfold pool, ids. by rewrite E1, E2, E3, E4.
Qed.

(** C4: Everything a GenericDDR controller accepted is answered, after a number of
    cycles known in advance. For every standard with one activation command and tables
    in bounds, write watermarks whose products with the size of the write buffer are
    positive (low one) and not negative (high one), the open row policy and a periodic
    refresh manager (or none) whose period leaves room for the work of a refresh: after
    any interleaving of ticks and sends of valid requests, at most drain_bound further
    ticks succeed one after the other and leave no request in any buffer and no read
    pending, and the callbacks of all requests that were held or pending have been
    called, each once. The bound is computed from the largest entry of the timing table,
    the read latency, the weighted number of held requests and the refresh period; the
    priority buffer has to have room for that many cycles of refreshes. *)
Theorem generic_ddr_drains n ch c00 c0 a :
  0 <= n -> init_base registry cc = Ok c00 -> setup_controller cc n ch c00 = Ok c0 -> drain_config c0 ->
  valid_run d s (Z.to_nat n) (mkGenericDDR c0) a -> spacious s (base a) (drain_bound d s (base a)) ->
  exists k a', Z.of_nat k <= drain_bound d s (base a) /\ do_calls (repeat CTick k) a = Ok a' /\ drained (base a') /\
    omap callback (c_done (base a')) ≡ₚ omap id_callback (pool [] (base a)) ++ omap callback (c_pending (base a)) ++ omap callback (c_done (base a)).
Proof.
  intros Hn Hi Hsu Hdc Hrun Hroom. destruct (setup_live n ch c00 c0 Hn Hi Hsu Hdc) as (dev0 & Hd0 & HL0 & Hidle). destruct Hdc as [D1 _ _ _ D5 _].
  destruct (run_live d (cc_dram cc) s Hin Hcon Hs Horg D1 dev0 ch _ (mkGenericDDR c0) a HL0 D5 Hrun) as [HL Hst].
  destruct (live_drains d (cc_dram cc) s Hin Hcon Hs Horg D1 dev0 ch Hd0 _ a HL Hst Hroom) as (k & a' & Hk & Hdo & Hdr).
  exists k, a'. split_and!; [done..|]. destruct (valid_run_served _ _ _ Hrun) as [acc Hacc].
  pose proof (served_book _ _ _ Hidle (ticks_served _ _ k a a' Hacc Hdo)) as B'. pose proof (served_book _ _ _ Hidle Hacc) as B.
  pose proof (ac_callbacks _ _ _ _ _ (bk_accounts _ _ _ B')) as C'. pose proof (ac_callbacks _ _ _ _ _ (bk_accounts _ _ _ B)) as C.
  change (base a') with (g_base a') in *. rewrite (drained_pool a' Hdr), (proj2 Hdr) in C'. cbn in C'. by rewrite C', <- C.
Qed.
End Draining.
