(* ===== verification/ControllerWitness.v ===== *)
(** * ControllerWitness: a concrete controller

    A DDR4 controller built by [init_base] from a small configuration, and
    runs of it that instantiate the theorems about controllers. *)
From Stdlib Require Import Sorted.
From stdpp Require Import prelude gmap strings.
From S2P Require Import Prelude DramSpec Commands Standards Node NodeTiming NodeTree Device DeviceInv DeviceProps BankSafety BankProgress IssueSafety Request BitUtils AddrMapper Float32 ControllerState Controller Scheduler Refresh NodeAddr HbmRefresh RowPolicy ControllerInit GenericDdr ControllerSafety Hbm Lpddr5 Controllers ControllerTrace Settle ServeSafety TickSafety Bookkeeping ServeFrame ActiveInv SafeControllers Progress Drains Liveness.
Open Scope Z_scope.

Definition small_config : controller_config :=
  mkCC "DDR4" cfg_small None None (Some 4) (Some 4) (Some 8) CfgAllBank CfgOpen MapRoBaRaCoCh [].

Definition no_device : DRAMDevice := mkDev ddr4_small (Node 0 0 (mkBank 0 ∅) [] [] []) [] 0.
Definition no_controller : ControllerBase :=
  mkCtrl no_device (mkAddrMapper MapPassThrough (mkMapper 0 [] 0 0 0)) 0 0 NoRefresh OpenRowPolicy [] []
    (mkBuf [] 0) (mkBuf [] 0) (mkBuf [] 0) (mkBuf [] 0) ∅ f32_0 f32_0 false 0 0 [] zero_counters [] [] [] [] [].

(** Channel 0, as the memory system sets it up. *)
Definition small_controller : GenericDDRController :=
  mkGenericDDR (ctrl_set_channel_id (from_res no_controller (init_base registry small_config)) 0).

Definition small_request (type a cb : Z) : Request := set_intra (Request_src a type (-1) (Some cb)) a.

(** Two reads and a write to different banks, a read of the written address
    and a second write to it, then thirty cycles (with two refreshes). *)
Definition small_calls : list call :=
  [CSend (small_request 0 0 1); CSend (small_request 0 64 2); CSend (small_request 1 128 3);
   CSend (small_request 0 128 4); CSend (small_request 1 128 5)] ++ repeat CTick 30.

Definition small_run : GenericDDRController := from_res small_controller (do_calls small_calls small_controller).

Lemma small_run_ok : do_calls small_calls small_controller = Ok small_run.
Proof. apply from_res_Ok. vm_compute. reflexivity. Qed.

Lemma small_starts : starts small_controller dev_small 0.
Proof. split; [|split]; vm_compute; reflexivity. Qed.

Lemma small_reach : reach small_controller small_run.
Proof. exact (do_calls_reach small_calls small_controller _ _ (reach_refl _) small_run_ok). Qed.

(** The requests that a history of calls gets accepted. *)
Section Accepted.
Context {A : Type} `{BookController A}.

Definition accept_call (st : list Request * A) (k : call) : res (list Request * A) :=
  match k with
  | CSend req => p ← ctl_send st.2 req; Ok (if (p.1.1 : bool) then req :: st.1 else st.1, p.2)
  | CPriority _ => Err UndefinedBehaviour
  | CTick => a ← ctl_tick st.2; Ok (st.1, a)
  end.

Lemma accept_calls_served (a0 : A) ks : forall st st',
  served a0 st.1 st.2 -> foldM accept_call ks st = Ok st' -> served a0 st'.1 st'.2.
Proof.
  intros st st' Hs Hf. refine (foldM_inv (fun st => served a0 st.1 st.2) _ _ _ _ _ Hs Hf).
  intros k [acc a] s' _ Ha Hk. destruct k; cbn [accept_call fst snd] in Hk.
  - apply bind_Ok_inv in Hk as ([[ok r] a1] & Hk & [= <-]). by eapply served_send.
  - discriminate.
  - apply bind_Ok_inv in Hk as (a1 & Hk & [= <-]). by eapply served_tick.
Qed.
End Accepted.

Definition small_accepted : list Request * GenericDDRController :=
  from_res ([], small_controller) (foldM accept_call small_calls ([], small_controller)).

Lemma small_served : served small_controller small_accepted.1 small_accepted.2.
Proof.
  apply (accept_calls_served small_controller small_calls ([], small_controller)); [apply served_refl|].
  apply from_res_Ok. vm_compute. reflexivity.
Qed.

Lemma small_idle : idle small_controller.
Proof.
  split; [intros []; (split; [vm_compute; reflexivity|vm_compute; discriminate])|].
  split; [|split; [|split; [|split]]]; vm_compute; reflexivity.
Qed.

(** The read of bank 0 (position 3, cycle 5) waits for its activation. *)
Lemma issued_commands_obey_timing_witness :
  exists h, c_log (base small_run) !! 3%nat = Some h /\ i_cmd h = 3 /\ i_clk h = 5 /\
    forall p x, node_at (m_root dev_small) p = Some x -> visits (i_av h) 0 p = true ->
      timing_ok ddr4_small (length p) (events_at 0 0 p (take 3 (c_log (base small_run)))) 3 5.
Proof.
  exists (mkIssued 3 [0; 0; 0; 0; 0; 0] 5).
  assert (Hk : c_log (base small_run) !! 3%nat = Some (mkIssued 3 [0; 0; 0; 0; 0; 0] 5)) by (vm_compute; reflexivity).
  split; [exact Hk|]. split; [reflexivity|]. split; [reflexivity|].
  exact (issued_commands_obey_timing DDR4_std cfg_small ddr4_small dev_small 0 small_controller small_run 3 _
    DDR4_in ddr4_small_ok dev_small_ok small_starts small_reach Hk).
Defined.

Lemma command_bus_exclusive_witness :
  issue_all (c_log (base small_run)) (set_channel_id dev_small 0) = Ok (c_device (base small_run)) /\
  length (c_log (base small_run)) = 10%nat.
Proof.
  destruct (command_bus_exclusive dev_small 0 small_controller small_run small_starts small_reach) as (_ & _ & _ & H).
  split; [exact H|vm_compute; reflexivity].
Defined.

(** All five callbacks have been called after the run: the forwarded read and
    the absorbed write included. *)
Lemma callbacks_exactly_once_witness :
  omap callback (c_done (base small_accepted.2)) ≡ₚ omap callback small_accepted.1 /\
  length small_accepted.1 = 5%nat.
Proof.
  split; [|vm_compute; reflexivity].
  refine (proj2 (callbacks_exactly_once small_controller _ _ small_idle small_served) _ _); vm_compute; reflexivity.
Defined.

Lemma request_counters_balance_witness :
  c_stats (base small_accepted.2) s_num_read_reqs = 3 /\
  c_stats (base small_accepted.2) s_num_read_reqs_forwarded + c_stats (base small_accepted.2) s_num_read_reqs_served +
    of_type Type_Read (pool (elsewhere small_accepted.2) (base small_accepted.2)) = 3.
Proof.
  destruct (request_counters_balance small_controller _ _ small_idle small_served) as (H & _).
  assert (E : c_stats (base small_accepted.2) s_num_read_reqs = 3) by (vm_compute; reflexivity).
  split; [exact E|]. rewrite <- H. exact E.
Defined.

(** After the five [send] calls only one write is buffered. *)
Definition small_sent : list Request * GenericDDRController :=
  from_res ([], small_controller) (foldM accept_call (take 5 small_calls) ([], small_controller)).

Lemma small_sent_served : served small_controller small_sent.1 small_sent.2.
Proof.
  apply (accept_calls_served small_controller (take 5 small_calls) ([], small_controller)); [apply served_refl|].
  apply from_res_Ok. vm_compute. reflexivity.
Qed.

Lemma write_forwarding_set_exact_witness :
  128 ∈ c_buffered_write_addrs (base small_sent.2) /\ length (buffer (c_write_buffer (base small_sent.2))) = 1%nat.
Proof.
  split; [|vm_compute; reflexivity].
  apply (proj1 (write_forwarding_set_exact small_controller _ _ small_idle small_sent_served)).
  assert (E : exists r l, buffer (c_write_buffer (base small_sent.2)) = r :: l /\ addr r = 128)
    by (do 2 eexists; split; vm_compute; reflexivity).
  destruct E as (r & l & E & Ha). exists r. split; [|exact Ha]. rewrite E. apply list_elem_of_here.
Defined.

(** Bank 0 has just been activated for row 0; the older read wants its row 1
    and must wait for a precharge, the younger one can activate bank 1. *)
Definition conflict_calls : list call :=
  [CSend (small_request 0 0 1); CTick; CTick; CSend (small_request 0 256 2); CSend (small_request 0 64 3)].

Definition conflict : ControllerBase := base (from_res small_controller (do_calls conflict_calls small_controller)).

Definition conflict_best : option nat * ReqBuffer :=
  from_res (None, c_read_buffer conflict) (get_best_request conflict (c_read_buffer conflict) None).

Lemma frfcfs_oldest_ready_first_witness :
  conflict_best.1 = Some 1%nat /\
  exists r, buffer conflict_best.2 !! 1%nat = Some r /\ readiness conflict r = Ok true /\
    forall j r', buffer conflict_best.2 !! j = Some r' -> resolved conflict r' /\
      exists t', readiness conflict r' = Ok t' /\ precedes 1 r true j r' t'.
Proof.
  assert (E : get_best_request conflict (c_read_buffer conflict) None = Ok (Some 1%nat, conflict_best.2))
    by (vm_compute; reflexivity).
  split; [vm_compute; reflexivity|].
  destruct (frfcfs_oldest_ready_first conflict None (c_read_buffer conflict) _ _ E) as (_ & Hres & r & t & Hr & _ & Ht & Hall).
  assert (Hrd : readiness conflict r = Ok true).
  { assert (Eb : exists r0, buffer conflict_best.2 !! 1%nat = Some r0 /\ readiness conflict r0 = Ok true)
      by (eexists; split; vm_compute; reflexivity).
    destruct Eb as (r0 & E0 & E1). rewrite Hr in E0. injection E0 as ->. exact E1. }
  exists r. split; [exact Hr|]. split; [exact Hrd|]. rewrite Hrd in Ht. injection Ht as <-.
  intros j r' Hj. split; [exact (Hres j r' Hj)|]. exact (Hall j r' Hj eq_refl).
Defined.

(** The small controller with one core, after a read and a tick. *)
Definition small_made : controller := from_res (CtlGenericDDR small_controller) (make_controller registry ClsGenericDDR small_config).
Definition ready_base : ControllerBase := from_res no_controller (setup_controller small_config 1 0 (base small_made)).
Definition ready_controller : controller := set_base small_made ready_base.

Lemma small_made_ok : make_controller registry ClsGenericDDR small_config = Ok small_made.
Proof. apply from_res_Ok. vm_compute. reflexivity. Qed.

Lemma ready_base_ok : setup_controller small_config 1 0 (base small_made) = Ok ready_base.
Proof. apply from_res_Ok. vm_compute. reflexivity. Qed.

Definition ready_sent : bool * Request * controller :=
  from_res (false, Request_default, small_made) (ctl_send ready_controller (small_request 0 64 1)).

Definition ready_ticked : controller := from_res small_made (controller_tick ready_sent.2).

Lemma small_valid c a ty :
  am_impl (c_mapper c) = MapRoBaRaCoCh ->
  capacity (am_base (c_mapper c)) (order_RoBaRaCoCh (am_base (c_mapper c))) = 4096 ->
  0 <= a < 4096 -> ty = Type_Read \/ ty = Type_Write -> valid_request DDR4_std ddr4_small 1 c (small_request ty a 1).
Proof.
  intros Hi Hcap Ha Ht. split; [exact Ht|by left|]. unfold addressable. rewrite Hi, Hcap. exact Ha.
Qed.

Lemma ready_run : valid_run DDR4_std ddr4_small 1 ready_controller ready_ticked.
Proof.
  apply (vrun_tick _ _ _ _ ready_sent.2); [|apply from_res_Ok; vm_compute; reflexivity].
  apply (vrun_send _ _ _ _ ready_controller (small_request 0 64 1) ready_sent.1.1 ready_sent.1.2); [apply vrun_refl|..].
  - apply small_valid; [vm_compute; reflexivity..|lia|by left].
  - assert (H : ctl_send ready_controller (small_request 0 64 1) = Ok ready_sent) by (apply from_res_Ok; vm_compute; reflexivity).
    rewrite H. by destruct ready_sent as [[]].
Qed.

(** ** The active counts under the ClosedCAP policy

    A write that is upgraded to WRA closes a bank an active read still needs;
    the read is activated and counted a second time. *)
Definition cfg_leak : dram_config :=
  mkCfg 64 8 [1; 1; 2; 2; 16; 64] (replicate 21 10) 20
    [ mkRow 3 [0] [3; 4] 4 None None;       (* Bank: ACT -> RD, WR, nRCD *)
      mkRow 3 [0] [1] 9 None None;          (* Bank: ACT -> PREpb, nRAS *)
      mkRow 3 [1] [0] 5 None None;          (* Bank: PREpb -> ACT, nRP *)
      mkRow 1 [4] [3] 6 None None ].        (* Rank: WR -> RD, nWTR *)

Definition leak_config : controller_config :=
  mkCC "DDR4" cfg_leak None None (Some 4) (Some 4) (Some 8) CfgNoRefresh (CfgClosedCAP (Some 1)) MapPassThrough [].

Definition leak_controller : GenericDDRController :=
  mkGenericDDR (ctrl_set_channel_id (from_res no_controller (init_base registry leak_config)) 0).

Definition leak_request (type a bank col cb : Z) : Request :=
  set_addr_vec (Request_src a type (-1) (Some cb)) [0; 0; 0; bank; 0; col].

(** A write to bank 1, a read of bank 0, then two writes to the row it opens. *)
Definition leak_calls : list call :=
  [CSend (leak_request 1 0 1 0 1); CTick; CSend (leak_request 0 256 0 0 2); CTick;
   CSend (leak_request 1 64 0 1 3); CSend (leak_request 1 128 0 2 4)] ++ repeat CTick 50.

Definition leak_run : GenericDDRController := from_res leak_controller (do_calls leak_calls leak_controller).

(** Everything was served, no request is active, and bank 0 counts one. *)
Lemma active_count_leaks : do_calls leak_calls leak_controller = Ok leak_run /\
  length (c_done (base leak_run)) = 4%nat /\ pool [] (base leak_run) = [] /\
  buffer (c_active_buffer (base leak_run)) = [] /\ c_active_per_bank (base leak_run) = [1; 0; 0; 0].
Proof. split; [apply from_res_Ok; vm_compute; reflexivity|]. split_and!; vm_compute; reflexivity. Qed.

(** ** Pending reads are not sorted by departure

    A read is being served when a younger one is forwarded from the write
    buffer: the forwarded one departs 19 cycles earlier but waits behind. *)
Definition unsorted_calls : list call :=
  [CSend (small_request 0 0 1)] ++ repeat CTick 5 ++ [CSend (small_request 1 128 2); CSend (small_request 0 128 3)].

Definition unsorted_run : GenericDDRController := from_res small_controller (do_calls unsorted_calls small_controller).
Definition unsorted_later : GenericDDRController := from_res small_controller (do_calls (repeat CTick 10) unsorted_run).

Lemma pending_not_sorted :
  do_calls unsorted_calls small_controller = Ok unsorted_run /\ c_clk (base unsorted_run) = 5 /\ map depart (c_pending (base unsorted_run)) = [25; 6] /\
  do_calls (repeat CTick 10) unsorted_run = Ok unsorted_later /\ c_clk (base unsorted_later) = 15 /\ map depart (c_pending (base unsorted_later)) = [25; 6].
Proof.
  split; [apply from_res_Ok; vm_compute; reflexivity|]. split; [vm_compute; reflexivity|]. split; [vm_compute; reflexivity|].
  split; [apply from_res_Ok; vm_compute; reflexivity|]. split; vm_compute; reflexivity.
Qed.

(** ** A controller that drains

    A DDR4 controller whose refresh period leaves room for the work of a
    refresh, with a read and a write to the same bank in its buffers. *)
(** The timing table of [cfg_small], with a refresh every 100 cycles. *)
Definition cfg_drain : dram_config :=
  mkCfg 64 8 [1; 1; 2; 2; 16; 8] (replicate 21 100) 20 (cfg_timing_constraints cfg_small).

Definition ddr4_drain : DRAMSpec := from_res ddr4_small (construct DDR4_std cfg_drain).

Lemma ddr4_drain_ok : construct DDR4_std cfg_drain = Ok ddr4_drain.
Proof. apply from_res_Ok. vm_compute. reflexivity. Qed.

Lemma spec_ok_drain : spec_ok ddr4_drain.
Proof.
  apply spec_ok_check; [|vm_compute; reflexivity].
  destruct (standard_static DDR4_std cfg_drain ddr4_drain) as (C & _); [by right; left|exact ddr4_drain_ok|]. exact (con_loaded _ _ C).
Qed.

Lemma org_ok_drain : org_ok ddr4_drain.
Proof.
  split.
  - vm_compute. reflexivity.
  - intros lvl sz H. assert (Forall (fun sz => 1 <= sz < 2 ^ 30) (level_sizes ddr4_drain)) as HF.
    { change (level_sizes ddr4_drain) with [1; 1; 2; 2; 16; 8]. repeat constructor; lia. }
    exact (Forall_lookup_1 _ _ _ _ HF H).
  - vm_compute. split; [discriminate|reflexivity].
  - vm_compute. split; [discriminate|reflexivity].
  - intros sz H. change (Some 8 = Some sz) in H. injection H as <-. vm_compute. discriminate.
Qed.

Definition drain_cc : controller_config :=
  mkCC "DDR4" cfg_drain None None (Some 4) (Some 4) (Some 32) CfgAllBank CfgOpen MapRoBaRaCoCh [].

Definition drain_made : ControllerBase := from_res no_controller (init_base registry drain_cc).
Definition drain_ready : ControllerBase := from_res no_controller (setup_controller drain_cc 1 0 drain_made).

Lemma drain_made_ok : init_base registry drain_cc = Ok drain_made.
Proof. apply from_res_Ok. vm_compute. reflexivity. Qed.

Lemma drain_ready_ok : setup_controller drain_cc 1 0 drain_made = Ok drain_ready.
Proof. apply from_res_Ok. vm_compute. reflexivity. Qed.

Lemma drain_config_ok : drain_config DDR4_std drain_cc ddr4_drain drain_ready.
Proof.
  split; [done..| | |]; [vm_compute; reflexivity| |split; vm_compute; reflexivity].
  intros _. assert (E : refresh_period (c_refresh drain_ready) = 100 /\ refresh_demand (c_refresh drain_ready) = 1 /\ pace ddr4_drain = 33)
    by (split_and!; vm_compute; reflexivity).
  destruct E as (-> & -> & ->). lia.
Qed.

(** A read and a write to different rows of a bank, then a tick. *)
Definition drain_sent : bool * Request * GenericDDRController :=
  from_res (false, Request_default, mkGenericDDR drain_ready) (ctl_send (mkGenericDDR drain_ready) (small_request 0 64 1)).
Definition drain_sent2 : bool * Request * GenericDDRController := from_res drain_sent (ctl_send drain_sent.2 (small_request 1 320 2)).
Definition drain_ticked : GenericDDRController := from_res drain_sent2.2 (ctl_tick drain_sent2.2).

Lemma drain_valid c a ty : am_impl (c_mapper c) = MapRoBaRaCoCh ->
  capacity (am_base (c_mapper c)) (order_RoBaRaCoCh (am_base (c_mapper c))) = 4096 ->
  0 <= a < 4096 -> ty = Type_Read \/ ty = Type_Write -> valid_request DDR4_std ddr4_drain 1 c (small_request ty a 1) /\
  valid_request DDR4_std ddr4_drain 1 c (small_request ty a 2).
Proof.
  intros Hi Hcap Ha Ht. split; (split; [exact Ht|by left|]); unfold addressable; rewrite Hi, Hcap; exact Ha.
Qed.

Lemma drain_run : valid_run DDR4_std ddr4_drain 1 (mkGenericDDR drain_ready) drain_ticked.
Proof.
  assert (H1 : ctl_send (mkGenericDDR drain_ready) (small_request 0 64 1) = Ok drain_sent) by (apply from_res_Ok; vm_compute; reflexivity).
  assert (H2 : ctl_send drain_sent.2 (small_request 1 320 2) = Ok drain_sent2) by (apply from_res_Ok; vm_compute; reflexivity).
  assert (H3 : ctl_tick drain_sent2.2 = Ok drain_ticked) by (apply from_res_Ok; vm_compute; reflexivity).
  apply (vrun_tick _ _ _ _ drain_sent2.2); [|exact H3].
  apply (vrun_send _ _ _ _ drain_sent.2 (small_request 1 320 2) drain_sent2.1.1 drain_sent2.1.2);
    [|eapply drain_valid; [vm_compute; reflexivity..|lia|by right]|rewrite H2; by destruct drain_sent2 as [[]]].
  apply (vrun_send _ _ _ _ (mkGenericDDR drain_ready) (small_request 0 64 1) drain_sent.1.1 drain_sent.1.2);
    [apply vrun_refl|eapply drain_valid; [vm_compute; reflexivity..|lia|by left]|rewrite H1; by destruct drain_sent as [[]]].
Qed.

Lemma generic_ddr_drains_witness :
  drain_bound DDR4_std ddr4_drain (base drain_ticked) <= 700 /\
  exists k a', Z.of_nat k <= drain_bound DDR4_std ddr4_drain (base drain_ticked) /\ do_calls (repeat CTick k) drain_ticked = Ok a' /\
    drained (base a') /\ omap callback (c_done (base a')) ≡ₚ [1; 2].
Proof.
  assert (E : drain_bound DDR4_std ddr4_drain (base drain_ticked) <= 700) by (vm_compute; discriminate).
  split; [exact E|].
  destruct (generic_ddr_drains DDR4_std drain_cc ddr4_drain DDR4_in eq_refl ddr4_drain_ok spec_ok_drain org_ok_drain 1 0 drain_made drain_ready drain_ticked
    ltac:(lia) drain_made_ok drain_ready_ok drain_config_ok drain_run) as (k & a' & Hk & Hdo & Hdr & Hcb).
  - vm_compute. discriminate.
  - exists k, a'. split; [exact Hk|]. split; [exact Hdo|]. split; [exact Hdr|]. etrans; [exact Hcb|].
    assert (Ec : omap id_callback (pool [] (base drain_ticked)) ++ omap callback (c_pending (base drain_ticked)) ++
      omap callback (c_done (base drain_ticked)) = [1; 2]) by (vm_compute; reflexivity).
    by rewrite Ec.
Defined.
