(* ===== verification/HbmWitness.v ===== *)
(** * HbmWitness: a concrete HBM3 controller

    Two pseudo-channels, two stacks and two banks each, refreshed bank by
    bank: the first REFpbs the manager sends. *)
From stdpp Require Import prelude gmap strings.
From S2P Require Import Prelude DramSpec Commands Standards Node NodeTiming NodeTree Device DeviceInv DeviceProps BankSafety BankProgress IssueSafety Request BitUtils AddrMapper Float32 ControllerState Controller Refresh NodeAddr HbmRefresh RowPolicy ControllerInit GenericDdr ControllerSafety Hbm Lpddr5 Controllers ControllerTrace ServeSafety TickSafety RefreshOrder Bookkeeping ControllerWitness.
Open Scope Z_scope.

Definition cfg_hbm3 : dram_config :=
  mkCfg 64 8 [1; 2; 2; 1; 2; 16; 8] (replicate 29 10) 20
    [ mkRow 4 [0] [3; 4] 4 None None;       (* Bank: ACT -> RD, WR, nRCD *)
      mkRow 4 [1] [0] 5 None None;          (* Bank: PREpb -> ACT, nRP *)
      mkRow 1 [8] [8] 3 None None ].        (* PseudoChannel: REFpb -> REFpb, nRREFD *)

Definition hbm3_small : DRAMSpec := from_res ddr4_small (construct HBM3_std cfg_hbm3).

Lemma hbm3_small_ok : construct HBM3_std cfg_hbm3 = Ok hbm3_small.
Proof. apply from_res_Ok. vm_compute. reflexivity. Qed.

Lemma HBM3_in : In HBM3_std all_standards.
Proof. do 7 right. left. reflexivity. Qed.

Lemma org_ok_hbm3 : org_ok hbm3_small.
Proof.
  split.
  - vm_compute. reflexivity.
  - intros lvl sz H. assert (Forall (fun sz => 1 <= sz < 2 ^ 30) (level_sizes hbm3_small)) as HF.
    { change (level_sizes hbm3_small) with [1; 2; 2; 1; 2; 16; 8]. repeat constructor; lia. }
    exact (Forall_lookup_1 _ _ _ _ HF H).
  - vm_compute. split; [discriminate|reflexivity].
  - vm_compute. split; [discriminate|reflexivity].
  - intros sz H. change (Some 8 = Some sz) in H. injection H as <-. vm_compute. discriminate.
Qed.

Definition hbm3_config : controller_config :=
  mkCC "HBM3" cfg_hbm3 None None (Some 4) (Some 4) (Some 8) CfgHBM34PerBank CfgOpen MapRoBaRaCoCh [].

Definition hbm3_base : ControllerBase := from_res no_controller (init_base registry hbm3_config).

Lemma hbm3_base_ok : init_base registry hbm3_config = Ok hbm3_base.
Proof. apply from_res_Ok. vm_compute. reflexivity. Qed.

Lemma hbm3_dev_ok : init hbm3_small = Ok (c_device hbm3_base).
Proof. vm_compute. reflexivity. Qed.

Definition no_manager : HBM34PerBankRefresh := mkH34 0 0 0 0 0 0 0 0 0 0 0 0 0 0 0 0 [] [].
Definition hbm3_manager : HBM34PerBankRefresh := from_res no_manager (HBM34PerBankRefresh_init (c_device hbm3_base)).

Lemma hbm3_manager_ok : HBM34PerBankRefresh_init (c_device hbm3_base) = Ok hbm3_manager.
Proof. apply from_res_Ok. vm_compute. reflexivity. Qed.

(** A tick of the manager alone, at a given cycle of the controller. *)
Definition manager_of (c : ControllerBase) : HBM34PerBankRefresh :=
  match c_refresh c with HBM34PerBank r => r | _ => no_manager end.

Definition refresh_at (c : ControllerBase) (clk : Z) : ControllerBase :=
  from_res no_controller (HBM34PerBankRefresh_tick (manager_of c) (with_c_clk c clk)).

Definition hbm3_run (clks : list Z) : ControllerBase := fold_left refresh_at clks hbm3_base.
Definition hbm3_sent (clks : list Z) : list Request := buffer (c_priority_buffer (hbm3_run clks)).

Lemma hbm3_step clks clk :
  let c := hbm3_run clks in
  refpb_history HBM3_std hbm3_small hbm3_manager (hbm3_sent clks) (manager_of c) ->
  c_device c = c_device hbm3_base ->
  okb (HBM34PerBankRefresh_tick (manager_of c) (with_c_clk c clk)) = true ->
  c_refresh (refresh_at c clk) = HBM34PerBank (manager_of (refresh_at c clk)) ->
  hbm3_sent (clks ++ [clk]) = hbm3_sent clks ++ drop (length (hbm3_sent clks)) (hbm3_sent (clks ++ [clk])) ->
  refpb_history HBM3_std hbm3_small hbm3_manager (hbm3_sent (clks ++ [clk])) (manager_of (hbm3_run (clks ++ [clk]))).
Proof.
  intros c Hh Hd Hok Hr Hs. assert (E : hbm3_run (clks ++ [clk]) = refresh_at c clk) by (unfold hbm3_run; by rewrite fold_left_app).
  rewrite Hs, E. eapply (hist_tick _ _ _ _ (manager_of c) (with_c_clk c clk) (refresh_at c clk)); [exact Hh| |by apply from_res_Ok|exact Hr|].
  - change (c_device (with_c_clk c clk)) with (c_device c). rewrite Hd.
    exact (init_dev_ok HBM3_std cfg_hbm3 hbm3_small _ HBM3_in hbm3_small_ok hbm3_dev_ok).
  - rewrite <- E. exact Hs.
Qed.

Lemma hbm3_history : refpb_history HBM3_std hbm3_small hbm3_manager (hbm3_sent [10; 11; 20]) (manager_of (hbm3_run [10; 11; 20])).
Proof.
  apply (hbm3_step [10; 11] 20); [|vm_compute; reflexivity..].
  apply (hbm3_step [10] 11); [|vm_compute; reflexivity..].
  apply (hbm3_step [] 10); [|vm_compute; reflexivity..].
  assert (E : manager_of (hbm3_run []) = hbm3_manager) by (vm_compute; reflexivity). rewrite E. apply hist_nil.
Qed.

(** The third REFpb goes to the second bank of the first stack. *)
Lemma hbm34_refresh_round_robin_witness :
  exists x, hbm3_sent [10; 11; 20] !! 2%nat = Some x /\ addr_vec x = [0; 0; 0; 0; 1; -1; -1] /\
    refpb_at HBM3_std hbm3_small hbm3_manager 2 x /\ ref_pos hbm3_manager 2 = (0, 0, 1) /\ round_length hbm3_manager = 8.
Proof.
  destruct (hbm34_refresh_round_robin HBM3_std cfg_hbm3 hbm3_small (c_device hbm3_base) hbm3_manager _ _
    HBM3_in hbm3_small_ok org_ok_hbm3 hbm3_dev_ok hbm3_manager_ok hbm3_history) as (Hat & _).
  assert (E : exists x, hbm3_sent [10; 11; 20] !! 2%nat = Some x /\ addr_vec x = [0; 0; 0; 0; 1; -1; -1])
    by (eexists; split; vm_compute; reflexivity).
  destruct E as (x & Hx & Ha). exists x. split; [exact Hx|]. split; [exact Ha|]. split; [exact (Hat _ _ Hx)|].
  split; vm_compute; reflexivity.
Defined.
