(* ===== verification/LpWitness.v ===== *)
(** * LpWitness: a concrete LPDDR5 controller

    The LPDDR5-6400 preset of [python/ramulator/dram/lpddr5.py], its table
    of timing constraints in full (the bus occupancy row first), on four
    banks: a read runs from its ACT1 to its access. *)
From stdpp Require Import prelude gmap strings.
From S2P Require Import Prelude DramSpec Commands Standards Node NodeTiming NodeTree Device DeviceInv DeviceProps BankSafety BankProgress IssueSafety Request BitUtils AddrMapper Float32 ControllerState Controller Refresh NodeAddr HbmRefresh RowPolicy ControllerInit GenericDdr ControllerSafety Hbm Lpddr5 Controllers ControllerTrace Settle ServeSafety TickSafety Bookkeeping ServeFrame ActiveInv LpInv LpSafety SafeControllers ControllerWitness.
Open Scope Z_scope.

Definition cfg_lp5 : dram_config :=
  mkCfg 16 16 [1; 1; 2; 2; 16; 64]
    [6400; 2; 17; 15; 15; 17; 34; 49; 28; 8; 9; 2; 2; 4; 2; 4; 4; 4; 5; 10; 16; 168; 96; 3125; 391; 1; 0; 8; 2; 1250] 19
    [ mkRow 0 [0; 1; 2; 3; 4; 5; 6; 7; 8; 9; 10; 11] [0; 1; 2; 3; 4; 5; 6; 7; 8; 9; 10; 11] 1 None None;
      mkRow 0 [6; 8] [6; 8] 2 None None;
      mkRow 0 [7; 9] [7; 9] 2 None None;
      mkRow 3 [4] [6; 8] 0 None None;
      mkRow 3 [5] [7; 9] 0 None None;
      mkRow 1 [6; 8] [6; 8] 2 None None;
      mkRow 1 [7; 9] [7; 9] 2 None None;
      mkRow 1 [6; 8] [7; 9] 12 None None;
      mkRow 1 [7; 9] [6; 8] 16 None None;
      mkRow 1 [6; 8] [6; 8; 7; 9] 4 (Some 1) (Some true);
      mkRow 1 [7; 9] [6; 8] 12 (Some 1) (Some true);
      mkRow 1 [6] [3] 8 None None;
      mkRow 1 [7] [3] 39 None None;
      mkRow 1 [0] [0] 4 None None;
      mkRow 1 [0] [0] 16 (Some 4) None;
      mkRow 1 [0] [3] 34 None None;
      mkRow 1 [3] [0] 17 None None;
      mkRow 1 [2; 3] [2; 3] 2 None None;
      mkRow 1 [0] [10] 49 None None;
      mkRow 1 [2; 3] [10] 15 None None;
      mkRow 1 [8] [10] 23 None None;
      mkRow 1 [9] [10] 54 None None;
      mkRow 1 [10] [0; 3] 168 None None;
      mkRow 2 [6; 8] [6; 8] 4 None None;
      mkRow 2 [7; 9] [7; 9] 4 None None;
      mkRow 2 [7; 9] [6; 8] 21 None None;
      mkRow 2 [0] [0] 4 None None;
      mkRow 3 [0] [0] 49 None None;
      mkRow 3 [0] [6; 8; 7; 9] 15 None None;
      mkRow 3 [0] [2] 34 None None;
      mkRow 3 [2] [0] 15 None None;
      mkRow 3 [6] [2] 8 None None;
      mkRow 3 [7] [2] 39 None None;
      mkRow 3 [8] [0] 23 None None;
      mkRow 3 [9] [0] 54 None None;
      mkRow 3 [11] [0] 96 None None;
      mkRow 3 [0] [11] 49 None None;
      mkRow 3 [2] [11] 15 None None ].

Definition lp5_small : DRAMSpec := from_res ddr4_small (construct LPDDR5_std cfg_lp5).

Lemma lp5_small_ok : construct LPDDR5_std cfg_lp5 = Ok lp5_small.
Proof. apply from_res_Ok. vm_compute. reflexivity. Qed.

Lemma spec_ok_lp5 : spec_ok lp5_small.
Proof.
  apply spec_ok_check; [|vm_compute; reflexivity].
  destruct (standard_static LPDDR5_std cfg_lp5 lp5_small) as (C & _); [exact LPDDR5_in|exact lp5_small_ok|]. exact (con_loaded _ _ C).
Qed.

Lemma org_ok_lp5 : org_ok lp5_small.
Proof.
  split.
  - vm_compute. reflexivity.
  - intros lvl sz H. assert (Forall (fun sz => 1 <= sz < 2 ^ 30) (level_sizes lp5_small)) as HF.
    { change (level_sizes lp5_small) with [1; 1; 2; 2; 16; 64]. repeat constructor; lia. }
    exact (Forall_lookup_1 _ _ _ _ HF H).
  - vm_compute. split; [discriminate|reflexivity].
  - vm_compute. split; [discriminate|reflexivity].
  - intros sz H. change (Some 64 = Some sz) in H. injection H as <-. vm_compute. discriminate.
Qed.

Definition lp5_config : controller_config :=
  mkCC "LPDDR5" cfg_lp5 None None (Some 4) (Some 4) (Some 8) CfgAllBank CfgOpen MapRoBaRaCoCh [].

(** The preset meets what the controller assumes. *)
Lemma lp5_config_ok : lp_config lp5_small lp5_config.
Proof.
  split; [vm_compute; reflexivity| |reflexivity|vm_compute; reflexivity].
  intros k Hk. assert (E : get_timing_value lp5_small "nAAD" = Ok 8) by (vm_compute; reflexivity). rewrite E in Hk. injection Hk as <-. lia.
Qed.

Definition lp5_made : controller := from_res small_made (make_controller registry ClsLPDDR5 lp5_config).
Definition lp5_base : ControllerBase := from_res no_controller (setup_controller lp5_config 1 0 (base lp5_made)).
Definition lp5_ready : controller := set_base lp5_made lp5_base.

Lemma lp5_made_ok : make_controller registry ClsLPDDR5 lp5_config = Ok lp5_made.
Proof. apply from_res_Ok. vm_compute. reflexivity. Qed.

Lemma lp5_base_ok : setup_controller lp5_config 1 0 (base lp5_made) = Ok lp5_base.
Proof. apply from_res_Ok. vm_compute. reflexivity. Qed.

Lemma lp5_valid c a ty :
  am_impl (c_mapper c) = MapRoBaRaCoCh ->
  capacity (am_base (c_mapper c)) (order_RoBaRaCoCh (am_base (c_mapper c))) = 8192 ->
  0 <= a < 8192 -> ty = Type_Read \/ ty = Type_Write -> valid_request LPDDR5_std lp5_small 1 c (small_request ty a 1).
Proof. intros Hi Hcap Ha Ht. split; [exact Ht|by left|]. unfold addressable. rewrite Hi, Hcap. exact Ha. Qed.

Definition lp5_sent : bool * Request * controller :=
  from_res (false, Request_default, lp5_made) (ctl_send lp5_ready (small_request 0 64 1)).

Definition lp5_ticks (k : nat) : res controller := foldM (fun a _ => controller_tick a) (seq 0 k) lp5_sent.2.
Definition lp5_run : controller := from_res lp5_made (lp5_ticks 20).

Lemma ticks_valid {A} `{IController A} d s n (a0 : A) ks : forall a a',
  valid_run d s n a0 a -> foldM (fun a (_ : nat) => ctl_tick a) ks a = Ok a' -> valid_run d s n a0 a'.
Proof.
  induction ks as [|k ks IH]; intros a a' Hr Hf; cbn in Hf; [by injection Hf as <-|].
  apply bind_Ok_inv in Hf as (a1 & H1 & Hf). apply (IH a1); [|done]. by eapply vrun_tick.
Qed.

Lemma lp5_valid_run : valid_run LPDDR5_std lp5_small 1 lp5_ready lp5_run.
Proof.
  apply (ticks_valid _ _ _ _ (seq 0 20) lp5_sent.2); [|apply from_res_Ok; vm_compute; reflexivity].
  apply (vrun_send _ _ _ _ lp5_ready (small_request 0 64 1) lp5_sent.1.1 lp5_sent.1.2); [apply vrun_refl|..].
  - apply lp5_valid; [vm_compute; reflexivity..|lia|by left].
  - assert (H : ctl_send lp5_ready (small_request 0 64 1) = Ok lp5_sent) by (apply from_res_Ok; vm_compute; reflexivity).
    rewrite H. by destruct lp5_sent as [[]].
Qed.

