(* ===== verification/SystemProps.v ===== *)
(** * SystemProps: the memory system conserves requests

    Histories of a [GenericDRAMSystem]: every channel sees a history of its
    own controller, requests go to the channel the mapper chose and to no
    other, and no response is lost between the channels. *)
From stdpp Require Import prelude gmap strings.
From S2P Require Import Prelude DramSpec Standards Device Request BitUtils AddrMapper ChannelMapper Float32 ControllerState Controller Refresh RowPolicy ControllerInit GenericDdr Hbm Lpddr5 Controllers MemSystem ControllerTrace Bookkeeping ControllerWitness.
Open Scope Z_scope.

(** ** Any controller class *)
Definition controller_elsewhere (a : controller) : list rid :=
  match a with
  | CtlGenericDDR a => elsewhere a
  | CtlHBM12 a => elsewhere a
  | CtlHBM34 a => elsewhere a
  | CtlLPDDR5 a => elsewhere a
  end.

#[local] Strategy opaque [GenericDDR_tick HBM_tick HBM34_tick LPDDR5_tick].

#[export, refine] Instance any_book : BookController controller := { elsewhere := controller_elsewhere }.
Proof.
  - by intros [a|a|a|a] c.
  - intros cbs [a|a|a|a] a' B H; cbn [ctl_tick any_controller controller_tick] in H; apply fmap_Ok_inv in H as (x & H & <-).
    + exact (tick_book (A := GenericDDRController) cbs a x B H).
    + exact (tick_book (A := HBM12Controller) cbs a x B H).
    + exact (tick_book (A := HBM34Controller) cbs a x B H).
    + exact (tick_book (A := LPDDR5Controller) cbs a x B H).
Defined.

(** ** Histories of the system *)
Inductive sys_served (y0 : GenericDRAMSystem) : list Request -> GenericDRAMSystem -> Prop :=
| sys_refl : sys_served y0 [] y0
| sys_send acc y req ok req' cbs y' :
    sys_served y0 acc y -> mem_send y req = Ok (ok, req', cbs, y') -> sys_served y0 (if ok then req :: acc else acc) y'
| sys_tick acc y cbs y' : sys_served y0 acc y -> mem_tick y = Ok (cbs, y') -> sys_served y0 acc y'.

(** Mapping a request keeps what identifies it. *)
Lemma chm_apply_ident m req req' : chm_apply m req = Ok req' ->
  callback req' = callback req /\ type_id req' = type_id req /\ addr req' = addr req.
Proof.
  destruct m as [m|]; cbn [chm_apply]; [|by intros [= <-]].
  unfold CacheLineInterleave_apply. cbn zeta. intros H. dcase H; inv_res; subst; done.
Qed.

(** What [send] of a controller does to the type of a request: nothing. *)
Lemma ctrl_send_type c req ok req' c' : ctrl_send c req = Ok (ok, req', c') -> type_id req' = type_id req.
Proof.
  unfold ctrl_send. intros (r1 & H1 & (av & _ & (fc & _ & H)%bind_Ok_inv)%bind_Ok_inv)%bind_Ok_inv.
  assert (Ht : type_id r1 = type_id req).
  { unfold mapper_apply in H1. destruct (am_impl (c_mapper c));
      [unfold ChRaBaRoCo_apply in H1|unfold RoBaRaCoCh_apply in H1|unfold MOP4CLXOR_apply in H1|by injection H1 as <-];
      inv_res; subst; done. }
  rewrite <- Ht. repeat dcase H; try discriminate; try (by injection H as <- <- <-);
    destruct (enqueue _ _) as [[] b]; by injection H as <- <- <-.
Qed.

(** ** Routing *)
Record routed (y : GenericDRAMSystem) (req : Request) (ok : bool) (req' : Request) (y' : GenericDRAMSystem) : Prop := {
  rt_size : 0 < size_bytes req <= y_tx_bytes y;
  rt_frame : y_channel_mapper y' = y_channel_mapper y /\ y_clock_ratio y' = y_clock_ratio y /\ y_tx_bytes y' = y_tx_bytes y;
  rt_step : exists req1 ch a a', chm_apply (y_channel_mapper y) req = Ok req1 /\ vget (addr_vec req1) 0 = Ok (Z.of_nat ch) /\
    y_controllers y !! ch = Some a /\ ctl_send a req1 = Ok (ok, req', a') /\ y_controllers y' = <[ch := a']> (y_controllers y);
  rt_reads : y_num_read_requests y' = y_num_read_requests y + (if ok && (type_id req =? Type_Read) then 1 else 0);
  rt_writes : y_num_write_requests y' = y_num_write_requests y + (if ok && (type_id req =? Type_Write) then 1 else 0);
  rt_reads_fit : y_num_read_requests y < 2 ^ 31 -> y_num_read_requests y' < 2 ^ 31;
  rt_writes_fit : y_num_write_requests y < 2 ^ 31 -> y_num_write_requests y' < 2 ^ 31
}.

(** What counting does: the frame, the two counters, or an overflow. *)
Lemma count_sent_ends y req :
  ends (fun e => e = UndefinedBehaviour /\
          (type_id req = Type_Read /\ ~ - 2 ^ 31 <= y_num_read_requests y + 1 < 2 ^ 31 \/
           type_id req = Type_Write /\ ~ - 2 ^ 31 <= y_num_write_requests y + 1 < 2 ^ 31))
    (count_sent y req) (fun y' =>
      y_channel_mapper y' = y_channel_mapper y /\ y_clock_ratio y' = y_clock_ratio y /\ y_tx_bytes y' = y_tx_bytes y /\
      y_controllers y' = y_controllers y /\
      y_num_read_requests y' = y_num_read_requests y + (if type_id req =? Type_Read then 1 else 0) /\
      y_num_write_requests y' = y_num_write_requests y + (if type_id req =? Type_Write then 1 else 0) /\
      (y_num_read_requests y < 2 ^ 31 -> y_num_read_requests y' < 2 ^ 31) /\
      (y_num_write_requests y < 2 ^ 31 -> y_num_write_requests y' < 2 ^ 31)).
Proof.
  unfold count_sent, add_int. destruct (Z.eqb_spec (type_id req) Type_Read) as [Hr|Hr].
  - destruct (int_res _) as [x|e] eqn:Hx; cbn [mbind res_bind ends].
    + apply int_res_Ok in Hx as [-> ?]. cbn. rewrite Hr. cbn. split_and!; try done; lia.
    + unfold int_res in Hx. dcase Hx; [done|]. injection Hx as <-. split; [done|]. left. split; [done|].
      apply andb_false_iff in Ec. destruct Ec; bool_hyps; lia.
  - destruct (Z.eqb_spec (type_id req) Type_Write) as [Hw|Hw]; [|cbn; split_and!; try done; lia].
    destruct (int_res _) as [x|e] eqn:Hx; cbn [mbind res_bind ends].
    + apply int_res_Ok in Hx as [-> ?]. cbn. split_and!; try done; lia.
    + unfold int_res in Hx. dcase Hx; [done|]. injection Hx as <-. split; [done|]. right. split; [done|].
      apply andb_false_iff in Ec. destruct Ec; bool_hyps; lia.
Qed.

Lemma send_routed y req ok req' cbs y' : GenericDRAM_send y req = Ok (ok, req', cbs, y') -> routed y req ok req' y'.
Proof.
  unfold GenericDRAM_send. intros H. dcase H; [discriminate|]. bool_hyps.
  apply bind_Ok_inv in H as (req1 & Hm & H). apply bind_Ok_inv in H as (ch & Hch & H). apply bind_Ok_inv in H as (a & Ha & H).
  apply bind_Ok_inv in H as ([[k r] a'] & Hs & H). cbn zeta in H. apply bind_Ok_inv in H as (y1 & Hy1 & H). injection H as <- <- _ <-.
  assert (Ht : type_id r = type_id req).
  { unfold ctl_send in Hs. apply bind_Ok_inv in Hs as ([[k1 r1] c1] & Hs & [= _ <- _]).
    rewrite (ctrl_send_type _ _ _ _ _ Hs). by apply (chm_apply_ident _ _ _ Hm). }
  pose proof Ha as Ha'. apply vget_Ok in Ha' as [Hpos Hl].
  assert (Hstep : exists req1 i a0 a1, chm_apply (y_channel_mapper y) req = Ok req1 /\ vget (addr_vec req1) 0 = Ok (Z.of_nat i) /\
    y_controllers y !! i = Some a0 /\ ctl_send a0 req1 = Ok (k, r, a1) /\ <[Z.to_nat ch := a']> (y_controllers y) = <[i := a1]> (y_controllers y)).
  { exists req1, (Z.to_nat ch), a, a'. rewrite Z2Nat.id by lia. by split_and!. }
  destruct k.
  - pose proof (count_sent_ends (with_controllers y (<[Z.to_nat ch := a']> (y_controllers y))) r) as Hc. rewrite Hy1 in Hc.
    cbn in Hc. rewrite Ht in Hc. destruct Hc as (Hc1 & Hc2 & Hc3 & Hc4 & Hc5 & Hc6 & Hc7 & Hc8). split; try done; first [lia | by rewrite Hc4].
  - injection Hy1 as <-. split; cbn; try done; lia.
Qed.

(** ** Conservation over the channels *)

(** Channel by channel: the requests accepted there. *)
Record channels (y0 : GenericDRAMSystem) (acc : list Request) (accs : list (list Request)) (y : GenericDRAMSystem) : Prop := {
  cn_served : forall i a0 a l, y_controllers y0 !! i = Some a0 -> y_controllers y !! i = Some a -> accs !! i = Some l ->
    served a0 l a;
  cn_length : length (y_controllers y) = length (y_controllers y0) /\ length accs = length (y_controllers y0);
  cn_callbacks : omap callback acc ≡ₚ concat (map (omap callback) accs);
  cn_reads : y_num_read_requests y = y_num_read_requests y0 + Z.of_nat (count (fun r => type_id r =? Type_Read) acc);
  cn_writes : y_num_write_requests y = y_num_write_requests y0 + Z.of_nat (count (fun r => type_id r =? Type_Write) acc);
  cn_fit : y_num_read_requests y0 < 2 ^ 31 -> y_num_write_requests y0 < 2 ^ 31 ->
    y_num_read_requests y < 2 ^ 31 /\ y_num_write_requests y < 2 ^ 31
}.

Lemma concat_insert {A} (ls : list (list A)) i l (x : A) :
  ls !! i = Some l -> concat (<[i := x :: l]> ls) ≡ₚ x :: concat ls.
Proof.
  revert i. induction ls as [|k ls IH]; intros [|i] H; cbn in H; try done; cbn.
  - by injection H as ->.
  - rewrite (IH i H). by rewrite Permutation_middle.
Qed.

Lemma map_insert {A B} (f : A -> B) (l : list A) i x : map f (<[i := x]> l) = <[i := f x]> (map f l).
Proof. exact (list_fmap_insert f l i x). Qed.

Lemma omap_callback_cons r l : omap callback (r :: l) = match callback r with Some k => [k] | None => [] end ++ omap callback l.
Proof. cbn. by destruct (callback r). Qed.

Lemma channels_send y0 acc accs y req ok req' cbs y' :
  channels y0 acc accs y -> GenericDRAM_send y req = Ok (ok, req', cbs, y') ->
  exists accs', channels y0 (if ok then req :: acc else acc) accs' y'.
Proof.
  intros C Hs. destruct (send_routed _ _ _ _ _ _ Hs) as [_ _ (req1 & ch & a & a' & Hm & Hch & Ha & Hsd & Hy) Hrd Hwr Hrf Hwf].
  destruct C as [C1 [C2 C2'] C3 C4 C5 C6]. destruct (chm_apply_ident _ _ _ Hm) as (Hcb & Hty & _).
  pose proof (lookup_lt_Some _ _ _ Ha) as Hlt.
  destruct (lookup_lt_is_Some_2 accs ch) as [l Hl]; [lia|].
  destruct (lookup_lt_is_Some_2 (y_controllers y0) ch) as [a0 Ha0]; [lia|].
  exists (if ok then <[ch := req1 :: l]> accs else accs). split.
  - intros i b0 b k Hb0 Hb Hk. rewrite Hy in Hb. destruct (decide (i = ch)) as [->|Hne].
    + rewrite list_lookup_insert_eq in Hb by lia. injection Hb as <-.
      replace k with (if ok then req1 :: l else l).
      * eapply served_send; [by eapply C1|exact Hsd].
      * destruct ok; [rewrite list_lookup_insert_eq in Hk by lia|]; congruence.
    + rewrite list_lookup_insert_ne in Hb by done. eapply C1; try done. destruct ok; [|done]. by rewrite list_lookup_insert_ne in Hk by done.
  - rewrite Hy, length_insert. split; [done|]. destruct ok; [by rewrite length_insert|done].
  - destruct ok; [|done]. rewrite omap_callback_cons, <- Hcb, C3, map_insert.
    assert (Hml : map (omap callback) accs !! ch = Some (omap callback l)) by (rewrite list_lookup_fmap, Hl; done).
    rewrite omap_callback_cons. destruct (callback req1) as [k|]; cbn [app].
    + by rewrite (concat_insert _ _ _ _ Hml).
    + rewrite (list_insert_id _ _ _ Hml). done.
  - rewrite Hrd, C4. destruct ok; cbn [andb]; [rewrite count_cons|]; [|lia]. destruct (type_id req =? Type_Read); lia.
  - rewrite Hwr, C5. destruct ok; cbn [andb]; [rewrite count_cons|]; [|lia]. destruct (type_id req =? Type_Write); lia.
  - intros H0r H0w. destruct (C6 H0r H0w). split; [by apply Hrf|by apply Hwf].
Qed.

Lemma channels_tick y0 acc accs y cbs y' :
  channels y0 acc accs y -> GenericDRAM_tick y = Ok (cbs, y') -> channels y0 acc accs y'.
Proof.
  intros [C1 [C2 C2'] C3 C4 C5 C6]. unfold GenericDRAM_tick. intros (l & Hl & [= _ <-])%bind_Ok_inv. apply mapM_Ok in Hl.
  split; cbn; try done.
  - intros i a0 a k Ha0 Ha Hk. destruct (Forall2_lookup_r _ _ _ _ _ Hl Ha) as (b & Hb & Ht).
    eapply served_tick; [by eapply C1|exact Ht].
  - split; [|done]. by rewrite <- (Forall2_length _ _ _ Hl).
Qed.

Lemma sys_served_channels y0 acc y : sys_served y0 acc y -> exists accs, channels y0 acc accs y.
Proof.
  induction 1 as [|acc y req ok req' cbs y' _ [accs IH] Hs|acc y cbs y' _ [accs IH] Ht].
  - exists (replicate (length (y_controllers y0)) []). split; try done.
    + intros i a0 a l H0 H1 Hl. rewrite H0 in H1. injection H1 as <-. apply lookup_replicate in Hl as [-> _]. apply served_refl.
    + by rewrite length_replicate.
    + induction (length (y_controllers y0)); cbn; done.
    + cbn. lia.
    + cbn. lia.
  - by eapply channels_send.
  - exists accs. by eapply channels_tick.
Qed.

(** The counters of a system that starts with none stay within [int]. *)
Lemma counts_fit y0 acc y :
  sys_served y0 acc y -> y_num_read_requests y0 = 0 -> y_num_write_requests y0 = 0 ->
  0 <= y_num_read_requests y < 2 ^ 31 /\ 0 <= y_num_write_requests y < 2 ^ 31.
Proof. intros [accs [_ _ _ C4 C5 C6]]%sys_served_channels Hr Hw. lia. Qed.

(** The callbacks a controller still owes or has called. *)
Definition owed (a : controller) : list Z :=
  omap id_callback (pool (elsewhere a) (base a)) ++ omap callback (c_pending (base a)) ++ omap callback (c_done (base a)).

Lemma served_owed (a0 a : controller) acc : idle a0 -> served a0 acc a -> owed a ≡ₚ omap callback acc.
Proof. intros Hi Hs. apply (ac_callbacks _ _ _ _ _ (bk_accounts _ _ _ (served_book _ _ _ Hi Hs))). Qed.

(** ** Properties *)

(** C22: Composition of the channels: from idle controllers and counters at 0, after any
    interleaving of GenericDRAMSystem::send and tick calls that return, the callbacks
    the channels owe or have called are, as a multiset over all channels, those of the
    requests the system accepted, and the system's read and write counters, which are
    int, are the numbers of accepted reads and writes and below 2^31 (a history that
    reaches 2^31 has no result: the increment overflows). *)
Theorem system_conserves_requests y0 acc y :
  Forall idle (y_controllers y0) -> y_num_read_requests y0 = 0 -> y_num_write_requests y0 = 0 -> sys_served y0 acc y ->
  concat (map owed (y_controllers y)) ≡ₚ omap callback acc /\
  y_num_read_requests y = Z.of_nat (count (fun r => type_id r =? Type_Read) acc) /\
  y_num_write_requests y = Z.of_nat (count (fun r => type_id r =? Type_Write) acc) /\
  y_num_read_requests y < 2 ^ 31 /\ y_num_write_requests y < 2 ^ 31.
Proof.
  intros Hi Hr Hw Hs. destruct (sys_served_channels _ _ _ Hs) as [accs [C1 [C2 C2'] C3 C4 C5 C6]].
  split; [|lia]. rewrite C3. assert (HF : Forall2 (fun a l => owed a ≡ₚ omap callback l) (y_controllers y) accs).
  { apply Forall2_same_length_lookup_2; [lia|]. intros i a l Ha Hl.
    destruct (lookup_lt_is_Some_2 (y_controllers y0) i) as [a0 Ha0]; [apply lookup_lt_Some in Ha; lia|].
    eapply served_owed; [|by eapply C1]. by apply (Forall_lookup_1 _ _ _ _ Hi Ha0). }
  clear - HF. induction HF as [|a l ys ls H1 _ IH]; cbn; [done|]. by rewrite H1, IH.
Qed.

(** C23: GenericDRAMSystem::send on a system set up by init with cache line
    interleaving, after any history: the size is invalid and it throws; or the
    controller its address selects fails; or the request reaches that controller (the
    channel index never leaves the vector), the other channels do not change, and it is
    counted exactly if that controller accepts it; or the int counter of its type stands
    at 2^31 - 1 and the increment overflows. *)
Theorem memory_send_routes m0 m ctls y0 ratio acc y req :
  m = CMInterleave m0 -> 0 <= m_interleave_bits m0 <= 16 -> Z.of_nat (length ctls) < 2 ^ 31 ->
  (forall a, In a ctls -> 1 <= ctrl_get_tx_bytes (base a) < 2 ^ 16) ->
  GenericDRAM_init ratio m ctls = Ok y0 -> sys_served y0 acc y -> 0 <= addr req < 2 ^ 63 ->
  match GenericDRAM_send y req with
  | Ok (ok, req', _, y') => routed y req ok req' y'
  | Err e =>
      (e = Throw "Request size_bytes must be set by the frontend" /\ ~ 0 < size_bytes req <= y_tx_bytes y) \/
      (exists req1 ch a, chm_apply (y_channel_mapper y) req = Ok req1 /\ y_controllers y !! ch = Some a /\ ctl_send a req1 = Err e) \/
      (e = UndefinedBehaviour /\
       (type_id req = Type_Read /\ y_num_read_requests y = 2 ^ 31 - 1 \/
        type_id req = Type_Write /\ y_num_write_requests y = 2 ^ 31 - 1))
  end.
Proof.
  intros -> Hib Hlen Htx Hinit Hs Ha. destruct (GenericDRAM_send y req) as [[[[ok req'] cbs] y']|e] eqn:E; [by eapply send_routed|].
  destruct (sys_served_channels _ _ _ Hs) as [accs [_ [C2 _] _ _ _ _]].
  assert (Hfr : y_channel_mapper y = y_channel_mapper y0).
  { clear -Hs. induction Hs as [|acc y req ok req' cbs y' _ IH Hsd|acc y cbs y' _ IH Ht]; [done|..].
    - destruct (send_routed _ _ _ _ _ _ Hsd) as [_ (-> & _) _ _ _ _ _]. done.
    - cbn in Ht. unfold GenericDRAM_tick in Ht. apply bind_Ok_inv in Ht as (l & _ & [= _ <-]). done. }
  unfold GenericDRAM_init in Hinit. destruct ctls as [|a0 rest] eqn:Ec; [discriminate|]. rewrite <- Ec in *.
  apply bind_Ok_inv in Hinit as (off & Hoff & Hinit). apply bind_Ok_inv in Hinit as (m & Hm & [= <-]). cbn in C2, Hfr.
  pose proof (Htx a0 ltac:(rewrite Ec; by left)) as Ht0. rewrite calc_log2_ok in Hoff by lia. injection Hoff as <-.
  cbn [chm_setup] in Hm. apply fmap_Ok_inv in Hm as (m1 & Hm1 & <-).
  assert (Hlog : 0 <= Z.log2 (ctrl_get_tx_bytes (base a0)) < 16) by (split; [apply Z.log2_nonneg|apply Z.log2_lt_pow2; lia]).
  assert (Hmap : exists av i, CacheLineInterleave_apply m1 req = Ok (set_intra (set_addr_vec req av) i) /\
      exists ch, vget av 0 = Ok ch /\ 0 <= ch < Z.of_nat (length ctls)).
  { destruct (setup_apply m0 (Z.of_nat (length ctls)) (Z.log2 (ctrl_get_tx_bytes (base a0))) m1) as [Hap _];
      [rewrite Ec in *; cbn [length] in *; lia|lia|done|].
    destruct (Hap req Ha) as (av & i & H1 & ch & H2 & H3 & _). exists av, i. eauto. }
  destruct Hmap as (av & i & Hap & ch & Hch & Hr). unfold GenericDRAM_send in E. destruct ((size_bytes req <=? 0) || _) eqn:Es.
  { left. injection E as <-. split; [done|]. apply orb_true_iff in Es. intros Hsz. destruct Es; bool_hyps; lia. }
  right. rewrite Hfr in E |- *. cbn [chm_apply] in E |- *. rewrite Hap in E. cbn [mbind res_bind addr_vec set_intra set_addr_vec] in E.
  rewrite Hch in E. cbn [mbind res_bind] in E.
  destruct (proj2 (vget_is_Ok (y_controllers y) ch)) as [a Hga]; [rewrite C2, length_imap; lia|].
  rewrite Hga in E. cbn [mbind res_bind] in E. apply vget_Ok in Hga as [_ Hga].
  destruct (ctl_send a _) as [[[k r] a']|e'] eqn:Esd; cbn [mbind res_bind] in E.
  { right. destruct k; [|discriminate]. destruct (counts_fit _ _ _ Hs) as (Hr1 & Hw1); [done|done|].
    pose proof (count_sent_ends (with_controllers y (<[Z.to_nat ch := a']> (y_controllers y))) r) as Hc.
    destruct (count_sent _ _) as [y1|e1]; [discriminate|]. injection E as <-. cbn in Hc.
    assert (Ht : type_id r = type_id req).
    { unfold ctl_send in Esd. apply bind_Ok_inv in Esd as ([[k1 r1] c1] & Hsd & [= _ <- _]). by rewrite (ctrl_send_type _ _ _ _ _ Hsd). }
    rewrite Ht in Hc. destruct Hc as [-> [[? ?]|[? ?]]]; split; try done; [left|right]; (split; [done|lia]). }
  left. exists (set_intra (set_addr_vec req av) i), (Z.to_nat ch), a.
  split_and!; [done|done|]. by injection E as <-.
Qed.

(** ** A system of two channels *)
Definition small_ctl : controller :=
  from_res (CtlGenericDDR (mkGenericDDR no_controller)) (make_controller registry ClsGenericDDR small_config).

Definition two_mapper : channel_mapper := CMInterleave (CacheLineInterleave_init None).

Definition two_channels : GenericDRAMSystem :=
  from_res (mkSys CMPassThrough [] 0 0 0 0) (GenericDRAM_init 1 two_mapper [small_ctl; small_ctl]).

Definition sys_step (st : list Request * GenericDRAMSystem) (k : option Request) : res (list Request * GenericDRAMSystem) :=
  match k with
  | Some req => p ← mem_send st.2 req; let '(ok, _, _, y) := p in Ok (if (ok : bool) then req :: st.1 else st.1, y)
  | None => p ← mem_tick st.2; Ok (st.1, p.2)
  end.

Lemma sys_steps_served y0 ks : forall st st',
  sys_served y0 st.1 st.2 -> foldM sys_step ks st = Ok st' -> sys_served y0 st'.1 st'.2.
Proof.
  intros st st' Hs Hf. refine (foldM_inv (fun st => sys_served y0 st.1 st.2) _ _ _ _ _ Hs Hf).
  intros k [acc y] s' _ Ha Hk. destruct k as [req|]; cbn [sys_step fst snd] in Hk.
  - apply bind_Ok_inv in Hk as ([[[ok r] cbs] y1] & Hk & [= <-]). by eapply sys_send.
  - apply bind_Ok_inv in Hk as ([cbs y1] & Hk & [= <-]). by eapply sys_tick.
Qed.

Definition two_request (type a cb : Z) : Request := set_size (Request_src a type (-1) (Some cb)) 64.

(** Two reads and two writes spread over both channels, then time to finish. *)
Definition two_calls : list (option Request) :=
  [Some (two_request 0 0 1); Some (two_request 0 64 2); Some (two_request 1 128 3); Some (two_request 1 192 4)] ++
  repeat None 40.

Definition two_run : list Request * GenericDRAMSystem :=
  from_res ([], two_channels) (foldM sys_step two_calls ([], two_channels)).

Lemma two_served : sys_served two_channels two_run.1 two_run.2.
Proof.
  apply (sys_steps_served two_channels two_calls ([], two_channels)); [apply sys_refl|].
  apply from_res_Ok. vm_compute. reflexivity.
Qed.

Lemma two_idle : Forall idle (y_controllers two_channels).
Proof.
  assert (Hi : forall a, a = set_channel 0 small_ctl \/ a = set_channel 1 small_ctl -> idle a).
  { intros a [-> | ->]; (split; [intros []; (split; [vm_compute; reflexivity|vm_compute; discriminate])|];
      split; [|split; [|split; [|split]]]; vm_compute; reflexivity). }
  assert (E : y_controllers two_channels = [set_channel 0 small_ctl; set_channel 1 small_ctl]) by (vm_compute; reflexivity).
  rewrite E. constructor; [apply Hi; by left|]. constructor; [apply Hi; by right|constructor].
Qed.

(** All four callbacks have been called, two on each channel. *)
Lemma system_conserves_requests_witness :
  concat (map owed (y_controllers two_run.2)) ≡ₚ [4; 3; 2; 1] /\
  y_num_read_requests two_run.2 = 2 /\ map (fun a => length (c_done (base a))) (y_controllers two_run.2) = [2; 2]%nat.
Proof.
  destruct (system_conserves_requests two_channels two_run.1 two_run.2 two_idle) as (H1 & H2 & _);
    [vm_compute; reflexivity|vm_compute; reflexivity|exact two_served|].
  split; [|split; [rewrite H2; vm_compute; reflexivity|vm_compute; reflexivity]].
  rewrite H1. vm_compute. reflexivity.
Defined.

Lemma memory_send_routes_witness :
  match GenericDRAM_send two_run.2 (two_request 0 64 5) with
  | Ok (ok, req', _, y') => routed two_run.2 (two_request 0 64 5) ok req' y'
  | Err e => False
  end.
Proof.
  assert (Hin : forall a, In a [small_ctl; small_ctl] -> 1 <= ctrl_get_tx_bytes (base a) < 2 ^ 16).
  { assert (E : ctrl_get_tx_bytes (base small_ctl) = 64) by (vm_compute; reflexivity).
    intros a [<-|[<-|[]]]; rewrite E; lia. }
  assert (Hi : GenericDRAM_init 1 two_mapper [small_ctl; small_ctl] = Ok two_channels) by (apply from_res_Ok; vm_compute; reflexivity).
  pose proof (memory_send_routes (CacheLineInterleave_init None) two_mapper [small_ctl; small_ctl] two_channels 1 _ _
    (two_request 0 64 5) eq_refl ltac:(cbn; lia) ltac:(cbn; lia) Hin Hi two_served ltac:(cbn; lia)) as H.
  assert (Hok : okb (GenericDRAM_send two_run.2 (two_request 0 64 5)) = true) by (vm_compute; reflexivity).
  destruct (GenericDRAM_send two_run.2 (two_request 0 64 5)) as [[[[ok r] cbs] y']|e]; [exact H|discriminate Hok].
Defined.
